(* ===== verification/_CoqProject ===== *)
-Q . S2P
Prelude.v
Text.v
ProductPath.v
Values.v
Canonical.v
EventHash.v
Schema.v
UserAction.v
Workflow.v
Access.v
Clock.v
TicketStore.v
UserActionShape.v
Ticket.v
Commit.v
CommitSound.v
UserActionStore.v
UserActionStoreSound.v
Artifact.v
UserActionService.v
UserActionServiceSound.v
Evidence.v
Capture.v
Admission.v
Planning.v
PlanningSound.v
PlanningCommit.v
EvidenceFacts.v
EvidenceFactsSound.v
CaptureSound.v
ClosePolicy.v
CloseReadiness.v
CloseSample.v
CloseReadinessSound.v
WorkflowAction.v
TaskRecords.v
TaskStore.v
TaskStoreSound.v
ShapingStore.v
ShapingStoreSound.v
ProjectStore.v
ProjectStoreSound.v
HostTools.v
HostContract.v
HostContractSound.v
Guard.v
GuardSound.v
RepoSnapshot.v
RepoSnapshotSound.v
GuardStore.v
RepoObservation.v
RepoObservationSound.v
WorkflowMachine.v
WorkflowMachineSound.v
WorkflowAuthority.v
WorkflowAuthoritySound.v
Continuity.v
CloseTask.v
CloseTaskSound.v
AdvanceTask.v
