(* ===== verification/Prelude.v ===== *)
(** * Volicord: a verification development of the authority core

    Volicord keeps, beside a Git repository, a local record of who authorized
    which change: Tasks with a control level, Change Units that bound the paths
    of a write, user actions that approve sensitive steps, Write Tickets (the
    one-shot permissions under which an agent may change product files), evidence
    that acceptance criteria hold, and the decision that a Task may close.  The
    program is a Rust workspace; paths below are relative to [crates/].

    ** Parts of the program and the files that model them

    - [Prelude] (this file): results, the [let?] notation for Rust's question
      mark, the order class [RustOrd] (Rust's [Ord]), [BTreeSet], sorting and the
      shared tactics and lemmas.
    - [Text]: the [str] operations of the standard library on UTF-8 bytes.
    - [ProductPath]: volicord-types/src/product_path.rs, repository-relative paths,
      containment, the path scope of a ticket.
    - [Values], [Canonical], [Schema]: volicord-types/src/values.rs, canonical.rs and
      schema.rs, the closed vocabularies, canonical JSON and digests, and the shared
      records, with the stored rows of volicord-store that policies read.
    - [UserAction]: volicord-user-action-service, relevance.rs, lifecycle.rs and
      model.rs: which pending action blocks an operation, which resolved action
      authorizes one, and the lifecycle phase they imply for a Task.
    - [Workflow], [Access]: volicord-core/src/policy/ (workflow.rs,
      effect_contract.rs, access.rs), task_policy.rs and task_state.rs: control level
      resolution, effect contracts, scope text, and who may invoke which category.
    - [Clock]: volicord-store/src/core_pipeline/clock.rs, the project clock that
      never goes backwards.
    - [TicketStore]: core_pipeline/write_tickets.rs, the ticket table: validation on
      read and insert, the foreign keys to Tasks, Change Units and user answers
      ([TicketOwners]), and the five mutations.
    - [EventHash], [Commit], [CommitSound]: core_pipeline/commit.rs, replay.rs and the
      checks of validation.rs, mutations.rs, facade.rs and project_state.rs they use:
      the atomic commit with its version step, idempotent replay, stale-state and
      transition checks, and the hash-chained log of authority events.
    - [Ticket]: volicord-core/src/write_ticket/ (semantic.rs, policy.rs, approval.rs,
      current_validity.rs, selection.rs, summary.rs): what a stored ticket means now.
    - [Admission]: write_ticket/ (admission.rs, facts.rs, read_model.rs, service.rs) and
      the ticket part of recording/plan.rs: which run a ticket admits.
    - [Planning], [PlanningSound], [PlanningCommit]: write_ticket/planning.rs, the
      planner of a write preparation, what its plans guarantee, and that the ticket
      store accepts them.
    - [UserActionShape], [UserActionStore], [UserActionStoreSound]: the bounded shapes
      of schema.rs and core_pipeline/user_actions.rs with its part of validation.rs, the
      tables of requests and answers: insertion, answer, rebasing and withdrawal.
    - [UserActionService], [UserActionServiceSound]: the rest of
      volicord-user-action-service (validation.rs, body.rs, service.rs, resolution.rs,
      materialization.rs, persistence.rs, identity.rs, projection.rs, continuity.rs):
      from a draft to a stored request, and from an answer to a stored resolution and
      the project knowledge it leaves.
    - [Artifact], [Evidence], [EvidenceFacts], [EvidenceFactsSound]: volicord-core,
      artifact.rs, record_refs.rs, policy/evidence*.rs, close_readiness_evidence.rs,
      evidence_projection.rs and evidence_facts.rs: which artifacts are current, what
      coverage means, and which stored authority stands behind an observation.
    - [Capture], [CaptureSound]: volicord-store, evidence_capture.rs, artifacts.rs and
      core_pipeline/evidence.rs with the capture outcomes of schema.rs: capture
      intents, receipts and claims, and the fulfillment of an intent by its source.
    - [ClosePolicy], [CloseReadiness], [CloseSample], [CloseReadinessSound]:
      policy/close_readiness.rs, guidance.rs and close_readiness/: the facts of a
      Task, every blocker, and the assessment that lets it close.
    - [TaskRecords], [TaskStore], [TaskStoreSound]: core_pipeline/tasks.rs,
      change_units.rs and the invalidation of applied decisions of shaping.rs: the rows
      of Tasks, acceptance criteria, Change Units and applications, every mutation of
      the first three, and the constraints and trigger of schema/project.sql on them.
    - [ShapingStore], [ShapingStoreSound]: core_pipeline/shaping.rs, every mutation of
      checkpoints, their gaps and links, the applications of decisions and the lineage of
      reauthorized ones, with the triggers of schema/project.sql on those tables.
    - [ProjectStore], [ProjectStoreSound]: mutations.rs, the mutations of these aggregates
      as one sum type inside a commit, and what every reachable project satisfies.
    - [HostTools], [HostContract], [HostContractSound]: volicord-host-contract/src/lib.rs
      with volicord-types/src/tool_names.rs: the tools an agent sees, their names on the
      host, the matcher of the hooks, what a tool call may do to the repository and which
      files it names, and the payloads of the hooks.
    - [Guard], [GuardSound]: volicord-cli/src/guard_command/ (mutation.rs,
      tool_observation.rs, context.rs, write_ticket.rs, phase/pre_tool.rs): the hook that
      runs before a tool and lets it pass or denies it.
    - [RepoSnapshot], [RepoSnapshotSound]: volicord-platform-fs/src/repository_observation/
      (model.rs, bounded.rs, coordinates.rs, path_state.rs, snapshot.rs, delta.rs): the
      snapshot of the repository the hooks take, its checkpoint, the delta of two
      snapshots and their digests.
    - [GuardStore]: volicord-store/src/guards.rs, the rows of host sessions, turns and
      tool invocations and of hook events, and who owns them.
    - [RepoObservation], [RepoObservationSound]: guards/repository_observation.rs with the
      resolution of core_pipeline/continuity.rs and the observations of phase/pre_tool.rs
      and phase/post_tool.rs: the transactions of the two hooks around a tool call, the
      expected writes and unrecorded changes they leave, the clean-up of observations left
      open and the validated reads.
    - [WorkflowAction], [WorkflowMachine], [WorkflowMachineSound]: the transition
      catalog and submission contracts of schema.rs, and of workflow_projection.rs the
      snapshot of a Task, the machine that evaluates it, and the admission of one
      attempted transition.
    - [WorkflowAuthority], [WorkflowAuthoritySound]: the rest of workflow_projection.rs,
      the classification of stored decisions and the projection built on it.
    - [Continuity]: volicord-core, continuity/mod.rs and identity.rs, and the insertion of
      volicord-store's core_pipeline/continuity.rs: the project knowledge a Task leaves.
    - [CloseTask], [CloseTaskSound]: volicord-core/src/methods/close_task.rs with
      state_summary.rs, the close method from the request over the assessment and the
      response, whose reads can fail, to the rows it writes.
    - [AdvanceTask]: methods/advance_task.rs, the guards of the request that leaves shaping
      and the mutation it plans, compared with what the workflow machine offers.

    A write goes through them in this order.  [Access] verifies the invocation;
    [Planning] reads Task, Change Unit, policy and tickets, resolves the control level
    ([Workflow]), looks for a covering approval ([UserAction]), evaluates the
    stored tickets ([Ticket]) and decides between issuing, reusing and refusing; the
    resulting mutations go to [TicketStore] inside one [Commit].  When the agent then calls
    a tool, [HostContract] says what the call may write and [Guard] compares that with the
    tickets core would still accept.  Around the call [RepoSnapshot] observes the
    repository, and [RepoObservation] attributes each changed path to the write the ticket
    announced or stores it as an unrecorded change, which blocks closing until it is
    resolved.  When the run is recorded, [Admission] checks the observed changes against the ticket and
    plans its consumption, which again commits through [TicketStore].  Questions to
    the user are drafted and answered through [UserActionService] and kept in
    [UserActionStore]; captured tool and command results enter through [Capture]; and
    [CloseReadiness] reads all of it, with [EvidenceFacts] tracing each observation
    back to a current user answer or capture, before a Task completes, is cancelled
    or is superseded; [CloseTask] turns that assessment into the mutations of
    [TaskStore], [TicketStore] and [Continuity].  Which of these steps a Task offers at all, and which
    one it requires next, is what [WorkflowAuthority] and [WorkflowMachine] say from the
    stored rows and decisions.

    ** Interfaces

    Components meet at classes: [RustOrd] (ordered keys), [Chrono] (calendar
    and duration arithmetic and RFC 3339 text of the chrono crate, with the documented
    bound of its durations), [SerdeJson] (JSON text),
    [TicketReader], [PrepareReader], [UserActionStoreReader], [ArtifactReader],
    [EvidenceReader], [CloseReader], [CloseMethodReader], [GuardReader] and [WorkflowReader] (what planners and policies read
    of the project), [CanonicalSize] and [CaptureDigest] (the size and digest of canonical
    JSON), [AggregateStore] (what the commit needs of the aggregates' tables), [RepoWorld]
    (a record of what Git and the file system answer in one observation), [GuardRegistry]
    and [GuardJson] (the registered installation and integration of a connection, and the
    JSON texts of hook rows).
    [Admission] and [PlanningCommit] instantiate the readers over the ticket table, and
    [ProjectStore] instantiates [AggregateStore] by the Task, Change Unit, user-action
    and shaping tables, so that the theorems on commits are theorems on those tables;
    SHA-1, SHA-256 and the JSON canonicalizer are function parameters.  Every law of such a class is one the code relies
    on, and a concrete instance is used by the witnesses.

    ** What the theorems show

    - Issuing and reuse ([PlanningSound], [PlanningCommit]): a ticket is issued or
      reused only for a write the Change Unit, the effect contract, the control level
      and the approvals permit, each read from the store of the plan; an issued ticket
      passes the store's validation and foreign keys; what the idle timeout of the policy
      does to a preparation; planned invalidations always commit and never touch the ticket
      that is reused; control levels only rise.
    - Admission and consumption ([Admission], [TicketStore]): a run with a product
      write needs an active, unexpired ticket that covers what it did; the
      consumption commits, and happens at most once per ticket and per run.
    - The ticket table ([TicketStore]): invariant of every reachable table,
      monotone life cycle of each row, exact meaning of validation.
    - Evaluation and selection ([Ticket]): exact characterisations of the decision,
      of reusability and of the selected ticket.
    - Commits ([CommitSound], [EventHash]): atomicity, exactly-once execution under an
      idempotency key, no lost update, success of a well-formed fresh request, and a
      gapless, hash-chained, tamper-evident event log.
    - User actions ([UserAction], [UserActionStoreSound], [UserActionServiceSound]):
      exact meaning of an authorizing approval; every constructed request and answer
      is accepted by the store and read back as planned; every reachable table reads
      without error; requests are immutable, answered at most once, and withdrawn
      exactly as asked; selecting accept on a sensitive request authorizes exactly
      the described writes; what project knowledge an answer leaves, and every error.
    - Evidence and capture ([EvidenceFactsSound], [CaptureSound]): the search through
      reused evidence terminates; every stored receipt is one core accepts; a host
      invocation fulfils one intent; a fulfillment commits whole or leaves the tables
      unchanged.
    - The host ([HostContractSound]): every tool has a valid callable name, names resolve
      exactly, the matcher of the hooks reads back and routes every call the contract
      knows, and exactly which calls count as harmless; also which written files the
      decoder of shell commands misses.
    - The hook ([GuardSound]): exactly when a call is denied; behind every write that
      passes there is a usable stored ticket that covers each decoded target; the hook and
      core agree on which tickets are usable; the expected write recorded for a call.
    - The observer ([RepoSnapshotSound]): a snapshot describes one state of the repository
      that two readings agree on; a checkpoint restores to its snapshot; the delta of two
      snapshots names exactly the paths whose states differ.
    - Observations ([RepoObservationSound]): the second hook compares the snapshot of the
      first with its own; the delta splits exactly into announced and unrecorded paths,
      and in every history no changed path is lost; the hooks can be repeated; a closed
      observation is final; the clean-up closes exactly the named observations; and an
      observation closed with an earlier time text is committed and never readable.
    - Close readiness ([CloseReadinessSound], [ClosePolicy]): a Task closes exactly
      when the stated conditions hold; every required criterion of a completed Task
      rests on a current answer of the user, whatever its relevance; acceptance is given
      or waived by policy;
      control never falls; the two copies of the acceptance check agree.
    - Closing ([CloseTaskSound]): a request without a blocker plans mutations the tables
      accept, and leaves the Task in the phase and with the result of its intent, its
      tickets and applied authority ended and its known limits recorded for later Tasks; a
      request with a blocker plans nothing.
    - Task tables ([TaskStoreSound], [ProjectStoreSound]): after any sequence of commits the
      pointer of a Task and its Change Units agree; rows never disappear and control never
      falls; replacing criteria and closing a Task change exactly the rows they name.
    - Shaping ([ShapingStoreSound], [ProjectStoreSound]): after any sequence of commits an
      applied decision rests on one accepted answer of the user, a Task has one current
      checkpoint and its current decisions are linked to it, and a question answered through
      its method has the status of its answer; leaving shaping and replacing a checkpoint
      have exactly the stated effects, with every other row of every table unchanged.
    - The workflow ([WorkflowMachineSound], [WorkflowAuthoritySound]): every accepted
      snapshot evaluates, and a blocked one names the transition its blocking reason calls
      for and who is to take it; advancing is offered, and work admitted, exactly under the
      stated conditions; an admitted transition acts on the evaluated state; consistent
      records always have a projection.
    - Advancing ([AdvanceTask]): the machine also requires the advance of a Task that is not
      in work mode or whose checkpoint is not ready, and the method refuses every such
      request.
    - Foundations: containment of paths is containment of components, path scopes
      are unambiguous, canonical JSON ignores member order, the clock is monotone.

    ** Bounds and fuel

    One definition needs fuel, the search through reused observations
    ([anchored_assurance]); [reuse_fuel] is two more than the number of stored
    observations and is proved to be enough.  Every other loop of the modelled code
    runs over a list and is structural, or counts down a limit of the code itself (the
    attempts of a stable snapshot; the clean-up closes at most 256 observations).  Revisions and versions are [N] with the [u64] and [i64]
    limits checked where the code checks them; event numbers are [Z] with the
    [i64] limit; instants are nanoseconds in [Z] with the four-digit-year range
    as the predicate [representable].  A panic of the source is an error value
    ([StorePanic], and the panic outcome of the idle expiry).

    ** What is not modelled

    SQL text (a table is a finite map or a list with its unique keys and foreign
    keys as checks; a rolled-back transaction yields no state), files other than the
    staged bodies of [Capture], serde encodings (a value that is stored and read back
    is the value itself, with the instants its text cannot carry excluded where the
    code would fail on them), display texts and the JSON of responses, the CLI beyond the hooks around
    a tool call, the MCP transport and host set-up.  Of the guard tables the prompt captures,
    installations, probes and listing reads are left out.  Run recording beyond its ticket part, the
    validating reads of shaping.rs, reconciliation, and the method handlers other than
    closing and the plan of an advance are program logic left for an extension; [AggregateStore] is where the
    remaining aggregates enter a commit. *)

From stdpp Require Export base tactics numbers list option strings gmap sorting.
From Stdlib Require Import Ascii.

#[global] Set Default Goal Selector "!".
#[export] Set Default Proof Using "Type".

(** ** Results

    [Result<T, E>] of the source.  The question-mark operator of Rust is the
    [let?] notation; [ok_or] and [map_err] are the adapters the code uses. *)

Inductive result (A E : Type) : Type :=
| Ok (a : A)
| Err (e : E).
Arguments Ok {A E} a.
Arguments Err {A E} e.

Declare Scope volicord_scope.
Delimit Scope volicord_scope with V.
#[global] Open Scope volicord_scope.

Notation "'let?' x ':=' c 'in' k" :=
  (match c with Ok x => k | Err e => Err e end)
  (at level 10, x name, c at level 200, k at level 200)
  : volicord_scope.
Notation "'let?' ' p ':=' c 'in' k" :=
  (match c with Ok p => k | Err e => Err e end)
  (at level 10, p pattern, c at level 200, k at level 200)
  : volicord_scope.

Definition map_err {A E F} (f : E → F) (r : result A E) : result A F :=
  match r with Ok a => Ok a | Err e => Err (f e) end.

Definition ok_or {A E} (o : option A) (e : E) : result A E :=
  match o with Some a => Ok a | None => Err e end.

Definition is_ok {A E} (r : result A E) : bool :=
  match r with Ok _ => true | Err _ => false end.

(** Construction of a value with private fields: the check [r] guards it. *)
Definition guarded {A E} (r : result unit E) (k : Is_true (is_ok r) → A) : result A E :=
  match r as r' return (Is_true (is_ok r') → A) → result A E with
  | Ok _ => λ k, Ok (k I)
  | Err e => λ _, Err e
  end k.

(** [slice.is_empty()]. *)
Definition list_is_empty {A} (l : list A) : bool :=
  match l with [] => true | _ :: _ => false end.

(** [iter().map(f).collect::<Result<Vec<_>, _>>()]: stops at the first error. *)
Fixpoint try_map {A B E} (f : A → result B E) (l : list A) : result (list B) E :=
  match l with
  | [] => Ok []
  | x :: l' => let? y := f x in let? ys := try_map f l' in Ok (y :: ys)
  end.

(** A loop whose body may return early with an error. *)
Fixpoint try_foldl {S A E} (f : S → A → result S E) (s : S) (l : list A) : result S E :=
  match l with
  | [] => Ok s
  | x :: rest => let? s := f s x in try_foldl f s rest
  end.

(** [Option::map(f).transpose()] for a fallible [f]. *)
Definition try_option {A B E} (f : A → result B E) (o : option A) : result (option B) E :=
  match o with
  | None => Ok None
  | Some x => let? y := f x in Ok (Some y)
  end.

(** [Option::is_some_and] and [Option::is_none_or]. *)
Definition is_some_and {A} (o : option A) (p : A → bool) : bool :=
  match o with Some a => p a | None => false end.

Definition is_none_or {A} (o : option A) (p : A → bool) : bool :=
  match o with Some a => p a | None => true end.

Definition is_some {A} (o : option A) : bool :=
  match o with Some _ => true | None => false end.

Definition is_none {A} (o : option A) : bool := negb (is_some o).

(** [Option::or_else] and the boolean [then]. *)
Definition or_else {A} (o : option A) (d : option A) : option A :=
  match o with Some a => Some a | None => d end.

Definition bool_then {A} (b : bool) (a : A) : option A :=
  if b then Some a else None.

(** [Option::filter]. *)
Definition option_filter {A} (p : A → bool) (o : option A) : option A :=
  match o with Some a => bool_then (p a) a | None => None end.

(** Boolean equality of a decidable type, as [==] of a derived [PartialEq]. *)
Definition eqb {A} `{EqDecision A} (x y : A) : bool := bool_decide (x = y).
Infix "=?" := eqb (at level 70, no associativity) : volicord_scope.
Notation "x <>? y" := (negb (eqb x y)) (at level 70, no associativity) : volicord_scope.

(** [slice.contains(&x)]. *)
Definition contains {A} `{EqDecision A} (x : A) (l : list A) : bool :=
  existsb (eqb x) l.

(** ** Derived orders

    The source relies on [Ord] of strings, of tuples and of derived structs,
    always a total order whose equality is structural equality. *)

Class RustOrd (A : Type) : Type := {
  rcompare : A → A → comparison;
  rcompare_eq : ∀ x y, rcompare x y = Eq ↔ x = y;
  rcompare_antisym : ∀ x y, rcompare y x = CompOpp (rcompare x y);
  rcompare_trans : ∀ x y z,
    rcompare x y = Lt → rcompare y z = Lt → rcompare x z = Lt;
}.

Definition rlt {A} `{RustOrd A} (x y : A) : Prop := rcompare x y = Lt.
Definition rle {A} `{RustOrd A} (x y : A) : Prop := rcompare x y ≠ Gt.

(** [Ordering::then_with]. *)
Definition cmp_then (c d : comparison) : comparison :=
  match c with Eq => d | _ => c end.

(** ** [BTreeSet] as a strictly increasing list *)

Section btree_set.
Context {A : Type} `{RustOrd A}.

Fixpoint bts_insert (x : A) (s : list A) : list A :=
  match s with
  | [] => [x]
  | y :: s' =>
      match rcompare x y with
      | Lt => x :: y :: s'
      | Eq => y :: s'
      | Gt => y :: bts_insert x s'
      end
  end.

(** [iter().collect::<BTreeSet<_>>()]. *)
Definition bts_of_list (l : list A) : list A := foldr bts_insert [] l.

(** [BTreeSet::contains], [is_subset]. *)
Definition bts_mem (x : A) (s : list A) : bool :=
  existsb (λ y, match rcompare x y with Eq => true | _ => false end) s.
Definition bts_subset (s t : list A) : bool := forallb (λ x, bts_mem x t) s.

(** [slice::sort]: the stable insertion sort, which agrees with any sort
    because the order is total and antisymmetric. *)
Fixpoint rsort_insert (x : A) (l : list A) : list A :=
  match l with
  | [] => [x]
  | y :: l' => match rcompare x y with Gt => y :: rsort_insert x l' | _ => x :: l end
  end.
Definition rsort (l : list A) : list A := foldr rsort_insert [] l.
End btree_set.

(** Rows sorted by a key, keeping the given order of equal keys. *)
Fixpoint sort_by_key_insert {A K} `{RustOrd K} (key : A → K) (x : A) (l : list A) : list A :=
  match l with
  | [] => [x]
  | y :: l' => match rcompare (key x) (key y) with
               | Gt => y :: sort_by_key_insert key x l'
               | _ => x :: l
               end
  end.
Definition sort_by_key {A K} `{RustOrd K} (key : A → K) (l : list A) : list A :=
  foldr (sort_by_key_insert key) [] l.

(** [Iterator::min_by]: the first of the least elements. *)
Definition min_by {A} (cmp : A → A → comparison) (l : list A) : option A :=
  match l with
  | [] => None
  | x :: l' => Some (foldl (λ acc y, match cmp acc y with Gt => y | _ => acc end) x l')
  end.

(** [iter().filter(|x| seen.insert(key(x)))]: first occurrence per key. *)
Fixpoint dedup_by_go {A K} `{RustOrd K} (key : A → K) (seen : list K) (l : list A) : list A :=
  match l with
  | [] => []
  | x :: l' =>
      if bts_mem (key x) seen then dedup_by_go key seen l'
      else x :: dedup_by_go key (bts_insert (key x) seen) l'
  end.
Definition dedup_by {A K} `{RustOrd K} (key : A → K) (l : list A) : list A :=
  dedup_by_go key [] l.

(** [windows(2).any(|pair| pair[0] >= pair[1])]. *)
Fixpoint not_ascending {A} `{RustOrd A} (l : list A) : bool :=
  match l with
  | x :: (y :: _) as rest =>
      match rcompare x y with Lt => not_ascending rest | _ => true end
  | _ => false
  end.
(** [Vec::dedup]: consecutive equal elements are merged. *)
Fixpoint vec_dedup {A} `{EqDecision A} (l : list A) : list A :=
  match l with
  | x :: rest =>
      match rest with
      | y :: _ => if x =? y then vec_dedup rest else x :: vec_dedup rest
      | [] => [x]
      end
  | [] => []
  end.

(** [sort(); dedup()]. *)
Definition sort_dedup {A} `{RustOrd A, EqDecision A} (l : list A) : list A := vec_dedup (rsort l).

(** ** Tactics and hint databases *)

Create HintDb volicord discriminated.

(** One case split on a scrutinee of the goal or of a hypothesis. *)
Ltac case_goal :=
  match goal with
  | |- context [match ?x with _ => _ end] =>
      lazymatch x with
      | context [match _ with _ => _ end] => fail
      | _ => let E := fresh "E" in destruct x eqn:E
      end
  end.
Ltac case_hyp H :=
  match type of H with
  | context [match ?x with _ => _ end] =>
      lazymatch x with
      | context [match _ with _ => _ end] => fail
      | _ => let E := fresh "E" in destruct x eqn:E
      end
  end.
(** Exhausts the branches of a definition that returned a known constructor. *)
Ltac unravel H := repeat (case_hyp H; try discriminate); simplify_eq.
Ltac crush := repeat (case_goal; try discriminate; simplify_eq); simplify_eq; try done.

(** Reflects boolean hypotheses and goals into propositions. *)
Ltac breflect :=
  repeat match goal with
  | H : _ && _ = true |- _ => apply andb_true_iff in H as [? ?]
  | H : _ || _ = false |- _ => apply orb_false_iff in H as [? ?]
  | H : _ && _ = false |- _ => apply andb_false_iff in H
  | H : _ || _ = true |- _ => apply orb_true_iff in H
  | H : negb _ = true |- _ => apply negb_true_iff in H
  | H : negb _ = false |- _ => apply negb_false_iff in H
  | H : eqb _ _ = true |- _ => apply bool_decide_eq_true_1 in H
  | H : eqb _ _ = false |- _ => apply bool_decide_eq_false_1 in H
  | H : bool_decide _ = true |- _ => apply bool_decide_eq_true_1 in H
  | H : bool_decide _ = false |- _ => apply bool_decide_eq_false_1 in H
  | H : ?x = true |- context [?x] => rewrite H
  end.

(** ** Generic lemmas *)

Lemma eqb_true `{EqDecision A} (x y : A) : (x =? y) = true ↔ x = y.
Proof. apply bool_decide_eq_true. Qed.
Lemma eqb_false `{EqDecision A} (x y : A) : (x =? y) = false ↔ x ≠ y.
Proof. apply bool_decide_eq_false. Qed.
(** One-way forms for introduction patterns. *)
Lemma eqb_eq `{EqDecision A} (x y : A) : (x =? y) = true → x = y.
Proof. apply eqb_true. Qed.
Lemma eqb_neq `{EqDecision A} (x y : A) : (x =? y) = false → x ≠ y.
Proof. apply eqb_false. Qed.

Lemma eqb_refl `{EqDecision A} (x : A) : (x =? x) = true.
Proof. by apply eqb_true. Qed.
Lemma eqb_sym `{EqDecision A} (x y : A) : (x =? y) = (y =? x).
Proof. unfold eqb. apply bool_decide_ext. naive_solver. Qed.

Lemma contains_elem `{EqDecision A} (x : A) l : contains x l = true ↔ x ∈ l.
Proof.
  unfold contains. rewrite existsb_exists. setoid_rewrite eqb_true.
  setoid_rewrite <- list_elem_of_In. naive_solver.
Qed.
Lemma contains_not_elem `{EqDecision A} (x : A) l : contains x l = false ↔ x ∉ l.
Proof. rewrite <-not_true_iff_false, contains_elem. done. Qed.

Lemma forallb_elem {A} (p : A → bool) l :
  forallb p l = true ↔ ∀ x, x ∈ l → p x = true.
Proof. rewrite forallb_forall. setoid_rewrite <- list_elem_of_In. done. Qed.
Lemma existsb_elem {A} (p : A → bool) l :
  existsb p l = true ↔ ∃ x, x ∈ l ∧ p x = true.
Proof. rewrite existsb_exists. setoid_rewrite <- list_elem_of_In. done. Qed.
Lemma elem_of_filter_bool {A} (p : A → bool) l x : x ∈ List.filter p l ↔ x ∈ l ∧ p x = true.
Proof. by rewrite list_elem_of_In, List.filter_In, <-list_elem_of_In. Qed.

Lemma existsb_false {A} (p : A → bool) l :
  existsb p l = false ↔ ∀ x, x ∈ l → p x = false.
Proof.
  rewrite <-not_true_iff_false, existsb_elem. split.
  - intros Hn x Hx. destruct (p x) eqn:E; [|done]. exfalso; eauto.
  - intros Ha (x & Hx & Hp). rewrite Ha in Hp; done.
Qed.

Lemma guarded_Ok {A E} (r : result unit E) (k : Is_true (is_ok r) → A) a :
  guarded r k = Ok a ↔ ∃ H, k H = a.
Proof.
  destruct r as [[]|e]; simpl; [|split; [done|by intros [[] ?]]].
  split; [intros [= <-]; eauto|]. by intros [[] <-].
Qed.
Lemma guarded_Err {A E} (r : result unit E) (k : Is_true (is_ok r) → A) e :
  guarded r k = Err e ↔ r = Err e.
Proof. destruct r; simpl; naive_solver. Qed.

Lemma list_is_empty_true {A} (l : list A) : list_is_empty l = true ↔ l = [].
Proof. by destruct l. Qed.
Lemma list_is_empty_false {A} (l : list A) : list_is_empty l = false ↔ l ≠ [].
Proof. by destruct l. Qed.

Lemma bind_Ok {A B E} (r : result A E) (k : A → result B E) b :
  (let? x := r in k x) = Ok b ↔ ∃ x, r = Ok x ∧ k x = Ok b.
Proof. destruct r; naive_solver. Qed.

Lemma Ok_inj {A E} (x y : A) : @Ok A E x = Ok y → x = y.
Proof. congruence. Qed.

(** Opens the first bind of a computation known to return. *)
Tactic Notation "peel" hyp(H) "as" simple_intropattern(x) simple_intropattern(Hx) :=
  rewrite bind_Ok in H; destruct H as (x & Hx & H).

Lemma map_err_Ok {A E F} (f : E → F) (r : result A E) a : map_err f r = Ok a ↔ r = Ok a.
Proof. destruct r; naive_solver. Qed.

Lemma option_filter_Some {A} (p : A → bool) o a :
  option_filter p o = Some a ↔ o = Some a ∧ p a = true.
Proof.
  destruct o as [b|]; cbn; [|naive_solver]. unfold bool_then.
  destruct (p b) eqn:Hb; naive_solver congruence.
Qed.

Lemma ok_or_Ok {A E} (o : option A) (e : E) a : ok_or o e = Ok a ↔ o = Some a.
Proof. destruct o; naive_solver. Qed.

Lemma try_map_Ok {A B E} (f : A → result B E) l ys :
  try_map f l = Ok ys ↔ Forall2 (λ x y, f x = Ok y) l ys.
Proof.
  revert ys. induction l as [|x l IH]; intros ys; simpl; split.
  - intros [= <-]. constructor.
  - by intros ->%Forall2_nil_inv_l.
  - intros Hm. unravel Hm. constructor; [done|]. by apply IH.
  - intros (y & ys' & Hy & Hys & ->)%Forall2_cons_inv_l.
    rewrite Hy. apply IH in Hys. by rewrite Hys.
Qed.

Lemma elem_of_try_map {A B E} (f : A → result B E) l ys y :
  try_map f l = Ok ys → y ∈ ys ↔ ∃ x, x ∈ l ∧ f x = Ok y.
Proof.
  rewrite try_map_Ok. induction 1 as [|x z l ys Hx _ IH]; simpl.
  - split; [by intros ?%elem_of_nil|]. by intros (? & ?%elem_of_nil & _).
  - rewrite elem_of_cons, IH. split.
    + intros [->|(w & Hw & Hf)]; [exists x; split; [constructor|done]|].
      exists w. split; [by constructor|done].
    + intros (w & [->|Hw]%elem_of_cons & Hf); [left; congruence|right; by exists w].
Qed.

Lemma try_map_total {A B E} (f : A → result B E) l :
  (∀ x, x ∈ l → ∃ y, f x = Ok y) → ∃ ys, try_map f l = Ok ys.
Proof.
  induction l as [|x l IH]; intros Hall; [by exists []|]. cbn [try_map].
  destruct (Hall x) as [y ->]; [apply elem_of_cons; by left|].
  destruct IH as [ys ->]; [|by eexists]. intros z Hz. apply Hall, elem_of_cons. by right.
Qed.

Lemma is_some_and_true {A} (o : option A) p :
  is_some_and o p = true ↔ ∃ a, o = Some a ∧ p a = true.
Proof. destruct o; simpl; naive_solver. Qed.
Lemma is_some_and_false {A} (o : option A) p :
  is_some_and o p = false ↔ ∀ a, o = Some a → p a = false.
Proof. destruct o; simpl; naive_solver. Qed.

#[export] Hint Resolve eqb_refl : volicord.

(** An early [return false], and its converse. *)
Lemma early_false (b c : bool) : (if b then false else c) = true ↔ b = false ∧ c = true.
Proof. destruct b; naive_solver. Qed.
Lemma neqb_false `{EqDecision A} (x y : A) : (x <>? y) = false ↔ x = y.
Proof. by rewrite negb_false_iff, eqb_true. Qed.
Lemma orb_false (a b : bool) : a || b = false ↔ a = false ∧ b = false.
Proof. apply orb_false_iff. Qed.

(** Rewrites a boolean chain of guards and conjunctions into propositions. *)
Create HintDb vbool.
#[export] Hint Rewrite @early_false @neqb_false orb_false andb_true_iff
  negb_true_iff negb_false_iff @eqb_true @eqb_false @contains_elem @is_some_and_true : vbool.

(** ** Lemmas on derived orders, sets and sorting *)

Section rust_ord_lemmas.
Context {A : Type} `{RustOrd A}.
Implicit Types (x y z : A) (l s t : list A).

Lemma rcompare_refl x : rcompare x x = Eq.
Proof. by apply rcompare_eq. Qed.

Lemma rcompare_lt_gt x y : rcompare x y = Lt ↔ rcompare y x = Gt.
Proof. rewrite (rcompare_antisym x y). by destruct (rcompare x y). Qed.

Lemma rlt_irrefl x : ¬ rlt x x.
Proof. unfold rlt. by rewrite rcompare_refl. Qed.

#[global] Instance rlt_transitive : Transitive (rlt (A:=A)).
Proof. intros x y z. apply rcompare_trans. Qed.

#[global] Instance rle_transitive : Transitive (rle (A:=A)).
Proof.
  intros x y z Hxy Hyz Hxz%rcompare_lt_gt.
  destruct (rcompare x y) eqn:Exy; [| |done].
  - apply rcompare_eq in Exy as ->. by apply Hyz, rcompare_lt_gt.
  - apply Hyz, rcompare_lt_gt. by eapply rcompare_trans.
Qed.

Lemma rle_lt_eq x y : rle x y ↔ rlt x y ∨ x = y.
Proof.
  unfold rle, rlt. rewrite <-(rcompare_eq x y). destruct (rcompare x y); naive_solver.
Qed.

Lemma rle_antisym x y : rle x y → rle y x → x = y.
Proof.
  rewrite !rle_lt_eq. intros [Hxy|?] [Hyx|?]; try done.
  exfalso. eapply (rlt_irrefl x). by transitivity y.
Qed.

Lemma rnot_le_lt x y : ¬ rle x y → rlt y x.
Proof. unfold rle, rlt. rewrite rcompare_lt_gt. destruct (rcompare x y); naive_solver. Qed.

Lemma elem_of_bts_insert x y s : x ∈ bts_insert y s ↔ x = y ∨ x ∈ s.
Proof.
  induction s as [|z s IH]; simpl; [set_solver|].
  destruct (rcompare y z) eqn:E; rewrite ?elem_of_cons, ?IH; [|naive_solver..].
  apply rcompare_eq in E as ->. naive_solver.
Qed.

Lemma elem_of_bts_of_list x l : x ∈ bts_of_list l ↔ x ∈ l.
Proof.
  unfold bts_of_list.
  induction l as [|y l IH]; simpl; [done|]. rewrite elem_of_bts_insert, IH. set_solver.
Qed.

Lemma bts_insert_sorted x s :
  StronglySorted rlt s → StronglySorted rlt (bts_insert x s).
Proof.
  induction 1 as [|y s Hs IH Hy]; simpl; [repeat constructor|].
  destruct (rcompare x y) eqn:E; [by constructor|..].
  - constructor; [by constructor|]. constructor; [done|].
    eapply Forall_impl; [done|]. simpl. intros z Hz. by transitivity y.
  - constructor; [done|]. apply Forall_forall.
    intros z [->|Hz]%elem_of_bts_insert; [by apply rcompare_lt_gt|].
    by eapply (proj1 (Forall_forall _ _)).
Qed.

Lemma bts_of_list_sorted l : StronglySorted rlt (bts_of_list l).
Proof. induction l; simpl; [constructor|]. by apply bts_insert_sorted. Qed.

(** Extensionality: strictly increasing lists are sets. *)
Lemma sorted_rlt_ext s t :
  StronglySorted rlt s → StronglySorted rlt t →
  (∀ x, x ∈ s ↔ x ∈ t) → s = t.
Proof.
  intros Hs. revert t. induction Hs as [|x s Hs IH Hx]; intros t Ht Hext.
  { destruct t as [|y t]; [done|]. exfalso.
    apply (not_elem_of_nil y), Hext. constructor. }
  destruct Ht as [|y t Ht Hy].
  { exfalso. apply (not_elem_of_nil x), Hext. constructor. }
  rewrite Forall_forall in Hx, Hy.
  assert (x = y) as ->.
  { assert (x ∈ y :: t) as [?|Hxt]%elem_of_cons by (apply Hext; constructor); [done|].
    assert (y ∈ x :: s) as [?|Hys]%elem_of_cons by (apply Hext; constructor); [done|].
    exfalso. eapply (rlt_irrefl x). transitivity y; eauto. }
  f_equal. apply IH; [done|]. intros z. split; intros Hz.
  - assert (z ∈ y :: t) as [->|?]%elem_of_cons by (apply Hext; by constructor); [|done].
    exfalso. by eapply (rlt_irrefl y), Hx.
  - assert (z ∈ y :: s) as [->|?]%elem_of_cons by (apply Hext; by constructor); [|done].
    exfalso. by eapply (rlt_irrefl y), Hy.
Qed.

Lemma bts_of_list_ext l1 l2 :
  bts_of_list l1 = bts_of_list l2 ↔ ∀ x, x ∈ l1 ↔ x ∈ l2.
Proof.
  split.
  - intros Heq x. by rewrite <-(elem_of_bts_of_list x l1), Heq, elem_of_bts_of_list.
  - intros Hext. apply sorted_rlt_ext; auto using bts_of_list_sorted.
    intros x. by rewrite !elem_of_bts_of_list.
Qed.

Lemma bts_of_list_id s : StronglySorted rlt s → bts_of_list s = s.
Proof.
  intros Hs. apply sorted_rlt_ext; auto using bts_of_list_sorted.
  intros x. apply elem_of_bts_of_list.
Qed.

Lemma sorted_rlt_NoDup s : StronglySorted rlt s → NoDup s.
Proof.
  induction 1 as [|x s Hs IH Hx]; constructor; [|done].
  intros Hin. rewrite Forall_forall in Hx. by eapply (rlt_irrefl x), Hx.
Qed.

Lemma bts_insert_length x s :
  length (bts_insert x s) ≤ S (length s) ∧
  (x ∈ s → StronglySorted rlt s → length (bts_insert x s) = length s) ∧
  (x ∉ s → length (bts_insert x s) = S (length s)).
Proof.
  induction s as [|y s (IH1 & IH2 & IH3)]; simpl; [split_and!; set_solver|].
  destruct (rcompare x y) eqn:E; simpl.
  - apply rcompare_eq in E as ->. split_and!; [lia|done|set_solver].
  - split_and!; [lia| |done]. intros Hin Hs. exfalso. inv Hs.
    apply elem_of_cons in Hin as [->|Hin]; [by eapply rlt_irrefl|].
    rewrite Forall_forall in *. eapply (rlt_irrefl x). transitivity y; eauto.
  - split_and!; [lia| |].
    + intros [->|Hin]%elem_of_cons Hs; [by rewrite rcompare_refl in E|]. inv Hs. auto.
    + intros Hni. f_equal. apply IH3. set_solver.
Qed.

(** The source's duplicate test: the set is as long as the list. *)
Lemma bts_of_list_length_le l : length (bts_of_list l) ≤ length l.
Proof.
  induction l as [|x l IH]; simpl; [done|].
  pose proof (proj1 (bts_insert_length x (bts_of_list l))). lia.
Qed.

Lemma bts_of_list_length_NoDup l : length (bts_of_list l) = length l ↔ NoDup l.
Proof.
  induction l as [|x l IH]; simpl; [split; [constructor|done]|].
  destruct (bts_insert_length x (bts_of_list l)) as (Hle & Hin & Hni).
  pose proof (bts_of_list_length_le l) as Hlen.
  rewrite NoDup_cons, <-IH. split.
  - intros Hl. destruct (decide (length (bts_of_list l) = length l)) as [Heq|]; [|lia].
    split; [|done]. intros Hx. rewrite <-elem_of_bts_of_list in Hx.
    specialize (Hin Hx (bts_of_list_sorted l)). lia.
  - intros [Hx Hl]. rewrite Hni; [by rewrite Hl|]. by rewrite elem_of_bts_of_list.
Qed.

Lemma bts_mem_elem x s : bts_mem x s = true ↔ x ∈ s.
Proof.
  unfold bts_mem. rewrite existsb_elem. split.
  - intros (y & Hy & Hc). case_match; try done. by apply rcompare_eq in H0 as ->.
  - intros Hx. exists x. by rewrite rcompare_refl.
Qed.

Lemma bts_subset_elem s t : bts_subset s t = true ↔ ∀ x, x ∈ s → x ∈ t.
Proof. unfold bts_subset. rewrite forallb_elem. by setoid_rewrite bts_mem_elem. Qed.

Lemma rsort_insert_perm x l : rsort_insert x l ≡ₚ x :: l.
Proof.
  induction l as [|y l IH]; simpl; [done|].
  destruct (rcompare x y); [done..|]. rewrite IH. by constructor.
Qed.

Lemma rsort_perm l : rsort l ≡ₚ l.
Proof. induction l as [|x l IH]; simpl; [done|]. by rewrite rsort_insert_perm, IH. Qed.

Lemma rsort_insert_sorted x l :
  StronglySorted rle l → StronglySorted rle (rsort_insert x l).
Proof.
  induction 1 as [|y l Hl IH Hy]; simpl; [repeat constructor|].
  destruct (rcompare x y) eqn:E.
  1,2: assert (rle x y) by (unfold rle; by rewrite E);
    constructor; [by constructor|]; constructor; [done|];
    eapply Forall_impl; [done|]; intros z Hz; by transitivity y.
  constructor; [done|]. rewrite rsort_insert_perm. constructor; [|done].
  unfold rle. apply rcompare_lt_gt in E. by rewrite E.
Qed.

Lemma rsort_sorted l : StronglySorted rle (rsort l).
Proof. induction l; simpl; [constructor|]. by apply rsort_insert_sorted. Qed.

Lemma sorted_rle_perm_eq l1 l2 :
  StronglySorted rle l1 → StronglySorted rle l2 → l1 ≡ₚ l2 → l1 = l2.
Proof.
  intros H1 H2. apply (StronglySorted_unique_strong rle); [|done..].
  intros x y _ _. apply rle_antisym.
Qed.

(** Comparing sorted copies compares multisets. *)
Lemma rsort_eq_perm l1 l2 : rsort l1 = rsort l2 ↔ l1 ≡ₚ l2.
Proof.
  split.
  - intros Heq. by rewrite <-(rsort_perm l1), Heq, rsort_perm.
  - intros Hp. apply sorted_rle_perm_eq; auto using rsort_sorted.
    by rewrite !rsort_perm.
Qed.
End rust_ord_lemmas.

(** Orders on the types the source compares. *)

Program Definition rust_ord_inj {A B} `{RustOrd B} (f : A → B)
    (finj : ∀ x y, f x = f y → x = y) : RustOrd A :=
  {| rcompare x y := rcompare (f x) (f y) |}.
Next Obligation. intros. simpl. rewrite rcompare_eq. naive_solver. Qed.
Next Obligation. intros. simpl. apply rcompare_antisym. Qed.
Next Obligation. intros. simpl in *. eapply rcompare_trans; eauto. Qed.

#[export] Program Instance rust_ord_N : RustOrd N := {| rcompare := N.compare |}.
Next Obligation. apply N.compare_eq_iff. Qed.
Next Obligation. intros. apply N.compare_antisym. Qed.
Next Obligation. intros x y z. rewrite !N.compare_lt_iff. lia. Qed.

#[export] Program Instance rust_ord_Z : RustOrd Z := {| rcompare := Z.compare |}.
Next Obligation. apply Z.compare_eq_iff. Qed.
Next Obligation. intros. apply Z.compare_antisym. Qed.
Next Obligation. intros x y z. rewrite !Z.compare_lt_iff. lia. Qed.

#[export] Program Instance rust_ord_prod {A B} `{RustOrd A, RustOrd B} : RustOrd (A * B) :=
  {| rcompare p q := cmp_then (rcompare p.1 q.1) (rcompare p.2 q.2) |}.
Next Obligation.
  intros A B ?? [a b] [c d]; simpl. unfold cmp_then.
  destruct (rcompare a c) eqn:E; [apply rcompare_eq in E; rewrite rcompare_eq; naive_solver|..].
  all: split; [done|]; intros [= -> ->]; by rewrite rcompare_refl in E.
Qed.
Next Obligation.
  intros A B ?? [a b] [c d]; simpl.
  rewrite (rcompare_antisym a c), (rcompare_antisym b d). by destruct (rcompare a c).
Qed.
Next Obligation.
  intros A B ?? [a b] [c d] [e f]; simpl. unfold cmp_then. intros H1 H2.
  destruct (rcompare a c) eqn:E1; [|destruct (rcompare c e) eqn:E2|done]; try done.
  - apply rcompare_eq in E1 as ->. case_match; [|done..]. by eapply rcompare_trans.
  - apply rcompare_eq in E2 as ->. by rewrite E1.
  - by erewrite rcompare_trans by eauto.
Qed.

#[export] Program Instance rust_ord_option {A} `{RustOrd A} : RustOrd (option A) :=
  {| rcompare o p := match o, p with
                     | None, None => Eq | None, Some _ => Lt | Some _, None => Gt
                     | Some a, Some b => rcompare a b
                     end |}.
Next Obligation. intros A ? [a|] [b|]; rewrite ?rcompare_eq; naive_solver. Qed.
Next Obligation. intros A ? [a|] [b|]; try done. apply rcompare_antisym. Qed.
Next Obligation. intros A ? [a|] [b|] [c|]; try done. apply rcompare_trans. Qed.

Lemma N_of_ascii_inj a b : N_of_ascii a = N_of_ascii b → a = b.
Proof. intros Heq. by rewrite <-(ascii_N_embedding a), Heq, ascii_N_embedding. Qed.

#[export] Instance rust_ord_ascii : RustOrd ascii :=
  rust_ord_inj N_of_ascii N_of_ascii_inj.

(** [str] is ordered byte by byte. *)
Fixpoint string_compare (s t : string) : comparison :=
  match s, t with
  | EmptyString, EmptyString => Eq
  | EmptyString, String _ _ => Lt
  | String _ _, EmptyString => Gt
  | String a s', String b t' => cmp_then (rcompare a b) (string_compare s' t')
  end.

#[export] Program Instance rust_ord_string : RustOrd string :=
  {| rcompare := string_compare |}.
Next Obligation.
  intros s. induction s as [|a s IH]; intros [|b t]; cbn [string_compare]; try naive_solver.
  unfold cmp_then. destruct (rcompare a b) eqn:E.
  - apply rcompare_eq in E as ->. rewrite IH. naive_solver.
  - split; [done|]. intros [= -> ->]. by rewrite rcompare_refl in E.
  - split; [done|]. intros [= -> ->]. by rewrite rcompare_refl in E.
Qed.
Next Obligation.
  intros s. induction s as [|a s IH]; intros [|b t]; cbn [string_compare]; try done.
  rewrite IH, (rcompare_antisym a b). by destruct (rcompare a b).
Qed.
Next Obligation.
  intros s. induction s as [|a s IH]; intros [|b t] [|c u]; cbn [string_compare]; try done.
  unfold cmp_then. intros H1 H2.
  destruct (rcompare a b) eqn:E1; [|destruct (rcompare b c) eqn:E2|done]; try done.
  - apply rcompare_eq in E1 as ->. destruct (rcompare b c); [|done..]. by eapply IH.
  - apply rcompare_eq in E2 as ->. by rewrite E1.
  - by erewrite rcompare_trans by eauto.
Qed.

(** [std::cmp::Reverse]: the dual order. *)
Record Reverse (A : Type) := MkReverse { unreverse : A }.
Arguments MkReverse {A} _.
Arguments unreverse {A} _.

#[export] Program Instance rust_ord_reverse {A} `{RustOrd A} : RustOrd (Reverse A) :=
  {| rcompare x y := rcompare (unreverse y) (unreverse x) |}.
Next Obligation. intros A ? [x] [y]; simpl. rewrite rcompare_eq. naive_solver. Qed.
Next Obligation. intros A ? [x] [y]; simpl. apply rcompare_antisym. Qed.
Next Obligation. intros A ? [x] [y] [z]; simpl. intros. by eapply rcompare_trans. Qed.

(** [min_by] with a comparison that a key induces. *)
Section min_by.
Context {A K : Type} `{RustOrd K} (cmp : A → A → comparison) (key : A → K).
Hypothesis cmp_key : ∀ x y, cmp x y = rcompare (key x) (key y).

Lemma min_by_least l m :
  min_by cmp l = Some m → m ∈ l ∧ ∀ y, y ∈ l → rle (key m) (key y).
Proof using cmp_key.
  destruct l as [|x l]; simpl; [done|]. intros [= <-].
  revert x. induction l as [|z l IH]; intros x; simpl.
  { split; [by constructor|]. intros y ->%list_elem_of_singleton. unfold rle.
    by rewrite rcompare_refl. }
  destruct (cmp x z) eqn:E; rewrite cmp_key in E.
  1,2: destruct (IH x) as [Hin Hle]; split;
    [apply elem_of_cons in Hin as [->|?]; set_solver|]; intros y;
    rewrite !elem_of_cons; intros [->|[->|Hy]]; try (apply Hle; set_solver);
    etrans; [apply Hle; constructor|]; unfold rle; by rewrite E.
  destruct (IH z) as [Hin Hle]. split; [set_solver|]. intros y.
  rewrite !elem_of_cons. intros [->|[->|Hy]]; try (apply Hle; set_solver).
  etrans; [apply Hle; constructor|]. unfold rle. by rewrite (proj2 (rcompare_lt_gt _ _) E).
Qed.

Lemma min_by_None l : min_by cmp l = None ↔ l = [].
Proof. by destruct l. Qed.

(** Distinct keys: the choice does not depend on the order of the list. *)
Lemma min_by_perm l l' :
  (∀ x y, x ∈ l → y ∈ l → key x = key y → x = y) → l ≡ₚ l' → min_by cmp l = min_by cmp l'.
Proof using cmp_key.
  intros Hinj Hp. destruct (min_by cmp l) as [m|] eqn:E.
  - destruct (min_by cmp l') as [m'|] eqn:E'.
    + apply min_by_least in E as [Hm Hle], E' as [Hm' Hle']. f_equal.
      rewrite <-Hp in Hm'. apply Hinj; [done..|]. apply rle_antisym; [by apply Hle|].
      apply Hle'. by rewrite <-Hp.
    + apply min_by_None in E'. subst l'. apply Permutation_nil_r in Hp. by subst l.
  - apply min_by_None in E. subst l. apply Permutation_nil_l in Hp. by subst l'.
Qed.
End min_by.

(** ** Searching lists *)
Lemma list_find_None {A} (p : A → bool) l : List.find p l = None ↔ ∀ x, x ∈ l → p x = false.
Proof.
  induction l as [|x l IH]; simpl; [set_solver|]. destruct (p x) eqn:E.
  - split; [done|]. intros Hl. rewrite Hl in E by constructor. done.
  - rewrite IH. set_solver.
Qed.
Lemma list_find_Some {A} (p : A → bool) l x :
  List.find p l = Some x → x ∈ l ∧ p x = true.
Proof. intros Hf. apply find_some in Hf as [Hin ?]. by apply list_elem_of_In in Hin. Qed.
Lemma head_elem {A} (l : list A) x : head l = Some x → x ∈ l.
Proof. destruct l; simpl; [done|]. intros [= ->]. constructor. Qed.
Lemma head_None {A} (l : list A) : head l = None ↔ l = [].
Proof. by destruct l. Qed.

Lemma NoDup_fmap_inj_elem {A B} (f : A → B) l x y :
  NoDup (f <$> l) → x ∈ l → y ∈ l → f x = f y → x = y.
Proof.
  induction l as [|z l IH]; simpl; [set_solver|]. rewrite NoDup_cons, !elem_of_cons.
  intros [Hz Hl] [->|Hx] [->|Hy] Hf; auto.
  - exfalso. apply Hz. rewrite Hf. by apply list_elem_of_fmap_2.
  - exfalso. apply Hz. rewrite <-Hf. by apply list_elem_of_fmap_2.
Qed.

Lemma NoDup_fmap_filter {A B} (f : A → B) (p : A → bool) l :
  NoDup (f <$> l) → NoDup (f <$> List.filter p l).
Proof.
  induction l as [|x l IH]; simpl; [done|]. rewrite NoDup_cons. intros [Hx Hl].
  destruct (p x); simpl; [|auto]. apply NoDup_cons. split; [|auto].
  intros (y & Hy & Hin)%list_elem_of_fmap. apply Hx, list_elem_of_fmap. exists y. split; [done|].
  by apply list_elem_of_In, filter_In in Hin as [?%list_elem_of_In _].
Qed.

Lemma sort_by_key_perm {A K} `{RustOrd K} (key : A → K) l : sort_by_key key l ≡ₚ l.
Proof.
  assert (∀ x l', sort_by_key_insert key x l' ≡ₚ x :: l') as Hins.
  { intros x l'. induction l' as [|y l' IH]; simpl; [done|].
    destruct (rcompare _ _); [done..|]. rewrite IH. apply perm_swap. }
  induction l as [|x l IH]; simpl; [done|]. by rewrite Hins, IH.
Qed.

Lemma Forall2_elem_r {A B} (P : A → B → Prop) l k y :
  Forall2 P l k → y ∈ k → ∃ x, x ∈ l ∧ P x y.
Proof. induction 1; set_solver. Qed.

(** Sorting, and what [sort] followed by [dedup] leaves. *)
Section sort_by_key_sorted.
Context {A K : Type} `{RustOrd K} (key : A → K).

Lemma sort_by_key_insert_sorted x (l : list A) :
  StronglySorted rle (key <$> l) → StronglySorted rle (key <$> sort_by_key_insert key x l).
Proof.
  induction l as [|y l IH]; simpl; intros Hs; [repeat constructor|].
  apply StronglySorted_inv in Hs as [Hs Hy].
  destruct (rcompare (key x) (key y)) eqn:E.
  1, 2: constructor; [by constructor|]; apply Forall_cons; split; [by unfold rle; rewrite E|];
    eapply Forall_impl; [exact Hy|]; intros z Hz; apply rle_lt_eq in Hz as [Hz| <-].
  - apply rcompare_eq in E as ->. by apply rle_lt_eq; left.
  - apply rcompare_eq in E as ->. by apply rle_lt_eq; right.
  - apply rle_lt_eq. left. by eapply rcompare_trans.
  - apply rle_lt_eq. by left.
  - cbn. constructor; [auto|]. rewrite Forall_forall. intros z Hz.
    apply list_elem_of_fmap in Hz as (a & -> & Ha).
    assert (a = x ∨ a ∈ l) as [->|Hin].
    { clear -Ha. induction l as [|b l IH]; simpl in Ha; [set_solver|].
      destruct (rcompare (key x) (key b)); set_solver. }
    + apply rle_lt_eq. left. by apply rcompare_lt_gt.
    + rewrite Forall_forall in Hy. apply Hy, list_elem_of_fmap. eauto.
Qed.

Lemma sort_by_key_sorted (l : list A) : StronglySorted rle (key <$> sort_by_key key l).
Proof.
  induction l as [|x l IH]; [constructor|]. by apply sort_by_key_insert_sorted.
Qed.

Lemma sorted_rle_NoDup_rlt (l : list K) : StronglySorted rle l → NoDup l → StronglySorted rlt l.
Proof.
  induction 1 as [|x l Hs IH Hx]; intros Hn; [constructor|].
  apply NoDup_cons in Hn as [Hn Hl]. constructor; [auto|].
  rewrite Forall_forall in *. intros y Hy. apply Hx in Hy as Hle.
  apply rle_lt_eq in Hle as [?| ->]; done.
Qed.
End sort_by_key_sorted.

Lemma not_ascending_sorted {A} `{RustOrd A} (l : list A) :
  not_ascending l = false ↔ StronglySorted rlt l.
Proof.
  split.
  - intros H'. apply Sorted_StronglySorted; [intros x y z; apply rcompare_trans|].
    induction l as [|x [|y l] IH]; [constructor|repeat constructor|].
    cbn [not_ascending] in H'. destruct (rcompare x y) eqn:E; try done.
    constructor; [auto|]. by constructor.
  - induction 1 as [|x [|y l] Hs IH Hx]; [done|done|]. cbn [not_ascending].
    apply Forall_cons in Hx as [-> _]. apply IH.
Qed.

Lemma elem_of_vec_dedup {A} `{EqDecision A} (x : A) (l : list A) : x ∈ vec_dedup l ↔ x ∈ l.
Proof.
  induction l as [|y [|z l] IH]; [done|done|]. cbn [vec_dedup].
  destruct (y =? z) eqn:E; [apply eqb_eq in E as ->|]; rewrite ?elem_of_cons, IH; set_solver.
Qed.

Lemma vec_dedup_sorted {A} `{RustOrd A, EqDecision A} (l : list A) :
  StronglySorted rle l → StronglySorted rlt (vec_dedup l).
Proof.
  induction 1 as [|x [|y l] Hs IH Hx]; [constructor|repeat constructor|]. cbn [vec_dedup].
  destruct (x =? y) eqn:E; [done|]. apply eqb_neq in E. constructor; [done|].
  apply Forall_forall. intros z Hz. apply (proj1 (elem_of_vec_dedup z (y :: l))) in Hz.
  assert (rlt x y) as Hxy.
  { apply Forall_cons in Hx as [Hx _]. apply rle_lt_eq in Hx as [?|?]; done. }
  apply elem_of_cons in Hz as [->|Hz]; [done|].
  apply StronglySorted_inv in Hs as [_ Hy]. rewrite Forall_forall in Hy.
  apply Hy in Hz. apply rle_lt_eq in Hz as [Hz| ->]; [|done]. by eapply rcompare_trans.
Qed.

Lemma sort_dedup_sorted {A} `{RustOrd A, EqDecision A} (l : list A) :
  StronglySorted rlt (sort_dedup l).
Proof. apply vec_dedup_sorted, rsort_sorted. Qed.

Lemma elem_of_sort_dedup {A} `{RustOrd A, EqDecision A} (x : A) (l : list A) :
  x ∈ sort_dedup l ↔ x ∈ l.
Proof. unfold sort_dedup. by rewrite elem_of_vec_dedup, rsort_perm. Qed.
