(* ===== verification/Text.v ===== *)
(** * Text: the [str] operations the source uses

    A Rust [str] is its UTF-8 byte sequence, here Rocq's [string] read as a
    list of bytes.  Byte-level operations ([len], [starts_with], [strip_prefix],
    [split] on an ASCII separator, comparison) are exact on it; [trim] strips
    the UTF-8 encodings of the Unicode White_Space code points, which is what
    [str::trim] does on well-formed text because UTF-8 is self-synchronizing. *)

From Stdlib Require Import Ascii.
From S2P Require Import Prelude.

#[global] Arguments String.append !_ _ / : simpl nomatch.

(** ** Definitions *)

Definition byte (a : ascii) : N := N_of_ascii a.
Definition byte_between (lo hi : N) (a : ascii) : bool :=
  ((lo <=? byte a) && (byte a <=? hi))%N.

Definition is_ascii_digit : ascii → bool := byte_between 48 57.
Definition is_ascii_lower_hex (a : ascii) : bool :=
  is_ascii_digit a || byte_between 97 102 a.
Definition is_ascii_hexdigit (a : ascii) : bool :=
  is_ascii_digit a || byte_between 97 102 a || byte_between 65 70 a.
Definition is_ascii_alphabetic (a : ascii) : bool :=
  byte_between 65 90 a || byte_between 97 122 a.
Definition to_ascii_lowercase_byte (a : ascii) : ascii :=
  if byte_between 65 90 a then ascii_of_N (byte a + 32) else a.

Fixpoint str_forall (p : ascii → bool) (s : string) : bool :=
  match s with
  | EmptyString => true
  | String a s' => p a && str_forall p s'
  end.
Fixpoint str_map (f : ascii → ascii) (s : string) : string :=
  match s with
  | EmptyString => EmptyString
  | String a s' => String (f a) (str_map f s')
  end.
Definition to_ascii_lowercase : string → string := str_map to_ascii_lowercase_byte.

Definition str_contains_byte (c : ascii) (s : string) : bool :=
  negb (str_forall (λ a, negb (a =? c)) s).

Fixpoint strip_prefix (p s : string) : option string :=
  match p, s with
  | EmptyString, _ => Some s
  | String a p', String b s' => if a =? b then strip_prefix p' s' else None
  | String _ _, EmptyString => None
  end.
Definition starts_with (p s : string) : bool := is_some (strip_prefix p s).

Definition str_is_empty (s : string) : bool := s =? EmptyString.

(** [str::split(sep)]: always at least one component. *)
Fixpoint split_on (sep : ascii) (s : string) : list string :=
  match s with
  | EmptyString => [EmptyString]
  | String a s' =>
      if a =? sep then EmptyString :: split_on sep s'
      else match split_on sep s' with
           | [] => [String a EmptyString]
           | h :: t => String a h :: t
           end
  end.

(** [Vec<_>::join(sep)]. *)
Fixpoint join_with (sep : ascii) (l : list string) : string :=
  match l with
  | [] => EmptyString
  | [x] => x
  | x :: l' => String.append x (String sep (join_with sep l'))
  end.

(** White_Space code points by the length of their UTF-8 encoding. *)
Definition ws1 (a : ascii) : bool := byte_between 9 13 a || (byte a =? 32)%N.
Definition ws2 (a b : ascii) : bool :=
  ((byte a =? 194) && ((byte b =? 133) || (byte b =? 160)))%N.
Definition ws3 (a b c : ascii) : bool :=
  (((byte a =? 225) && (byte b =? 154) && (byte c =? 128)) ||
   ((byte a =? 226) && (byte b =? 128) &&
      (byte_between 128 138 c || (byte c =? 168) || (byte c =? 169) || (byte c =? 175))) ||
   ((byte a =? 226) && (byte b =? 129) && (byte c =? 159)) ||
   ((byte a =? 227) && (byte b =? 128) && (byte c =? 128)))%N.

Fixpoint trim_start (s : string) : string :=
  match s with
  | EmptyString => EmptyString
  | String a s1 =>
      if ws1 a then trim_start s1 else
      match s1 with
      | EmptyString => s
      | String b s2 =>
          if ws2 a b then trim_start s2 else
          match s2 with
          | EmptyString => s
          | String c s3 => if ws3 a b c then trim_start s3 else s
          end
      end
  end.

(** The same scan over the reversed byte sequence. *)
Fixpoint trim_start_rev (s : string) : string :=
  match s with
  | EmptyString => EmptyString
  | String a s1 =>
      if ws1 a then trim_start_rev s1 else
      match s1 with
      | EmptyString => s
      | String b s2 =>
          if ws2 b a then trim_start_rev s2 else
          match s2 with
          | EmptyString => s
          | String c s3 => if ws3 c b a then trim_start_rev s3 else s
          end
      end
  end.

Fixpoint str_rev_app (s acc : string) : string :=
  match s with
  | EmptyString => acc
  | String a s' => str_rev_app s' (String a acc)
  end.
Definition str_rev (s : string) : string := str_rev_app s EmptyString.
Definition trim_end (s : string) : string := str_rev (trim_start_rev (str_rev s)).
Definition trim (s : string) : string := trim_end (trim_start s).
Definition blank (s : string) : bool := str_is_empty (trim s).

(** ** Lemmas *)

Lemma str_is_empty_true s : str_is_empty s = true ↔ s = EmptyString.
Proof. apply eqb_true. Qed.

Lemma append_assoc (s t u : string) :
  String.append (String.append s t) u = String.append s (String.append t u).
Proof. induction s as [|a s IH]; [done|]. cbn. by rewrite IH. Qed.
Lemma append_nil_r s : String.append s EmptyString = s.
Proof. induction s as [|a s IH]; [done|]. cbn. by rewrite IH. Qed.
Lemma append_length s t :
  String.length (String.append s t) = String.length s + String.length t.
Proof. induction s as [|a s IH]; [done|]. cbn. by rewrite IH. Qed.
Lemma append_inj_l s t u : String.append s t = String.append s u → t = u.
Proof. induction s as [|a s IH]; [done|]. cbn. intros [= H]. auto. Qed.

Lemma str_forall_append p s t :
  str_forall p (String.append s t) = str_forall p s && str_forall p t.
Proof. induction s as [|a s IH]; [done|]. cbn. rewrite IH. by rewrite andb_assoc. Qed.

Lemma strip_prefix_Some p s r : strip_prefix p s = Some r ↔ s = String.append p r.
Proof.
  revert s. induction p as [|a p IH]; intros s; cbn; [naive_solver|].
  destruct s as [|b s]; [done|]. destruct (a =? b) eqn:E; breflect.
  - subst. rewrite IH. naive_solver.
  - naive_solver.
Qed.
Lemma strip_prefix_append p r : strip_prefix p (String.append p r) = Some r.
Proof. by apply strip_prefix_Some. Qed.
Lemma starts_with_true p s : starts_with p s = true ↔ ∃ r, s = String.append p r.
Proof.
  unfold starts_with. setoid_rewrite <-strip_prefix_Some.
  destruct (strip_prefix p s); naive_solver.
Qed.

Lemma str_contains_byte_false c s :
  str_contains_byte c s = false ↔ str_forall (λ a, a <>? c) s = true.
Proof. unfold str_contains_byte. apply negb_false_iff. Qed.

Lemma split_on_nonempty sep s : split_on sep s ≠ [].
Proof. destruct s; cbn; [done|]. repeat case_match; done. Qed.

Lemma join_split sep s : join_with sep (split_on sep s) = s.
Proof.
  induction s as [|a s IH]; [done|]. cbn. destruct (a =? sep) eqn:E; breflect.
  - subst. pose proof (split_on_nonempty sep s). rewrite <-IH at 2.
    by destruct (split_on sep s).
  - pose proof (split_on_nonempty sep s).
    destruct (split_on sep s) as [|h t]; [done|]. rewrite <-IH. by destruct t.
Qed.

(** A component never contains the separator. *)
Lemma split_on_clean sep s :
  Forall (λ c, str_forall (λ a, a <>? sep) c = true) (split_on sep s).
Proof.
  induction s as [|a s IH]; cbn; [repeat constructor|].
  destruct (a =? sep) eqn:E; [by constructor|].
  destruct (split_on sep s) as [|h t]; [constructor; [|done]; cbn; by rewrite E|].
  inv IH. constructor; [|done]. cbn. by rewrite E.
Qed.

Lemma split_on_no_sep sep s :
  str_forall (λ a, a <>? sep) s = true → split_on sep s = [s].
Proof.
  induction s as [|a s IH]; [done|]. cbn. intros [Ha Hs]%andb_true_iff.
  apply negb_true_iff in Ha. by rewrite Ha, (IH Hs).
Qed.

Lemma split_on_append_sep sep s r :
  split_on sep (String.append s (String sep r)) = split_on sep s ++ split_on sep r.
Proof.
  induction s as [|a s IH]; cbn; [by rewrite eqb_refl|].
  destruct (a =? sep); [by rewrite IH|]. rewrite IH.
  pose proof (split_on_nonempty sep s). by destruct (split_on sep s).
Qed.

Lemma join_with_append sep l1 l2 :
  l1 ≠ [] → l2 ≠ [] →
  join_with sep (l1 ++ l2) =
  String.append (join_with sep l1) (String sep (join_with sep l2)).
Proof.
  intros H1 H2. induction l1 as [|x l1 IH]; [done|]. destruct l1 as [|y l1].
  - cbn. by destruct l2.
  - change ((x :: y :: l1) ++ l2) with (x :: (y :: l1) ++ l2).
    change (join_with sep (x :: y :: l1)) with
      (String.append x (String sep (join_with sep (y :: l1)))).
    rewrite append_assoc. cbn [String.append]. rewrite <-(IH ltac:(done)). done.
Qed.

(** *** Trimming *)

Lemma str_rev_app_spec s acc : str_rev_app s acc = String.append (str_rev s) acc.
Proof.
  unfold str_rev. revert acc. induction s as [|a s IH]; intros acc; [done|].
  cbn. rewrite IH, (IH (String a EmptyString)), append_assoc. done.
Qed.
Lemma str_rev_cons a s : str_rev (String a s) = String.append (str_rev s) (String a EmptyString).
Proof. unfold str_rev at 1. cbn. by rewrite str_rev_app_spec. Qed.
Lemma str_rev_append s t : str_rev (String.append s t) = String.append (str_rev t) (str_rev s).
Proof.
  induction s as [|a s IH]; [by rewrite append_nil_r|].
  cbn [String.append]. by rewrite !str_rev_cons, IH, append_assoc.
Qed.
Lemma str_rev_involutive s : str_rev (str_rev s) = s.
Proof.
  induction s as [|a s IH]; [done|]. by rewrite str_rev_cons, str_rev_append, IH.
Qed.

(** [lead s] holds when [s] starts with white space. *)
Definition lead_ws (s : string) : bool :=
  match s with
  | EmptyString => false
  | String a s1 =>
      ws1 a || match s1 with
               | EmptyString => false
               | String b s2 =>
                   ws2 a b || match s2 with
                              | EmptyString => false
                              | String c _ => ws3 a b c
                              end
               end
  end.

(** Induction following [trim_start]: peels one white-space code point. *)
Lemma string_strong_ind (P : string → Prop) :
  (∀ s, (∀ t, String.length t < String.length s → P t) → P s) → ∀ s, P s.
Proof.
  intros Hstep s. remember (String.length s) as n eqn:Hn. revert s Hn.
  induction (lt_wf n) as [n _ IH]. intros s ->. apply Hstep. intros t Ht. by eapply IH.
Qed.

Lemma trim_start_lead s : lead_ws (trim_start s) = false.
Proof.
  induction s as [s IH] using string_strong_ind.
  destruct s as [|a s1]; [done|]. cbn [trim_start].
  destruct (ws1 a) eqn:E; [apply IH; cbn; lia|].
  destruct s1 as [|b s2]; [cbn; by rewrite E|].
  destruct (ws2 a b) eqn:E2; [apply IH; cbn; lia|].
  destruct s2 as [|c s3]; [cbn; by rewrite E, E2|].
  destruct (ws3 a b c) eqn:E3; [apply IH; cbn; lia|]. cbn. by rewrite E, E2, E3.
Qed.

Lemma trim_start_no_lead s : lead_ws s = false → trim_start s = s.
Proof.
  destruct s as [|a [|b [|c s]]]; cbn; intros; breflect; try done.
  all: repeat match goal with H : _ = false |- _ => rewrite H end; done.
Qed.

Lemma trim_start_suffix s : ∃ p, s = String.append p (trim_start s).
Proof.
  induction s as [s IH] using string_strong_ind.
  destruct s as [|a s1]; [by exists EmptyString|]. cbn [trim_start].
  destruct (ws1 a).
  { destruct (IH s1) as [p Hp]; [cbn; lia|].
    exists (String a p). cbn. by rewrite <-Hp. }
  destruct s1 as [|b s2]; [by exists EmptyString|]. destruct (ws2 a b).
  { destruct (IH s2) as [p Hp]; [cbn; lia|].
    exists (String a (String b p)). cbn. by rewrite <-Hp. }
  destruct s2 as [|c s3]; [by exists EmptyString|]. destruct (ws3 a b c).
  - destruct (IH s3) as [p Hp]; [cbn; lia|].
    exists (String a (String b (String c p))). cbn. by rewrite <-Hp.
  - by exists EmptyString.
Qed.

Lemma trim_start_rev_idemp s : trim_start_rev (trim_start_rev s) = trim_start_rev s.
Proof.
  induction s as [s IH] using string_strong_ind.
  destruct s as [|a s1]; [done|]. cbn [trim_start_rev].
  destruct (ws1 a) eqn:E; [apply IH; cbn; lia|].
  destruct s1 as [|b s2]; [cbn; by rewrite E|].
  destruct (ws2 b a) eqn:E2; [apply IH; cbn; lia|].
  destruct s2 as [|c s3]; [cbn; by rewrite E, E2|].
  destruct (ws3 c b a) eqn:E3; [apply IH; cbn; lia|]. cbn. by rewrite E, E2, E3.
Qed.

Lemma trim_start_rev_suffix s : ∃ p, s = String.append p (trim_start_rev s).
Proof.
  induction s as [s IH] using string_strong_ind.
  destruct s as [|a s1]; [by exists EmptyString|]. cbn [trim_start_rev].
  destruct (ws1 a).
  { destruct (IH s1) as [p Hp]; [cbn; lia|].
    exists (String a p). cbn. by rewrite <-Hp. }
  destruct s1 as [|b s2]; [by exists EmptyString|]. destruct (ws2 b a).
  { destruct (IH s2) as [p Hp]; [cbn; lia|].
    exists (String a (String b p)). cbn. by rewrite <-Hp. }
  destruct s2 as [|c s3]; [by exists EmptyString|]. destruct (ws3 c b a).
  - destruct (IH s3) as [p Hp]; [cbn; lia|].
    exists (String a (String b (String c p))). cbn. by rewrite <-Hp.
  - by exists EmptyString.
Qed.

Lemma trim_end_prefix s : ∃ r, s = String.append (trim_end s) r.
Proof.
  destruct (trim_start_rev_suffix (str_rev s)) as [p Hp].
  exists (str_rev p). unfold trim_end.
  by rewrite <-str_rev_append, <-Hp, str_rev_involutive.
Qed.

Lemma trim_end_idemp s : trim_end (trim_end s) = trim_end s.
Proof. unfold trim_end. by rewrite str_rev_involutive, trim_start_rev_idemp. Qed.

Lemma lead_ws_prefix p r : lead_ws (String.append p r) = false → lead_ws p = false.
Proof.
  destruct p as [|a [|b [|c p]]]; cbn; try done.
  - destruct r as [|b [|c r]]; cbn; intros; breflect; by rewrite ?orb_false_r.
  - destruct r as [|c r]; cbn; intros; breflect; by repeat match goal with
      H : _ = false |- _ => rewrite H end.
Qed.

Lemma trim_idemp s : trim (trim s) = trim s.
Proof.
  unfold trim at 1. rewrite (trim_start_no_lead (trim s)).
  - unfold trim. apply trim_end_idemp.
  - unfold trim. destruct (trim_end_prefix (trim_start s)) as [r Hr].
    eapply lead_ws_prefix. rewrite <-Hr. apply trim_start_lead.
Qed.

Lemma trim_empty : trim EmptyString = EmptyString.
Proof. reflexivity. Qed.

Lemma blank_trim s : blank (trim s) = blank s.
Proof. unfold blank. by rewrite trim_idemp. Qed.

(** *** Case folding *)

Lemma str_map_length f s : String.length (str_map f s) = String.length s.
Proof. induction s as [|a s IH]; [done|]. cbn. by rewrite IH. Qed.

Lemma str_forall_map p q f s :
  (∀ a, p a = true → q (f a) = true) →
  str_forall p s = true → str_forall q (str_map f s) = true.
Proof.
  intros Hpq. induction s as [|a s IH]; [done|]. cbn.
  intros [Ha Hs]%andb_true_iff. by rewrite (Hpq a Ha), IH.
Qed.

Lemma str_map_id f s p :
  (∀ a, p a = true → f a = a) → str_forall p s = true → str_map f s = s.
Proof.
  intros Hf. induction s as [|a s IH]; [done|]. cbn.
  intros [Ha Hs]%andb_true_iff. by rewrite (Hf a Ha), IH.
Qed.

Lemma str_forall_impl (p q : ascii → bool) s :
  (∀ a, p a = true → q a = true) → str_forall p s = true → str_forall q s = true.
Proof.
  intros Hpq. induction s as [|a s IH]; [done|]. cbn.
  intros [Ha Hs]%andb_true_iff. by rewrite (Hpq a Ha), IH.
Qed.

(** Facts about single bytes hold by enumeration of the 256 values. *)
Ltac byte_enum := intros [[] [] [] [] [] [] [] []]; vm_compute; congruence.

Lemma lower_hex_lowercase a :
  is_ascii_hexdigit a = true → is_ascii_lower_hex (to_ascii_lowercase_byte a) = true.
Proof. revert a. byte_enum. Qed.
Lemma lowercase_lower_hex a :
  is_ascii_lower_hex a = true → to_ascii_lowercase_byte a = a.
Proof. revert a. byte_enum. Qed.
Lemma lower_hex_hexdigit a : is_ascii_lower_hex a = true → is_ascii_hexdigit a = true.
Proof. revert a. byte_enum. Qed.
