(* ===== verification/ProductPath.v ===== *)
(** * ProductPath: repository-relative paths and ticket path scopes

    Models [crates/volicord-types/src/product_path.rs].  A
    [ProductRelativePath] has a private field, so every value has passed
    [validate_product_relative_path]; the record below carries that fact.  The
    containment test of the source compares bytes; the theorems relate it to
    containment of component lists and derive the order laws that the Write
    Ticket code relies on. *)

From Stdlib Require Import Ascii.
From S2P Require Import Prelude Text.

Definition slash : ascii := "/"%char.
Definition backslash : ascii := "\"%char.
Definition nul : ascii := Ascii.zero.
Definition colon : ascii := ":"%char.

(** ** Lexical validation *)

Inductive ProductPathError :=
| PathEmpty
| Absolute
| PlatformPrefix
| Backslash
| EmptyComponent
| CurrentDirectory
| ParentTraversal
| Nul.

Definition ProductPathError_reason (e : ProductPathError) : string :=
  match e with
  | PathEmpty => "product_path_empty"
  | Absolute => "product_path_absolute"
  | PlatformPrefix => "product_path_platform_prefix"
  | Backslash => "product_path_backslash"
  | EmptyComponent => "product_path_empty_component"
  | CurrentDirectory => "product_path_current_directory_component"
  | ParentTraversal => "product_path_parent_traversal"
  | Nul => "product_path_nul"
  end.

Definition has_windows_drive_prefix (value : string) : bool :=
  match value with
  | String a (String b _) => is_ascii_alphabetic a && (b =? colon)
  | _ => false
  end.

(** The [for component in value.split('/')] loop. *)
Fixpoint validate_components (components : list string) : result unit ProductPathError :=
  match components with
  | [] => Ok tt
  | component :: rest =>
      if component =? "" then Err EmptyComponent
      else if component =? "." then Err CurrentDirectory
      else if component =? ".." then Err ParentTraversal
      else validate_components rest
  end.

Definition validate_product_relative_path (value : string) : result unit ProductPathError :=
  if str_is_empty value || str_is_empty (trim value) then Err PathEmpty
  else if str_contains_byte nul value then Err Nul
  else if str_contains_byte backslash value then Err Backslash
  else if starts_with "/" value then Err Absolute
  else if has_windows_drive_prefix value then Err PlatformPrefix
  else validate_components (split_on slash value).

Definition lexically_valid (value : string) : bool :=
  is_ok (validate_product_relative_path value).

Record ProductRelativePath := MkPath {
  path_str : string;
  path_valid : Is_true (lexically_valid path_str);
}.

(** [ProductRelativePath::parse]. *)
Definition parse_path (value : string) : result ProductRelativePath ProductPathError :=
  guarded (validate_product_relative_path value) (λ H, MkPath value H).

(** [ProductRelativePath::is_within]. *)
Definition within_str (path scope : string) : bool :=
  (path =? scope) ||
  is_some_and (strip_prefix scope path) (starts_with "/").

Definition is_within (path scope : ProductRelativePath) : bool :=
  within_str (path_str path) (path_str scope).

(** [parse_product_paths], [path_is_within], [paths_are_authorized]. *)
Definition parse_product_paths (raw_paths : list string)
    : result (list ProductRelativePath) ProductPathError :=
  try_map parse_path raw_paths.

Definition path_is_within (path scope : string) : bool :=
  match parse_path path, parse_path scope with
  | Ok path, Ok scope => is_within path scope
  | _, _ => false
  end.

Definition paths_are_authorized (observed_paths authorized_paths : list string) : bool :=
  negb (list_is_empty observed_paths) &&
  negb (list_is_empty authorized_paths) &&
  forallb (λ path, existsb (λ authorized, path_is_within path authorized) authorized_paths)
          observed_paths.

#[export] Instance ProductRelativePath_eq_dec : EqDecision ProductRelativePath.
Proof.
  refine (λ p q, cast_if (decide (path_str p = path_str q))).
  - destruct p as [s Hs], q as [t Ht]; simpl in *. subst. f_equal. apply proof_irrel.
  - intros ->. done.
Defined.

Lemma path_str_inj p q : path_str p = path_str q → p = q.
Proof. destruct p as [s Hs], q as [t Ht]; simpl. intros ->. f_equal. apply proof_irrel. Qed.

(** The derived [Ord] of the newtype. *)
#[export] Instance rust_ord_path : RustOrd ProductRelativePath :=
  rust_ord_inj path_str path_str_inj.

(** ** Write Ticket path scopes *)

Inductive WriteTicketPathScopeError :=
| DuplicateAllowedPath
| DuplicateDeniedPath
| AllowedDeniedOverlap.

Definition scope_overlap (allowed denied : list ProductRelativePath) : bool :=
  existsb (λ a, existsb (λ d, is_within a d || is_within d a) denied) allowed.

Definition check_path_scope (allowed denied : list ProductRelativePath)
    : result unit WriteTicketPathScopeError :=
  if negb (length (bts_of_list allowed) =? length allowed) then Err DuplicateAllowedPath
  else if negb (length (bts_of_list denied) =? length denied) then Err DuplicateDeniedPath
  else if scope_overlap allowed denied then Err AllowedDeniedOverlap
  else Ok tt.

(** Private fields: a value exists only when construction succeeded. *)
Record WriteTicketPathScope := MkPathScope {
  allowed : list ProductRelativePath;
  denied : list ProductRelativePath;
  scope_ok : Is_true (is_ok (check_path_scope allowed denied));
}.

(** [WriteTicketPathScope::new]. *)
Definition path_scope_new (a d : list ProductRelativePath)
    : result WriteTicketPathScope WriteTicketPathScopeError :=
  guarded (check_path_scope a d) (λ H, MkPathScope a d H).

#[export] Instance WriteTicketPathScope_eq_dec : EqDecision WriteTicketPathScope.
Proof.
  refine (λ p q, cast_if (decide (allowed p = allowed q ∧ denied p = denied q))).
  - destruct p as [pa pd H], q as [qa qd H']; simpl in *.
    abstract (destruct_and!; subst; f_equal; apply proof_irrel).
  - abstract (intros ->; naive_solver).
Defined.

(** ** Specification: containment of component lists *)

Definition components (value : string) : list string := split_on slash value.
Definition component_ok (c : string) : Prop := c ≠ "" ∧ c ≠ "." ∧ c ≠ "..".

(** What a canonical repository-relative path is, stated declaratively. *)
Record canonical_path (value : string) : Prop := {
  cp_nonblank : blank value = false;
  cp_no_nul : str_contains_byte nul value = false;
  cp_no_backslash : str_contains_byte backslash value = false;
  cp_no_drive : has_windows_drive_prefix value = false;
  cp_components : Forall component_ok (components value);
}.

(** ** Parsing lemmas *)

Lemma validate_components_Ok l :
  validate_components l = Ok tt ↔ Forall component_ok l.
Proof.
  unfold component_ok. induction l as [|c l IH]; simpl; [split; [constructor|done]|].
  rewrite Forall_cons.
  destruct (c =? "") eqn:E1, (c =? ".") eqn:E2, (c =? "..") eqn:E3; breflect; naive_solver.
Qed.

(** A leading slash yields an empty first component. *)
Lemma starts_with_slash_component value :
  starts_with "/" value = true → ¬ Forall component_ok (components value).
Proof.
  intros [r ->]%starts_with_true. unfold components. cbn. inversion 1 as [|?? [Hc _] _]; done.
Qed.

Lemma lexically_valid_spec value : lexically_valid value = true ↔ canonical_path value.
Proof.
  unfold lexically_valid, validate_product_relative_path. split.
  - intros H.
    destruct (str_is_empty value || _) eqn:E1; [done|].
    destruct (str_contains_byte nul _) eqn:E2; [done|].
    destruct (str_contains_byte backslash _) eqn:E3; [done|].
    destruct (starts_with _ _) eqn:E4; [done|].
    destruct (has_windows_drive_prefix _) eqn:E5; [done|].
    apply orb_false_iff in E1 as [? ?].
    split; [done..|]. apply validate_components_Ok.
    by destruct (validate_components _) as [[]|].
  - intros [Hb Hn Hbs Hd Hc].
    assert (str_is_empty value = false) as ->.
    { destruct (str_is_empty value) eqn:E; [|done].
      apply str_is_empty_true in E as ->. done. }
    unfold blank in Hb. rewrite Hb, Hn, Hbs, Hd. simpl.
    destruct (starts_with "/" value) eqn:Es; [by apply starts_with_slash_component in Es|].
    apply validate_components_Ok in Hc. unfold components in Hc. by rewrite Hc.
Qed.

Lemma parse_path_Ok value p : parse_path value = Ok p ↔ path_str p = value.
Proof.
  unfold parse_path. rewrite guarded_Ok. split; [by intros [H <-]|].
  intros <-. exists (path_valid p). by apply path_str_inj.
Qed.
Lemma parse_path_str p : parse_path (path_str p) = Ok p.
Proof. by apply parse_path_Ok. Qed.
Lemma parse_path_Err value e :
  parse_path value = Err e ↔ validate_product_relative_path value = Err e.
Proof. apply guarded_Err. Qed.
Lemma path_canonical p : canonical_path (path_str p).
Proof. apply lexically_valid_spec, Is_true_true, path_valid. Qed.

Lemma parse_product_paths_Ok raw ps :
  parse_product_paths raw = Ok ps ↔ raw = path_str <$> ps.
Proof.
  unfold parse_product_paths. rewrite try_map_Ok. split.
  - induction 1 as [|x p ? ? Hx _ IH]; [done|]. apply parse_path_Ok in Hx as <-.
    by rewrite IH.
  - intros ->. induction ps as [|p ps IH]; simpl; constructor; auto using parse_path_str.
Qed.

Lemma path_is_within_str p q : path_is_within (path_str p) (path_str q) = is_within p q.
Proof. unfold path_is_within. by rewrite !parse_path_str. Qed.

Lemma path_is_within_true path scope :
  path_is_within path scope = true ↔
  ∃ p q, path_str p = path ∧ path_str q = scope ∧ is_within p q = true.
Proof.
  unfold path_is_within. split.
  - destruct (parse_path path) as [p|] eqn:Ep, (parse_path scope) as [q|] eqn:Eq; try done.
    apply parse_path_Ok in Ep, Eq. naive_solver.
  - intros (p & q & <- & <- & H). by rewrite !parse_path_str.
Qed.

(** ** Containment lemmas *)

Lemma within_str_true path scope :
  within_str path scope = true ↔
  path = scope ∨ ∃ r, path = String.append scope (String slash r).
Proof.
  unfold within_str. rewrite orb_true_iff, eqb_true, is_some_and_true.
  setoid_rewrite strip_prefix_Some. setoid_rewrite starts_with_true. naive_solver.
Qed.

Lemma within_str_components path scope :
  within_str path scope = true ↔ components scope `prefix_of` components path.
Proof.
  rewrite within_str_true. unfold components. split.
  - intros [->|[r ->]]; [done|]. exists (split_on slash r). apply split_on_append_sep.
  - intros [l Hl]. destruct l as [|c l].
    + left. rewrite app_nil_r in Hl.
      by rewrite <-(join_split slash path), Hl, join_split.
    + right. exists (join_with slash (c :: l)).
      rewrite <-(join_split slash path), Hl, join_with_append, join_split; try done.
      apply split_on_nonempty.
Qed.

Lemma is_within_components p q :
  is_within p q = true ↔ components (path_str q) `prefix_of` components (path_str p).
Proof. apply within_str_components. Qed.

Lemma components_inj p q : components (path_str p) = components (path_str q) → p = q.
Proof.
  unfold components. intros Heq. apply path_str_inj.
  by rewrite <-(join_split slash (path_str p)), Heq, join_split.
Qed.

Lemma is_within_refl p : is_within p p = true.
Proof. by apply is_within_components. Qed.
Lemma is_within_trans p q r :
  is_within p q = true → is_within q r = true → is_within p r = true.
Proof. rewrite !is_within_components. intros. by etrans. Qed.
Lemma is_within_antisym p q : is_within p q = true → is_within q p = true → p = q.
Proof.
  rewrite !is_within_components. intros H1 H2. apply components_inj.
  by apply (anti_symm prefix).
Qed.

(** Two scopes of one path are nested. *)
Lemma is_within_comparable p a d :
  is_within p a = true → is_within p d = true →
  is_within a d = true ∨ is_within d a = true.
Proof.
  rewrite !is_within_components. intros H1 H2.
  destruct (prefix_weak_total _ _ _ H1 H2); auto.
Qed.

#[export] Hint Resolve is_within_refl : volicord.

(** ** Path-scope lemmas *)

Lemma scope_overlap_false a d :
  scope_overlap a d = false ↔
  ∀ x y, x ∈ a → y ∈ d → is_within x y = false ∧ is_within y x = false.
Proof.
  unfold scope_overlap. rewrite existsb_false. setoid_rewrite existsb_false. split.
  - intros H x y Hx Hy. by apply orb_false_iff, H.
  - intros H x Hx y Hy. apply orb_false_iff. auto.
Qed.

Lemma check_path_scope_Ok a d :
  check_path_scope a d = Ok tt ↔
  NoDup a ∧ NoDup d ∧
  ∀ x y, x ∈ a → y ∈ d → is_within x y = false ∧ is_within y x = false.
Proof.
  unfold check_path_scope.
  rewrite <-!bts_of_list_length_NoDup, <-scope_overlap_false.
  destruct (length (bts_of_list a) =? _) eqn:E1; breflect; simpl;
    [|split; [done|by intros (? & ? & ?)]].
  destruct (length (bts_of_list d) =? _) eqn:E2; breflect; simpl;
    [|split; [done|by intros (? & ? & ?)]].
  destruct (scope_overlap a d); simpl; split; try done. by intros (? & ? & ?).
Qed.

Lemma path_scope_check (s : WriteTicketPathScope) :
  check_path_scope (allowed s) (denied s) = Ok tt.
Proof.
  destruct s as [a d H]; simpl. by destruct (check_path_scope a d) as [[]|].
Qed.

Lemma path_scope_new_Ok a d s :
  path_scope_new a d = Ok s ↔ allowed s = a ∧ denied s = d.
Proof.
  unfold path_scope_new. rewrite guarded_Ok. split; [by intros [H <-]|].
  intros [<- <-]. exists (scope_ok s). by destruct s.
Qed.
Lemma path_scope_new_total a d :
  check_path_scope a d = Ok tt → ∃ s, path_scope_new a d = Ok s.
Proof.
  intros H. assert (Is_true (is_ok (check_path_scope a d))) as Hok by by rewrite H.
  exists (MkPathScope a d Hok). by apply path_scope_new_Ok.
Qed.

(** ** Theorems *)

(** Parsing accepts exactly the canonical repository-relative paths (at
    least one component; no empty, [.] or [..] component; no NUL, backslash,
    drive prefix or blank path) and keeps the text unchanged. *)
Theorem parse_path_total value :
  match parse_path value with
  | Ok p => path_str p = value ∧ canonical_path value
  | Err _ => ¬ canonical_path value
  end.
Proof.
  destruct (parse_path value) as [p|e] eqn:E.
  - apply parse_path_Ok in E as <-. split; [done|apply path_canonical].
  - rewrite <-lexically_valid_spec. unfold lexically_valid.
    apply parse_path_Err in E. by rewrite E.
Qed.

(** Observed paths are authorized exactly when there is at least one of
    each, every observed path is canonical, and the components of some
    canonical authorized path are a prefix of its components (so [src] covers
    [src/lib.rs] and never [src2/lib.rs]). *)
Theorem paths_are_authorized_spec observed authorized :
  paths_are_authorized observed authorized = true ↔
  observed ≠ [] ∧ authorized ≠ [] ∧
  ∀ path, path ∈ observed → ∃ p q, path_str p = path ∧ path_str q ∈ authorized ∧
    components (path_str q) `prefix_of` components (path_str p).
Proof.
  unfold paths_are_authorized.
  rewrite !andb_true_iff, !negb_true_iff, !list_is_empty_false, forallb_elem, Logic.and_assoc.
  setoid_rewrite existsb_elem. setoid_rewrite path_is_within_true.
  setoid_rewrite is_within_components. naive_solver.
Qed.

(** A path scope is never ambiguous: no path lies below both an allowed and
    a denied prefix of the same ticket. *)
Theorem path_scope_unambiguous (s : WriteTicketPathScope) p :
  ¬ (∃ a d, a ∈ allowed s ∧ d ∈ denied s ∧ is_within p a = true ∧ is_within p d = true).
Proof.
  intros (a & d & Ha & Hd & Hpa & Hpd).
  destruct (check_path_scope_Ok (allowed s) (denied s)) as [Hok _].
  destruct (Hok (path_scope_check s)) as (_ & _ & Hdis).
  destruct (Hdis a d Ha Hd) as [H1 H2].
  destruct (is_within_comparable _ _ _ Hpa Hpd); congruence.
Qed.
