(* ===== verification/Values.v ===== *)
(** * Values: the closed vocabularies of the authority record

    Models the enumerations of [crates/volicord-types/src/values.rs] that the
    policy code branches on, with the functions defined on them: stable
    spellings, the actor-provenance codec, operation categories, the
    action-kind compatibility table, the shaping-decision policies, and the
    shaping-decision authority evaluator. *)

From S2P Require Import Prelude Text.

(** ** Identifiers

    The id newtypes of [ids.rs] wrap a [String] with derived equality and
    order; they are strings here, named for readability. *)
Abbreviation ProjectId := string.
Abbreviation TaskId := string.
Abbreviation ChangeUnitId := string.
Abbreviation BaselineRef := string.
Abbreviation RecordId := string.
Abbreviation RunId := string.
Abbreviation RiskId := string.
Abbreviation WriteTicketId := string.
Abbreviation UserActionRequestId := string.
Abbreviation UserActionResolutionId := string.
Abbreviation UserActionOptionId := string.
Abbreviation AgentConnectionId := string.
Abbreviation ArtifactId := string.

(** [UtcTimestamp]: an instant, compared as a number (nanoseconds). *)
Abbreviation UtcTimestamp := Z.

(** [now >= expires_at], [a <= b], [a < b] on instants. *)
Definition ts_ge (a b : UtcTimestamp) : bool := (b <=? a)%Z.
Definition ts_le (a b : UtcTimestamp) : bool := (a <=? b)%Z.
Definition ts_lt (a b : UtcTimestamp) : bool := (a <? b)%Z.

(** ** Actors and operation categories *)

Inductive ActorSource :=
| AgentConnection (connection_id : AgentConnectionId)
| LocalUser
| System.
#[export] Instance ActorSource_eq_dec : EqDecision ActorSource.
Proof. solve_decision. Defined.

Definition agent_connection_prefix : string := "agent_connection:".

Definition actor_to_canonical_string (a : ActorSource) : string :=
  match a with
  | AgentConnection connection_id => String.append agent_connection_prefix connection_id
  | LocalUser => "local_user"
  | System => "system"
  end.

Definition agent_connection_id (a : ActorSource) : option AgentConnectionId :=
  match a with
  | AgentConnection connection_id => Some connection_id
  | LocalUser | System => None
  end.

(** [ActorSource::from_str]; the error carries no data. *)
Definition actor_from_str (raw : string) : option ActorSource :=
  if raw =? "local_user" then Some LocalUser
  else if raw =? "system" then Some System
  else match strip_prefix agent_connection_prefix raw with
       | None => None
       | Some connection_id =>
           if str_is_empty connection_id then None else Some (AgentConnection connection_id)
       end.

Inductive OperationCategory :=
| Read | AgentWorkflow | UserOnly | AdminLocal | LocalRecovery.
#[export] Instance OperationCategory_eq_dec : EqDecision OperationCategory.
Proof. solve_decision. Defined.

Inductive AgentConnectionMode := ReadOnly | WorkflowMode.
#[export] Instance AgentConnectionMode_eq_dec : EqDecision AgentConnectionMode.
Proof. solve_decision. Defined.

Definition operation_categories (m : AgentConnectionMode) : list OperationCategory :=
  match m with
  | ReadOnly => [Read]
  | WorkflowMode => [Read; AgentWorkflow]
  end.
Definition allows_operation_category (m : AgentConnectionMode) (c : OperationCategory) : bool :=
  contains c (operation_categories m).

(** ** Record kinds *)

Inductive StateRecordKind :=
| KProjectState | KTask | KChangeUnit | KShapingCheckpoint | KShapingGap
| KShapingDecisionApplication | KShapingAuthorityReauthorization | KWriteTicket
| KUserActionRequest | KUserActionResolution | KRun | KEvidenceSummary
| KEvidenceObservation | KEvidenceCaptureIntent | KEvidenceProducer | KArtifact
| KBlocker | KTaskEvent | KAgentConnection | KUnrecordedChange
| KProjectContinuityRecord.
#[export] Instance StateRecordKind_eq_dec : EqDecision StateRecordKind.
Proof. solve_decision. Defined.

(** The serde spelling ([rename_all = "snake_case"]). *)
Definition StateRecordKind_str (k : StateRecordKind) : string :=
  match k with
  | KProjectState => "project_state"
  | KTask => "task"
  | KChangeUnit => "change_unit"
  | KShapingCheckpoint => "shaping_checkpoint"
  | KShapingGap => "shaping_gap"
  | KShapingDecisionApplication => "shaping_decision_application"
  | KShapingAuthorityReauthorization => "shaping_authority_reauthorization"
  | KWriteTicket => "write_ticket"
  | KUserActionRequest => "user_action_request"
  | KUserActionResolution => "user_action_resolution"
  | KRun => "run"
  | KEvidenceSummary => "evidence_summary"
  | KEvidenceObservation => "evidence_observation"
  | KEvidenceCaptureIntent => "evidence_capture_intent"
  | KEvidenceProducer => "evidence_producer"
  | KArtifact => "artifact"
  | KBlocker => "blocker"
  | KTaskEvent => "task_event"
  | KAgentConnection => "agent_connection"
  | KUnrecordedChange => "unrecorded_change"
  | KProjectContinuityRecord => "project_continuity_record"
  end.

(** ** Tasks *)

Inductive TaskMode := Advisor | Direct | Work.
#[export] Instance TaskMode_eq_dec : EqDecision TaskMode.
Proof. solve_decision. Defined.

Inductive RequestedMode := ReqAdvisor | ReqDirect | ReqWork | ReqAuto.

Inductive RequestedControlLevel :=
| RAuto | RObserve | RLight | RTracked | RSensitive.
#[export] Instance RequestedControlLevel_eq_dec : EqDecision RequestedControlLevel.
Proof. solve_decision. Defined.

Definition RequestedControlLevel_as_str (l : RequestedControlLevel) : string :=
  match l with
  | RAuto => "auto" | RObserve => "observe" | RLight => "light"
  | RTracked => "tracked" | RSensitive => "sensitive"
  end.

Inductive TaskControlLevel := Observe | Light | Tracked | Sensitive.
#[export] Instance TaskControlLevel_eq_dec : EqDecision TaskControlLevel.
Proof. solve_decision. Defined.

Definition TaskControlLevel_as_str (l : TaskControlLevel) : string :=
  match l with
  | Observe => "observe" | Light => "light" | Tracked => "tracked" | Sensitive => "sensitive"
  end.

(** The derived [Ord]: declaration order. *)
Definition control_index (l : TaskControlLevel) : nat :=
  match l with Observe => 0 | Light => 1 | Tracked => 2 | Sensitive => 3 end.
Definition control_lt (a b : TaskControlLevel) : bool := Nat.ltb (control_index a) (control_index b).
(** [std::cmp::max(a, b)]. *)
Definition control_max (a b : TaskControlLevel) : TaskControlLevel :=
  if control_lt b a then a else b.

Inductive WorkPhase := ShapingPhase | Implementation.
#[export] Instance WorkPhase_eq_dec : EqDecision WorkPhase.
Proof. solve_decision. Defined.

Inductive AcceptancePolicy := Required | NotRequired | PolicyDependent.
#[export] Instance AcceptancePolicy_eq_dec : EqDecision AcceptancePolicy.
Proof. solve_decision. Defined.

Inductive TaskLifecyclePhase :=
| PShaping | PReady | PExecuting | PWaitingUser | PBlocked
| PCompleted | PCancelled | PSuperseded.
#[export] Instance TaskLifecyclePhase_eq_dec : EqDecision TaskLifecyclePhase.
Proof. solve_decision. Defined.

(** ** User actions *)

Inductive JudgmentKind :=
| JProductDecision | JTechnicalDecision | JScopeDecision | JSensitiveApproval
| JFinalAcceptance | JResidualRiskAcceptance | JCancellation.
#[export] Instance JudgmentKind_eq_dec : EqDecision JudgmentKind.
Proof. solve_decision. Defined.

Inductive UserActionKind :=
| ProductDecision | TechnicalDecision | ScopeDecision | SensitiveApproval
| FinalAcceptance | ResidualRiskAcceptance | Cancellation | EvidenceObservation.
#[export] Instance UserActionKind_eq_dec : EqDecision UserActionKind.
Proof. solve_decision. Defined.

(** How a choice is presented. *)
Inductive JudgmentPresentation := Short.
#[export] Instance JudgmentPresentation_eq_dec : EqDecision JudgmentPresentation.
Proof. solve_decision. Defined.

Definition action_kind_of_judgment (k : JudgmentKind) : UserActionKind :=
  match k with
  | JProductDecision => ProductDecision
  | JTechnicalDecision => TechnicalDecision
  | JScopeDecision => ScopeDecision
  | JSensitiveApproval => SensitiveApproval
  | JFinalAcceptance => FinalAcceptance
  | JResidualRiskAcceptance => ResidualRiskAcceptance
  | JCancellation => Cancellation
  end.

Definition judgment_kind (k : UserActionKind) : option JudgmentKind :=
  match k with
  | ProductDecision => Some JProductDecision
  | TechnicalDecision => Some JTechnicalDecision
  | ScopeDecision => Some JScopeDecision
  | SensitiveApproval => Some JSensitiveApproval
  | FinalAcceptance => Some JFinalAcceptance
  | ResidualRiskAcceptance => Some JResidualRiskAcceptance
  | Cancellation => Some JCancellation
  | EvidenceObservation => None
  end.

Inductive UserActionRequiredFor :=
| ForScopeUpdate | ForAdvanceTask | ForFinalizeAdvice | ForPrepareWrite | ForRecordRun
| ForCloseComplete | ForCloseCancel | ForCloseSupersede | ForInformational.
#[export] Instance UserActionRequiredFor_eq_dec : EqDecision UserActionRequiredFor.
Proof. solve_decision. Defined.

Definition is_compatible_with_required_for
    (kind : UserActionKind) (required_for : UserActionRequiredFor) : bool :=
  match required_for with
  | ForScopeUpdate =>
      match kind with ProductDecision | TechnicalDecision | ScopeDecision => true | _ => false end
  | ForPrepareWrite | ForAdvanceTask | ForCloseSupersede =>
      match kind with
      | ProductDecision | TechnicalDecision | ScopeDecision | SensitiveApproval => true
      | _ => false
      end
  | ForFinalizeAdvice =>
      match kind with
      | ProductDecision | TechnicalDecision | SensitiveApproval => true
      | _ => false
      end
  | ForRecordRun =>
      match kind with
      | ProductDecision | TechnicalDecision | ScopeDecision | SensitiveApproval
      | EvidenceObservation => true
      | _ => false
      end
  | ForCloseComplete =>
      match kind with
      | ProductDecision | TechnicalDecision | ScopeDecision | SensitiveApproval
      | FinalAcceptance | ResidualRiskAcceptance | EvidenceObservation => true
      | _ => false
      end
  | ForCloseCancel => match kind with Cancellation => true | _ => false end
  | ForInformational => true
  end.

Inductive UserActionStatus := UAPending | UAResolved | UAStale | UASuperseded | UAExpired.
#[export] Instance UserActionStatus_eq_dec : EqDecision UserActionStatus.
Proof. solve_decision. Defined.

Inductive JudgmentResolutionOutcome := Accepted | Rejected | Deferred.
#[export] Instance JudgmentResolutionOutcome_eq_dec : EqDecision JudgmentResolutionOutcome.
Proof. solve_decision. Defined.

Inductive UserActionOptionAction := Accept | Reject | Defer.
#[export] Instance UserActionOptionAction_eq_dec : EqDecision UserActionOptionAction.
Proof. solve_decision. Defined.

Definition option_action_outcome (a : UserActionOptionAction) : JudgmentResolutionOutcome :=
  match a with Accept => Accepted | Reject => Rejected | Defer => Deferred end.

Inductive UserActionBasisStatus := BasisCurrent | BasisStale | BasisSuperseded.
#[export] Instance UserActionBasisStatus_eq_dec : EqDecision UserActionBasisStatus.
Proof. solve_decision. Defined.

Inductive UserActionVerificationBasis := CliDirectUserChannel.
#[export] Instance UserActionVerificationBasis_eq_dec : EqDecision UserActionVerificationBasis.
Proof. solve_decision. Defined.

(** ** Change Units and Write Tickets *)

Inductive ChangeUnitEffectKind :=
| ProductFileWrite | ArtifactRegistration | RunRecording | UserActionRequestEffect
| EvidenceUpdate | SensitiveAction | ExternalNetwork | SecretAccess.
#[export] Instance ChangeUnitEffectKind_eq_dec : EqDecision ChangeUnitEffectKind.
Proof. solve_decision. Defined.

Inductive PrepareWriteDecision := DAllowed | DBlocked | DApprovalRequired | DDecisionRequired.
#[export] Instance PrepareWriteDecision_eq_dec : EqDecision PrepareWriteDecision.
Proof. solve_decision. Defined.

Inductive WriteTicketEffect := EffectNone | EffectWouldIssue | EffectIssued | EffectReused.
#[export] Instance WriteTicketEffect_eq_dec : EqDecision WriteTicketEffect.
Proof. solve_decision. Defined.

Inductive WriteTicketStatus := TActive | TConsumed | TInvalidated | TRevoked.
#[export] Instance WriteTicketStatus_eq_dec : EqDecision WriteTicketStatus.
Proof. solve_decision. Defined.

Inductive WriteTicketInvalidationReason :=
| IScopeRevisionChanged | IChangeUnitChanged | IBaselineChanged | IWorkspaceChanged
| IApprovalBasisChanged | IIdleTimeout | ITaskClosed | IExplicitRevoke.
#[export] Instance WriteTicketInvalidationReason_eq_dec : EqDecision WriteTicketInvalidationReason.
Proof. solve_decision. Defined.

Inductive WriteDecisionCategory :=
| CScope | CWorkspace | CUserAction | CSensitiveApproval | CWriteCompatibility
| CBaseline | CEffectContract | CConnectionCapability.
#[export] Instance WriteDecisionCategory_eq_dec : EqDecision WriteDecisionCategory.
Proof. solve_decision. Defined.

(** ** Shaping decisions *)

Module Shaping.

Inductive ShapingGapKind :=
| GoalMissing | ScopeBoundaryMissing | NonGoalsMissing | AcceptanceCriteriaMissing
| AutonomyBoundaryMissing | ImplementationBoundaryMissing | BaselineMissing
| UserProductDecisionRequired | UserTechnicalDecisionRequired
| UserScopeDecisionRequired | SensitiveApprovalRequired.
#[export] Instance ShapingGapKind_eq_dec : EqDecision ShapingGapKind.
Proof. solve_decision. Defined.

Inductive ShapingDecisionApplicationOwner := OwnUpdateScope | OwnAdvanceTask | OwnFinalizeAdvice.
#[export] Instance ShapingDecisionApplicationOwner_eq_dec :
  EqDecision ShapingDecisionApplicationOwner.
Proof. solve_decision. Defined.

Record ShapingDecisionPolicy := {
  user_action_kind : UserActionKind;
  policy_required_for : list UserActionRequiredFor;
  application_owner : ShapingDecisionApplicationOwner;
  changes_scope_revision : bool;
  retain_resolution_for_downstream : bool;
}.

Definition is_user_owned (k : ShapingGapKind) : bool :=
  match k with
  | UserProductDecisionRequired | UserTechnicalDecisionRequired
  | UserScopeDecisionRequired | SensitiveApprovalRequired => true
  | _ => false
  end.

Definition gap_judgment_kind (k : ShapingGapKind) : option JudgmentKind :=
  match k with
  | UserProductDecisionRequired => Some JProductDecision
  | UserTechnicalDecisionRequired => Some JTechnicalDecision
  | UserScopeDecisionRequired => Some JScopeDecision
  | SensitiveApprovalRequired => Some JSensitiveApproval
  | GoalMissing | ScopeBoundaryMissing | NonGoalsMissing | AcceptanceCriteriaMissing
  | AutonomyBoundaryMissing | ImplementationBoundaryMissing | BaselineMissing => None
  end.

Definition advisor_or_work_required_for (mode : TaskMode) : list UserActionRequiredFor :=
  match mode with Advisor => [ForFinalizeAdvice] | _ => [ForAdvanceTask] end.

Definition advisor_or_work_application_owner (mode : TaskMode) : ShapingDecisionApplicationOwner :=
  match mode with Advisor => OwnFinalizeAdvice | _ => OwnAdvanceTask end.

Definition decision_policy_for_mode (k : ShapingGapKind) (mode : TaskMode)
    : option ShapingDecisionPolicy :=
  match k with
  | UserProductDecisionRequired =>
      Some {| user_action_kind := ProductDecision;
              policy_required_for := advisor_or_work_required_for mode;
              application_owner := advisor_or_work_application_owner mode;
              changes_scope_revision := false;
              retain_resolution_for_downstream := false |}
  | UserTechnicalDecisionRequired =>
      Some {| user_action_kind := TechnicalDecision;
              policy_required_for := advisor_or_work_required_for mode;
              application_owner := advisor_or_work_application_owner mode;
              changes_scope_revision := false;
              retain_resolution_for_downstream := false |}
  | UserScopeDecisionRequired =>
      Some {| user_action_kind := ScopeDecision;
              policy_required_for := [ForScopeUpdate];
              application_owner := OwnUpdateScope;
              changes_scope_revision := true;
              retain_resolution_for_downstream := false |}
  | SensitiveApprovalRequired =>
      Some {| user_action_kind := SensitiveApproval;
              policy_required_for :=
                match mode with
                | Advisor => [ForFinalizeAdvice]
                | _ => [ForAdvanceTask; ForPrepareWrite; ForRecordRun; ForCloseComplete]
                end;
              application_owner := advisor_or_work_application_owner mode;
              changes_scope_revision := false;
              retain_resolution_for_downstream := true |}
  | GoalMissing | ScopeBoundaryMissing | NonGoalsMissing | AcceptanceCriteriaMissing
  | AutonomyBoundaryMissing | ImplementationBoundaryMissing | BaselineMissing => None
  end.

Inductive ShapingGapStatus := GapCurrent | GapAccepted | GapRejected | GapDeferred | GapApplied.
#[export] Instance ShapingGapStatus_eq_dec : EqDecision ShapingGapStatus.
Proof. solve_decision. Defined.

Inductive ApplicationAuthorityStatus := AppCurrent | AppStale | AppSuperseded.
#[export] Instance ApplicationAuthorityStatus_eq_dec : EqDecision ApplicationAuthorityStatus.
Proof. solve_decision. Defined.

Inductive ShapingDecisionAuthorityState :=
| AwaitingUser | AcceptedUnapplied | Applied | SRejected | SDeferred | SExpired
| SStale | SSuperseded | Inconsistent.
#[export] Instance ShapingDecisionAuthorityState_eq_dec :
  EqDecision ShapingDecisionAuthorityState.
Proof. solve_decision. Defined.

Inductive ShapingDecisionRecoveryReason := RecRejected | RecDeferred | RecExpired.

Definition recovery_reason (s : ShapingDecisionAuthorityState)
    : option ShapingDecisionRecoveryReason :=
  match s with
  | SRejected => Some RecRejected
  | SDeferred => Some RecDeferred
  | SExpired => Some RecExpired
  | AwaitingUser | AcceptedUnapplied | Applied | SStale | SSuperseded | Inconsistent => None
  end.

Record ShapingDecisionAuthorityFacts := {
  effective_user_action_status : UserActionStatus;
  resolution_present : bool;
  f_machine_action : option UserActionOptionAction;
  f_resolution_outcome : option JudgmentResolutionOutcome;
  request_basis_status : UserActionBasisStatus;
  basis_compatibility_status : UserActionBasisStatus;
  checkpoint_identity_matches : bool;
  gap_identity_matches : bool;
  resolution_identity_matches : bool;
  policy_matches : bool;
  verified_user_channel : bool;
  task_mode_matches : bool;
  scope_revision_matches : bool;
  baseline_matches_fact : bool;
  change_unit_matches : bool;
  gap_status : ShapingGapStatus;
  application_present : bool;
  application_authority_status : option ApplicationAuthorityStatus;
  application_identity_matches : bool;
  application_lineage_current : bool;
}.

Definition exact_resolution (f : ShapingDecisionAuthorityFacts)
    (a : UserActionOptionAction) (o : JudgmentResolutionOutcome) : bool :=
  resolution_present f && resolution_identity_matches f && verified_user_channel f &&
  (f_machine_action f =? Some a) && (f_resolution_outcome f =? Some o).

Definition evaluate_shaping_decision_authority (f : ShapingDecisionAuthorityFacts)
    : ShapingDecisionAuthorityState :=
  let exact_accepted_resolution := exact_resolution f Accept Accepted in
  if (effective_user_action_status f =? UASuperseded) ||
     (application_authority_status f =? Some AppSuperseded)
  then SSuperseded
  else if (effective_user_action_status f =? UAStale) ||
          (application_authority_status f =? Some AppStale)
  then
    if (application_authority_status f =? Some AppStale) &&
       (negb (application_present f) || negb (application_identity_matches f) ||
        negb (policy_matches f) || negb (task_mode_matches f) ||
        negb exact_accepted_resolution)
    then Inconsistent
    else SStale
  else
    let identity_matches :=
      checkpoint_identity_matches f && gap_identity_matches f &&
      policy_matches f && task_mode_matches f in
    if negb identity_matches then Inconsistent else
    let current_compatible_basis :=
      (request_basis_status f =? BasisCurrent) &&
      (basis_compatibility_status f =? BasisCurrent) &&
      scope_revision_matches f && baseline_matches_fact f && change_unit_matches f in
    if negb current_compatible_basis then Inconsistent else
    match effective_user_action_status f with
    | UAPending =>
        if negb (resolution_present f) && (gap_status f =? GapCurrent)
        then AwaitingUser else Inconsistent
    | UAExpired =>
        if negb (resolution_present f) && (gap_status f =? GapCurrent)
        then SExpired else Inconsistent
    | UAResolved =>
        if exact_accepted_resolution then
          if application_present f then
            if negb (application_identity_matches f) then Inconsistent
            else match application_authority_status f with
                 | Some AppCurrent =>
                     if application_lineage_current f && (gap_status f =? GapApplied)
                     then Applied else Inconsistent
                 | Some AppStale => SStale
                 | Some AppSuperseded => SSuperseded
                 | None => Inconsistent
                 end
          else if gap_status f =? GapAccepted then AcceptedUnapplied else Inconsistent
        else if exact_resolution f Reject Rejected then
          if gap_status f =? GapRejected then SRejected else Inconsistent
        else if exact_resolution f Defer Deferred then
          if gap_status f =? GapDeferred then SDeferred else Inconsistent
        else Inconsistent
    | UAStale | UASuperseded => Inconsistent
    end.

End Shaping.

(** ** Lemmas *)

Lemma strip_agent_prefix raw connection_id :
  strip_prefix agent_connection_prefix raw = Some connection_id →
  raw ≠ "local_user" ∧ raw ≠ "system".
Proof. by intros ->%strip_prefix_Some. Qed.

Lemma control_lt_true a b : control_lt a b = true ↔ control_index a < control_index b.
Proof. apply Nat.ltb_lt. Qed.
Lemma control_index_inj a b : control_index a = control_index b → a = b.
Proof. by destruct a, b. Qed.
Lemma control_max_index a b :
  control_index (control_max a b) = Nat.max (control_index a) (control_index b).
Proof. by destruct a, b. Qed.

Lemma StateRecordKind_str_inj k1 k2 : StateRecordKind_str k1 = StateRecordKind_str k2 → k1 = k2.
Proof. destruct k1, k2; vm_compute; congruence. Qed.

(** ** Lemmas: actor spellings *)

Lemma actor_from_canonical a parsed :
  actor_from_str (actor_to_canonical_string a) = Some parsed → parsed = a.
Proof.
  destruct a as [c| |]; [|by intros [= <-]..]. unfold actor_from_str, actor_to_canonical_string.
  destruct (_ =? _) eqn:E1; [by breflect|]. destruct (_ =? _) eqn:E2; [by breflect|].
  rewrite strip_prefix_append. destruct (str_is_empty c); [done|]. by intros [= <-].
Qed.
