(* ===== verification/Canonical.v ===== *)
(** * Canonical: canonical scalars and canonical JSON order

    Models [crates/volicord-types/src/canonical.rs]: the digest and Git object
    id validators, the lowercase hex encoder, and [sort_json_value], the
    recursive key sort that makes canonical JSON independent of insertion
    order.  Serialization to bytes ([serde_json]) and SHA-256 ([sha2]) are
    outside the repository and are not modelled here. *)

From Stdlib Require Import Ascii.
From S2P Require Import Prelude Text.

Definition is_canonical_sha256_hex (value : string) : bool :=
  (String.length value =? 64) && str_forall is_ascii_lower_hex value.

Definition is_canonical_sha256_digest (value : string) : bool :=
  is_some_and (strip_prefix "sha256:" value) is_canonical_sha256_hex.

Inductive GitObjectIdError := MkGitObjectIdError.

Definition canonical_git_object_id (value : string) : result string GitObjectIdError :=
  if negb ((String.length value =? 40) || (String.length value =? 64))
     || negb (str_forall is_ascii_hexdigit value)
  then Err MkGitObjectIdError
  else Ok (to_ascii_lowercase value).

(** ** [lowercase_hex] *)

Definition hex_digit (n : N) : ascii :=
  if (n <? 10)%N then ascii_of_N (48 + n) else ascii_of_N (87 + n).

Fixpoint lowercase_hex (bytes : list ascii) : string :=
  match bytes with
  | [] => EmptyString
  | b :: bytes' =>
      String (hex_digit (N.shiftr (byte b) 4))
        (String (hex_digit (N.land (byte b) 15)) (lowercase_hex bytes'))
  end.

(** ** [sort_json_value] *)

(** [serde_json::Value]; a number is kept by its token. *)
Inductive Value :=
| Null
| Bool (b : bool)
| Number (token : string)
| Str (s : string)
| Array (items : list Value)
| Object (map : list (string * Value)).

(** [BTreeMap::insert]: a later entry replaces an equal key. *)
Fixpoint btm_insert {V} (key : string) (v : V) (m : list (string * V)) : list (string * V) :=
  match m with
  | [] => [(key, v)]
  | (k, w) :: m' =>
      match rcompare key k with
      | Lt => (key, v) :: (k, w) :: m'
      | Eq => (k, v) :: m'
      | Gt => (k, w) :: btm_insert key v m'
      end
  end.

Fixpoint sort_json_value (value : Value) : Value :=
  match value with
  | Array items => Array (map sort_json_value items)
  | Object m =>
      Object (fold_left (λ sorted kv, btm_insert kv.1 kv.2 sorted)
                (map (λ kv, (kv.1, sort_json_value kv.2)) m) [])
  | Null | Bool _ | Number _ | Str _ => value
  end.

(** Two documents that differ only in the order of object members, at any
    depth; member names are distinct, as in a [serde_json::Map]. *)
Inductive json_equiv : Value → Value → Prop :=
| je_null : json_equiv Null Null
| je_bool b : json_equiv (Bool b) (Bool b)
| je_number t : json_equiv (Number t) (Number t)
| je_str s : json_equiv (Str s) (Str s)
| je_array l l' : Forall2 json_equiv l l' → json_equiv (Array l) (Array l')
| je_object m m' n :
    NoDup m.*1 →
    Forall2 (λ p q, p.1 = q.1 ∧ json_equiv p.2 q.2) m n → n ≡ₚ m' →
    json_equiv (Object m) (Object m').

(** ** Lemmas *)

#[local] Arguments rcompare : simpl never.

Section btm.
Context {V : Type}.
Implicit Types (m n : list (string * V)) (k : string) (v : V).

Definition keys_sorted m : Prop := StronglySorted (λ p q : string * V, rlt p.1 q.1) m.

Lemma elem_of_btm_insert k v m p :
  keys_sorted m → p ∈ btm_insert k v m ↔ p = (k, v) ∨ p ∈ m ∧ p.1 ≠ k.
Proof.
  induction 1 as [|[k' w] m Hm IH Hk']; simpl; [set_solver|].
  rewrite Forall_forall in Hk'. destruct (rcompare k k') eqn:E.
  - apply rcompare_eq in E as ->. rewrite !elem_of_cons.
    split; [|intros [->|[[->|?] Hne]]; [auto|by destruct Hne|auto]].
    intros [->|Hp]; [auto|]. right. split; [auto|].
    intros <-. by apply (rlt_irrefl p.1), (Hk' p).
  - rewrite !elem_of_cons. split; [|by intros [->|[? ?]]; auto].
    intros [->|[->|Hp]]; [auto|right; split; [auto|]..].
    + simpl. intros ->. by eapply rlt_irrefl.
    + intros <-. apply (rlt_irrefl k'). etrans; [by apply Hk'|done].
  - rewrite !elem_of_cons, IH. split; [|by intros [->|[[->|?] ?]]; auto].
    intros [->|[->|[Hp Hne]]]; auto. right. split; [auto|]. simpl. intros ->.
    by rewrite rcompare_refl in E.
Qed.

Lemma btm_insert_sorted k v m : keys_sorted m → keys_sorted (btm_insert k v m).
Proof.
  unfold keys_sorted. induction 1 as [|[k' w] m Hm IH Hk']; simpl; [repeat constructor|].
  destruct (rcompare k k') eqn:E.
  - apply rcompare_eq in E as ->. by constructor.
  - constructor; [by constructor|]. constructor; [done|].
    eapply Forall_impl; [done|]. simpl. intros q Hq. by etrans.
  - constructor; [done|]. apply Forall_forall. intros q Hq.
    apply elem_of_btm_insert in Hq as [->|[Hq _]]; [by apply rcompare_lt_gt| |done].
    rewrite Forall_forall in Hk'. auto.
Qed.

Lemma btm_fold_sorted l m :
  keys_sorted m → keys_sorted (fold_left (λ s kv, btm_insert kv.1 kv.2 s) l m).
Proof. revert m. induction l; intros m Hm; simpl; auto using btm_insert_sorted. Qed.

Lemma elem_of_btm_fold l m p :
  keys_sorted m → NoDup l.*1 →
  p ∈ fold_left (λ s kv, btm_insert kv.1 kv.2 s) l m ↔ p ∈ l ∨ p ∈ m ∧ p.1 ∉ l.*1.
Proof.
  revert m. induction l as [|[k v] l IH]; intros m Hm Hnd; simpl; [set_solver|].
  apply NoDup_cons in Hnd as [Hk Hnd]. rewrite IH by auto using btm_insert_sorted.
  rewrite elem_of_btm_insert, !elem_of_cons by done. split.
  - intros [?|[[->|[? ?]] ?]]; auto. right. split; [done|]. by intros [?|?].
  - intros [[->|?]|[? Hn]]; [right; split; [by left|done]|by left|].
    right. split; [right; split; [done|]; intros ?|intros ?]; tauto.
Qed.

Lemma keys_sorted_ext m n :
  keys_sorted m → keys_sorted n → (∀ p, p ∈ m ↔ p ∈ n) → m = n.
Proof.
  intros Hm. revert n. induction Hm as [|p m Hm IH Hp]; intros n Hn Hext.
  { destruct n as [|q n]; [done|]. exfalso. apply (not_elem_of_nil q), Hext. constructor. }
  destruct Hn as [|q n Hn Hq].
  { exfalso. apply (not_elem_of_nil p), Hext. constructor. }
  rewrite Forall_forall in Hp, Hq.
  assert (p = q) as ->.
  { assert (p ∈ q :: n) as [?|H1]%elem_of_cons by (apply Hext; constructor); [done|].
    assert (q ∈ p :: m) as [?|H2]%elem_of_cons by (apply Hext; constructor); [done|].
    exfalso. apply (rlt_irrefl p.1). transitivity q.1; [by apply Hp|by apply Hq]. }
  f_equal. apply IH; [done|]. intros r. split; intros Hr.
  - assert (r ∈ q :: n) as [->|?]%elem_of_cons by (apply Hext; by constructor); [|done].
    exfalso. by eapply (rlt_irrefl q.1), Hp.
  - assert (r ∈ q :: m) as [->|?]%elem_of_cons by (apply Hext; by constructor); [|done].
    exfalso. by eapply (rlt_irrefl q.1), Hq.
Qed.

Lemma keys_sorted_NoDup m : keys_sorted m → NoDup m.*1.
Proof.
  induction 1 as [|p m Hm IH Hp]; simpl; constructor; [|done].
  rewrite list_elem_of_fmap. intros (q & Hpq & Hq). rewrite Forall_forall in Hp.
  apply Hp in Hq. rewrite Hpq in Hq. by eapply rlt_irrefl.
Qed.

Lemma btm_fold_perm (l l' : list (string * V)) :
  NoDup l.*1 → l ≡ₚ l' →
  fold_left (λ s kv, btm_insert kv.1 kv.2 s) l [] =
  fold_left (λ s kv, btm_insert kv.1 kv.2 s) l' [].
Proof.
  intros Hnd Hp. assert (NoDup l'.*1) by by rewrite <-Hp.
  assert (keys_sorted []) by constructor.
  apply keys_sorted_ext; auto using btm_fold_sorted.
  intros q. rewrite !elem_of_btm_fold by done. by rewrite Hp.
Qed.

Lemma btm_fold_id m : keys_sorted m → fold_left (λ s kv, btm_insert kv.1 kv.2 s) m [] = m.
Proof.
  intros Hm. pose proof (keys_sorted_NoDup m Hm).
  apply keys_sorted_ext; [apply btm_fold_sorted; constructor|done|].
  intros p. rewrite elem_of_btm_fold by (done || constructor). set_solver.
Qed.

Lemma btm_insert_subset k v m p : p ∈ btm_insert k v m → p = (k, v) ∨ p ∈ m.
Proof.
  induction m as [|[k' w] m IH]; simpl; [set_solver|].
  destruct (rcompare k k') eqn:E; [apply rcompare_eq in E as ->|..]; set_solver.
Qed.

Lemma btm_fold_subset l m p :
  p ∈ fold_left (λ s kv, btm_insert kv.1 kv.2 s) l m → p ∈ l ∨ p ∈ m.
Proof.
  revert m. induction l as [|[k v] l IH]; intros m; simpl; [auto|].
  intros [?|[->|?]%btm_insert_subset]%IH; set_solver.
Qed.
End btm.

(** Structural induction through arrays and objects. *)
Lemma Value_nested_ind (P : Value → Prop)
    (Hnull : P Null) (Hbool : ∀ b, P (Bool b)) (Hnum : ∀ t, P (Number t)) (Hstr : ∀ s, P (Str s))
    (Harr : ∀ l, Forall P l → P (Array l))
    (Hobj : ∀ m, Forall (λ kv, P kv.2) m → P (Object m)) :
  ∀ v, P v.
Proof.
  fix rec 1. intros [|b|t|s|l|m];
    [apply Hnull|apply Hbool|apply Hnum|apply Hstr|..].
  - apply Harr. induction l as [|v l IH]; constructor; [apply rec|done].
  - apply Hobj. induction m as [|[k v] m IH]; constructor; [apply rec|done].
Qed.

Lemma hex_digit_hex n : (n < 16)%N → is_ascii_lower_hex (hex_digit n) = true.
Proof.
  intros H. assert (n ∈ N.of_nat <$> seq 0 16) as Hin.
  { apply list_elem_of_fmap. exists (N.to_nat n). rewrite N2Nat.id. split; [done|].
    apply elem_of_seq. lia. }
  revert n H Hin. simpl. intros n _.
  rewrite !elem_of_cons. intros Hin. repeat destruct Hin as [->|Hin]; try reflexivity.
  by apply not_elem_of_nil in Hin.
Qed.

Lemma hex_high_nibble a : (N.shiftr (byte a) 4 < 16)%N.
Proof. by destruct a as [[] [] [] [] [] [] [] []]. Qed.
Lemma hex_low_nibble a : (N.land (byte a) 15 < 16)%N.
Proof. by destruct a as [[] [] [] [] [] [] [] []]. Qed.

Lemma lowercase_hex_ok bytes :
  String.length (lowercase_hex bytes) = 2 * length bytes ∧
  str_forall is_ascii_lower_hex (lowercase_hex bytes) = true.
Proof.
  induction bytes as [|b bytes [IHl IHf]]; simpl; [done|].
  rewrite !hex_digit_hex, IHf by auto using hex_high_nibble, hex_low_nibble.
  split; [lia|done].
Qed.

Lemma map_keys {V} (f : V → V) (m : list (string * V)) :
  (map (λ kv, (kv.1, f kv.2)) m).*1 = m.*1.
Proof. induction m; simpl; by f_equal. Qed.

Lemma sort_json_equiv_object (f : Value → Value) (m n : list (string * Value)) :
  Forall2 (λ p q, p.1 = q.1 ∧ f p.2 = f q.2) m n →
  map (λ kv, (kv.1, f kv.2)) m = map (λ kv, (kv.1, f kv.2)) n.
Proof. induction 1 as [|p q m n [Hk Hv] _ IH]; simpl; [done|]. by rewrite Hk, Hv, IH. Qed.

Lemma git_object_id_canonical (value id : string) :
  canonical_git_object_id value = Ok id →
  String.length id = String.length value ∧
  str_forall is_ascii_lower_hex id = true ∧
  canonical_git_object_id id = Ok id.
Proof.
  unfold canonical_git_object_id. intros H. unravel H. breflect.
  rename select (str_forall _ _ = true) into Hhex.
  assert (str_forall is_ascii_lower_hex (to_ascii_lowercase value) = true) as Hlow
    by (eapply str_forall_map; [apply lower_hex_lowercase|done]).
  assert (str_forall is_ascii_hexdigit (to_ascii_lowercase value) = true) as Hhex'
    by (eapply str_forall_impl; [apply lower_hex_hexdigit|done]).
  assert (String.length (to_ascii_lowercase value) = String.length value) as Hlen
    by apply str_map_length.
  split_and!; [done..|]. rewrite Hlen, Hhex'.
  assert (to_ascii_lowercase (to_ascii_lowercase value) = to_ascii_lowercase value) as ->
    by (eapply str_map_id; [apply lowercase_lower_hex|done]).
  case_goal; [|done]. breflect. destruct_or!; breflect; congruence.
Qed.

Lemma git_object_id_stable value id :
  canonical_git_object_id value = Ok id → canonical_git_object_id id = Ok id.
Proof. intros H%git_object_id_canonical. tauto. Qed.

(** ** Theorems *)

(** Canonical JSON does not depend on member order: documents that differ
    only in the order of object members, at any depth, are sorted to the same
    document. *)
Theorem sort_json_value_canonical (v w : Value) :
  json_equiv v w → sort_json_value v = sort_json_value w.
Proof.
  revert w. induction v as [| | | |l IH|m IH] using Value_nested_ind; intros w Hw; inv Hw; try done.
  - simpl. f_equal. rename select (Forall2 _ _ _) into Hl. clear -IH Hl.
    induction Hl; simpl; [done|]. apply Forall_cons in IH as [? ?]. f_equal; auto.
  - simpl. f_equal. rename select (_ ≡ₚ _) into Hp. rename select (Forall2 _ _ _) into Hmn.
    rewrite (sort_json_equiv_object sort_json_value m n).
    2:{ clear -IH Hmn. induction Hmn as [|p q ? ? [? ?] ? IHm]; constructor.
        - apply Forall_cons in IH as [? ?]. auto.
        - apply Forall_cons in IH as [? ?]. auto. }
    apply btm_fold_perm; [|by apply Permutation_map].
    rewrite map_keys. assert (n.*1 = m.*1) as ->; [|done].
    clear -Hmn. induction Hmn as [|? ? ? ? [Hk ?] ? IHm]; [done|].
    rewrite !fmap_cons, IHm. by f_equal.
Qed.

(** Sorting is idempotent: a canonical document is its own canonical form. *)
Theorem sort_json_value_idemp (v : Value) : sort_json_value (sort_json_value v) = sort_json_value v.
Proof.
  induction v as [| | | |l IH|m IH] using Value_nested_ind; try done.
  - simpl. f_equal. rewrite map_map. induction IH; simpl; congruence.
  - cbn [sort_json_value]. f_equal.
    set (g := λ kv : string * Value, (kv.1, sort_json_value kv.2)).
    set (s := fold_left _ (map g m) []).
    assert (keys_sorted s) as Hs by (apply btm_fold_sorted; constructor).
    assert (map g s = s) as ->; [|by apply btm_fold_id].
    assert (∀ p, p ∈ s → sort_json_value p.2 = p.2) as Hfix.
    { intros p [Hp|Hp]%btm_fold_subset; [|by apply not_elem_of_nil in Hp].
      apply list_elem_of_fmap in Hp as (kv & -> & Hkv).
      rewrite Forall_forall in IH. by apply IH. }
    clear -Hfix. induction s as [|p s IHs]; [done|]. simpl. unfold g at 1.
    rewrite IHs by set_solver. rewrite Hfix by set_solver. by destruct p.
Qed.

(** ** Witnesses *)

Lemma sort_json_value_canonical_witness :
  sort_json_value (Object [("b", Null); ("a", Bool true)]) =
  sort_json_value (Object [("a", Bool true); ("b", Null)]).
Proof.
  apply sort_json_value_canonical.
  apply je_object with (n := [("b", Null); ("a", Bool true)]).
  - by apply NoDup_ListNoDup; repeat constructor; set_solver.
  - repeat constructor.
  - apply Permutation_swap.
Defined.
