(* ===== verification/EventHash.v ===== *)
(** * EventHash: the preimage of an authority-event hash and the hash chain

    Models [authority_event_hash] of
    [crates/volicord-store/src/core_pipeline/commit.rs] and
    [lowercase_hex_bytes] of [validation.rs].  Every field is written as its
    decimal byte length, a colon, its bytes and a newline; SHA-256 itself is
    library code and enters as the parameter [sha256] of the definitions.  The
    theorems show that the framing loses nothing, and that the last hash of a
    chain determines the whole history as long as SHA-256 has no collision among
    the preimages at hand. *)

From Stdlib Require Import Ascii Decimal DecimalString DecimalN DecimalZ.
From S2P Require Import Prelude Text Canonical.

(** ** Decimal text *)

(** [usize::to_string] and [i64::to_string]. *)
Definition decimal_of_nat (n : nat) : string := NilZero.string_of_uint (N.to_uint (N.of_nat n)).
Definition decimal_of_Z (z : Z) : string := NilZero.string_of_int (Z.to_int z).

(** ** [lowercase_hex_bytes] *)

Definition HEX : string := "0123456789abcdef".

Definition hex_table (n : N) : ascii := default Ascii.zero (String.get (N.to_nat n) HEX).

Fixpoint lowercase_hex_bytes (bytes : list ascii) : string :=
  match bytes with
  | [] => EmptyString
  | b :: bytes' =>
      String (hex_table (N.shiftr (byte b) 4))
        (String (hex_table (N.land (byte b) 15)) (lowercase_hex_bytes bytes'))
  end.

(** ** [authority_event_hash] *)

Record AuthorityEventHashInput := {
  hi_project_id : string;
  hi_event_seq : Z;
  hi_event_id : string;
  hi_state_version : Z;
  hi_event_type : string;
  hi_actor_source : string;
  hi_operation_category : string;
  hi_task_id : option string;
  hi_change_unit_id : option string;
  hi_payload_json : string;
  hi_request_hash : string;
  hi_previous_event_hash : option string;
  hi_created_at : string;
}.

(** [update_field]: what one field adds to the hashed bytes. *)
Definition update_field (hasher field : string) : string :=
  String.append hasher
    (String.append (decimal_of_nat (String.length field))
      (String ":" (String.append field (String "010" EmptyString)))).

(** The thirteen fields in the order in which they are hashed. *)
Definition hash_fields (input : AuthorityEventHashInput) : list string :=
  [hi_project_id input; decimal_of_Z (hi_event_seq input); hi_event_id input;
   decimal_of_Z (hi_state_version input); hi_event_type input; hi_actor_source input;
   hi_operation_category input; default "" (hi_task_id input);
   default "" (hi_change_unit_id input); hi_payload_json input; hi_request_hash input;
   default "" (hi_previous_event_hash input); hi_created_at input].

Definition event_preimage (input : AuthorityEventHashInput) : string :=
  fold_left update_field (hash_fields input) EmptyString.

Definition authority_event_hash (sha256 : string → list ascii) (input : AuthorityEventHashInput)
    : string :=
  String.append "sha256:" (lowercase_hex_bytes (sha256 (event_preimage input))).

(** ** Lemmas: decimal text *)

Lemma string_of_uint_clean c d :
  (∀ n : nat, n < 10 → ascii_of_nat (48 + n) ≠ c) →
  str_contains_byte c (NilEmpty.string_of_uint d) = false.
Proof.
  intros Hc. rewrite str_contains_byte_false.
  induction d as [|d IH|d IH|d IH|d IH|d IH|d IH|d IH|d IH|d IH|d IH]; [done|..];
    cbn; rewrite IH, andb_true_r; apply negb_true_iff, eqb_false.
  - apply (Hc 0); lia.
  - apply (Hc 1); lia.
  - apply (Hc 2); lia.
  - apply (Hc 3); lia.
  - apply (Hc 4); lia.
  - apply (Hc 5); lia.
  - apply (Hc 6); lia.
  - apply (Hc 7); lia.
  - apply (Hc 8); lia.
  - apply (Hc 9); lia.
Qed.

Lemma decimal_no_colon n : str_contains_byte ":" (decimal_of_nat n) = false.
Proof.
  assert (∀ d, str_contains_byte ":" (NilEmpty.string_of_uint d) = false) as Hclean.
  { intros d. apply string_of_uint_clean. intros k Hk.
    do 10 (destruct k as [|k]; [done|]). lia. }
  unfold decimal_of_nat, NilZero.string_of_uint. destruct (N.to_uint _); try done; apply Hclean.
Qed.

(** Reading the text back gives the number. *)
Lemma decimal_of_nat_inj n m : decimal_of_nat n = decimal_of_nat m → n = m.
Proof.
  assert (∀ k, N.of_uint <$> NilZero.uint_of_string (decimal_of_nat k) = Some (N.of_nat k)) as Hinv.
  { intros k. unfold decimal_of_nat. pose proof (DecimalN.Unsigned.of_to (N.of_nat k)) as Hof.
    destruct (uint_eq_dec (N.to_uint (N.of_nat k)) Nil) as [Hnil|Hne].
    - rewrite Hnil in *. cbn in *. by rewrite <-Hof.
    - rewrite NilZero.usu by done. cbn. by rewrite Hof. }
  intros H. apply Nat2N.inj, (inj Some). by rewrite <-!Hinv, H.
Qed.

Lemma decimal_of_Z_inj z w : decimal_of_Z z = decimal_of_Z w → z = w.
Proof.
  assert (∀ k, Z.of_int <$> NilZero.int_of_string (decimal_of_Z k) = Some k) as Hinv.
  { intros k. unfold decimal_of_Z. pose proof (DecimalZ.of_to k) as Hof.
    destruct (int_eq_dec (Z.to_int k) (Pos Nil)) as [Hp|Hp]; [|
      destruct (int_eq_dec (Z.to_int k) (Neg Nil)) as [Hn|Hn]].
    - rewrite Hp in *. cbn in *. by rewrite <-Hof.
    - rewrite Hn in *. cbn in *. by rewrite <-Hof.
    - rewrite NilZero.isi by done. cbn. by rewrite Hof. }
  intros H. apply (inj Some). by rewrite <-!Hinv, H.
Qed.

(** ** Lemmas: hexadecimal text *)

Lemma hex_table_digit n : (n < 16)%N → hex_table n = hex_digit n.
Proof.
  intros Hn. assert (n ∈ N.of_nat <$> seq 0 16) as Hin.
  { apply list_elem_of_fmap. exists (N.to_nat n). rewrite elem_of_seq. lia. }
  cbn in Hin. repeat (apply elem_of_cons in Hin as [->|Hin]; [done|]). by apply elem_of_nil in Hin.
Qed.

Lemma lowercase_hex_bytes_eq bytes : lowercase_hex_bytes bytes = lowercase_hex bytes.
Proof.
  induction bytes as [|b bytes IH]; [done|]. cbn [lowercase_hex_bytes lowercase_hex].
  by rewrite !hex_table_digit, IH by auto using hex_high_nibble, hex_low_nibble.
Qed.

Definition unhex (a b : ascii) : ascii :=
  ascii_of_N (16 * match String.index 0 (String a "") HEX with Some i => N.of_nat i | None => 0 end
              + match String.index 0 (String b "") HEX with Some i => N.of_nat i | None => 0 end).

Lemma unhex_table b : unhex (hex_table (N.shiftr (byte b) 4)) (hex_table (N.land (byte b) 15)) = b.
Proof. by destruct b as [[] [] [] [] [] [] [] []]. Qed.

Lemma lowercase_hex_bytes_inj l k : lowercase_hex_bytes l = lowercase_hex_bytes k → l = k.
Proof.
  revert k. induction l as [|b l IH]; intros [|c k]; cbn [lowercase_hex_bytes]; try done.
  intros [= H1 H2 H3]. f_equal; [|by apply IH].
  by rewrite <-(unhex_table b), <-(unhex_table c), H1, H2.
Qed.

(** ** Lemmas: the framing *)

Definition frame (field : string) : string := update_field EmptyString field.

Lemma append_cut c a b x y :
  str_contains_byte c a = false → str_contains_byte c b = false →
  String.append a (String c x) = String.append b (String c y) → a = b ∧ x = y.
Proof.
  rewrite !str_contains_byte_false. revert b.
  induction a as [|d a IH]; intros [|e b]; cbn; intros Ha Hb Heq; simplify_eq; [done|..].
  - by rewrite eqb_refl in Hb.
  - by rewrite eqb_refl in Ha.
  - apply andb_true_iff in Ha as [_ Ha], Hb as [_ Hb]. by destruct (IH b) as [-> ->].
Qed.

Lemma append_split a b x y :
  String.length a = String.length b → String.append a x = String.append b y → a = b ∧ x = y.
Proof.
  revert b. induction a as [|d a IH]; intros [|e b]; cbn; intros Hl Heq; simplify_eq; [done|].
  by destruct (IH b) as [-> ->].
Qed.

Lemma frame_cut f g x y : String.append (frame f) x = String.append (frame g) y → f = g ∧ x = y.
Proof.
  unfold frame, update_field. cbn [String.append]. rewrite !append_assoc. cbn [String.append].
  rewrite !append_assoc. cbn [String.append].
  intros [Hd H]%append_cut; [|apply decimal_no_colon..].
  apply decimal_of_nat_inj in Hd. apply append_split in H as [-> [= ->]]; done.
Qed.

Lemma frame_nonempty f x : String.append (frame f) x ≠ EmptyString.
Proof.
  intros H%(f_equal String.length). unfold frame, update_field in H.
  cbn [String.append] in H. rewrite !append_length in H. cbn in H. lia.
Qed.

Lemma fold_update_field fields acc :
  fold_left update_field fields acc =
  String.append acc (fold_right (λ f s, String.append (frame f) s) EmptyString fields).
Proof.
  revert acc. induction fields as [|f fields IH]; intros acc; cbn [fold_left fold_right].
  - by rewrite append_nil_r.
  - rewrite IH. unfold frame at 2, update_field. cbn [String.append]. by rewrite append_assoc.
Qed.

Lemma framed_fields_inj l k :
  fold_left update_field l EmptyString = fold_left update_field k EmptyString → l = k.
Proof.
  rewrite !fold_update_field. cbn [String.append]. revert k.
  induction l as [|f l IH]; intros [|g k]; cbn; [done|..].
  - intros H. by destruct (frame_nonempty g (fold_right (λ f s, String.append (frame f) s) "" k)).
  - intros H. by destruct (frame_nonempty f (fold_right (λ f s, String.append (frame f) s) "" l)).
  - intros [-> H%IH]%frame_cut. by rewrite H.
Qed.

Lemma authority_event_hash_fields sha256 a b :
  (sha256 (event_preimage a) = sha256 (event_preimage b) → event_preimage a = event_preimage b) →
  authority_event_hash sha256 a = authority_event_hash sha256 b → hash_fields a = hash_fields b.
Proof.
  intros Hinj H%append_inj_l. apply framed_fields_inj, Hinj. by apply lowercase_hex_bytes_inj.
Qed.

(** ** Authority events as rows *)

Record AuthorityEvent := {
  ev_project_id : string;
  ev_event_seq : Z;
  ev_event_id : string;
  ev_state_version : Z;
  ev_event_type : string;
  ev_actor_source : string;
  ev_operation_category : string;
  ev_task_id : option string;
  ev_change_unit_id : option string;
  ev_payload_json : string;
  ev_request_hash : string;
  ev_previous_event_hash : option string;
  ev_event_hash : string;
  ev_created_at : string;
}.

Definition event_hash_input (e : AuthorityEvent) : AuthorityEventHashInput :=
  {| hi_project_id := ev_project_id e; hi_event_seq := ev_event_seq e;
     hi_event_id := ev_event_id e; hi_state_version := ev_state_version e;
     hi_event_type := ev_event_type e; hi_actor_source := ev_actor_source e;
     hi_operation_category := ev_operation_category e; hi_task_id := ev_task_id e;
     hi_change_unit_id := ev_change_unit_id e; hi_payload_json := ev_payload_json e;
     hi_request_hash := ev_request_hash e; hi_previous_event_hash := ev_previous_event_hash e;
     hi_created_at := ev_created_at e |}.

(** No identifier is the empty text, which the hash does not tell from none. *)
Definition event_scoped (e : AuthorityEvent) : Prop :=
  ev_task_id e ≠ Some "" ∧ ev_change_unit_id e ≠ Some "".

Section chain.
Context (sha256 : string → list ascii).

(** The digest separates the preimages of these events. *)
Definition collision_free (events : list AuthorityEvent) : Prop :=
  ∀ e f, e ∈ events → f ∈ events →
    sha256 (event_preimage (event_hash_input e)) = sha256 (event_preimage (event_hash_input f)) →
    event_preimage (event_hash_input e) = event_preimage (event_hash_input f).

(** Events in sequence order: each carries its own hash and its predecessor's. *)
Fixpoint chained (previous : option string) (events : list AuthorityEvent) : Prop :=
  match events with
  | [] => True
  | e :: rest =>
      ev_previous_event_hash e = previous ∧
      ev_event_hash e = authority_event_hash sha256 (event_hash_input e) ∧
      chained (Some (ev_event_hash e)) rest
  end.

(** The hash the next event links to. *)
Definition chain_head (previous : option string) (events : list AuthorityEvent) : option string :=
  match last events with Some e => Some (ev_event_hash e) | None => previous end.

Lemma chain_head_cons previous e events :
  chain_head previous (e :: events) = chain_head (Some (ev_event_hash e)) events.
Proof. unfold chain_head. rewrite last_cons. by destruct (last events). Qed.

Lemma chained_app previous l k :
  chained previous (l ++ k) ↔ chained previous l ∧ chained (chain_head previous l) k.
Proof.
  revert previous. induction l as [|e l IH]; intros previous; [naive_solver|].
  cbn [app chained]. rewrite IH, chain_head_cons. naive_solver.
Qed.

Lemma option_default_inj (o p : option string) :
  default "" o = default "" p → o ≠ Some "" → p ≠ Some "" → o = p.
Proof. destruct o, p; simpl; intros; congruence. Qed.

(** Equal hash fields and an equal hash leave no room for another event. *)
Lemma event_fields_inj e f :
  hash_fields (event_hash_input e) = hash_fields (event_hash_input f) →
  event_scoped e → event_scoped f →
  ev_previous_event_hash e ≠ Some "" → ev_previous_event_hash f ≠ Some "" →
  ev_event_hash e = ev_event_hash f → e = f.
Proof.
  destruct e, f. unfold hash_fields, event_scoped. cbn.
  intros [= ? Hs ? Hv ? ? ? Ht Hc ? ? Hp ?] [] [] ? ? ?.
  apply decimal_of_Z_inj in Hs, Hv. apply option_default_inj in Ht, Hc, Hp; [|done..]. by subst.
Qed.

Lemma authority_event_hash_nonempty input : authority_event_hash sha256 input ≠ "".
Proof. done. Qed.

Lemma chained_previous_nonempty l e :
  chained None (l ++ [e]) → ev_previous_event_hash e ≠ Some "".
Proof.
  rewrite chained_app. intros (Hl & Hp & _). rewrite Hp. unfold chain_head.
  destruct l as [|f l _] using rev_ind; [done|]. rewrite last_snoc.
  apply chained_app in Hl as (_ & _ & -> & _). done.
Qed.
End chain.

(** ** Theorems *)

(** Two events never share a preimage by accident of framing: where SHA-256
    has no collision between them, equal event hashes mean equal project, sequence
    number, id, state version, type, actor, category, payload, request hash,
    predecessor and time, and equal scope up to the empty identifier. *)
Theorem authority_event_hash_binds sha256 a b :
  (sha256 (event_preimage a) = sha256 (event_preimage b) → event_preimage a = event_preimage b) →
  authority_event_hash sha256 a = authority_event_hash sha256 b →
  hi_project_id a = hi_project_id b ∧ hi_event_seq a = hi_event_seq b ∧
  hi_event_id a = hi_event_id b ∧ hi_state_version a = hi_state_version b ∧
  hi_event_type a = hi_event_type b ∧ hi_actor_source a = hi_actor_source b ∧
  hi_operation_category a = hi_operation_category b ∧
  default "" (hi_task_id a) = default "" (hi_task_id b) ∧
  default "" (hi_change_unit_id a) = default "" (hi_change_unit_id b) ∧
  hi_payload_json a = hi_payload_json b ∧ hi_request_hash a = hi_request_hash b ∧
  default "" (hi_previous_event_hash a) = default "" (hi_previous_event_hash b) ∧
  hi_created_at a = hi_created_at b.
Proof.
  intros Hinj H%authority_event_hash_fields; [|done]. unfold hash_fields in H.
  injection H as ? Hs ? Hv. apply decimal_of_Z_inj in Hs, Hv. by split_and!.
Qed.

(** The log of authority events is tamper evident: the hash of the last
    event determines every event before it and how many there are, unless SHA-256
    collides on two preimages of the two logs. *)
Theorem chain_head_determines_history sha256 l k :
  collision_free sha256 (l ++ k) →
  chained sha256 None l → chained sha256 None k →
  Forall event_scoped l → Forall event_scoped k →
  chain_head None l = chain_head None k → l = k.
Proof.
  revert k. induction l as [|e l IH] using rev_ind; intros k Hinj Hl Hk Sl Sk.
  - destruct k as [|f k _] using rev_ind; [done|]. unfold chain_head. by rewrite last_snoc.
  - destruct k as [|f k _] using rev_ind; unfold chain_head; rewrite !last_snoc; [done|].
    intros [= Heq]. pose proof (chained_previous_nonempty _ _ _ Hl) as Ne.
    pose proof (chained_previous_nonempty _ _ _ Hk) as Nf.
    apply chained_app in Hl as (Hl & Pe & He & _), Hk as (Hk & Pf & Hf & _).
    apply Forall_app in Sl as [Sl Se], Sk as [Sk Sf]. rewrite Forall_singleton in Se, Sf.
    assert (e = f) as <-.
    { apply event_fields_inj; try done.
      apply (authority_event_hash_fields sha256); [apply Hinj; set_solver|].
      by rewrite <-He, <-Hf. }
    f_equal. apply IH; try done; [|by rewrite <-Pe, <-Pf].
    intros x y Hx Hy. apply Hinj; set_solver.
Qed.

(** ** Witnesses *)

Definition sample_event_at (seq : Z) (id : string) (previous : option string) (hash : string)
    : AuthorityEvent :=
  {| ev_project_id := "p"; ev_event_seq := seq; ev_event_id := id; ev_state_version := seq;
     ev_event_type := "write_prepared"; ev_actor_source := "local_user";
     ev_operation_category := "agent_workflow"; ev_task_id := Some "t1";
     ev_change_unit_id := None; ev_payload_json := "{}"; ev_request_hash := "h";
     ev_previous_event_hash := previous; ev_event_hash := hash; ev_created_at := "0" |}.

(** A collision-free stand-in for the digest: the bytes themselves. *)
Definition identity_digest : string → list ascii := String.list_ascii_of_string.

Lemma identity_digest_inj p q : identity_digest p = identity_digest q → p = q.
Proof.
  unfold identity_digest. intros H.
  by rewrite <-(String.string_of_list_ascii_of_string p), H, String.string_of_list_ascii_of_string.
Qed.

Lemma identity_collision_free events : collision_free identity_digest events.
Proof. intros e f _ _. apply identity_digest_inj. Qed.

Definition sample_chain : list AuthorityEvent :=
  let h1 := authority_event_hash identity_digest (event_hash_input (sample_event_at 1 "e1" None "")) in
  let h2 := authority_event_hash identity_digest
              (event_hash_input (sample_event_at 2 "e2" (Some h1) "")) in
  [sample_event_at 1 "e1" None h1; sample_event_at 2 "e2" (Some h1) h2].

Lemma authority_event_hash_binds_witness :
  hi_event_id (event_hash_input (sample_event_at 1 "e1" None "")) =
  hi_event_id (event_hash_input (sample_event_at 1 "e1" None "x")).
Proof.
  apply (authority_event_hash_binds identity_digest (event_hash_input (sample_event_at 1 "e1" None ""))
    (event_hash_input (sample_event_at 1 "e1" None "x")) (identity_digest_inj _ _) eq_refl).
Defined.

Lemma chain_head_determines_history_witness :
  sample_chain = [sample_event_at 1 "e1" None
                    (authority_event_hash identity_digest
                       (event_hash_input (sample_event_at 1 "e1" None "")))] ++ tail sample_chain.
Proof.
  assert (chained identity_digest None sample_chain) as Hc
    by (vm_compute; repeat split).
  assert (Forall event_scoped sample_chain) as Hs by (repeat constructor; discriminate).
  apply (chain_head_determines_history identity_digest _ _ (identity_collision_free _) Hc Hc Hs Hs).
  reflexivity.
Defined.
