(* ===== verification/Schema.v ===== *)
(** * Schema: the shared authority records

    Models the records of [crates/volicord-types/src/schema.rs],
    [crates/volicord-store/src/core_pipeline/{tasks,change_units,project_state}.rs]
    and [crates/volicord-user-action-service/src/model.rs] that the policy code
    reads.  [RequiredNullable<T>] is [option T]; [u64] revisions and versions
    are [N].  Field names carry a prefix naming their record. *)

From S2P Require Import Prelude Text ProductPath Values.

(** ** References *)

Record StateRecordRef := {
  sr_record_kind : StateRecordKind;
  sr_record_id : RecordId;
  sr_project_id : ProjectId;
  sr_task_id : option TaskId;
  sr_produced_at_state_version : option N;
}.
#[export] Instance StateRecordRef_eq_dec : EqDecision StateRecordRef.
Proof. solve_decision. Defined.

Record UserActionResolutionIdentity := {
  ri_project_id : ProjectId;
  ri_task_id : TaskId;
  ri_resolution_id : UserActionResolutionId;
}.
#[export] Instance UserActionResolutionIdentity_eq_dec : EqDecision UserActionResolutionIdentity.
Proof. solve_decision. Defined.

Definition resolution_identity_key (i : UserActionResolutionIdentity) : string * (string * string) :=
  (ri_project_id i, (ri_task_id i, ri_resolution_id i)).

(** The derived [Ord]: lexicographic in field order. *)
#[export] Instance resolution_identity_ord : RustOrd UserActionResolutionIdentity.
Proof.
  refine (rust_ord_inj resolution_identity_key _).
  intros [] []. unfold resolution_identity_key. simpl. congruence.
Defined.

(** [UserActionResolutionRef]; its record kind is a singleton type. *)
Record UserActionResolutionRef := {
  rr_record_id : UserActionResolutionId;
  rr_project_id : ProjectId;
  rr_task_id : TaskId;
  rr_produced_at_state_version : N;
}.
#[export] Instance UserActionResolutionRef_eq_dec : EqDecision UserActionResolutionRef.
Proof. solve_decision. Defined.

(** [UserActionResolutionRef::identity]: the state version is not identity. *)
Definition resolution_ref_identity (r : UserActionResolutionRef) : UserActionResolutionIdentity :=
  {| ri_project_id := rr_project_id r; ri_task_id := rr_task_id r;
     ri_resolution_id := rr_record_id r |}.

(** ** Artifacts and evidence targets *)

Inductive EvidenceTarget :=
| AcceptanceCriterion (acceptance_criterion_id : string)
| SupplementalClaim (evidence_claim_id statement : string).
#[export] Instance EvidenceTarget_eq_dec : EqDecision EvidenceTarget.
Proof. solve_decision. Defined.

(** The derived [Ord] of the enum: constructor index, then the fields. *)
Definition evidence_target_key (t : EvidenceTarget) : N * (string * string) :=
  match t with
  | AcceptanceCriterion id => (0%N, (id, ""))
  | SupplementalClaim id st => (1%N, (id, st))
  end.
#[export] Instance evidence_target_ord : RustOrd EvidenceTarget.
Proof. refine (rust_ord_inj evidence_target_key _). intros [] []; simpl; congruence. Defined.

Inductive ArtifactIntegrityStatus := AIVerified | AICorrupt.
#[export] Instance ArtifactIntegrityStatus_eq_dec : EqDecision ArtifactIntegrityStatus.
Proof. solve_decision. Defined.

Inductive RedactionState := RedNone | Redacted | SecretOmitted | RedBlocked.
#[export] Instance RedactionState_eq_dec : EqDecision RedactionState.
Proof. solve_decision. Defined.

Inductive ArtifactAvailability :=
| AAvailable | AUnavailable | AMissing | AIntegrityFailed | ABlocked | AUnusable.
#[export] Instance ArtifactAvailability_eq_dec : EqDecision ArtifactAvailability.
Proof. solve_decision. Defined.

Record ArtifactRef := {
  ar_artifact_id : ArtifactId;
  ar_project_id : ProjectId;
  ar_task_id : TaskId;
  ar_display_name : string;
  ar_content_type : option string;
  ar_sha256 : option string;
  ar_size_bytes : option N;
  ar_integrity_status : ArtifactIntegrityStatus;
  ar_redaction_state : RedactionState;
  ar_availability : ArtifactAvailability;
  ar_created_by_run_ref : option StateRecordRef;
  ar_created_by_actor_source : option ActorSource;
  ar_storage_ref : option string;
}.
#[export] Instance ArtifactRef_eq_dec : EqDecision ArtifactRef.
Proof. solve_decision. Defined.

Inductive EvidenceRelevanceStatus := Unassessed | Supported | Contradicted.
#[export] Instance EvidenceRelevanceStatus_eq_dec : EqDecision EvidenceRelevanceStatus.
Proof. solve_decision. Defined.

(** ** Sensitive-action scopes, Change Units and close bases *)

Record SensitiveActionScope := {
  sas_action_kind : string;
  sas_description : string;
  sas_intended_paths : list string;
  sas_sensitive_categories : list string;
  sas_command_or_tool_summary : option string;
  sas_network_or_host_summary : option string;
  sas_secret_or_credential_summary : option string;
  sas_capability_claim : string;
  sas_expires_at : option UtcTimestamp;
}.
#[export] Instance SensitiveActionScope_eq_dec : EqDecision SensitiveActionScope.
Proof. solve_decision. Defined.

Record ChangeUnitEffectContract := {
  allowed_effects : list ChangeUnitEffectKind;
  forbidden_effects : list ChangeUnitEffectKind;
  allowed_paths : list string;
  expected_outputs : list string;
  invariants : list string;
  evidence_expectations : list string;
  sensitive_action_expectations : list string;
}.
#[export] Instance ChangeUnitEffectContract_eq_dec : EqDecision ChangeUnitEffectContract.
Proof. solve_decision. Defined.

Definition advisor_observe_only_effect_contract : ChangeUnitEffectContract :=
  {| allowed_effects := [ArtifactRegistration; UserActionRequestEffect; EvidenceUpdate];
     forbidden_effects :=
       [ProductFileWrite; RunRecording; SensitiveAction; ExternalNetwork; SecretAccess];
     allowed_paths := []; expected_outputs := []; invariants := [];
     evidence_expectations := []; sensitive_action_expectations := [] |}.

Definition advisor_compatible_change_unit
    (affected_paths : list string) (effect_contract : option ChangeUnitEffectContract) : bool :=
  list_is_empty affected_paths &&
  (effect_contract =? Some advisor_observe_only_effect_contract).

Record ResidualRisk := {
  risk_id : RiskId;
  risk_summary : string;
  risk_consequence : string;
  acceptance_required : bool;
  risk_source_refs : list StateRecordRef;
}.
#[export] Instance ResidualRisk_eq_dec : EqDecision ResidualRisk.
Proof. solve_decision. Defined.

Record SensitiveActionRequirement := {
  sreq_action_kind : string;
  sreq_normalized_paths : list string;
  sreq_sensitive_categories : list string;
  sreq_baseline_ref : option BaselineRef;
  sreq_change_unit_id : ChangeUnitId;
  sreq_source_run_ref : StateRecordRef;
  sreq_source_write_ticket_ref : StateRecordRef;
}.

Record CurrentCloseBasis := {
  cb_close_basis_revision : N;
  cb_scope_revision : N;
  cb_task_id : TaskId;
  cb_change_unit_id : ChangeUnitId;
  cb_baseline_ref : option BaselineRef;
  cb_result_summary : string;
  cb_result_refs : list StateRecordRef;
  cb_evidence_refs : list StateRecordRef;
  cb_evidence_summary_ref : option StateRecordRef;
  cb_residual_risks : list ResidualRisk;
  cb_sensitive_categories : list string;
  cb_sensitive_action_requirements : list SensitiveActionRequirement;
  cb_recovery_constraints : list string;
  cb_source_run_ref : option StateRecordRef;
  cb_shaping_checkpoint_ref : option StateRecordRef;
  cb_shaping_decision_application_refs : list StateRecordRef;
  cb_updated_at : UtcTimestamp;
}.

Record RiskAcceptanceCoverage := {
  cov_risk_id : RiskId;
  cov_accepted : bool;
  cov_accepted_by_user_action_resolution_refs : list StateRecordRef;
  cov_missing_reason : option string;
}.

(** ** User-action requests, bases and resolutions *)

Record UserActionBasisCoordinates := {
  co_task_id : TaskId;
  co_change_unit_id : option ChangeUnitId;
  co_scope_revision : N;
  co_baseline_ref : option BaselineRef;
  co_created_at_state_version : N;
  co_compatibility_status : UserActionBasisStatus;
}.

Record UserActionChoiceBasis := {
  ch_coordinates : UserActionBasisCoordinates;
  ch_close_basis_revision : option N;
  ch_result_refs : list StateRecordRef;
  ch_residual_risk_ids : list RiskId;
  ch_sensitive_action_scope : option SensitiveActionScope;
}.

Record UserActionEvidenceObservationBasis := {
  eo_coordinates : UserActionBasisCoordinates;
  eo_target_candidates : list EvidenceTarget;
  eo_artifact_candidates : list ArtifactRef;
}.

Inductive UserActionBasis :=
| BasisChoice (choice : UserActionChoiceBasis)
| BasisEvidenceObservation (observation : UserActionEvidenceObservationBasis).

Definition coordinates (b : UserActionBasis) : UserActionBasisCoordinates :=
  match b with
  | BasisChoice choice => ch_coordinates choice
  | BasisEvidenceObservation observation => eo_coordinates observation
  end.

Definition compatibility_status (b : UserActionBasis) : UserActionBasisStatus :=
  match b with
  | BasisChoice choice => co_compatibility_status (ch_coordinates choice)
  | BasisEvidenceObservation observation => co_compatibility_status (eo_coordinates observation)
  end.

Definition close_basis_revision (b : UserActionBasis) : option N :=
  match b with
  | BasisChoice choice => ch_close_basis_revision choice
  | BasisEvidenceObservation _ => None
  end.

Definition result_refs (b : UserActionBasis) : list StateRecordRef :=
  match b with
  | BasisChoice choice => ch_result_refs choice
  | BasisEvidenceObservation _ => []
  end.

Definition residual_risk_ids (b : UserActionBasis) : list RiskId :=
  match b with
  | BasisChoice choice => ch_residual_risk_ids choice
  | BasisEvidenceObservation _ => []
  end.

Definition sensitive_action_scope (b : UserActionBasis) : option SensitiveActionScope :=
  match b with
  | BasisChoice choice => ch_sensitive_action_scope choice
  | BasisEvidenceObservation _ => None
  end.

Record UserActionOption := {
  opt_option_id : UserActionOptionId;
  opt_label : string;
  opt_description : string;
  opt_consequence : string;
  opt_machine_action : UserActionOptionAction;
  opt_resolution_outcome : JudgmentResolutionOutcome;
  opt_is_default : bool;
}.

Record UserActionOptionInput := {
  oi_option_id : UserActionOptionId;
  oi_label : string;
  oi_description : string;
  oi_consequence : string;
  oi_is_default : bool;
}.

Record AcceptedRiskInput := {
  ari_risk_id : RiskId;
  ari_summary : string;
  ari_consequence : string;
  ari_related_refs : list StateRecordRef;
  ari_accepted_for_close : bool;
}.

Record UserActionContext := {
  uctx_summary : string;
  uctx_related_refs : list StateRecordRef;
  uctx_artifact_refs : list ArtifactRef;
  uctx_visible_risks : list AcceptedRiskInput;
  uctx_constraints : list string;
}.

(** The request bodies; [JudgmentPresentation] has the one value [Short]. *)
Record UserActionChoiceRequestBody := {
  cr_judgment_kind : JudgmentKind;
  cr_presentation : JudgmentPresentation;
  cr_question : string;
  cr_options : list UserActionOption;
  cr_context : UserActionContext;
  cr_affected_refs : list StateRecordRef;
  cr_sensitive_action_scope : option SensitiveActionScope;
}.

Record UserActionEvidenceObservationRequestBody := {
  er_question : string;
  er_context_summary : string;
  er_target_candidates : list EvidenceTarget;
  er_artifact_candidates : list ArtifactRef;
}.

Inductive UserActionRequestBody :=
| BodyChoice (choice : UserActionChoiceRequestBody)
| BodyEvidenceObservation (observation : UserActionEvidenceObservationRequestBody).

Definition body_action_kind (b : UserActionRequestBody) : UserActionKind :=
  match b with
  | BodyChoice choice => action_kind_of_judgment (cr_judgment_kind choice)
  | BodyEvidenceObservation _ => EvidenceObservation
  end.

Definition body_affected_refs (b : UserActionRequestBody) : list StateRecordRef :=
  match b with
  | BodyChoice choice => cr_affected_refs choice
  | BodyEvidenceObservation _ => []
  end.

Record UserActionEvidenceObservation := {
  ob_target : EvidenceTarget;
  ob_relevance_status : EvidenceRelevanceStatus;
  ob_output_artifact_refs : list ArtifactRef;
  ob_summary : string;
}.

Inductive UserActionResolutionBody :=
| ResolutionChoice
    (selected_option_id : UserActionOptionId) (machine_action : UserActionOptionAction)
    (resolution_outcome : JudgmentResolutionOutcome) (note : option string)
    (accepted_risk_ids : list RiskId)
| ResolutionEvidenceObservation (observation : UserActionEvidenceObservation).

Inductive UserActionResolutionInput :=
| InputChoice (selected_option_id : UserActionOptionId) (note : option string)
| InputEvidenceObservation
    (target : EvidenceTarget) (artifact_ids : list ArtifactId)
    (relevance_status : EvidenceRelevanceStatus) (summary : string).

(** [effective_user_action_status]: [None] when the clock precedes creation. *)
Definition effective_user_action_status
    (basis_status : UserActionBasisStatus) (created_at : UtcTimestamp)
    (expires_at : option UtcTimestamp) (has_resolution : bool) (now : UtcTimestamp)
    : option UserActionStatus :=
  if ts_lt now created_at then None
  else Some (match basis_status with
             | BasisStale => UAStale
             | BasisSuperseded => UASuperseded
             | BasisCurrent =>
                 if has_resolution then UAResolved
                 else if is_some_and expires_at (λ e, ts_ge now e) then UAExpired
                 else UAPending
             end).

(** Normalized authority facts decoded from one user-action record. *)
Record UserActionAuthority := {
  ua_project_id : ProjectId;
  ua_user_action_request_id : UserActionRequestId;
  ua_user_action_resolution_id : option UserActionResolutionId;
  ua_task_id : TaskId;
  ua_action_kind : UserActionKind;
  ua_status : UserActionStatus;
  ua_required_for : list UserActionRequiredFor;
  ua_affected_refs : list StateRecordRef;
  ua_machine_action : option UserActionOptionAction;
  ua_resolution_outcome : option JudgmentResolutionOutcome;
  ua_resolved_by_actor_source : option ActorSource;
  ua_resolved_verification_basis : option UserActionVerificationBasis;
  ua_resolved_assurance_level : option string;
  ua_basis_status : UserActionBasisStatus;
  ua_basis : option UserActionBasis;
  ua_resolution : option UserActionResolutionBody;
  ua_expires_at : option UtcTimestamp;
}.

(** [UserActionAuthority::resolution_identity]. *)
Definition authority_resolution_identity (a : UserActionAuthority)
    : option UserActionResolutionIdentity :=
  (λ resolution_id, {| ri_project_id := ua_project_id a; ri_task_id := ua_task_id a;
                       ri_resolution_id := resolution_id |}) <$> ua_user_action_resolution_id a.

(** ** Stored project, Task and Change Unit rows

    The rows carry the typed fields the policy code branches on; their opaque
    JSON columns, titles and lineage columns are left out. *)

Record ProjectStateHeader := {
  ps_project_id : string;
  ps_state_version : N;
  ps_active_task_id : option string;
}.

Record TaskShapingFacts := {
  goal_summary : option string;
  scope_summary : option string;
  non_goals : list string;
  shaping_baseline_ref : option BaselineRef;
  shaping_autonomy_boundary : option string;
}.

Record TaskRecord := {
  tk_project_id : string;
  tk_task_id : string;
  tk_mode : TaskMode;
  tk_requested_control_level : RequestedControlLevel;
  tk_effective_control_level : TaskControlLevel;
  tk_control_level_reason : string;
  tk_work_phase : WorkPhase;
  tk_acceptance_policy : AcceptancePolicy;
  tk_acceptance_policy_reason : string;
  tk_lifecycle_phase : TaskLifecyclePhase;
  tk_summary : option string;
  tk_shaping : TaskShapingFacts;
  tk_autonomy_boundary : option string;
  tk_scope_revision : N;
  tk_close_basis_revision : N;
  tk_current_change_unit_id : option string;
}.

Record GitWorkspaceContext := {
  git_common_dir : string;
  worktree_id : string;
  branch_ref : option string;
  head_sha : option string;
  workspace_fingerprint : string;
}.
#[export] Instance GitWorkspaceContext_eq_dec : EqDecision GitWorkspaceContext.
Proof. solve_decision. Defined.

Inductive ChangeUnitStatus := CUProposed | CUActive | CUReplaced | CUClosed.
#[export] Instance ChangeUnitStatus_eq_dec : EqDecision ChangeUnitStatus.
Proof. solve_decision. Defined.

Record ChangeUnitRecord := {
  cu_project_id : string;
  cu_change_unit_id : string;
  cu_task_id : string;
  cu_status : ChangeUnitStatus;
  cu_is_current : bool;
  cu_basis_state_version : N;
  cu_bounded_paths : list string;
  cu_write_basis_baseline_ref : option BaselineRef;
  cu_write_basis_git_workspace_context : option GitWorkspaceContext;
  cu_effect_contract : option ChangeUnitEffectContract;
  cu_recovery_required : bool;
}.

(** ** Write Ticket boundary records *)

Record WriteTicketValidityBasis := {
  vb_task_id : TaskId;
  vb_change_unit_id : ChangeUnitId;
  vb_scope_revision : N;
  vb_baseline_ref : option BaselineRef;
  vb_workspace_context_sha256 : option string;
  vb_write_authority_fingerprint : string;
  vb_approval_basis_refs : list UserActionResolutionRef;
}.
#[export] Instance WriteTicketValidityBasis_eq_dec : EqDecision WriteTicketValidityBasis.
Proof. solve_decision. Defined.

Record WriteTicketAttemptScope := {
  as_task_id : TaskId;
  as_change_unit_id : ChangeUnitId;
  as_intended_operation : string;
  as_intended_paths : list ProductRelativePath;
  as_product_file_write_intended : bool;
  as_sensitive_categories : list string;
  as_baseline_ref : option BaselineRef;
}.

Record ObservedChanges := {
  oc_changed_paths : list string;
  oc_product_file_write_observed : bool;
  oc_sensitive_categories : list string;
  oc_baseline_ref : option BaselineRef;
}.

Record TaskPolicyControlReevaluation := {
  pcr_policy_version : N;
  pcr_policy_fingerprint : string;
  pcr_required_effective_control_level : TaskControlLevel;
  pcr_required_acceptance_policy : option AcceptancePolicy;
  pcr_marked_at : UtcTimestamp;
}.
