(* ===== verification/UserAction.v ===== *)
(** * UserAction: user-owned authority

    Models [crates/volicord-user-action-service/src/{relevance,lifecycle,
    model}.rs]: which pending user action blocks an operation, which resolved user
    action authorizes one, and how pending actions drive the Task lifecycle
    phase. *)

From S2P Require Import Prelude Text ProductPath Values Schema.

(** ** [relevance.rs] *)

Module Relevance.

Inductive UserActionOperation :=
| OpScopeUpdate | OpPrepareWrite | OpRecordRun | OpCloseComplete | OpCloseSupersede.
#[export] Instance UserActionOperation_eq_dec : EqDecision UserActionOperation.
Proof. solve_decision. Defined.

Definition operation_required_for (op : UserActionOperation) : UserActionRequiredFor :=
  match op with
  | OpScopeUpdate => ForScopeUpdate
  | OpPrepareWrite => ForPrepareWrite
  | OpRecordRun => ForRecordRun
  | OpCloseComplete => ForCloseComplete
  | OpCloseSupersede => ForCloseSupersede
  end.

Record SensitiveApprovalRequirement := {
  sar_task_id : TaskId;
  sar_change_unit_id : ChangeUnitId;
  sar_scope_revision : N;
  sar_operation : string;
  sar_normalized_paths : list string;
  sar_sensitive_categories : list string;
  sar_baseline_ref : option BaselineRef;
  sar_required_for : UserActionRequiredFor;
  sar_now : UtcTimestamp;
}.

Record UserActionOperationContext := {
  oc_operation : UserActionOperation;
  oc_task_id : TaskId;
  oc_change_unit_id : option ChangeUnitId;
  oc_scope_revision : N;
  oc_close_basis : option CurrentCloseBasis;
  oc_operation_refs : list StateRecordRef;
  oc_sensitive_approval : option SensitiveApprovalRequirement;
}.

Record CancellationAuthorityRequirement := {
  car_task_id : TaskId;
  car_change_unit_id : option ChangeUnitId;
  car_scope_revision : N;
}.

Definition user_action_has_current_basis (user_action : UserActionAuthority) : bool :=
  (ua_basis_status user_action =? BasisCurrent) &&
  is_some_and (ua_basis user_action)
    (λ basis, compatibility_status basis =? BasisCurrent).

Definition user_action_kind_relevant_to_operation
    (action_kind : UserActionKind) (operation : UserActionOperation) : bool :=
  is_compatible_with_required_for action_kind (operation_required_for operation).

(** The [Debug] spelling of a record kind, used as a sort key. *)
Definition StateRecordKind_debug (k : StateRecordKind) : string :=
  match k with
  | KProjectState => "ProjectState"
  | KTask => "Task"
  | KChangeUnit => "ChangeUnit"
  | KShapingCheckpoint => "ShapingCheckpoint"
  | KShapingGap => "ShapingGap"
  | KShapingDecisionApplication => "ShapingDecisionApplication"
  | KShapingAuthorityReauthorization => "ShapingAuthorityReauthorization"
  | KWriteTicket => "WriteTicket"
  | KUserActionRequest => "UserActionRequest"
  | KUserActionResolution => "UserActionResolution"
  | KRun => "Run"
  | KEvidenceSummary => "EvidenceSummary"
  | KEvidenceObservation => "EvidenceObservation"
  | KEvidenceCaptureIntent => "EvidenceCaptureIntent"
  | KEvidenceProducer => "EvidenceProducer"
  | KArtifact => "Artifact"
  | KBlocker => "Blocker"
  | KTaskEvent => "TaskEvent"
  | KAgentConnection => "AgentConnection"
  | KUnrecordedChange => "UnrecordedChange"
  | KProjectContinuityRecord => "ProjectContinuityRecord"
  end.

Definition state_ref_key (reference : StateRecordRef)
    : string * (string * (string * option string)) :=
  (StateRecordKind_debug (sr_record_kind reference),
    (sr_record_id reference, (sr_project_id reference, sr_task_id reference))).

(** Both key vectors are sorted, then compared. *)
Definition state_refs_match (left right : list StateRecordRef) : bool :=
  rsort (state_ref_key <$> left) =? rsort (state_ref_key <$> right).

Definition final_acceptance_basis_matches_current
    (basis : UserActionBasis) (current : CurrentCloseBasis) : bool :=
  let coordinates := coordinates basis in
  (co_task_id coordinates =? cb_task_id current) &&
  (co_change_unit_id coordinates =? Some (cb_change_unit_id current)) &&
  (co_scope_revision coordinates =? cb_scope_revision current) &&
  (close_basis_revision basis =? Some (cb_close_basis_revision current)) &&
  (co_baseline_ref coordinates =? cb_baseline_ref current) &&
  state_refs_match (result_refs basis) (cb_result_refs current).

Definition residual_risk_basis_matches_current
    (basis : UserActionBasis) (current : CurrentCloseBasis) : bool :=
  let required :=
    bts_of_list (risk_id <$> List.filter acceptance_required (cb_residual_risks current)) in
  (co_task_id (coordinates basis) =? cb_task_id current) &&
  (close_basis_revision basis =? Some (cb_close_basis_revision current)) &&
  (bts_of_list (residual_risk_ids basis) =? required).

Definition basis_matches_operation_context
    (basis : UserActionBasis) (context : UserActionOperationContext) : bool :=
  let coordinates := coordinates basis in
  if (co_task_id coordinates <>? oc_task_id context)
     || (co_scope_revision coordinates <>? oc_scope_revision context)
  then false
  else if is_some_and (oc_change_unit_id context)
            (λ change_unit_id, co_change_unit_id coordinates <>? Some change_unit_id)
  then false
  else match oc_operation context with
       | OpCloseComplete =>
           match oc_close_basis context with
           | Some close_basis =>
               is_none (close_basis_revision basis)
               || final_acceptance_basis_matches_current basis close_basis
               || residual_risk_basis_matches_current basis close_basis
           | None => true
           end
       | OpPrepareWrite | OpRecordRun | OpCloseSupersede | OpScopeUpdate => true
       end.

Definition refs_overlap (left right : StateRecordRef) : bool :=
  if sr_project_id left <>? sr_project_id right then false
  else if (sr_record_kind left =? KTask) && (sr_task_id right =? sr_task_id left) then true
  else if (sr_record_kind right =? KTask) && (sr_task_id left =? sr_task_id right) then true
  else (sr_record_kind left =? sr_record_kind right)
       && (sr_record_id left =? sr_record_id right).

Definition affected_refs_overlap (user_action_refs operation_refs : list StateRecordRef) : bool :=
  if list_is_empty user_action_refs || list_is_empty operation_refs then true
  else existsb (λ judgment_ref, existsb (refs_overlap judgment_ref) operation_refs)
         user_action_refs.

Definition sensitive_action_scope_matches_requirement
    (scope : SensitiveActionScope) (requirement : SensitiveApprovalRequirement) : bool :=
  if is_some_and (sas_expires_at scope) (λ expires_at, ts_ge (sar_now requirement) expires_at)
     || (sas_action_kind scope <>? trim (sar_operation requirement))
  then false
  else if negb (bts_subset (bts_of_list (sar_sensitive_categories requirement))
                  (bts_of_list (sas_sensitive_categories scope)))
  then false
  else match parse_product_paths (sas_intended_paths scope) with
       | Err _ => false
       | Ok approved_paths =>
           forallb (λ path, existsb (λ approved, path_is_within path (path_str approved))
                              approved_paths)
             (sar_normalized_paths requirement)
       end.

Definition user_action_blocks_operation
    (user_action : UserActionAuthority) (context : UserActionOperationContext) : bool :=
  if (ua_status user_action <>? UAPending)
     || negb (user_action_has_current_basis user_action) then false
  else if negb (existsb (λ target, target =? operation_required_for (oc_operation context))
                  (ua_required_for user_action)) then false
  else if negb (user_action_kind_relevant_to_operation
                  (ua_action_kind user_action) (oc_operation context)) then false
  else match ua_basis user_action with
       | None => false
       | Some basis =>
           if negb (basis_matches_operation_context basis context) then false
           else if negb (affected_refs_overlap (ua_affected_refs user_action)
                           (oc_operation_refs context)) then false
           else if ua_action_kind user_action =? SensitiveApproval then
             match oc_sensitive_approval context with
             | None => false
             | Some requirement =>
                 if co_baseline_ref (coordinates basis) <>? sar_baseline_ref requirement
                 then false
                 else match sensitive_action_scope basis with
                      | None => false
                      | Some scope =>
                          sensitive_action_scope_matches_requirement scope requirement
                      end
             end
           else true
       end.

Definition user_action_required_for
    (user_action : UserActionAuthority) (target : UserActionRequiredFor) : bool :=
  contains target (ua_required_for user_action).

Definition verified_user_channel_provenance (user_action : UserActionAuthority) : bool :=
  (ua_resolved_by_actor_source user_action =? Some LocalUser) &&
  is_some (ua_resolved_verification_basis user_action) &&
  is_some_and (ua_resolved_assurance_level user_action)
    (λ value, negb (str_is_empty (trim value))).

Definition accepted_current_user_authority
    (user_action : UserActionAuthority) (required_kind : UserActionKind) : bool :=
  if negb (user_action_has_current_basis user_action)
     || (ua_status user_action <>? UAResolved)
     || (ua_action_kind user_action <>? required_kind)
     || (ua_machine_action user_action <>? Some Accept)
     || (ua_resolution_outcome user_action <>? Some Accepted)
  then false
  else match ua_resolution user_action with
       | Some (ResolutionChoice _ Accept Accepted _ _) => true
       | _ => false
       end && verified_user_channel_provenance user_action.

Definition current_cancellation_authority
    (user_action : UserActionAuthority) (requirement : CancellationAuthorityRequirement) : bool :=
  if negb (accepted_current_user_authority user_action Cancellation)
     || negb (contains ForCloseCancel (ua_required_for user_action))
  then false
  else is_some_and (ua_basis user_action) (λ basis,
         let coordinates := coordinates basis in
         (co_task_id coordinates =? car_task_id requirement) &&
         (co_scope_revision coordinates =? car_scope_revision requirement) &&
         (co_change_unit_id coordinates =? car_change_unit_id requirement)).

Definition current_sensitive_approval
    (user_action : UserActionAuthority) (requirement : SensitiveApprovalRequirement) : bool :=
  if negb (accepted_current_user_authority user_action SensitiveApproval)
     || negb (contains (sar_required_for requirement) (ua_required_for user_action))
  then false
  else match ua_basis user_action with
       | None => false
       | Some basis =>
           let coordinates := coordinates basis in
           if (co_task_id coordinates <>? sar_task_id requirement)
              || (co_change_unit_id coordinates <>? Some (sar_change_unit_id requirement))
              || (co_scope_revision coordinates <>? sar_scope_revision requirement)
              || (co_baseline_ref coordinates <>? sar_baseline_ref requirement)
           then false
           else is_some_and (sensitive_action_scope basis)
                  (λ scope, sensitive_action_scope_matches_requirement scope requirement)
       end.

Definition user_action_keeps_task_waiting
    (user_action : UserActionAuthority) (task_id : TaskId)
    (current_change_unit_id : option ChangeUnitId) (scope_revision : N) : bool :=
  if (ua_status user_action <>? UAPending)
     || negb (user_action_has_current_basis user_action)
     || (ua_task_id user_action <>? task_id)
     || negb (existsb (λ target, target <>? ForInformational) (ua_required_for user_action))
  then false
  else is_some_and (ua_basis user_action) (λ basis,
         let coordinates := coordinates basis in
         (co_task_id coordinates =? task_id) &&
         (co_scope_revision coordinates =? scope_revision) &&
         (co_change_unit_id coordinates =? current_change_unit_id)).

End Relevance.

(** ** [lifecycle.rs] *)

Module Lifecycle.

Definition is_terminal_lifecycle (value : TaskLifecyclePhase) : bool :=
  match value with PCompleted | PCancelled | PSuperseded => true | _ => false end.

(** The private copy of the waiting predicate. *)
Definition user_action_keeps_task_waiting
    (user_action : UserActionAuthority) (task_id : TaskId)
    (current_change_unit_id : option ChangeUnitId) (scope_revision : N) : bool :=
  if (ua_status user_action <>? UAPending)
     || (ua_basis_status user_action <>? BasisCurrent)
     || (ua_task_id user_action <>? task_id)
     || negb (existsb (λ target, target <>? ForInformational) (ua_required_for user_action))
  then false
  else is_some_and (ua_basis user_action) (λ basis,
         (compatibility_status basis =? BasisCurrent) &&
         (co_task_id (coordinates basis) =? task_id) &&
         (co_scope_revision (coordinates basis) =? scope_revision) &&
         (co_change_unit_id (coordinates basis) =? current_change_unit_id)).

Definition projected_user_action_lifecycle_phase
    (project_state : ProjectStateHeader) (task : TaskRecord)
    (current_change_unit : option ChangeUnitRecord)
    (pending_authorities : list UserActionAuthority) : option TaskLifecyclePhase :=
  if (ps_active_task_id project_state <>? Some (tk_task_id task))
     || is_terminal_lifecycle (tk_lifecycle_phase task)
  then None
  else
    let current_change_unit_id := cu_change_unit_id <$> current_change_unit in
    let waits_for_user :=
      existsb (λ authority,
        user_action_keeps_task_waiting authority (tk_task_id task)
          current_change_unit_id (tk_scope_revision task)) pending_authorities in
    let next_phase :=
      if waits_for_user then Some PWaitingUser
      else if tk_lifecycle_phase task =? PWaitingUser then
        Some (if is_some current_change_unit then PReady else PShaping)
      else None in
    match next_phase with
    | None => None
    | Some next_phase => bool_then (tk_lifecycle_phase task <>? next_phase) next_phase
    end.

End Lifecycle.

(** ** [model.rs]: resolution availability *)

Module Availability.

Inductive UserActionResolutionUnavailableReason := AlreadyResolved | StaleR | SupersededR | ExpiredR.

Inductive UserActionResolutionAvailability :=
| Available
| Unavailable (reason : UserActionResolutionUnavailableReason).

Definition from_status (status : UserActionStatus) : UserActionResolutionAvailability :=
  match status with
  | UAPending => Available
  | UAResolved => Unavailable AlreadyResolved
  | UAStale => Unavailable StaleR
  | UASuperseded => Unavailable SupersededR
  | UAExpired => Unavailable ExpiredR
  end.

Definition is_available (a : UserActionResolutionAvailability) : bool :=
  match a with Available => true | Unavailable _ => false end.

End Availability.

(** ** What a resolved user action must be to authorize anything *)

Record user_authorized (a : UserActionAuthority) (kind : UserActionKind) : Prop := {
  uz_status : ua_status a = UAResolved;
  uz_kind : ua_action_kind a = kind;
  uz_basis_status : ua_basis_status a = BasisCurrent;
  uz_basis : ∃ basis, ua_basis a = Some basis ∧ compatibility_status basis = BasisCurrent;
  uz_machine_action : ua_machine_action a = Some Accept;
  uz_outcome : ua_resolution_outcome a = Some Accepted;
  uz_resolution : ∃ option_id note risks,
    ua_resolution a = Some (ResolutionChoice option_id Accept Accepted note risks);
  uz_actor : ua_resolved_by_actor_source a = Some LocalUser;
  uz_verified : is_Some (ua_resolved_verification_basis a);
  uz_assurance : ∃ level, ua_resolved_assurance_level a = Some level ∧ trim level ≠ EmptyString;
}.

Import Relevance.

(** The approved scope covers the requirement: in time, same operation, at
    least its categories, and every path lies below an approved path. *)
Record scope_covers (scope : SensitiveActionScope) (r : SensitiveApprovalRequirement) : Prop := {
  sc_unexpired : ∀ e, sas_expires_at scope = Some e → (sar_now r < e)%Z;
  sc_operation : sas_action_kind scope = trim (sar_operation r);
  sc_categories : ∀ c, c ∈ sar_sensitive_categories r → c ∈ sas_sensitive_categories scope;
  sc_paths : ∃ approved, sas_intended_paths scope = path_str <$> approved ∧
    ∀ path, path ∈ sar_normalized_paths r →
      ∃ p q, path_str p = path ∧ q ∈ approved ∧
        components (path_str q) `prefix_of` components (path_str p);
}.

(** The approval requirement [r] is the one of the operation [context] is about. *)
Record requirement_of_context (r : SensitiveApprovalRequirement)
    (context : UserActionOperationContext) : Prop := {
  rc_task : oc_task_id context = sar_task_id r;
  rc_unit : oc_change_unit_id context = Some (sar_change_unit_id r);
  rc_revision : oc_scope_revision context = sar_scope_revision r;
  rc_operation : sar_required_for r = operation_required_for (oc_operation context);
}.

(** ** Lemmas *)

Lemma is_some_is_Some {A} (o : option A) : is_some o = true ↔ is_Some o.
Proof. destruct o; split; eauto; try done. Qed.

Lemma has_current_basis_true a :
  user_action_has_current_basis a = true ↔
  ua_basis_status a = BasisCurrent ∧
  ∃ basis, ua_basis a = Some basis ∧ compatibility_status basis = BasisCurrent.
Proof.
  unfold user_action_has_current_basis.
  rewrite andb_true_iff, eqb_true, is_some_and_true. by setoid_rewrite eqb_true.
Qed.

Lemma verified_provenance_true a :
  verified_user_channel_provenance a = true ↔
  ua_resolved_by_actor_source a = Some LocalUser ∧
  is_Some (ua_resolved_verification_basis a) ∧
  ∃ level, ua_resolved_assurance_level a = Some level ∧ trim level ≠ EmptyString.
Proof.
  unfold verified_user_channel_provenance.
  rewrite !andb_true_iff, eqb_true, is_some_is_Some, is_some_and_true, Logic.and_assoc.
  assert (∀ s, negb (str_is_empty s) = true ↔ s ≠ EmptyString) as Hne.
  { intros s. by rewrite negb_true_iff, <-not_true_iff_false, str_is_empty_true. }
  by setoid_rewrite Hne.
Qed.

Lemma accepted_authority_spec a kind :
  accepted_current_user_authority a kind = true ↔ user_authorized a kind.
Proof.
  unfold accepted_current_user_authority.
  rewrite early_false, !orb_false, negb_false_iff, !neqb_false, andb_true_iff,
    has_current_basis_true, verified_provenance_true.
  split.
  - intros (((((H1&H2)&H3)&H4)&H5)&H6) . destruct H6 as [H6 (H7&H8&H9)].
    destruct H1 as [H1 H1']. split; try done.
    destruct (ua_resolution a) as [[? [] [] ? ?|]|]; try done. eauto.
  - intros []. destruct uz_resolution0 as (?&?&?&->). split_and!; auto.
Qed.

Lemma scope_matches_spec scope r :
  sensitive_action_scope_matches_requirement scope r = true ↔ scope_covers scope r.
Proof.
  unfold sensitive_action_scope_matches_requirement.
  rewrite !early_false, orb_false, is_some_and_false, neqb_false, negb_false_iff, bts_subset_elem.
  setoid_rewrite elem_of_bts_of_list. split.
  - intros ((He & Ho) & Hc & Hp).
    destruct (parse_product_paths _) as [approved|] eqn:Ep; [|done].
    apply parse_product_paths_Ok in Ep. split; try done.
    + intros e Hse. apply He in Hse. unfold ts_ge in Hse. lia.
    + exists approved. split; [done|]. rewrite forallb_elem in Hp. intros path Hin.
      apply Hp, existsb_elem in Hin as (q & Hq & (p & q' & <- & Hqq & Hw)%path_is_within_true).
      apply path_str_inj in Hqq as ->. apply is_within_components in Hw. eauto.
  - intros [He Ho Hc (approved & Hpaths & Hcov)]. split_and!; try done.
    + intros e Hse. apply He in Hse. unfold ts_ge. lia.
    + assert (parse_product_paths (sas_intended_paths scope) = Ok approved) as ->
        by by apply parse_product_paths_Ok.
      apply forallb_elem. intros path (p & q & <- & Hq & Hpre)%Hcov.
      apply existsb_elem. exists q. split; [done|].
      rewrite path_is_within_str. by apply is_within_components.
Qed.

Lemma StateRecordKind_debug_inj k1 k2 :
  StateRecordKind_debug k1 = StateRecordKind_debug k2 → k1 = k2.
Proof. by destruct k1, k2. Qed.

Lemma keeps_task_waiting_eq a task_id cu rev :
  Relevance.user_action_keeps_task_waiting a task_id cu rev =
  Lifecycle.user_action_keeps_task_waiting a task_id cu rev.
Proof.
  unfold Relevance.user_action_keeps_task_waiting, Lifecycle.user_action_keeps_task_waiting,
    user_action_has_current_basis.
  destruct (ua_status a =? UAPending); [|done].
  destruct (ua_basis_status a =? BasisCurrent), (ua_basis a) as [basis|],
    (ua_task_id a =? task_id), (existsb _ _); simpl; try done.
  all: by destruct (compatibility_status basis =? BasisCurrent).
Qed.

Lemma projected_phase_Some ps task cu pending phase :
  Lifecycle.projected_user_action_lifecycle_phase ps task cu pending = Some phase →
  Lifecycle.is_terminal_lifecycle (tk_lifecycle_phase task) = false ∧
  tk_lifecycle_phase task ≠ phase ∧
  (phase = PWaitingUser ∨
   tk_lifecycle_phase task = PWaitingUser ∧ (phase = PReady ∨ phase = PShaping)).
Proof.
  unfold Lifecycle.projected_user_action_lifecycle_phase, bool_then.
  intros H. unravel H; breflect; split_and!; auto.
Qed.

Lemma state_ref_key_proj l r :
  state_ref_key l = state_ref_key r →
  sr_record_kind l = sr_record_kind r ∧ sr_record_id l = sr_record_id r ∧
  sr_project_id l = sr_project_id r ∧ sr_task_id l = sr_task_id r.
Proof.
  unfold state_ref_key. intros [= Hk Hi Hp Ht].
  apply StateRecordKind_debug_inj in Hk. auto.
Qed.

Lemma state_refs_match_perm l r :
  state_refs_match l r = true ↔ state_ref_key <$> l ≡ₚ state_ref_key <$> r.
Proof. unfold state_refs_match. by rewrite eqb_true, rsort_eq_perm. Qed.

Lemma basis_matches_coordinates basis context :
  basis_matches_operation_context basis context = true →
  co_task_id (coordinates basis) = oc_task_id context ∧
  co_scope_revision (coordinates basis) = oc_scope_revision context ∧
  ∀ cu, oc_change_unit_id context = Some cu → co_change_unit_id (coordinates basis) = Some cu.
Proof.
  unfold basis_matches_operation_context.
  rewrite !early_false, orb_false, !neqb_false, is_some_and_false.
  intros ((? & ?) & Hcu & _). split_and!; [done..|]. intros cu Hc. apply Hcu in Hc. by rewrite neqb_false in Hc.
Qed.

Lemma current_sensitive_approval_iff (a : UserActionAuthority) (r : SensitiveApprovalRequirement) :
  current_sensitive_approval a r = true ↔
  user_authorized a SensitiveApproval ∧
  sar_required_for r ∈ ua_required_for a ∧
  ∃ basis scope,
    ua_basis a = Some basis ∧ sensitive_action_scope basis = Some scope ∧
    co_task_id (coordinates basis) = sar_task_id r ∧
    co_change_unit_id (coordinates basis) = Some (sar_change_unit_id r) ∧
    co_scope_revision (coordinates basis) = sar_scope_revision r ∧
    co_baseline_ref (coordinates basis) = sar_baseline_ref r ∧
    scope_covers scope r.
Proof.
  unfold current_sensitive_approval.
  rewrite early_false, orb_false, !negb_false_iff, accepted_authority_spec, contains_elem.
  destruct (ua_basis a) as [basis|]; [|naive_solver].
  rewrite early_false, !orb_false, !neqb_false, is_some_and_true.
  setoid_rewrite scope_matches_spec. naive_solver.
Qed.

(** ** Theorems *)

(** A resolved user action authorizes a sensitive write exactly when it is
    a current, accepted resolution that the local user gave through a verified
    channel, it was requested for this operation, it is bound to the same Task,
    Change Unit, scope revision and baseline, and its approved scope covers the
    attempt: unexpired, same operation, all its sensitive categories, and every
    path component-wise below an approved path. *)
Theorem current_sensitive_approval_spec (a : UserActionAuthority) (r : SensitiveApprovalRequirement) :
  current_sensitive_approval a r = true ↔
  user_authorized a SensitiveApproval ∧
  sar_required_for r ∈ ua_required_for a ∧
  ∃ basis scope,
    ua_basis a = Some basis ∧ sensitive_action_scope basis = Some scope ∧
    co_task_id (coordinates basis) = sar_task_id r ∧
    co_change_unit_id (coordinates basis) = Some (sar_change_unit_id r) ∧
    co_scope_revision (coordinates basis) = sar_scope_revision r ∧
    co_baseline_ref (coordinates basis) = sar_baseline_ref r ∧
    scope_covers scope r.
Proof. apply current_sensitive_approval_iff. Qed.

(** Approving what blocks an operation unblocks it: when a pending sensitive
    approval blocks an operation that requires approval for its own Task,
    Change Unit and scope revision, the same action, once the local user has
    accepted it, authorizes exactly that requirement. *)
Theorem accepted_blocker_authorizes a a' context r :
  user_action_blocks_operation a context = true → ua_action_kind a = SensitiveApproval →
  oc_sensitive_approval context = Some r → requirement_of_context r context →
  ua_basis a' = ua_basis a → ua_required_for a' = ua_required_for a →
  user_authorized a' SensitiveApproval →
  current_sensitive_approval a' r = true.
Proof.
  intros Hb Hk Hr [Ht Hcu Hrev Hfor] Hbasis Hreq Hauth.
  unfold user_action_blocks_operation in Hb. rewrite Hk, Hr in Hb.
  unfold current_sensitive_approval. rewrite Hbasis, Hreq.
  rewrite (proj2 (accepted_authority_spec _ _) Hauth). cbn [negb orb].
  unravel Hb. rename select (negb (existsb _ _) = false) into Hex.
  rewrite negb_false_iff, existsb_elem in Hex. destruct Hex as (x & Hx & Hop).
  rewrite eqb_true in Hop. subst x.
  rewrite (proj2 (contains_elem _ _)) by by rewrite Hfor. cbn [negb].
  rename select (negb (basis_matches_operation_context _ _) = false) into Hm.
  rewrite negb_false_iff in Hm.
  apply basis_matches_coordinates in Hm as (H1 & H2 & H3).
  rewrite (H3 _ Hcu), H1, H2, Ht, Hrev.
  rewrite early_false, !orb_false, !neqb_false. by split_and!.
Qed.

(** Every lifecycle phase projected from pending user actions differs from
    the current one and reprojecting after the change projects nothing more:
    the projection reaches its fixed point in one step. *)
Theorem projected_lifecycle_stable ps task cu pending phase :
  Lifecycle.projected_user_action_lifecycle_phase ps task cu pending = Some phase →
  ∀ task', tk_task_id task' = tk_task_id task → tk_scope_revision task' = tk_scope_revision task →
    tk_lifecycle_phase task' = phase →
    phase ≠ tk_lifecycle_phase task ∧
    Lifecycle.projected_user_action_lifecycle_phase ps task' cu pending = None.
Proof.
  unfold Lifecycle.projected_user_action_lifecycle_phase, bool_then.
  intros H task' -> -> ->. unravel H; breflect; split; try done; crush; breflect; try congruence.
  all: destruct (is_some cu); done.
Qed.

(** ** Witnesses *)

Definition sample_action_basis : UserActionBasis :=
  BasisChoice
    {| ch_coordinates :=
         {| co_task_id := "t1"; co_change_unit_id := Some "cu1"; co_scope_revision := 1;
            co_baseline_ref := Some "base"; co_created_at_state_version := 2;
            co_compatibility_status := BasisCurrent |};
       ch_close_basis_revision := None; ch_result_refs := []; ch_residual_risk_ids := [];
       ch_sensitive_action_scope := Some
         {| sas_action_kind := "edit"; sas_description := "edit the secrets";
            sas_intended_paths := ["src"]; sas_sensitive_categories := ["secrets"];
            sas_command_or_tool_summary := None; sas_network_or_host_summary := None;
            sas_secret_or_credential_summary := None; sas_capability_claim := "cooperative";
            sas_expires_at := Some 500%Z |} |}.

Definition sample_requirement : SensitiveApprovalRequirement :=
  {| sar_task_id := "t1"; sar_change_unit_id := "cu1"; sar_scope_revision := 1;
     sar_operation := "edit"; sar_normalized_paths := ["src/lib.rs"];
     sar_sensitive_categories := ["secrets"]; sar_baseline_ref := Some "base";
     sar_required_for := ForPrepareWrite; sar_now := 150%Z |}.

Definition sample_operation : UserActionOperationContext :=
  {| oc_operation := OpPrepareWrite; oc_task_id := "t1"; oc_change_unit_id := Some "cu1";
     oc_scope_revision := 1; oc_close_basis := None; oc_operation_refs := [];
     oc_sensitive_approval := Some sample_requirement |}.

Definition sample_pending : UserActionAuthority :=
  {| ua_project_id := "p"; ua_user_action_request_id := "req1";
     ua_user_action_resolution_id := None; ua_task_id := "t1";
     ua_action_kind := SensitiveApproval; ua_status := UAPending;
     ua_required_for := [ForPrepareWrite]; ua_affected_refs := []; ua_machine_action := None;
     ua_resolution_outcome := None; ua_resolved_by_actor_source := None;
     ua_resolved_verification_basis := None; ua_resolved_assurance_level := None;
     ua_basis_status := BasisCurrent; ua_basis := Some sample_action_basis;
     ua_resolution := None; ua_expires_at := None |}.

Definition sample_accepted : UserActionAuthority :=
  {| ua_project_id := "p"; ua_user_action_request_id := "req1";
     ua_user_action_resolution_id := Some "res1"; ua_task_id := "t1";
     ua_action_kind := SensitiveApproval; ua_status := UAResolved;
     ua_required_for := [ForPrepareWrite]; ua_affected_refs := [];
     ua_machine_action := Some Accept; ua_resolution_outcome := Some Accepted;
     ua_resolved_by_actor_source := Some LocalUser;
     ua_resolved_verification_basis := Some CliDirectUserChannel;
     ua_resolved_assurance_level := Some "local_user_channel";
     ua_basis_status := BasisCurrent; ua_basis := Some sample_action_basis;
     ua_resolution := Some (ResolutionChoice "opt1" Accept Accepted None []);
     ua_expires_at := None |}.

Definition sample_waiting_task (phase : TaskLifecyclePhase) : TaskRecord :=
  {| tk_project_id := "p"; tk_task_id := "t1"; tk_mode := Work;
     tk_requested_control_level := RAuto; tk_effective_control_level := Tracked;
     tk_control_level_reason := ""; tk_work_phase := Implementation;
     tk_acceptance_policy := Required; tk_acceptance_policy_reason := "";
     tk_lifecycle_phase := phase; tk_summary := None;
     tk_shaping := {| goal_summary := None; scope_summary := None; non_goals := [];
                      shaping_baseline_ref := Some "base"; shaping_autonomy_boundary := None |};
     tk_autonomy_boundary := None; tk_scope_revision := 1; tk_close_basis_revision := 1;
     tk_current_change_unit_id := None |}.

Definition sample_header : ProjectStateHeader :=
  {| ps_project_id := "p"; ps_state_version := 2; ps_active_task_id := Some "t1" |}.

Lemma accepted_blocker_authorizes_witness :
  user_action_blocks_operation sample_pending sample_operation = true ∧
  current_sensitive_approval sample_accepted sample_requirement = true.
Proof.
  split; [vm_compute; reflexivity|].
  apply (accepted_blocker_authorizes sample_pending sample_accepted sample_operation);
    [vm_compute; reflexivity|reflexivity|reflexivity|by split|reflexivity|reflexivity|].
  split; [reflexivity..|by exists sample_action_basis|reflexivity|reflexivity| | | |].
  - by exists "opt1", None, [].
  - reflexivity.
  - by eexists.
  - by exists "local_user_channel".
Defined.

Lemma projected_lifecycle_stable_witness :
  Lifecycle.projected_user_action_lifecycle_phase sample_header
    (sample_waiting_task PWaitingUser) None [] = Some PShaping ∧
  Lifecycle.projected_user_action_lifecycle_phase sample_header
    (sample_waiting_task PShaping) None [] = None.
Proof.
  split; [reflexivity|].
  by apply (projected_lifecycle_stable sample_header (sample_waiting_task PWaitingUser) None []
    PShaping eq_refl (sample_waiting_task PShaping)).
Defined.
