(* ===== verification/Workflow.v ===== *)
(** * Workflow: Task control, scope and effect policy

    Models [crates/volicord-core/src/policy/{workflow,effect_contract}.rs],
    [task_policy.rs] and [task_state.rs]: the effective control level of a
    Task and its no-downgrade resolution against a project policy, the light
    path policy, effect contracts, user-action lifecycle transitions and
    normalization of the stored scope.

    [task_policy_control_reevaluation] decodes a mark from the Task's JSON
    metadata; the decoded mark is an argument here. *)

From Stdlib Require Import Ascii.
From S2P Require Import Prelude Text ProductPath Values Canonical Schema UserAction.

(** ** [policy/workflow.rs] *)

Record LightWorkflowPolicy := {
  enabled : bool;
  max_intended_paths : nat;
  allowed_path_patterns : list string;
  denied_path_patterns : list string;
  final_acceptance : AcceptancePolicy;
}.

Record ProjectWorkflowPolicy := {
  default_direct_control : TaskControlLevel;
  default_work_control : TaskControlLevel;
  light : LightWorkflowPolicy;
  write_ticket_idle_timeout_minutes : option N;
  write_authority_fingerprint : string;
}.

(** The built-in default; its fingerprint is a digest of the absent policy. *)
Definition conservative_default (no_policy_fingerprint : string) : ProjectWorkflowPolicy :=
  {| default_direct_control := Tracked;
     default_work_control := Tracked;
     light := {| enabled := false; max_intended_paths := 3; allowed_path_patterns := [];
                 denied_path_patterns := []; final_acceptance := PolicyDependent |};
     write_ticket_idle_timeout_minutes := None;
     write_authority_fingerprint := no_policy_fingerprint |}.

Definition light_paths_are_allowed (policy : ProjectWorkflowPolicy) (intended_paths : list string)
    : bool :=
  enabled (light policy) &&
  Nat.leb (length intended_paths) (max_intended_paths (light policy)) &&
  forallb (λ path,
    existsb (λ allowed, path_is_within path allowed) (allowed_path_patterns (light policy)) &&
    negb (existsb (λ denied, path_is_within path denied) (denied_path_patterns (light policy))))
    intended_paths.

Definition has_denied_path (policy : ProjectWorkflowPolicy) (intended_paths : list string) : bool :=
  existsb (λ path, existsb (λ denied, path_is_within path denied)
                     (denied_path_patterns (light policy))) intended_paths.

Definition effective_control_level
    (mode : TaskMode) (requested : RequestedControlLevel) (policy : ProjectWorkflowPolicy)
    : TaskControlLevel * string :=
  if mode =? Advisor then
    (Observe, "Advisor mode is observe-only and cannot authorize product writes.")
  else
    let requested_level :=
      match requested with
      | RAuto => match mode with
                 | Advisor => Observe
                 | Direct => default_direct_control policy
                 | Work => default_work_control policy
                 end
      | RObserve => Observe
      | RLight => Light
      | RTracked => Tracked
      | RSensitive => Sensitive
      end in
    let project_minimum :=
      match mode with
      | Advisor => Observe
      | Direct => default_direct_control policy
      | Work => control_max (default_work_control policy) Tracked
      end in
    let effective := control_max requested_level project_minimum in
    let effective :=
      if (effective =? Light) && negb (enabled (light policy)) then Tracked else effective in
    let reason :=
      if control_lt requested_level effective then
        ("Core raised requested control `" +:+ RequestedControlLevel_as_str requested +:+
         "` to `" +:+ TaskControlLevel_as_str effective +:+
         "` for the selected mode and project workflow policy.")
      else
        ("Core selected effective control `" +:+ TaskControlLevel_as_str effective +:+
         "` from the caller request and project workflow policy.") in
    (effective, reason).

Definition acceptance_policy_for_control
    (control : TaskControlLevel) (policy : ProjectWorkflowPolicy) : AcceptancePolicy :=
  match control with
  | Observe => NotRequired
  | Light => final_acceptance (light policy)
  | Tracked | Sensitive => Required
  end.

Definition acceptance_policy_rank (policy : AcceptancePolicy) : nat :=
  match policy with NotRequired => 0 | PolicyDependent => 1 | Required => 2 end.

Definition max_acceptance_policy (left right : AcceptancePolicy) : AcceptancePolicy :=
  if Nat.leb (acceptance_policy_rank right) (acceptance_policy_rank left) then left else right.

Record ResolvedTaskControlAuthority := {
  rt_effective_control_level : TaskControlLevel;
  rt_acceptance_policy : AcceptancePolicy;
  rt_control_level_reason : string;
  rt_acceptance_policy_reason : string;
  rt_control_raised : bool;
  rt_acceptance_raised : bool;
  rt_policy_reevaluation_marked : bool;
  rt_pending_policy_reevaluation : bool;
}.

Definition resolve_task_control_authority
    (task : TaskRecord) (mark : option TaskPolicyControlReevaluation)
    (policy : ProjectWorkflowPolicy) : ResolvedTaskControlAuthority :=
  let requested := tk_requested_control_level task in
  let current_control := tk_effective_control_level task in
  let current_acceptance := tk_acceptance_policy task in
  let '(policy_control, policy_reason) :=
    effective_control_level (tk_mode task) requested policy in
  let marked_control := pcr_required_effective_control_level <$> mark in
  let marked_acceptance := mark ≫= pcr_required_acceptance_policy in
  let policy_selected_control := control_max current_control policy_control in
  let effective_control_level :=
    default policy_selected_control
      ((λ level, control_max policy_selected_control level) <$> marked_control) in
  let control_acceptance := acceptance_policy_for_control effective_control_level policy in
  let acceptance_policy :=
    max_acceptance_policy (max_acceptance_policy current_acceptance control_acceptance)
      (default current_acceptance marked_acceptance) in
  let control_raised := control_lt current_control effective_control_level in
  let acceptance_raised :=
    Nat.ltb (acceptance_policy_rank current_acceptance)
      (acceptance_policy_rank acceptance_policy) in
  let pending_policy_reevaluation :=
    is_some_and marked_control (λ level, control_lt current_control level)
    || is_some_and marked_acceptance (λ required,
         Nat.ltb (acceptance_policy_rank current_acceptance) (acceptance_policy_rank required)) in
  let mark_determined_control_raise :=
    is_some_and marked_control
      (λ level, control_lt (control_max current_control policy_control) level) in
  let mark_determined_acceptance_raise :=
    is_some_and marked_acceptance (λ required,
      Nat.ltb (acceptance_policy_rank
                 (max_acceptance_policy current_acceptance control_acceptance))
        (acceptance_policy_rank required)) in
  {| rt_effective_control_level := effective_control_level;
     rt_acceptance_policy := acceptance_policy;
     rt_control_level_reason :=
       if control_raised then
         if mark_determined_control_raise then
           ("Core raised control to `" +:+ TaskControlLevel_as_str effective_control_level +:+
            "` for a pending project-policy reevaluation.")
         else policy_reason
       else tk_control_level_reason task;
     rt_acceptance_policy_reason :=
       if acceptance_raised then
         if mark_determined_acceptance_raise then
           "A pending project-policy reevaluation requires final acceptance for the current close basis."
         else
           ("Effective control `" +:+ TaskControlLevel_as_str effective_control_level +:+
            "` requires final acceptance for the current close basis.")
       else tk_acceptance_policy_reason task;
     rt_control_raised := control_raised;
     rt_acceptance_raised := acceptance_raised;
     rt_policy_reevaluation_marked := is_some mark;
     rt_pending_policy_reevaluation := pending_policy_reevaluation |}.

(** [store/workflow_records.rs], [clear_satisfied_task_policy_reevaluation]:
    the mark is kept unless the Task's control and acceptance satisfy it. *)
Definition clear_satisfied_task_policy_reevaluation
    (mark : option TaskPolicyControlReevaluation)
    (effective : TaskControlLevel) (acceptance : AcceptancePolicy)
    : option TaskPolicyControlReevaluation :=
  match mark with
  | None => None
  | Some m =>
      let acceptance_satisfied :=
        match pcr_required_acceptance_policy m with
        | Some required =>
            Nat.leb (acceptance_policy_rank required) (acceptance_policy_rank acceptance)
        | None => true
        end in
      if control_lt effective (pcr_required_effective_control_level m)
         || negb acceptance_satisfied
      then mark else None
  end.

(** ** [policy/effect_contract.rs] *)

Module EffectContract.

Inductive EffectContractValidationError :=
| ConflictingEffect (effect : ChangeUnitEffectKind)
| EmptyText (field : string).

Inductive EffectContractViolation :=
| FileWriteForbidden | FileWriteNotAllowed | PathNotAllowed.
#[export] Instance EffectContractViolation_eq_dec : EqDecision EffectContractViolation.
Proof. solve_decision. Defined.

Definition violation_index (v : EffectContractViolation) : N :=
  match v with FileWriteForbidden => 0 | FileWriteNotAllowed => 1 | PathNotAllowed => 2 end.
#[export] Instance violation_ord : RustOrd EffectContractViolation.
Proof. refine (rust_ord_inj violation_index _). by intros [] []. Defined.

(** The two loops of [validate_effect_contract]. *)
Fixpoint first_conflict (forbidden allowed : list ChangeUnitEffectKind)
    : option ChangeUnitEffectKind :=
  match allowed with
  | [] => None
  | effect :: rest =>
      if contains effect forbidden then Some effect else first_conflict forbidden rest
  end.

Fixpoint first_blank_field (fields : list (string * list string)) : option string :=
  match fields with
  | [] => None
  | (field, values) :: rest =>
      if existsb blank values then Some field else first_blank_field rest
  end.

Definition validate_effect_contract (contract : ChangeUnitEffectContract)
    : result unit EffectContractValidationError :=
  match first_conflict (forbidden_effects contract) (allowed_effects contract) with
  | Some effect => Err (ConflictingEffect effect)
  | None =>
      match first_blank_field
              [("allowed_paths", allowed_paths contract);
               ("expected_outputs", expected_outputs contract);
               ("invariants", invariants contract);
               ("evidence_expectations", evidence_expectations contract);
               ("sensitive_action_expectations", sensitive_action_expectations contract)] with
      | Some field => Err (EmptyText field)
      | None => Ok tt
      end
  end.

Definition product_write_violations
    (contract : ChangeUnitEffectContract) (product_file_write_intended : bool)
    (intended_paths : list string) : result (list EffectContractViolation) ProductPathError :=
  if negb product_file_write_intended then Ok []
  else
    let violations :=
      (if contains ProductFileWrite (forbidden_effects contract)
       then [FileWriteForbidden] else []) ++
      (if negb (list_is_empty (allowed_effects contract))
          && negb (contains ProductFileWrite (allowed_effects contract))
       then [FileWriteNotAllowed] else []) in
    let? violations :=
      if negb (list_is_empty (allowed_paths contract)) && negb (list_is_empty intended_paths)
      then
        let? allowed_paths := parse_product_paths (allowed_paths contract) in
        let allowed_paths := path_str <$> allowed_paths in
        Ok (if existsb (λ path,
                 forallb (λ allowed_path, negb (path_is_within path allowed_path)) allowed_paths)
                 intended_paths
            then violations ++ [PathNotAllowed] else violations)
      else Ok violations in
    Ok (dedup_by (λ v, v) violations).

End EffectContract.
Import EffectContract.

(** ** [task_policy.rs] *)

Definition resolve_requested_mode (requested_mode : RequestedMode) : TaskMode :=
  match requested_mode with
  | ReqAdvisor => Advisor
  | ReqDirect => Direct
  | ReqWork | ReqAuto => Work
  end.

Definition initial_work_phase (mode : TaskMode) : WorkPhase :=
  match mode with
  | Direct => Implementation
  | Advisor | Work => ShapingPhase
  end.

Record TaskLifecycleTransition := {
  tlt_task_id : TaskId;
  tlt_from : TaskLifecyclePhase;
  tlt_to : TaskLifecyclePhase;
}.

Record TaskLifecycleFacts := {
  tlf_task_id : TaskId;
  tlf_current : TaskLifecyclePhase;
}.

Definition lifecycle_facts (task : TaskRecord) : TaskLifecycleFacts :=
  {| tlf_task_id := tk_task_id task; tlf_current := tk_lifecycle_phase task |}.

(** [Err] is the [CorePipelineError::Invariant] naming the phases. *)
Definition plan_user_action_lifecycle_transition
    (facts : TaskLifecycleFacts) (target : TaskLifecyclePhase)
    : result (option TaskLifecycleTransition) (TaskId * TaskLifecyclePhase * TaskLifecyclePhase) :=
  let from := tlf_current facts in
  if from =? target then Ok None
  else
    let valid :=
      match from, target with
      | (PShaping | PReady | PExecuting | PBlocked), PWaitingUser => true
      | PWaitingUser, (PShaping | PReady) => true
      | _, _ => false
      end in
    if negb valid then Err (tlf_task_id facts, from, target)
    else Ok (Some {| tlt_task_id := tlf_task_id facts; tlt_from := from; tlt_to := target |}).

(** ** [task_state.rs] *)

Record StoredScope := {
  st_goal_summary : option string;
  st_scope_summary : option string;
  st_non_goals : list string;
  st_autonomy_boundary : option string;
  st_baseline_ref : option BaselineRef;
}.

(** The fields of [UpdateScopeRequest] that a scope update reads. *)
Record UpdateScopeRequest := {
  us_goal_summary : option string;
  us_scope_boundary : option string;
  us_non_goals : option (list string);
  us_autonomy_boundary : option string;
  us_baseline_ref : option BaselineRef;
}.

Definition normalize_scope_text_option (value : option string) : option string :=
  option_filter (λ value, negb (str_is_empty value)) (trim <$> value).

Definition normalize_scope_string_list (values : list string) : list string :=
  bts_of_list (omap (λ value, normalize_scope_text_option (Some value)) values).

Definition normalize_display_string_list (values : list string) : list string :=
  bts_of_list (List.filter (λ value, negb (str_is_empty value)) (trim <$> values)).

Definition normalized (s : StoredScope) : StoredScope :=
  {| st_goal_summary := normalize_scope_text_option (st_goal_summary s);
     st_scope_summary := normalize_scope_text_option (st_scope_summary s);
     st_non_goals := normalize_scope_string_list (st_non_goals s);
     st_autonomy_boundary := normalize_scope_text_option (st_autonomy_boundary s);
     st_baseline_ref := st_baseline_ref s |}.

(** [StoredScope::from_task]. *)
Definition scope_from_task (task : TaskRecord) : StoredScope :=
  normalized
    {| st_goal_summary := or_else (goal_summary (tk_shaping task)) (tk_summary task);
       st_scope_summary := scope_summary (tk_shaping task);
       st_non_goals := non_goals (tk_shaping task);
       st_autonomy_boundary :=
         or_else (tk_autonomy_boundary task) (shaping_autonomy_boundary (tk_shaping task));
       st_baseline_ref := shaping_baseline_ref (tk_shaping task) |}.

Definition apply_request (s : StoredScope) (request : UpdateScopeRequest) : StoredScope :=
  normalized
    {| st_goal_summary := or_else (us_goal_summary request) (st_goal_summary s);
       st_scope_summary := or_else (us_scope_boundary request) (st_scope_summary s);
       st_non_goals := default (st_non_goals s) (us_non_goals request);
       st_autonomy_boundary := or_else (us_autonomy_boundary request) (st_autonomy_boundary s);
       st_baseline_ref := or_else (us_baseline_ref request) (st_baseline_ref s) |}.

(** ** Lemmas *)

Lemma control_max_r a b : control_index b ≤ control_index (control_max a b).
Proof. rewrite control_max_index. lia. Qed.
Lemma control_max_l a b : control_index a ≤ control_index (control_max a b).
Proof. rewrite control_max_index. lia. Qed.
Lemma control_max_absorb a b : control_index b ≤ control_index a → control_max a b = a.
Proof. intros H. apply control_index_inj. rewrite control_max_index. lia. Qed.

Lemma max_acceptance_rank a b :
  acceptance_policy_rank (max_acceptance_policy a b) =
  acceptance_policy_rank a `max` acceptance_policy_rank b.
Proof. unfold max_acceptance_policy. case_match eqn:E; [apply Nat.leb_le in E|apply Nat.leb_gt in E]; lia. Qed.
Lemma acceptance_rank_inj a b : acceptance_policy_rank a = acceptance_policy_rank b → a = b.
Proof. by destruct a, b. Qed.
Lemma max_acceptance_absorb a b :
  acceptance_policy_rank b ≤ acceptance_policy_rank a → max_acceptance_policy a b = a.
Proof. intros H. apply acceptance_rank_inj. rewrite max_acceptance_rank. lia. Qed.

#[export] Hint Resolve control_max_l control_max_r : volicord.

(** The control a resolution selects, without its bookkeeping. *)
Definition selected_control task mark policy : TaskControlLevel :=
  let base := control_max (tk_effective_control_level task)
                (effective_control_level (tk_mode task) (tk_requested_control_level task) policy).1 in
  default base ((λ m, control_max base (pcr_required_effective_control_level m)) <$> mark).

Lemma resolved_control task mark policy :
  rt_effective_control_level (resolve_task_control_authority task mark policy) =
  selected_control task mark policy.
Proof.
  unfold resolve_task_control_authority, selected_control.
  destruct (effective_control_level _ _ _) as [c reason]. by destruct mark.
Qed.

Lemma resolved_acceptance task mark policy :
  rt_acceptance_policy (resolve_task_control_authority task mark policy) =
  max_acceptance_policy
    (max_acceptance_policy (tk_acceptance_policy task)
       (acceptance_policy_for_control (selected_control task mark policy) policy))
    (default (tk_acceptance_policy task) (mark ≫= pcr_required_acceptance_policy)).
Proof.
  rewrite <-resolved_control. unfold resolve_task_control_authority.
  destruct (effective_control_level _ _ _) as [c reason]. by destruct mark.
Qed.

Lemma resolved_flags task mark policy :
  let r := resolve_task_control_authority task mark policy in
  rt_control_raised r = control_lt (tk_effective_control_level task) (rt_effective_control_level r) ∧
  rt_acceptance_raised r =
    Nat.ltb (acceptance_policy_rank (tk_acceptance_policy task))
      (acceptance_policy_rank (rt_acceptance_policy r)) ∧
  rt_pending_policy_reevaluation r =
    is_some_and mark (λ m,
      control_lt (tk_effective_control_level task) (pcr_required_effective_control_level m)
      || is_some_and (pcr_required_acceptance_policy m) (λ required,
           Nat.ltb (acceptance_policy_rank (tk_acceptance_policy task))
             (acceptance_policy_rank required))).
Proof.
  unfold resolve_task_control_authority.
  destruct (effective_control_level _ _ _) as [c reason]. by destruct mark as [[? ? ? [] ?]|].
Qed.

Lemma control_lt_false a b : control_lt a b = false ↔ control_index b ≤ control_index a.
Proof. unfold control_lt. rewrite Nat.ltb_ge. done. Qed.

Lemma selected_control_ge task mark policy :
  control_index (tk_effective_control_level task) ≤ control_index (selected_control task mark policy) ∧
  control_index (effective_control_level (tk_mode task) (tk_requested_control_level task) policy).1
    ≤ control_index (selected_control task mark policy) ∧
  (∀ m, mark = Some m →
     control_index (pcr_required_effective_control_level m)
       ≤ control_index (selected_control task mark policy)).
Proof.
  unfold selected_control. destruct mark as [m|]; simpl; rewrite ?control_max_index;
    split_and!; try lia; intros ? [= <-]; lia.
Qed.

(** The Task after a commit stored the resolved control and acceptance. *)
Definition with_control (task : TaskRecord) (control : TaskControlLevel)
    (acceptance : AcceptancePolicy) : TaskRecord :=
  {| tk_project_id := tk_project_id task; tk_task_id := tk_task_id task; tk_mode := tk_mode task;
     tk_requested_control_level := tk_requested_control_level task;
     tk_effective_control_level := control;
     tk_control_level_reason := tk_control_level_reason task;
     tk_work_phase := tk_work_phase task; tk_acceptance_policy := acceptance;
     tk_acceptance_policy_reason := tk_acceptance_policy_reason task;
     tk_lifecycle_phase := tk_lifecycle_phase task; tk_summary := tk_summary task;
     tk_shaping := tk_shaping task; tk_autonomy_boundary := tk_autonomy_boundary task;
     tk_scope_revision := tk_scope_revision task;
     tk_close_basis_revision := tk_close_basis_revision task;
     tk_current_change_unit_id := tk_current_change_unit_id task |}.

Lemma selected_control_idemp task mark policy acceptance :
  selected_control (with_control task (selected_control task mark policy) acceptance) mark policy =
  selected_control task mark policy.
Proof.
  destruct (selected_control_ge task mark policy) as (H1 & H2 & H3).
  unfold selected_control at 1. simpl. rewrite (control_max_absorb _ _ H2).
  destruct mark as [m|]; simpl; [|done]. by apply control_max_absorb, H3.
Qed.

Lemma normalize_text_idemp o :
  normalize_scope_text_option (normalize_scope_text_option o) = normalize_scope_text_option o.
Proof.
  destruct o as [s|]; [|done]. unfold normalize_scope_text_option, option_filter, bool_then. simpl.
  destruct (negb _) eqn:E; simpl; [|done]. by rewrite trim_idemp, E.
Qed.

Lemma normalize_text_Some s t :
  normalize_scope_text_option (Some s) = Some t ↔ t = trim s ∧ t ≠ EmptyString.
Proof.
  unfold normalize_scope_text_option, option_filter, bool_then. simpl.
  destruct (str_is_empty (trim s)) eqn:E; simpl.
  - apply str_is_empty_true in E. rewrite E. naive_solver.
  - assert (trim s ≠ EmptyString) by (rewrite <-str_is_empty_true; congruence). naive_solver.
Qed.

Lemma elem_of_scope_list t values :
  t ∈ normalize_scope_string_list values ↔ ∃ s, s ∈ values ∧ t = trim s ∧ t ≠ EmptyString.
Proof.
  unfold normalize_scope_string_list. rewrite elem_of_bts_of_list, list_elem_of_omap.
  by setoid_rewrite normalize_text_Some.
Qed.

Lemma elem_of_display_list t values :
  t ∈ normalize_display_string_list values ↔ ∃ s, s ∈ values ∧ t = trim s ∧ t ≠ EmptyString.
Proof.
  unfold normalize_display_string_list.
  rewrite elem_of_bts_of_list, list_elem_of_In, filter_In, <-list_elem_of_In, list_elem_of_fmap,
    negb_true_iff, <-not_true_iff_false, str_is_empty_true.
  split; [intros ((s & -> & ?) & ?); eauto|intros (s & ? & -> & ?); eauto].
Qed.

Lemma normalize_list_idemp values :
  normalize_scope_string_list (normalize_scope_string_list values) =
  normalize_scope_string_list values.
Proof.
  unfold normalize_scope_string_list at 1 3. apply bts_of_list_ext. intros t.
  rewrite !list_elem_of_omap. setoid_rewrite normalize_text_Some. split.
  - intros (s & (s' & ? & -> & ?)%elem_of_scope_list & -> & ?). rewrite trim_idemp in *. eauto.
  - intros (s & ? & -> & ?). exists (trim s). rewrite elem_of_scope_list, trim_idemp. eauto 6.
Qed.

Lemma normalized_idemp s : normalized (normalized s) = normalized s.
Proof. unfold normalized. simpl. by rewrite !normalize_text_idemp, normalize_list_idemp. Qed.

(** The resolved authority dominates the stored one, the policy's and the
    mark's, for control and for acceptance. *)
Definition no_downgrade task mark policy (r : ResolvedTaskControlAuthority) : Prop :=
  (control_index (tk_effective_control_level task) ≤ control_index (rt_effective_control_level r) ∧
   control_index (effective_control_level (tk_mode task) (tk_requested_control_level task) policy).1
     ≤ control_index (rt_effective_control_level r) ∧
   acceptance_policy_rank (tk_acceptance_policy task) ≤ acceptance_policy_rank (rt_acceptance_policy r) ∧
   acceptance_policy_rank (acceptance_policy_for_control (rt_effective_control_level r) policy)
     ≤ acceptance_policy_rank (rt_acceptance_policy r)) ∧
  (∀ m, mark = Some m →
    control_index (pcr_required_effective_control_level m)
      ≤ control_index (rt_effective_control_level r) ∧
    ∀ required, pcr_required_acceptance_policy m = Some required →
      acceptance_policy_rank required ≤ acceptance_policy_rank (rt_acceptance_policy r)).

Lemma resolve_no_downgrade task mark policy :
  no_downgrade task mark policy (resolve_task_control_authority task mark policy).
Proof.
  unfold no_downgrade. rewrite resolved_control, resolved_acceptance, !max_acceptance_rank.
  destruct (selected_control_ge task mark policy) as (H1 & H2 & H3).
  split; [split_and!; [done..|lia|lia]|].
  intros m ->. split; [by apply H3|]. intros required Hr. simpl. rewrite Hr. simpl. lia.
Qed.

Lemma dedup_by_nil {A K} `{RustOrd K} (key : A → K) l : dedup_by key l = [] ↔ l = [].
Proof. by destruct l. Qed.

Lemma path_covered_by paths allowed :
  existsb (λ path, forallb (λ allowed_path, negb (path_is_within path allowed_path))
                     (path_str <$> allowed)) paths = false ↔
  ∀ path, path ∈ paths → ∃ p q, path_str p = path ∧ q ∈ allowed ∧
    components (path_str q) `prefix_of` components (path_str p).
Proof.
  rewrite existsb_false. split; intros H path Hp; specialize (H path Hp); revert H;
    rewrite <-not_true_iff_false, forallb_elem.
  - intros Hn. destruct (existsb (λ q, path_is_within path (path_str q)) allowed) eqn:E.
    + apply existsb_elem in E as (q & Hq & (p & q' & <- & ->%path_str_inj & Hw)%path_is_within_true).
      apply is_within_components in Hw. eauto.
    + exfalso. apply Hn. intros s (q & -> & Hq)%list_elem_of_fmap.
      rewrite existsb_false in E. by rewrite E.
  - intros (p & q & <- & Hq & Hpre) Hall.
    assert (path_str q ∈ path_str <$> allowed) as Hin by (apply list_elem_of_fmap; eauto).
    apply Hall in Hin. rewrite path_is_within_str in Hin.
    apply is_within_components in Hpre. by rewrite Hpre in Hin.
Qed.

(** ** Theorems *)

(** Resolving a Task's control never downgrades it: the result is at least
    the stored control, the control the project policy asks for and the control
    a pending reevaluation mark requires, and likewise for acceptance. *)
Theorem resolve_task_control_no_downgrade task mark policy :
  no_downgrade task mark policy (resolve_task_control_authority task mark policy).
Proof. apply resolve_no_downgrade. Qed.

(** Storing the resolved control and acceptance settles the Task: resolving
    again under the same policy and mark changes nothing, raises nothing,
    leaves no pending reevaluation, and the stored mark is cleared as
    satisfied. *)
Theorem resolve_task_control_settles task mark policy :
  let r := resolve_task_control_authority task mark policy in
  let task' := with_control task (rt_effective_control_level r) (rt_acceptance_policy r) in
  let r' := resolve_task_control_authority task' mark policy in
  rt_effective_control_level r' = rt_effective_control_level r ∧
  rt_acceptance_policy r' = rt_acceptance_policy r ∧
  rt_control_raised r' = false ∧ rt_acceptance_raised r' = false ∧
  rt_pending_policy_reevaluation r' = false ∧
  clear_satisfied_task_policy_reevaluation mark
    (rt_effective_control_level r) (rt_acceptance_policy r) = None.
Proof.
  intros r task' r'.
  destruct (resolve_no_downgrade task mark policy) as [(Hc & Hp & Ha & Hca) Hm]. fold r in Hc, Hp, Ha, Hca, Hm.
  assert (rt_effective_control_level r' = rt_effective_control_level r) as Hec.
  { subst r' task'. rewrite resolved_control. subst r. rewrite resolved_control.
    apply selected_control_idemp. }
  assert (rt_acceptance_policy r' = rt_acceptance_policy r) as Hacc.
  { subst r'. rewrite resolved_acceptance, <-resolved_control. fold r. rewrite Hec.
    subst task'; simpl. rewrite (max_acceptance_absorb _ _ Hca). apply max_acceptance_absorb.
    destruct mark as [m|]; simpl; [|lia].
    destruct (pcr_required_acceptance_policy m) as [required|] eqn:E; simpl; [|lia].
    by apply (proj2 (Hm m eq_refl)). }
  destruct (resolved_flags task' mark policy) as (Hf1 & Hf2 & Hf3). fold r' in Hf1, Hf2, Hf3.
  rewrite Hf1, Hf2, Hf3, Hec, Hacc. subst task'; simpl.
  split_and!; [done|done|by apply control_lt_false|by apply Nat.ltb_ge| |].
  - apply is_some_and_false. intros m ->. destruct (Hm m eq_refl) as [Hmc Hma].
    apply orb_false. split; [by apply control_lt_false|].
    apply is_some_and_false. intros required Hr. by apply Nat.ltb_ge, Hma.
  - destruct mark as [m|]; simpl; [|done]. destruct (Hm m eq_refl) as [Hmc Hma].
    rewrite (proj2 (control_lt_false _ _) Hmc). simpl.
    destruct (pcr_required_acceptance_policy m) as [required|] eqn:E; simpl; [|done].
    by rewrite (proj2 (Nat.leb_le _ _) (Hma required eq_refl)).
Qed.

(** The lifecycle phase projected from pending user actions is always one
    the transition planner accepts: planning never reports the invariant
    failure and the planned transition goes from the Task's phase to the
    projected one. *)
Theorem projected_lifecycle_plans ps task cu pending phase :
  Lifecycle.projected_user_action_lifecycle_phase ps task cu pending = Some phase →
  plan_user_action_lifecycle_transition (lifecycle_facts task) phase =
    Ok (Some {| tlt_task_id := tk_task_id task; tlt_from := tk_lifecycle_phase task;
                tlt_to := phase |}).
Proof.
  intros (Hterm & Hne & Hphase)%projected_phase_Some.
  unfold plan_user_action_lifecycle_transition. simpl.
  apply eqb_false in Hne. rewrite Hne.
  destruct Hphase as [->|[-> [-> | ->]]]; [|done..].
  by destruct (tk_lifecycle_phase task).
Qed.

(** Scope normalization is stable: a scope read from a Task or produced by
    an update is already in normal form, and an empty update is the identity on
    it. *)
Theorem scope_update_normal task request :
  normalized (scope_from_task task) = scope_from_task task ∧
  normalized (apply_request (scope_from_task task) request) =
    apply_request (scope_from_task task) request ∧
  apply_request (scope_from_task task)
    {| us_goal_summary := None; us_scope_boundary := None; us_non_goals := None;
       us_autonomy_boundary := None; us_baseline_ref := None |} = scope_from_task task.
Proof.
  split_and!; [apply normalized_idemp..|].
  unfold apply_request. simpl. change (normalized (scope_from_task task) = scope_from_task task).
  apply normalized_idemp.
Qed.

(** The effect contract lets a product write through exactly when the write
    effect is not forbidden, is in the list of allowed effects unless that list is
    empty, and every intended path lies below an allowed path unless no allowed
    path is given. *)
Theorem product_write_violations_spec contract paths :
  EffectContract.product_write_violations contract true paths = Ok [] ↔
  ProductFileWrite ∉ forbidden_effects contract ∧
  (allowed_effects contract = [] ∨ ProductFileWrite ∈ allowed_effects contract) ∧
  (allowed_paths contract = [] ∨ paths = [] ∨
   ∃ allowed, allowed_paths contract = path_str <$> allowed ∧
     ∀ path, path ∈ paths → ∃ p q, path_str p = path ∧ q ∈ allowed ∧
       components (path_str q) `prefix_of` components (path_str p)).
Proof.
  unfold EffectContract.product_write_violations. cbn [negb].
  set (base := (if contains ProductFileWrite (forbidden_effects contract) then _ else _) ++ _).
  assert (base = [] ↔ ProductFileWrite ∉ forbidden_effects contract ∧
    (allowed_effects contract = [] ∨ ProductFileWrite ∈ allowed_effects contract)) as Hbase.
  { subst base. rewrite <-contains_not_elem, <-contains_elem, <-(list_is_empty_true (allowed_effects contract)).
    destruct (contains _ (forbidden_effects _)), (list_is_empty (allowed_effects _)),
      (contains _ (allowed_effects _)); simpl; intuition congruence. }
  rewrite assoc, <-Hbase by apply _. clear Hbase. clearbody base.
  destruct (allowed_paths contract) as [|a aps] eqn:Eap; [|destruct paths as [|p ps] eqn:Eps];
    cbn [list_is_empty negb andb].
  1,2: transitivity (base = []); [|by split; [auto|intros [? _]]].
  1,2: split; [by intros [= H%dedup_by_nil]|by intros ->].
  set (covered := ∃ allowed, a :: aps = path_str <$> allowed ∧ _).
  transitivity (base = [] ∧ covered); [|split; [by intros [? ?]; auto|by intros [? [?|[?|?]]]]].
  destruct (parse_product_paths (a :: aps)) as [allowed|e] eqn:Ep.
  - apply parse_product_paths_Ok in Ep.
    assert (covered ↔ existsb (λ path, forallb (λ allowed_path,
      negb (path_is_within path allowed_path)) (path_str <$> allowed)) (p :: ps) = false) as ->.
    { subst covered. rewrite path_covered_by. split; [|by eauto].
      intros (allowed' & Hal & H). rewrite Ep in Hal.
      apply (list_fmap_eq_inj path_str path_str_inj) in Hal as ->. done. }
    destruct (existsb _ _); split.
    + intros [= H%dedup_by_nil]. by destruct base.
    + by intros [? ?].
    + by intros [= ->%dedup_by_nil].
    + by intros [-> _].
  - split; [done|]. intros [_ (allowed & Hal & _)].
    apply parse_product_paths_Ok in Hal. congruence.
Qed.

(** ** Witnesses *)

Lemma projected_lifecycle_plans_witness :
  plan_user_action_lifecycle_transition (lifecycle_facts (sample_waiting_task PWaitingUser)) PShaping =
    Ok (Some {| tlt_task_id := "t1"; tlt_from := PWaitingUser; tlt_to := PShaping |}).
Proof.
  apply (projected_lifecycle_plans sample_header (sample_waiting_task PWaitingUser) None [] PShaping).
  reflexivity.
Defined.
