(* ===== verification/Access.v ===== *)
(** * Access: verification of an invocation

    Models [crates/volicord-core/src/policy/access.rs] and the accessors of
    [pipeline.rs] and [agent_session.rs] it uses: which actor may run which
    operation category, and the Git workspace coordinate a verified invocation
    carries.  Errors keep the field and categories they report.
    [Path::is_absolute] is the Unix reading: the path starts at the root. *)

From Stdlib Require Import Ascii.
From S2P Require Import Prelude Text Values Canonical Schema.

Record ValidatedAgentSession := {
  vs_connection_id : AgentConnectionId;
  vs_project_id : ProjectId;
  vs_runtime_session_id : string;
  vs_project_session_id : string;
  vs_integration_revision : string;
}.

(** [ValidatedAgentSession::verification_basis]. *)
Definition session_verification_basis (s : ValidatedAgentSession) : string :=
  "connection:" +:+ vs_connection_id s +:+ "/session:" +:+ vs_project_session_id s +:+
  "/revision:" +:+ vs_integration_revision s.

Inductive UserActionChannelKind := Cli.

(** [channel.verification_basis().as_str()]. *)
Definition channel_verification_basis (c : UserActionChannelKind) : string :=
  match c with Cli => "cli_direct_user_channel" end.

Inductive InvocationAuthority :=
| AuthorityLocalUser (channel : UserActionChannelKind)
| AuthorityAgentConnection (session : ValidatedAgentSession).

Definition authority_actor_source (a : InvocationAuthority) : ActorSource :=
  match a with
  | AuthorityLocalUser _ => LocalUser
  | AuthorityAgentConnection session => AgentConnection (vs_connection_id session)
  end.

Record InvocationContext := {
  inv_project_id : ProjectId;
  inv_operation_category : OperationCategory;
  inv_authority : InvocationAuthority;
  inv_session_id : option string;
  inv_git_workspace_context : option GitWorkspaceContext;
}.

Record VerifiedInvocationContext := {
  ver_project_id : ProjectId;
  ver_actor_source : ActorSource;
  ver_operation_category : OperationCategory;
  ver_verification_basis : string;
  ver_assurance_level : string;
  ver_session_id : option string;
  ver_git_workspace_context : option GitWorkspaceContext;
}.

(** The [InvocationContextMismatch] errors by the details they carry. *)
Inductive AccessError :=
| InvocationContextMismatch (field : string)
| OperationCategoryMismatch (required actual : OperationCategory)
| ActorSourceMismatch (category : OperationCategory) (actor_source : ActorSource).

Definition validate_actor_source (actor_source : ActorSource) (operation_category : OperationCategory)
    : result unit AccessError :=
  match operation_category, actor_source with
  | Read, AgentConnection connection_id =>
      if negb (blank connection_id) then Ok tt
      else Err (ActorSourceMismatch operation_category actor_source)
  | Read, LocalUser => Ok tt
  | AgentWorkflow, AgentConnection connection_id =>
      if negb (blank connection_id) then Ok tt
      else Err (ActorSourceMismatch operation_category actor_source)
  | UserOnly, LocalUser => Ok tt
  | AdminLocal, LocalUser => Ok tt
  | LocalRecovery, LocalUser => Ok tt
  | _, _ => Err (ActorSourceMismatch operation_category actor_source)
  end.

Definition actor_assurance_level (actor_source : ActorSource) : string :=
  match actor_source with
  | AgentConnection _ => "agent_connection_cooperative"
  | LocalUser => "local_user_channel"
  | System => "system"
  end.

Definition verified_binding_basis (invocation : InvocationContext)
    : result (string * option string) AccessError :=
  match inv_authority invocation with
  | AuthorityAgentConnection validated =>
      if vs_project_id validated <>? inv_project_id invocation
      then Err (InvocationContextMismatch "invocation.validated_agent_session")
      else Ok (session_verification_basis validated, Some (vs_project_session_id validated))
  | AuthorityLocalUser channel =>
      Ok (channel_verification_basis channel, inv_session_id invocation)
  end.

Definition set_head_sha (w : GitWorkspaceContext) (head : option string) : GitWorkspaceContext :=
  {| git_common_dir := git_common_dir w; worktree_id := worktree_id w;
     branch_ref := branch_ref w; head_sha := head;
     workspace_fingerprint := workspace_fingerprint w |}.

(** [validate_git_workspace_context]: the mutated workspace is the result. *)
Definition validate_git_workspace_context (workspace : GitWorkspaceContext)
    : result GitWorkspaceContext AccessError :=
  if blank (git_common_dir workspace) || negb (starts_with "/" (git_common_dir workspace))
  then Err (InvocationContextMismatch "invocation.git_workspace_context.git_common_dir")
  else if negb (is_canonical_sha256_digest (worktree_id workspace))
  then Err (InvocationContextMismatch "invocation.git_workspace_context.worktree_id")
  else if is_some_and (branch_ref workspace) (λ reference,
            negb (starts_with "refs/" reference)
            || (str_contains_byte "000"%char reference
                || str_contains_byte "010"%char reference
                || str_contains_byte "013"%char reference)
            || (trim reference <>? reference))
  then Err (InvocationContextMismatch "invocation.git_workspace_context.branch_ref")
  else
    let? head :=
      try_option (λ head, map_err
        (λ _, InvocationContextMismatch "invocation.git_workspace_context.head_sha")
        (canonical_git_object_id head)) (head_sha workspace) in
    if negb (is_canonical_sha256_digest (workspace_fingerprint workspace))
    then Err (InvocationContextMismatch "invocation.git_workspace_context.workspace_fingerprint")
    else Ok (set_head_sha workspace head).

(** [derive_verified_invocation]; the envelope, project state and method policy
    enter by the one field each of them contributes. *)
Definition derive_verified_invocation
    (state_project_id envelope_project_id : ProjectId) (invocation : InvocationContext)
    (policy_operation_category : OperationCategory)
    : result VerifiedInvocationContext AccessError :=
  if envelope_project_id <>? inv_project_id invocation
  then Err (InvocationContextMismatch "envelope.project_id")
  else if state_project_id <>? inv_project_id invocation
  then Err (InvocationContextMismatch "project_state.project_id")
  else if inv_operation_category invocation <>? policy_operation_category
  then Err (OperationCategoryMismatch policy_operation_category (inv_operation_category invocation))
  else
    let actor_source := authority_actor_source (inv_authority invocation) in
    let? _ := validate_actor_source actor_source policy_operation_category in
    let? '(verification_basis, session_id) := verified_binding_basis invocation in
    let? git_workspace_context :=
      try_option validate_git_workspace_context (inv_git_workspace_context invocation) in
    Ok {| ver_project_id := inv_project_id invocation;
          ver_actor_source := actor_source;
          ver_operation_category := inv_operation_category invocation;
          ver_verification_basis := verification_basis;
          ver_assurance_level := actor_assurance_level actor_source;
          ver_session_id := session_id;
          ver_git_workspace_context := git_workspace_context |}.

(** ** Lemmas *)

Lemma git_object_id_idemp head id :
  canonical_git_object_id head = Ok id → canonical_git_object_id id = Ok id.
Proof. apply git_object_id_stable. Qed.

Lemma validate_workspace_idemp w w' :
  validate_git_workspace_context w = Ok w' → validate_git_workspace_context w' = Ok w'.
Proof.
  unfold validate_git_workspace_context. intros H. unravel H. simpl.
  repeat match goal with E : _ = false |- _ => rewrite E; clear E end. simpl.
  destruct (head_sha w) as [head|]; simpl in *; simplify_eq; [|done].
  unfold map_err in *. destruct (canonical_git_object_id head) as [id|] eqn:Eid; simplify_eq.
  simpl. by rewrite (git_object_id_idemp _ _ Eid).
Qed.

(** ** Theorems *)

(** An invocation is verified only for an actor its category admits: user,
    admin and recovery operations only for the local user, agent workflow only
    for a non-blank agent connection whose validated session belongs to the
    project, and never for the system actor. *)
Theorem verified_invocation_actor sp ep inv category v :
  derive_verified_invocation sp ep inv category = Ok v →
  ver_operation_category v = category ∧
  ver_project_id v = sp ∧ sp = ep ∧
  match category with
  | UserOnly | AdminLocal | LocalRecovery => ver_actor_source v = LocalUser
  | AgentWorkflow => ∃ s, inv_authority inv = AuthorityAgentConnection s ∧
      vs_project_id s = ver_project_id v ∧ blank (vs_connection_id s) = false ∧
      ver_actor_source v = AgentConnection (vs_connection_id s) ∧
      ver_session_id v = Some (vs_project_session_id s)
  | Read => ver_actor_source v ≠ System
  end.
Proof.
  unfold derive_verified_invocation. intros H. unravel H. breflect. subst. simpl.
  split_and!; try done.
  destruct (inv_authority inv) as [c|sess] eqn:Ea, (inv_operation_category inv) eqn:Ec;
    simpl in *; try done; simplify_eq.
  unfold verified_binding_basis in *. rewrite Ea in *.
  destruct (blank (vs_connection_id sess)) eqn:Eb; [done|].
  match goal with E : (if _ then _ else _) = _ |- _ => unravel E end. breflect.
  exists sess. by split_and!.
Qed.

(** Verification canonicalizes the Git workspace once: verifying the same
    invocation with the workspace it produced yields the same workspace. *)
Theorem verified_workspace_stable sp ep inv category v w :
  derive_verified_invocation sp ep inv category = Ok v →
  ver_git_workspace_context v = Some w → validate_git_workspace_context w = Ok w.
Proof.
  unfold derive_verified_invocation. intros H Hw. unravel H. simpl in Hw. simplify_eq.
  destruct (inv_git_workspace_context inv) as [w0|]; simpl in *; [|done].
  match goal with E : match validate_git_workspace_context w0 with _ => _ end = _ |- _ => unravel E end.
  by eapply validate_workspace_idemp.
Qed.

(** ** Witnesses *)

Definition sample_digest : string :=
  "sha256:0000000000000000000000000000000000000000000000000000000000000000".

Definition sample_invocation : InvocationContext :=
  {| inv_project_id := "p"; inv_operation_category := AgentWorkflow;
     inv_authority := AuthorityAgentConnection
       {| vs_connection_id := "conn"; vs_project_id := "p"; vs_runtime_session_id := "rs";
          vs_project_session_id := "ps"; vs_integration_revision := "r1" |};
     inv_session_id := None;
     inv_git_workspace_context := Some
       {| git_common_dir := "/repo/.git"; worktree_id := sample_digest;
          branch_ref := Some "refs/heads/main";
          head_sha := Some "ABCDEF0123456789abcdef0123456789abcdef01";
          workspace_fingerprint := sample_digest |} |}.

Definition sample_verified : VerifiedInvocationContext :=
  {| ver_project_id := "p"; ver_actor_source := AgentConnection "conn";
     ver_operation_category := AgentWorkflow;
     ver_verification_basis := "connection:conn/session:ps/revision:r1";
     ver_assurance_level := "agent_connection_cooperative"; ver_session_id := Some "ps";
     ver_git_workspace_context := Some
       {| git_common_dir := "/repo/.git"; worktree_id := sample_digest;
          branch_ref := Some "refs/heads/main";
          head_sha := Some "abcdef0123456789abcdef0123456789abcdef01";
          workspace_fingerprint := sample_digest |} |}.

Lemma verified_invocation_actor_witness :
  derive_verified_invocation "p" "p" sample_invocation AgentWorkflow = Ok sample_verified ∧
  ∃ s, inv_authority sample_invocation = AuthorityAgentConnection s ∧ vs_project_id s = "p".
Proof.
  assert (derive_verified_invocation "p" "p" sample_invocation AgentWorkflow = Ok sample_verified)
    as Hv by (vm_compute; reflexivity).
  split; [exact Hv|].
  destruct (verified_invocation_actor "p" "p" sample_invocation AgentWorkflow sample_verified Hv)
    as (_ & _ & _ & s & Hs & Hp & _).
  exists s. split; [exact Hs|exact Hp].
Defined.

Lemma verified_workspace_stable_witness : ∃ w,
  ver_git_workspace_context sample_verified = Some w ∧ validate_git_workspace_context w = Ok w.
Proof.
  eexists. split; [reflexivity|].
  apply (verified_workspace_stable "p" "p" sample_invocation AgentWorkflow sample_verified);
    [vm_compute|]; reflexivity.
Defined.
