(* ===== verification/Clock.v ===== *)
(** * Clock: canonical instants and the monotonic project clock

    Models [UtcTimestamp] of [crates/volicord-types/src/values.rs] and
    [crates/volicord-store/src/core_pipeline/clock.rs].  Calendar arithmetic and
    RFC 3339 text belong to [chrono], which enters as the class [Chrono] with
    the law of checked addition and the documented range of durations.  A persisted
    timestamp is its decoded instant. *)

From Stdlib Require Import DecimalString DecimalZ.
From S2P Require Import Prelude Values.

(** ** Store errors

    The variants of [StoreError] the modelled code raises; the last three are
    the SQLite failures it forwards and a Rust panic. *)

Inductive StoreError :=
| InvalidInput (detail : string)
| SchemaInvariant (detail : string)
| NotFound (entity id : string)
| Conflict (entity id : string)
| CorruptOwnerStateJson (table id column : string)
| CorruptOwnerStateValue (table id column : string)
| CorruptOwnerStateInvariant (table id invariant : string)
| CorruptStoredJson (field : string)
| CorruptStoredValue (field : string)
| ConstraintViolation (constraint : string)
| SqliteNoRows
| StorePanic (detail : string).

(** ** Instants *)

(** A number of minutes in nanoseconds. *)
Definition minutes (m : Z) : Z := (m * 60 * 1000000000)%Z.

(** [TimeDelta::MAX], in nanoseconds: [i64::MAX] milliseconds; [TimeDelta::MIN] is its
    negation. *)
Definition max_duration : Z := (9223372036854775807 * 1000000)%Z.

Class Chrono := {
  year : UtcTimestamp → Z;
  to_rfc3339 : UtcTimestamp → string;
  parse_from_rfc3339 : string → option UtcTimestamp;
  checked_add_signed : UtcTimestamp → Z → option UtcTimestamp;
  checked_add_signed_sum : ∀ t d t', checked_add_signed t d = Some t' → t' = (t + d)%Z;
  (** [Duration::minutes]; [None] is its panic, which its documentation gives for a
      duration out of bounds. *)
  duration_minutes : Z → option Z;
  duration_minutes_value : ∀ m d, duration_minutes m = Some d → d = minutes m;
  duration_minutes_panics : ∀ m, duration_minutes m = None ↔ (max_duration < Z.abs (minutes m))%Z;
}.

Section clock.
Context `{Chrono}.

(** [UtcTimestamp::ensure_canonical_rfc3339_representable]. *)
Definition representable (t : UtcTimestamp) : bool :=
  if negb ((0 <=? year t)%Z && (year t <=? 9999)%Z) then false
  else match parse_from_rfc3339 (to_rfc3339 t) with
       | None => false
       | Some reparsed => (reparsed =? t) && (to_rfc3339 reparsed =? to_rfc3339 t)
       end.

(** [UtcTimestamp::checked_add]; [None] is [UtcTimestampRangeError]. *)
Definition checked_add (t : UtcTimestamp) (duration : Z) : option UtcTimestamp :=
  match checked_add_signed t duration with
  | None => None
  | Some timestamp => bool_then (representable timestamp) timestamp
  end.

(** ** The project clock *)

(** The persisted [project_state.updated_at] floor and the handle's sample. *)
Record ClockState := {
  updated_at : UtcTimestamp;
  last_clock_sample : option UtcTimestamp;
}.

Definition clock_invariant (detail : string) : StoreError := SchemaInvariant detail.

(** [project_current_utc_timestamp_for_conn]. *)
Definition project_current_utc_timestamp
    (project_id : string) (sqlite_now persisted_floor : UtcTimestamp)
    (local_floor : option UtcTimestamp) : result UtcTimestamp StoreError :=
  if negb (representable sqlite_now) then
    Err (clock_invariant "SQLite returned an out-of-range Core current UTC timestamp")
  else if negb (representable persisted_floor) then
    Err (CorruptOwnerStateValue "project_state" project_id "updated_at")
  else if is_some_and local_floor (λ t, negb (representable t)) then
    Err (clock_invariant "Core local UTC floor is outside the canonical timestamp range")
  else Ok (Z.max (Z.max sqlite_now persisted_floor) (default persisted_floor local_floor)).

(** [CoreProjectStore::current_timestamp]: the sample is remembered. *)
Definition current_timestamp (project_id : string) (sqlite_now : UtcTimestamp) (s : ClockState)
    : result (UtcTimestamp * ClockState) StoreError :=
  let? timestamp :=
    project_current_utc_timestamp project_id sqlite_now (updated_at s) (last_clock_sample s) in
  Ok (timestamp, {| updated_at := updated_at s; last_clock_sample := Some timestamp |}).

(** [CoreProjectStore::current_clock_floor]. *)
Definition current_clock_floor (project_id : string) (s : ClockState)
    : result UtcTimestamp StoreError :=
  if negb (representable (updated_at s)) then
    Err (CorruptOwnerStateValue "project_state" project_id "updated_at")
  else if is_some_and (last_clock_sample s) (λ t, negb (representable t)) then
    Err (clock_invariant "Core Store handle clock sample is outside the canonical RFC 3339 range")
  else Ok (match last_clock_sample s with
           | None => updated_at s
           | Some local => Z.max (updated_at s) local
           end).

(** [CoreProjectStore::remember_clock_sample]. *)
Definition remember_clock_sample (sample : UtcTimestamp) (s : ClockState) : ClockState :=
  if is_none_or (last_clock_sample s) (λ current, ts_lt current sample)
  then {| updated_at := updated_at s; last_clock_sample := Some sample |}
  else s.

(** [advance_project_utc_floor_tx]. *)
Definition advance_project_utc_floor (project_id : string) (sample : UtcTimestamp) (s : ClockState)
    : result (UtcTimestamp * ClockState) StoreError :=
  if negb (representable sample) then
    Err (clock_invariant "Core UTC floor sample is outside the canonical timestamp range")
  else if negb (representable (updated_at s)) then
    Err (CorruptOwnerStateValue "project_state" project_id "updated_at")
  else
    let floor := Z.max (updated_at s) sample in
    Ok (floor, {| updated_at := floor; last_clock_sample := last_clock_sample s |}).

(** ** Lemmas *)

Lemma checked_add_Some t d t' :
  checked_add t d = Some t' → t' = (t + d)%Z ∧ representable t' = true.
Proof.
  unfold checked_add, bool_then. intros Ha. unravel Ha. split; [|done].
  by apply checked_add_signed_sum.
Qed.

(** One step of the handle: sample, remember, or advance the floor. *)
Inductive clock_step (project_id : string) : ClockState → ClockState → Prop :=
| clock_sample now t s s' :
    current_timestamp project_id now s = Ok (t, s') → clock_step project_id s s'
| clock_remember sample s :
    clock_step project_id s (remember_clock_sample sample s)
| clock_advance sample t s s' :
    advance_project_utc_floor project_id sample s = Ok (t, s') → clock_step project_id s s'.

(** The order on clock states: neither coordinate moves backward. *)
Definition clock_le (s s' : ClockState) : Prop :=
  (updated_at s ≤ updated_at s')%Z ∧
  ∀ t, last_clock_sample s = Some t → ∃ t', last_clock_sample s' = Some t' ∧ (t ≤ t')%Z.

#[global] Instance clock_le_preorder : PreOrder clock_le.
Proof.
  split.
  - intros s. split; [lia|]. intros t ->. exists t. split; [done|lia].
  - intros s1 s2 s3 [H1 H1'] [H2 H2']. split; [lia|].
    intros t (t' & Ht' & ?)%H1'. apply H2' in Ht' as (t'' & -> & ?).
    exists t''. split; [done|lia].
Qed.

Lemma clock_step_le project_id s s' : clock_step project_id s s' → clock_le s s'.
Proof.
  destruct 1 as [now t s s' Hs|sample s|sample t s s' Hs].
  - unfold current_timestamp, project_current_utc_timestamp in Hs. unravel Hs. simpl.
    split; [simpl; lia|]. simpl. intros t' Ht'. rewrite Ht'. simpl.
    eexists. split; [done|]. lia.
  - unfold remember_clock_sample, is_none_or, ts_lt.
    destruct (last_clock_sample s) as [t|] eqn:E; [|split; simpl; [lia|congruence]].
    destruct (t <? sample)%Z eqn:El; [|reflexivity].
    split; simpl; [lia|]. rewrite E. intros ? [= <-]. exists sample. split; [done|lia].
  - unfold advance_project_utc_floor in Hs. unravel Hs. split; simpl; [lia|].
    intros t' ->. exists t'. split; [done|lia].
Qed.

End clock.

(** ** A concrete calendar for the witnesses *)

(** Instants are written as decimal nanoseconds and a year is 365 days. *)
Definition bounded_minutes (m : Z) : option Z :=
  if Z.leb (Z.abs (minutes m)) max_duration then Some (minutes m) else None.

Lemma bounded_minutes_value m d : bounded_minutes m = Some d → d = minutes m.
Proof. unfold bounded_minutes. by destruct (Z.leb _ _); intros [= <-]. Qed.

Lemma bounded_minutes_panics m :
  bounded_minutes m = None ↔ (max_duration < Z.abs (minutes m))%Z.
Proof. unfold bounded_minutes. destruct (Z.leb_spec (Z.abs (minutes m)) max_duration); split; [done|lia|done|done]. Qed.

#[local] Instance decimal_chrono : Chrono := {
  year t := (t / (365 * 86400 * 1000000000))%Z;
  to_rfc3339 t := NilEmpty.string_of_int (Z.to_int t);
  parse_from_rfc3339 text := Z.of_int <$> NilEmpty.int_of_string text;
  checked_add_signed t d := Some (t + d)%Z;
  checked_add_signed_sum := λ t d t' H, eq_sym (f_equal (default 0%Z) H);
  duration_minutes := bounded_minutes;
  duration_minutes_value := bounded_minutes_value;
  duration_minutes_panics := bounded_minutes_panics;
}.

(** ** Theorems *)

(** The project clock is monotonic: no sequence of sampling, remembering and
    floor-advancing steps ever moves the persisted floor or the handle's sample
    backward. *)
Theorem clock_monotonic `{Chrono} project_id s s' :
  rtc (clock_step project_id) s s' → clock_le s s'.
Proof.
  induction 1 as [|s1 s2 s3 Hstep _ IH]; [reflexivity|].
  etrans; [by eapply clock_step_le|done].
Qed.

(** A sampled instant is at least the SQLite time, the persisted floor and
    the last sample of the handle, and it becomes the handle's sample. *)
Theorem current_timestamp_floor `{Chrono} project_id now t s s' :
  current_timestamp project_id now s = Ok (t, s') →
  (now ≤ t)%Z ∧ (updated_at s ≤ t)%Z ∧ (∀ l, last_clock_sample s = Some l → (l ≤ t)%Z) ∧
  last_clock_sample s' = Some t ∧ updated_at s' = updated_at s.
Proof.
  unfold current_timestamp, project_current_utc_timestamp. intros Hs. unravel Hs. simpl.
  split_and!; try done; [lia|lia|]. intros l ->. simpl. lia.
Qed.

Definition sample_clock : ClockState := {| updated_at := 100; last_clock_sample := Some 150%Z |}.

Lemma clock_monotonic_witness :
  clock_le sample_clock {| updated_at := 170; last_clock_sample := Some 160%Z |}.
Proof.
  apply (clock_monotonic "p").
  eapply rtc_l with (y := {| updated_at := 100; last_clock_sample := Some 160%Z |}).
  { by apply (clock_sample "p" 160 160). }
  eapply rtc_l; [|apply rtc_refl]. by apply (clock_advance "p" 170 170).
Defined.

(** The system clock went back to 90: the sample stays at 150. *)
Lemma current_timestamp_floor_witness :
  (90 ≤ 150)%Z ∧ (100 ≤ 150)%Z ∧ (∀ l, Some 150%Z = Some l → (l ≤ 150)%Z) ∧
  Some 150%Z = Some 150%Z ∧ 100%Z = 100%Z.
Proof. exact (current_timestamp_floor "p" 90 150 sample_clock sample_clock eq_refl). Defined.
