(* ===== verification/TicketStore.v ===== *)
(** * TicketStore: the persisted Write Ticket aggregate

    Models [crates/volicord-store/src/core_pipeline/write_tickets.rs]: the
    stored record, its validation on every decode and insert, and the five
    mutations, over a table keyed by ticket id (the primary key within one
    project).  A row is kept in decoded form; a read validates it the way the
    decoder does.  The unique index on the consuming run is modelled, and so
    are the three immediate foreign keys, against the ids of the rows they name
    ([TicketOwners]); the deferred key of the consuming run is checked when a
    transaction commits and is not.  The current write-authority fingerprint is
    a field of the store: it is the digest of the project policy. *)

From S2P Require Import Prelude Text ProductPath Values Canonical Schema Clock.

Abbreviation JsonObject := (list (string * Value)).

(** ** Records *)

Record StoredWriteTicket := {
  wt_project_id : string;
  wt_write_ticket_id : string;
  wt_task_id : string;
  wt_change_unit_id : string;
  wt_basis_state_version : N;
  wt_status : WriteTicketStatus;
  wt_validity_basis : WriteTicketValidityBasis;
  wt_path_scope : WriteTicketPathScope;
  wt_attempt_scope : WriteTicketAttemptScope;
  wt_created_by_actor_source : ActorSource;
  wt_created_by_user_action_resolution_id : option string;
  wt_idle_expires_at : option UtcTimestamp;
  wt_invalidation_reason : option WriteTicketInvalidationReason;
  wt_consumed_by_run_id : option string;
  wt_consumed_at : option UtcTimestamp;
  wt_revoked_at : option UtcTimestamp;
  wt_created_at : UtcTimestamp;
  wt_metadata : JsonObject;
}.

Record WriteTicketInsert := {
  wi_write_ticket_id : WriteTicketId;
  wi_task_id : TaskId;
  wi_change_unit_id : ChangeUnitId;
  wi_validity_basis : WriteTicketValidityBasis;
  wi_path_scope : WriteTicketPathScope;
  wi_attempt_scope : WriteTicketAttemptScope;
  wi_created_by_actor_source : ActorSource;
  wi_created_by_user_action_resolution_id : option UserActionResolutionId;
  wi_idle_expires_at : option UtcTimestamp;
  wi_created_at : UtcTimestamp;
  wi_metadata : JsonObject;
}.

Record WriteTicketInvalidation := {
  winv_task_id : string;
  winv_reason : WriteTicketInvalidationReason;
}.

Record WriteTicketByIdInvalidation := {
  wid_write_ticket_id : string;
  wid_reason : WriteTicketInvalidationReason;
}.

Record WriteTicketConsumption := {
  wc_write_ticket_id : string;
  wc_run_id : string;
  wc_expected_basis_state_version : N;
  wc_expected_write_authority_fingerprint : string;
}.

Inductive WriteTicketMutation :=
| MarkActiveStale (task_id : string)
| InvalidateActive (input : WriteTicketInvalidation)
| InvalidateById (input : WriteTicketByIdInvalidation)
| InsertTicket (input : WriteTicketInsert)
| ConsumeTicket (input : WriteTicketConsumption).

(** ** Validation *)

Inductive WriteTicketInvariant :=
| TaskIdentityAgreement | ChangeUnitIdentityAgreement | ApprovalOwnerAgreement
| ApprovalResolutionIdentity | DuplicateApprovalResolutionIdentity
| ScopeRevisionAgreement | BaselineAgreement | TimestampOrder
| DuplicateIntendedPaths | DuplicateAllowedPaths | DuplicateDeniedPaths
| AllowedDeniedPathDisjointness | IntendedPathCoverage
| ProductFileWriteIntentAgreement | StatusLifecycleAgreement.

Inductive WriteTicketFieldKind := JsonField | ValueField.

Inductive WriteTicketValidationFailure :=
| FieldFailure (logical_column : string) (kind : WriteTicketFieldKind)
| InvariantFailure (invariant : WriteTicketInvariant).

Definition nonempty_stored_identifier (value : string) : option string :=
  bool_then (negb (str_is_empty (trim value))) value.

(** [&value[7..]] after the prefix test is the stripped suffix. *)
Definition canonical_write_authority_fingerprint (value : string) : bool :=
  (String.length value =? 71) &&
  is_some_and (strip_prefix "sha256:" value) (str_forall is_ascii_lower_hex).

Definition lowercase_sha256_hex (value : string) : bool :=
  (String.length value =? 64) && str_forall is_ascii_lower_hex value.

(** The intended-path test both validators share: some intended path is not
    below an allowed prefix, or is below a denied one. *)
Definition intended_path_not_covered (scope : WriteTicketPathScope) (intended : list ProductRelativePath)
    : bool :=
  existsb (λ path,
    negb (existsb (λ a, is_within path a) (allowed scope))
    || existsb (λ d, is_within path d) (denied scope)) intended.

Definition status_columns_are_valid (record : StoredWriteTicket) : bool :=
  match wt_status record with
  | TActive =>
      is_none (wt_invalidation_reason record) && is_none (wt_consumed_by_run_id record)
      && is_none (wt_consumed_at record) && is_none (wt_revoked_at record)
  | TConsumed =>
      is_none (wt_invalidation_reason record) && is_some (wt_consumed_by_run_id record)
      && is_some (wt_consumed_at record) && is_none (wt_revoked_at record)
  | TInvalidated =>
      is_some (wt_invalidation_reason record) && is_none (wt_consumed_by_run_id record)
      && is_none (wt_consumed_at record) && is_none (wt_revoked_at record)
  | TRevoked =>
      is_some (wt_invalidation_reason record) && is_none (wt_consumed_by_run_id record)
      && is_none (wt_consumed_at record) && is_some (wt_revoked_at record)
  end.

(** [if cond { return Err(failure) }]. *)
Definition ensure {E} (violated : bool) (e : E) : result unit E :=
  if violated then Err e else Ok tt.

Section ticket_store.
Context `{Chrono}.

(** The loop over the timestamp columns. *)
Fixpoint first_unrepresentable (columns : list (string * option UtcTimestamp)) : option string :=
  match columns with
  | [] => None
  | (column, timestamp) :: rest =>
      if is_some_and timestamp (λ t, negb (representable t)) then Some column
      else first_unrepresentable rest
  end.

Definition validate_write_ticket_record (record : StoredWriteTicket)
    : result unit WriteTicketValidationFailure :=
  let basis := wt_validity_basis record in
  let scope := wt_attempt_scope record in
  let? _ := ensure (wt_basis_state_version record =? 0%N)
              (FieldFailure "basis_state_version" ValueField) in
  let? _ := ensure (vb_scope_revision basis =? 0%N)
              (FieldFailure "validity_basis_json" JsonField) in
  let? _ := ensure (str_is_empty (trim (as_intended_operation scope)))
              (FieldFailure "attempt_scope_json" JsonField) in
  let? _ := ensure (negb (canonical_write_authority_fingerprint
                            (vb_write_authority_fingerprint basis))
                    || is_some_and (vb_workspace_context_sha256 basis)
                         (λ digest, negb (lowercase_sha256_hex digest)))
              (FieldFailure "validity_basis_json" JsonField) in
  let? _ := match first_unrepresentable
                    [("created_at", Some (wt_created_at record));
                     ("idle_expires_at", wt_idle_expires_at record);
                     ("consumed_at", wt_consumed_at record);
                     ("revoked_at", wt_revoked_at record)] with
            | Some column => Err (FieldFailure column ValueField)
            | None => Ok tt
            end in
  let? _ := ensure ((vb_task_id basis <>? wt_task_id record)
                    || (as_task_id scope <>? wt_task_id record))
              (InvariantFailure TaskIdentityAgreement) in
  let? _ := ensure (existsb (λ reference,
                      (rr_project_id reference <>? wt_project_id record)
                      || (rr_task_id reference <>? wt_task_id record))
                      (vb_approval_basis_refs basis))
              (InvariantFailure ApprovalOwnerAgreement) in
  let? _ := ensure (existsb (λ reference,
                      is_none (nonempty_stored_identifier (rr_record_id reference)))
                      (vb_approval_basis_refs basis))
              (InvariantFailure ApprovalResolutionIdentity) in
  let? _ := ensure (length (bts_of_list (resolution_ref_identity <$> vb_approval_basis_refs basis))
                    <>? length (vb_approval_basis_refs basis))
              (InvariantFailure DuplicateApprovalResolutionIdentity) in
  let? _ := ensure ((vb_change_unit_id basis <>? wt_change_unit_id record)
                    || (as_change_unit_id scope <>? wt_change_unit_id record))
              (InvariantFailure ChangeUnitIdentityAgreement) in
  let? _ := ensure (wt_basis_state_version record <? vb_scope_revision basis)%N
              (InvariantFailure ScopeRevisionAgreement) in
  let? _ := ensure (vb_baseline_ref basis <>? as_baseline_ref scope)
              (InvariantFailure BaselineAgreement) in
  let? _ := ensure (is_some_and (wt_idle_expires_at record)
                      (λ expires_at, ts_le expires_at (wt_created_at record))
                    || is_some_and (wt_consumed_at record)
                         (λ consumed_at, ts_lt consumed_at (wt_created_at record))
                    || is_some_and (wt_revoked_at record)
                         (λ revoked_at, ts_lt revoked_at (wt_created_at record)))
              (InvariantFailure TimestampOrder) in
  let? _ := ensure (length (bts_of_list (as_intended_paths scope))
                    <>? length (as_intended_paths scope))
              (InvariantFailure DuplicateIntendedPaths) in
  let? _ := ensure (intended_path_not_covered (wt_path_scope record) (as_intended_paths scope))
              (InvariantFailure IntendedPathCoverage) in
  let? _ := ensure (negb (Bool.eqb (as_product_file_write_intended scope)
                            (negb (list_is_empty (as_intended_paths scope)))))
              (InvariantFailure ProductFileWriteIntentAgreement) in
  let? _ := ensure (negb (status_columns_are_valid record))
              (InvariantFailure StatusLifecycleAgreement) in
  Ok tt.

Definition invariant_str (i : WriteTicketInvariant) : string :=
  match i with
  | TaskIdentityAgreement => "task_identity_agreement"
  | ChangeUnitIdentityAgreement => "change_unit_identity_agreement"
  | ApprovalOwnerAgreement => "approval_owner_agreement"
  | ApprovalResolutionIdentity => "approval_resolution_identity"
  | DuplicateApprovalResolutionIdentity => "duplicate_approval_resolution_identity"
  | ScopeRevisionAgreement => "scope_revision_agreement"
  | BaselineAgreement => "baseline_agreement"
  | TimestampOrder => "timestamp_order"
  | DuplicateIntendedPaths => "duplicate_intended_paths"
  | DuplicateAllowedPaths => "duplicate_allowed_paths"
  | DuplicateDeniedPaths => "duplicate_denied_paths"
  | AllowedDeniedPathDisjointness => "allowed_denied_path_disjointness"
  | IntendedPathCoverage => "intended_path_coverage"
  | ProductFileWriteIntentAgreement => "product_file_write_intent_agreement"
  | StatusLifecycleAgreement => "status_lifecycle_agreement"
  end.

(** The error mapping at the end of [decode_write_ticket_record]. *)
Definition corrupt_record (id : string) (failure : WriteTicketValidationFailure) : StoreError :=
  match failure with
  | FieldFailure column JsonField => CorruptOwnerStateJson "write_tickets" id column
  | FieldFailure column ValueField => CorruptOwnerStateValue "write_tickets" id column
  | InvariantFailure i => CorruptOwnerStateInvariant "write_tickets" id (invariant_str i)
  end.

Definition decode_id (id column value : string) : result unit StoreError :=
  ensure (is_none (nonempty_stored_identifier value))
    (CorruptOwnerStateValue "write_tickets" id column).

(** [decode_write_ticket_record]: identifiers, then the record validation. *)
Definition decode_write_ticket_record (raw : StoredWriteTicket)
    : result StoredWriteTicket StoreError :=
  let id := wt_write_ticket_id raw in
  let? _ := decode_id id "project_id" (wt_project_id raw) in
  let? _ := decode_id id "write_ticket_id" (wt_write_ticket_id raw) in
  let? _ := decode_id id "task_id" (wt_task_id raw) in
  let? _ := decode_id id "change_unit_id" (wt_change_unit_id raw) in
  let? _ := match wt_created_by_user_action_resolution_id raw with
            | Some value => decode_id id "created_by_user_action_resolution_id" value
            | None => Ok tt
            end in
  let? _ := match wt_consumed_by_run_id raw with
            | Some value => decode_id id "consumed_by_run_id" value
            | None => Ok tt
            end in
  let? _ := map_err (corrupt_record id) (validate_write_ticket_record raw) in
  Ok raw.

(** ** The table and its reads *)

(** The keys of [tasks], [change_units] and [user_action_resolutions] that the foreign keys
    of [write_tickets] refer to; a Change Unit is keyed with its Task. *)
Record TicketOwners := MkTicketOwners {
  own_tasks : gset string;
  own_change_units : gset (string * string);
  own_resolutions : gset string;
}.

Record TicketTable := {
  tt_project_id : string;
  tt_write_authority_fingerprint : string;
  tt_owners : TicketOwners;
  tt_rows : gmap string StoredWriteTicket;
}.

Definition set_rows (s : TicketTable) (rows : gmap string StoredWriteTicket) : TicketTable :=
  {| tt_project_id := tt_project_id s;
     tt_write_authority_fingerprint := tt_write_authority_fingerprint s;
     tt_owners := tt_owners s; tt_rows := rows |}.

(** Rows [ORDER BY write_ticket_id]. *)
Definition rows_by_id (s : TicketTable) : list StoredWriteTicket :=
  omap (λ id, tt_rows s !! id) (bts_of_list (map_to_list (tt_rows s)).*1).

Definition active_write_tickets (s : TicketTable) (task_id : string)
    : result (list StoredWriteTicket) StoreError :=
  let? records :=
    try_map decode_write_ticket_record
      (List.filter (λ row, wt_task_id row =? task_id) (rows_by_id s)) in
  Ok (List.filter (λ record, wt_status record =? TActive) records).

(** Rows [ORDER BY basis_state_version DESC, write_ticket_id]. *)
Definition write_tickets_for_task (s : TicketTable) (task_id : string)
    : result (list StoredWriteTicket) StoreError :=
  try_map decode_write_ticket_record
    (sort_by_key (λ row, (MkReverse (wt_basis_state_version row), wt_write_ticket_id row))
       (List.filter (λ row, wt_task_id row =? task_id) (rows_by_id s))).

Definition write_ticket_record (s : TicketTable) (write_ticket_id : string)
    : result (option StoredWriteTicket) StoreError :=
  try_option decode_write_ticket_record (tt_rows s !! write_ticket_id).

(** ** Mutations *)

Definition validate_identifier (field value : string) : result unit StoreError :=
  if str_is_empty (trim value) then Err (InvalidInput (field +:+ " must not be empty")) else Ok tt.

Definition invalidated (row : StoredWriteTicket) (reason : WriteTicketInvalidationReason)
    : StoredWriteTicket :=
  {| wt_project_id := wt_project_id row; wt_write_ticket_id := wt_write_ticket_id row;
     wt_task_id := wt_task_id row; wt_change_unit_id := wt_change_unit_id row;
     wt_basis_state_version := wt_basis_state_version row; wt_status := TInvalidated;
     wt_validity_basis := wt_validity_basis row; wt_path_scope := wt_path_scope row;
     wt_attempt_scope := wt_attempt_scope row;
     wt_created_by_actor_source := wt_created_by_actor_source row;
     wt_created_by_user_action_resolution_id := wt_created_by_user_action_resolution_id row;
     wt_idle_expires_at := wt_idle_expires_at row; wt_invalidation_reason := Some reason;
     wt_consumed_by_run_id := wt_consumed_by_run_id row;
     wt_consumed_at := wt_consumed_at row; wt_revoked_at := wt_revoked_at row;
     wt_created_at := wt_created_at row; wt_metadata := wt_metadata row |}.

Definition consumed (row : StoredWriteTicket) (run_id : string) (at_ : UtcTimestamp)
    : StoredWriteTicket :=
  {| wt_project_id := wt_project_id row; wt_write_ticket_id := wt_write_ticket_id row;
     wt_task_id := wt_task_id row; wt_change_unit_id := wt_change_unit_id row;
     wt_basis_state_version := wt_basis_state_version row; wt_status := TConsumed;
     wt_validity_basis := wt_validity_basis row; wt_path_scope := wt_path_scope row;
     wt_attempt_scope := wt_attempt_scope row;
     wt_created_by_actor_source := wt_created_by_actor_source row;
     wt_created_by_user_action_resolution_id := wt_created_by_user_action_resolution_id row;
     wt_idle_expires_at := wt_idle_expires_at row;
     wt_invalidation_reason := wt_invalidation_reason row;
     wt_consumed_by_run_id := Some run_id;
     wt_consumed_at := Some at_; wt_revoked_at := wt_revoked_at row;
     wt_created_at := wt_created_at row; wt_metadata := wt_metadata row |}.

(** [invalidate_active_write_ticket_ids_in_tx]: each update must change the
    one active row of its id. *)
Fixpoint invalidate_active_write_ticket_ids
    (rows : gmap string StoredWriteTicket) (ids : list WriteTicketId)
    (reason : WriteTicketInvalidationReason)
    : result (gmap string StoredWriteTicket) StoreError :=
  match ids with
  | [] => Ok rows
  | id :: rest =>
      match rows !! id with
      | Some row =>
          if wt_status row =? TActive then
            invalidate_active_write_ticket_ids (<[id := invalidated row reason]> rows) rest reason
          else Err (SchemaInvariant "identified active Write Ticket invalidation changed no rows")
      | None => Err (SchemaInvariant "identified active Write Ticket invalidation changed no rows")
      end
  end.

Definition invalidate_active_write_tickets (s : TicketTable) (input : WriteTicketInvalidation)
    : result TicketTable StoreError :=
  let? _ := validate_identifier "task_id" (winv_task_id input) in
  let? records := active_write_tickets s (winv_task_id input) in
  let? rows := invalidate_active_write_ticket_ids (tt_rows s)
                 (wt_write_ticket_id <$> records) (winv_reason input) in
  Ok (set_rows s rows).

Definition mark_active_write_tickets_stale (s : TicketTable) (task_id : string)
    : result TicketTable StoreError :=
  invalidate_active_write_tickets s
    {| winv_task_id := task_id; winv_reason := IScopeRevisionChanged |}.

Definition invalidate_write_ticket (s : TicketTable) (input : WriteTicketByIdInvalidation)
    : result TicketTable StoreError :=
  let? _ := validate_identifier "write_ticket_id" (wid_write_ticket_id input) in
  let? record := write_ticket_record s (wid_write_ticket_id input) in
  let? record :=
    ok_or record (SchemaInvariant "identified active write ticket invalidation changed no rows") in
  if wt_status record <>? TActive
  then Err (SchemaInvariant "identified active write ticket invalidation changed no rows")
  else
    let? rows := invalidate_active_write_ticket_ids (tt_rows s) [wid_write_ticket_id input]
                   (wid_reason input) in
    Ok (set_rows s rows).

Definition active_write_ticket_record
    (project_id : string) (input : WriteTicketInsert) (basis_state_version : N)
    : StoredWriteTicket :=
  {| wt_project_id := project_id; wt_write_ticket_id := wi_write_ticket_id input;
     wt_task_id := wi_task_id input; wt_change_unit_id := wi_change_unit_id input;
     wt_basis_state_version := basis_state_version; wt_status := TActive;
     wt_validity_basis := wi_validity_basis input; wt_path_scope := wi_path_scope input;
     wt_attempt_scope := wi_attempt_scope input;
     wt_created_by_actor_source := wi_created_by_actor_source input;
     wt_created_by_user_action_resolution_id := wi_created_by_user_action_resolution_id input;
     wt_idle_expires_at := wi_idle_expires_at input;
     wt_invalidation_reason := None; wt_consumed_by_run_id := None; wt_consumed_at := None;
     wt_revoked_at := None; wt_created_at := wi_created_at input;
     wt_metadata := wi_metadata input |}.

(** [u64_to_i64]: the version must fit a SQLite integer. *)
Definition fits_i64 (n : N) : bool := (n <=? 9223372036854775807)%N.

(** The immediate foreign keys of [write_tickets]. *)
Definition ticket_owned (owners : TicketOwners) (record : StoredWriteTicket) : bool :=
  bool_decide (wt_task_id record ∈ own_tasks owners)
  && bool_decide ((wt_task_id record, wt_change_unit_id record) ∈ own_change_units owners)
  && is_none_or (wt_created_by_user_action_resolution_id record)
       (λ id, bool_decide (id ∈ own_resolutions owners)).

Definition insert_write_ticket
    (s : TicketTable) (input : WriteTicketInsert) (committed_state_version : N)
    : result TicketTable StoreError :=
  let? _ := validate_identifier "write_ticket_id" (wi_write_ticket_id input) in
  let? _ := validate_identifier "task_id" (wi_task_id input) in
  let? _ := validate_identifier "change_unit_id" (wi_change_unit_id input) in
  let? _ := match wi_created_by_user_action_resolution_id input with
            | Some id => validate_identifier "created_by_user_action_resolution_id" id
            | None => Ok tt
            end in
  let record := active_write_ticket_record (tt_project_id s) input committed_state_version in
  let? _ := map_err (λ _, InvalidInput "write-ticket typed authority facts are inconsistent")
              (validate_write_ticket_record record) in
  if negb (fits_i64 committed_state_version)
  then Err (InvalidInput "basis_state_version does not fit in SQLite integer")
  else match tt_rows s !! wi_write_ticket_id input with
       | Some _ => Err (ConstraintViolation "write_tickets.write_ticket_id")
       | None =>
           if negb (ticket_owned (tt_owners s) record)
           then Err (ConstraintViolation "write_tickets.task_id")
           else Ok (set_rows s (<[wi_write_ticket_id input := record]> (tt_rows s)))
       end.

(** The partial unique index on [consumed_by_run_id]. *)
Definition run_already_consumes (rows : gmap string StoredWriteTicket) (run_id : string) : bool :=
  existsb (λ row, wt_consumed_by_run_id row =? Some run_id) (map_to_list rows).*2.

Definition consume_write_ticket
    (s : TicketTable) (input : WriteTicketConsumption) (committed_at : UtcTimestamp)
    : result TicketTable StoreError :=
  let? _ := validate_identifier "write_ticket_id" (wc_write_ticket_id input) in
  let? _ := validate_identifier "run_id" (wc_run_id input) in
  let? ticket := write_ticket_record s (wc_write_ticket_id input) in
  let? ticket := ok_or ticket (NotFound "write_ticket" (wc_write_ticket_id input)) in
  if (wt_status ticket <>? TActive)
     || (wt_basis_state_version ticket <>? wc_expected_basis_state_version input)
     || (vb_write_authority_fingerprint (wt_validity_basis ticket)
           <>? wc_expected_write_authority_fingerprint input)
     || (tt_write_authority_fingerprint s <>? wc_expected_write_authority_fingerprint input)
  then Err (Conflict "write_ticket" (wc_write_ticket_id input))
  else if negb (fits_i64 (wc_expected_basis_state_version input))
  then Err (InvalidInput "write_tickets.basis_state_version does not fit in SQLite integer")
  else if run_already_consumes (tt_rows s) (wc_run_id input)
  then Err (ConstraintViolation "idx_write_tickets_consumed_run")
  else Ok (set_rows s (<[wc_write_ticket_id input := consumed ticket (wc_run_id input) committed_at]>
                         (tt_rows s))).

(** [WriteTicketMutation::apply]. *)
Definition apply_ticket_mutation
    (s : TicketTable) (committed_state_version : N) (committed_at : UtcTimestamp)
    (m : WriteTicketMutation) : result TicketTable StoreError :=
  match m with
  | MarkActiveStale task_id => mark_active_write_tickets_stale s task_id
  | InvalidateActive input => invalidate_active_write_tickets s input
  | InvalidateById input => invalidate_write_ticket s input
  | InsertTicket input => insert_write_ticket s input committed_state_version
  | ConsumeTicket input => consume_write_ticket s input committed_at
  end.

(** The ordered batch of one commit: the first error aborts it. *)
Fixpoint apply_ticket_mutations
    (s : TicketTable) (committed_state_version : N) (committed_at : UtcTimestamp)
    (ms : list WriteTicketMutation) : result TicketTable StoreError :=
  match ms with
  | [] => Ok s
  | m :: rest =>
      let? s' := apply_ticket_mutation s committed_state_version committed_at m in
      apply_ticket_mutations s' committed_state_version committed_at rest
  end.

(** ** What a valid record is *)

Record ticket_valid (r : StoredWriteTicket) : Prop := {
  tv_version : (0 < wt_basis_state_version r)%N;
  tv_scope_revision : (0 < vb_scope_revision (wt_validity_basis r) ≤ wt_basis_state_version r)%N;
  tv_operation : trim (as_intended_operation (wt_attempt_scope r)) ≠ EmptyString;
  tv_fingerprint : canonical_write_authority_fingerprint
    (vb_write_authority_fingerprint (wt_validity_basis r)) = true;
  tv_workspace : ∀ d, vb_workspace_context_sha256 (wt_validity_basis r) = Some d →
    lowercase_sha256_hex d = true;
  tv_created_canonical : representable (wt_created_at r) = true;
  tv_idle_canonical : ∀ t, wt_idle_expires_at r = Some t → representable t = true;
  tv_consumed_canonical : ∀ t, wt_consumed_at r = Some t → representable t = true;
  tv_revoked_canonical : ∀ t, wt_revoked_at r = Some t → representable t = true;
  tv_task : vb_task_id (wt_validity_basis r) = wt_task_id r ∧
    as_task_id (wt_attempt_scope r) = wt_task_id r;
  tv_approval_owner : ∀ a, a ∈ vb_approval_basis_refs (wt_validity_basis r) →
    rr_project_id a = wt_project_id r ∧ rr_task_id a = wt_task_id r;
  tv_approval_identity : ∀ a, a ∈ vb_approval_basis_refs (wt_validity_basis r) →
    trim (rr_record_id a) ≠ EmptyString;
  tv_approval_unique :
    NoDup (resolution_ref_identity <$> vb_approval_basis_refs (wt_validity_basis r));
  tv_change_unit : vb_change_unit_id (wt_validity_basis r) = wt_change_unit_id r ∧
    as_change_unit_id (wt_attempt_scope r) = wt_change_unit_id r;
  tv_baseline : vb_baseline_ref (wt_validity_basis r) = as_baseline_ref (wt_attempt_scope r);
  tv_idle_order : ∀ t, wt_idle_expires_at r = Some t → (wt_created_at r < t)%Z;
  tv_consumed_order : ∀ t, wt_consumed_at r = Some t → (wt_created_at r ≤ t)%Z;
  tv_revoked_order : ∀ t, wt_revoked_at r = Some t → (wt_created_at r ≤ t)%Z;
  tv_paths_unique : NoDup (as_intended_paths (wt_attempt_scope r));
  tv_paths_covered : ∀ p, p ∈ as_intended_paths (wt_attempt_scope r) →
    (∃ a, a ∈ allowed (wt_path_scope r) ∧ is_within p a = true) ∧
    (∀ d, d ∈ denied (wt_path_scope r) → is_within p d = false);
  tv_intent : as_product_file_write_intended (wt_attempt_scope r) =
    negb (list_is_empty (as_intended_paths (wt_attempt_scope r)));
  tv_status : status_columns_are_valid r = true;
}.

(** A row a read accepts: identifiers are not blank and the record is valid. *)
Record row_ok (s : TicketTable) (id : string) (r : StoredWriteTicket) : Prop := {
  row_key : wt_write_ticket_id r = id;
  row_project : wt_project_id r = tt_project_id s;
  row_id : trim id ≠ EmptyString;
  row_task : trim (wt_task_id r) ≠ EmptyString;
  row_change_unit : trim (wt_change_unit_id r) ≠ EmptyString;
  row_resolution : ∀ v, wt_created_by_user_action_resolution_id r = Some v → trim v ≠ EmptyString;
  row_run : ∀ v, wt_consumed_by_run_id r = Some v → trim v ≠ EmptyString;
  row_valid : ticket_valid r;
  row_not_revoked : wt_status r ≠ TRevoked;
  row_version_fits : fits_i64 (wt_basis_state_version r) = true;
}.

(** The table invariant at an instant no row was created after. *)
Record table_ok (s : TicketTable) (now : UtcTimestamp) : Prop := {
  table_project : trim (tt_project_id s) ≠ EmptyString;
  table_rows : ∀ id r, tt_rows s !! id = Some r → row_ok s id r ∧ (wt_created_at r ≤ now)%Z;
  table_runs : ∀ id1 id2 r1 r2 run,
    tt_rows s !! id1 = Some r1 → tt_rows s !! id2 = Some r2 →
    wt_consumed_by_run_id r1 = Some run → wt_consumed_by_run_id r2 = Some run → id1 = id2;
}.

(** ** Lemmas: validation *)

Lemma ensure_Ok {E} b (e : E) : ensure b e = Ok tt ↔ b = false.
Proof. by destruct b. Qed.

Lemma ensure_bind {A E} b (e : E) (k : result A E) a :
  (let? _ := ensure b e in k) = Ok a ↔ b = false ∧ k = Ok a.
Proof. destruct b; simpl; naive_solver. Qed.

Lemma str_nonempty s : str_is_empty s = false ↔ s ≠ EmptyString.
Proof. by rewrite <-not_true_iff_false, str_is_empty_true. Qed.

Lemma nonempty_identifier value :
  is_none (nonempty_stored_identifier value) = false ↔ trim value ≠ EmptyString.
Proof.
  unfold nonempty_stored_identifier, bool_then. rewrite <-str_nonempty.
  by destruct (str_is_empty (trim value)).
Qed.

Lemma first_unrepresentable_None columns :
  first_unrepresentable columns = None ↔
  ∀ c t, (c, Some t) ∈ columns → representable t = true.
Proof.
  induction columns as [|[c o] columns IH]; simpl; [set_solver|].
  destruct o as [t|]; simpl; [destruct (representable t) eqn:E; simpl|].
  - rewrite IH. split; [|set_solver].
    intros Hall c' t'. rewrite elem_of_cons. intros [[= -> ->]|?]; eauto.
  - split; [done|]. intros Hall. specialize (Hall c t). rewrite E in Hall.
    exfalso. by assert (false = true) by (apply Hall; constructor).
  - rewrite IH. split; [|set_solver]. intros Hall c' t'. rewrite elem_of_cons.
    intros [?|?]; [done|eauto].
Qed.

Lemma intended_paths_covered scope paths :
  intended_path_not_covered scope paths = false ↔
  ∀ p, p ∈ paths → (∃ a, a ∈ allowed scope ∧ is_within p a = true) ∧
    (∀ d, d ∈ denied scope → is_within p d = false).
Proof.
  unfold intended_path_not_covered. rewrite existsb_false.
  split; intros Hall p Hp; specialize (Hall p Hp); revert Hall;
    rewrite orb_false_iff, negb_false_iff, existsb_elem, existsb_false; done.
Qed.

Lemma existsb_or_false {A} (f g : A → bool) l :
  existsb (λ x, f x || g x) l = false ↔ ∀ x, x ∈ l → f x = false ∧ g x = false.
Proof. rewrite existsb_false. split; intros Hl x Hx; by apply orb_false_iff, Hl. Qed.

Lemma bool_eqb_false b c : negb (Bool.eqb b c) = false ↔ b = c.
Proof. by rewrite negb_false_iff, Bool.eqb_true_iff. Qed.

Lemma timestamp_columns c1 c2 c3 c4 created idle consumed_at revoked_at :
  first_unrepresentable [(c1, Some created); (c2, idle); (c3, consumed_at); (c4, revoked_at)] = None ↔
  representable created = true ∧
  (∀ t, idle = Some t → representable t = true) ∧
  (∀ t, consumed_at = Some t → representable t = true) ∧
  (∀ t, revoked_at = Some t → representable t = true).
Proof.
  rewrite first_unrepresentable_None. split.
  - intros Hall. split_and!; [apply (Hall c1); set_solver|intros t ->..];
      [apply (Hall c2)|apply (Hall c3)|apply (Hall c4)]; set_solver.
  - intros (Hc & Hi & Hk & Hr) c t. rewrite !elem_of_cons, elem_of_nil.
    intros [[= -> ->]|[[= -> ?]|[[= -> ?]|[[= -> ?]|[]]]]]; eauto.
Qed.

Lemma validate_spec r : validate_write_ticket_record r = Ok tt ↔ ticket_valid r.
Proof.
  unfold validate_write_ticket_record.
  assert (∀ (o : option string) (k : result unit WriteTicketValidationFailure),
    (let? _ := match o with Some c => Err (FieldFailure c ValueField) | None => Ok tt end in k)
      = Ok tt ↔ o = None ∧ k = Ok tt) as Hcol by (intros [] k; naive_solver).
  repeat (rewrite ensure_bind || rewrite Hcol). clear Hcol.
  rewrite !orb_false_iff, !neqb_false, !is_some_and_false, !eqb_false, !str_nonempty, !negb_false_iff,
    timestamp_columns, existsb_or_false, existsb_false,
    intended_paths_covered, Bool.eqb_true_iff, !bts_of_list_length_NoDup.
  rewrite <-(length_fmap resolution_ref_identity (vb_approval_basis_refs _)),
    bts_of_list_length_NoDup.
  setoid_rewrite neqb_false. setoid_rewrite nonempty_identifier. setoid_rewrite negb_false_iff.
  unfold ts_le, ts_lt. setoid_rewrite Z.leb_gt. setoid_rewrite Z.ltb_ge. rewrite N.ltb_ge.
  split.
  - intros Hv. destruct_and! Hv. split; try done; lia.
  - intros []. destruct_and!. split_and!; try done; lia.
Qed.

Lemma decode_id_Ok id column value : decode_id id column value = Ok tt ↔ trim value ≠ EmptyString.
Proof. unfold decode_id. by rewrite ensure_Ok, nonempty_identifier. Qed.

Lemma row_ok_decodes s id r :
  trim (tt_project_id s) ≠ EmptyString → row_ok s id r → decode_write_ticket_record r = Ok r.
Proof.
  intros Hp []. unfold decode_write_ticket_record.
  rewrite !(proj2 (decode_id_Ok _ _ _)) by congruence.
  assert (∀ (o : option string) c, (∀ v, o = Some v → trim v ≠ EmptyString) →
    match o with Some v => decode_id (wt_write_ticket_id r) c v | None => Ok tt end = Ok tt) as Ho.
  { intros [v|] c Hv; [|done]. apply decode_id_Ok. auto. }
  rewrite !Ho by done. by rewrite (proj2 (validate_spec r)).
Qed.

Lemma table_read s now id :
  table_ok s now → write_ticket_record s id = Ok (tt_rows s !! id).
Proof.
  intros [Hp Hr _]. unfold write_ticket_record.
  destruct (tt_rows s !! id) as [r|] eqn:E; [|done]. simpl.
  destruct (Hr _ _ E) as [Hok _]. by rewrite (row_ok_decodes s id r).
Qed.

Lemma elem_of_rows_by_id s r :
  r ∈ rows_by_id s ↔ ∃ id, tt_rows s !! id = Some r.
Proof.
  unfold rows_by_id. rewrite list_elem_of_omap. split; [naive_solver|].
  intros [id Hid]. exists id. split; [|done].
  rewrite elem_of_bts_of_list, list_elem_of_fmap. exists (id, r).
  split; [done|]. by apply elem_of_map_to_list.
Qed.

(** Every read of a well-formed table succeeds, and lists exactly the active
    rows of the Task. *)
Lemma table_active s now task_id :
  table_ok s now →
  active_write_tickets s task_id =
    Ok (List.filter (λ r, wt_status r =? TActive)
          (List.filter (λ r, wt_task_id r =? task_id) (rows_by_id s))).
Proof.
  intros [Hp Hr _]. unfold active_write_tickets.
  set (l := List.filter (λ r, wt_task_id r =? task_id) (rows_by_id s)).
  assert (∀ r, r ∈ l → decode_write_ticket_record r = Ok r) as Hl.
  { intros r Hin. apply list_elem_of_In, filter_In in Hin as [Hin _].
    apply list_elem_of_In, elem_of_rows_by_id in Hin as [id Hid].
    eapply row_ok_decodes; [done|]. by apply (Hr id r). }
  assert (try_map decode_write_ticket_record l = Ok l) as ->; [|done].
  apply try_map_Ok. clear -Hl. induction l; constructor; [apply Hl; constructor|].
  apply IHl. intros r Hr. apply Hl. by constructor.
Qed.

Lemma decode_valid raw r :
  decode_write_ticket_record raw = Ok r → r = raw ∧ ticket_valid r.
Proof.
  unfold decode_write_ticket_record. intros Hd.
  repeat (destruct (decode_id _ _ _); [|done]).
  destruct (match wt_created_by_user_action_resolution_id raw with Some _ => _ | None => _ end); [|done].
  destruct (match wt_consumed_by_run_id raw with Some _ => _ | None => _ end); [|done].
  destruct (validate_write_ticket_record raw) as [[]|] eqn:E; simpl in Hd; simplify_eq.
  split; [done|]. by apply validate_spec.
Qed.

(** Reads validate: whatever the table holds, the rows they return are valid. *)
Lemma tickets_for_task_valid s task_id rs r :
  write_tickets_for_task s task_id = Ok rs → r ∈ rs → ticket_valid r ∧ wt_task_id r = task_id.
Proof.
  unfold write_tickets_for_task. rewrite try_map_Ok. intros Hrs Hr.
  destruct (Forall2_elem_r _ _ _ _ Hrs Hr) as (raw & Hraw & [-> Hv]%decode_valid).
  split; [done|]. rewrite sort_by_key_perm in Hraw.
  apply list_elem_of_In, filter_In in Hraw as [_ Ht]. by breflect.
Qed.

Lemma active_tickets_valid s task_id rs r :
  active_write_tickets s task_id = Ok rs → r ∈ rs →
  ticket_valid r ∧ wt_task_id r = task_id ∧ wt_status r = TActive.
Proof.
  unfold active_write_tickets. destruct (try_map _ _) as [all|] eqn:E; [|done].
  intros [= <-]. rewrite list_elem_of_In, filter_In, <-list_elem_of_In. intros [Hr Hs].
  apply try_map_Ok in E.
  destruct (Forall2_elem_r _ _ _ _ E Hr) as (raw & Hraw & [-> Hv]%decode_valid).
  apply list_elem_of_In, filter_In in Hraw as [_ Ht]. by breflect.
Qed.

Lemma ticket_record_valid s id r :
  write_ticket_record s id = Ok (Some r) → ticket_valid r.
Proof.
  unfold write_ticket_record. destruct (tt_rows s !! id) as [raw|]; simpl; [|done].
  destruct (decode_write_ticket_record raw) eqn:E; simpl; [|done]. intros [= <-].
  by apply decode_valid in E as [_ ?].
Qed.

Lemma elem_of_active s task_id r :
  r ∈ List.filter (λ r, wt_status r =? TActive)
        (List.filter (λ r, wt_task_id r =? task_id) (rows_by_id s)) ↔
  (∃ id, tt_rows s !! id = Some r) ∧ wt_task_id r = task_id ∧ wt_status r = TActive.
Proof.
  rewrite <-elem_of_rows_by_id, !list_elem_of_In, !filter_In, !eqb_true. tauto.
Qed.

(** ** Lemmas: mutations *)

(** What one mutation at [at_] may do to a row: nothing, or end an active row. *)
Inductive row_step (at_ : UtcTimestamp) (r : StoredWriteTicket) : StoredWriteTicket → Prop :=
| row_same : row_step at_ r r
| row_invalidated reason : wt_status r = TActive → row_step at_ r (invalidated r reason)
| row_consumed run_id :
    wt_status r = TActive → trim run_id ≠ EmptyString → row_step at_ r (consumed r run_id at_).

Lemma invalidate_ids_spec rows ids reason rows' :
  invalidate_active_write_ticket_ids rows ids reason = Ok rows' →
  (∀ id, id ∈ ids → ∃ r, rows !! id = Some r ∧ wt_status r = TActive) ∧
  (∀ id, rows' !! id =
     if decide (id ∈ ids) then (λ r, invalidated r reason) <$> rows !! id else rows !! id).
Proof.
  revert rows. induction ids as [|i ids IH]; intros rows Hi; simpl in Hi.
  { simplify_eq. split; [set_solver|]. intros id. by rewrite decide_False by set_solver. }
  destruct (rows !! i) as [row|] eqn:Ei; [|done].
  destruct (wt_status row =? TActive) eqn:Es; [|done]. breflect.
  apply IH in Hi as [Hact Hrows].
  assert (i ∉ ids) as Hni.
  { intros (r & Hr & Hs)%Hact. rewrite lookup_insert_eq in Hr. by simplify_eq. }
  split.
  - intros id [->|Hid]%elem_of_cons; [by exists row|].
    apply Hact in Hid as (r & Hr & Hs). rewrite lookup_insert in Hr.
    case_decide; simplify_eq; eauto.
  - intros id. rewrite Hrows. destruct (decide (id = i)) as [->|Hne].
    + by rewrite decide_False, decide_True, lookup_insert_eq, Ei by set_solver.
    + rewrite lookup_insert_ne by done.
      destruct (decide (id ∈ ids)); [rewrite decide_True by set_solver; done|].
      by rewrite decide_False by set_solver.
Qed.

Lemma invalidate_ids_total rows ids reason :
  NoDup ids → (∀ id, id ∈ ids → ∃ r, rows !! id = Some r ∧ wt_status r = TActive) →
  ∃ rows', invalidate_active_write_ticket_ids rows ids reason = Ok rows'.
Proof.
  intros Hnd. revert rows. induction Hnd as [|i ids Hi Hnd IH]; intros rows Hact; [eauto|].
  destruct (Hact i) as (r & Hr & Hs); [set_solver|]. simpl. rewrite Hr, Hs. apply IH.
  intros id Hid. rewrite lookup_insert_ne by set_solver. apply Hact. set_solver.
Qed.

(** The rows of a mutated table: old rows step, and the only new row is the
    inserted one. *)
Definition rows_step (s s' : TicketTable) (v : N) (at_ : UtcTimestamp) (m : WriteTicketMutation) : Prop :=
  tt_project_id s' = tt_project_id s ∧
  tt_write_authority_fingerprint s' = tt_write_authority_fingerprint s ∧
  (∀ id r, tt_rows s !! id = Some r → ∃ r', tt_rows s' !! id = Some r' ∧ row_step at_ r r') ∧
  (∀ id r, tt_rows s !! id = None → tt_rows s' !! id = Some r →
     ∃ input, m = InsertTicket input ∧ id = wi_write_ticket_id input ∧
       r = active_write_ticket_record (tt_project_id s) input v ∧
       ticket_valid r ∧ trim (wi_write_ticket_id input) ≠ EmptyString ∧
       trim (wi_task_id input) ≠ EmptyString ∧ trim (wi_change_unit_id input) ≠ EmptyString ∧
       (∀ u, wi_created_by_user_action_resolution_id input = Some u → trim u ≠ EmptyString) ∧
       fits_i64 v = true).

Lemma rows_step_invalidate s ids reason rows' v at_ m :
  invalidate_active_write_ticket_ids (tt_rows s) ids reason = Ok rows' →
  rows_step s (set_rows s rows') v at_ m.
Proof.
  intros [Hact Hrows]%invalidate_ids_spec. split_and!; [done..| |]; simpl.
  - intros id r Hr. rewrite Hrows. case_decide as Hid.
    + apply Hact in Hid as (r' & Hr' & Hs). simplify_eq. rewrite Hr. simpl. eauto using row_step.
    + eauto using row_step.
  - intros id r Hn. rewrite Hrows, Hn. by case_decide.
Qed.

Lemma validate_identifier_Ok field value :
  validate_identifier field value = Ok tt ↔ trim value ≠ EmptyString.
Proof.
  unfold validate_identifier. rewrite <-str_nonempty. by destruct (str_is_empty (trim value)).
Qed.

Lemma write_ticket_record_Some s id r :
  write_ticket_record s id = Ok (Some r) → tt_rows s !! id = Some r.
Proof.
  unfold write_ticket_record. destruct (tt_rows s !! id) as [raw|]; simpl; [|done].
  unfold decode_write_ticket_record. intros Hr. by unravel Hr.
Qed.

Lemma insert_effect s input v s' :
  insert_write_ticket s input v = Ok s' →
  tt_rows s !! wi_write_ticket_id input = None ∧
  s' = set_rows s (<[wi_write_ticket_id input :=
         active_write_ticket_record (tt_project_id s) input v]> (tt_rows s)) ∧
  ticket_valid (active_write_ticket_record (tt_project_id s) input v) ∧
  trim (wi_write_ticket_id input) ≠ EmptyString ∧
  trim (wi_task_id input) ≠ EmptyString ∧ trim (wi_change_unit_id input) ≠ EmptyString ∧
  (∀ u, wi_created_by_user_action_resolution_id input = Some u → trim u ≠ EmptyString) ∧
  fits_i64 v = true.
Proof.
  unfold insert_write_ticket. intros Hi.
  destruct (validate_identifier _ (wi_write_ticket_id input)) as [[]|] eqn:E1; [|done].
  destruct (validate_identifier _ (wi_task_id input)) as [[]|] eqn:E2; [|done].
  destruct (validate_identifier _ (wi_change_unit_id input)) as [[]|] eqn:E3; [|done].
  apply validate_identifier_Ok in E1, E2, E3.
  destruct (match wi_created_by_user_action_resolution_id input with Some _ => _ | None => _ end)
    as [[]|] eqn:E4; [|done].
  destruct (validate_write_ticket_record _) as [[]|] eqn:E5; [|done]. simpl in Hi.
  apply validate_spec in E5. unravel Hi. breflect. split_and!; try done.
  intros u Hu. rewrite Hu in E4. by apply validate_identifier_Ok in E4.
Qed.

Lemma run_already_consumes_false rows run_id :
  run_already_consumes rows run_id = false →
  ∀ id r, rows !! id = Some r → wt_consumed_by_run_id r ≠ Some run_id.
Proof.
  unfold run_already_consumes. rewrite existsb_false. intros Hall id r Hr.
  apply eqb_false, Hall, list_elem_of_fmap. exists (id, r). split; [done|].
  by apply elem_of_map_to_list.
Qed.

Lemma consume_effect s input at_ s' :
  consume_write_ticket s input at_ = Ok s' →
  ∃ ticket, tt_rows s !! wc_write_ticket_id input = Some ticket ∧
    wt_status ticket = TActive ∧
    wt_basis_state_version ticket = wc_expected_basis_state_version input ∧
    vb_write_authority_fingerprint (wt_validity_basis ticket) =
      wc_expected_write_authority_fingerprint input ∧
    tt_write_authority_fingerprint s = wc_expected_write_authority_fingerprint input ∧
    trim (wc_run_id input) ≠ EmptyString ∧
    (∀ id r, tt_rows s !! id = Some r → wt_consumed_by_run_id r ≠ Some (wc_run_id input)) ∧
    s' = set_rows s (<[wc_write_ticket_id input :=
           consumed ticket (wc_run_id input) at_]> (tt_rows s)).
Proof.
  unfold consume_write_ticket. intros Hc.
  destruct (validate_identifier _ (wc_write_ticket_id input)) as [[]|] eqn:E1; [|done].
  destruct (validate_identifier _ (wc_run_id input)) as [[]|] eqn:E2; [|done].
  apply validate_identifier_Ok in E2.
  destruct (write_ticket_record s _) as [[ticket|]|] eqn:E3; [|done..].
  apply write_ticket_record_Some in E3. simpl in Hc. unravel Hc. breflect.
  exists ticket. split_and!; try done. by apply run_already_consumes_false.
Qed.

Lemma apply_rows_step s v at_ m s' :
  apply_ticket_mutation s v at_ m = Ok s' → rows_step s s' v at_ m.
Proof.
  destruct m as [t|input|input|input|input]; simpl.
  1,2: unfold mark_active_write_tickets_stale, invalidate_active_write_tickets; intros Ha;
    unravel Ha; by eapply rows_step_invalidate.
  - unfold invalidate_write_ticket. intros Ha. unravel Ha. by eapply rows_step_invalidate.
  - intros (Hn & -> & Hv & Hid & Ht & Hc & Hr & Hf)%insert_effect. split_and!; [done..| |]; simpl.
    + intros id r Hr'. rewrite lookup_insert_ne by congruence. eauto using row_step.
    + intros id r Hnone. rewrite lookup_insert. case_decide; [|congruence].
      intros [= <-]. subst. exists input. split_and!; done.
  - intros (ticket & Ht & Hs & _ & _ & _ & Hrun & _ & ->)%consume_effect.
    split_and!; [done..| |]; simpl.
    + intros id r Hr. rewrite lookup_insert. case_decide; simplify_eq; eauto using row_step.
    + intros id r Hnone. rewrite lookup_insert. case_decide; congruence.
Qed.

Lemma invalidate_ids_runs rows ids reason rows' id r' :
  invalidate_active_write_ticket_ids rows ids reason = Ok rows' → rows' !! id = Some r' →
  ∃ r, rows !! id = Some r ∧ wt_consumed_by_run_id r' = wt_consumed_by_run_id r.
Proof.
  intros [_ Hrows]%invalidate_ids_spec Hr'. rewrite Hrows in Hr'.
  case_decide; [|by eauto]. apply fmap_Some in Hr' as (r & Hr & ->). by exists r.
Qed.

(** A row consumed by a run was so before, or this mutation consumed it and
    the run consumed no other ticket. *)
Lemma apply_runs s v at_ m s' id r' run :
  apply_ticket_mutation s v at_ m = Ok s' →
  tt_rows s' !! id = Some r' → wt_consumed_by_run_id r' = Some run →
  (∃ r, tt_rows s !! id = Some r ∧ wt_consumed_by_run_id r = Some run) ∨
  (∃ input, m = ConsumeTicket input ∧ id = wc_write_ticket_id input ∧ run = wc_run_id input ∧
     ∀ id2 r2, tt_rows s !! id2 = Some r2 → wt_consumed_by_run_id r2 ≠ Some run).
Proof.
  intros Ha Hr' Hrun. destruct m as [t|input|input|input|input]; simpl in Ha.
  1-3: left; unfold mark_active_write_tickets_stale, invalidate_active_write_tickets,
    invalidate_write_ticket in Ha; unravel Ha;
    edestruct invalidate_ids_runs as (r & Hr & Heq); [done|done|]; exists r; split; congruence.
  - left. apply insert_effect in Ha as (_ & -> & _). simpl in Hr'.
    rewrite lookup_insert in Hr'. case_decide; simplify_eq; eauto.
  - apply consume_effect in Ha as (ticket & Ht & _ & _ & _ & _ & _ & Hfresh & ->). simpl in Hr'.
    rewrite lookup_insert in Hr'. case_decide; simplify_eq; [|left; by eauto].
    simpl in Hrun. simplify_eq. right. by exists input.
Qed.

Lemma active_columns r :
  ticket_valid r → wt_status r = TActive →
  wt_invalidation_reason r = None ∧ wt_consumed_by_run_id r = None ∧
  wt_consumed_at r = None ∧ wt_revoked_at r = None.
Proof.
  intros [] Hs. unfold status_columns_are_valid in *. rewrite Hs in *.
  destruct (wt_invalidation_reason r), (wt_consumed_by_run_id r), (wt_consumed_at r),
    (wt_revoked_at r); done.
Qed.

Lemma ticket_valid_invalidated r reason :
  ticket_valid r → wt_status r = TActive → ticket_valid (invalidated r reason).
Proof.
  intros Hv Hs. destruct (active_columns r Hv Hs) as (Hi & Hc & Ha & Hr).
  destruct Hv. split; try done. unfold status_columns_are_valid; simpl. by rewrite Hc, Ha, Hr.
Qed.

Lemma ticket_valid_consumed r run_id at_ :
  ticket_valid r → wt_status r = TActive → (wt_created_at r ≤ at_)%Z → representable at_ = true →
  ticket_valid (consumed r run_id at_).
Proof.
  intros Hv Hs Hle Hrep. destruct (active_columns r Hv Hs) as (Hi & Hc & Ha & Hr).
  destruct Hv. split; try done; simpl.
  - by intros t [= <-].
  - by intros t [= <-].
  - unfold status_columns_are_valid; simpl. by rewrite Hi, Hr.
Qed.

Lemma row_ok_step s s' id at_ r r' :
  tt_project_id s' = tt_project_id s → row_step at_ r r' →
  (wt_created_at r ≤ at_)%Z → representable at_ = true →
  row_ok s id r → row_ok s' id r'.
Proof.
  intros Hp Hstep Hle Hrep []. destruct Hstep as [|reason Hs|run Hs Hrun]; split; simpl; try done;
    try congruence; try by intros v [= <-].
  - by apply ticket_valid_invalidated.
  - by apply ticket_valid_consumed.
Qed.

Lemma row_step_created at_ r r' : row_step at_ r r' → wt_created_at r' = wt_created_at r.
Proof. by destruct 1. Qed.

(** Insertions name a creation time that the commit clock has reached. *)
Definition created_by (at_ : UtcTimestamp) (m : WriteTicketMutation) : Prop :=
  ∀ input, m = InsertTicket input → (wi_created_at input ≤ at_)%Z.

Lemma apply_table_ok s v at_ m s' now :
  table_ok s now → (now ≤ at_)%Z → representable at_ = true → created_by at_ m →
  apply_ticket_mutation s v at_ m = Ok s' → table_ok s' at_.
Proof.
  intros [Hp Hrows Hruns] Hnow Hrep Hcreated Ha.
  destruct (apply_rows_step _ _ _ _ _ Ha) as (Hproj & Hfp & Hold & Hnew).
  split.
  - congruence.
  - intros id r' Hr'. destruct (tt_rows s !! id) as [r|] eqn:Er.
    + destruct (Hold _ _ Er) as (r'' & Hr'' & Hstep). simplify_eq.
      destruct (Hrows _ _ Er) as [Hok Hle]. rewrite (row_step_created _ _ _ Hstep).
      split; [|lia]. eapply row_ok_step; [done..|lia|done|done].
    + destruct (Hnew _ _ Er Hr') as (input & -> & -> & -> & Hv & Hid & Ht & Hc & Hu & Hf).
      split; [|by apply Hcreated]. split; simpl; try done; congruence.
  - intros id1 id2 r1 r2 run H1 H2 Hc1 Hc2.
    destruct (apply_runs _ _ _ _ _ _ _ _ Ha H1 Hc1) as [(r1' & ? & ?)|(i1 & ? & ? & ? & Hf1)],
      (apply_runs _ _ _ _ _ _ _ _ Ha H2 Hc2) as [(r2' & ? & ?)|(i2 & ? & ? & ? & Hf2)].
    + by eapply Hruns.
    + exfalso. by eapply Hf2.
    + exfalso. by eapply Hf1.
    + simplify_eq. done.
Qed.

Lemma table_ok_later s now now' : table_ok s now → (now ≤ now')%Z → table_ok s now'.
Proof.
  intros [Hp Hr Hu] Hle. split; [done| |done].
  intros id r Hid. destruct (Hr id r Hid). split; [done|lia].
Qed.

(** ** The aggregate as a state machine *)

(** No row the tickets refer to is ever deleted. *)
Record owners_kept (o o' : TicketOwners) : Prop := {
  ok_tasks : own_tasks o ⊆ own_tasks o';
  ok_change_units : own_change_units o ⊆ own_change_units o';
  ok_resolutions : own_resolutions o ⊆ own_resolutions o';
}.

(** Another policy, and further rows of the tables the tickets refer to. *)
Definition with_surroundings (s : TicketTable) (fingerprint : string) (owners : TicketOwners)
    : TicketTable :=
  {| tt_project_id := tt_project_id s; tt_write_authority_fingerprint := fingerprint;
     tt_owners := owners; tt_rows := tt_rows s |}.

(** One mutation inside a commit at [at_], and what changes around the table. *)
Inductive ticket_step : TicketTable * UtcTimestamp → TicketTable * UtcTimestamp → Prop :=
| step_mutate s now v at_ m s' :
    (now ≤ at_)%Z → representable at_ = true → created_by at_ m →
    apply_ticket_mutation s v at_ m = Ok s' → ticket_step (s, now) (s', at_)
| step_surroundings s now fingerprint owners :
    owners_kept (tt_owners s) owners →
    ticket_step (s, now) (with_surroundings s fingerprint owners, now).

Definition empty_table (project_id fingerprint : string) : TicketTable :=
  {| tt_project_id := project_id; tt_write_authority_fingerprint := fingerprint;
     tt_owners := MkTicketOwners ∅ ∅ ∅; tt_rows := ∅ |}.

Lemma empty_table_ok project_id fingerprint now :
  trim project_id ≠ EmptyString → table_ok (empty_table project_id fingerprint) now.
Proof. split; simpl; [done|..]; intros *; rewrite lookup_empty; done. Qed.

Lemma step_table_ok st st' : ticket_step st st' → table_ok st.1 st.2 → table_ok st'.1 st'.2.
Proof.
  destruct 1 as [s now v at_ m s' Hle Hrep Hc Ha|s now fp owners Hown]; simpl; intros Hok.
  - by eapply apply_table_ok.
  - destruct Hok as [Hp Hr Hu]. split; simpl; [done| |done].
    intros id r Hid. destruct (Hr id r Hid) as [[] ?]. split; [split; done|done].
Qed.

Lemma reachable_table_ok st st' :
  rtc ticket_step st st' → table_ok st.1 st.2 → table_ok st'.1 st'.2.
Proof. induction 1; eauto using step_table_ok. Qed.

Lemma step_rows st st' id r :
  ticket_step st st' → tt_rows st.1 !! id = Some r →
  ∃ r' at_, tt_rows st'.1 !! id = Some r' ∧ row_step at_ r r'.
Proof.
  destruct 1 as [s now v at_ m s' Hle Hrep Hc Ha|s now fp owners Hown]; simpl; intros Hr.
  - apply apply_rows_step in Ha as (_ & _ & Hold & _).
    destruct (Hold _ _ Hr) as (r' & ? & ?). eauto.
  - exists r, now. eauto using row_step.
Qed.

Lemma row_step_terminal at_ r r' : row_step at_ r r' → wt_status r ≠ TActive → r' = r.
Proof. by destruct 1. Qed.

(** The immutable part of a row: everything but the lifecycle columns. *)
Definition row_identity (r : StoredWriteTicket) :=
  (wt_project_id r, wt_write_ticket_id r, wt_task_id r, wt_change_unit_id r,
   wt_basis_state_version r, wt_validity_basis r, wt_path_scope r, wt_attempt_scope r,
   wt_created_by_actor_source r, wt_created_by_user_action_resolution_id r,
   wt_idle_expires_at r, wt_created_at r, wt_metadata r).

Lemma row_step_identity at_ r r' : row_step at_ r r' → row_identity r' = row_identity r.
Proof. by destruct 1. Qed.

Lemma rtc_row st st' id r :
  rtc ticket_step st st' → tt_rows st.1 !! id = Some r →
  ∃ r', tt_rows st'.1 !! id = Some r' ∧ row_identity r' = row_identity r ∧
    (wt_status r ≠ TActive → r' = r).
Proof.
  intros Hs. revert r. induction Hs as [|st1 st2 st3 Hstep _ IH]; intros r Hr; [eauto|].
  destruct (step_rows _ _ _ _ Hstep Hr) as (r2 & at_ & Hr2 & Hrs).
  destruct (IH _ Hr2) as (r3 & Hr3 & Hid & Ht). exists r3. split_and!; [done| |].
  - rewrite Hid. by eapply row_step_identity.
  - intros Hna. pose proof (row_step_terminal _ _ _ Hrs Hna). subst. auto.
Qed.

Lemma run_already_consumes_fresh rows run_id :
  (∀ id r, rows !! id = Some r → wt_consumed_by_run_id r ≠ Some run_id) →
  run_already_consumes rows run_id = false.
Proof.
  intros Hf. apply existsb_false. intros r ([id r'] & -> & Hm)%list_elem_of_fmap.
  apply eqb_false. by eapply Hf, elem_of_map_to_list.
Qed.

(** A consumption of an active, current ticket by a new run succeeds. *)
Lemma consume_total s now input at_ ticket :
  table_ok s now → tt_rows s !! wc_write_ticket_id input = Some ticket →
  wt_status ticket = TActive →
  wt_basis_state_version ticket = wc_expected_basis_state_version input →
  vb_write_authority_fingerprint (wt_validity_basis ticket) =
    wc_expected_write_authority_fingerprint input →
  tt_write_authority_fingerprint s = wc_expected_write_authority_fingerprint input →
  trim (wc_run_id input) ≠ EmptyString →
  (∀ id r, tt_rows s !! id = Some r → wt_consumed_by_run_id r ≠ Some (wc_run_id input)) →
  consume_write_ticket s input at_ =
    Ok (set_rows s (<[wc_write_ticket_id input := consumed ticket (wc_run_id input) at_]> (tt_rows s))).
Proof.
  intros Hok Ht Hs Hv Hf Hg Hr Hfresh. destruct (table_rows _ _ Hok _ _ Ht) as [[] _].
  unfold consume_write_ticket. rewrite (table_read s now) by done. rewrite Ht.
  rewrite !(proj2 (validate_identifier_Ok _ _)) by done. simpl.
  rewrite Hs, Hv, Hf, Hg, !eqb_refl. simpl. rewrite <-Hv, row_version_fits0. simpl.
  by rewrite run_already_consumes_fresh.
Qed.

Lemma inserted_row_ok s input v :
  ticket_valid (active_write_ticket_record (tt_project_id s) input v) →
  trim (wi_write_ticket_id input) ≠ EmptyString →
  trim (wi_task_id input) ≠ EmptyString → trim (wi_change_unit_id input) ≠ EmptyString →
  (∀ u, wi_created_by_user_action_resolution_id input = Some u → trim u ≠ EmptyString) →
  fits_i64 v = true →
  row_ok s (wi_write_ticket_id input) (active_write_ticket_record (tt_project_id s) input v).
Proof. intros. by split. Qed.

Lemma rows_by_id_ids s now :
  table_ok s now → wt_write_ticket_id <$> rows_by_id s = bts_of_list (map_to_list (tt_rows s)).*1.
Proof.
  intros [_ Hr _]. unfold rows_by_id.
  assert (∀ id, id ∈ bts_of_list (map_to_list (tt_rows s)).*1 →
    ∃ r, tt_rows s !! id = Some r ∧ wt_write_ticket_id r = id) as Hin.
  { intros id ([? r] & -> & Hm)%elem_of_bts_of_list%list_elem_of_fmap.
    apply elem_of_map_to_list in Hm. destruct (Hr _ _ Hm) as [[] _]. eauto. }
  induction (bts_of_list _) as [|id l IH]; [done|]. simpl.
  destruct (Hin id) as (r & -> & Hid); [constructor|]. simpl. f_equal; [done|]. apply IH.
  intros id' ?. apply Hin. by constructor.
Qed.

Lemma active_ids_NoDup s now task_id :
  table_ok s now →
  NoDup (wt_write_ticket_id <$>
    List.filter (λ r, wt_status r =? TActive)
      (List.filter (λ r, wt_task_id r =? task_id) (rows_by_id s))).
Proof.
  intros Hok. do 2 apply NoDup_fmap_filter. erewrite rows_by_id_ids by done.
  apply sorted_rlt_NoDup, bts_of_list_sorted.
Qed.

Lemma elem_of_active_ids s now task_id id :
  table_ok s now →
  id ∈ wt_write_ticket_id <$>
    List.filter (λ r, wt_status r =? TActive)
      (List.filter (λ r, wt_task_id r =? task_id) (rows_by_id s)) ↔
  ∃ r, tt_rows s !! id = Some r ∧ wt_task_id r = task_id ∧ wt_status r = TActive.
Proof.
  intros Hok. rewrite list_elem_of_fmap. setoid_rewrite elem_of_active. split.
  - intros (r & -> & (id' & Hr) & Ht & Hs).
    destruct (table_rows _ _ Hok _ _ Hr) as [[] _]. subst. eauto.
  - intros (r & Hr & Ht & Hs). exists r. split_and!; eauto.
    by destruct (table_rows _ _ Hok _ _ Hr) as [[] _].
Qed.

End ticket_store.

(** ** Theorems *)

Section theorems.
Context `{Chrono}.

(** The validation of every insert and every decode accepts a record exactly
    when its columns agree: identities, approval ownership and uniqueness,
    scope revision, baseline, time order, path coverage and the columns its
    status requires. *)
Theorem write_ticket_validation_spec r :
  validate_write_ticket_record r = Ok tt ↔ ticket_valid r.
Proof. apply validate_spec. Qed.

(** In every table reachable from the empty one by committed mutations and
    policy changes, no read reports corruption: a lookup returns the row, the
    active listing returns exactly the active rows of the Task, every row is
    valid, none is revoked, and no run consumed two tickets. *)
Theorem reachable_tickets_read project_id fingerprint t0 s now :
  trim project_id ≠ EmptyString →
  rtc ticket_step (empty_table project_id fingerprint, t0) (s, now) →
  (∀ id, write_ticket_record s id = Ok (tt_rows s !! id)) ∧
  (∀ task_id, ∃ rs, active_write_tickets s task_id = Ok rs ∧
     ∀ r, r ∈ rs ↔ (∃ id, tt_rows s !! id = Some r) ∧ wt_task_id r = task_id ∧ wt_status r = TActive) ∧
  (∀ id r, tt_rows s !! id = Some r →
     ticket_valid r ∧ wt_status r ≠ TRevoked ∧ (wt_created_at r ≤ now)%Z) ∧
  (∀ id1 id2 r1 r2 run, tt_rows s !! id1 = Some r1 → tt_rows s !! id2 = Some r2 →
     wt_consumed_by_run_id r1 = Some run → wt_consumed_by_run_id r2 = Some run → id1 = id2).
Proof.
  intros Hp Hs. assert (table_ok s now) as Hok.
  { apply (reachable_table_ok _ _ Hs), empty_table_ok, Hp. }
  split_and!.
  - intros id. by eapply table_read.
  - intros task_id. eexists. split; [by eapply table_active|]. apply elem_of_active.
  - intros id r Hr. apply (table_rows _ _ Hok) in Hr as [[] ?]. done.
  - apply (table_runs _ _ Hok).
Qed.

(** A ticket is never deleted or rewritten: any later table still holds it
    with the same identity, scope, basis and times, and once it left the
    active status no column changes again. *)
Theorem ticket_rows_monotonic s now s' now' id r :
  rtc ticket_step (s, now) (s', now') → tt_rows s !! id = Some r →
  ∃ r', tt_rows s' !! id = Some r' ∧ row_identity r' = row_identity r ∧
    (wt_status r ≠ TActive → r' = r).
Proof. apply (rtc_row (s, now) (s', now')). Qed.

(** Consumption takes an active ticket whose version and write-authority
    fingerprint are the expected and current ones, changes only that row, and
    cannot be repeated: neither the same ticket nor the same run can consume
    again. *)
Theorem consume_write_ticket_once s input at_ s' :
  consume_write_ticket s input at_ = Ok s' →
  (∃ ticket, tt_rows s !! wc_write_ticket_id input = Some ticket ∧
     wt_status ticket = TActive ∧
     wt_basis_state_version ticket = wc_expected_basis_state_version input ∧
     vb_write_authority_fingerprint (wt_validity_basis ticket) = tt_write_authority_fingerprint s ∧
     tt_rows s' = <[wc_write_ticket_id input := consumed ticket (wc_run_id input) at_]> (tt_rows s)) ∧
  (∀ input' at' s'',
     consume_write_ticket s' input' at' = Ok s'' →
     wc_write_ticket_id input' ≠ wc_write_ticket_id input ∧ wc_run_id input' ≠ wc_run_id input).
Proof.
  intros (ticket & Ht & Hs & Hv & Hf & Hg & _ & _ & ->)%consume_effect. split.
  { exists ticket. split_and!; try done. congruence. }
  intros input' at' s'' (t2 & Ht2 & Hs2 & _ & _ & _ & _ & Hfresh & _)%consume_effect. split.
  - intros Heq. rewrite Heq in Ht2. simpl in Ht2. rewrite lookup_insert_eq in Ht2. by simplify_eq.
  - intros Heq. refine (Hfresh (wc_write_ticket_id input) _ _ _); [apply lookup_insert_eq|].
    by rewrite Heq.
Qed.

(** Invalidating a Task's tickets always succeeds on a well-formed table; it gives every
    active ticket of that Task the reason and leaves every other row as it was. *)
Theorem invalidate_active_complete s now input :
  table_ok s now → trim (winv_task_id input) ≠ EmptyString →
  ∃ s', invalidate_active_write_tickets s input = Ok s' ∧
    ∀ id, tt_rows s' !! id =
      (λ r, if (wt_task_id r =? winv_task_id input) && (wt_status r =? TActive)
            then invalidated r (winv_reason input) else r) <$> tt_rows s !! id.
Proof.
  intros Hok Ht. unfold invalidate_active_write_tickets.
  rewrite (proj2 (validate_identifier_Ok _ _) Ht), (table_active s now) by done.
  set (records := List.filter _ _).
  assert (∀ id, id ∈ wt_write_ticket_id <$> records ↔
    ∃ r, tt_rows s !! id = Some r ∧ wt_task_id r = winv_task_id input ∧ wt_status r = TActive) as Hids.
  { intros id. by apply (elem_of_active_ids s now). }
  destruct (invalidate_ids_total (tt_rows s) (wt_write_ticket_id <$> records)
              (winv_reason input)) as [rows' Hrows].
  { by eapply active_ids_NoDup. }
  { intros id (r & ? & _ & ?)%Hids. eauto. }
  rewrite Hrows. eexists. split; [done|]. intros id. simpl.
  rewrite (proj2 (invalidate_ids_spec _ _ _ _ Hrows)).
  destruct (tt_rows s !! id) as [r|] eqn:Er; simpl.
  - f_equal. unfold eqb. rewrite <-bool_decide_and.
    case_decide as Hin; [rewrite bool_decide_true|rewrite bool_decide_false]; try done;
      rewrite Hids, Er in Hin; naive_solver.
  - by case_decide.
Qed.

(** A ticket that was inserted is read back unchanged: the lookup returns the
    active record built from the input and the committed version, and every
    other row is untouched. *)
Theorem insert_write_ticket_roundtrip s now input v s' :
  table_ok s now → insert_write_ticket s input v = Ok s' →
  write_ticket_record s' (wi_write_ticket_id input) =
    Ok (Some (active_write_ticket_record (tt_project_id s) input v)) ∧
  tt_rows s !! wi_write_ticket_id input = None ∧
  ∀ id, id ≠ wi_write_ticket_id input → tt_rows s' !! id = tt_rows s !! id.
Proof.
  intros Hok (Hn & -> & Hv & Hid & Ht & Hc & Hu & Hf)%insert_effect. simpl. split_and!; [|done|].
  - unfold write_ticket_record. simpl. rewrite lookup_insert_eq. simpl.
    erewrite (row_ok_decodes s); [done|by destruct Hok|]. by apply inserted_row_ok.
  - intros id Hne. by rewrite lookup_insert_ne.
Qed.

End theorems.

(** ** Witnesses *)

#[local] Existing Instance decimal_chrono.

Definition sample_path : ProductRelativePath := MkPath "src/lib.rs" I.
Definition sample_scope : WriteTicketPathScope := MkPathScope [MkPath "src" I] [MkPath "docs" I] I.
Definition sample_fingerprint : string :=
  "sha256:0123456789abcdef0123456789abcdef0123456789abcdef0123456789abcdef".

Definition sample_insert : WriteTicketInsert :=
  {| wi_write_ticket_id := "wt1"; wi_task_id := "t1"; wi_change_unit_id := "cu1";
     wi_validity_basis :=
       {| vb_task_id := "t1"; vb_change_unit_id := "cu1"; vb_scope_revision := 1;
          vb_baseline_ref := Some "base"; vb_workspace_context_sha256 := None;
          vb_write_authority_fingerprint := sample_fingerprint; vb_approval_basis_refs := [] |};
     wi_path_scope := sample_scope;
     wi_attempt_scope :=
       {| as_task_id := "t1"; as_change_unit_id := "cu1"; as_intended_operation := "edit";
          as_intended_paths := [sample_path]; as_product_file_write_intended := true;
          as_sensitive_categories := []; as_baseline_ref := Some "base" |};
     wi_created_by_actor_source := AgentConnection "conn";
     wi_created_by_user_action_resolution_id := None; wi_idle_expires_at := Some 900%Z;
     wi_created_at := 100; wi_metadata := [] |}.

Definition sample_consumption : WriteTicketConsumption :=
  {| wc_write_ticket_id := "wt1"; wc_run_id := "run1"; wc_expected_basis_state_version := 3;
     wc_expected_write_authority_fingerprint := sample_fingerprint |}.

Definition sample_record : StoredWriteTicket := active_write_ticket_record "p" sample_insert 3.
Definition sample_owners : TicketOwners :=
  MkTicketOwners {["t1"]} {[("t1", "cu1")]} {["res1"]}.
(** A Task with a Change Unit and an answered question, and no ticket yet. *)
Definition sample_empty : TicketTable :=
  with_surroundings (empty_table "p" sample_fingerprint) sample_fingerprint sample_owners.
Definition sample_table : TicketTable := set_rows sample_empty {["wt1" := sample_record]}.
Definition sample_consumed : TicketTable :=
  set_rows sample_table {["wt1" := consumed sample_record "run1" 200]}.

Lemma sample_empty_step :
  ticket_step (empty_table "p" sample_fingerprint, 50%Z) (sample_empty, 50%Z).
Proof. apply step_surroundings. split; simpl; set_solver. Qed.
Lemma sample_empty_ok : table_ok sample_empty 50.
Proof. apply (step_table_ok _ _ sample_empty_step). by apply empty_table_ok. Qed.
Lemma sample_insert_step : ticket_step (sample_empty, 50%Z) (sample_table, 100%Z).
Proof.
  apply (step_mutate _ _ 3 _ (InsertTicket sample_insert)); [lia|done| |vm_compute; reflexivity].
  by intros ? [= <-].
Qed.
Lemma sample_consume_step : ticket_step (sample_table, 100%Z) (sample_consumed, 200%Z).
Proof.
  apply (step_mutate _ _ 4 _ (ConsumeTicket sample_consumption));
    [lia|done|done|vm_compute; reflexivity].
Qed.
Lemma sample_table_ok : table_ok sample_table 100.
Proof.
  apply (step_table_ok _ _ sample_insert_step). apply sample_empty_ok.
Qed.

Lemma reachable_tickets_read_witness : write_ticket_record sample_consumed "wt1" =
  Ok (Some (consumed sample_record "run1" 200)).
Proof.
  apply (reachable_tickets_read "p" sample_fingerprint 50 sample_consumed 200); [done|].
  eapply rtc_l; [apply sample_empty_step|]. eapply rtc_l; [apply sample_insert_step|].
  eapply rtc_l; [apply sample_consume_step|]. done.
Defined.

Lemma ticket_rows_monotonic_witness :
  ∃ r', tt_rows sample_consumed !! "wt1" = Some r' ∧ row_identity r' = row_identity sample_record ∧
    (wt_status sample_record ≠ TActive → r' = sample_record).
Proof.
  apply (ticket_rows_monotonic sample_table 100 sample_consumed 200); [|done].
  eapply rtc_l; [apply sample_consume_step|]. done.
Defined.

Lemma consume_write_ticket_once_witness :
  consume_write_ticket sample_table sample_consumption 200 = Ok sample_consumed ∧
  ∀ at' s'', consume_write_ticket sample_consumed sample_consumption at' ≠ Ok s''.
Proof.
  assert (consume_write_ticket sample_table sample_consumption 200 = Ok sample_consumed) as Hone
    by (vm_compute; reflexivity).
  split; [exact Hone|]. intros at' s'' Hc.
  destruct (consume_write_ticket_once sample_table sample_consumption 200 sample_consumed Hone)
    as [_ Hnext]. by destruct (Hnext _ _ _ Hc).
Defined.

Lemma invalidate_active_complete_witness :
  ∃ s', mark_active_write_tickets_stale sample_table "t1" = Ok s' ∧
    tt_rows s' !! "wt1" = Some (invalidated sample_record IScopeRevisionChanged).
Proof.
  destruct (invalidate_active_complete sample_table 100
    {| winv_task_id := "t1"; winv_reason := IScopeRevisionChanged |}) as (s' & Hs & Hrows); [|done|].
  { apply sample_table_ok. }
  exists s'. split; [done|]. rewrite Hrows. reflexivity.
Defined.

Lemma insert_write_ticket_roundtrip_witness :
  write_ticket_record sample_table "wt1" = Ok (Some sample_record).
Proof.
  apply (insert_write_ticket_roundtrip sample_empty 50 sample_insert 3 sample_table);
    [apply sample_empty_ok|vm_compute; reflexivity].
Defined.
