(* ===== verification/UserActionShape.v ===== *)
(** * UserActionShape: bounded shapes of user-action drafts, bodies and answers

    Models the shape checks of [crates/volicord-types/src/schema.rs] that every
    user action passes before it is planned or stored: candidate counts, unique
    option and artifact ids, nonblank text, character limits, the agreement of an
    option's action with its outcome, and the form shown to the user.  The
    canonical JSON size of a value comes from serde and enters as the class
    [CanonicalSize]; [None] is a serialization failure. *)

From Stdlib Require Import Ascii.
From S2P Require Import Prelude Text Values Schema TicketStore.

(** ** Data *)

Record UserActionShapeError := { she_field : string; she_message : string }.

Definition shape_error (field message : string) : UserActionShapeError :=
  {| she_field := field; she_message := message |}.

(** The [Display] of a shape error. *)
Definition shape_error_text (error : UserActionShapeError) : string :=
  she_field error +:+ ": " +:+ she_message error.

Record UserActionChoiceDraft := {
  cd_judgment_kind : JudgmentKind;
  cd_presentation : JudgmentPresentation;
  cd_question : string;
  cd_options : option (list UserActionOptionInput);
  cd_context : UserActionContext;
  cd_affected_refs : list StateRecordRef;
  cd_sensitive_action_scope : option SensitiveActionScope;
}.

Record UserActionEvidenceObservationDraft := {
  ed_question : string;
  ed_context_summary : string;
  ed_target_candidates : list EvidenceTarget;
  ed_artifact_candidate_ids : list ArtifactId;
}.

Inductive UserActionDraft :=
| DraftChoice (choice : UserActionChoiceDraft)
| DraftEvidenceObservation (observation : UserActionEvidenceObservationDraft).

Definition draft_action_kind (d : UserActionDraft) : UserActionKind :=
  match d with
  | DraftChoice choice => action_kind_of_judgment (cd_judgment_kind choice)
  | DraftEvidenceObservation _ => EvidenceObservation
  end.

Record UserActionResolutionChoice := {
  rc_choice_id : UserActionOptionId;
  rc_label : string;
  rc_description : string;
  rc_consequence : string;
  rc_is_default : bool;
}.

Inductive UserActionResolutionForm :=
| FormChoice (choices : list UserActionResolutionChoice) (note_allowed : bool) (note_max_chars : nat)
| FormEvidenceObservation (target_candidates : list EvidenceTarget)
    (artifact_candidates : list ArtifactRef) (relevance_options : list EvidenceRelevanceStatus)
    (summary_max_chars : nat).

Definition USER_ACTION_NOTE_MAX_CHARS : nat := 1000.
Definition USER_ACTION_OBSERVATION_SUMMARY_MAX_CHARS : nat := 4000.
Definition USER_ACTION_TARGET_CANDIDATE_LIMIT : nat := 32.
Definition USER_ACTION_ARTIFACT_CANDIDATE_LIMIT : nat := 32.
Definition USER_ACTION_FORM_MAX_BYTES : N := 32768.
Definition CHANNEL_SUBMISSION_ID_MAX_BYTES : nat := 256.

(** The size of the canonical JSON of each serialized shape. *)
Class CanonicalSize := {
  draft_size : UserActionDraft → option N;
  body_size : UserActionRequestBody → option N;
  form_size : UserActionResolutionForm → option N;
  input_size : UserActionResolutionInput → option N;
  resolution_size : UserActionResolutionBody → option N;
}.

(** [str::chars().count()]: the bytes that do not continue a UTF-8 sequence. *)
Fixpoint chars_count (s : string) : nat :=
  match s with
  | EmptyString => 0
  | String a s' => if byte_between 128 191 a then chars_count s' else S (chars_count s')
  end.

(** ** Checks *)

Definition validate_candidate_count (field : string) (count limit : nat)
    : result unit UserActionShapeError :=
  let? _ := ensure (count =? 0) (shape_error field "candidate selection must not be empty") in
  ensure (limit <? count)%nat (shape_error field "candidate selection exceeds the user-action limit").

Definition validate_nonblank_user_action_text (field value : string)
    : result unit UserActionShapeError :=
  ensure (str_is_empty (trim value)) (shape_error field "user-action text must not be blank").

Definition validate_user_action_serialized_size (field : string) (size : option N)
    : result unit UserActionShapeError :=
  let? size := ok_or size (shape_error field "user-action JSON cannot be serialized") in
  ensure (USER_ACTION_FORM_MAX_BYTES <? size)%N
    (shape_error field "user-action JSON exceeds the canonical byte limit").

Definition validate_channel_submission_id (value : string) : result unit UserActionShapeError :=
  ensure (str_is_empty value
          || (CHANNEL_SUBMISSION_ID_MAX_BYTES <? String.length value)%nat
          || negb (str_forall (byte_between 33 126) value))
    (shape_error "channel_submission_id"
       "channel submission id must be 1..=256 bytes of visible ASCII").

Section shape.
Context `{CanonicalSize}.

(** [UserActionDraft::validate_bounds]. *)
Definition draft_validate_bounds (d : UserActionDraft) : result unit UserActionShapeError :=
  let? _ :=
    match d with
    | DraftChoice choice =>
        ensure (is_some_and (cd_options choice)
                  (λ options, (USER_ACTION_TARGET_CANDIDATE_LIMIT <? length options)%nat))
          (shape_error "action.options"
             "choice option count exceeds the user-action candidate limit")
    | DraftEvidenceObservation observation =>
        let? _ := validate_candidate_count "action.target_candidates"
                    (length (ed_target_candidates observation)) USER_ACTION_TARGET_CANDIDATE_LIMIT in
        validate_candidate_count "action.artifact_candidate_ids"
          (length (ed_artifact_candidate_ids observation)) USER_ACTION_ARTIFACT_CANDIDATE_LIMIT
    end in
  validate_user_action_serialized_size "action" (draft_size d).

Definition option_is_malformed (option : UserActionOption) : bool :=
  str_is_empty (trim (opt_label option)) || str_is_empty (trim (opt_description option))
  || str_is_empty (trim (opt_consequence option))
  || (option_action_outcome (opt_machine_action option) <>? opt_resolution_outcome option).

(** [UserActionRequestBody::validate_bounds]. *)
Definition body_validate_bounds (b : UserActionRequestBody) : result unit UserActionShapeError :=
  let? _ :=
    match b with
    | BodyChoice choice =>
        let? _ := validate_nonblank_user_action_text "body.question" (cr_question choice) in
        let? _ := validate_nonblank_user_action_text "body.context.summary"
                    (uctx_summary (cr_context choice)) in
        let? _ := validate_candidate_count "body.options" (length (cr_options choice))
                    USER_ACTION_TARGET_CANDIDATE_LIMIT in
        let? _ := ensure (length (bts_of_list (opt_option_id <$> cr_options choice))
                          <>? length (cr_options choice))
                    (shape_error "body.options" "choice option identifiers must be unique") in
        let? _ := ensure (1 <? length (List.filter opt_is_default (cr_options choice)))%nat
                    (shape_error "body.options" "choice options may contain at most one default") in
        ensure (existsb option_is_malformed (cr_options choice))
          (shape_error "body.options"
             "choice options must be nonblank and have matching action/outcome authority")
    | BodyEvidenceObservation observation =>
        let? _ := validate_nonblank_user_action_text "body.question" (er_question observation) in
        let? _ := validate_nonblank_user_action_text "body.context_summary"
                    (er_context_summary observation) in
        let? _ := validate_candidate_count "body.target_candidates"
                    (length (er_target_candidates observation)) USER_ACTION_TARGET_CANDIDATE_LIMIT in
        let? _ := validate_candidate_count "body.artifact_candidates"
                    (length (er_artifact_candidates observation))
                    USER_ACTION_ARTIFACT_CANDIDATE_LIMIT in
        let? _ := ensure (length (bts_of_list (er_target_candidates observation))
                          <>? length (er_target_candidates observation))
                    (shape_error "body.target_candidates" "observation targets must be unique") in
        ensure (length (bts_of_list (ar_artifact_id <$> er_artifact_candidates observation))
                <>? length (er_artifact_candidates observation))
          (shape_error "body.artifact_candidates"
             "observation artifact identifiers must be unique")
    end in
  validate_user_action_serialized_size "body" (body_size b).

(** [UserActionRequestBody::resolution_form]. *)
Definition resolution_form (b : UserActionRequestBody)
    : result UserActionResolutionForm UserActionShapeError :=
  let? _ := body_validate_bounds b in
  let form :=
    match b with
    | BodyChoice choice =>
        FormChoice
          ((λ option, {| rc_choice_id := opt_option_id option; rc_label := opt_label option;
                         rc_description := opt_description option;
                         rc_consequence := opt_consequence option;
                         rc_is_default := opt_is_default option |}) <$> cr_options choice)
          true USER_ACTION_NOTE_MAX_CHARS
    | BodyEvidenceObservation observation =>
        FormEvidenceObservation (er_target_candidates observation)
          (er_artifact_candidates observation) [Supported; Contradicted]
          USER_ACTION_OBSERVATION_SUMMARY_MAX_CHARS
    end in
  let? _ := validate_user_action_serialized_size "form" (form_size form) in
  Ok form.

Definition relevance_is_assessed (status : EvidenceRelevanceStatus) : bool :=
  match status with Supported | Contradicted => true | Unassessed => false end.

(** [UserActionResolutionInput::validate_bounds]. *)
Definition input_validate_bounds (input : UserActionResolutionInput)
    : result unit UserActionShapeError :=
  let? _ :=
    match input with
    | InputChoice _ note =>
        ensure (is_some_and note (λ note, (USER_ACTION_NOTE_MAX_CHARS <? chars_count note)%nat))
          (shape_error "resolution.note" "note exceeds the user-action character limit")
    | InputEvidenceObservation _ artifact_ids relevance_status summary =>
        let? _ := validate_candidate_count "resolution.artifact_ids" (length artifact_ids)
                    USER_ACTION_ARTIFACT_CANDIDATE_LIMIT in
        let? _ := ensure (length (bts_of_list artifact_ids) <>? length artifact_ids)
                    (shape_error "resolution.artifact_ids"
                       "observation artifact identifiers must be unique") in
        let? _ := ensure (negb (relevance_is_assessed relevance_status))
                    (shape_error "resolution.relevance_status"
                       "observation relevance must be supported or contradicted") in
        ensure (str_is_empty (trim summary)
                || (USER_ACTION_OBSERVATION_SUMMARY_MAX_CHARS <? chars_count summary)%nat)
          (shape_error "resolution.summary" "summary exceeds the user-action character limit")
    end in
  validate_user_action_serialized_size "resolution" (input_size input).

(** [UserActionResolutionBody::validate]. *)
Definition resolution_validate (resolution : UserActionResolutionBody)
    : result unit UserActionShapeError :=
  let? _ :=
    match resolution with
    | ResolutionChoice _ machine_action resolution_outcome note _ =>
        let? _ := ensure (option_action_outcome machine_action <>? resolution_outcome)
                    (shape_error "resolution.resolution_outcome"
                       "choice resolution outcome must match its machine action") in
        ensure (is_some_and note (λ note, (USER_ACTION_NOTE_MAX_CHARS <? chars_count note)%nat))
          (shape_error "resolution.note" "note exceeds the user-action character limit")
    | ResolutionEvidenceObservation observation =>
        let? _ := validate_candidate_count "resolution.observation.output_artifact_refs"
                    (length (ob_output_artifact_refs observation))
                    USER_ACTION_ARTIFACT_CANDIDATE_LIMIT in
        let? _ := ensure (length (bts_of_list (ar_artifact_id <$> ob_output_artifact_refs observation))
                          <>? length (ob_output_artifact_refs observation))
                    (shape_error "resolution.observation.output_artifact_refs"
                       "observation artifact identifiers must be unique") in
        let? _ := ensure (negb (relevance_is_assessed (ob_relevance_status observation)))
                    (shape_error "resolution.observation.relevance_status"
                       "observation relevance must be supported or contradicted") in
        ensure (str_is_empty (trim (ob_summary observation))
                || (USER_ACTION_OBSERVATION_SUMMARY_MAX_CHARS
                    <? chars_count (ob_summary observation))%nat)
          (shape_error "resolution.observation.summary"
             "summary exceeds the user-action character limit")
    end in
  validate_user_action_serialized_size "resolution" (resolution_size resolution).
End shape.
