(* ===== verification/Ticket.v ===== *)
(** * Ticket: Write Ticket meaning, approval, current validity and selection

    Models [crates/volicord-core/src/write_ticket/]: the semantic facts of
    [semantic.rs], the decision policy of [policy.rs], the approval assessment
    of [approval.rs], the type-state evaluation of [current_validity.rs], the
    selections of [selection.rs] and the projection of [summary.rs].  The
    persisted rows come from TicketStore. *)

From S2P Require Import Prelude Text ProductPath Values Canonical Schema UserAction Clock.
From S2P Require Import TicketStore.
Import Relevance.

(** ** [mod.rs]: decision vocabulary *)

Inductive WriteTicketDecisionCode :=
| ScopeNotCurrent | PathOutOfScope | SensitiveApprovalMissing | UserActionUnresolved
| BaselineMismatch | WorkspaceContextMismatch | EffectContractForbidsProductFileWrite
| EffectContractEffectNotAllowed | EffectContractPathNotAllowed | ProductWriteFlagMismatch
| CompatibleWriteTicketAmbiguous.
#[export] Instance WriteTicketDecisionCode_eq_dec : EqDecision WriteTicketDecisionCode.
Proof. solve_decision. Defined.

Inductive WriteTicketRelatedRecord :=
| RelTask (task_id : TaskId)
| RelCurrentChangeUnit (task_id : TaskId) (change_unit_id : ChangeUnitId)
| RelUserActionRequest (task_id : TaskId) (request_id : UserActionRequestId)
| RelWriteTicket (task_id : TaskId) (write_ticket_id : WriteTicketId).

Record WriteTicketDecisionReason := write_decision_reason {
  dr_category : WriteDecisionCategory;
  dr_code : WriteTicketDecisionCode;
  dr_message : string;
  dr_related_records : list WriteTicketRelatedRecord;
}.

Inductive WriteTicketInvalidReason :=
| RMissing | RIncompatible | RConsumed | RInvalidated (reason : WriteTicketInvalidationReason)
| RRevoked | RWorkspaceContextMismatch | RPolicyAuthorityMismatch | RTaskMismatch
| RChangeUnitMismatch | RScopeRevisionChanged | RBaselineMismatch | RProductWriteFlagMismatch
| ROperationMismatch | RSensitiveCategoryMismatch | RPathMismatch | RApprovalBasisChanged.

(** ** [semantic.rs] *)

Record WriteTicketSemanticFacts := {
  sf_project_id : ProjectId;
  sf_basis_state_version : N;
  sf_validity_basis : WriteTicketValidityBasis;
  sf_path_scope : WriteTicketPathScope;
  sf_attempt_scope : WriteTicketAttemptScope;
  sf_idle_expires_at : option UtcTimestamp;
}.

Record StoredWriteTicketFacts := {
  stf_write_ticket_id : WriteTicketId;
  stf_ticket : WriteTicketSemanticFacts;
  stf_status : WriteTicketStatus;
  stf_invalidation_reason : option WriteTicketInvalidationReason;
  stf_consumed_by_run_id : option RunId;
}.

Definition from_record (record : StoredWriteTicket) : StoredWriteTicketFacts :=
  {| stf_write_ticket_id := wt_write_ticket_id record;
     stf_ticket :=
       {| sf_project_id := wt_project_id record;
          sf_basis_state_version := wt_basis_state_version record;
          sf_validity_basis := wt_validity_basis record;
          sf_path_scope := wt_path_scope record;
          sf_attempt_scope := wt_attempt_scope record;
          sf_idle_expires_at := wt_idle_expires_at record |};
     stf_status := wt_status record;
     stf_invalidation_reason := wt_invalidation_reason record;
     stf_consumed_by_run_id := wt_consumed_by_run_id record |}.

(** ** [policy.rs] *)

Definition write_ticket_is_idle_expired
    (idle_expires_at : option UtcTimestamp) (observed_at : UtcTimestamp) : bool :=
  is_some_and idle_expires_at (λ expires_at, ts_ge observed_at expires_at).

Definition prepare_write_decision (reasons : list WriteTicketDecisionReason) : PrepareWriteDecision :=
  if list_is_empty reasons then DAllowed
  else if existsb (λ reason, dr_code reason =? UserActionUnresolved) reasons then DDecisionRequired
  else if existsb (λ reason, dr_code reason =? SensitiveApprovalMissing) reasons
  then DApprovalRequired
  else DBlocked.

Definition normalized_string_set (values : list string) : list string :=
  bts_of_list (List.filter (λ value, negb (str_is_empty value)) (trim <$> values)).

Definition category_set (values : list string) : list string := bts_of_list values.

Record RunWriteTicketAttempt := {
  rwa_task_id : TaskId;
  rwa_change_unit_id : ChangeUnitId;
  rwa_baseline_ref : BaselineRef;
  rwa_performed_operation : option string;
  rwa_performed_operation_required : bool;
  rwa_observed_changes : ObservedChanges;
  rwa_normalized_scope_paths : list string;
}.

(** The mismatch and its message. *)
Definition run_write_ticket_mismatch (scope : WriteTicketAttemptScope) (attempt : RunWriteTicketAttempt)
    : option (WriteTicketInvalidReason * string) :=
  let observed := rwa_observed_changes attempt in
  if as_task_id scope <>? rwa_task_id attempt then
    Some (RTaskMismatch, "write ticket task is not compatible with the recorded run")
  else if as_change_unit_id scope <>? rwa_change_unit_id attempt then
    Some (RChangeUnitMismatch, "write ticket Change Unit is not compatible with the recorded run")
  else if as_product_file_write_intended scope <>? oc_product_file_write_observed observed then
    Some (RProductWriteFlagMismatch,
          "write ticket product-file intent is not compatible with the recorded run")
  else if as_baseline_ref scope <>? Some (rwa_baseline_ref attempt) then
    Some (RBaselineMismatch, "write ticket baseline is not compatible with the recorded run")
  else if is_some_and (rwa_performed_operation attempt)
            (λ operation, operation <>? as_intended_operation scope)
          || (rwa_performed_operation_required attempt && is_none (rwa_performed_operation attempt))
  then Some (ROperationMismatch,
             "performed operation does not exactly match the write ticket operation")
  else if category_set (normalized_string_set (as_sensitive_categories scope))
          <>? category_set (oc_sensitive_categories observed)
  then Some (RSensitiveCategoryMismatch,
             "write ticket sensitive categories are not compatible with the recorded run")
  else if oc_product_file_write_observed observed
          && negb (paths_are_authorized (oc_changed_paths observed)
                     (rwa_normalized_scope_paths attempt))
  then Some (RPathMismatch, "write ticket paths are not compatible with the recorded run")
  else None.

(** ** [approval.rs] *)

Record WriteTicketApprovalRequirement := {
  apr_project_id : ProjectId;
  apr_scope_revision : N;
  apr_effective_control_level : TaskControlLevel;
  apr_scope : WriteTicketAttemptScope;
  apr_observed_at : UtcTimestamp;
}.

Definition apr_normalized_paths (r : WriteTicketApprovalRequirement) : list string :=
  path_str <$> as_intended_paths (apr_scope r).

Definition approval_is_required (r : WriteTicketApprovalRequirement) : bool :=
  (apr_effective_control_level r =? Sensitive)
  || negb (list_is_empty (as_sensitive_categories (apr_scope r))).

Definition sensitive_requirement (r : WriteTicketApprovalRequirement) : SensitiveApprovalRequirement :=
  {| sar_task_id := as_task_id (apr_scope r);
     sar_change_unit_id := as_change_unit_id (apr_scope r);
     sar_scope_revision := apr_scope_revision r;
     sar_operation := as_intended_operation (apr_scope r);
     sar_normalized_paths := apr_normalized_paths r;
     sar_sensitive_categories := as_sensitive_categories (apr_scope r);
     sar_baseline_ref := as_baseline_ref (apr_scope r);
     sar_required_for := ForPrepareWrite;
     sar_now := apr_observed_at r |}.

Definition has_current_owner (r : WriteTicketApprovalRequirement) (a : UserActionAuthority) : bool :=
  (ua_project_id a =? apr_project_id r) && (ua_task_id a =? as_task_id (apr_scope r)).

Definition requirement_matches (r : WriteTicketApprovalRequirement) (a : UserActionAuthority) : bool :=
  has_current_owner r a && current_sensitive_approval a (sensitive_requirement r).

Record CurrentSensitiveApprovals := {
  csa_identities : list UserActionResolutionIdentity;
  csa_scope_candidate_identities : list UserActionResolutionIdentity;
}.

(** The loop body of [CurrentSensitiveApprovals::new]. *)
Definition current_approvals_step (requirement : WriteTicketApprovalRequirement)
    (acc : CurrentSensitiveApprovals) (authority : UserActionAuthority) : CurrentSensitiveApprovals :=
  if negb (has_current_owner requirement authority) then acc
  else match authority_resolution_identity authority with
       | None => acc
       | Some identity =>
           let candidates :=
             if accepted_current_user_authority authority SensitiveApproval
                && contains ForPrepareWrite (ua_required_for authority)
             then bts_insert identity (csa_scope_candidate_identities acc)
             else csa_scope_candidate_identities acc in
           let identities :=
             if requirement_matches requirement authority
             then bts_insert identity (csa_identities acc)
             else csa_identities acc in
           {| csa_identities := identities; csa_scope_candidate_identities := candidates |}
       end.

Definition current_sensitive_approvals
    (authorities : list UserActionAuthority) (requirement : WriteTicketApprovalRequirement)
    : CurrentSensitiveApprovals :=
  foldl (current_approvals_step requirement)
    {| csa_identities := []; csa_scope_candidate_identities := [] |} authorities.

Record NonEmptyApprovalBasis := {
  ab_identities : list UserActionResolutionIdentity;
  ab_primary : UserActionResolutionIdentity;
}.

Definition basis_one (identity : UserActionResolutionIdentity) : NonEmptyApprovalBasis :=
  {| ab_identities := [identity]; ab_primary := identity |}.

Definition primary_basis (c : CurrentSensitiveApprovals) : option NonEmptyApprovalBasis :=
  basis_one <$> head (csa_identities c).

Definition from_store_valid_refs (refs : list UserActionResolutionRef) : option NonEmptyApprovalBasis :=
  let identities := bts_of_list (resolution_ref_identity <$> refs) in
  (λ primary, {| ab_identities := identities; ab_primary := primary |}) <$> head identities.

Definition first_resolution_id (b : NonEmptyApprovalBasis) : UserActionResolutionId :=
  ri_resolution_id (ab_primary b).

Definition resolution_refs (b : NonEmptyApprovalBasis) (produced_at_state_version : N)
    : list UserActionResolutionRef :=
  (λ identity, {| rr_record_id := ri_resolution_id identity;
                  rr_project_id := ri_project_id identity; rr_task_id := ri_task_id identity;
                  rr_produced_at_state_version := produced_at_state_version |}) <$> ab_identities b.

Definition approval_state_refs (b : NonEmptyApprovalBasis) (produced_at_state_version : N)
    : list StateRecordRef :=
  (λ identity, {| sr_record_kind := KUserActionResolution;
                  sr_record_id := ri_resolution_id identity;
                  sr_project_id := ri_project_id identity;
                  sr_task_id := Some (ri_task_id identity);
                  sr_produced_at_state_version := Some produced_at_state_version |})
    <$> ab_identities b.

Inductive ApprovalBasisChangeReason :=
| ApprovalNowRequired
| NoCurrentResolution
| ApprovalScopeChanged (resolution : UserActionResolutionIdentity)
| BasisResolutionNoLongerCurrent (resolution : UserActionResolutionIdentity).

Inductive WriteTicketApprovalAssessment :=
| ApprovalNotRequired
| ApprovalCurrent (basis : NonEmptyApprovalBasis)
| ApprovalChanged (reason : ApprovalBasisChangeReason).

Definition current_write_ticket_approval_basis
    (requirement : WriteTicketApprovalRequirement) (authorities : list UserActionAuthority)
    : option NonEmptyApprovalBasis :=
  primary_basis (current_sensitive_approvals authorities requirement).

Definition assess_write_ticket_approval
    (requirement : WriteTicketApprovalRequirement) (authorities : list UserActionAuthority)
    (persisted_refs : list UserActionResolutionRef) : WriteTicketApprovalAssessment :=
  let current := current_sensitive_approvals authorities requirement in
  match from_store_valid_refs persisted_refs with
  | None =>
      if approval_is_required requirement then ApprovalChanged ApprovalNowRequired
      else ApprovalNotRequired
  | Some basis =>
      if forallb (λ identity, bts_mem identity (csa_identities current)) (ab_identities basis)
      then ApprovalCurrent basis
      else match List.find (λ identity, negb (bts_mem identity (csa_identities current)))
                   (ab_identities basis) with
           | None => ApprovalCurrent basis
           | Some missing =>
               if bts_mem missing (csa_scope_candidate_identities current)
               then ApprovalChanged (ApprovalScopeChanged missing)
               else if list_is_empty (csa_identities current)
               then ApprovalChanged NoCurrentResolution
               else ApprovalChanged (BasisResolutionNoLongerCurrent missing)
           end
  end.

(** ** [current_validity.rs] *)

Inductive WriteTicketAuthorityState :=
| AuthorityNotApplicable | AuthorityCurrent | WriteAuthorityChanged | PendingPolicyReevaluation.
#[export] Instance WriteTicketAuthorityState_eq_dec : EqDecision WriteTicketAuthorityState.
Proof. solve_decision. Defined.

Record StoredWriteTicketState := {
  st_write_ticket_id : WriteTicketId;
  st_ticket : WriteTicketSemanticFacts;
}.

Record InvalidatedStoredWriteTicket := {
  inv_stored : StoredWriteTicketState;
  inv_invalidation : WriteTicketInvalidationReason;
  inv_authority : WriteTicketAuthorityState;
}.

Inductive StoredWriteTicketEvaluation :=
| EvalReusable (stored : StoredWriteTicketState)
| EvalInvalidated (ticket : InvalidatedStoredWriteTicket)
| EvalConsumed (stored : StoredWriteTicketState) (consumed_by_run_id : RunId)
| EvalRevoked (stored : StoredWriteTicketState) (invalidation : WriteTicketInvalidationReason).

Inductive TerminalStoredWriteTicketEvaluation :=
| TermInvalidated (ticket : InvalidatedStoredWriteTicket)
| TermConsumed (stored : StoredWriteTicketState) (consumed_by_run_id : RunId)
| TermRevoked (stored : StoredWriteTicketState) (invalidation : WriteTicketInvalidationReason).

Inductive ActiveStoredWriteTicketEvaluation :=
| ActReusable (stored : StoredWriteTicketState)
| ActInvalidated (ticket : InvalidatedStoredWriteTicket).

Definition eval_of_terminal (e : TerminalStoredWriteTicketEvaluation) : StoredWriteTicketEvaluation :=
  match e with
  | TermInvalidated t => EvalInvalidated t
  | TermConsumed s r => EvalConsumed s r
  | TermRevoked s i => EvalRevoked s i
  end.

Definition eval_of_active (e : ActiveStoredWriteTicketEvaluation) : StoredWriteTicketEvaluation :=
  match e with ActReusable s => EvalReusable s | ActInvalidated t => EvalInvalidated t end.

Definition eval_stored (e : StoredWriteTicketEvaluation) : StoredWriteTicketState :=
  match e with
  | EvalReusable s | EvalConsumed s _ | EvalRevoked s _ => s
  | EvalInvalidated t => inv_stored t
  end.
Definition eval_write_ticket_id (e : StoredWriteTicketEvaluation) : WriteTicketId :=
  st_write_ticket_id (eval_stored e).
Definition eval_semantic_facts (e : StoredWriteTicketEvaluation) : WriteTicketSemanticFacts :=
  st_ticket (eval_stored e).
Definition eval_invalidation (e : StoredWriteTicketEvaluation) : option WriteTicketInvalidationReason :=
  match e with
  | EvalReusable _ | EvalConsumed _ _ => None
  | EvalInvalidated t => Some (inv_invalidation t)
  | EvalRevoked _ i => Some i
  end.
Definition eval_status (e : StoredWriteTicketEvaluation) : WriteTicketStatus :=
  match e with
  | EvalReusable _ => TActive | EvalInvalidated _ => TInvalidated
  | EvalConsumed _ _ => TConsumed | EvalRevoked _ _ => TRevoked
  end.
Definition eval_consumed_by_run_id (e : StoredWriteTicketEvaluation) : option RunId :=
  match e with EvalConsumed _ run_id => Some run_id | _ => None end.

Inductive StoredTicketPreEvaluation :=
| PreComplete (terminal : TerminalStoredWriteTicketEvaluation)
| NeedsCurrentFacts (candidate : StoredWriteTicketState).

Inductive StoredWriteTicketStateError :=
| ActiveLifecycleDetails | MissingInvalidationReason | MissingConsumingRun | UnexpectedConsumingRun.

Definition pre_evaluate_stored_write_ticket
    (facts : StoredWriteTicketFacts) (observed_at : UtcTimestamp)
    : result StoredTicketPreEvaluation StoredWriteTicketStateError :=
  let stored := {| st_write_ticket_id := stf_write_ticket_id facts; st_ticket := stf_ticket facts |} in
  match stf_status facts with
  | TActive =>
      if is_some (stf_invalidation_reason facts) || is_some (stf_consumed_by_run_id facts)
      then Err ActiveLifecycleDetails
      else if write_ticket_is_idle_expired (sf_idle_expires_at (st_ticket stored)) observed_at
      then Ok (PreComplete (TermInvalidated
             {| inv_stored := stored; inv_invalidation := IIdleTimeout;
                inv_authority := AuthorityNotApplicable |}))
      else Ok (NeedsCurrentFacts stored)
  | TInvalidated =>
      if is_some (stf_consumed_by_run_id facts) then Err UnexpectedConsumingRun
      else match stf_invalidation_reason facts with
           | None => Err MissingInvalidationReason
           | Some invalidation =>
               Ok (PreComplete (TermInvalidated
                 {| inv_stored := stored; inv_invalidation := invalidation;
                    inv_authority := AuthorityNotApplicable |}))
           end
  | TConsumed =>
      if is_some (stf_invalidation_reason facts) then Err UnexpectedConsumingRun
      else match stf_consumed_by_run_id facts with
           | None => Err MissingConsumingRun
           | Some run_id => Ok (PreComplete (TermConsumed stored run_id))
           end
  | TRevoked =>
      if is_some (stf_consumed_by_run_id facts) then Err UnexpectedConsumingRun
      else match stf_invalidation_reason facts with
           | None => Err MissingInvalidationReason
           | Some invalidation => Ok (PreComplete (TermRevoked stored invalidation))
           end
  end.

(** [read_model.rs]: the current facts of the validity policy. *)
Record WriteTicketCurrentFacts := {
  cf_pending_policy_reevaluation : bool;
  cf_write_authority_fingerprint : string;
}.

Definition evaluate_active_candidate
    (candidate : StoredWriteTicketState) (current : WriteTicketCurrentFacts)
    (approval : WriteTicketApprovalAssessment) : ActiveStoredWriteTicketEvaluation :=
  let basis := sf_validity_basis (st_ticket candidate) in
  if vb_write_authority_fingerprint basis <>? cf_write_authority_fingerprint current then
    ActInvalidated {| inv_stored := candidate; inv_invalidation := IExplicitRevoke;
                      inv_authority := WriteAuthorityChanged |}
  else if cf_pending_policy_reevaluation current then
    ActInvalidated {| inv_stored := candidate; inv_invalidation := IExplicitRevoke;
                      inv_authority := PendingPolicyReevaluation |}
  else match approval with
       | ApprovalChanged _ =>
           ActInvalidated {| inv_stored := candidate; inv_invalidation := IApprovalBasisChanged;
                             inv_authority := AuthorityCurrent |}
       | ApprovalNotRequired | ApprovalCurrent _ => ActReusable candidate
       end.

Definition into_reusable (e : ActiveStoredWriteTicketEvaluation)
    : result StoredWriteTicketState InvalidatedStoredWriteTicket :=
  match e with ActReusable t => Ok t | ActInvalidated t => Err t end.

Definition project_stored_write_ticket_consumption
    (ticket : StoredWriteTicketState) (run_id : RunId) : StoredWriteTicketEvaluation :=
  EvalConsumed ticket run_id.

(** ** [selection.rs] *)

Inductive CompatibleWriteTicketSelection :=
| SelectNone
| SelectOne (ticket : StoredWriteTicketState)
| SelectAmbiguous (write_ticket_ids : list WriteTicketId).

Inductive PrepareWriteCandidateEvaluation :=
| CandIncompatible
| CandCompatible (ticket : StoredWriteTicketState)
| CandStaleApproval (write_ticket_id : WriteTicketId)
| CandStaleWorkspace (write_ticket_id : WriteTicketId)
| CandStalePolicy (write_ticket_id : WriteTicketId).

Record PrepareWriteCandidateSelection := {
  pcs_compatibility : CompatibleWriteTicketSelection;
  pcs_stale_approval_ticket_ids : list WriteTicketId;
  pcs_stale_workspace_ticket_ids : list WriteTicketId;
  pcs_stale_policy_ticket_ids : list WriteTicketId;
}.

Definition compatible_tickets (candidates : list PrepareWriteCandidateEvaluation)
    : list StoredWriteTicketState :=
  omap (λ c, match c with CandCompatible t => Some t | _ => None end) candidates.
Definition stale_approval (candidates : list PrepareWriteCandidateEvaluation) : list WriteTicketId :=
  omap (λ c, match c with CandStaleApproval i => Some i | _ => None end) candidates.
Definition stale_workspace (candidates : list PrepareWriteCandidateEvaluation) : list WriteTicketId :=
  omap (λ c, match c with CandStaleWorkspace i => Some i | _ => None end) candidates.
Definition stale_policy (candidates : list PrepareWriteCandidateEvaluation) : list WriteTicketId :=
  omap (λ c, match c with CandStalePolicy i => Some i | _ => None end) candidates.

(** The loop partitions the candidates in order; each stale list is sorted. *)
Definition select_prepare_write_candidates (candidates : list PrepareWriteCandidateEvaluation)
    : PrepareWriteCandidateSelection :=
  {| pcs_compatibility :=
       match compatible_tickets candidates with
       | [] => SelectNone
       | [first] => SelectOne first
       | first :: second :: remaining =>
           SelectAmbiguous (rsort (st_write_ticket_id <$> first :: second :: remaining))
       end;
     pcs_stale_approval_ticket_ids := rsort (stale_approval candidates);
     pcs_stale_workspace_ticket_ids := rsort (stale_workspace candidates);
     pcs_stale_policy_ticket_ids := rsort (stale_policy candidates) |}.

Definition status_priority (status : WriteTicketStatus) : N :=
  match status with TActive => 0 | TInvalidated => 1 | TConsumed => 2 | TRevoked => 3 end.

Definition compare_candidates (left right : StoredWriteTicketEvaluation) : comparison :=
  cmp_then (N.compare (status_priority (eval_status left)) (status_priority (eval_status right)))
    (cmp_then (N.compare (sf_basis_state_version (eval_semantic_facts right))
                         (sf_basis_state_version (eval_semantic_facts left)))
       (rcompare (eval_write_ticket_id left) (eval_write_ticket_id right))).

Definition select_stored_write_ticket (candidates : list StoredWriteTicketEvaluation)
    : option StoredWriteTicketEvaluation :=
  min_by compare_candidates candidates.

(** ** [summary.rs] *)

Record WriteTicketStateSummary := {
  sum_status : WriteTicketStatus;
  sum_write_ticket_ref : option StateRecordRef;
  sum_basis_state_version : option N;
  sum_validity_basis : option WriteTicketValidityBasis;
  sum_invalidation_reason : option WriteTicketInvalidationReason;
  sum_idle_expires_at : option UtcTimestamp;
  sum_intended_paths : list string;
  sum_consumed_by_run_ref : option StateRecordRef;
  sum_observation_refs : list StateRecordRef;
}.

(** [record_refs.rs]: [state_ref]. *)
Definition state_ref (record_kind : StateRecordKind) (record_id : string) (project_id : ProjectId)
    (task_id : option TaskId) (state_version : option N) : StateRecordRef :=
  {| sr_record_kind := record_kind; sr_record_id := record_id; sr_project_id := project_id;
     sr_task_id := task_id; sr_produced_at_state_version := state_version |}.

(** [project_stored_write_ticket_summary], through [project_summary]; the
    guarantee text is passed through by the source and left out. *)
Definition project_stored_write_ticket_summary
    (evaluated : StoredWriteTicketEvaluation) (state_version : N)
    (observation_refs : list StateRecordRef) : WriteTicketStateSummary :=
  let ticket := eval_semantic_facts evaluated in
  let task_id := vb_task_id (sf_validity_basis ticket) in
  {| sum_status := eval_status evaluated;
     sum_write_ticket_ref :=
       Some (state_ref KWriteTicket (eval_write_ticket_id evaluated) (sf_project_id ticket)
               (Some task_id) (Some state_version));
     sum_basis_state_version := Some (sf_basis_state_version ticket);
     sum_validity_basis := Some (sf_validity_basis ticket);
     sum_invalidation_reason := eval_invalidation evaluated;
     sum_idle_expires_at := sf_idle_expires_at ticket;
     sum_intended_paths := path_str <$> as_intended_paths (sf_attempt_scope ticket);
     sum_consumed_by_run_ref :=
       (λ run_id, state_ref KRun run_id (sf_project_id ticket) (Some task_id) (Some state_version))
         <$> eval_consumed_by_run_id evaluated;
     sum_observation_refs := observation_refs |}.

(** ** Lemmas: approval *)

Definition approves (r : WriteTicketApprovalRequirement) (authorities : list UserActionAuthority)
    (identity : UserActionResolutionIdentity) : Prop :=
  ∃ a, a ∈ authorities ∧ authority_resolution_identity a = Some identity ∧
    requirement_matches r a = true.

Lemma current_approvals_acc r authorities acc :
  let c := foldl (current_approvals_step r) acc authorities in
  (StronglySorted rlt (csa_identities acc) → StronglySorted rlt (csa_identities c)) ∧
  (∀ i, i ∈ csa_identities c ↔ i ∈ csa_identities acc ∨ approves r authorities i).
Proof.
  revert acc. induction authorities as [|a authorities IH]; intros acc; simpl.
  { split; [done|]. intros i. unfold approves. set_solver. }
  destruct (IH (current_approvals_step r acc a)) as [Hs Hin]. clear IH.
  assert ((StronglySorted rlt (csa_identities acc) →
           StronglySorted rlt (csa_identities (current_approvals_step r acc a))) ∧
    ∀ i, i ∈ csa_identities (current_approvals_step r acc a) ↔
      i ∈ csa_identities acc ∨
      authority_resolution_identity a = Some i ∧ requirement_matches r a = true) as [Hs1 Hin1].
  { unfold current_approvals_step, requirement_matches.
    destruct (has_current_owner r a); simpl; [|split; [done|naive_solver]].
    destruct (authority_resolution_identity a) as [i0|]; simpl; [|split; [done|naive_solver]].
    destruct (current_sensitive_approval a _); simpl.
    - split; [apply bts_insert_sorted|]. intros i. rewrite elem_of_bts_insert. naive_solver.
    - split; [done|]. naive_solver. }
  split; [auto|]. intros i. rewrite Hin, Hin1. unfold approves. set_solver.
Qed.

Lemma elem_of_current_approvals r authorities i :
  i ∈ csa_identities (current_sensitive_approvals authorities r) ↔ approves r authorities i.
Proof.
  unfold current_sensitive_approvals. rewrite (proj2 (current_approvals_acc r authorities _)).
  simpl. set_solver.
Qed.

Lemma approves_owner r authorities i :
  approves r authorities i →
  ri_project_id i = apr_project_id r ∧ ri_task_id i = as_task_id (apr_scope r).
Proof.
  intros (a & _ & Hid & Hm). unfold requirement_matches, has_current_owner in Hm.
  apply andb_true_iff in Hm as [[Hp Ht]%andb_true_iff _]. breflect.
  unfold authority_resolution_identity in Hid. apply fmap_Some in Hid as (u & _ & ->). done.
Qed.

Lemma from_store_valid_refs_None refs : from_store_valid_refs refs = None ↔ refs = [].
Proof.
  unfold from_store_valid_refs. rewrite fmap_None, head_None. split; [|by intros ->].
  intros Hn. destruct refs as [|ref refs]; [done|].
  assert (resolution_ref_identity ref ∈ @nil UserActionResolutionIdentity) as He; [|set_solver].
  rewrite <-Hn, elem_of_bts_of_list. set_solver.
Qed.

Lemma from_store_valid_refs_Some refs basis :
  from_store_valid_refs refs = Some basis →
  refs ≠ [] ∧ ab_identities basis = bts_of_list (resolution_ref_identity <$> refs) ∧
  ab_primary basis ∈ resolution_ref_identity <$> refs.
Proof.
  intros Hf. split.
  { intros ->. done. }
  unfold from_store_valid_refs in Hf. apply fmap_Some in Hf as (i & Hi & ->). split; [done|].
  simpl. apply head_elem in Hi. by rewrite elem_of_bts_of_list in Hi.
Qed.

(** Every persisted approval is still current, and one exists when required. *)
Definition approval_holds (r : WriteTicketApprovalRequirement)
    (authorities : list UserActionAuthority) (refs : list UserActionResolutionRef) : Prop :=
  (refs = [] → approval_is_required r = false) ∧
  ∀ ref, ref ∈ refs → approves r authorities (resolution_ref_identity ref).

Lemma assess_Current r authorities refs basis :
  assess_write_ticket_approval r authorities refs = ApprovalCurrent basis ↔
  from_store_valid_refs refs = Some basis ∧
  ∀ ref, ref ∈ refs → approves r authorities (resolution_ref_identity ref).
Proof.
  unfold assess_write_ticket_approval.
  destruct (from_store_valid_refs refs) as [b|] eqn:Eb.
  2:{ destruct (approval_is_required r); naive_solver. }
  destruct (from_store_valid_refs_Some _ _ Eb) as (_ & Hids & _).
  assert (forallb (λ i, bts_mem i (csa_identities (current_sensitive_approvals authorities r)))
            (ab_identities b) = true ↔
    ∀ ref, ref ∈ refs → approves r authorities (resolution_ref_identity ref)) as Hall.
  { rewrite forallb_elem, Hids. setoid_rewrite elem_of_bts_of_list.
    setoid_rewrite bts_mem_elem. setoid_rewrite elem_of_current_approvals. set_solver. }
  destruct (forallb _ _) eqn:Ef; [naive_solver|].
  destruct (List.find _ _) as [missing|] eqn:Efind.
  - split; [intros Hc; unravel Hc|]. intros [_ Hh%Hall]. done.
  - exfalso. rewrite list_find_None in Efind. apply not_true_iff_false in Ef. apply Ef.
    apply forallb_elem. intros i Hi. by apply negb_false_iff, Efind.
Qed.

Lemma assess_not_changed r authorities refs :
  (∀ reason, assess_write_ticket_approval r authorities refs ≠ ApprovalChanged reason) ↔
  approval_holds r authorities refs.
Proof.
  unfold approval_holds. destruct (from_store_valid_refs refs) as [b|] eqn:Eb.
  - destruct (from_store_valid_refs_Some _ _ Eb) as (Hne & _).
    assert (∀ x, assess_write_ticket_approval r authorities refs = x →
      (∀ reason, x ≠ ApprovalChanged reason) → x = ApprovalCurrent b) as Hx.
    { unfold assess_write_ticket_approval. rewrite Eb. intros x <- Hn. repeat case_match; try done.
      all: exfalso; by eapply Hn. }
    split.
    + intros Hn. split; [done|]. specialize (Hx _ eq_refl Hn).
      apply assess_Current in Hx as [_ ?]. done.
    + intros [_ Hall] reason. rewrite (proj2 (assess_Current r authorities refs b)); done.
  - unfold assess_write_ticket_approval. rewrite Eb. apply from_store_valid_refs_None in Eb as ->.
    destruct (approval_is_required r); split.
    + intros Hn. exfalso. by eapply Hn.
    + intros [Hr _]. by specialize (Hr eq_refl).
    + intros _. split; [done|]. set_solver.
    + done.
Qed.

Lemma evaluate_active_Reusable candidate current approval t :
  evaluate_active_candidate candidate current approval = ActReusable t ↔
  t = candidate ∧
  vb_write_authority_fingerprint (sf_validity_basis (st_ticket candidate)) =
    cf_write_authority_fingerprint current ∧
  cf_pending_policy_reevaluation current = false ∧
  ∀ reason, approval ≠ ApprovalChanged reason.
Proof.
  unfold evaluate_active_candidate.
  destruct (_ =? cf_write_authority_fingerprint current) eqn:Ef; simpl; breflect; [|naive_solver].
  destruct (cf_pending_policy_reevaluation current); [naive_solver|].
  destruct approval; naive_solver.
Qed.

Lemma evaluate_active_stored candidate current approval :
  eval_stored (eval_of_active (evaluate_active_candidate candidate current approval)) = candidate.
Proof. unfold evaluate_active_candidate. repeat case_match; done. Qed.

(** ** Lemmas: lifecycle and selection *)

Lemma idle_expired_false o now :
  write_ticket_is_idle_expired o now = false ↔ ∀ e, o = Some e → (now < e)%Z.
Proof.
  unfold write_ticket_is_idle_expired. rewrite is_some_and_false. unfold ts_ge.
  by setoid_rewrite Z.leb_gt.
Qed.

Definition record_state (r : StoredWriteTicket) : StoredWriteTicketState :=
  {| st_write_ticket_id := wt_write_ticket_id r; st_ticket := stf_ticket (from_record r) |}.

(** What the persisted lifecycle of a row means at an instant. *)
Definition lifecycle_meaning (r : StoredWriteTicket) (now : UtcTimestamp)
    (p : StoredTicketPreEvaluation) : Prop :=
  match p with
  | NeedsCurrentFacts s =>
      s = record_state r ∧ wt_status r = TActive ∧
      ∀ e, wt_idle_expires_at r = Some e → (now < e)%Z
  | PreComplete (TermInvalidated t) =>
      inv_stored t = record_state r ∧ inv_authority t = AuthorityNotApplicable ∧
      (wt_status r = TActive ∧ inv_invalidation t = IIdleTimeout ∧
         (∃ e, wt_idle_expires_at r = Some e ∧ (e ≤ now)%Z) ∨
       wt_status r = TInvalidated ∧ wt_invalidation_reason r = Some (inv_invalidation t))
  | PreComplete (TermConsumed s run_id) =>
      s = record_state r ∧ wt_status r = TConsumed ∧ wt_consumed_by_run_id r = Some run_id
  | PreComplete (TermRevoked s reason) =>
      s = record_state r ∧ wt_status r = TRevoked ∧ wt_invalidation_reason r = Some reason
  end.

Lemma pre_evaluate_valid_row r now :
  status_columns_are_valid r = true →
  ∃ p, pre_evaluate_stored_write_ticket (from_record r) now = Ok p ∧ lifecycle_meaning r now p.
Proof.
  unfold status_columns_are_valid, pre_evaluate_stored_write_ticket. simpl.
  destruct (wt_status r) eqn:Es, (wt_invalidation_reason r) eqn:Ei,
    (wt_consumed_by_run_id r) eqn:Ec; simpl; rewrite ?andb_false_r; try done; intros _.
  2-4: eexists; split; [done|]; simpl; rewrite ?Es, ?Ei, ?Ec; auto.
  destruct (write_ticket_is_idle_expired _ _) eqn:Ex; eexists; (split; [done|]); simpl.
  - split_and!; [done..|]. left. split_and!; try done.
    apply is_some_and_true in Ex as (e & ? & ?). exists e. unfold ts_ge in *. split; [done|lia].
  - split_and!; try done. by apply idle_expired_false.
Qed.

Definition selection_key (e : StoredWriteTicketEvaluation) : N * (Reverse N * string) :=
  (status_priority (eval_status e),
    (MkReverse (sf_basis_state_version (eval_semantic_facts e)), eval_write_ticket_id e)).

Lemma compare_candidates_key x y :
  compare_candidates x y = rcompare (selection_key x) (selection_key y).
Proof. done. Qed.

Lemma status_priority_inj s t : status_priority s = status_priority t → s = t.
Proof. by destruct s, t. Qed.

Lemma selection_key_le x y :
  rle (selection_key x) (selection_key y) →
  (status_priority (eval_status x) < status_priority (eval_status y))%N ∨
  eval_status x = eval_status y ∧
  (sf_basis_state_version (eval_semantic_facts y) ≤ sf_basis_state_version (eval_semantic_facts x))%N.
Proof.
  unfold rle, selection_key. simpl. unfold cmp_then.
  destruct (N.compare_spec (status_priority (eval_status x)) (status_priority (eval_status y)))
    as [Hs%status_priority_inj|Hs|Hs]; [|by left|done].
  destruct (N.compare_spec (sf_basis_state_version (eval_semantic_facts y))
              (sf_basis_state_version (eval_semantic_facts x))); [..|done]; right; split; auto; lia.
Qed.

Lemma compatibility_perm (l l' : list StoredWriteTicketState) :
  l ≡ₚ l' →
  match l with
  | [] => SelectNone
  | [t] => SelectOne t
  | first :: second :: rest => SelectAmbiguous (rsort (st_write_ticket_id <$> first :: second :: rest))
  end =
  match l' with
  | [] => SelectNone
  | [t] => SelectOne t
  | first :: second :: rest => SelectAmbiguous (rsort (st_write_ticket_id <$> first :: second :: rest))
  end.
Proof.
  intros Hp. pose proof (Permutation_length Hp) as Hlen.
  destruct l as [|a [|b l]], l' as [|a' [|b' l']]; try done.
  - by apply Permutation_length_1 in Hp as ->.
  - f_equal. apply rsort_eq_perm. by rewrite Hp.
Qed.

Lemma compatible_tickets_perm l l' : l ≡ₚ l' → compatible_tickets l ≡ₚ compatible_tickets l'.
Proof. unfold compatible_tickets. by intros ->. Qed.

Lemma elem_of_compatible t l : t ∈ compatible_tickets l ↔ CandCompatible t ∈ l.
Proof.
  unfold compatible_tickets. rewrite list_elem_of_omap. split.
  - intros (c & Hc & He). destruct c; naive_solver.
  - intros Hc. by exists (CandCompatible t).
Qed.

Lemma select_one_elem t l :
  pcs_compatibility (select_prepare_write_candidates l) = SelectOne t → t ∈ compatible_tickets l.
Proof.
  unfold select_prepare_write_candidates. cbn [pcs_compatibility].
  destruct (compatible_tickets l) as [|t1 [|t2 ts]]; try done. intros [= ->]. constructor.
Qed.

(** ** Theorems *)

(** An active candidate is reusable exactly when its write-authority
    fingerprint is the current one, no policy reevaluation is pending, and its
    approval basis still holds: every persisted approval resolution is backed by
    a current, accepted, scope-covering user approval of the same project and
    Task, and none is missing where one is required. *)
Theorem active_candidate_reusable_spec candidate current requirement authorities :
  let facts := sf_validity_basis (st_ticket candidate) in
  evaluate_active_candidate candidate current
    (assess_write_ticket_approval requirement authorities (vb_approval_basis_refs facts))
    = ActReusable candidate ↔
  vb_write_authority_fingerprint facts = cf_write_authority_fingerprint current ∧
  cf_pending_policy_reevaluation current = false ∧
  approval_holds requirement authorities (vb_approval_basis_refs facts).
Proof. simpl. rewrite evaluate_active_Reusable, assess_not_changed. naive_solver. Qed.

(** A row the store accepted always enters the Core type states: its
    pre-evaluation never fails, terminal statuses keep their persisted reason or
    run, and an active row needs current facts exactly until its idle expiry. *)
Theorem stored_row_pre_evaluation `{Chrono} r now :
  validate_write_ticket_record r = Ok tt →
  ∃ p, pre_evaluate_stored_write_ticket (from_record r) now = Ok p ∧ lifecycle_meaning r now p.
Proof. intros [] %validate_spec. by apply pre_evaluate_valid_row. Qed.

(** The projected ticket of a Task does not depend on the order in which the
    rows were read, is one of them, and is the best: active before invalidated
    before consumed before revoked, then the newest state version, then the
    least id. *)
Theorem stored_selection_best candidates candidates' :
  NoDup (eval_write_ticket_id <$> candidates) → candidates ≡ₚ candidates' →
  select_stored_write_ticket candidates = select_stored_write_ticket candidates' ∧
  (select_stored_write_ticket candidates = None ↔ candidates = []) ∧
  ∀ e, select_stored_write_ticket candidates = Some e →
    e ∈ candidates ∧
    ∀ y, y ∈ candidates →
      (status_priority (eval_status e) < status_priority (eval_status y))%N ∨
      eval_status e = eval_status y ∧
      (sf_basis_state_version (eval_semantic_facts y) ≤ sf_basis_state_version (eval_semantic_facts e))%N.
Proof.
  intros Hnd Hp. unfold select_stored_write_ticket. split_and!.
  - apply (min_by_perm _ _ compare_candidates_key); [|done]. intros x y Hx Hy Hk.
    injection Hk as _ _ Hid. by eapply NoDup_fmap_inj_elem.
  - apply min_by_None.
  - intros e [Hin Hle]%(min_by_least _ _ compare_candidates_key). split; [done|].
    intros y Hy%Hle. apply selection_key_le, Hy.
Qed.

(** Selecting a reusable ticket for a new write does not depend on the order
    of the candidates; a ticket is picked only if it is the single compatible
    one, and two or more compatible tickets are always reported as ambiguous
    with all their ids. *)
Theorem prepare_selection_sound candidates candidates' :
  candidates ≡ₚ candidates' →
  let selection := select_prepare_write_candidates candidates in
  selection = select_prepare_write_candidates candidates' ∧
  (∀ t, pcs_compatibility selection = SelectOne t ↔ compatible_tickets candidates = [t]) ∧
  (∀ ids, pcs_compatibility selection = SelectAmbiguous ids →
     2 ≤ length ids ∧ ids ≡ₚ st_write_ticket_id <$> compatible_tickets candidates).
Proof.
  intros Hp selection. subst selection. split_and!.
  - unfold select_prepare_write_candidates. f_equal.
    + by apply compatibility_perm, compatible_tickets_perm.
    + apply rsort_eq_perm. unfold stale_approval. by rewrite Hp.
    + apply rsort_eq_perm. unfold stale_workspace. by rewrite Hp.
    + apply rsort_eq_perm. unfold stale_policy. by rewrite Hp.
  - intros t. unfold select_prepare_write_candidates. cbn [pcs_compatibility].
    destruct (compatible_tickets candidates) as [|t1 [|t2 l]]; naive_solver.
  - intros ids. unfold select_prepare_write_candidates. cbn [pcs_compatibility]. destruct (compatible_tickets candidates) as [|t1 [|t2 l]]; [done..|].
    pose proof (rsort_perm (st_write_ticket_id <$> t1 :: t2 :: l)) as Hperm.
    revert Hperm. generalize (rsort (st_write_ticket_id <$> t1 :: t2 :: l)).
    intros ids' Hperm [= <-]. split; [|done]. rewrite Hperm. simpl. lia.
Qed.

(** The decision of a write preparation is allowed exactly when there is no
    reason against it; an unresolved user action outranks a missing approval,
    which outranks every other reason. *)
Theorem prepare_write_decision_spec reasons :
  (prepare_write_decision reasons = DAllowed ↔ reasons = []) ∧
  (prepare_write_decision reasons = DDecisionRequired ↔
     ∃ r, r ∈ reasons ∧ dr_code r = UserActionUnresolved) ∧
  (prepare_write_decision reasons = DApprovalRequired ↔
     (∃ r, r ∈ reasons ∧ dr_code r = SensitiveApprovalMissing) ∧
     ∀ r, r ∈ reasons → dr_code r ≠ UserActionUnresolved).
Proof.
  assert (∀ code, existsb (λ r, dr_code r =? code) reasons = true ↔
    ∃ r, r ∈ reasons ∧ dr_code r = code) as Hex.
  { intros code. rewrite existsb_elem. by setoid_rewrite eqb_true. }
  pose proof (Hex UserActionUnresolved) as H1. pose proof (Hex SensitiveApprovalMissing) as H2.
  clear Hex. unfold prepare_write_decision. destruct reasons as [|r0 reasons]; [set_solver|].
  cbn [list_is_empty].
  destruct (existsb (λ r, dr_code r =? UserActionUnresolved) (r0 :: reasons));
    [|destruct (existsb (λ r, dr_code r =? SensitiveApprovalMissing) (r0 :: reasons))].
  all: split_and!; split; naive_solver.
Qed.

(** ** Witnesses *)

#[local] Existing Instance decimal_chrono.

Definition sample_state (id : string) : StoredWriteTicketState :=
  {| st_write_ticket_id := id; st_ticket := stf_ticket (from_record sample_record) |}.

Lemma stored_row_pre_evaluation_witness :
  ∃ p, pre_evaluate_stored_write_ticket (from_record sample_record) 900 = Ok p ∧
    lifecycle_meaning sample_record 900 p.
Proof. apply (stored_row_pre_evaluation sample_record 900). vm_compute. reflexivity. Defined.

Lemma stored_selection_best_witness :
  select_stored_write_ticket [EvalConsumed (sample_state "a") "run"; EvalReusable (sample_state "b")] =
  select_stored_write_ticket [EvalReusable (sample_state "b"); EvalConsumed (sample_state "a") "run"].
Proof.
  apply (stored_selection_best
           [EvalConsumed (sample_state "a") "run"; EvalReusable (sample_state "b")]).
  - apply NoDup_cons. split; [|apply NoDup_singleton]. simpl.
    intros Heq%list_elem_of_singleton. discriminate Heq.
  - apply perm_swap.
Defined.

Lemma prepare_selection_sound_witness :
  pcs_compatibility (select_prepare_write_candidates
    [CandStalePolicy "z"; CandCompatible (sample_state "b"); CandIncompatible]) =
    SelectOne (sample_state "b").
Proof.
  apply (prepare_selection_sound
    [CandStalePolicy "z"; CandCompatible (sample_state "b"); CandIncompatible] _ (reflexivity _)).
  reflexivity.
Defined.
