(* ===== verification/Commit.v ===== *)
(** * Commit: the atomic Core commit, idempotent replay and the event log

    Models [crates/volicord-store/src/core_pipeline/commit.rs],
    [replay.rs], the replay-identity checks of [validation.rs], the header read
    of [project_state.rs] and [transition_effect_matches_mutations] of
    [mutations.rs].  One project database is a record: its version, clock floor,
    authority events in insertion order, replay rows and the rows of the
    aggregates.  The aggregates are a type [D] with the class [AggregateStore]:
    what a mutation does to them, the rows that the foreign keys of
    [authority_events] name, and what the transition check reads.  A rejected
    attempt drops its transaction, so an [Err] carries no state.

    Of the SQL constraints, the unique keys and the immediate foreign keys of
    [authority_events] are checks here; its CHECK clauses hold for every row the
    code builds.  A Git workspace context is the record its JSON object
    serializes, and JSON text is parsed by the class [SerdeJson]. *)

From Stdlib Require Import Ascii.
From S2P Require Import Prelude Text Values Canonical EventHash Schema Clock TicketStore.

(** ** Public methods and workflow transitions *)

Inductive MethodName :=
| MIntake | MUpdateScope | MRecordShapingCheckpoint | MFinalizeAdvice | MAdvanceTask | MStatus
| MGetOperationResult | MCheckClose | MPrepareEvidenceCapture | MPrepareWrite | MStageArtifact
| MRecordRun | MRequestUserAction | MResolveUserAction | MReconcileChanges | MCloseTask.
#[export] Instance MethodName_eq_dec : EqDecision MethodName.
Proof. solve_decision. Defined.

Definition MethodName_ALL : list MethodName :=
  [MIntake; MUpdateScope; MRecordShapingCheckpoint; MFinalizeAdvice; MAdvanceTask; MStatus;
   MGetOperationResult; MCheckClose; MPrepareEvidenceCapture; MPrepareWrite; MStageArtifact;
   MRecordRun; MRequestUserAction; MResolveUserAction; MReconcileChanges; MCloseTask].

Definition MethodName_as_str (m : MethodName) : string :=
  match m with
  | MIntake => "volicord.intake"
  | MUpdateScope => "volicord.update_scope"
  | MRecordShapingCheckpoint => "volicord.record_shaping_checkpoint"
  | MFinalizeAdvice => "volicord.finalize_advice"
  | MAdvanceTask => "volicord.advance_task"
  | MStatus => "volicord.status"
  | MGetOperationResult => "volicord.get_operation_result"
  | MCheckClose => "volicord.check_close"
  | MPrepareEvidenceCapture => "volicord.prepare_evidence_capture"
  | MPrepareWrite => "volicord.prepare_write"
  | MStageArtifact => "volicord.stage_artifact"
  | MRecordRun => "volicord.record_run"
  | MRequestUserAction => "volicord.request_user_action"
  | MResolveUserAction => "volicord.resolve_user_action"
  | MReconcileChanges => "volicord.reconcile_changes"
  | MCloseTask => "volicord.close_task"
  end.

(** The derived [Deserialize] of a closed string set: the first name that matches. *)
Definition MethodName_of_str (s : string) : option MethodName :=
  List.find (λ m, MethodName_as_str m =? s) MethodName_ALL.

Definition OperationCategory_as_str (c : OperationCategory) : string :=
  match c with
  | Read => "read"
  | AgentWorkflow => "agent_workflow"
  | UserOnly => "user_only"
  | AdminLocal => "admin_local"
  | LocalRecovery => "local_recovery"
  end.

Definition OperationCategory_of_str (s : string) : option OperationCategory :=
  List.find (λ c, OperationCategory_as_str c =? s)
    [Read; AgentWorkflow; UserOnly; AdminLocal; LocalRecovery].

Inductive WorkflowActionSemanticVariant :=
| VCreateInitial | VReplaceCurrent | VKeepCurrentChangeUnit | VCreateCurrentChangeUnit
| VReplaceCurrentChangeUnit | VFinalizeAdvice | VAdvanceTask | VPrepareEvidenceCapture
| VPrepareWrite | VStageArtifact | VRecordRun | VRequestUserAction | VResolveUserAction
| VReconcileChanges | VCheckClose | VCloseTask.

(** [WorkflowActionSemanticVariant::method]. *)
Definition variant_method (v : WorkflowActionSemanticVariant) : MethodName :=
  match v with
  | VCreateInitial | VReplaceCurrent => MRecordShapingCheckpoint
  | VKeepCurrentChangeUnit | VCreateCurrentChangeUnit | VReplaceCurrentChangeUnit => MUpdateScope
  | VFinalizeAdvice => MFinalizeAdvice
  | VAdvanceTask => MAdvanceTask
  | VPrepareEvidenceCapture => MPrepareEvidenceCapture
  | VPrepareWrite => MPrepareWrite
  | VStageArtifact => MStageArtifact
  | VRecordRun => MRecordRun
  | VRequestUserAction => MRequestUserAction
  | VResolveUserAction => MResolveUserAction
  | VReconcileChanges => MReconcileChanges
  | VCheckClose => MCheckClose
  | VCloseTask => MCloseTask
  end.

Record WorkflowActionKey := {
  ak_method : MethodName;
  ak_semantic_variant : WorkflowActionSemanticVariant;
}.

(** [WorkflowActionKey::new]. *)
Definition action_key_new (method : MethodName) (semantic_variant : WorkflowActionSemanticVariant)
    : result WorkflowActionKey string :=
  if variant_method semantic_variant <>? method
  then Err "workflow semantic variant does not belong to its method"
  else Ok {| ak_method := method; ak_semantic_variant := semantic_variant |}.

Inductive WorkflowTransitionEffectClass :=
| CoreStateMutation | UserChannelMutation | WriteAuthorization | ArtifactStaging
| EvidenceCapture | ExecutionRecording | ReadOnlyAssessment | TerminalMutation.

(** The effect class [workflow_projection.rs] gives the transition of a method. *)
Definition transition_effect_class (method : MethodName) : WorkflowTransitionEffectClass :=
  match method with
  | MResolveUserAction => UserChannelMutation
  | MPrepareEvidenceCapture => EvidenceCapture
  | MPrepareWrite => WriteAuthorization
  | MStageArtifact => ArtifactStaging
  | MRecordRun => ExecutionRecording
  | MCheckClose => ReadOnlyAssessment
  | MCloseTask => TerminalMutation
  | _ => CoreStateMutation
  end.

Inductive WorkflowExpectedResultState :=
| ReevaluateCurrentAuthority | AwaitingUserAction | ResultImplementation | CloseReview | Terminal.

(** The constructors of [CoreStorageMutation], without their payload. *)
Inductive MutationKind :=
| MutTask | MutChangeUnit | MutWriteTicket | MutRun | MutShaping | MutEvidence | MutArtifact
| MutUserAction | MutContinuity | MutWorkflowPolicy.
#[export] Instance MutationKind_eq_dec : EqDecision MutationKind.
Proof. solve_decision. Defined.

Definition transition_effect_matches_mutations (action_key : WorkflowActionKey)
    (effect : WorkflowTransitionEffectClass) (mutations : list MutationKind) : bool :=
  let has kind := existsb (λ mutation, mutation =? kind) mutations in
  match effect, ak_method action_key, ak_semantic_variant action_key with
  | CoreStateMutation, MRecordShapingCheckpoint, (VCreateInitial | VReplaceCurrent) =>
      has MutShaping
  | CoreStateMutation, MUpdateScope, VKeepCurrentChangeUnit => has MutTask
  | CoreStateMutation, MUpdateScope, (VCreateCurrentChangeUnit | VReplaceCurrentChangeUnit) =>
      has MutChangeUnit
  | CoreStateMutation, (MFinalizeAdvice | MAdvanceTask), (VFinalizeAdvice | VAdvanceTask) =>
      has MutShaping
  | CoreStateMutation, MRequestUserAction, VRequestUserAction => has MutUserAction
  | CoreStateMutation, MReconcileChanges, VReconcileChanges =>
      has MutContinuity || has MutUserAction
  | UserChannelMutation, MResolveUserAction, VResolveUserAction => has MutUserAction
  | WriteAuthorization, MPrepareWrite, VPrepareWrite =>
      forallb (λ mutation,
        match mutation with MutTask | MutWriteTicket | MutWorkflowPolicy => true | _ => false end)
        mutations
  | EvidenceCapture, MPrepareEvidenceCapture, VPrepareEvidenceCapture => has MutEvidence
  | ExecutionRecording, MRecordRun, VRecordRun => has MutRun
  | TerminalMutation, MCloseTask, VCloseTask => has MutTask
  | _, _, _ => false
  end.

(** ** Commit input and outcome *)

Record VerifiedReplayContext := {
  rx_actor_source : ActorSource;
  rx_operation_category : OperationCategory;
  rx_verification_basis : option string;
  rx_git_workspace_context : option GitWorkspaceContext;
}.

Record PendingTaskEvent := {
  pe_event_id : string;
  pe_task_id : option string;
  pe_change_unit_id : option string;
  pe_event_kind : string;
  pe_event_payload_json : string;
}.

Record CommittedEventRef := { cer_event_id : string; cer_event_kind : string }.

Record CommittedMutationFacts := {
  cf_basis_state_version : N;
  cf_committed_state_version : N;
  cf_events : list CommittedEventRef;
}.

Record TransitionCommitExpectation := {
  te_project_id : string;
  te_task_id : string;
  te_action_key : WorkflowActionKey;
  te_effect_class : WorkflowTransitionEffectClass;
  te_expected_result_state : WorkflowExpectedResultState;
  te_basis_state_version : N;
}.

Record CommitMutationInput := {
  ci_project_id : string;
  ci_tool_name : string;
  ci_idempotency_key : option string;
  ci_request_hash : string;
  ci_replay_context : option VerifiedReplayContext;
  ci_expected_state_version : option N;
  ci_transition_expectation : option TransitionCommitExpectation;
  ci_clock_floor : option UtcTimestamp;
  ci_include_live_storage_time : bool;
  ci_events : list PendingTaskEvent;
}.

(** [commit_input]. *)
Definition commit_input (project_id : string) (method_name : MethodName)
    (idempotency_key : option string) (request_hash : string)
    (replay_context : option VerifiedReplayContext) (expected_state_version : option N)
    (events : list PendingTaskEvent) : CommitMutationInput :=
  {| ci_project_id := project_id; ci_tool_name := MethodName_as_str method_name;
     ci_idempotency_key := idempotency_key; ci_request_hash := request_hash;
     ci_replay_context := replay_context; ci_expected_state_version := expected_state_version;
     ci_transition_expectation := None; ci_clock_floor := None;
     ci_include_live_storage_time := true; ci_events := events |}.

Inductive MutationCommitOutcome :=
| Replayed (response_json : string) (basis_state_version committed_state_version : N)
| ReplayContextMismatch (current_state_version : N) (idempotency_key : string)
| IdempotencyConflict (current_state_version : N)
    (idempotency_key stored_request_hash attempted_request_hash : string)
| StaleExpectedState (current_state_version expected_state_version : N)
| Committed (response_json : string) (basis_state_version committed_state_version : N)
    (events : list CommittedEventRef).

(** ** Replay identity *)

(** [serde_json::from_str::<Value>]; an error is its message. *)
Class SerdeJson := { json_from_str : string → result Value string }.

Inductive ReplayContextFieldKind := ReplayValue | ReplayJson.

Record ReplayContextValidationFailure := {
  rf_input_field : string;
  rf_logical_column : string;
  rf_detail : string;
  rf_field_kind : ReplayContextFieldKind;
}.

(** [parse_canonical_git_workspace_context] on the record the text decodes to:
    the strict shape and the canonical text are those of the serialization. *)
Definition canonical_git_workspace_context (context : GitWorkspaceContext) : result unit string :=
  if blank (git_common_dir context) || negb (starts_with "/" (git_common_dir context))
  then Err "must contain an absolute non-empty git_common_dir"
  else if negb (is_canonical_sha256_digest (worktree_id context))
  then Err "must contain a valid worktree_id"
  else if is_some_and (branch_ref context) (λ reference,
            negb (starts_with "refs/" reference)
            || (str_contains_byte "000"%char reference
                || str_contains_byte "010"%char reference
                || str_contains_byte "013"%char reference)
            || (trim reference <>? reference))
  then Err "must contain a valid branch_ref or null"
  else if is_some_and (head_sha context) (λ sha,
            match canonical_git_object_id sha with
            | Ok canonical => canonical <>? sha
            | Err _ => true
            end)
  then Err "must contain a canonical lowercase head_sha or null"
  else if negb (is_canonical_sha256_digest (workspace_fingerprint context))
  then Err "must contain a valid workspace_fingerprint"
  else Ok tt.

Definition validate_canonical_replay_identity (actor_source operation_category : string)
    (verification_basis : option string) (git_workspace_context : option GitWorkspaceContext)
    : result unit ReplayContextValidationFailure :=
  if negb (is_some_and (actor_from_str actor_source)
             (λ parsed, actor_to_canonical_string parsed =? actor_source))
  then Err {| rf_input_field := "actor_source"; rf_logical_column := "actor_source";
              rf_detail := "must be a canonical ActorSource value"; rf_field_kind := ReplayValue |}
  else if negb (is_some_and (OperationCategory_of_str operation_category)
                  (λ parsed, OperationCategory_as_str parsed =? operation_category))
  then Err {| rf_input_field := "operation_category"; rf_logical_column := "operation_category";
              rf_detail := "must be a canonical supported OperationCategory value";
              rf_field_kind := ReplayValue |}
  else if is_some_and verification_basis (λ basis, str_is_empty (trim basis))
  then Err {| rf_input_field := "verification_basis"; rf_logical_column := "verification_basis";
              rf_detail := "must not be empty"; rf_field_kind := ReplayValue |}
  else match git_workspace_context with
       | None => Ok tt
       | Some context =>
           map_err (λ detail,
             {| rf_input_field := "tool_invocations.git_workspace_context_json";
                rf_logical_column := "git_workspace_context_json"; rf_detail := detail;
                rf_field_kind := ReplayJson |})
             (canonical_git_workspace_context context)
       end.

Definition validate_replay_context (context : VerifiedReplayContext) : result unit StoreError :=
  map_err (λ failure, InvalidInput (rf_input_field failure +:+ " " +:+ rf_detail failure))
    (validate_canonical_replay_identity (actor_to_canonical_string (rx_actor_source context))
       (OperationCategory_as_str (rx_operation_category context))
       (rx_verification_basis context) (rx_git_workspace_context context)).

(** ** Replay rows *)

Record ToolInvocationRecord := {
  ti_project_id : string;
  ti_tool_name : MethodName;
  ti_idempotency_key : string;
  ti_request_hash : string;
  ti_basis_state_version : N;
  ti_committed_state_version : N;
  ti_actor_source : ActorSource;
  ti_operation_category : OperationCategory;
  ti_verification_basis : option string;
  ti_git_workspace_context : option GitWorkspaceContext;
  ti_response_json : string;
}.

(** A row of [tool_invocations] as the decoder reads it. *)
Record ToolInvocationRaw := {
  tr_project_id : string;
  tr_tool_name : string;
  tr_idempotency_key : string;
  tr_request_hash : string;
  tr_basis_state_version : N;
  tr_committed_state_version : N;
  tr_actor_source : string;
  tr_operation_category : string;
  tr_verification_basis : option string;
  tr_git_workspace_context : option GitWorkspaceContext;
  tr_response_json : string;
}.

Definition matches_verified_replay_context (record : ToolInvocationRecord)
    (context : VerifiedReplayContext) : bool :=
  (ti_actor_source record =? rx_actor_source context)
  && (ti_operation_category record =? rx_operation_category context)
  && (ti_verification_basis record =? rx_verification_basis context)
  && (ti_git_workspace_context record =? rx_git_workspace_context context).

Section commit.
Context `{HC : Chrono} `{HJ : SerdeJson}.

Definition validate_json_text (field text : string) : result unit StoreError :=
  match json_from_str text with
  | Ok _ => Ok tt
  | Err error => Err (InvalidInput (field +:+ " must be JSON text: " +:+ error))
  end.

Definition decode_tool_invocation (raw : ToolInvocationRaw) : result ToolInvocationRecord StoreError :=
  let record_ref :=
    tr_project_id raw +:+ "/" +:+ tr_tool_name raw +:+ "/" +:+ tr_idempotency_key raw in
  let? _ :=
    map_err (λ failure,
      match rf_field_kind failure with
      | ReplayValue => CorruptOwnerStateValue "tool_invocations" record_ref (rf_logical_column failure)
      | ReplayJson => CorruptOwnerStateJson "tool_invocations" record_ref (rf_logical_column failure)
      end)
      (validate_canonical_replay_identity (tr_actor_source raw) (tr_operation_category raw)
         (tr_verification_basis raw) (tr_git_workspace_context raw)) in
  let? tool_name := ok_or (MethodName_of_str (tr_tool_name raw))
    (CorruptOwnerStateValue "tool_invocations" record_ref "tool_name") in
  let? actor_source := ok_or (actor_from_str (tr_actor_source raw))
    (CorruptOwnerStateValue "tool_invocations" record_ref "actor_source") in
  let? operation_category := ok_or (OperationCategory_of_str (tr_operation_category raw))
    (CorruptOwnerStateValue "tool_invocations" record_ref "operation_category") in
  match json_from_str (tr_response_json raw) with
  | Ok (Object _) =>
      Ok {| ti_project_id := tr_project_id raw; ti_tool_name := tool_name;
            ti_idempotency_key := tr_idempotency_key raw;
            ti_request_hash := tr_request_hash raw;
            ti_basis_state_version := tr_basis_state_version raw;
            ti_committed_state_version := tr_committed_state_version raw;
            ti_actor_source := actor_source; ti_operation_category := operation_category;
            ti_verification_basis := tr_verification_basis raw;
            ti_git_workspace_context := tr_git_workspace_context raw;
            ti_response_json := tr_response_json raw |}
  | _ => Err (CorruptOwnerStateJson "tool_invocations" record_ref "response_json")
  end.

Definition validate_pending_event (event : PendingTaskEvent) : result unit StoreError :=
  let? _ := validate_identifier "event_id" (pe_event_id event) in
  let? _ := match pe_task_id event with
            | Some task_id => validate_identifier "task_id" task_id
            | None => Ok tt
            end in
  if is_none (pe_task_id event)
     && ((pe_event_kind event <>? "project_workflow_policy_applied")
         || is_some (pe_change_unit_id event))
  then Err (InvalidInput
         "only project_workflow_policy_applied may be a project-scoped authority event")
  else if is_some (pe_task_id event) && (pe_event_kind event =? "project_workflow_policy_applied")
  then Err (InvalidInput "project_workflow_policy_applied must be project-scoped")
  else
    let? _ := validate_identifier "event_kind" (pe_event_kind event) in
    validate_json_text "authority_events.payload_json" (pe_event_payload_json event).

(** The [for event in &input.events] loop. *)
Fixpoint validate_pending_events (events : list PendingTaskEvent) : result unit StoreError :=
  match events with
  | [] => Ok tt
  | event :: rest => let? _ := validate_pending_event event in validate_pending_events rest
  end.

(** ** The project database and the store handle *)

Record ProjectDb (D : Type) := {
  db_project_id : string;
  db_state_version : N;
  db_updated_at : UtcTimestamp;
  db_events : list AuthorityEvent;
  db_invocations : gmap (string * string) ToolInvocationRaw;
  db_data : D;
}.

Record CoreProjectStore (D : Type) := {
  cs_project_id : string;
  cs_mutation_context : option string;
  cs_canonical_runtime_home : option string;
  cs_last_clock_sample : option UtcTimestamp;
  cs_db : ProjectDb D;
}.
End commit.

Arguments Build_ProjectDb {D}.
Arguments db_project_id {D}.
Arguments db_state_version {D}.
Arguments db_updated_at {D}.
Arguments db_events {D}.
Arguments db_invocations {D}.
Arguments db_data {D}.
Arguments Build_CoreProjectStore {D}.
Arguments cs_project_id {D}.
Arguments cs_mutation_context {D}.
Arguments cs_canonical_runtime_home {D}.
Arguments cs_last_clock_sample {D}.
Arguments cs_db {D}.

(** The rest of the database: its mutations and what the commit reads of it. *)
Class AggregateStore (D M : Type) := {
  mutation_kind : M → MutationKind;
  apply_mutation : M → UtcTimestamp → CommittedMutationFacts → D → result D StoreError;
  task_row_exists : D → string → bool;
  change_unit_row_exists : D → string → string → bool;
  task_transition_row : D → string → option (string * string * bool);
  pending_user_action_exists : D → string → bool;
  deferred_constraints_hold : D → bool;
  change_unit_ids_nonempty : ∀ d task_id, change_unit_row_exists d task_id "" = false;
}.

Section store.
Context `{HC : Chrono} `{HJ : SerdeJson} {D M : Type} `{HA : !AggregateStore D M}.
Context (sha256 : string → list ascii).

Implicit Types (s : CoreProjectStore D) (db : ProjectDb D) (input : CommitMutationInput).

(** [Iterator::max] over the two optional floors. *)
Definition option_max (a b : option UtcTimestamp) : option UtcTimestamp :=
  match a, b with
  | Some x, Some y => Some (Z.max x y)
  | Some x, None => Some x
  | None, b => b
  end.

Definition u64_max : N := 18446744073709551615%N.

(** [require_mutation_context]. *)
Definition require_mutation_context s : result unit StoreError :=
  match cs_mutation_context s with
  | None => Err (InvalidInput "Core project mutation requires a live Runtime Home mutation context")
  | Some runtime_home =>
      if cs_canonical_runtime_home s <>? Some runtime_home
      then Err (InvalidInput
             "Core project mutation Store does not retain the admitted Runtime Home identity")
      else Ok tt
  end.

(** [read_project_state_tx]: the header of the opened project. *)
Definition read_project_state db (project_id : string) : result (N * UtcTimestamp) StoreError :=
  if db_project_id db <>? project_id then Err (NotFound "project_state" project_id)
  else if negb (representable (db_updated_at db))
  then Err (CorruptOwnerStateValue "project_state" project_id "updated_at")
  else Ok (db_state_version db, db_updated_at db).

(** [tool_invocation_tx] and [tool_invocation]. *)
Definition tool_invocation db (tool_name idempotency_key : string)
    : result (option ToolInvocationRecord) StoreError :=
  try_option decode_tool_invocation (db_invocations db !! (tool_name, idempotency_key)).

(** [SELECT COALESCE(MAX(event_seq), 0)], plus one. *)
Definition next_event_seq (events : list AuthorityEvent) : result Z StoreError :=
  let last_seq := fold_left (λ m e, Z.max m (ev_event_seq e)) events 0%Z in
  if (9223372036854775807 <=? last_seq)%Z
  then Err (SchemaInvariant "authority_events.event_seq overflow")
  else Ok (last_seq + 1)%Z.

(** [ORDER BY event_seq DESC LIMIT 1]. *)
Definition newest_event (events : list AuthorityEvent) : option AuthorityEvent :=
  fold_left (λ best e,
    match best with
    | Some b => if (ev_event_seq b <? ev_event_seq e)%Z then Some e else Some b
    | None => Some e
    end) events None.

Definition previous_event_hash (events : list AuthorityEvent) : option string :=
  ev_event_hash <$> newest_event events.

(** The immediate constraints of an insertion into [authority_events]. *)
Definition insert_authority_event (d : D) (e : AuthorityEvent) (events : list AuthorityEvent)
    : result (list AuthorityEvent) StoreError :=
  if existsb (λ other, ev_event_seq other =? ev_event_seq e) events
  then Err (ConstraintViolation "authority_events.event_seq")
  else if existsb (λ other, ev_event_id other =? ev_event_id e) events
  then Err (ConstraintViolation "authority_events.event_id")
  else if existsb (λ other, ev_event_hash other =? ev_event_hash e) events
  then Err (ConstraintViolation "authority_events.event_hash")
  else if negb (is_none_or (ev_task_id e) (task_row_exists d))
  then Err (ConstraintViolation "authority_events.task_id")
  else if negb (match ev_task_id e, ev_change_unit_id e with
                | Some task_id, Some change_unit_id =>
                    change_unit_row_exists d task_id change_unit_id
                | _, _ => true
                end)
  then Err (ConstraintViolation "authority_events.change_unit_id")
  else Ok (events ++ [e]).

Record EventContext := {
  ec_project_id : string;
  ec_state_version : N;
  ec_actor_source : string;
  ec_operation_category : string;
  ec_request_hash : string;
  ec_created_at : string;
}.

(** The row built for one pending event. *)
Definition authority_event (ctx : EventContext) (event_seq : Z) (previous : option string)
    (event : PendingTaskEvent) : AuthorityEvent :=
  let event_hash := authority_event_hash sha256
    {| hi_project_id := ec_project_id ctx; hi_event_seq := event_seq;
       hi_event_id := pe_event_id event; hi_state_version := Z.of_N (ec_state_version ctx);
       hi_event_type := pe_event_kind event; hi_actor_source := ec_actor_source ctx;
       hi_operation_category := ec_operation_category ctx; hi_task_id := pe_task_id event;
       hi_change_unit_id := pe_change_unit_id event;
       hi_payload_json := pe_event_payload_json event; hi_request_hash := ec_request_hash ctx;
       hi_previous_event_hash := previous; hi_created_at := ec_created_at ctx |} in
  {| ev_project_id := ec_project_id ctx; ev_event_seq := event_seq;
     ev_event_id := pe_event_id event; ev_state_version := Z.of_N (ec_state_version ctx);
     ev_event_type := pe_event_kind event; ev_actor_source := ec_actor_source ctx;
     ev_operation_category := ec_operation_category ctx; ev_task_id := pe_task_id event;
     ev_change_unit_id := pe_change_unit_id event;
     ev_payload_json := pe_event_payload_json event; ev_request_hash := ec_request_hash ctx;
     ev_previous_event_hash := previous; ev_event_hash := event_hash;
     ev_created_at := ec_created_at ctx |}.

(** The loop over the pending events; [event_seq] is an [i64]. *)
Fixpoint append_events (d : D) (ctx : EventContext) (event_seq : Z) (previous : option string)
    (pending : list PendingTaskEvent) (events : list AuthorityEvent)
    : result (list AuthorityEvent) StoreError :=
  match pending with
  | [] => Ok events
  | event :: rest =>
      if (9223372036854775807 <? event_seq)%Z
      then Err (StorePanic "attempt to add with overflow")
      else
        let row := authority_event ctx event_seq previous event in
        let? events := insert_authority_event d row events in
        append_events d ctx (event_seq + 1)%Z (Some (ev_event_hash row)) rest events
  end.

(** ** Transition expectations *)

Definition validate_transition_expectation input (mutations : list M) : result unit StoreError :=
  match ci_transition_expectation input with
  | None => Ok tt
  | Some expectation =>
      if (te_project_id expectation <>? ci_project_id input)
         || (MethodName_as_str (ak_method (te_action_key expectation)) <>? ci_tool_name input)
         || (ci_expected_state_version input <>? Some (te_basis_state_version expectation))
         || negb (forallb (λ event, pe_task_id event =? Some (te_task_id expectation))
                    (ci_events input))
      then Err (InvalidInput "transition expectation contradicts commit authority coordinates")
      else if negb (transition_effect_matches_mutations (te_action_key expectation)
                      (te_effect_class expectation) (mutation_kind <$> mutations))
      then Err (InvalidInput
             "Store aggregate mutations contradict the admitted transition effect")
      else Ok tt
  end.

Definition validate_transition_result_state (d : D) (expectation : TransitionCommitExpectation)
    : result unit StoreError :=
  match task_transition_row d (te_task_id expectation) with
  | None => Err SqliteNoRows
  | Some (work_phase, lifecycle_phase, close_basis_present) =>
      let terminal := contains lifecycle_phase ["completed"; "cancelled"; "superseded"] in
      let compatible :=
        match te_expected_result_state expectation with
        | ReevaluateCurrentAuthority => negb terminal
        | AwaitingUserAction =>
            negb terminal && pending_user_action_exists d (te_task_id expectation)
        | ResultImplementation => negb terminal && (work_phase =? "implementation")
        | CloseReview => negb terminal && close_basis_present
        | Terminal => terminal
        end in
      if negb compatible
      then Err (SchemaInvariant
             "post-mutation Task state contradicts admitted transition result family")
      else Ok tt
  end.

(** ** The commit *)

(** The checks before the transaction; they yield the replay context and the
    local clock floor. *)
Definition commit_preflight s input
    : result (VerifiedReplayContext * option UtcTimestamp) StoreError :=
  let? _ := require_mutation_context s in
  if ci_project_id input <>? cs_project_id s
  then Err (InvalidInput "commit project_id must match the opened project")
  else if list_is_empty (ci_events input)
  then Err (InvalidInput "committed Core mutations must append at least one authority event")
  else
    let? _ := validate_identifier "tool_name" (ci_tool_name input) in
    let? _ := validate_identifier "request_hash" (ci_request_hash input) in
    let? replay_context := ok_or (ci_replay_context input)
      (InvalidInput "committed mutations require verified invocation context") in
    let? _ := validate_replay_context replay_context in
    let? _ := validate_pending_events (ci_events input) in
    if is_some_and (ci_clock_floor input) (λ t, negb (representable t))
    then Err (InvalidInput
           "commit clock_floor must have a canonical four-digit RFC 3339 representation")
    else if is_some_and (cs_last_clock_sample s) (λ t, negb (representable t))
    then Err (SchemaInvariant
           "Core Store handle clock sample is outside the canonical RFC 3339 range")
    else Ok (replay_context, option_max (cs_last_clock_sample s) (ci_clock_floor input)).

(** The outcome an existing replay row decides. *)
Definition replay_outcome (current_state_version : N) (idempotency_key : string)
    (record : ToolInvocationRecord) (replay_context : VerifiedReplayContext) input
    : MutationCommitOutcome :=
  if negb (matches_verified_replay_context record replay_context)
  then ReplayContextMismatch current_state_version idempotency_key
  else if ti_request_hash record =? ci_request_hash input
  then Replayed (ti_response_json record) (ti_basis_state_version record)
         (ti_committed_state_version record)
  else IdempotencyConflict current_state_version idempotency_key (ti_request_hash record)
         (ci_request_hash input).

(** The replay lookup inside the transaction. *)
Definition replay_lookup db input : result (option (string * ToolInvocationRecord)) StoreError :=
  match ci_idempotency_key input with
  | None => Ok None
  | Some idempotency_key =>
      let? _ := validate_identifier "idempotency_key" idempotency_key in
      let? record := tool_invocation db (ci_tool_name input) idempotency_key in
      Ok ((λ record, (idempotency_key, record)) <$> record)
  end.

Definition commit_time (project_id : string) (sqlite_now updated_at : UtcTimestamp)
    (local_clock_floor : option UtcTimestamp) (include_live_storage_time : bool)
    : result UtcTimestamp StoreError :=
  if include_live_storage_time
  then project_current_utc_timestamp project_id sqlite_now updated_at local_clock_floor
  else match local_clock_floor with
       | Some local_clock_floor => Ok (Z.max updated_at local_clock_floor)
       | None => Err (InvalidInput
           "commits without live storage time require an explicit clock floor")
       end.

Definition tool_invocation_row (project_id : string) input (replay_context : VerifiedReplayContext)
    (idempotency_key response_json : string) (basis committed : N) : ToolInvocationRaw :=
  {| tr_project_id := project_id; tr_tool_name := ci_tool_name input;
     tr_idempotency_key := idempotency_key; tr_request_hash := ci_request_hash input;
     tr_basis_state_version := basis; tr_committed_state_version := committed;
     tr_actor_source := actor_to_canonical_string (rx_actor_source replay_context);
     tr_operation_category := OperationCategory_as_str (rx_operation_category replay_context);
     tr_verification_basis := rx_verification_basis replay_context;
     tr_git_workspace_context := rx_git_workspace_context replay_context;
     tr_response_json := response_json |}.

(** The effects of a fresh request: the version step, the aggregate mutations,
    the events, the response and the replay row. *)
Definition commit_effects s input (replay_context : VerifiedReplayContext)
    (committed_at : UtcTimestamp)
    (apply : UtcTimestamp → CommittedMutationFacts → D → result D StoreError)
    (build_response_json : CommittedMutationFacts → result string StoreError)
    : result (MutationCommitOutcome * CoreProjectStore D) StoreError :=
  let db := cs_db s in
  let current := db_state_version db in
  let committed := (current + 1)%N in
  let committed_events :=
    (λ event, {| cer_event_id := pe_event_id event; cer_event_kind := pe_event_kind event |})
      <$> ci_events input in
  let facts := {| cf_basis_state_version := current; cf_committed_state_version := committed;
                  cf_events := committed_events |} in
  let? data := apply committed_at facts (db_data db) in
  let? _ := match ci_transition_expectation input with
            | Some expectation => validate_transition_result_state data expectation
            | None => Ok tt
            end in
  let? first_event_seq := next_event_seq (db_events db) in
  let? events := append_events data
    {| ec_project_id := cs_project_id s; ec_state_version := committed;
       ec_actor_source := actor_to_canonical_string (rx_actor_source replay_context);
       ec_operation_category := OperationCategory_as_str (rx_operation_category replay_context);
       ec_request_hash := ci_request_hash input; ec_created_at := to_rfc3339 committed_at |}
    first_event_seq (previous_event_hash (db_events db)) (ci_events input) (db_events db) in
  let? response_json := build_response_json facts in
  let? _ := validate_json_text "tool_invocations.response_json" response_json in
  let invocations :=
    match ci_idempotency_key input with
    | Some idempotency_key =>
        <[(ci_tool_name input, idempotency_key) :=
            tool_invocation_row (cs_project_id s) input replay_context idempotency_key
              response_json current committed]> (db_invocations db)
    | None => db_invocations db
    end in
  if negb (deferred_constraints_hold data)
  then Err (ConstraintViolation "deferred foreign keys")
  else Ok (Committed response_json current committed committed_events,
           {| cs_project_id := cs_project_id s; cs_mutation_context := cs_mutation_context s;
              cs_canonical_runtime_home := cs_canonical_runtime_home s;
              cs_last_clock_sample := Some committed_at;
              cs_db := {| db_project_id := db_project_id db; db_state_version := committed;
                          db_updated_at := committed_at; db_events := events;
                          db_invocations := invocations; db_data := data |} |}).

(** [commit_with]; [sqlite_now] is the live time SQLite would report. *)
Definition commit_with s (sqlite_now : UtcTimestamp) input
    (apply : UtcTimestamp → CommittedMutationFacts → D → result D StoreError)
    (build_response_json : CommittedMutationFacts → result string StoreError)
    : result (MutationCommitOutcome * CoreProjectStore D) StoreError :=
  let? '(replay_context, local_clock_floor) := commit_preflight s input in
  let? '(current, updated_at) := read_project_state (cs_db s) (cs_project_id s) in
  let? found := replay_lookup (cs_db s) input in
  match found with
  | Some (idempotency_key, record) =>
      Ok (replay_outcome current idempotency_key record replay_context input, s)
  | None =>
      match option_filter (λ expected, expected <>? current) (ci_expected_state_version input) with
      | Some expected => Ok (StaleExpectedState current expected, s)
      | None =>
          if (u64_max <=? current)%N
          then Err (SchemaInvariant "project_state.state_version overflow")
          else if negb (fits_i64 current)
          then Err (InvalidInput "basis_state_version does not fit in SQLite integer")
          else if negb (fits_i64 (current + 1))
          then Err (InvalidInput "committed_state_version does not fit in SQLite integer")
          else
            let? committed_at := commit_time (cs_project_id s) sqlite_now updated_at
              local_clock_floor (ci_include_live_storage_time input) in
            commit_effects s input replay_context committed_at apply build_response_json
      end
  end.

(** The [for mutation in mutations] loop. *)
Fixpoint apply_mutations (mutations : list M) (committed_at : UtcTimestamp)
    (facts : CommittedMutationFacts) (d : D) : result D StoreError :=
  match mutations with
  | [] => Ok d
  | mutation :: rest =>
      let? d := apply_mutation mutation committed_at facts d in
      apply_mutations rest committed_at facts d
  end.

(** [commit_mutation]. *)
Definition commit_mutation s (sqlite_now : UtcTimestamp) input (mutations : list M)
    (build_response_json : CommittedMutationFacts → result string StoreError)
    : result (MutationCommitOutcome * CoreProjectStore D) StoreError :=
  let? _ := validate_transition_expectation input mutations in
  commit_with s sqlite_now input (apply_mutations mutations) build_response_json.
End store.
