(* ===== verification/CommitSound.v ===== *)
(** * CommitSound: atomicity, replay and the event log

    The theorems about [Commit.v]: what a successful commit changes and that
    every other outcome changes nothing; the invariant of every reachable
    project database (a gapless, hash-chained event log whose versions are
    exactly the committed ones, and replay rows that name one version each);
    exactly-once execution of an idempotent request; and that a stale expected
    version never commits.  The store steps between two requests are commits by
    any client with any mutation, clock samples, floor advances, and writes of
    other components to the aggregates. *)

From Stdlib Require Import Ascii.
From S2P Require Import Prelude Text Values Canonical EventHash Schema Clock TicketStore Commit.

Section spec.
Context `{HC : Chrono} `{HJ : SerdeJson} {D M : Type} `{HA : !AggregateStore D M}.
Context (sha256 : string → list ascii).

Implicit Types (s : CoreProjectStore D) (input : CommitMutationInput).

(** ** Specifications *)

(** The rows a commit appends. *)
Fixpoint event_rows (ctx : EventContext) (seq : Z) (previous : option string)
    (pending : list PendingTaskEvent) : list AuthorityEvent :=
  match pending with
  | [] => []
  | event :: rest =>
      let row := authority_event sha256 ctx seq previous event in
      row :: event_rows ctx (seq + 1) (Some (ev_event_hash row)) rest
  end.

Definition event_context s input (replay_context : VerifiedReplayContext) (at_ : UtcTimestamp)
    : EventContext :=
  {| ec_project_id := cs_project_id s; ec_state_version := db_state_version (cs_db s) + 1;
     ec_actor_source := actor_to_canonical_string (rx_actor_source replay_context);
     ec_operation_category := OperationCategory_as_str (rx_operation_category replay_context);
     ec_request_hash := ci_request_hash input; ec_created_at := to_rfc3339 at_ |}.

(** The event log after a commit of [input] at [at_]. *)
Definition rows_after s input (replay_context : VerifiedReplayContext) (at_ : UtcTimestamp)
    : list AuthorityEvent :=
  let events := db_events (cs_db s) in
  events ++ event_rows (event_context s input replay_context at_)
              (Z.of_nat (length events) + 1) (chain_head None events) (ci_events input).

(** The whole effect of a commit at [at_] that answered [response]. *)
Record committed_effect s input (replay_context : VerifiedReplayContext) (at_ : UtcTimestamp)
    (response : string) (data : D) s' : Prop := {
  ce_project : cs_project_id s' = cs_project_id s;
  ce_context : cs_mutation_context s' = cs_mutation_context s;
  ce_home : cs_canonical_runtime_home s' = cs_canonical_runtime_home s;
  ce_db_project : db_project_id (cs_db s') = db_project_id (cs_db s);
  ce_version : db_state_version (cs_db s') = (db_state_version (cs_db s) + 1)%N;
  ce_updated : db_updated_at (cs_db s') = at_;
  ce_sample : cs_last_clock_sample s' = Some at_;
  ce_data : db_data (cs_db s') = data;
  ce_events : ∃ seq, next_event_seq (db_events (cs_db s)) = Ok seq ∧
    db_events (cs_db s') = db_events (cs_db s) ++
      event_rows (event_context s input replay_context at_) seq
        (previous_event_hash (db_events (cs_db s))) (ci_events input);
  ce_invocations : db_invocations (cs_db s') =
    match ci_idempotency_key input with
    | Some key =>
        <[(ci_tool_name input, key) :=
            tool_invocation_row (cs_project_id s) input replay_context key response
              (db_state_version (cs_db s)) (db_state_version (cs_db s) + 1)]>
          (db_invocations (cs_db s))
    | None => db_invocations (cs_db s)
    end;
}.

(** ** Lemmas: the appended rows *)

Lemma insert_event_Ok (d : D) e events events' :
  insert_authority_event d e events = Ok events' →
  events' = events ++ [e] ∧ ev_event_id e ∉ ev_event_id <$> events ∧
  (∀ task_id cu, ev_task_id e = Some task_id → ev_change_unit_id e = Some cu →
     change_unit_row_exists d task_id cu = true).
Proof.
  unfold insert_authority_event.
  destruct (existsb (λ o, ev_event_seq o =? _) _); [done|].
  destruct (existsb (λ o, ev_event_id o =? _) _) eqn:Hid; [done|].
  destruct (existsb (λ o, ev_event_hash o =? _) _); [done|].
  destruct (is_none_or _ _); [|done]. cbn [negb].
  match goal with |- context [negb ?b] => destruct b eqn:Hfk end; [|done].
  intros [= <-]. split_and!; [done|..].
  - rewrite existsb_false in Hid. intros (o & Ho & Hin)%list_elem_of_fmap.
    apply Hid in Hin. rewrite eqb_false in Hin. congruence.
  - intros task_id cu Ht Hcu. by rewrite Ht, Hcu in Hfk.
Qed.

Lemma append_events_Ok d ctx pending : ∀ seq previous events events',
  append_events sha256 d ctx seq previous pending events = Ok events' →
  events' = events ++ event_rows ctx seq previous pending ∧
  (NoDup (ev_event_id <$> events) → NoDup (ev_event_id <$> events')) ∧
  (∀ e, e ∈ pending → ∀ task_id cu, pe_task_id e = Some task_id → pe_change_unit_id e = Some cu →
     change_unit_row_exists d task_id cu = true).
Proof.
  induction pending as [|p pending IH]; intros seq previous events events' H; cbn [append_events] in H.
  - simplify_eq. rewrite app_nil_r. split_and!; [done..|]. by intros e He%elem_of_nil.
  - destruct (_ <? _)%Z; [done|]. destruct (insert_authority_event _ _ _) as [ev1|] eqn:Ei; [|done].
    apply insert_event_Ok in Ei as (-> & Hid & Hfk).
    apply IH in H as (-> & Hnd & Hall). cbn [event_rows]. split_and!; [by rewrite <-app_assoc|..].
    + intros Hold. apply Hnd. rewrite fmap_app, NoDup_app. split_and!; [done| |apply NoDup_singleton].
      intros x Hx ->%list_elem_of_singleton. done.
    + intros e [->|He]%elem_of_cons task_id cu; [apply Hfk|by apply Hall].
Qed.

Lemma event_rows_nonempty ctx seq previous pending :
  pending ≠ [] → event_rows ctx seq previous pending ≠ [].
Proof. by destruct pending. Qed.

Lemma event_rows_seq ctx pending : ∀ seq previous,
  ev_event_seq <$> event_rows ctx seq previous pending = seqZ seq (Z.of_nat (length pending)).
Proof.
  induction pending as [|p pending IH]; intros seq previous; [done|]. cbn [event_rows fmap list_fmap].
  rewrite IH. rewrite (seqZ_cons seq) by (cbn; lia). cbn [ev_event_seq authority_event].
  f_equal. f_equal; cbn; lia.
Qed.

Lemma event_rows_chained ctx pending : ∀ seq previous,
  chained sha256 previous (event_rows ctx seq previous pending).
Proof. induction pending as [|p pending IH]; intros seq previous; [done|]. split_and!; [done..|apply IH]. Qed.

(** What the rows share and what they take from the pending events. *)
Lemma elem_of_event_rows ctx pending : ∀ seq previous e,
  e ∈ event_rows ctx seq previous pending →
  ev_state_version e = Z.of_N (ec_state_version ctx) ∧
  ∃ p, p ∈ pending ∧ ev_task_id e = pe_task_id p ∧ ev_change_unit_id e = pe_change_unit_id p.
Proof.
  induction pending as [|p pending IH]; intros seq previous e; cbn [event_rows].
  - by intros He%elem_of_nil.
  - intros [->|He]%elem_of_cons.
    + split; [done|]. exists p. split; [apply elem_of_cons; auto|done].
    + apply IH in He as (Hv & p' & Hp & ? & ?). split; [done|].
      exists p'. rewrite elem_of_cons. auto.
Qed.

(** ** Lemmas: the commit *)

Lemma option_max_ge a b m :
  option_max a b = Some m →
  (∀ x, a = Some x → (x ≤ m)%Z) ∧ (∀ y, b = Some y → (y ≤ m)%Z) ∧ (a = Some m ∨ b = Some m).
Proof.
  destruct a as [x|], b as [y|]; cbn; intros H; simplify_eq; split_and!; intros; simplify_eq;
    try lia; auto. destruct (Z.max_spec x y) as [[_ ->]|[_ ->]]; auto.
Qed.

Lemma commit_time_Ok project_id now updated floor live at_ :
  commit_time project_id now updated floor live = Ok at_ → representable updated = true →
  (∀ t, floor = Some t → representable t = true) →
  (updated ≤ at_)%Z ∧ (∀ t, floor = Some t → (t ≤ at_)%Z) ∧ representable at_ = true.
Proof.
  unfold commit_time, project_current_utc_timestamp. intros H Hu Hf. destruct live.
  - destruct (representable now) eqn:Hn; [|done]. rewrite Hu in H. cbn [negb] in H.
    destruct (is_some_and _ _) eqn:Hl; [done|]. simplify_eq.
    assert (∀ a b, representable a = true → representable b = true →
      representable (Z.max a b) = true) as Hmax.
    { intros a b Ha Hb. by destruct (Z.max_spec a b) as [[_ ->]|[_ ->]]. }
    split_and!; [lia|intros t ->; cbn; lia|].
    apply Hmax; [by apply Hmax|]. destruct floor as [t|]; cbn; [by apply Hf|done].
  - destruct floor as [l|]; [|done]. simplify_eq.
    split_and!; [lia|intros t [= ->]; lia|]. destruct (Z.max_spec updated l) as [[_ ->]|[_ ->]]; auto.
Qed.

Lemma commit_effects_Ok s input rc at_ apply build o s' :
  commit_effects sha256 s input rc at_ apply build = Ok (o, s') →
  ∃ response data facts,
    o = Committed response (db_state_version (cs_db s)) (db_state_version (cs_db s) + 1)
          (cf_events facts) ∧
    apply at_ facts (db_data (cs_db s)) = Ok data ∧ build facts = Ok response ∧
    (∃ v, json_from_str response = Ok v) ∧
    committed_effect s input rc at_ response data s' ∧
    (NoDup (ev_event_id <$> db_events (cs_db s)) → NoDup (ev_event_id <$> db_events (cs_db s'))) ∧
    (∀ e, e ∈ ci_events input → ∀ task_id cu,
       pe_task_id e = Some task_id → pe_change_unit_id e = Some cu →
       change_unit_row_exists data task_id cu = true).
Proof.
  unfold commit_effects. set (facts := Build_CommittedMutationFacts _ _ _).
  destruct (apply at_ facts _) as [data|] eqn:Ha; [|done].
  match goal with |- context [match ?c with Ok _ => _ | Err e => Err e end] =>
    lazymatch c with match ci_transition_expectation input with _ => _ end =>
      destruct c as [[]|]; [|done] end end.
  destruct (next_event_seq _) as [seq|] eqn:Hs; [|done].
  destruct (append_events _ _ _ _ _ _ _) as [events|] eqn:He; [|done].
  destruct (build facts) as [response|] eqn:Hb; [|done].
  unfold validate_json_text. destruct (json_from_str response) as [v|] eqn:Hj; [|done].
  destruct (deferred_constraints_hold data); [|done]. intros [= <- <-].
  apply append_events_Ok in He as (-> & Hnd & Hfk).
  exists response, data, facts. split_and!; try done; [by exists v|]. by split; try eexists.
Qed.

(** The deferred constraints hold of whatever a commit stores. *)
Lemma commit_effects_deferred s input rc at_ apply build o s' :
  commit_effects sha256 s input rc at_ apply build = Ok (o, s') →
  deferred_constraints_hold (db_data (cs_db s')) = true.
Proof.
  unfold commit_effects. intros H. peel H as data Ha. peel H as u Hu. peel H as seq Hs.
  peel H as events He. peel H as response Hb. peel H as u' Hj.
  destruct (deferred_constraints_hold data) eqn:Hd; [|done]. by injection H as <- <-.
Qed.

(** What the checks before the transaction establish. *)
Record preflight_facts s input (rc : VerifiedReplayContext) (floor : option UtcTimestamp) : Prop := {
  pf_project : ci_project_id input = cs_project_id s;
  pf_events : ci_events input ≠ [];
  pf_context : ci_replay_context input = Some rc;
  pf_identity : validate_replay_context rc = Ok tt;
  pf_pending : validate_pending_events (ci_events input) = Ok tt;
  pf_floor : floor = option_max (cs_last_clock_sample s) (ci_clock_floor input);
  pf_floor_ok : ∀ t, floor = Some t → representable t = true;
}.

Lemma commit_preflight_Ok s input rc floor :
  commit_preflight s input = Ok (rc, floor) → preflight_facts s input rc floor.
Proof.
  unfold commit_preflight. intros H. destruct (require_mutation_context s); [|done].
  destruct (_ <>? _) eqn:Hp; [done|]. rewrite neqb_false in Hp.
  destruct (list_is_empty _) eqn:He; [done|]. apply list_is_empty_false in He.
  destruct (validate_identifier _ _); [|done]. destruct (validate_identifier _ _); [|done].
  destruct (ci_replay_context input) as [rc'|] eqn:Hrc; [|done]. cbn in H.
  destruct (validate_replay_context rc') as [[]|] eqn:Hv; [|done].
  destruct (validate_pending_events _) as [[]|] eqn:Hev; [|done].
  destruct (is_some_and (ci_clock_floor _) _) eqn:Hf1; [done|].
  destruct (is_some_and (cs_last_clock_sample _) _) eqn:Hf2; [done|]. simplify_eq.
  rewrite is_some_and_false in Hf1, Hf2. split; try done.
  intros t (_ & _ & [Ht|Ht])%option_max_ge; [apply Hf2 in Ht|apply Hf1 in Ht]; by apply negb_false_iff in Ht.
Qed.

Lemma read_project_state_Ok (db : ProjectDb D) project_id v t :
  read_project_state db project_id = Ok (v, t) →
  db_project_id db = project_id ∧ v = db_state_version db ∧ t = db_updated_at db ∧
  representable t = true.
Proof.
  unfold read_project_state. destruct (_ <>? _) eqn:Hp; [done|]. rewrite neqb_false in Hp.
  destruct (representable _) eqn:Hr; [|done]. intros [= <- <-]. auto.
Qed.

(** A request that executes: no replay row, no stale expectation. *)
Record fresh_request s input : Prop := {
  fr_key : ∀ key, ci_idempotency_key input = Some key →
    db_invocations (cs_db s) !! (ci_tool_name input, key) = None;
  fr_key_valid : ∀ key, ci_idempotency_key input = Some key → trim key ≠ "";
  fr_expected : ∀ v, ci_expected_state_version input = Some v → v = db_state_version (cs_db s);
  fr_version : fits_i64 (db_state_version (cs_db s) + 1) = true;
}.

Lemma replay_lookup_None (db : ProjectDb D) input :
  replay_lookup db input = Ok None →
  ∀ key, ci_idempotency_key input = Some key →
    db_invocations db !! (ci_tool_name input, key) = None ∧ trim key ≠ "".
Proof.
  unfold replay_lookup, tool_invocation. intros H key Hk. rewrite Hk in H.
  destruct (validate_identifier _ _) as [[]|] eqn:Hid; [|done].
  apply validate_identifier_Ok in Hid.
  destruct (db_invocations db !! _) as [raw|]; [|done]. cbn in H.
  by destruct (decode_tool_invocation raw).
Qed.

Lemma commit_with_Ok s now input apply build o s' :
  commit_with sha256 s now input apply build = Ok (o, s') →
  ∃ rc floor, preflight_facts s input rc floor ∧ db_project_id (cs_db s) = cs_project_id s ∧
    representable (db_updated_at (cs_db s)) = true ∧
    ((∃ key record, replay_lookup (cs_db s) input = Ok (Some (key, record)) ∧
        o = replay_outcome (db_state_version (cs_db s)) key record rc input ∧ s' = s) ∨
     (∃ expected, ci_expected_state_version input = Some expected ∧
        o = StaleExpectedState (db_state_version (cs_db s)) expected ∧ s' = s) ∨
     (fresh_request s input ∧ ∃ at_,
        commit_time (cs_project_id s) now (db_updated_at (cs_db s)) floor
          (ci_include_live_storage_time input) = Ok at_ ∧
        commit_effects sha256 s input rc at_ apply build = Ok (o, s'))).
Proof.
  unfold commit_with. intros H.
  destruct (commit_preflight s input) as [[rc floor]|] eqn:Hp; [|done].
  apply commit_preflight_Ok in Hp.
  destruct (read_project_state _ _) as [[v t]|] eqn:Hr; [|done].
  apply read_project_state_Ok in Hr as (Hproj & -> & -> & Hrep).
  exists rc, floor. split_and!; [done..|].
  destruct (replay_lookup _ _) as [[[key record]|]|] eqn:Hl; [| |done].
  { left. exists key, record. by simplify_eq. }
  right. destruct (option_filter _ _) as [expected|] eqn:Hx.
  { left. exists expected. unfold option_filter, bool_then in Hx. unravel Hx. by simplify_eq. }
  right. destruct (_ <=? _)%N; [done|]. destruct (fits_i64 (db_state_version _)); [|done].
  destruct (fits_i64 (_ + 1)) eqn:Hfit; [|done]. cbn [negb] in H.
  destruct (commit_time _ _ _ _ _) as [at_|] eqn:Ht; [|done]. split; [|eauto].
  pose proof (replay_lookup_None _ _ Hl) as Hkey. split; [by apply Hkey|by apply Hkey| |done].
  intros v Hv. rewrite Hv in Hx. unfold option_filter, bool_then in Hx.
  destruct (_ <>? _) eqn:Hn; [done|]. by rewrite neqb_false in Hn.
Qed.

Lemma commit_committed s now input apply build response basis committed events s' :
  commit_with sha256 s now input apply build = Ok (Committed response basis committed events, s') →
  ∃ rc floor at_ data facts, preflight_facts s input rc floor ∧ fresh_request s input ∧
    db_project_id (cs_db s) = cs_project_id s ∧
    representable (db_updated_at (cs_db s)) = true ∧
    commit_time (cs_project_id s) now (db_updated_at (cs_db s)) floor
      (ci_include_live_storage_time input) = Ok at_ ∧
    commit_effects sha256 s input rc at_ apply build =
      Ok (Committed response basis committed events, s') ∧
    basis = db_state_version (cs_db s) ∧ committed = (db_state_version (cs_db s) + 1)%N ∧
    apply at_ facts (db_data (cs_db s)) = Ok data ∧ build facts = Ok response ∧
    committed_effect s input rc at_ response data s'.
Proof.
  intros (rc & floor & Hpf & Hproj & Hrep & [H|[H|(Hf & at_ & Ht & He)]])%commit_with_Ok.
  - destruct H as (key & record & _ & Ho & _). unfold replay_outcome in Ho.
    by repeat case_match.
  - by destruct H as (expected & _ & Ho & _).
  - pose proof He as (resp & data & facts & Ho & Ha & Hb & _ & Hce & _)%commit_effects_Ok.
    simplify_eq. exists rc, floor, at_, data, facts. by split_and!.
Qed.

Lemma commit_other s now input apply build o s' :
  commit_with sha256 s now input apply build = Ok (o, s') →
  (∀ response basis committed events, o ≠ Committed response basis committed events) → s' = s.
Proof.
  intros (rc & floor & _ & _ & _ & [(?&?&?&?&?)|[(?&?&?&?)|(_ & at_ & _ & He)]])%commit_with_Ok Ho; [done..|].
  apply commit_effects_Ok in He as (?&?&?&->&_). by destruct (Ho _ _ _ _ eq_refl).
Qed.
(** ** The reachable stores *)

Definition clock_of s : ClockState :=
  {| updated_at := db_updated_at (cs_db s); last_clock_sample := cs_last_clock_sample s |}.

Definition with_clock s (c : ClockState) : CoreProjectStore D :=
  {| cs_project_id := cs_project_id s; cs_mutation_context := cs_mutation_context s;
     cs_canonical_runtime_home := cs_canonical_runtime_home s;
     cs_last_clock_sample := last_clock_sample c;
     cs_db := {| db_project_id := db_project_id (cs_db s);
                 db_state_version := db_state_version (cs_db s);
                 db_updated_at := updated_at c; db_events := db_events (cs_db s);
                 db_invocations := db_invocations (cs_db s); db_data := db_data (cs_db s) |} |}.

Definition with_data s (d : D) : CoreProjectStore D :=
  {| cs_project_id := cs_project_id s; cs_mutation_context := cs_mutation_context s;
     cs_canonical_runtime_home := cs_canonical_runtime_home s;
     cs_last_clock_sample := cs_last_clock_sample s;
     cs_db := {| db_project_id := db_project_id (cs_db s);
                 db_state_version := db_state_version (cs_db s);
                 db_updated_at := db_updated_at (cs_db s); db_events := db_events (cs_db s);
                 db_invocations := db_invocations (cs_db s); db_data := d |} |}.

Inductive store_step : CoreProjectStore D → CoreProjectStore D → Prop :=
| step_commit s now input apply build o s' :
    commit_with sha256 s now input apply build = Ok (o, s') → store_step s s'
| step_sample s now t c :
    current_timestamp (cs_project_id s) now (clock_of s) = Ok (t, c) → store_step s (with_clock s c)
| step_remember s sample :
    representable sample = true →
    store_step s (with_clock s (remember_clock_sample sample (clock_of s)))
| step_floor s sample t c :
    advance_project_utc_floor (cs_project_id s) sample (clock_of s) = Ok (t, c) →
    store_step s (with_clock s c)
| step_data s d : store_step s (with_data s d).

(** A project database as it is created. *)
Definition fresh_store (project_id runtime_home : string) (created_at : UtcTimestamp) (d : D)
    : CoreProjectStore D :=
  {| cs_project_id := project_id; cs_mutation_context := Some runtime_home;
     cs_canonical_runtime_home := Some runtime_home; cs_last_clock_sample := None;
     cs_db := {| db_project_id := project_id; db_state_version := 0; db_updated_at := created_at;
                 db_events := []; db_invocations := ∅; db_data := d |} |}.

Definition reachable s : Prop :=
  ∃ project_id runtime_home created_at d, representable created_at = true ∧
    rtc store_step (fresh_store project_id runtime_home created_at d) s.

(** ** The invariant *)

(** A replay row names its own key, one committed version and a canonical
    replay identity. *)
Record row_well_formed (version : N) (k : string * string) (r : ToolInvocationRaw) : Prop := {
  rw_key : k = (tr_tool_name r, tr_idempotency_key r);
  rw_committed : tr_committed_state_version r = (tr_basis_state_version r + 1)%N;
  rw_bound : (tr_committed_state_version r ≤ version)%N;
  rw_identity : validate_canonical_replay_identity (tr_actor_source r) (tr_operation_category r)
    (tr_verification_basis r) (tr_git_workspace_context r) = Ok tt;
}.

Record store_ok s : Prop := {
  so_project : db_project_id (cs_db s) = cs_project_id s;
  so_home : cs_canonical_runtime_home s = cs_mutation_context s ∧ is_Some (cs_mutation_context s);
  so_updated : representable (db_updated_at (cs_db s)) = true;
  so_sample : ∀ t, cs_last_clock_sample s = Some t → representable t = true;
  so_seqs : ev_event_seq <$> db_events (cs_db s) = seqZ 1 (Z.of_nat (length (db_events (cs_db s))));
  so_chain : chained sha256 None (db_events (cs_db s));
  so_scoped : Forall event_scoped (db_events (cs_db s));
  so_ids : NoDup (ev_event_id <$> db_events (cs_db s));
  so_versions : ∀ v, (∃ e, e ∈ db_events (cs_db s) ∧ ev_state_version e = Z.of_N v) ↔
    (1 ≤ v ≤ db_state_version (cs_db s))%N;
  so_rows : map_Forall (row_well_formed (db_state_version (cs_db s))) (db_invocations (cs_db s));
  so_rows_unique : ∀ k1 k2 r1 r2, db_invocations (cs_db s) !! k1 = Some r1 →
    db_invocations (cs_db s) !! k2 = Some r2 →
    tr_committed_state_version r1 = tr_committed_state_version r2 → k1 = k2;
}.

(** ** Lemmas: the log *)

Lemma gapless_snoc (l : list AuthorityEvent) e :
  ev_event_seq <$> l ++ [e] = seqZ 1 (Z.of_nat (length (l ++ [e]))) →
  ev_event_seq <$> l = seqZ 1 (Z.of_nat (length l)) ∧ ev_event_seq e = (Z.of_nat (length l) + 1)%Z.
Proof.
  rewrite length_app, fmap_app. cbn [length fmap list_fmap].
  rewrite Nat2Z.inj_add, seqZ_app by lia. intros [Hl He]%app_inj_tail. split; [done|]. lia.
Qed.

Lemma gapless_max l :
  ev_event_seq <$> l = seqZ 1 (Z.of_nat (length l)) →
  fold_left (λ m e, Z.max m (ev_event_seq e)) l 0%Z = Z.of_nat (length l).
Proof.
  induction l as [|e l IH] using rev_ind; [done|]. intros [Hl He]%gapless_snoc.
  rewrite fold_left_app. cbn. rewrite IH, He, length_app by done. cbn. lia.
Qed.

Lemma gapless_newest l :
  ev_event_seq <$> l = seqZ 1 (Z.of_nat (length l)) → newest_event l = last l.
Proof.
  induction l as [|e l IH] using rev_ind; [done|]. intros [Hl He]%gapless_snoc.
  unfold newest_event. rewrite fold_left_app, last_snoc. cbn. fold (newest_event l).
  rewrite IH by done. destruct l as [|f l _] using rev_ind; [done|]. rewrite last_snoc.
  apply gapless_snoc in Hl as [_ Hf]. rewrite Hf, He, length_app. cbn.
  by destruct (Z.ltb_spec (Z.of_nat (length l) + 1) (Z.of_nat (length l + 1) + 1)); [|lia].
Qed.

Lemma next_seq_gapless l seq :
  ev_event_seq <$> l = seqZ 1 (Z.of_nat (length l)) → next_event_seq l = Ok seq →
  seq = (Z.of_nat (length l) + 1)%Z.
Proof.
  intros Hg. unfold next_event_seq. rewrite gapless_max by done. by destruct (_ <=? _)%Z; intros [= <-].
Qed.

Lemma previous_hash_head l :
  ev_event_seq <$> l = seqZ 1 (Z.of_nat (length l)) → previous_event_hash l = chain_head None l.
Proof. intros Hg. unfold previous_event_hash, chain_head. rewrite gapless_newest by done. by destruct (last l). Qed.

(** ** Lemmas: preservation *)

Lemma validate_pending_Ok events :
  validate_pending_events events = Ok tt → ∀ e, e ∈ events → validate_pending_event e = Ok tt.
Proof.
  induction events as [|p events IH]; cbn; intros H e; [by intros He%elem_of_nil|].
  destruct (validate_pending_event p) as [[]|] eqn:Hp; [|done]. intros [->|He]%elem_of_cons; auto.
Qed.

Lemma validate_identifier_nonempty field value :
  validate_identifier field value = Ok tt → value ≠ "".
Proof. by intros H ->. Qed.

Lemma pending_scoped p (d : D) :
  validate_pending_event p = Ok tt →
  (∀ task_id cu, pe_task_id p = Some task_id → pe_change_unit_id p = Some cu →
     change_unit_row_exists d task_id cu = true) →
  pe_task_id p ≠ Some "" ∧ pe_change_unit_id p ≠ Some "".
Proof.
  unfold validate_pending_event. intros H Hfk.
  destruct (validate_identifier _ _); [|done]. destruct (pe_task_id p) as [task_id|] eqn:Ht.
  - destruct (validate_identifier "task_id" task_id) as [[]|] eqn:Hid; [|done].
    apply validate_identifier_nonempty in Hid. split; [congruence|]. intros Hcu.
    apply (Hfk task_id) in Hcu; [|done]. by rewrite change_unit_ids_nonempty in Hcu.
  - split; [done|]. intros Hcu. rewrite Hcu in H. cbn in H. by rewrite orb_true_r in H.
Qed.

Lemma row_identity_of_context rc :
  validate_replay_context rc = Ok tt →
  validate_canonical_replay_identity (actor_to_canonical_string (rx_actor_source rc))
    (OperationCategory_as_str (rx_operation_category rc)) (rx_verification_basis rc)
    (rx_git_workspace_context rc) = Ok tt.
Proof. unfold validate_replay_context. by destruct (validate_canonical_replay_identity _ _ _ _) as [[]|]. Qed.

Lemma inserted_rows s input rc key response s' :
  store_ok s → validate_replay_context rc = Ok tt →
  db_state_version (cs_db s') = (db_state_version (cs_db s) + 1)%N →
  db_invocations (cs_db s') =
    <[(ci_tool_name input, key) :=
        tool_invocation_row (cs_project_id s) input rc key response
          (db_state_version (cs_db s)) (db_state_version (cs_db s) + 1)]> (db_invocations (cs_db s)) →
  map_Forall (row_well_formed (db_state_version (cs_db s'))) (db_invocations (cs_db s')) ∧
  (∀ k1 k2 r1 r2, db_invocations (cs_db s') !! k1 = Some r1 →
    db_invocations (cs_db s') !! k2 = Some r2 →
    tr_committed_state_version r1 = tr_committed_state_version r2 → k1 = k2).
Proof.
  intros [] Hrc Hv Hi. rewrite Hi, Hv.
  assert (∀ k r, db_invocations (cs_db s) !! k = Some r →
    (tr_committed_state_version r ≤ db_state_version (cs_db s))%N) as Hb.
  { intros k r Hk. by apply so_rows0 in Hk as []. }
  split.
  - intros k r. rewrite lookup_insert_Some. intros [[<- <-]|[_ Hr]].
    + split; cbn; [done|lia|lia|by apply row_identity_of_context].
    + apply so_rows0 in Hr as []. split; [done..|lia|done].
  - intros k1 k2 r1 r2. rewrite !lookup_insert_Some.
    intros [[<- <-]|[_ H1]] [[<- <-]|[_ H2]]; [done|..|by eapply so_rows_unique0].
    + apply Hb in H2. cbn. lia.
    + apply Hb in H1. cbn. lia.
Qed.

Lemma appended_log s input rc at_ seq s' (data : D) :
  store_ok s → ci_events input ≠ [] → validate_pending_events (ci_events input) = Ok tt →
  (∀ e, e ∈ ci_events input → ∀ task_id cu,
     pe_task_id e = Some task_id → pe_change_unit_id e = Some cu →
     change_unit_row_exists data task_id cu = true) →
  next_event_seq (db_events (cs_db s)) = Ok seq →
  db_state_version (cs_db s') = (db_state_version (cs_db s) + 1)%N →
  db_events (cs_db s') = db_events (cs_db s) ++
    event_rows (event_context s input rc at_) seq (previous_event_hash (db_events (cs_db s)))
      (ci_events input) →
  ev_event_seq <$> db_events (cs_db s') = seqZ 1 (Z.of_nat (length (db_events (cs_db s')))) ∧
  chained sha256 None (db_events (cs_db s')) ∧ Forall event_scoped (db_events (cs_db s')) ∧
  (∀ v, (∃ e, e ∈ db_events (cs_db s') ∧ ev_state_version e = Z.of_N v) ↔
    (1 ≤ v ≤ db_state_version (cs_db s'))%N).
Proof.
  intros [] Hne Hpend Hfk Hseq Hv He. rewrite He, Hv.
  apply next_seq_gapless in Hseq as ->; [|done].
  rewrite previous_hash_head by done. set (rows := event_rows _ _ _ _).
  assert (ev_event_seq <$> rows = seqZ (Z.of_nat (length (db_events (cs_db s))) + 1)
            (Z.of_nat (length rows))) as Hrows.
  { unfold rows at 1. rewrite event_rows_seq. f_equal. f_equal.
    rewrite <-(length_fmap ev_event_seq rows). unfold rows. rewrite event_rows_seq, length_seqZ. lia. }
  split_and!.
  - rewrite fmap_app, length_app, so_seqs0, Hrows, Nat2Z.inj_add, seqZ_app by lia.
    f_equal. f_equal. lia.
  - apply chained_app. split; [done|apply event_rows_chained].
  - apply Forall_app. split; [done|]. apply Forall_forall.
    intros e (_ & p & Hp & Ht & Hc)%elem_of_event_rows.
    unfold event_scoped. rewrite Ht, Hc. apply (pending_scoped p data); [|by apply Hfk].
    by eapply validate_pending_Ok.
  - intros v. setoid_rewrite elem_of_app. split.
    + intros (e & [Hold|Hnew] & Hev).
      * assert (∃ e, e ∈ db_events (cs_db s) ∧ ev_state_version e = Z.of_N v) as Hx by eauto.
        apply so_versions0 in Hx. lia.
      * apply elem_of_event_rows in Hnew as [Hn _]. cbn in Hn. lia.
    + intros Hle. destruct (decide (v = (db_state_version (cs_db s) + 1)%N)) as [->|Hn].
      * destruct rows as [|e rest] eqn:Er.
        { by destruct (event_rows_nonempty _ _ _ _ Hne Er). }
        exists e. split; [right; apply elem_of_cons; auto|].
        assert (e ∈ rows) as Hin by (rewrite Er; apply elem_of_cons; auto).
        by apply elem_of_event_rows in Hin as [? _].
      * destruct (proj2 (so_versions0 v)) as (e & Hin & Hev); [lia|]. eauto.
Qed.

Lemma commit_store_ok s now input apply build o s' :
  store_ok s → commit_with sha256 s now input apply build = Ok (o, s') → store_ok s'.
Proof.
  intros Hok Hc. pose proof Hc as (rc & floor & Hpf & Hproj & Hrep & Hcase)%commit_with_Ok.
  destruct Hcase as [(?&?&?&?&->)|[(?&?&?&->)|(Hf & at_ & Ht & He)]]; [done..|].
  apply commit_effects_Ok in He as (resp & data & facts & _ & _ & _ & _ & Hce & Hnd & Hfk).
  destruct Hce, Hpf, ce_events0 as (seq & Hs & Hev).
  apply commit_time_Ok in Ht as (_ & _ & Hat); [|done..].
  destruct (appended_log s input rc at_ seq s' data) as (H1 & H2 & H3 & H4); [done..|].
  assert (map_Forall (row_well_formed (db_state_version (cs_db s'))) (db_invocations (cs_db s')) ∧
    (∀ k1 k2 r1 r2, db_invocations (cs_db s') !! k1 = Some r1 →
      db_invocations (cs_db s') !! k2 = Some r2 →
      tr_committed_state_version r1 = tr_committed_state_version r2 → k1 = k2)) as [H5 H6].
  { destruct (ci_idempotency_key input) as [key|]; [by eapply inserted_rows|].
    destruct Hok. rewrite ce_invocations0, ce_version0. split; [|done].
    intros k r Hr. apply so_rows0 in Hr as []. split; [done..|lia|done]. }
  destruct Hok. split; try done.
  - congruence.
  - rewrite ce_home0, ce_context0. done.
  - by rewrite ce_updated0.
  - rewrite ce_sample0. by intros t [= <-].
  - by apply Hnd.
Qed.

Lemma clock_store_ok s c :
  store_ok s → representable (updated_at c) = true →
  (∀ t, last_clock_sample c = Some t → representable t = true) → store_ok (with_clock s c).
Proof. intros [] ? ?. by split. Qed.

Lemma current_timestamp_representable project_id now (c c' : ClockState) t :
  current_timestamp project_id now c = Ok (t, c') →
  updated_at c' = updated_at c ∧ last_clock_sample c' = Some t ∧ representable t = true.
Proof.
  unfold current_timestamp.
  destruct (project_current_utc_timestamp _ _ _ _) as [t'|] eqn:E; [|done]. intros [= -> <-].
  split_and!; [done..|].
  destruct (commit_time_Ok project_id now (updated_at c) (last_clock_sample c) true t) as (_ & _ & H);
    [done|..|done].
  - revert E. unfold project_current_utc_timestamp. destruct (representable now); [|done].
    by destruct (representable (updated_at c)).
  - intros x Hx. revert E. unfold project_current_utc_timestamp. rewrite Hx.
    destruct (representable now); [|done]. destruct (representable (updated_at c)); [|done].
    cbn. by destruct (representable x).
Qed.

Lemma store_step_ok s s' : store_ok s → store_step s s' → store_ok s'.
Proof.
  intros Hok Hstep.
  destruct Hstep as [s0 now input apply build o s'' Hc|s0 now t c Hc|s0 sample Hr|s0 sample t c Hc|s0 d].
  - by eapply commit_store_ok.
  - apply current_timestamp_representable in Hc as (Hu & Hl & Hr).
    apply clock_store_ok; [done|rewrite Hu; by destruct Hok|]. rewrite Hl. by intros x [= <-].
  - destruct Hok. apply clock_store_ok; [done|..]; unfold remember_clock_sample;
      destruct (is_none_or _ _); cbn; try done. by intros x [= <-].
  - unfold advance_project_utc_floor in Hc. destruct (representable sample) eqn:Hs; [|done].
    destruct (representable (updated_at (clock_of s0))) eqn:Hu; [|done]. cbn [negb] in Hc. simplify_eq.
    pose proof (so_sample _ Hok) as Hsam. apply clock_store_ok; [done| |exact Hsam].
    cbn. by destruct (Z.max_spec (db_updated_at (cs_db s0)) sample) as [[_ ->]|[_ ->]].
  - destruct Hok. by split.
Qed.

Lemma fresh_store_ok project_id home created d :
  representable created = true → store_ok (fresh_store project_id home created d).
Proof.
  intros Hr. split; cbn; try done; [constructor|].
  intros v. split; [intros (e & He%elem_of_nil & _); done|lia].
Qed.

Lemma rtc_store_ok s s' : rtc store_step s s' → store_ok s → store_ok s'.
Proof. induction 1; eauto using store_step_ok. Qed.

Lemma reachable_ok s : reachable s → store_ok s.
Proof. intros (?&?&?&?&Hr&Hrtc). eapply rtc_store_ok; [done|]. by apply fresh_store_ok. Qed.

(** ** Lemmas: replay rows and versions persist *)

Lemma commit_rows_persist s now input apply build o s' k r :
  commit_with sha256 s now input apply build = Ok (o, s') →
  db_invocations (cs_db s) !! k = Some r → db_invocations (cs_db s') !! k = Some r.
Proof.
  intros (rc & floor & _ & _ & _ & Hcase)%commit_with_Ok Hk.
  destruct Hcase as [(?&?&?&?&->)|[(?&?&?&->)|([Hkey _ _ _] & at_ & _ & He)]]; [done..|].
  apply commit_effects_Ok in He as (?&?&?&_&_&_&_&[]&_). rewrite ce_invocations0.
  destruct (ci_idempotency_key input) as [key|]; [|done].
  rewrite lookup_insert_ne; [done|]. intros <-. by rewrite Hkey in Hk.
Qed.

Lemma commit_version_le s now input apply build o s' :
  commit_with sha256 s now input apply build = Ok (o, s') →
  (db_state_version (cs_db s) ≤ db_state_version (cs_db s'))%N.
Proof.
  intros (rc & floor & _ & _ & _ & Hcase)%commit_with_Ok.
  destruct Hcase as [(?&?&?&?&->)|[(?&?&?&->)|(_ & at_ & _ & He)]]; [lia..|].
  apply commit_effects_Ok in He as (?&?&?&_&_&_&_&[]&_). lia.
Qed.

Lemma rtc_persist s s' : rtc store_step s s' →
  (db_state_version (cs_db s) ≤ db_state_version (cs_db s'))%N ∧
  ∀ k r, db_invocations (cs_db s) !! k = Some r → db_invocations (cs_db s') !! k = Some r.
Proof.
  induction 1 as [|s1 s2 s3 Hstep _ [IHv IHk]]; [split; [lia|done]|].
  destruct Hstep as [? now input apply build o s'' Hc| | | |];
    [|by (split; [exact IHv|exact IHk])..].
  split; [apply commit_version_le in Hc; lia|].
  intros k r Hk. apply IHk. by eapply commit_rows_persist.
Qed.

(** ** Lemmas: decoding a stored row *)

Lemma category_of_canonical c : OperationCategory_of_str (OperationCategory_as_str c) = Some c.
Proof. by destruct c. Qed.

Lemma method_of_canonical m : MethodName_of_str (MethodName_as_str m) = Some m.
Proof. by destruct m. Qed.

Lemma decode_row project_id input rc key response basis committed m fields :
  validate_replay_context rc = Ok tt → ci_tool_name input = MethodName_as_str m →
  json_from_str response = Ok (Object fields) →
  decode_tool_invocation (tool_invocation_row project_id input rc key response basis committed) =
  Ok {| ti_project_id := project_id; ti_tool_name := m; ti_idempotency_key := key;
        ti_request_hash := ci_request_hash input; ti_basis_state_version := basis;
        ti_committed_state_version := committed; ti_actor_source := rx_actor_source rc;
        ti_operation_category := rx_operation_category rc;
        ti_verification_basis := rx_verification_basis rc;
        ti_git_workspace_context := rx_git_workspace_context rc; ti_response_json := response |}.
Proof.
  intros Hid%row_identity_of_context Htool Hj. unfold decode_tool_invocation.
  cbn [tool_invocation_row tr_actor_source tr_operation_category tr_verification_basis
       tr_git_workspace_context tr_tool_name tr_response_json].
  rewrite Hid, Htool, method_of_canonical, category_of_canonical, Hj. cbn [map_err ok_or].
  unfold validate_canonical_replay_identity in Hid.
  destruct (actor_from_str _) as [parsed|] eqn:Ha; [|done].
  by apply actor_from_canonical in Ha as ->.
Qed.

(** ** Theorems *)

(** C14: A commit is atomic: an outcome other than [Committed] leaves the store as
    it was; a commit raises the version by exactly one, applies the mutation
    once to the aggregates, appends exactly the requested events, adds at most
    its own replay row, never moves the clock backward, and happens only for a
    request that names the current version (or none) and an unused key. *)
Theorem commit_atomic s now input apply build o s' :
  commit_with sha256 s now input apply build = Ok (o, s') →
  match o with
  | Committed response basis committed events =>
      ∃ rc at_ data facts,
        ci_replay_context input = Some rc ∧
        fresh_request s input ∧
        basis = db_state_version (cs_db s) ∧ committed = (db_state_version (cs_db s) + 1)%N ∧
        apply at_ facts (db_data (cs_db s)) = Ok data ∧ build facts = Ok response ∧
        committed_effect s input rc at_ response data s' ∧
        (db_updated_at (cs_db s) ≤ at_)%Z ∧
        (∀ t, cs_last_clock_sample s = Some t → (t ≤ at_)%Z) ∧
        (∀ t, ci_clock_floor input = Some t → (t ≤ at_)%Z)
  | _ => s' = s
  end.
Proof.
  intros Hc. destruct o as [| | | |response basis committed events];
    try (by eapply commit_other; [exact Hc|]).
  apply commit_committed in Hc as
    (rc & floor & at_ & data & facts & Hpf & Hf & _ & Hrep & Ht & _ & Hb & Hcm & Ha & Hbuild & Hce).
  destruct Hpf. apply commit_time_Ok in Ht as (Hle & Hfl & _); [|done..].
  exists rc, at_, data, facts. split_and!; try done.
  - intros t Hs. destruct floor as [m|]; [|by rewrite Hs in pf_floor0; destruct (ci_clock_floor input)].
    symmetry in pf_floor0. apply option_max_ge in pf_floor0 as (Hm & _ & _).
    apply Hm in Hs. specialize (Hfl m eq_refl). lia.
  - intros t Hs. destruct floor as [m|]; [|by rewrite Hs in pf_floor0; destruct (cs_last_clock_sample s)].
    symmetry in pf_floor0. apply option_max_ge in pf_floor0 as (_ & Hm & _).
    apply Hm in Hs. specialize (Hfl m eq_refl). lia.
Qed.

(** C16: The event log of every reachable store is a gapless sequence from one,
    each event linked to the hash of its predecessor and carrying its own, with
    distinct event ids; the state versions that occur are exactly those from one
    to the current one, so every committed version left its events. *)
Theorem reachable_event_log s :
  reachable s →
  let events := db_events (cs_db s) in
  ev_event_seq <$> events = seqZ 1 (Z.of_nat (length events)) ∧
  chained sha256 None events ∧ Forall event_scoped events ∧ NoDup (ev_event_id <$> events) ∧
  ∀ v, (∃ e, e ∈ events ∧ ev_state_version e = Z.of_N v) ↔ (1 ≤ v ≤ db_state_version (cs_db s))%N.
Proof. intros []%reachable_ok. by split_and!. Qed.

(** C15: A request with an idempotency key executes at most once: after it
    committed, whatever happened in between, the same tool and key never
    execute again. The same request in the same verified context gets the
    stored response and versions, another request hash is a conflict, another
    context is refused, and the store stays as it was. *)
Theorem commit_replays s0 now input apply build response basis committed events s1
    s2 now' input' apply' build' key m fields rc rc' floor' :
  reachable s0 →
  commit_with sha256 s0 now input apply build = Ok (Committed response basis committed events, s1) →
  rtc store_step s1 s2 →
  ci_replay_context input = Some rc → commit_preflight s2 input' = Ok (rc', floor') →
  ci_idempotency_key input = Some key → ci_idempotency_key input' = Some key →
  ci_tool_name input = MethodName_as_str m → ci_tool_name input' = ci_tool_name input →
  json_from_str response = Ok (Object fields) →
  commit_with sha256 s2 now' input' apply' build' =
    Ok (if bool_decide (rx_actor_source rc' = rx_actor_source rc ∧
                        rx_operation_category rc' = rx_operation_category rc ∧
                        rx_verification_basis rc' = rx_verification_basis rc ∧
                        rx_git_workspace_context rc' = rx_git_workspace_context rc)
        then if ci_request_hash input =? ci_request_hash input'
             then Replayed response basis committed
             else IdempotencyConflict (db_state_version (cs_db s2)) key (ci_request_hash input)
                    (ci_request_hash input')
        else ReplayContextMismatch (db_state_version (cs_db s2)) key, s2).
Proof.
  intros Hr0%reachable_ok Hc Hrtc Hrc Hpre' Hkey Hkey' Htool Htool' Hj.
  assert (store_ok s2) as Hok2.
  { eapply rtc_store_ok; [done|]. by eapply commit_store_ok. }
  pose proof Hc as (rc0 & floor0 & at_ & data & facts & Hpf & Hf & _ & _ & _ & _ & Hb & Hcm & _ & _ & Hce)
    %commit_committed.
  destruct Hce, Hpf. assert (rc0 = rc) as -> by congruence. rewrite Hkey in ce_invocations0.
  destruct (rtc_persist _ _ Hrtc) as [_ Hrow].
  specialize (Hrow (ci_tool_name input, key) _
    ltac:(rewrite ce_invocations0; apply lookup_insert_eq)).
  unfold commit_with. rewrite Hpre'.
  unfold read_project_state. destruct Hok2.
  rewrite so_project0, eqb_refl, so_updated0. cbn [negb].
  unfold replay_lookup, tool_invocation. rewrite Hkey', Htool', Hrow. cbn [try_option].
  rewrite (proj2 (validate_identifier_Ok "idempotency_key" key)) by by apply (fr_key_valid _ _ Hf).
  rewrite (decode_row _ _ _ _ _ _ _ m fields) by done. cbn [fmap option_fmap option_map].
  unfold replay_outcome, matches_verified_replay_context. cbn.
  f_equal. f_equal. destruct (bool_decide _) eqn:Hd.
  - apply bool_decide_eq_true in Hd as (-> & -> & -> & ->). rewrite !eqb_refl. cbn. by subst.
  - destruct (negb _) eqn:Hm; [done|]. apply negb_false_iff in Hm. breflect.
    by destruct Hd.
Qed.

(** No update is lost: of two requests that expect the same state version at
    most one commits. Once a request that expected [v] has committed, every later
    request that expects [v] is answered without effect. *)
Theorem stale_expectation_never_commits s0 now input apply build response basis committed events s1
    s2 now' input' apply' build' o s3 v :
  commit_with sha256 s0 now input apply build = Ok (Committed response basis committed events, s1) →
  ci_expected_state_version input = Some v →
  rtc store_step s1 s2 → ci_expected_state_version input' = Some v →
  commit_with sha256 s2 now' input' apply' build' = Ok (o, s3) →
  s3 = s2 ∧ (∀ response basis committed events, o ≠ Committed response basis committed events).
Proof.
  intros Hc Hv Hrtc Hv' Hc'.
  apply commit_committed in Hc as (rc & floor & at_ & data & facts & _ & Hf & _ & _ & _ & _ & _ & _ & _ & _ & Hce).
  destruct Hce, (rtc_persist _ _ Hrtc) as [Hle _]. apply (fr_expected _ _ Hf) in Hv as ->.
  assert (∀ r b c e, o ≠ Committed r b c e) as Ho.
  { intros r b c e ->. apply commit_committed in Hc' as (?&?&?&?&?&_&Hf'&_).
    apply (fr_expected _ _ Hf') in Hv'. lia. }
  split; [|done]. by eapply commit_other.
Qed.

(** ** Liveness of a fresh commit *)

(** The events a request may append: new ids, owned by stored rows. *)
Definition appendable (d : D) (old : list AuthorityEvent) (pending : list PendingTaskEvent) : Prop :=
  NoDup (pe_event_id <$> pending) ∧
  ∀ p, p ∈ pending → pe_event_id p ∉ ev_event_id <$> old ∧
    (∀ task_id, pe_task_id p = Some task_id → task_row_exists d task_id = true) ∧
    (∀ task_id cu, pe_task_id p = Some task_id → pe_change_unit_id p = Some cu →
       change_unit_row_exists d task_id cu = true).

Lemma insert_event_total (d : D) e events :
  (∀ o, o ∈ events → ev_event_seq o ≠ ev_event_seq e ∧ ev_event_id o ≠ ev_event_id e ∧
     ev_event_hash o ≠ ev_event_hash e) →
  (∀ task_id, ev_task_id e = Some task_id → task_row_exists d task_id = true) →
  (∀ task_id cu, ev_task_id e = Some task_id → ev_change_unit_id e = Some cu →
     change_unit_row_exists d task_id cu = true) →
  insert_authority_event d e events = Ok (events ++ [e]).
Proof.
  intros Hnew Ht Hcu. unfold insert_authority_event.
  rewrite !(proj2 (existsb_false _ _)) by (intros o Ho; apply eqb_false, Hnew, Ho).
  destruct (ev_task_id e) as [task_id|]; cbn; [|done]. rewrite (Ht task_id) by done. cbn.
  destruct (ev_change_unit_id e) as [cu|]; [|done]. by rewrite (Hcu task_id cu).
Qed.

(** With a collision-free digest, a row with a new sequence number has a new hash. *)
Lemma chained_hash previous l e :
  chained sha256 previous l → e ∈ l →
  ev_event_hash e = authority_event_hash sha256 (event_hash_input e).
Proof.
  revert previous. induction l as [|f l IH]; intros previous; [by intros _ He%elem_of_nil|].
  intros (_ & Hf & Hl) [->|He]%elem_of_cons; [done|]. by eapply IH.
Qed.

Lemma append_events_total d ctx pending events :
  collision_free sha256
    (events ++ event_rows ctx (Z.of_nat (length events) + 1) (chain_head None events) pending) →
  ev_event_seq <$> events = seqZ 1 (Z.of_nat (length events)) →
  chained sha256 None events → appendable d events pending →
  (Z.of_nat (length events + length pending) ≤ 9223372036854775807)%Z →
  append_events sha256 d ctx (Z.of_nat (length events) + 1) (chain_head None events) pending events =
    Ok (events ++ event_rows ctx (Z.of_nat (length events) + 1) (chain_head None events) pending).
Proof.
  revert events. induction pending as [|p pending IH]; intros events Hinj Hseq Hch [Hnd Hall] Hlen.
  { cbn. by rewrite app_nil_r. }
  cbn [append_events event_rows]. destruct (Z.ltb_spec 9223372036854775807 (Z.of_nat (length events) + 1)).
  { cbn in Hlen. lia. }
  set (row := authority_event _ _ _ _ p).
  apply NoDup_cons in Hnd as [Hp Hnd]. destruct (Hall p) as (Hid & Ht & Hcu); [apply elem_of_cons; auto|].
  assert (∀ o, o ∈ events → (ev_event_seq o ≤ Z.of_nat (length events))%Z) as Hle.
  { intros o Ho. assert (ev_event_seq o ∈ ev_event_seq <$> events) as Hin by by apply list_elem_of_fmap_2.
    rewrite Hseq in Hin. apply elem_of_seqZ in Hin. lia. }
  assert (chained sha256 None (events ++ [row])) as Hch'.
  { apply chained_app. split; [done|]. by split_and!. }
  rewrite insert_event_total; [|..|exact Ht|exact Hcu].
  - assert (chain_head None (events ++ [row]) = Some (ev_event_hash row)) as Hhead
      by (unfold chain_head; by rewrite last_snoc).
    specialize (IH (events ++ [row])). rewrite Hhead, length_app in IH. cbn [length] in IH.
    replace (Z.of_nat (length events + 1) + 1)%Z with (Z.of_nat (length events) + 1 + 1)%Z in IH by lia.
    rewrite IH; [by rewrite <-app_assoc|..].
    + by rewrite <-app_assoc.
    + rewrite fmap_app, Hseq, Nat2Z.inj_add, seqZ_app by lia.
      by rewrite (Z.add_comm 1 (Z.of_nat (length events))).
    + done.
    + split; [done|]. intros q Hq. destruct (Hall q) as (Hq1 & ? & ?); [apply elem_of_cons; auto|].
      split; [|done]. rewrite fmap_app, elem_of_app. intros [?|Heq%list_elem_of_singleton]; [done|].
      apply Hp. change (ev_event_id row) with (pe_event_id p) in Heq. rewrite <-Heq.
      by apply list_elem_of_fmap_2.
    + cbn in Hlen. lia.
  - intros o Ho. pose proof (Hle o Ho) as Hole.
    assert (ev_event_seq o ≠ ev_event_seq row) as Hs by (cbn; lia). split_and!; [done|..].
    + intros Heq. apply Hid. change (pe_event_id p) with (ev_event_id row). rewrite <-Heq.
      by apply list_elem_of_fmap_2.
    + intros Heq. apply Hs. rewrite (chained_hash _ _ _ Hch Ho) in Heq.
      apply (authority_event_hash_fields sha256 (event_hash_input o) (event_hash_input row)) in Heq.
      2: { apply Hinj; apply elem_of_app; [by left|right]. cbn [event_rows]. apply elem_of_cons. by left. }
      unfold hash_fields in Heq. injection Heq as _ Hsq. by apply decimal_of_Z_inj in Hsq.
Qed.

(** A fresh request reaches its effects. *)
Lemma commit_with_fresh s now input apply build rc floor :
  store_ok s → commit_preflight s input = Ok (rc, floor) → fresh_request s input →
  commit_with sha256 s now input apply build =
    (let? at_ := commit_time (cs_project_id s) now (db_updated_at (cs_db s)) floor
                   (ci_include_live_storage_time input) in
     commit_effects sha256 s input rc at_ apply build).
Proof.
  intros [] Hpre []. unfold commit_with. rewrite Hpre.
  unfold read_project_state. rewrite so_project0, eqb_refl, so_updated0. cbn [negb].
  assert (replay_lookup (cs_db s) input = Ok None) as ->.
  { unfold replay_lookup, tool_invocation. destruct (ci_idempotency_key input) as [key|]; [|done].
    rewrite (proj2 (validate_identifier_Ok "idempotency_key" key)) by auto.
    by rewrite fr_key0. }
  assert (option_filter (λ expected, expected <>? db_state_version (cs_db s))
            (ci_expected_state_version input) = None) as ->.
  { destruct (ci_expected_state_version input) as [v|]; [|done]. cbn.
    rewrite (fr_expected0 v) by done. by rewrite eqb_refl. }
  assert (fits_i64 (db_state_version (cs_db s)) = true) as Hfit.
  { unfold fits_i64 in *. apply N.leb_le in fr_version0. apply N.leb_le. lia. }
  rewrite Hfit, fr_version0. apply N.leb_le in Hfit. unfold u64_max.
  by destruct (N.leb_spec 18446744073709551615 (db_state_version (cs_db s))); [lia|].
Qed.

Lemma commit_effects_total s input rc at_ apply build :
  collision_free sha256 (rows_after s input rc at_) → store_ok s → ci_events input ≠ [] →
  (∀ facts, ∃ data, apply at_ facts (db_data (cs_db s)) = Ok data ∧
     deferred_constraints_hold data = true ∧ appendable data (db_events (cs_db s)) (ci_events input) ∧
     ∀ x, ci_transition_expectation input = Some x → validate_transition_result_state data x = Ok tt) →
  (∀ facts, ∃ response v, build facts = Ok response ∧ json_from_str response = Ok v) →
  (Z.of_nat (length (db_events (cs_db s)) + length (ci_events input)) ≤ 9223372036854775807)%Z →
  ∃ response events s', commit_effects sha256 s input rc at_ apply build =
    Ok (Committed response (db_state_version (cs_db s)) (db_state_version (cs_db s) + 1) events, s').
Proof.
  intros Hinj [] Hne Happly Hbuild Hlen.
  unfold commit_effects. set (facts := Build_CommittedMutationFacts _ _ _).
  destruct (Happly facts) as (data & -> & Hdef & Happ & Htr).
  assert (match ci_transition_expectation input with
          | Some x => validate_transition_result_state data x | None => Ok tt end = Ok tt) as ->.
  { destruct (ci_transition_expectation input) as [x|]; auto. }
  assert (next_event_seq (db_events (cs_db s)) = Ok (Z.of_nat (length (db_events (cs_db s))) + 1)%Z) as ->.
  { unfold next_event_seq. rewrite gapless_max by done.
    destruct (Z.leb_spec 9223372036854775807 (Z.of_nat (length (db_events (cs_db s))))); [|done].
    destruct (ci_events input); [done|]. cbn in Hlen. lia. }
  rewrite previous_hash_head, append_events_total by done.
  destruct (Hbuild facts) as (response & v & -> & Hj). unfold validate_json_text. rewrite Hj, Hdef.
  eexists response, (cf_events facts), _. reflexivity.
Qed.

(** A well-formed fresh request always commits: with a reachable store,
    no SHA-256 collision among the events of the resulting log, an unused key, the current version as
    expectation, room in the integer columns, mutations and a response builder
    that succeed, and new events owned by stored rows, no constraint of the event
    log can fail and the outcome is the next version. *)
Theorem fresh_commit_succeeds s now input apply build rc floor :
  reachable s → commit_preflight s input = Ok (rc, floor) → fresh_request s input →
  (∀ at_, commit_time (cs_project_id s) now (db_updated_at (cs_db s)) floor true = Ok at_ →
     collision_free sha256 (rows_after s input rc at_)) →
  ci_include_live_storage_time input = true → representable now = true →
  (∀ at_ facts, ∃ data, apply at_ facts (db_data (cs_db s)) = Ok data ∧
     deferred_constraints_hold data = true ∧ appendable data (db_events (cs_db s)) (ci_events input) ∧
     ∀ x, ci_transition_expectation input = Some x → validate_transition_result_state data x = Ok tt) →
  (∀ facts, ∃ response v, build facts = Ok response ∧ json_from_str response = Ok v) →
  (Z.of_nat (length (db_events (cs_db s)) + length (ci_events input)) ≤ 9223372036854775807)%Z →
  ∃ response events s', commit_with sha256 s now input apply build =
    Ok (Committed response (db_state_version (cs_db s)) (db_state_version (cs_db s) + 1) events, s').
Proof.
  intros Hok%reachable_ok Hpre Hf Hinj Hlive Hnow Happly Hbuild Hlen.
  pose proof (commit_preflight_Ok _ _ _ _ Hpre) as [? Hne ? ? ? ? Hfl].
  rewrite (commit_with_fresh _ _ _ _ _ _ _ Hok Hpre Hf), Hlive.
  assert (∃ at_, commit_time (cs_project_id s) now (db_updated_at (cs_db s)) floor true = Ok at_)
    as [at_ Hat].
  { unfold commit_time, project_current_utc_timestamp. rewrite Hnow, (so_updated _ Hok). cbn [negb].
    rewrite (proj2 (is_some_and_false _ _)) by (intros t Ht; by rewrite (Hfl t Ht)). by eexists. }
  rewrite Hat. apply commit_effects_total; auto.
Qed.
End spec.

(** ** Witnesses *)

#[local] Existing Instance decimal_chrono.

(** A JSON reader that knows the empty object and a project with one Task. *)
#[local] Instance sample_json : SerdeJson := {
  json_from_str text := if text =? "{}" then Ok (Object []) else Err "expected value";
}.

#[local] Instance sample_aggregates : AggregateStore nat unit := {
  mutation_kind _ := MutRun;
  apply_mutation _ _ _ d := Ok (S d);
  task_row_exists _ task_id := task_id =? "t1";
  change_unit_row_exists _ _ _ := false;
  task_transition_row _ _ := Some ("implementation", "executing", false);
  pending_user_action_exists _ _ := false;
  deferred_constraints_hold _ := true;
  change_unit_ids_nonempty _ _ := eq_refl;
}.

Definition sample_replay_context : VerifiedReplayContext :=
  {| rx_actor_source := AgentConnection "conn"; rx_operation_category := AgentWorkflow;
     rx_verification_basis := Some "basis"; rx_git_workspace_context := None |}.

Definition sample_commit_input (event_id : string) : CommitMutationInput :=
  commit_input "p" MRecordRun (Some "key1") "hash1" (Some sample_replay_context) (Some 0%N)
    [{| pe_event_id := event_id; pe_task_id := Some "t1"; pe_change_unit_id := None;
        pe_event_kind := "run_recorded"; pe_event_payload_json := "{}" |}].

Definition sample_project : CoreProjectStore nat := fresh_store "p" "/home" 100 0.

Definition sample_build (_ : CommittedMutationFacts) : result string StoreError := Ok "{}".

Definition sample_commit (s : CoreProjectStore nat) (event_id : string) :=
  commit_with identity_digest s 150 (sample_commit_input event_id)
    (apply_mutations (M := unit) [tt]) sample_build.

Definition sample_project_after : CoreProjectStore nat :=
  match sample_commit sample_project "e1" with Ok (_, s) => s | Err _ => sample_project end.

Definition sample_refs : list CommittedEventRef :=
  [{| cer_event_id := "e1"; cer_event_kind := "run_recorded" |}].

Lemma sample_committed :
  sample_commit sample_project "e1" = Ok (Committed "{}" 0 1 sample_refs, sample_project_after).
Proof. vm_compute. reflexivity. Qed.

Lemma sample_reachable : reachable identity_digest sample_project.
Proof. exists "p", "/home", 100%Z, 0. split; [vm_compute; reflexivity|apply rtc_refl]. Qed.

Lemma sample_after_reachable : reachable identity_digest sample_project_after.
Proof.
  exists "p", "/home", 100%Z, 0. split; [vm_compute; reflexivity|]. eapply rtc_l; [|apply rtc_refl].
  eapply step_commit. exact sample_committed.
Qed.

Lemma commit_atomic_witness :
  db_state_version (cs_db sample_project_after) = 1%N ∧ db_data (cs_db sample_project_after) = 1.
Proof.
  destruct (commit_atomic identity_digest _ _ _ _ _ _ _ sample_committed)
    as (rc & at_ & data & facts & _ & _ & _ & _ & Ha & _ & [] & _).
  split; [by rewrite ce_version0|]. rewrite ce_data0. cbn in Ha. by inversion Ha.
Defined.

Lemma reachable_event_log_witness : chained identity_digest None (db_events (cs_db sample_project_after)).
Proof. apply (reachable_event_log identity_digest sample_project_after sample_after_reachable). Defined.

Lemma commit_replays_witness :
  sample_commit sample_project_after "e2" = Ok (Replayed "{}" 0 1, sample_project_after).
Proof.
  unfold sample_commit.
  rewrite (commit_replays identity_digest sample_project 150 (sample_commit_input "e1")
    (apply_mutations (M := unit) [tt]) sample_build "{}" 0 1 sample_refs sample_project_after
    sample_project_after 150 (sample_commit_input "e2") (apply_mutations (M := unit) [tt]) sample_build
    "key1" MRecordRun [] sample_replay_context sample_replay_context (Some 150%Z)
    sample_reachable sample_committed (rtc_refl _ _)); reflexivity.
Defined.

Lemma stale_expectation_never_commits_witness : ∃ o,
  sample_commit sample_project_after "e2" = Ok (o, sample_project_after) ∧
  ∀ response basis committed events, o ≠ Committed response basis committed events.
Proof.
  exists (Replayed "{}" 0 1).
  assert (sample_commit sample_project_after "e2" = Ok (Replayed "{}" 0 1, sample_project_after)) as Hc
    by (vm_compute; reflexivity).
  split; [exact Hc|].
  apply (stale_expectation_never_commits identity_digest sample_project 150 (sample_commit_input "e1")
    (apply_mutations (M := unit) [tt]) sample_build "{}" 0 1 sample_refs sample_project_after
    sample_project_after 150 (sample_commit_input "e2") (apply_mutations (M := unit) [tt]) sample_build
    (Replayed "{}" 0 1) sample_project_after 0%N sample_committed eq_refl (rtc_refl _ _) eq_refl Hc).
Defined.

Lemma fresh_commit_succeeds_witness : ∃ response events s',
  sample_commit sample_project "e1" = Ok (Committed response 0 1 events, s').
Proof.
  apply (fresh_commit_succeeds identity_digest sample_project 150 (sample_commit_input "e1")
    (apply_mutations (M := unit) [tt]) sample_build sample_replay_context None
    sample_reachable); try reflexivity.
  - split; [done|by intros ? [= <-]|by intros ? [= <-]|reflexivity].
  - intros at_ _. apply identity_collision_free.
  - intros at_ facts. exists 1. split_and!; [done..| |done]. split; [apply NoDup_singleton|].
    intros p ->%list_elem_of_singleton. split_and!; [by intros ?%elem_of_nil|by intros ? [= <-]|done].
  - intros facts. by exists "{}", (Object []).
  - done.
Defined.
