(* ===== verification/UserActionStore.v ===== *)
(** * UserActionStore: the persisted user-action aggregate

    Models [crates/volicord-store/src/core_pipeline/user_actions.rs] and the
    user-action checks of [validation.rs]: the request and resolution rows, the
    agreement of their columns, the agreement of a resolution with its request,
    the effective status of a record, the reads and the five mutations.

    Rows are kept in decoded form and a read checks them the way the decoder
    does.  A JSON column decodes to the value it encodes exactly when the
    instants inside it survive their RFC 3339 text ([text_roundtrips]); the
    remaining fields are text, numbers and closed enums, which serde restores.
    The unique keys and the foreign key of a resolution are checks; foreign keys
    into the task and change-unit tables are not modelled. *)

From S2P Require Import Prelude Text Values Schema Clock TicketStore Commit UserActionShape.

(** ** Records *)

Inductive UserActionChannelKind := Cli.
#[export] Instance UserActionChannelKind_eq_dec : EqDecision UserActionChannelKind.
Proof. solve_decision. Defined.

Definition verification_basis (c : UserActionChannelKind) : UserActionVerificationBasis :=
  match c with Cli => CliDirectUserChannel end.

Record PersistedUserActionRequest := {
  pr_body : UserActionRequestBody;
  pr_required_for : list UserActionRequiredFor;
  pr_expires_at : option UtcTimestamp;
}.

Inductive PersistedUserActionRequestMetadata :=
| MetaShaping (created_by : MethodName) (shaping_checkpoint_id shaping_gap_id : string)
    (reauthorizes_application_id : option string)
| MetaReconciliation (created_by : MethodName) (unrecorded_change_id : string)
| MetaDirectRequest.

Record UserActionRequestInsert := {
  rq_user_action_request_id : string;
  rq_task_id : string;
  rq_change_unit_id : option string;
  rq_action_kind : UserActionKind;
  rq_request : PersistedUserActionRequest;
  rq_basis : UserActionBasis;
  rq_basis_status : UserActionBasisStatus;
  rq_required_for : list UserActionRequiredFor;
  rq_requested_by_actor_source : ActorSource;
  rq_source_method : MethodName;
  rq_source_idempotency_key : string;
  rq_requested_at : UtcTimestamp;
  rq_expires_at : option UtcTimestamp;
  rq_metadata : PersistedUserActionRequestMetadata;
}.

Record UserActionResolutionInsert := {
  rs_user_action_resolution_id : string;
  rs_user_action_request_id : string;
  rs_action_kind : UserActionKind;
  rs_channel_kind : UserActionChannelKind;
  rs_channel_submission_id : string;
  rs_resolution : UserActionResolutionBody;
  rs_resolved_by_actor_source : ActorSource;
  rs_resolved_verification_basis : UserActionVerificationBasis;
  rs_resolved_assurance_level : string;
  rs_resolved_at : UtcTimestamp;
}.

Record UserActionBasisUpdate := {
  bu_user_action_request_id : string;
  bu_basis : UserActionBasis;
  bu_basis_status : UserActionBasisStatus;
}.

Record UserActionBasisStatusMark := {
  bm_user_action_request_ids : list string;
  bm_basis_status : UserActionBasisStatus;
}.

Record UserActionInvalidation := {
  ui_task_id : string;
  ui_action_kinds : list UserActionKind;
  ui_preserved_request_ids : list string;
}.

Inductive UserActionMutation :=
| InsertRequest (input : UserActionRequestInsert)
| InsertResolution (input : UserActionResolutionInsert)
| UpdateBasis (input : UserActionBasisUpdate)
| MarkBasesStatus (input : UserActionBasisStatusMark)
| MarkSupersededOrStale (input : UserActionInvalidation).

Record StoredUserActionRequest := {
  ur_project_id : string;
  ur_user_action_request_id : string;
  ur_task_id : string;
  ur_change_unit_id : option string;
  ur_action_kind : UserActionKind;
  ur_request : PersistedUserActionRequest;
  ur_basis : UserActionBasis;
  ur_basis_status : UserActionBasisStatus;
  ur_required_for : list UserActionRequiredFor;
  ur_requested_by_actor_source : ActorSource;
  ur_source_method : MethodName;
  ur_source_idempotency_key : string;
  ur_requested_at : UtcTimestamp;
  ur_expires_at : option UtcTimestamp;
  ur_metadata : PersistedUserActionRequestMetadata;
}.

Record StoredUserActionResolution := {
  us_project_id : string;
  us_user_action_resolution_id : string;
  us_user_action_request_id : string;
  us_action_kind : UserActionKind;
  us_channel_kind : UserActionChannelKind;
  us_channel_submission_id : string;
  us_resolution : UserActionResolutionBody;
  us_resolved_by_actor_source : ActorSource;
  us_resolved_verification_basis : UserActionVerificationBasis;
  us_resolved_assurance_level : string;
  us_resolved_at : UtcTimestamp;
}.

Record StoredUserActionRecordSet := {
  set_request : StoredUserActionRequest;
  set_resolution : option StoredUserActionResolution;
  set_status : UserActionStatus;
}.

Record UserActionTable := {
  ut_project_id : string;
  ut_requests : gmap string StoredUserActionRequest;
  ut_resolutions : gmap string StoredUserActionResolution;
}.

Definition set_requests (s : UserActionTable) (requests : gmap string StoredUserActionRequest)
    : UserActionTable :=
  {| ut_project_id := ut_project_id s; ut_requests := requests;
     ut_resolutions := ut_resolutions s |}.

(** [user_action_basis_with_status]. *)
Definition with_compatibility_status (status : UserActionBasisStatus) (c : UserActionBasisCoordinates)
    : UserActionBasisCoordinates :=
  {| co_task_id := co_task_id c; co_change_unit_id := co_change_unit_id c;
     co_scope_revision := co_scope_revision c; co_baseline_ref := co_baseline_ref c;
     co_created_at_state_version := co_created_at_state_version c;
     co_compatibility_status := status |}.

Definition user_action_basis_with_status (basis : UserActionBasis) (status : UserActionBasisStatus)
    : UserActionBasis :=
  match basis with
  | BasisChoice choice =>
      BasisChoice {| ch_coordinates := with_compatibility_status status (ch_coordinates choice);
                     ch_close_basis_revision := ch_close_basis_revision choice;
                     ch_result_refs := ch_result_refs choice;
                     ch_residual_risk_ids := ch_residual_risk_ids choice;
                     ch_sensitive_action_scope := ch_sensitive_action_scope choice |}
  | BasisEvidenceObservation observation =>
      BasisEvidenceObservation
        {| eo_coordinates := with_compatibility_status status (eo_coordinates observation);
           eo_target_candidates := eo_target_candidates observation;
           eo_artifact_candidates := eo_artifact_candidates observation |}
  end.

Definition rebased_coordinates (scope_revision : N) (change_unit_id : option ChangeUnitId)
    (baseline_ref : option BaselineRef) (c : UserActionBasisCoordinates)
    : UserActionBasisCoordinates :=
  {| co_task_id := co_task_id c; co_change_unit_id := change_unit_id;
     co_scope_revision := scope_revision; co_baseline_ref := baseline_ref;
     co_created_at_state_version := co_created_at_state_version c;
     co_compatibility_status := BasisCurrent |}.

(** [rebase_shaping_user_action_basis] of [methods/update_scope.rs]: the basis a
    scope update keeps for the actions of a preserved checkpoint. *)
Definition rebase_shaping_user_action_basis (basis : UserActionBasis) (scope_revision : N)
    (change_unit_id : option ChangeUnitId) (baseline_ref : option BaselineRef) : UserActionBasis :=
  let rebase := rebased_coordinates scope_revision change_unit_id baseline_ref in
  match basis with
  | BasisChoice choice =>
      BasisChoice {| ch_coordinates := rebase (ch_coordinates choice);
                     ch_close_basis_revision := ch_close_basis_revision choice;
                     ch_result_refs := ch_result_refs choice;
                     ch_residual_risk_ids := ch_residual_risk_ids choice;
                     ch_sensitive_action_scope := ch_sensitive_action_scope choice |}
  | BasisEvidenceObservation observation =>
      BasisEvidenceObservation
        {| eo_coordinates := rebase (eo_coordinates observation);
           eo_target_candidates := eo_target_candidates observation;
           eo_artifact_candidates := eo_artifact_candidates observation |}
  end.

(** ** Validation *)

(** [iter().enumerate().any(|(i, x)| items[..i].contains(x))]. *)
Fixpoint repeats_any {A} `{EqDecision A} (seen items : list A) : bool :=
  match items with
  | [] => false
  | x :: rest => contains x seen || repeats_any (seen ++ [x]) rest
  end.

Definition validate_user_action_required_for (required_for : list UserActionRequiredFor)
    (field : string) : result unit StoreError :=
  ensure (list_is_empty required_for || repeats_any [] required_for)
    (InvalidInput (field +:+ " must be nonempty and contain unique values")).

Inductive UserActionTimestampOrderFailure :=
| ExpiryNotAfterRequest | ResolutionBeforeRequest | ResolutionAtOrAfterExpiry.

Definition validate_user_action_timestamp_order (requested_at : UtcTimestamp)
    (expires_at resolved_at : option UtcTimestamp) : result unit UserActionTimestampOrderFailure :=
  let? _ := ensure (is_some_and expires_at (λ expires_at, ts_le expires_at requested_at))
              ExpiryNotAfterRequest in
  match resolved_at with
  | None => Ok tt
  | Some resolved_at =>
      let? _ := ensure (ts_lt resolved_at requested_at) ResolutionBeforeRequest in
      ensure (is_some_and expires_at (λ expires_at, ts_ge resolved_at expires_at))
        ResolutionAtOrAfterExpiry
  end.

(** The origins a source method may have. *)
Definition origin_matches_source (source_method : MethodName)
    (metadata : PersistedUserActionRequestMetadata) : bool :=
  match source_method, metadata with
  | MRequestUserAction, MetaDirectRequest => true
  | MReconcileChanges, MetaReconciliation _ _ => true
  | MRecordShapingCheckpoint, MetaShaping _ _ _ _ => true
  | _, _ => false
  end.

Record UserActionRequestColumnFacts := {
  fa_task_id : string;
  fa_change_unit_id : option string;
  fa_request : PersistedUserActionRequest;
  fa_basis : UserActionBasis;
  fa_required_for : list UserActionRequiredFor;
  fa_requested_at : UtcTimestamp;
  fa_expires_at : option UtcTimestamp;
  fa_action_kind : UserActionKind;
  fa_basis_status : UserActionBasisStatus;
}.

Record UserActionRequestColumnFailure := { fail_logical_column : string; fail_detail : string }.

Definition column_failure (logical_column detail : string) : UserActionRequestColumnFailure :=
  {| fail_logical_column := logical_column; fail_detail := detail |}.

(** The request body and the basis belong to one action family and agree. *)
Definition matching_family (body : UserActionRequestBody) (basis : UserActionBasis)
    (kind : UserActionKind) : bool :=
  match body, basis with
  | BodyChoice body, BasisChoice basis =>
      (kind <>? EvidenceObservation)
      && (cr_sensitive_action_scope body =? ch_sensitive_action_scope basis)
  | BodyEvidenceObservation body, BasisEvidenceObservation basis =>
      (kind =? EvidenceObservation)
      && (er_target_candidates body =? eo_target_candidates basis)
      && (er_artifact_candidates body =? eo_artifact_candidates basis)
  | _, _ => false
  end.

Definition USER_ACTION_EVIDENCE_OBSERVATION_TTL_MINUTES : Z := 15.

Section user_action_store.
Context `{HC : Chrono} `{HZ : CanonicalSize}.

Definition text_roundtrips (t : UtcTimestamp) : bool :=
  parse_from_rfc3339 (to_rfc3339 t) =? Some t.

Definition scope_roundtrips (scope : option SensitiveActionScope) : bool :=
  is_none_or scope (λ scope, is_none_or (sas_expires_at scope) text_roundtrips).

(** [serde_json::from_str::<PersistedUserActionRequest>] of its own encoding. *)
Definition request_json_decodes (request : PersistedUserActionRequest) : bool :=
  is_none_or (pr_expires_at request) text_roundtrips
  && match pr_body request with
     | BodyChoice choice => scope_roundtrips (cr_sensitive_action_scope choice)
     | BodyEvidenceObservation _ => true
     end.

(** [serde_json::from_str::<UserActionBasis>] of its own encoding. *)
Definition basis_json_decodes (basis : UserActionBasis) : bool :=
  scope_roundtrips (sensitive_action_scope basis).

(** [validate_timestamp] of the text of an instant. *)
Definition validate_timestamp (field : string) (t : UtcTimestamp) : result unit StoreError :=
  ensure (negb (representable t)) (InvalidInput (field +:+ " must be a valid RFC 3339 timestamp")).

(** [validate_stored_timestamp] of the text of an instant. *)
Definition validate_stored_timestamp (field : string) (t : UtcTimestamp) : result unit StoreError :=
  ensure (negb (representable t)) (CorruptStoredValue field).

Definition validate_persisted_user_action_request (field : string)
    (request : PersistedUserActionRequest) : result unit StoreError :=
  let? _ := ensure (negb (request_json_decodes request))
              (InvalidInput (field +:+ " must be persisted user-action request JSON")) in
  let? _ := map_err (λ error, InvalidInput
                (field +:+ " violates the persisted user-action bounds: " +:+ shape_error_text error))
              (body_validate_bounds (pr_body request)) in
  validate_user_action_required_for (pr_required_for request) field.

Definition validate_persisted_user_action_resolution (field : string)
    (resolution : UserActionResolutionBody) : result unit StoreError :=
  map_err (λ error, InvalidInput
      (field +:+ " violates the persisted user-action bounds: " +:+ shape_error_text error))
    (resolution_validate resolution).

(** [validate_user_action_request_column_agreement_inner]. *)
Definition request_column_agreement (facts : UserActionRequestColumnFacts)
    : result unit UserActionRequestColumnFailure :=
  let request := fa_request facts in
  let basis := fa_basis facts in
  let coordinates := coordinates basis in
  let? _ := ensure (negb (request_json_decodes request))
              (column_failure "request_json"
                 "user_action_requests.request_json must be persisted user-action request JSON") in
  let? _ := ensure (negb (basis_json_decodes basis))
              (column_failure "basis_json"
                 "user_action_requests.basis_json must be UserActionBasis JSON") in
  let? _ := ensure (negb (text_roundtrips (fa_requested_at facts)))
              (column_failure "requested_at"
                 "user_action_requests.requested_at must be a valid RFC 3339 timestamp") in
  let? _ := ensure (negb (is_none_or (fa_expires_at facts) text_roundtrips))
              (column_failure "expires_at"
                 "user_action_requests.expires_at must be a valid RFC 3339 timestamp") in
  let? _ := map_err (λ error, column_failure "request_json"
                ("user_action_requests.request_json violates the persisted user-action bounds: "
                 +:+ shape_error_text error)) (body_validate_bounds (pr_body request)) in
  let? _ := map_err (λ _, column_failure "request_json"
                "user_action_requests.request_json required_for must be nonempty and contain unique values")
              (validate_user_action_required_for (pr_required_for request)
                 "user_action_requests.request_json") in
  let? _ := map_err (λ _, column_failure "required_for_json"
                "user_action_requests.required_for_json must be nonempty and contain unique values")
              (validate_user_action_required_for (fa_required_for facts)
                 "user_action_requests.required_for_json") in
  let? _ := ensure (body_action_kind (pr_body request) <>? fa_action_kind facts)
              (column_failure "request_json"
                 "user-action request JSON must agree with its action kind") in
  let? _ := ensure ((compatibility_status basis <>? fa_basis_status facts)
                    || (co_task_id coordinates <>? fa_task_id facts)
                    || (co_change_unit_id coordinates <>? fa_change_unit_id facts)
                    || negb (matching_family (pr_body request) basis (fa_action_kind facts)))
              (column_failure "basis_json"
                 "user-action basis JSON must agree with its request and scalar storage columns") in
  let? _ := ensure (pr_required_for request <>? fa_required_for facts)
              (column_failure "required_for_json"
                 "user-action required-for JSON must agree with the canonical request") in
  let? _ := ensure (negb (forallb (is_compatible_with_required_for (fa_action_kind facts))
                            (pr_required_for request)))
              (column_failure "request_json"
                 "user_action_requests.request_json required_for contains an operation incompatible with its action kind") in
  let? _ := ensure (pr_expires_at request <>? fa_expires_at facts)
              (column_failure "request_json"
                 "user-action request JSON must agree with the stored expiry") in
  if fa_action_kind facts =? EvidenceObservation then
    let failure := column_failure "expires_at"
      "evidence-observation user_action_requests.expires_at must be exactly 15 minutes after user_action_requests.requested_at" in
    let? expected_expires_at := ok_or
      (checked_add (fa_requested_at facts) (minutes USER_ACTION_EVIDENCE_OBSERVATION_TTL_MINUTES))
      failure in
    ensure (fa_expires_at facts <>? Some expected_expires_at) failure
  else
    map_err (λ _, column_failure "expires_at"
        "user_action_requests.expires_at must be later than user_action_requests.requested_at")
      (validate_user_action_timestamp_order (fa_requested_at facts) (fa_expires_at facts) None).

Definition validate_user_action_request_column_agreement (facts : UserActionRequestColumnFacts)
    : result unit StoreError :=
  map_err (λ failure, InvalidInput (fail_detail failure)) (request_column_agreement facts).

Definition validate_stored_user_action_request_column_agreement (record_ref : string)
    (facts : UserActionRequestColumnFacts) : result unit StoreError :=
  map_err (λ failure, CorruptOwnerStateValue "user_action_requests" record_ref
                        (fail_logical_column failure))
    (request_column_agreement facts).

Definition validate_user_action_resolution_column_agreement (resolution : UserActionResolutionBody)
    (action_kind : UserActionKind) : result unit StoreError :=
  let? _ := validate_persisted_user_action_resolution "user_action_resolutions.resolution_json"
              resolution in
  let agrees := match resolution with
                | ResolutionChoice _ _ _ _ _ => action_kind <>? EvidenceObservation
                | ResolutionEvidenceObservation _ => action_kind =? EvidenceObservation
                end in
  ensure (negb agrees)
    (InvalidInput "user-action resolution JSON must agree with its action kind").

Definition validate_user_action_resolution_provenance (channel_kind : UserActionChannelKind)
    (resolved_by_actor_source : string) (resolved_verification_basis : UserActionVerificationBasis)
    (resolved_assurance_level : string) : result unit StoreError :=
  ensure ((resolved_by_actor_source <>? "local_user")
          || (resolved_verification_basis <>? verification_basis channel_kind)
          || str_is_empty (trim resolved_assurance_level))
    (InvalidInput "user-action resolution provenance must match its verified channel").

(** ** Decoding *)

Definition request_facts (row : StoredUserActionRequest) : UserActionRequestColumnFacts :=
  {| fa_task_id := ur_task_id row; fa_change_unit_id := ur_change_unit_id row;
     fa_request := ur_request row; fa_basis := ur_basis row;
     fa_required_for := ur_required_for row; fa_requested_at := ur_requested_at row;
     fa_expires_at := ur_expires_at row; fa_action_kind := ur_action_kind row;
     fa_basis_status := ur_basis_status row |}.

Definition decode_user_action_request_record (row : StoredUserActionRequest)
    : result StoredUserActionRequest StoreError :=
  let record_id := ur_user_action_request_id row in
  let corrupt := CorruptOwnerStateValue "user_action_requests" record_id in
  let? _ := ensure (negb (contains (ur_source_method row)
                            [MRequestUserAction; MReconcileChanges; MRecordShapingCheckpoint]))
              (corrupt "source_method") in
  let? _ := map_err (λ _, corrupt "source_idempotency_key")
              (validate_identifier "user_action_requests.source_idempotency_key"
                 (ur_source_idempotency_key row)) in
  let? _ := validate_stored_timestamp "user_action_requests.requested_at" (ur_requested_at row) in
  let? _ := match ur_expires_at row with
            | Some expires_at => validate_stored_timestamp "user_action_requests.expires_at" expires_at
            | None => Ok tt
            end in
  let? _ := validate_stored_user_action_request_column_agreement record_id (request_facts row) in
  let? requested_by := ok_or
    (actor_from_str (actor_to_canonical_string (ur_requested_by_actor_source row)))
    (corrupt "requested_by_actor_source") in
  let? _ := ensure (negb (origin_matches_source (ur_source_method row) (ur_metadata row)))
              (corrupt "source_method") in
  Ok {| ur_project_id := ur_project_id row; ur_user_action_request_id := record_id;
        ur_task_id := ur_task_id row; ur_change_unit_id := ur_change_unit_id row;
        ur_action_kind := ur_action_kind row; ur_request := ur_request row;
        ur_basis := ur_basis row; ur_basis_status := ur_basis_status row;
        ur_required_for := ur_required_for row; ur_requested_by_actor_source := requested_by;
        ur_source_method := ur_source_method row;
        ur_source_idempotency_key := ur_source_idempotency_key row;
        ur_requested_at := ur_requested_at row; ur_expires_at := ur_expires_at row;
        ur_metadata := ur_metadata row |}.

Definition decode_user_action_resolution_record (row : StoredUserActionResolution)
    : result StoredUserActionResolution StoreError :=
  let record_id := us_user_action_resolution_id row in
  let actor := actor_to_canonical_string (us_resolved_by_actor_source row) in
  let corrupt := CorruptOwnerStateValue "user_action_resolutions" record_id in
  let? _ := map_err (λ _, corrupt "resolution_json")
              (validate_user_action_resolution_column_agreement (us_resolution row)
                 (us_action_kind row)) in
  let? _ := ensure (negb (is_ok (validate_channel_submission_id (us_channel_submission_id row)))
                    || negb (is_ok (validate_user_action_resolution_provenance (us_channel_kind row)
                                      actor (us_resolved_verification_basis row)
                                      (us_resolved_assurance_level row))))
              (corrupt "resolved_verification_basis") in
  let? _ := validate_stored_timestamp "user_action_resolutions.resolved_at" (us_resolved_at row) in
  let? _ := map_err (λ _, CorruptOwnerStateJson "user_action_resolutions" record_id "resolution_json")
              (resolution_validate (us_resolution row)) in
  let? resolved_by := ok_or (actor_from_str actor) (corrupt "resolved_by_actor_source") in
  Ok {| us_project_id := us_project_id row; us_user_action_resolution_id := record_id;
        us_user_action_request_id := us_user_action_request_id row;
        us_action_kind := us_action_kind row; us_channel_kind := us_channel_kind row;
        us_channel_submission_id := us_channel_submission_id row;
        us_resolution := us_resolution row; us_resolved_by_actor_source := resolved_by;
        us_resolved_verification_basis := us_resolved_verification_basis row;
        us_resolved_assurance_level := us_resolved_assurance_level row;
        us_resolved_at := us_resolved_at row |}.

(** ** Agreement of a resolution with its request *)

Definition choice_resolution_agrees (request : StoredUserActionRequest)
    (choice : UserActionChoiceRequestBody) (choice_basis : UserActionChoiceBasis)
    (selected_option_id : UserActionOptionId) (machine_action : UserActionOptionAction)
    (resolution_outcome : JudgmentResolutionOutcome) (accepted_risk_ids : list RiskId) : bool :=
  is_some_and (List.find (λ option, opt_option_id option =? selected_option_id) (cr_options choice))
    (λ option,
       let expected_risk_ids :=
         if (ur_action_kind request =? ResidualRiskAcceptance) && (opt_machine_action option =? Accept)
         then ch_residual_risk_ids choice_basis else [] in
       (opt_machine_action option =? machine_action)
       && (opt_resolution_outcome option =? resolution_outcome)
       && (accepted_risk_ids =? expected_risk_ids)).

Definition observation_resolution_agrees (request : UserActionEvidenceObservationRequestBody)
    (basis : UserActionEvidenceObservationBasis) (observation : UserActionEvidenceObservation) : bool :=
  (er_target_candidates request =? eo_target_candidates basis)
  && (er_artifact_candidates request =? eo_artifact_candidates basis)
  && contains (ob_target observation) (er_target_candidates request)
  && forallb (λ selected, existsb (λ candidate, candidate =? selected) (er_artifact_candidates request))
       (ob_output_artifact_refs observation)
  && (length (bts_of_list (ar_artifact_id <$> ob_output_artifact_refs observation))
      =? length (ob_output_artifact_refs observation))
  && relevance_is_assessed (ob_relevance_status observation)
  && negb (str_is_empty (trim (ob_summary observation))).

Definition resolution_agrees (request : StoredUserActionRequest)
    (resolution : StoredUserActionResolution) : bool :=
  match pr_body (ur_request request), ur_basis request, us_resolution resolution with
  | BodyChoice choice, BasisChoice choice_basis,
    ResolutionChoice selected_option_id machine_action resolution_outcome _ accepted_risk_ids =>
      choice_resolution_agrees request choice choice_basis selected_option_id machine_action
        resolution_outcome accepted_risk_ids
  | BodyEvidenceObservation observation_request, BasisEvidenceObservation observation_basis,
    ResolutionEvidenceObservation observation =>
      observation_resolution_agrees observation_request observation_basis observation
  | _, _, _ => false
  end.

Definition validate_stored_user_action_timestamp_order (request : StoredUserActionRequest)
    (resolution : StoredUserActionResolution) : result unit StoreError :=
  map_err (λ failure,
      match failure with
      | ExpiryNotAfterRequest =>
          CorruptOwnerStateValue "user_action_requests" (ur_user_action_request_id request) "expires_at"
      | ResolutionBeforeRequest | ResolutionAtOrAfterExpiry =>
          CorruptOwnerStateValue "user_action_resolutions" (us_user_action_resolution_id resolution)
            "resolved_at"
      end)
    (validate_user_action_timestamp_order (ur_requested_at request) (ur_expires_at request)
       (Some (us_resolved_at resolution))).

Definition validate_user_action_request_resolution_pair (request : StoredUserActionRequest)
    (resolution : StoredUserActionResolution) : result unit StoreError :=
  let corrupt := CorruptOwnerStateValue "user_action_resolutions"
                   (us_user_action_resolution_id resolution) in
  let? _ := ensure (ur_project_id request <>? us_project_id resolution) (corrupt "project_id") in
  let? _ := ensure (ur_user_action_request_id request <>? us_user_action_request_id resolution)
              (corrupt "user_action_request_id") in
  let? _ := ensure (ur_action_kind request <>? us_action_kind resolution) (corrupt "action_kind") in
  let? _ := validate_stored_user_action_timestamp_order request resolution in
  ensure (negb (resolution_agrees request resolution)) (corrupt "resolution_json").

(** [effective_user_action_status] of the store. *)
Definition stored_effective_status (request : StoredUserActionRequest)
    (resolution : option StoredUserActionResolution) (now : UtcTimestamp)
    : result UserActionStatus StoreError :=
  let? _ := match resolution with
            | Some resolution =>
                ensure (ts_lt now (us_resolved_at resolution))
                  (CorruptOwnerStateValue "user_action_resolutions"
                     (us_user_action_resolution_id resolution) "resolved_at")
            | None => Ok tt
            end in
  ok_or (effective_user_action_status (ur_basis_status request) (ur_requested_at request)
           (ur_expires_at request) (is_some resolution) now)
    (CorruptOwnerStateValue "user_action_requests" (ur_user_action_request_id request) "requested_at").

(** ** Reads *)

Definition user_action_request_record (s : UserActionTable) (request_id : string)
    : result (option StoredUserActionRequest) StoreError :=
  try_option decode_user_action_request_record (ut_requests s !! request_id).

(** The row a unique key selects. *)
Definition find_resolution (s : UserActionTable) (p : StoredUserActionResolution → bool)
    : option StoredUserActionResolution :=
  List.find p (map_to_list (ut_resolutions s)).*2.

Definition user_action_resolution_record_by_request (s : UserActionTable) (request_id : string)
    : result (option StoredUserActionResolution) StoreError :=
  try_option decode_user_action_resolution_record
    (find_resolution s (λ row, us_user_action_request_id row =? request_id)).

Definition validate_resolution_with_stored_request (s : UserActionTable)
    (resolution : option StoredUserActionResolution)
    : result (option StoredUserActionResolution) StoreError :=
  match resolution with
  | None => Ok None
  | Some resolution =>
      let? request := user_action_request_record s (us_user_action_request_id resolution) in
      let? request := ok_or request
        (CorruptOwnerStateValue "user_action_resolutions" (us_user_action_resolution_id resolution)
           "user_action_request_id") in
      let? _ := validate_user_action_request_resolution_pair request resolution in
      Ok (Some resolution)
  end.

Definition user_action_resolution_record (s : UserActionTable) (resolution_id : string)
    : result (option StoredUserActionResolution) StoreError :=
  let? resolution := try_option decode_user_action_resolution_record
                       (ut_resolutions s !! resolution_id) in
  validate_resolution_with_stored_request s resolution.

Definition user_action_resolution_for_channel_submission (s : UserActionTable)
    (channel_kind : UserActionChannelKind) (channel_submission_id : string)
    : result (option StoredUserActionResolution) StoreError :=
  let? resolution := try_option decode_user_action_resolution_record
    (find_resolution s (λ row, (us_channel_kind row =? channel_kind)
                               && (us_channel_submission_id row =? channel_submission_id))) in
  validate_resolution_with_stored_request s resolution.

Definition effective_user_action_record (s : UserActionTable) (request_id : string)
    (now : UtcTimestamp) : result (option StoredUserActionRecordSet) StoreError :=
  let? request := user_action_request_record s request_id in
  match request with
  | None => Ok None
  | Some request =>
      let? resolution := user_action_resolution_record_by_request s request_id in
      let? _ := match resolution with
                | Some resolution => validate_user_action_request_resolution_pair request resolution
                | None => Ok tt
                end in
      let? status := stored_effective_status request resolution now in
      Ok (Some {| set_request := request; set_resolution := resolution; set_status := status |})
  end.

(** [ORDER BY requested_at, user_action_request_id]. *)
Definition request_ids_of_task (s : UserActionTable) (task_id : string) : list string :=
  ur_user_action_request_id <$>
    sort_by_key (λ row, (ur_requested_at row, ur_user_action_request_id row))
      (List.filter (λ row, ur_task_id row =? task_id) (map_to_list (ut_requests s)).*2).

(** One row of the listing loop. *)
Definition listed_user_action_record (s : UserActionTable) (request_id : string) (now : UtcTimestamp)
    : result StoredUserActionRecordSet StoreError :=
  let? record := effective_user_action_record s request_id now in
  ok_or record (SchemaInvariant
    ("user action request " +:+ request_id +:+ " disappeared during read")).

Definition effective_user_action_records_for_task (s : UserActionTable) (task_id : string)
    (status_filter : option UserActionStatus) (now : UtcTimestamp)
    : result (list StoredUserActionRecordSet) StoreError :=
  let? records := try_map (λ request_id, listed_user_action_record s request_id now)
                    (request_ids_of_task s task_id) in
  Ok (List.filter (λ record, is_none_or status_filter (λ expected, set_status record =? expected))
        records).

Definition effective_user_action_records_for_task_and_kind (s : UserActionTable) (task_id : string)
    (action_kind : UserActionKind) (status_filter : UserActionStatus) (now : UtcTimestamp)
    : result (list StoredUserActionRecordSet) StoreError :=
  let? records := effective_user_action_records_for_task s task_id None now in
  Ok (List.filter (λ record, (ur_action_kind (set_request record) =? action_kind)
                             && (set_status record =? status_filter)) records).

Definition pending_user_action_records (s : UserActionTable) (task_id : string) (now : UtcTimestamp)
    : result (list StoredUserActionRecordSet) StoreError :=
  effective_user_action_records_for_task s task_id (Some UAPending) now.

Definition resolved_user_action_records (s : UserActionTable) (task_id : string)
    (action_kind : UserActionKind) (now : UtcTimestamp)
    : result (list StoredUserActionRecordSet) StoreError :=
  effective_user_action_records_for_task_and_kind s task_id action_kind UAResolved now.

(** [StoredRecordRef] of a request row. *)
Record StoredRecordRef := {
  srr_record_kind : StateRecordKind;
  srr_record_id : string;
  srr_project_id : string;
  srr_task_id : option string;
  srr_state_version : option N;
}.

Definition request_record_ref (s : UserActionTable) (task_id : string) (state_version : N)
    (record : StoredUserActionRecordSet) : StoredRecordRef :=
  {| srr_record_kind := KUserActionRequest;
     srr_record_id := ur_user_action_request_id (set_request record);
     srr_project_id := ut_project_id s; srr_task_id := Some task_id;
     srr_state_version := Some state_version |}.

(** [effective_user_action_refs] at the pending status. *)
Definition pending_user_action_refs (s : UserActionTable) (task_id : string) (state_version : N)
    (now : UtcTimestamp) : result (list StoredRecordRef) StoreError :=
  let? records := effective_user_action_records_for_task s task_id (Some UAPending) now in
  Ok (request_record_ref s task_id state_version <$> records).

Definition non_current_user_action_refs (s : UserActionTable) (task_id : string)
    (action_kind : UserActionKind) (state_version : N) (now : UtcTimestamp)
    : result (list StoredRecordRef) StoreError :=
  let? records := effective_user_action_records_for_task s task_id None now in
  Ok (request_record_ref s task_id state_version <$>
        List.filter (λ record, (ur_action_kind (set_request record) =? action_kind)
                               && contains (set_status record) [UAStale; UASuperseded]) records).

(** ** Projections of an insert *)

Definition insert_facts (input : UserActionRequestInsert) : UserActionRequestColumnFacts :=
  {| fa_task_id := rq_task_id input; fa_change_unit_id := rq_change_unit_id input;
     fa_request := rq_request input; fa_basis := rq_basis input;
     fa_required_for := rq_required_for input; fa_requested_at := rq_requested_at input;
     fa_expires_at := rq_expires_at input; fa_action_kind := rq_action_kind input;
     fa_basis_status := rq_basis_status input |}.

(** The row an accepted insert stores. *)
Definition request_row (project_id : string) (input : UserActionRequestInsert)
    : StoredUserActionRequest :=
  {| ur_project_id := project_id; ur_user_action_request_id := rq_user_action_request_id input;
     ur_task_id := rq_task_id input; ur_change_unit_id := rq_change_unit_id input;
     ur_action_kind := rq_action_kind input; ur_request := rq_request input;
     ur_basis := rq_basis input; ur_basis_status := rq_basis_status input;
     ur_required_for := rq_required_for input;
     ur_requested_by_actor_source := rq_requested_by_actor_source input;
     ur_source_method := rq_source_method input;
     ur_source_idempotency_key := rq_source_idempotency_key input;
     ur_requested_at := rq_requested_at input; ur_expires_at := rq_expires_at input;
     ur_metadata := rq_metadata input |}.

Definition resolution_row (project_id : string) (input : UserActionResolutionInsert)
    : StoredUserActionResolution :=
  {| us_project_id := project_id;
     us_user_action_resolution_id := rs_user_action_resolution_id input;
     us_user_action_request_id := rs_user_action_request_id input;
     us_action_kind := rs_action_kind input; us_channel_kind := rs_channel_kind input;
     us_channel_submission_id := rs_channel_submission_id input;
     us_resolution := rs_resolution input;
     us_resolved_by_actor_source := rs_resolved_by_actor_source input;
     us_resolved_verification_basis := rs_resolved_verification_basis input;
     us_resolved_assurance_level := rs_resolved_assurance_level input;
     us_resolved_at := rs_resolved_at input |}.

Definition validate_optional_identifier (field : string) (value : option string)
    : result unit StoreError :=
  match value with Some value => validate_identifier field value | None => Ok tt end.

Definition stored_user_action_request_from_insert (project_id : string)
    (input : UserActionRequestInsert) : result StoredUserActionRequest StoreError :=
  let? _ := ensure (rq_basis_status input <>? BasisCurrent)
              (InvalidInput "a newly constructed UserAction request must have a current basis") in
  let? _ := validate_identifier "project_id" project_id in
  let? _ := validate_identifier "user_action_request_id" (rq_user_action_request_id input) in
  let? _ := validate_identifier "task_id" (rq_task_id input) in
  let? _ := validate_optional_identifier "change_unit_id" (rq_change_unit_id input) in
  let? _ := validate_user_action_request_column_agreement (insert_facts input) in
  let? _ := ensure (negb (origin_matches_source (rq_source_method input) (rq_metadata input)))
              (InvalidInput "UserAction request origin must match its source method") in
  let? _ := validate_identifier "requested_by_actor_source"
              (actor_to_canonical_string (rq_requested_by_actor_source input)) in
  let? _ := validate_identifier "source_idempotency_key" (rq_source_idempotency_key input) in
  Ok (request_row project_id input).

Definition from_pending_insert (project_id : string) (input : UserActionRequestInsert)
    : result StoredUserActionRecordSet StoreError :=
  let? request := stored_user_action_request_from_insert project_id input in
  Ok {| set_request := request; set_resolution := None; set_status := UAPending |}.

Definition submission_id_error (error : UserActionShapeError) : StoreError :=
  InvalidInput (shape_error_text error).

Definition stored_user_action_resolution_from_insert (project_id : string)
    (input : UserActionResolutionInsert) : result StoredUserActionResolution StoreError :=
  let? _ := validate_identifier "project_id" project_id in
  let? _ := validate_identifier "user_action_resolution_id" (rs_user_action_resolution_id input) in
  let? _ := validate_identifier "user_action_request_id" (rs_user_action_request_id input) in
  let? _ := map_err submission_id_error
              (validate_channel_submission_id (rs_channel_submission_id input)) in
  let? _ := validate_user_action_resolution_column_agreement (rs_resolution input)
              (rs_action_kind input) in
  let? _ := validate_user_action_resolution_provenance (rs_channel_kind input)
              (actor_to_canonical_string (rs_resolved_by_actor_source input))
              (rs_resolved_verification_basis input) (rs_resolved_assurance_level input) in
  Ok (resolution_row project_id input).

(** [StoredUserActionRecordSet::with_resolution]. *)
Definition with_resolution (record : StoredUserActionRecordSet) (input : UserActionResolutionInsert)
    (now : UtcTimestamp) : result StoredUserActionRecordSet StoreError :=
  let? _ := ensure (is_some (set_resolution record))
              (InvalidInput "a UserAction request cannot have more than one resolution") in
  let? resolution := stored_user_action_resolution_from_insert
                       (ur_project_id (set_request record)) input in
  let? _ := map_err (λ _, InvalidInput "UserAction resolution does not match the validated request")
              (validate_user_action_request_resolution_pair (set_request record) resolution) in
  let? status := map_err
    (λ _, InvalidInput "UserAction resolution is not valid at the supplied instant")
    (stored_effective_status (set_request record) (Some resolution) now) in
  Ok {| set_request := set_request record; set_resolution := Some resolution; set_status := status |}.

(** ** Mutations *)

Definition request_rows (s : UserActionTable) : list StoredUserActionRequest :=
  (map_to_list (ut_requests s)).*2.

Definition resolution_rows (s : UserActionTable) : list StoredUserActionResolution :=
  (map_to_list (ut_resolutions s)).*2.

Definition insert_user_action_request (s : UserActionTable) (input : UserActionRequestInsert)
    : result UserActionTable StoreError :=
  let? _ := validate_identifier "user_action_request_id" (rq_user_action_request_id input) in
  let? _ := validate_identifier "task_id" (rq_task_id input) in
  let? _ := validate_optional_identifier "change_unit_id" (rq_change_unit_id input) in
  let? _ := validate_persisted_user_action_request "user_action_requests.request_json"
              (rq_request input) in
  let? _ := ensure (negb (basis_json_decodes (rq_basis input)))
              (InvalidInput "user_action_requests.basis_json must be UserActionBasis JSON") in
  let? _ := validate_user_action_required_for (rq_required_for input)
              "user_action_requests.required_for_json" in
  let? _ := validate_identifier "requested_by_actor_source"
              (actor_to_canonical_string (rq_requested_by_actor_source input)) in
  let? _ := validate_timestamp "requested_at" (rq_requested_at input) in
  let? _ := match rq_expires_at input with
            | Some expires_at => validate_timestamp "expires_at" expires_at
            | None => Ok tt
            end in
  let? _ := ensure (negb (origin_matches_source (rq_source_method input) (rq_metadata input)))
              (InvalidInput "user-action request origin metadata must match source_method") in
  let? _ := validate_identifier "user_action_requests.source_idempotency_key"
              (rq_source_idempotency_key input) in
  let? _ := validate_user_action_request_column_agreement (insert_facts input) in
  let? _ := ensure (is_some (ut_requests s !! rq_user_action_request_id input))
              (ConstraintViolation "user_action_requests.user_action_request_id") in
  let? _ := ensure ((rq_source_method input =? MRequestUserAction)
                    && existsb (λ row, (ur_source_method row =? MRequestUserAction)
                         && (ur_source_idempotency_key row =? rq_source_idempotency_key input))
                         (request_rows s))
              (ConstraintViolation "idx_user_action_requests_direct_origin") in
  Ok (set_requests s (<[rq_user_action_request_id input := request_row (ut_project_id s) input]>
                        (ut_requests s))).

Definition validate_user_action_resolution_timestamp_order_for_insert
    (request : StoredUserActionRequest) (resolved_at : UtcTimestamp) : result unit StoreError :=
  let? _ := ensure (negb (text_roundtrips resolved_at))
              (InvalidInput "user_action_resolutions.resolved_at must be a valid RFC 3339 timestamp") in
  map_err (λ failure,
      match failure with
      | ExpiryNotAfterRequest =>
          CorruptOwnerStateValue "user_action_requests" (ur_user_action_request_id request) "expires_at"
      | ResolutionBeforeRequest => InvalidInput
          "user_action_resolutions.resolved_at must be at or after user_action_requests.requested_at"
      | ResolutionAtOrAfterExpiry => InvalidInput
          "user_action_resolutions.resolved_at must be before user_action_requests.expires_at"
      end)
    (validate_user_action_timestamp_order (ur_requested_at request) (ur_expires_at request)
       (Some resolved_at)).

(** The checks of a resolution against the request it names, when that exists. *)
Definition validate_resolution_against_request (s : UserActionTable)
    (input : UserActionResolutionInsert) : result unit StoreError :=
  let? request := user_action_request_record s (rs_user_action_request_id input) in
  match request with
  | None => Ok tt
  | Some request =>
      let? _ := validate_user_action_resolution_timestamp_order_for_insert request
                  (rs_resolved_at input) in
      map_err (λ _, InvalidInput
          "user-action resolution must exactly preserve its stored request authority")
        (validate_user_action_request_resolution_pair request (resolution_row (ut_project_id s) input))
  end.

Definition insert_user_action_resolution (s : UserActionTable) (input : UserActionResolutionInsert)
    : result UserActionTable StoreError :=
  let? _ := validate_identifier "user_action_resolution_id" (rs_user_action_resolution_id input) in
  let? _ := validate_identifier "user_action_request_id" (rs_user_action_request_id input) in
  let? _ := map_err submission_id_error
              (validate_channel_submission_id (rs_channel_submission_id input)) in
  let? _ := validate_persisted_user_action_resolution "user_action_resolutions.resolution_json"
              (rs_resolution input) in
  let? _ := ensure (rs_resolved_by_actor_source input <>? LocalUser)
              (InvalidInput "user-action resolution actor must be local_user") in
  let? _ := validate_identifier "resolved_assurance_level" (rs_resolved_assurance_level input) in
  let? _ := validate_user_action_resolution_provenance (rs_channel_kind input)
              (actor_to_canonical_string (rs_resolved_by_actor_source input))
              (rs_resolved_verification_basis input) (rs_resolved_assurance_level input) in
  let? _ := validate_timestamp "resolved_at" (rs_resolved_at input) in
  let? _ := validate_user_action_resolution_column_agreement (rs_resolution input)
              (rs_action_kind input) in
  let? _ := validate_resolution_against_request s input in
  let? _ := ensure (is_some (ut_resolutions s !! rs_user_action_resolution_id input))
              (ConstraintViolation "user_action_resolutions.user_action_resolution_id") in
  let? _ := ensure (existsb (λ row, us_user_action_request_id row =? rs_user_action_request_id input)
                      (resolution_rows s))
              (ConstraintViolation "user_action_resolutions.user_action_request_id") in
  let? _ := ensure (existsb (λ row, (us_channel_kind row =? rs_channel_kind input)
                        && (us_channel_submission_id row =? rs_channel_submission_id input))
                      (resolution_rows s))
              (ConstraintViolation "user_action_resolutions.channel_submission_id") in
  let? _ := ensure (negb (is_some_and (ut_requests s !! rs_user_action_request_id input)
                            (λ row, ur_action_kind row =? rs_action_kind input)))
              (ConstraintViolation "user_action_resolutions.user_action_request_id reference") in
  Ok {| ut_project_id := ut_project_id s; ut_requests := ut_requests s;
        ut_resolutions := <[rs_user_action_resolution_id input :=
                              resolution_row (ut_project_id s) input]> (ut_resolutions s) |}.

(** One [UPDATE] of the basis columns. *)
Definition rebased_row (basis : UserActionBasis) (status : UserActionBasisStatus)
    (change_unit_id : option string) (row : StoredUserActionRequest) : StoredUserActionRequest :=
  {| ur_project_id := ur_project_id row; ur_user_action_request_id := ur_user_action_request_id row;
     ur_task_id := ur_task_id row; ur_change_unit_id := change_unit_id;
     ur_action_kind := ur_action_kind row; ur_request := ur_request row;
     ur_basis := basis; ur_basis_status := status; ur_required_for := ur_required_for row;
     ur_requested_by_actor_source := ur_requested_by_actor_source row;
     ur_source_method := ur_source_method row;
     ur_source_idempotency_key := ur_source_idempotency_key row;
     ur_requested_at := ur_requested_at row; ur_expires_at := ur_expires_at row;
     ur_metadata := ur_metadata row |}.

Definition update_user_action_basis (s : UserActionTable) (input : UserActionBasisUpdate)
    : result UserActionTable StoreError :=
  let? _ := validate_identifier "user_action_request_id" (bu_user_action_request_id input) in
  match ut_requests s !! bu_user_action_request_id input with
  | None => Err (SchemaInvariant "user-action basis update changed no rows")
  | Some row =>
      Ok (set_requests s
            (<[bu_user_action_request_id input :=
                 rebased_row (user_action_basis_with_status (bu_basis input) (bu_basis_status input))
                   (bu_basis_status input) (co_change_unit_id (coordinates (bu_basis input))) row]>
               (ut_requests s)))
  end.

(** [UPDATE ... SET basis_status, basis_json] of one row. *)
Definition marked_row (status : UserActionBasisStatus) (row : StoredUserActionRequest)
    : StoredUserActionRequest :=
  rebased_row (user_action_basis_with_status (ur_basis row) status) status (ur_change_unit_id row) row.

Definition basis_decode_error : StoreError :=
  InvalidInput "user-action basis must be UserActionBasis JSON".

Fixpoint mark_bases (requests : gmap string StoredUserActionRequest) (status : UserActionBasisStatus)
    (request_ids : list string) : result (gmap string StoredUserActionRequest) StoreError :=
  match request_ids with
  | [] => Ok requests
  | request_id :: rest =>
      let? _ := validate_identifier "user_action_request_id" request_id in
      let? row := ok_or (requests !! request_id)
                    (SchemaInvariant "selected user-action basis request does not exist") in
      let? _ := ensure (negb (basis_json_decodes (ur_basis row))) basis_decode_error in
      mark_bases (<[request_id := marked_row status row]> requests) status rest
  end.

Definition mark_user_action_bases_status (s : UserActionTable) (input : UserActionBasisStatusMark)
    : result UserActionTable StoreError :=
  match bm_basis_status input with
  | BasisCurrent => Err (InvalidInput
      "selected user-action bases may only be marked stale or superseded")
  | BasisStale | BasisSuperseded =>
      let? requests := mark_bases (ut_requests s) (bm_basis_status input)
                         (bm_user_action_request_ids input) in
      Ok (set_requests s requests)
  end.

(** The status an invalidation gives a request. *)
Definition invalidated_status (s : UserActionTable) (request_id : string) : UserActionBasisStatus :=
  if existsb (λ row, us_user_action_request_id row =? request_id) (resolution_rows s)
  then BasisStale else BasisSuperseded.

Definition invalidation_selects (task_id : string) (action_kind : option UserActionKind)
    (preserved_request_ids : list string) (row : StoredUserActionRequest) : bool :=
  (ur_task_id row =? task_id) && is_none_or action_kind (λ kind, ur_action_kind row =? kind)
  && (ur_basis_status row =? BasisCurrent)
  && negb (contains (ur_user_action_request_id row) preserved_request_ids).

(** [mark_user_actions_superseded_or_stale_for_kind]: the selected rows are
    rewritten independently of each other, so the map is updated pointwise; one
    undecodable basis fails the whole statement sequence. *)
Definition mark_user_actions_superseded_or_stale_for_kind (s : UserActionTable) (task_id : string)
    (preserved_request_ids : list string) (action_kind : option UserActionKind)
    : result UserActionTable StoreError :=
  let selected := invalidation_selects task_id action_kind preserved_request_ids in
  let? _ := ensure (existsb (λ row, selected row && negb (basis_json_decodes (ur_basis row)))
                      (request_rows s)) basis_decode_error in
  Ok (set_requests s
        ((λ row, if selected row
                 then marked_row (invalidated_status s (ur_user_action_request_id row)) row
                 else row) <$> ut_requests s)).

(** A fallible fold over the table. *)
Fixpoint try_fold {A} (f : UserActionTable → A → result UserActionTable StoreError)
    (s : UserActionTable) (l : list A) : result UserActionTable StoreError :=
  match l with
  | [] => Ok s
  | x :: rest => let? s := f s x in try_fold f s rest
  end.

Definition mark_user_actions_superseded_or_stale (s : UserActionTable)
    (input : UserActionInvalidation) : result UserActionTable StoreError :=
  let? _ := validate_identifier "task_id" (ui_task_id input) in
  let? _ := try_map (validate_identifier "preserved_user_action_request_id")
              (ui_preserved_request_ids input) in
  let mark s kind := mark_user_actions_superseded_or_stale_for_kind s (ui_task_id input)
                       (ui_preserved_request_ids input) kind in
  if list_is_empty (ui_action_kinds input) then mark s None
  else try_fold mark s (Some <$> ui_action_kinds input).

(** [UserActionMutation::apply]. *)
Definition apply_user_action_mutation (s : UserActionTable) (m : UserActionMutation)
    : result UserActionTable StoreError :=
  match m with
  | InsertRequest input => insert_user_action_request s input
  | InsertResolution input => insert_user_action_resolution s input
  | UpdateBasis input => update_user_action_basis s input
  | MarkBasesStatus input => mark_user_action_bases_status s input
  | MarkSupersededOrStale input => mark_user_actions_superseded_or_stale s input
  end.
End user_action_store.
