(* ===== verification/UserActionStoreSound.v ===== *)
(** * UserActionStoreSound: the user-action tables keep their promises

    Theorems about [UserActionStore]: what the column agreement of a request and
    the agreement of a resolution with its request mean; the invariant of every
    reachable pair of tables, under which every read succeeds; that requests and
    resolutions are never removed or rewritten and that lost authority never
    comes back; that a request is resolved at most once; and exactly which
    requests an invalidation withdraws. *)

From S2P Require Import Prelude Text Values Schema Clock TicketStore Commit UserActionShape.
From S2P Require Import UserActionStore.

(** Opens the checks of a successful operation. *)
Ltac open_checks H :=
  repeat (rewrite ensure_bind in H; let E := fresh "E" in destruct H as [E H]).

(** ** Lemmas: checks *)

Lemma repeats_any_NoDup {A} `{EqDecision A} (seen items : list A) :
  repeats_any seen items = false ↔ NoDup items ∧ ∀ x, x ∈ items → x ∉ seen.
Proof.
  revert seen. induction items as [|x items IH]; intros seen; cbn [repeats_any].
  { split; [|done]. intros _. split; [constructor|]. by intros x ?%elem_of_nil. }
  rewrite orb_false_iff, contains_not_elem, IH, NoDup_cons. split.
  - intros (Hx & Hnd & Hall). split_and!; [|done|].
    + intros Hin. apply (Hall x Hin). set_solver.
    + intros y [->|Hy]%elem_of_cons; [done|]. specialize (Hall y Hy). set_solver.
  - intros ((Hx & Hnd) & Hall). split_and!; [set_solver|done|].
    intros y Hy. rewrite elem_of_app, list_elem_of_singleton. intros [?| ->]; [|done].
    by apply (Hall y); [apply elem_of_cons; right|].
Qed.

Lemma required_for_Ok l field :
  validate_user_action_required_for l field = Ok tt ↔ l ≠ [] ∧ NoDup l.
Proof.
  unfold validate_user_action_required_for.
  rewrite ensure_Ok, orb_false_iff, list_is_empty_false, repeats_any_NoDup.
  split; [naive_solver|]. intros [??]. split_and!; try done. by intros x _ ?%elem_of_nil.
Qed.

Lemma timestamp_order_Ok requested expires resolved :
  validate_user_action_timestamp_order requested expires resolved = Ok tt ↔
  (∀ e, expires = Some e → (requested < e)%Z) ∧
  ∀ r, resolved = Some r → (requested ≤ r)%Z ∧ ∀ e, expires = Some e → (r < e)%Z.
Proof.
  unfold validate_user_action_timestamp_order. rewrite ensure_bind, is_some_and_false.
  unfold ts_le, ts_lt, ts_ge. split.
  - intros [He Hr]. split; [intros e H; apply He in H; lia|].
    intros r ->. rewrite ensure_bind, ensure_Ok, is_some_and_false in Hr.
    destruct Hr as [Hr Hre]. split; [lia|]. intros e H. apply Hre in H. lia.
  - intros [He Hr]. split; [intros e H; apply He in H; lia|]. destruct resolved as [r|]; [|done].
    destruct (Hr r eq_refl) as [H1 H2]. rewrite ensure_bind, ensure_Ok, is_some_and_false.
    split; [lia|]. intros e H. apply H2 in H. lia.
Qed.

Section user_action_store.
Context `{HC : Chrono} `{HZ : CanonicalSize}.

Lemma representable_roundtrips t : representable t = true → text_roundtrips t = true.
Proof.
  unfold representable, text_roundtrips. destruct (negb _); [done|].
  destruct (parse_from_rfc3339 _); [|done]. intros Ht. breflect. subst. by rewrite eqb_refl.
Qed.

(** The columns of a request row say one thing. *)
Definition expiry_ok (f : UserActionRequestColumnFacts) : Prop :=
  if decide (fa_action_kind f = EvidenceObservation)
  then ∃ e, checked_add (fa_requested_at f) (minutes USER_ACTION_EVIDENCE_OBSERVATION_TTL_MINUTES)
            = Some e ∧ fa_expires_at f = Some e
  else ∀ e, fa_expires_at f = Some e → (fa_requested_at f < e)%Z.

Record columns_agree (f : UserActionRequestColumnFacts) : Prop := {
  ca_request_decodes : request_json_decodes (fa_request f) = true;
  ca_basis_decodes : basis_json_decodes (fa_basis f) = true;
  ca_requested_at : text_roundtrips (fa_requested_at f) = true;
  ca_expires_at : is_none_or (fa_expires_at f) text_roundtrips = true;
  ca_bounds : body_validate_bounds (pr_body (fa_request f)) = Ok tt;
  ca_required : fa_required_for f ≠ [] ∧ NoDup (fa_required_for f);
  ca_kind : body_action_kind (pr_body (fa_request f)) = fa_action_kind f;
  ca_status : compatibility_status (fa_basis f) = fa_basis_status f;
  ca_task : co_task_id (coordinates (fa_basis f)) = fa_task_id f;
  ca_change_unit : co_change_unit_id (coordinates (fa_basis f)) = fa_change_unit_id f;
  ca_family : matching_family (pr_body (fa_request f)) (fa_basis f) (fa_action_kind f) = true;
  ca_required_same : pr_required_for (fa_request f) = fa_required_for f;
  ca_compatible : ∀ target, target ∈ fa_required_for f →
    is_compatible_with_required_for (fa_action_kind f) target = true;
  ca_expiry_same : pr_expires_at (fa_request f) = fa_expires_at f;
  ca_expiry : expiry_ok f;
}.

Lemma column_agreement_Ok f : request_column_agreement f = Ok tt ↔ columns_agree f.
Proof.
  unfold request_column_agreement, expiry_ok. cbv zeta. split.
  - intros Ha. rewrite !ensure_bind, bind_Ok in Ha.
    destruct Ha as (? & ? & ? & ? & [] & Hb%map_err_Ok & Ha).
    rewrite bind_Ok in Ha. destruct Ha as ([] & Hr1%map_err_Ok & Ha).
    rewrite bind_Ok in Ha. destruct Ha as ([] & Hr2%map_err_Ok & Ha).
    rewrite !ensure_bind in Ha. destruct Ha as (Hk & Hs & Hr & Hc & He & Ha).
    autorewrite with vbool in Hk, Hs, Hr, Hc, He. destruct Hs as [[[? ?] ?] ?]. breflect.
    apply required_for_Ok in Hr2. rewrite Hr, forallb_elem in Hc.
    split; try done. unfold expiry_ok.
    destruct (decide _) as [Ho|Ho]; [rewrite Ho, eqb_refl in Ha|rewrite (proj2 (eqb_false _ _) Ho) in Ha].
    + apply bind_Ok in Ha as (e & Hadd%ok_or_Ok & Ha). rewrite ensure_Ok, neqb_false in Ha. eauto.
    + apply map_err_Ok, timestamp_order_Ok in Ha as [? _]. done.
  - intros []. rewrite ca_request_decodes0, ca_basis_decodes0, ca_requested_at0, ca_expires_at0,
      ca_bounds0, ca_kind0, ca_status0, ca_task0, ca_change_unit0, ca_family0, ca_required_same0,
      ca_expiry_same0, !eqb_refl.
    rewrite !(proj2 (required_for_Ok _ _)), (proj2 (forallb_elem _ _)) by done. cbn.
    unfold expiry_ok in ca_expiry0.
    destruct (decide _) as [Ho|Ho]; [rewrite Ho, eqb_refl|rewrite (proj2 (eqb_false _ _) Ho)].
    + destruct ca_expiry0 as (e & -> & ->). cbn. by rewrite eqb_refl.
    + by rewrite (proj2 (timestamp_order_Ok _ _ _)).
Qed.

(** ** Lemmas: decoding *)

(** What the decoder demands of a request row, beyond the agreement of columns. *)
Record request_valid (row : StoredUserActionRequest) : Prop := {
  rv_key : trim (ur_source_idempotency_key row) ≠ EmptyString;
  rv_requested_at : representable (ur_requested_at row) = true;
  rv_expires_at : ∀ e, ur_expires_at row = Some e → representable e = true;
  rv_columns : columns_agree (request_facts row);
  rv_actor : is_Some (actor_from_str (actor_to_canonical_string (ur_requested_by_actor_source row)));
  rv_origin : origin_matches_source (ur_source_method row) (ur_metadata row) = true;
}.

Lemma origin_method method metadata :
  origin_matches_source method metadata = true →
  contains method [MRequestUserAction; MReconcileChanges; MRecordShapingCheckpoint] = true.
Proof. by destruct method. Qed.

Lemma validate_identifier_iff field value :
  validate_identifier field value = Ok tt ↔ trim value ≠ EmptyString.
Proof.
  unfold validate_identifier. rewrite <-str_nonempty. destruct (str_is_empty _); naive_solver.
Qed.

Lemma decode_request_Ok row row' :
  decode_user_action_request_record row = Ok row' ↔ row' = row ∧ request_valid row.
Proof.
  unfold decode_user_action_request_record. cbv zeta. split.
  - intros Hd. rewrite ensure_bind, bind_Ok in Hd. destruct Hd as (_ & [] & Hk%map_err_Ok & Hd).
    unfold validate_stored_timestamp in Hd. rewrite ensure_bind, bind_Ok in Hd.
    destruct Hd as (Hreq%negb_false_iff & [] & Hexp & Hd). rewrite bind_Ok in Hd.
    destruct Hd as ([] & Hcol & Hd). rewrite bind_Ok in Hd. destruct Hd as (actor & Hact%ok_or_Ok & Hd).
    rewrite ensure_bind in Hd. destruct Hd as (Horg%negb_false_iff & [= <-]).
    pose proof (actor_from_canonical _ _ Hact) as ->. split; [by destruct row|].
    split; [by apply validate_identifier_iff in Hk|done| | |by rewrite Hact|done].
    + intros e He. rewrite He, ensure_Ok in Hexp. by apply negb_false_iff.
    + by apply map_err_Ok, column_agreement_Ok in Hcol.
  - intros [-> []]. rewrite (origin_method _ _ rv_origin0). cbn [negb ensure].
    rewrite (proj2 (validate_identifier_iff _ _)) by done. cbn [map_err].
    unfold validate_stored_timestamp. rewrite rv_requested_at0. cbn [negb ensure].
    assert (match ur_expires_at row with
            | Some expires_at => ensure (negb (representable expires_at))
                                   (CorruptStoredValue "user_action_requests.expires_at")
            | None => Ok tt
            end = Ok tt) as ->.
    { destruct (ur_expires_at row) as [e|]; [|done]. by rewrite (rv_expires_at0 e). }
    unfold validate_stored_user_action_request_column_agreement.
    rewrite (proj2 (column_agreement_Ok _)) by done. cbn [map_err].
    destruct rv_actor0 as [actor Hact]. rewrite Hact.
    pose proof (actor_from_canonical _ _ Hact) as ->. cbn [ok_or]. rewrite rv_origin0.
    by destruct row.
Qed.

Record resolution_valid (row : StoredUserActionResolution) : Prop := {
  sv_resolution : resolution_validate (us_resolution row) = Ok tt;
  sv_kind : match us_resolution row with
            | ResolutionChoice _ _ _ _ _ => us_action_kind row ≠ EvidenceObservation
            | ResolutionEvidenceObservation _ => us_action_kind row = EvidenceObservation
            end;
  sv_submission : validate_channel_submission_id (us_channel_submission_id row) = Ok tt;
  sv_actor : us_resolved_by_actor_source row = LocalUser;
  sv_basis : us_resolved_verification_basis row = verification_basis (us_channel_kind row);
  sv_assurance : trim (us_resolved_assurance_level row) ≠ EmptyString;
  sv_resolved_at : representable (us_resolved_at row) = true;
}.

Lemma resolution_columns_Ok resolution kind :
  validate_user_action_resolution_column_agreement resolution kind = Ok tt ↔
  resolution_validate resolution = Ok tt ∧
  match resolution with
  | ResolutionChoice _ _ _ _ _ => kind ≠ EvidenceObservation
  | ResolutionEvidenceObservation _ => kind = EvidenceObservation
  end.
Proof.
  unfold validate_user_action_resolution_column_agreement, validate_persisted_user_action_resolution.
  rewrite bind_Ok. split.
  - intros ([] & Hr%map_err_Ok & Ha). rewrite ensure_Ok, negb_false_iff in Ha. split; [done|].
    destruct resolution; rewrite ?negb_true_iff, ?eqb_false, ?eqb_true in Ha; done.
  - intros [Hr Hk]. exists tt. rewrite map_err_Ok, ensure_Ok, negb_false_iff. split; [done|].
    destruct resolution; by rewrite ?negb_true_iff, ?eqb_false, ?eqb_true.
Qed.

Lemma local_user_spelling a : actor_to_canonical_string a = "local_user" ↔ a = LocalUser.
Proof. by destruct a. Qed.

Lemma provenance_Ok channel actor basis assurance :
  validate_user_action_resolution_provenance channel (actor_to_canonical_string actor) basis assurance
    = Ok tt ↔
  actor = LocalUser ∧ basis = verification_basis channel ∧ trim assurance ≠ EmptyString.
Proof.
  unfold validate_user_action_resolution_provenance.
  rewrite ensure_Ok, !orb_false_iff, !neqb_false, local_user_spelling, str_nonempty. tauto.
Qed.

Lemma is_ok_true {E} (r : result unit E) : is_ok r = true ↔ r = Ok tt.
Proof. destruct r as [[]|]; naive_solver. Qed.

Lemma decode_resolution_Ok row row' :
  decode_user_action_resolution_record row = Ok row' ↔ row' = row ∧ resolution_valid row.
Proof.
  unfold decode_user_action_resolution_record. cbv zeta. split.
  - intros Hd. rewrite bind_Ok in Hd. destruct Hd as ([] & Hc%map_err_Ok & Hd).
    unfold validate_stored_timestamp in Hd. rewrite !ensure_bind in Hd.
    destruct Hd as (Hp & Ht%negb_false_iff & Hd). rewrite bind_Ok in Hd.
    destruct Hd as ([] & Hv%map_err_Ok & Hd). rewrite bind_Ok in Hd.
    destruct Hd as (actor & Ha%ok_or_Ok & [= <-]).
    apply orb_false_iff in Hp as [Hsub%negb_false_iff Hprov%negb_false_iff].
    rewrite is_ok_true in Hsub. rewrite is_ok_true in Hprov. apply provenance_Ok in Hprov as (Hl & Hb & Has).
    apply resolution_columns_Ok in Hc as [_ Hk].
    pose proof (actor_from_canonical _ _ Ha) as ->. by destruct row.
  - intros [-> []].
    rewrite (proj2 (resolution_columns_Ok _ _)) by done. cbn [map_err].
    rewrite sv_submission0, (proj2 (provenance_Ok _ _ _ _)) by done.
    unfold validate_stored_timestamp. rewrite sv_resolved_at0, sv_resolution0, sv_actor0.
    destruct row. cbn in *. by subst.
Qed.

(** A resolution belongs to its request. *)
Record resolves (request : StoredUserActionRequest) (resolution : StoredUserActionResolution)
    : Prop := {
  rp_project : us_project_id resolution = ur_project_id request;
  rp_request : us_user_action_request_id resolution = ur_user_action_request_id request;
  rp_kind : us_action_kind resolution = ur_action_kind request;
  rp_after : (ur_requested_at request ≤ us_resolved_at resolution)%Z;
  rp_before : ∀ e, ur_expires_at request = Some e → (us_resolved_at resolution < e)%Z;
  rp_expiry : ∀ e, ur_expires_at request = Some e → (ur_requested_at request < e)%Z;
  rp_agrees : resolution_agrees request resolution = true;
}.

Lemma pair_Ok request resolution :
  validate_user_action_request_resolution_pair request resolution = Ok tt ↔
  resolves request resolution.
Proof.
  unfold validate_user_action_request_resolution_pair, validate_stored_user_action_timestamp_order.
  cbv zeta. rewrite !ensure_bind, bind_Ok, !neqb_false. split.
  - intros (Hp & Hr & Hk & [] & Ht%map_err_Ok & Ha). apply timestamp_order_Ok in Ht as [He Ht].
    rewrite ensure_Ok, negb_false_iff in Ha. destruct (Ht _ eq_refl). by split.
  - intros []. split_and!; try done. exists tt. rewrite map_err_Ok, timestamp_order_Ok, ensure_Ok.
    split_and!; [done|by intros ? [= <-]|by rewrite rp_agrees0].
Qed.

(** ** Lemmas: changes of a basis *)

(** The part of a basis that no basis mutation may touch. *)
Definition same_authority (b b' : UserActionBasis) : Prop :=
  co_task_id (coordinates b') = co_task_id (coordinates b) ∧
  match b, b' with
  | BasisChoice c, BasisChoice c' =>
      ch_residual_risk_ids c' = ch_residual_risk_ids c ∧
      ch_sensitive_action_scope c' = ch_sensitive_action_scope c
  | BasisEvidenceObservation o, BasisEvidenceObservation o' =>
      eo_target_candidates o' = eo_target_candidates o ∧
      eo_artifact_candidates o' = eo_artifact_candidates o
  | _, _ => False
  end.

#[local] Instance same_authority_preorder : PreOrder same_authority.
Proof.
  split.
  - by intros [].
  - intros [] [] []; unfold same_authority; naive_solver congruence.
Qed.

Lemma with_status_authority b status : same_authority b (user_action_basis_with_status b status).
Proof. by destruct b. Qed.

Lemma rebase_authority b revision cu baseline :
  same_authority b (rebase_shaping_user_action_basis b revision cu baseline).
Proof. by destruct b. Qed.

Lemma with_status_compatibility b status :
  compatibility_status (user_action_basis_with_status b status) = status.
Proof. by destruct b. Qed.

Lemma with_status_change_unit b status :
  co_change_unit_id (coordinates (user_action_basis_with_status b status)) =
  co_change_unit_id (coordinates b).
Proof. by destruct b. Qed.

(** A request row before and after a basis mutation.  Authority that was lost
    does not come back. *)
Inductive request_step (r : StoredUserActionRequest) : StoredUserActionRequest → Prop :=
| request_kept : request_step r r
| request_rebased b status cu :
    same_authority (ur_basis r) b → compatibility_status b = status →
    co_change_unit_id (coordinates b) = cu →
    (status = BasisCurrent → ur_basis_status r = BasisCurrent) →
    request_step r (rebased_row b status cu r).

#[local] Instance request_step_preorder : PreOrder request_step.
Proof.
  split; [constructor|].
  intros r1 r2 r3 H12. destruct 1 as [|b2 st2 cu2 Ha2 Hc2 Hcu2 Hs2]; [done|].
  destruct H12 as [|b1 st1 cu1 Ha1 Hc1 Hcu1 Hs1]; [by constructor|].
  change (rebased_row b2 st2 cu2 (rebased_row b1 st1 cu1 r1)) with (rebased_row b2 st2 cu2 r1).
  constructor; [|done..|].
  - by trans b1.
  - intros ->. apply Hs1. by apply Hs2.
Qed.

Lemma step_family body b b' kind :
  same_authority b b' → matching_family body b kind = true → matching_family body b' kind = true.
Proof.
  destruct b, b'; intros [_ Ha]; try done; destruct Ha as [H1 H2]; destruct body; cbn; try done;
    by rewrite ?H1, H2.
Qed.

Lemma step_decodes b b' :
  same_authority b b' → basis_json_decodes b = true → basis_json_decodes b' = true.
Proof.
  destruct b, b'; intros [_ Ha]; try done. destruct Ha as [_ H2]. unfold basis_json_decodes. cbn.
  by rewrite H2.
Qed.

Lemma request_step_valid r r' : request_step r r' → request_valid r → request_valid r'.
Proof.
  destruct 1 as [|b status cu Ha Hc Hcu Hs]; [done|]. intros [? ? ? [] ? ?]. split; try done.
  split; try done.
  - by eapply step_decodes.
  - destruct Ha as [Ht _]. cbn. by rewrite Ht.
  - by eapply step_family.
Qed.

Lemma request_step_resolves r r' q : request_step r r' → resolves r q → resolves r' q.
Proof.
  destruct 1 as [|b status cu Ha Hc Hcu Hs]; [done|]. intros []. split; try done.
  unfold resolution_agrees, choice_resolution_agrees, observation_resolution_agrees in *. cbn.
  destruct (pr_body (ur_request r)), (ur_basis r), b, (us_resolution q); destruct Ha as [_ Ha];
    try done; destruct Ha as [-> H2]; [done|by rewrite H2].
Qed.

Lemma request_step_identity r r' : request_step r r' →
  ur_project_id r' = ur_project_id r ∧
  ur_user_action_request_id r' = ur_user_action_request_id r ∧ ur_task_id r' = ur_task_id r ∧
  ur_action_kind r' = ur_action_kind r ∧ ur_request r' = ur_request r ∧
  ur_required_for r' = ur_required_for r ∧
  ur_requested_by_actor_source r' = ur_requested_by_actor_source r ∧
  ur_requested_at r' = ur_requested_at r ∧ ur_expires_at r' = ur_expires_at r ∧
  ur_source_method r' = ur_source_method r ∧
  ur_source_idempotency_key r' = ur_source_idempotency_key r ∧
  (ur_basis_status r' = BasisCurrent → ur_basis_status r = BasisCurrent).
Proof. by destruct 1. Qed.

Lemma marked_step status r :
  request_valid r → status ≠ BasisCurrent → request_step r (marked_row status r).
Proof.
  intros [? ? ? [] ? ?] Hs. unfold marked_row. constructor.
  - apply with_status_authority.
  - apply with_status_compatibility.
  - by rewrite with_status_change_unit.
  - done.
Qed.

(** ** Lemmas: the three basis mutations *)

Definition requests_step (rows rows' : gmap string StoredUserActionRequest) : Prop :=
  ∀ id, match rows !! id, rows' !! id with
        | Some r, Some r' => request_step r r'
        | None, None => True
        | _, _ => False
        end.

#[local] Instance requests_step_preorder : PreOrder requests_step.
Proof.
  split.
  - intros rows id. destruct (rows !! id); [reflexivity|done].
  - intros x y z Hxy Hyz id. specialize (Hxy id). specialize (Hyz id).
    destruct (x !! id), (y !! id), (z !! id); try done. by etrans.
Qed.

Lemma requests_step_insert rows id r r' :
  rows !! id = Some r → request_step r r' → requests_step rows (<[id := r']> rows).
Proof.
  intros Hr Hstep k. destruct (decide (k = id)) as [->|].
  - by rewrite Hr, lookup_insert_eq.
  - rewrite lookup_insert_ne by done. destruct (rows !! k); [reflexivity|done].
Qed.

Definition rows_valid (rows : gmap string StoredUserActionRequest) : Prop :=
  ∀ id r, rows !! id = Some r → ur_user_action_request_id r = id ∧ request_valid r.

Lemma rows_valid_step rows rows' : requests_step rows rows' → rows_valid rows → rows_valid rows'.
Proof.
  intros Hs Hv id r' Hr'. specialize (Hs id). rewrite Hr' in Hs.
  destruct (rows !! id) as [r|] eqn:Hr; [|done]. destruct (Hv _ _ Hr) as [Hid Hval].
  split; [|by eapply request_step_valid]. by destruct (request_step_identity _ _ Hs) as (_ & -> & _).
Qed.

Lemma mark_bases_step status ids : ∀ rows rows',
  status ≠ BasisCurrent → rows_valid rows → mark_bases rows status ids = Ok rows' →
  requests_step rows rows'.
Proof.
  induction ids as [|id ids IH]; intros rows rows' Hs Hv; cbn [mark_bases]; [by intros [= <-]|].
  rewrite bind_Ok. intros ([] & _ & Hm). rewrite bind_Ok in Hm.
  destruct Hm as (r & Hr%ok_or_Ok & Hm). rewrite ensure_bind in Hm. destruct Hm as [_ Hm].
  assert (requests_step rows (<[id := marked_row status r]> rows)) as H1.
  { eapply requests_step_insert; [done|]. apply marked_step; [by eapply Hv|done]. }
  etrans; [exact H1|]. eapply IH; [done| |done]. by eapply rows_valid_step.
Qed.

Lemma invalidated_not_current s id : invalidated_status s id ≠ BasisCurrent.
Proof. unfold invalidated_status. by destruct (existsb _ _). Qed.

Lemma mark_kind_step s task preserved kind s' :
  rows_valid (ut_requests s) →
  mark_user_actions_superseded_or_stale_for_kind s task preserved kind = Ok s' →
  requests_step (ut_requests s) (ut_requests s') ∧ ut_resolutions s' = ut_resolutions s ∧
  ut_project_id s' = ut_project_id s.
Proof.
  intros Hv. unfold mark_user_actions_superseded_or_stale_for_kind. cbv zeta. rewrite ensure_bind.
  intros [_ [= <-]]. split; [|done]. intros id. cbn. rewrite lookup_fmap.
  destruct (ut_requests s !! id) as [r|] eqn:Hr; [|done]. cbn.
  destruct (invalidation_selects _ _ _ _); [|reflexivity].
  apply marked_step; [by eapply Hv|apply invalidated_not_current].
Qed.

Lemma try_fold_inv {A} (f : UserActionTable → A → result UserActionTable StoreError)
    (R : relation UserActionTable) `{!PreOrder R} (P : UserActionTable → Prop) :
  (∀ s x s', P s → f s x = Ok s' → R s s' ∧ P s') →
  ∀ l s s', P s → try_fold f s l = Ok s' → R s s' ∧ P s'.
Proof.
  intros Hf l. induction l as [|x l IH]; intros s s' Hp; cbn [try_fold].
  - intros [= <-]. by split.
  - rewrite bind_Ok. intros (s1 & H1 & H2). destruct (Hf _ _ _ Hp H1) as [HR HP].
    destruct (IH _ _ HP H2). split; [by etrans|done].
Qed.

(** Only the basis columns of requests move. *)
Definition basis_step (s s' : UserActionTable) : Prop :=
  requests_step (ut_requests s) (ut_requests s') ∧ ut_resolutions s' = ut_resolutions s ∧
  ut_project_id s' = ut_project_id s.

#[local] Instance basis_step_preorder : PreOrder basis_step.
Proof.
  split; [by intros s|].
  intros x y z (H1 & H2 & H3) (K1 & K2 & K3). split_and!; [by etrans|by etrans|by etrans].
Qed.

Lemma mark_superseded_step s input s' :
  rows_valid (ut_requests s) → mark_user_actions_superseded_or_stale s input = Ok s' →
  basis_step s s'.
Proof.
  intros Hv. unfold mark_user_actions_superseded_or_stale. cbv zeta. rewrite bind_Ok.
  intros ([] & _ & Hm). rewrite bind_Ok in Hm. destruct Hm as (? & _ & Hm).
  destruct (list_is_empty _); [by eapply mark_kind_step|].
  apply (try_fold_inv _ basis_step (λ s, rows_valid (ut_requests s))) in Hm as [? _]; [done| |done].
  intros s1 kind s2 Hv1 Hk. apply mark_kind_step in Hk; [|done]. split; [done|].
  by eapply rows_valid_step; [apply Hk|].
Qed.

(** ** The invariant of the tables *)

Record user_actions_ok (s : UserActionTable) (now : UtcTimestamp) : Prop := {
  uo_requests : ∀ id r, ut_requests s !! id = Some r →
    ur_project_id r = ut_project_id s ∧ ur_user_action_request_id r = id ∧ request_valid r ∧
    (ur_requested_at r ≤ now)%Z;
  uo_resolutions : ∀ id q, ut_resolutions s !! id = Some q →
    us_user_action_resolution_id q = id ∧ resolution_valid q ∧ (us_resolved_at q ≤ now)%Z ∧
    ∃ r, ut_requests s !! us_user_action_request_id q = Some r ∧ resolves r q;
  uo_once : ∀ id1 id2 q1 q2,
    ut_resolutions s !! id1 = Some q1 → ut_resolutions s !! id2 = Some q2 →
    us_user_action_request_id q1 = us_user_action_request_id q2 → id1 = id2;
  uo_submission : ∀ id1 id2 q1 q2,
    ut_resolutions s !! id1 = Some q1 → ut_resolutions s !! id2 = Some q2 →
    us_channel_kind q1 = us_channel_kind q2 →
    us_channel_submission_id q1 = us_channel_submission_id q2 → id1 = id2;
}.

Lemma ok_rows_valid s now : user_actions_ok s now → rows_valid (ut_requests s).
Proof. intros [] id r Hr. by destruct (uo_requests0 _ _ Hr) as (_ & ? & ? & _). Qed.

Lemma basis_step_ok s s' now now' :
  (now ≤ now')%Z → basis_step s s' → user_actions_ok s now → user_actions_ok s' now'.
Proof.
  intros Hle (Hreq & Hres & Hp) []. split; rewrite ?Hres.
  - intros id r' Hr'. specialize (Hreq id). rewrite Hr' in Hreq.
    destruct (ut_requests s !! id) as [r|] eqn:Hr; [|done].
    destruct (uo_requests0 _ _ Hr) as (Hpr & Hid & Hv & Hat).
    destruct (request_step_identity _ _ Hreq) as (Hp' & Hid' & _ & _ & _ & _ & _ & Hat' & _).
    rewrite Hp', Hid', Hat', Hp. split_and!; [done|done|by eapply request_step_valid|lia].
  - intros id q Hq. destruct (uo_resolutions0 _ _ Hq) as (? & ? & ? & r & Hr & Hrs).
    split_and!; [done|done|lia|]. specialize (Hreq (us_user_action_request_id q)). rewrite Hr in Hreq.
    destruct (ut_requests s' !! _) as [r'|]; [|done]. exists r'. split; [done|].
    by eapply request_step_resolves.
  - done.
  - done.
Qed.

(** What an accepted insert establishes. *)
Lemma insert_request_Ok s input s' :
  insert_user_action_request s input = Ok s' →
  is_Some (actor_from_str (actor_to_canonical_string (rq_requested_by_actor_source input))) →
  request_valid (request_row (ut_project_id s) input) ∧
  ut_requests s !! rq_user_action_request_id input = None ∧
  s' = set_requests s (<[rq_user_action_request_id input := request_row (ut_project_id s) input]>
                         (ut_requests s)).
Proof.
  unfold insert_user_action_request. intros Hi Hactor.
  rewrite bind_Ok in Hi. destruct Hi as ([] & _ & Hi). rewrite bind_Ok in Hi. destruct Hi as ([] & _ & Hi).
  rewrite bind_Ok in Hi. destruct Hi as ([] & _ & Hi). rewrite bind_Ok in Hi. destruct Hi as ([] & _ & Hi).
  rewrite ensure_bind, bind_Ok in Hi. destruct Hi as (_ & [] & _ & Hi).
  rewrite bind_Ok in Hi. destruct Hi as ([] & _ & Hi).
  unfold validate_timestamp in Hi. rewrite ensure_bind, bind_Ok in Hi.
  destruct Hi as (Hreq%negb_false_iff & [] & Hexp & Hi). rewrite ensure_bind, bind_Ok in Hi.
  destruct Hi as (Horg%negb_false_iff & [] & Hkey%validate_identifier_iff & Hi). rewrite bind_Ok in Hi.
  destruct Hi as ([] & Hcol%map_err_Ok & Hi). rewrite !ensure_bind in Hi.
  destruct Hi as (Hnew & _ & [= <-]). split_and!; [|by destruct (ut_requests s !! _)|done].
  split; try done.
  - cbn. intros e He. rewrite He, ensure_Ok in Hexp. by apply negb_false_iff.
  - by apply column_agreement_Ok.
Qed.

Lemma resolution_rows_elem s q : q ∈ resolution_rows s ↔ ∃ id, ut_resolutions s !! id = Some q.
Proof.
  unfold resolution_rows. rewrite list_elem_of_fmap. split.
  - intros ([id q'] & -> & Hin%elem_of_map_to_list). eauto.
  - intros [id Hid]. exists (id, q). split; [done|]. by apply elem_of_map_to_list.
Qed.

Lemma no_resolution_row s p :
  existsb p (resolution_rows s) = false ↔ ∀ id q, ut_resolutions s !! id = Some q → p q = false.
Proof.
  rewrite existsb_false. setoid_rewrite resolution_rows_elem. naive_solver.
Qed.

Record resolution_accepted (s : UserActionTable) (input : UserActionResolutionInsert) : Prop := {
  ra_valid : resolution_valid (resolution_row (ut_project_id s) input);
  ra_resolves : ∃ r, ut_requests s !! rs_user_action_request_id input = Some r ∧
    resolves r (resolution_row (ut_project_id s) input);
  ra_id : ut_resolutions s !! rs_user_action_resolution_id input = None;
  ra_request : ∀ id q, ut_resolutions s !! id = Some q →
    us_user_action_request_id q ≠ rs_user_action_request_id input;
  ra_submission : ∀ id q, ut_resolutions s !! id = Some q →
    us_channel_kind q = rs_channel_kind input →
    us_channel_submission_id q ≠ rs_channel_submission_id input;
}.

Definition with_resolution_row (s : UserActionTable) (input : UserActionResolutionInsert)
    : UserActionTable :=
  {| ut_project_id := ut_project_id s; ut_requests := ut_requests s;
     ut_resolutions := <[rs_user_action_resolution_id input :=
                           resolution_row (ut_project_id s) input]> (ut_resolutions s) |}.

Lemma against_request_Ok s input r :
  validate_resolution_against_request s input = Ok tt →
  ut_requests s !! rs_user_action_request_id input = Some r →
  resolves r (resolution_row (ut_project_id s) input).
Proof.
  unfold validate_resolution_against_request, user_action_request_record. rewrite bind_Ok.
  intros (o & Ho & Hv) Hr. rewrite Hr in Ho. cbn in Ho.
  destruct (decode_user_action_request_record r) as [r'|] eqn:Hd; [|done].
  injection Ho as <-. apply decode_request_Ok in Hd as [-> _]. rewrite bind_Ok in Hv.
  destruct Hv as ([] & _ & Hp%map_err_Ok). by apply pair_Ok.
Qed.

Lemma insert_resolution_Ok s input s' :
  insert_user_action_resolution s input = Ok s' →
  resolution_accepted s input ∧ s' = with_resolution_row s input.
Proof.
  unfold insert_user_action_resolution, validate_timestamp. intros Hi.
  rewrite bind_Ok in Hi. destruct Hi as ([] & _ & Hi). rewrite bind_Ok in Hi. destruct Hi as ([] & _ & Hi).
  rewrite bind_Ok in Hi. destruct Hi as ([] & Hsub%map_err_Ok & Hi).
  rewrite bind_Ok in Hi. destruct Hi as ([] & _ & Hi).
  rewrite ensure_bind, bind_Ok in Hi. destruct Hi as (_ & [] & _ & Hi).
  rewrite bind_Ok in Hi. destruct Hi as ([] & Hprov%provenance_Ok & Hi).
  rewrite ensure_bind, bind_Ok in Hi.
  destruct Hi as (Hat%negb_false_iff & [] & Hcol%resolution_columns_Ok & Hi).
  rewrite bind_Ok in Hi. destruct Hi as ([] & Hreq & Hi). rewrite !ensure_bind in Hi.
  destruct Hi as (Hid & Honce & Hchan & Hfk%negb_false_iff & [= <-]). split; [|done].
  apply is_some_and_true in Hfk as (r & Hr & _).
  rewrite no_resolution_row in Honce. rewrite no_resolution_row in Hchan. split.
  - by destruct Hprov as (? & ? & ?), Hcol; split.
  - exists r. split; [done|]. by eapply against_request_Ok.
  - by destruct (ut_resolutions s !! _).
  - intros id q Hq. by apply eqb_false, (Honce id).
  - intros id q Hq Hk. specialize (Hchan _ _ Hq). cbv beta in Hchan. rewrite Hk, eqb_refl in Hchan.
    by apply eqb_false.
Qed.

(** ** Steps *)

(** Instants were sampled before the commit; a request names a readable actor;
    a basis is only rewritten by rebasing a current one. *)
Definition mutation_wf (s : UserActionTable) (at_ : UtcTimestamp) (m : UserActionMutation) : Prop :=
  match m with
  | InsertRequest input =>
      (rq_requested_at input ≤ at_)%Z ∧
      is_Some (actor_from_str (actor_to_canonical_string (rq_requested_by_actor_source input)))
  | InsertResolution input => (rs_resolved_at input ≤ at_)%Z
  | UpdateBasis input =>
      bu_basis_status input = BasisCurrent ∧
      ∀ row, ut_requests s !! bu_user_action_request_id input = Some row →
        ur_basis_status row = BasisCurrent ∧
        ∃ revision cu baseline,
          bu_basis input = rebase_shaping_user_action_basis (ur_basis row) revision cu baseline
  | MarkBasesStatus _ | MarkSupersededOrStale _ => True
  end.

Inductive user_action_step : UserActionTable * UtcTimestamp → UserActionTable * UtcTimestamp → Prop :=
| step_user_action s now at_ m s' :
    (now ≤ at_)%Z → mutation_wf s at_ m → apply_user_action_mutation s m = Ok s' →
    user_action_step (s, now) (s', at_).

Lemma update_basis_step s at_ input s' :
  mutation_wf s at_ (UpdateBasis input) → update_user_action_basis s input = Ok s' → basis_step s s'.
Proof.
  intros [Hst Hwf]. unfold update_user_action_basis. rewrite bind_Ok. intros ([] & _ & Hu).
  destruct (ut_requests s !! _) as [r|] eqn:Hr; [|done]. injection Hu as <-. split; [|done].
  destruct (Hwf _ eq_refl) as (Hcur & rev & cu & bl & Hb). rewrite Hst, Hb.
  eapply requests_step_insert; [done|]. constructor.
  - etrans; [apply rebase_authority|apply with_status_authority].
  - apply with_status_compatibility.
  - apply with_status_change_unit.
  - done.
Qed.

Lemma basis_mutation_step s now at_ m s' :
  user_actions_ok s now → mutation_wf s at_ m → apply_user_action_mutation s m = Ok s' →
  match m with InsertRequest _ | InsertResolution _ => True | _ => basis_step s s' end.
Proof.
  intros Hok%ok_rows_valid Hwf Ha. destruct m as [| |input|input|input]; try done; cbn in Ha.
  - by eapply update_basis_step.
  - unfold mark_user_action_bases_status in Ha.
    destruct (bm_basis_status input) eqn:Est; [done|..]; rewrite bind_Ok in Ha;
      destruct Ha as (rows & Hm & [= <-]); (split; [|done]); apply mark_bases_step in Hm; done.
  - by eapply mark_superseded_step.
Qed.

Lemma apply_user_actions_ok s now at_ m s' :
  (now ≤ at_)%Z → mutation_wf s at_ m → apply_user_action_mutation s m = Ok s' →
  user_actions_ok s now → user_actions_ok s' at_.
Proof.
  intros Hle Hwf Ha Hok. pose proof (basis_mutation_step _ _ _ _ _ Hok Hwf Ha) as Hstep.
  destruct m as [input|input|input|input|input]; try (by eapply basis_step_ok); clear Hstep.
  - destruct Hwf as [Hat Hactor]. apply insert_request_Ok in Ha as (Hv & Hnew & ->); [|done].
    destruct Hok. split; cbn; [|..|done|done].
    + intros id r. destruct (decide (id = rq_user_action_request_id input)) as [->|].
      * rewrite lookup_insert_eq. intros [= <-]. by split_and!.
      * rewrite lookup_insert_ne by done. intros Hr. destruct (uo_requests0 _ _ Hr) as (? & ? & ? & ?).
        split_and!; try done. lia.
    + intros id q Hq. destruct (uo_resolutions0 _ _ Hq) as (? & ? & ? & r & Hr & ?).
      split_and!; [done|done|lia|]. exists r. split; [|done]. rewrite lookup_insert_ne; [done|].
      congruence.
  - apply insert_resolution_Ok in Ha as ([Hv (r & Hr & Hrs) Hid Hreq Hsub] & ->).
    destruct Hok. split; cbn.
    + intros id r' Hr'. destruct (uo_requests0 _ _ Hr') as (? & ? & ? & ?). split_and!; try done. lia.
    + intros id q. destruct (decide (id = rs_user_action_resolution_id input)) as [->|].
      * rewrite lookup_insert_eq. intros [= <-]. split_and!; [done|done|done|]. by exists r.
      * rewrite lookup_insert_ne by done. intros Hq. destruct (uo_resolutions0 _ _ Hq) as (? & ? & ? & ?).
        split_and!; try done. lia.
    + intros id1 id2 q1 q2 H1 H2 Heq.
      apply lookup_insert_Some in H1 as [[<- <-]|[_ H1]], H2 as [[<- <-]|[_ H2]]; [done|..|eauto].
      * by destruct (Hreq _ _ H2).
      * by destruct (Hreq _ _ H1).
    + intros id1 id2 q1 q2 H1 H2 Hk Heq.
      apply lookup_insert_Some in H1 as [[<- <-]|[_ H1]], H2 as [[<- <-]|[_ H2]]; [done|..|eauto].
      * by destruct (Hsub _ _ H2).
      * by destruct (Hsub _ _ H1).
Qed.

Lemma run_user_actions_ok st st' :
  rtc user_action_step st st' → user_actions_ok st.1 st.2 → user_actions_ok st'.1 st'.2.
Proof.
  induction 1 as [|st1 st2 st3 Hs _ IH]; [done|]. intros Hok. apply IH.
  destruct Hs. by eapply apply_user_actions_ok.
Qed.

(** ** Lemmas: reads *)

Lemma find_resolution_once s now r_id q :
  user_actions_ok s now →
  find_resolution s (λ row, us_user_action_request_id row =? r_id) = Some q ↔
  (∃ id, ut_resolutions s !! id = Some q) ∧ us_user_action_request_id q = r_id.
Proof.
  intros []. unfold find_resolution. fold (resolution_rows s). rewrite <-resolution_rows_elem. split.
  - intros Hf%list_find_Some. destruct Hf as [Hin Heq]. split; [done|]. by apply eqb_eq.
  - intros [Hin Heq]. destruct (List.find _ _) as [q'|] eqn:Hf.
    + apply list_find_Some in Hf as [Hin' Heq'%eqb_eq].
      apply resolution_rows_elem in Hin as [id Hid], Hin' as [id' Hid'].
      assert (id = id') as <- by (eapply uo_once0; [done|done|congruence]). congruence.
    + rewrite list_find_None in Hf. apply Hf in Hin. cbv beta in Hin. by apply eqb_neq in Hin.
Qed.

Lemma resolution_by_request s now r_id :
  user_actions_ok s now →
  user_action_resolution_record_by_request s r_id =
    Ok (find_resolution s (λ row, us_user_action_request_id row =? r_id)).
Proof.
  intros Hok. unfold user_action_resolution_record_by_request.
  destruct (find_resolution _ _) as [q|] eqn:Hf; [|done]. cbn.
  apply (find_resolution_once _ _ _ _ Hok) in Hf as [[id Hq] _].
  destruct (uo_resolutions _ _ Hok _ _ Hq) as (_ & Hv & _).
  by rewrite (proj2 (decode_resolution_Ok q q) (conj eq_refl Hv)).
Qed.

(** The status a record shows at an instant. *)
Definition shown_status (r : StoredUserActionRequest) (resolved : bool) (now : UtcTimestamp)
    : UserActionStatus :=
  match ur_basis_status r with
  | BasisStale => UAStale
  | BasisSuperseded => UASuperseded
  | BasisCurrent =>
      if resolved then UAResolved
      else if is_some_and (ur_expires_at r) (λ e, ts_ge now e) then UAExpired else UAPending
  end.

Lemma stored_status_Ok r o now :
  (ur_requested_at r ≤ now)%Z → (∀ q, o = Some q → (us_resolved_at q ≤ now)%Z) →
  stored_effective_status r o now = Ok (shown_status r (is_some o) now).
Proof.
  intros Hr Hq. unfold stored_effective_status, effective_user_action_status, shown_status, ts_lt.
  destruct (Z.ltb_spec now (ur_requested_at r)); [lia|].
  destruct o as [q|]; [|done]. specialize (Hq q eq_refl).
  by destruct (Z.ltb_spec now (us_resolved_at q)); [lia|].
Qed.

Lemma effective_record_Ok s now later id r :
  user_actions_ok s now → (now ≤ later)%Z → ut_requests s !! id = Some r →
  let o := find_resolution s (λ row, us_user_action_request_id row =? id) in
  effective_user_action_record s id later =
    Ok (Some {| set_request := r; set_resolution := o;
                set_status := shown_status r (is_some o) later |}).
Proof.
  intros Hok Hle Hr o. unfold effective_user_action_record, user_action_request_record.
  destruct (uo_requests _ _ Hok _ _ Hr) as (_ & Hid & Hv & Hat). rewrite Hr. cbn [try_option].
  rewrite (proj2 (decode_request_Ok r r) (conj eq_refl Hv)), (resolution_by_request _ _ _ Hok). fold o.
  assert (∀ q, o = Some q → resolves r q ∧ (us_resolved_at q ≤ now)%Z) as Hq.
  { intros q [[qid Hq] Heq]%(find_resolution_once _ _ _ _ Hok).
    destruct (uo_resolutions _ _ Hok _ _ Hq) as (_ & _ & ? & r' & Hr' & Hrs). split; [|done].
    rewrite Heq in Hr'. by simplify_eq. }
  assert (match o with Some q => validate_user_action_request_resolution_pair r q | None => Ok tt end
          = Ok tt) as ->.
  { destruct o as [q|]; [|done]. apply pair_Ok. by apply Hq. }
  rewrite stored_status_Ok; [done|lia|]. intros q Ho. destruct (Hq q Ho). lia.
Qed.

Lemma request_rows_elem s r : r ∈ request_rows s ↔ ∃ id, ut_requests s !! id = Some r.
Proof.
  unfold request_rows. rewrite list_elem_of_fmap. split.
  - intros ([id r'] & -> & Hin%elem_of_map_to_list). eauto.
  - intros [id Hid]. exists (id, r). split; [done|]. by apply elem_of_map_to_list.
Qed.

Lemma elem_of_request_ids s now task id :
  user_actions_ok s now →
  id ∈ request_ids_of_task s task ↔ ∃ r, ut_requests s !! id = Some r ∧ ur_task_id r = task.
Proof.
  intros Hok. unfold request_ids_of_task. fold (request_rows s).
  rewrite list_elem_of_fmap. setoid_rewrite sort_by_key_perm. setoid_rewrite list_elem_of_In.
  setoid_rewrite filter_In. setoid_rewrite <-list_elem_of_In. setoid_rewrite request_rows_elem.
  split.
  - intros (r & -> & [id' Hr] & Ht%eqb_eq). exists r. split; [|done].
    by destruct (uo_requests _ _ Hok _ _ Hr) as (_ & -> & _).
  - intros (r & Hr & Ht). exists r. destruct (uo_requests _ _ Hok _ _ Hr) as (_ & <- & _).
    split_and!; [done|by eexists|by apply eqb_true].
Qed.

Lemma history_Ok s now later task :
  user_actions_ok s now → (now ≤ later)%Z →
  ∃ records, effective_user_action_records_for_task s task None later = Ok records ∧
    ∀ record, record ∈ records ↔
      ∃ id r, ut_requests s !! id = Some r ∧ ur_task_id r = task ∧
        effective_user_action_record s id later = Ok (Some record).
Proof.
  intros Hok Hle. unfold effective_user_action_records_for_task. set (f := λ id, listed_user_action_record s id later).
  assert (∀ id r, ut_requests s !! id = Some r →
    ∃ record, effective_user_action_record s id later = Ok (Some record) ∧ f id = Ok record) as Hf.
  { intros id r Hr. eexists. split; [exact (effective_record_Ok _ _ _ _ _ Hok Hle Hr)|].
    unfold f, listed_user_action_record. by rewrite (effective_record_Ok _ _ _ _ _ Hok Hle Hr). }
  destruct (try_map_total f (request_ids_of_task s task)) as [ys Hys].
  { intros id (r & Hr & _)%(elem_of_request_ids _ _ _ _ Hok). destruct (Hf _ _ Hr) as (y & _ & ?). eauto. }
  rewrite Hys. eexists. split; [reflexivity|]. intros record.
  rewrite list_elem_of_In, filter_In, <-list_elem_of_In. cbn [is_none_or].
  apply try_map_Ok in Hys. split.
  - intros [Hin _]. destruct (Forall2_elem_r _ _ _ _ Hys Hin) as (id & Hid & Heq).
    apply (elem_of_request_ids _ _ _ _ Hok) in Hid as (r & Hr & Ht).
    destruct (Hf _ _ Hr) as (rec & He & Hfi). rewrite Hfi in Heq. injection Heq as <-. eauto.
  - intros (id & r & Hr & Ht & He). split; [|done].
    assert (id ∈ request_ids_of_task s task) as Hin by (apply (elem_of_request_ids _ _ _ _ Hok); eauto).
    destruct (Hf _ _ Hr) as (rec & He' & Hfi). rewrite He in He'. injection He' as <-.
    clear -Hys Hin Hfi. induction Hys as [|x y l k Hxy _ IH]; [by apply elem_of_nil in Hin|].
    apply elem_of_cons in Hin as [->|Hin]; [|apply elem_of_cons; right; auto].
    rewrite Hfi in Hxy. injection Hxy as <-. apply elem_of_cons. by left.
Qed.

(** ** Lemmas: runs *)

Definition empty_user_actions (project_id : string) : UserActionTable :=
  {| ut_project_id := project_id; ut_requests := ∅; ut_resolutions := ∅ |}.

Definition user_actions_reachable (st : UserActionTable * UtcTimestamp) : Prop :=
  ∃ project_id t0, rtc user_action_step (empty_user_actions project_id, t0) st.

Lemma reachable_user_actions_ok st : user_actions_reachable st → user_actions_ok st.1 st.2.
Proof.
  intros (project_id & t0 & Hrun). apply (run_user_actions_ok _ _ Hrun).
  split; cbn; intros *; rewrite lookup_empty; done.
Qed.

(** Nothing stored is removed, and only the basis columns of requests move. *)
Definition rows_kept (s s' : UserActionTable) : Prop :=
  (∀ id r, ut_requests s !! id = Some r → ∃ r', ut_requests s' !! id = Some r' ∧ request_step r r') ∧
  (∀ id q, ut_resolutions s !! id = Some q → ut_resolutions s' !! id = Some q).

#[local] Instance rows_kept_preorder : PreOrder rows_kept.
Proof.
  split.
  - intros s. split; [|done]. intros id r Hr. exists r. split; [done|constructor].
  - intros x y z [H1 H2] [K1 K2]. split; [|naive_solver].
    intros id r (r' & Hr' & Hs)%H1. apply K1 in Hr' as (r'' & ? & ?). exists r''. split; [done|by etrans].
Qed.

Lemma basis_step_kept s s' : basis_step s s' → rows_kept s s'.
Proof.
  intros (Hreq & Hres & _). split; [|by rewrite Hres]. intros id r Hr. specialize (Hreq id).
  rewrite Hr in Hreq. destruct (ut_requests s' !! id) as [r'|]; [|done]. eauto.
Qed.

Lemma step_rows_kept st st' :
  user_action_step st st' → user_actions_ok st.1 st.2 → rows_kept st.1 st'.1.
Proof.
  destruct 1 as [s now at_ m s' Hle Hwf Ha]. cbn. intros Hok.
  pose proof (basis_mutation_step _ _ _ _ _ Hok Hwf Ha) as Hstep.
  destruct m as [input|input|input|input|input]; try (by apply basis_step_kept); clear Hstep.
  - destruct Hwf as [_ Hactor]. apply insert_request_Ok in Ha as (_ & Hnew & ->); [|done].
    split; [|done]. intros id r Hr. exists r. split; [|constructor]. cbn.
    rewrite lookup_insert_ne; [done|congruence].
  - apply insert_resolution_Ok in Ha as ([_ _ Hnew _ _] & ->). split; cbn.
    + intros id r Hr. exists r. split; [done|constructor].
    + intros id q Hq. rewrite lookup_insert_ne; [done|congruence].
Qed.

Lemma run_rows_kept st st' :
  rtc user_action_step st st' → user_actions_ok st.1 st.2 → rows_kept st.1 st'.1.
Proof.
  induction 1 as [|st1 st2 st3 Hs Hrun IH]; [done|]. intros Hok.
  etrans; [by eapply step_rows_kept|]. apply IH. destruct Hs. by eapply apply_user_actions_ok.
Qed.

(** ** Lemmas: invalidation *)

(** The requests one invalidation withdraws. *)
Definition withdrawn (input : UserActionInvalidation) (r : StoredUserActionRequest) : Prop :=
  ur_task_id r = ui_task_id input ∧
  (ui_action_kinds input = [] ∨ ur_action_kind r ∈ ui_action_kinds input) ∧
  ur_basis_status r = BasisCurrent ∧
  ur_user_action_request_id r ∉ ui_preserved_request_ids input.

Lemma invalidation_selects_true task kind preserved r :
  invalidation_selects task kind preserved r = true ↔
  ur_task_id r = task ∧ (∀ k, kind = Some k → ur_action_kind r = k) ∧
  ur_basis_status r = BasisCurrent ∧ ur_user_action_request_id r ∉ preserved.
Proof.
  unfold invalidation_selects. rewrite !andb_true_iff, !eqb_true, negb_true_iff, contains_not_elem.
  destruct kind as [k|]; cbn; [rewrite eqb_true|]; naive_solver.
Qed.

Lemma mark_kind_lookup s task preserved kind s' :
  mark_user_actions_superseded_or_stale_for_kind s task preserved kind = Ok s' →
  ut_resolutions s' = ut_resolutions s ∧
  ∀ id, ut_requests s' !! id =
    (λ r, if invalidation_selects task kind preserved r
          then marked_row (invalidated_status s (ur_user_action_request_id r)) r else r)
      <$> ut_requests s !! id.
Proof.
  unfold mark_user_actions_superseded_or_stale_for_kind. cbv zeta. rewrite ensure_bind.
  intros [_ [= <-]]. split; [done|]. intros id. cbn. by rewrite lookup_fmap.
Qed.

Lemma invalidated_status_same s s' :
  ut_resolutions s' = ut_resolutions s → invalidated_status s' = invalidated_status s.
Proof. unfold invalidated_status, resolution_rows. by intros ->. Qed.

Lemma mark_kinds_lookup task preserved kinds : ∀ s s',
  try_fold (λ s kind, mark_user_actions_superseded_or_stale_for_kind s task preserved kind)
    s (Some <$> kinds) = Ok s' →
  ∀ id, ut_requests s' !! id =
    (λ r, if existsb (λ kind, invalidation_selects task (Some kind) preserved r) kinds
          then marked_row (invalidated_status s (ur_user_action_request_id r)) r else r)
      <$> ut_requests s !! id.
Proof.
  induction kinds as [|kind kinds IH]; intros s s'; cbn.
  - intros [= <-] id. by destruct (ut_requests s !! id).
  - destruct (mark_user_actions_superseded_or_stale_for_kind s task preserved (Some kind)) as [s1|] eqn:Hm;
      [|done]. intros Hf id. apply mark_kind_lookup in Hm as [Hres Hm].
    rewrite (IH _ _ Hf id), Hm, (invalidated_status_same _ _ Hres).
    destruct (ut_requests s !! id) as [r|]; [|done]. cbn. f_equal.
    destruct (invalidation_selects task (Some kind) preserved r) eqn:Hsel; [|done]. cbn [orb].
    assert (∀ k, invalidation_selects task (Some k) preserved
        (marked_row (invalidated_status s (ur_user_action_request_id r)) r) = false) as Hnot.
    { intros k. apply not_true_iff_false. rewrite invalidation_selects_true.
      intros (_ & _ & Hc & _). by apply invalidated_not_current in Hc. }
    by rewrite (proj2 (existsb_false _ _)).
Qed.
End user_action_store.

(** ** Theorems *)

Section theorems.
Context `{HC : Chrono} `{HZ : CanonicalSize}.

(** C33: In every reachable pair of user-action tables each stored request reads
    back, at any later instant, as that very row with its one resolution and the
    status its basis, resolution and expiry imply, and the history of a Task lists
    exactly the requests of that Task: no read ever reports corruption. *)
Theorem reachable_user_actions_read s now later :
  user_actions_reachable (s, now) → (now ≤ later)%Z →
  (∀ id r, ut_requests s !! id = Some r → ∃ o,
     effective_user_action_record s id later =
       Ok (Some {| set_request := r; set_resolution := o;
                   set_status := shown_status r (is_some o) later |}) ∧
     ∀ q, o = Some q ↔
       (∃ qid, ut_resolutions s !! qid = Some q) ∧ us_user_action_request_id q = id) ∧
  (∀ task, ∃ records,
     effective_user_action_records_for_task s task None later = Ok records ∧
     ∀ record, record ∈ records ↔ ∃ id r,
       ut_requests s !! id = Some r ∧ ur_task_id r = task ∧
       effective_user_action_record s id later = Ok (Some record)).
Proof.
  intros Hok%reachable_user_actions_ok Hle. cbn in Hok. split.
  - intros id r Hr. eexists. split; [exact (effective_record_Ok _ _ _ _ _ Hok Hle Hr)|].
    intros q. apply (find_resolution_once _ _ _ _ Hok).
  - intros task. by apply (history_Ok _ now).
Qed.

(** User-action rows are append-only: whatever happens after a state is
    reached, each request stays with its body, purpose, requester and instants, a
    basis that is stale or superseded never becomes current again, and each
    resolution stays exactly as it was written. *)
Theorem user_action_rows_monotonic s now s' now' :
  user_actions_reachable (s, now) → rtc user_action_step (s, now) (s', now') →
  (∀ id r, ut_requests s !! id = Some r → ∃ r', ut_requests s' !! id = Some r' ∧
     ur_task_id r' = ur_task_id r ∧ ur_action_kind r' = ur_action_kind r ∧
     ur_request r' = ur_request r ∧ ur_required_for r' = ur_required_for r ∧
     ur_requested_by_actor_source r' = ur_requested_by_actor_source r ∧
     ur_requested_at r' = ur_requested_at r ∧ ur_expires_at r' = ur_expires_at r ∧
     (ur_basis_status r' = BasisCurrent → ur_basis_status r = BasisCurrent)) ∧
  (∀ id q, ut_resolutions s !! id = Some q → ut_resolutions s' !! id = Some q).
Proof.
  intros Hok%reachable_user_actions_ok Hrun. destruct (run_rows_kept _ _ Hrun Hok) as [Hreq Hres].
  split; [|done]. intros id r Hr. apply Hreq in Hr as (r' & Hr' & Hs). exists r'. split; [done|].
  apply request_step_identity in Hs. naive_solver.
Qed.

(** A user action is resolved at most once, and a submission of the user
    channel resolves at most one action: after an accepted resolution no later
    resolution of the same request, or under the same submission id, is ever
    accepted, whatever happens in between. *)
Theorem user_action_resolved_once s now input s1 at_ s2 now2 input' s3 :
  user_actions_reachable (s, now) → insert_user_action_resolution s input = Ok s1 →
  (now ≤ at_)%Z → (rs_resolved_at input ≤ at_)%Z →
  rtc user_action_step (s1, at_) (s2, now2) →
  insert_user_action_resolution s2 input' = Ok s3 →
  rs_user_action_request_id input' ≠ rs_user_action_request_id input ∧
  (rs_channel_kind input' = rs_channel_kind input →
   rs_channel_submission_id input' ≠ rs_channel_submission_id input).
Proof.
  intros Hok%reachable_user_actions_ok Hi Hle Hat Hrun Hi'. cbn in Hok.
  assert (user_actions_ok s1 at_) as Hok1
    by (by apply (apply_user_actions_ok s now at_ (InsertResolution input))).
  apply insert_resolution_Ok in Hi as [_ ->].
  destruct (run_rows_kept _ _ Hrun Hok1) as [_ Hres].
  specialize (Hres (rs_user_action_resolution_id input)). cbn in Hres.
  rewrite lookup_insert_eq in Hres. specialize (Hres _ eq_refl).
  apply insert_resolution_Ok in Hi' as [[] _]. split.
  - intros Heq. by apply (ra_request0 _ _ Hres).
  - intros Hk Heq. by apply (ra_submission0 _ _ Hres).
Qed.

(** An invalidation withdraws exactly the current requests of its Task, of
    the named kinds (of every kind when none is named), that are not preserved:
    resolved ones become stale, unresolved ones superseded, and no other request
    changes. *)
Theorem invalidation_exact s now input s' :
  user_actions_ok s now → mark_user_actions_superseded_or_stale s input = Ok s' →
  ut_resolutions s' = ut_resolutions s ∧
  ∀ id r, ut_requests s !! id = Some r → ∃ r', ut_requests s' !! id = Some r' ∧
    (withdrawn input r →
     r' = marked_row (if existsb (λ q, us_user_action_request_id q =? id) (resolution_rows s)
                      then BasisStale else BasisSuperseded) r) ∧
    (¬ withdrawn input r → r' = r).
Proof.
  intros Hok Hm. pose proof (mark_superseded_step _ _ _ (ok_rows_valid _ _ Hok) Hm) as (_ & Hres & _).
  split; [done|]. intros id r Hr. destruct (uo_requests _ _ Hok _ _ Hr) as (_ & Hid & _).
  unfold mark_user_actions_superseded_or_stale in Hm. cbv zeta in Hm. rewrite bind_Ok in Hm.
  destruct Hm as (? & _ & Hm). rewrite bind_Ok in Hm. destruct Hm as (? & _ & Hm).
  change (if existsb _ _ then _ else _) with (invalidated_status s id). unfold withdrawn.
  destruct (list_is_empty (ui_action_kinds input)) eqn:Hk.
  - apply list_is_empty_true in Hk. apply mark_kind_lookup in Hm as [_ Hm].
    rewrite Hm, Hr. eexists. split; [reflexivity|]. rewrite Hid.
    destruct (invalidation_selects _ _ _ _) eqn:Hsel.
    + rewrite invalidation_selects_true in Hsel. rewrite Hid in Hsel. naive_solver.
    + apply not_true_iff_false in Hsel. rewrite invalidation_selects_true, Hid in Hsel. naive_solver.
  - apply list_is_empty_false in Hk. rewrite (mark_kinds_lookup _ _ _ _ _ Hm), Hr.
    eexists. split; [reflexivity|]. rewrite Hid. destruct (existsb _ _) eqn:Hsel.
    + rewrite existsb_elem in Hsel. setoid_rewrite invalidation_selects_true in Hsel.
      rewrite Hid in Hsel. naive_solver.
    + rewrite existsb_false in Hsel. split; [|done]. intros (Ht & [|Hin] & Hc & Hp); [done|].
      specialize (Hsel _ Hin). apply not_true_iff_false in Hsel.
      rewrite invalidation_selects_true, Hid in Hsel. naive_solver.
Qed.

(** A stored request reads back as planned: the record set the planner
    projects for a new request is exactly what the store returns for it until the
    request expires. *)
Theorem pending_request_reads_back s now input set s' at_ later :
  user_actions_reachable (s, now) → from_pending_insert (ut_project_id s) input = Ok set →
  apply_user_action_mutation s (InsertRequest input) = Ok s' →
  mutation_wf s at_ (InsertRequest input) → (now ≤ at_)%Z → (at_ ≤ later)%Z →
  (∀ e, rq_expires_at input = Some e → (later < e)%Z) →
  effective_user_action_record s' (rq_user_action_request_id input) later = Ok (Some set).
Proof.
  intros Hok%reachable_user_actions_ok Hset Ha Hwf Hle Hlater Hexp. cbn in Hok.
  pose proof (apply_user_actions_ok _ _ _ _ _ Hle Hwf Ha Hok) as Hok'.
  destruct Hwf as [_ Hactor]. cbn in Ha. apply insert_request_Ok in Ha as (_ & Hnew & ->); [|done].
  unfold from_pending_insert, stored_user_action_request_from_insert in Hset.
  rewrite bind_Ok in Hset. destruct Hset as (row & Hrow & [= <-]). rewrite ensure_bind in Hrow.
  destruct Hrow as [Hcur Hrow]. rewrite neqb_false in Hcur.
  assert (row = request_row (ut_project_id s) input) as ->.
  { repeat (rewrite bind_Ok in Hrow; destruct Hrow as (? & _ & Hrow)). by injection Hrow. }
  rewrite (effective_record_Ok _ _ _ _ _ Hok' Hlater (lookup_insert_eq _ _ _)).
  assert (find_resolution (set_requests s (<[rq_user_action_request_id input :=
      request_row (ut_project_id s) input]> (ut_requests s)))
      (λ row, us_user_action_request_id row =? rq_user_action_request_id input) = None) as ->.
  { unfold find_resolution. apply list_find_None. intros q Hq. apply eqb_false. intros Heq.
    apply (resolution_rows_elem s q) in Hq as [qid Hq].
    destruct (uo_resolutions _ _ Hok _ _ Hq) as (_ & _ & _ & r & Hr & _). congruence. }
  unfold shown_status. cbn. rewrite Hcur, (proj2 (is_some_and_false _ _)); [done|].
  intros e He. unfold ts_ge. specialize (Hexp e He). lia.
Qed.
End theorems.

(** ** Witnesses *)

#[local] Existing Instance decimal_chrono.

(** Every sample value is small. *)
#[local] Instance small_size : CanonicalSize := {
  draft_size _ := Some 100%N; body_size _ := Some 100%N; form_size _ := Some 100%N;
  input_size _ := Some 100%N; resolution_size _ := Some 100%N;
}.

Definition sample_context : UserActionContext :=
  {| uctx_summary := "two designs"; uctx_related_refs := []; uctx_artifact_refs := [];
     uctx_visible_risks := []; uctx_constraints := [] |}.

Definition sample_choice_body : UserActionChoiceRequestBody :=
  {| cr_judgment_kind := JTechnicalDecision; cr_presentation := Short; cr_question := "Which design?";
     cr_options := [{| opt_option_id := "simple"; opt_label := "Simple";
                       opt_description := "the simple one"; opt_consequence := "less code";
                       opt_machine_action := Accept; opt_resolution_outcome := Accepted;
                       opt_is_default := true |}];
     cr_context := sample_context; cr_affected_refs := []; cr_sensitive_action_scope := None |}.

Definition sample_choice_basis : UserActionBasis :=
  BasisChoice
    {| ch_coordinates :=
         {| co_task_id := "t1"; co_change_unit_id := None; co_scope_revision := 1;
            co_baseline_ref := None; co_created_at_state_version := 2;
            co_compatibility_status := BasisCurrent |};
       ch_close_basis_revision := None; ch_result_refs := []; ch_residual_risk_ids := [];
       ch_sensitive_action_scope := None |}.

Definition sample_request_insert (id key : string) : UserActionRequestInsert :=
  {| rq_user_action_request_id := id; rq_task_id := "t1"; rq_change_unit_id := None;
     rq_action_kind := TechnicalDecision;
     rq_request := {| pr_body := BodyChoice sample_choice_body; pr_required_for := [ForPrepareWrite];
                      pr_expires_at := Some 500%Z |};
     rq_basis := sample_choice_basis; rq_basis_status := BasisCurrent;
     rq_required_for := [ForPrepareWrite]; rq_requested_by_actor_source := LocalUser;
     rq_source_method := MRequestUserAction; rq_source_idempotency_key := key;
     rq_requested_at := 100%Z; rq_expires_at := Some 500%Z; rq_metadata := MetaDirectRequest |}.

Definition sample_resolution_insert (id request submission : string) : UserActionResolutionInsert :=
  {| rs_user_action_resolution_id := id; rs_user_action_request_id := request;
     rs_action_kind := TechnicalDecision; rs_channel_kind := Cli;
     rs_channel_submission_id := submission;
     rs_resolution := ResolutionChoice "simple" Accept Accepted (Some "fine") [];
     rs_resolved_by_actor_source := LocalUser; rs_resolved_verification_basis := CliDirectUserChannel;
     rs_resolved_assurance_level := "local_user_channel"; rs_resolved_at := 200%Z |}.

Definition sample_asked : UserActionTable :=
  set_requests (empty_user_actions "p")
    (<["req1" := request_row "p" (sample_request_insert "req1" "k1")]> ∅).

Definition sample_asked_twice : UserActionTable :=
  set_requests sample_asked
    (<["req2" := request_row "p" (sample_request_insert "req2" "k2")]> (ut_requests sample_asked)).

Definition sample_answered : UserActionTable :=
  with_resolution_row sample_asked_twice (sample_resolution_insert "res1" "req1" "sub1").

Lemma asked_step : user_action_step (empty_user_actions "p", 90%Z) (sample_asked, 100%Z).
Proof.
  apply (step_user_action _ _ 100 (InsertRequest (sample_request_insert "req1" "k1")));
    [lia|by split; [vm_compute|eexists; vm_compute]|vm_compute; reflexivity].
Defined.

Lemma asked_twice_step : user_action_step (sample_asked, 100%Z) (sample_asked_twice, 110%Z).
Proof.
  apply (step_user_action _ _ 110 (InsertRequest (sample_request_insert "req2" "k2")));
    [lia|by split; [vm_compute|eexists; vm_compute]|vm_compute; reflexivity].
Defined.

Lemma answered_step : user_action_step (sample_asked_twice, 110%Z) (sample_answered, 200%Z).
Proof.
  apply (step_user_action _ _ 200 (InsertResolution (sample_resolution_insert "res1" "req1" "sub1")));
    [lia|by vm_compute|vm_compute; reflexivity].
Defined.

Lemma asked_twice_reachable : user_actions_reachable (sample_asked_twice, 110%Z).
Proof.
  exists "p", 90%Z. eapply rtc_l; [apply asked_step|].
  eapply rtc_l; [apply asked_twice_step|apply rtc_refl].
Defined.

Lemma reachable_user_actions_read_witness :
  ∃ o, effective_user_action_record sample_asked_twice "req1" 600 =
    Ok (Some {| set_request := request_row "p" (sample_request_insert "req1" "k1");
                set_resolution := o;
                set_status := shown_status (request_row "p" (sample_request_insert "req1" "k1"))
                                (is_some o) 600 |}).
Proof.
  destruct (reachable_user_actions_read sample_asked_twice 110 600 asked_twice_reachable) as [Hreq _];
    [lia|].
  destruct (Hreq "req1" (request_row "p" (sample_request_insert "req1" "k1"))) as (o & Ho & _);
    [vm_compute; reflexivity|by exists o].
Defined.

Lemma user_action_rows_monotonic_witness :
  ∃ r', ut_requests sample_answered !! "req2" = Some r' ∧
    ur_request r' = rq_request (sample_request_insert "req2" "k2").
Proof.
  destruct (user_action_rows_monotonic sample_asked_twice 110 sample_answered 200
              asked_twice_reachable) as [Hreq _].
  { eapply rtc_l; [apply answered_step|apply rtc_refl]. }
  destruct (Hreq "req2" (request_row "p" (sample_request_insert "req2" "k2")))
    as (r' & Hr' & _ & _ & Hsame & _); [vm_compute; reflexivity|].
  exists r'. split; [exact Hr'|exact Hsame].
Defined.

Lemma user_action_resolved_once_witness :
  "req2" ≠ "req1" ∧ (Cli = Cli → "sub2" ≠ "sub1").
Proof.
  apply (user_action_resolved_once sample_asked_twice 110
           (sample_resolution_insert "res1" "req1" "sub1") sample_answered 200 sample_answered 200
           (sample_resolution_insert "res2" "req2" "sub2")
           (with_resolution_row sample_answered (sample_resolution_insert "res2" "req2" "sub2")));
    [apply asked_twice_reachable|vm_compute; reflexivity|lia|vm_compute; discriminate|apply rtc_refl
    |vm_compute; reflexivity].
Defined.

Definition sample_invalidation : UserActionInvalidation :=
  {| ui_task_id := "t1"; ui_action_kinds := []; ui_preserved_request_ids := ["req2"] |}.

Lemma invalidation_exact_witness :
  ∃ s' r', mark_user_actions_superseded_or_stale sample_answered sample_invalidation = Ok s' ∧
    ut_requests s' !! "req1" = Some r' ∧ ur_basis_status r' = BasisStale.
Proof.
  eexists _. assert (Hok : user_actions_ok sample_answered 200).
  { apply (reachable_user_actions_ok (sample_answered, 200%Z)). exists "p", 90%Z.
    eapply rtc_l; [apply asked_step|]. eapply rtc_l; [apply asked_twice_step|].
    eapply rtc_l; [apply answered_step|apply rtc_refl]. }
  destruct (invalidation_exact sample_answered 200 sample_invalidation _ Hok (reflexivity _)) as [_ Hreq].
  destruct (Hreq "req1" (request_row "p" (sample_request_insert "req1" "k1")))
    as (r' & Hr' & Hw & _); [vm_compute; reflexivity|].
  exists r'. split; [reflexivity|]. split; [exact Hr'|]. rewrite Hw; [vm_compute; reflexivity|].
  split_and!; [reflexivity|by left|reflexivity|]. cbn. set_solver.
Defined.

Lemma pending_request_reads_back_witness :
  effective_user_action_record sample_asked_twice "req2" 400 =
    Ok (Some {| set_request := request_row "p" (sample_request_insert "req2" "k2");
                set_resolution := None; set_status := UAPending |}).
Proof.
  apply (pending_request_reads_back sample_asked 100 (sample_request_insert "req2" "k2")
           {| set_request := request_row "p" (sample_request_insert "req2" "k2");
              set_resolution := None; set_status := UAPending |} sample_asked_twice 110 400);
    [|vm_compute; reflexivity|vm_compute; reflexivity|by split; [vm_compute|eexists; vm_compute]|lia|lia|].
  - exists "p", 90%Z. eapply rtc_l; [apply asked_step|apply rtc_refl].
  - intros e [= <-]. lia.
Defined.
