(* ===== verification/Artifact.v ===== *)
(** * Artifact: stored artifacts and the references made of them

    Models [crates/volicord-core/src/artifact.rs] (the public reference of a
    stored artifact and its currency) and the artifact rows of
    [crates/volicord-store/src/core_pipeline/artifacts.rs].  The verification of a
    body reads files, so it is the operation of a class, [ArtifactReader]. *)

From S2P Require Import Prelude Text Values Canonical Schema Clock TicketStore.

Inductive PersistentArtifactStatus := PSAvailable | PSMissing | PSIntegrityFailed | PSUnavailable.
#[export] Instance PersistentArtifactStatus_eq_dec : EqDecision PersistentArtifactStatus.
Proof. solve_decision. Defined.

(** The columns of an artifact row that are read; those of the producer and the
    provenance JSON carry its name. *)
Record StoredArtifactRecord := {
  sa_project_id : string;
  sa_artifact_id : string;
  sa_task_id : string;
  sa_uri : string;
  sa_sha256 : option string;
  sa_size_bytes : option N;
  sa_content_type : option string;
  sa_integrity_status : ArtifactIntegrityStatus;
  sa_redaction_state : RedactionState;
  sa_status : PersistentArtifactStatus;
  sa_producer_display_name : option string;
  sa_producer_created_by_actor_source : ActorSource;
  sa_provenance_producer_run_id : string;
}.

Inductive PersistentArtifactVerificationStatus :=
| VerifiedCurrent | VMissing | VIntegrityFailed | VUnavailable | BoundaryViolation.
#[export] Instance PersistentArtifactVerificationStatus_eq_dec :
  EqDecision PersistentArtifactVerificationStatus.
Proof. solve_decision. Defined.

Class ArtifactReader (S : Type) := {
  artifact_record : S → string → result (option StoredArtifactRecord) StoreError;
  artifact_has_task_owner_link : S → string → string → result bool StoreError;
  artifact_has_owner_link :
    S → string → string → StateRecordKind → string → result bool StoreError;
  verify_persistent_artifact_body :
    S → StoredArtifactRecord → result PersistentArtifactVerificationStatus StoreError;
}.

(** [state_ref]. *)
Definition state_ref (record_kind : StateRecordKind) (record_id : string) (project_id : ProjectId)
    (task_id : option TaskId) (state_version : option N) : StateRecordRef :=
  {| sr_record_kind := record_kind; sr_record_id := record_id; sr_project_id := project_id;
     sr_task_id := task_id; sr_produced_at_state_version := state_version |}.

Definition artifact_availability_for_verification_status (record : StoredArtifactRecord)
    (verification_status : PersistentArtifactVerificationStatus) : ArtifactAvailability :=
  match verification_status with
  | VerifiedCurrent => AAvailable
  | VMissing => AMissing
  | VIntegrityFailed => AIntegrityFailed
  | VUnavailable =>
      match sa_status record with
      | PSMissing => AMissing
      | PSIntegrityFailed => AIntegrityFailed
      | PSAvailable | PSUnavailable => AUnavailable
      end
  | BoundaryViolation => AUnusable
  end.

Definition effective_artifact_integrity_status (record : StoredArtifactRecord)
    (verification_status : PersistentArtifactVerificationStatus) : ArtifactIntegrityStatus :=
  match verification_status with
  | VerifiedCurrent => AIVerified
  | VIntegrityFailed | BoundaryViolation => AICorrupt
  | VMissing | VUnavailable => sa_integrity_status record
  end.

Definition sanitized_artifact_content_type (record : StoredArtifactRecord)
    (integrity_status : ArtifactIntegrityStatus) : option string :=
  match integrity_status with
  | AIVerified => sa_content_type record
  | AICorrupt => option_filter (λ value, negb (str_is_empty (trim value))) (sa_content_type record)
  end.

Definition sanitized_artifact_sha256 (record : StoredArtifactRecord)
    (integrity_status : ArtifactIntegrityStatus) : option string :=
  match integrity_status with
  | AIVerified => sa_sha256 record
  | AICorrupt => option_filter is_canonical_sha256_hex (sa_sha256 record)
  end.

Section artifact.
Context {S : Type} `{HA : !ArtifactReader S}.

Definition persistent_artifact_is_verified_current (store : S) (record : StoredArtifactRecord)
    : result bool StoreError :=
  let? status := verify_persistent_artifact_body store record in Ok (status =? VerifiedCurrent).

Definition artifact_ref_from_verified_record (store : S) (record : StoredArtifactRecord)
    (display_name : option string) (created_by_run_state_version : option N)
    : result ArtifactRef StoreError :=
  let? verification_status := verify_persistent_artifact_body store record in
  let integrity_status := effective_artifact_integrity_status record verification_status in
  Ok {| ar_artifact_id := sa_artifact_id record; ar_project_id := sa_project_id record;
        ar_task_id := sa_task_id record;
        ar_display_name := default (sa_artifact_id record)
                             (or_else display_name (sa_producer_display_name record));
        ar_content_type := sanitized_artifact_content_type record integrity_status;
        ar_sha256 := sanitized_artifact_sha256 record integrity_status;
        ar_size_bytes := sa_size_bytes record; ar_integrity_status := integrity_status;
        ar_redaction_state := sa_redaction_state record;
        ar_availability := artifact_availability_for_verification_status record verification_status;
        ar_created_by_run_ref := Some
          (state_ref KRun (sa_provenance_producer_run_id record) (sa_project_id record)
             (Some (sa_task_id record)) created_by_run_state_version);
        ar_created_by_actor_source := Some (sa_producer_created_by_actor_source record);
        ar_storage_ref := Some (sa_uri record) |}.
End artifact.
