(* ===== verification/UserActionService.v ===== *)
(** * UserActionService: constructing and resolving user actions

    Models [crates/volicord-user-action-service/src/]: the pure validation of
    [validation.rs], the canonical bodies of [body.rs], the orchestration of
    [service.rs], the identities and materialization of [identity.rs],
    [materialization.rs] and [persistence.rs], the resolutions of
    [resolution.rs], the authority facts of [authority.rs] and the continuity
    drafts of [continuity.rs], and the reads of [projection.rs].  Reads of the
    project store are the operations of the class [UserActionStoreReader], the trait
    of the same name. *)

From Stdlib Require Import Ascii.
From S2P Require Import Prelude Text ProductPath Values Canonical Schema UserAction Clock.
From S2P Require Import TicketStore Commit.
From S2P Require Import UserActionShape UserActionStore Artifact.

(** ** Errors *)

Record UserActionValidationError := { ve_field : string; ve_message : string }.

Definition validation_error (field message : string) : UserActionValidationError :=
  {| ve_field := field; ve_message := message |}.

Definition of_shape_error (error : UserActionShapeError) : UserActionValidationError :=
  validation_error (she_field error) (she_message error).

Inductive UserActionUnavailable :=
| TaskNotFound | CurrentCloseBasisRequired | ResolutionRequestNotFound
| ResolutionStatus (status : UserActionStatus) | BasisNotCurrent | CloseBasisNotCurrent
| ChannelSubmissionConflict | ChannelSubmissionAlreadyCommitted | SelectedArtifactChanged
| CurrentChangeUnitRequired | CurrentBaselineRequired | StoredResolutionOptionMissing
| AcceptedRiskIdentityMismatch.

Inductive UserActionInvariantError := TaskIdentityMismatch | ActionFactsMismatch | Serialization.

Inductive UserActionServiceError :=
| Validation (error : UserActionValidationError)
| CorruptStoredState (error : StoreError)
| ServiceStore (error : StoreError)
| ServiceInvariant (error : UserActionInvariantError)
| Unavailable (error : UserActionUnavailable).

(** [UserActionServiceError::from_store]. *)
Definition from_store (error : StoreError) : UserActionServiceError :=
  match error with
  | CorruptStoredJson _ | CorruptOwnerStateJson _ _ _ | CorruptOwnerStateValue _ _ _
  | CorruptOwnerStateInvariant _ _ _ | CorruptStoredValue _ | SchemaInvariant _ =>
      CorruptStoredState error
  | _ => ServiceStore error
  end.

(** ** Rows the service reads *)

Record TaskRevisionRecord := {
  tv_project_id : string;
  tv_task_id : string;
  tv_scope_revision : N;
  tv_close_basis_revision : N;
  tv_current_close_basis : option CurrentCloseBasis;
}.

Inductive AcceptanceCriterionStatus := CriterionActive | CriterionRetired.
#[export] Instance AcceptanceCriterionStatus_eq_dec : EqDecision AcceptanceCriterionStatus.
Proof. solve_decision. Defined.

(** The columns of the criterion and claim rows that are read here. *)
Record AcceptanceCriterionRecord := { ac_task_id : string; ac_status : AcceptanceCriterionStatus }.

Record EvidenceClaimRecord := { ec_task_id : string; ec_statement : string }.

Class UserActionStoreReader (S : Type) := {
  task_revision_record : S → TaskId → result (option TaskRevisionRecord) StoreError;
  change_unit_record : S → TaskId → string → result (option ChangeUnitRecord) StoreError;
  acceptance_criterion_record : S → string → result (option AcceptanceCriterionRecord) StoreError;
  evidence_claim_record : S → TaskId → string → result (option EvidenceClaimRecord) StoreError;
  reader_artifacts :: ArtifactReader S;
}.

(** ** Intents and facts *)

Record UserActionIntent := {
  in_task_id : TaskId;
  in_change_unit_id : option ChangeUnitId;
  in_action : UserActionDraft;
  in_required_for : list UserActionRequiredFor;
  in_expires_at : option UtcTimestamp;
}.

Record UserActionConstructionContext := {
  ctx_project_id : ProjectId;
  ctx_observed_state_version : N;
  ctx_observed_at : UtcTimestamp;
  ctx_locale : option string;
}.

Inductive UserActionBodyFacts :=
| FactsChoice (close_basis_revision : option N) (result_refs : list StateRecordRef)
    (residual_risk_ids : list RiskId)
| FactsEvidenceObservation (artifact_candidates : list ArtifactRef).

Record UserActionValidationInput := {
  vi_project_id : ProjectId;
  vi_actual_task_id : string;
  vi_task_scope_revision : N;
  vi_baseline_ref : option BaselineRef;
  vi_current_change_unit_id : option ChangeUnitId;
  vi_requested_change_unit_exists : bool;
  vi_state_version : N;
  vi_operation_now : UtcTimestamp;
  vi_intent : UserActionIntent;
}.

Record ValidatedUserActionIntent := {
  vx_task_id : TaskId;
  vx_coordinate_change_unit_id : option ChangeUnitId;
  vx_action : UserActionDraft;
  vx_coordinates : UserActionBasisCoordinates;
  vx_required_for : list UserActionRequiredFor;
  vx_expires_at : option UtcTimestamp;
  vx_created_at : UtcTimestamp;
}.

Record ValidatedUserAction := {
  va_task_id : TaskId;
  va_coordinate_change_unit_id : option ChangeUnitId;
  va_body : UserActionRequestBody;
  va_basis : UserActionBasis;
  va_required_for : list UserActionRequiredFor;
  va_expires_at : option UtcTimestamp;
  va_created_at : UtcTimestamp;
}.

(** ** [validation.rs] *)

Definition normalize_text (value : string) : string := trim value.

Definition normalize_optional (value : option string) : option string :=
  option_filter (λ value, negb (str_is_empty value)) (normalize_text <$> value).

Definition normalize_sensitive_action_scope (scope : SensitiveActionScope)
    : result SensitiveActionScope ProductPathError :=
  let? paths := parse_product_paths (sas_intended_paths scope) in
  Ok {| sas_action_kind := normalize_text (sas_action_kind scope);
        sas_description := normalize_text (sas_description scope);
        sas_intended_paths := bts_of_list (path_str <$> paths);
        sas_sensitive_categories :=
          bts_of_list (List.filter (λ value, negb (str_is_empty value))
                         (normalize_text <$> sas_sensitive_categories scope));
        sas_command_or_tool_summary := normalize_optional (sas_command_or_tool_summary scope);
        sas_network_or_host_summary := normalize_optional (sas_network_or_host_summary scope);
        sas_secret_or_credential_summary :=
          normalize_optional (sas_secret_or_credential_summary scope);
        sas_capability_claim := normalize_text (sas_capability_claim scope);
        sas_expires_at := sas_expires_at scope |}.

(** The judgments whose options Core owns. *)
Definition authority_bearing (kind : JudgmentKind) : bool :=
  match kind with
  | JScopeDecision | JSensitiveApproval | JFinalAcceptance | JResidualRiskAcceptance
  | JCancellation => true
  | JProductDecision | JTechnicalDecision => false
  end.

(** [iter().any(|id| !ids.insert(id))] over a fresh set. *)
Fixpoint inserts_duplicate (ids seen : list string) : bool :=
  match ids with
  | [] => false
  | id :: rest => bts_mem id seen || inserts_duplicate rest (bts_insert id seen)
  end.

Definition with_scope (choice : UserActionChoiceDraft) (scope : option SensitiveActionScope)
    : UserActionChoiceDraft :=
  {| cd_judgment_kind := cd_judgment_kind choice; cd_presentation := cd_presentation choice;
     cd_question := cd_question choice;
     cd_options := cd_options choice; cd_context := cd_context choice;
     cd_affected_refs := cd_affected_refs choice; cd_sensitive_action_scope := scope |}.

Definition validate_and_normalize_choice (choice : UserActionChoiceDraft)
    : result UserActionChoiceDraft UserActionValidationError :=
  let? _ := ensure (str_is_empty (trim (cd_question choice))
                    || str_is_empty (trim (uctx_summary (cd_context choice))))
              (validation_error "action.question"
                 "choice question and context summary must be non-empty") in
  let? _ := ensure ((cd_judgment_kind choice <>? JSensitiveApproval)
                    && is_some (cd_sensitive_action_scope choice))
              (validation_error "action.sensitive_action_scope"
                 "sensitive_action_scope is only valid for sensitive approval") in
  let? _ := ensure ((cd_judgment_kind choice =? JSensitiveApproval)
                    && is_none (cd_sensitive_action_scope choice))
              (validation_error "action.sensitive_action_scope"
                 "sensitive approval requires a bounded sensitive action scope") in
  let? scope := map_err (λ _, validation_error "action.sensitive_action_scope.intended_paths"
                    "sensitive action paths must stay within the Product Repository")
                  (try_option normalize_sensitive_action_scope (cd_sensitive_action_scope choice)) in
  let caller_options := default [] (cd_options choice) in
  let? _ := ensure (authority_bearing (cd_judgment_kind choice) && negb (list_is_empty caller_options))
              (validation_error "action.options"
                 "authority-bearing actions use only Core-owned options") in
  let? _ := ensure (negb (authority_bearing (cd_judgment_kind choice)) && list_is_empty caller_options)
              (validation_error "action.options"
                 "product and technical choices require at least one caller-authored option") in
  let? _ := ensure (inserts_duplicate (oi_option_id <$> caller_options) [])
              (validation_error "action.options" "choice option IDs must be unique") in
  let? _ := ensure (1 <? length (List.filter oi_is_default caller_options))%nat
              (validation_error "action.options" "choice options may contain at most one default") in
  Ok (with_scope choice scope).

Definition validate_and_normalize_body_input (action : UserActionDraft)
    : result UserActionDraft UserActionValidationError :=
  match action with
  | DraftChoice choice =>
      let? choice := validate_and_normalize_choice choice in Ok (DraftChoice choice)
  | DraftEvidenceObservation observation =>
      let? _ := ensure (str_is_empty (trim (ed_question observation))
                        || str_is_empty (trim (ed_context_summary observation)))
                  (validation_error "action.question"
                     "observation question and context summary must be non-empty") in
      let? _ := ensure (length (bts_of_list (ed_target_candidates observation))
                        <>? length (ed_target_candidates observation))
                  (validation_error "action.target_candidates"
                     "target candidates must not contain duplicates") in
      let? _ := ensure (length (bts_of_list (ed_artifact_candidate_ids observation))
                        <>? length (ed_artifact_candidate_ids observation))
                  (validation_error "action.artifact_candidate_ids"
                     "artifact candidates must not contain duplicates") in
      Ok (DraftEvidenceObservation observation)
  end.

Fixpoint validate_affected_refs (refs : list StateRecordRef) (project_id : ProjectId)
    (task_id : TaskId) : result unit UserActionValidationError :=
  match refs with
  | [] => Ok tt
  | affected_ref :: rest =>
      let? _ := ensure (sr_project_id affected_ref <>? project_id)
                  (validation_error "action.affected_refs.project_id"
                     "affected_refs must belong to the request project") in
      let task_record_mismatch :=
        (sr_record_kind affected_ref =? KTask) && (sr_record_id affected_ref <>? task_id) in
      let task_context_mismatch :=
        is_some_and (sr_task_id affected_ref) (λ affected_task_id, affected_task_id <>? task_id) in
      let? _ := ensure (task_record_mismatch || task_context_mismatch)
                  (validation_error "action.affected_refs.task_id"
                     "task-scoped affected_refs must belong to the request Task") in
      validate_affected_refs rest project_id task_id
  end.

Definition validate_choice_affected_refs (action : UserActionDraft) (project_id : ProjectId)
    (task_id : TaskId) : result unit UserActionValidationError :=
  match action with
  | DraftChoice choice => validate_affected_refs (cd_affected_refs choice) project_id task_id
  | DraftEvidenceObservation _ => Ok tt
  end.

Definition action_needs_current_change_unit (kind : UserActionKind) : bool :=
  match kind with
  | SensitiveApproval | FinalAcceptance | ResidualRiskAcceptance | EvidenceObservation => true
  | _ => false
  end.

Definition is_observation (action : UserActionDraft) : bool :=
  match action with DraftEvidenceObservation _ => true | DraftChoice _ => false end.

(** ** [body.rs] *)

Definition authority_subject_en (kind : JudgmentKind) : string :=
  match kind with
  | JScopeDecision => "scope decision"
  | JSensitiveApproval => "sensitive action"
  | JFinalAcceptance => "final acceptance"
  | JResidualRiskAcceptance => "residual risk"
  | JCancellation => "task cancellation"
  | JProductDecision => "product decision"
  | JTechnicalDecision => "technical decision"
  end.

Definition authority_subject_ko (kind : JudgmentKind) : string :=
  match kind with
  | JScopeDecision => "범위 결정"
  | JSensitiveApproval => "민감 작업"
  | JFinalAcceptance => "최종 수락"
  | JResidualRiskAcceptance => "잔여 위험"
  | JCancellation => "작업 취소"
  | JProductDecision => "제품 결정"
  | JTechnicalDecision => "기술 결정"
  end.

(** [locale.to_ascii_lowercase().replace('_', "-")]. *)
Definition canonical_locale (locale : string) : string :=
  str_map (λ c, if c =? "_"%char then "-"%char else c) (to_ascii_lowercase locale).

Definition locale_is_korean (locale : option string) : bool :=
  is_some_and (canonical_locale <$> locale)
    (λ locale, (locale =? "ko") || starts_with "ko-" locale).

(** The label, description and consequence of a Core-owned option. *)
Definition authority_option_copy (kind : JudgmentKind) (action : UserActionOptionAction)
    (locale : option string) : string * string * string :=
  if locale_is_korean locale then
    let '(label, verb, outcome) :=
      match action with
      | Accept => ("수락", "수락합니다", "수락됨")
      | Reject => ("거부", "거부합니다", "거부됨")
      | Defer => ("보류", "나중으로 보류합니다", "보류됨")
      end in
    (label, "현재 근거에 따라 " +:+ authority_subject_ko kind +:+ "을(를) " +:+ verb +:+ ".",
     "이 사용자 작업은 " +:+ outcome +:+ " 상태로 해결됩니다.")
  else
    let '(label, verb, outcome) :=
      match action with
      | Accept => ("Accept", "Accept", "accepted")
      | Reject => ("Reject", "Reject", "rejected")
      | Defer => ("Defer", "Defer", "deferred")
      end in
    (label, verb +:+ " the " +:+ authority_subject_en kind +:+ " on the current basis.",
     "This user action resolves as " +:+ outcome +:+ ".").

Definition authority_option_id (action : UserActionOptionAction) : UserActionOptionId :=
  match action with Accept => "accept" | Reject => "reject" | Defer => "defer" end.

Definition authority_option (kind : JudgmentKind) (locale : option string)
    (machine_action : UserActionOptionAction) : UserActionOption :=
  let '(label, description, consequence) := authority_option_copy kind machine_action locale in
  {| opt_option_id := authority_option_id machine_action; opt_label := label;
     opt_description := description; opt_consequence := consequence;
     opt_machine_action := machine_action;
     opt_resolution_outcome := option_action_outcome machine_action;
     opt_is_default := machine_action =? Accept |}.

Definition caller_option (option : UserActionOptionInput) : UserActionOption :=
  {| opt_option_id := oi_option_id option; opt_label := oi_label option;
     opt_description := oi_description option; opt_consequence := oi_consequence option;
     opt_machine_action := Accept; opt_resolution_outcome := Accepted;
     opt_is_default := oi_is_default option |}.

Definition canonical_choice_options (kind : JudgmentKind) (caller_options : list UserActionOptionInput)
    (locale : option string) : list UserActionOption :=
  if authority_bearing kind then authority_option kind locale <$> [Accept; Reject; Defer]
  else caller_option <$> caller_options.

Definition normalize_display_text (value : string) : string := trim value.

Definition choice_body (choice : UserActionChoiceDraft) (locale : option string)
    : UserActionRequestBody :=
  BodyChoice
    {| cr_judgment_kind := cd_judgment_kind choice; cr_presentation := cd_presentation choice;
       cr_question := normalize_display_text (cd_question choice);
       cr_options := canonical_choice_options (cd_judgment_kind choice)
                       (default [] (cd_options choice)) locale;
       cr_context := cd_context choice; cr_affected_refs := cd_affected_refs choice;
       cr_sensitive_action_scope := cd_sensitive_action_scope choice |}.

Definition observation_body (observation : UserActionEvidenceObservationDraft)
    (artifact_candidates : list ArtifactRef) : UserActionRequestBody :=
  BodyEvidenceObservation
    {| er_question := normalize_display_text (ed_question observation);
       er_context_summary := normalize_display_text (ed_context_summary observation);
       er_target_candidates := ed_target_candidates observation;
       er_artifact_candidates := artifact_candidates |}.

Section service.
Context `{HC : Chrono} `{HZ : CanonicalSize}.

(** The expiry a request gets: observations are given fifteen minutes. *)
Definition derive_expires_at (action : UserActionDraft) (expires_at : option UtcTimestamp)
    (operation_now : UtcTimestamp) : result (option UtcTimestamp) UserActionValidationError :=
  if is_observation action then
    let? _ := ensure (is_some expires_at)
                (validation_error "expires_at"
                   "evidence-observation actions require caller expires_at to be null") in
    let? derived := ok_or
      (checked_add operation_now (minutes USER_ACTION_EVIDENCE_OBSERVATION_TTL_MINUTES))
      (validation_error "expires_at"
         "derived expiration exceeds the supported canonical RFC 3339 range") in
    Ok (Some derived)
  else Ok expires_at.

(** The Change Unit rules of an action kind. *)
Definition validate_change_unit (kind : UserActionKind) (current requested : option ChangeUnitId)
    : result unit UserActionValidationError :=
  if action_needs_current_change_unit kind then
    let? current := ok_or current
      (validation_error "change_unit_id" "this action kind requires the current active Change Unit") in
    ensure (is_some_and requested (λ requested, requested <>? current))
      (validation_error "change_unit_id" "change_unit_id must match the current active Change Unit")
  else Ok tt.

Definition validate_user_action (input : UserActionValidationInput)
    : result ValidatedUserActionIntent UserActionValidationError :=
  let intent := vi_intent input in
  let action := in_action intent in
  let kind := draft_action_kind action in
  let? _ := map_err of_shape_error (draft_validate_bounds action) in
  let? _ := ensure (list_is_empty (in_required_for intent))
              (validation_error "required_for"
                 "required_for must contain at least one bounded operation") in
  let? _ := ensure (repeats_any [] (in_required_for intent))
              (validation_error "required_for"
                 "required_for must not contain duplicate operation targets") in
  let? _ := ensure (vi_actual_task_id input <>? in_task_id intent)
              (validation_error "task_id" "Task facts must match the semantic user-action intent") in
  let? _ := validate_choice_affected_refs action (vi_project_id input) (in_task_id intent) in
  let? _ := ensure (negb (forallb (is_compatible_with_required_for kind) (in_required_for intent)))
              (validation_error "required_for"
                 "required_for contains an operation incompatible with the action kind") in
  let? expires_at := derive_expires_at action (in_expires_at intent) (vi_operation_now input) in
  let? _ := ensure (is_some_and expires_at (λ value, negb (representable value)))
              (validation_error "expires_at"
                 "expires_at must be representable as a canonical four-digit RFC 3339 timestamp") in
  let? _ := ensure (is_some_and expires_at (λ value, ts_le value (vi_operation_now input)))
              (validation_error "expires_at" "expires_at must be later than the request timestamp") in
  let? _ := ensure (is_observation action && (is_none (vi_current_change_unit_id input)
                                              || is_none (vi_baseline_ref input)))
              (validation_error "action"
                 "evidence-observation actions require a current Change Unit and baseline") in
  let? _ := ensure (is_some (in_change_unit_id intent) && negb (vi_requested_change_unit_exists input))
              (validation_error "change_unit_id"
                 "change_unit_id must identify a Change Unit owned by the Task") in
  let? _ := validate_change_unit kind (vi_current_change_unit_id input) (in_change_unit_id intent) in
  let? action := validate_and_normalize_body_input action in
  let coordinate_change_unit_id :=
    or_else (in_change_unit_id intent) (vi_current_change_unit_id input) in
  Ok {| vx_task_id := in_task_id intent;
        vx_coordinate_change_unit_id := coordinate_change_unit_id;
        vx_action := action;
        vx_coordinates :=
          {| co_task_id := in_task_id intent; co_change_unit_id := coordinate_change_unit_id;
             co_scope_revision := vi_task_scope_revision input;
             co_baseline_ref := vi_baseline_ref input;
             co_created_at_state_version := vi_state_version input;
             co_compatibility_status := BasisCurrent |};
        vx_required_for := in_required_for intent; vx_expires_at := expires_at;
        vx_created_at := vi_operation_now input |}.

Definition construct_canonical_body (validated : ValidatedUserActionIntent)
    (body_facts : UserActionBodyFacts) (locale : option string)
    : result ValidatedUserAction UserActionValidationError :=
  let? '(body, basis) :=
    match vx_action validated, body_facts with
    | DraftChoice choice, FactsChoice close_basis_revision result_refs residual_risk_ids =>
        Ok (choice_body choice locale,
            BasisChoice {| ch_coordinates := vx_coordinates validated;
                           ch_close_basis_revision := close_basis_revision;
                           ch_result_refs := result_refs;
                           ch_residual_risk_ids := residual_risk_ids;
                           ch_sensitive_action_scope := cd_sensitive_action_scope choice |})
    | DraftEvidenceObservation observation, FactsEvidenceObservation artifact_candidates =>
        Ok (observation_body observation artifact_candidates,
            BasisEvidenceObservation
              {| eo_coordinates := vx_coordinates validated;
                 eo_target_candidates := ed_target_candidates observation;
                 eo_artifact_candidates := artifact_candidates |})
    | _, _ => Err (validation_error "action.action_type"
                     "validated action facts must match the semantic action family")
    end in
  let? _ := map_err of_shape_error (resolution_form body) in
  Ok {| va_task_id := vx_task_id validated;
        va_coordinate_change_unit_id := vx_coordinate_change_unit_id validated;
        va_body := body; va_basis := basis; va_required_for := vx_required_for validated;
        va_expires_at := vx_expires_at validated; va_created_at := vx_created_at validated |}.

(** ** [service.rs] *)

Context {S : Type} `{HR : !UserActionStoreReader S}.

Definition choice_close_coordinates (store : S) (task_id : TaskId) (kind : JudgmentKind)
    : result UserActionBodyFacts UserActionServiceError :=
  if negb (contains kind [JFinalAcceptance; JResidualRiskAcceptance]) then Ok (FactsChoice None [] [])
  else
    let? record := map_err from_store (task_revision_record store task_id) in
    let? close_basis := ok_or (record ≫= tv_current_close_basis)
                          (Unavailable CurrentCloseBasisRequired) in
    Ok (FactsChoice (Some (cb_close_basis_revision close_basis)) (cb_result_refs close_basis)
          (risk_id <$> List.filter acceptance_required (cb_residual_risks close_basis))).

Definition target_error (field : string) : UserActionServiceError :=
  Validation (validation_error field
    "target must identify a current acceptance criterion or supplemental claim").

Definition validate_user_action_target (store : S) (task_id : TaskId) (target : EvidenceTarget)
    (field : string) : result unit UserActionServiceError :=
  let? current :=
    match target with
    | AcceptanceCriterion acceptance_criterion_id =>
        let? record := map_err from_store (acceptance_criterion_record store acceptance_criterion_id) in
        Ok (is_some_and record (λ record, (ac_task_id record =? task_id)
                                          && (ac_status record =? CriterionActive)))
    | SupplementalClaim evidence_claim_id statement =>
        let? record := map_err from_store (evidence_claim_record store task_id evidence_claim_id) in
        Ok (is_some_and record (λ record, ec_statement record =? normalize_display_text statement))
    end in
  ensure (negb current) (target_error field).

Fixpoint validate_targets (store : S) (task_id : TaskId) (targets : list EvidenceTarget)
    (field : string) : result unit UserActionServiceError :=
  match targets with
  | [] => Ok tt
  | target :: rest =>
      let? _ := validate_user_action_target store task_id target field in
      validate_targets store task_id rest field
  end.

Definition verified_artifact_ref (record : StoredArtifactRecord) (observed_state_version : N)
    : ArtifactRef :=
  {| ar_artifact_id := sa_artifact_id record; ar_project_id := sa_project_id record;
     ar_task_id := sa_task_id record;
     ar_display_name := default (sa_artifact_id record) (sa_producer_display_name record);
     ar_content_type := sa_content_type record; ar_sha256 := sa_sha256 record;
     ar_size_bytes := sa_size_bytes record; ar_integrity_status := AIVerified;
     ar_redaction_state := sa_redaction_state record; ar_availability := AAvailable;
     ar_created_by_run_ref := Some
       {| sr_record_kind := KRun; sr_record_id := sa_provenance_producer_run_id record;
          sr_project_id := sa_project_id record; sr_task_id := Some (sa_task_id record);
          sr_produced_at_state_version := Some observed_state_version |};
     ar_created_by_actor_source := Some (sa_producer_created_by_actor_source record);
     ar_storage_ref := Some (sa_uri record) |}.

Definition artifact_validation_error (field : string) : UserActionServiceError :=
  Validation (validation_error field
    "artifact candidates must be verified current artifacts owned by this Task").

Definition canonical_user_action_artifact (store : S) (project_id : ProjectId)
    (observed_state_version : N) (task_id : TaskId) (artifact_id : ArtifactId) (field : string)
    : result ArtifactRef UserActionServiceError :=
  let? record := map_err from_store (artifact_record store artifact_id) in
  let? owner_link := map_err from_store (artifact_has_task_owner_link store artifact_id task_id) in
  let? record := ok_or record (artifact_validation_error field) in
  let? verification := map_err from_store (verify_persistent_artifact_body store record) in
  let? _ := ensure ((sa_project_id record <>? project_id) || (sa_task_id record <>? task_id)
                    || negb owner_link || (verification <>? VerifiedCurrent))
              (artifact_validation_error field) in
  Ok (verified_artifact_ref record observed_state_version).

(** The loop over the ids; the map is ordered by artifact id. *)
Fixpoint collect_artifacts (store : S) (project_id : ProjectId) (observed_state_version : N)
    (task_id : TaskId) (artifact_ids : list ArtifactId) (field : string)
    (canonical : list (string * ArtifactRef)) : result (list (string * ArtifactRef)) UserActionServiceError :=
  match artifact_ids with
  | [] => Ok canonical
  | artifact_id :: rest =>
      let? artifact := canonical_user_action_artifact store project_id observed_state_version task_id
                         artifact_id field in
      collect_artifacts store project_id observed_state_version task_id rest field
        (btm_insert artifact_id artifact canonical)
  end.

Definition canonical_user_action_artifacts (store : S) (project_id : ProjectId)
    (observed_state_version : N) (task_id : TaskId) (artifact_ids : list ArtifactId) (field : string)
    : result (list ArtifactRef) UserActionServiceError :=
  let? canonical := collect_artifacts store project_id observed_state_version task_id artifact_ids
                      field [] in
  Ok canonical.*2.

Definition construct_user_action (store : S) (task : TaskRecord)
    (current_change_unit : option ChangeUnitRecord) (context : UserActionConstructionContext)
    (intent : UserActionIntent) : result ValidatedUserAction UserActionServiceError :=
  let? _ := ensure (tk_task_id task <>? in_task_id intent) (ServiceInvariant TaskIdentityMismatch) in
  let? requested_change_unit_exists :=
    match in_change_unit_id intent with
    | Some change_unit_id =>
        let? record := map_err from_store (change_unit_record store (in_task_id intent) change_unit_id) in
        Ok (is_some record)
    | None => Ok true
    end in
  let? validated := map_err Validation (validate_user_action
    {| vi_project_id := ctx_project_id context; vi_actual_task_id := tk_task_id task;
       vi_task_scope_revision := tk_scope_revision task;
       vi_baseline_ref := shaping_baseline_ref (tk_shaping task);
       vi_current_change_unit_id := cu_change_unit_id <$> current_change_unit;
       vi_requested_change_unit_exists := requested_change_unit_exists;
       vi_state_version := ctx_observed_state_version context;
       vi_operation_now := ctx_observed_at context; vi_intent := intent |}) in
  let? body_facts :=
    match vx_action validated with
    | DraftChoice choice =>
        choice_close_coordinates store (vx_task_id validated) (cd_judgment_kind choice)
    | DraftEvidenceObservation observation =>
        let? _ := validate_targets store (vx_task_id validated) (ed_target_candidates observation)
                    "action.target_candidates" in
        let? artifacts := canonical_user_action_artifacts store (ctx_project_id context)
          (ctx_observed_state_version context) (vx_task_id validated)
          (ed_artifact_candidate_ids observation) "action.artifact_candidate_ids" in
        Ok (FactsEvidenceObservation artifacts)
    end in
  map_err Validation (construct_canonical_body validated body_facts (ctx_locale context)).

(** ** [identity.rs], [materialization.rs] and [persistence.rs] *)

Inductive UserActionOrigin :=
| OriginDirectRequest
| OriginShaping (shaping_checkpoint_id shaping_gap_id : string)
    (reauthorizes_application_id : option string)
| OriginReconciliation (unrecorded_change_id : string).

Definition origin_source_method (origin : UserActionOrigin) : MethodName :=
  match origin with
  | OriginDirectRequest => MRequestUserAction
  | OriginShaping _ _ _ => MRecordShapingCheckpoint
  | OriginReconciliation _ => MReconcileChanges
  end.

Definition origin_metadata (origin : UserActionOrigin) : PersistedUserActionRequestMetadata :=
  match origin with
  | OriginDirectRequest => MetaDirectRequest
  | OriginShaping checkpoint gap reauthorizes =>
      MetaShaping MRecordShapingCheckpoint checkpoint gap reauthorizes
  | OriginReconciliation change => MetaReconciliation MReconcileChanges change
  end.

Record UserActionPersistenceContext := {
  pc_project_id : ProjectId;
  pc_actor_source : ActorSource;
  pc_operation_identity : string;
  pc_planned_state_version : N;
  pc_user_action_request_id : UserActionRequestId;
}.

(** The Store insert of a constructed request. *)
Definition request_insert (context : UserActionPersistenceContext) (origin : UserActionOrigin)
    (constructed : ValidatedUserAction) : UserActionRequestInsert :=
  {| rq_user_action_request_id := pc_user_action_request_id context;
     rq_task_id := va_task_id constructed;
     rq_change_unit_id := va_coordinate_change_unit_id constructed;
     rq_action_kind := body_action_kind (va_body constructed);
     rq_request := {| pr_body := va_body constructed; pr_required_for := va_required_for constructed;
                      pr_expires_at := va_expires_at constructed |};
     rq_basis := va_basis constructed; rq_basis_status := BasisCurrent;
     rq_required_for := va_required_for constructed;
     rq_requested_by_actor_source := pc_actor_source context;
     rq_source_method := origin_source_method origin;
     rq_source_idempotency_key := pc_operation_identity context;
     rq_requested_at := va_created_at constructed; rq_expires_at := va_expires_at constructed;
     rq_metadata := origin_metadata origin |}.

(** The public shape of a request and of a resolution. *)
Record UserActionRequest := {
  pq_user_action_request_id : UserActionRequestId;
  pq_project_id : ProjectId;
  pq_task_id : TaskId;
  pq_change_unit_id : option ChangeUnitId;
  pq_action_kind : UserActionKind;
  pq_status : UserActionStatus;
  pq_body : UserActionRequestBody;
  pq_basis : UserActionBasis;
  pq_required_for : list UserActionRequiredFor;
  pq_user_action_resolution_ref : option StateRecordRef;
  pq_expires_at : option UtcTimestamp;
  pq_created_at : UtcTimestamp;
}.

Record UserActionResolution := {
  pz_user_action_resolution_id : UserActionResolutionId;
  pz_user_action_request_id : UserActionRequestId;
  pz_project_id : ProjectId;
  pz_task_id : TaskId;
  pz_action_kind : UserActionKind;
  pz_body : UserActionResolutionBody;
  pz_resolved_by_actor_source : ActorSource;
  pz_resolved_verification_basis : UserActionVerificationBasis;
  pz_resolved_assurance_level : string;
  pz_channel_kind : UserActionChannelKind;
  pz_channel_submission_id : string;
  pz_resolved_at : UtcTimestamp;
}.

Definition service_state_ref (kind : StateRecordKind) (record_id : string) (project_id : ProjectId)
    (task_id : TaskId) (version : N) : StateRecordRef :=
  {| sr_record_kind := kind; sr_record_id := record_id; sr_project_id := project_id;
     sr_task_id := Some task_id; sr_produced_at_state_version := Some version |}.

Record MaterializedUserActionRequest := {
  mr_request_ref : StateRecordRef;
  mr_public_request : UserActionRequest;
  mr_effective : StoredUserActionRecordSet;
  mr_mutation : UserActionMutation;
}.

Definition materialize_user_action_request (context : UserActionPersistenceContext)
    (origin : UserActionOrigin) (constructed : ValidatedUserAction)
    : result MaterializedUserActionRequest UserActionServiceError :=
  let? _ := ensure (pc_planned_state_version context =? 0%N) (ServiceInvariant ActionFactsMismatch) in
  let insert := request_insert context origin constructed in
  let? effective := map_err from_store (from_pending_insert (pc_project_id context) insert) in
  Ok {| mr_request_ref := service_state_ref KUserActionRequest (pc_user_action_request_id context)
          (pc_project_id context) (va_task_id constructed) (pc_planned_state_version context);
        mr_public_request :=
          {| pq_user_action_request_id := pc_user_action_request_id context;
             pq_project_id := pc_project_id context; pq_task_id := va_task_id constructed;
             pq_change_unit_id := va_coordinate_change_unit_id constructed;
             pq_action_kind := body_action_kind (va_body constructed); pq_status := UAPending;
             pq_body := va_body constructed; pq_basis := va_basis constructed;
             pq_required_for := va_required_for constructed; pq_user_action_resolution_ref := None;
             pq_expires_at := va_expires_at constructed; pq_created_at := va_created_at constructed |};
        mr_effective := effective; mr_mutation := InsertRequest insert |}.

Record UserActionResolutionMaterializationInput := {
  mi_user_action_resolution_id : UserActionResolutionId;
  mi_user_action_request_id : UserActionRequestId;
  mi_action_kind : UserActionKind;
  mi_channel_kind : UserActionChannelKind;
  mi_channel_submission_id : string;
  mi_resolution : UserActionResolutionBody;
  mi_actor_source : ActorSource;
  mi_verification_basis : UserActionVerificationBasis;
  mi_assurance_level : string;
  mi_resolved_at : UtcTimestamp;
}.

Record MaterializedUserActionResolution := {
  ms_insert : UserActionResolutionInsert;
  ms_mutation : UserActionMutation;
}.

(** [materialize_user_action_resolution] never fails. *)
Definition materialize_user_action_resolution (input : UserActionResolutionMaterializationInput)
    : MaterializedUserActionResolution :=
  let insert :=
    {| rs_user_action_resolution_id := mi_user_action_resolution_id input;
       rs_user_action_request_id := mi_user_action_request_id input;
       rs_action_kind := mi_action_kind input; rs_channel_kind := mi_channel_kind input;
       rs_channel_submission_id := mi_channel_submission_id input;
       rs_resolution := mi_resolution input; rs_resolved_by_actor_source := mi_actor_source input;
       rs_resolved_verification_basis := mi_verification_basis input;
       rs_resolved_assurance_level := mi_assurance_level input;
       rs_resolved_at := mi_resolved_at input |} in
  {| ms_insert := insert; ms_mutation := InsertResolution insert |}.

(** [MaterializedUserActionResolution::project_record_set]. *)
Definition project_record_set (materialized : MaterializedUserActionResolution)
    (current : StoredUserActionRecordSet) (now : UtcTimestamp)
    : result StoredUserActionRecordSet UserActionServiceError :=
  map_err (λ error, match error with
                    | InvalidInput _ => ServiceInvariant ActionFactsMismatch
                    | error => from_store error
                    end) (with_resolution current (ms_insert materialized) now).

(** ** [resolution.rs] *)

Definition validate_current_resolution_basis (store : S) (observed_state_version : N)
    (task : TaskRecord) (current_change_unit : option ChangeUnitRecord) (basis : UserActionBasis)
    : result unit UserActionServiceError :=
  let coordinates := coordinates basis in
  let? _ := ensure ((compatibility_status basis <>? BasisCurrent)
                    || (co_task_id coordinates <>? tk_task_id task)
                    || (co_scope_revision coordinates <>? tk_scope_revision task)
                    || (observed_state_version <? co_created_at_state_version coordinates)%N
                    || (co_baseline_ref coordinates <>? shaping_baseline_ref (tk_shaping task))
                    || (co_change_unit_id coordinates
                        <>? (cu_change_unit_id <$> current_change_unit)))
              (Unavailable BasisNotCurrent) in
  match close_basis_revision basis with
  | None => Ok tt
  | Some revision =>
      let? record := map_err from_store (task_revision_record store (tk_task_id task)) in
      ensure (negb (is_some_and record (λ record, tv_close_basis_revision record =? revision)))
        (Unavailable CloseBasisNotCurrent)
  end.

Definition with_run_version (version : option N) (artifact : ArtifactRef) : ArtifactRef :=
  {| ar_artifact_id := ar_artifact_id artifact; ar_project_id := ar_project_id artifact;
     ar_task_id := ar_task_id artifact; ar_display_name := ar_display_name artifact;
     ar_content_type := ar_content_type artifact; ar_sha256 := ar_sha256 artifact;
     ar_size_bytes := ar_size_bytes artifact; ar_integrity_status := ar_integrity_status artifact;
     ar_redaction_state := ar_redaction_state artifact; ar_availability := ar_availability artifact;
     ar_created_by_run_ref :=
       (λ run, {| sr_record_kind := sr_record_kind run; sr_record_id := sr_record_id run;
                  sr_project_id := sr_project_id run; sr_task_id := sr_task_id run;
                  sr_produced_at_state_version := version |}) <$> ar_created_by_run_ref artifact;
     ar_created_by_actor_source := ar_created_by_actor_source artifact;
     ar_storage_ref := ar_storage_ref artifact |}.

(** One candidate against the artifact read now: the state version at which the
    producing run was observed is not compared. *)
Definition artifact_preserved (candidate current : ArtifactRef) : bool :=
  match ar_created_by_run_ref candidate, ar_created_by_run_ref current with
  | Some candidate_run, Some _ =>
      candidate =? with_run_version (sr_produced_at_state_version candidate_run) current
  | None, None => candidate =? current
  | _, _ => false
  end.

Definition current_artifact_refs_preserve_candidates (left right : list ArtifactRef) : bool :=
  if length left <>? length right then false
  else forallb (λ pair, artifact_preserved pair.1 pair.2)
         (zip (sort_by_key ar_artifact_id left) (sort_by_key ar_artifact_id right)).

Definition invalid_resolution (field message : string) : UserActionServiceError :=
  Validation (validation_error field message).

Definition construct_choice_resolution (choice : UserActionChoiceRequestBody) (basis : UserActionBasis)
    (selected_option_id : UserActionOptionId) (note : option string)
    : result UserActionResolutionBody UserActionServiceError :=
  let? selected := ok_or
    (List.find (λ option, opt_option_id option =? selected_option_id) (cr_options choice))
    (invalid_resolution "resolution.selected_option_id"
       "selected option must belong to the stored user-action request") in
  let accepted_risk_ids :=
    if (cr_judgment_kind choice =? JResidualRiskAcceptance) && (opt_machine_action selected =? Accept)
    then residual_risk_ids basis else [] in
  Ok (ResolutionChoice (opt_option_id selected) (opt_machine_action selected)
        (opt_resolution_outcome selected) note accepted_risk_ids).

Definition construct_observation_resolution (store : S) (context : UserActionConstructionContext)
    (request : UserActionEvidenceObservationRequestBody) (basis : UserActionBasis) (task_id : TaskId)
    (current_change_unit : option ChangeUnitRecord) (target : EvidenceTarget)
    (artifact_ids : list ArtifactId) (relevance_status : EvidenceRelevanceStatus) (summary : string)
    : result UserActionResolutionBody UserActionServiceError :=
  let? _ := ensure (negb (relevance_is_assessed relevance_status))
              (invalid_resolution "resolution.relevance_status"
                 "user observation relevance must be supported or contradicted") in
  let normalized_summary := normalize_display_text summary in
  let? _ := ensure (str_is_empty normalized_summary)
              (invalid_resolution "resolution.summary"
                 "user observation summary must be non-empty") in
  let? _ := ensure (negb (contains target (er_target_candidates request)))
              (invalid_resolution "resolution.target"
                 "observation target must be one of the stored candidates") in
  let? _ := ensure (length (bts_of_list artifact_ids) <>? length artifact_ids)
              (invalid_resolution "resolution.artifact_ids"
                 "observation artifact IDs must not contain duplicates") in
  let candidate_ids := bts_of_list (ar_artifact_id <$> er_artifact_candidates request) in
  let? _ := ensure (existsb (λ artifact_id, negb (bts_mem artifact_id candidate_ids)) artifact_ids)
              (invalid_resolution "resolution.artifact_ids"
                 "observation artifacts must be selected from the stored candidates") in
  let? _ := validate_user_action_target store task_id target "resolution.target" in
  let? output_artifact_refs := canonical_user_action_artifacts store (ctx_project_id context)
    (ctx_observed_state_version context) task_id artifact_ids "resolution.artifact_ids" in
  let selected_ids := bts_of_list artifact_ids in
  let stored_selected_refs :=
    List.filter (λ artifact, bts_mem (ar_artifact_id artifact) selected_ids)
      (er_artifact_candidates request) in
  let? _ := ensure (negb (current_artifact_refs_preserve_candidates stored_selected_refs
                            output_artifact_refs)) (Unavailable SelectedArtifactChanged) in
  let? _ := ensure (is_none current_change_unit) (Unavailable CurrentChangeUnitRequired) in
  let? _ := ensure (is_none (co_baseline_ref (coordinates basis))) (Unavailable CurrentBaselineRequired) in
  Ok (ResolutionEvidenceObservation
        {| ob_target := target; ob_relevance_status := relevance_status;
           ob_output_artifact_refs := stored_selected_refs; ob_summary := normalized_summary |}).

(** [construct_user_action_resolution]; its derived references are always empty. *)
Definition construct_user_action_resolution (store : S) (context : UserActionConstructionContext)
    (resolution_input : UserActionResolutionInput) (request_body : UserActionRequestBody)
    (basis : UserActionBasis) (task_id : TaskId) (current_change_unit : option ChangeUnitRecord)
    : result (UserActionResolutionBody * list StateRecordRef) UserActionServiceError :=
  match request_body, resolution_input with
  | BodyChoice choice, InputChoice selected_option_id note =>
      let? body := construct_choice_resolution choice basis selected_option_id note in Ok (body, [])
  | BodyEvidenceObservation request, InputEvidenceObservation target artifact_ids relevance summary =>
      let? body := construct_observation_resolution store context request basis task_id
                     current_change_unit target artifact_ids relevance summary in
      Ok (body, [])
  | _, _ => Err (invalid_resolution "resolution.resolution_type"
                   "resolution type must match the stored user-action request")
  end.

Definition resolution_input_matches_body (input : UserActionResolutionInput)
    (body : UserActionResolutionBody) : bool :=
  match input, body with
  | InputChoice selected_option_id note, ResolutionChoice stored_id _ _ stored_note _ =>
      (selected_option_id =? stored_id) && (note =? stored_note)
  | InputEvidenceObservation target artifact_ids relevance_status summary,
    ResolutionEvidenceObservation observation =>
      (target =? ob_target observation) && (relevance_status =? ob_relevance_status observation)
      && (normalize_display_text summary =? ob_summary observation)
      && (rsort artifact_ids =? rsort (ar_artifact_id <$> ob_output_artifact_refs observation))
  | _, _ => false
  end.
End service.

(** ** [authority.rs] *)

Definition user_action_authority_from_record (record : StoredUserActionRecordSet)
    : UserActionAuthority :=
  let request := set_request record in
  let resolution := us_resolution <$> set_resolution record in
  let '(machine_action, resolution_outcome) :=
    match resolution with
    | Some (ResolutionChoice _ machine_action resolution_outcome _ _) =>
        (Some machine_action, Some resolution_outcome)
    | _ => (None, None)
    end in
  {| ua_project_id := ur_project_id request;
     ua_user_action_request_id := ur_user_action_request_id request;
     ua_user_action_resolution_id := us_user_action_resolution_id <$> set_resolution record;
     ua_task_id := ur_task_id request; ua_action_kind := ur_action_kind request;
     ua_status := set_status record; ua_required_for := pr_required_for (ur_request request);
     ua_affected_refs := body_affected_refs (pr_body (ur_request request));
     ua_machine_action := machine_action; ua_resolution_outcome := resolution_outcome;
     ua_resolved_by_actor_source := us_resolved_by_actor_source <$> set_resolution record;
     ua_resolved_verification_basis := us_resolved_verification_basis <$> set_resolution record;
     ua_resolved_assurance_level := us_resolved_assurance_level <$> set_resolution record;
     ua_basis_status := ur_basis_status request; ua_basis := Some (ur_basis request);
     ua_resolution := resolution; ua_expires_at := pr_expires_at (ur_request request) |}.

(** [user_action_authority_from_state]. *)
Definition user_action_authority_from_state (request : UserActionRequest) : UserActionAuthority :=
  {| ua_project_id := pq_project_id request;
     ua_user_action_request_id := pq_user_action_request_id request;
     ua_user_action_resolution_id := None; ua_task_id := pq_task_id request;
     ua_action_kind := pq_action_kind request; ua_status := pq_status request;
     ua_required_for := pq_required_for request;
     ua_affected_refs := body_affected_refs (pq_body request); ua_machine_action := None;
     ua_resolution_outcome := None; ua_resolved_by_actor_source := None;
     ua_resolved_verification_basis := None; ua_resolved_assurance_level := None;
     ua_basis_status := compatibility_status (pq_basis request); ua_basis := Some (pq_basis request);
     ua_resolution := None; ua_expires_at := pq_expires_at request |}.

(** [user_action_from_record]: the public request of an effective record. *)
Definition user_action_from_record (record : StoredUserActionRecordSet) (state_version : N)
    : UserActionRequest :=
  let stored := set_request record in
  {| pq_user_action_request_id := ur_user_action_request_id stored;
     pq_project_id := ur_project_id stored; pq_task_id := ur_task_id stored;
     pq_change_unit_id := ur_change_unit_id stored; pq_action_kind := ur_action_kind stored;
     pq_status := set_status record; pq_body := pr_body (ur_request stored);
     pq_basis := ur_basis stored; pq_required_for := pr_required_for (ur_request stored);
     pq_user_action_resolution_ref :=
       (λ resolution, service_state_ref KUserActionResolution
          (us_user_action_resolution_id resolution) (ur_project_id stored) (ur_task_id stored)
          state_version) <$> set_resolution record;
     pq_expires_at := pr_expires_at (ur_request stored); pq_created_at := ur_requested_at stored |}.

Definition user_action_resolution_from_record (record : StoredUserActionResolution) (task_id : TaskId)
    : UserActionResolution :=
  {| pz_user_action_resolution_id := us_user_action_resolution_id record;
     pz_user_action_request_id := us_user_action_request_id record;
     pz_project_id := us_project_id record; pz_task_id := task_id;
     pz_action_kind := us_action_kind record; pz_body := us_resolution record;
     pz_resolved_by_actor_source := us_resolved_by_actor_source record;
     pz_resolved_verification_basis := us_resolved_verification_basis record;
     pz_resolved_assurance_level := us_resolved_assurance_level record;
     pz_channel_kind := us_channel_kind record;
     pz_channel_submission_id := us_channel_submission_id record;
     pz_resolved_at := us_resolved_at record |}.

(** ** [projection.rs] *)

Record PendingUserAction := {
  pa_request_ref : StateRecordRef;
  pa_request : UserActionRequest;
  pa_resolution_availability : Availability.UserActionResolutionAvailability;
}.

Record PendingUserActionFacts := {
  pf_project_id : ProjectId;
  pf_task_id : TaskId;
  pf_observed_state_version : N;
  pf_observed_at : UtcTimestamp;
  pf_actions : list PendingUserAction;
}.

Definition pending_user_action_facts_from_records (project_id : ProjectId) (task_id : TaskId)
    (project_state : ProjectStateHeader) (observed_at : UtcTimestamp)
    (records : list StoredUserActionRecordSet) : PendingUserActionFacts :=
  let pending record :=
    let request := user_action_from_record record (ps_state_version project_state) in
    {| pa_request_ref := service_state_ref KUserActionRequest (pq_user_action_request_id request)
         (pq_project_id request) (pq_task_id request) (ps_state_version project_state);
       pa_request := request;
       pa_resolution_availability := Availability.from_status (set_status record) |} in
  {| pf_project_id := project_id; pf_task_id := task_id;
     pf_observed_state_version := ps_state_version project_state; pf_observed_at := observed_at;
     pf_actions := pending <$> records |}.

Inductive UserActionResolutionFactsBody :=
| FactsBodyChoice (selected_option_id : UserActionOptionId) (selected_option_label : string)
    (machine_action : UserActionOptionAction) (resolution_outcome : JudgmentResolutionOutcome)
| FactsBodyEvidenceObservation (target : EvidenceTarget) (artifact_refs : list ArtifactRef)
    (relevance_status : EvidenceRelevanceStatus).

Record UserActionResolutionFacts := {
  rf_user_action_resolution_id : UserActionResolutionId;
  rf_user_action_request_id : UserActionRequestId;
  rf_action_kind : UserActionKind;
  rf_channel_kind : UserActionChannelKind;
  rf_resolved_at : UtcTimestamp;
  rf_resolution : UserActionResolutionFactsBody;
}.

Definition invalid_resolution_projection : UserActionServiceError :=
  ServiceInvariant ActionFactsMismatch.

Definition user_action_resolution_facts (request : UserActionRequest) (resolution : UserActionResolution)
    : result UserActionResolutionFacts UserActionServiceError :=
  let? summary :=
    match pz_body resolution, pq_body request with
    | ResolutionChoice selected_option_id machine_action resolution_outcome _ _, BodyChoice choice =>
        let? selected := ok_or
          (List.find (λ option, opt_option_id option =? selected_option_id) (cr_options choice))
          invalid_resolution_projection in
        Ok (FactsBodyChoice selected_option_id (opt_label selected) machine_action resolution_outcome)
    | ResolutionEvidenceObservation observation, BodyEvidenceObservation _ =>
        Ok (FactsBodyEvidenceObservation (ob_target observation) (ob_output_artifact_refs observation)
              (ob_relevance_status observation))
    | _, _ => Err invalid_resolution_projection
    end in
  Ok {| rf_user_action_resolution_id := pz_user_action_resolution_id resolution;
        rf_user_action_request_id := pz_user_action_request_id resolution;
        rf_action_kind := pz_action_kind resolution; rf_channel_kind := pz_channel_kind resolution;
        rf_resolved_at := pz_resolved_at resolution; rf_resolution := summary |}.

(** ** [continuity.rs] *)

Inductive ProjectContinuityKind := CDecision | CObligation | CKnownLimit | CAcceptedRisk | CConstraint.

(** The [source] of each variant is the one its producer writes. *)
Inductive PersistedProjectContinuityMetadata :=
| ResolveUserActionDecision (action_kind : UserActionKind)
    (resolution_outcome : JudgmentResolutionOutcome) (selected_option_id : UserActionOptionId)
| ResolveUserActionAcceptedRisk (action_kind : UserActionKind) (risk_id : RiskId)
    (close_basis_revision : N)
| CloseTaskKnownLimit (risk_id : RiskId) (close_basis_revision : N).

Record UserActionContinuityDraft := {
  cdr_kind : ProjectContinuityKind;
  cdr_title : string;
  cdr_summary : string;
  cdr_applies_to_paths : list string;
  cdr_applies_to_refs : list StateRecordRef;
  cdr_source_refs : list StateRecordRef;
  cdr_artifact_refs : list ArtifactRef;
  cdr_metadata : PersistedProjectContinuityMetadata;
}.

Definition judgment_continuity_kind (kind : JudgmentKind) (outcome : JudgmentResolutionOutcome)
    : option ProjectContinuityKind :=
  if outcome <>? Accepted then None
  else match kind with
       | JProductDecision | JTechnicalDecision | JScopeDecision => Some CDecision
       | JResidualRiskAcceptance => Some CAcceptedRisk
       | JSensitiveApproval | JFinalAcceptance | JCancellation => None
       end.

Definition decision_title_prefix (kind : JudgmentKind) : string :=
  match kind with
  | JProductDecision => "Product decision"
  | JTechnicalDecision => "Technical decision"
  | JScopeDecision => "Scope decision"
  | JResidualRiskAcceptance => "Residual risk acceptance"
  | JSensitiveApproval => "Sensitive approval"
  | JFinalAcceptance => "Final acceptance"
  | JCancellation => "Cancellation"
  end.

Definition decision_draft (choice : UserActionChoiceRequestBody) (selected : UserActionOption)
    (outcome : JudgmentResolutionOutcome) (selected_option_id : UserActionOptionId)
    (resolution_ref : StateRecordRef) (applies_to_paths : list string) : UserActionContinuityDraft :=
  let applies_to_refs := cr_affected_refs choice ++ uctx_related_refs (cr_context choice) in
  {| cdr_kind := CDecision;
     cdr_title := decision_title_prefix (cr_judgment_kind choice) +:+ ": " +:+ trim (opt_label selected);
     cdr_summary := "Selected option: " +:+ opt_label selected +:+ ". "
                    +:+ trim (uctx_summary (cr_context choice));
     cdr_applies_to_paths := applies_to_paths; cdr_applies_to_refs := applies_to_refs;
     cdr_source_refs := resolution_ref :: applies_to_refs;
     cdr_artifact_refs := uctx_artifact_refs (cr_context choice);
     cdr_metadata := ResolveUserActionDecision (action_kind_of_judgment (cr_judgment_kind choice))
                       outcome selected_option_id |}.

Definition accepted_risk_draft (choice : UserActionChoiceRequestBody) (close_basis : CurrentCloseBasis)
    (resolution_ref : StateRecordRef) (applies_to_paths : list string) (risk : ResidualRisk)
    : UserActionContinuityDraft :=
  {| cdr_kind := CAcceptedRisk;
     cdr_title := "Accepted residual risk: " +:+ trim (risk_summary risk);
     cdr_summary := risk_summary risk; cdr_applies_to_paths := applies_to_paths;
     cdr_applies_to_refs := cb_result_refs close_basis ++ risk_source_refs risk;
     cdr_source_refs := resolution_ref :: risk_source_refs risk;
     cdr_artifact_refs := uctx_artifact_refs (cr_context choice);
     cdr_metadata := ResolveUserActionAcceptedRisk
       (action_kind_of_judgment (cr_judgment_kind choice)) (risk_id risk)
       (cb_close_basis_revision close_basis) |}.

(** The records of an accepted choice. *)
Definition accepted_choice_continuity (choice : UserActionChoiceRequestBody)
    (outcome : JudgmentResolutionOutcome) (selected_option_id : UserActionOptionId)
    (accepted_risk_ids : list RiskId) (resolution_ref : StateRecordRef) (applies_to_paths : list string)
    (current_close_basis : option CurrentCloseBasis)
    : result (list UserActionContinuityDraft) UserActionServiceError :=
  match judgment_continuity_kind (cr_judgment_kind choice) outcome with
  | None => Ok []
  | Some continuity_kind =>
      let? selected := ok_or
        (List.find (λ option, opt_option_id option =? selected_option_id) (cr_options choice))
        (Unavailable StoredResolutionOptionMissing) in
      match continuity_kind with
      | CDecision =>
          Ok [decision_draft choice selected outcome selected_option_id resolution_ref applies_to_paths]
      | CAcceptedRisk =>
          if list_is_empty accepted_risk_ids then Ok []
          else
            let? close_basis := ok_or current_close_basis (Unavailable CurrentCloseBasisRequired) in
            let accepted := bts_of_list accepted_risk_ids in
            let risks := List.filter (λ risk, bts_mem (risk_id risk) accepted)
                           (cb_residual_risks close_basis) in
            let? _ := ensure (length risks <>? length accepted)
                        (Unavailable AcceptedRiskIdentityMismatch) in
            Ok (accepted_risk_draft choice close_basis resolution_ref applies_to_paths <$> risks)
      | _ => Ok []
      end
  end.

Definition derive_user_action_continuity (request_body : UserActionRequestBody) (basis : UserActionBasis)
    (resolution : UserActionResolutionBody) (resolution_ref : StateRecordRef)
    (applies_to_paths : list string) (current_close_basis : option CurrentCloseBasis)
    : result (list UserActionContinuityDraft) UserActionServiceError :=
  match request_body, basis, resolution with
  | BodyChoice choice, BasisChoice _,
    ResolutionChoice selected_option_id machine_action outcome _ accepted_risk_ids =>
      if (machine_action <>? Accept) || (outcome <>? Accepted) then Ok []
      else accepted_choice_continuity choice outcome selected_option_id accepted_risk_ids
             resolution_ref applies_to_paths current_close_basis
  | _, _, _ => Ok []
  end.

(** ** Authority facts read from the store ([service.rs]) *)

Section authority_reads.
Context `{HC : Chrono} `{HZ : CanonicalSize}.

Definition resolved_user_action_facts (s : UserActionTable) (task_id : TaskId)
    (judgment_kind : JudgmentKind) (now : UtcTimestamp)
    : result (list UserActionAuthority) UserActionServiceError :=
  let? records := map_err from_store
    (resolved_user_action_records s task_id (action_kind_of_judgment judgment_kind) now) in
  Ok (user_action_authority_from_record <$> records).

Definition pending_user_action_authorities (s : UserActionTable) (task_id : TaskId)
    (now : UtcTimestamp) : result (list UserActionAuthority) UserActionServiceError :=
  let? records := map_err from_store (pending_user_action_records s task_id now) in
  Ok (user_action_authority_from_record <$> records).
End authority_reads.
