(* ===== verification/UserActionServiceSound.v ===== *)
(** * UserActionServiceSound: what the user-action service promises

    Theorems about [UserActionService] on top of the tables of
    [UserActionStore]: every constructed request is one the store accepts and
    reads back; every constructed resolution belongs to its request, is accepted
    by the store and matches the answer it was made from; the options of a
    sensitive approval are exactly accept, reject and defer, and only the first
    authorizes; which decisions and accepted risks continue beyond the Task. *)

From S2P Require Import Prelude Text ProductPath Values Canonical Schema UserAction Clock.
From S2P Require Import TicketStore Commit UserActionShape UserActionStore UserActionStoreSound.
From S2P Require Import Artifact UserActionService.

Import Relevance.

(** ** Lemmas: validation *)

Lemma action_kind_not_observation kind : action_kind_of_judgment kind ≠ EvidenceObservation.
Proof. by destruct kind. Qed.

Lemma normalize_scope_expiry scope scope' :
  normalize_sensitive_action_scope scope = Ok scope' → sas_expires_at scope' = sas_expires_at scope.
Proof.
  unfold normalize_sensitive_action_scope. intros H. peel H as paths _. by injection H as <-.
Qed.

(** The sensitive scope of a draft. *)
Definition draft_scope (draft : UserActionDraft) : option SensitiveActionScope :=
  match draft with
  | DraftChoice choice => cd_sensitive_action_scope choice
  | DraftEvidenceObservation _ => None
  end.

Lemma normalize_choice_Ok choice choice' :
  validate_and_normalize_choice choice = Ok choice' →
  ∃ scope, choice' = with_scope choice scope ∧
    (is_some scope = true ↔ cd_judgment_kind choice = JSensitiveApproval) ∧
    try_option normalize_sensitive_action_scope (cd_sensitive_action_scope choice) = Ok scope.
Proof.
  unfold validate_and_normalize_choice. cbv zeta. intros H. rewrite !ensure_bind in H.
  destruct H as (_ & H1 & H2 & H). peel H as scope Hs%map_err_Ok.
  rewrite !ensure_bind in H. destruct H as (_ & _ & _ & _ & [= <-]).
  exists scope. split_and!; [done| |done].
  destruct (cd_sensitive_action_scope choice) as [sc|]; cbn in Hs, H1, H2.
  - rewrite andb_true_r, neqb_false in H1. peel Hs as sc' _. injection Hs as <-. naive_solver.
  - injection Hs as <-. rewrite andb_true_r, eqb_false in H2. naive_solver.
Qed.

Section service.
Context `{HC : Chrono} `{HZ : CanonicalSize}.

Lemma normalize_body_Ok draft draft' :
  validate_and_normalize_body_input draft = Ok draft' →
  draft_action_kind draft' = draft_action_kind draft ∧
  (scope_roundtrips (draft_scope draft) = true → scope_roundtrips (draft_scope draft') = true).
Proof.
  destruct draft as [choice|observation]; cbn.
  - intros H. peel H as choice' Hc. injection H as <-.
    apply normalize_choice_Ok in Hc as (scope & -> & _ & Hs). split; [done|]. cbn.
    destruct (cd_sensitive_action_scope choice) as [sc|]; cbn in Hs |- *; [|by injection Hs as <-].
    peel Hs as sc' Hn. injection Hs as <-. unfold scope_roundtrips. cbn.
    by rewrite (normalize_scope_expiry _ _ Hn).
  - intros H. rewrite !ensure_bind in H. by destruct H as (_ & _ & _ & [= <-]).
Qed.

(** What validation establishes. *)
Record intent_validated (input : UserActionValidationInput) (v : ValidatedUserActionIntent) : Prop := {
  iv_required : in_required_for (vi_intent input) ≠ [] ∧ NoDup (in_required_for (vi_intent input));
  iv_compatible : ∀ target, target ∈ in_required_for (vi_intent input) →
    is_compatible_with_required_for (draft_action_kind (in_action (vi_intent input))) target = true;
  iv_derived : derive_expires_at (in_action (vi_intent input)) (in_expires_at (vi_intent input))
                 (vi_operation_now input) = Ok (vx_expires_at v);
  iv_representable : ∀ e, vx_expires_at v = Some e → representable e = true;
  iv_later : ∀ e, vx_expires_at v = Some e → (vi_operation_now input < e)%Z;
  iv_change_unit : validate_change_unit (draft_action_kind (in_action (vi_intent input)))
    (vi_current_change_unit_id input) (in_change_unit_id (vi_intent input)) = Ok tt;
  iv_action : validate_and_normalize_body_input (in_action (vi_intent input)) = Ok (vx_action v);
  iv_task : vx_task_id v = in_task_id (vi_intent input);
  iv_coordinate : vx_coordinate_change_unit_id v =
    or_else (in_change_unit_id (vi_intent input)) (vi_current_change_unit_id input);
  iv_coordinates : vx_coordinates v =
    {| co_task_id := vx_task_id v; co_change_unit_id := vx_coordinate_change_unit_id v;
       co_scope_revision := vi_task_scope_revision input; co_baseline_ref := vi_baseline_ref input;
       co_created_at_state_version := vi_state_version input;
       co_compatibility_status := BasisCurrent |};
  iv_required_same : vx_required_for v = in_required_for (vi_intent input);
  iv_created_at : vx_created_at v = vi_operation_now input;
}.

Lemma validate_user_action_Ok input v : validate_user_action input = Ok v → intent_validated input v.
Proof.
  unfold validate_user_action. cbv zeta. intros H. peel H as [] _. rewrite !ensure_bind in H.
  destruct H as (Hne & Hdup & _ & H). peel H as [] _. rewrite ensure_bind in H.
  destruct H as (Hcomp & H). peel H as e He. rewrite !ensure_bind in H.
  destruct H as (Hrep & Hlater & _ & _ & H). peel H as [] Hcu. peel H as action Hact.
  injection H as <-. rewrite is_some_and_false in Hrep. rewrite is_some_and_false in Hlater.
  split; try done; cbn.
  - split; [by apply list_is_empty_false|]. by apply repeats_any_NoDup in Hdup as [? _].
  - apply negb_false_iff in Hcomp. by apply forallb_elem.
  - intros t Ht. by apply negb_false_iff, Hrep.
  - intros t Ht. apply Hlater in Ht. unfold ts_le in Ht. lia.
Qed.

(** The body and the basis describe one validated action. *)
Record body_constructed (v : ValidatedUserActionIntent) (a : ValidatedUserAction) : Prop := {
  bc_bounds : body_validate_bounds (va_body a) = Ok tt;
  bc_kind : body_action_kind (va_body a) = draft_action_kind (vx_action v);
  bc_coordinates : coordinates (va_basis a) = vx_coordinates v;
  bc_family : matching_family (va_body a) (va_basis a) (body_action_kind (va_body a)) = true;
  bc_scope : match va_body a with
             | BodyChoice choice => cr_sensitive_action_scope choice = draft_scope (vx_action v)
             | BodyEvidenceObservation _ => True
             end;
  bc_basis_scope : sensitive_action_scope (va_basis a) = draft_scope (vx_action v);
  bc_task : va_task_id a = vx_task_id v;
  bc_unit : va_coordinate_change_unit_id a = vx_coordinate_change_unit_id v;
  bc_required : va_required_for a = vx_required_for v;
  bc_expires_at : va_expires_at a = vx_expires_at v;
  bc_created_at : va_created_at a = vx_created_at v;
}.

Lemma construct_body_Ok v facts locale a :
  construct_canonical_body v facts locale = Ok a → body_constructed v a.
Proof.
  unfold construct_canonical_body. intros H. peel H as [body basis] Hb. peel H as form Hf%map_err_Ok.
  unfold resolution_form in Hf. peel Hf as [] Hbounds. injection H as <-.
  destruct (vx_action v) as [choice|observation] eqn:Ha, facts as [rev refs risks|artifacts];
    try done; injection Hb as <- <-; split; cbn; rewrite ?Ha; try done.
  - unfold matching_family. cbn. rewrite eqb_refl, andb_true_r, negb_true_iff, eqb_false.
    apply action_kind_not_observation.
  - by rewrite !eqb_refl.
Qed.

Context {S : Type} `{HR : !UserActionStoreReader S}.

(** The validation input [construct_user_action] assembles. *)
Definition service_input (task : TaskRecord) (cu : option ChangeUnitRecord)
    (context : UserActionConstructionContext) (intent : UserActionIntent) (exists_ : bool)
    : UserActionValidationInput :=
  {| vi_project_id := ctx_project_id context; vi_actual_task_id := tk_task_id task;
     vi_task_scope_revision := tk_scope_revision task;
     vi_baseline_ref := shaping_baseline_ref (tk_shaping task);
     vi_current_change_unit_id := cu_change_unit_id <$> cu;
     vi_requested_change_unit_exists := exists_;
     vi_state_version := ctx_observed_state_version context;
     vi_operation_now := ctx_observed_at context; vi_intent := intent |}.

Lemma construct_user_action_Ok (store : S) task cu context intent a :
  construct_user_action store task cu context intent = Ok a →
  tk_task_id task = in_task_id intent ∧
  ∃ exists_ v facts, intent_validated (service_input task cu context intent exists_) v ∧
    body_constructed v a ∧ construct_canonical_body v facts (ctx_locale context) = Ok a.
Proof.
  unfold construct_user_action. intros H. rewrite ensure_bind, neqb_false in H. destruct H as [Ht H].
  peel H as exists_ _. peel H as v Hv%map_err_Ok. peel H as facts _.
  rewrite map_err_Ok in H. split; [done|]. exists exists_, v, facts.
  split_and!; [by apply validate_user_action_Ok|by eapply construct_body_Ok|done].
Qed.

(** ** Lemmas: a constructed request is storable *)

Lemma derived_expiry_ok draft expires now e :
  derive_expires_at draft expires now = Ok e → (∀ t, e = Some t → (now < t)%Z) →
  if decide (draft_action_kind draft = EvidenceObservation)
  then ∃ t, checked_add now (minutes USER_ACTION_EVIDENCE_OBSERVATION_TTL_MINUTES) = Some t ∧ e = Some t
  else ∀ t, e = Some t → (now < t)%Z.
Proof.
  unfold derive_expires_at. destruct draft as [choice|observation]; cbn.
  - destruct (decide _) as [Hk|]; [|by auto]. by apply action_kind_not_observation in Hk.
  - intros H _. rewrite ensure_bind in H. destruct H as [_ H]. peel H as t Ht%ok_or_Ok.
    injection H as <-. destruct (decide _); [eauto|done].
Qed.

Lemma compatibility_of_coordinates b :
  compatibility_status b = co_compatibility_status (coordinates b).
Proof. by destruct b. Qed.

Lemma constructed_columns (store : S) task cu context intent a persistence origin :
  construct_user_action store task cu context intent = Ok a →
  representable (ctx_observed_at context) = true →
  scope_roundtrips (draft_scope (in_action intent)) = true →
  columns_agree (insert_facts (request_insert persistence origin a)).
Proof.
  intros (_ & exists_ & v & facts & Hv & Hb & _)%construct_user_action_Ok Hnow Hscope.
  destruct (normalize_body_Ok _ _ (iv_action _ _ Hv)) as [Hkind Hround]. specialize (Hround Hscope).
  pose proof (bc_kind _ _ Hb) as Hbody. rewrite Hkind in Hbody.
  pose proof (bc_coordinates _ _ Hb) as Hco. rewrite (iv_coordinates _ _ Hv) in Hco.
  pose proof (bc_scope _ _ Hb) as Hbs. pose proof (bc_basis_scope _ _ Hb) as Hss.
  pose proof (derived_expiry_ok _ _ _ _ (iv_derived _ _ Hv) (iv_later _ _ Hv)) as Hexp.
  destruct Hb as [Hbounds _ _ Hfamily _ _ Ht Hu Hr He Hc], Hv.
  split; cbn; rewrite ?Ht, ?Hu, ?Hr, ?He, ?Hc, ?iv_required_same0, ?iv_created_at0; try done.
  - unfold request_json_decodes. cbn. rewrite andb_true_iff. split.
    + destruct (vx_expires_at v) as [e|] eqn:Hx; cbn; [|done]. by apply representable_roundtrips, iv_representable0.
    + destruct (va_body a); [|done]. by rewrite Hbs.
  - unfold basis_json_decodes. by rewrite Hss.
  - by apply representable_roundtrips.
  - destruct (vx_expires_at v) as [e|] eqn:Hx; cbn; [|done]. by apply representable_roundtrips, iv_representable0.
  - rewrite compatibility_of_coordinates. by rewrite Hco.
  - by rewrite Hco.
  - by rewrite Hco.
  - by rewrite Hbody.
  - unfold expiry_ok. cbn. rewrite ?He, ?Hc, ?iv_created_at0, Hbody. done.
Qed.

Lemma identifier_ok field value : trim value ≠ EmptyString → validate_identifier field value = Ok tt.
Proof. apply validate_identifier_iff. Qed.

Lemma optional_identifier_ok field value :
  (∀ v, value = Some v → trim v ≠ EmptyString) → validate_optional_identifier field value = Ok tt.
Proof. destruct value; cbn; [|done]. intros H. by apply identifier_ok, H. Qed.

Lemma origin_metadata_matches origin :
  origin_matches_source (origin_source_method origin) (origin_metadata origin) = true.
Proof. by destruct origin. Qed.

(** The identities a caller supplies are not blank. *)
Record request_named (input : UserActionRequestInsert) : Prop := {
  qn_request : trim (rq_user_action_request_id input) ≠ EmptyString;
  qn_task : trim (rq_task_id input) ≠ EmptyString;
  qn_unit : ∀ cu, rq_change_unit_id input = Some cu → trim cu ≠ EmptyString;
  qn_actor : trim (actor_to_canonical_string (rq_requested_by_actor_source input)) ≠ EmptyString;
  qn_key : trim (rq_source_idempotency_key input) ≠ EmptyString;
}.

(** The keys of the request table are free for this request. *)
Record request_fresh (s : UserActionTable) (input : UserActionRequestInsert) : Prop := {
  qf_id : ut_requests s !! rq_user_action_request_id input = None;
  qf_key : rq_source_method input = MRequestUserAction →
    ∀ id r, ut_requests s !! id = Some r → ur_source_method r = MRequestUserAction →
      ur_source_idempotency_key r ≠ rq_source_idempotency_key input;
}.

Lemma persisted_request_ok field input :
  columns_agree (insert_facts input) →
  validate_persisted_user_action_request field (rq_request input) = Ok tt.
Proof.
  intros Hcol. pose proof (ca_required _ Hcol) as Hreq.
  pose proof (ca_required_same _ Hcol) as Hsame. cbn in Hreq, Hsame.
  unfold validate_persisted_user_action_request.
  rewrite (ca_request_decodes _ Hcol : request_json_decodes (rq_request input) = true).
  rewrite (ca_bounds _ Hcol : body_validate_bounds (pr_body (rq_request input)) = Ok tt), Hsame.
  by apply required_for_Ok.
Qed.

Lemma insert_request_accepts s input :
  request_named input → request_fresh s input → columns_agree (insert_facts input) →
  origin_matches_source (rq_source_method input) (rq_metadata input) = true →
  representable (rq_requested_at input) = true →
  (∀ e, rq_expires_at input = Some e → representable e = true) →
  insert_user_action_request s input =
    Ok (set_requests s (<[rq_user_action_request_id input := request_row (ut_project_id s) input]>
                          (ut_requests s))).
Proof.
  intros [] [Hid Hkey] Hcol Horigin Hat Hexp. unfold insert_user_action_request, validate_timestamp.
  rewrite !identifier_ok, optional_identifier_ok, persisted_request_ok by done.
  rewrite (ca_basis_decodes _ Hcol : basis_json_decodes (rq_basis input) = true).
  rewrite (proj2 (required_for_Ok _ _) (ca_required _ Hcol : rq_required_for input ≠ [] ∧ _)).
  rewrite Hat, Horigin. cbn [negb ensure].
  assert (match rq_expires_at input with
          | Some e => ensure (negb (representable e)) (InvalidInput _)
          | None => Ok tt
          end = Ok tt) as ->.
  { destruct (rq_expires_at input) as [e|]; [|done]. by rewrite (Hexp e). }
  unfold validate_user_action_request_column_agreement.
  rewrite (proj2 (column_agreement_Ok _) Hcol), Hid. cbn [map_err is_some ensure].
  assert ((rq_source_method input =? MRequestUserAction)
          && existsb (λ row, (ur_source_method row =? MRequestUserAction)
               && (ur_source_idempotency_key row =? rq_source_idempotency_key input))
               (request_rows s) = false) as ->; [|done].
  destruct (rq_source_method input =? MRequestUserAction) eqn:Hm; [|done]. cbn. breflect.
  apply existsb_false. intros r [id Hr]%request_rows_elem.
  destruct (ur_source_method r =? MRequestUserAction) eqn:Hr'; [|done]. breflect.
  apply eqb_false. by apply (Hkey Hm id).
Qed.

Lemma pending_projection project_id input :
  trim project_id ≠ EmptyString → request_named input → columns_agree (insert_facts input) →
  origin_matches_source (rq_source_method input) (rq_metadata input) = true →
  rq_basis_status input = BasisCurrent →
  from_pending_insert project_id input =
    Ok {| set_request := request_row project_id input; set_resolution := None;
          set_status := UAPending |}.
Proof.
  intros Hp [] Hcol Horigin Hst. unfold from_pending_insert, stored_user_action_request_from_insert,
    validate_user_action_request_column_agreement.
  rewrite Hst, eqb_refl, !identifier_ok, optional_identifier_ok, Horigin by done.
  by rewrite (proj2 (column_agreement_Ok _) Hcol).
Qed.

(** ** Lemmas: a constructed resolution belongs to its request *)

Lemma choice_agrees request choice basis selected note body :
  construct_choice_resolution choice (BasisChoice basis) selected note = Ok body →
  ur_action_kind request = action_kind_of_judgment (cr_judgment_kind choice) →
  ∃ option risks,
    List.find (λ o, opt_option_id o =? selected) (cr_options choice) = Some option ∧
    body = ResolutionChoice selected (opt_machine_action option) (opt_resolution_outcome option)
             note risks ∧
    choice_resolution_agrees request choice basis selected (opt_machine_action option)
      (opt_resolution_outcome option) risks = true.
Proof.
  unfold construct_choice_resolution. intros H Hk. peel H as option Ho%ok_or_Ok. injection H as <-.
  pose proof (list_find_Some _ _ _ Ho) as [_ Hid]. breflect. eexists option, _.
  rewrite Hid. split_and!; [done|done|]. unfold choice_resolution_agrees. rewrite Ho, Hk. cbn.
  rewrite !eqb_refl. cbn. apply eqb_true. by destruct (cr_judgment_kind choice).
Qed.

(** The stored candidates the selected ids name. *)
Definition selected_refs (ids : list ArtifactId) (candidates : list ArtifactRef) : list ArtifactRef :=
  List.filter (λ artifact, bts_mem (ar_artifact_id artifact) (bts_of_list ids)) candidates.

Lemma elem_of_selected_refs ids candidates artifact :
  artifact ∈ selected_refs ids candidates ↔ artifact ∈ candidates ∧ ar_artifact_id artifact ∈ ids.
Proof.
  unfold selected_refs.
  by rewrite list_elem_of_In, filter_In, <-list_elem_of_In, bts_mem_elem, elem_of_bts_of_list.
Qed.

Lemma selected_refs_ids ids candidates :
  NoDup ids → NoDup (ar_artifact_id <$> candidates) →
  (∀ id, id ∈ ids → id ∈ ar_artifact_id <$> candidates) →
  ar_artifact_id <$> selected_refs ids candidates ≡ₚ ids.
Proof.
  intros Hids Hcand Hsub. apply NoDup_Permutation; [by apply NoDup_fmap_filter|done|].
  intros id. rewrite list_elem_of_fmap. setoid_rewrite elem_of_selected_refs. split.
  - by intros (artifact & -> & _ & ?).
  - intros Hid. pose proof (Hsub _ Hid) as (a & -> & Ha)%list_elem_of_fmap. eauto.
Qed.

(** What a constructed observation says. *)
Record observation_constructed (request : UserActionEvidenceObservationRequestBody)
    (target : EvidenceTarget) (ids : list ArtifactId) (relevance : EvidenceRelevanceStatus)
    (summary : string) (body : UserActionResolutionBody) : Prop := {
  oc_body : body = ResolutionEvidenceObservation
    {| ob_target := target; ob_relevance_status := relevance;
       ob_output_artifact_refs := selected_refs ids (er_artifact_candidates request);
       ob_summary := trim summary |};
  oc_target : target ∈ er_target_candidates request;
  oc_unique : NoDup ids;
  oc_known : ∀ id, id ∈ ids → id ∈ ar_artifact_id <$> er_artifact_candidates request;
  oc_assessed : relevance_is_assessed relevance = true;
  oc_summary : trim summary ≠ EmptyString;
}.

Lemma construct_observation_Ok (store : S) context request basis task cu target ids relevance summary body :
  construct_observation_resolution store context request basis task cu target ids relevance summary
    = Ok body →
  observation_constructed request target ids relevance summary body.
Proof.
  unfold construct_observation_resolution, normalize_display_text. cbv zeta. intros H.
  rewrite !ensure_bind in H. destruct H as (Hrel & Hsum & Htar & Hdup & Hknown & H).
  peel H as [] _. peel H as refs _. rewrite !ensure_bind in H. destruct H as (_ & _ & _ & [= <-]).
  apply negb_false_iff in Hrel, Htar. apply contains_elem in Htar. apply str_nonempty in Hsum.
  rewrite neqb_false, bts_of_list_length_NoDup in Hdup. rewrite existsb_false in Hknown.
  split; try done. intros id Hid. specialize (Hknown _ Hid).
  by rewrite negb_false_iff, bts_mem_elem, elem_of_bts_of_list in Hknown.
Qed.

Lemma observation_agrees request basis target ids relevance summary observation :
  observation_constructed request target ids relevance summary
    (ResolutionEvidenceObservation observation) →
  NoDup (ar_artifact_id <$> er_artifact_candidates request) →
  er_target_candidates request = eo_target_candidates basis →
  er_artifact_candidates request = eo_artifact_candidates basis →
  observation_resolution_agrees request basis observation = true.
Proof.
  intros [[= ->] Htar Huniq Hknown Hrel Hsum] Hnd Ht Ha. unfold observation_resolution_agrees.
  cbn [ob_target ob_output_artifact_refs ob_relevance_status ob_summary].
  rewrite Hrel, Ht, Ha, !eqb_refl. rewrite <-Ht, <-Ha.
  rewrite (proj2 (contains_elem _ _)) by done.
  rewrite trim_idemp, (proj2 (str_nonempty _)) by done. rewrite !andb_true_r. cbn [andb]. apply andb_true_iff. split.
  - apply forallb_elem. intros artifact [Hin _]%elem_of_selected_refs. apply existsb_elem.
    exists artifact. by rewrite eqb_refl.
  - apply eqb_true. rewrite <-(length_fmap ar_artifact_id).
    by apply bts_of_list_length_NoDup, NoDup_fmap_filter.
Qed.

Lemma body_candidates_unique request :
  body_validate_bounds (BodyEvidenceObservation request) = Ok tt →
  NoDup (ar_artifact_id <$> er_artifact_candidates request).
Proof.
  unfold body_validate_bounds. intros H. peel H as [] Hb. do 4 (peel Hb as [] _).
  rewrite ensure_bind, ensure_Ok, !neqb_false in Hb. destruct Hb as [_ Hb].
  apply bts_of_list_length_NoDup. by rewrite Hb, length_fmap.
Qed.

(** A resolution constructed for a stored request agrees with it and with the
    answer it was made from. *)
Lemma constructed_agrees (store : S) context input request task cu body refs resolution :
  construct_user_action_resolution store context input (pr_body (ur_request request))
    (ur_basis request) task cu = Ok (body, refs) →
  request_valid request → us_resolution resolution = body →
  resolution_agrees request resolution = true ∧ resolution_input_matches_body input body = true ∧
  match body with
  | ResolutionChoice _ _ _ _ _ => ur_action_kind request ≠ EvidenceObservation
  | ResolutionEvidenceObservation _ => ur_action_kind request = EvidenceObservation
  end.
Proof.
  intros H Hv Hr. pose proof (rv_columns _ Hv) as Hcol.
  pose proof (ca_family _ Hcol) as Hfam. pose proof (ca_kind _ Hcol) as Hkind.
  pose proof (ca_bounds _ Hcol) as Hbounds. cbn in Hfam, Hkind, Hbounds. unfold resolution_agrees.
  rewrite Hr. destruct (pr_body (ur_request request)) as [choice|observation] eqn:Hb,
    (ur_basis request) as [cb|ob] eqn:Hbasis; try done;
    destruct input as [selected note|target ids relevance summary]; try done; cbn in H.
  - peel H as body' Hc. injection H as -> <-.
    apply (choice_agrees request) in Hc as (option & risks & _ & -> & Hagree); [|done].
    split_and!; [done|cbn; by rewrite !eqb_refl|]. rewrite <-Hkind. apply action_kind_not_observation.
  - peel H as body' Hc. injection H as -> <-. apply construct_observation_Ok in Hc.
    unfold matching_family in Hfam. rewrite !andb_true_iff, !eqb_true in Hfam.
    destruct Hfam as [[Hk Ht] Ha]. pose proof Hc as [-> Htar Huniq Hknown Hrel Hsum].
    apply body_candidates_unique in Hbounds. split_and!; [by eapply observation_agrees| |done].
    cbn. unfold normalize_display_text. rewrite !eqb_refl. cbn. apply eqb_true, rsort_eq_perm.
    symmetry. by apply selected_refs_ids.
Qed.

(** ** Lemmas: a constructed resolution is storable *)

Lemma pending_record s now later id set :
  user_actions_ok s now → (now ≤ later)%Z →
  effective_user_action_record s id later = Ok (Some set) → set_status set = UAPending →
  ut_requests s !! id = Some (set_request set) ∧ set_resolution set = None ∧
  (∀ qid q, ut_resolutions s !! qid = Some q → us_user_action_request_id q ≠ id) ∧
  ur_basis_status (set_request set) = BasisCurrent ∧
  ∀ e, ur_expires_at (set_request set) = Some e → (later < e)%Z.
Proof.
  intros Hok Hle He Hst. destruct (ut_requests s !! id) as [r|] eqn:Hr; last first.
  { unfold effective_user_action_record, user_action_request_record in He. by rewrite Hr in He. }
  rewrite (effective_record_Ok _ _ _ _ _ Hok Hle Hr) in He. injection He as <-. cbn in *.
  unfold shown_status in Hst. destruct (ur_basis_status r) eqn:Hb; try done.
  destruct (find_resolution _ _) as [q|] eqn:Hf; [done|]. cbn in Hst.
  destruct (is_some_and _ _) eqn:Hx; [done|]. rewrite is_some_and_false in Hx. split_and!; try done.
  - intros qid q Hq <-. unfold find_resolution in Hf. fold (resolution_rows s) in Hf.
    rewrite list_find_None in Hf. specialize (Hf q). rewrite resolution_rows_elem in Hf.
    specialize (Hf (ex_intro _ _ Hq)). cbv beta in Hf. by rewrite eqb_refl in Hf.
  - intros e Hse. apply Hx in Hse. unfold ts_ge in Hse. lia.
Qed.

(** The identities of a resolution are well formed and unused. *)
Record resolution_fresh (s : UserActionTable) (input : UserActionResolutionInsert) : Prop := {
  zf_resolution_id : trim (rs_user_action_resolution_id input) ≠ EmptyString;
  zf_request_id : trim (rs_user_action_request_id input) ≠ EmptyString;
  zf_submission : validate_channel_submission_id (rs_channel_submission_id input) = Ok tt;
  zf_id_unused : ut_resolutions s !! rs_user_action_resolution_id input = None;
  zf_submission_unused : ∀ id q, ut_resolutions s !! id = Some q →
    us_channel_kind q = rs_channel_kind input →
    us_channel_submission_id q ≠ rs_channel_submission_id input;
}.

Lemma against_request_accepts s input r :
  ut_requests s !! rs_user_action_request_id input = Some r → request_valid r →
  resolves r (resolution_row (ut_project_id s) input) →
  representable (rs_resolved_at input) = true →
  validate_resolution_against_request s input = Ok tt.
Proof.
  intros Hr Hv Hrs Hat. unfold validate_resolution_against_request, user_action_request_record.
  rewrite Hr. cbn [try_option]. rewrite (proj2 (decode_request_Ok r r) (conj eq_refl Hv)).
  unfold validate_user_action_resolution_timestamp_order_for_insert.
  rewrite (representable_roundtrips _ Hat). cbn [negb ensure].
  rewrite (proj2 (timestamp_order_Ok _ _ _)); last first.
  { destruct Hrs as [_ _ _ Ha Hb He _]. split; [done|]. intros t [= <-]. split; [exact Ha|exact Hb]. }
  cbn [map_err]. by rewrite (proj2 (pair_Ok _ _) Hrs).
Qed.

Lemma insert_resolution_accepts s input r :
  resolution_fresh s input → resolution_valid (resolution_row (ut_project_id s) input) →
  ut_requests s !! rs_user_action_request_id input = Some r → request_valid r →
  resolves r (resolution_row (ut_project_id s) input) →
  (∀ id q, ut_resolutions s !! id = Some q → us_user_action_request_id q ≠ rs_user_action_request_id input) →
  insert_user_action_resolution s input = Ok (with_resolution_row s input).
Proof.
  intros [] Hz Hr Hv Hrs Hno. destruct Hz as [Hres Hkind _ Hactor Hbasis Hassur Hat]. cbn in *.
  unfold insert_user_action_resolution, validate_timestamp, validate_persisted_user_action_resolution.
  rewrite !identifier_ok, zf_submission0, Hres, (proj2 (provenance_Ok _ _ _ _)) by done.
  rewrite Hactor, eqb_refl, Hat, (proj2 (resolution_columns_Ok _ _)) by done.
  rewrite (against_request_accepts _ _ _ Hr Hv Hrs Hat), zf_id_unused0. cbn [map_err negb ensure is_some].
  rewrite (proj2 (no_resolution_row _ _)); last (intros id q Hq; apply eqb_false; by apply (Hno id)).
  rewrite (proj2 (no_resolution_row _ _)); last first.
  { intros id q Hq. apply andb_false_iff. destruct (us_channel_kind q =? rs_channel_kind input) eqn:Hk; [|by left].
    right. breflect. apply eqb_false. by apply (zf_submission_unused0 id). }
  rewrite Hr. cbn [is_some_and ensure]. pose proof (rp_kind _ _ Hrs) as Hk. cbn in Hk.
  by rewrite Hk, eqb_refl.
Qed.

Lemma with_resolution_accepts s r now input :
  resolution_fresh s input → resolution_valid (resolution_row (ur_project_id r) input) →
  resolves r (resolution_row (ur_project_id r) input) → trim (ur_project_id r) ≠ EmptyString →
  ur_basis_status r = BasisCurrent → (rs_resolved_at input ≤ now)%Z →
  ∀ status, with_resolution {| set_request := r; set_resolution := None; set_status := status |} input now
    = Ok {| set_request := r; set_resolution := Some (resolution_row (ur_project_id r) input);
            set_status := UAResolved |}.
Proof.
  intros [] [Hres Hkind _ Hactor Hbasis Hassur Hat] Hrs Hp Hb Hle status. cbn in *.
  unfold with_resolution, stored_user_action_resolution_from_insert. cbn [set_request set_resolution is_some ensure].
  rewrite !identifier_ok, zf_submission0, (proj2 (resolution_columns_Ok _ _)),
    (proj2 (provenance_Ok _ _ _ _)) by done.
  cbn [map_err]. rewrite (proj2 (pair_Ok _ _) Hrs). cbn [map_err]. rewrite stored_status_Ok; last first.
  { by intros q [= <-]. }
  { pose proof (rp_after _ _ Hrs) as Ha. cbn in Ha. lia. }
  unfold shown_status. by rewrite Hb.
Qed.

(** ** Lemmas: authority of a resolved choice *)

Lemma materialize_request_Ok persistence origin a m :
  materialize_user_action_request persistence origin a = Ok m →
  mr_effective m =
    {| set_request := request_row (pc_project_id persistence) (request_insert persistence origin a);
       set_resolution := None; set_status := UAPending |} ∧
  pq_body (mr_public_request m) = va_body a ∧ pq_basis (mr_public_request m) = va_basis a.
Proof.
  unfold materialize_user_action_request. cbv zeta. rewrite ensure_bind. intros [_ H].
  peel H as set Hset%map_err_Ok. injection H as <-. cbn. split; [|done].
  unfold from_pending_insert in Hset. peel Hset as row Hrow. injection Hset as <-.
  unfold stored_user_action_request_from_insert in Hrow.
  repeat (peel Hrow as [] _). by injection Hrow as <-.
Qed.

Lemma with_resolution_Ok set input now set' :
  with_resolution set input now = Ok set' →
  let row := resolution_row (ur_project_id (set_request set)) input in
  set_request set' = set_request set ∧ set_resolution set' = Some row ∧
  resolves (set_request set) row ∧
  rs_resolved_by_actor_source input = LocalUser ∧ trim (rs_resolved_assurance_level input) ≠ EmptyString ∧
  (ur_basis_status (set_request set) = BasisCurrent → set_status set' = UAResolved).
Proof.
  unfold with_resolution. rewrite ensure_bind. intros [_ H]. peel H as row Hrow.
  peel H as [] Hpair%map_err_Ok. peel H as status Hst%map_err_Ok. injection H as <-.
  unfold stored_user_action_resolution_from_insert in Hrow. do 5 (peel Hrow as [] _).
  peel Hrow as [] Hprov%provenance_Ok. injection Hrow as <-. apply pair_Ok in Hpair.
  destruct Hprov as (? & ? & ?). split_and!; try done. cbn. intros Hb.
  unfold stored_effective_status in Hst. peel Hst as [] _. apply ok_or_Ok in Hst.
  unfold effective_user_action_status in Hst. rewrite Hb in Hst. by destruct (ts_lt _ _); simplify_eq.
Qed.

(** A Core-owned option is found under its own id. *)
Lemma authority_option_found kind locale selected option :
  authority_bearing kind = true →
  List.find (λ o, opt_option_id o =? selected) (canonical_choice_options kind [] locale) = Some option →
  ∃ action, option = authority_option kind locale action ∧ selected = authority_option_id action.
Proof.
  intros Hk Hf. unfold canonical_choice_options in Hf. rewrite Hk in Hf.
  apply list_find_Some in Hf as [Hin Hid]. breflect.
  apply list_elem_of_fmap in Hin as (action & -> & _). exists action. split; [done|].
  rewrite <-Hid. unfold authority_option. by destruct (authority_option_copy _ _ _) as [[? ?] ?].
Qed.

Lemma authority_option_fields kind locale action :
  opt_machine_action (authority_option kind locale action) = action ∧
  opt_resolution_outcome (authority_option kind locale action) = option_action_outcome action ∧
  opt_option_id (authority_option kind locale action) = authority_option_id action.
Proof. unfold authority_option. by destruct (authority_option_copy _ _ _) as [[? ?] ?]. Qed.

Lemma record_authorized set q selected action outcome note risks kind :
  set_status set = UAResolved → set_resolution set = Some q →
  us_resolution q = ResolutionChoice selected action outcome note risks →
  us_resolved_by_actor_source q = LocalUser → trim (us_resolved_assurance_level q) ≠ EmptyString →
  ur_action_kind (set_request set) = kind → ur_basis_status (set_request set) = BasisCurrent →
  compatibility_status (ur_basis (set_request set)) = BasisCurrent →
  user_authorized (user_action_authority_from_record set) kind ↔ action = Accept ∧ outcome = Accepted.
Proof.
  intros Hst Hq Hr Ha Has Hk Hb Hc. unfold user_action_authority_from_record. rewrite Hq. cbn.
  rewrite Hr. split.
  - intros []. cbn in *. by simplify_eq.
  - intros [-> ->]. split; cbn; rewrite ?Hst, ?Hk, ?Hb, ?Ha; try done; eauto.
Qed.

Lemma authority_request_facts set :
  ua_basis (user_action_authority_from_record set) = Some (ur_basis (set_request set)) ∧
  ua_required_for (user_action_authority_from_record set) = pr_required_for (ur_request (set_request set)).
Proof.
  unfold user_action_authority_from_record.
  by destruct (us_resolution <$> set_resolution set) as [[]|].
Qed.

Lemma normalize_sensitive_choice choice choice' :
  validate_and_normalize_choice choice = Ok choice' → cd_judgment_kind choice = JSensitiveApproval →
  ∃ scope scope', cd_sensitive_action_scope choice = Some scope ∧
    normalize_sensitive_action_scope scope = Ok scope' ∧ choice' = with_scope choice (Some scope') ∧
    default [] (cd_options choice) = [].
Proof.
  intros H Hk. pose proof (normalize_choice_Ok _ _ H) as (sc & -> & Hsome & Hs).
  destruct sc as [scope'|]; [|by apply Hsome in Hk].
  destruct (cd_sensitive_action_scope choice) as [scope|] eqn:Hsc; [|done]. cbn in Hs.
  peel Hs as sc' Hn. injection Hs as ->. exists scope, scope'. split_and!; try done.
  unfold validate_and_normalize_choice in H. cbv zeta in H. rewrite !ensure_bind in H.
  destruct H as (_ & _ & _ & H). peel H as sc _. rewrite ensure_bind in H. destruct H as [Ho _].
  rewrite Hk in Ho. cbn in Ho. by apply negb_false_iff, list_is_empty_true in Ho.
Qed.

Lemma sensitive_change_unit current requested :
  validate_change_unit SensitiveApproval current requested = Ok tt →
  is_Some current ∧ or_else requested current = current.
Proof.
  unfold validate_change_unit. cbn. intros H. peel H as cu Hcu%ok_or_Ok. subst.
  rewrite ensure_Ok, is_some_and_false in H. split; [done|]. destruct requested as [r|]; [|done].
  specialize (H r eq_refl). rewrite neqb_false in H. by subst.
Qed.

(** The request a sensitive approval becomes. *)
Lemma sensitive_request (store : S) task cu context intent choice a :
  construct_user_action store task cu context intent = Ok a →
  in_action intent = DraftChoice choice → cd_judgment_kind choice = JSensitiveApproval →
  ∃ body basis scope scope',
    va_body a = BodyChoice body ∧ va_basis a = BasisChoice basis ∧
    cd_sensitive_action_scope choice = Some scope ∧
    normalize_sensitive_action_scope scope = Ok scope' ∧
    cr_judgment_kind body = JSensitiveApproval ∧
    cr_options body = canonical_choice_options JSensitiveApproval [] (ctx_locale context) ∧
    ch_sensitive_action_scope basis = Some scope' ∧ va_required_for a = in_required_for intent ∧
    ch_coordinates basis =
      {| co_task_id := tk_task_id task; co_change_unit_id := cu_change_unit_id <$> cu;
         co_scope_revision := tk_scope_revision task;
         co_baseline_ref := shaping_baseline_ref (tk_shaping task);
         co_created_at_state_version := ctx_observed_state_version context;
         co_compatibility_status := BasisCurrent |}.
Proof.
  intros (Htask & exists_ & v & facts & Hv & Hb & Hbody)%construct_user_action_Ok Ha Hk.
  pose proof (iv_action _ _ Hv) as Hact. cbn in Hact. rewrite Ha in Hact. cbn in Hact.
  peel Hact as choice' Hc. injection Hact as Hvx.
  destruct (normalize_sensitive_choice _ _ Hc Hk) as (scope & scope' & Hsc & Hn & -> & Hopt).
  pose proof (iv_change_unit _ _ Hv) as Hcu. cbn in Hcu. rewrite Ha in Hcu. cbn in Hcu. rewrite Hk in Hcu.
  apply sensitive_change_unit in Hcu as [_ Hcu].
  pose proof (iv_coordinates _ _ Hv) as Hco. rewrite (iv_coordinate _ _ Hv), (iv_task _ _ Hv) in Hco.
  cbn in Hco. rewrite Hcu, <-Htask in Hco.
  unfold construct_canonical_body in Hbody. rewrite <-Hvx in Hbody.
  destruct facts as [rev refs risks|]; [|done]. cbn in Hbody. peel Hbody as form _. injection Hbody as <-.
  eexists _, _, scope, scope'. split_and!; try reflexivity; try done.
  - cbn. by rewrite Hk, Hopt.
  - apply (iv_required_same _ _ Hv).
Qed.
End service.

(** ** Lemmas: continuity *)

(** The risks of a close basis that were accepted. *)
Definition accepted_risks (ids : list RiskId) (close : CurrentCloseBasis) : list ResidualRisk :=
  List.filter (λ risk, bts_mem (risk_id risk) (bts_of_list ids)) (cb_residual_risks close).

Lemma elem_of_accepted_risks ids close risk :
  risk ∈ accepted_risks ids close ↔ risk ∈ cb_residual_risks close ∧ risk_id risk ∈ ids.
Proof.
  unfold accepted_risks.
  by rewrite list_elem_of_In, filter_In, <-list_elem_of_In, bts_mem_elem, elem_of_bts_of_list.
Qed.

Lemma accepted_risks_sub ids close :
  NoDup (risk_id <$> cb_residual_risks close) →
  risk_id <$> accepted_risks ids close ⊆+ bts_of_list ids.
Proof.
  intros Hnd. apply NoDup_submseteq; [by apply NoDup_fmap_filter|].
  intros id (risk & -> & [_ Hin]%elem_of_accepted_risks)%list_elem_of_fmap. by apply elem_of_bts_of_list.
Qed.

Lemma accepted_risks_complete ids close :
  NoDup (risk_id <$> cb_residual_risks close) →
  length (accepted_risks ids close) = length (bts_of_list ids) ↔
  ∀ id, id ∈ ids → id ∈ risk_id <$> cb_residual_risks close.
Proof.
  intros Hnd. rewrite <-(length_fmap risk_id). split.
  - intros Hlen id Hid. pose proof (accepted_risks_sub ids close Hnd) as Hsub.
    apply submseteq_length_Permutation in Hsub; [|lia].
    apply elem_of_bts_of_list in Hid. rewrite <-Hsub, list_elem_of_fmap in Hid.
    destruct Hid as (risk & -> & [Hin _]%elem_of_accepted_risks). rewrite list_elem_of_fmap. eauto.
  - intros Hall. apply Permutation_length, NoDup_Permutation.
    + by apply NoDup_fmap_filter.
    + apply sorted_rlt_NoDup, bts_of_list_sorted.
    + intros id. rewrite elem_of_bts_of_list, list_elem_of_fmap. setoid_rewrite elem_of_accepted_risks.
      split; [naive_solver|]. intros Hid. pose proof (Hall _ Hid) as (r & -> & Hr)%list_elem_of_fmap.
      eauto.
Qed.

(** What an accepted answer continues as. *)
Definition continued (choice : UserActionChoiceRequestBody) (selected_option_id : UserActionOptionId)
    (risks : list RiskId) (close : option CurrentCloseBasis)
    : list PersistedProjectContinuityMetadata :=
  let kind := action_kind_of_judgment (cr_judgment_kind choice) in
  match cr_judgment_kind choice with
  | JProductDecision | JTechnicalDecision | JScopeDecision =>
      [ResolveUserActionDecision kind Accepted selected_option_id]
  | JResidualRiskAcceptance =>
      match close with
      | Some close =>
          (λ risk, ResolveUserActionAcceptedRisk kind (risk_id risk) (cb_close_basis_revision close))
            <$> accepted_risks risks close
      | None => []
      end
  | _ => []
  end.

Lemma accepted_risks_nil close : accepted_risks [] close = [].
Proof.
  unfold accepted_risks. cbn. induction (cb_residual_risks close) as [|risk l IH]; [done|]. cbn.
  by rewrite IH.
Qed.

(** The failures of an accepted answer. *)
Definition continuity_failure (choice : UserActionChoiceRequestBody) (selected : UserActionOptionId)
    (risks : list RiskId) (close : option CurrentCloseBasis) (e : UserActionServiceError) : Prop :=
  (∀ o, o ∈ cr_options choice → opt_option_id o ≠ selected) ∧
    e = Unavailable StoredResolutionOptionMissing ∨
  (∃ o, o ∈ cr_options choice ∧ opt_option_id o = selected) ∧
    cr_judgment_kind choice = JResidualRiskAcceptance ∧ risks ≠ [] ∧
    (close = None ∧ e = Unavailable CurrentCloseBasisRequired ∨
     (∃ c id, close = Some c ∧ id ∈ risks ∧ id ∉ risk_id <$> cb_residual_risks c) ∧
       e = Unavailable AcceptedRiskIdentityMismatch).

(** An option is found exactly when one has its id. *)
Lemma option_lookup selected (options : list UserActionOption) :
  match List.find (λ o, opt_option_id o =? selected) options with
  | Some _ => ∃ o, o ∈ options ∧ opt_option_id o = selected
  | None => ∀ o, o ∈ options → opt_option_id o ≠ selected
  end.
Proof.
  destruct (List.find _ _) as [o|] eqn:Hf.
  - apply list_find_Some in Hf as [Hin Heq%eqb_eq]. eauto.
  - rewrite list_find_None in Hf. intros o Ho. by apply eqb_neq, Hf.
Qed.

Lemma unknown_risk risks c :
  NoDup (risk_id <$> cb_residual_risks c) →
  length (accepted_risks risks c) ≠ length (bts_of_list risks) ↔
  ∃ id, id ∈ risks ∧ id ∉ risk_id <$> cb_residual_risks c.
Proof.
  intros Hnd. rewrite (accepted_risks_complete _ _ Hnd). split.
  - intros Hn. destruct (decide (Exists (λ id, id ∉ risk_id <$> cb_residual_risks c) risks)) as [He|He].
    + by apply Exists_exists in He.
    + exfalso. apply Hn. intros id Hid. apply not_Exists_Forall in He; [|intros x; apply _].
      rewrite Forall_forall in He. by apply dec_stable, He.
  - intros (id & Hid & Hno) Hall. by apply Hno, Hall.
Qed.

Lemma accepted_choice_errors choice selected risks ref paths close e :
  (∀ c, close = Some c → NoDup (risk_id <$> cb_residual_risks c)) →
  accepted_choice_continuity choice Accepted selected risks ref paths close = Err e ↔
  cr_judgment_kind choice ∉ [JSensitiveApproval; JFinalAcceptance; JCancellation] ∧
  continuity_failure choice selected risks close e.
Proof.
  intros Hnd. unfold accepted_choice_continuity, judgment_continuity_kind, continuity_failure.
  rewrite eqb_refl. cbn [negb]. pose proof (option_lookup selected (cr_options choice)) as Hopt.
  destruct (List.find _ _) as [option|].
  - transitivity (cr_judgment_kind choice = JResidualRiskAcceptance ∧ risks ≠ [] ∧
      (close = None ∧ e = Unavailable CurrentCloseBasisRequired ∨
       (∃ c id, close = Some c ∧ id ∈ risks ∧ id ∉ risk_id <$> cb_residual_risks c) ∧
       e = Unavailable AcceptedRiskIdentityMismatch)); last first.
    { split; [intros (Hk & Hr)|].
      - split; [rewrite Hk; set_solver|]. by right.
      - intros (_ & [[Hno _]|(_ & H)]); [|done]. destruct Hopt as (o & Ho & Hsel). by destruct (Hno o). }
    destruct (cr_judgment_kind choice); cbn -[bts_of_list accepted_risks]; try naive_solver.
    destruct (list_is_empty risks) eqn:Hne.
    { apply list_is_empty_true in Hne. naive_solver. }
    apply list_is_empty_false in Hne. destruct close as [c|]; cbn [ok_or]; [|naive_solver].
    fold (accepted_risks risks c). pose proof (unknown_risk risks c (Hnd c eq_refl)) as Hun.
    destruct (length (accepted_risks risks c) =? length (bts_of_list risks)) eqn:Hlen; cbn [negb ensure].
    + apply eqb_eq in Hlen. naive_solver.
    + apply eqb_neq, Hun in Hlen as (id & Hid & Hno). naive_solver.
  - cbn [ok_or]. destruct (cr_judgment_kind choice); split; try done; try (intros [= <-]; split; [set_solver|by left]);
      intros (Hk & [[_ ->]|((o & Ho & Hs) & _)]); try done; try (exfalso; by destruct (Hopt o));
      exfalso; apply Hk; set_solver.
Qed.

(** ** Theorems *)

Section theorems.
Context `{HC : Chrono} `{HZ : CanonicalSize} {S : Type} `{HR : !UserActionStoreReader S}.

(** Whatever the service constructs the store accepts: a request built from
    a validated intent materializes, its insert passes every check of the store
    when its keys are unused and its identities not blank, and the stored row
    reads back as exactly the pending record that was planned. *)
Theorem constructed_request_is_stored (store : S) task cu context intent a persistence origin s :
  construct_user_action store task cu context intent = Ok a →
  representable (ctx_observed_at context) = true →
  scope_roundtrips (draft_scope (in_action intent)) = true →
  pc_planned_state_version persistence ≠ 0%N →
  pc_project_id persistence = ut_project_id s → trim (ut_project_id s) ≠ EmptyString →
  request_named (request_insert persistence origin a) →
  request_fresh s (request_insert persistence origin a) →
  ∃ m s', materialize_user_action_request persistence origin a = Ok m ∧
    apply_user_action_mutation s (mr_mutation m) = Ok s' ∧
    ut_requests s' = <[pc_user_action_request_id persistence := set_request (mr_effective m)]>
                       (ut_requests s) ∧
    ut_resolutions s' = ut_resolutions s ∧
    (is_Some (actor_from_str (actor_to_canonical_string (pc_actor_source persistence))) →
     user_action_request_record s' (pc_user_action_request_id persistence)
       = Ok (Some (set_request (mr_effective m)))) ∧
    user_action_authority_from_state (mr_public_request m) =
      user_action_authority_from_record (mr_effective m).
Proof.
  intros Ha Hnow Hscope Hversion Hproject Hp Hnamed Hfresh.
  pose proof (constructed_columns _ _ _ _ _ _ persistence origin Ha Hnow Hscope) as Hcol.
  apply construct_user_action_Ok in Ha as (_ & exists_ & v & facts & Hv & Hb & _).
  pose proof (origin_metadata_matches origin) as Horigin.
  assert (representable (va_created_at a) = true) as Hat
    by by rewrite (bc_created_at _ _ Hb), (iv_created_at _ _ Hv).
  assert (∀ e, va_expires_at a = Some e → representable e = true) as Hexp.
  { rewrite (bc_expires_at _ _ Hb). apply (iv_representable _ _ Hv). }
  unfold materialize_user_action_request. cbv zeta.
  rewrite (proj2 (eqb_false _ _) Hversion), pending_projection by (done || by rewrite Hproject).
  cbn [ensure map_err]. eexists _, _. split; [reflexivity|].
  split; [cbn [mr_mutation apply_user_action_mutation]; by apply insert_request_accepts|].
  split_and!; [|done| |].
  - cbn. by rewrite Hproject.
  - intros Hactor. unfold user_action_request_record.
    cbn [ut_requests set_requests mr_effective set_request]. rewrite Hproject, lookup_insert_eq.
    cbn [try_option]. erewrite (proj2 (decode_request_Ok _ _)); [reflexivity|]. split; [done|].
    split; try done. apply (qn_key _ Hnamed).
  - unfold user_action_authority_from_state, user_action_authority_from_record. cbn.
    by rewrite compatibility_of_coordinates, (bc_coordinates _ _ Hb), (iv_coordinates _ _ Hv).
Qed.

(** Whatever the service resolves the store accepts: for a request that is
    pending at the instant of the answer, the resolution constructed from a local
    user's answer is projected and inserted, the record then reads back exactly as
    projected, resolved with that body, and the answer matches the stored body, so
    a repeated submission is recognized. *)
Theorem constructed_resolution_is_stored s now later set (store : S) context input task cu body refs z :
  user_actions_reachable (s, now) → (now ≤ later)%Z → representable later = true →
  effective_user_action_record s (mi_user_action_request_id z) later = Ok (Some set) →
  set_status set = UAPending →
  construct_user_action_resolution store context input (pr_body (ur_request (set_request set)))
    (ur_basis (set_request set)) task cu = Ok (body, refs) →
  resolution_validate body = Ok tt →
  mi_resolution z = body → mi_action_kind z = ur_action_kind (set_request set) →
  mi_actor_source z = LocalUser → mi_verification_basis z = verification_basis (mi_channel_kind z) →
  trim (mi_assurance_level z) ≠ EmptyString → mi_resolved_at z = later →
  trim (ut_project_id s) ≠ EmptyString →
  resolution_fresh s (ms_insert (materialize_user_action_resolution z)) →
  ∃ set' s', project_record_set (materialize_user_action_resolution z) set later = Ok set' ∧
    apply_user_action_mutation s (ms_mutation (materialize_user_action_resolution z)) = Ok s' ∧
    effective_user_action_record s' (mi_user_action_request_id z) later = Ok (Some set') ∧
    set_status set' = UAResolved ∧ (us_resolution <$> set_resolution set') = Some body ∧
    resolution_input_matches_body input body = true.
Proof.
  intros Hok%reachable_user_actions_ok Hle Hrep He Hst Hc Hval Hbody Hkind Hactor Hbasis Has Hat Hp Hfresh.
  cbn in Hok. destruct (pending_record _ _ _ _ _ Hok Hle He Hst) as (Hr & Hnone & Hno & Hcur & Hexp).
  destruct (uo_requests _ _ Hok _ _ Hr) as (Hpid & Hid & Hv & Hreq).
  set (input' := ms_insert (materialize_user_action_resolution z)) in *.
  set (row := resolution_row (ut_project_id s) input').
  destruct (constructed_agrees _ _ _ _ _ _ _ _ row Hc Hv Hbody) as (Hagree & Hmatch & Hfam).
  assert (resolution_valid row) as Hzv.
  { destruct Hfresh. split; cbn; rewrite ?Hbody, ?Hkind, ?Hat; done. }
  assert (resolves (set_request set) row) as Hrs.
  { split; cbn; rewrite ?Hat; [done|done|done|lia|done| |done].
    intros e Hse. apply Hexp in Hse. lia. }
  assert (insert_user_action_resolution s input' = Ok (with_resolution_row s input')) as Hins
    by by eapply insert_resolution_accepts.
  exists {| set_request := set_request set; set_resolution := Some row; set_status := UAResolved |},
    (with_resolution_row s input'). split_and!.
  - unfold project_record_set. fold input'. destruct set as [r o st]. cbn in *. subst o.
    rewrite (with_resolution_accepts s r later input');
      [by rewrite Hpid|done|by rewrite Hpid|by rewrite Hpid|by rewrite Hpid|done|cbn; lia].
  - exact Hins.
  - assert (user_actions_ok (with_resolution_row s input') later) as Hok'.
    { apply (apply_user_actions_ok s now later (InsertResolution input')); [done| |done|done]. cbn. lia. }
    rewrite (effective_record_Ok _ later later _ (set_request set) Hok'); [|lia|done].
    rewrite (proj2 (find_resolution_once _ _ _ row Hok')); last first.
    { split; [|done]. exists (rs_user_action_resolution_id input'). cbn. by rewrite lookup_insert_eq. }
    cbn [is_some]. unfold shown_status. by rewrite Hcur.
  - done.
  - cbn. by rewrite Hbody.
  - done.
Qed.

(** C31: The sensitive approval a user resolves authorizes a write exactly when
    the user chose the accept option and the write is the one that was asked
    about: for one of the requested operations, on the Task, current Change Unit,
    scope revision and baseline of the request, and covered by the normalized
    scope the agent declared.  Rejecting or deferring authorizes nothing, and no
    option beyond accept, reject and defer exists. *)
Theorem sensitive_choice_authorizes (store : S) task cu context intent choice a persistence origin m
    (store' : S) context' selected note cu' body refs z now set' r :
  construct_user_action store task cu context intent = Ok a →
  in_action intent = DraftChoice choice → cd_judgment_kind choice = JSensitiveApproval →
  materialize_user_action_request persistence origin a = Ok m →
  construct_user_action_resolution store' context' (InputChoice selected note)
    (pq_body (mr_public_request m)) (pq_basis (mr_public_request m)) (in_task_id intent) cu'
    = Ok (body, refs) →
  mi_resolution z = body →
  project_record_set (materialize_user_action_resolution z) (mr_effective m) now = Ok set' →
  (∃ action, selected = authority_option_id action) ∧
  (current_sensitive_approval (user_action_authority_from_record set') r = true ↔
   selected = "accept" ∧ sar_required_for r ∈ in_required_for intent ∧
   tk_task_id task = sar_task_id r ∧ (cu_change_unit_id <$> cu) = Some (sar_change_unit_id r) ∧
   tk_scope_revision task = sar_scope_revision r ∧
   shaping_baseline_ref (tk_shaping task) = sar_baseline_ref r ∧
   ∃ scope scope', cd_sensitive_action_scope choice = Some scope ∧
     normalize_sensitive_action_scope scope = Ok scope' ∧ scope_covers scope' r).
Proof.
  intros Ha Hact Hk Hm Hres Hz Hset.
  destruct (sensitive_request _ _ _ _ _ _ _ Ha Hact Hk)
    as (bd & basis & scope & scope' & Hb & Hbs & Hsc & Hn & Hjk & Hopt & Hss & Hreq & Hco).
  destruct (materialize_request_Ok _ _ _ _ Hm) as (He & Hpb & Hpbs). rewrite Hpb, Hpbs, Hb, Hbs in Hres.
  cbn in Hres. peel Hres as body' Hc. injection Hres as -> <-.
  unfold construct_choice_resolution in Hc. rewrite Hjk in Hc. cbn in Hc. peel Hc as option Ho%ok_or_Ok.
  rewrite Hopt in Ho. injection Hc as Hbody.
  destruct (authority_option_found JSensitiveApproval _ _ _ eq_refl Ho) as (action & -> & Hsel).
  destruct (authority_option_fields JSensitiveApproval (ctx_locale context) action) as (Hma & Hout & Hid).
  rewrite Hma, Hout, Hid in Hbody.
  split; [by exists action|]. unfold project_record_set in Hset. apply map_err_Ok, with_resolution_Ok in Hset.
  rewrite He in Hset. cbn in Hset. destruct Hset as (Hsr & Hrow & _ & Hactor & Has & Hst).
  rewrite current_sensitive_approval_iff.
  rewrite (record_authorized set' _ (authority_option_id action) action (option_action_outcome action)
             note [] SensitiveApproval (Hst eq_refl) Hrow);
    [|cbn; by rewrite Hz|done|done|rewrite Hsr; cbn; by rewrite Hb; cbn; rewrite Hjk
     |by rewrite Hsr|rewrite Hsr; cbn; by rewrite Hbs; cbn; rewrite Hco].
  destruct (authority_request_facts set') as [-> ->]. rewrite Hsr. cbn. rewrite Hbs, Hreq.
  assert (action = Accept ∧ option_action_outcome action = Accepted ↔ selected = "accept") as ->
    by (rewrite Hsel; destruct action; naive_solver).
  split.
  - intros (Hacc & Hfor & b & sc & [= <-] & Hscope & Hcov). cbn in Hscope, Hcov.
    rewrite Hss in Hscope. rewrite Hco in Hcov. cbn in Hcov. injection Hscope as <-.
    destruct Hcov as (? & ? & ? & ? & ?). split_and!; try done. by exists scope, scope'.
  - intros (Hacc & Hfor & Ht & Hu & Hrev & Hbl & sc & sc' & Hsc' & Hn' & Hcov). split_and!; [done|done|].
    exists (BasisChoice basis), scope'. cbn. rewrite Hss, Hco. cbn.
    rewrite Hsc in Hsc'. injection Hsc' as <-. rewrite Hn in Hn'. injection Hn' as <-. by split_and!.
Qed.

(** Continuity of an answer: for a resolution stored with its request, and a
    close basis whose risk ids are distinct and include every accepted risk, the
    derivation succeeds; only an answer that accepts continues, a decision as one
    record and an accepted set of risks as exactly one record per distinct risk. *)
Theorem continuity_of_resolution request resolution choice ref paths close :
  request_valid request → resolves request resolution →
  pr_body (ur_request request) = BodyChoice choice →
  (cr_judgment_kind choice = JResidualRiskAcceptance → ∃ c, close = Some c ∧
     NoDup (risk_id <$> cb_residual_risks c) ∧
     ∀ id, id ∈ residual_risk_ids (ur_basis request) → id ∈ risk_id <$> cb_residual_risks c) →
  ∃ drafts,
    derive_user_action_continuity (pr_body (ur_request request)) (ur_basis request)
      (us_resolution resolution) ref paths close = Ok drafts ∧
    cdr_metadata <$> drafts =
      match us_resolution resolution with
      | ResolutionChoice selected Accept Accepted _ risks => continued choice selected risks close
      | _ => []
      end ∧
    ∀ c, close = Some c → cr_judgment_kind choice = JResidualRiskAcceptance →
      length drafts = match us_resolution resolution with
                      | ResolutionChoice _ Accept Accepted _ risks => length (bts_of_list risks)
                      | _ => 0
                      end.
Proof.
  intros Hv Hrs Hb Hclose. pose proof (rp_agrees _ _ Hrs) as Hagree.
  pose proof (ca_kind _ (rv_columns _ Hv)) as Hkind. cbn in Hkind.
  unfold resolution_agrees in Hagree. rewrite Hb in *. cbn in Hkind.
  destruct (ur_basis request) as [cb|] eqn:Hbasis; [|done].
  destruct (us_resolution resolution) as [selected action outcome note risks|] eqn:Hres; [|done].
  unfold choice_resolution_agrees in Hagree. rewrite is_some_and_true in Hagree.
  destruct Hagree as (option & Hfind & Hag). rewrite !andb_true_iff, !eqb_true in Hag.
  destruct Hag as [[Hact Hout] Hrisks]. cbn [derive_user_action_continuity].
  destruct action; [|by exists []..]. destruct outcome; [|by exists []..].
  rewrite !eqb_refl. cbn [negb orb]. unfold accepted_choice_continuity. rewrite Hfind. cbn [ok_or].
  unfold continued, judgment_continuity_kind. rewrite eqb_refl. cbn [negb].
  destruct (cr_judgment_kind choice) eqn:Hjk; cbn -[bts_of_list];
    try (eexists; split_and!; [reflexivity|cbn; by rewrite ?Hjk|by intros ?? [=]]).
  destruct (Hclose eq_refl) as (c & -> & Hnd & Hall). cbn [ok_or].
  assert (risks = ch_residual_risk_ids cb) as Hr.
  { rewrite <-Hkind, Hact in Hrisks. by rewrite !eqb_refl in Hrisks. }
  assert (length (accepted_risks risks c) = length (bts_of_list risks)) as Hlen
    by (apply accepted_risks_complete; [done|by rewrite Hr]).
  destruct (list_is_empty risks) eqn:Hne.
  - apply list_is_empty_true in Hne. exists []. rewrite Hne, accepted_risks_nil. by split_and!.
  - fold (accepted_risks risks c). rewrite Hlen, eqb_refl. cbn [negb ensure]. eexists. split_and!; [done| |].
    + rewrite <-list_fmap_compose. apply list_fmap_ext. intros _ risk _. cbn. by rewrite Hjk.
    + intros _ _ _. by rewrite length_fmap.
Qed.

(** The only ways continuity fails: an accepted answer whose option the
    request does not have, accepted risks without a current close basis, and
    accepted risks one of which the close basis does not list.  Everything else
    derives, and an answer that does not accept never fails. *)
Theorem continuity_errors body basis resolution ref paths close e :
  (∀ c, close = Some c → NoDup (risk_id <$> cb_residual_risks c)) →
  derive_user_action_continuity body basis resolution ref paths close = Err e ↔
  ∃ choice cb selected note risks,
    body = BodyChoice choice ∧ basis = BasisChoice cb ∧
    resolution = ResolutionChoice selected Accept Accepted note risks ∧
    cr_judgment_kind choice ∉ [JSensitiveApproval; JFinalAcceptance; JCancellation] ∧
    continuity_failure choice selected risks close e.
Proof.
  intros Hnd. split.
  - destruct body as [choice|]; [|done]. destruct basis as [cb|]; [|done].
    destruct resolution as [selected [] [] note risks|]; try done.
    cbn [derive_user_action_continuity]. rewrite !eqb_refl. cbn [negb orb].
    rewrite accepted_choice_errors by done. intros [Hk Hf]. by exists choice, cb, selected, note, risks.
  - intros (choice & cb & selected & note & risks & -> & -> & -> & Hk & Hcase).
    cbn [derive_user_action_continuity]. rewrite !eqb_refl. cbn [negb orb].
    by apply accepted_choice_errors.
Qed.

End theorems.

(** ** Witnesses *)

#[local] Existing Instance decimal_chrono.
#[local] Existing Instance small_size.

(** A project with one Change Unit and no evidence. *)
#[local] Instance no_artifacts : ArtifactReader unit := {
  artifact_record _ _ := Ok None;
  artifact_has_task_owner_link _ _ _ := Ok false;
  artifact_has_owner_link _ _ _ _ _ := Ok false;
  verify_persistent_artifact_body _ _ := Ok VMissing;
}.

#[local] Instance sample_reader : UserActionStoreReader unit := {
  task_revision_record _ _ := Ok None;
  change_unit_record _ _ _ := Ok None;
  acceptance_criterion_record _ _ := Ok None;
  evidence_claim_record _ _ _ := Ok None;
}.

Definition sample_unit : ChangeUnitRecord :=
  {| cu_project_id := "p"; cu_change_unit_id := "cu1"; cu_task_id := "t1";
     cu_status := CUActive; cu_is_current := true; cu_basis_state_version := 1;
     cu_bounded_paths := ["src"]; cu_write_basis_baseline_ref := Some "base";
     cu_write_basis_git_workspace_context := None; cu_effect_contract := None;
     cu_recovery_required := false |}.

Definition sample_scope_draft : SensitiveActionScope :=
  {| sas_action_kind := " edit "; sas_description := "edit the secrets";
     sas_intended_paths := ["src"]; sas_sensitive_categories := ["secrets"];
     sas_command_or_tool_summary := None; sas_network_or_host_summary := Some " ";
     sas_secret_or_credential_summary := None; sas_capability_claim := "cooperative";
     sas_expires_at := Some 500%Z |}.

Definition sample_approval_draft : UserActionChoiceDraft :=
  {| cd_judgment_kind := JSensitiveApproval; cd_presentation := Short; cd_question := " May I edit the secrets? ";
     cd_options := None; cd_context := sample_context; cd_affected_refs := [];
     cd_sensitive_action_scope := Some sample_scope_draft |}.

Definition sample_intent : UserActionIntent :=
  {| in_task_id := "t1"; in_change_unit_id := None; in_action := DraftChoice sample_approval_draft;
     in_required_for := [ForPrepareWrite]; in_expires_at := Some 500%Z |}.

Definition sample_construction : UserActionConstructionContext :=
  {| ctx_project_id := "p"; ctx_observed_state_version := 2; ctx_observed_at := 100%Z;
     ctx_locale := Some "en" |}.

Definition sample_persistence : UserActionPersistenceContext :=
  {| pc_project_id := "p"; pc_actor_source := LocalUser; pc_operation_identity := "k9";
     pc_planned_state_version := 3; pc_user_action_request_id := "req9" |}.

Definition sample_task : TaskRecord := sample_waiting_task PReady.

(** The value of a computation that succeeds. *)
Definition get {A E} (d : A) (r : result A E) : A := match r with Ok a => a | Err _ => d end.

Definition blank_action : ValidatedUserAction :=
  {| va_task_id := ""; va_coordinate_change_unit_id := None;
     va_body := BodyChoice sample_choice_body; va_basis := sample_choice_basis; va_required_for := [];
     va_expires_at := None; va_created_at := 0%Z |}.

Definition sample_constructed : ValidatedUserAction :=
  Eval vm_compute in
    get blank_action (construct_user_action tt sample_task (Some sample_unit) sample_construction
                        sample_intent).

Lemma constructed_request_is_stored_witness :
  ∃ m s', materialize_user_action_request sample_persistence OriginDirectRequest sample_constructed
            = Ok m ∧
    apply_user_action_mutation sample_asked (mr_mutation m) = Ok s'.
Proof.
  destruct (constructed_request_is_stored tt sample_task (Some sample_unit) sample_construction
              sample_intent sample_constructed sample_persistence OriginDirectRequest sample_asked)
    as (m & s' & Hm & Hs & _);
    [vm_compute; reflexivity|vm_compute; reflexivity|vm_compute; reflexivity|vm_compute; discriminate
    |reflexivity|vm_compute; discriminate| | |by exists m, s'].
  - split; [vm_compute; discriminate|vm_compute; discriminate| |vm_compute; discriminate
           |vm_compute; discriminate]. intros cu [= <-]. vm_compute. discriminate.
  - split; [vm_compute; reflexivity|]. intros _ id r.
    destruct (decide (id = "req1")) as [->|Hne].
    + intros [= <-] _. vm_compute. discriminate.
    + cbn. rewrite lookup_insert_ne by done. by rewrite lookup_empty.
Defined.

Definition sample_answer (request : string) (kind : UserActionKind) (body : UserActionResolutionBody)
    : UserActionResolutionMaterializationInput :=
  {| mi_user_action_resolution_id := "res9"; mi_user_action_request_id := request;
     mi_action_kind := kind; mi_channel_kind := Cli; mi_channel_submission_id := "sub9";
     mi_resolution := body; mi_actor_source := LocalUser; mi_verification_basis := CliDirectUserChannel;
     mi_assurance_level := "local_user_channel"; mi_resolved_at := 200%Z |}.

Definition simple_answer : UserActionResolutionBody :=
  ResolutionChoice "simple" Accept Accepted (Some "fine") [].

Lemma constructed_resolution_is_stored_witness :
  ∃ set' s', project_record_set
      (materialize_user_action_resolution (sample_answer "req2" TechnicalDecision simple_answer))
      {| set_request := request_row "p" (sample_request_insert "req2" "k2");
         set_resolution := None; set_status := UAPending |} 200 = Ok set' ∧
    effective_user_action_record s' "req2" 200 = Ok (Some set').
Proof.
  destruct (constructed_resolution_is_stored sample_asked_twice 110 200
      {| set_request := request_row "p" (sample_request_insert "req2" "k2");
         set_resolution := None; set_status := UAPending |} tt sample_construction
      (InputChoice "simple" (Some "fine")) "t1" None simple_answer []
      (sample_answer "req2" TechnicalDecision simple_answer))
    as (set' & s' & Hp & _ & He & _);
    [apply asked_twice_reachable|lia|vm_compute; reflexivity|vm_compute; reflexivity|reflexivity
    |vm_compute; reflexivity|vm_compute; reflexivity|reflexivity|reflexivity|reflexivity|reflexivity
    |vm_compute; discriminate|reflexivity|vm_compute; discriminate| |].
  - split; try (vm_compute; reflexivity); vm_compute; discriminate.
  - exists set', s'. split; [exact Hp|exact He].
Defined.

Definition blank_request : MaterializedUserActionRequest :=
  {| mr_request_ref := service_state_ref KTask "" "" "" 0;
     mr_public_request := user_action_from_record
       {| set_request := request_row "p" (sample_request_insert "req2" "k2");
          set_resolution := None; set_status := UAPending |} 0;
     mr_effective := {| set_request := request_row "p" (sample_request_insert "req2" "k2");
                        set_resolution := None; set_status := UAPending |};
     mr_mutation := MarkBasesStatus {| bm_user_action_request_ids := []; bm_basis_status := BasisStale |} |}.

Definition sample_materialized : MaterializedUserActionRequest :=
  Eval vm_compute in
    get blank_request (materialize_user_action_request sample_persistence OriginDirectRequest
                         sample_constructed).

Definition accepting_answer : UserActionResolutionMaterializationInput :=
  sample_answer "req9" SensitiveApproval (ResolutionChoice "accept" Accept Accepted None []).

Definition sample_resolved : StoredUserActionRecordSet :=
  Eval vm_compute in
    get (mr_effective sample_materialized)
      (project_record_set (materialize_user_action_resolution accepting_answer)
         (mr_effective sample_materialized) 200).

Lemma sensitive_choice_authorizes_witness :
  current_sensitive_approval (user_action_authority_from_record sample_resolved) sample_requirement
    = true.
Proof.
  apply (sensitive_choice_authorizes tt sample_task (Some sample_unit) sample_construction sample_intent
           sample_approval_draft sample_constructed sample_persistence OriginDirectRequest
           sample_materialized tt sample_construction "accept" None (Some sample_unit)
           (ResolutionChoice "accept" Accept Accepted None []) [] accepting_answer 200 sample_resolved
           sample_requirement);
    [vm_compute; reflexivity|reflexivity|reflexivity|vm_compute; reflexivity|vm_compute; reflexivity
    |reflexivity|vm_compute; reflexivity|].
  split_and!; [reflexivity|by apply list_elem_of_singleton|reflexivity..|].
  exists sample_scope_draft. eexists. split_and!; [reflexivity|vm_compute; reflexivity|].
  apply scope_matches_spec. vm_compute. reflexivity.
Defined.

Definition risky_body : UserActionChoiceRequestBody :=
  {| cr_judgment_kind := JResidualRiskAcceptance; cr_presentation := Short; cr_question := "Accept the risk?";
     cr_options := canonical_choice_options JResidualRiskAcceptance [] None;
     cr_context := sample_context; cr_affected_refs := []; cr_sensitive_action_scope := None |}.

Definition risky_basis : UserActionBasis :=
  BasisChoice
    {| ch_coordinates := coordinates sample_choice_basis; ch_close_basis_revision := Some 1%N;
       ch_result_refs := []; ch_residual_risk_ids := ["r1"]; ch_sensitive_action_scope := None |}.

Definition risky_request : StoredUserActionRequest :=
  {| ur_project_id := "p"; ur_user_action_request_id := "req7"; ur_task_id := "t1";
     ur_change_unit_id := None; ur_action_kind := ResidualRiskAcceptance;
     ur_request := {| pr_body := BodyChoice risky_body; pr_required_for := [ForCloseComplete];
                      pr_expires_at := None |};
     ur_basis := risky_basis; ur_basis_status := BasisCurrent; ur_required_for := [ForCloseComplete];
     ur_requested_by_actor_source := LocalUser; ur_source_method := MRequestUserAction;
     ur_source_idempotency_key := "k7"; ur_requested_at := 100%Z; ur_expires_at := None;
     ur_metadata := MetaDirectRequest |}.

Definition risk_accepted : UserActionResolutionBody :=
  ResolutionChoice "accept" Accept Accepted None ["r1"].

Definition risky_resolution : StoredUserActionResolution :=
  resolution_row "p" (ms_insert (materialize_user_action_resolution
    (sample_answer "req7" ResidualRiskAcceptance risk_accepted))).

Definition sample_close (ids : list string) : CurrentCloseBasis :=
  {| cb_close_basis_revision := 1; cb_scope_revision := 1; cb_task_id := "t1";
     cb_change_unit_id := "cu1"; cb_baseline_ref := None; cb_result_summary := "done";
     cb_result_refs := []; cb_evidence_refs := []; cb_evidence_summary_ref := None;
     cb_residual_risks :=
       (λ id, {| risk_id := id; risk_summary := "slow"; risk_consequence := "slower";
                 acceptance_required := true; risk_source_refs := [] |}) <$> ids;
     cb_sensitive_categories := []; cb_sensitive_action_requirements := [];
     cb_recovery_constraints := []; cb_source_run_ref := None; cb_shaping_checkpoint_ref := None;
     cb_shaping_decision_application_refs := []; cb_updated_at := 150%Z |}.

Definition sample_resolution_ref : StateRecordRef :=
  service_state_ref KUserActionResolution "res9" "p" "t1" 3.

Lemma continuity_of_resolution_witness :
  ∃ drafts,
    derive_user_action_continuity (BodyChoice risky_body) risky_basis risk_accepted
      sample_resolution_ref [] (Some (sample_close ["r0"; "r1"])) = Ok drafts ∧
    cdr_metadata <$> drafts = [ResolveUserActionAcceptedRisk ResidualRiskAcceptance "r1" 1].
Proof.
  destruct (continuity_of_resolution risky_request risky_resolution risky_body sample_resolution_ref []
              (Some (sample_close ["r0"; "r1"]))) as (drafts & Hd & Hm & _).
  - by apply (decode_request_Ok risky_request risky_request); vm_compute.
  - apply pair_Ok. vm_compute. reflexivity.
  - reflexivity.
  - intros _. eexists. split_and!; [reflexivity|apply (bool_decide_unpack _); vm_compute; reflexivity|].
    intros id Hid%list_elem_of_singleton. subst. vm_compute. do 2 constructor.
  - exists drafts. split; [exact Hd|]. exact Hm.
Defined.

Lemma continuity_errors_witness :
  derive_user_action_continuity (BodyChoice risky_body) risky_basis risk_accepted
    sample_resolution_ref [] (Some (sample_close ["r0"]))
    = Err (Unavailable AcceptedRiskIdentityMismatch).
Proof.
  apply continuity_errors.
  - intros c [= <-]. apply (bool_decide_unpack _). vm_compute. reflexivity.
  - eexists risky_body, _, "accept", None, ["r1"]. split_and!; try reflexivity; [set_solver|]. right.
    split_and!; [|reflexivity|done|right].
    + exists (authority_option JResidualRiskAcceptance None Accept). split; [|reflexivity].
      cbn. constructor.
    + split; [|reflexivity]. exists (sample_close ["r0"]), "r1".
      split_and!; [reflexivity|by apply list_elem_of_singleton|]. cbn. set_solver.
Defined.
