(* ===== verification/Evidence.v ===== *)
(** * Evidence: evidence coverage, provenance and the evidence gate

    Models the pure evidence policies of [crates/volicord-core/src/policy/]:
    [evidence.rs] (status of a set of coverage items, identity of references),
    [evidence_relevance.rs], [evidence_provenance.rs], [evidence_binding.rs],
    [evidence_target.rs] and [close_readiness_evidence.rs] (the interpretation of
    one coverage item at close, the projected summary and the evidence gate), with
    the evidence records of [crates/volicord-types/src/schema.rs] and
    [crates/volicord-store/src/core_pipeline/{evidence,runs}.rs]. *)

From Stdlib Require Import Ascii.
From S2P Require Import Prelude Text Values Canonical Schema TicketStore.
From S2P Require Import Commit Artifact UserActionService.

(** ** Values *)

Inductive EvidenceCoverageState :=
| CovUnsupported | CovPartial | CovSupported | CovContradicted | CovNotApplicable | CovStale.
#[export] Instance EvidenceCoverageState_eq_dec : EqDecision EvidenceCoverageState.
Proof. solve_decision. Defined.

Inductive EvidenceStatus := EvUnknown | EvInsufficient | EvSufficient | EvBlocked.
#[export] Instance EvidenceStatus_eq_dec : EqDecision EvidenceStatus.
Proof. solve_decision. Defined.

Inductive EvidenceDisplayState := DisplayPrepared | DisplayAttached | DisplayAcceptedForClose.

Inductive EvidenceGateState :=
| GateNotRequired | GateOptionalNone | GateRequiredMissing | GatePartial | GateSufficient
| GateStale | GateBlocked.
#[export] Instance EvidenceGateState_eq_dec : EqDecision EvidenceGateState.
Proof. solve_decision. Defined.

Inductive EvidenceRequirement := EvRequired | EvOptional | EvNotRequired.
#[export] Instance EvidenceRequirement_eq_dec : EqDecision EvidenceRequirement.
Proof. solve_decision. Defined.

Inductive EvidenceSourceKind :=
| AgentReport | ExternalTool | UserObservation | ReusedEvidence | UnverifiedClaim.
#[export] Instance EvidenceSourceKind_eq_dec : EqDecision EvidenceSourceKind.
Proof. solve_decision. Defined.

Inductive EvidenceAssuranceLevel :=
| CooperativeReport | ExternalToolResult | UserObserved | Unverified.
#[export] Instance EvidenceAssuranceLevel_eq_dec : EqDecision EvidenceAssuranceLevel.
Proof. solve_decision. Defined.

Inductive EvidenceProducerKind :=
| UnverifiedCaller | UserChannelObservation | VerifiedToolInvocation | VerifiedCommandExecution
| ReusedEvidenceProducer.
#[export] Instance EvidenceProducerKind_eq_dec : EqDecision EvidenceProducerKind.
Proof. solve_decision. Defined.

Inductive CloseReadinessBlockerCategory :=
| BcTask | BcOpenRun | BcScope | BcUserAction | BcPendingUserAction | BcSensitiveApproval
| BcWriteCompatibility | BcBaseline | BcConnectionCapability | BcEvidence | BcEvidenceClaim
| BcEvidenceProvenance | BcArtifactAvailability | BcFinalAcceptance | BcResidualRiskVisibility
| BcResidualRiskAcceptance | BcRecovery.
#[export] Instance CloseReadinessBlockerCategory_eq_dec : EqDecision CloseReadinessBlockerCategory.
Proof. solve_decision. Defined.

Inductive NextActionKind :=
| NaUpdateScope | NaFinalizeAdvice | NaPrepareWrite | NaStageArtifact | NaRecordRun
| NaRequestUserAction | NaResolveUserAction | NaReconcileChanges | NaCloseTask.

(** ** Records *)

Record AcceptanceCriterionView := {
  av_acceptance_criterion_id : string;
  av_statement : string;
  av_evidence_requirement : EvidenceRequirement;
}.

Record EvidenceCoverageItem := {
  ci_target : EvidenceTarget;
  ci_coverage_state : EvidenceCoverageState;
  ci_supporting_run_refs : list StateRecordRef;
  ci_observation_refs : list StateRecordRef;
  ci_supporting_artifact_refs : list ArtifactRef;
  ci_gap_refs : list StateRecordRef;
}.

Record EvidenceSummary := {
  es_evidence_state : option EvidenceDisplayState;
  es_status : EvidenceStatus;
  es_coverage_items : list EvidenceCoverageItem;
  es_artifact_refs : list ArtifactRef;
  es_observation_refs : list StateRecordRef;
  es_updated_by_run_ref : option StateRecordRef;
}.

Record NextActionSummary := {
  na_action_kind : NextActionKind;
  na_owner_method : option MethodName;
  na_allowed_operation_categories : list OperationCategory;
  na_label : string;
  na_blocking_question : option string;
  na_expected_state_version : option N;
  na_required_refs : list StateRecordRef;
}.

Record CloseReadinessBlocker := {
  bl_category : CloseReadinessBlockerCategory;
  bl_code : string;
  bl_message : string;
  bl_related_refs : list StateRecordRef;
  bl_next_actions : list NextActionSummary;
}.

Record EvidenceProducerAnchor := {
  pn_producer_kind : EvidenceProducerKind;
  pn_producer_ref : option StateRecordRef;
  pn_output_artifact_refs : list ArtifactRef;
  pn_verification_basis : option string;
}.

Record EvidenceRelevanceAssessment := {
  as_status : EvidenceRelevanceStatus;
  as_assessment_ref : option StateRecordRef;
  as_assessed_by_actor_source : option ActorSource;
}.

(** An observation of the plan being built; the fields no policy reads (tool
    facts, source references, limitations, the recording instant) are left out. *)
Record EvidenceObservation := {
  eb_observation_id : string;
  eb_project_id : ProjectId;
  eb_task_id : TaskId;
  eb_change_unit_id : option ChangeUnitId;
  eb_run_ref : option StateRecordRef;
  eb_target : EvidenceTarget;
  eb_source_kind : EvidenceSourceKind;
  eb_assurance_level : EvidenceAssuranceLevel;
  eb_producer_anchor : EvidenceProducerAnchor;
  eb_relevance_assessment : EvidenceRelevanceAssessment;
  eb_observed_by_actor_source : option ActorSource;
  eb_input_refs : list StateRecordRef;
  eb_output_artifact_refs : list ArtifactRef;
  eb_observed_at : UtcTimestamp;
}.

Record PersistedEvidenceObservationAuthority := {
  pa_recorded_by_run_id : string;
  pa_invocation_verification_basis : string;
  pa_producer_anchor : EvidenceProducerAnchor;
  pa_relevance_assessment : EvidenceRelevanceAssessment;
}.

(** An observation row; its source references are kept as JSON. *)
Record EvidenceObservationRecord := {
  eor_project_id : string;
  eor_evidence_observation_id : string;
  eor_task_id : string;
  eor_change_unit_id : option string;
  eor_run_id : option string;
  eor_acceptance_criterion_id : option string;
  eor_evidence_claim_id : option string;
  eor_source_kind : EvidenceSourceKind;
  eor_assurance_level : EvidenceAssuranceLevel;
  eor_observed_by_actor_source : option ActorSource;
  eor_tool_name : option string;
  eor_tool_invocation_id : option string;
  eor_tool_metadata : JsonObject;
  eor_input_refs : list StateRecordRef;
  eor_source_refs : list Value;
  eor_output_artifact_refs : list ArtifactRef;
  eor_limitations : list string;
  eor_observed_at : UtcTimestamp;
  eor_recorded_at : UtcTimestamp;
  eor_metadata : PersistedEvidenceObservationAuthority;
}.

Inductive RunStatus := RunRecorded.
#[export] Instance RunStatus_eq_dec : EqDecision RunStatus.
Proof. solve_decision. Defined.

Record RunRecord := {
  rn_project_id : string;
  rn_run_id : string;
  rn_task_id : string;
  rn_change_unit_id : option string;
  rn_scope_revision : N;
  rn_baseline_ref : option BaselineRef;
  rn_status : RunStatus;
}.

(** ** [evidence.rs] *)

Definition evidence_status_for_items (items : list EvidenceCoverageItem) : EvidenceStatus :=
  if existsb (λ item, ci_coverage_state item =? CovContradicted) items then EvBlocked
  else if list_is_empty items then EvUnknown
  else if forallb (λ item, contains (ci_coverage_state item) [CovSupported; CovNotApplicable]) items
  then EvSufficient else EvInsufficient.

(** A loop that keeps the first item of each key. *)
Fixpoint unique_by {A K} `{RustOrd K} (key : A → K) (seen : list K) (items : list A) : list A :=
  match items with
  | [] => []
  | item :: rest =>
      if bts_mem (key item) seen then unique_by key seen rest
      else item :: unique_by key (bts_insert (key item) seen) rest
  end.

(** The JSON text of a closed enum value: its quoted spelling. *)
Definition json_quoted (s : string) : string :=
  let quote := String (ascii_of_nat 34) EmptyString in quote +:+ s +:+ quote.

Definition state_record_ref_identity_key (record_ref : StateRecordRef) : string * (string * string) :=
  (sr_project_id record_ref,
   (json_quoted (StateRecordKind_str (sr_record_kind record_ref)), sr_record_id record_ref)).

Definition unique_artifact_refs (artifact_refs : list ArtifactRef) : list ArtifactRef :=
  unique_by ar_artifact_id [] artifact_refs.

Definition unique_state_record_refs (refs : list StateRecordRef) : list StateRecordRef :=
  unique_by state_record_ref_identity_key [] refs.

Definition evidence_item_has_no_support (item : EvidenceCoverageItem) : bool :=
  list_is_empty (ci_supporting_run_refs item) && list_is_empty (ci_observation_refs item)
  && list_is_empty (ci_supporting_artifact_refs item) && list_is_empty (ci_gap_refs item).

Definition evidence_item_related_refs (item : EvidenceCoverageItem) : list StateRecordRef :=
  ci_observation_refs item ++ ci_supporting_run_refs item ++ ci_gap_refs item
  ++ ((λ artifact_ref, state_ref KArtifact (ar_artifact_id artifact_ref) (ar_project_id artifact_ref)
         (Some (ar_task_id artifact_ref))
         (ar_created_by_run_ref artifact_ref ≫= sr_produced_at_state_version))
      <$> ci_supporting_artifact_refs item).

(** ** [evidence_relevance.rs] *)

Inductive EvidenceSupportClass := ClassSupported | ClassUnsupported | ClassUnassessed.
#[export] Instance EvidenceSupportClass_eq_dec : EqDecision EvidenceSupportClass.
Proof. solve_decision. Defined.

Definition classify_evidence_support (relevance : EvidenceRelevanceStatus) : EvidenceSupportClass :=
  match relevance with
  | Supported => ClassSupported
  | Contradicted => ClassUnsupported
  | Unassessed => ClassUnassessed
  end.

Definition relevance_supports_claim (relevance : EvidenceRelevanceAssessment) : bool :=
  classify_evidence_support (as_status relevance) =? ClassSupported.

Definition capture_outcome_relevance (matches_expected_outcome : bool) : EvidenceRelevanceStatus :=
  if matches_expected_outcome then Unassessed else Contradicted.

Definition is_capture_producer (kind : EvidenceProducerKind) : bool :=
  match kind with VerifiedToolInvocation | VerifiedCommandExecution => true | _ => false end.

Definition capture_relevance_is_unsupported (producer_kind : EvidenceProducerKind)
    (relevance : EvidenceRelevanceAssessment) : bool :=
  is_capture_producer producer_kind && negb (relevance_supports_claim relevance).

(** ** [evidence_provenance.rs] *)

Inductive EvidenceProvenanceClass := Strong | CooperativeAgentReport | Weak.
#[export] Instance EvidenceProvenanceClass_eq_dec : EqDecision EvidenceProvenanceClass.
Proof. solve_decision. Defined.

Record EvidenceProvenanceFacts := {
  pvf_basis_matches : bool;
  pvf_source_kind : EvidenceSourceKind;
  pvf_assurance_level : EvidenceAssuranceLevel;
  pvf_artifact_binding_matches : bool;
  pvf_producer_binding_matches : bool;
}.

Definition evidence_assurance_matches_source (source_kind : EvidenceSourceKind)
    (assurance_level : EvidenceAssuranceLevel) : bool :=
  match source_kind with
  | AgentReport => assurance_level =? CooperativeReport
  | ExternalTool => assurance_level =? ExternalToolResult
  | UserObservation => assurance_level =? UserObserved
  | ReusedEvidence => contains assurance_level [ExternalToolResult; UserObserved]
  | UnverifiedClaim => assurance_level =? Unverified
  end.

Definition classify_evidence_provenance (facts : EvidenceProvenanceFacts) : EvidenceProvenanceClass :=
  if negb (pvf_basis_matches facts)
     || negb (evidence_assurance_matches_source (pvf_source_kind facts) (pvf_assurance_level facts))
  then Weak
  else
    let bound := pvf_artifact_binding_matches facts && pvf_producer_binding_matches facts in
    match pvf_source_kind facts, pvf_assurance_level facts with
    | AgentReport, CooperativeReport => CooperativeAgentReport
    | ExternalTool, ExternalToolResult | UserObservation, UserObserved
    | ReusedEvidence, (ExternalToolResult | UserObserved) => if bound then Strong else Weak
    | _, _ => Weak
    end.

(** ** [evidence_binding.rs] *)

Definition exact_artifact_identity_matches (historical current : ArtifactRef) : bool :=
  if (ar_integrity_status historical <>? AIVerified) || (ar_integrity_status current <>? AIVerified)
     || (ar_availability historical <>? AAvailable) || (ar_availability current <>? AAvailable)
  then false
  else match ar_created_by_run_ref historical, ar_created_by_run_ref current with
       | Some historical_run, Some _ =>
           historical =? with_run_version (sr_produced_at_state_version historical_run) current
       | None, None => historical =? current
       | _, _ => false
       end.

(** [windows(2).any(|refs| refs[0].artifact_id == refs[1].artifact_id)]. *)
Fixpoint adjacent_artifacts_repeat (refs : list ArtifactRef) : bool :=
  match refs with
  | first :: ((second :: _) as rest) =>
      (ar_artifact_id first =? ar_artifact_id second) || adjacent_artifacts_repeat rest
  | _ => false
  end.

Definition exact_artifact_ref_sets_match (historical current : list ArtifactRef) : bool :=
  if list_is_empty historical || (length historical <>? length current) then false
  else
    let historical := sort_by_key ar_artifact_id historical in
    let current := sort_by_key ar_artifact_id current in
    if adjacent_artifacts_repeat historical || adjacent_artifacts_repeat current then false
    else forallb (λ pair, exact_artifact_identity_matches pair.1 pair.2) (zip historical current).

Definition producer_output_binding_matches (producer_anchor : EvidenceProducerAnchor)
    (output_artifact_refs : list ArtifactRef) : bool :=
  exact_artifact_ref_sets_match (pn_output_artifact_refs producer_anchor) output_artifact_refs.

Definition authority_ref_matches (authority_ref : option StateRecordRef) (expected : StateRecordRef)
    : bool :=
  is_some_and authority_ref (λ authority_ref,
    (sr_record_kind authority_ref =? sr_record_kind expected)
    && (sr_record_id authority_ref =? sr_record_id expected)
    && (sr_project_id authority_ref =? sr_project_id expected)
    && (sr_task_id authority_ref =? sr_task_id expected)).

(** ** [evidence_target.rs] *)

Record EvidenceObservationBasis := {
  ebs_project_id : ProjectId;
  ebs_task_id : TaskId;
  ebs_change_unit_id : string;
  ebs_scope_revision : N;
  ebs_baseline_ref : option string;
  ebs_target : EvidenceTarget;
  ebs_now : UtcTimestamp;
}.

Definition stored_observation_target_matches (record : EvidenceObservationRecord)
    (target : EvidenceTarget) : bool :=
  match target with
  | AcceptanceCriterion acceptance_criterion_id =>
      (eor_acceptance_criterion_id record =? Some acceptance_criterion_id)
      && is_none (eor_evidence_claim_id record)
  | SupplementalClaim evidence_claim_id _ =>
      (eor_evidence_claim_id record =? Some evidence_claim_id)
      && is_none (eor_acceptance_criterion_id record)
  end.

Definition run_record_matches_close_basis_context (record : RunRecord) (project_id : ProjectId)
    (task_id : TaskId) (change_unit_id : string) (scope_revision : N) (baseline_ref : option string)
    : bool :=
  (rn_project_id record =? project_id) && (rn_task_id record =? task_id)
  && (rn_change_unit_id record =? Some change_unit_id)
  && (rn_scope_revision record =? scope_revision) && (rn_baseline_ref record =? baseline_ref)
  && (rn_status record =? RunRecorded).

Definition projected_observation_matches_basis (observation : EvidenceObservation)
    (basis : EvidenceObservationBasis) : bool :=
  (eb_project_id observation =? ebs_project_id basis) && (eb_task_id observation =? ebs_task_id basis)
  && (eb_change_unit_id observation =? Some (ebs_change_unit_id basis))
  && (eb_target observation =? ebs_target basis).

Definition stored_observation_matches_basis (record : EvidenceObservationRecord)
    (source_run : option RunRecord) (basis : EvidenceObservationBasis) : bool :=
  (eor_project_id record =? ebs_project_id basis) && (eor_task_id record =? ebs_task_id basis)
  && (eor_change_unit_id record =? Some (ebs_change_unit_id basis))
  && stored_observation_target_matches record (ebs_target basis)
  && is_some_and source_run (λ run,
       run_record_matches_close_basis_context run (ebs_project_id basis) (ebs_task_id basis)
         (ebs_change_unit_id basis) (ebs_scope_revision basis) (ebs_baseline_ref basis)).

Definition projected_observation_matches_close_basis (observation : EvidenceObservation)
    (basis : CurrentCloseBasis) (target : EvidenceTarget) : bool :=
  (eb_change_unit_id observation =? Some (cb_change_unit_id basis))
  && is_some_and (eb_run_ref observation) (λ run_ref,
       is_some_and (cb_source_run_ref basis) (λ source, sr_record_id run_ref =? sr_record_id source))
  && (eb_target observation =? target).

Definition stored_observation_matches_close_basis (record : EvidenceObservationRecord)
    (basis : CurrentCloseBasis) (target : EvidenceTarget) : bool :=
  (eor_change_unit_id record =? Some (cb_change_unit_id basis))
  && is_some_and (cb_source_run_ref basis) (λ source, eor_run_id record =? Some (sr_record_id source))
  && stored_observation_target_matches record target.

Definition close_basis_is_current (basis : CurrentCloseBasis) (task_id : TaskId)
    (current_change_unit_id : option string) (scope_revision close_basis_revision : N)
    (baseline_ref : option string) : bool :=
  (cb_task_id basis =? task_id) && (current_change_unit_id =? Some (cb_change_unit_id basis))
  && (cb_scope_revision basis =? scope_revision)
  && (cb_close_basis_revision basis =? close_basis_revision) && (cb_baseline_ref basis =? baseline_ref).

Definition is_run_ref (record_ref : StateRecordRef) : bool := sr_record_kind record_ref =? KRun.

Definition close_basis_run_refs (basis : CurrentCloseBasis) : list StateRecordRef :=
  match cb_source_run_ref basis with
  | Some source_run_ref => if is_run_ref source_run_ref then [source_run_ref] else []
  | None => []
  end
  ++ List.filter is_run_ref (cb_result_refs basis)
  ++ List.filter is_run_ref (concat (risk_source_refs <$> cb_residual_risks basis)).

(** ** [close_readiness_evidence.rs] *)

Record CloseEvidenceRunFacts := {
  crf_project_id : string;
  crf_task_id : string;
  crf_change_unit_id : option string;
  crf_scope_revision : N;
}.

Record CloseEvidenceSummaryFacts := {
  csf_task_project_id : string;
  csf_task_id : string;
  csf_task_change_unit_id : option string;
  csf_task_scope_revision : N;
  csf_summary_change_unit_id : option string;
  csf_updated_by_run_declared : bool;
  csf_updated_by_run : option CloseEvidenceRunFacts;
  csf_updated_by_run_ref : option StateRecordRef;
  csf_coverage_items : list EvidenceCoverageItem;
}.

Inductive CloseEvidenceIssueKind :=
| IssueMissing | IssueUnsupported | IssueStale | IssueAgentReportOnly | IssueInsufficientProvenance.
#[export] Instance CloseEvidenceIssueKind_eq_dec : EqDecision CloseEvidenceIssueKind.
Proof. solve_decision. Defined.

Inductive CloseEvidenceObservationDisposition :=
| StrongSupported | UnsupportedRelevance | DispCooperativeAgentReport | DispWeak | DispStale.
#[export] Instance CloseEvidenceObservationDisposition_eq_dec :
  EqDecision CloseEvidenceObservationDisposition.
Proof. solve_decision. Defined.

Definition evidence_target_required_by (target : EvidenceTarget) (required : list string) : bool :=
  match target with
  | AcceptanceCriterion acceptance_criterion_id => bts_mem acceptance_criterion_id required
  | SupplementalClaim _ _ => false
  end.

Definition interpret_close_evidence_item (item : EvidenceCoverageItem)
    (required_criterion_ids : list string) (has_current_close_basis : bool)
    (observation_dispositions : list CloseEvidenceObservationDisposition)
    : option CloseEvidenceIssueKind :=
  let has disposition := contains disposition observation_dispositions in
  if negb (evidence_target_required_by (ci_target item) required_criterion_ids) then None
  else if ci_coverage_state item <>? CovSupported then
    Some (if ci_coverage_state item =? CovStale then IssueStale
          else if evidence_item_has_no_support item then IssueMissing
          else IssueUnsupported)
  else if negb has_current_close_basis then Some IssueMissing
  else if list_is_empty observation_dispositions then Some IssueInsufficientProvenance
  else if has StrongSupported then None
  else if has UnsupportedRelevance then Some IssueUnsupported
  else
    let has_cooperative := has DispCooperativeAgentReport in
    let has_weak := has DispWeak in
    let has_stale := has DispStale in
    Some (if has_cooperative && negb has_weak then IssueAgentReportOnly
          else if has_stale && negb has_cooperative && negb has_weak then IssueStale
          else IssueInsufficientProvenance).

Definition criterion_ids_with (requirement : EvidenceRequirement)
    (acceptance_criteria : list AcceptanceCriterionView) : list string :=
  bts_of_list (av_acceptance_criterion_id <$>
    List.filter (λ criterion, av_evidence_requirement criterion =? requirement) acceptance_criteria).

Definition required_acceptance_criterion_ids (acceptance_criteria : list AcceptanceCriterionView)
    : list string := criterion_ids_with EvRequired acceptance_criteria.

Definition targets_criterion (acceptance_criterion_id : string) (item : EvidenceCoverageItem) : bool :=
  match ci_target item with
  | AcceptanceCriterion existing => existing =? acceptance_criterion_id
  | SupplementalClaim _ _ => false
  end.

Definition missing_criterion_item (acceptance_criterion_id : string) : EvidenceCoverageItem :=
  {| ci_target := AcceptanceCriterion acceptance_criterion_id; ci_coverage_state := CovUnsupported;
     ci_supporting_run_refs := []; ci_observation_refs := []; ci_supporting_artifact_refs := [];
     ci_gap_refs := [] |}.

(** The loop that appends an unsupported item for each uncovered criterion. *)
Definition with_required_items (required : list string) (items : list EvidenceCoverageItem)
    : list EvidenceCoverageItem :=
  fold_left (λ items id, if existsb (targets_criterion id) items then items
                         else items ++ [missing_criterion_item id]) required items.

Definition evidence_summary_with_required_ids (summary : option EvidenceSummary) (required : list string)
    : option EvidenceSummary :=
  if is_none summary && list_is_empty required then None
  else
    let summary := default
      {| es_evidence_state := None; es_status := EvUnknown; es_coverage_items := [];
         es_artifact_refs := []; es_observation_refs := []; es_updated_by_run_ref := None |} summary in
    let coverage_items := with_required_items required (es_coverage_items summary) in
    Some {| es_evidence_state := es_evidence_state summary;
            es_status := evidence_status_for_items coverage_items;
            es_coverage_items := coverage_items; es_artifact_refs := es_artifact_refs summary;
            es_observation_refs := es_observation_refs summary;
            es_updated_by_run_ref := es_updated_by_run_ref summary |}.

Definition evidence_summary_with_required_criteria (summary : option EvidenceSummary)
    (acceptance_criteria : list AcceptanceCriterionView) : option EvidenceSummary :=
  evidence_summary_with_required_ids summary (required_acceptance_criterion_ids acceptance_criteria).

Definition evidence_scope_is_stale (facts : CloseEvidenceSummaryFacts) : bool :=
  csf_updated_by_run_declared facts
  && is_none_or (csf_updated_by_run facts) (λ run,
       (crf_project_id run <>? csf_task_project_id facts) || (crf_task_id run <>? csf_task_id facts)
       || (crf_scope_revision run <>? csf_task_scope_revision facts)
       || (crf_change_unit_id run <>? csf_task_change_unit_id facts)
       || (csf_summary_change_unit_id facts <>? csf_task_change_unit_id facts)).

Definition artifact_not_current (artifact_ref : ArtifactRef) : bool :=
  (ar_availability artifact_ref <>? AAvailable) || (ar_integrity_status artifact_ref <>? AIVerified).

(** An item of the stored summary as close sees it. *)
Definition projected_coverage_item (scope_is_stale : bool) (item : EvidenceCoverageItem)
    : EvidenceCoverageItem :=
  if (ci_coverage_state item =? CovSupported)
     && (scope_is_stale || existsb artifact_not_current (ci_supporting_artifact_refs item))
  then {| ci_target := ci_target item; ci_coverage_state := CovStale;
          ci_supporting_run_refs := ci_supporting_run_refs item;
          ci_observation_refs := ci_observation_refs item;
          ci_supporting_artifact_refs := ci_supporting_artifact_refs item;
          ci_gap_refs := ci_gap_refs item |}
  else item.

Definition project_close_evidence_summary (facts : CloseEvidenceSummaryFacts)
    (required_criterion_ids : list string) : option EvidenceSummary :=
  let coverage_items :=
    projected_coverage_item (evidence_scope_is_stale facts) <$> csf_coverage_items facts in
  let summary :=
    if list_is_empty coverage_items then None
    else Some {| es_evidence_state := None; es_status := evidence_status_for_items coverage_items;
                 es_coverage_items := coverage_items;
                 es_artifact_refs :=
                   unique_artifact_refs (concat (ci_supporting_artifact_refs <$> coverage_items));
                 es_observation_refs :=
                   unique_state_record_refs (concat (ci_observation_refs <$> coverage_items));
                 es_updated_by_run_ref := csf_updated_by_run_ref facts |} in
  evidence_summary_with_required_ids summary required_criterion_ids.

(** A blocker that blocks the evidence gate. *)
Definition blocks_evidence_gate (required_artifact_ids : list string) (blocker : CloseReadinessBlocker)
    : bool :=
  (bl_category blocker =? BcEvidence)
  || ((bl_category blocker =? BcArtifactAvailability)
      && existsb (λ record_ref, (sr_record_kind record_ref =? KArtifact)
                                && bts_mem (sr_record_id record_ref) required_artifact_ids)
           (bl_related_refs blocker))
  || ((bl_category blocker =? BcEvidenceProvenance)
      && (bl_code blocker <>? "evidence_provenance_stale")).

Definition evaluate_evidence_gate (acceptance_criteria : list AcceptanceCriterionView)
    (evidence_summary : option EvidenceSummary) (close_blockers : list CloseReadinessBlocker)
    : EvidenceGateState :=
  let required_ids := criterion_ids_with EvRequired acceptance_criteria in
  let optional_ids := criterion_ids_with EvOptional acceptance_criteria in
  let coverage_items := from_option es_coverage_items [] evidence_summary in
  let criterion_item id := List.find (targets_criterion id) coverage_items in
  let required_items :=
    List.filter (λ item, evidence_target_required_by (ci_target item) required_ids) coverage_items in
  let required_artifact_ids :=
    bts_of_list (ar_artifact_id <$> concat (ci_supporting_artifact_refs <$> required_items)) in
  let any_required state := existsb (λ item, ci_coverage_state item =? state) required_items in
  let item_is_sufficient item := ci_coverage_state item =? CovSupported in
  let item_has_recorded_evidence item := negb (evidence_item_has_no_support item) in
  if list_is_empty required_ids && list_is_empty optional_ids then GateNotRequired
  else if existsb (blocks_evidence_gate required_artifact_ids) close_blockers
          || any_required CovContradicted then GateBlocked
  else if existsb (λ blocker, (bl_category blocker =? BcEvidenceProvenance)
                              && (bl_code blocker =? "evidence_provenance_stale")) close_blockers
          || any_required CovStale then GateStale
  else if negb (list_is_empty required_ids) then
    if negb (existsb (λ blocker, bl_category blocker =? BcEvidenceClaim) close_blockers)
       && forallb (λ id, is_some_and (criterion_item id) item_is_sufficient) required_ids
    then GateSufficient
    else if existsb (λ id, is_some_and (criterion_item id) item_has_recorded_evidence) required_ids
    then GatePartial else GateRequiredMissing
  else
    let optional_items := List.filter item_has_recorded_evidence (omap criterion_item optional_ids) in
    if list_is_empty optional_items then GateOptionalNone
    else if forallb item_is_sufficient optional_items then GateSufficient else GatePartial.

(** ** [evidence_projection.rs] *)

Definition evidence_summary_has_attached_evidence (summary : EvidenceSummary) : bool :=
  is_some (es_updated_by_run_ref summary) || negb (list_is_empty (es_artifact_refs summary))
  || negb (list_is_empty (es_observation_refs summary))
  || existsb (λ item, negb (list_is_empty (ci_supporting_run_refs item))
                      || negb (list_is_empty (ci_observation_refs item))
                      || negb (list_is_empty (ci_supporting_artifact_refs item)))
       (es_coverage_items summary).

Definition evidence_summary_for_display (summary : EvidenceSummary)
    (close_basis : option CurrentCloseBasis) : EvidenceSummary :=
  {| es_evidence_state :=
       if is_some (close_basis ≫= cb_evidence_summary_ref) then Some DisplayAcceptedForClose
       else if evidence_summary_has_attached_evidence summary then Some DisplayAttached
       else None;
     es_status := es_status summary; es_coverage_items := es_coverage_items summary;
     es_artifact_refs := es_artifact_refs summary; es_observation_refs := es_observation_refs summary;
     es_updated_by_run_ref := es_updated_by_run_ref summary |}.
