(* ===== verification/Capture.v ===== *)
(** * Capture: evidence-capture intents, receipts and source claims

    Models the capture records of [crates/volicord-types/src/schema.rs] with their
    validators, [crates/volicord-store/src/evidence_capture.rs] (source fulfillment,
    the reads of intents, receipts, claims and producers, the validation of the
    source-claim set), [insert_evidence_capture_intent] of
    [core_pipeline/evidence.rs] and the staging of a receipt body in
    [artifacts.rs].  Rows are kept in decoded form and validated on every read as
    the decoders do; the staged files are a map from file name to text.  The JSON
    printer and SHA-256 are library code: they are the class [CaptureDigest]. *)

From Stdlib Require Import Ascii.
From stdpp Require Import gmap strings.
From S2P Require Import Prelude Text Values Canonical Schema Clock TicketStore Evidence.

(** ** JSON values *)

#[export] Instance Value_eq_dec : EqDecision Value.
Proof.
  refine (fix go (x y : Value) {struct x} : Decision (x = y) :=
    match x, y with
    | Null, Null => left eq_refl
    | Bool a, Bool b => cast_if (decide (a = b))
    | Number a, Number b => cast_if (decide (a = b))
    | Str a, Str b => cast_if (decide (a = b))
    | Array a, Array b => cast_if (@list_eq_dec _ go a b)
    | Object a, Object b =>
        cast_if (@list_eq_dec _ (λ p q : string * Value,
          match p, q with
          | (k, v), (l, w) =>
              match decide (k = l), go v w with
              | left e, left f => left _
              | right n, _ => right _
              | _, right n => right _
              end
          end) a b)
    | _, _ => right _
    end); congruence.
Defined.

(** Equality of JSON objects ignores member order. *)
Definition obj_norm (o : JsonObject) : Value := sort_json_value (Object o).

(** [Map::get]. *)
Definition json_get (key : string) (o : JsonObject) : option Value :=
  snd <$> List.find (λ kv, kv.1 =? key) o.

Fixpoint digits_value (acc : Z) (s : string) : option Z :=
  match s with
  | EmptyString => Some acc
  | String c s => if is_ascii_digit c then digits_value (acc * 10 + (Z.of_N (byte c) - 48)) s
                  else None
  end.

(** The digits of a positive token: no leading zero. *)
Definition positive_token (s : string) : option Z :=
  match s with
  | EmptyString => None
  | String c _ => if (byte c =? 48)%N then None else digits_value 0 s
  end.

(** The integer an integer token denotes; [-0] is a float to [serde_json]. *)
Definition int_of_token (t : string) : option Z :=
  match t with
  | String c s =>
      if (byte c =? 45)%N then Z.opp <$> positive_token s
      else if t =? String (ascii_of_nat 48) EmptyString then Some 0%Z
      else positive_token t
  | EmptyString => None
  end.

Fixpoint print_digits (fuel : nat) (n : Z) (acc : string) : string :=
  match fuel with
  | O => acc
  | S fuel =>
      let acc := String (ascii_of_N (Z.to_N (48 + n mod 10))) acc in
      if (n <? 10)%Z then acc else print_digits fuel (n / 10) acc
  end.

(** The token of an [i32]: at most ten digits. *)
Definition token_of_int (z : Z) : string :=
  if (z <? 0)%Z then String (ascii_of_nat 45) (print_digits 10 (- z) EmptyString)
  else print_digits 10 z EmptyString.

Definition in_range (lo hi : Z) (z : Z) : bool := (lo <=? z)%Z && (z <=? hi)%Z.
Definition is_i32 : Z → bool := in_range (-2147483648) 2147483647.
Definition is_i64 : Z → bool := in_range (-9223372036854775808) 9223372036854775807.
Definition is_u64 : Z → bool := in_range 0 18446744073709551615.

(** [Value::as_i64] and [Value::as_bool]. *)
Definition as_i64 (v : Value) : option Z :=
  match v with Number t => option_filter is_i64 (int_of_token t) | _ => None end.
Definition as_bool (v : Value) : option bool := match v with Bool b => Some b | _ => None end.

(** Strict decoding of a number field of an integer type. *)
Definition decodes_int (range : Z → bool) (v : Value) : bool :=
  match v with Number t => is_some_and (int_of_token t) range | _ => false end.
Definition decodes_string (v : Value) : bool := match v with Str _ => true | _ => false end.
Definition decodes_nullable (p : Value → bool) (v : Value) : bool :=
  match v with Null => true | _ => p v end.
Definition string_field (key : string) (o : JsonObject) : string :=
  match json_get key o with Some (Str s) => s | _ => EmptyString end.

(** [deny_unknown_fields] with every field required. *)
Definition decodes_as (fields : list (string * (Value → bool))) (o : JsonObject) : bool :=
  forallb (λ kv, contains kv.1 fields.*1) o
  && forallb (λ field, is_some_and (json_get field.1 o) field.2) fields.

(** ** Capture specifications *)

Inductive EvidenceCaptureSpec :=
| VerifiedCommandExecutionSpec (command_sha256 command_label : string) (expected_exit_code : option Z)
| VerifiedToolInvocationSpec (tool_name tool_input_sha256 : string) (expected_success : option bool).
#[export] Instance EvidenceCaptureSpec_eq_dec : EqDecision EvidenceCaptureSpec.
Proof. solve_decision. Defined.

Definition EVIDENCE_CAPTURE_INTENT_TTL_MINUTES : Z := 15.
Definition EVIDENCE_CAPTURE_COMMAND_LIMITATION : string := "environment_not_bound".
Definition EVIDENCE_CAPTURE_RECEIPT_CONTRACT_ID : string := "volicord.evidence_capture_receipt".
Definition EVIDENCE_CAPTURE_COMMAND_VERIFICATION_BASIS : string := "volicord_owned_command_execution".
Definition EVIDENCE_CAPTURE_TOOL_VERIFICATION_BASIS : string := "verified_tool_invocation".

Definition evidence_capture_input_sha256 (capture : EvidenceCaptureSpec) : string :=
  match capture with
  | VerifiedCommandExecutionSpec command_sha256 _ _ => command_sha256
  | VerifiedToolInvocationSpec _ tool_input_sha256 _ => tool_input_sha256
  end.

Definition evidence_capture_expected_outcome (capture : EvidenceCaptureSpec) : JsonObject :=
  match capture with
  | VerifiedCommandExecutionSpec _ _ expected_exit_code =>
      [("expected_exit_code", Number (token_of_int (default 0%Z expected_exit_code)))]
  | VerifiedToolInvocationSpec _ _ expected_success =>
      [("expected_success", Bool (default true expected_success))]
  end.

Definition validate_evidence_capture_expected_outcome (capture : EvidenceCaptureSpec)
    (outcome : JsonObject) : result unit string :=
  if obj_norm outcome =? obj_norm (evidence_capture_expected_outcome capture) then Ok tt
  else Err "expected outcome does not match the canonical capture expectation".

Definition validate_capture_sha256 (field value : string) : result unit string :=
  if is_canonical_sha256_hex value then Ok tt
  else Err (field +:+ " must be lowercase 64-character SHA-256 hex").

Definition command_outcome_fields : list (string * (Value → bool)) :=
  [("exit_code", decodes_int is_i32); ("stdout_sha256", decodes_string);
   ("stdout_size_bytes", decodes_int is_u64); ("stderr_sha256", decodes_string);
   ("stderr_size_bytes", decodes_int is_u64)].

Definition tool_outcome_fields : list (string * (Value → bool)) :=
  [("success", λ v, is_some (as_bool v)); ("exit_code", decodes_nullable (decodes_int is_i32));
   ("tool_result_sha256", decodes_string); ("tool_result_size_bytes", decodes_int is_u64)].

Definition decode_capture_outcome (fields : list (string * (Value → bool))) (outcome : JsonObject)
    : result unit string :=
  if decodes_as fields outcome then Ok tt else Err "invalid evidence-capture outcome".

Definition validate_evidence_capture_observed_outcome (capture : EvidenceCaptureSpec)
    (outcome : JsonObject) : result unit string :=
  match capture with
  | VerifiedCommandExecutionSpec _ _ _ =>
      let? _ := decode_capture_outcome command_outcome_fields outcome in
      let? _ := validate_capture_sha256 "stdout_sha256" (string_field "stdout_sha256" outcome) in
      validate_capture_sha256 "stderr_sha256" (string_field "stderr_sha256" outcome)
  | VerifiedToolInvocationSpec _ _ _ =>
      let? _ := decode_capture_outcome tool_outcome_fields outcome in
      validate_capture_sha256 "tool_result_sha256" (string_field "tool_result_sha256" outcome)
  end.

Definition evidence_capture_observed_outcome_matches_expected (capture : EvidenceCaptureSpec)
    (expected observed : JsonObject) : result bool string :=
  let? _ := validate_evidence_capture_expected_outcome capture expected in
  let? _ := validate_evidence_capture_observed_outcome capture observed in
  Ok (match capture with
      | VerifiedCommandExecutionSpec _ _ _ =>
          (json_get "exit_code" observed ≫= as_i64)
          =? (json_get "expected_exit_code" expected ≫= as_i64)
      | VerifiedToolInvocationSpec _ _ _ =>
          (json_get "success" observed ≫= as_bool)
          =? (json_get "expected_success" expected ≫= as_bool)
      end).

Definition validate_evidence_capture_limitations (capture : EvidenceCaptureSpec)
    (limitations : list string) : result unit string :=
  if limitations =? [EVIDENCE_CAPTURE_COMMAND_LIMITATION] then Ok tt
  else Err ("capture-class limitations must contain exactly " +:+ EVIDENCE_CAPTURE_COMMAND_LIMITATION).

(** [capture_spec_producer_kind] of Core, [producer_kind_for_capture] of the store. *)
Definition capture_spec_producer_kind (capture : EvidenceCaptureSpec) : EvidenceProducerKind :=
  match capture with
  | VerifiedCommandExecutionSpec _ _ _ => VerifiedCommandExecution
  | VerifiedToolInvocationSpec _ _ _ => VerifiedToolInvocation
  end.

(** [evidence_producer_kind_storage_value]. *)
Definition EvidenceProducerKind_str (value : EvidenceProducerKind) : string :=
  match value with
  | UnverifiedCaller => "unverified_caller"
  | UserChannelObservation => "user_channel_observation"
  | VerifiedToolInvocation => "verified_tool_invocation"
  | VerifiedCommandExecution => "verified_command_execution"
  | ReusedEvidenceProducer => "reused_evidence"
  end.

(** ** Records *)

Record PersistedEvidenceCaptureReceiptSource := {
  src_connection_id : AgentConnectionId;
  src_host_invocation_id : option string;
}.
#[export] Instance PersistedEvidenceCaptureReceiptSource_eq_dec :
  EqDecision PersistedEvidenceCaptureReceiptSource.
Proof. solve_decision. Defined.

Record PersistedEvidenceCaptureReceiptBody := {
  rb_contract_id : string;
  rb_capture_kind : EvidenceProducerKind;
  rb_capture_intent_id : string;
  rb_input_sha256 : string;
  rb_result_sha256 : string;
  rb_expected_outcome : JsonObject;
  rb_observed_outcome : JsonObject;
  rb_source : PersistedEvidenceCaptureReceiptSource;
  rb_complete : bool;
  rb_limitations : list string;
  rb_redaction_state : RedactionState;
  rb_observed_by_actor_source : ActorSource;
  rb_observed_at : UtcTimestamp;
}.

(** An intent row; [ci_] fields of the session and metadata columns are not read
    by the modelled operations and are left out. *)
Record EvidenceCaptureIntentRecord := {
  ir_project_id : string;
  ir_evidence_capture_intent_id : string;
  ir_task_id : string;
  ir_change_unit_id : string;
  ir_scope_revision : N;
  ir_baseline_ref : BaselineRef;
  ir_target : EvidenceTarget;
  ir_capture_kind : EvidenceProducerKind;
  ir_capture : EvidenceCaptureSpec;
  ir_input_sha256 : string;
  ir_expected_outcome : JsonObject;
  ir_requested_by_actor_source : ActorSource;
  ir_requesting_connection_internal_id : AgentConnectionId;
  ir_workspace_context : JsonObject;
  ir_created_at : UtcTimestamp;
  ir_expires_at : UtcTimestamp;
}.

Record EvidenceCaptureIntentInsert := {
  ii_evidence_capture_intent_id : string;
  ii_task_id : string;
  ii_change_unit_id : string;
  ii_scope_revision : N;
  ii_baseline_ref : BaselineRef;
  ii_target : EvidenceTarget;
  ii_capture : EvidenceCaptureSpec;
  ii_input_sha256 : string;
  ii_expected_outcome : JsonObject;
  ii_requested_by_actor_source : ActorSource;
  ii_requesting_connection_internal_id : AgentConnectionId;
  ii_workspace_context : JsonObject;
  ii_created_at : UtcTimestamp;
  ii_expires_at : UtcTimestamp;
}.

Record EvidenceCaptureReceiptInsert := {
  ri_evidence_capture_receipt_id : string;
  ri_evidence_capture_intent_id : string;
  ri_staging_handle_id : string;
  ri_task_id : string;
  ri_input_sha256 : string;
  ri_result_sha256 : string;
  ri_expected_outcome : JsonObject;
  ri_observed_outcome : JsonObject;
  ri_source_refs : list StateRecordRef;
  ri_observed_by_actor_source : ActorSource;
  ri_observed_at : UtcTimestamp;
  ri_limitations : list string;
  ri_safe_receipt : PersistedEvidenceCaptureReceiptBody;
  ri_created_at : UtcTimestamp;
  ri_staging_expires_at : UtcTimestamp;
  ri_metadata_source : PersistedEvidenceCaptureReceiptSource;
}.

Inductive EvidenceCaptureCompleteness := CaptureComplete.

Record EvidenceCaptureReceiptRecord := {
  rr_project_id : string;
  rr_evidence_capture_receipt_id : string;
  rr_evidence_capture_intent_id : string;
  rr_staging_handle_id : string;
  rr_capture_kind : EvidenceProducerKind;
  rr_input_sha256 : string;
  rr_result_sha256 : string;
  rr_expected_outcome : JsonObject;
  rr_observed_outcome : JsonObject;
  rr_source_refs : list StateRecordRef;
  rr_observed_by_actor_source : ActorSource;
  rr_observed_at : UtcTimestamp;
  rr_completeness : EvidenceCaptureCompleteness;
  rr_limitations : list string;
  rr_safe_receipt : PersistedEvidenceCaptureReceiptBody;
  rr_safe_receipt_sha256 : string;
  rr_safe_receipt_size_bytes : N;
  rr_created_at : UtcTimestamp;
  rr_metadata_source : PersistedEvidenceCaptureReceiptSource;
}.

Inductive EvidenceCaptureSourceClaimKind := HostInvocation.
#[export] Instance EvidenceCaptureSourceClaimKind_eq_dec :
  EqDecision EvidenceCaptureSourceClaimKind.
Proof. solve_decision. Defined.

Definition source_claim_kind_str (kind : EvidenceCaptureSourceClaimKind) : string :=
  match kind with HostInvocation => "host_invocation" end.

Record EvidenceCaptureSourceClaimRecord := {
  sc_project_id : string;
  sc_source_claim_kind : EvidenceCaptureSourceClaimKind;
  sc_source_claim_id : string;
  sc_evidence_capture_intent_id : string;
  sc_evidence_capture_receipt_id : string;
  sc_capture_kind : EvidenceProducerKind;
  sc_claimed_at : UtcTimestamp;
}.

Record EvidenceCaptureSourceClaimIdentity := {
  sid_source_claim_kind : EvidenceCaptureSourceClaimKind;
  sid_source_claim_id : string;
}.

(** The column facts of a staging row, with the bytes staged. *)
Record ArtifactStagingInsert := {
  sg_handle_id : string;
  sg_task_id : string;
  sg_created_by_actor_source : ActorSource;
  sg_display_name : string;
  sg_content_type : string;
  sg_sha256 : string;
  sg_size_bytes : N;
  sg_redaction_state : RedactionState;
  sg_safe_bytes : string;
  sg_created_at : UtcTimestamp;
  sg_expires_at : UtcTimestamp;
}.

(** [EvidenceProducer], the canonical producer of a Run observation. *)
Record EvidenceProducer := {
  ep_evidence_producer_id : string;
  ep_capture_receipt_id : string;
  ep_capture_intent_id : string;
  ep_capture_intent_ref : StateRecordRef;
  ep_producer_kind : EvidenceProducerKind;
  ep_project_id : ProjectId;
  ep_task_id : TaskId;
  ep_change_unit_id : ChangeUnitId;
  ep_scope_revision : N;
  ep_baseline_ref : BaselineRef;
  ep_target : EvidenceTarget;
  ep_input_sha256 : string;
  ep_result_sha256 : string;
  ep_expected_outcome : JsonObject;
  ep_observed_outcome : JsonObject;
  ep_source_refs : list StateRecordRef;
  ep_connection_id : AgentConnectionId;
  ep_host_invocation_id : option string;
  ep_receipt_artifact_refs : list ArtifactRef;
  ep_complete : bool;
  ep_limitations : list string;
  ep_redaction_state : RedactionState;
  ep_observed_by_actor_source : ActorSource;
  ep_observed_at : UtcTimestamp;
  ep_finalized_at : UtcTimestamp;
  ep_run_ref : StateRecordRef;
  ep_observation_ref : StateRecordRef;
}.

Record EvidenceProducerRecord := {
  er_project_id : string;
  er_evidence_producer_id : string;
  er_evidence_capture_intent_id : string;
  er_evidence_capture_receipt_id : string;
  er_evidence_observation_id : string;
  er_artifact_id : string;
  er_run_id : string;
  er_task_id : string;
  er_change_unit_id : string;
  er_scope_revision : N;
  er_baseline_ref : BaselineRef;
  er_producer_kind : EvidenceProducerKind;
  er_canonical_producer : EvidenceProducer;
  er_created_at : UtcTimestamp;
  er_metadata_verification_basis : string;
}.

(** The single receipt artifact of a producer. *)
Definition sole_artifact_is (artifact_id : string) (refs : list ArtifactRef) : bool :=
  match refs with [artifact_ref] => ar_artifact_id artifact_ref =? artifact_id | _ => false end.

Definition validate_decoded_producer_owner_fields (record : EvidenceProducerRecord)
    : result unit StoreError :=
  let producer := er_canonical_producer record in
  let mismatch column := CorruptOwnerStateValue "evidence_producers" (er_evidence_producer_id record)
                           ("canonical_producer_json." +:+ column) in
  let? _ := ensure (ep_evidence_producer_id producer <>? er_evidence_producer_id record)
              (mismatch "evidence_producer_id") in
  let? _ := ensure (ep_capture_intent_id producer <>? er_evidence_capture_intent_id record)
              (mismatch "capture_intent_id") in
  let? _ := ensure (ep_capture_receipt_id producer <>? er_evidence_capture_receipt_id record)
              (mismatch "capture_receipt_id") in
  let? _ := ensure (sr_record_id (ep_observation_ref producer) <>? er_evidence_observation_id record)
              (mismatch "observation_ref") in
  let? _ := ensure (negb (sole_artifact_is (er_artifact_id record) (ep_receipt_artifact_refs producer)))
              (mismatch "receipt_artifact_refs") in
  let? _ := ensure (sr_record_id (ep_run_ref producer) <>? er_run_id record) (mismatch "run_ref") in
  let? _ := ensure (ep_project_id producer <>? er_project_id record) (mismatch "project_id") in
  let? _ := ensure (ep_task_id producer <>? er_task_id record) (mismatch "task_id") in
  let? _ := ensure (ep_change_unit_id producer <>? er_change_unit_id record)
              (mismatch "change_unit_id") in
  let? _ := ensure (ep_scope_revision producer <>? er_scope_revision record)
              (mismatch "scope_revision") in
  let? _ := ensure (ep_baseline_ref producer <>? er_baseline_ref record) (mismatch "baseline_ref") in
  let? _ := ensure (ep_producer_kind producer <>? er_producer_kind record)
              (mismatch "producer_kind") in
  ensure (ep_finalized_at producer <>? er_created_at record) (mismatch "finalized_at").

(** ** The tables *)

(** The capture rows of one project, the Task and Change Unit keys their foreign
    keys name, the staged rows and the staged files by name. *)
Record CaptureTable := {
  ct_project_id : string;
  ct_clock : ClockState;
  ct_tasks : gset string;
  ct_change_units : gset (string * string);
  ct_intents : gmap string EvidenceCaptureIntentRecord;
  ct_receipts : gmap string EvidenceCaptureReceiptRecord;
  ct_claims : gmap (string * string) EvidenceCaptureSourceClaimRecord;
  ct_staging : gmap string ArtifactStagingInsert;
  ct_files : gmap string string;
}.

Class CaptureDigest := {
  json_text : Value → string;
  sha256_hex : string → string;
  sha256_hex_canonical : ∀ s, is_canonical_sha256_hex (sha256_hex s) = true;
}.

Definition MAX_EVIDENCE_CAPTURE_RECEIPT_BYTES : N := 24 * 1024.

Inductive EvidenceCaptureIntentWindowError := WindowCreatedAt | WindowExpiresAt.

(** [char::is_control]: the C0 controls, DEL and, as UTF-8, the C1 controls. *)
Fixpoint has_control (s : string) : bool :=
  match s with
  | EmptyString => false
  | String c s =>
      (byte c <? 32)%N || (byte c =? 127)%N
      || match s with
         | String d _ => (byte c =? 194)%N && byte_between 128 159 d
         | EmptyString => false
         end
      || has_control s
  end.

Definition validate_nonempty_text (field value : string) : result unit StoreError :=
  if str_is_empty (trim value) then Err (InvalidInput (field +:+ " must not be empty"))
  else if has_control value
  then Err (InvalidInput (field +:+ " must not contain control characters"))
  else Ok tt.

Definition validate_artifact_sha256 (field value : string) : result unit StoreError :=
  if is_canonical_sha256_hex value then Ok tt
  else Err (InvalidInput (field +:+ " must be a lowercase 64-character SHA-256 hex string")).

(** ** File names of staged bodies *)

Definition is_component_char (c : ascii) : bool :=
  is_ascii_alphabetic c || is_ascii_digit c || (byte c =? 95)%N || (byte c =? 45)%N
  || (byte c =? 46)%N.

Definition is_trimmed_char (c : ascii) : bool :=
  (byte c =? 95)%N || (byte c =? 46)%N || (byte c =? 45)%N.

(** One output character for each character: UTF-8 continuation bytes vanish. *)
Fixpoint component_chars (s : string) : string :=
  match s with
  | EmptyString => EmptyString
  | String c s =>
      if byte_between 128 191 c then component_chars s
      else String (if is_component_char c then c else ascii_of_nat 95) (component_chars s)
  end.

Fixpoint trim_component_start (s : string) : string :=
  match s with
  | String c rest => if is_trimmed_char c then trim_component_start rest else s
  | EmptyString => EmptyString
  end.

Definition path_component (value : string) : string :=
  let trimmed :=
    str_rev (trim_component_start (str_rev (trim_component_start (component_chars value)))) in
  if str_is_empty trimmed then "staged_artifact" else String.substring 0 120 trimmed.

Definition staged_file_name (handle_id : string) : string := path_component handle_id +:+ ".txt".

Section capture.
Context `{HC : Chrono} `{HD : CaptureDigest}.

(** [canonical_json_string] and [canonical_json_bare_sha256]. *)
Definition canonical_json_string (v : Value) : string := json_text (sort_json_value v).
Definition canonical_json_bare_sha256 (v : Value) : string := sha256_hex (canonical_json_string v).

(** ** Serialized forms *)

Definition nullable_value (o : option string) : Value :=
  match o with Some s => Str s | None => Null end.

Definition source_value (source : PersistedEvidenceCaptureReceiptSource) : Value :=
  Object [("connection_id", Str (src_connection_id source));
          ("host_invocation_id", nullable_value (src_host_invocation_id source))].

Definition redaction_state_str (r : RedactionState) : string :=
  match r with
  | RedNone => "none" | Redacted => "redacted" | SecretOmitted => "secret_omitted"
  | RedBlocked => "blocked"
  end.

Definition receipt_body_value (body : PersistedEvidenceCaptureReceiptBody) : Value :=
  Object [("contract_id", Str (rb_contract_id body));
          ("capture_kind", Str (EvidenceProducerKind_str (rb_capture_kind body)));
          ("capture_intent_id", Str (rb_capture_intent_id body));
          ("input_sha256", Str (rb_input_sha256 body));
          ("result_sha256", Str (rb_result_sha256 body));
          ("expected_outcome", Object (rb_expected_outcome body));
          ("observed_outcome", Object (rb_observed_outcome body));
          ("source", source_value (rb_source body));
          ("complete", Bool (rb_complete body));
          ("limitations", Array (Str <$> rb_limitations body));
          ("redaction_state", Str (redaction_state_str (rb_redaction_state body)));
          ("observed_by_actor_source", Str (actor_to_canonical_string (rb_observed_by_actor_source body)));
          ("observed_at", Str (to_rfc3339 (rb_observed_at body)))].

Definition safe_receipt_json (body : PersistedEvidenceCaptureReceiptBody) : string :=
  canonical_json_string (receipt_body_value body).

Definition receipt_metadata_json (source : PersistedEvidenceCaptureReceiptSource) : string :=
  canonical_json_string (Object [("source", source_value source)]).

Definition str_len (s : string) : N := N.of_nat (String.length s).

(** ** Intents *)

Definition validate_evidence_capture_intent_window (created_at expires_at : string)
    : result (UtcTimestamp * UtcTimestamp) EvidenceCaptureIntentWindowError :=
  let? created_at := ok_or (parse_from_rfc3339 created_at) WindowCreatedAt in
  let? _ := ensure (negb (representable created_at)) WindowCreatedAt in
  let? expires_at := ok_or (parse_from_rfc3339 expires_at) WindowExpiresAt in
  let? _ := ensure (negb (representable expires_at)) WindowExpiresAt in
  let? expected := ok_or (checked_add created_at (minutes EVIDENCE_CAPTURE_INTENT_TTL_MINUTES))
                     WindowExpiresAt in
  let? _ := ensure (expires_at <>? expected) WindowExpiresAt in
  Ok (created_at, expires_at).

Definition intent_row (project_id : string) (input : EvidenceCaptureIntentInsert)
    : EvidenceCaptureIntentRecord :=
  {| ir_project_id := project_id;
     ir_evidence_capture_intent_id := ii_evidence_capture_intent_id input;
     ir_task_id := ii_task_id input; ir_change_unit_id := ii_change_unit_id input;
     ir_scope_revision := ii_scope_revision input; ir_baseline_ref := ii_baseline_ref input;
     ir_target := ii_target input; ir_capture_kind := capture_spec_producer_kind (ii_capture input);
     ir_capture := ii_capture input; ir_input_sha256 := ii_input_sha256 input;
     ir_expected_outcome := ii_expected_outcome input;
     ir_requested_by_actor_source := ii_requested_by_actor_source input;
     ir_requesting_connection_internal_id := ii_requesting_connection_internal_id input;
     ir_workspace_context := ii_workspace_context input; ir_created_at := ii_created_at input;
     ir_expires_at := ii_expires_at input |}.

Definition set_intents (s : CaptureTable) (intents : gmap string EvidenceCaptureIntentRecord)
    : CaptureTable :=
  {| ct_project_id := ct_project_id s; ct_clock := ct_clock s; ct_tasks := ct_tasks s;
     ct_change_units := ct_change_units s; ct_intents := intents; ct_receipts := ct_receipts s;
     ct_claims := ct_claims s; ct_staging := ct_staging s; ct_files := ct_files s |}.

Definition insert_evidence_capture_intent (s : CaptureTable) (input : EvidenceCaptureIntentInsert)
    : result CaptureTable StoreError :=
  let? _ := validate_identifier "evidence_capture_intent_id" (ii_evidence_capture_intent_id input) in
  let? _ := validate_identifier "task_id" (ii_task_id input) in
  let? _ := validate_identifier "change_unit_id" (ii_change_unit_id input) in
  let? _ := validate_identifier "baseline_ref" (ii_baseline_ref input) in
  let? _ := validate_artifact_sha256 "input_sha256" (ii_input_sha256 input) in
  let? _ := validate_identifier "requesting_connection_internal_id"
              (ii_requesting_connection_internal_id input) in
  let? _ := ensure (evidence_capture_input_sha256 (ii_capture input) <>? ii_input_sha256 input)
              (InvalidInput "input_sha256 does not match the evidence capture") in
  let? _ := map_err (λ detail, InvalidInput
                ("expected_outcome does not match the evidence capture: " +:+ detail))
              (validate_evidence_capture_expected_outcome (ii_capture input)
                 (ii_expected_outcome input)) in
  let? _ := map_err (λ field, SchemaInvariant
                match field with
                | WindowCreatedAt => "invalid capture-intent created_at"
                | WindowExpiresAt =>
                    "capture-intent expires_at must be exactly 15 minutes after created_at"
                end)
              (validate_evidence_capture_intent_window (to_rfc3339 (ii_created_at input))
                 (to_rfc3339 (ii_expires_at input))) in
  let? _ := ensure (negb (fits_i64 (ii_scope_revision input)))
              (InvalidInput "evidence_capture_intents.scope_revision") in
  let? _ := ensure (is_some (ct_intents s !! ii_evidence_capture_intent_id input))
              (ConstraintViolation "evidence_capture_intents.evidence_capture_intent_id") in
  let? _ := ensure (negb (bool_decide (ii_task_id input ∈ ct_tasks s)))
              (ConstraintViolation "evidence_capture_intents.task_id") in
  let? _ := ensure (negb (bool_decide ((ii_task_id input, ii_change_unit_id input)
                                         ∈ ct_change_units s)))
              (ConstraintViolation "evidence_capture_intents.change_unit_id") in
  Ok (set_intents s (<[ii_evidence_capture_intent_id input := intent_row (ct_project_id s) input]>
                       (ct_intents s))).

(** [decode_owner_timestamp] of the text of an instant. *)
Definition decode_owner_timestamp (table record_id column : string) (t : UtcTimestamp)
    : result UtcTimestamp StoreError :=
  let corrupt := CorruptOwnerStateValue table record_id column in
  let? timestamp := ok_or (parse_from_rfc3339 (to_rfc3339 t)) corrupt in
  let? _ := ensure (negb (representable timestamp)) corrupt in
  if to_rfc3339 timestamp =? to_rfc3339 t then Ok timestamp else Err corrupt.

(** [decode_owner_actor_source] of the text of an actor. *)
Definition decode_owner_actor_source (table record_id column : string) (actor : ActorSource)
    : result ActorSource StoreError :=
  let corrupt := CorruptOwnerStateValue table record_id column in
  let? parsed := ok_or (actor_from_str (actor_to_canonical_string actor)) corrupt in
  if actor_to_canonical_string parsed =? actor_to_canonical_string actor then Ok parsed
  else Err corrupt.

Definition decode_intent_record (raw : EvidenceCaptureIntentRecord)
    : result EvidenceCaptureIntentRecord StoreError :=
  let record_id := ir_evidence_capture_intent_id raw in
  let corrupt column := CorruptOwnerStateValue "evidence_capture_intents" record_id column in
  let? created_at := decode_owner_timestamp "evidence_capture_intents" record_id "created_at"
                       (ir_created_at raw) in
  let? expires_at := decode_owner_timestamp "evidence_capture_intents" record_id "expires_at"
                       (ir_expires_at raw) in
  let? _ := map_err (λ field, corrupt match field with
                                      | WindowCreatedAt => "created_at"
                                      | WindowExpiresAt => "expires_at"
                                      end)
              (validate_evidence_capture_intent_window (to_rfc3339 (ir_created_at raw))
                 (to_rfc3339 (ir_expires_at raw))) in
  let? _ := ensure (ir_capture_kind raw <>? capture_spec_producer_kind (ir_capture raw))
              (corrupt "capture_kind") in
  let? _ := ensure (evidence_capture_input_sha256 (ir_capture raw) <>? ir_input_sha256 raw)
              (corrupt "input_sha256") in
  let? _ := map_err (λ _, corrupt "expected_outcome_json")
              (validate_evidence_capture_expected_outcome (ir_capture raw) (ir_expected_outcome raw)) in
  let? actor := decode_owner_actor_source "evidence_capture_intents" record_id
                  "requested_by_actor_source" (ir_requested_by_actor_source raw) in
  Ok {| ir_project_id := ir_project_id raw; ir_evidence_capture_intent_id := record_id;
        ir_task_id := ir_task_id raw; ir_change_unit_id := ir_change_unit_id raw;
        ir_scope_revision := ir_scope_revision raw; ir_baseline_ref := ir_baseline_ref raw;
        ir_target := ir_target raw; ir_capture_kind := ir_capture_kind raw;
        ir_capture := ir_capture raw; ir_input_sha256 := ir_input_sha256 raw;
        ir_expected_outcome := ir_expected_outcome raw; ir_requested_by_actor_source := actor;
        ir_requesting_connection_internal_id := ir_requesting_connection_internal_id raw;
        ir_workspace_context := ir_workspace_context raw; ir_created_at := created_at;
        ir_expires_at := expires_at |}.

Definition evidence_capture_intent_record (s : CaptureTable) (intent_id : string)
    : result (option EvidenceCaptureIntentRecord) StoreError :=
  try_option decode_intent_record (ct_intents s !! intent_id).

(** ** Receipts *)

Definition validate_decoded_receipt_owner_fields (record : EvidenceCaptureReceiptRecord)
    : result unit StoreError :=
  let body := rr_safe_receipt record in
  let result_sha256 := canonical_json_bare_sha256 (Object (rb_observed_outcome body)) in
  ensure ((rb_contract_id body <>? EVIDENCE_CAPTURE_RECEIPT_CONTRACT_ID)
          || negb (rb_complete body)
          || (rb_redaction_state body <>? Redacted)
          || (rb_capture_kind body <>? rr_capture_kind record)
          || (rb_capture_intent_id body <>? rr_evidence_capture_intent_id record)
          || (rb_input_sha256 body <>? rr_input_sha256 record)
          || (rb_result_sha256 body <>? rr_result_sha256 record)
          || (rb_result_sha256 body <>? result_sha256)
          || (obj_norm (rb_expected_outcome body) <>? obj_norm (rr_expected_outcome record))
          || (obj_norm (rb_observed_outcome body) <>? obj_norm (rr_observed_outcome record))
          || negb (list_is_empty (rr_source_refs record))
          || (rb_limitations body <>? rr_limitations record)
          || (rb_observed_by_actor_source body <>? rr_observed_by_actor_source record)
          || (rb_observed_at body <>? rr_observed_at record)
          || (rr_metadata_source record <>? rb_source body))
    (CorruptOwnerStateValue "evidence_capture_receipts" (rr_evidence_capture_receipt_id record)
       "safe_receipt_json").

(** The body decodes from its JSON to itself: its instant and its actor do. *)
Definition receipt_body_decodes (body : PersistedEvidenceCaptureReceiptBody) : bool :=
  (parse_from_rfc3339 (to_rfc3339 (rb_observed_at body)) =? Some (rb_observed_at body))
  && (actor_from_str (actor_to_canonical_string (rb_observed_by_actor_source body))
        =? Some (rb_observed_by_actor_source body)).

Definition decode_receipt_record (raw : EvidenceCaptureReceiptRecord)
    : result EvidenceCaptureReceiptRecord StoreError :=
  let table := "evidence_capture_receipts" in
  let record_id := rr_evidence_capture_receipt_id raw in
  let? _ := ensure (negb (receipt_body_decodes (rr_safe_receipt raw)))
              (CorruptOwnerStateJson table record_id "safe_receipt_json") in
  let text := safe_receipt_json (rr_safe_receipt raw) in
  let? _ := ensure ((MAX_EVIDENCE_CAPTURE_RECEIPT_BYTES <? str_len text)%N
                    || (MAX_EVIDENCE_CAPTURE_RECEIPT_BYTES
                          <? str_len (receipt_metadata_json (rr_metadata_source raw)))%N
                    || (rr_safe_receipt_size_bytes raw <>? str_len text)
                    || (sha256_hex text <>? rr_safe_receipt_sha256 raw))
              (CorruptOwnerStateValue table record_id "safe_receipt_json") in
  let? actor := decode_owner_actor_source table record_id "observed_by_actor_source"
                  (rr_observed_by_actor_source raw) in
  let? observed_at := decode_owner_timestamp table record_id "observed_at" (rr_observed_at raw) in
  let? created_at := decode_owner_timestamp table record_id "created_at" (rr_created_at raw) in
  let record :=
    {| rr_project_id := rr_project_id raw; rr_evidence_capture_receipt_id := record_id;
       rr_evidence_capture_intent_id := rr_evidence_capture_intent_id raw;
       rr_staging_handle_id := rr_staging_handle_id raw; rr_capture_kind := rr_capture_kind raw;
       rr_input_sha256 := rr_input_sha256 raw; rr_result_sha256 := rr_result_sha256 raw;
       rr_expected_outcome := rr_expected_outcome raw;
       rr_observed_outcome := rr_observed_outcome raw; rr_source_refs := rr_source_refs raw;
       rr_observed_by_actor_source := actor; rr_observed_at := observed_at;
       rr_completeness := rr_completeness raw; rr_limitations := rr_limitations raw;
       rr_safe_receipt := rr_safe_receipt raw; rr_safe_receipt_sha256 := rr_safe_receipt_sha256 raw;
       rr_safe_receipt_size_bytes := rr_safe_receipt_size_bytes raw; rr_created_at := created_at;
       rr_metadata_source := rr_metadata_source raw |} in
  let? _ := validate_decoded_receipt_owner_fields record in
  Ok record.

Definition evidence_capture_receipt_record (s : CaptureTable) (receipt_id : string)
    : result (option EvidenceCaptureReceiptRecord) StoreError :=
  try_option decode_receipt_record (ct_receipts s !! receipt_id).

Definition receipt_rows (s : CaptureTable) : list EvidenceCaptureReceiptRecord :=
  (map_to_list (ct_receipts s)).*2.

Definition evidence_capture_receipt_for_intent (s : CaptureTable) (intent_id : string)
    : result (option EvidenceCaptureReceiptRecord) StoreError :=
  try_option decode_receipt_record
    (List.find (λ row, rr_evidence_capture_intent_id row =? intent_id) (receipt_rows s)).

(** ** Source claims *)

Definition derive_evidence_capture_source_claims (capture_spec : EvidenceCaptureSpec)
    (body : PersistedEvidenceCaptureReceiptBody)
    : result (list EvidenceCaptureSourceClaimIdentity) StoreError :=
  let expected_kind := capture_spec_producer_kind capture_spec in
  let source := rb_source body in
  let? host_invocation_id := ok_or
    (option_filter (λ value, negb (str_is_empty (trim value))) (src_host_invocation_id source))
    (InvalidInput "receipt source requires a non-empty host invocation identifier") in
  let? _ := ensure (rb_capture_kind body <>? expected_kind)
              (InvalidInput "receipt source shape does not match the immutable capture class") in
  Ok [{| sid_source_claim_kind := HostInvocation;
         sid_source_claim_id := canonical_json_bare_sha256
           (Object [("connection_id", Str (src_connection_id source));
                    ("host_invocation_id", Str host_invocation_id)]) |}].

Definition claim_rows (s : CaptureTable) : list EvidenceCaptureSourceClaimRecord :=
  (map_to_list (ct_claims s)).*2.

Definition decode_source_claim_record (raw : EvidenceCaptureSourceClaimRecord)
    : result EvidenceCaptureSourceClaimRecord StoreError :=
  let? claimed_at := decode_owner_timestamp "evidence_capture_source_claims" (sc_source_claim_id raw)
                       "claimed_at" (sc_claimed_at raw) in
  Ok {| sc_project_id := sc_project_id raw; sc_source_claim_kind := sc_source_claim_kind raw;
        sc_source_claim_id := sc_source_claim_id raw;
        sc_evidence_capture_intent_id := sc_evidence_capture_intent_id raw;
        sc_evidence_capture_receipt_id := sc_evidence_capture_receipt_id raw;
        sc_capture_kind := sc_capture_kind raw; sc_claimed_at := claimed_at |}.

Definition claim_key (kind : EvidenceCaptureSourceClaimKind) (id : string) : string * string :=
  (source_claim_kind_str kind, id).

Definition evidence_capture_source_claims_for_receipt (s : CaptureTable) (receipt_id : string)
    : result (list EvidenceCaptureSourceClaimRecord) StoreError :=
  try_map decode_source_claim_record
    (sort_by_key (λ row, claim_key (sc_source_claim_kind row) (sc_source_claim_id row))
       (List.filter (λ row, sc_evidence_capture_receipt_id row =? receipt_id) (claim_rows s))).

(** A claim row is the expected one of a receipt. *)
Definition claim_is_exact (project_id : string) (intent : EvidenceCaptureIntentRecord)
    (receipt : EvidenceCaptureReceiptRecord) (record : EvidenceCaptureSourceClaimRecord)
    (identity : EvidenceCaptureSourceClaimIdentity) : bool :=
  (sc_project_id record =? project_id)
  && (sc_source_claim_kind record =? sid_source_claim_kind identity)
  && (sc_source_claim_id record =? sid_source_claim_id identity)
  && (sc_evidence_capture_intent_id record =? ir_evidence_capture_intent_id intent)
  && (sc_evidence_capture_receipt_id record =? rr_evidence_capture_receipt_id receipt)
  && (sc_capture_kind record =? ir_capture_kind intent)
  && (sc_claimed_at record =? rr_created_at receipt).

Definition validate_evidence_capture_source_claims_for_receipt (s : CaptureTable)
    (intent : EvidenceCaptureIntentRecord) (receipt : EvidenceCaptureReceiptRecord)
    (capture_spec : EvidenceCaptureSpec) (body : PersistedEvidenceCaptureReceiptBody)
    : result unit StoreError :=
  let corrupt column := CorruptOwnerStateValue "evidence_capture_source_claims"
                          (rr_evidence_capture_receipt_id receipt) column in
  let? _ := ensure ((ir_project_id intent <>? ct_project_id s)
                    || (rr_project_id receipt <>? ct_project_id s)
                    || (rr_evidence_capture_intent_id receipt <>? ir_evidence_capture_intent_id intent)
                    || (rr_capture_kind receipt <>? ir_capture_kind intent)
                    || (rb_capture_intent_id body <>? ir_evidence_capture_intent_id intent)
                    || (src_connection_id (rb_source body)
                          <>? ir_requesting_connection_internal_id intent))
              (corrupt "source_chain") in
  let? expected := derive_evidence_capture_source_claims capture_spec body in
  let expected := sort_by_key (λ identity, claim_key (sid_source_claim_kind identity)
                                             (sid_source_claim_id identity)) expected in
  let? actual := evidence_capture_source_claims_for_receipt s (rr_evidence_capture_receipt_id receipt) in
  if (length actual =? length expected)
     && forallb (λ pair, claim_is_exact (ct_project_id s) intent receipt pair.1 pair.2)
          (zip actual expected)
  then Ok tt else Err (corrupt "claim_set").

(** ** Source fulfillment *)

Definition validate_receipt_timestamp (field : string) (value : UtcTimestamp)
    : result unit StoreError :=
  if representable value then Ok tt
  else Err (InvalidInput (field +:+ " must be a canonical four-digit RFC 3339 timestamp")).

Definition validate_receipt_sha256 (field value : string) : result unit StoreError :=
  if is_canonical_sha256_hex value then Ok tt
  else Err (InvalidInput (field +:+ " must be lowercase 64-character SHA-256 hex")).

Definition validate_receipt_input (input : EvidenceCaptureReceiptInsert) : result unit StoreError :=
  let? _ := validate_identifier "evidence_capture_receipt_id" (ri_evidence_capture_receipt_id input) in
  let? _ := validate_identifier "evidence_capture_intent_id" (ri_evidence_capture_intent_id input) in
  let? _ := validate_identifier "staging_handle_id" (ri_staging_handle_id input) in
  let? _ := validate_identifier "task_id" (ri_task_id input) in
  let? _ := validate_receipt_sha256 "input_sha256" (ri_input_sha256 input) in
  let? _ := validate_receipt_sha256 "result_sha256" (ri_result_sha256 input) in
  let? _ := validate_receipt_timestamp "observed_at" (ri_observed_at input) in
  let? _ := validate_receipt_timestamp "created_at" (ri_created_at input) in
  let? _ := validate_receipt_timestamp "staging_expires_at" (ri_staging_expires_at input) in
  let? _ := ensure (MAX_EVIDENCE_CAPTURE_RECEIPT_BYTES
                      <? str_len (safe_receipt_json (ri_safe_receipt input)))%N
              (InvalidInput "safe_receipt_json exceeds the 24576-byte bound") in
  ensure (MAX_EVIDENCE_CAPTURE_RECEIPT_BYTES
            <? str_len (receipt_metadata_json (ri_metadata_source input)))%N
    (InvalidInput "metadata_json exceeds the 24576-byte bound").

(** The receipt columns and body against the immutable intent. *)
Definition receipt_body_mismatch (input : EvidenceCaptureReceiptInsert)
    (intent : EvidenceCaptureIntentRecord) : bool :=
  let body := ri_safe_receipt input in
  (rb_contract_id body <>? EVIDENCE_CAPTURE_RECEIPT_CONTRACT_ID)
  || negb (rb_complete body)
  || (rb_redaction_state body <>? Redacted)
  || (rb_capture_kind body <>? ir_capture_kind intent)
  || (rb_capture_intent_id body <>? ir_evidence_capture_intent_id intent)
  || (rb_input_sha256 body <>? ri_input_sha256 input)
  || (rb_result_sha256 body <>? ri_result_sha256 input)
  || (rb_result_sha256 body <>? canonical_json_bare_sha256 (Object (rb_observed_outcome body)))
  || (obj_norm (rb_expected_outcome body) <>? obj_norm (ri_expected_outcome input))
  || (obj_norm (rb_observed_outcome body) <>? obj_norm (ri_observed_outcome input))
  || (rb_limitations body <>? ri_limitations input)
  || (rb_observed_by_actor_source body <>? ri_observed_by_actor_source input)
  || (rb_observed_by_actor_source body <>? ir_requested_by_actor_source intent)
  || (src_connection_id (rb_source body) <>? ir_requesting_connection_internal_id intent)
  || (rb_observed_at body <>? ri_observed_at input)
  || (ri_metadata_source input <>? rb_source body).

Definition validate_receipt_against_intent (input : EvidenceCaptureReceiptInsert)
    (intent : EvidenceCaptureIntentRecord)
    : result (list EvidenceCaptureSourceClaimIdentity) StoreError :=
  let intent_id := ir_evidence_capture_intent_id intent in
  let conflict := Conflict "evidence_capture_intent" intent_id in
  let? _ := ensure ((ri_task_id input <>? ir_task_id intent)
                    || (rb_capture_kind (ri_safe_receipt input) <>? ir_capture_kind intent)
                    || (ri_input_sha256 input <>? ir_input_sha256 intent)
                    || (obj_norm (ri_expected_outcome input) <>? obj_norm (ir_expected_outcome intent)))
              conflict in
  let? _ := ensure (negb (list_is_empty (ri_source_refs input)))
              (InvalidInput "source_refs must be empty for source fulfillment") in
  let capture_spec := ir_capture intent in
  let? _ := ensure (evidence_capture_input_sha256 capture_spec <>? ir_input_sha256 intent)
              (CorruptOwnerStateValue "evidence_capture_intents" intent_id "input_sha256") in
  let? _ := map_err (λ detail, InvalidInput
                ("expected_outcome does not match its capture class: " +:+ detail))
              (validate_evidence_capture_expected_outcome capture_spec (ri_expected_outcome input)) in
  let? _ := map_err (λ detail, InvalidInput
                ("observed_outcome does not match its capture class: " +:+ detail))
              (validate_evidence_capture_observed_outcome capture_spec (ri_observed_outcome input)) in
  let? _ := map_err (λ detail, InvalidInput
                ("limitations do not match their capture class: " +:+ detail))
              (validate_evidence_capture_limitations capture_spec (ri_limitations input)) in
  let? _ := ensure (receipt_body_mismatch input intent) conflict in
  let? source_claims := map_err (λ _, conflict)
                          (derive_evidence_capture_source_claims capture_spec (ri_safe_receipt input)) in
  let? _ := ensure (ts_lt (ri_observed_at input) (ir_created_at intent)
                    || negb (ts_lt (ri_observed_at input) (ir_expires_at intent))) conflict in
  let? _ := ensure (ts_lt (ri_created_at input) (ri_observed_at input)
                    || negb (ts_lt (ri_created_at input) (ir_expires_at intent))) conflict in
  let? _ := ensure (ri_staging_expires_at input <>? ir_expires_at intent) conflict in
  Ok source_claims.

Definition receipt_staging (input : EvidenceCaptureReceiptInsert) : ArtifactStagingInsert :=
  let safe_bytes := safe_receipt_json (ri_safe_receipt input) in
  {| sg_handle_id := ri_staging_handle_id input; sg_task_id := ri_task_id input;
     sg_created_by_actor_source := ri_observed_by_actor_source input;
     sg_display_name := "evidence-capture-receipt.json"; sg_content_type := "application/json";
     sg_sha256 := sha256_hex safe_bytes; sg_size_bytes := str_len safe_bytes;
     sg_redaction_state := Redacted; sg_safe_bytes := safe_bytes;
     sg_created_at := ri_created_at input; sg_expires_at := ri_staging_expires_at input |}.

(** [validate_insert] of [artifacts.rs]. *)
Definition validate_staging_insert (input : ArtifactStagingInsert) : result unit StoreError :=
  let timestamp field t :=
    if representable t then Ok tt
    else Err (InvalidInput (field +:+ " must be a valid RFC 3339 timestamp")) in
  let? _ := validate_identifier "handle_id" (sg_handle_id input) in
  let? _ := validate_identifier "task_id" (sg_task_id input) in
  let? _ := validate_identifier "created_by_actor_source"
              (actor_to_canonical_string (sg_created_by_actor_source input)) in
  let? _ := validate_nonempty_text "display_name" (sg_display_name input) in
  let? _ := validate_nonempty_text "content_type" (sg_content_type input) in
  let? _ := validate_artifact_sha256 "sha256" (sg_sha256 input) in
  let? _ := timestamp "created_at" (sg_created_at input) in
  let? _ := timestamp "expires_at" (sg_expires_at input) in
  ensure (negb (ts_lt (sg_created_at input) (sg_expires_at input)))
    (InvalidInput "expires_at must be later than created_at").

Definition receipt_row (project_id : string) (input : EvidenceCaptureReceiptInsert)
    : EvidenceCaptureReceiptRecord :=
  let body := ri_safe_receipt input in
  {| rr_project_id := project_id;
     rr_evidence_capture_receipt_id := ri_evidence_capture_receipt_id input;
     rr_evidence_capture_intent_id := ri_evidence_capture_intent_id input;
     rr_staging_handle_id := ri_staging_handle_id input; rr_capture_kind := rb_capture_kind body;
     rr_input_sha256 := ri_input_sha256 input; rr_result_sha256 := ri_result_sha256 input;
     rr_expected_outcome := ri_expected_outcome input;
     rr_observed_outcome := ri_observed_outcome input; rr_source_refs := ri_source_refs input;
     rr_observed_by_actor_source := ri_observed_by_actor_source input;
     rr_observed_at := ri_observed_at input; rr_completeness := CaptureComplete;
     rr_limitations := ri_limitations input; rr_safe_receipt := body;
     rr_safe_receipt_sha256 := sha256_hex (safe_receipt_json body);
     rr_safe_receipt_size_bytes := str_len (safe_receipt_json body);
     rr_created_at := ri_created_at input; rr_metadata_source := ri_metadata_source input |}.

Definition claim_row (project_id : string) (input : EvidenceCaptureReceiptInsert)
    (claim : EvidenceCaptureSourceClaimIdentity) : EvidenceCaptureSourceClaimRecord :=
  {| sc_project_id := project_id; sc_source_claim_kind := sid_source_claim_kind claim;
     sc_source_claim_id := sid_source_claim_id claim;
     sc_evidence_capture_intent_id := ri_evidence_capture_intent_id input;
     sc_evidence_capture_receipt_id := ri_evidence_capture_receipt_id input;
     sc_capture_kind := rb_capture_kind (ri_safe_receipt input);
     sc_claimed_at := ri_created_at input |}.

(** The loop over the source claims: each insert may hit the primary key. *)
Fixpoint insert_claims (project_id : string) (input : EvidenceCaptureReceiptInsert)
    (claims : list EvidenceCaptureSourceClaimIdentity)
    (rows : gmap (string * string) EvidenceCaptureSourceClaimRecord)
    : result (gmap (string * string) EvidenceCaptureSourceClaimRecord) StoreError :=
  match claims with
  | [] => Ok rows
  | claim :: claims =>
      let key := claim_key (sid_source_claim_kind claim) (sid_source_claim_id claim) in
      let? _ := ensure (is_some (rows !! key))
                  (ConstraintViolation "evidence_capture_source_claims.source_claim_id") in
      insert_claims project_id input claims (<[key := claim_row project_id input claim]> rows)
  end.

(** The three inserts of the transaction, over the written files. *)
Definition insert_receipt_rows (s : CaptureTable) (clock : ClockState)
    (input : EvidenceCaptureReceiptInsert) (claims : list EvidenceCaptureSourceClaimIdentity)
    (files : gmap string string) : result CaptureTable StoreError :=
  let handle_id := ri_staging_handle_id input in
  let? _ := ensure (is_some (ct_staging s !! handle_id))
              (ConstraintViolation "artifact_staging.handle_id") in
  let? _ := ensure (negb (bool_decide (ri_task_id input ∈ ct_tasks s)))
              (ConstraintViolation "artifact_staging.task_id") in
  let? _ := ensure (is_some (ct_receipts s !! ri_evidence_capture_receipt_id input))
              (ConstraintViolation "evidence_capture_receipts.evidence_capture_receipt_id") in
  let? _ := ensure (existsb (λ row, rr_evidence_capture_intent_id row
                                      =? ri_evidence_capture_intent_id input) (receipt_rows s))
              (ConstraintViolation "evidence_capture_receipts.evidence_capture_intent_id") in
  let? _ := ensure (existsb (λ row, rr_staging_handle_id row =? handle_id) (receipt_rows s))
              (ConstraintViolation "evidence_capture_receipts.staging_handle_id") in
  let? claims := insert_claims (ct_project_id s) input claims (ct_claims s) in
  Ok {| ct_project_id := ct_project_id s; ct_clock := clock; ct_tasks := ct_tasks s;
        ct_change_units := ct_change_units s; ct_intents := ct_intents s;
        ct_receipts := <[ri_evidence_capture_receipt_id input := receipt_row (ct_project_id s) input]>
                         (ct_receipts s);
        ct_claims := claims; ct_staging := <[handle_id := receipt_staging input]> (ct_staging s);
        ct_files := files |}.

Definition set_files (s : CaptureTable) (files : gmap string string) : CaptureTable :=
  {| ct_project_id := ct_project_id s; ct_clock := ct_clock s; ct_tasks := ct_tasks s;
     ct_change_units := ct_change_units s; ct_intents := ct_intents s;
     ct_receipts := ct_receipts s; ct_claims := ct_claims s; ct_staging := ct_staging s;
     ct_files := files |}.

(** The checks made before the transaction: the claims the receipt makes. *)
Definition check_receipt (s : CaptureTable) (input : EvidenceCaptureReceiptInsert)
    : result (list EvidenceCaptureSourceClaimIdentity) StoreError :=
  let? _ := validate_receipt_input input in
  let? intent := evidence_capture_intent_record s (ri_evidence_capture_intent_id input) in
  let? intent := ok_or intent (NotFound "evidence_capture_intent"
                                 (ri_evidence_capture_intent_id input)) in
  let? claims := validate_receipt_against_intent input intent in
  let? _ := validate_staging_insert (receipt_staging input) in
  Ok claims.

(** The result, with the state left behind: the rows of a failed transaction are
    rolled back, but the staged file it wrote is removed whatever was there. *)
Definition fulfill_evidence_capture_source (s : CaptureTable) (input : EvidenceCaptureReceiptInsert)
    : result EvidenceCaptureReceiptRecord StoreError * CaptureTable :=
  match check_receipt s input with
  | Err e => (Err e, s)
  | Ok claims =>
      match advance_project_utc_floor (ct_project_id s) (ri_created_at input) (ct_clock s) with
      | Err e => (Err e, s)
      | Ok (clock_floor, clock) =>
          let staging := receipt_staging input in
          if negb (fits_i64 (sg_size_bytes staging))
          then (Err (InvalidInput "artifact_staging.size_bytes"), s)
          else
            let name := staged_file_name (sg_handle_id staging) in
            let written := <[name := sg_safe_bytes staging]> (ct_files s) in
            match insert_receipt_rows s (remember_clock_sample clock_floor clock) input claims written with
            | Err e => (Err e, set_files s (delete name written))
            | Ok s' =>
                (match evidence_capture_receipt_record s' (ri_evidence_capture_receipt_id input) with
                 | Err e => Err e
                 | Ok (Some record) => Ok record
                 | Ok None => Err (SchemaInvariant
                     "committed evidence-capture receipt could not be read")
                 end, s')
            end
      end
  end.
End capture.
