(* ===== verification/Admission.v ===== *)
(** * Admission: evaluating stored tickets and admitting a recorded Run

    Models [crates/volicord-core/src/write_ticket/{facts,admission,read_model,
    service}.rs].  Reads of the project store are the operations of the class
    [TicketReader]; the digest of the Git workspace context is the JSON
    canonicalizer's and enters as a parameter. *)

From S2P Require Import Prelude Text ProductPath Values Canonical Schema UserAction Workflow.
From S2P Require Import Clock TicketStore Ticket.
Import Relevance.

(** ** Errors *)

Inductive CorePipelineError :=
| CoreStore (error : StoreError)
| CoreUserAction (detail : string)
| CorePlatform (detail : string)
| CoreInvariant (detail : string)
| CoreInvalidDispatch (detail : string)
| CoreDurableId (detail : string)
| CoreGeneratedIdCollision (kind : string) (attempts : nat).

Inductive WriteTicketAdmissionError :=
| AdmCore (error : CorePipelineError)
| AdmStore (error : StoreError)
| AdmInvalid (reason : WriteTicketInvalidReason) (message : string).

(** [From<CorePipelineError>]. *)
Definition admission_error_of_core (error : CorePipelineError) : WriteTicketAdmissionError :=
  match error with CoreStore e => AdmStore e | e => AdmCore e end.

(** ** [facts.rs] *)

Definition baseline_matches (change_unit : ChangeUnitRecord) (task : TaskRecord)
    (baseline_ref : BaselineRef) : bool :=
  (cu_write_basis_baseline_ref change_unit =? Some baseline_ref)
  && (st_baseline_ref (scope_from_task task) =? Some baseline_ref).

Definition workspace_context_matches (change_unit : ChangeUnitRecord)
    (git_workspace_context : option GitWorkspaceContext) : bool :=
  match cu_write_basis_git_workspace_context change_unit, git_workspace_context with
  | None, None => true
  | Some stored, Some current =>
      (git_common_dir stored =? git_common_dir current)
      && (worktree_id stored =? worktree_id current)
      && (branch_ref stored =? branch_ref current)
      && (head_sha stored =? head_sha current)
      && (workspace_fingerprint stored =? workspace_fingerprint current)
  | None, Some _ | Some _, None => false
  end.

Definition paths_match_current_change_unit (intended_paths : list string)
    (change_unit : ChangeUnitRecord) : bool :=
  if list_is_empty intended_paths then true
  else if list_is_empty (cu_bounded_paths change_unit) then false
  else negb (list_is_empty (cu_bounded_paths change_unit))
       && forallb (λ path, existsb (λ scope, path_is_within path scope) (cu_bounded_paths change_unit))
            intended_paths.

Definition load_prepare_write_task (task : option TaskRecord) (task_id : TaskId) (task_is_current : bool)
    : option (TaskRecord * list WriteTicketDecisionReason) :=
  (λ task, (task,
     if negb task_is_current
     then [write_decision_reason CScope ScopeNotCurrent
             "The addressed Task is not the current Task." [RelTask task_id]]
     else [])) <$> task.

Definition validate_prepare_write_change_unit
    (requested_change_unit_id : option ChangeUnitId) (task_id : TaskId)
    (current_change_unit : ChangeUnitRecord) (reasons : list WriteTicketDecisionReason)
    : list WriteTicketDecisionReason :=
  if is_some_and requested_change_unit_id (λ id, id <>? cu_change_unit_id current_change_unit)
  then reasons ++ [write_decision_reason CScope ScopeNotCurrent
         "The addressed Change Unit is not the current Change Unit."
         [RelCurrentChangeUnit task_id (cu_change_unit_id current_change_unit)]]
  else reasons.

(** ** The store, as the evaluation reads it

    What [CoreProjectStore] promises to the ticket code: reads of the Task, the
    decoded reevaluation mark, the workflow policy, the resolved sensitive
    approvals, and the Write Ticket rows, which are validated on every read. *)
Class TicketReader `{Chrono} (S : Type) := {
  write_tickets_of : S → TaskId → result (list StoredWriteTicket) StoreError;
  write_ticket_of : S → WriteTicketId → result (option StoredWriteTicket) StoreError;
  task_record : S → TaskId → result (option TaskRecord) StoreError;
  task_policy_control_reevaluation :
    S → TaskRecord → result (option TaskPolicyControlReevaluation) StoreError;
  project_workflow_policy : S → result ProjectWorkflowPolicy StoreError;
  sensitive_approval_authorities :
    S → TaskId → UtcTimestamp → result (list UserActionAuthority) CorePipelineError;
  write_tickets_of_valid : ∀ s task_id rs r,
    write_tickets_of s task_id = Ok rs → r ∈ rs → ticket_valid r ∧ wt_task_id r = task_id;
  write_ticket_of_valid : ∀ s id r, write_ticket_of s id = Ok (Some r) → ticket_valid r;
}.

Section admission.
Context `{HC : Chrono} {S : Type} `{HS : !TicketReader S}.
(** [canonical_json_bare_sha256] of a workspace context. *)
Context (workspace_sha256 : GitWorkspaceContext → string).

(** ** [read_model.rs] *)

Record WriteTicketTaskFacts := {
  tf_scope_revision : N;
  tf_effective_control_level : TaskControlLevel;
  tf_pending_policy_reevaluation : bool;
}.

Definition load_write_ticket_candidates (store : S) (task_id : TaskId)
    : result (list StoredWriteTicketFacts) CorePipelineError :=
  let? records := map_err CoreStore (write_tickets_of store task_id) in
  Ok (from_record <$> records).

(** The task facts and the current write-authority fingerprint. *)
Definition load_write_ticket_control_facts (store : S) (task_id : TaskId)
    : result (WriteTicketTaskFacts * string) CorePipelineError :=
  let? task := map_err CoreStore (task_record store task_id) in
  let? task := ok_or task (CoreStore (NotFound "task" task_id)) in
  let? workflow := map_err CoreStore (project_workflow_policy store) in
  let? mark := map_err CoreStore (task_policy_control_reevaluation store task) in
  let resolved := resolve_task_control_authority task mark workflow in
  Ok ({| tf_scope_revision := tk_scope_revision task;
         tf_effective_control_level := rt_effective_control_level resolved;
         tf_pending_policy_reevaluation := rt_pending_policy_reevaluation resolved |},
      write_authority_fingerprint workflow).

(** ** [service.rs] *)

Definition stored_state_error (error : StoredWriteTicketStateError) : CorePipelineError :=
  CoreInvariant ("Store-validated Write Ticket could not enter the Core stored type-state family: "
    +:+ match error with
        | ActiveLifecycleDetails => "ActiveLifecycleDetails"
        | MissingInvalidationReason => "MissingInvalidationReason"
        | MissingConsumingRun => "MissingConsumingRun"
        | UnexpectedConsumingRun => "UnexpectedConsumingRun"
        end).

(** The first loop: terminal evaluations and active candidates, in order. *)
Fixpoint split_candidates (observed_at : UtcTimestamp) (candidates : list StoredWriteTicketFacts)
    : result (list StoredWriteTicketEvaluation * list StoredWriteTicketState) CorePipelineError :=
  match candidates with
  | [] => Ok ([], [])
  | candidate :: rest =>
      let? pre := map_err stored_state_error
                    (pre_evaluate_stored_write_ticket candidate observed_at) in
      let? parts := split_candidates observed_at rest in
      Ok (match pre with
          | PreComplete terminal => (eval_of_terminal terminal :: parts.1, parts.2)
          | NeedsCurrentFacts candidate => (parts.1, candidate :: parts.2)
          end)
  end.

Definition ticket_requirement (ticket : WriteTicketSemanticFacts) (scope_revision : N)
    (control : TaskControlLevel) (observed_at : UtcTimestamp) : WriteTicketApprovalRequirement :=
  {| apr_project_id := sf_project_id ticket; apr_scope_revision := scope_revision;
     apr_effective_control_level := control; apr_scope := sf_attempt_scope ticket;
     apr_observed_at := observed_at |}.

Definition load_evaluated_stored_write_tickets
    (store : S) (task_id : TaskId) (observed_at : UtcTimestamp)
    : result (list StoredWriteTicketEvaluation) CorePipelineError :=
  let? candidates := load_write_ticket_candidates store task_id in
  let? parts := split_candidates observed_at candidates in
  if list_is_empty parts.2 then Ok parts.1
  else
    let? facts := load_write_ticket_control_facts store task_id in
    let '(task, fingerprint) := facts in
    let? approvals := sensitive_approval_authorities store task_id observed_at in
    let current := {| cf_pending_policy_reevaluation := tf_pending_policy_reevaluation task;
                      cf_write_authority_fingerprint := fingerprint |} in
    Ok (parts.1 ++ ((λ candidate,
          let ticket := st_ticket candidate in
          eval_of_active (evaluate_active_candidate candidate current
            (assess_write_ticket_approval
               (ticket_requirement ticket (tf_scope_revision task)
                  (tf_effective_control_level task) observed_at)
               approvals (vb_approval_basis_refs (sf_validity_basis ticket))))) <$> parts.2)).

(** ** [admission.rs] *)

Record RecordRunWriteAdmission := {
  rra_task_id : TaskId;
  rra_change_unit_id : ChangeUnitId;
  rra_baseline_ref : BaselineRef;
  rra_performed_operation : option string;
  rra_task : TaskRecord;
  rra_change_unit : ChangeUnitRecord;
  rra_git_workspace_context : option GitWorkspaceContext;
  rra_observed_changes : ObservedChanges;
}.

Record RecordRunTicketCurrentness := {
  rrc_store : S;
  rrc_task_id : TaskId;
  rrc_task : TaskRecord;
  rrc_write_authority_fingerprint : string;
  rrc_observed_at : UtcTimestamp;
}.

(** [CompatibleRecordRunAttempt] is the ticket id it was proved for. *)
Definition validate_record_run_attempt
    (ticket_id : WriteTicketId) (ticket : WriteTicketSemanticFacts)
    (context : RecordRunWriteAdmission) : result WriteTicketId WriteTicketAdmissionError :=
  let validity_basis := sf_validity_basis ticket in
  let observed := rra_observed_changes context in
  let current_workspace_sha256 := workspace_sha256 <$> rra_git_workspace_context context in
  if vb_task_id validity_basis <>? rra_task_id context then
    Err (AdmInvalid RTaskMismatch "write ticket validity basis names another Task")
  else if vb_change_unit_id validity_basis <>? rra_change_unit_id context then
    Err (AdmInvalid RChangeUnitMismatch "write ticket validity basis names another Change Unit")
  else if vb_scope_revision validity_basis <>? tk_scope_revision (rra_task context) then
    Err (AdmInvalid RScopeRevisionChanged "write ticket scope revision is no longer current")
  else if vb_baseline_ref validity_basis <>? Some (rra_baseline_ref context) then
    Err (AdmInvalid RBaselineMismatch "write ticket baseline is no longer current")
  else if vb_workspace_context_sha256 validity_basis <>? current_workspace_sha256 then
    Err (AdmInvalid RWorkspaceContextMismatch "write ticket workspace context is no longer current")
  else
    let scope := sf_attempt_scope ticket in
    match run_write_ticket_mismatch scope
            {| rwa_task_id := rra_task_id context;
               rwa_change_unit_id := rra_change_unit_id context;
               rwa_baseline_ref := rra_baseline_ref context;
               rwa_performed_operation := rra_performed_operation context;
               rwa_performed_operation_required :=
                 negb (oc_product_file_write_observed observed)
                 && (tk_effective_control_level (rra_task context) =? Sensitive);
               rwa_observed_changes := observed;
               rwa_normalized_scope_paths := path_str <$> allowed (sf_path_scope ticket) |} with
    | Some (reason, message) => Err (AdmInvalid reason message)
    | None =>
        if existsb (λ path, existsb (λ d, path_is_within path (path_str d))
                              (denied (sf_path_scope ticket))) (oc_changed_paths observed)
        then Err (AdmInvalid RPathMismatch
                    "write ticket denied path prefixes do not cover the recorded run")
        else Ok ticket_id
    end.

Definition terminal_admission_error (terminal : TerminalStoredWriteTicketEvaluation)
    : WriteTicketAdmissionError :=
  match terminal with
  | TermInvalidated ticket =>
      AdmInvalid (RInvalidated (inv_invalidation ticket)) "write ticket is invalidated"
  | TermConsumed _ _ => AdmInvalid RConsumed "write ticket is already consumed"
  | TermRevoked _ _ => AdmInvalid RRevoked "write ticket is revoked"
  end.

Definition active_record_run_candidate (record : StoredWriteTicket) (observed_at : UtcTimestamp)
    : result StoredWriteTicketState WriteTicketAdmissionError :=
  let? pre := map_err (λ e, AdmCore (stored_state_error e))
                (pre_evaluate_stored_write_ticket (from_record record) observed_at) in
  match pre with
  | NeedsCurrentFacts candidate => Ok candidate
  | PreComplete terminal => Err (terminal_admission_error terminal)
  end.

Definition evaluate_record_run_candidate
    (candidate : StoredWriteTicketState) (context : RecordRunTicketCurrentness)
    (admission : RecordRunWriteAdmission)
    : result (StoredWriteTicketState * WriteTicketId) WriteTicketAdmissionError :=
  let ticket := st_ticket candidate in
  if negb (workspace_context_matches (rra_change_unit admission)
             (rra_git_workspace_context admission)) then
    Err (AdmInvalid RWorkspaceContextMismatch
      "current Git workspace context differs from the write ticket Change Unit basis")
  else if vb_write_authority_fingerprint (sf_validity_basis ticket)
          <>? rrc_write_authority_fingerprint context then
    Err (AdmInvalid RPolicyAuthorityMismatch "write ticket policy authority is no longer current")
  else
    let? compatible_attempt :=
      validate_record_run_attempt (st_write_ticket_id candidate) ticket admission in
    let requirement :=
      ticket_requirement ticket (tk_scope_revision (rrc_task context))
        (tk_effective_control_level (rrc_task context)) (rrc_observed_at context) in
    let? authorities := map_err admission_error_of_core
      (sensitive_approval_authorities (rrc_store context) (rrc_task_id context)
         (rrc_observed_at context)) in
    let assessment := assess_write_ticket_approval requirement authorities
                        (vb_approval_basis_refs (sf_validity_basis ticket)) in
    let current :=
      {| cf_pending_policy_reevaluation := false;
         cf_write_authority_fingerprint := rrc_write_authority_fingerprint context |} in
    match into_reusable (evaluate_active_candidate candidate current assessment) with
    | Ok reusable => Ok (reusable, compatible_attempt)
    | Err ticket =>
        match inv_authority ticket with
        | WriteAuthorityChanged | PendingPolicyReevaluation =>
            Err (AdmInvalid RPolicyAuthorityMismatch
                   "write ticket policy authority is no longer current")
        | _ => Err (AdmInvalid RApprovalBasisChanged
                      "write ticket approval basis is no longer current")
        end
    end.

Definition admit_record_run (reusable : StoredWriteTicketState) (compatible_attempt : WriteTicketId)
    : result StoredWriteTicketState WriteTicketAdmissionError :=
  if st_write_ticket_id reusable <>? compatible_attempt then
    Err (AdmCore (CoreInvariant
      "Record Run compatibility proof names another reusable Write Ticket"))
  else Ok reusable.

(** ** [recording/plan.rs]: the ticket part of [decide_record_run_policy] *)

Inductive RecordingError :=
| RecCore (error : CorePipelineError)
| RecStore (error : StoreError)
| RecWriteTicketRequired
| RecWriteTicketInvalid (reason : WriteTicketInvalidReason) (message : string).

Definition record_run_write_admission_error (error : WriteTicketAdmissionError) : RecordingError :=
  match error with
  | AdmCore error => RecCore error
  | AdmStore error => RecStore error
  | AdmInvalid reason message => RecWriteTicketInvalid reason message
  end.

(** The run's ticket, from the facts and the request. *)
Definition decide_write_ticket_scope
    (store : S) (write_ticket_id : option WriteTicketId) (admission : RecordRunWriteAdmission)
    (raw_product_file_write_observed : bool) (resolved : ResolvedTaskControlAuthority)
    (fingerprint : string) (plan_now : UtcTimestamp)
    : result (option StoredWriteTicketState) RecordingError :=
  let write_ticket_required :=
    raw_product_file_write_observed || (rt_effective_control_level resolved =? Sensitive) in
  if write_ticket_required then
    match write_ticket_id with
    | None => Err RecWriteTicketRequired
    | Some write_ticket_id =>
        if rt_pending_policy_reevaluation resolved then
          Err (RecWriteTicketInvalid RApprovalBasisChanged
            "a pending project-policy control reevaluation requires prepare_write before this Run can consume a ticket")
        else
          let? record := map_err RecStore (write_ticket_of store write_ticket_id) in
          let? record := ok_or record
            (RecWriteTicketInvalid RMissing "write_ticket_id does not identify a write ticket") in
          let? candidate := map_err record_run_write_admission_error
            (active_record_run_candidate record plan_now) in
          let? evaluated := map_err record_run_write_admission_error
            (evaluate_record_run_candidate candidate
               {| rrc_store := store; rrc_task_id := rra_task_id admission;
                  rrc_task := rra_task admission;
                  rrc_write_authority_fingerprint := fingerprint;
                  rrc_observed_at := plan_now |} admission) in
          let? admitted := map_err record_run_write_admission_error
            (admit_record_run evaluated.1 evaluated.2) in
          Ok (Some admitted)
    end
  else if is_some write_ticket_id then
    Err (RecWriteTicketInvalid RIncompatible
      "write_ticket_id is only consumed for an observed product-file write or an effective sensitive Task")
  else Ok None.

(** The consumption step that [plan_record_run_mutations] appends. *)
Definition record_run_consumption (ticket : StoredWriteTicketState) (run_id fingerprint : string)
    : WriteTicketMutation :=
  ConsumeTicket
    {| wc_write_ticket_id := st_write_ticket_id ticket; wc_run_id := run_id;
       wc_expected_basis_state_version := sf_basis_state_version (st_ticket ticket);
       wc_expected_write_authority_fingerprint := fingerprint |}.

(** ** What an admitted run satisfies *)

(** The recorded attempt stays inside the ticket. *)
Record attempt_within (ticket : WriteTicketSemanticFacts) (context : RecordRunWriteAdmission) : Prop := {
  aw_task : vb_task_id (sf_validity_basis ticket) = rra_task_id context;
  aw_change_unit : vb_change_unit_id (sf_validity_basis ticket) = rra_change_unit_id context;
  aw_scope_revision :
    vb_scope_revision (sf_validity_basis ticket) = tk_scope_revision (rra_task context);
  aw_baseline : vb_baseline_ref (sf_validity_basis ticket) = Some (rra_baseline_ref context);
  aw_workspace : vb_workspace_context_sha256 (sf_validity_basis ticket) =
    workspace_sha256 <$> rra_git_workspace_context context;
  aw_write_intent : as_product_file_write_intended (sf_attempt_scope ticket) =
    oc_product_file_write_observed (rra_observed_changes context);
  aw_operation : ∀ op, rra_performed_operation context = Some op →
    op = as_intended_operation (sf_attempt_scope ticket);
  aw_operation_stated :
    oc_product_file_write_observed (rra_observed_changes context) = false →
    tk_effective_control_level (rra_task context) = Sensitive →
    is_Some (rra_performed_operation context);
  aw_categories : ∀ c,
    c ∈ normalized_string_set (as_sensitive_categories (sf_attempt_scope ticket)) ↔
    c ∈ oc_sensitive_categories (rra_observed_changes context);
  aw_paths : oc_product_file_write_observed (rra_observed_changes context) = true →
    oc_changed_paths (rra_observed_changes context) ≠ [] ∧
    ∀ path, path ∈ oc_changed_paths (rra_observed_changes context) →
      ∃ p a, path_str p = path ∧ a ∈ allowed (sf_path_scope ticket) ∧ is_within p a = true;
  aw_not_denied : ∀ p d, path_str p ∈ oc_changed_paths (rra_observed_changes context) →
    d ∈ denied (sf_path_scope ticket) → is_within p d = false;
}.

(** ** Lemmas *)

Lemma paths_are_authorized_true observed (scope : list ProductRelativePath) :
  paths_are_authorized observed (path_str <$> scope) = true →
  observed ≠ [] ∧ ∀ path, path ∈ observed →
    ∃ p a, path_str p = path ∧ a ∈ scope ∧ is_within p a = true.
Proof.
  unfold paths_are_authorized. rewrite !andb_true_iff, !negb_true_iff, !list_is_empty_false.
  intros [[Hne _] Hall]. split; [done|]. intros path Hp.
  rewrite forallb_elem in Hall. apply Hall, existsb_elem in Hp as (s & Hs & Hw).
  apply list_elem_of_fmap in Hs as (a & -> & Ha).
  apply path_is_within_true in Hw as (p & a' & <- & ->%path_str_inj & Hw). eauto.
Qed.

Lemma run_mismatch_None scope attempt :
  run_write_ticket_mismatch scope attempt = None →
  as_product_file_write_intended scope =
    oc_product_file_write_observed (rwa_observed_changes attempt) ∧
  (∀ op, rwa_performed_operation attempt = Some op → op = as_intended_operation scope) ∧
  (rwa_performed_operation_required attempt = true → is_Some (rwa_performed_operation attempt)) ∧
  (∀ c, c ∈ normalized_string_set (as_sensitive_categories scope) ↔
        c ∈ oc_sensitive_categories (rwa_observed_changes attempt)) ∧
  (oc_product_file_write_observed (rwa_observed_changes attempt) = true →
   paths_are_authorized (oc_changed_paths (rwa_observed_changes attempt))
     (rwa_normalized_scope_paths attempt) = true).
Proof.
  unfold run_write_ticket_mismatch. intros Hm.
  repeat match type of Hm with (if ?b then _ else _) = _ => destruct b eqn:?; [discriminate|] end.
  breflect. split_and!; try done.
  - intros op Hop. rewrite Hop in *. simpl in *. by breflect.
  - intros Hr. rewrite Hr in *. destruct (rwa_performed_operation attempt); [by eexists|].
    by destruct H0.
  - apply bts_of_list_ext. done.
  - intros Hw. rewrite Hw in *. destruct Heqb5 as [|Hp]; [done|]. by breflect.
Qed.

Lemma validate_attempt_Ok id ticket context id' :
  validate_record_run_attempt id ticket context = Ok id' →
  id' = id ∧ attempt_within ticket context.
Proof.
  unfold validate_record_run_attempt. intros Hv.
  repeat match type of Hv with (if ?b then _ else _) = _ => destruct b eqn:?; [discriminate|] end.
  destruct (run_write_ticket_mismatch _ _) as [[]|] eqn:Em; [done|].
  apply run_mismatch_None in Em as (Hw & Hop & Hreq & Hc & Hp); simpl in *.
  destruct (existsb _ _) eqn:Ed; [done|]. injection Hv as <-. split; [done|]. breflect.
  split; try done.
  - intros Hno Hs. apply Hreq. by rewrite Hno, Hs.
  - intros Ho. by apply paths_are_authorized_true, Hp.
  - intros p d Hin Hd. rewrite existsb_false in Ed. apply Ed in Hin.
    rewrite existsb_false in Hin. apply Hin in Hd. by rewrite path_is_within_str in Hd.
Qed.

Lemma evaluate_candidate_Ok candidate context admission t id :
  evaluate_record_run_candidate candidate context admission = Ok (t, id) →
  t = candidate ∧ id = st_write_ticket_id candidate ∧
  workspace_context_matches (rra_change_unit admission) (rra_git_workspace_context admission) = true ∧
  vb_write_authority_fingerprint (sf_validity_basis (st_ticket candidate)) =
    rrc_write_authority_fingerprint context ∧
  attempt_within (st_ticket candidate) admission ∧
  ∃ authorities,
    sensitive_approval_authorities (rrc_store context) (rrc_task_id context)
      (rrc_observed_at context) = Ok authorities ∧
    approval_holds
      (ticket_requirement (st_ticket candidate) (tk_scope_revision (rrc_task context))
         (tk_effective_control_level (rrc_task context)) (rrc_observed_at context))
      authorities (vb_approval_basis_refs (sf_validity_basis (st_ticket candidate))).
Proof.
  unfold evaluate_record_run_candidate. intros He.
  repeat match type of He with (if ?b then _ else _) = _ => destruct b eqn:?; [discriminate|] end.
  destruct (validate_record_run_attempt _ _ _) as [id'|] eqn:Ev; [|done].
  apply validate_attempt_Ok in Ev as [-> Hw].
  destruct (sensitive_approval_authorities _ _ _) as [authorities|] eqn:Ea; [|done]. simpl in He.
  destruct (evaluate_active_candidate _ _ _) as [r|inv] eqn:Ee; simpl in He.
  - simplify_eq. apply evaluate_active_Reusable in Ee as (-> & _ & _ & Hn). breflect.
    split_and!; try done. exists authorities. split; [done|]. by apply assess_not_changed.
  - by destruct (inv_authority inv).
Qed.

Lemma split_candidates_total now rs :
  Forall (λ r, status_columns_are_valid r = true) rs →
  ∃ parts, split_candidates now (from_record <$> rs) = Ok parts ∧
    (∀ e, e ∈ parts.1 → ∃ r, r ∈ rs ∧ eval_stored e = record_state r ∧ eval_status e ≠ TActive) ∧
    (∀ c, c ∈ parts.2 → ∃ r, r ∈ rs ∧ c = record_state r ∧ wt_status r = TActive ∧
       ∀ x, wt_idle_expires_at r = Some x → (now < x)%Z) ∧
    length parts.1 + length parts.2 = length rs.
Proof.
  induction 1 as [|r rs Hr _ (parts & Hp & Ht & Ha & Hlen)].
  { exists ([], []). split_and!; [done|set_solver..|done]. }
  rewrite fmap_cons. cbn [split_candidates].
  destruct (pre_evaluate_valid_row r now Hr) as (p & -> & Hm). simpl. rewrite Hp.
  destruct p as [[t|st run|st reason]|c]; simpl in Hm.
  1-3: eexists; split; [done|]; simpl; split_and!; [|set_solver|lia];
    intros e; rewrite elem_of_cons; intros [->|He];
    [exists r; simpl; split_and!; [constructor|naive_solver|done]|set_solver].
  eexists. split; [done|]. simpl. split_and!; [set_solver| |lia].
  intros c'. rewrite elem_of_cons. intros [->|Hc].
  - exists r. destruct Hm as (-> & ? & ?). split_and!; [constructor|done..].
  - apply Ha in Hc as (r' & ? & ?). exists r'. split; [by constructor|done].
Qed.

(** Everything a run that takes a ticket has been checked against. *)
Record admitted (store : S) (record : StoredWriteTicket) (admission : RecordRunWriteAdmission)
    (fingerprint : string) (now : UtcTimestamp) : Prop := {
  ad_valid : ticket_valid record;
  ad_active : wt_status record = TActive;
  ad_unexpired : ∀ e, wt_idle_expires_at record = Some e → (now < e)%Z;
  ad_workspace : workspace_context_matches (rra_change_unit admission)
    (rra_git_workspace_context admission) = true;
  ad_fingerprint : vb_write_authority_fingerprint (wt_validity_basis record) = fingerprint;
  ad_attempt : attempt_within (stf_ticket (from_record record)) admission;
  ad_approval : ∃ authorities,
    sensitive_approval_authorities store (rra_task_id admission) now = Ok authorities ∧
    approval_holds
      (ticket_requirement (stf_ticket (from_record record)) (tk_scope_revision (rra_task admission))
         (tk_effective_control_level (rra_task admission)) now)
      authorities (vb_approval_basis_refs (wt_validity_basis record));
}.

Lemma decide_scope_Some store id admission raw resolved fp now t :
  decide_write_ticket_scope store id admission raw resolved fp now = Ok (Some t) →
  ∃ ticket_id record, id = Some ticket_id ∧ write_ticket_of store ticket_id = Ok (Some record) ∧
    t = record_state record ∧ rt_pending_policy_reevaluation resolved = false ∧
    admitted store record admission fp now.
Proof.
  unfold decide_write_ticket_scope. destruct (_ || _); [|by destruct (is_some id)].
  destruct id as [ticket_id|]; [|done].
  destruct (rt_pending_policy_reevaluation resolved); [done|].
  destruct (write_ticket_of store ticket_id) as [[record|]|] eqn:Er; [|done..]. simpl.
  pose proof (write_ticket_of_valid _ _ _ Er) as Hv.
  unfold active_record_run_candidate.
  destruct (pre_evaluate_valid_row record now (tv_status _ Hv)) as (pre & -> & Hm). simpl.
  destruct pre as [[]|c]; simpl; [done..|]. destruct Hm as (-> & Hs & He).
  destruct (evaluate_record_run_candidate _ _ _) as [[t' i]|] eqn:Ee; [|done]. simpl.
  apply evaluate_candidate_Ok in Ee as (-> & -> & Hws & Hf & Ha & auth & Hauth & Hap).
  unfold admit_record_run. rewrite eqb_refl. simpl. intros [= <-].
  exists ticket_id, record. split_and!; try done. split; try done. eauto.
Qed.
End admission.

(** ** A project snapshot implements the reader *)

Record ProjectSnapshot `{Chrono} := {
  snap_tickets : TicketTable;
  snap_tasks : gmap TaskId TaskRecord;
  snap_mark : TaskRecord → option TaskPolicyControlReevaluation;
  snap_policy : ProjectWorkflowPolicy;
  snap_approvals : list UserActionAuthority;
}.

#[export] Instance snapshot_reader `{Chrono} : TicketReader ProjectSnapshot := {
  write_tickets_of s := write_tickets_for_task (snap_tickets s);
  write_ticket_of s := write_ticket_record (snap_tickets s);
  task_record s id := Ok (snap_tasks s !! id);
  task_policy_control_reevaluation s task := Ok (snap_mark s task);
  project_workflow_policy s := Ok (snap_policy s);
  sensitive_approval_authorities s task_id _ :=
    Ok (List.filter (λ a, ua_task_id a =? task_id) (snap_approvals s));
  write_tickets_of_valid s := tickets_for_task_valid (snap_tickets s);
  write_ticket_of_valid s := ticket_record_valid (snap_tickets s);
}.

(** ** Theorems *)

Section theorems.
Context `{HC : Chrono} {S : Type} `{HS : !TicketReader S}.
Context (workspace_sha256 : GitWorkspaceContext → string).

(** C8: A Run that takes a Write Ticket was admitted soundly: the ticket is a
    valid, active, unexpired row, it was issued under the current write
    authority, Task, Change Unit, scope revision, baseline and Git workspace,
    no policy reevaluation is pending, its approvals are still current, and
    the observed changes stay inside it: same write intent and operation,
    exactly its sensitive categories, every changed path below an allowed
    prefix and none below a denied one. *)
Theorem record_run_admission_sound store id admission raw resolved fingerprint now t :
  decide_write_ticket_scope workspace_sha256 store id admission raw resolved fingerprint now
    = Ok (Some t) →
  ∃ ticket_id record, id = Some ticket_id ∧ write_ticket_of store ticket_id = Ok (Some record) ∧
    t = record_state record ∧ rt_pending_policy_reevaluation resolved = false ∧
    admitted workspace_sha256 store record admission fingerprint now.
Proof. apply decide_scope_Some. Qed.

(** A Run is recorded without a ticket exactly when it names none, observed
    no product-file write and its Task is not under sensitive control; a
    ticket that is not needed is refused. *)
Theorem record_run_without_ticket store id admission raw resolved fingerprint now :
  decide_write_ticket_scope workspace_sha256 store id admission raw resolved fingerprint now
    = Ok None ↔
  id = None ∧ raw = false ∧ rt_effective_control_level resolved ≠ Sensitive.
Proof.
  split.
  - unfold decide_write_ticket_scope.
    destruct (raw || (rt_effective_control_level resolved =? Sensitive)) eqn:Er.
    + destruct id; [|done]. destruct (rt_pending_policy_reevaluation resolved); [done|].
      intros Hd. unravel Hd.
    + apply orb_false_iff in Er as [-> Hc%eqb_false]. by destruct id.
  - intros (-> & -> & Hc). unfold decide_write_ticket_scope.
    by rewrite (proj2 (eqb_false _ _) Hc).
Qed.

(** Evaluating the stored tickets of a Task fails only when a read of the
    store fails, never on a row the store returned; every row gets one
    evaluation, and a reusable one is an active, unexpired row under the
    current write authority with a current approval basis. *)
Theorem evaluated_tickets_sound store task_id now :
  match load_evaluated_stored_write_tickets store task_id now with
  | Err e =>
      (∃ e', e = CoreStore e' ∧ write_tickets_of store task_id = Err e') ∨
      load_write_ticket_control_facts store task_id = Err e ∨
      sensitive_approval_authorities store task_id now = Err e
  | Ok es =>
      ∃ rs, write_tickets_of store task_id = Ok rs ∧ length es = length rs ∧
        ∀ s, EvalReusable s ∈ es →
          ∃ r facts fingerprint approvals, r ∈ rs ∧ s = record_state r ∧ wt_status r = TActive ∧
            (∀ x, wt_idle_expires_at r = Some x → (now < x)%Z) ∧
            load_write_ticket_control_facts store task_id = Ok (facts, fingerprint) ∧
            sensitive_approval_authorities store task_id now = Ok approvals ∧
            vb_write_authority_fingerprint (wt_validity_basis r) = fingerprint ∧
            tf_pending_policy_reevaluation facts = false ∧
            approval_holds
              (ticket_requirement (stf_ticket (from_record r)) (tf_scope_revision facts)
                 (tf_effective_control_level facts) now)
              approvals (vb_approval_basis_refs (wt_validity_basis r))
  end.
Proof.
  unfold load_evaluated_stored_write_tickets, load_write_ticket_candidates.
  destruct (write_tickets_of store task_id) as [rs|e] eqn:Ers; simpl; [|eauto].
  destruct (split_candidates_total now rs) as ([ts cs] & -> & Ht & Hc & Hlen).
  { apply Forall_forall. intros r Hr. apply (tv_status r), (write_tickets_of_valid _ _ _ _ Ers Hr). }
  simpl in *. destruct (list_is_empty cs) eqn:Ecs.
  { apply list_is_empty_true in Ecs as ->. exists rs. split_and!; [done|simpl in Hlen; lia|].
    intros s (r & _ & _ & Hn)%Ht. done. }
  destruct (load_write_ticket_control_facts store task_id) as [[facts fp]|e]; [|by auto].
  destruct (sensitive_approval_authorities store task_id now) as [approvals|e]; [|by auto].
  exists rs. split_and!; [done|rewrite length_app, length_fmap; lia|].
  intros s [(r & _ & _ & Hn)%Ht|Hs]%elem_of_app; [done|].
  apply list_elem_of_fmap in Hs as (c & Heq & (r & Hr & -> & Hst & Hx)%Hc).
  destruct (evaluate_active_candidate _ _ _) as [s'|] eqn:Ee; [|done]. injection Heq as ->.
  apply evaluate_active_Reusable in Ee as (-> & Hfp & Hpend & Hn%assess_not_changed).
  exists r, facts, fp, approvals. split_and!; done.
Qed.
End theorems.

Section end_to_end.
Context `{HC : Chrono} (workspace_sha256 : GitWorkspaceContext → string).

(** An admitted Run consumes its ticket: committing the planned consumption
    on the table the decision read succeeds for a new run id, and turns
    exactly that row into a consumed one. *)
Theorem admitted_run_consumes snap id admission raw resolved now t run_id v at_ :
  let fingerprint := tt_write_authority_fingerprint (snap_tickets snap) in
  table_ok (snap_tickets snap) now →
  decide_write_ticket_scope workspace_sha256 snap id admission raw resolved fingerprint now
    = Ok (Some t) →
  trim run_id ≠ EmptyString →
  (∀ i r, tt_rows (snap_tickets snap) !! i = Some r → wt_consumed_by_run_id r ≠ Some run_id) →
  ∃ record s', id = Some (wt_write_ticket_id record) ∧
    apply_ticket_mutation (snap_tickets snap) v at_
      (record_run_consumption t run_id fingerprint) = Ok s' ∧
    tt_rows s' = <[wt_write_ticket_id record := consumed record run_id at_]>
                   (tt_rows (snap_tickets snap)).
Proof.
  intros fingerprint Hok Hd Hrun Hfresh.
  apply decide_scope_Some in Hd as (ticket_id & record & -> & Hr & -> & _ & []).
  simpl in Hr. apply write_ticket_record_Some in Hr.
  destruct (table_rows _ _ Hok _ _ Hr) as [[] _]. subst ticket_id.
  exists record, (set_rows (snap_tickets snap)
    (<[wt_write_ticket_id record := consumed record run_id at_]> (tt_rows (snap_tickets snap)))).
  split_and!; [done| |done]. by apply (consume_total _ now).
Qed.
End end_to_end.

(** ** Witnesses *)

#[local] Existing Instance decimal_chrono.

Definition sample_task : TaskRecord :=
  {| tk_project_id := "p"; tk_task_id := "t1"; tk_mode := Work;
     tk_requested_control_level := RAuto; tk_effective_control_level := Tracked;
     tk_control_level_reason := "policy"; tk_work_phase := Implementation;
     tk_acceptance_policy := Required; tk_acceptance_policy_reason := "policy";
     tk_lifecycle_phase := PExecuting; tk_summary := None;
     tk_shaping := {| goal_summary := None; scope_summary := None; non_goals := [];
                      shaping_baseline_ref := Some "base"; shaping_autonomy_boundary := None |};
     tk_autonomy_boundary := None; tk_scope_revision := 1; tk_close_basis_revision := 1;
     tk_current_change_unit_id := Some "cu1" |}.

Definition sample_change_unit : ChangeUnitRecord :=
  {| cu_project_id := "p"; cu_change_unit_id := "cu1"; cu_task_id := "t1"; cu_status := CUActive;
     cu_is_current := true; cu_basis_state_version := 2; cu_bounded_paths := ["src"];
     cu_write_basis_baseline_ref := Some "base"; cu_write_basis_git_workspace_context := None;
     cu_effect_contract := None;
     cu_recovery_required := false |}.

Definition sample_policy : ProjectWorkflowPolicy :=
  conservative_default sample_fingerprint.

Definition sample_admission : RecordRunWriteAdmission :=
  {| rra_task_id := "t1"; rra_change_unit_id := "cu1"; rra_baseline_ref := "base";
     rra_performed_operation := Some "edit"; rra_task := sample_task;
     rra_change_unit := sample_change_unit; rra_git_workspace_context := None;
     rra_observed_changes :=
       {| oc_changed_paths := ["src/lib.rs"]; oc_product_file_write_observed := true;
          oc_sensitive_categories := []; oc_baseline_ref := Some "base" |} |}.

Definition sample_snapshot : ProjectSnapshot :=
  {| snap_tickets := sample_table; snap_tasks := {["t1" := sample_task]}; snap_mark := λ _, None;
     snap_policy := sample_policy; snap_approvals := [] |}.

Definition sample_resolved : ResolvedTaskControlAuthority :=
  resolve_task_control_authority sample_task None sample_policy.

Lemma record_run_admission_sound_witness : ∃ record,
  write_ticket_of sample_snapshot "wt1" = Ok (Some record) ∧
  admitted (λ _, "") sample_snapshot record sample_admission sample_fingerprint 150.
Proof.
  destruct (record_run_admission_sound (λ _, "") sample_snapshot (Some "wt1") sample_admission true
    sample_resolved sample_fingerprint 150 (record_state sample_record))
    as (id & record & [= <-] & Hr & _ & _ & Ha); [vm_compute; reflexivity|]. eauto.
Defined.

Lemma admitted_run_consumes_witness : ∃ s',
  apply_ticket_mutation sample_table 4 200
    (record_run_consumption (record_state sample_record) "run1" sample_fingerprint) = Ok s' ∧
  tt_rows s' !! "wt1" = Some (consumed sample_record "run1" 200).
Proof.
  destruct (admitted_run_consumes (λ _, "") sample_snapshot (Some "wt1") sample_admission true
    sample_resolved 150 (record_state sample_record) "run1" 4 200)
    as (record & s' & Hid & Hs & Hrows).
  - destruct sample_table_ok as [Hp Hr Hu]. split; [done| |done].
    intros id r Hid. destruct (Hr id r Hid). split; [done|lia].
  - vm_compute. reflexivity.
  - done.
  - intros i r Hr. simpl in Hr. apply lookup_singleton_Some in Hr as [_ <-]. done.
  - exists s'. split; [exact Hs|].
    apply (consume_effect sample_table) in Hs as (ticket & Ht & _ & _ & _ & _ & _ & _ & ->).
    simpl in Ht. apply lookup_singleton_Some in Ht as [_ <-]. apply lookup_insert_eq.
Defined.
