(* ===== verification/Planning.v ===== *)
(** * Planning: preparing a write and issuing Write Tickets

    Models [crates/volicord-core/src/write_ticket/planning.rs]: normalization
    of a request, the control level a write requires, the reasons against it,
    the choice between issuing, reusing and refusing a ticket, and the
    validation of the planned ticket.  Store and file-system reads are the
    operations of the class [PrepareReader]; the best-effort rejection
    diagnostic of [resolve_prepare_write_context] is not modelled. *)

From Stdlib Require Ascii.
From S2P Require Import Prelude Text ProductPath Values Canonical Schema UserAction Workflow.
From S2P Require Import Clock TicketStore Ticket Admission.
Import Relevance.

(** ** Errors *)

Inductive WriteTicketField := FIntendedOperation | FIntendedPaths | FTaskId.

(** [PlanPanic] is a Rust panic, not an error value. *)
Inductive WriteTicketPlanningError :=
| PlanCore (error : CorePipelineError)
| PlanStore (error : StoreError)
| PlanUserAction (detail : string)
| NoActiveTask
| CurrentChangeUnitRequired (task_id : TaskId)
| TaskPhaseTransitionRequired (task_id : TaskId)
| WorkflowActionNotAllowed (task_id : TaskId)
| PlanValidation (field : WriteTicketField) (message : string)
| ProductPathContainment (message : string)
| PlanInvariant (detail : string)
| PlanPanic (detail : string).

(** [From<CorePipelineError>]. *)
Definition planning_error_of_core (error : CorePipelineError) : WriteTicketPlanningError :=
  match error with CoreStore e => PlanStore e | e => PlanCore e end.

(** ** Input and intermediate records *)

Record PrepareWriteInput := {
  pi_project_id : ProjectId;
  pi_task_id : TaskId;
  pi_task_is_current : bool;
  pi_requested_change_unit_id : option ChangeUnitId;
  pi_intended_operation : string;
  pi_intended_paths : list string;
  pi_product_file_write_intended : bool;
  pi_sensitive_categories : list string;
  pi_baseline_ref : BaselineRef;
  pi_actor_source : ActorSource;
  pi_git_workspace_context : option GitWorkspaceContext;
  pi_verification_basis : string;
}.

Record PrepareWriteNormalizedInput := {
  ni_input : PrepareWriteInput;
  ni_plan_now : UtcTimestamp;
  ni_intended_operation : string;
  ni_intended_paths : list string;
  ni_sensitive_categories : list string;
}.

Record PrepareWriteResolvedContext := {
  rc_normalized : PrepareWriteNormalizedInput;
  rc_task : TaskRecord;
  rc_change_unit : ChangeUnitRecord;
  rc_reasons : list WriteTicketDecisionReason;
}.

(** Storage input for an upward-only Task control transition. *)
Record TaskControlLevelUpdate := {
  tcu_task_id : string;
  tcu_effective_control_level : TaskControlLevel;
  tcu_control_level_reason : string;
  tcu_acceptance_policy : option AcceptancePolicy;
  tcu_acceptance_policy_reason : option string;
}.

(** The storage mutations this planner emits. *)
Inductive CoreStorageMutation :=
| MutUpdateControlLevel (update : TaskControlLevelUpdate)
| MutWriteTicket (mutation : WriteTicketMutation).

Record PrepareWritePolicyDecision := {
  pd_normalized : PrepareWriteNormalizedInput;
  pd_task : TaskRecord;
  pd_change_unit : ChangeUnitRecord;
  pd_reasons : list WriteTicketDecisionReason;
  pd_workflow_policy : ProjectWorkflowPolicy;
  pd_control_mutations : list CoreStorageMutation;
}.

(** ** Planned tickets *)

Record PlannedWriteTicket := {
  pw_project_id : ProjectId;
  pw_write_ticket_id : WriteTicketId;
  pw_basis_state_version : N;
  pw_validity_basis : WriteTicketValidityBasis;
  pw_path_scope : WriteTicketPathScope;
  pw_attempt_scope : WriteTicketAttemptScope;
  pw_created_by_actor_source : ActorSource;
  pw_created_by_user_action_resolution_id : option UserActionResolutionId;
  pw_idle_expires_at : option UtcTimestamp;
  pw_created_at : UtcTimestamp;
  pw_metadata : JsonObject;
}.

Inductive PlannedWriteTicketError :=
| PEmptyIdentity (field : string)
| PInvalidBasisStateVersion | PInvalidScopeRevision | PEmptyOperation
| PInvalidAuthorityFingerprint | PInvalidWorkspaceDigest | PTaskIdentityMismatch
| PChangeUnitIdentityMismatch | PScopeRevisionExceedsBasis | PBaselineMismatch
| PTimestampOrder | PDuplicateIntendedPaths | PIntendedPathNotAuthorized
| PProductWriteIntentMismatch.

Record PlannedWriteTicketDraft := {
  dw_project_id : ProjectId;
  dw_task_id : TaskId;
  dw_change_unit_id : ChangeUnitId;
  dw_scope_revision : N;
  dw_baseline_ref : BaselineRef;
  dw_workspace_context_sha256 : option string;
  dw_write_authority_fingerprint : string;
  dw_approval_basis : option NonEmptyApprovalBasis;
  dw_path_scope : WriteTicketPathScope;
  dw_attempt_scope : WriteTicketAttemptScope;
  dw_created_by_actor_source : ActorSource;
  dw_created_by_user_action_resolution_id : option UserActionResolutionId;
  dw_idle_expires_at : option UtcTimestamp;
  dw_created_at : UtcTimestamp;
  dw_metadata : JsonObject;
}.

Inductive PrepareWriteTicketPlan :=
| PlanIssue (draft : PlannedWriteTicketDraft)
| PlanReuse (ticket : StoredWriteTicketState)
| PlanNoTicket (path_scope : WriteTicketPathScope).

Record PrepareWritePlanningOutcome := {
  po_task_id : TaskId;
  po_task : TaskRecord;
  po_change_unit : ChangeUnitRecord;
  po_reasons : list WriteTicketDecisionReason;
  po_decision : PrepareWriteDecision;
  po_pending_user_action_request_ids : list UserActionRequestId;
  po_approval_basis : option NonEmptyApprovalBasis;
  po_ticket : PrepareWriteTicketPlan;
  po_storage_mutations : list CoreStorageMutation;
}.

(** ** The store, as write preparation reads it *)

(** How observing a path in the Product Repository fails. *)
Inductive PathObservationFailure := PathRejected | PathPlatformError (detail : string).

Class PrepareReader `{Chrono} (S : Type) := {
  prepare_ticket_reader :: TicketReader S;
  observe_path : S → ProductRelativePath → result unit PathObservationFailure;
  current_change_unit : S → TaskId → result (option ChangeUnitRecord) StoreError;
  active_write_tickets_of : S → TaskId → result (list StoredWriteTicket) StoreError;
  pending_user_action_authorities :
    S → TaskId → UtcTimestamp → result (list UserActionAuthority) WriteTicketPlanningError;
  active_write_tickets_of_valid : ∀ s task_id rs r,
    active_write_tickets_of s task_id = Ok rs → r ∈ rs →
    ticket_valid r ∧ wt_task_id r = task_id ∧ wt_status r = TActive;
}.

(** ** Text *)

Definition dquote : string := String (Ascii.ascii_of_nat 34) EmptyString.

Section planning.
Context `{HC : Chrono} {S : Type} `{HS : !PrepareReader S}.
Context (workspace_sha256 : GitWorkspaceContext → string).

(** ** Planned ticket validation *)

Fixpoint first_empty_identity (fields : list (string * string)) : option string :=
  match fields with
  | [] => None
  | (field, value) :: rest =>
      if str_is_empty (trim value) then Some field else first_empty_identity rest
  end.

Definition validate_planned (t : PlannedWriteTicket) : result unit PlannedWriteTicketError :=
  let basis := pw_validity_basis t in
  let scope := pw_attempt_scope t in
  let? _ := match first_empty_identity
                    [("project_id", pw_project_id t); ("task_id", vb_task_id basis);
                     ("change_unit_id", vb_change_unit_id basis)] with
            | Some field => Err (PEmptyIdentity field)
            | None => Ok tt
            end in
  let? _ := ensure (str_is_empty (trim (pw_write_ticket_id t))) (PEmptyIdentity "write_ticket_id") in
  let? _ := ensure (is_some_and (pw_created_by_user_action_resolution_id t)
                      (λ id, str_is_empty (trim id)))
              (PEmptyIdentity "created_by_user_action_resolution_id") in
  let? _ := ensure (pw_basis_state_version t =? 0%N) PInvalidBasisStateVersion in
  let? _ := ensure (vb_scope_revision basis =? 0%N) PInvalidScopeRevision in
  let? _ := ensure (str_is_empty (trim (as_intended_operation scope))) PEmptyOperation in
  let? _ := ensure (negb (canonical_write_authority_fingerprint
                            (vb_write_authority_fingerprint basis)))
              PInvalidAuthorityFingerprint in
  let? _ := ensure (is_some_and (vb_workspace_context_sha256 basis)
                      (λ digest, negb (lowercase_sha256_hex digest)))
              PInvalidWorkspaceDigest in
  let? _ := ensure (vb_task_id basis <>? as_task_id scope) PTaskIdentityMismatch in
  let? _ := ensure (vb_change_unit_id basis <>? as_change_unit_id scope)
              PChangeUnitIdentityMismatch in
  let? _ := ensure (pw_basis_state_version t <? vb_scope_revision basis)%N
              PScopeRevisionExceedsBasis in
  let? _ := ensure (vb_baseline_ref basis <>? as_baseline_ref scope) PBaselineMismatch in
  let? _ := ensure (is_some_and (pw_idle_expires_at t) (λ e, ts_le e (pw_created_at t))
                    || negb (representable (pw_created_at t))
                    || is_some_and (pw_idle_expires_at t) (λ e, negb (representable e)))
              PTimestampOrder in
  let? _ := ensure (length (bts_of_list (as_intended_paths scope))
                    <>? length (as_intended_paths scope)) PDuplicateIntendedPaths in
  let? _ := ensure (intended_path_not_covered (pw_path_scope t) (as_intended_paths scope))
              PIntendedPathNotAuthorized in
  let? _ := ensure (negb (Bool.eqb (as_product_file_write_intended scope)
                            (negb (list_is_empty (as_intended_paths scope)))))
              PProductWriteIntentMismatch in
  Ok tt.

Definition planned_new (t : PlannedWriteTicket) : result PlannedWriteTicket PlannedWriteTicketError :=
  let? _ := validate_planned t in Ok t.

Definition persistence_input (t : PlannedWriteTicket) : WriteTicketInsert :=
  {| wi_write_ticket_id := pw_write_ticket_id t; wi_task_id := vb_task_id (pw_validity_basis t);
     wi_change_unit_id := vb_change_unit_id (pw_validity_basis t);
     wi_validity_basis := pw_validity_basis t; wi_path_scope := pw_path_scope t;
     wi_attempt_scope := pw_attempt_scope t;
     wi_created_by_actor_source := pw_created_by_actor_source t;
     wi_created_by_user_action_resolution_id := pw_created_by_user_action_resolution_id t;
     wi_idle_expires_at := pw_idle_expires_at t; wi_created_at := pw_created_at t;
     wi_metadata := pw_metadata t |}.

Definition PlannedWriteTicketError_debug (e : PlannedWriteTicketError) : string :=
  match e with
  | PEmptyIdentity field => "EmptyIdentity(" +:+ dquote +:+ field +:+ dquote +:+ ")"
  | PInvalidBasisStateVersion => "InvalidBasisStateVersion"
  | PInvalidScopeRevision => "InvalidScopeRevision"
  | PEmptyOperation => "EmptyOperation"
  | PInvalidAuthorityFingerprint => "InvalidAuthorityFingerprint"
  | PInvalidWorkspaceDigest => "InvalidWorkspaceDigest"
  | PTaskIdentityMismatch => "TaskIdentityMismatch"
  | PChangeUnitIdentityMismatch => "ChangeUnitIdentityMismatch"
  | PScopeRevisionExceedsBasis => "ScopeRevisionExceedsBasis"
  | PBaselineMismatch => "BaselineMismatch"
  | PTimestampOrder => "TimestampOrder"
  | PDuplicateIntendedPaths => "DuplicateIntendedPaths"
  | PIntendedPathNotAuthorized => "IntendedPathNotAuthorized"
  | PProductWriteIntentMismatch => "ProductWriteIntentMismatch"
  end.

(** The ticket a draft describes, at an id and a state version. *)
Definition draft_ticket (draft : PlannedWriteTicketDraft) (write_ticket_id : WriteTicketId)
    (basis_state_version approval_projection_state_version : N) : PlannedWriteTicket :=
  {| pw_project_id := dw_project_id draft; pw_write_ticket_id := write_ticket_id;
     pw_basis_state_version := basis_state_version;
     pw_validity_basis :=
       {| vb_task_id := dw_task_id draft; vb_change_unit_id := dw_change_unit_id draft;
          vb_scope_revision := dw_scope_revision draft;
          vb_baseline_ref := Some (dw_baseline_ref draft);
          vb_workspace_context_sha256 := dw_workspace_context_sha256 draft;
          vb_write_authority_fingerprint := dw_write_authority_fingerprint draft;
          vb_approval_basis_refs :=
            default [] ((λ basis, resolution_refs basis approval_projection_state_version)
                          <$> dw_approval_basis draft) |};
     pw_path_scope := dw_path_scope draft; pw_attempt_scope := dw_attempt_scope draft;
     pw_created_by_actor_source := dw_created_by_actor_source draft;
     pw_created_by_user_action_resolution_id := dw_created_by_user_action_resolution_id draft;
     pw_idle_expires_at := dw_idle_expires_at draft; pw_created_at := dw_created_at draft;
     pw_metadata := dw_metadata draft |}.

Definition materialize_planned_write_ticket
    (draft : PlannedWriteTicketDraft) (write_ticket_id : WriteTicketId)
    (basis_state_version approval_projection_state_version : N)
    : result PlannedWriteTicket WriteTicketPlanningError :=
  map_err (λ e, PlanInvariant ("planned Write Ticket is internally inconsistent: " +:+
                               PlannedWriteTicketError_debug e))
    (planned_new (draft_ticket draft write_ticket_id basis_state_version
                    approval_projection_state_version)).

Inductive MaterializedPrepareWriteTicket :=
| MatIssued (ticket : PlannedWriteTicket)
| MatReused (ticket : StoredWriteTicketState)
| MatNone (path_scope : WriteTicketPathScope).

Definition write_ticket_effect (m : MaterializedPrepareWriteTicket) : WriteTicketEffect :=
  match m with MatIssued _ => EffectIssued | MatReused _ => EffectReused | MatNone _ => EffectNone end.

Definition materialized_write_ticket_id (m : MaterializedPrepareWriteTicket) : option WriteTicketId :=
  match m with
  | MatIssued ticket => Some (pw_write_ticket_id ticket)
  | MatReused ticket => Some (st_write_ticket_id ticket)
  | MatNone _ => None
  end.

Definition persistence_mutation (m : MaterializedPrepareWriteTicket) : option CoreStorageMutation :=
  match m with
  | MatIssued ticket => Some (MutWriteTicket (InsertTicket (persistence_input ticket)))
  | MatReused _ | MatNone _ => None
  end.

(** ** Normalization and context *)

(** [observe_product_paths] with the error mapping of its caller: the observed
    path keeps its relative identity. *)
Definition observe_product_paths (store : S) (raw_paths : list string)
    : result (list string) WriteTicketPlanningError :=
  let? paths := map_err (λ _, PlanValidation FIntendedPaths
      "intended_paths must be normalized relative Product Repository paths")
    (parse_product_paths raw_paths) in
  try_map (λ path,
    match observe_path store path with
    | Ok _ => Ok (path_str path)
    | Err PathRejected =>
        Err (ProductPathContainment "intended_paths resolve outside the Product Repository")
    | Err (PathPlatformError detail) => Err (PlanCore (CorePlatform detail))
    end) paths.

Definition normalize_prepare_write_input (store : S) (input : PrepareWriteInput)
    (plan_now : UtcTimestamp) : result PrepareWriteNormalizedInput WriteTicketPlanningError :=
  if str_is_empty (trim (pi_intended_operation input)) then
    Err (PlanValidation FIntendedOperation "intended_operation must not be empty")
  else
    let? intended_paths := observe_product_paths store (pi_intended_paths input) in
    Ok {| ni_input := input; ni_plan_now := plan_now;
          ni_intended_operation := trim (pi_intended_operation input);
          ni_intended_paths := intended_paths;
          ni_sensitive_categories := normalized_string_set (pi_sensitive_categories input) |}.

Definition resolve_prepare_write_context (store : S) (normalized : PrepareWriteNormalizedInput)
    : result PrepareWriteResolvedContext WriteTicketPlanningError :=
  let input := ni_input normalized in
  let task_id := pi_task_id input in
  let? task := map_err PlanStore (task_record store task_id) in
  let? '(task, reasons) :=
    ok_or (load_prepare_write_task task task_id (pi_task_is_current input)) NoActiveTask in
  let? change_unit := map_err PlanStore (current_change_unit store task_id) in
  let? change_unit := ok_or change_unit (CurrentChangeUnitRequired task_id) in
  Ok {| rc_normalized := normalized; rc_task := task; rc_change_unit := change_unit;
        rc_reasons := validate_prepare_write_change_unit (pi_requested_change_unit_id input)
                        task_id change_unit reasons |}.

(** ** Control policy *)

Definition update_control (task : TaskRecord) (control : TaskControlLevel) (reason : string)
    (acceptance : AcceptancePolicy) (acceptance_reason : string) : TaskRecord :=
  {| tk_project_id := tk_project_id task; tk_task_id := tk_task_id task; tk_mode := tk_mode task;
     tk_requested_control_level := tk_requested_control_level task;
     tk_effective_control_level := control; tk_control_level_reason := reason;
     tk_work_phase := tk_work_phase task; tk_acceptance_policy := acceptance;
     tk_acceptance_policy_reason := acceptance_reason;
     tk_lifecycle_phase := tk_lifecycle_phase task; tk_summary := tk_summary task;
     tk_shaping := tk_shaping task; tk_autonomy_boundary := tk_autonomy_boundary task;
     tk_scope_revision := tk_scope_revision task;
     tk_close_basis_revision := tk_close_basis_revision task;
     tk_current_change_unit_id := tk_current_change_unit_id task |}.

(** The control level the intended write requires. *)
Definition prepare_write_control (base : TaskControlLevel) (policy : ProjectWorkflowPolicy)
    (normalized : PrepareWriteNormalizedInput) : TaskControlLevel :=
  let next :=
    if (base =? Light) && negb (light_paths_are_allowed policy (ni_intended_paths normalized))
    then Tracked else base in
  if has_denied_path policy (ni_intended_paths normalized)
     || negb (list_is_empty (ni_sensitive_categories normalized))
  then Sensitive else next.

Definition decide_prepare_write_policy (store : S) (resolved : PrepareWriteResolvedContext)
    : result PrepareWritePolicyDecision WriteTicketPlanningError :=
  let normalized := rc_normalized resolved in
  let task := rc_task resolved in
  if tk_mode task =? Advisor then Err (WorkflowActionNotAllowed (tk_task_id task))
  else
    let? policy := map_err PlanStore (project_workflow_policy store) in
    let current_control := tk_effective_control_level task in
    let current_acceptance := tk_acceptance_policy task in
    let? mark := map_err PlanStore (task_policy_control_reevaluation store task) in
    let resolved_control := resolve_task_control_authority task mark policy in
    let base := rt_effective_control_level resolved_control in
    if base =? Observe then
      Err (PlanValidation FTaskId "observe control does not permit product write preparation")
    else
      let has_policy_denied_path := has_denied_path policy (ni_intended_paths normalized) in
      let next_control := prepare_write_control base policy normalized in
      let control_acceptance := acceptance_policy_for_control next_control policy in
      let next_acceptance :=
        if Nat.leb (acceptance_policy_rank control_acceptance)
             (acceptance_policy_rank (rt_acceptance_policy resolved_control))
        then rt_acceptance_policy resolved_control else control_acceptance in
      let acceptance_raised :=
        Nat.ltb (acceptance_policy_rank current_acceptance) (acceptance_policy_rank next_acceptance) in
      let control_raised := control_lt current_control next_control in
      let next_control_reason :=
        if control_raised then
          if has_policy_denied_path then
            "Core raised control to `sensitive` because an intended path matches a denied project-policy prefix."
          else if next_control =? Sensitive then
            "Core raised control to `sensitive` for declared sensitive write effects."
          else if rt_pending_policy_reevaluation resolved_control && (next_control =? base) then
            rt_control_level_reason resolved_control
          else if (current_control =? Light) && (next_control =? Tracked) then
            "Core raised control to `tracked` because intended paths exceed the Light project policy."
          else rt_control_level_reason resolved_control
        else tk_control_level_reason task in
      let next_acceptance_reason :=
        if acceptance_raised && (next_control =? base) && rt_acceptance_raised resolved_control
        then rt_acceptance_policy_reason resolved_control
        else "Effective control `" +:+ TaskControlLevel_as_str next_control +:+
             "` requires final acceptance for the current close basis." in
      let changes := control_raised || acceptance_raised
                     || rt_policy_reevaluation_marked resolved_control in
      let control_mutations :=
        if changes then
          [MutUpdateControlLevel
             {| tcu_task_id := tk_task_id task; tcu_effective_control_level := next_control;
                tcu_control_level_reason := next_control_reason;
                tcu_acceptance_policy := bool_then acceptance_raised next_acceptance;
                tcu_acceptance_policy_reason :=
                  bool_then acceptance_raised next_acceptance_reason |}]
        else [] in
      let task' :=
        if changes then
          update_control task next_control next_control_reason
            (if acceptance_raised then next_acceptance else current_acceptance)
            (if acceptance_raised then next_acceptance_reason else tk_acceptance_policy_reason task)
        else task in
      if tk_work_phase task' <>? Implementation then
        Err (TaskPhaseTransitionRequired (tk_task_id task'))
      else
        Ok {| pd_normalized := normalized; pd_task := task';
              pd_change_unit := rc_change_unit resolved; pd_reasons := rc_reasons resolved;
              pd_workflow_policy := policy; pd_control_mutations := control_mutations |}.

(** ** Reasons *)

Definition typed_product_paths (paths : list string)
    : result (list ProductRelativePath) WriteTicketPlanningError :=
  try_map (λ path, map_err (λ error, PlanCore (CoreInvariant
    ("a normalized Product Repository path became invalid before persistence: " +:+
     ProductPathError_reason error))) (parse_path path)) paths.

Definition effect_contract_reason (violation : EffectContract.EffectContractViolation)
    (change_unit_record : WriteTicketRelatedRecord) : WriteTicketDecisionReason :=
  match violation with
  | EffectContract.FileWriteForbidden =>
      write_decision_reason CEffectContract EffectContractForbidsProductFileWrite
        "The current Change Unit effect contract forbids product-file writes." [change_unit_record]
  | EffectContract.FileWriteNotAllowed =>
      write_decision_reason CEffectContract EffectContractEffectNotAllowed
        "The current Change Unit effect contract does not allow product-file writes."
        [change_unit_record]
  | EffectContract.PathNotAllowed =>
      write_decision_reason CEffectContract EffectContractPathNotAllowed
        "One or more intended paths are outside the current Change Unit effect contract allowed paths."
        [change_unit_record]
  end.

(** The compatibility reasons, in the order they are pushed. *)
Definition compatibility_reasons (policy : PrepareWritePolicyDecision)
    : result (list WriteTicketDecisionReason) WriteTicketPlanningError :=
  let normalized := pd_normalized policy in
  let input := ni_input normalized in
  let paths := ni_intended_paths normalized in
  let change_unit := pd_change_unit policy in
  let change_unit_record :=
    RelCurrentChangeUnit (pi_task_id input) (cu_change_unit_id change_unit) in
  let? contract_reasons :=
    match cu_effect_contract change_unit with
    | None => Ok []
    | Some contract =>
        let? violations := map_err (λ _, PlanCore (CoreInvariant ("typed Change Unit `" +:+
            cu_change_unit_id change_unit +:+ "` has an internally inconsistent effect contract")))
          (EffectContract.product_write_violations contract
             (pi_product_file_write_intended input) paths) in
        Ok ((λ v, effect_contract_reason v change_unit_record) <$> violations)
    end in
  Ok ((if Bool.eqb (pi_product_file_write_intended input) (list_is_empty paths)
       then [write_decision_reason CWriteCompatibility ProductWriteFlagMismatch
               "product_file_write_intended must match the intended Product Repository paths." []]
       else []) ++
      (if negb (workspace_context_matches change_unit (pi_git_workspace_context input))
       then [write_decision_reason CWorkspace WorkspaceContextMismatch
               "The current Git workspace does not match the Change Unit baseline context."
               [change_unit_record]]
       else []) ++
      (if negb (baseline_matches change_unit (pd_task policy) (pi_baseline_ref input))
       then [write_decision_reason CBaseline BaselineMismatch
               "baseline_ref does not match the current write-compatibility basis."
               [change_unit_record]]
       else []) ++
      (if negb (paths_match_current_change_unit paths change_unit)
       then [write_decision_reason CScope PathOutOfScope
               "One or more intended paths are outside the current Change Unit path scope."
               [change_unit_record]]
       else []) ++
      contract_reasons).

(** ** Candidates *)

Record ActiveWriteTicketRequirements := {
  awr_validity_basis : WriteTicketValidityBasis;
  awr_attempt_scope : WriteTicketAttemptScope;
  awr_approval_required : bool;
}.

Definition active_evaluation_facts (e : ActiveStoredWriteTicketEvaluation)
    : WriteTicketSemanticFacts :=
  match e with ActReusable s => st_ticket s | ActInvalidated t => st_ticket (inv_stored t) end.

Definition authority_stale (e : ActiveStoredWriteTicketEvaluation) : bool :=
  match e with
  | ActInvalidated t =>
      match inv_authority t with
      | WriteAuthorityChanged | PendingPolicyReevaluation => true
      | _ => false
      end
  | ActReusable _ => false
  end.

Definition evaluate_prepare_write_candidate
    (candidate : StoredWriteTicketState) (requirements : ActiveWriteTicketRequirements)
    (current : WriteTicketCurrentFacts) (approval_assessment : WriteTicketApprovalAssessment)
    : PrepareWriteCandidateEvaluation :=
  let required_basis := awr_validity_basis requirements in
  let required_scope := awr_attempt_scope requirements in
  let candidate_id := st_write_ticket_id candidate in
  let evaluated := evaluate_active_candidate candidate current approval_assessment in
  if authority_stale evaluated then CandStalePolicy candidate_id
  else
    let basis := sf_validity_basis (active_evaluation_facts evaluated) in
    let scope := sf_attempt_scope (active_evaluation_facts evaluated) in
    let path_scope := sf_path_scope (active_evaluation_facts evaluated) in
    if awr_approval_required requirements
       && (as_intended_operation scope <>? as_intended_operation required_scope)
    then CandIncompatible
    else if (vb_task_id basis <>? vb_task_id required_basis)
            || (vb_change_unit_id basis <>? vb_change_unit_id required_basis)
            || (vb_scope_revision basis <>? vb_scope_revision required_basis)
            || (vb_baseline_ref basis <>? vb_baseline_ref required_basis)
    then CandIncompatible
    else if (as_task_id scope <>? as_task_id required_scope)
            || (as_change_unit_id scope <>? as_change_unit_id required_scope)
            || (as_product_file_write_intended scope <>? as_product_file_write_intended required_scope)
            || (as_baseline_ref scope <>? as_baseline_ref required_scope)
            || negb (bts_subset (bts_of_list (as_sensitive_categories required_scope))
                       (bts_of_list (as_sensitive_categories scope)))
    then CandIncompatible
    else if negb (forallb (λ path,
               existsb (λ prefix, is_within path prefix) (allowed path_scope)
               && negb (existsb (λ prefix, is_within path prefix) (denied path_scope)))
               (as_intended_paths required_scope))
    then CandIncompatible
    else if vb_workspace_context_sha256 basis <>? vb_workspace_context_sha256 required_basis
    then CandStaleWorkspace candidate_id
    else match evaluated with
         | ActReusable ticket => CandCompatible ticket
         | ActInvalidated ticket =>
             if inv_invalidation ticket =? IApprovalBasisChanged
             then CandStaleApproval (st_write_ticket_id (inv_stored ticket))
             else CandStalePolicy (st_write_ticket_id (inv_stored ticket))
         end.

Definition stored_ticket_state_error (error : StoredWriteTicketStateError)
    : WriteTicketPlanningError := PlanCore (stored_state_error error).

(** The loop over the active tickets of the Task. *)
Fixpoint evaluate_candidates
    (project_id : ProjectId) (task : TaskRecord) (plan_now : UtcTimestamp)
    (requirements : ActiveWriteTicketRequirements) (current : WriteTicketCurrentFacts)
    (approval_authorities : list UserActionAuthority) (records : list StoredWriteTicket)
    : result (list PrepareWriteCandidateEvaluation) WriteTicketPlanningError :=
  match records with
  | [] => Ok []
  | record :: rest =>
      let? pre := map_err stored_ticket_state_error
                    (pre_evaluate_stored_write_ticket (from_record record) plan_now) in
      let evaluation :=
        match pre with
        | PreComplete _ => CandIncompatible
        | NeedsCurrentFacts candidate =>
            let requirement :=
              {| apr_project_id := project_id; apr_scope_revision := tk_scope_revision task;
                 apr_effective_control_level := tk_effective_control_level task;
                 apr_scope := sf_attempt_scope (st_ticket candidate);
                 apr_observed_at := plan_now |} in
            evaluate_prepare_write_candidate candidate requirements current
              (assess_write_ticket_approval requirement approval_authorities
                 (vb_approval_basis_refs (sf_validity_basis (st_ticket candidate))))
        end in
      let? evaluations :=
        evaluate_candidates project_id task plan_now requirements current approval_authorities rest in
      Ok (evaluation :: evaluations)
  end.

Definition denied_write_ticket_paths (reasons : list WriteTicketDecisionReason)
    (normalized_paths : list ProductRelativePath) : list ProductRelativePath :=
  if existsb (λ reason,
       match dr_code reason with
       | PathOutOfScope | EffectContractPathNotAllowed
       | EffectContractForbidsProductFileWrite | EffectContractEffectNotAllowed => true
       | _ => false
       end) reasons
  then normalized_paths else [].

Definition write_ticket_path_scope_error (error : WriteTicketPathScopeError) : string :=
  match error with
  | DuplicateAllowedPath => "duplicate allowed path"
  | DuplicateDeniedPath => "duplicate denied path"
  | AllowedDeniedOverlap => "allowed/denied path overlap"
  end.

Definition write_ticket_path_scope (a d : list ProductRelativePath)
    : result WriteTicketPathScope WriteTicketPlanningError :=
  map_err (λ error, PlanInvariant ("prepare-write path facts are internally inconsistent: " +:+
                                   write_ticket_path_scope_error error))
    (path_scope_new a d).

(** The idle expiry of an issued ticket. *)
Definition planned_idle_expiry (timeout_minutes : option N) (plan_now : UtcTimestamp)
    : result (option UtcTimestamp) WriteTicketPlanningError :=
  try_option (λ m,
    if negb (fits_i64 m) then
      Err (PlanCore (CoreStore (InvalidInput
        "workflow write-ticket idle timeout is outside the supported range")))
    else match duration_minutes (Z.of_N m) with
         | None => Err (PlanPanic "TimeDelta::minutes out of bounds")
         | Some duration =>
             ok_or (checked_add plan_now duration) (PlanCore (CoreStore (InvalidInput
               "derived write-ticket idle timeout exceeds the supported timestamp range")))
         end) timeout_minutes.

(** ** The plan *)

(** The attempt the request describes. *)
Definition planned_attempt (policy : PrepareWritePolicyDecision)
    (intended_paths : list ProductRelativePath) : WriteTicketAttemptScope :=
  let normalized := pd_normalized policy in
  let input := ni_input normalized in
  {| as_task_id := pi_task_id input;
     as_change_unit_id := cu_change_unit_id (pd_change_unit policy);
     as_intended_operation := ni_intended_operation normalized;
     as_intended_paths := intended_paths;
     as_product_file_write_intended := pi_product_file_write_intended input;
     as_sensitive_categories := ni_sensitive_categories normalized;
     as_baseline_ref := Some (pi_baseline_ref input) |}.

Definition planned_requirement (policy : PrepareWritePolicyDecision)
    (attempt_scope : WriteTicketAttemptScope) : WriteTicketApprovalRequirement :=
  {| apr_project_id := pi_project_id (ni_input (pd_normalized policy));
     apr_scope_revision := tk_scope_revision (pd_task policy);
     apr_effective_control_level := tk_effective_control_level (pd_task policy);
     apr_scope := attempt_scope;
     apr_observed_at := ni_plan_now (pd_normalized policy) |}.

(** The basis the candidates are compared with. *)
Definition selection_basis (policy : PrepareWritePolicyDecision) : WriteTicketValidityBasis :=
  let input := ni_input (pd_normalized policy) in
  {| vb_task_id := pi_task_id input;
     vb_change_unit_id := cu_change_unit_id (pd_change_unit policy);
     vb_scope_revision := tk_scope_revision (pd_task policy);
     vb_baseline_ref := Some (pi_baseline_ref input);
     vb_workspace_context_sha256 := workspace_sha256 <$> pi_git_workspace_context input;
     vb_write_authority_fingerprint := write_authority_fingerprint (pd_workflow_policy policy);
     vb_approval_basis_refs := [] |}.

(** A pending action that must be resolved before the write is prepared. *)
Definition pending_blocks (context : UserActionOperationContext) (task_id : TaskId)
    (authority : UserActionAuthority) : bool :=
  user_action_blocks_operation authority context
  || ((ua_status authority =? UAPending)
      && user_action_has_current_basis authority
      && (ua_task_id authority =? task_id)
      && existsb (λ required_for,
           match required_for with
           | ForScopeUpdate | ForAdvanceTask | ForPrepareWrite => true
           | _ => false
           end) (ua_required_for authority)).

Definition operation_context (policy : PrepareWritePolicyDecision)
    (requirement : WriteTicketApprovalRequirement) : UserActionOperationContext :=
  let input := ni_input (pd_normalized policy) in
  let change_unit_id := cu_change_unit_id (pd_change_unit policy) in
  {| oc_operation := OpPrepareWrite; oc_task_id := pi_task_id input;
     oc_change_unit_id := Some change_unit_id;
     oc_scope_revision := tk_scope_revision (pd_task policy);
     oc_close_basis := None;
     oc_operation_refs :=
       [state_ref KTask (pi_task_id input) (pi_project_id input) (Some (pi_task_id input)) None;
        state_ref KChangeUnit change_unit_id (pi_project_id input) (Some (pi_task_id input)) None];
     oc_sensitive_approval :=
       bool_then (approval_is_required requirement) (sensitive_requirement requirement) |}.

Definition invalidate_by_id (reason : WriteTicketInvalidationReason) (id : WriteTicketId)
    : CoreStorageMutation :=
  MutWriteTicket (InvalidateById {| wid_write_ticket_id := id; wid_reason := reason |}).

Definition pending_reason (task_id : TaskId) (pending_ids : list UserActionRequestId)
    : list WriteTicketDecisionReason :=
  if negb (list_is_empty pending_ids)
  then [write_decision_reason CUserAction UserActionUnresolved
          "A user action required before write preparation remains unresolved."
          (RelUserActionRequest task_id <$> pending_ids)]
  else [].

Definition ambiguous_reason (task_id : TaskId) (selection : CompatibleWriteTicketSelection)
    : list WriteTicketDecisionReason :=
  match selection with
  | SelectAmbiguous ids =>
      [write_decision_reason CWriteCompatibility CompatibleWriteTicketAmbiguous
         "Multiple compatible active write tickets prevent authority selection."
         (RelWriteTicket task_id <$> ids)]
  | SelectNone | SelectOne _ => []
  end.

Definition retain_reasons (selection : CompatibleWriteTicketSelection)
    (reasons : list WriteTicketDecisionReason) : list WriteTicketDecisionReason :=
  match selection with
  | SelectNone => reasons
  | SelectOne _ | SelectAmbiguous _ =>
      List.filter (λ reason, dr_code reason <>? SensitiveApprovalMissing) reasons
  end.

(** The ticket of the plan, once the reasons are final. *)
Definition plan_ticket (policy : PrepareWritePolicyDecision)
    (attempt_scope : WriteTicketAttemptScope) (approval_basis : option NonEmptyApprovalBasis)
    (selection : CompatibleWriteTicketSelection) (reasons : list WriteTicketDecisionReason)
    : result PrepareWriteTicketPlan WriteTicketPlanningError :=
  let normalized := pd_normalized policy in
  let input := ni_input normalized in
  let allowed_now := list_is_empty reasons in
  let refuse :=
    let denied_paths := denied_write_ticket_paths reasons (as_intended_paths attempt_scope) in
    let allowed_paths :=
      List.filter (λ path, negb (contains path denied_paths)) (as_intended_paths attempt_scope) in
    let? path_scope := write_ticket_path_scope allowed_paths denied_paths in
    Ok (PlanNoTicket path_scope) in
  match selection with
  | SelectOne reusable => if allowed_now then Ok (PlanReuse reusable) else refuse
  | SelectNone =>
      if allowed_now then
        let? idle_expires_at :=
          planned_idle_expiry (write_ticket_idle_timeout_minutes (pd_workflow_policy policy))
            (ni_plan_now normalized) in
        let? path_scope := write_ticket_path_scope (as_intended_paths attempt_scope) [] in
        Ok (PlanIssue
          {| dw_project_id := pi_project_id input; dw_task_id := pi_task_id input;
             dw_change_unit_id := cu_change_unit_id (pd_change_unit policy);
             dw_scope_revision := tk_scope_revision (pd_task policy);
             dw_baseline_ref := pi_baseline_ref input;
             dw_workspace_context_sha256 := workspace_sha256 <$> pi_git_workspace_context input;
             dw_write_authority_fingerprint :=
               write_authority_fingerprint (pd_workflow_policy policy);
             dw_approval_basis := approval_basis; dw_path_scope := path_scope;
             dw_attempt_scope := attempt_scope;
             dw_created_by_actor_source := pi_actor_source input;
             dw_created_by_user_action_resolution_id := first_resolution_id <$> approval_basis;
             dw_idle_expires_at := idle_expires_at; dw_created_at := ni_plan_now normalized;
             dw_metadata := [("verification_basis", Str (pi_verification_basis input))] |})
      else refuse
  | SelectAmbiguous _ => refuse
  end.

Definition plan_prepare_write_mutations (store : S) (policy : PrepareWritePolicyDecision)
    : result PrepareWritePlanningOutcome WriteTicketPlanningError :=
  let normalized := pd_normalized policy in
  let input := ni_input normalized in
  let task := pd_task policy in
  let task_id := pi_task_id input in
  let plan_now := ni_plan_now normalized in
  let? compatibility := compatibility_reasons policy in
  let reasons := pd_reasons policy ++ compatibility in
  let? typed_paths := typed_product_paths (ni_intended_paths normalized) in
  let attempt_scope := planned_attempt policy typed_paths in
  let requirement := planned_requirement policy attempt_scope in
  let? pending := pending_user_action_authorities store task_id plan_now in
  let pending_ids :=
    ua_user_action_request_id <$>
      List.filter (pending_blocks (operation_context policy requirement) task_id) pending in
  let reasons := reasons ++ pending_reason task_id pending_ids in
  let? authorities := map_err planning_error_of_core
    (sensitive_approval_authorities store task_id plan_now) in
  let approval_basis := current_write_ticket_approval_basis requirement authorities in
  let reasons := reasons ++
    (if approval_is_required requirement && is_none approval_basis
     then [write_decision_reason CSensitiveApproval SensitiveApprovalMissing
             "A matching sensitive-action approval is required before write ticket issuance." []]
     else []) in
  let requirements :=
    {| awr_validity_basis := selection_basis policy; awr_attempt_scope := attempt_scope;
       awr_approval_required := approval_is_required requirement |} in
  let current :=
    {| cf_pending_policy_reevaluation := false;
       cf_write_authority_fingerprint := write_authority_fingerprint (pd_workflow_policy policy) |} in
  let? records := map_err PlanStore (active_write_tickets_of store task_id) in
  let? evaluations :=
    evaluate_candidates (pi_project_id input) task plan_now requirements current authorities records in
  let selection := select_prepare_write_candidates evaluations in
  let reasons := retain_reasons (pcs_compatibility selection) reasons
                 ++ ambiguous_reason task_id (pcs_compatibility selection) in
  let? ticket :=
    plan_ticket policy attempt_scope approval_basis (pcs_compatibility selection) reasons in
  Ok {| po_task_id := task_id; po_task := task; po_change_unit := pd_change_unit policy;
        po_reasons := reasons; po_decision := prepare_write_decision reasons;
        po_pending_user_action_request_ids := pending_ids; po_approval_basis := approval_basis;
        po_ticket := ticket;
        po_storage_mutations :=
          pd_control_mutations policy ++
          (invalidate_by_id IApprovalBasisChanged <$> pcs_stale_approval_ticket_ids selection) ++
          (invalidate_by_id IWorkspaceChanged <$> pcs_stale_workspace_ticket_ids selection) ++
          (invalidate_by_id IExplicitRevoke <$> pcs_stale_policy_ticket_ids selection) |}.

Definition plan_prepare_write (store : S) (input : PrepareWriteInput) (operation_now : UtcTimestamp)
    : result PrepareWritePlanningOutcome WriteTicketPlanningError :=
  let? normalized := normalize_prepare_write_input store input operation_now in
  let? resolved := resolve_prepare_write_context store normalized in
  let? policy := decide_prepare_write_policy store resolved in
  plan_prepare_write_mutations store policy.
End planning.
