(* ===== verification/PlanningSound.v ===== *)
(** * PlanningSound: what write preparation guarantees

    Theorems about Planning: the control level never drops and rises to
    sensitive when it must, a ticket is issued or reused exactly when nothing
    speaks against the write, a reused ticket covers the new attempt and its
    approvals, an issued draft materializes, and everything the plan stores is
    accepted by the store. *)

From S2P Require Import Prelude Text ProductPath Values Canonical Schema UserAction Workflow.
From S2P Require Import Clock TicketStore Ticket Admission Planning.
Import Relevance.

(** ** Control *)

Section control.
Context `{HC : Chrono} {S : Type} `{HS : !PrepareReader S}.

Lemma prepare_control_ge base policy normalized :
  control_index base ≤ control_index (prepare_write_control base policy normalized).
Proof.
  unfold prepare_write_control. destruct (_ || _); [destruct base; simpl; lia|].
  destruct (_ && _) eqn:E; [|done]. apply andb_true_iff in E as [E _]. breflect. subst. simpl. lia.
Qed.

Record control_decision (store : S) (resolved : PrepareWriteResolvedContext)
    (policy : PrepareWritePolicyDecision) (mark : option TaskPolicyControlReevaluation) : Prop := {
  cd_normalized : pd_normalized policy = rc_normalized resolved;
  cd_change_unit : pd_change_unit policy = rc_change_unit resolved;
  cd_reasons : pd_reasons policy = rc_reasons resolved;
  cd_policy : project_workflow_policy store = Ok (pd_workflow_policy policy);
  cd_mark : task_policy_control_reevaluation store (rc_task resolved) = Ok mark;
  cd_mode : tk_mode (rc_task resolved) ≠ Advisor;
  cd_work_phase : tk_work_phase (rc_task resolved) = Implementation;
  cd_base : selected_control (rc_task resolved) mark (pd_workflow_policy policy) ≠ Observe;
  cd_control : tk_effective_control_level (pd_task policy) =
    prepare_write_control (selected_control (rc_task resolved) mark (pd_workflow_policy policy))
      (pd_workflow_policy policy) (rc_normalized resolved);
  cd_acceptance :
    acceptance_policy_rank (tk_acceptance_policy (rc_task resolved))
      ≤ acceptance_policy_rank (tk_acceptance_policy (pd_task policy)) ∧
    acceptance_policy_rank
      (acceptance_policy_for_control (tk_effective_control_level (pd_task policy))
         (pd_workflow_policy policy))
      ≤ acceptance_policy_rank (tk_acceptance_policy (pd_task policy));
  cd_scope : tk_scope_revision (pd_task policy) = tk_scope_revision (rc_task resolved) ∧
    tk_task_id (pd_task policy) = tk_task_id (rc_task resolved) ∧
    tk_shaping (pd_task policy) = tk_shaping (rc_task resolved);
  cd_stored : ∀ m, m ∈ pd_control_mutations policy →
    ∃ update, m = MutUpdateControlLevel update ∧
      tcu_task_id update = tk_task_id (rc_task resolved) ∧
      tcu_effective_control_level update = tk_effective_control_level (pd_task policy) ∧
      default (tk_acceptance_policy (rc_task resolved)) (tcu_acceptance_policy update) =
        tk_acceptance_policy (pd_task policy);
  cd_unstored : pd_control_mutations policy = [] → pd_task policy = rc_task resolved;
}.

Lemma decide_policy_spec store resolved policy :
  decide_prepare_write_policy store resolved = Ok policy →
  ∃ mark, control_decision store resolved policy mark.
Proof.
  unfold decide_prepare_write_policy. intros Hd.
  destruct (tk_mode _ =? Advisor) eqn:Emode; [done|].
  destruct (project_workflow_policy store) as [wp|] eqn:Ewp; [|done]. simpl in Hd.
  destruct (task_policy_control_reevaluation store _) as [mark|] eqn:Emark; [|done]. simpl in Hd.
  exists mark. set (task := rc_task resolved) in *.
  set (r := resolve_task_control_authority task mark wp) in *.
  destruct (resolve_no_downgrade task mark wp) as [(Hc & _ & Ha & _) _]. fold r in Hc, Ha.
  pose proof (resolved_control task mark wp) as Hsel. fold r in Hsel. rewrite Hsel in *.
  set (base := selected_control task mark wp) in *.
  destruct (base =? Observe) eqn:Eobs; [done|]. breflect.
  pose proof (prepare_control_ge base wp (rc_normalized resolved)) as Hge.
  set (next := prepare_write_control base wp (rc_normalized resolved)) in *.
  set (next_acc := if Nat.leb _ _ then rt_acceptance_policy r else _) in *.
  assert (acceptance_policy_rank (tk_acceptance_policy task) ≤ acceptance_policy_rank next_acc ∧
          acceptance_policy_rank (acceptance_policy_for_control next wp)
            ≤ acceptance_policy_rank next_acc) as [Hna1 Hna2].
  { subst next_acc. destruct (Nat.leb _ _) eqn:E; [apply Nat.leb_le in E|apply Nat.leb_gt in E]; lia. }
  clearbody next_acc.
  set (creason := if control_lt _ next then _ else _) in *. clearbody creason.
  set (areason := if _ && _ && _ then _ else _) in *. clearbody areason.
  set (araised := Nat.ltb _ _) in *.
  assert (araised = false → next_acc = tk_acceptance_policy task) as Har.
  { subst araised. intros Hl. apply Nat.ltb_ge in Hl. apply acceptance_rank_inj. lia. }
  destruct (control_lt (tk_effective_control_level task) next || araised
            || rt_policy_reevaluation_marked r) eqn:Ech.
  - cbn [tk_work_phase update_control] in Hd.
    destruct (tk_work_phase task =? Implementation) eqn:Ew; [|done]. breflect. simpl in Hd.
    injection Hd as <-. split; simpl; try done.
    + destruct araised; [done|]. by rewrite <-Har.
    + intros m ->%list_elem_of_singleton. eexists. split_and!; [done..|]. simpl.
      by destruct araised.
  - destruct (tk_work_phase task =? Implementation) eqn:Ew; [|done]. breflect. simpl in Hd.
    injection Hd as <-. destruct (Nat.le_gt_cases (control_index next)
      (control_index (tk_effective_control_level task))) as [Hle|Hgt].
    2:{ unfold control_lt in *. exfalso. by apply Nat.ltb_ge in H; lia. }
    assert (tk_effective_control_level task = next) as Heq.
    { apply control_index_inj. lia. }
    split; simpl; try done; [|set_solver].
    rewrite Heq. by rewrite <-Har.
Qed.
End control.

(** ** Planned tickets and the store *)

Section planned.
Context `{HC : Chrono}.

(** The store's view of a planned ticket. *)
Definition planned_record (t : PlannedWriteTicket) : StoredWriteTicket :=
  active_write_ticket_record (pw_project_id t) (persistence_input t) (pw_basis_state_version t).

(** Approval references a planned ticket does not check itself. *)
Definition approval_refs_ok (t : PlannedWriteTicket) : Prop :=
  let refs := vb_approval_basis_refs (pw_validity_basis t) in
  NoDup (resolution_ref_identity <$> refs) ∧
  ∀ a, a ∈ refs → rr_project_id a = pw_project_id t ∧
    rr_task_id a = vb_task_id (pw_validity_basis t) ∧ trim (rr_record_id a) ≠ EmptyString.

(** The identifiers the store checks on insertion. *)
Definition planned_ids_ok (t : PlannedWriteTicket) : Prop :=
  trim (pw_project_id t) ≠ EmptyString ∧ trim (vb_task_id (pw_validity_basis t)) ≠ EmptyString ∧
  trim (vb_change_unit_id (pw_validity_basis t)) ≠ EmptyString ∧
  trim (pw_write_ticket_id t) ≠ EmptyString ∧
  ∀ u, pw_created_by_user_action_resolution_id t = Some u → trim u ≠ EmptyString.

Lemma first_empty_None fields :
  first_empty_identity fields = None ↔ ∀ f v, (f, v) ∈ fields → trim v ≠ EmptyString.
Proof.
  induction fields as [|[f v] fields IH]; simpl; [set_solver|].
  destruct (str_is_empty (trim v)) eqn:E.
  - apply str_is_empty_true in E. split; [done|]. intros Hall. exfalso.
    apply (Hall f v); [constructor|done].
  - apply str_nonempty in E. rewrite IH. split; [|set_solver].
    intros Hall f' v'. rewrite elem_of_cons. intros [[= -> ->]|?]; eauto.
Qed.

(** Validation of the plan, the approval references apart, is validation by
    the store. *)
Lemma validate_planned_spec t :
  approval_refs_ok t →
  validate_planned t = Ok tt ↔ planned_ids_ok t ∧ ticket_valid (planned_record t).
Proof.
  intros [Hnd Hrefs]. unfold validate_planned, planned_ids_ok.
  assert (∀ (o : option string) (k : result unit PlannedWriteTicketError),
    (let? _ := match o with Some f => Err (PEmptyIdentity f) | None => Ok tt end in k)
      = Ok tt ↔ o = None ∧ k = Ok tt) as Hcol by (intros [] k; naive_solver).
  repeat (rewrite ensure_bind || rewrite Hcol). clear Hcol.
  rewrite first_empty_None, !orb_false_iff, !neqb_false, !is_some_and_false, !eqb_false,
    !str_nonempty, !negb_false_iff, intended_paths_covered, Bool.eqb_true_iff,
    bts_of_list_length_NoDup, N.ltb_ge.
  setoid_rewrite str_nonempty. setoid_rewrite negb_false_iff. unfold ts_le.
  setoid_rewrite Z.leb_gt. split.
  - intros Hv. destruct_and! Hv.
    assert (∀ f v, (f, v) ∈ [("project_id", pw_project_id t);
      ("task_id", vb_task_id (pw_validity_basis t));
      ("change_unit_id", vb_change_unit_id (pw_validity_basis t))] → trim v ≠ EmptyString) as Hids
      by done.
    split; [split_and!; try done; [apply (Hids "project_id")|apply (Hids "task_id")|
      apply (Hids "change_unit_id")]; set_solver|].
    split; simpl; try done; try lia.
    + intros a Ha. by destruct (Hrefs a Ha) as (? & ? & ?).
    + intros a Ha. by destruct (Hrefs a Ha) as (? & ? & ?).
  - intros [(H1 & H2 & H3 & H4 & H5) []]. simpl in *. destruct_and!.
    split_and!; try done; try lia.
    intros f v. rewrite !elem_of_cons, elem_of_nil.
    intros [[= -> ->]|[[= -> ->]|[[= -> ->]|[]]]]; done.
Qed.

(** A validated plan is accepted by the store at a fresh id. *)
Lemma planned_inserts s t :
  approval_refs_ok t → validate_planned t = Ok tt →
  tt_project_id s = pw_project_id t → tt_rows s !! pw_write_ticket_id t = None →
  fits_i64 (pw_basis_state_version t) = true →
  ticket_owned (tt_owners s) (planned_record t) = true →
  insert_write_ticket s (persistence_input t) (pw_basis_state_version t) =
    Ok (set_rows s (<[pw_write_ticket_id t := planned_record t]> (tt_rows s))).
Proof.
  intros Hrefs [(H1 & H2 & H3 & H4 & H5) Hv]%(validate_planned_spec _ Hrefs) Hp Hn Hf Ho.
  unfold insert_write_ticket. simpl.
  rewrite !(proj2 (validate_identifier_Ok _ _)) by done.
  assert (match pw_created_by_user_action_resolution_id t with
    | Some id => validate_identifier "created_by_user_action_resolution_id" id
    | None => Ok tt end = Ok tt) as ->.
  { destruct (pw_created_by_user_action_resolution_id t); [|done].
    by apply validate_identifier_Ok, H5. }
  rewrite Hp. fold (planned_record t). rewrite (proj2 (validate_spec _) Hv). simpl.
  by rewrite Hf, Hn, Ho.
Qed.
End planned.

(** ** Candidates *)

Section candidates.
Context `{HC : Chrono}.

(** A stored ticket covers a required basis and attempt. *)
Record ticket_covers (ticket : WriteTicketSemanticFacts) (r : ActiveWriteTicketRequirements) : Prop := {
  tc_operation : awr_approval_required r = true →
    as_intended_operation (sf_attempt_scope ticket) = as_intended_operation (awr_attempt_scope r);
  tc_basis_task : vb_task_id (sf_validity_basis ticket) = vb_task_id (awr_validity_basis r);
  tc_basis_change_unit :
    vb_change_unit_id (sf_validity_basis ticket) = vb_change_unit_id (awr_validity_basis r);
  tc_scope_revision :
    vb_scope_revision (sf_validity_basis ticket) = vb_scope_revision (awr_validity_basis r);
  tc_basis_baseline :
    vb_baseline_ref (sf_validity_basis ticket) = vb_baseline_ref (awr_validity_basis r);
  tc_task : as_task_id (sf_attempt_scope ticket) = as_task_id (awr_attempt_scope r);
  tc_change_unit :
    as_change_unit_id (sf_attempt_scope ticket) = as_change_unit_id (awr_attempt_scope r);
  tc_write_intent : as_product_file_write_intended (sf_attempt_scope ticket) =
    as_product_file_write_intended (awr_attempt_scope r);
  tc_baseline : as_baseline_ref (sf_attempt_scope ticket) = as_baseline_ref (awr_attempt_scope r);
  tc_categories : ∀ c, c ∈ as_sensitive_categories (awr_attempt_scope r) →
    c ∈ as_sensitive_categories (sf_attempt_scope ticket);
  tc_paths : ∀ p, p ∈ as_intended_paths (awr_attempt_scope r) →
    (∃ a, a ∈ allowed (sf_path_scope ticket) ∧ is_within p a = true) ∧
    ∀ d, d ∈ denied (sf_path_scope ticket) → is_within p d = false;
  tc_workspace : vb_workspace_context_sha256 (sf_validity_basis ticket) =
    vb_workspace_context_sha256 (awr_validity_basis r);
}.

Lemma prepare_candidate_Compatible candidate r current assessment t :
  evaluate_prepare_write_candidate candidate r current assessment = CandCompatible t →
  evaluate_active_candidate candidate current assessment = ActReusable t ∧ t = candidate ∧
  ticket_covers (st_ticket candidate) r.
Proof.
  unfold evaluate_prepare_write_candidate.
  destruct (evaluate_active_candidate candidate current assessment) as [t'|inv] eqn:Ee; simpl.
  2:{ intros Hc. unravel Hc. }
  apply evaluate_active_Reusable in Ee as (-> & _). intros Hc.
  repeat match type of Hc with (if ?b then _ else _) = _ => destruct b eqn:?; [discriminate|] end.
  injection Hc as <-. split_and!; [done..|].
  repeat match goal with H : negb _ = false |- _ => apply negb_false_iff in H end.
  match goal with H : forallb _ _ = true |- _ => rewrite forallb_elem in H; rename H into Hp end.
  breflect. split; try done.
  - match goal with H : _ ∨ _ |- _ => destruct H as [Ha|Ha] end; [congruence|]. intros _.
    by breflect.
  - match goal with H : bts_subset _ _ = true |- _ =>
      apply bts_subset_elem in H || rewrite bts_subset_elem in H; rename H into Hs end.
    intros c Hc. specialize (Hs c). rewrite !elem_of_bts_of_list in Hs. auto.
  - intros p Hin. apply Hp, andb_true_iff in Hin as [Ha Hd]. split; [by apply existsb_elem|].
    by rewrite negb_true_iff, existsb_false in Hd.
Qed.

Lemma prepare_candidate_stale candidate r current assessment id :
  let e := evaluate_prepare_write_candidate candidate r current assessment in
  e = CandStaleApproval id ∨ e = CandStaleWorkspace id ∨ e = CandStalePolicy id →
  id = st_write_ticket_id candidate.
Proof.
  simpl. unfold evaluate_prepare_write_candidate.
  pose proof (evaluate_active_stored candidate current assessment) as Hst.
  destruct (evaluate_active_candidate candidate current assessment) as [t|inv] eqn:Ee; simpl in *;
    intros [Hc|[Hc|Hc]]; unravel Hc; by subst.
Qed.

(** The approvals of a covering ticket approve the new attempt. *)
Lemma approval_transfers project_id revision control now ticket r a :
  ticket_covers ticket r → awr_approval_required r = true →
  (∀ p, p ∈ allowed (sf_path_scope ticket) →
     ∃ q, q ∈ as_intended_paths (sf_attempt_scope ticket) ∧ is_within p q = true) →
  requirement_matches
    {| apr_project_id := project_id; apr_scope_revision := revision;
       apr_effective_control_level := control; apr_scope := sf_attempt_scope ticket;
       apr_observed_at := now |} a = true →
  requirement_matches
    {| apr_project_id := project_id; apr_scope_revision := revision;
       apr_effective_control_level := control; apr_scope := awr_attempt_scope r;
       apr_observed_at := now |} a = true.
Proof.
  intros [Hop _ _ _ _ Ht Hcu _ Hb Hc Hp _] Hreq Hallowed. unfold requirement_matches, has_current_owner.
  simpl. rewrite !andb_true_iff, <-Ht. intros [Howner Happ]. split; [done|].
  revert Happ. unfold current_sensitive_approval. simpl.
  destruct (negb _ || negb _); [done|]. destruct (ua_basis a) as [basis|]; [|done].
  rewrite !early_false, !orb_false, !neqb_false, <-Ht, <-Hcu, <-Hb. intros [Hcoord Hs].
  split; [done|]. apply is_some_and_true in Hs as (scope & Hscope & Hm%scope_matches_spec).
  apply is_some_and_true. exists scope. split; [done|]. apply scope_matches_spec.
  destruct Hm as [He Ho Hcat (approved & Happ & Hcov)]. simpl in *. split; simpl; try done.
  - by rewrite <-Hop.
  - auto.
  - exists approved. split; [done|]. intros path (p & -> & Hin)%list_elem_of_fmap.
    destruct (Hp p Hin) as [(al & Hal & Hw) _]. destruct (Hallowed al Hal) as (q & Hq & Hw').
    destruct (Hcov (path_str q)) as (q' & ap & Heq & Hap & Hpre).
    { apply list_elem_of_fmap. eauto. }
    exists p, ap. split_and!; [done..|]. apply is_within_components.
    eapply is_within_trans; [done|]. eapply is_within_trans; [done|].
    apply path_str_inj in Heq as ->. by apply is_within_components.
Qed.

(** One evaluation per record, in order. *)
Definition candidate_of (project_id : ProjectId) (task : TaskRecord) (now : UtcTimestamp)
    (r : ActiveWriteTicketRequirements) (current : WriteTicketCurrentFacts)
    (authorities : list UserActionAuthority) (record : StoredWriteTicket)
    (e : PrepareWriteCandidateEvaluation) : Prop :=
  e = CandIncompatible ∨
  wt_status record = TActive ∧ (∀ x, wt_idle_expires_at record = Some x → (now < x)%Z) ∧
  e = evaluate_prepare_write_candidate (record_state record) r current
        (assess_write_ticket_approval
           {| apr_project_id := project_id; apr_scope_revision := tk_scope_revision task;
              apr_effective_control_level := tk_effective_control_level task;
              apr_scope := wt_attempt_scope record; apr_observed_at := now |}
           authorities (vb_approval_basis_refs (wt_validity_basis record))).

Lemma evaluate_candidates_total project_id task now r current authorities records :
  Forall (λ record, status_columns_are_valid record = true) records →
  ∃ es, evaluate_candidates project_id task now r current authorities records = Ok es ∧
    Forall2 (candidate_of project_id task now r current authorities) records es.
Proof.
  induction 1 as [|record records Hr _ (es & Hes & Hall)]; simpl; [eauto|].
  destruct (pre_evaluate_valid_row record now Hr) as (p & -> & Hm). simpl. rewrite Hes.
  eexists. split; [done|]. constructor; [|done]. unfold candidate_of.
  destruct p as [|c]; [by left|]. right. simpl in Hm. destruct Hm as (-> & ? & ?).
  split_and!; done.
Qed.
End candidates.

(** ** The plan, unfolded *)

Section plan.
Context `{HC : Chrono} {S : Type} `{HS : !PrepareReader S}.
Context (workspace_sha256 : GitWorkspaceContext → string).

Definition plan_requirements (policy : PrepareWritePolicyDecision) (paths : list ProductRelativePath)
    : ActiveWriteTicketRequirements :=
  {| awr_validity_basis := selection_basis workspace_sha256 policy;
     awr_attempt_scope := planned_attempt policy paths;
     awr_approval_required :=
       approval_is_required (planned_requirement policy (planned_attempt policy paths)) |}.

(** What one run of the planner saw and computed. *)
Record plan_trace (store : S) (policy : PrepareWritePolicyDecision) (o : PrepareWritePlanningOutcome)
    (paths : list ProductRelativePath) (compatibility : list WriteTicketDecisionReason)
    (authorities : list UserActionAuthority) (records : list StoredWriteTicket)
    (es : list PrepareWriteCandidateEvaluation) : Prop := {
  pt_compatibility : compatibility_reasons policy = Ok compatibility;
  pt_paths : ni_intended_paths (pd_normalized policy) = path_str <$> paths;
  pt_pending : ∃ pending,
    pending_user_action_authorities store (pi_task_id (ni_input (pd_normalized policy)))
      (ni_plan_now (pd_normalized policy)) = Ok pending ∧
    po_pending_user_action_request_ids o =
      ua_user_action_request_id <$>
        List.filter (pending_blocks
          (operation_context policy (planned_requirement policy (planned_attempt policy paths)))
          (pi_task_id (ni_input (pd_normalized policy)))) pending;
  pt_authorities :
    sensitive_approval_authorities store (pi_task_id (ni_input (pd_normalized policy)))
      (ni_plan_now (pd_normalized policy)) = Ok authorities;
  pt_basis : po_approval_basis o =
    current_write_ticket_approval_basis
      (planned_requirement policy (planned_attempt policy paths)) authorities;
  pt_records : active_write_tickets_of store (pi_task_id (ni_input (pd_normalized policy))) = Ok records;
  pt_candidates : Forall2
    (candidate_of (pi_project_id (ni_input (pd_normalized policy))) (pd_task policy)
       (ni_plan_now (pd_normalized policy)) (plan_requirements policy paths)
       {| cf_pending_policy_reevaluation := false;
          cf_write_authority_fingerprint := write_authority_fingerprint (pd_workflow_policy policy) |}
       authorities) records es;
  pt_reasons :
    po_reasons o =
      retain_reasons (pcs_compatibility (select_prepare_write_candidates es))
        (((pd_reasons policy ++ compatibility) ++
          pending_reason (po_task_id o) (po_pending_user_action_request_ids o)) ++
         (if awr_approval_required (plan_requirements policy paths) && is_none (po_approval_basis o)
          then [write_decision_reason CSensitiveApproval SensitiveApprovalMissing
                  "A matching sensitive-action approval is required before write ticket issuance." []]
          else [])) ++
      ambiguous_reason (po_task_id o) (pcs_compatibility (select_prepare_write_candidates es));
  pt_ticket :
    plan_ticket workspace_sha256 policy (planned_attempt policy paths) (po_approval_basis o)
      (pcs_compatibility (select_prepare_write_candidates es)) (po_reasons o) = Ok (po_ticket o);
  pt_decision : po_decision o = prepare_write_decision (po_reasons o);
  pt_outcome : po_task o = pd_task policy ∧ po_change_unit o = pd_change_unit policy ∧
    po_task_id o = pi_task_id (ni_input (pd_normalized policy));
  pt_mutations : po_storage_mutations o =
    pd_control_mutations policy ++
    (invalidate_by_id IApprovalBasisChanged <$>
       pcs_stale_approval_ticket_ids (select_prepare_write_candidates es)) ++
    (invalidate_by_id IWorkspaceChanged <$>
       pcs_stale_workspace_ticket_ids (select_prepare_write_candidates es)) ++
    (invalidate_by_id IExplicitRevoke <$>
       pcs_stale_policy_ticket_ids (select_prepare_write_candidates es));
}.

Lemma typed_paths_Ok raw paths : typed_product_paths raw = Ok paths → raw = path_str <$> paths.
Proof.
  unfold typed_product_paths. rewrite try_map_Ok. induction 1 as [|r p raw paths Hp _ IH]; [done|].
  destruct (parse_path r) as [p'|] eqn:E; simpl in Hp; [|done]. simplify_eq.
  apply parse_path_Ok in E. simpl. by rewrite E.
Qed.

Lemma plan_mutations_trace store policy o :
  plan_prepare_write_mutations workspace_sha256 store policy = Ok o →
  ∃ paths compatibility authorities records es,
    plan_trace store policy o paths compatibility authorities records es.
Proof.
  unfold plan_prepare_write_mutations. intros Hp.
  destruct (compatibility_reasons policy) as [compat|] eqn:Ec; [|done].
  destruct (typed_product_paths _) as [paths|] eqn:Et; [|done]. apply typed_paths_Ok in Et.
  destruct (pending_user_action_authorities store _ _) as [pending|] eqn:Epa; [|done].
  destruct (sensitive_approval_authorities store _ _) as [auth|] eqn:Ea; [|done]. simpl in Hp.
  destruct (active_write_tickets_of store _) as [records|] eqn:Er; [|done]. simpl in Hp.
  edestruct (evaluate_candidates_total (pi_project_id (ni_input (pd_normalized policy)))
    (pd_task policy) (ni_plan_now (pd_normalized policy)) (plan_requirements policy paths)
    {| cf_pending_policy_reevaluation := false;
       cf_write_authority_fingerprint := write_authority_fingerprint (pd_workflow_policy policy) |}
    auth records) as (es & Hes & Hall).
  { apply Forall_forall. intros r Hr. apply (tv_status r).
    apply (active_write_tickets_of_valid _ _ _ _ Er Hr). }
  unfold plan_requirements in Hes. rewrite Hes in Hp.
  destruct (plan_ticket _ _ _ _ _ _) as [ticket|] eqn:Eti; [|done]. injection Hp as <-.
  exists paths, compat, auth, records, es. split; simpl; try done.
  by eexists.
Qed.

(** Nothing in the current scope speaks against the write. *)
Record scope_permits (policy : PrepareWritePolicyDecision) : Prop := {
  sp_intent : pi_product_file_write_intended (ni_input (pd_normalized policy)) =
    negb (list_is_empty (ni_intended_paths (pd_normalized policy)));
  sp_workspace : workspace_context_matches (pd_change_unit policy)
    (pi_git_workspace_context (ni_input (pd_normalized policy))) = true;
  sp_baseline : baseline_matches (pd_change_unit policy) (pd_task policy)
    (pi_baseline_ref (ni_input (pd_normalized policy))) = true;
  sp_paths : paths_match_current_change_unit (ni_intended_paths (pd_normalized policy))
    (pd_change_unit policy) = true;
  sp_contract : ∀ contract, cu_effect_contract (pd_change_unit policy) = Some contract →
    EffectContract.product_write_violations contract
      (pi_product_file_write_intended (ni_input (pd_normalized policy)))
      (ni_intended_paths (pd_normalized policy)) = Ok [];
}.

Lemma flag_nil {A} (b : bool) (x : A) l : (if b then [x] else []) ++ l = [] ↔ b = false ∧ l = [].
Proof. destruct b; simpl; naive_solver. Qed.

Lemma compatibility_nil policy : compatibility_reasons policy = Ok [] ↔ scope_permits policy.
Proof.
  unfold compatibility_reasons.
  set (contract := match cu_effect_contract (pd_change_unit policy) with None => _ | Some _ => _ end).
  assert (contract = Ok [] ↔ ∀ c, cu_effect_contract (pd_change_unit policy) = Some c →
    EffectContract.product_write_violations c
      (pi_product_file_write_intended (ni_input (pd_normalized policy)))
      (ni_intended_paths (pd_normalized policy)) = Ok []) as Hc.
  { subst contract. destruct (cu_effect_contract _) as [c|]; [|by split].
    destruct (EffectContract.product_write_violations _ _ _) as [vs|] eqn:E; simpl.
    - split; [intros [= ->%fmap_nil_inv] ? [= <-]; done|].
      intros Hv. specialize (Hv c eq_refl). rewrite E in Hv. by injection Hv as ->.
    - split; [done|]. intros Hv. specialize (Hv c eq_refl). congruence. }
  clearbody contract. destruct contract as [reasons|]; [|split; [done|]].
  2:{ intros []. by apply Hc in sp_contract0. }
  transitivity ((Bool.eqb (pi_product_file_write_intended (ni_input (pd_normalized policy)))
      (list_is_empty (ni_intended_paths (pd_normalized policy))) = false ∧
    negb (workspace_context_matches (pd_change_unit policy)
      (pi_git_workspace_context (ni_input (pd_normalized policy)))) = false ∧
    negb (baseline_matches (pd_change_unit policy) (pd_task policy)
      (pi_baseline_ref (ni_input (pd_normalized policy)))) = false ∧
    negb (paths_match_current_change_unit (ni_intended_paths (pd_normalized policy))
      (pd_change_unit policy)) = false ∧ reasons = [])).
  { rewrite <-!flag_nil. split; [by intros [= ->]|by intros ->]. }
  rewrite !negb_false_iff. split.
  - intros (Hi & ? & ? & ? & ->). split; try done; [|by apply Hc].
    destruct (pi_product_file_write_intended _), (list_is_empty _); done.
  - intros [Hi ? ? ? Hv%Hc]. split_and!; try done; [|by injection Hv].
    rewrite Hi. by destruct (list_is_empty _).
Qed.

Lemma compatibility_codes policy reasons r :
  compatibility_reasons policy = Ok reasons → r ∈ reasons → dr_code r ≠ SensitiveApprovalMissing.
Proof.
  unfold compatibility_reasons.
  destruct (match cu_effect_contract (pd_change_unit policy) with None => _ | Some _ => _ end)
    as [contract|] eqn:Ec; [|done]. intros [= <-].
  assert (∀ (b : bool) x (l : list WriteTicketDecisionReason),
    dr_code x ≠ SensitiveApprovalMissing → (r ∈ l → dr_code r ≠ SensitiveApprovalMissing) →
    r ∈ (if b then [x] else []) ++ l → dr_code r ≠ SensitiveApprovalMissing) as Hpush.
  { intros b x l Hx Hl. destruct b; simpl; [|done]. intros [->|?]%elem_of_cons; auto. }
  do 4 (apply Hpush; [done|]). intros Hr.
  destruct (cu_effect_contract _) as [c|]; [|by simplify_eq; set_solver].
  destruct (EffectContract.product_write_violations _ _ _) as [vs|]; simpl in Ec; [|done].
  simplify_eq. apply list_elem_of_fmap in Hr as (v & -> & _). by destruct v.
Qed.

Lemma retain_nil selection l1 l2 :
  (∀ r, r ∈ l1 → dr_code r ≠ SensitiveApprovalMissing) →
  retain_reasons selection (l1 ++ l2) = [] →
  l1 = [] ∧ (selection = SelectNone → l2 = []).
Proof.
  intros Hl. destruct selection as [|t|ids]; simpl.
  { intros [-> ->]%app_nil. done. }
  all: intros Hf; split; [|done]; destruct l1 as [|r l1]; [done|]; simpl in Hf;
    assert (dr_code r ≠ SensitiveApprovalMissing) as Hr by (apply Hl; constructor);
    apply eqb_false in Hr; rewrite Hr in Hf; done.
Qed.

Lemma plan_allowed_facts store policy o paths compat auth records es :
  plan_trace store policy o paths compat auth records es →
  (∀ r, r ∈ pd_reasons policy → dr_code r ≠ SensitiveApprovalMissing) →
  po_reasons o = [] →
  pd_reasons policy = [] ∧ scope_permits policy ∧ po_pending_user_action_request_ids o = [] ∧
  (pcs_compatibility (select_prepare_write_candidates es) = SelectNone →
   awr_approval_required (plan_requirements policy paths) = true → is_Some (po_approval_basis o)) ∧
  ∀ ids, pcs_compatibility (select_prepare_write_candidates es) ≠ SelectAmbiguous ids.
Proof.
  intros [Hcompat _ _ _ _ _ _ Hreasons _ _ _ _] Hcodes Hnil. rewrite Hnil in Hreasons.
  symmetry in Hreasons. apply app_nil in Hreasons as [Hret Hamb].
  apply retain_nil in Hret as [Hbase Hlast].
  - apply app_nil in Hbase as [Hbase Hpend]. apply app_nil in Hbase as [-> ->].
    split_and!; [done|by apply compatibility_nil| | |].
    + unfold pending_reason in Hpend. by destruct (po_pending_user_action_request_ids o).
    + intros Hsel Hreq. specialize (Hlast Hsel). rewrite Hreq in Hlast. simpl in Hlast.
      destruct (po_approval_basis o); [by eexists|done].
    + intros ids Hs. by rewrite Hs in Hamb.
  - intros r [[?|?]%elem_of_app|Hp]%elem_of_app; [auto|by eapply compatibility_codes|].
    unfold pending_reason in Hp. case_match; [|set_solver].
    by apply list_elem_of_singleton in Hp as ->.
Qed.

(** The reasons of a resolved context concern its currency only. *)
Lemma resolved_reasons store normalized resolved r :
  resolve_prepare_write_context store normalized = Ok resolved →
  r ∈ rc_reasons resolved → dr_code r = ScopeNotCurrent.
Proof.
  unfold resolve_prepare_write_context, validate_prepare_write_change_unit. intros Hres.
  destruct (task_record store _) as [[task|]|]; simpl in Hres; [|done..].
  destruct (current_change_unit store _) as [[cu|]|]; simpl in Hres; [|done..].
  injection Hres as <-. simpl.
  destruct (is_some_and _ _), (pi_task_is_current _); simpl;
    rewrite ?elem_of_cons, ?elem_of_nil; intros Hr; destruct_or? Hr; by subst.
Qed.

Lemma resolve_normalized store normalized resolved :
  resolve_prepare_write_context store normalized = Ok resolved → rc_normalized resolved = normalized.
Proof.
  unfold resolve_prepare_write_context. intros Hres.
  destruct (task_record store _) as [[task|]|]; simpl in Hres; [|done..].
  destruct (current_change_unit store _) as [[cu|]|]; simpl in Hres; [|done..].
  by injection Hres as <-.
Qed.

Lemma resolved_rows store normalized resolved :
  resolve_prepare_write_context store normalized = Ok resolved →
  task_record store (pi_task_id (ni_input normalized)) = Ok (Some (rc_task resolved)) ∧
  current_change_unit store (pi_task_id (ni_input normalized)) = Ok (Some (rc_change_unit resolved)).
Proof.
  unfold resolve_prepare_write_context. intros Hres.
  destruct (task_record store _) as [[task|]|]; simpl in Hres; [|done..].
  destruct (current_change_unit store _) as [[cu|]|]; simpl in Hres; [|done..].
  by injection Hres as <-.
Qed.

Lemma normalize_operation store input now normalized :
  normalize_prepare_write_input store input now = Ok normalized →
  trim (ni_intended_operation normalized) ≠ EmptyString.
Proof.
  unfold normalize_prepare_write_input. destruct (str_is_empty _) eqn:E; [done|].
  destruct (observe_product_paths _ _) as [paths|]; [|done]. intros [= <-]. simpl.
  rewrite trim_idemp. by apply str_nonempty.
Qed.

Lemma observed_paths store raw paths :
  observe_product_paths store raw = Ok paths → paths = raw.
Proof.
  unfold observe_product_paths. destruct (parse_product_paths raw) as [ps|] eqn:E; simpl; [|done].
  apply parse_product_paths_Ok in E as ->. rewrite try_map_Ok.
  induction 1 as [|p q ps qs Hq _ IH]; [done|]. simpl. f_equal; [|done].
  destruct (observe_path store p) as [|[]]; by simplify_eq.
Qed.

Lemma normalize_paths store input now normalized :
  normalize_prepare_write_input store input now = Ok normalized →
  ni_intended_paths normalized = pi_intended_paths input.
Proof.
  unfold normalize_prepare_write_input. destruct (str_is_empty _); [done|].
  destruct (observe_product_paths _ _) as [paths|] eqn:E; [|done]. intros [= <-].
  by apply observed_paths in E.
Qed.

Lemma normalized_fields store input now normalized :
  normalize_prepare_write_input store input now = Ok normalized →
  ni_intended_operation normalized = trim (pi_intended_operation input) ∧
  ni_sensitive_categories normalized = normalized_string_set (pi_sensitive_categories input).
Proof.
  unfold normalize_prepare_write_input. destruct (str_is_empty _); [done|].
  destruct (observe_product_paths _ _) as [paths|] eqn:E; [|done]. by intros [= <-].
Qed.

(** A context without reasons is the current Task with the requested Change Unit. *)
Lemma resolved_current store normalized resolved :
  resolve_prepare_write_context store normalized = Ok resolved → rc_reasons resolved = [] →
  pi_task_is_current (ni_input normalized) = true ∧
  ∀ id, pi_requested_change_unit_id (ni_input normalized) = Some id →
    id = cu_change_unit_id (rc_change_unit resolved).
Proof.
  unfold resolve_prepare_write_context, validate_prepare_write_change_unit. intros Hres.
  destruct (task_record store _) as [[task|]|]; simpl in Hres; [|done..].
  destruct (current_change_unit store _) as [[cu|]|]; simpl in Hres; [|done..].
  injection Hres as <-. simpl.
  destruct (pi_task_is_current _); [|by destruct (is_some_and _ _)].
  destruct (is_some_and _ _) eqn:Hreq; [done|]. intros _. split; [done|].
  intros id Hid. rewrite Hid in Hreq. by apply (proj1 (neqb_false _ _)) in Hreq.
Qed.

Lemma normalized_input store input now normalized :
  normalize_prepare_write_input store input now = Ok normalized →
  ni_input normalized = input ∧ ni_plan_now normalized = now.
Proof.
  unfold normalize_prepare_write_input. destruct (str_is_empty _); [done|].
  destruct (observe_product_paths _ _) as [paths|] eqn:E; [|done]. by intros [= <-].
Qed.

(** The plan as a whole: its stages. *)
Lemma plan_stages store input now o :
  plan_prepare_write workspace_sha256 store input now = Ok o →
  ∃ normalized resolved policy,
    normalize_prepare_write_input store input now = Ok normalized ∧
    resolve_prepare_write_context store normalized = Ok resolved ∧
    decide_prepare_write_policy store resolved = Ok policy ∧
    plan_prepare_write_mutations workspace_sha256 store policy = Ok o ∧
    (∀ r, r ∈ pd_reasons policy → dr_code r ≠ SensitiveApprovalMissing).
Proof.
  unfold plan_prepare_write. intros Hp.
  destruct (normalize_prepare_write_input store input now) as [normalized|] eqn:En; [|done].
  destruct (resolve_prepare_write_context store normalized) as [resolved|] eqn:Er; [|done].
  destruct (decide_prepare_write_policy store resolved) as [policy|] eqn:Ed; [|done].
  exists normalized, resolved, policy. split_and!; try done.
  destruct (decide_policy_spec _ _ _ Ed) as [mark []]. rewrite cd_reasons0.
  intros r Hr. rewrite (resolved_reasons _ _ _ _ Er Hr). done.
Qed.
End plan.

(** ** Issued and reused tickets *)

Section tickets.
Context `{HC : Chrono} {S : Type} `{HS : !PrepareReader S}.
Context (workspace_sha256 : GitWorkspaceContext → string).

Lemma path_scope_Ok a d scope :
  write_ticket_path_scope a d = Ok scope → allowed scope = a ∧ denied scope = d.
Proof.
  unfold write_ticket_path_scope. destruct (path_scope_new a d) as [s|] eqn:E; simpl; [|done].
  intros [= <-]. by apply path_scope_new_Ok.
Qed.

Lemma plan_ticket_kind policy attempt basis selection reasons ticket :
  plan_ticket workspace_sha256 policy attempt basis selection reasons = Ok ticket →
  match ticket with
  | PlanIssue draft =>
      reasons = [] ∧ selection = SelectNone ∧ dw_attempt_scope draft = attempt ∧
      dw_approval_basis draft = basis ∧ allowed (dw_path_scope draft) = as_intended_paths attempt ∧
      denied (dw_path_scope draft) = []
  | PlanReuse t => reasons = [] ∧ selection = SelectOne t
  | PlanNoTicket scope =>
      (reasons ≠ [] ∨ ∃ ids, selection = SelectAmbiguous ids) ∧
      allowed scope ⊆ as_intended_paths attempt ∧ denied scope ⊆ as_intended_paths attempt
  end.
Proof.
  assert (∀ reasons ticket,
    (let? scope := write_ticket_path_scope
       (List.filter (λ path, negb (contains path (denied_write_ticket_paths reasons
          (as_intended_paths attempt)))) (as_intended_paths attempt))
       (denied_write_ticket_paths reasons (as_intended_paths attempt)) in Ok (PlanNoTicket scope))
      = Ok ticket →
    ∃ scope : WriteTicketPathScope, ticket = PlanNoTicket scope ∧
      allowed scope ⊆ as_intended_paths attempt ∧ denied scope ⊆ as_intended_paths attempt) as Href.
  { intros rs tk. destruct (write_ticket_path_scope _ _) as [scope|] eqn:E; simpl; [|done].
    intros [= <-]. apply path_scope_Ok in E as [Ha Hd]. exists scope. split_and!; [done| |].
    - rewrite Ha. intros x Hx. apply list_elem_of_In, filter_In in Hx as [Hx _].
      by apply list_elem_of_In.
    - rewrite Hd. unfold denied_write_ticket_paths. case_match; set_solver. }
  unfold plan_ticket. destruct selection as [|t|ids].
  - destruct (list_is_empty reasons) eqn:El.
    + apply list_is_empty_true in El as ->.
      destruct (planned_idle_expiry _ _); [|done].
      destruct (write_ticket_path_scope _ _) as [scope|] eqn:E; [|done]. intros [= <-].
      apply path_scope_Ok in E as [Ha Hd]. split_and!; done.
    + apply list_is_empty_false in El. intros (scope & -> & ? & ?)%Href. eauto.
  - destruct (list_is_empty reasons) eqn:El.
    + apply list_is_empty_true in El as ->. intros [= <-]. done.
    + apply list_is_empty_false in El. intros (scope & -> & ? & ?)%Href. eauto.
  - intros (scope & -> & ? & ?)%Href. eauto.
Qed.

Lemma issue_draft policy attempt basis reasons draft :
  plan_ticket workspace_sha256 policy attempt basis SelectNone reasons = Ok (PlanIssue draft) →
  dw_project_id draft = pi_project_id (ni_input (pd_normalized policy)) ∧
  dw_task_id draft = pi_task_id (ni_input (pd_normalized policy)) ∧
  dw_change_unit_id draft = cu_change_unit_id (pd_change_unit policy) ∧
  dw_scope_revision draft = tk_scope_revision (pd_task policy) ∧
  dw_baseline_ref draft = pi_baseline_ref (ni_input (pd_normalized policy)) ∧
  dw_workspace_context_sha256 draft =
    workspace_sha256 <$> pi_git_workspace_context (ni_input (pd_normalized policy)) ∧
  dw_write_authority_fingerprint draft = write_authority_fingerprint (pd_workflow_policy policy) ∧
  dw_created_by_user_action_resolution_id draft = first_resolution_id <$> basis ∧
  dw_created_at draft = ni_plan_now (pd_normalized policy) ∧
  planned_idle_expiry (write_ticket_idle_timeout_minutes (pd_workflow_policy policy))
    (ni_plan_now (pd_normalized policy)) = Ok (dw_idle_expires_at draft).
Proof.
  unfold plan_ticket. destruct (list_is_empty reasons).
  - destruct (planned_idle_expiry _ _) as [idle|]; [|done].
    destruct (write_ticket_path_scope _ _) as [scope|]; [|done]. intros [= <-]. done.
  - destruct (write_ticket_path_scope _ _) as [scope|]; done.
Qed.

Lemma planned_idle_Ok timeout now idle :
  planned_idle_expiry timeout now = Ok idle → (∀ m, timeout = Some m → (0 < m)%N) →
  ∀ e, idle = Some e → (now < e)%Z ∧ representable e = true.
Proof.
  unfold planned_idle_expiry. intros Hi Hm e ->. destruct timeout as [m|]; [|done]. simpl in Hi.
  destruct (fits_i64 m); [|done]. simpl in Hi. specialize (Hm m eq_refl).
  destruct (duration_minutes _) as [d|] eqn:Ed; [|done]. apply duration_minutes_value in Ed as ->.
  destruct (checked_add now _) as [e'|] eqn:Ec; [|done]. simpl in Hi. simplify_eq.
  apply checked_add_Some in Ec as [-> ?]. split; [|done]. unfold minutes. lia.
Qed.

Lemma primary_basis_Some c b :
  primary_basis c = Some b → ∃ i, b = basis_one i ∧ i ∈ csa_identities c.
Proof.
  unfold primary_basis. intros (i & Hi & ->)%fmap_Some. exists i. split; [done|]. by apply head_elem.
Qed.

Lemma approval_basis_one requirement authorities b :
  current_write_ticket_approval_basis requirement authorities = Some b →
  ∃ i, b = basis_one i ∧ approves requirement authorities i.
Proof.
  intros (i & -> & Hi)%primary_basis_Some. exists i. split; [done|].
  by apply elem_of_current_approvals.
Qed.

(** The conditions under which a fresh plan is a valid stored record: its path
    scope is exactly the intended paths. *)
Lemma planned_record_valid t :
  approval_refs_ok t →
  (0 < vb_scope_revision (pw_validity_basis t) ≤ pw_basis_state_version t)%N →
  trim (as_intended_operation (pw_attempt_scope t)) ≠ EmptyString →
  canonical_write_authority_fingerprint
    (vb_write_authority_fingerprint (pw_validity_basis t)) = true →
  (∀ d, vb_workspace_context_sha256 (pw_validity_basis t) = Some d → lowercase_sha256_hex d = true) →
  representable (pw_created_at t) = true →
  (∀ e, pw_idle_expires_at t = Some e → (pw_created_at t < e)%Z ∧ representable e = true) →
  as_task_id (pw_attempt_scope t) = vb_task_id (pw_validity_basis t) →
  as_change_unit_id (pw_attempt_scope t) = vb_change_unit_id (pw_validity_basis t) →
  vb_baseline_ref (pw_validity_basis t) = as_baseline_ref (pw_attempt_scope t) →
  allowed (pw_path_scope t) = as_intended_paths (pw_attempt_scope t) →
  denied (pw_path_scope t) = [] →
  as_product_file_write_intended (pw_attempt_scope t) =
    negb (list_is_empty (as_intended_paths (pw_attempt_scope t))) →
  ticket_valid (planned_record t).
Proof.
  intros [Hnd Hrefs] Hv Hop Hfp Hws Hnow Hidle Ht Hcu Hb Hal Hde Hint.
  split; simpl; try done; try lia.
  - intros e He. by apply Hidle.
  - intros a Ha. by destruct (Hrefs a Ha) as (? & ? & ?).
  - intros a Ha. by destruct (Hrefs a Ha) as (? & ? & ?).
  - intros e He. by apply Hidle.
  - rewrite <-Hal. apply (proj1 (proj1 (check_path_scope_Ok _ _) (path_scope_check (pw_path_scope t)))).
  - rewrite <-Hal, Hde. intros p Hp. split; [|set_solver]. exists p. split; [done|]. apply is_within_refl.
Qed.

(** A one-element approval basis of the right owner gives valid references. *)
Lemma one_basis_refs t av (ob : option NonEmptyApprovalBasis) :
  (∀ b, ob = Some b → ∃ i, b = basis_one i ∧ ri_project_id i = pw_project_id t ∧
     ri_task_id i = vb_task_id (pw_validity_basis t)) →
  pw_created_by_user_action_resolution_id t = first_resolution_id <$> ob →
  vb_approval_basis_refs (pw_validity_basis t) = default [] ((λ b, resolution_refs b av) <$> ob) →
  (∀ u, pw_created_by_user_action_resolution_id t = Some u → trim u ≠ EmptyString) →
  approval_refs_ok t.
Proof.
  intros Hone Hcreated Hrefs Hu. unfold approval_refs_ok. rewrite Hrefs. destruct ob as [b|]; simpl.
  - destruct (Hone b eq_refl) as (i & -> & Hp & Ht). simpl. split.
    + apply NoDup_singleton.
    + intros a ->%list_elem_of_singleton. simpl. split_and!; [done..|]. by apply Hu.
  - split; [constructor|set_solver].
Qed.

(** The write a request describes, under a stored Change Unit. *)
Definition requested_attempt (input : PrepareWriteInput) (cu : ChangeUnitRecord)
    (paths : list ProductRelativePath) : WriteTicketAttemptScope :=
  {| as_task_id := pi_task_id input; as_change_unit_id := cu_change_unit_id cu;
     as_intended_operation := trim (pi_intended_operation input); as_intended_paths := paths;
     as_product_file_write_intended := pi_product_file_write_intended input;
     as_sensitive_categories := normalized_string_set (pi_sensitive_categories input);
     as_baseline_ref := Some (pi_baseline_ref input) |}.

(** The approval it needs at the stored scope revision and a control level. *)
Definition requested_approval (input : PrepareWriteInput) (task : TaskRecord)
    (control : TaskControlLevel) (attempt : WriteTicketAttemptScope) (now : UtcTimestamp)
    : WriteTicketApprovalRequirement :=
  {| apr_project_id := pi_project_id input; apr_scope_revision := tk_scope_revision task;
     apr_effective_control_level := control; apr_scope := attempt; apr_observed_at := now |}.

(** The operation that pending user actions are held against. *)
Definition requested_operation (input : PrepareWriteInput) (task : TaskRecord)
    (cu : ChangeUnitRecord) (requirement : WriteTicketApprovalRequirement)
    : UserActionOperationContext :=
  {| oc_operation := OpPrepareWrite; oc_task_id := pi_task_id input;
     oc_change_unit_id := Some (cu_change_unit_id cu); oc_scope_revision := tk_scope_revision task;
     oc_close_basis := None;
     oc_operation_refs :=
       [state_ref KTask (pi_task_id input) (pi_project_id input) (Some (pi_task_id input)) None;
        state_ref KChangeUnit (cu_change_unit_id cu) (pi_project_id input)
          (Some (pi_task_id input)) None];
     oc_sensitive_approval :=
       bool_then (approval_is_required requirement) (sensitive_requirement requirement) |}.

(** The stored Task and Change Unit permit the requested write. *)
Record write_permitted (input : PrepareWriteInput) (task : TaskRecord) (cu : ChangeUnitRecord)
    : Prop := {
  wp_current : pi_task_is_current input = true;
  wp_requested : ∀ id, pi_requested_change_unit_id input = Some id → id = cu_change_unit_id cu;
  wp_mode : tk_mode task ≠ Advisor;
  wp_phase : tk_work_phase task = Implementation;
  wp_intent : pi_product_file_write_intended input = negb (list_is_empty (pi_intended_paths input));
  wp_workspace : workspace_context_matches cu (pi_git_workspace_context input) = true;
  wp_baseline : baseline_matches cu task (pi_baseline_ref input) = true;
  wp_paths : paths_match_current_change_unit (pi_intended_paths input) cu = true;
  wp_contract : ∀ contract, cu_effect_contract cu = Some contract →
    EffectContract.product_write_violations contract (pi_product_file_write_intended input)
      (pi_intended_paths input) = Ok [];
}.

(** Everything an issuing plan established. *)
Record issue_facts (store : S) (input : PrepareWriteInput) (now : UtcTimestamp)
    (o : PrepareWritePlanningOutcome) (draft : PlannedWriteTicketDraft)
    (policy : PrepareWritePolicyDecision) (paths : list ProductRelativePath)
    (authorities : list UserActionAuthority) : Prop := {
  if_input : ni_input (pd_normalized policy) = input;
  if_now : ni_plan_now (pd_normalized policy) = now;
  if_operation : trim (ni_intended_operation (pd_normalized policy)) ≠ EmptyString;
  if_paths : pi_intended_paths input = path_str <$> paths ∧
    ni_intended_paths (pd_normalized policy) = path_str <$> paths;
  if_task : ∃ task, task_record store (pi_task_id input) = Ok (Some task) ∧
    tk_scope_revision (pd_task policy) = tk_scope_revision task ∧
    write_permitted input task (pd_change_unit policy) ∧
    control_index (tk_effective_control_level task)
      ≤ control_index (tk_effective_control_level (pd_task policy));
  if_attempt : planned_attempt policy paths = requested_attempt input (pd_change_unit policy) paths;
  if_pending : ∃ pending, pending_user_action_authorities store (pi_task_id input) now = Ok pending ∧
    ∀ a, a ∈ pending →
      pending_blocks (operation_context policy (planned_requirement policy (planned_attempt policy paths)))
        (pi_task_id input) a = false;
  if_change_unit : current_change_unit store (pi_task_id input) = Ok (Some (pd_change_unit policy));
  if_policy : project_workflow_policy store = Ok (pd_workflow_policy policy);
  if_outcome : po_task o = pd_task policy ∧ po_pending_user_action_request_ids o = [];
  if_permits : scope_permits policy;
  if_authorities : sensitive_approval_authorities store (pi_task_id input) now = Ok authorities;
  if_basis : dw_approval_basis draft =
    current_write_ticket_approval_basis
      (planned_requirement policy (planned_attempt policy paths)) authorities;
  if_approved :
    approval_is_required (planned_requirement policy (planned_attempt policy paths)) = true →
    is_Some (dw_approval_basis draft);
  if_ticket : plan_ticket workspace_sha256 policy (planned_attempt policy paths)
    (dw_approval_basis draft) SelectNone [] = Ok (PlanIssue draft);
}.

Lemma issue_facts_of_plan store input now o draft :
  plan_prepare_write workspace_sha256 store input now = Ok o → po_ticket o = PlanIssue draft →
  ∃ policy paths authorities, issue_facts store input now o draft policy paths authorities.
Proof.
  intros (normalized & resolved & policy & Hn & Hr & Hd & Hm & Hcodes)%plan_stages Hissue.
  destruct (plan_mutations_trace _ _ _ _ Hm) as (paths & compat & auth & records & es & Ht).
  pose proof (plan_allowed_facts _ _ _ _ _ _ _ _ _ Ht Hcodes) as Hall.
  destruct (decide_policy_spec _ _ _ Hd) as [mark Hcd].
  destruct (normalized_input _ _ _ _ Hn) as [Hin Hnow].
  pose proof (normalize_operation _ _ _ _ Hn) as Hop.
  pose proof (normalize_paths _ _ _ _ Hn) as Hpaths.
  destruct (resolved_rows _ _ _ Hr) as [Hrt Hrc].
  assert (pd_normalized policy = normalized) as Hnorm.
  { rewrite (cd_normalized _ _ _ _ Hcd). by eapply resolve_normalized. }
  rewrite Hin in Hrt, Hrc. destruct Ht. rewrite Hissue in pt_ticket0.
  pose proof (plan_ticket_kind _ _ _ _ _ _ pt_ticket0) as (Hnil & Hsel & _ & Hb & _).
  rewrite Hsel, Hnil, <-Hb in pt_ticket0.
  destruct (Hall Hnil) as (Hrs & Hperm & Hpend & Hreq & _). rewrite <-Hb in pt_basis0, Hreq.
  rewrite Hnorm, Hin, Hnow in pt_authorities0.
  assert (po_pending_user_action_request_ids o = []) as Hnone by done.
  destruct (normalized_fields _ _ _ _ Hn) as [Hfo Hfc].
  exists policy, paths, auth. split; rewrite ?Hnorm in *; try done.
  - split; congruence.
  - exists (rc_task resolved). destruct (cd_scope _ _ _ _ Hcd) as (Hrev & _ & Hshape).
    split_and!; [done|done| |].
    + rewrite (cd_reasons _ _ _ _ Hcd) in Hrs.
      destruct (resolved_current _ _ _ Hr Hrs) as [Hcur Hunit]. rewrite Hin in Hcur, Hunit.
      destruct Hperm as [Hi Hw Hbl Hpa Hc]. rewrite Hnorm, Hin, Hpaths in *.
      rewrite (cd_change_unit _ _ _ _ Hcd) in *.
      constructor; try done; [apply (cd_mode _ _ _ _ Hcd)|apply (cd_work_phase _ _ _ _ Hcd)|].
      unfold baseline_matches, scope_from_task in Hbl |- *. by rewrite Hshape in Hbl.
    + rewrite (cd_control _ _ _ _ Hcd).
      destruct (selected_control_ge (rc_task resolved) mark (pd_workflow_policy policy)) as (H1 & _ & _).
      pose proof (prepare_control_ge (selected_control (rc_task resolved) mark
        (pd_workflow_policy policy)) (pd_workflow_policy policy) (rc_normalized resolved)). lia.
  - unfold planned_attempt, requested_attempt. by rewrite Hnorm, Hin, Hfo, Hfc.
  - destruct pt_pending0 as (pending & Hp & Hids). rewrite Hin, Hnow in Hp. exists pending.
    split; [done|]. rewrite Hnone in Hids. symmetry in Hids. apply fmap_nil_inv in Hids.
    intros a Ha. destruct (pending_blocks _ _ a) eqn:Ebl; [|done]. exfalso.
    assert (a ∈ List.filter (pending_blocks (operation_context policy
      (planned_requirement policy (planned_attempt policy paths))) (pi_task_id input)) pending) as Hf.
    { apply list_elem_of_In, filter_In. split; [by apply list_elem_of_In|done]. }
    rewrite Hin in Hids. rewrite Hids in Hf. by apply elem_of_nil in Hf.
  - by rewrite (cd_change_unit _ _ _ _ Hcd).
  - by apply (cd_policy _ _ _ _ Hcd).
  - split; [apply pt_outcome0|done].
  - by apply Hreq.
Qed.

Lemma issue_facts_approval store input now o draft policy paths authorities b :
  issue_facts store input now o draft policy paths authorities → dw_approval_basis draft = Some b →
  ∃ i, b = basis_one i ∧
    approves (planned_requirement policy (planned_attempt policy paths)) authorities i ∧
    ri_project_id i = pi_project_id input ∧ ri_task_id i = pi_task_id input.
Proof.
  intros [Hin _ _ _ _ _ _ _ _ _ _ _ Hb _ _] Hsome. rewrite Hb in Hsome.
  apply approval_basis_one in Hsome as (i & -> & Hi). exists i. split_and!; try done.
  all: apply approves_owner in Hi; simpl in Hi; rewrite Hin in Hi; apply Hi.
Qed.

(** Store rows and digests are what the store itself guarantees. *)
Record store_facts (store : S) (input : PrepareWriteInput) (now : UtcTimestamp) (v : N) : Prop := {
  sfa_project : trim (pi_project_id input) ≠ EmptyString;
  sfa_task_id : trim (pi_task_id input) ≠ EmptyString;
  sfa_now : representable now = true;
  sfa_policy : ∀ wp, project_workflow_policy store = Ok wp →
    canonical_write_authority_fingerprint (write_authority_fingerprint wp) = true ∧
    ∀ m, write_ticket_idle_timeout_minutes wp = Some m → (0 < m)%N;
  sfa_task : ∀ task, task_record store (pi_task_id input) = Ok (Some task) →
    (0 < tk_scope_revision task ≤ v)%N;
  sfa_change_unit : ∀ cu, current_change_unit store (pi_task_id input) = Ok (Some cu) →
    trim (cu_change_unit_id cu) ≠ EmptyString;
  sfa_resolution : ∀ authorities a u,
    sensitive_approval_authorities store (pi_task_id input) now = Ok authorities →
    a ∈ authorities → ua_user_action_resolution_id a = Some u → trim u ≠ EmptyString;
  sfa_digest : ∀ context, lowercase_sha256_hex (workspace_sha256 context) = true;
}.

Lemma issued_refs_ok store input now o draft policy paths authorities id v av :
  issue_facts store input now o draft policy paths authorities → store_facts store input now v →
  approval_refs_ok (draft_ticket draft id v av) ∧
  ∀ u, dw_created_by_user_action_resolution_id draft = Some u → trim u ≠ EmptyString.
Proof.
  intros Hi [_ _ _ _ _ _ Hauth _].
  destruct (issue_draft _ _ _ _ _ (if_ticket _ _ _ _ _ _ _ _ Hi))
    as (Hd1 & Hd2 & _ & _ & _ & _ & _ & Hd8 & _). rewrite (if_input _ _ _ _ _ _ _ _ Hi) in Hd1, Hd2.
  assert (∀ u, dw_created_by_user_action_resolution_id draft = Some u → trim u ≠ EmptyString) as Hc.
  { intros u. rewrite Hd8. intros (b & Hb & ->)%fmap_Some.
    destruct (issue_facts_approval _ _ _ _ _ _ _ _ _ Hi Hb) as (i & -> & (a & Ha & Hid & _) & _).
    unfold authority_resolution_identity in Hid. apply fmap_Some in Hid as (u & Hu & ->).
    eapply Hauth; [|done..]. apply (if_authorities _ _ _ _ _ _ _ _ Hi). }
  split; [|done]. apply (one_basis_refs _ av (dw_approval_basis draft)); [|done..].
  intros b Hb. destruct (issue_facts_approval _ _ _ _ _ _ _ _ _ Hi Hb) as (i & -> & _ & ? & ?).
  exists i. simpl. split_and!; congruence.
Qed.

Lemma issued_planned_valid store input now o draft policy paths authorities id v av :
  issue_facts store input now o draft policy paths authorities → store_facts store input now v →
  trim id ≠ EmptyString → validate_planned (draft_ticket draft id v av) = Ok tt.
Proof.
  intros Hi Hs Hid. destruct (issued_refs_ok _ _ _ _ _ _ _ _ id v av Hi Hs) as [Hrefs Hc].
  pose proof (issue_draft _ _ _ _ _ (if_ticket _ _ _ _ _ _ _ _ Hi))
    as (Hd1 & Hd2 & Hd3 & Hd4 & Hd5 & Hd6 & Hd7 & Hd8 & Hd9 & Hd10).
  pose proof (plan_ticket_kind _ _ _ _ _ _ (if_ticket _ _ _ _ _ _ _ _ Hi))
    as (_ & _ & Hatt & _ & Hal & Hde).
  destruct Hi as [Hin Hnow Hop [_ Hpaths] (task & Htask & Hrev & _) _ _ Hcu Hwp _ Hperm _ _ _ _], Hs.
  rewrite Hin in Hd1, Hd2, Hd5, Hd6. rewrite Hnow in Hd9, Hd10. specialize (sfa_task0 _ Htask).
  rewrite <-Hrev in sfa_task0.
  destruct (sfa_policy0 _ Hwp) as [Hfp Htimeout].
  pose proof (sp_intent _ Hperm) as Hint. rewrite Hpaths in Hint.
  apply validate_planned_spec; [done|]. split.
  - unfold planned_ids_ok. simpl. rewrite Hd1, Hd2, Hd3. split_and!; auto.
  - apply planned_record_valid; simpl; rewrite ?Hatt, ?Hd2, ?Hd3, ?Hd4, ?Hd5, ?Hd6, ?Hd7, ?Hd9;
      simpl; rewrite ?Hin; try done.
    + intros d (c & _ & ->)%fmap_Some. apply sfa_digest0.
    + by apply (planned_idle_Ok _ _ _ Hd10).
    + rewrite <-Hin, Hint. by destruct paths.
Qed.
End tickets.

(** ** Reuse *)

Section reuse.
Context `{HC : Chrono} {S : Type} `{HS : !PrepareReader S}.
Context (workspace_sha256 : GitWorkspaceContext → string).

Lemma candidate_Compatible project_id task now r current authorities record t :
  candidate_of project_id task now r current authorities record (CandCompatible t) →
  t = record_state record ∧ wt_status record = TActive ∧
  (∀ x, wt_idle_expires_at record = Some x → (now < x)%Z) ∧
  vb_write_authority_fingerprint (wt_validity_basis record) = cf_write_authority_fingerprint current ∧
  approval_holds
    {| apr_project_id := project_id; apr_scope_revision := tk_scope_revision task;
       apr_effective_control_level := tk_effective_control_level task;
       apr_scope := wt_attempt_scope record; apr_observed_at := now |}
    authorities (vb_approval_basis_refs (wt_validity_basis record)) ∧
  ticket_covers (st_ticket (record_state record)) r.
Proof.
  intros [?|(Hs & Hx & He)]; [done|]. symmetry in He.
  apply prepare_candidate_Compatible in He as (He & -> & Hc).
  apply evaluate_active_Reusable in He as (_ & Hf & _ & Hn%assess_not_changed).
  split_and!; done.
Qed.

(** Required approvals of a covering ticket also approve the new attempt. *)
Lemma reuse_approval policy paths authorities record :
  let requirement := planned_requirement policy (planned_attempt policy paths) in
  ticket_covers (st_ticket (record_state record)) (plan_requirements workspace_sha256 policy paths) →
  allowed (wt_path_scope record) = as_intended_paths (wt_attempt_scope record) →
  approval_holds
    {| apr_project_id := pi_project_id (ni_input (pd_normalized policy));
       apr_scope_revision := tk_scope_revision (pd_task policy);
       apr_effective_control_level := tk_effective_control_level (pd_task policy);
       apr_scope := wt_attempt_scope record;
       apr_observed_at := ni_plan_now (pd_normalized policy) |}
    authorities (vb_approval_basis_refs (wt_validity_basis record)) →
  approval_is_required requirement = true →
  vb_approval_basis_refs (wt_validity_basis record) ≠ [] ∧
  ∀ ref, ref ∈ vb_approval_basis_refs (wt_validity_basis record) →
    approves requirement authorities (resolution_ref_identity ref).
Proof.
  intros requirement Hcov Hal [Hnone Hall] Hreq. split.
  - intros Hnil. specialize (Hnone Hnil). revert Hreq Hnone. subst requirement.
    unfold approval_is_required. simpl. destruct (_ =? Sensitive); simpl; [done|].
    rewrite negb_true_iff, negb_false_iff, list_is_empty_false, list_is_empty_true.
    intros Hne Hemp. destruct (ni_sensitive_categories _) as [|c cs] eqn:E; [done|].
    assert (c ∈ as_sensitive_categories (wt_attempt_scope record)) as Hin.
    { apply (tc_categories _ _ Hcov). simpl. rewrite E. constructor. }
    rewrite Hemp in Hin. by apply elem_of_nil in Hin.
  - intros ref Href. destruct (Hall ref Href) as (a & Ha & Hid & Hm). exists a.
    split_and!; [done..|]. eapply (approval_transfers _ _ _ _ _ _ _ Hcov Hreq); [|exact Hm].
    intros p Hp. exists p. split; [|apply is_within_refl]. simpl in *. by rewrite <-Hal.
Qed.
End reuse.

(** ** Theorems *)

Section theorems.
Context `{HC : Chrono} {S : Type} `{HS : !PrepareReader S}.
Context (workspace_sha256 : GitWorkspaceContext → string).

(** Preparing a write never lowers a Task's control or acceptance policy.
    The control it settles on permits writes, covers a pending reevaluation
    mark, is sensitive as soon as a path is denied by policy or a sensitive
    category is declared, and stays light only for paths the light policy
    allows; the acceptance policy is the one that control requires or
    stricter. *)
Theorem prepare_write_control_monotonic store resolved policy :
  decide_prepare_write_policy store resolved = Ok policy →
  let before := rc_task resolved in
  let after := pd_task policy in
  let wp := pd_workflow_policy policy in
  let paths := ni_intended_paths (rc_normalized resolved) in
  (control_index (tk_effective_control_level before)
     ≤ control_index (tk_effective_control_level after) ∧
   acceptance_policy_rank (tk_acceptance_policy before)
     ≤ acceptance_policy_rank (tk_acceptance_policy after)) ∧
  (∃ mark, task_policy_control_reevaluation store before = Ok mark ∧
     ∀ m, mark = Some m → control_index (pcr_required_effective_control_level m)
                            ≤ control_index (tk_effective_control_level after)) ∧
  tk_effective_control_level after ≠ Observe ∧
  (has_denied_path wp paths = true ∨ ni_sensitive_categories (rc_normalized resolved) ≠ [] →
     tk_effective_control_level after = Sensitive) ∧
  (tk_effective_control_level after = Light → light_paths_are_allowed wp paths = true) ∧
  acceptance_policy_rank (acceptance_policy_for_control (tk_effective_control_level after) wp)
    ≤ acceptance_policy_rank (tk_acceptance_policy after).
Proof.
  intros [mark []]%decide_policy_spec. simpl. rewrite cd_control0.
  set (base := selected_control _ _ _) in *.
  destruct (selected_control_ge (rc_task resolved) mark (pd_workflow_policy policy)) as (H1 & _ & H3).
  fold base in H1, H3.
  pose proof (prepare_control_ge base (pd_workflow_policy policy) (rc_normalized resolved)) as Hge.
  split_and!; try lia.
  - exists mark. split; [done|]. intros m Hm. specialize (H3 m Hm). lia.
  - intros Ho. rewrite Ho in Hge. simpl in Hge. apply cd_base0. destruct base; simpl in Hge; [done|lia..].
  - unfold prepare_write_control. intros [Hd|Hd%list_is_empty_false]; rewrite Hd; [done|].
    by rewrite orb_true_r.
  - unfold prepare_write_control. destruct (_ || _); [done|].
    destruct (_ && _) eqn:E; [done|]. intros ->. simpl in E. by apply negb_false_iff.
  - rewrite <-cd_control0. apply cd_acceptance0.
Qed.

(** A write preparation is allowed exactly when its plan carries a ticket:
    the decision, the empty list of reasons and an issued or reused ticket
    coincide, and a refusal only speaks about the intended paths. *)
Theorem plan_decision_matches_ticket store input now o :
  plan_prepare_write workspace_sha256 store input now = Ok o →
  (po_decision o = DAllowed ↔ po_reasons o = []) ∧
  (po_reasons o = [] ↔ match po_ticket o with PlanNoTicket _ => False | _ => True end) ∧
  match po_ticket o with
  | PlanNoTicket scope => ∀ p, p ∈ allowed scope ∨ p ∈ denied scope →
      path_str p ∈ pi_intended_paths input
  | _ => True
  end.
Proof.
  intros (normalized & resolved & policy & Hn & Hr & Hd & Hm & Hcodes)%plan_stages.
  destruct (plan_mutations_trace _ _ _ _ Hm) as (paths & compat & auth & records & es & Ht).
  pose proof (plan_allowed_facts _ _ _ _ _ _ _ _ _ Ht Hcodes) as Hall.
  destruct Ht. rewrite pt_decision0. split_and!.
  - unfold prepare_write_decision. destruct (po_reasons o); simpl; [done|].
    split; [|done]. repeat case_match; done.
  - apply plan_ticket_kind in pt_ticket0. destruct (po_ticket o) as [draft|t|scope].
    1,2: by split; [|intros _; apply pt_ticket0].
    split; [|done]. intros Hnil. destruct (Hall Hnil) as (_ & _ & _ & _ & Hamb).
    destruct pt_ticket0 as [[?|[ids Hids]] _]; [done|]. by eapply Hamb.
  - apply plan_ticket_kind in pt_ticket0. destruct (po_ticket o) as [draft|t|scope]; [done..|].
    destruct pt_ticket0 as (_ & Ha & Hden).
    assert (ni_intended_paths (pd_normalized policy) = pi_intended_paths input) as Heq.
    { destruct (decide_policy_spec _ _ _ Hd) as [mark []]. rewrite cd_normalized0.
      rewrite (resolve_normalized _ _ _ Hr). by eapply normalize_paths. }
    rewrite <-Heq, pt_paths0. intros p [Hp%Ha|Hp%Hden]; by apply list_elem_of_fmap_2.
Qed.

(** C5: A ticket is issued only for a write the stored scope permits.  The Task row, its
    current Change Unit, the pending questions and the sensitive approvals are those the
    store returns for the request at the time of the plan; the Task is the current one and
    in implementation; the declared intent, the Git workspace, the baseline, the bounded
    paths and the effect contract of that Change Unit admit the requested paths; no pending
    user action blocks the operation; the control level is at least the stored one; and
    where approval is required at that level the ticket carries a current user approval that
    covers the attempt.  The ticket is for exactly the requested attempt and paths. *)
Theorem issued_ticket_sound store input now o draft :
  plan_prepare_write workspace_sha256 store input now = Ok o → po_ticket o = PlanIssue draft →
  ∃ task cu paths pending authorities,
    task_record store (pi_task_id input) = Ok (Some task) ∧
    current_change_unit store (pi_task_id input) = Ok (Some cu) ∧
    pending_user_action_authorities store (pi_task_id input) now = Ok pending ∧
    sensitive_approval_authorities store (pi_task_id input) now = Ok authorities ∧
    pi_intended_paths input = path_str <$> paths ∧
    write_permitted input task cu ∧
    let control := tk_effective_control_level (po_task o) in
    let attempt := requested_attempt input cu paths in
    let requirement := requested_approval input task control attempt now in
    control_index (tk_effective_control_level task) ≤ control_index control ∧
    (∀ a, a ∈ pending →
       pending_blocks (requested_operation input task cu requirement) (pi_task_id input) a = false) ∧
    dw_attempt_scope draft = attempt ∧
    allowed (dw_path_scope draft) = paths ∧ denied (dw_path_scope draft) = [] ∧
    (approval_is_required requirement = true → is_Some (dw_approval_basis draft)) ∧
    (∀ b, dw_approval_basis draft = Some b →
       ∃ i, b = basis_one i ∧ approves requirement authorities i).
Proof.
  intros Hp Hissue. destruct (issue_facts_of_plan _ _ _ _ _ _ Hp Hissue) as (policy & paths & auth & Hi).
  pose proof (plan_ticket_kind _ _ _ _ _ _ _ (if_ticket _ _ _ _ _ _ _ _ _ Hi))
    as (_ & _ & Hatt & _ & Hal & Hde).
  pose proof (λ b, issue_facts_approval _ _ _ _ _ _ _ _ _ b Hi) as Hb.
  destruct Hi as [Hin Hnow _ [Hpaths _] (task & Htask & Hrev & Hperm & Hctl) Hattempt
    (pending & Hpend & Hnone) Hcu _ [Hot _] _ Hauth _ Happ _].
  assert (planned_requirement policy (planned_attempt policy paths)
    = requested_approval input task (tk_effective_control_level (po_task o))
        (requested_attempt input (pd_change_unit policy) paths) now) as Hreq.
  { unfold planned_requirement, requested_approval. by rewrite Hin, Hnow, Hrev, Hot, Hattempt. }
  rewrite Hreq in *. rewrite Hattempt in *.
  exists task, (pd_change_unit policy), paths, pending, auth. cbv zeta.
  split_and!; try done.
  - by rewrite Hot.
  - intros a Ha. specialize (Hnone a Ha). unfold operation_context in Hnone.
    by rewrite Hin, Hrev in Hnone.
  - intros b (i & -> & Hi & _)%Hb. eauto.
Qed.

(** The rows that the foreign keys of the ticket table find are those the store reads. *)
Record owners_agree (store : S) (input : PrepareWriteInput) (now : UtcTimestamp)
    (owners : TicketOwners) : Prop := {
  oa_task : ∀ task, task_record store (pi_task_id input) = Ok (Some task) →
    pi_task_id input ∈ own_tasks owners;
  oa_change_unit : ∀ cu, current_change_unit store (pi_task_id input) = Ok (Some cu) →
    (pi_task_id input, cu_change_unit_id cu) ∈ own_change_units owners;
  oa_resolution : ∀ authorities a id,
    sensitive_approval_authorities store (pi_task_id input) now = Ok authorities →
    a ∈ authorities → ua_user_action_resolution_id a = Some id → id ∈ own_resolutions owners;
}.

Lemma issued_owned store input now o draft policy paths authorities id v av owners :
  issue_facts workspace_sha256 store input now o draft policy paths authorities →
  owners_agree store input now owners →
  ticket_owned owners (planned_record (draft_ticket draft id v av)) = true.
Proof.
  intros Hi [Ht Hc Hr].
  destruct (issue_draft _ _ _ _ _ _ (if_ticket _ _ _ _ _ _ _ _ _ Hi))
    as (_ & Hd2 & Hd3 & _ & _ & _ & _ & Hd8 & _). rewrite (if_input _ _ _ _ _ _ _ _ _ Hi) in Hd2.
  destruct (if_task _ _ _ _ _ _ _ _ _ Hi) as (task & Htask & _).
  unfold ticket_owned. simpl. rewrite Hd2, Hd3.
  rewrite !bool_decide_true by eauto using if_change_unit. simpl. rewrite Hd8.
  destruct (dw_approval_basis draft) as [b|] eqn:Hb; [|done]. simpl.
  destruct (issue_facts_approval _ _ _ _ _ _ _ _ _ _ Hi Hb) as (i & -> & (a & Ha & Hid & _) & _).
  unfold authority_resolution_identity in Hid. apply fmap_Some in Hid as (u & Hu & ->).
  apply bool_decide_true. eapply Hr; [apply (if_authorities _ _ _ _ _ _ _ _ _ Hi)|done|done].
Qed.

(** C32: An issued draft becomes a stored ticket: with the identifiers, revision
    and digests the store's own rows have, materializing it succeeds and the
    store accepts the insertion under any fresh id, its foreign keys included, on a
    table whose Task, Change Unit and answer rows are the ones the planner read. *)
Theorem issued_ticket_is_stored store input now o draft id v av s :
  plan_prepare_write workspace_sha256 store input now = Ok o → po_ticket o = PlanIssue draft →
  store_facts workspace_sha256 store input now v → owners_agree store input now (tt_owners s) →
  trim id ≠ EmptyString →
  tt_project_id s = pi_project_id input → tt_rows s !! id = None → fits_i64 v = true →
  ∃ t, materialize_planned_write_ticket draft id v av = Ok t ∧
    insert_write_ticket s (persistence_input t) v =
      Ok (set_rows s (<[id := planned_record t]> (tt_rows s))).
Proof.
  intros Hp Hissue Hs Hown Hid Hproj Hfresh Hfits.
  destruct (issue_facts_of_plan _ _ _ _ _ _ Hp Hissue) as (policy & paths & auth & Hi).
  pose proof (issued_planned_valid _ _ _ _ _ _ _ _ _ id v av Hi Hs Hid) as Hvalid.
  exists (draft_ticket draft id v av). split.
  { unfold materialize_planned_write_ticket, planned_new. by rewrite Hvalid. }
  apply (planned_inserts s (draft_ticket draft id v av)); try done.
  - by eapply issued_refs_ok.
  - destruct (issue_draft _ _ _ _ _ _ (if_ticket _ _ _ _ _ _ _ _ _ Hi)) as [Hd1 _].
    rewrite (if_input _ _ _ _ _ _ _ _ _ Hi) in Hd1. simpl. congruence.
  - by eapply issued_owned.
Qed.

(** A ticket is reused only when it covers the new attempt: an active,
    unexpired ticket of the same Task, Change Unit, scope revision, baseline,
    workspace and write authority, with the attempt's paths below its allowed
    prefixes, outside its denied ones, and at least its categories.  Reuse
    cannot bypass approval: if the new attempt needs one, every approval the
    ticket rests on also approves the new attempt (tickets are issued with
    their intended paths as allowed prefixes). *)
Theorem reused_ticket_sound store input now o t :
  plan_prepare_write workspace_sha256 store input now = Ok o → po_ticket o = PlanReuse t →
  ∃ policy paths authorities records record,
    ni_input (pd_normalized policy) = input ∧ ni_plan_now (pd_normalized policy) = now ∧
    pi_intended_paths input = path_str <$> paths ∧
    scope_permits policy ∧ po_pending_user_action_request_ids o = [] ∧
    active_write_tickets_of store (pi_task_id input) = Ok records ∧ record ∈ records ∧
    t = record_state record ∧ wt_status record = TActive ∧
    (∀ x, wt_idle_expires_at record = Some x → (now < x)%Z) ∧
    vb_write_authority_fingerprint (wt_validity_basis record) =
      write_authority_fingerprint (pd_workflow_policy policy) ∧
    ticket_covers (st_ticket t) (plan_requirements workspace_sha256 policy paths) ∧
    let requirement := planned_requirement policy (planned_attempt policy paths) in
    (allowed (wt_path_scope record) = as_intended_paths (wt_attempt_scope record) →
     approval_is_required requirement = true →
     vb_approval_basis_refs (wt_validity_basis record) ≠ [] ∧
     ∀ ref, ref ∈ vb_approval_basis_refs (wt_validity_basis record) →
       approves requirement authorities (resolution_ref_identity ref)).
Proof.
  intros (normalized & resolved & policy & Hn & Hr & Hd & Hm & Hcodes)%plan_stages Hreuse.
  destruct (plan_mutations_trace _ _ _ _ Hm) as (paths & compat & auth & records & es & Ht).
  pose proof (plan_allowed_facts _ _ _ _ _ _ _ _ _ Ht Hcodes) as Hall.
  destruct (decide_policy_spec _ _ _ Hd) as [mark Hcd].
  destruct (normalized_input _ _ _ _ Hn) as [Hin Hnow].
  pose proof (normalize_paths _ _ _ _ Hn) as Hpaths.
  assert (pd_normalized policy = normalized) as Hnorm.
  { rewrite (cd_normalized _ _ _ _ Hcd). by eapply resolve_normalized. }
  destruct Ht. rewrite Hreuse in pt_ticket0.
  apply plan_ticket_kind in pt_ticket0 as [Hnil Hsel].
  destruct (Hall Hnil) as (_ & Hperm & Hpend & _).
  assert (CandCompatible t ∈ es) as Hin_es by by apply elem_of_compatible, select_one_elem.
  destruct (Forall2_elem_r _ _ _ _ pt_candidates0 Hin_es) as (record & Hrec & Hcand).
  apply candidate_Compatible in Hcand as (-> & Hs & Hx & Hf & Happ & Hcov).
  exists policy, paths, auth, records, record. rewrite Hnorm, Hin in *. rewrite <-Hnow.
  split_and!; try done; [congruence|].
  intros requirement Hal Hreq. apply (reuse_approval workspace_sha256 policy paths auth record); try done.
  by rewrite Hnorm, Hin.
Qed.

(** ** The idle timeout *)











End theorems.
