(* ===== verification/PlanningCommit.v ===== *)
(** * PlanningCommit: a plan's ticket mutations always commit

    Joins Planning and TicketStore: on a well-formed ticket table the
    invalidations and the insertion that write preparation plans are accepted
    by the store, in the order the commit applies them. *)

From S2P Require Import Prelude Text ProductPath Values Canonical Schema UserAction Workflow.
From S2P Require Import Clock TicketStore Ticket Admission Planning PlanningSound.
Import Relevance.

(** ** A snapshot implements the reader *)

Record PrepareSnapshot `{Chrono} := {
  psn_snapshot : ProjectSnapshot;
  psn_change_units : gmap TaskId ChangeUnitRecord;
  psn_pending : list UserActionAuthority;
  psn_contained : ProductRelativePath → bool;
}.

#[export] Instance prepare_snapshot_tickets `{Chrono} : TicketReader PrepareSnapshot := {
  write_tickets_of s := write_tickets_of (psn_snapshot s);
  write_ticket_of s := write_ticket_of (psn_snapshot s);
  task_record s := task_record (psn_snapshot s);
  task_policy_control_reevaluation s := task_policy_control_reevaluation (psn_snapshot s);
  project_workflow_policy s := project_workflow_policy (psn_snapshot s);
  sensitive_approval_authorities s := sensitive_approval_authorities (psn_snapshot s);
  write_tickets_of_valid s := write_tickets_of_valid (psn_snapshot s);
  write_ticket_of_valid s := write_ticket_of_valid (psn_snapshot s);
}.

#[export] Program Instance prepare_snapshot_reader `{Chrono} : PrepareReader PrepareSnapshot := {|
  observe_path s p := if psn_contained s p then Ok tt else Err PathRejected;
  current_change_unit s id := Ok (psn_change_units s !! id);
  active_write_tickets_of s := active_write_tickets (snap_tickets (psn_snapshot s));
  pending_user_action_authorities s task_id _ :=
    Ok (List.filter (λ a, ua_task_id a =? task_id) (psn_pending s));
|}.
Next Obligation. intros H s task_id rs r. apply active_tickets_valid. Qed.

(** ** Ticket mutations of a plan *)

Section commit.
Context `{HC : Chrono}.

Definition ticket_mutations (ms : list CoreStorageMutation) : list WriteTicketMutation :=
  omap (λ m, match m with MutWriteTicket w => Some w | MutUpdateControlLevel _ => None end) ms.

Definition invalidations (l : list (WriteTicketId * WriteTicketInvalidationReason))
    : list WriteTicketMutation :=
  (λ p, InvalidateById {| wid_write_ticket_id := p.1; wid_reason := p.2 |}) <$> l.

Lemma invalidate_by_id_total s now id reason r :
  table_ok s now → tt_rows s !! id = Some r → wt_status r = TActive →
  invalidate_write_ticket s {| wid_write_ticket_id := id; wid_reason := reason |} =
    Ok (set_rows s (<[id := invalidated r reason]> (tt_rows s))).
Proof.
  intros Hok Hr Hs. destruct (table_rows _ _ Hok _ _ Hr) as [[] _].
  unfold invalidate_write_ticket. simpl. rewrite (table_read s now) by done.
  rewrite (proj2 (validate_identifier_Ok _ _)) by done. rewrite Hr. simpl. by rewrite Hs.
Qed.

Lemma apply_invalidations l s now v at_ :
  table_ok s now → (now ≤ at_)%Z → representable at_ = true → NoDup l.*1 →
  (∀ id, id ∈ l.*1 → ∃ r, tt_rows s !! id = Some r ∧ wt_status r = TActive) →
  ∃ s', apply_ticket_mutations s v at_ (invalidations l) = Ok s' ∧
    table_ok s' at_ ∧
    (∀ id, id ∉ l.*1 → tt_rows s' !! id = tt_rows s !! id) ∧
    (∀ id reason, (id, reason) ∈ l →
       tt_rows s' !! id = (λ r, invalidated r reason) <$> tt_rows s !! id).
Proof.
  revert s now. induction l as [|[id reason] l IH]; intros s now Hok Hle Hrep Hnd Hact.
  { exists s. split_and!; [done|by eapply table_ok_later|done|]. intros ? ?. set_solver. }
  rewrite fmap_cons, NoDup_cons in Hnd. destruct Hnd as [Hni Hnd]. simpl in Hni.
  destruct (Hact id) as (r & Hr & Hs); [constructor|].
  pose proof (invalidate_by_id_total s now id reason r Hok Hr Hs) as Hi. simpl. rewrite Hi.
  set (s1 := set_rows s _) in *.
  assert (table_ok s1 at_) as Hok1.
  { apply (apply_table_ok s v at_
      (InvalidateById {| wid_write_ticket_id := id; wid_reason := reason |}) s1 now); done. }
  assert (∀ i, i ≠ id → tt_rows s1 !! i = tt_rows s !! i) as Hother.
  { intros i Hne. subst s1. simpl. by rewrite lookup_insert_ne. }
  destruct (IH s1 at_) as (s' & Hs' & Hok' & Hsame & Hinv); [done|lia|done|done| |].
  { intros i Hil. rewrite Hother by set_solver. apply Hact. simpl. set_solver. }
  exists s'. split_and!; [done..| |].
  - intros i [Hne Hi']%not_elem_of_cons. by rewrite Hsame, Hother.
  - intros i reason' [[= -> ->]|Hil]%elem_of_cons.
    + rewrite Hsame by done. subst s1. simpl. rewrite lookup_insert_eq, Hr. done.
    + rewrite (Hinv i reason') by done. rewrite Hother; [done|].
      intros ->. apply Hni. apply list_elem_of_fmap. by exists (id, reason').
Qed.

(** ** The stale candidates of a selection *)

Definition stale_id (e : PrepareWriteCandidateEvaluation) : option WriteTicketId :=
  match e with
  | CandStaleApproval id | CandStaleWorkspace id | CandStalePolicy id => Some id
  | CandIncompatible | CandCompatible _ => None
  end.

Definition stale_pairs (es : list PrepareWriteCandidateEvaluation)
    : list (WriteTicketId * WriteTicketInvalidationReason) :=
  let selection := select_prepare_write_candidates es in
  ((λ id, (id, IApprovalBasisChanged)) <$> pcs_stale_approval_ticket_ids selection) ++
  ((λ id, (id, IWorkspaceChanged)) <$> pcs_stale_workspace_ticket_ids selection) ++
  ((λ id, (id, IExplicitRevoke)) <$> pcs_stale_policy_ticket_ids selection).

Lemma stale_pairs_ids es : (stale_pairs es).*1 ≡ₚ omap stale_id es.
Proof.
  unfold stale_pairs, select_prepare_write_candidates. simpl.
  rewrite !fmap_app, <-!list_fmap_compose. unfold compose. simpl. rewrite !list_fmap_id, !rsort_perm.
  induction es as [|e es IH]; [done|]. destruct e; simpl; try done.
  - by rewrite IH.
  - rewrite <-IH, <-Permutation_middle. done.
  - rewrite <-IH, !app_assoc, <-Permutation_middle. done.
Qed.

Lemma candidate_stale_id project_id task now r current authorities record e id :
  candidate_of project_id task now r current authorities record e →
  stale_id e = Some id → id = wt_write_ticket_id record.
Proof.
  intros [->|(_ & _ & He)] Hid; [done|]. revert He.
  generalize (assess_write_ticket_approval
    {| apr_project_id := project_id; apr_scope_revision := tk_scope_revision task;
       apr_effective_control_level := tk_effective_control_level task;
       apr_scope := wt_attempt_scope record; apr_observed_at := now |}
    authorities (vb_approval_basis_refs (wt_validity_basis record))). intros assessment He.
  apply (prepare_candidate_stale (record_state record) r current assessment id). simpl.
  rewrite <-He. destruct e; simplify_eq/=; auto.
Qed.

Lemma stale_ids_of_records project_id task now r current authorities records es :
  Forall2 (candidate_of project_id task now r current authorities) records es →
  omap stale_id es `sublist_of` (wt_write_ticket_id <$> records).
Proof.
  induction 1 as [|record e records es Hc _ IH]; [done|]. simpl.
  destruct (stale_id e) as [id|] eqn:Ei; [|by apply sublist_cons].
  rewrite (candidate_stale_id _ _ _ _ _ _ _ _ _ Hc Ei). by apply sublist_skip.
Qed.

Lemma reused_not_stale project_id task now r current authorities records es t :
  Forall2 (candidate_of project_id task now r current authorities) records es →
  NoDup (wt_write_ticket_id <$> records) → CandCompatible t ∈ es →
  ∃ record, record ∈ records ∧ t = record_state record ∧
    st_write_ticket_id t ∉ omap stale_id es.
Proof.
  induction 1 as [|record e records es Hc Hall IH]; [set_solver|].
  pose proof (stale_ids_of_records _ _ _ _ _ _ _ _ Hall) as Hsub.
  rewrite fmap_cons, NoDup_cons. intros [Hni Hnd] [<-|Hin]%elem_of_cons.
  - apply candidate_Compatible in Hc as (-> & _). exists record.
    split_and!; [constructor|done|]. simpl. intros Hin. by eapply elem_of_sublist in Hin.
  - destruct (IH Hnd Hin) as (record' & Hr' & -> & Hn'). exists record'.
    split_and!; [by constructor|done|]. simpl in *. destruct (stale_id e) as [id|] eqn:Ei; [|done].
    apply (candidate_stale_id _ _ _ _ _ _ _ _ _ Hc) in Ei as ->.
    rewrite not_elem_of_cons. split; [|done]. intros Heq. apply Hni. rewrite <-Heq.
    by apply list_elem_of_fmap_2.
Qed.

Lemma ticket_mutations_app l k : ticket_mutations (l ++ k) = ticket_mutations l ++ ticket_mutations k.
Proof. apply omap_app. Qed.

Lemma ticket_mutations_by_id reason ids :
  ticket_mutations (invalidate_by_id reason <$> ids) = invalidations ((λ id, (id, reason)) <$> ids).
Proof. induction ids as [|id ids IH]; [done|]. simpl. by f_equal. Qed.

Lemma plan_ticket_mutations workspace_sha256 (store : PrepareSnapshot) policy o paths compat auth
    records es mark resolved :
  control_decision store resolved policy mark →
  plan_trace workspace_sha256 store policy o paths compat auth records es →
  ticket_mutations (po_storage_mutations o) = invalidations (stale_pairs es).
Proof.
  intros Hcd Ht. rewrite (pt_mutations _ _ _ _ _ _ _ _ _ Ht), !ticket_mutations_app,
    !ticket_mutations_by_id.
  unfold stale_pairs, invalidations. rewrite !fmap_app.
  assert (ticket_mutations (pd_control_mutations policy) = []) as ->; [|done].
  pose proof (cd_stored _ _ _ _ Hcd) as Hst. clear -Hst.
  induction (pd_control_mutations policy) as [|m ms IH]; [done|]. simpl.
  destruct (Hst m) as (u & -> & _); [constructor|]. apply IH. intros m' Hm'. apply Hst. by constructor.
Qed.

(** The stale rows are distinct active rows of the Task, and the reused row is
    none of them. *)
Lemma plan_stale_rows workspace_sha256 (store : PrepareSnapshot) policy o paths compat auth
    records es now :
  table_ok (snap_tickets (psn_snapshot store)) now →
  plan_trace workspace_sha256 store policy o paths compat auth records es →
  NoDup (stale_pairs es).*1 ∧
  (∀ id, id ∈ (stale_pairs es).*1 →
     ∃ r, tt_rows (snap_tickets (psn_snapshot store)) !! id = Some r ∧
       wt_task_id r = pi_task_id (ni_input (pd_normalized policy)) ∧ wt_status r = TActive) ∧
  (∀ t, po_ticket o = PlanReuse t →
     ∃ r, tt_rows (snap_tickets (psn_snapshot store)) !! st_write_ticket_id t = Some r ∧
       wt_status r = TActive ∧ st_write_ticket_id t ∉ (stale_pairs es).*1).
Proof.
  intros Hok Ht. pose proof (pt_records _ _ _ _ _ _ _ _ _ Ht) as Hrec. simpl in Hrec.
  rewrite (table_active _ now) in Hrec by done. injection Hrec as Hrec.
  pose proof (active_ids_NoDup _ now (pi_task_id (ni_input (pd_normalized policy))) Hok) as Hnd.
  pose proof (stale_ids_of_records _ _ _ _ _ _ _ _ (pt_candidates _ _ _ _ _ _ _ _ _ Ht)) as Hsub.
  rewrite Hrec in Hnd. setoid_rewrite stale_pairs_ids. split_and!.
  - by eapply sublist_NoDup.
  - intros id Hid. eapply elem_of_sublist in Hid; [|done]. rewrite <-Hrec in Hid.
    by apply (elem_of_active_ids _ now) in Hid.
  - intros t Hreuse. pose proof (pt_ticket _ _ _ _ _ _ _ _ _ Ht) as Hti. rewrite Hreuse in Hti.
    apply plan_ticket_kind in Hti as [_ Hsel].
    apply select_one_elem, elem_of_compatible in Hsel.
    destruct (reused_not_stale _ _ _ _ _ _ _ _ t (pt_candidates _ _ _ _ _ _ _ _ _ Ht) Hnd Hsel)
      as (record & Hin & -> & Hni).
    rewrite <-Hrec in Hin. apply elem_of_active in Hin as ((id & Hid) & _ & Hs). simpl in *.
    destruct (table_rows _ _ Hok _ _ Hid) as [[] _]. subst id. eauto.
Qed.
End commit.

(** ** Theorems *)

Section theorems.
Context `{HC : Chrono} (workspace_sha256 : GitWorkspaceContext → string).

(** The ticket invalidations a write preparation plans always commit: on the
    well-formed table the plan read, they are accepted in order, keep the
    table well formed, invalidate each stale ticket of the Task with its
    reason and touch no other row; a ticket the plan reuses stays active. *)
Theorem plan_invalidations_commit (store : PrepareSnapshot) input now o v at_ :
  let table := snap_tickets (psn_snapshot store) in
  table_ok table now → (now ≤ at_)%Z → representable at_ = true →
  plan_prepare_write workspace_sha256 store input now = Ok o →
  ∃ s' stale,
    apply_ticket_mutations table v at_ (ticket_mutations (po_storage_mutations o)) = Ok s' ∧
    table_ok s' at_ ∧
    (∀ id, id ∉ stale.*1 → tt_rows s' !! id = tt_rows table !! id) ∧
    (∀ id reason, (id, reason) ∈ stale →
       ∃ r, tt_rows table !! id = Some r ∧ wt_task_id r = pi_task_id input ∧
         tt_rows s' !! id = Some (invalidated r reason)) ∧
    (∀ t, po_ticket o = PlanReuse t →
       ∃ r, tt_rows s' !! st_write_ticket_id t = Some r ∧ wt_status r = TActive).
Proof.
  intros table Hok Hle Hrep (normalized & resolved & policy & Hn & Hr & Hd & Hm & Hcodes)%plan_stages.
  destruct (plan_mutations_trace _ _ _ _ Hm) as (paths & compat & auth & records & es & Ht).
  destruct (decide_policy_spec _ _ _ Hd) as [mark Hcd].
  assert (pi_task_id (ni_input (pd_normalized policy)) = pi_task_id input) as Htask.
  { rewrite (cd_normalized _ _ _ _ Hcd), (resolve_normalized _ _ _ Hr).
    by rewrite (proj1 (normalized_input _ _ _ _ Hn)). }
  rewrite (plan_ticket_mutations _ _ _ _ _ _ _ _ _ _ _ Hcd Ht).
  destruct (plan_stale_rows _ _ _ _ _ _ _ _ _ now Hok Ht) as (Hnd & Hact & Hreuse).
  rewrite Htask in Hact.
  destruct (apply_invalidations (stale_pairs es) table now v at_) as (s' & Hs' & Hok' & Hsame & Hinv);
    [done..| |].
  { intros id (r & ? & _ & ?)%Hact. eauto. }
  exists s', (stale_pairs es). split_and!; [done..| |].
  - intros id reason Hp. destruct (Hact id) as (r & Hr' & Ht' & _).
    { apply list_elem_of_fmap. by exists (id, reason). }
    exists r. split_and!; [done..|]. rewrite (Hinv _ _ Hp). subst table. by rewrite Hr'.
  - intros t (r & Hrow & Hact' & Hni)%Hreuse. exists r. by rewrite Hsame.
Qed.
End theorems.

(** ** Witnesses *)

#[local] Existing Instance decimal_chrono.

Definition sample_store_under (policy : ProjectWorkflowPolicy) (table : TicketTable)
    : PrepareSnapshot :=
  {| psn_snapshot :=
       {| snap_tickets := table; snap_tasks := {["t1" := sample_task]}; snap_mark := λ _, None;
          snap_policy := policy; snap_approvals := [] |};
     psn_change_units := {["t1" := sample_change_unit]}; psn_pending := [];
     psn_contained := λ _, true |}.

Definition sample_store : TicketTable → PrepareSnapshot := sample_store_under sample_policy.

Definition sample_input : PrepareWriteInput :=
  {| pi_project_id := "p"; pi_task_id := "t1"; pi_task_is_current := true;
     pi_requested_change_unit_id := None; pi_intended_operation := "edit";
     pi_intended_paths := ["src/lib.rs"]; pi_product_file_write_intended := true;
     pi_sensitive_categories := []; pi_baseline_ref := "base";
     pi_actor_source := AgentConnection "conn"; pi_git_workspace_context := None;
     pi_verification_basis := "registered" |}.

Definition no_digest (context : GitWorkspaceContext) : string :=
  "0123456789abcdef0123456789abcdef0123456789abcdef0123456789abcdef".

Definition sample_plan (table : TicketTable)
    : result PrepareWritePlanningOutcome WriteTicketPlanningError :=
  plan_prepare_write no_digest (sample_store table) sample_input 150.

Definition issues (r : result PrepareWritePlanningOutcome WriteTicketPlanningError)
    : option PlannedWriteTicketDraft :=
  match r with Ok o => match po_ticket o with PlanIssue d => Some d | _ => None end | Err _ => None end.
Definition reuses (r : result PrepareWritePlanningOutcome WriteTicketPlanningError)
    : option StoredWriteTicketState :=
  match r with Ok o => match po_ticket o with PlanReuse t => Some t | _ => None end | Err _ => None end.

Definition empty_sample : TicketTable := sample_empty.

Lemma sample_issue : ∃ o d, sample_plan empty_sample = Ok o ∧ po_ticket o = PlanIssue d.
Proof.
  assert (is_some (issues (sample_plan empty_sample)) = true) as Hi by (vm_compute; reflexivity).
  unfold issues in Hi. destruct (sample_plan empty_sample) as [o|]; [|done]. exists o.
  destruct (po_ticket o); try done. eauto.
Qed.
Lemma sample_reuse : ∃ o t, sample_plan sample_table = Ok o ∧ po_ticket o = PlanReuse t.
Proof.
  assert (is_some (reuses (sample_plan sample_table)) = true) as Hi by (vm_compute; reflexivity).
  unfold reuses in Hi. destruct (sample_plan sample_table) as [o|]; [|done]. exists o.
  destruct (po_ticket o); try done. eauto.
Qed.

Lemma sample_store_facts : store_facts no_digest (sample_store empty_sample) sample_input 150 3.
Proof.
  split; try done.
  - intros wp [= <-]. done.
  - intros task. simpl. rewrite lookup_singleton_eq. intros [= <-]. simpl. lia.
  - intros cu. simpl. rewrite lookup_singleton_eq. intros [= <-]. done.
  - intros authorities a u [= <-]. simpl. set_solver.
Qed.

Definition sample_context : PrepareWriteResolvedContext :=
  {| rc_normalized :=
       {| ni_input := sample_input; ni_plan_now := 150; ni_intended_operation := "edit";
          ni_intended_paths := ["src/lib.rs"]; ni_sensitive_categories := ["secrets"] |};
     rc_task := sample_task; rc_change_unit := sample_change_unit; rc_reasons := [] |}.

(** A declared category raises a tracked Task to sensitive. *)
Lemma prepare_write_control_monotonic_witness : ∃ policy,
  decide_prepare_write_policy (sample_store empty_sample) sample_context = Ok policy ∧
  tk_effective_control_level (pd_task policy) = Sensitive.
Proof.
  destruct (decide_prepare_write_policy (sample_store empty_sample) sample_context) as [policy|] eqn:E.
  - exists policy. split; [done|].
    destruct (prepare_write_control_monotonic (sample_store empty_sample) sample_context policy E)
      as (_ & _ & _ & Hs & _). apply Hs. by right.
  - vm_compute in E. discriminate E.
Defined.

Lemma plan_decision_matches_ticket_witness : ∃ o, sample_plan empty_sample = Ok o ∧
  po_decision o = DAllowed.
Proof.
  destruct sample_issue as (o & d & Ho & Hd). exists o. split; [exact Ho|].
  destruct (plan_decision_matches_ticket no_digest (sample_store empty_sample) sample_input 150 o Ho)
    as (Hdec & Hticket & _). apply Hdec, Hticket. by rewrite Hd.
Defined.

Lemma issued_ticket_sound_witness : ∃ d cu paths,
  issues (sample_plan empty_sample) = Some d ∧
  current_change_unit (sample_store empty_sample) "t1" = Ok (Some cu) ∧
  paths_match_current_change_unit ["src/lib.rs"] cu = true ∧
  allowed (dw_path_scope d) = paths ∧ path_str <$> paths = ["src/lib.rs"].
Proof.
  destruct sample_issue as (o & d & Ho & Hd).
  destruct (issued_ticket_sound no_digest (sample_store empty_sample) sample_input 150 o d Ho Hd)
    as (task & cu & paths & pending & auth & _ & Hcu & _ & _ & Hpaths & Hperm & _ & _ & _ & Hal & _).
  exists d, cu, paths. split_and!; try done; [|by destruct Hperm].
  rewrite Ho. simpl. by rewrite Hd.
Defined.

Lemma sample_owners_agree :
  owners_agree (sample_store empty_sample) sample_input 150 (tt_owners empty_sample).
Proof.
  split; simpl.
  - intros _ _. vm_compute. reflexivity.
  - intros cu. rewrite lookup_singleton_eq. intros [= <-]. vm_compute. reflexivity.
  - intros authorities a id [= <-]. simpl. set_solver.
Qed.

Lemma issued_ticket_is_stored_witness : ∃ d t s',
  issues (sample_plan empty_sample) = Some d ∧
  materialize_planned_write_ticket d "wt9" 3 3 = Ok t ∧
  insert_write_ticket empty_sample (persistence_input t) 3 = Ok s' ∧
  tt_rows s' !! "wt9" = Some (planned_record t).
Proof.
  destruct sample_issue as (o & d & Ho & Hd).
  destruct (issued_ticket_is_stored no_digest (sample_store empty_sample) sample_input 150 o d
    "wt9" 3 3 empty_sample Ho Hd sample_store_facts sample_owners_agree) as (t & Ht & Hi); try done.
  exists d, t, (set_rows empty_sample (<["wt9" := planned_record t]> (tt_rows empty_sample))).
  split; [unfold issues; rewrite Ho, Hd; reflexivity|]. split; [exact Ht|]. split; [exact Hi|].
  apply lookup_insert_eq.
Defined.

Lemma reused_ticket_sound_witness : ∃ t record,
  reuses (sample_plan sample_table) = Some t ∧ t = record_state record ∧ wt_status record = TActive.
Proof.
  destruct sample_reuse as (o & t & Ho & Ht).
  destruct (reused_ticket_sound no_digest (sample_store sample_table) sample_input 150 o t Ho Ht)
    as (policy & paths & auth & records & record & _ & _ & _ & _ & _ & _ & _ & Hrec & Hact & _).
  exists t, record. split; [unfold reuses; rewrite Ho, Ht; reflexivity|]. split; [exact Hrec|exact Hact].
Defined.

Lemma plan_invalidations_commit_witness : ∃ o s', sample_plan sample_table = Ok o ∧
  apply_ticket_mutations sample_table 4 200 (ticket_mutations (po_storage_mutations o)) = Ok s'.
Proof.
  destruct sample_reuse as (o & t & Ho & _).
  assert (table_ok sample_table 150) as Hok by by apply (table_ok_later sample_table 100 150 sample_table_ok).
  assert (150 ≤ 200)%Z as Hle by lia.
  assert (representable 200 = true) as Hrep by (vm_compute; reflexivity).
  destruct (plan_invalidations_commit no_digest (sample_store sample_table) sample_input 150 o 4 200
    Hok Hle Hrep Ho) as (s' & stale & Hs & _).
  exists o, s'. split; [exact Ho|exact Hs].
Defined.



