(* ===== verification/EvidenceFacts.v ===== *)
(** * EvidenceFacts: provenance of stored and projected observations

    Models [crates/volicord-core/src/evidence_facts.rs] and
    [projected_capture_binding_matches] of [policy/evidence_binding.rs]: which
    authority anchors an observation (a user-channel resolution, a capture chain
    of intent, receipt and producer, or, through reuse, another observation), and
    the summary facts read at close.  User actions and captures are the tables of
    [UserActionStore] and [Capture]; the other reads are the class
    [EvidenceReader].  The recursion over reused observations carries the set of
    visited ids; here it also carries fuel, one more than the observation rows,
    which is proved to be enough. *)

From stdpp Require Import gmap strings.
From S2P Require Import Prelude Text Values Canonical Schema Clock TicketStore UserActionShape.
From S2P Require Import UserActionStore Artifact UserActionService Evidence Capture Admission.

(** ** The store, as the evidence code reads it

    An observation row decodes to a record or is corrupt; a decoded row has the
    id it was read by. *)
Class EvidenceReader (S : Type) := {
  evidence_artifacts :: ArtifactReader S;
  user_action_table : S → UserActionTable;
  capture_table : S → CaptureTable;
  run_record : S → string → result (option RunRecord) StoreError;
  observation_rows : S → gmap string (result EvidenceObservationRecord StoreError);
  evidence_producer_record : S → string → result (option EvidenceProducerRecord) StoreError;
  observation_rows_keyed : ∀ s id r,
    observation_rows s !! id = Some (Ok r) → eor_evidence_observation_id r = id;
}.

Definition evidence_observation_record {S : Type} `{!EvidenceReader S} (store : S) (id : string)
    : result (option EvidenceObservationRecord) StoreError :=
  match observation_rows store !! id with
  | None => Ok None
  | Some (Ok record) => Ok (Some record)
  | Some (Err e) => Err e
  end.

(** ** Capture *)

Record EvidenceCaptureIntent := {
  it_capture_intent_id : string;
  it_project_id : ProjectId;
  it_task_id : TaskId;
  it_change_unit_id : ChangeUnitId;
  it_scope_revision : N;
  it_baseline_ref : BaselineRef;
  it_target : EvidenceTarget;
  it_capture : EvidenceCaptureSpec;
  it_input_sha256 : string;
  it_expected_outcome : JsonObject;
  it_requested_by_actor_source : ActorSource;
  it_workspace_context : JsonObject;
  it_created_at : UtcTimestamp;
  it_expires_at : UtcTimestamp;
}.

Definition capture_intent_from_record (record : EvidenceCaptureIntentRecord) : EvidenceCaptureIntent :=
  {| it_capture_intent_id := ir_evidence_capture_intent_id record;
     it_project_id := ir_project_id record; it_task_id := ir_task_id record;
     it_change_unit_id := ir_change_unit_id record; it_scope_revision := ir_scope_revision record;
     it_baseline_ref := ir_baseline_ref record; it_target := ir_target record;
     it_capture := ir_capture record; it_input_sha256 := ir_input_sha256 record;
     it_expected_outcome := ir_expected_outcome record;
     it_requested_by_actor_source := ir_requested_by_actor_source record;
     it_workspace_context := ir_workspace_context record; it_created_at := ir_created_at record;
     it_expires_at := ir_expires_at record |}.

Definition capture_verification_basis (kind : EvidenceProducerKind) : option string :=
  match kind with
  | VerifiedCommandExecution => Some EVIDENCE_CAPTURE_COMMAND_VERIFICATION_BASIS
  | VerifiedToolInvocation => Some EVIDENCE_CAPTURE_TOOL_VERIFICATION_BASIS
  | UnverifiedCaller | UserChannelObservation | ReusedEvidenceProducer => None
  end.

(** The references to capture intents among the inputs of an observation. *)
Definition capture_refs (input_refs : list StateRecordRef) : list StateRecordRef :=
  List.filter (λ record_ref, sr_record_kind record_ref =? KEvidenceCaptureIntent) input_refs.

Definition ref_in_basis (kind : StateRecordKind) (basis : EvidenceObservationBasis)
    (record_ref : StateRecordRef) : bool :=
  (sr_record_kind record_ref =? kind) && (sr_project_id record_ref =? ebs_project_id basis)
  && (sr_task_id record_ref =? Some (ebs_task_id basis)).

(** [projected_capture_binding_matches] of [evidence_binding.rs]. *)
Definition projected_capture_binding_matches (observation : EvidenceObservation)
    (basis : EvidenceObservationBasis) (verification_basis : option string) : bool :=
  let anchor := eb_producer_anchor observation in
  let relevance := eb_relevance_assessment observation in
  match pn_producer_ref anchor, as_assessment_ref relevance with
  | Some producer_ref, Some intent_ref =>
      ref_in_basis KEvidenceProducer basis producer_ref
      && ref_in_basis KEvidenceCaptureIntent basis intent_ref
      && (capture_refs (eb_input_refs observation) =? [intent_ref])
      && contains (as_status relevance) [Unassessed; Contradicted]
      && is_none (as_assessed_by_actor_source relevance)
      && is_some verification_basis
      && (pn_verification_basis anchor =? verification_basis)
      && is_some (eb_observed_by_actor_source observation ≫= agent_connection_id)
      && is_capture_producer (pn_producer_kind anchor)
  | _, _ => false
  end.

(** What a user-channel resolution grants an observation. *)
Record UserActionObservationResolutionAuthority := {
  ra_relevance_status : EvidenceRelevanceStatus;
  ra_resolved_at : UtcTimestamp;
}.

Definition user_action_observation_resolution_authority
    (action_record : StoredUserActionRecordSet) (resolution_record : StoredUserActionResolution)
    (project_id : ProjectId) (task_id : TaskId) (change_unit_id : string) (scope_revision : N)
    (baseline_ref : option string) (target : EvidenceTarget)
    (output_artifact_refs : list ArtifactRef) : option UserActionObservationResolutionAuthority :=
  let request := set_request action_record in
  match us_resolution resolution_record with
  | ResolutionEvidenceObservation observation =>
      let coordinates := coordinates (ur_basis request) in
      if (set_status action_record <>? UAResolved)
         || (ur_action_kind request <>? Values.EvidenceObservation)
         || (body_action_kind (pr_body (ur_request request)) <>? Values.EvidenceObservation)
         || (ur_project_id request <>? project_id)
         || (ur_task_id request <>? task_id)
         || (co_change_unit_id coordinates <>? Some change_unit_id)
         || (co_scope_revision coordinates <>? scope_revision)
         || (co_baseline_ref coordinates <>? baseline_ref)
         || negb (relevance_is_assessed (ob_relevance_status observation))
         || (us_resolved_by_actor_source resolution_record <>? LocalUser)
         || (ob_target observation <>? target)
         || negb (exact_artifact_ref_sets_match (ob_output_artifact_refs observation)
                    output_artifact_refs)
      then None
      else Some {| ra_relevance_status := ob_relevance_status observation;
                   ra_resolved_at := us_resolved_at resolution_record |}
  | ResolutionChoice _ _ _ _ _ => None
  end.

(** [UserActionVerificationBasis::as_str]. *)
Definition user_action_verification_basis_str (b : UserActionVerificationBasis) : string :=
  match b with CliDirectUserChannel => "cli_direct_user_channel" end.

Record UserChannelObservationAuthorityView := {
  uv_input_refs : list StateRecordRef;
  uv_output_artifact_refs : list ArtifactRef;
  uv_observed_by_actor_source : option ActorSource;
  uv_producer_anchor : EvidenceProducerAnchor;
  uv_relevance_assessment : EvidenceRelevanceAssessment;
  uv_observed_at : UtcTimestamp;
}.

Section evidence_facts.
Context `{HC : Chrono} `{HZ : CanonicalSize} `{HD : CaptureDigest}.
Context {S : Type} `{HR : !EvidenceReader S}.

(** ** Reads that match the basis *)

Definition stored_evidence_observation_matches_basis (store : S) (record : EvidenceObservationRecord)
    (basis : EvidenceObservationBasis) : result bool CorePipelineError :=
  let? source_run := map_err CoreStore
    match eor_run_id record with Some run_id => run_record store run_id | None => Ok None end in
  Ok (stored_observation_matches_basis record source_run basis).

Definition persistent_artifact_ref_is_current (store : S) (basis : EvidenceObservationBasis)
    (artifact_ref : ArtifactRef) : result bool CorePipelineError :=
  if (ar_project_id artifact_ref <>? ebs_project_id basis)
     || (ar_task_id artifact_ref <>? ebs_task_id basis)
     || (ar_availability artifact_ref <>? AAvailable)
     || (ar_integrity_status artifact_ref <>? AIVerified)
  then Ok false
  else
    let? record := map_err CoreStore (artifact_record store (ar_artifact_id artifact_ref)) in
    match record with
    | None => Ok false
    | Some record =>
        if (sa_project_id record <>? ebs_project_id basis) || (sa_task_id record <>? ebs_task_id basis)
        then Ok false
        else
          let? verified := map_err CoreStore (persistent_artifact_is_verified_current store record) in
          if negb verified then Ok false
          else
            let? canonical := map_err CoreStore
              (artifact_ref_from_verified_record store record None None) in
            Ok (exact_artifact_identity_matches canonical artifact_ref)
    end.

(** A loop that returns [false] at the first item that is not current. *)
Fixpoint all_current {A E} (current : A → result bool E) (items : list A) : result bool E :=
  match items with
  | [] => Ok true
  | item :: items =>
      let? ok := current item in
      if ok then all_current current items else Ok false
  end.

Definition stored_observation_artifacts_are_current (store : S) (record : EvidenceObservationRecord)
    (basis : EvidenceObservationBasis) (artifact_refs : list ArtifactRef)
    : result bool CorePipelineError :=
  if list_is_empty artifact_refs then Ok false
  else all_current (λ artifact_ref,
    let? current := persistent_artifact_ref_is_current store basis artifact_ref in
    if negb current then Ok false
    else map_err CoreStore (artifact_has_owner_link store (ar_artifact_id artifact_ref)
                              (ebs_task_id basis) KEvidenceObservation
                              (eor_evidence_observation_id record))) artifact_refs.

Definition projected_observation_artifacts_are_current (store : S)
    (basis : EvidenceObservationBasis) (artifact_refs projected_artifacts : list ArtifactRef)
    : result bool CorePipelineError :=
  if list_is_empty artifact_refs then Ok false
  else all_current (λ artifact_ref,
    if existsb (λ projected, exact_artifact_identity_matches projected artifact_ref)
         projected_artifacts
    then Ok true
    else
      let? current := persistent_artifact_ref_is_current store basis artifact_ref in
      if negb current then Ok false
      else map_err CoreStore (artifact_has_task_owner_link store (ar_artifact_id artifact_ref)
                                (ebs_task_id basis))) artifact_refs.

(** ** User-channel authority *)

Definition user_channel_authority_is_current (store : S) (basis : EvidenceObservationBasis)
    (authority : UserChannelObservationAuthorityView) : result bool CorePipelineError :=
  let anchor := uv_producer_anchor authority in
  let relevance := uv_relevance_assessment authority in
  match pn_producer_ref anchor with
  | None => Ok false
  | Some producer_ref =>
      if (pn_producer_kind anchor <>? UserChannelObservation)
         || negb (ref_in_basis KUserActionResolution basis producer_ref)
         || (uv_observed_by_actor_source authority <>? Some LocalUser)
         || negb (relevance_is_assessed (as_status relevance))
         || (as_assessed_by_actor_source relevance <>? Some LocalUser)
         || negb (authority_ref_matches (as_assessment_ref relevance) producer_ref)
         || negb (existsb (λ input_ref, authority_ref_matches (Some input_ref) producer_ref)
                    (uv_input_refs authority))
      then Ok false
      else
        let? resolution_record := map_err CoreStore
          (user_action_resolution_record (user_action_table store) (sr_record_id producer_ref)) in
        match resolution_record with
        | None => Ok false
        | Some resolution_record =>
            let? action_record := map_err CoreStore
              (effective_user_action_record (user_action_table store)
                 (us_user_action_request_id resolution_record) (ebs_now basis)) in
            match action_record with
            | None => Ok false
            | Some action_record =>
                match user_action_observation_resolution_authority action_record resolution_record
                        (ebs_project_id basis) (ebs_task_id basis) (ebs_change_unit_id basis)
                        (ebs_scope_revision basis) (ebs_baseline_ref basis) (ebs_target basis)
                        (uv_output_artifact_refs authority) with
                | None => Ok false
                | Some resolution_authority =>
                    Ok ((pn_verification_basis anchor
                           =? Some (user_action_verification_basis_str
                                      (us_resolved_verification_basis resolution_record)))
                        && (as_status relevance =? ra_relevance_status resolution_authority)
                        && (uv_observed_at authority =? ra_resolved_at resolution_authority))
                end
            end
        end
  end.

(** ** Capture authority *)

(** The receipt contradicts its intent, or itself. *)
Definition receipt_contradicts_intent (intent : EvidenceCaptureIntent)
    (receipt : EvidenceCaptureReceiptRecord) : bool :=
  let body := rr_safe_receipt receipt in
  (rb_contract_id body <>? EVIDENCE_CAPTURE_RECEIPT_CONTRACT_ID)
  || negb (rb_complete body)
  || (rb_redaction_state body <>? Redacted)
  || (rb_capture_kind body <>? rr_capture_kind receipt)
  || (rb_capture_kind body <>? capture_spec_producer_kind (it_capture intent))
  || (rb_capture_intent_id body <>? it_capture_intent_id intent)
  || (rb_input_sha256 body <>? it_input_sha256 intent)
  || (rb_input_sha256 body <>? rr_input_sha256 receipt)
  || (rb_result_sha256 body <>? rr_result_sha256 receipt)
  || (rb_result_sha256 body <>? canonical_json_bare_sha256 (Object (rb_observed_outcome body)))
  || (obj_norm (rb_expected_outcome body) <>? obj_norm (it_expected_outcome intent))
  || (obj_norm (rb_expected_outcome body) <>? obj_norm (rr_expected_outcome receipt))
  || (obj_norm (rb_observed_outcome body) <>? obj_norm (rr_observed_outcome receipt))
  || negb (list_is_empty (rr_source_refs receipt))
  || (rb_observed_at body <>? rr_observed_at receipt)
  || ts_lt (rb_observed_at body) (it_created_at intent)
  || negb (ts_lt (rb_observed_at body) (it_expires_at intent))
  || ts_lt (rr_created_at receipt) (rb_observed_at body)
  || negb (ts_lt (rr_created_at receipt) (it_expires_at intent))
  || (rb_observed_by_actor_source body <>? rr_observed_by_actor_source receipt)
  || (rr_metadata_source receipt <>? rb_source body).

Definition validate_capture_receipt_record (intent : EvidenceCaptureIntent)
    (receipt : EvidenceCaptureReceiptRecord)
    : result PersistedEvidenceCaptureReceiptBody CorePipelineError :=
  let contradiction field := CoreInvariant
    ("typed evidence receipt `" +:+ rr_evidence_capture_receipt_id receipt
       +:+ "` contradicts its capture intent at `" +:+ field +:+ "`") in
  let body := rr_safe_receipt receipt in
  let? _ := map_err (λ _, contradiction "expected_outcome")
              (validate_evidence_capture_expected_outcome (it_capture intent)
                 (rb_expected_outcome body)) in
  let? _ := map_err (λ _, contradiction "observed_outcome")
              (validate_evidence_capture_observed_outcome (it_capture intent)
                 (rb_observed_outcome body)) in
  let? _ := map_err (λ _, contradiction "limitations")
              (validate_evidence_capture_limitations (it_capture intent) (rb_limitations body)) in
  let? _ := ensure (receipt_contradicts_intent intent receipt) (contradiction "safe_receipt") in
  Ok body.

Definition capture_outcome_matches_expected (receipt_id : string) (capture : EvidenceCaptureSpec)
    (expected observed : JsonObject) : result bool CorePipelineError :=
  map_err (λ _, CoreInvariant ("typed evidence receipt `" +:+ receipt_id
                                 +:+ "` has an invalid observed-outcome shape"))
    (evidence_capture_observed_outcome_matches_expected capture expected observed).

(** The producer row against the observation and the basis. *)
Definition producer_contradicts (observation_record : EvidenceObservationRecord)
    (basis : EvidenceObservationBasis) (output_artifact_refs : list ArtifactRef)
    (observed_by_actor_source : option ActorSource) (producer_anchor : EvidenceProducerAnchor)
    (producer_ref intent_ref : StateRecordRef) (record : EvidenceProducerRecord) : bool :=
  let producer := er_canonical_producer record in
  let observation_ref := ep_observation_ref producer in
  let run_ref := ep_run_ref producer in
  (er_project_id record <>? ebs_project_id basis)
  || (ep_evidence_producer_id producer <>? er_evidence_producer_id record)
  || (ep_capture_intent_id producer <>? er_evidence_capture_intent_id record)
  || (ep_capture_receipt_id producer <>? er_evidence_capture_receipt_id record)
  || (sr_record_id observation_ref <>? er_evidence_observation_id record)
  || (sr_record_id run_ref <>? er_run_id record)
  || (eor_run_id observation_record <>? Some (er_run_id record))
  || (eor_project_id observation_record <>? er_project_id record)
  || (eor_task_id observation_record <>? er_task_id record)
  || (ep_task_id producer <>? er_task_id record)
  || (ep_change_unit_id producer <>? er_change_unit_id record)
  || (ep_scope_revision producer <>? er_scope_revision record)
  || (ep_baseline_ref producer <>? er_baseline_ref record)
  || (ep_producer_kind producer <>? er_producer_kind record)
  || (ep_finalized_at producer <>? er_created_at record)
  || (ep_project_id producer <>? ebs_project_id basis)
  || (ep_task_id producer <>? ebs_task_id basis)
  || (ep_change_unit_id producer <>? ebs_change_unit_id basis)
  || (ep_scope_revision producer <>? ebs_scope_revision basis)
  || is_some_and (ebs_baseline_ref basis) (λ baseline, ep_baseline_ref producer <>? baseline)
  || (ep_target producer <>? ebs_target basis)
  || negb (ref_in_basis KEvidenceObservation basis observation_ref)
  || (sr_record_id observation_ref <>? eor_evidence_observation_id observation_record)
  || (sr_produced_at_state_version observation_ref <>? sr_produced_at_state_version producer_ref)
  || negb (ref_in_basis KRun basis run_ref)
  || (sr_produced_at_state_version run_ref <>? sr_produced_at_state_version producer_ref)
  || (ep_capture_intent_ref producer <>? intent_ref)
  || (ep_receipt_artifact_refs producer <>? output_artifact_refs)
  || negb (sole_artifact_is (er_artifact_id record) (ep_receipt_artifact_refs producer))
  || (Some (ep_observed_by_actor_source producer) <>? observed_by_actor_source)
  || negb (ep_complete producer)
  || (ep_redaction_state producer <>? Redacted)
  || (ep_producer_kind producer <>? pn_producer_kind producer_anchor)
  || (pn_verification_basis producer_anchor <>? capture_verification_basis (ep_producer_kind producer))
  || (Some (er_metadata_verification_basis record)
        <>? capture_verification_basis (ep_producer_kind producer)).

Definition expected_tool_name (capture : EvidenceCaptureSpec) : option string :=
  match capture with
  | VerifiedCommandExecutionSpec _ _ _ => Some "volicord.command_runner"
  | VerifiedToolInvocationSpec tool_name _ _ => Some tool_name
  end.

Definition expected_tool_metadata (intent : EvidenceCaptureIntent)
    (receipt : EvidenceCaptureReceiptRecord) (body : PersistedEvidenceCaptureReceiptBody)
    : JsonObject :=
  [("capture_intent_id", Str (it_capture_intent_id intent));
   ("capture_receipt_id", Str (rr_evidence_capture_receipt_id receipt));
   ("result_sha256", Str (rr_result_sha256 receipt));
   ("connection_id", Str (src_connection_id (rb_source body)));
   ("host_invocation_id", nullable_value (src_host_invocation_id (rb_source body)))].

(** The producer, its receipt and the observation agree with the intent. *)
Definition capture_chain_agrees (observation_record : EvidenceObservationRecord)
    (basis : EvidenceObservationBasis) (relevance_assessment : EvidenceRelevanceAssessment)
    (producer : EvidenceProducer) (intent : EvidenceCaptureIntent)
    (receipt : EvidenceCaptureReceiptRecord) (receipt_body : PersistedEvidenceCaptureReceiptBody)
    (expected_relevance : EvidenceRelevanceStatus) : bool :=
  let source := rb_source receipt_body in
  (it_capture_intent_id intent =? ep_capture_intent_id producer)
  && (it_project_id intent =? ebs_project_id basis)
  && (it_task_id intent =? ebs_task_id basis)
  && (it_change_unit_id intent =? ebs_change_unit_id basis)
  && (it_scope_revision intent =? ebs_scope_revision basis)
  && (it_baseline_ref intent =? ep_baseline_ref producer)
  && (it_target intent =? ebs_target basis)
  && (rr_evidence_capture_receipt_id receipt =? ep_capture_receipt_id producer)
  && (ep_input_sha256 producer =? it_input_sha256 intent)
  && (ep_input_sha256 producer =? rr_input_sha256 receipt)
  && (rr_result_sha256 receipt =? ep_result_sha256 producer)
  && (ep_producer_kind producer =? rb_capture_kind receipt_body)
  && (ep_producer_kind producer =? capture_spec_producer_kind (it_capture intent))
  && (obj_norm (ep_expected_outcome producer) =? obj_norm (it_expected_outcome intent))
  && (obj_norm (ep_expected_outcome producer) =? obj_norm (rb_expected_outcome receipt_body))
  && (obj_norm (rb_observed_outcome receipt_body) =? obj_norm (ep_observed_outcome producer))
  && (ep_source_refs producer =? rr_source_refs receipt)
  && (ep_connection_id producer =? src_connection_id source)
  && (ep_host_invocation_id producer =? src_host_invocation_id source)
  && (ep_limitations producer =? rb_limitations receipt_body)
  && (ep_observed_at producer =? rb_observed_at receipt_body)
  && (eor_tool_name observation_record =? expected_tool_name (it_capture intent))
  && (eor_tool_invocation_id observation_record =? src_host_invocation_id source)
  && (obj_norm (eor_tool_metadata observation_record)
        =? obj_norm (expected_tool_metadata intent receipt receipt_body))
  && list_is_empty (eor_source_refs observation_record)
  && (eor_limitations observation_record =? rb_limitations receipt_body)
  && (eor_observed_at observation_record =? rb_observed_at receipt_body)
  && (eor_recorded_at observation_record =? ep_finalized_at producer)
  && (as_status relevance_assessment =? expected_relevance)
  && (rb_observed_by_actor_source receipt_body =? ep_observed_by_actor_source producer).

Definition stored_capture_authority_is_current (store : S)
    (observation_record : EvidenceObservationRecord) (basis : EvidenceObservationBasis)
    (input_refs : list StateRecordRef) (output_artifact_refs : list ArtifactRef)
    (observed_by_actor_source : option ActorSource) (producer_anchor : EvidenceProducerAnchor)
    (relevance_assessment : EvidenceRelevanceAssessment) : result bool CorePipelineError :=
  match pn_producer_ref producer_anchor, as_assessment_ref relevance_assessment with
  | Some producer_ref, Some intent_ref =>
      if negb (ref_in_basis KEvidenceProducer basis producer_ref)
         || negb (ref_in_basis KEvidenceCaptureIntent basis intent_ref)
         || (capture_refs input_refs <>? [intent_ref])
         || is_some (as_assessed_by_actor_source relevance_assessment)
         || is_none (observed_by_actor_source ≫= agent_connection_id)
      then Ok false
      else
        let? record := map_err CoreStore (evidence_producer_record store (sr_record_id producer_ref)) in
        match record with
        | None => Ok false
        | Some record =>
            if producer_contradicts observation_record basis output_artifact_refs
                 observed_by_actor_source producer_anchor producer_ref intent_ref record
            then Ok false
            else
              let? intent_record := map_err CoreStore
                (evidence_capture_intent_record (capture_table store)
                   (er_evidence_capture_intent_id record)) in
              match intent_record with
              | None => Ok false
              | Some intent_record =>
                  let intent := capture_intent_from_record intent_record in
                  let? receipt := map_err CoreStore
                    (evidence_capture_receipt_for_intent (capture_table store)
                       (it_capture_intent_id intent)) in
                  match receipt with
                  | None => Ok false
                  | Some receipt =>
                      let? receipt_body := validate_capture_receipt_record intent receipt in
                      let? _ := map_err CoreStore
                        (validate_evidence_capture_source_claims_for_receipt (capture_table store)
                           intent_record receipt (it_capture intent) receipt_body) in
                      let? outcome_matches_expected := capture_outcome_matches_expected
                        (rr_evidence_capture_receipt_id receipt) (it_capture intent)
                        (rb_expected_outcome receipt_body) (rb_observed_outcome receipt_body) in
                      Ok (capture_chain_agrees observation_record basis relevance_assessment
                            (er_canonical_producer record) intent receipt receipt_body
                            (capture_outcome_relevance outcome_matches_expected))
                  end
              end
        end
  | _, _ => Ok false
  end.

(** ** Reuse and anchoring *)

(** The checks made of a reused observation's anchor and assessment. *)
Definition reuse_anchor_matches (basis : EvidenceObservationBasis) (source_ref : StateRecordRef)
    (producer_anchor : EvidenceProducerAnchor) (relevance_assessment : EvidenceRelevanceAssessment)
    : bool :=
  ref_in_basis KEvidenceObservation basis source_ref
  && (pn_producer_kind producer_anchor =? ReusedEvidenceProducer)
  && (pn_verification_basis producer_anchor =? Some "core_validated_evidence_reuse")
  && (as_status relevance_assessment =? Supported)
  && authority_ref_matches (pn_producer_ref producer_anchor) source_ref
  && authority_ref_matches (as_assessment_ref relevance_assessment) source_ref
  && is_none (as_assessed_by_actor_source relevance_assessment).

(** [stored_evidence_observation_relevance]. *)
Definition stored_evidence_observation_relevance (record : EvidenceObservationRecord)
    : EvidenceRelevanceAssessment := pa_relevance_assessment (eor_metadata record).

(** The view of a stored observation its user-channel authority is read from. *)
Definition stored_authority_view (record : EvidenceObservationRecord)
    : UserChannelObservationAuthorityView :=
  {| uv_input_refs := eor_input_refs record;
     uv_output_artifact_refs := eor_output_artifact_refs record;
     uv_observed_by_actor_source := eor_observed_by_actor_source record;
     uv_producer_anchor := pa_producer_anchor (eor_metadata record);
     uv_relevance_assessment := pa_relevance_assessment (eor_metadata record);
     uv_observed_at := eor_observed_at record |}.

(** The assurance anchored by an observation's own authority, or by the
    observation it reuses; [None] is out of fuel.  [visited] holds the ids of the
    observations already entered. *)
Fixpoint anchored_assurance (fuel : nat) (store : S) (record : EvidenceObservationRecord)
    (basis : EvidenceObservationBasis) (visited : gset string)
    : option (result (option EvidenceAssuranceLevel) CorePipelineError) :=
  match fuel with
  | O => None
  | Datatypes.S fuel =>
    let id := eor_evidence_observation_id record in
    let authority := eor_metadata record in
    let anchor := pa_producer_anchor authority in
    let relevance := pa_relevance_assessment authority in
    let assurance_level := eor_assurance_level record in
    if bool_decide (id ∈ visited) then Some (Ok None)
    else
      let visited := {[ id ]} ∪ visited in
      match stored_evidence_observation_matches_basis store record basis with
      | Err e => Some (Err e)
      | Ok false => Some (Ok None)
      | Ok true =>
        if negb (evidence_assurance_matches_source (eor_source_kind record) assurance_level)
           || (eor_run_id record <>? Some (pa_recorded_by_run_id authority))
           || str_is_empty (trim (pa_invocation_verification_basis authority))
        then Some (Ok None)
        else
          match stored_observation_artifacts_are_current store record basis
                  (eor_output_artifact_refs record) with
          | Err e => Some (Err e)
          | Ok false => Some (Ok None)
          | Ok true =>
            if negb (producer_output_binding_matches anchor (eor_output_artifact_refs record))
            then Some (Ok None)
            else
              match eor_source_kind record, assurance_level with
              | UserObservation, UserObserved => Some
                  (let? current := user_channel_authority_is_current store basis
                                     (stored_authority_view record) in
                   Ok (bool_then current assurance_level))
              | ReusedEvidence, inherited_assurance =>
                  match eor_input_refs record with
                  | [source_ref] =>
                      if (sr_record_id source_ref =? id)
                         || negb (reuse_anchor_matches basis source_ref anchor relevance)
                      then Some (Ok None)
                      else
                        match evidence_observation_record store (sr_record_id source_ref) with
                        | Err e => Some (Err (CoreStore e))
                        | Ok None => Some (Ok None)
                        | Ok (Some source_record) =>
                            if negb (exact_artifact_ref_sets_match
                                       (eor_output_artifact_refs source_record)
                                       (eor_output_artifact_refs record))
                               || negb (relevance_supports_claim
                                          (stored_evidence_observation_relevance source_record))
                            then Some (Ok None)
                            else
                              (λ inherited, let? inherited := inherited in
                                 Ok (bool_then (inherited =? Some inherited_assurance)
                                       inherited_assurance))
                              <$> anchored_assurance fuel store source_record basis visited
                        end
                  | _ => Some (Ok None)
                  end
              | ExternalTool, ExternalToolResult => Some
                  (let? current := stored_capture_authority_is_current store record basis
                                     (eor_input_refs record) (eor_output_artifact_refs record)
                                     (eor_observed_by_actor_source record) anchor relevance in
                   Ok (bool_then current assurance_level))
              | _, _ => Some (Ok None)
              end
          end
      end
  end.

(** Enough fuel for every chain of reuse: each step enters a new stored row. *)
Definition reuse_fuel (store : S) : nat := Datatypes.S (Datatypes.S (size (observation_rows store))).

Definition stored_evidence_observation_anchored_assurance (store : S)
    (record : EvidenceObservationRecord) (basis : EvidenceObservationBasis) (visited : gset string)
    : result (option EvidenceAssuranceLevel) CorePipelineError :=
  default (Ok None) (anchored_assurance (reuse_fuel store) store record basis visited).

(** Bindings are only sought for an observation that could be strong. *)
Definition bindings_can_match (basis_matches : bool) (source_kind : EvidenceSourceKind)
    (assurance_level : EvidenceAssuranceLevel) : bool :=
  basis_matches && evidence_assurance_matches_source source_kind assurance_level
  && negb ((source_kind =? AgentReport) && (assurance_level =? CooperativeReport)).

Definition stored_evidence_observation_provenance_facts (store : S)
    (record : EvidenceObservationRecord) (basis : EvidenceObservationBasis)
    : result EvidenceProvenanceFacts CorePipelineError :=
  let? basis_matches := stored_evidence_observation_matches_basis store record basis in
  let source_kind := eor_source_kind record in
  let assurance_level := eor_assurance_level record in
  let? binding_matches :=
    if bindings_can_match basis_matches source_kind assurance_level then
      let? anchored := stored_evidence_observation_anchored_assurance store record basis ∅ in
      Ok (is_some anchored)
    else Ok false in
  Ok {| pvf_basis_matches := basis_matches; pvf_source_kind := source_kind;
        pvf_assurance_level := assurance_level; pvf_artifact_binding_matches := binding_matches;
        pvf_producer_binding_matches := binding_matches |}.

Definition stored_evidence_observation_capture_relevance (record : EvidenceObservationRecord)
    : option EvidenceRelevanceStatus :=
  bool_then (is_capture_producer (pn_producer_kind (pa_producer_anchor (eor_metadata record))))
    (as_status (pa_relevance_assessment (eor_metadata record))).

Definition projected_reuse_authority_is_current (store : S) (basis : EvidenceObservationBasis)
    (observation : EvidenceObservation) (inherited_assurance : EvidenceAssuranceLevel)
    : result bool CorePipelineError :=
  match eb_input_refs observation with
  | [source_ref] =>
      if negb (reuse_anchor_matches basis source_ref (eb_producer_anchor observation)
                 (eb_relevance_assessment observation))
      then Ok false
      else
        let? source_record := map_err CoreStore
          (evidence_observation_record store (sr_record_id source_ref)) in
        match source_record with
        | None => Ok false
        | Some source_record =>
            if negb (exact_artifact_ref_sets_match (eor_output_artifact_refs source_record)
                       (eb_output_artifact_refs observation))
               || negb (relevance_supports_claim (stored_evidence_observation_relevance source_record))
            then Ok false
            else
              let? anchored :=
                stored_evidence_observation_anchored_assurance store source_record basis ∅ in
              Ok (anchored =? Some inherited_assurance)
        end
  | _ => Ok false
  end.

Definition projected_evidence_observation_provenance_facts (store : S)
    (observation : EvidenceObservation) (basis : EvidenceObservationBasis)
    (projected_artifacts : list ArtifactRef) : result EvidenceProvenanceFacts CorePipelineError :=
  let basis_matches := projected_observation_matches_basis observation basis in
  let source_kind := eb_source_kind observation in
  let assurance_level := eb_assurance_level observation in
  let facts artifact_binding_matches producer_binding_matches :=
    {| pvf_basis_matches := basis_matches; pvf_source_kind := source_kind;
       pvf_assurance_level := assurance_level;
       pvf_artifact_binding_matches := artifact_binding_matches;
       pvf_producer_binding_matches := producer_binding_matches |} in
  if negb (bindings_can_match basis_matches source_kind assurance_level) then Ok (facts false false)
  else
    let? artifacts_current := projected_observation_artifacts_are_current store basis
                                (eb_output_artifact_refs observation) projected_artifacts in
    let artifact_binding_matches :=
      artifacts_current && producer_output_binding_matches (eb_producer_anchor observation)
                             (eb_output_artifact_refs observation) in
    let? producer_binding_matches :=
      match source_kind, assurance_level with
      | UserObservation, UserObserved =>
          user_channel_authority_is_current store basis
            {| uv_input_refs := eb_input_refs observation;
               uv_output_artifact_refs := eb_output_artifact_refs observation;
               uv_observed_by_actor_source := eb_observed_by_actor_source observation;
               uv_producer_anchor := eb_producer_anchor observation;
               uv_relevance_assessment := eb_relevance_assessment observation;
               uv_observed_at := eb_observed_at observation |}
      | ReusedEvidence, assurance_level =>
          projected_reuse_authority_is_current store basis observation assurance_level
      | ExternalTool, ExternalToolResult =>
          Ok (projected_capture_binding_matches observation basis
                (capture_verification_basis (pn_producer_kind (eb_producer_anchor observation))))
      | _, _ => Ok false
      end in
    Ok (facts artifact_binding_matches producer_binding_matches).

(** ** The evidence summary at close *)

Definition unavailable_artifact_ref_from_raw (artifact_ref : ArtifactRef)
    (availability : ArtifactAvailability) : ArtifactRef :=
  {| ar_artifact_id := ar_artifact_id artifact_ref; ar_project_id := ar_project_id artifact_ref;
     ar_task_id := ar_task_id artifact_ref; ar_display_name := ar_display_name artifact_ref;
     ar_content_type := ar_content_type artifact_ref; ar_sha256 := ar_sha256 artifact_ref;
     ar_size_bytes := ar_size_bytes artifact_ref;
     ar_integrity_status := ar_integrity_status artifact_ref;
     ar_redaction_state := ar_redaction_state artifact_ref; ar_availability := availability;
     ar_created_by_run_ref := ar_created_by_run_ref artifact_ref;
     ar_created_by_actor_source := ar_created_by_actor_source artifact_ref;
     ar_storage_ref := ar_storage_ref artifact_ref |}.

Definition sanitize_evidence_artifact_ref (store : S) (artifact_ref : ArtifactRef)
    (project_id : ProjectId) (task_id : TaskId) (state_version : N)
    : result ArtifactRef CorePipelineError :=
  if (ar_project_id artifact_ref <>? project_id) || (ar_task_id artifact_ref <>? task_id)
  then Ok (unavailable_artifact_ref_from_raw artifact_ref AUnusable)
  else
    let? record := map_err CoreStore (artifact_record store (ar_artifact_id artifact_ref)) in
    match record with
    | None => Ok (unavailable_artifact_ref_from_raw artifact_ref AMissing)
    | Some record => map_err CoreStore
        (artifact_ref_from_verified_record store record (Some (ar_display_name artifact_ref))
           (Some state_version))
    end.

(** A summary row; the fields no reader uses are left out. *)
Record EvidenceSummaryRecord := {
  esr_change_unit_id : option string;
  esr_coverage : list EvidenceCoverageItem;
  esr_updated_by_run_id : string;
}.

Definition with_artifact_refs (item : EvidenceCoverageItem) (refs : list ArtifactRef)
    : EvidenceCoverageItem :=
  {| ci_target := ci_target item; ci_coverage_state := ci_coverage_state item;
     ci_supporting_run_refs := ci_supporting_run_refs item;
     ci_observation_refs := ci_observation_refs item; ci_supporting_artifact_refs := refs;
     ci_gap_refs := ci_gap_refs item |}.

Definition load_close_evidence_summary_facts (store : S) (record : option EvidenceSummaryRecord)
    (task : TaskRecord) (project_id : ProjectId) (task_id : TaskId) (state_version : N)
    : result CloseEvidenceSummaryFacts CorePipelineError :=
  let updated_by_run_id := esr_updated_by_run_id <$> record in
  let? updated_by_run := map_err CoreStore
    match updated_by_run_id with Some run_id => run_record store run_id | None => Ok None end in
  let? coverage_items := try_map (λ item,
      let? refs := try_map (λ artifact_ref,
          sanitize_evidence_artifact_ref store artifact_ref project_id task_id state_version)
        (ci_supporting_artifact_refs item) in
      Ok (with_artifact_refs item refs)) (from_option esr_coverage [] record) in
  Ok {| csf_task_project_id := tk_project_id task; csf_task_id := tk_task_id task;
        csf_task_change_unit_id := tk_current_change_unit_id task;
        csf_task_scope_revision := tk_scope_revision task;
        csf_summary_change_unit_id := record ≫= esr_change_unit_id;
        csf_updated_by_run_declared := is_some updated_by_run_id;
        csf_updated_by_run := (λ run,
          {| crf_project_id := rn_project_id run; crf_task_id := rn_task_id run;
             crf_change_unit_id := rn_change_unit_id run;
             crf_scope_revision := rn_scope_revision run |}) <$> updated_by_run;
        csf_updated_by_run_ref := (λ run_id,
          state_ref KRun run_id project_id (Some task_id) (Some state_version)) <$> updated_by_run_id;
        csf_coverage_items := coverage_items |}.
End evidence_facts.
