(* ===== verification/EvidenceFactsSound.v ===== *)
(** * EvidenceFactsSound: reuse terminates and evidence has a root

    The recursion over reused observations never runs out of fuel, a chain of
    reuse ends in an observation with its own authority and hands down exactly
    that assurance, and supported reuse is always rooted in a resolution the
    local user made through the user channel. *)

From stdpp Require Import gmap strings.
From S2P Require Import Prelude Text Values Canonical Schema Clock TicketStore UserActionShape.
From S2P Require Import UserActionStore Artifact UserActionService Evidence Capture Admission.
From S2P Require Import EvidenceFacts.

Section anchored.
Context `{HC : Chrono} `{HZ : CanonicalSize} `{HD : CaptureDigest}.
Context {S : Type} `{HR : !EvidenceReader S}.
Implicit Types (store : S) (record root : EvidenceObservationRecord).
Implicit Types (basis : EvidenceObservationBasis) (visited : gset string).

(** ** Termination *)

Definition unvisited store visited : gset string := dom (observation_rows store) ∖ visited.

Lemma evidence_observation_record_Some store id record :
  evidence_observation_record store id = Ok (Some record) →
  observation_rows store !! id = Some (Ok record) ∧ eor_evidence_observation_id record = id.
Proof.
  unfold evidence_observation_record. intros Hr. repeat case_match; simplify_eq.
  split; [done|]. by eapply observation_rows_keyed.
Qed.

(** Entering a stored row that was not visited leaves fewer unvisited rows. *)
Lemma unvisited_enter store visited id :
  id ∈ dom (observation_rows store) → id ∉ visited →
  size (unvisited store ({[ id ]} ∪ visited)) < size (unvisited store visited).
Proof.
  intros Hin Hnew. apply subset_size. unfold unvisited. set_solver.
Qed.

Lemma unvisited_le store visited : size (unvisited store visited) ≤ size (observation_rows store).
Proof.
  rewrite <-size_dom. apply subseteq_size. unfold unvisited. set_solver.
Qed.

(** What a run with [fuel] left must do for one with one more to return. *)
Lemma anchored_assurance_step fuel store record basis visited :
  let visited' := {[ eor_evidence_observation_id record ]} ∪ visited in
  (eor_evidence_observation_id record ∉ visited →
   ∀ source, eor_evidence_observation_id source ∈ dom (observation_rows store) →
     is_Some (anchored_assurance fuel store source basis visited')) →
  is_Some (anchored_assurance (Datatypes.S fuel) store record basis visited).
Proof.
  intros visited' IH. subst visited'. cbn [anchored_assurance].
  case_bool_decide as Hv; [exact (mk_is_Some _ _ eq_refl)|].
  destruct (stored_evidence_observation_matches_basis _ _ _) as [[|]|];
    [|exact (mk_is_Some _ _ eq_refl)..].
  case_match; [exact (mk_is_Some _ _ eq_refl)|].
  destruct (stored_observation_artifacts_are_current _ _ _ _) as [[|]|];
    [|exact (mk_is_Some _ _ eq_refl)..].
  case_match; [exact (mk_is_Some _ _ eq_refl)|].
  destruct (eor_source_kind record), (eor_assurance_level record);
    try exact (mk_is_Some _ _ eq_refl).
  all: destruct (eor_input_refs record) as [|source_ref [|]]; try exact (mk_is_Some _ _ eq_refl).
  all: case_match; [exact (mk_is_Some _ _ eq_refl)|].
  all: destruct (evidence_observation_record store (sr_record_id source_ref)) as [[source|]|] eqn:Hs;
    [|exact (mk_is_Some _ _ eq_refl)..].
  all: apply evidence_observation_record_Some in Hs as [Hrow Hid].
  all: case_match; [exact (mk_is_Some _ _ eq_refl)|].
  all: apply fmap_is_Some, IH; [done|]; rewrite Hid; by apply elem_of_dom_2 in Hrow.
Qed.

Lemma anchored_assurance_stored fuel store record basis visited :
  eor_evidence_observation_id record ∈ dom (observation_rows store) →
  size (unvisited store visited) < fuel →
  is_Some (anchored_assurance fuel store record basis visited).
Proof.
  revert record visited. induction fuel as [|fuel IH]; intros record visited Hin Hfuel; [lia|].
  apply anchored_assurance_step. intros Hnew source Hsource. apply IH; [done|].
  pose proof (unvisited_enter store visited _ Hin Hnew). lia.
Qed.

Lemma anchored_assurance_total store record basis visited :
  is_Some (anchored_assurance (reuse_fuel store) store record basis visited).
Proof.
  apply anchored_assurance_step. intros _ source Hsource.
  apply anchored_assurance_stored; [done|].
  pose proof (unvisited_le store ({[ eor_evidence_observation_id record ]} ∪ visited)). lia.
Qed.

Lemma anchored_assurance_mono fuel more store record basis visited r :
  anchored_assurance fuel store record basis visited = Some r → fuel ≤ more →
  anchored_assurance more store record basis visited = Some r.
Proof.
  revert more record visited r. induction fuel as [|fuel IH]; intros more record visited r Hr Hle;
    [done|].
  destruct more as [|more]; [lia|]. revert Hr. cbn [anchored_assurance].
  case_bool_decide; [done|].
  destruct (stored_evidence_observation_matches_basis _ _ _) as [[|]|]; [|done..].
  case_match; [done|].
  destruct (stored_observation_artifacts_are_current _ _ _ _) as [[|]|]; [|done..].
  case_match; [done|].
  destruct (eor_source_kind record), (eor_assurance_level record); try done.
  all: destruct (eor_input_refs record) as [|source_ref [|]]; try done.
  all: case_match; [done|].
  all: destruct (evidence_observation_record store (sr_record_id source_ref)) as [[source|]|]; try done.
  all: case_match; [done|].
  all: intros (inner & Hinner & ->)%fmap_Some; apply fmap_Some; exists inner; split; [|done].
  all: apply (IH more); [done|lia].
Qed.

(** C34: termination of the walk over reused observations: for every store,
    observation and set of visited ids the walk returns, and its result no longer
    depends on the fuel once that is at least [reuse_fuel], two more than the number
    of stored observations: cyclic chains of reuse are cut by the visited set. *)
Theorem anchored_assurance_terminates store record basis visited :
  ∃ r, stored_evidence_observation_anchored_assurance store record basis visited = r ∧
    ∀ fuel, reuse_fuel store ≤ fuel →
      anchored_assurance fuel store record basis visited = Some r.
Proof.
  destruct (anchored_assurance_total store record basis visited) as [r Hr].
  exists r. unfold stored_evidence_observation_anchored_assurance. rewrite Hr. split; [done|].
  intros fuel Hfuel. by eapply anchored_assurance_mono.
Qed.

(** ** Roots *)

(** What every observation of a chain satisfies: it belongs to the basis and its
    outputs are current, verified artifacts it owns. *)
Definition observation_is_current store basis record : Prop :=
  stored_evidence_observation_matches_basis store record basis = Ok true ∧
  stored_observation_artifacts_are_current store record basis (eor_output_artifact_refs record)
    = Ok true.

Definition user_observed store basis record : Prop :=
  eor_source_kind record = UserObservation ∧ eor_assurance_level record = UserObserved ∧
  user_channel_authority_is_current store basis (stored_authority_view record) = Ok true.

Definition captured store basis record : Prop :=
  eor_source_kind record = ExternalTool ∧ eor_assurance_level record = ExternalToolResult ∧
  stored_capture_authority_is_current store record basis (eor_input_refs record)
    (eor_output_artifact_refs record) (eor_observed_by_actor_source record)
    (pa_producer_anchor (eor_metadata record)) (pa_relevance_assessment (eor_metadata record))
    = Ok true.

(** [anchored_by record root]: a chain of reuse from [record] to [root]. *)
Inductive anchored_by store basis : EvidenceObservationRecord → EvidenceObservationRecord → Prop :=
| anchored_user record :
    observation_is_current store basis record → user_observed store basis record →
    anchored_by store basis record record
| anchored_capture record :
    observation_is_current store basis record → captured store basis record →
    anchored_by store basis record record
| anchored_reuse record source_ref source root :
    observation_is_current store basis record →
    eor_source_kind record = ReusedEvidence → eor_input_refs record = [source_ref] →
    evidence_observation_record store (sr_record_id source_ref) = Ok (Some source) →
    exact_artifact_ref_sets_match (eor_output_artifact_refs source)
      (eor_output_artifact_refs record) = true →
    relevance_supports_claim (stored_evidence_observation_relevance source) = true →
    anchored_by store basis source root →
    anchored_by store basis record root.

Lemma bool_then_Some {A} b (a x : A) : bool_then b a = Some x → b = true ∧ x = a.
Proof. unfold bool_then. destruct b; [intros [= ->]; done|done]. Qed.

Lemma anchored_assurance_root fuel store record basis visited level :
  anchored_assurance fuel store record basis visited = Some (Ok (Some level)) →
  eor_assurance_level record = level ∧
  ∃ root, anchored_by store basis record root ∧ eor_assurance_level root = level.
Proof.
  revert record visited level. induction fuel as [|fuel IH]; intros record visited level Hr; [done|].
  revert Hr. cbn [anchored_assurance].
  case_bool_decide; [done|].
  destruct (stored_evidence_observation_matches_basis _ _ _) as [[|]|] eqn:Hm; [|done..].
  case_match; [done|].
  destruct (stored_observation_artifacts_are_current _ _ _ _) as [[|]|] eqn:Ha; [|done..].
  case_match; [done|].
  assert (observation_is_current store basis record) as Hcur by done.
  destruct (eor_source_kind record) eqn:Hk, (eor_assurance_level record) eqn:Hl; try done.
  { intros [= Hc]. apply bind_Ok in Hc as (b & Hb & [= [-> ->]%bool_then_Some]).
    split; [done|]. exists record. split; [by apply anchored_capture|done]. }
  { intros [= Hc]. apply bind_Ok in Hc as (b & Hb & [= [-> ->]%bool_then_Some]).
    split; [done|]. exists record. split; [by apply anchored_user|done]. }
  all: destruct (eor_input_refs record) as [|source_ref [|]] eqn:Hrefs; try done.
  all: case_match; [done|].
  all: destruct (evidence_observation_record store (sr_record_id source_ref)) as [[source|]|] eqn:Hs;
    try done.
  all: case_match eqn:Hreuse; [done|]; apply orb_false_iff in Hreuse as [?%negb_false_iff ?%negb_false_iff].
  all: intros ([inherited|] & Hinner & Hc)%fmap_Some; [|done]; revert Hc; simpl.
  all: intros [= [->%eqb_eq ->]%eq_sym%bool_then_Some]; split; [done|].
  all: destruct (IH _ _ _ Hinner) as (_ & root & Hroot & Hlevel); exists root; split; [|done].
  all: by eapply anchored_reuse.
Qed.

(** A capture never establishes relevance: its assessment is the outcome of the
    receipt, which is unassessed or contradicted; and its producer is one of the
    capture producers, whose relevance close looks at. *)
Lemma captured_unsupported store basis record :
  captured store basis record →
  relevance_supports_claim (stored_evidence_observation_relevance record) = false ∧
  is_some_and (stored_evidence_observation_capture_relevance record)
    (λ status, status <>? Supported) = true.
Proof.
  intros (_ & _ & Hc). revert Hc. unfold stored_capture_authority_is_current.
  destruct (pn_producer_ref _) as [producer_ref|]; [|done].
  destruct (as_assessment_ref _) as [intent_ref|]; [|done].
  case_match; [done|]. intros (producer & _ & Hc)%bind_Ok. destruct producer as [producer|]; [|done].
  revert Hc. case_match eqn:Hprod; [done|]. intros (intent & _ & Hc)%bind_Ok.
  destruct intent as [intent|]; [|done]. apply bind_Ok in Hc as (receipt & _ & Hc).
  destruct receipt as [receipt|]; [|done]. apply bind_Ok in Hc as (body & _ & Hc).
  apply bind_Ok in Hc as ([] & _ & Hc). apply bind_Ok in Hc as (outcome & _ & [= Hc]).
  unfold capture_chain_agrees in Hc. rewrite !andb_true_iff in Hc. destruct_and! Hc.
  unfold producer_contradicts in Hprod. rewrite !orb_false_iff, !negb_false_iff in Hprod.
  destruct_and! Hprod.
  match goal with H : (as_status _ =? _) = true |- _ => apply eqb_eq in H; rename H into Hst end.
  match goal with H : (_ =? capture_spec_producer_kind _) = true |- _ =>
    apply eqb_eq in H; rename H into Hspec end.
  match goal with H : (_ =? pn_producer_kind _) = true |- _ =>
    apply eqb_eq in H; rename H into Hkind end.
  unfold relevance_supports_claim, stored_evidence_observation_relevance,
    stored_evidence_observation_capture_relevance. rewrite <-Hkind, Hspec, Hst.
  by destruct (it_capture _), outcome.
Qed.

Lemma anchored_by_user store basis record root :
  anchored_by store basis record root →
  is_some_and (stored_evidence_observation_capture_relevance record)
    (λ status, status <>? Supported) = false ∨
  relevance_supports_claim (stored_evidence_observation_relevance record) = true →
  user_observed store basis root.
Proof.
  induction 1 as [record|record Hcur Hcap|record source_ref source root _ _ _ _ _ Hs Hchain IH];
    intros Hsup; [done| |apply IH; by right].
  destruct (captured_unsupported store basis record Hcap). destruct Hsup; congruence.
Qed.

(** A strong stored observation is anchored. *)
Lemma strong_facts_anchored store record basis facts :
  stored_evidence_observation_provenance_facts store record basis = Ok facts →
  classify_evidence_provenance facts = Strong →
  ∃ root, anchored_by store basis record root ∧
    eor_assurance_level root = eor_assurance_level record.
Proof.
  unfold stored_evidence_observation_provenance_facts.
  intros (m & _ & Hf)%bind_Ok Hstrong. apply bind_Ok in Hf as (binding & Hb & [= <-]).
  destruct binding; [|revert Hstrong; unfold classify_evidence_provenance; simpl; by repeat case_match].
  case_match; [|done]. apply bind_Ok in Hb as (anchored & Ha & [= Hsome]).
  destruct anchored as [level|]; [|done].
  revert Ha. unfold stored_evidence_observation_anchored_assurance.
  destruct (anchored_assurance_total store record basis ∅) as [r Hr]. rewrite Hr. simpl. intros ->.
  apply anchored_assurance_root in Hr as (Hl & root & Hroot & Hrl). exists root. split; congruence.
Qed.

(** What makes a user-channel authority current: the referenced resolution is an
    evidence observation the local user made for this very target, outputs and
    basis, and its request is resolved. *)
Record user_resolution store basis (output_artifact_refs : list ArtifactRef)
    (resolution : StoredUserActionResolution) (action : StoredUserActionRecordSet)
    (observation : UserActionEvidenceObservation) : Prop := {
  ures_action : effective_user_action_record (user_action_table store)
    (us_user_action_request_id resolution) (ebs_now basis) = Ok (Some action);
  ures_status : set_status action = UAResolved;
  ures_project : ur_project_id (set_request action) = ebs_project_id basis;
  ures_task : ur_task_id (set_request action) = ebs_task_id basis;
  ures_change_unit : co_change_unit_id (coordinates (ur_basis (set_request action)))
    = Some (ebs_change_unit_id basis);
  ures_scope : co_scope_revision (coordinates (ur_basis (set_request action)))
    = ebs_scope_revision basis;
  ures_actor : us_resolved_by_actor_source resolution = LocalUser;
  ures_body : us_resolution resolution = ResolutionEvidenceObservation observation;
  ures_target : ob_target observation = ebs_target basis;
  ures_outputs : exact_artifact_ref_sets_match (ob_output_artifact_refs observation)
    output_artifact_refs = true;
}.

Lemma user_action_observation_resolution_authority_Some action resolution project task cu scope
    baseline target outputs authority :
  user_action_observation_resolution_authority action resolution project task cu scope baseline
    target outputs = Some authority →
  ∃ observation, us_resolution resolution = ResolutionEvidenceObservation observation ∧
    set_status action = UAResolved ∧ ur_project_id (set_request action) = project ∧
    ur_task_id (set_request action) = task ∧
    co_change_unit_id (coordinates (ur_basis (set_request action))) = Some cu ∧
    co_scope_revision (coordinates (ur_basis (set_request action))) = scope ∧
    us_resolved_by_actor_source resolution = LocalUser ∧ ob_target observation = target ∧
    exact_artifact_ref_sets_match (ob_output_artifact_refs observation) outputs = true ∧
    ra_relevance_status authority = ob_relevance_status observation.
Proof.
  unfold user_action_observation_resolution_authority.
  destruct (us_resolution resolution) as [|observation] eqn:Hb; [done|].
  case_match eqn:Hall; [done|]. intros [= <-].
  rewrite !orb_false_iff, !negb_false_iff in Hall. destruct_and! Hall.
  exists observation. rewrite ?eqb_eq in *. split_and!; try done; by apply eqb_eq.
Qed.

Lemma user_channel_authority_inv store basis view :
  user_channel_authority_is_current store basis view = Ok true →
  ∃ producer_ref resolution action observation,
    pn_producer_ref (uv_producer_anchor view) = Some producer_ref ∧
    user_action_resolution_record (user_action_table store) (sr_record_id producer_ref)
      = Ok (Some resolution) ∧
    user_resolution store basis (uv_output_artifact_refs view) resolution action observation ∧
    as_status (uv_relevance_assessment view) = ob_relevance_status observation.
Proof.
  unfold user_channel_authority_is_current.
  destruct (pn_producer_ref _) as [producer_ref|] eqn:Hp; [|done].
  case_match; [done|].
  intros ([resolution|] & Hr%map_err_Ok & Hc)%bind_Ok; [|done].
  apply bind_Ok in Hc as ([action|] & Ha%map_err_Ok & Hc); [|done].
  destruct (user_action_observation_resolution_authority _ _ _ _ _ _ _ _ _) as [authority|] eqn:Hauth;
    [|done].
  injection Hc as Hc. rewrite !andb_true_iff in Hc. destruct Hc as [[_ Hst%eqb_eq] _].
  apply user_action_observation_resolution_authority_Some in Hauth
    as (observation & ? & ? & ? & ? & ? & ? & ? & ? & ? & Hrel).
  exists producer_ref, resolution, action, observation. split_and!; [done|done| |congruence].
  by constructor.
Qed.

(** Every stored observation that provenance classifies as strong and that close
    does not reject for its capture relevance is rooted, through a finite chain of
    reuse, in an observation the local user resolved through the user channel. *)
Lemma strong_evidence_user_rooted store record basis facts :
  stored_evidence_observation_provenance_facts store record basis = Ok facts →
  classify_evidence_provenance facts = Strong →
  is_some_and (stored_evidence_observation_capture_relevance record)
    (λ status, status <>? Supported) = false →
  ∃ root producer_ref resolution action observation,
    anchored_by store basis record root ∧
    eor_assurance_level record = UserObserved ∧ eor_source_kind root = UserObservation ∧
    pn_producer_ref (pa_producer_anchor (eor_metadata root)) = Some producer_ref ∧
    user_action_resolution_record (user_action_table store) (sr_record_id producer_ref)
      = Ok (Some resolution) ∧
    user_resolution store basis (eor_output_artifact_refs root) resolution action observation.
Proof.
  intros Hf Hstrong Hsup.
  destruct (strong_facts_anchored store record basis facts Hf Hstrong) as (root & Hchain & Hlevel).
  destruct (anchored_by_user store basis record root Hchain (or_introl Hsup)) as (Hk & Hl & Hauth).
  apply user_channel_authority_inv in Hauth
    as (producer_ref & resolution & action & observation & Hp & Hr & Hu & _).
  exists root, producer_ref, resolution, action, observation. split_and!; try done. congruence.
Qed.

End anchored.
