(* ===== verification/CaptureSound.v ===== *)
(** * CaptureSound: what Core may rely on in the capture tables

    On every table reached by inserting intents and fulfilling captures, Core's
    own re-validation of a receipt against its intent and of its source claims
    succeeds, a host invocation fulfils at most one receipt, and a receipt that
    was fulfilled is read back. *)

From Stdlib Require Import Ascii.
From stdpp Require Import gmap strings.
From S2P Require Import Prelude Text Values Canonical Schema Clock TicketStore UserActionShape.
From S2P Require Import Evidence Capture Admission EvidenceFacts.

Section capture_sound.
Context `{HC : Chrono} `{HD : CaptureDigest}.
Implicit Types (s : CaptureTable) (r : EvidenceCaptureReceiptRecord).

(** ** Decoding *)

Lemma representable_reparses t : representable t = true → parse_from_rfc3339 (to_rfc3339 t) = Some t.
Proof.
  unfold representable. case_match; [done|]. case_match eqn:Hp; [|done].
  intros [->%eqb_eq _]%andb_true_iff. done.
Qed.

Lemma decode_owner_timestamp_representable table id column t :
  representable t = true → decode_owner_timestamp table id column t = Ok t.
Proof.
  intros Hr. unfold decode_owner_timestamp. rewrite (representable_reparses t Hr). simpl.
  rewrite Hr. simpl. by rewrite eqb_refl.
Qed.

Lemma decode_owner_timestamp_Ok table id column t t' :
  decode_owner_timestamp table id column t = Ok t' → representable t' = true.
Proof.
  unfold decode_owner_timestamp. intros Hd. peel Hd as u Hu. apply ensure_bind in Hd as [Hr Hd].
  apply negb_false_iff in Hr. case_match; by simplify_eq.
Qed.

Lemma decode_owner_actor_source_Ok table id column a a' :
  decode_owner_actor_source table id column a = Ok a' →
  a' = a ∧ actor_from_str (actor_to_canonical_string a) = Some a.
Proof.
  unfold decode_owner_actor_source. intros Hd. peel Hd as u Hu. apply ok_or_Ok in Hu.
  pose proof (actor_from_canonical a u Hu) as ->. case_match; by simplify_eq.
Qed.

Lemma decode_owner_actor_source_refl table id column a :
  actor_from_str (actor_to_canonical_string a) = Some a →
  decode_owner_actor_source table id column a = Ok a.
Proof. intros Ha. unfold decode_owner_actor_source. rewrite Ha. simpl. by rewrite eqb_refl. Qed.

(** ** What a decoded intent satisfies *)

Record intent_sound (intent : EvidenceCaptureIntentRecord) : Prop := {
  is_kind : ir_capture_kind intent = capture_spec_producer_kind (ir_capture intent);
  is_expected : validate_evidence_capture_expected_outcome (ir_capture intent)
                  (ir_expected_outcome intent) = Ok tt;
  is_actor : actor_from_str (actor_to_canonical_string (ir_requested_by_actor_source intent))
               = Some (ir_requested_by_actor_source intent);
}.

Lemma decode_intent_record_sound raw intent :
  decode_intent_record raw = Ok intent →
  intent_sound intent ∧ ir_evidence_capture_intent_id intent = ir_evidence_capture_intent_id raw ∧
  ir_project_id intent = ir_project_id raw.
Proof.
  unfold decode_intent_record. intros Hd.
  peel Hd as created Hc. peel Hd as expires He. peel Hd as window Hw.
  apply ensure_bind in Hd as [Hk Hd]. apply ensure_bind in Hd as [Hi Hd].
  peel Hd as u Hout. apply map_err_Ok in Hout. destruct u. peel Hd as actor Ha.
  apply decode_owner_actor_source_Ok in Ha as [-> Ha].
  injection Hd as <-. apply negb_false_iff, eqb_eq in Hk. by split_and!.
Qed.
(** ** JSON objects up to member order *)

(** A [serde_json::Map] has distinct member names. *)
Definition json_map (o : JsonObject) : Prop := NoDup o.*1.

Lemma json_get_elem key o v : json_map o → json_get key o = Some v ↔ (key, v) ∈ o.
Proof.
  unfold json_map, json_get. induction o as [|[k w] o IH]; simpl; intros Hnd; [set_solver|].
  apply NoDup_cons in Hnd as [Hk Hnd]. rewrite elem_of_cons.
  destruct (k =? key) eqn:E; simpl.
  - apply eqb_eq in E as ->. split; [intros [= ->]; by left|].
    intros [[= ->]|Hin]; [done|]. destruct Hk. apply list_elem_of_fmap. by exists (key, v).
  - apply eqb_neq in E. rewrite (IH Hnd). naive_solver.
Qed.

Lemma elem_of_obj_norm o m p :
  json_map o → obj_norm o = Object m → p ∈ m ↔ ∃ v, (p.1, v) ∈ o ∧ p.2 = sort_json_value v.
Proof.
  unfold obj_norm. intros Hnd [= <-].
  change (map (λ kv, (kv.1, sort_json_value kv.2)) o)
    with ((λ kv, (kv.1, sort_json_value kv.2)) <$> o).
  rewrite elem_of_btm_fold; [|constructor|].
  - rewrite (list_elem_of_fmap _ o p). split.
    + intros [([k v] & -> & Hin)|[Hnil _]]; [by exists v|]. by apply elem_of_nil in Hnil.
    + intros (v & Hin & Heq). left. exists (p.1, v). split; [|done]. destruct p. simpl in *. by subst.
  - unfold json_map in Hnd. rewrite <-list_fmap_compose. exact Hnd.
Qed.

Lemma obj_norm_get o1 o2 key :
  json_map o1 → json_map o2 → obj_norm o1 = obj_norm o2 →
  sort_json_value <$> json_get key o1 = sort_json_value <$> json_get key o2.
Proof.
  assert (∀ o o' v, json_map o → json_map o' → obj_norm o = obj_norm o' →
    json_get key o = Some v →
    ∃ w, json_get key o' = Some w ∧ sort_json_value v = sort_json_value w) as Hone.
  { intros o o' v Ho Ho' Hn Hv%json_get_elem; [|done].
    destruct (obj_norm o) as [| | | | |m] eqn:Hm; try done.
    assert ((key, sort_json_value v) ∈ m) as Hin.
    { apply (elem_of_obj_norm o m (key, sort_json_value v)); [done..|]. by exists v. }
    rewrite (elem_of_obj_norm o') in Hin by done. destruct Hin as (w & Hw & Heq).
    exists w. split; [by apply json_get_elem|done]. }
  intros H1 H2 Hn.
  destruct (json_get key o1) as [v|] eqn:E1, (json_get key o2) as [w|] eqn:E2; simpl; [| | |done].
  - destruct (Hone o1 o2 v) as (w' & Hw & Heq); [done..|]. simplify_eq. by rewrite Heq.
  - destruct (Hone o1 o2 v) as (w' & Hw & _); [done..|]. congruence.
  - destruct (Hone o2 o1 w) as (w' & Hw & _); [done..|]. congruence.
Qed.

Lemma obj_norm_keys o1 o2 k :
  json_map o1 → json_map o2 → obj_norm o1 = obj_norm o2 → k ∈ o1.*1 → k ∈ o2.*1.
Proof.
  intros H1 H2 Hn ([k' v] & -> & Hin)%list_elem_of_fmap. simpl.
  apply json_get_elem in Hin; [|done]. pose proof (obj_norm_get o1 o2 k' H1 H2 Hn) as Hg.
  rewrite Hin in Hg. symmetry in Hg. apply fmap_Some in Hg as (w & Hw%json_get_elem & _); [|done].
  apply list_elem_of_fmap. by exists (k', w).
Qed.

(** A field test that looks at the outermost constructor only. *)
Definition shallow (p : Value → bool) : Prop := ∀ v, p (sort_json_value v) = p v.

Lemma decodes_as_norm fields o1 o2 :
  Forall (λ field, shallow field.2) fields →
  json_map o1 → json_map o2 → obj_norm o1 = obj_norm o2 →
  decodes_as fields o1 = true → decodes_as fields o2 = true.
Proof.
  intros Hsh H1 H2 Hn [Hk Hf]%andb_true_iff. apply andb_true_iff. split.
  - rewrite forallb_forall in Hk |- *. intros [k v] Hin%list_elem_of_In.
    assert (k ∈ o1.*1) as Hk1.
    { apply (obj_norm_keys o2); [done..|]. apply list_elem_of_fmap. by exists (k, v). }
    apply list_elem_of_fmap in Hk1 as ([k' w] & -> & Hin1).
    apply (Hk (k', w)), list_elem_of_In, Hin1.
  - rewrite forallb_forall in Hf |- *. intros field Hin. specialize (Hf field Hin).
    rewrite Forall_forall in Hsh. apply list_elem_of_In in Hin.
    pose proof (obj_norm_get o1 o2 field.1 H1 H2 Hn) as Hg.
    destruct (json_get field.1 o1) as [v|]; [|done]. simpl in Hf.
    symmetry in Hg. apply fmap_Some in Hg as (w & -> & Hs). simpl.
    by rewrite <-(Hsh _ Hin w), <-Hs, (Hsh _ Hin v).
Qed.

Lemma string_field_norm key o1 o2 :
  json_map o1 → json_map o2 → obj_norm o1 = obj_norm o2 → string_field key o1 = string_field key o2.
Proof.
  intros H1 H2 Hn. pose proof (obj_norm_get o1 o2 key H1 H2 Hn) as Hg. unfold string_field.
  destruct (json_get key o1) as [v|], (json_get key o2) as [w|]; [|done..].
  injection Hg as Hg. destruct v, w; simpl in Hg; by simplify_eq.
Qed.

Lemma observed_outcome_norm capture o1 o2 :
  json_map o1 → json_map o2 → obj_norm o1 = obj_norm o2 →
  validate_evidence_capture_observed_outcome capture o1 = Ok tt →
  validate_evidence_capture_observed_outcome capture o2 = Ok tt.
Proof.
  intros H1 H2 Hn. unfold validate_evidence_capture_observed_outcome, decode_capture_outcome.
  destruct capture; rewrite <-!(string_field_norm _ o1 o2) by done.
  - destruct (decodes_as command_outcome_fields o1) eqn:Hd; [|done].
    rewrite (decodes_as_norm _ o1 o2); [done| |done..].
    repeat constructor; by intros [].
  - destruct (decodes_as tool_outcome_fields o1) eqn:Hd; [|done].
    rewrite (decodes_as_norm _ o1 o2); [done| |done..].
    repeat constructor; by intros [].
Qed.

Lemma expected_outcome_norm capture o1 o2 :
  obj_norm o1 = obj_norm o2 →
  validate_evidence_capture_expected_outcome capture o1 = Ok tt →
  validate_evidence_capture_expected_outcome capture o2 = Ok tt.
Proof. unfold validate_evidence_capture_expected_outcome. by intros ->. Qed.

(** ** Accepted receipts *)

Record receipt_accepted (input : EvidenceCaptureReceiptInsert)
    (intent : EvidenceCaptureIntentRecord) (claims : list EvidenceCaptureSourceClaimIdentity)
    : Prop := {
  acc_observed_at : representable (ri_observed_at input) = true;
  acc_created_at : representable (ri_created_at input) = true;
  acc_size : (MAX_EVIDENCE_CAPTURE_RECEIPT_BYTES
                <? str_len (safe_receipt_json (ri_safe_receipt input)))%N = false;
  acc_metadata_size : (MAX_EVIDENCE_CAPTURE_RECEIPT_BYTES
                <? str_len (receipt_metadata_json (ri_metadata_source input)))%N = false;
  acc_input : ri_input_sha256 input = ir_input_sha256 intent;
  acc_expected : obj_norm (ri_expected_outcome input) = obj_norm (ir_expected_outcome intent);
  acc_source_refs : ri_source_refs input = [];
  acc_observed : validate_evidence_capture_observed_outcome (ir_capture intent)
                   (ri_observed_outcome input) = Ok tt;
  acc_limitations : validate_evidence_capture_limitations (ir_capture intent)
                      (ri_limitations input) = Ok tt;
  acc_body : receipt_body_mismatch input intent = false;
  acc_claims : derive_evidence_capture_source_claims (ir_capture intent) (ri_safe_receipt input)
                 = Ok claims;
  acc_window : ts_lt (ri_observed_at input) (ir_created_at intent) = false ∧
               ts_lt (ri_observed_at input) (ir_expires_at intent) = true;
  acc_creation : ts_lt (ri_created_at input) (ri_observed_at input) = false ∧
                 ts_lt (ri_created_at input) (ir_expires_at intent) = true;
}.

Lemma validate_receipt_timestamp_Ok field t :
  validate_receipt_timestamp field t = Ok tt → representable t = true.
Proof. unfold validate_receipt_timestamp. by case_match. Qed.

Lemma validate_receipt_input_Ok input :
  validate_receipt_input input = Ok tt →
  representable (ri_observed_at input) = true ∧ representable (ri_created_at input) = true ∧
  (MAX_EVIDENCE_CAPTURE_RECEIPT_BYTES
     <? str_len (safe_receipt_json (ri_safe_receipt input)))%N = false ∧
  (MAX_EVIDENCE_CAPTURE_RECEIPT_BYTES
     <? str_len (receipt_metadata_json (ri_metadata_source input)))%N = false.
Proof.
  unfold validate_receipt_input. intros H.
  do 6 peel H as [] _. peel H as [] Hobserved%validate_receipt_timestamp_Ok.
  peel H as [] Hcreated%validate_receipt_timestamp_Ok. peel H as [] _.
  apply ensure_bind in H as [? ?%ensure_Ok]. done.
Qed.

Lemma validate_receipt_against_intent_Ok input intent claims :
  validate_receipt_input input = Ok tt → validate_receipt_against_intent input intent = Ok claims →
  receipt_accepted input intent claims.
Proof.
  intros (Hr1 & Hr2 & Hr3 & Hr4)%validate_receipt_input_Ok. unfold validate_receipt_against_intent. intros H.
  apply ensure_bind in H as [Hcols H]. apply ensure_bind in H as [Hrefs H].
  apply ensure_bind in H as [_ H]. peel H as [] _. peel H as [] Hobs%map_err_Ok.
  peel H as [] Hlim%map_err_Ok. apply ensure_bind in H as [Hbody H].
  peel H as claims' Hclaims%map_err_Ok. apply ensure_bind in H as [Hw H].
  apply ensure_bind in H as [Hc H]. apply ensure_bind in H as [_ [= <-]].
  rewrite !orb_false_iff, !negb_false_iff in Hcols. destruct Hcols as [[[_ _] ?%eqb_eq] ?%eqb_eq].
  apply orb_false_iff in Hw as [? ?%negb_false_iff]. apply orb_false_iff in Hc as [? ?%negb_false_iff].
  apply negb_false_iff in Hrefs. constructor; try done. by destruct (ri_source_refs input).
Qed.

Lemma evidence_capture_intent_record_Some s id intent :
  evidence_capture_intent_record s id = Ok (Some intent) ↔
  ∃ raw, ct_intents s !! id = Some raw ∧ decode_intent_record raw = Ok intent.
Proof.
  unfold evidence_capture_intent_record, try_option.
  destruct (ct_intents s !! id) as [raw|]; [|by split; [|intros (? & ? & _)]].
  split.
  - intros (x & Hx & [= ->])%bind_Ok. by exists raw.
  - intros (raw' & [= <-] & Hd). rewrite Hd. done.
Qed.

Lemma check_receipt_Ok s input claims :
  check_receipt s input = Ok claims →
  ∃ intent, evidence_capture_intent_record s (ri_evidence_capture_intent_id input)
              = Ok (Some intent) ∧ receipt_accepted input intent claims.
Proof.
  unfold check_receipt. intros H. peel H as [] Hin. peel H as intent Hi.
  peel H as intent' He%ok_or_Ok. subst intent. peel H as claims' Hc. peel H as [] _.
  injection H as <-. exists intent'. split; [done|]. by apply validate_receipt_against_intent_Ok.
Qed.

(** Every field of an accepted body agrees with its columns and its intent. *)
Lemma accepted_body input intent claims :
  receipt_accepted input intent claims →
  let body := ri_safe_receipt input in
  rb_contract_id body = EVIDENCE_CAPTURE_RECEIPT_CONTRACT_ID ∧ rb_complete body = true ∧
  rb_redaction_state body = Redacted ∧ rb_capture_kind body = ir_capture_kind intent ∧
  rb_capture_intent_id body = ir_evidence_capture_intent_id intent ∧
  rb_input_sha256 body = ri_input_sha256 input ∧ rb_result_sha256 body = ri_result_sha256 input ∧
  rb_result_sha256 body = canonical_json_bare_sha256 (Object (rb_observed_outcome body)) ∧
  obj_norm (rb_expected_outcome body) = obj_norm (ri_expected_outcome input) ∧
  obj_norm (rb_observed_outcome body) = obj_norm (ri_observed_outcome input) ∧
  rb_limitations body = ri_limitations input ∧
  rb_observed_by_actor_source body = ri_observed_by_actor_source input ∧
  rb_observed_by_actor_source body = ir_requested_by_actor_source intent ∧
  src_connection_id (rb_source body) = ir_requesting_connection_internal_id intent ∧
  rb_observed_at body = ri_observed_at input ∧ ri_metadata_source input = rb_source body.
Proof.
  intros Hacc. pose proof (acc_body _ _ _ Hacc) as Hb. unfold receipt_body_mismatch in Hb.
  rewrite !orb_false_iff, !negb_false_iff in Hb. destruct_and! Hb.
  simpl. split_and!; try done; by apply eqb_eq.
Qed.

Lemma receipt_row_decodes project_id input intent claims :
  intent_sound intent → receipt_accepted input intent claims →
  ri_evidence_capture_intent_id input = ir_evidence_capture_intent_id intent →
  decode_receipt_record (receipt_row project_id input) = Ok (receipt_row project_id input).
Proof.
  intros Hi Hacc Hid. pose proof (accepted_body _ _ _ Hacc) as Hbody. simpl in Hbody.
  destruct Hbody as (Hct & Hcomp & Hred & Hkind & Hint & Hinp & Hres & Hsha & Hexp & Hobs & Hlim
    & Hact & Hact' & _ & Hat & Hmeta).
  pose proof (is_actor _ Hi) as Hactor. rewrite <-Hact' in Hactor.
  unfold decode_receipt_record. cbn -[validate_decoded_receipt_owner_fields MAX_EVIDENCE_CAPTURE_RECEIPT_BYTES].
  assert (receipt_body_decodes (ri_safe_receipt input) = true) as ->.
  { unfold receipt_body_decodes. rewrite Hactor, Hat.
    rewrite (representable_reparses _ (acc_observed_at _ _ _ Hacc)). by rewrite !eqb_refl. }
  cbn -[validate_decoded_receipt_owner_fields MAX_EVIDENCE_CAPTURE_RECEIPT_BYTES].
  rewrite (acc_size _ _ _ Hacc), (acc_metadata_size _ _ _ Hacc), !eqb_refl.
  cbn -[validate_decoded_receipt_owner_fields].
  rewrite <-Hact, (decode_owner_actor_source_refl _ _ _ _ Hactor).
  cbn -[validate_decoded_receipt_owner_fields].
  rewrite (decode_owner_timestamp_representable _ _ _ _ (acc_observed_at _ _ _ Hacc)).
  cbn -[validate_decoded_receipt_owner_fields].
  rewrite (decode_owner_timestamp_representable _ _ _ _ (acc_created_at _ _ _ Hacc)).
  cbn -[validate_decoded_receipt_owner_fields].
  match goal with |- context [validate_decoded_receipt_owner_fields ?row] =>
    assert (validate_decoded_receipt_owner_fields row = Ok tt) as -> end; [|by rewrite Hact].
  unfold validate_decoded_receipt_owner_fields. apply ensure_Ok. cbn -[obj_norm canonical_json_bare_sha256].
  rewrite Hcomp, Hint, <-Hid, Hct, Hred, Hinp, Hexp, Hobs, Hlim, Hat, Hmeta, <-Hsha, Hres.
  rewrite (acc_source_refs _ _ _ Hacc). by rewrite !eqb_refl.
Qed.

(** Core accepts what the store accepted. *)
Lemma core_accepts_receipt project_id input intent claims :
  intent_sound intent → receipt_accepted input intent claims →
  json_map (ri_observed_outcome input) → json_map (rb_observed_outcome (ri_safe_receipt input)) →
  validate_capture_receipt_record (capture_intent_from_record intent) (receipt_row project_id input)
    = Ok (ri_safe_receipt input).
Proof.
  intros Hi Hacc Hm Hmb. pose proof (accepted_body _ _ _ Hacc) as Hbody. simpl in Hbody.
  destruct Hbody as (Hct & Hcomp & Hred & Hkind & Hint & Hinp & Hres & Hsha & Hexp & Hobs & Hlim
    & Hact & Hact' & _ & Hat & Hmeta).
  destruct (acc_window _ _ _ Hacc) as [Hw1 Hw2]. destruct (acc_creation _ _ _ Hacc) as [Hc1 Hc2].
  unfold validate_capture_receipt_record. cbn -[receipt_contradicts_intent].
  assert (obj_norm (ir_expected_outcome intent) = obj_norm (rb_expected_outcome (ri_safe_receipt input)))
    as Hnorm by by rewrite Hexp, (acc_expected _ _ _ Hacc).
  rewrite (expected_outcome_norm _ _ _ Hnorm (is_expected _ Hi)). cbn -[receipt_contradicts_intent].
  rewrite (observed_outcome_norm _ _ _ Hm Hmb (eq_sym Hobs) (acc_observed _ _ _ Hacc)).
  cbn -[receipt_contradicts_intent]. rewrite Hlim, (acc_limitations _ _ _ Hacc).
  cbn -[receipt_contradicts_intent].
  match goal with |- context [ensure ?b _] => assert (b = false) as ->; [|done] end.
  unfold receipt_contradicts_intent. cbn -[obj_norm canonical_json_bare_sha256].
  rewrite Hct, Hcomp, Hred, <-(is_kind _ Hi), <-Hkind, Hint, Hinp, <-Hsha, Hres, Hobs, Hexp, Hat, Hw1,
    Hw2, Hc1, Hc2, Hact, Hmeta, (acc_source_refs _ _ _ Hacc), (acc_input _ _ _ Hacc),
    (acc_expected _ _ _ Hacc).
  by rewrite !eqb_refl.
Qed.

(** ** Source claims of one receipt *)

Definition claims_in (m : gmap (string * string) EvidenceCaptureSourceClaimRecord) (id : string)
    : list EvidenceCaptureSourceClaimRecord :=
  List.filter (λ row, sc_evidence_capture_receipt_id row =? id) (map_to_list m).*2.

Lemma elem_of_claims_in m id c :
  c ∈ claims_in m id ↔ (∃ k, m !! k = Some c) ∧ sc_evidence_capture_receipt_id c = id.
Proof.
  unfold claims_in. rewrite list_elem_of_In, filter_In, <-list_elem_of_In, eqb_true, list_elem_of_fmap.
  split; intros [Hin Heq]; split; try done.
  - destruct Hin as ([k c'] & -> & Hin). exists k. by rewrite elem_of_map_to_list in Hin.
  - destruct Hin as [k Hk]. exists (k, c). split; [done|]. by apply elem_of_map_to_list.
Qed.

Lemma filter_perm {A} (p : A → bool) (l l' : list A) :
  l ≡ₚ l' → List.filter p l ≡ₚ List.filter p l'.
Proof.
  induction 1 as [|x l l' _ IH|x y l|l1 l2 l3 _ IH1 _ IH2]; simpl.
  - done.
  - case_match; by rewrite IH.
  - repeat case_match; done || apply Permutation_swap.
  - by etrans.
Qed.

Lemma claims_in_insert m k c id :
  m !! k = None →
  claims_in (<[k := c]> m) id ≡ₚ
    (if sc_evidence_capture_receipt_id c =? id then [c] else []) ++ claims_in m id.
Proof.
  intros Hk. unfold claims_in.
  assert ((map_to_list (<[k:=c]> m)).*2 ≡ₚ c :: (map_to_list m).*2) as Hperm.
  { by rewrite map_to_list_insert. }
  rewrite (filter_perm _ _ _ Hperm). simpl. by case_match.
Qed.

Lemma claims_in_none m id :
  (∀ k c, m !! k = Some c → sc_evidence_capture_receipt_id c ≠ id) → claims_in m id = [].
Proof.
  intros Hno. destruct (claims_in m id) as [|c l] eqn:Hc; [done|]. exfalso.
  assert (c ∈ claims_in m id) as Hin by (rewrite Hc; constructor).
  apply elem_of_claims_in in Hin as [[k Hk] Heq]. by eapply Hno.
Qed.

Lemma derive_claims_single capture body claims :
  derive_evidence_capture_source_claims capture body = Ok claims →
  ∃ host, src_host_invocation_id (rb_source body) = Some host ∧
    claims = [{| sid_source_claim_kind := HostInvocation;
                 sid_source_claim_id := canonical_json_bare_sha256
                   (Object [("connection_id", Str (src_connection_id (rb_source body)));
                            ("host_invocation_id", Str host)]) |}].
Proof.
  unfold derive_evidence_capture_source_claims. intros H. peel H as host Hh%ok_or_Ok.
  apply ensure_bind in H as [_ [= <-]]. exists host. split; [|done]. revert Hh.
  unfold option_filter, bool_then. destruct (src_host_invocation_id _); simpl; [|done]. case_match; [|done].
  by intros [= ->].
Qed.

(** The claim set of a receipt is valid exactly when it is the single expected
    row, decoded. *)
Lemma source_claims_valid s intent r capture body :
  validate_evidence_capture_source_claims_for_receipt s intent r capture body = Ok tt →
  ∃ identity c c', derive_evidence_capture_source_claims capture body = Ok [identity] ∧
    claims_in (ct_claims s) (rr_evidence_capture_receipt_id r) = [c] ∧
    decode_source_claim_record c = Ok c' ∧
    claim_is_exact (ct_project_id s) intent r c' identity = true.
Proof.
  unfold validate_evidence_capture_source_claims_for_receipt. intros H.
  apply ensure_bind in H as [_ H]. peel H as expected He. peel H as actual Ha.
  destruct (derive_claims_single _ _ _ He) as (host & _ & ->).
  set (identity := {| sid_source_claim_kind := _ |}) in *. exists identity.
  case_match eqn:Hex; [|done]. clear H. apply andb_true_iff in Hex as [Hlen%eqb_eq Hall].
  unfold evidence_capture_source_claims_for_receipt, claim_rows in Ha.
  fold (claims_in (ct_claims s) (rr_evidence_capture_receipt_id r)) in Ha.
  match type of Ha with try_map _ (sort_by_key ?key ?l) = _ =>
    pose proof (sort_by_key_perm key l) as Hperm; set (sorted := sort_by_key key l) in * end.
  apply try_map_Ok in Ha. pose proof (Forall2_length _ _ _ Ha) as Hl. simpl in Hlen.
  destruct actual as [|c' [|]]; [done| |done].
  destruct sorted as [|c [|]]; [done| |done].
  apply Permutation_singleton_l in Hperm.
  apply Forall2_cons in Ha as [Hdec _]. simpl in Hall. rewrite andb_true_r in Hall.
  exists c, c'. done.
Qed.

Lemma source_claims_valid_intro s intent r capture body identity c c' :
  ir_project_id intent = ct_project_id s → rr_project_id r = ct_project_id s →
  rr_evidence_capture_intent_id r = ir_evidence_capture_intent_id intent →
  rr_capture_kind r = ir_capture_kind intent →
  rb_capture_intent_id body = ir_evidence_capture_intent_id intent →
  src_connection_id (rb_source body) = ir_requesting_connection_internal_id intent →
  derive_evidence_capture_source_claims capture body = Ok [identity] →
  claims_in (ct_claims s) (rr_evidence_capture_receipt_id r) = [c] →
  decode_source_claim_record c = Ok c' →
  claim_is_exact (ct_project_id s) intent r c' identity = true →
  validate_evidence_capture_source_claims_for_receipt s intent r capture body = Ok tt.
Proof.
  intros Hp1 Hp2 Hi Hk Hb Hc Hd Hcl Hdec Hex.
  unfold validate_evidence_capture_source_claims_for_receipt.
  rewrite Hp1, Hp2, Hi, Hk, Hb, Hc, !eqb_refl. cbn [negb orb ensure].
  rewrite Hd. cbn [sort_by_key foldr sort_by_key_insert].
  unfold evidence_capture_source_claims_for_receipt, claim_rows.
  fold (claims_in (ct_claims s) (rr_evidence_capture_receipt_id r)). rewrite Hcl. simpl.
  rewrite Hdec. simpl. by rewrite Hex.
Qed.

(** ** Reachable capture tables *)

Lemma is_some_false {A} (o : option A) : is_some o = false → o = None.
Proof. by destruct o. Qed.

Definition capture_initial (s : CaptureTable) : Prop :=
  ct_intents s = ∅ ∧ ct_receipts s = ∅ ∧ ct_claims s = ∅.

(** The two writers of the tables. The outcome of a receipt is a
    [serde_json::Map], whose member names are distinct. *)
Inductive capture_step : CaptureTable → CaptureTable → Prop :=
  | step_intent s input s' :
      insert_evidence_capture_intent s input = Ok s' → capture_step s s'
  | step_fulfill s input :
      json_map (ri_observed_outcome input) →
      json_map (rb_observed_outcome (ri_safe_receipt input)) →
      capture_step s (fulfill_evidence_capture_source s input).2.

Definition capture_reachable (s : CaptureTable) : Prop :=
  ∃ s0, capture_initial s0 ∧ rtc capture_step s0 s.

(** What one stored receipt satisfies. *)
Definition receipt_sound (s : CaptureTable) (id : string) (r : EvidenceCaptureReceiptRecord) : Prop :=
  ∃ input intent identity,
    id = ri_evidence_capture_receipt_id input ∧ r = receipt_row (ct_project_id s) input ∧
    evidence_capture_intent_record s (ri_evidence_capture_intent_id input) = Ok (Some intent) ∧
    receipt_accepted input intent [identity] ∧
    json_map (ri_observed_outcome input) ∧
    json_map (rb_observed_outcome (ri_safe_receipt input)) ∧
    claims_in (ct_claims s) id = [claim_row (ct_project_id s) input identity].

Record capture_inv (s : CaptureTable) : Prop := {
  ci_intents : ∀ id raw, ct_intents s !! id = Some raw →
    ir_evidence_capture_intent_id raw = id ∧ ir_project_id raw = ct_project_id s;
  ci_receipts : ∀ id r, ct_receipts s !! id = Some r → receipt_sound s id r;
  ci_claims : ∀ key c, ct_claims s !! key = Some c →
    key = claim_key (sc_source_claim_kind c) (sc_source_claim_id c) ∧
    is_Some (ct_receipts s !! sc_evidence_capture_receipt_id c);
  ci_unique : ∀ id id' r r', ct_receipts s !! id = Some r → ct_receipts s !! id' = Some r' →
    rr_evidence_capture_intent_id r = rr_evidence_capture_intent_id r' → id = id';
}.

Lemma capture_inv_initial s : capture_initial s → capture_inv s.
Proof.
  intros (Hi & Hr & Hc). constructor; rewrite ?Hi, ?Hr, ?Hc; intros *; by rewrite lookup_empty.
Qed.

Lemma insert_intent_inv s input s' :
  insert_evidence_capture_intent s input = Ok s' → capture_inv s → capture_inv s'.
Proof.
  unfold insert_evidence_capture_intent. intros H Hinv. do 6 peel H as [] _.
  apply ensure_bind in H as [_ H]. do 2 peel H as ? _. apply ensure_bind in H as [_ H].
  apply ensure_bind in H as [Hfresh H]. do 2 apply ensure_bind in H as [_ H]. injection H as <-.
  apply is_some_false in Hfresh. destruct Hinv as [Hint Hrec Hcl Hun].
  constructor; simpl; [| |done..].
  - intros id raw. rewrite lookup_insert_Some. intros [[<- <-]|[_ Hl]]; [done|by apply Hint].
  - intros id r Hl. destruct (Hrec id r Hl) as (input' & intent & identity & -> & -> & Hr & Hrest).
    exists input', intent, identity. do 2 (split; [done|]). split; [|done].
    apply evidence_capture_intent_record_Some in Hr as (raw & Hraw & Hd).
    apply evidence_capture_intent_record_Some. exists raw. split; [|done]. simpl.
    rewrite lookup_insert_ne; [done|]. congruence.
Qed.

(** The rows a committed fulfillment leaves. *)
Lemma insert_receipt_rows_Ok s clock input identity files s' :
  insert_receipt_rows s clock input [identity] files = Ok s' →
  let id := ri_evidence_capture_receipt_id input in
  let key := claim_key (sid_source_claim_kind identity) (sid_source_claim_id identity) in
  ct_receipts s !! id = None ∧ ct_claims s !! key = None ∧
  (∀ r, r ∈ receipt_rows s →
     rr_evidence_capture_intent_id r ≠ ri_evidence_capture_intent_id input) ∧
  ct_project_id s' = ct_project_id s ∧ ct_intents s' = ct_intents s ∧
  ct_receipts s' = <[id := receipt_row (ct_project_id s) input]> (ct_receipts s) ∧
  ct_claims s' = <[key := claim_row (ct_project_id s) input identity]> (ct_claims s) ∧
  ct_files s' = files ∧ ct_staging s' = <[ri_staging_handle_id input := receipt_staging input]> (ct_staging s).
Proof.
  unfold insert_receipt_rows. intros H. do 2 apply ensure_bind in H as [_ H].
  apply ensure_bind in H as [Hid H]. apply ensure_bind in H as [Hint H].
  apply ensure_bind in H as [_ H]. peel H as claims Hc. injection H as <-.
  simpl in Hc. apply ensure_bind in Hc as [Hkey [= <-]].
  apply is_some_false in Hid, Hkey. simpl. split_and!; try done.
  intros r Hr Heq. apply not_true_iff_false in Hint. apply Hint, existsb_exists. exists r.
  split; [by apply list_elem_of_In|]. by apply eqb_true.
Qed.

Lemma fulfill_inv s input :
  json_map (ri_observed_outcome input) →
  json_map (rb_observed_outcome (ri_safe_receipt input)) →
  capture_inv s → capture_inv (fulfill_evidence_capture_source s input).2.
Proof.
  intros Hm Hmb Hinv. unfold fulfill_evidence_capture_source.
  destruct (check_receipt s input) as [claims|] eqn:Hcheck; [|done].
  case_match; [|done]. case_match. case_match; [done|].
  case_match eqn:Hins; [|by destruct Hinv]. simpl. clear -Hinv Hins Hcheck Hm Hmb.
  apply check_receipt_Ok in Hcheck as (intent & Hintent & Hacc).
  destruct (derive_claims_single _ _ _ (acc_claims _ _ _ Hacc)) as (host & Hhost & ->).
  set (identity := {| sid_source_claim_kind := _ |}) in *.
  apply insert_receipt_rows_Ok in Hins as
    (Hid & Hkey & Hun & Hp & Hints & Hrec & Hcl & _ & _). destruct Hinv as [Hi Hr Hc Hu].
  assert (claims_in (ct_claims s) (ri_evidence_capture_receipt_id input) = []) as Hnone.
  { apply claims_in_none. intros k row Hk Heq. destruct (Hc k row Hk) as [_ Hsome].
    rewrite Heq, Hid in Hsome. by destruct Hsome. }
  assert (∀ id r, ct_receipts s !! id = Some r → r ∈ receipt_rows s) as Hrows.
  { intros id r Hl. apply list_elem_of_fmap. exists (id, r).
    split; [done|]. by apply elem_of_map_to_list. }
  constructor.
  - rewrite Hints, Hp. exact Hi.
  - intros id r. rewrite Hrec, lookup_insert_Some. intros [[<- <-]|[Hne Hl]].
    + exists input, intent, identity. unfold evidence_capture_intent_record. rewrite Hints, Hp, Hcl.
      do 6 (split; [done|]). apply Permutation_singleton_r. rewrite claims_in_insert by done.
      simpl. by rewrite eqb_refl, Hnone.
    + destruct (Hr id r Hl) as (input' & intent' & identity' & -> & -> & Hr' & Ha' & ? & ? & Hcl').
      exists input', intent', identity'. unfold evidence_capture_intent_record.
      rewrite Hints, Hp, Hcl. do 6 (split; [done|]).
      apply Permutation_singleton_r. rewrite claims_in_insert by done. simpl.
      destruct (_ =? _) eqn:E; [by apply eqb_eq in E|]. by rewrite Hcl'.
  - intros k row. rewrite Hcl, Hrec, lookup_insert_Some. intros [[<- <-]|[_ Hl]].
    + simpl. by rewrite lookup_insert_eq.
    + destruct (Hc k row Hl) as [-> Hsome]. split; [done|]. rewrite lookup_insert_is_Some'. by right.
  - intros id id' r r'. rewrite Hrec, !lookup_insert_Some.
    intros [[<- <-]|[Hne Hl]] [[<- <-]|[Hne' Hl']] Heq; [done| | |by eapply Hu].
    + by destruct (Hun _ (Hrows _ _ Hl')).
    + by destruct (Hun _ (Hrows _ _ Hl)).
Qed.

Lemma capture_step_inv s s' : capture_step s s' → capture_inv s → capture_inv s'.
Proof. intros [] Hinv; [by eapply insert_intent_inv|by apply fulfill_inv]. Qed.

Lemma capture_reachable_inv s : capture_reachable s → capture_inv s.
Proof.
  intros (s0 & H0%capture_inv_initial & Hsteps). revert H0.
  induction Hsteps; eauto using capture_step_inv.
Qed.

Lemma intent_record_sound s id intent :
  capture_inv s → evidence_capture_intent_record s id = Ok (Some intent) →
  intent_sound intent ∧ ir_evidence_capture_intent_id intent = id ∧
  ir_project_id intent = ct_project_id s.
Proof.
  intros Hinv (raw & Hraw & Hd)%evidence_capture_intent_record_Some.
  destruct (decode_intent_record_sound _ _ Hd) as (Hi & -> & ->).
  destruct (ci_intents _ Hinv _ _ Hraw) as [-> ->]. done.
Qed.

Lemma receipt_sound_decodes s id r :
  capture_inv s → ct_receipts s !! id = Some r → decode_receipt_record r = Ok r.
Proof.
  intros Hinv Hl. destruct (ci_receipts _ Hinv _ _ Hl) as (input & intent & identity & -> & -> & Hi & Hacc & _).
  destruct (intent_record_sound _ _ _ Hinv Hi) as (Hsound & Hid & _).
  by eapply receipt_row_decodes.
Qed.

Lemma receipt_for_intent_found s id r :
  capture_inv s → ct_receipts s !! id = Some r →
  evidence_capture_receipt_for_intent s (rr_evidence_capture_intent_id r) = Ok (Some r).
Proof.
  intros Hinv Hl. unfold evidence_capture_receipt_for_intent.
  destruct (List.find _ (receipt_rows s)) as [r'|] eqn:Hf.
  - apply find_some in Hf as [Hin Heq%eqb_eq]. apply list_elem_of_In, list_elem_of_fmap in Hin
      as ([id' row] & -> & Hin%elem_of_map_to_list). simpl in *.
    assert (id' = id) as -> by (by eapply ci_unique).
    simplify_eq. by rewrite (receipt_sound_decodes s id) by done.
  - exfalso. eapply find_none in Hf; [by rewrite eqb_refl in Hf|].
    apply list_elem_of_In, list_elem_of_fmap. exists (id, r).
    split; [done|]. by apply elem_of_map_to_list.
Qed.

Lemma receipt_claims_valid s id r intent :
  capture_inv s → ct_receipts s !! id = Some r →
  evidence_capture_intent_record s (rr_evidence_capture_intent_id r) = Ok (Some intent) →
  validate_evidence_capture_source_claims_for_receipt s intent r (ir_capture intent)
    (rr_safe_receipt r) = Ok tt.
Proof.
  intros Hinv Hl Hi.
  destruct (ci_receipts _ Hinv _ _ Hl) as (input & intent' & identity & -> & -> & Hi' & Hacc & _ & _ & Hcl).
  simpl in Hi. simplify_eq/=. rewrite Hi' in Hi. injection Hi as <-.
  destruct (intent_record_sound _ _ _ Hinv Hi') as (Hsound & Hid & Hproject).
  pose proof (accepted_body _ _ _ Hacc) as Hbody. simpl in Hbody. destruct_and! Hbody.
  assert (decode_source_claim_record (claim_row (ct_project_id s) input identity)
          = Ok (claim_row (ct_project_id s) input identity)) as Hdec.
  { unfold decode_source_claim_record. simpl.
    by rewrite (decode_owner_timestamp_representable _ _ _ _ (acc_created_at _ _ _ Hacc)). }
  eapply source_claims_valid_intro; try done; [apply (acc_claims _ _ _ Hacc)|].
  match goal with Hk : rb_capture_kind _ = _ |- _ => rename Hk into Hkind end.
  unfold claim_is_exact. simpl. by rewrite Hid, Hkind, !eqb_refl.
Qed.

(** ** The properties of the capture store *)

(** C17: On every capture table reachable from an empty one, each stored receipt
    reads back under its own id and under its intent, and Core's two checks of
    captured evidence accept it: the receipt against the immutable intent, and
    the host-invocation claims recorded for it. *)
Theorem stored_receipt_accepted_by_core s id r :
  capture_reachable s → ct_receipts s !! id = Some r →
  evidence_capture_receipt_record s id = Ok (Some r) ∧
  evidence_capture_receipt_for_intent s (rr_evidence_capture_intent_id r) = Ok (Some r) ∧
  ∃ intent, evidence_capture_intent_record s (rr_evidence_capture_intent_id r) = Ok (Some intent) ∧
    validate_capture_receipt_record (capture_intent_from_record intent) r = Ok (rr_safe_receipt r) ∧
    validate_evidence_capture_source_claims_for_receipt s intent r (ir_capture intent)
      (rr_safe_receipt r) = Ok tt.
Proof.
  intros Hinv%capture_reachable_inv Hl. split_and!.
  - unfold evidence_capture_receipt_record. rewrite Hl. simpl.
    by rewrite (receipt_sound_decodes s id) by done.
  - by eapply receipt_for_intent_found.
  - destruct (ci_receipts _ Hinv _ _ Hl) as (input & intent & identity & Hid & Hr & Hi & Hacc & Hm & Hmb & _).
    exists intent. rewrite Hr. split_and!; [done| |].
    + apply (core_accepts_receipt _ _ _ [identity]); try done.
      by apply (intent_record_sound _ _ _ Hinv Hi).
    + rewrite <-Hr. eapply receipt_claims_valid; [done..|]. by rewrite Hr.
Qed.

(** A host invocation fulfils at most one capture: two receipts of a reachable
    table that name the same connection and the same host invocation are the same
    receipt, so one observed tool call is never counted as evidence twice. *)
Theorem host_invocation_claimed_once s id id' r r' :
  capture_reachable s → ct_receipts s !! id = Some r → ct_receipts s !! id' = Some r' →
  src_connection_id (rb_source (rr_safe_receipt r)) = src_connection_id (rb_source (rr_safe_receipt r')) →
  src_host_invocation_id (rb_source (rr_safe_receipt r))
    = src_host_invocation_id (rb_source (rr_safe_receipt r')) →
  id = id'.
Proof.
  intros Hinv%capture_reachable_inv Hl Hl' Hconn Hhost.
  assert (∀ i row, ct_receipts s !! i = Some row → ∃ host key c,
    src_host_invocation_id (rb_source (rr_safe_receipt row)) = Some host ∧
    key = claim_key HostInvocation (canonical_json_bare_sha256
      (Object [("connection_id", Str (src_connection_id (rb_source (rr_safe_receipt row))));
               ("host_invocation_id", Str host)])) ∧
    ct_claims s !! key = Some c ∧ sc_evidence_capture_receipt_id c = i) as Hone.
  { intros i row Hrow.
    destruct (ci_receipts _ Hinv _ _ Hrow) as (input & intent & identity & -> & -> & _ & Hacc & _ & _ & Hcl).
    destruct (derive_claims_single _ _ _ (acc_claims _ _ _ Hacc)) as (host & Hh & [= ->]).
    set (c := claim_row _ _ _) in Hcl. assert (c ∈ claims_in (ct_claims s)
      (ri_evidence_capture_receipt_id input)) as Hin by (rewrite Hcl; constructor).
    apply elem_of_claims_in in Hin as [[key Hkey] Hid].
    destruct (ci_claims _ Hinv _ _ Hkey) as [-> _]. by eexists host, _, c. }
  destruct (Hone id r Hl) as (h & k & c & Hh & -> & Hk & <-).
  destruct (Hone id' r' Hl') as (h' & k' & c' & Hh' & -> & Hk' & <-). congruence.
Qed.

(** Fulfilling a capture on a reachable table is all or nothing: either it fails
    and every row (intents, receipts, claims, staging, clock floor) is as before,
    or it returns exactly the row it stored, the staged body is on disk under the
    handle's name, and every other receipt is untouched. A committed fulfillment
    never fails to read its own receipt back. *)
Theorem fulfillment_all_or_nothing s input :
  capture_reachable s → json_map (ri_observed_outcome input) →
  json_map (rb_observed_outcome (ri_safe_receipt input)) →
  let s' := (fulfill_evidence_capture_source s input).2 in
  match (fulfill_evidence_capture_source s input).1 with
  | Err _ => s' = set_files s (ct_files s')
  | Ok record =>
      record = receipt_row (ct_project_id s) input ∧
      ct_receipts s' = <[ri_evidence_capture_receipt_id input := record]> (ct_receipts s) ∧
      ct_receipts s !! ri_evidence_capture_receipt_id input = None ∧
      ct_files s' !! staged_file_name (ri_staging_handle_id input)
        = Some (safe_receipt_json (rr_safe_receipt record)) ∧
      evidence_capture_receipt_for_intent s' (ri_evidence_capture_intent_id input) = Ok (Some record)
  end.
Proof.
  intros Hinv%capture_reachable_inv Hm Hmb. pose proof (fulfill_inv s input Hm Hmb Hinv) as Hinv'.
  revert Hinv'. unfold fulfill_evidence_capture_source.
  destruct (check_receipt s input) as [claims|] eqn:Hcheck; [|by destruct s].
  case_match; [|by destruct s]. case_match. case_match; [by destruct s|].
  destruct (insert_receipt_rows _ _ _ _ _) as [s'|] eqn:Hins; [|by destruct s]. simpl. intros Hinv'.
  apply check_receipt_Ok in Hcheck as (intent & _ & Hacc).
  destruct (derive_claims_single _ _ _ (acc_claims _ _ _ Hacc)) as (host & _ & ->).
  apply insert_receipt_rows_Ok in Hins as (Hid & _ & _ & _ & _ & Hrec & _ & Hfiles & _).
  assert (ct_receipts s' !! ri_evidence_capture_receipt_id input
          = Some (receipt_row (ct_project_id s) input)) as Hl by (by rewrite Hrec, lookup_insert_eq).
  pose proof (receipt_sound_decodes _ _ _ Hinv' Hl) as Hdec.
  pose proof (receipt_for_intent_found _ _ _ Hinv' Hl) as Hfound.
  unfold evidence_capture_receipt_record. rewrite Hl. simpl. rewrite Hdec. simpl.
  split_and!; try done. rewrite Hfiles. simpl. by rewrite lookup_insert_eq.
Qed.

(** C37: A fulfillment that names the staging handle of a committed receipt is
    rejected, but removes the committed receipt's staged body: the file is
    overwritten before the insert and unlinked when the insert fails. *)
Theorem rejected_fulfillment_removes_staged_body s input claims clock_floor clock :
  check_receipt s input = Ok claims →
  advance_project_utc_floor (ct_project_id s) (ri_created_at input) (ct_clock s)
    = Ok (clock_floor, clock) →
  fits_i64 (sg_size_bytes (receipt_staging input)) = true →
  is_Some (ct_staging s !! ri_staging_handle_id input) →
  let s' := (fulfill_evidence_capture_source s input).2 in
  (fulfill_evidence_capture_source s input).1
    = Err (ConstraintViolation "artifact_staging.handle_id") ∧
  ct_staging s' = ct_staging s ∧
  ct_files s' !! staged_file_name (ri_staging_handle_id input) = None.
Proof.
  intros Hc Ha Hf [staged Hs]. unfold fulfill_evidence_capture_source.
  rewrite Hc, Ha, Hf. unfold insert_receipt_rows. rewrite Hs. simpl.
  split_and!; [done..|]. apply lookup_delete_eq.
Qed.
End capture_sound.

(** ** Witnesses *)

#[local] Existing Instance decimal_chrono.

Definition sample_sha : string := "aaaaaaaaaaaaaaaaaaaaaaaaaaaaaaaaaaaaaaaaaaaaaaaaaaaaaaaaaaaaaaaa".

#[local] Instance sample_digest : CaptureDigest := {
  json_text _ := "{}"; sha256_hex _ := sample_sha; sha256_hex_canonical _ := eq_refl;
}.

Definition sample_capture_table : CaptureTable :=
  {| ct_project_id := "p"; ct_clock := {| updated_at := 90; last_clock_sample := None |};
     ct_tasks := {["t1"]}; ct_change_units := {[("t1", "cu1")]}; ct_intents := ∅;
     ct_receipts := ∅; ct_claims := ∅; ct_staging := ∅; ct_files := ∅ |}.

Definition sample_capture_intent (id : string) : EvidenceCaptureIntentInsert :=
  let capture := VerifiedToolInvocationSpec "Bash" sample_sha None in
  {| ii_evidence_capture_intent_id := id; ii_task_id := "t1"; ii_change_unit_id := "cu1";
     ii_scope_revision := 1; ii_baseline_ref := "base"; ii_target := AcceptanceCriterion "ac1";
     ii_capture := capture; ii_input_sha256 := sample_sha;
     ii_expected_outcome := evidence_capture_expected_outcome capture;
     ii_requested_by_actor_source := AgentConnection "conn";
     ii_requesting_connection_internal_id := "conn"; ii_workspace_context := [];
     ii_created_at := 100; ii_expires_at := 100 + minutes 15 |}.

Definition sample_outcome : JsonObject :=
  [("success", Bool true); ("exit_code", Null); ("tool_result_sha256", Str sample_sha);
   ("tool_result_size_bytes", Number "12")].

Definition sample_source : PersistedEvidenceCaptureReceiptSource :=
  {| src_connection_id := "conn"; src_host_invocation_id := Some "call-1" |}.

Definition sample_receipt (id intent handle : string) : EvidenceCaptureReceiptInsert :=
  let expected := [("expected_success", Bool true)] in
  {| ri_evidence_capture_receipt_id := id; ri_evidence_capture_intent_id := intent;
     ri_staging_handle_id := handle; ri_task_id := "t1"; ri_input_sha256 := sample_sha;
     ri_result_sha256 := sample_sha; ri_expected_outcome := expected;
     ri_observed_outcome := sample_outcome; ri_source_refs := [];
     ri_observed_by_actor_source := AgentConnection "conn"; ri_observed_at := 200;
     ri_limitations := [EVIDENCE_CAPTURE_COMMAND_LIMITATION];
     ri_safe_receipt :=
       {| rb_contract_id := EVIDENCE_CAPTURE_RECEIPT_CONTRACT_ID;
          rb_capture_kind := VerifiedToolInvocation; rb_capture_intent_id := intent;
          rb_input_sha256 := sample_sha; rb_result_sha256 := sample_sha;
          rb_expected_outcome := expected; rb_observed_outcome := sample_outcome;
          rb_source := sample_source; rb_complete := true;
          rb_limitations := [EVIDENCE_CAPTURE_COMMAND_LIMITATION]; rb_redaction_state := Redacted;
          rb_observed_by_actor_source := AgentConnection "conn"; rb_observed_at := 200 |};
     ri_created_at := 210; ri_staging_expires_at := 100 + minutes 15;
     ri_metadata_source := sample_source |}.

Definition sample_intended : CaptureTable :=
  set_intents sample_capture_table
    (<["i2" := intent_row "p" (sample_capture_intent "i2")]>
       (<["i1" := intent_row "p" (sample_capture_intent "i1")]> ∅)).

Definition sample_fulfilled : CaptureTable :=
  (fulfill_evidence_capture_source sample_intended (sample_receipt "r1" "i1" "h1")).2.

Lemma sample_outcome_map : json_map sample_outcome.
Proof. apply (bool_decide_unpack _). vm_compute. exact I. Qed.

Lemma sample_intended_reachable : capture_reachable sample_intended.
Proof.
  exists sample_capture_table. split; [done|].
  eapply rtc_l; [by apply (step_intent _ (sample_capture_intent "i1")); vm_compute|].
  eapply rtc_l; [by apply (step_intent _ (sample_capture_intent "i2")); vm_compute|].
  apply rtc_refl.
Qed.

Lemma sample_fulfilled_reachable : capture_reachable sample_fulfilled.
Proof.
  destruct sample_intended_reachable as (s0 & H0 & Hs). exists s0. split; [done|].
  eapply rtc_r; [exact Hs|]. apply step_fulfill; apply sample_outcome_map.
Qed.

Lemma stored_receipt_accepted_by_core_witness :
  evidence_capture_receipt_for_intent sample_fulfilled "i1"
    = Ok (Some (receipt_row "p" (sample_receipt "r1" "i1" "h1"))).
Proof.
  refine (proj1 (proj2 (stored_receipt_accepted_by_core sample_fulfilled "r1"
    (receipt_row "p" (sample_receipt "r1" "i1" "h1")) sample_fulfilled_reachable _))).
  vm_compute. reflexivity.
Defined.

Lemma host_invocation_claimed_once_witness :
  ct_receipts sample_fulfilled !! "r1" = Some (receipt_row "p" (sample_receipt "r1" "i1" "h1")) ∧
  "r1" = "r1".
Proof.
  assert (ct_receipts sample_fulfilled !! "r1"
          = Some (receipt_row "p" (sample_receipt "r1" "i1" "h1"))) as Hr
    by (vm_compute; reflexivity).
  split; [exact Hr|].
  exact (host_invocation_claimed_once sample_fulfilled "r1" "r1" _ _
           sample_fulfilled_reachable Hr Hr eq_refl eq_refl).
Defined.

(** The second receipt reuses the host invocation of the first: it is refused. *)
Lemma fulfillment_all_or_nothing_witness :
  ct_receipts (fulfill_evidence_capture_source sample_fulfilled (sample_receipt "r2" "i2" "h2")).2
    !! "r2" = None.
Proof.
  pose proof (fulfillment_all_or_nothing sample_fulfilled (sample_receipt "r2" "i2" "h2")
                sample_fulfilled_reachable sample_outcome_map sample_outcome_map) as Hall.
  cbv zeta in Hall.
  assert ((fulfill_evidence_capture_source sample_fulfilled (sample_receipt "r2" "i2" "h2")).1
          = Err (ConstraintViolation "evidence_capture_source_claims.source_claim_id")) as He
    by (vm_compute; reflexivity).
  rewrite He in Hall. rewrite Hall. vm_compute. reflexivity.
Defined.

Lemma rejected_fulfillment_removes_staged_body_witness :
  ct_files sample_fulfilled !! "h1.txt" = Some "{}" ∧
  ct_files (fulfill_evidence_capture_source sample_fulfilled (sample_receipt "r2" "i2" "h1")).2
    !! "h1.txt" = None.
Proof.
  split; [vm_compute; reflexivity|].
  refine (proj2 (proj2 (rejected_fulfillment_removes_staged_body sample_fulfilled
    (sample_receipt "r2" "i2" "h1") _ _ _ _ _ _ _)));
    [vm_compute; reflexivity..|exact (mk_is_Some _ _ eq_refl)].
Defined.
