(* ===== verification/ClosePolicy.v ===== *)
(** * ClosePolicy: authorities, guidance and blockers of close readiness

    Models [crates/volicord-core/src/policy/close_readiness.rs] (which resolved
    user action is a current final acceptance, a residual-risk acceptance or a
    scope decision), [close_readiness/{guidance,blockers}.rs], [guidance.rs] and
    the small pure policies of [close_readiness/{policy,acceptance}.rs]. *)

From S2P Require Import Prelude Text ProductPath Values Canonical Schema UserAction Commit.
From S2P Require Import Artifact Evidence.

(** ** [policy/close_readiness.rs] *)

Definition close_acceptance_policy_rank (policy : AcceptancePolicy) : nat :=
  match policy with NotRequired => 0 | PolicyDependent => 1 | Required => 2 end.

Record FinalAcceptanceRequirement := {
  far_task_id : TaskId;
  far_change_unit_id : ChangeUnitId;
  far_scope_revision : N;
  far_close_basis_revision : N;
  far_baseline_ref : option BaselineRef;
  far_result_refs : list StateRecordRef;
}.

Record ScopeDecisionAuthorityRequirement := {
  sdr_task_id : TaskId;
  sdr_scope_revision : N;
  sdr_current_change_unit_id : option ChangeUnitId;
  sdr_affected_refs : list StateRecordRef;
  sdr_now : UtcTimestamp;
}.

Definition final_acceptance_requirement (basis : CurrentCloseBasis) : FinalAcceptanceRequirement :=
  {| far_task_id := cb_task_id basis; far_change_unit_id := cb_change_unit_id basis;
     far_scope_revision := cb_scope_revision basis;
     far_close_basis_revision := cb_close_basis_revision basis;
     far_baseline_ref := cb_baseline_ref basis; far_result_refs := cb_result_refs basis |}.

(** Core's [state_refs_match] compares identity keys, without the Task. *)
Definition state_refs_match (left right : list StateRecordRef) : bool :=
  rsort (state_record_ref_identity_key <$> left) =? rsort (state_record_ref_identity_key <$> right).

Definition final_acceptance_basis_matches_current (basis : UserActionBasis)
    (requirement : FinalAcceptanceRequirement) : bool :=
  let coordinates := coordinates basis in
  (co_task_id coordinates =? far_task_id requirement)
  && (co_change_unit_id coordinates =? Some (far_change_unit_id requirement))
  && (co_scope_revision coordinates =? far_scope_revision requirement)
  && (close_basis_revision basis =? Some (far_close_basis_revision requirement))
  && (co_baseline_ref coordinates =? far_baseline_ref requirement)
  && state_refs_match (result_refs basis) (far_result_refs requirement).

Definition current_final_acceptance (judgment : UserActionAuthority)
    (requirement : FinalAcceptanceRequirement) : bool :=
  if negb (Relevance.accepted_current_user_authority judgment FinalAcceptance) then false
  else if negb (contains ForCloseComplete (ua_required_for judgment)) then false
  else is_some_and (ua_basis judgment)
         (λ basis, final_acceptance_basis_matches_current basis requirement).

Definition current_acceptance_required_risk_ids (current_close_basis : CurrentCloseBasis)
    : list RiskId :=
  bts_of_list (risk_id <$> List.filter acceptance_required (cb_residual_risks current_close_basis)).

Definition accepted_risk_ids_from_resolution (resolution : UserActionResolutionBody) : list RiskId :=
  match resolution with
  | ResolutionChoice _ _ _ _ accepted_risk_ids => bts_of_list accepted_risk_ids
  | ResolutionEvidenceObservation _ => []
  end.

Definition residual_risk_basis_matches_current (basis : UserActionBasis)
    (current_close_basis : CurrentCloseBasis) : bool :=
  (co_task_id (coordinates basis) =? cb_task_id current_close_basis)
  && (close_basis_revision basis =? Some (cb_close_basis_revision current_close_basis))
  && (bts_of_list (residual_risk_ids basis)
        =? current_acceptance_required_risk_ids current_close_basis).

Definition current_residual_risk_acceptance_covers (user_action : UserActionAuthority)
    (current_close_basis : CurrentCloseBasis) (risk_id : RiskId) : bool :=
  if negb (Relevance.accepted_current_user_authority user_action ResidualRiskAcceptance) then false
  else if negb (contains ForCloseComplete (ua_required_for user_action)) then false
  else match ua_basis user_action with
       | None => false
       | Some basis =>
           if negb (residual_risk_basis_matches_current basis current_close_basis) then false
           else match ua_resolution user_action with
                | None => false
                | Some resolution =>
                    let accepted_ids := accepted_risk_ids_from_resolution resolution in
                    bts_subset accepted_ids (bts_of_list (residual_risk_ids basis))
                    && bts_mem risk_id accepted_ids
                end
       end.

Definition current_residual_risk_acceptance_coverage (project_id : ProjectId) (task_id : TaskId)
    (state_version : N) (current_close_basis : CurrentCloseBasis)
    (user_actions : list UserActionAuthority) : list RiskAcceptanceCoverage :=
  (λ risk,
     let refs :=
       if acceptance_required risk then
         omap (λ user_action, (λ resolution_id,
                 state_ref KUserActionResolution resolution_id project_id (Some task_id)
                   (Some state_version)) <$> ua_user_action_resolution_id user_action)
           (List.filter (λ user_action,
              current_residual_risk_acceptance_covers user_action current_close_basis (risk_id risk))
              user_actions)
       else [] in
     let accepted := negb (acceptance_required risk) || negb (list_is_empty refs) in
     {| cov_risk_id := risk_id risk; cov_accepted := accepted;
        cov_accepted_by_user_action_resolution_refs := refs;
        cov_missing_reason := if accepted then None else Some "acceptance_required" |})
  <$> cb_residual_risks current_close_basis.

Definition record_ref_task_matches (record_ref : StateRecordRef) (task_id : TaskId) : bool :=
  if (sr_record_kind record_ref =? KTask) && (sr_record_id record_ref <>? task_id) then false
  else is_none_or (sr_task_id record_ref) (λ record_task_id, record_task_id =? task_id).

Definition state_refs_overlap (left right : StateRecordRef) : bool :=
  if sr_project_id left <>? sr_project_id right then false
  else if (sr_record_kind left =? KTask) && (sr_task_id right =? sr_task_id left) then true
  else (sr_record_kind left =? sr_record_kind right) && (sr_record_id left =? sr_record_id right).

Definition scope_decision_refs_are_compatible (judgment_refs transition_refs : list StateRecordRef)
    (task_id : TaskId) : bool :=
  match transition_refs with
  | [] => list_is_empty judgment_refs
  | first_transition_ref :: _ =>
      if existsb (λ record_ref, (sr_project_id record_ref <>? sr_project_id first_transition_ref)
                                || negb (record_ref_task_matches record_ref task_id)) judgment_refs
      then false
      else list_is_empty judgment_refs
           || existsb (λ judgment_ref, existsb (state_refs_overlap judgment_ref) transition_refs)
                judgment_refs
  end.

Definition accepted_current_scope_decision_authority (judgment : UserActionAuthority)
    (requirement : ScopeDecisionAuthorityRequirement) : bool :=
  if negb (Relevance.accepted_current_user_authority judgment ScopeDecision)
     || negb (contains ForScopeUpdate (ua_required_for judgment))
     || is_some_and (ua_expires_at judgment)
          (λ expires_at, negb (ts_lt (sdr_now requirement) expires_at))
  then false
  else match ua_basis judgment with
       | None => false
       | Some basis =>
           let coordinates := coordinates basis in
           (co_task_id coordinates =? sdr_task_id requirement)
           && (co_scope_revision coordinates =? sdr_scope_revision requirement)
           && (co_change_unit_id coordinates =? sdr_current_change_unit_id requirement)
           && scope_decision_refs_are_compatible (ua_affected_refs judgment)
                (sdr_affected_refs requirement) (sdr_task_id requirement)
       end.

(** ** Intents and states *)

Inductive CloseIntent := IntentCheck | IntentComplete | IntentCancel | IntentSupersede.
#[export] Instance CloseIntent_eq_dec : EqDecision CloseIntent.
Proof. solve_decision. Defined.

Inductive CloseState := StateReady | StateBlocked | StateClosed | StateCancelled | StateSuperseded.
#[export] Instance CloseState_eq_dec : EqDecision CloseState.
Proof. solve_decision. Defined.

Definition close_state_for_policy (intent : CloseIntent) (allowed : bool) : CloseState :=
  if negb allowed then StateBlocked
  else match intent with
       | IntentCheck => StateReady
       | IntentComplete => StateClosed
       | IntentCancel => StateCancelled
       | IntentSupersede => StateSuperseded
       end.

(** ** [guidance.rs] *)

Definition allowed_operation_categories (owner_method : option MethodName) : list OperationCategory :=
  match owner_method with
  | Some MResolveUserAction => [UserOnly]
  | Some MReconcileChanges => [AgentWorkflow; LocalRecovery]
  | Some (MUpdateScope | MRecordShapingCheckpoint | MFinalizeAdvice | MAdvanceTask
         | MPrepareEvidenceCapture | MPrepareWrite | MStageArtifact | MRecordRun
         | MRequestUserAction | MCloseTask) => [AgentWorkflow]
  | Some (MIntake | MStatus | MGetOperationResult | MCheckClose) | None => []
  end.

Definition expected_state_version_for (categories : list OperationCategory)
    (expected_state_version : N) : option N :=
  if contains AgentWorkflow categories then Some expected_state_version else None.

Inductive CloseGuidance :=
| ReviewCurrentTask | ResolveRecoveryBlockers | ResolveRecoveryConstraints | ReconcileChanges
| RecordOpenTicket | ResolvePendingUserAction | RequestCancellationAuthority
| RestoreActiveChangeUnit | PrepareSensitiveAction | RequestSensitiveApproval
| RefreshCurrentBasis | RepairArtifact | MakeResidualRiskVisible | RequestResidualRiskAcceptance
| RecordCurrentCloseBasis | RecordFreshScopeBasis | RecordFreshRunBasis | RecordRequiredEvidence
| FinalizeAdvisorCloseBasis | RefreshAdvisorCloseBasis | RecordAdvisorEvidence
| RequestFinalAcceptance.

Definition guidance_parts (guidance : CloseGuidance)
    : NextActionKind * MethodName * list OperationCategory * string * option string :=
  match guidance with
  | ReviewCurrentTask =>
      (NaCloseTask, MCloseTask, [AgentWorkflow], "Review the current Task before closing.", None)
  | ResolveRecoveryBlockers =>
      (NaCloseTask, MCloseTask, [AgentWorkflow],
       "Resolve recovery blockers before closing the Task.", None)
  | ResolveRecoveryConstraints =>
      (NaCloseTask, MCloseTask, [AgentWorkflow],
       "Resolve recovery constraints before completing the Task.", None)
  | ReconcileChanges =>
      (NaReconcileChanges, MReconcileChanges, [AgentWorkflow; LocalRecovery],
       "Run reconciliation for observed Product Repository changes before close.",
       Some "Does the user accept any remaining observed Product Repository change as intentional?")
  | RecordOpenTicket =>
      (NaRecordRun, MRecordRun, [AgentWorkflow],
       "Record the ticket-backed run or reconcile observed changes before close.", None)
  | ResolvePendingUserAction =>
      (NaResolveUserAction, MResolveUserAction, [UserOnly], "Resolve the pending user action.", None)
  | RequestCancellationAuthority =>
      (NaRequestUserAction, MRequestUserAction, [AgentWorkflow],
       "Request current user cancellation authority.", None)
  | RestoreActiveChangeUnit =>
      (NaUpdateScope, MUpdateScope, [AgentWorkflow],
       "Create or restore the current active Change Unit.", None)
  | PrepareSensitiveAction =>
      (NaPrepareWrite, MPrepareWrite, [AgentWorkflow],
       "Prepare the exact sensitive action with user-owned approval, then record its ticket-backed Run.",
       None)
  | RequestSensitiveApproval =>
      (NaRequestUserAction, MRequestUserAction, [AgentWorkflow],
       "Request the user-owned sensitive-action approval.", None)
  | RefreshCurrentBasis =>
      (NaUpdateScope, MUpdateScope, [AgentWorkflow],
       "Refresh the current scope or close basis before completing the Task.", None)
  | RepairArtifact =>
      (NaRecordRun, MRecordRun, [AgentWorkflow],
       "Record or repair the artifact supporting close evidence.", None)
  | MakeResidualRiskVisible =>
      (NaRequestUserAction, MRequestUserAction, [AgentWorkflow],
       "Make residual risk visible before requesting acceptance.", None)
  | RequestResidualRiskAcceptance =>
      (NaRequestUserAction, MRequestUserAction, [AgentWorkflow],
       "Request current residual-risk acceptance from the user.", None)
  | RecordCurrentCloseBasis =>
      (NaRecordRun, MRecordRun, [AgentWorkflow], "Record the current result and close basis.", None)
  | RecordFreshScopeBasis =>
      (NaRecordRun, MRecordRun, [AgentWorkflow],
       "Record a fresh close basis for the current scope.", None)
  | RecordFreshRunBasis =>
      (NaRecordRun, MRecordRun, [AgentWorkflow],
       "Record a fresh close basis for the current Run context.", None)
  | RecordRequiredEvidence =>
      (NaRecordRun, MRecordRun, [AgentWorkflow],
       "Record evidence that supports the required close claims.", None)
  | FinalizeAdvisorCloseBasis =>
      (NaFinalizeAdvice, MFinalizeAdvice, [AgentWorkflow],
       "Finalize the current advice result and establish its close basis.", None)
  | RefreshAdvisorCloseBasis =>
      (NaFinalizeAdvice, MFinalizeAdvice, [AgentWorkflow],
       "Finalize the advice again against the current checkpoint and scope.", None)
  | RecordAdvisorEvidence =>
      (NaFinalizeAdvice, MFinalizeAdvice, [AgentWorkflow],
       "Finalize the advice with current supported advisor evidence refs.", None)
  | RequestFinalAcceptance =>
      (NaRequestUserAction, MRequestUserAction, [AgentWorkflow],
       "The Agent Connection must create a current final-acceptance request for the user.",
       Some "Does the user accept the current Task result and close basis as complete?")
  end.

Definition close_guidance (guidance : CloseGuidance) (required_refs : list StateRecordRef)
    : NextActionSummary :=
  let '(action_kind, owner_method, categories, label, blocking_question) := guidance_parts guidance in
  {| na_action_kind := action_kind; na_owner_method := Some owner_method;
     na_allowed_operation_categories := categories; na_label := label;
     na_blocking_question := blocking_question; na_expected_state_version := None;
     na_required_refs := required_refs |}.

(** ** [blockers.rs] *)

Definition close_blocker (category : CloseReadinessBlockerCategory) (code message : string)
    (related_refs : list StateRecordRef) (next_actions : list NextActionSummary)
    : CloseReadinessBlocker :=
  {| bl_category := category; bl_code := code; bl_message := message;
     bl_related_refs := related_refs; bl_next_actions := next_actions |}.

Definition open_write_ticket_close_blocker (task_ref write_ticket_ref : StateRecordRef)
    : CloseReadinessBlocker :=
  close_blocker BcWriteCompatibility "open_write_ticket"
    "An open write ticket remains unresolved for this Task." [write_ticket_ref]
    [close_guidance RecordOpenTicket [task_ref]].

Definition normalize_next_action (expected_state_version : N) (action : NextActionSummary)
    : NextActionSummary :=
  let categories := allowed_operation_categories (na_owner_method action) in
  {| na_action_kind := na_action_kind action; na_owner_method := na_owner_method action;
     na_allowed_operation_categories := categories; na_label := na_label action;
     na_blocking_question := na_blocking_question action;
     na_expected_state_version := expected_state_version_for categories expected_state_version;
     na_required_refs := na_required_refs action |}.

Definition normalize_close_blockers (blockers : list CloseReadinessBlocker)
    (expected_state_version : N) : list CloseReadinessBlocker :=
  (λ blocker, {| bl_category := bl_category blocker; bl_code := bl_code blocker;
                 bl_message := bl_message blocker; bl_related_refs := bl_related_refs blocker;
                 bl_next_actions :=
                   normalize_next_action expected_state_version <$> bl_next_actions blocker |})
  <$> blockers.

(** ** [acceptance.rs]: the light-acceptance policy *)

Record LightAcceptancePolicyFacts := {
  lf_light_enabled : bool;
  lf_final_acceptance_policy : AcceptancePolicy;
  lf_has_pending_user_action : bool;
  lf_has_current_close_basis : bool;
  lf_has_acceptance_required_risk : bool;
  lf_has_sensitive_result : bool;
  lf_has_unresolved_change : bool;
  lf_has_evidence_blocker : bool;
  lf_writes_are_current_and_authorized : bool;
}.

Definition light_acceptance_can_be_omitted (facts : LightAcceptancePolicyFacts) : bool :=
  lf_light_enabled facts && (lf_final_acceptance_policy facts <>? Required)
  && negb (lf_has_pending_user_action facts) && lf_has_current_close_basis facts
  && negb (lf_has_acceptance_required_risk facts) && negb (lf_has_sensitive_result facts)
  && negb (lf_has_unresolved_change facts) && negb (lf_has_evidence_blocker facts)
  && lf_writes_are_current_and_authorized facts.

(** ** Agreement with the User Action service *)

Definition ref_identity (record_ref : StateRecordRef) : string * (StateRecordKind * string) :=
  (sr_project_id record_ref, (sr_record_kind record_ref, sr_record_id record_ref)).

(** Lists of keys are permutations exactly when the lists of what they encode are. *)
Lemma perm_keys {A B K} (f : A → B) (g : B → K) (l r : list A) :
  (∀ x y, g x = g y → x = y) → (g ∘ f <$> l) ≡ₚ (g ∘ f <$> r) ↔ (f <$> l) ≡ₚ (f <$> r).
Proof.
  intros Hg. rewrite !list_fmap_compose. split; [|intros H; by apply Permutation_map].
  intros (c & Hc & Hp)%Permutation_map_inv. rewrite Hp.
  apply (list_fmap_eq_inj g Hg) in Hc. by rewrite Hc.
Qed.

Lemma str_snoc_inj c s s' : s +:+ String c EmptyString = s' +:+ String c EmptyString → s = s'.
Proof.
  revert s'. induction s as [|a s IH]; intros [|b s'] H; simpl in H; simplify_eq; try done.
  - by destruct s'.
  - by destruct s.
  - f_equal. by apply IH.
Qed.

Lemma core_refs_match_perm l r :
  state_refs_match l r = true ↔ (ref_identity <$> l) ≡ₚ (ref_identity <$> r).
Proof.
  unfold state_refs_match. rewrite eqb_true, rsort_eq_perm.
  apply (perm_keys ref_identity
           (λ '(project, (kind, id)), (project, (json_quoted (StateRecordKind_str kind), id)))).
  intros [p [k i]] [p' [k' i']] [=-> Hk%str_snoc_inj ->].
  by apply StateRecordKind_str_inj in Hk as ->.
Qed.

Lemma service_refs_match_perm l r :
  Relevance.state_refs_match l r = true ↔
  ((λ x, (ref_identity x, sr_task_id x)) <$> l) ≡ₚ ((λ x, (ref_identity x, sr_task_id x)) <$> r).
Proof.
  unfold Relevance.state_refs_match. rewrite eqb_true, rsort_eq_perm.
  apply (perm_keys (λ x, (ref_identity x, sr_task_id x))
           (λ '((project, (kind, id)), task),
              (Relevance.StateRecordKind_debug kind, (id, (project, task))))).
  intros [[p [k i]] t] [[p' [k' i']] t'] [=Hk -> -> ->].
  by apply StateRecordKind_debug_inj in Hk as ->.
Qed.

Lemma tasked_refs task_id (l : list StateRecordRef) :
  (∀ r, r ∈ l → sr_task_id r = Some task_id) →
  ((λ x, (ref_identity x, sr_task_id x)) <$> l) = ((λ i, (i, Some task_id)) ∘ ref_identity <$> l).
Proof.
  intros Ht. apply list_fmap_ext. intros i x Hx. simpl. f_equal.
  by eapply Ht, list_elem_of_lookup_2.
Qed.

(** the User Action service and the close policy decide separately whether the
    basis of an acceptance is the current close basis.  They agree on every
    residual-risk basis; on final acceptance the service is never more permissive
    than the close policy, and they agree whenever the compared result references
    all belong to the Task being closed, although one sorts keys that carry the Task
    and the other does not. *)
Theorem acceptance_basis_checks_agree basis current :
  Relevance.residual_risk_basis_matches_current basis current
    = residual_risk_basis_matches_current basis current ∧
  (Relevance.final_acceptance_basis_matches_current basis current = true →
   final_acceptance_basis_matches_current basis (final_acceptance_requirement current) = true) ∧
  ((∀ r, r ∈ result_refs basis ++ cb_result_refs current → sr_task_id r = Some (cb_task_id current)) →
   Relevance.final_acceptance_basis_matches_current basis current
     = final_acceptance_basis_matches_current basis (final_acceptance_requirement current)).
Proof.
  split; [done|]. unfold Relevance.final_acceptance_basis_matches_current,
    final_acceptance_basis_matches_current, final_acceptance_requirement; simpl.
  split.
  - rewrite !andb_true_iff, service_refs_match_perm, core_refs_match_perm.
    intros [Hrest Hp]. split; [done|].
    apply (Permutation_map fst) in Hp. by rewrite !map_map in Hp.
  - intros Htask. f_equal. apply eq_true_iff_eq.
    rewrite service_refs_match_perm, core_refs_match_perm.
    rewrite !(tasked_refs (cb_task_id current)) by (intros r Hr; apply Htask, elem_of_app; auto).
    apply perm_keys. by intros ?? [=].
Qed.
