(* ===== verification/CloseReadiness.v ===== *)
(** * CloseReadiness: may a Task be completed, cancelled or superseded

    Models [crates/volicord-core/src/close_readiness/{facts,change_control,
    acceptance,evidence,policy,service,summary}.rs] with [record_refs.rs] and
    [acceptance_facts.rs]: the facts of one evaluation, the blockers each
    responsibility contributes, and their combination into an assessment.  The
    memo fields of the Rust facts (evaluated tickets, authorities and stale
    references already read) cache reads of a store that does not change during an
    evaluation; here each use reads.  A projected list of authorities, which
    replaces a read, is a field. *)

From stdpp Require Import gmap strings.
From S2P Require Import Prelude Text ProductPath Values Canonical Schema UserAction Workflow.
From S2P Require Import Clock TicketStore Ticket Commit UserActionShape UserActionStore Artifact.
From S2P Require Import UserActionService Evidence Capture Admission Planning EvidenceFacts ClosePolicy.

#[local] Existing Instance Relevance.UserActionOperation_eq_dec.

(** ** Errors and records *)

Inductive CloseReadinessError :=
| CrCore (error : CorePipelineError)
| CrUserAction (error : UserActionServiceError)
| NoActiveTask.

Record CloseReadinessRequest := {
  cq_project_id : ProjectId;
  cq_task_id : TaskId;
  cq_intent : CloseIntent;
  cq_superseding_task_id : option TaskId;
}.

Definition check_request (project_id : ProjectId) (task_id : TaskId) : CloseReadinessRequest :=
  {| cq_project_id := project_id; cq_task_id := task_id; cq_intent := IntentCheck;
     cq_superseding_task_id := None |}.

Record RunObservedChangesRecord := {
  rox_run_id : string;
  rox_observed_changes : ObservedChanges;
  rox_status : RunStatus;
}.

Record CloseReadinessFacts := {
  cf_now : UtcTimestamp;
  cf_task : TaskRecord;
  cf_current_change_unit : option ChangeUnitRecord;
  cf_current_close_basis : option CurrentCloseBasis;
  cf_pending_user_action_refs : list StateRecordRef;
  cf_blocker_refs : list StateRecordRef;
  cf_evidence_summary : option EvidenceSummary;
  cf_acceptance_criteria : option (list AcceptanceCriterionView);
  cf_artifact_refs : list ArtifactRef;
  cf_projected_run_refs : list StateRecordRef;
  cf_projected_evidence_observations : list EvidenceObservation;
  cf_projected_artifacts : list ArtifactRef;
  cf_projected_required_criterion_ids : option (list string);
  cf_projected_resolved_unrecorded_change_ids : list string;
  cf_unresolved_unrecorded_changes : list string;
  cf_workflow_policy : option ProjectWorkflowPolicy;
  cf_pending_user_action_authorities : option (list UserActionAuthority);
  cf_resolved_judgment_authorities : option (list UserActionAuthority);
}.

Record CloseReadinessAssessment := {
  cas_context : CloseReadinessFacts;
  cas_control_update : option TaskControlLevelUpdate;
  cas_risk_acceptance_coverage : list RiskAcceptanceCoverage;
  cas_blockers : list CloseReadinessBlocker;
  cas_committed_terminal : bool;
  cas_response_state_version : N;
  cas_close_state : CloseState;
  cas_evidence_gate : EvidenceGateState;
}.

Record CloseReadinessSummary := {
  csu_close_state : CloseState;
  csu_current_close_basis : option CurrentCloseBasis;
  csu_risk_acceptance_coverage : list RiskAcceptanceCoverage;
  csu_blockers : list CloseReadinessBlocker;
  csu_evidence_gate : EvidenceGateState;
}.

Definition summary_of_assessment (assessment : CloseReadinessAssessment) : CloseReadinessSummary :=
  {| csu_close_state := cas_close_state assessment;
     csu_current_close_basis := cf_current_close_basis (cas_context assessment);
     csu_risk_acceptance_coverage := cas_risk_acceptance_coverage assessment;
     csu_blockers := cas_blockers assessment; csu_evidence_gate := cas_evidence_gate assessment |}.

Record CloseReadinessEvaluations := {
  cev_risk_acceptance_coverage : list RiskAcceptanceCoverage;
  cev_terminal_change_control : list CloseReadinessBlocker;
  cev_terminal_acceptance : list CloseReadinessBlocker;
  cev_completion_scope : list CloseReadinessBlocker;
  cev_completion_authority : list CloseReadinessBlocker;
  cev_completion_basis : list CloseReadinessBlocker;
  cev_completion_evidence : list CloseReadinessBlocker;
  cev_completion_acceptance : list CloseReadinessBlocker;
  cev_unrecorded_changes : list CloseReadinessBlocker;
}.

(** ** References *)

Definition change_unit_ref (project_id : ProjectId) (task_id : TaskId) (change_unit : ChangeUnitRecord)
    (state_version : N) : StateRecordRef :=
  state_ref KChangeUnit (cu_change_unit_id change_unit) project_id (Some task_id) (Some state_version).

Definition state_ref_from_stored (record : StoredRecordRef) : StateRecordRef :=
  {| sr_record_kind := srr_record_kind record; sr_record_id := srr_record_id record;
     sr_project_id := srr_project_id record; sr_task_id := srr_task_id record;
     sr_produced_at_state_version := srr_state_version record |}.

Definition task_ref_for_close (request : CloseReadinessRequest) (state_version : N) : StateRecordRef :=
  state_ref KTask (cq_task_id request) (cq_project_id request) (Some (cq_task_id request))
    (Some state_version).

Definition current_change_unit_ref (request : CloseReadinessRequest) (context : CloseReadinessFacts)
    (state_version : N) : option StateRecordRef :=
  (λ record, change_unit_ref (cq_project_id request) (cq_task_id request) record state_version)
  <$> cf_current_change_unit context.

(** ** The store, as close readiness reads it *)

Class CloseReader `{Chrono} (S : Type) := {
  close_tickets :: TicketReader S;
  close_evidence :: EvidenceReader S;
  current_change_unit : S → TaskId → result (option ChangeUnitRecord) StoreError;
  close_task_revision_record : S → TaskId → result (option TaskRevisionRecord) StoreError;
  active_blocker_refs : S → TaskId → N → result (list StoredRecordRef) StoreError;
  evidence_summary_record : S → string → result (option EvidenceSummaryRecord) StoreError;
  active_acceptance_criteria : S → TaskId → result (list AcceptanceCriterionView) StoreError;
  unresolved_unrecorded_changes : S → result (list string) StoreError;
  run_observed_changes_for_task : S → TaskId → result (list RunObservedChangesRecord) StoreError;
}.

(** ** Facts *)

Definition facts_from_projection (task : TaskRecord) (current_change_unit : option ChangeUnitRecord)
    (current_close_basis : option CurrentCloseBasis)
    (pending_user_action_refs blocker_refs : list StateRecordRef)
    (evidence_summary : option EvidenceSummary) (now : UtcTimestamp) : CloseReadinessFacts :=
  {| cf_now := now; cf_task := task; cf_current_change_unit := current_change_unit;
     cf_current_close_basis := current_close_basis;
     cf_pending_user_action_refs := pending_user_action_refs; cf_blocker_refs := blocker_refs;
     cf_evidence_summary := evidence_summary; cf_acceptance_criteria := None;
     cf_artifact_refs := from_option es_artifact_refs [] evidence_summary;
     cf_projected_run_refs := []; cf_projected_evidence_observations := [];
     cf_projected_artifacts := []; cf_projected_required_criterion_ids := None;
     cf_projected_resolved_unrecorded_change_ids := []; cf_unresolved_unrecorded_changes := [];
     cf_workflow_policy := None; cf_pending_user_action_authorities := None;
     cf_resolved_judgment_authorities := None |}.

(** The facts with the acceptance criteria and their required ids. *)
Definition facts_with_projected_acceptance_criteria (facts : CloseReadinessFacts)
    (acceptance_criteria : list AcceptanceCriterionView) : CloseReadinessFacts :=
  {| cf_now := cf_now facts; cf_task := cf_task facts;
     cf_current_change_unit := cf_current_change_unit facts;
     cf_current_close_basis := cf_current_close_basis facts;
     cf_pending_user_action_refs := cf_pending_user_action_refs facts;
     cf_blocker_refs := cf_blocker_refs facts; cf_evidence_summary := cf_evidence_summary facts;
     cf_acceptance_criteria := Some acceptance_criteria; cf_artifact_refs := cf_artifact_refs facts;
     cf_projected_run_refs := cf_projected_run_refs facts;
     cf_projected_evidence_observations := cf_projected_evidence_observations facts;
     cf_projected_artifacts := cf_projected_artifacts facts;
     cf_projected_required_criterion_ids :=
       Some (required_acceptance_criterion_ids acceptance_criteria);
     cf_projected_resolved_unrecorded_change_ids := cf_projected_resolved_unrecorded_change_ids facts;
     cf_unresolved_unrecorded_changes := cf_unresolved_unrecorded_changes facts;
     cf_workflow_policy := cf_workflow_policy facts;
     cf_pending_user_action_authorities := cf_pending_user_action_authorities facts;
     cf_resolved_judgment_authorities := cf_resolved_judgment_authorities facts |}.

(** The facts with the open unrecorded changes and the workflow policy. *)
Definition facts_with_store_reads (facts : CloseReadinessFacts) (unresolved : list string)
    (policy : option ProjectWorkflowPolicy) : CloseReadinessFacts :=
  {| cf_now := cf_now facts; cf_task := cf_task facts;
     cf_current_change_unit := cf_current_change_unit facts;
     cf_current_close_basis := cf_current_close_basis facts;
     cf_pending_user_action_refs := cf_pending_user_action_refs facts;
     cf_blocker_refs := cf_blocker_refs facts; cf_evidence_summary := cf_evidence_summary facts;
     cf_acceptance_criteria := cf_acceptance_criteria facts;
     cf_artifact_refs := cf_artifact_refs facts;
     cf_projected_run_refs := cf_projected_run_refs facts;
     cf_projected_evidence_observations := cf_projected_evidence_observations facts;
     cf_projected_artifacts := cf_projected_artifacts facts;
     cf_projected_required_criterion_ids := cf_projected_required_criterion_ids facts;
     cf_projected_resolved_unrecorded_change_ids := cf_projected_resolved_unrecorded_change_ids facts;
     cf_unresolved_unrecorded_changes :=
       List.filter (λ id, negb (bts_mem id (cf_projected_resolved_unrecorded_change_ids facts)))
         unresolved;
     cf_workflow_policy := policy;
     cf_pending_user_action_authorities := cf_pending_user_action_authorities facts;
     cf_resolved_judgment_authorities := cf_resolved_judgment_authorities facts |}.

(** The facts with the raised control of the Task. *)
Definition facts_with_task (facts : CloseReadinessFacts) (task : TaskRecord) : CloseReadinessFacts :=
  {| cf_now := cf_now facts; cf_task := task;
     cf_current_change_unit := cf_current_change_unit facts;
     cf_current_close_basis := cf_current_close_basis facts;
     cf_pending_user_action_refs := cf_pending_user_action_refs facts;
     cf_blocker_refs := cf_blocker_refs facts; cf_evidence_summary := cf_evidence_summary facts;
     cf_acceptance_criteria := cf_acceptance_criteria facts;
     cf_artifact_refs := cf_artifact_refs facts;
     cf_projected_run_refs := cf_projected_run_refs facts;
     cf_projected_evidence_observations := cf_projected_evidence_observations facts;
     cf_projected_artifacts := cf_projected_artifacts facts;
     cf_projected_required_criterion_ids := cf_projected_required_criterion_ids facts;
     cf_projected_resolved_unrecorded_change_ids := cf_projected_resolved_unrecorded_change_ids facts;
     cf_unresolved_unrecorded_changes := cf_unresolved_unrecorded_changes facts;
     cf_workflow_policy := cf_workflow_policy facts;
     cf_pending_user_action_authorities := cf_pending_user_action_authorities facts;
     cf_resolved_judgment_authorities := cf_resolved_judgment_authorities facts |}.

(** A Task whose control level and acceptance policy were raised. *)
Definition with_control (task : TaskRecord) (control : TaskControlLevel) (control_reason : string)
    (policy : AcceptancePolicy) (policy_reason : string) : TaskRecord :=
  {| tk_project_id := tk_project_id task; tk_task_id := tk_task_id task; tk_mode := tk_mode task;
     tk_requested_control_level := tk_requested_control_level task;
     tk_effective_control_level := control; tk_control_level_reason := control_reason;
     tk_work_phase := tk_work_phase task; tk_acceptance_policy := policy;
     tk_acceptance_policy_reason := policy_reason; tk_lifecycle_phase := tk_lifecycle_phase task;
     tk_summary := tk_summary task; tk_shaping := tk_shaping task;
     tk_autonomy_boundary := tk_autonomy_boundary task; tk_scope_revision := tk_scope_revision task;
     tk_close_basis_revision := tk_close_basis_revision task;
     tk_current_change_unit_id := tk_current_change_unit_id task |}.

Definition is_completion (intent : CloseIntent) : bool :=
  match intent with IntentCheck | IntentComplete => true | IntentCancel | IntentSupersede => false end.

Definition required_criteria_for_close_context (context : CloseReadinessFacts)
    : result (list string) CloseReadinessError :=
  ok_or (cf_projected_required_criterion_ids context)
    (CrCore (CoreInvalidDispatch "close-readiness acceptance criteria were not acquired")).

Definition workflow_policy_for_close_context (context : CloseReadinessFacts)
    : result ProjectWorkflowPolicy CloseReadinessError :=
  ok_or (cf_workflow_policy context)
    (CrCore (CoreInvalidDispatch "close-readiness workflow policy was not acquired")).

(** Store errors reach the evaluation as Core errors. *)
Definition cr_store {A} (r : result A StoreError) : result A CloseReadinessError :=
  map_err (λ e, CrCore (CoreStore e)) r.

Section close_readiness.
Context `{HC : Chrono} `{HZ : CanonicalSize} `{HD : CaptureDigest}.
Context {S : Type} `{HS : !CloseReader S}.

(** ** [policy.rs]: the control floor *)

Definition sensitive_effect (contract : ChangeUnitEffectContract) : bool :=
  negb (list_is_empty (sensitive_action_expectations contract))
  || existsb (λ effect, contains effect [SensitiveAction; ExternalNetwork; SecretAccess])
       (allowed_effects contract).

Definition resolve_control (store : S) (context : CloseReadinessFacts)
    : result (CloseReadinessFacts * option TaskControlLevelUpdate) CloseReadinessError :=
  let? workflow_policy := workflow_policy_for_close_context context in
  let task := cf_task context in
  let current_control := tk_effective_control_level task in
  let? mark := cr_store (task_policy_control_reevaluation store task) in
  let resolved := resolve_task_control_authority task mark workflow_policy in
  let sensitive := is_some_and (cf_current_change_unit context ≫= cu_effect_contract) sensitive_effect in
  let current_acceptance := tk_acceptance_policy task in
  let next_control := if sensitive then Sensitive else rt_effective_control_level resolved in
  let control_acceptance := acceptance_policy_for_control next_control workflow_policy in
  let next_acceptance :=
    if Nat.leb (close_acceptance_policy_rank control_acceptance)
         (close_acceptance_policy_rank (rt_acceptance_policy resolved))
    then rt_acceptance_policy resolved else control_acceptance in
  let acceptance_raised :=
    Nat.ltb (close_acceptance_policy_rank current_acceptance)
      (close_acceptance_policy_rank next_acceptance) in
  let control_raised := control_lt current_control next_control in
  if negb (control_raised || acceptance_raised) then Ok (context, None)
  else
    let reason :=
      if sensitive && control_raised then
        "Core raised control to `sensitive` for the current Change Unit effect contract."
      else if control_raised then rt_control_level_reason resolved
      else tk_control_level_reason task in
    let policy_reason :=
      if negb acceptance_raised then tk_acceptance_policy_reason task
      else if (next_control =? rt_effective_control_level resolved) && rt_acceptance_raised resolved
      then rt_acceptance_policy_reason resolved
      else "Effective control `" +:+ TaskControlLevel_as_str next_control
             +:+ "` requires final acceptance for the current close basis." in
    let policy := if acceptance_raised then next_acceptance else current_acceptance in
    Ok (facts_with_task context (with_control task next_control reason policy policy_reason),
        Some {| tcu_task_id := tk_task_id task; tcu_effective_control_level := next_control;
                tcu_control_level_reason := reason;
                tcu_acceptance_policy := bool_then acceptance_raised next_acceptance;
                tcu_acceptance_policy_reason := bool_then acceptance_raised policy_reason |}).

(** ** Authority reads *)

Definition pending_user_action_authorities_for_context (store : S) (request : CloseReadinessRequest)
    (context : CloseReadinessFacts) : result (list UserActionAuthority) CloseReadinessError :=
  match cf_pending_user_action_authorities context with
  | Some authorities => Ok authorities
  | None => map_err CrUserAction
      (UserActionService.pending_user_action_authorities (user_action_table store)
         (cq_task_id request) (cf_now context))
  end.

Definition resolved_judgment_authorities_for_context (store : S) (request : CloseReadinessRequest)
    (context : CloseReadinessFacts) (judgment_kind : JudgmentKind)
    : result (list UserActionAuthority) CloseReadinessError :=
  match cf_resolved_judgment_authorities context with
  | Some authorities => Ok (List.filter (λ authority,
      ua_action_kind authority =? action_kind_of_judgment judgment_kind) authorities)
  | None => map_err CrUserAction
      (resolved_user_action_facts (user_action_table store) (cq_task_id request) judgment_kind
         (cf_now context))
  end.

Definition non_current_judgment_refs_for_plan (store : S) (state_version : N)
    (request : CloseReadinessRequest) (context : CloseReadinessFacts) (judgment_kind : JudgmentKind)
    : result (list StateRecordRef) CloseReadinessError :=
  let? refs := cr_store (non_current_user_action_refs (user_action_table store) (cq_task_id request)
                           (action_kind_of_judgment judgment_kind) state_version (cf_now context)) in
  Ok (state_ref_from_stored <$> refs).

(** ** [change_control.rs] *)

Definition task_not_closeable (project_state : ProjectStateHeader) (request : CloseReadinessRequest)
    (context : CloseReadinessFacts) : bool :=
  Lifecycle.is_terminal_lifecycle (tk_lifecycle_phase (cf_task context))
  || is_some_and (ps_active_task_id project_state)
       (λ active_task_id, active_task_id <>? cq_task_id request).

Definition recovery_required (context : CloseReadinessFacts) : bool :=
  if negb (list_is_empty (cf_blocker_refs context)) then true
  else from_option cu_recovery_required false (cf_current_change_unit context).

Definition superseding_task_blockers (store : S) (project_state : ProjectStateHeader)
    (request : CloseReadinessRequest) : result (list CloseReadinessBlocker) CloseReadinessError :=
  let? replacement :=
    match cq_superseding_task_id request with
    | Some task_id => cr_store (task_record store task_id)
    | None => Ok None
    end in
  if from_option (λ task, Lifecycle.is_terminal_lifecycle (tk_lifecycle_phase task)) true replacement
  then Ok [close_blocker BcTask "task_not_closeable"
             "superseding_task_id must identify a non-terminal Task in this project."
             (from_option (λ task_id, [state_ref KTask task_id (cq_project_id request) (Some task_id)
                                         (Some (ps_state_version project_state))]) []
                (cq_superseding_task_id request)) []]
  else Ok [].

Definition open_write_ticket_blockers_from_evaluated (task_ref : StateRecordRef) (state_version : N)
    (write_tickets : list StoredWriteTicketEvaluation) : list CloseReadinessBlocker :=
  omap (λ record,
    match record with
    | EvalReusable stored =>
        let semantic := st_ticket stored in
        Some (open_write_ticket_close_blocker task_ref
          (state_ref KWriteTicket (st_write_ticket_id stored) (sf_project_id semantic)
             (Some (vb_task_id (sf_validity_basis semantic))) (Some state_version)))
    | _ => None
    end) write_tickets.

Definition unresolved_write_ticket_blockers (store : S) (project_state : ProjectStateHeader)
    (request : CloseReadinessRequest) (now : UtcTimestamp)
    : result (list CloseReadinessBlocker) CloseReadinessError :=
  let task_ref := task_ref_for_close request (ps_state_version project_state) in
  let? write_tickets := map_err CrCore
    (load_evaluated_stored_write_tickets store (cq_task_id request) now) in
  Ok (open_write_ticket_blockers_from_evaluated task_ref (ps_state_version project_state) write_tickets).

Definition change_control_terminal_blockers (store : S) (project_state : ProjectStateHeader)
    (request : CloseReadinessRequest) (context : CloseReadinessFacts) (now : UtcTimestamp)
    : result (list CloseReadinessBlocker) CloseReadinessError :=
  let task_ref := task_ref_for_close request (ps_state_version project_state) in
  let task_blockers :=
    if task_not_closeable project_state request context
    then [close_blocker BcTask "task_not_closeable"
            "The addressed Task is not the current non-terminal Task." [task_ref]
            [close_guidance ReviewCurrentTask [task_ref]]]
    else [] in
  let? superseding :=
    if cq_intent request =? IntentSupersede
    then superseding_task_blockers store project_state request else Ok [] in
  let recovery_blockers :=
    if recovery_required context
    then [close_blocker BcRecovery "recovery_required"
            "A recovery constraint or active blocker must be resolved before this terminal transition."
            (cf_blocker_refs context)
            [close_guidance ResolveRecoveryBlockers (cf_blocker_refs context)]]
    else [] in
  let? ticket_blockers :=
    if is_completion (cq_intent request)
    then unresolved_write_ticket_blockers store project_state request now else Ok [] in
  Ok (task_blockers ++ superseding ++ recovery_blockers ++ ticket_blockers).

(** A Run reference of the close basis is not current for the Task. *)
Definition run_ref_is_incompatible (store : S) (request : CloseReadinessRequest)
    (context : CloseReadinessFacts) (current_change_unit_id : string)
    (current_baseline : option string) (record_ref : StateRecordRef)
    : result bool CloseReadinessError :=
  if (sr_project_id record_ref <>? cq_project_id request)
     || (sr_task_id record_ref <>? Some (cq_task_id request))
  then Ok true
  else if existsb (λ projected_ref, state_record_ref_identity_key projected_ref
                                      =? state_record_ref_identity_key record_ref)
            (cf_projected_run_refs context)
  then Ok false
  else
    let? record := cr_store (run_record store (sr_record_id record_ref)) in
    Ok (is_none_or record (λ record,
          negb (run_record_matches_close_basis_context record (cq_project_id request)
                  (cq_task_id request) current_change_unit_id
                  (tk_scope_revision (cf_task context)) current_baseline))).

(** A loop that collects the items a fallible test selects. *)
Fixpoint try_filter {A E} (p : A → result bool E) (items : list A) : result (list A) E :=
  match items with
  | [] => Ok []
  | item :: items =>
      let? keep := p item in
      let? rest := try_filter p items in
      Ok (if keep then item :: rest else rest)
  end.

Definition incompatible_close_basis_run_refs_blocker (store : S) (request : CloseReadinessRequest)
    (project_state : ProjectStateHeader) (context : CloseReadinessFacts) (basis : CurrentCloseBasis)
    (current_baseline : option string) : result (option CloseReadinessBlocker) CloseReadinessError :=
  match cf_current_change_unit context with
  | None => Ok None
  | Some current_change_unit =>
      let? incompatible_refs :=
        try_filter (run_ref_is_incompatible store request context
                      (cu_change_unit_id current_change_unit) current_baseline)
          (unique_state_record_refs (close_basis_run_refs basis)) in
      if list_is_empty incompatible_refs then Ok None
      else
        let task_ref := task_ref_for_close request (ps_state_version project_state) in
        Ok (Some (close_blocker BcScope "stale_current_close_basis"
          "The current close basis contains Run refs that are not current for the Task scope."
          incompatible_refs [close_guidance RecordFreshRunBasis [task_ref]]))
  end.

Definition current_close_basis_blocker (store : S) (request : CloseReadinessRequest)
    (project_state : ProjectStateHeader) (context : CloseReadinessFacts)
    : result (option CloseReadinessBlocker) CloseReadinessError :=
  let task_ref := task_ref_for_close request (ps_state_version project_state) in
  let task := cf_task context in
  let advisor := tk_mode task =? Advisor in
  match cf_current_close_basis context with
  | None =>
      Ok (Some (close_blocker BcTask "missing_current_close_basis"
        (if advisor then
           "Completion requires the current advice to be finalized by volicord.finalize_advice."
         else "Completion requires a current close basis recorded by volicord.record_run.")
        [task_ref]
        [close_guidance (if advisor then FinalizeAdvisorCloseBasis else RecordCurrentCloseBasis)
           [task_ref]]))
  | Some basis =>
      let current_baseline := st_baseline_ref (scope_from_task task) in
      if negb (close_basis_is_current basis (cq_task_id request)
                 (cu_change_unit_id <$> cf_current_change_unit context) (tk_scope_revision task)
                 (tk_close_basis_revision task) current_baseline)
      then Ok (Some (close_blocker BcScope "stale_current_close_basis"
             "The current close basis is stale against current Task scope." [task_ref]
             [close_guidance (if advisor then RefreshAdvisorCloseBasis else RecordFreshScopeBasis)
                [task_ref]]))
      else if advisor then Ok None
      else incompatible_close_basis_run_refs_blocker store request project_state context basis
             current_baseline
  end.

Definition has_active_change_unit (context : CloseReadinessFacts) : bool :=
  is_some_and (cf_current_change_unit context)
    (λ record, (cu_status record =? CUActive) && cu_is_current record).

Definition completion_scope_blockers (store : S) (project_state : ProjectStateHeader)
    (request : CloseReadinessRequest) (context : CloseReadinessFacts)
    : result (list CloseReadinessBlocker) CloseReadinessError :=
  let task_ref := task_ref_for_close request (ps_state_version project_state) in
  let? basis_blocker := current_close_basis_blocker store request project_state context in
  Ok ((if negb (has_active_change_unit context)
       then [close_blocker BcScope "missing_active_change_unit"
               "Completion requires a current active Change Unit." [task_ref]
               [close_guidance RestoreActiveChangeUnit [task_ref]]]
       else [])
      ++ option_list basis_blocker).

Definition baseline_stale_for_close (context : CloseReadinessFacts) : bool :=
  is_some_and (cf_current_close_basis context)
    (λ basis, cb_baseline_ref basis <>? st_baseline_ref (scope_from_task (cf_task context))).

Definition completion_basis_blockers (project_state : ProjectStateHeader)
    (request : CloseReadinessRequest) (context : CloseReadinessFacts) : list CloseReadinessBlocker :=
  let version := ps_state_version project_state in
  let task_ref := task_ref_for_close request version in
  (if baseline_stale_for_close context
   then [close_blocker BcBaseline "baseline_stale"
           "The current close basis is stale against the current baseline."
           (option_list (current_change_unit_ref request context version))
           [close_guidance RefreshCurrentBasis [task_ref]]]
   else [])
  ++ (if is_some_and (cf_current_close_basis context)
           (λ basis, negb (list_is_empty (cb_recovery_constraints basis)))
      then [close_blocker BcRecovery "recovery_required"
              "The current close basis records recovery constraints that must be resolved."
              [task_ref] [close_guidance ResolveRecoveryConstraints [task_ref]]]
      else []).

Definition unrecorded_change_blockers (project_state : ProjectStateHeader)
    (request : CloseReadinessRequest) (context : CloseReadinessFacts) : list CloseReadinessBlocker :=
  if list_is_empty (cf_unresolved_unrecorded_changes context) then []
  else
    let task_ref := task_ref_for_close request (ps_state_version project_state) in
    [close_blocker BcConnectionCapability "unresolved_unrecorded_changes"
       "Observed Product Repository changes still need reconciliation." [task_ref]
       [close_guidance ReconcileChanges [task_ref]]].

(** ** [acceptance.rs] *)

Definition close_operation_refs (request : CloseReadinessRequest) (project_state : ProjectStateHeader)
    (context : CloseReadinessFacts) : list StateRecordRef :=
  let version := ps_state_version project_state in
  [task_ref_for_close request version]
  ++ option_list (current_change_unit_ref request context version)
  ++ match cf_current_close_basis context with
     | Some close_basis =>
         cb_result_refs close_basis ++ option_list (cb_evidence_summary_ref close_basis)
         ++ concat (risk_source_refs <$> cb_residual_risks close_basis)
     | None => []
     end.

Definition close_sensitive_requirement (request : CloseReadinessRequest)
    (context : CloseReadinessFacts) (now : UtcTimestamp)
    (close_requirement : SensitiveActionRequirement) : Relevance.SensitiveApprovalRequirement :=
  {| Relevance.sar_task_id := cq_task_id request;
     Relevance.sar_change_unit_id := sreq_change_unit_id close_requirement;
     Relevance.sar_scope_revision := tk_scope_revision (cf_task context);
     Relevance.sar_operation := sreq_action_kind close_requirement;
     Relevance.sar_normalized_paths := sreq_normalized_paths close_requirement;
     Relevance.sar_sensitive_categories := sreq_sensitive_categories close_requirement;
     Relevance.sar_baseline_ref := sreq_baseline_ref close_requirement;
     Relevance.sar_required_for := ForCloseComplete; Relevance.sar_now := now |}.

Definition close_operation_context (operation : Relevance.UserActionOperation)
    (request : CloseReadinessRequest) (project_state : ProjectStateHeader)
    (context : CloseReadinessFacts)
    (sensitive_approval : option Relevance.SensitiveApprovalRequirement)
    : Relevance.UserActionOperationContext :=
  {| Relevance.oc_operation := operation; Relevance.oc_task_id := cq_task_id request;
     Relevance.oc_change_unit_id := cu_change_unit_id <$> cf_current_change_unit context;
     Relevance.oc_scope_revision := tk_scope_revision (cf_task context);
     Relevance.oc_close_basis := cf_current_close_basis context;
     Relevance.oc_operation_refs := close_operation_refs request project_state context;
     Relevance.oc_sensitive_approval := sensitive_approval |}.

Definition pending_sensitive_judgment_blocks_close (request : CloseReadinessRequest)
    (project_state : ProjectStateHeader) (context : CloseReadinessFacts)
    (authority : UserActionAuthority) (now : UtcTimestamp) : bool :=
  match cf_current_close_basis context with
  | None => false
  | Some close_basis =>
      existsb (λ close_requirement,
        Relevance.user_action_blocks_operation authority
          (close_operation_context Relevance.OpCloseComplete request project_state context
             (Some (close_sensitive_requirement request context now close_requirement))))
        (cb_sensitive_action_requirements close_basis)
  end.

Definition pending_authority_blocks (request : CloseReadinessRequest)
    (project_state : ProjectStateHeader) (context : CloseReadinessFacts)
    (operation : Relevance.UserActionOperation) (now : UtcTimestamp)
    (authority : UserActionAuthority) : bool :=
  if (operation =? Relevance.OpCloseComplete) && (ua_action_kind authority =? SensitiveApproval)
  then pending_sensitive_judgment_blocks_close request project_state context authority now
  else Relevance.user_action_blocks_operation authority
         (close_operation_context operation request project_state context None).

Definition pending_user_action_refs_for_close_operation (store : S)
    (project_state : ProjectStateHeader) (request : CloseReadinessRequest)
    (context : CloseReadinessFacts) (operation : Relevance.UserActionOperation) (now : UtcTimestamp)
    : result (list StateRecordRef) CloseReadinessError :=
  let? authorities := pending_user_action_authorities_for_context store request context in
  Ok ((λ authority, state_ref KUserActionRequest (ua_user_action_request_id authority)
         (cq_project_id request) (Some (cq_task_id request)) (Some (ps_state_version project_state)))
      <$> List.filter (pending_authority_blocks request project_state context operation now)
            authorities).

Definition cancellation_requirement (request : CloseReadinessRequest) (context : CloseReadinessFacts)
    : Relevance.CancellationAuthorityRequirement :=
  {| Relevance.car_task_id := cq_task_id request;
     Relevance.car_change_unit_id := cu_change_unit_id <$> cf_current_change_unit context;
     Relevance.car_scope_revision := tk_scope_revision (cf_task context) |}.

(** The basis of a cancellation judgment is the current one. *)
Definition cancellation_basis_is_current (request : CloseReadinessRequest)
    (context : CloseReadinessFacts) (authority : UserActionAuthority) : bool :=
  Relevance.user_action_has_current_basis authority
  && is_some_and (ua_basis authority) (λ basis,
       let coordinates := coordinates basis in
       (co_task_id coordinates =? cq_task_id request)
       && (co_scope_revision coordinates =? tk_scope_revision (cf_task context))
       && (co_change_unit_id coordinates =? (cu_change_unit_id <$> cf_current_change_unit context))).

Definition cancellation_is_rejected (authority : UserActionAuthority) : bool :=
  (ua_resolution_outcome authority =? Some Rejected)
  && (ua_resolved_by_actor_source authority =? Some LocalUser)
  && Relevance.verified_user_channel_provenance authority.

Definition request_ref_of (request : CloseReadinessRequest) (state_version : N)
    (authority : UserActionAuthority) : StateRecordRef :=
  state_ref KUserActionRequest (ua_user_action_request_id authority) (cq_project_id request)
    (Some (cq_task_id request)) (Some state_version).

Definition cancellation_authority_blocker (store : S) (project_state : ProjectStateHeader)
    (request : CloseReadinessRequest) (context : CloseReadinessFacts)
    : result (option CloseReadinessBlocker) CloseReadinessError :=
  let version := ps_state_version project_state in
  let? authorities := resolved_judgment_authorities_for_context store request context JCancellation in
  if existsb (λ authority, Relevance.user_action_required_for authority ForCloseCancel
                && Relevance.current_cancellation_authority authority
                     (cancellation_requirement request context)) authorities
  then Ok None
  else
    let relevant := List.filter (λ authority,
      Relevance.user_action_required_for authority ForCloseCancel) authorities in
    let stale_refs := request_ref_of request version <$>
      List.filter (λ authority, negb (cancellation_basis_is_current request context authority)) relevant in
    let rejected_refs := request_ref_of request version <$>
      List.filter (λ authority, cancellation_basis_is_current request context authority
                                && cancellation_is_rejected authority) relevant in
    let? stale_refs :=
      if list_is_empty stale_refs
      then non_current_judgment_refs_for_plan store version request context JCancellation
      else Ok stale_refs in
    let task_ref := task_ref_for_close request version in
    let '(code, message, related_refs) :=
      if negb (list_is_empty rejected_refs) then
        ("rejected_cancellation_authority",
         "The current user cancellation resolution rejected cancellation.",
         [task_ref] ++ rejected_refs)
      else if negb (list_is_empty stale_refs) then
        ("stale_cancellation_authority",
         "The available cancellation resolution is stale or incompatible with the current Task scope.",
         [task_ref] ++ stale_refs)
      else
        ("missing_cancellation_authority",
         "Cancelling the Task requires a current accepted user cancellation resolution.",
         [task_ref]) in
    Ok (Some (close_blocker BcUserAction code message related_refs
                [close_guidance RequestCancellationAuthority [task_ref]])).

Definition acceptance_terminal_blockers (store : S) (project_state : ProjectStateHeader)
    (request : CloseReadinessRequest) (context : CloseReadinessFacts) (now : UtcTimestamp)
    : result (list CloseReadinessBlocker) CloseReadinessError :=
  match cq_intent request with
  | IntentCancel =>
      let? blocker := cancellation_authority_blocker store project_state request context in
      Ok (option_list blocker)
  | IntentSupersede =>
      let? pending_refs := pending_user_action_refs_for_close_operation store project_state request
                             context Relevance.OpCloseSupersede now in
      if list_is_empty pending_refs then Ok []
      else Ok [close_blocker BcPendingUserAction "pending_user_action"
                 "A user action required before superseding this Task is still pending." pending_refs
                 [close_guidance ResolvePendingUserAction []]]
  | IntentCheck | IntentComplete => Ok []
  end.

Definition sensitive_approval_required (context : CloseReadinessFacts) : bool :=
  (tk_effective_control_level (cf_task context) =? Sensitive)
  || from_option (λ basis, negb (list_is_empty (cb_sensitive_action_requirements basis))) false
       (cf_current_close_basis context).

Definition sensitive_action_basis_missing (context : CloseReadinessFacts) : bool :=
  (tk_effective_control_level (cf_task context) =? Sensitive)
  && from_option (λ basis, list_is_empty (cb_sensitive_action_requirements basis)) true
       (cf_current_close_basis context).

Definition has_current_sensitive_approval_for_close (store : S) (request : CloseReadinessRequest)
    (context : CloseReadinessFacts) (now : UtcTimestamp) : result bool CloseReadinessError :=
  match cf_current_close_basis context with
  | None => Ok false
  | Some close_basis =>
      if list_is_empty (cb_sensitive_action_requirements close_basis) then Ok false
      else
        let? authorities :=
          resolved_judgment_authorities_for_context store request context JSensitiveApproval in
        Ok (forallb (λ close_requirement,
              (sreq_change_unit_id close_requirement =? cb_change_unit_id close_basis)
              && existsb (λ authority, Relevance.current_sensitive_approval authority
                   (close_sensitive_requirement request context now close_requirement)) authorities)
              (cb_sensitive_action_requirements close_basis))
  end.

Definition sensitive_blockers (store : S) (project_state : ProjectStateHeader)
    (request : CloseReadinessRequest) (context : CloseReadinessFacts) (now : UtcTimestamp)
    : result (list CloseReadinessBlocker) CloseReadinessError :=
  let version := ps_state_version project_state in
  let task_ref := task_ref_for_close request version in
  let change_unit_refs := option_list (current_change_unit_ref request context version) in
  if sensitive_action_basis_missing context then
    Ok [close_blocker BcSensitiveApproval "missing_sensitive_action_basis"
          "The effective sensitive Task has no ticket-backed sensitive-action basis for close."
          (change_unit_refs ++ [task_ref]) [close_guidance PrepareSensitiveAction [task_ref]]]
  else if negb (sensitive_approval_required context) then Ok []
  else
    let? approved := has_current_sensitive_approval_for_close store request context now in
    if (approved : bool) then Ok []
    else
      let? stale_refs := non_current_judgment_refs_for_plan store version request context
                           JSensitiveApproval in
      Ok [close_blocker BcSensitiveApproval "missing_sensitive_approval"
            "A documented sensitive-action approval required for close is missing."
            (change_unit_refs ++ stale_refs) [close_guidance RequestSensitiveApproval [task_ref]]].

Definition completion_authority_blockers (store : S) (project_state : ProjectStateHeader)
    (request : CloseReadinessRequest) (context : CloseReadinessFacts) (now : UtcTimestamp)
    : result (list CloseReadinessBlocker) CloseReadinessError :=
  let? pending_refs := pending_user_action_refs_for_close_operation store project_state request
                         context Relevance.OpCloseComplete now in
  let? sensitive := sensitive_blockers store project_state request context now in
  Ok ((if negb (list_is_empty pending_refs)
       then [close_blocker BcPendingUserAction "pending_user_action"
               "A user action required before close is still pending." pending_refs
               [close_guidance ResolvePendingUserAction []]]
       else [])
      ++ sensitive).

Definition risk_acceptance_coverage (store : S) (project_state : ProjectStateHeader)
    (request : CloseReadinessRequest) (context : CloseReadinessFacts)
    : result (list RiskAcceptanceCoverage) CloseReadinessError :=
  match cf_current_close_basis context with
  | None => Ok []
  | Some basis =>
      let? authorities :=
        resolved_judgment_authorities_for_context store request context JResidualRiskAcceptance in
      let coverage := current_residual_risk_acceptance_coverage (cq_project_id request)
                        (cq_task_id request) (ps_state_version project_state) basis authorities in
      let? stale_refs := non_current_judgment_refs_for_plan store (ps_state_version project_state)
                           request context JResidualRiskAcceptance in
      if list_is_empty stale_refs then Ok coverage
      else Ok ((λ item, if cov_accepted item then item
                        else {| cov_risk_id := cov_risk_id item; cov_accepted := cov_accepted item;
                                cov_accepted_by_user_action_resolution_refs :=
                                  cov_accepted_by_user_action_resolution_refs item;
                                cov_missing_reason := Some "stale_acceptance" |}) <$> coverage)
  end.

(** ** Completion without final acceptance *)

Definition consumed_ticket_of_run (run_id : string) (tickets : list StoredWriteTicketEvaluation)
    : option WriteTicketSemanticFacts :=
  head (omap (λ ticket,
    match ticket with
    | EvalConsumed stored consumed_by_run_id =>
        if consumed_by_run_id =? run_id then Some (st_ticket stored) else None
    | _ => None
    end) tickets).

(** An observed Run is covered by the light policy and its consumed ticket. *)
Definition light_run_is_covered (store : S) (request : CloseReadinessRequest)
    (context : CloseReadinessFacts) (workflow_policy : ProjectWorkflowPolicy)
    (close_basis : CurrentCloseBasis) (tickets : list StoredWriteTicketEvaluation)
    (observed : RunObservedChangesRecord) : result bool CloseReadinessError :=
  let changes := rox_observed_changes observed in
  let task := cf_task context in
  if rox_status observed <>? RunRecorded then Ok false
  else if negb (list_is_empty (oc_sensitive_categories changes)) then Ok false
  else if negb (oc_product_file_write_observed changes) then Ok true
  else if negb (light_paths_are_allowed workflow_policy (oc_changed_paths changes)) then Ok false
  else
    let? run := cr_store (run_record store (rox_run_id observed)) in
    match run with
    | None => Ok false
    | Some run =>
        if (rn_scope_revision run <>? tk_scope_revision task)
           || (rn_change_unit_id run <>? Some (cb_change_unit_id close_basis))
           || (rn_baseline_ref run <>? cb_baseline_ref close_basis)
        then Ok false
        else
          match consumed_ticket_of_run (rox_run_id observed) tickets with
          | None => Ok false
          | Some semantic =>
              let validity_basis := sf_validity_basis semantic in
              if (vb_task_id validity_basis <>? cq_task_id request)
                 || (vb_change_unit_id validity_basis <>? cb_change_unit_id close_basis)
                 || (vb_scope_revision validity_basis <>? tk_scope_revision task)
                 || (vb_baseline_ref validity_basis <>? cb_baseline_ref close_basis)
              then Ok false
              else Ok (paths_are_authorized (oc_changed_paths changes)
                         (path_str <$> allowed (sf_path_scope semantic))
                       && negb (existsb (λ path, existsb (λ d, path_is_within path (path_str d))
                                                   (denied (sf_path_scope semantic)))
                                  (oc_changed_paths changes)))
          end
    end.

Definition light_completion_without_acceptance_allowed (store : S) (request : CloseReadinessRequest)
    (context : CloseReadinessFacts) (has_evidence_blockers : bool)
    : result bool CloseReadinessError :=
  if tk_effective_control_level (cf_task context) <>? Light then Ok false
  else
    let? workflow_policy := workflow_policy_for_close_context context in
    match cf_current_close_basis context with
    | None => Ok false
    | Some close_basis =>
        if negb (light_acceptance_can_be_omitted
             {| lf_light_enabled := enabled (light workflow_policy);
                lf_final_acceptance_policy := final_acceptance (light workflow_policy);
                lf_has_pending_user_action :=
                  negb (list_is_empty (cf_pending_user_action_refs context));
                lf_has_current_close_basis := true;
                lf_has_acceptance_required_risk :=
                  existsb acceptance_required (cb_residual_risks close_basis);
                lf_has_sensitive_result :=
                  negb (list_is_empty (cb_sensitive_categories close_basis))
                  || negb (list_is_empty (cb_sensitive_action_requirements close_basis));
                lf_has_unresolved_change :=
                  negb (list_is_empty (cf_unresolved_unrecorded_changes context));
                lf_has_evidence_blocker := has_evidence_blockers;
                lf_writes_are_current_and_authorized := true |})
        then Ok false
        else
          let? tickets := map_err CrCore
            (load_evaluated_stored_write_tickets store (cq_task_id request) (cf_now context)) in
          let? observed_runs := cr_store (run_observed_changes_for_task store (cq_task_id request)) in
          all_current (light_run_is_covered store request context workflow_policy close_basis tickets)
            observed_runs
    end.

Definition final_acceptance_required (store : S) (request : CloseReadinessRequest)
    (context : CloseReadinessFacts) (has_evidence_blockers : bool)
    : result bool CloseReadinessError :=
  let task := cf_task context in
  match tk_effective_control_level task with
  | Observe => Ok (tk_mode task =? Advisor)
  | Tracked | Sensitive => Ok true
  | Light =>
      match tk_acceptance_policy task with
      | Required => Ok true
      | NotRequired | PolicyDependent =>
          let? allowed :=
            light_completion_without_acceptance_allowed store request context has_evidence_blockers in
          Ok (negb allowed)
      end
  end.

Definition final_acceptance_blocker (store : S) (project_state : ProjectStateHeader)
    (request : CloseReadinessRequest) (context : CloseReadinessFacts) (has_evidence_blockers : bool)
    : result (option CloseReadinessBlocker) CloseReadinessError :=
  let? acceptance_required :=
    final_acceptance_required store request context has_evidence_blockers in
  if negb acceptance_required then Ok None
  else
    let version := ps_state_version project_state in
    let task_ref := task_ref_for_close request version in
    let blocker code message related_refs := Some (close_blocker BcFinalAcceptance code message
      related_refs [close_guidance RequestFinalAcceptance [task_ref]]) in
    match cf_current_close_basis context with
    | None => Ok (blocker "missing_final_acceptance"
                    "Final acceptance is required before completing the Task." [task_ref])
    | Some close_basis =>
        let requirement := final_acceptance_requirement close_basis in
        let? authorities :=
          resolved_judgment_authorities_for_context store request context JFinalAcceptance in
        if existsb (λ authority, current_final_acceptance authority requirement) authorities
        then Ok None
        else
          let? stale_refs := non_current_judgment_refs_for_plan store version request context
                               JFinalAcceptance in
          if list_is_empty stale_refs
          then Ok (blocker "missing_final_acceptance"
                     "Final acceptance is required before completing the Task." [task_ref])
          else Ok (blocker "stale_final_acceptance"
             "The available final acceptance is stale or incompatible with the current close basis."
             ([task_ref] ++ stale_refs))
    end.

Record ResidualRiskState := { rk_known : bool; rk_visible : bool }.

Definition residual_risk_state (context : CloseReadinessFacts) : ResidualRiskState :=
  let known := from_option (λ basis, negb (list_is_empty (cb_residual_risks basis))) false
                 (cf_current_close_basis context) in
  {| rk_known := known; rk_visible := known |}.

Definition residual_risk_blockers (store : S) (project_state : ProjectStateHeader)
    (request : CloseReadinessRequest) (context : CloseReadinessFacts)
    (coverage : list RiskAcceptanceCoverage)
    : result (list CloseReadinessBlocker) CloseReadinessError :=
  let version := ps_state_version project_state in
  let task_ref := task_ref_for_close request version in
  let residual_risk := residual_risk_state context in
  let visibility :=
    if rk_known residual_risk && negb (rk_visible residual_risk)
    then [close_blocker BcResidualRiskVisibility "residual_risk_not_visible"
            "Residual risk exists but is not visible in the close basis." [task_ref]
            [close_guidance MakeResidualRiskVisible [task_ref]]]
    else [] in
  if rk_known residual_risk && rk_visible residual_risk
     && existsb (λ item, negb (cov_accepted item)) coverage
  then
    let? stale_refs := non_current_judgment_refs_for_plan store version request context
                         JResidualRiskAcceptance in
    let '(code, message) :=
      if list_is_empty stale_refs then
        ("missing_residual_risk_acceptance",
         "Visible residual risk requires distinct residual-risk acceptance.")
      else
        ("stale_residual_risk_acceptance",
         "The available residual-risk acceptance is stale or incompatible with the current close basis.") in
    Ok (visibility ++ [close_blocker BcResidualRiskAcceptance code message ([task_ref] ++ stale_refs)
                         [close_guidance RequestResidualRiskAcceptance [task_ref]]])
  else Ok visibility.

Definition completion_acceptance_blockers (store : S) (project_state : ProjectStateHeader)
    (request : CloseReadinessRequest) (context : CloseReadinessFacts)
    (coverage : list RiskAcceptanceCoverage) (has_evidence_blockers : bool)
    : result (list CloseReadinessBlocker) CloseReadinessError :=
  let? final := final_acceptance_blocker store project_state request context has_evidence_blockers in
  let? residual := residual_risk_blockers store project_state request context coverage in
  Ok (option_list final ++ residual).

(** ** [evidence.rs] *)

Record CloseEvidenceIssue := {
  cei_kind : CloseEvidenceIssueKind;
  cei_related_refs : list StateRecordRef;
}.

Definition evidence_observation_basis (request : CloseReadinessRequest)
    (context : CloseReadinessFacts) (basis : CurrentCloseBasis) (target : EvidenceTarget)
    : EvidenceObservationBasis :=
  {| ebs_project_id := cq_project_id request; ebs_task_id := cq_task_id request;
     ebs_change_unit_id := cb_change_unit_id basis; ebs_scope_revision := cb_scope_revision basis;
     ebs_baseline_ref := cb_baseline_ref basis; ebs_target := target; ebs_now := cf_now context |}.

Definition disposition_of_class (class : EvidenceProvenanceClass)
    : CloseEvidenceObservationDisposition :=
  match class with
  | Strong => StrongSupported
  | CooperativeAgentReport => DispCooperativeAgentReport
  | Weak => DispWeak
  end.

(** What one observation reference contributes to its item. *)
Definition observation_disposition (store : S) (request : CloseReadinessRequest)
    (context : CloseReadinessFacts) (basis : CurrentCloseBasis) (item : EvidenceCoverageItem)
    (observation_ref : StateRecordRef)
    : result CloseEvidenceObservationDisposition CloseReadinessError :=
  let evidence_state_version := cb_evidence_summary_ref basis ≫= sr_produced_at_state_version in
  let observation_basis := evidence_observation_basis request context basis (ci_target item) in
  if (sr_record_kind observation_ref <>? KEvidenceObservation)
     || (sr_project_id observation_ref <>? cq_project_id request)
     || (sr_task_id observation_ref <>? Some (cq_task_id request))
  then Ok DispWeak
  else if is_some_and evidence_state_version (λ state_version,
            sr_produced_at_state_version observation_ref <>? Some state_version)
  then Ok DispStale
  else
    match List.find (λ observation, eb_observation_id observation =? sr_record_id observation_ref)
            (cf_projected_evidence_observations context) with
    | Some observation =>
        if (eb_project_id observation <>? cq_project_id request)
           || (eb_task_id observation <>? cq_task_id request)
           || negb (projected_observation_matches_close_basis observation basis (ci_target item))
        then Ok DispStale
        else if capture_relevance_is_unsupported
                  (pn_producer_kind (eb_producer_anchor observation))
                  (eb_relevance_assessment observation)
        then Ok UnsupportedRelevance
        else
          let? facts := map_err CrCore (projected_evidence_observation_provenance_facts store
                          observation observation_basis (cf_projected_artifacts context)) in
          Ok (disposition_of_class (classify_evidence_provenance facts))
    | None =>
        let? record := cr_store (evidence_observation_record store (sr_record_id observation_ref)) in
        match record with
        | None => Ok DispWeak
        | Some record =>
            if (eor_project_id record <>? cq_project_id request)
               || (eor_task_id record <>? cq_task_id request)
               || negb (stored_observation_matches_close_basis record basis (ci_target item))
            then Ok DispStale
            else if is_some_and (stored_evidence_observation_capture_relevance record)
                      (λ status, status <>? Supported)
            then Ok UnsupportedRelevance
            else
              let? facts := map_err CrCore (stored_evidence_observation_provenance_facts store record
                              observation_basis) in
              Ok (disposition_of_class (classify_evidence_provenance facts))
        end
    end.

Definition item_issue (item : EvidenceCoverageItem) (kind : option CloseEvidenceIssueKind)
    : option CloseEvidenceIssue :=
  (λ kind, {| cei_kind := kind; cei_related_refs := evidence_item_related_refs item |}) <$> kind.

Definition close_evidence_issue_for_item (store : S) (request : CloseReadinessRequest)
    (context : CloseReadinessFacts) (item : EvidenceCoverageItem)
    : result (option CloseEvidenceIssue) CloseReadinessError :=
  match ci_target item with
  | SupplementalClaim _ _ => Ok None
  | AcceptanceCriterion acceptance_criterion_id =>
      let? required_criteria := required_criteria_for_close_context context in
      if negb (bts_mem acceptance_criterion_id required_criteria) then Ok None
      else
        match cf_current_close_basis context with
        | None => Ok (item_issue item (interpret_close_evidence_item item required_criteria false []))
        | Some basis =>
            if (ci_coverage_state item <>? CovSupported) || list_is_empty (ci_observation_refs item)
            then Ok (item_issue item (interpret_close_evidence_item item required_criteria true []))
            else
              let? dispositions := try_map (observation_disposition store request context basis item)
                                     (ci_observation_refs item) in
              Ok (item_issue item
                    (interpret_close_evidence_item item required_criteria true dispositions))
        end
  end.

Definition issue_kinds : list CloseEvidenceIssueKind :=
  [IssueMissing; IssueUnsupported; IssueStale; IssueAgentReportOnly; IssueInsufficientProvenance].

Definition issue_category (kind : CloseEvidenceIssueKind) : CloseReadinessBlockerCategory :=
  match kind with
  | IssueMissing | IssueUnsupported => BcEvidenceClaim
  | IssueStale | IssueAgentReportOnly | IssueInsufficientProvenance => BcEvidenceProvenance
  end.

Definition issue_text (kind : CloseEvidenceIssueKind) : string * string :=
  match kind with
  | IssueMissing =>
      ("evidence_claim_missing", "One or more required close evidence claims are missing.")
  | IssueUnsupported =>
      ("evidence_claim_unsupported", "One or more required close evidence claims are unsupported.")
  | IssueStale =>
      ("evidence_provenance_stale",
       "Evidence provenance exists but is stale against the current close basis.")
  | IssueAgentReportOnly =>
      ("evidence_agent_report_only",
       "Required close evidence is supported only by cooperative agent reports.")
  | IssueInsufficientProvenance =>
      ("evidence_provenance_insufficient",
       "Required close evidence lacks sufficient source provenance.")
  end.

(** One blocker for each kind of issue that occurs, in the fixed order. *)
Definition blocker_of_issues (context : CloseReadinessFacts) (required_refs : list StateRecordRef)
    (issues : list CloseEvidenceIssue) (kind : CloseEvidenceIssueKind)
    : option CloseReadinessBlocker :=
  let of_kind := List.filter (λ issue, cei_kind issue =? kind) issues in
  if list_is_empty of_kind then None
  else
    let '(code, message) := issue_text kind in
    Some (close_blocker (issue_category kind) code message
      (unique_state_record_refs (concat (cei_related_refs <$> of_kind)))
      [close_guidance (if tk_mode (cf_task context) =? Advisor then RecordAdvisorEvidence
                       else RecordRequiredEvidence) required_refs]).

Definition close_evidence_blockers (store : S) (request : CloseReadinessRequest)
    (context : CloseReadinessFacts) (change_unit_ref : option StateRecordRef)
    : result (list CloseReadinessBlocker) CloseReadinessError :=
  match cf_evidence_summary context with
  | None => Ok []
  | Some summary =>
      let? issues := try_map (close_evidence_issue_for_item store request context)
                       (es_coverage_items summary) in
      Ok (omap (blocker_of_issues context (option_list change_unit_ref) (omap id issues)) issue_kinds)
  end.

(** An artifact that supports a required item is not usable for close. *)
Definition evidence_artifact_unavailable (store : S) (request : CloseReadinessRequest)
    (context : CloseReadinessFacts) (artifact_ref : ArtifactRef) : result bool CloseReadinessError :=
  if ar_availability artifact_ref <>? AAvailable then Ok true
  else if existsb (λ projected, (projected =? artifact_ref)
                                && (ar_integrity_status projected =? AIVerified))
            (cf_projected_artifacts context)
  then Ok false
  else
    let? stored := cr_store (artifact_record store (ar_artifact_id artifact_ref)) in
    match stored with
    | None => Ok true
    | Some stored =>
        let? owner_link_exists := cr_store
          (artifact_has_task_owner_link store (ar_artifact_id artifact_ref) (cq_task_id request)) in
        let? stored_available := cr_store (persistent_artifact_is_verified_current store stored) in
        Ok ((sa_project_id stored <>? cq_project_id request)
            || (sa_task_id stored <>? cq_task_id request)
            || negb stored_available
            || (ar_integrity_status artifact_ref <>? AIVerified)
            || (sa_sha256 stored <>? ar_sha256 artifact_ref)
            || (sa_size_bytes stored <>? ar_size_bytes artifact_ref)
            || (sa_redaction_state stored <>? ar_redaction_state artifact_ref)
            || negb owner_link_exists)
    end.

Definition close_basis_artifact_ref_unavailable (store : S) (request : CloseReadinessRequest)
    (context : CloseReadinessFacts) (record_ref : StateRecordRef)
    : result bool CloseReadinessError :=
  match List.find (λ artifact_ref, ar_artifact_id artifact_ref =? sr_record_id record_ref)
          (cf_projected_artifacts context) with
  | Some artifact_ref =>
      Ok ((sr_project_id record_ref <>? cq_project_id request)
          || (sr_task_id record_ref <>? Some (cq_task_id request))
          || (ar_project_id artifact_ref <>? cq_project_id request)
          || (ar_task_id artifact_ref <>? cq_task_id request)
          || (ar_availability artifact_ref <>? AAvailable)
          || (ar_integrity_status artifact_ref <>? AIVerified))
  | None =>
      let? stored := cr_store (artifact_record store (sr_record_id record_ref)) in
      let? owner_link_exists := cr_store
        (artifact_has_task_owner_link store (sr_record_id record_ref) (cq_task_id request)) in
      match stored with
      | None => Ok true
      | Some record =>
          let? available := cr_store (persistent_artifact_is_verified_current store record) in
          Ok ((sa_project_id record <>? cq_project_id request)
              || (sa_task_id record <>? cq_task_id request)
              || negb available || negb owner_link_exists)
      end
  end.

(** The artifacts close relies on: those of required items, then those the basis
    names. *)
Definition close_artifacts (request : CloseReadinessRequest) (state_version : N)
    (context : CloseReadinessFacts) (required_criteria : list string)
    : list (StateRecordRef * option ArtifactRef) :=
  ((λ artifact_ref,
      (state_ref KArtifact (ar_artifact_id artifact_ref) (cq_project_id request)
         (Some (cq_task_id request)) (Some state_version), Some artifact_ref))
   <$> concat (ci_supporting_artifact_refs <$>
         List.filter (λ item, evidence_target_required_by (ci_target item) required_criteria)
           (from_option es_coverage_items [] (cf_evidence_summary context))))
  ++ match cf_current_close_basis context with
     | Some basis =>
         (λ record_ref, (record_ref, None)) <$>
         List.filter (λ record_ref, sr_record_kind record_ref =? KArtifact)
           (cb_result_refs basis ++ concat (risk_source_refs <$> cb_residual_risks basis))
     | None => []
     end.

Definition close_artifact_unavailable (store : S) (request : CloseReadinessRequest)
    (context : CloseReadinessFacts) (artifact : StateRecordRef * option ArtifactRef)
    : result bool CloseReadinessError :=
  match artifact.2 with
  | Some artifact_ref => evidence_artifact_unavailable store request context artifact_ref
  | None => close_basis_artifact_ref_unavailable store request context artifact.1
  end.

Definition unavailable_close_artifact_refs (store : S) (project_state : ProjectStateHeader)
    (request : CloseReadinessRequest) (context : CloseReadinessFacts)
    : result (list StateRecordRef) CloseReadinessError :=
  let? required_criteria := required_criteria_for_close_context context in
  let? unavailable :=
    try_filter (close_artifact_unavailable store request context)
      (unique_by (λ artifact, state_record_ref_identity_key artifact.1) []
         (close_artifacts request (ps_state_version project_state) context required_criteria)) in
  Ok (fst <$> unavailable).

Definition evidence_completion_blockers (store : S) (project_state : ProjectStateHeader)
    (request : CloseReadinessRequest) (context : CloseReadinessFacts)
    : result (list CloseReadinessBlocker) CloseReadinessError :=
  let version := ps_state_version project_state in
  let? blockers := close_evidence_blockers store request context
                     (current_change_unit_ref request context version) in
  let? unavailable_artifacts := unavailable_close_artifact_refs store project_state request context in
  Ok (blockers
      ++ (if negb (list_is_empty unavailable_artifacts)
          then [close_blocker BcArtifactAvailability "artifact_unavailable"
                  "A required close artifact is missing, unavailable, or incompatible with storage."
                  unavailable_artifacts
                  [close_guidance (if tk_mode (cf_task context) =? Advisor then RecordAdvisorEvidence
                                   else RepairArtifact) [task_ref_for_close request version]]]
          else [])).

(** ** [policy.rs]: combination *)

(** The blockers in their stable order. *)
Definition combined_blockers (intent : CloseIntent) (evaluations : CloseReadinessEvaluations)
    : list CloseReadinessBlocker :=
  cev_terminal_change_control evaluations ++ cev_terminal_acceptance evaluations
  ++ (if is_completion intent
      then cev_completion_scope evaluations ++ cev_completion_authority evaluations
           ++ cev_completion_basis evaluations ++ cev_completion_evidence evaluations
           ++ cev_completion_acceptance evaluations
      else [])
  ++ cev_unrecorded_changes evaluations.

Definition combine (intent : CloseIntent) (current_state_version : N) (context : CloseReadinessFacts)
    (control_update : option TaskControlLevelUpdate) (evaluations : CloseReadinessEvaluations)
    : result CloseReadinessAssessment CloseReadinessError :=
  let blockers :=
    normalize_close_blockers (combined_blockers intent evaluations) current_state_version in
  let committed_terminal := (intent <>? IntentCheck) && list_is_empty blockers in
  let evidence_summary :=
    (λ summary, evidence_summary_for_display summary (cf_current_close_basis context))
    <$> cf_evidence_summary context in
  let? acceptance_criteria := ok_or (cf_acceptance_criteria context)
    (CrCore (CoreInvalidDispatch "close-readiness acceptance criteria were not acquired")) in
  Ok {| cas_context := context; cas_control_update := control_update;
        cas_risk_acceptance_coverage := cev_risk_acceptance_coverage evaluations;
        cas_blockers := blockers; cas_committed_terminal := committed_terminal;
        cas_response_state_version :=
          if committed_terminal then (current_state_version + 1)%N else current_state_version;
        cas_close_state := close_state_for_policy intent (list_is_empty blockers);
        cas_evidence_gate := evaluate_evidence_gate acceptance_criteria evidence_summary blockers |}.

(** ** [service.rs] *)

Definition evaluate_close_readiness_with_facts (store : S) (project_state : ProjectStateHeader)
    (request : CloseReadinessRequest) (now : UtcTimestamp) (facts : CloseReadinessFacts)
    : result CloseReadinessAssessment CloseReadinessError :=
  let? control := resolve_control store facts in
  let '(facts, control_update) := control in
  let? coverage := risk_acceptance_coverage store project_state request facts in
  let? terminal_change_control :=
    change_control_terminal_blockers store project_state request facts now in
  let? terminal_acceptance := acceptance_terminal_blockers store project_state request facts now in
  let completion := is_completion (cq_intent request) in
  let? scope :=
    if completion then completion_scope_blockers store project_state request facts else Ok [] in
  let? authority :=
    if completion then completion_authority_blockers store project_state request facts now
    else Ok [] in
  let basis := if completion then completion_basis_blockers project_state request facts else [] in
  let? evidence :=
    if completion then evidence_completion_blockers store project_state request facts else Ok [] in
  let? acceptance :=
    if completion then completion_acceptance_blockers store project_state request facts coverage
                         (negb (list_is_empty evidence))
    else Ok [] in
  combine (cq_intent request) (ps_state_version project_state) facts control_update
    {| cev_risk_acceptance_coverage := coverage;
       cev_terminal_change_control := terminal_change_control;
       cev_terminal_acceptance := terminal_acceptance; cev_completion_scope := scope;
       cev_completion_authority := authority; cev_completion_basis := basis;
       cev_completion_evidence := evidence; cev_completion_acceptance := acceptance;
       cev_unrecorded_changes := unrecorded_change_blockers project_state request facts |}.

(** [acquire_close_readiness_facts]. *)
Definition acquire_close_readiness_facts (store : S) (project_state : ProjectStateHeader)
    (project_id : ProjectId) (task_id : TaskId) (now : UtcTimestamp)
    : result CloseReadinessFacts CloseReadinessError :=
  let version := ps_state_version project_state in
  let? task := cr_store (task_record store task_id) in
  let? task := ok_or task NoActiveTask in
  let? change_unit := cr_store (current_change_unit store task_id) in
  let? task_revision := cr_store (close_task_revision_record store task_id) in
  let? task_revision := ok_or task_revision NoActiveTask in
  let close_basis := tv_current_close_basis task_revision in
  let? pending_refs := cr_store
    (pending_user_action_refs (user_action_table store) task_id version now) in
  let? blocker_refs := cr_store (active_blocker_refs store task_id version) in
  let? evidence_record :=
    match close_basis ≫= cb_evidence_summary_ref with
    | Some evidence_ref => cr_store (evidence_summary_record store (sr_record_id evidence_ref))
    | None => Ok None
    end in
  let? criteria := cr_store (active_acceptance_criteria store task_id) in
  let? evidence_facts := map_err CrCore
    (load_close_evidence_summary_facts store evidence_record task project_id task_id version) in
  let evidence_summary :=
    project_close_evidence_summary evidence_facts (required_acceptance_criterion_ids criteria) in
  let? unresolved := cr_store (unresolved_unrecorded_changes store) in
  let? policy := cr_store (project_workflow_policy store) in
  Ok (facts_with_store_reads
        (facts_with_projected_acceptance_criteria
           (facts_from_projection task change_unit close_basis (state_ref_from_stored <$> pending_refs)
              (state_ref_from_stored <$> blocker_refs) evidence_summary now) criteria)
        unresolved (Some policy)).

(** [acquire_projected_store_facts]: only what the projection left out. *)
Definition acquire_projected_store_facts (store : S) (task_id : TaskId) (facts : CloseReadinessFacts)
    : result CloseReadinessFacts CloseReadinessError :=
  let? unresolved := cr_store (unresolved_unrecorded_changes store) in
  let? facts :=
    match cf_acceptance_criteria facts with
    | Some _ => Ok facts
    | None =>
        let? criteria := cr_store (active_acceptance_criteria store task_id) in
        Ok (facts_with_projected_acceptance_criteria facts criteria)
    end in
  let? policy :=
    match cf_workflow_policy facts with
    | Some policy => Ok policy
    | None => cr_store (project_workflow_policy store)
    end in
  Ok (facts_with_store_reads facts unresolved (Some policy)).

Definition assess_close_readiness (store : S) (project_state : ProjectStateHeader)
    (request : CloseReadinessRequest) (now : UtcTimestamp)
    : result CloseReadinessAssessment CloseReadinessError :=
  let? facts := acquire_close_readiness_facts store project_state (cq_project_id request)
                  (cq_task_id request) now in
  evaluate_close_readiness_with_facts store project_state request now facts.

Definition plan_close_readiness (store : S) (project_state : ProjectStateHeader)
    (request : CloseReadinessRequest) (now : UtcTimestamp)
    : result CloseReadinessSummary CloseReadinessError :=
  let? assessment := assess_close_readiness store project_state request now in
  Ok (summary_of_assessment assessment).

Definition plan_projected_close_readiness (store : S) (project_state : ProjectStateHeader)
    (project_id : ProjectId) (task_id : TaskId) (facts : CloseReadinessFacts)
    : result CloseReadinessSummary CloseReadinessError :=
  let? facts := acquire_projected_store_facts store task_id facts in
  let? assessment := evaluate_close_readiness_with_facts store project_state
                       (check_request project_id task_id) (cf_now facts) facts in
  Ok (summary_of_assessment assessment).
End close_readiness.
