(* ===== verification/CloseSample.v ===== *)
(** * CloseSample: a concrete project for the close-readiness theorems

    A store with one Task, its close basis, one required criterion, a Run, an
    artifact, an evidence observation the user resolved and a final acceptance; it
    implements the reader interfaces, so that the theorems evaluate on it. *)

From stdpp Require Import gmap strings.
From S2P Require Import Prelude Text ProductPath Values Canonical Schema UserAction Workflow.
From S2P Require Import Clock TicketStore Ticket Commit UserActionShape UserActionStore Artifact.
From S2P Require Import UserActionService Evidence Capture Admission Planning EvidenceFacts.
From S2P Require Import ClosePolicy CloseReadiness.

(** ** The store *)

Record CloseStore `{Chrono} := {
  cst_snapshot : ProjectSnapshot;
  cst_change_unit : option ChangeUnitRecord;
  cst_revision : option TaskRevisionRecord;
  cst_actions : UserActionTable;
  cst_capture : CaptureTable;
  cst_runs : gmap string RunRecord;
  cst_observations : list EvidenceObservationRecord;
  cst_artifacts : gmap string StoredArtifactRecord;
  cst_summaries : gmap string EvidenceSummaryRecord;
  cst_criteria : list AcceptanceCriterionView;
  cst_run_changes : list RunObservedChangesRecord;
}.

#[export] Instance close_store_tickets `{Chrono} : TicketReader CloseStore := {
  write_tickets_of s := write_tickets_of (cst_snapshot s);
  write_ticket_of s := write_ticket_of (cst_snapshot s);
  task_record s := task_record (cst_snapshot s);
  task_policy_control_reevaluation s := task_policy_control_reevaluation (cst_snapshot s);
  project_workflow_policy s := project_workflow_policy (cst_snapshot s);
  sensitive_approval_authorities s := sensitive_approval_authorities (cst_snapshot s);
  write_tickets_of_valid s := write_tickets_of_valid (cst_snapshot s);
  write_ticket_of_valid s := write_ticket_of_valid (cst_snapshot s);
}.

(** Every artifact body verifies and is linked to its Task. *)
#[export] Instance close_store_artifacts `{Chrono} : ArtifactReader CloseStore := {
  artifact_record s id := Ok (cst_artifacts s !! id);
  artifact_has_task_owner_link s id task_id := Ok (is_some (cst_artifacts s !! id));
  artifact_has_owner_link s id task_id kind owner_id := Ok (is_some (cst_artifacts s !! id));
  verify_persistent_artifact_body s record := Ok VerifiedCurrent;
}.

(** The observation rows by their own id. *)
Definition observation_map (records : list EvidenceObservationRecord)
    : gmap string (result EvidenceObservationRecord StoreError) :=
  foldr (λ record rows, <[eor_evidence_observation_id record := Ok record]> rows) ∅ records.

Lemma observation_map_keyed records id record :
  observation_map records !! id = Some (Ok record) → eor_evidence_observation_id record = id.
Proof.
  induction records as [|first records IH]; simpl; [by rewrite lookup_empty|].
  rewrite lookup_insert_Some. intros [[<- [= ->]]|[_ Hl]]; [done|by apply IH].
Qed.

#[export] Instance close_store_evidence `{Chrono} : EvidenceReader CloseStore := {
  user_action_table := cst_actions;
  capture_table := cst_capture;
  run_record s id := Ok (cst_runs s !! id);
  observation_rows s := observation_map (cst_observations s);
  evidence_producer_record s id := Ok None;
  observation_rows_keyed s := observation_map_keyed (cst_observations s);
}.

#[export] Instance close_store_reader `{Chrono} : CloseReader CloseStore := {
  current_change_unit s task_id := Ok (option_filter (λ u, cu_task_id u =? task_id) (cst_change_unit s));
  close_task_revision_record s task_id := Ok (cst_revision s);
  active_blocker_refs s task_id version := Ok [];
  evidence_summary_record s id := Ok (cst_summaries s !! id);
  active_acceptance_criteria s task_id := Ok (cst_criteria s);
  unresolved_unrecorded_changes s := Ok [];
  run_observed_changes_for_task s task_id := Ok (cst_run_changes s);
}.

(** ** The project *)

#[local] Existing Instance decimal_chrono.

#[export] Instance sample_size : CanonicalSize := {
  draft_size _ := Some 100%N; body_size _ := Some 100%N; form_size _ := Some 100%N;
  input_size _ := Some 100%N; resolution_size _ := Some 100%N;
}.

Definition close_sha : string := "bbbbbbbbbbbbbbbbbbbbbbbbbbbbbbbbbbbbbbbbbbbbbbbbbbbbbbbbbbbbbbbb".

#[export] Instance close_digest : CaptureDigest := {
  json_text _ := "{}"; sha256_hex _ := close_sha; sha256_hex_canonical _ := eq_refl;
}.

Definition close_stored_artifact : StoredArtifactRecord :=
  {| sa_project_id := "p"; sa_artifact_id := "art1"; sa_task_id := "t1"; sa_uri := "tmp/report.txt";
     sa_sha256 := Some close_sha; sa_size_bytes := Some 12%N; sa_content_type := Some "text/plain";
     sa_integrity_status := AIVerified; sa_redaction_state := RedNone; sa_status := PSAvailable;
     sa_producer_display_name := Some "report"; sa_producer_created_by_actor_source := LocalUser;
     sa_provenance_producer_run_id := "run1" |}.

Definition close_artifact : ArtifactRef :=
  {| ar_artifact_id := "art1"; ar_project_id := "p"; ar_task_id := "t1"; ar_display_name := "report";
     ar_content_type := Some "text/plain"; ar_sha256 := Some close_sha; ar_size_bytes := Some 12%N;
     ar_integrity_status := AIVerified; ar_redaction_state := RedNone; ar_availability := AAvailable;
     ar_created_by_run_ref := Some (state_ref KRun "run1" "p" (Some "t1") None);
     ar_created_by_actor_source := Some LocalUser; ar_storage_ref := Some "tmp/report.txt" |}.

Definition close_coordinates : UserActionBasisCoordinates :=
  {| co_task_id := "t1"; co_change_unit_id := Some "cu1"; co_scope_revision := 1;
     co_baseline_ref := Some "base"; co_created_at_state_version := 2;
     co_compatibility_status := BasisCurrent |}.

(** The observation request of the criterion, and its resolution. *)
Definition close_observation_insert : UserActionRequestInsert :=
  {| rq_user_action_request_id := "req1"; rq_task_id := "t1"; rq_change_unit_id := Some "cu1";
     rq_action_kind := Values.EvidenceObservation;
     rq_request := {| pr_body := BodyEvidenceObservation
                        {| er_question := "Does it work?"; er_context_summary := "the report";
                           er_target_candidates := [AcceptanceCriterion "ac1"];
                           er_artifact_candidates := [close_artifact] |};
                      pr_required_for := [ForCloseComplete];
                      pr_expires_at := Some (100 + minutes 15)%Z |};
     rq_basis := BasisEvidenceObservation
       {| eo_coordinates := close_coordinates; eo_target_candidates := [AcceptanceCriterion "ac1"];
          eo_artifact_candidates := [close_artifact] |};
     rq_basis_status := BasisCurrent; rq_required_for := [ForCloseComplete];
     rq_requested_by_actor_source := LocalUser; rq_source_method := MRequestUserAction;
     rq_source_idempotency_key := "k1"; rq_requested_at := 100%Z;
     rq_expires_at := Some (100 + minutes 15)%Z; rq_metadata := MetaDirectRequest |}.

Definition close_observation_resolution (status : EvidenceRelevanceStatus)
    : UserActionResolutionInsert :=
  {| rs_user_action_resolution_id := "res1"; rs_user_action_request_id := "req1";
     rs_action_kind := Values.EvidenceObservation; rs_channel_kind := Cli;
     rs_channel_submission_id := "sub1";
     rs_resolution := ResolutionEvidenceObservation
       {| ob_target := AcceptanceCriterion "ac1"; ob_relevance_status := status;
          ob_output_artifact_refs := [close_artifact]; ob_summary := "looked at it" |};
     rs_resolved_by_actor_source := LocalUser; rs_resolved_verification_basis := CliDirectUserChannel;
     rs_resolved_assurance_level := "local_user_channel"; rs_resolved_at := 200%Z |}.

(** The final-acceptance request, and its resolution. *)
Definition close_acceptance_insert : UserActionRequestInsert :=
  {| rq_user_action_request_id := "req2"; rq_task_id := "t1"; rq_change_unit_id := Some "cu1";
     rq_action_kind := FinalAcceptance;
     rq_request := {| pr_body := BodyChoice
                        {| cr_judgment_kind := JFinalAcceptance; cr_presentation := Short; cr_question := "Accept the result?";
                           cr_options := canonical_choice_options JFinalAcceptance [] None;
                           cr_context :=
                             {| uctx_summary := "done"; uctx_related_refs := [];
                                uctx_artifact_refs := []; uctx_visible_risks := [];
                                uctx_constraints := [] |};
                           cr_affected_refs := []; cr_sensitive_action_scope := None |};
                      pr_required_for := [ForCloseComplete]; pr_expires_at := None |};
     rq_basis := BasisChoice
       {| ch_coordinates := close_coordinates; ch_close_basis_revision := Some 1%N;
          ch_result_refs := [state_ref KRun "run1" "p" (Some "t1") (Some 3%N)];
          ch_residual_risk_ids := []; ch_sensitive_action_scope := None |};
     rq_basis_status := BasisCurrent; rq_required_for := [ForCloseComplete];
     rq_requested_by_actor_source := LocalUser; rq_source_method := MRequestUserAction;
     rq_source_idempotency_key := "k2"; rq_requested_at := 210%Z; rq_expires_at := None;
     rq_metadata := MetaDirectRequest |}.

Definition close_acceptance_resolution : UserActionResolutionInsert :=
  {| rs_user_action_resolution_id := "res2"; rs_user_action_request_id := "req2";
     rs_action_kind := FinalAcceptance; rs_channel_kind := Cli; rs_channel_submission_id := "sub2";
     rs_resolution := ResolutionChoice (authority_option_id Accept) Accept Accepted
                        None [];
     rs_resolved_by_actor_source := LocalUser; rs_resolved_verification_basis := CliDirectUserChannel;
     rs_resolved_assurance_level := "local_user_channel"; rs_resolved_at := 220%Z |}.

(** The table the four mutations leave. *)
Definition close_actions (status : EvidenceRelevanceStatus) : result UserActionTable StoreError :=
  let? s := apply_user_action_mutation {| ut_project_id := "p"; ut_requests := ∅; ut_resolutions := ∅ |}
              (InsertRequest close_observation_insert) in
  let? s := apply_user_action_mutation s (InsertResolution (close_observation_resolution status)) in
  let? s := apply_user_action_mutation s (InsertRequest close_acceptance_insert) in
  apply_user_action_mutation s (InsertResolution close_acceptance_resolution).

Definition close_resolution_ref : StateRecordRef :=
  state_ref KUserActionResolution "res1" "p" (Some "t1") (Some 2%N).

Definition close_observation (status : EvidenceRelevanceStatus) : EvidenceObservationRecord :=
  {| eor_project_id := "p"; eor_evidence_observation_id := "obs1"; eor_task_id := "t1";
     eor_change_unit_id := Some "cu1"; eor_run_id := Some "run1";
     eor_acceptance_criterion_id := Some "ac1"; eor_evidence_claim_id := None;
     eor_source_kind := UserObservation; eor_assurance_level := UserObserved;
     eor_observed_by_actor_source := Some LocalUser; eor_tool_name := None;
     eor_tool_invocation_id := None; eor_tool_metadata := [];
     eor_input_refs := [close_resolution_ref]; eor_source_refs := [];
     eor_output_artifact_refs := [close_artifact]; eor_limitations := [];
     eor_observed_at := 200%Z; eor_recorded_at := 205%Z;
     eor_metadata :=
       {| pa_recorded_by_run_id := "run1"; pa_invocation_verification_basis := "agent_connection";
          pa_producer_anchor :=
            {| pn_producer_kind := UserChannelObservation; pn_producer_ref := Some close_resolution_ref;
               pn_output_artifact_refs := [close_artifact];
               pn_verification_basis := Some "cli_direct_user_channel" |};
          pa_relevance_assessment :=
            {| as_status := status; as_assessment_ref := Some close_resolution_ref;
               as_assessed_by_actor_source := Some LocalUser |} |} |}.

Definition close_item : EvidenceCoverageItem :=
  {| ci_target := AcceptanceCriterion "ac1"; ci_coverage_state := CovSupported;
     ci_supporting_run_refs := [];
     ci_observation_refs := [state_ref KEvidenceObservation "obs1" "p" (Some "t1") (Some 3%N)];
     ci_supporting_artifact_refs := [close_artifact]; ci_gap_refs := [] |}.

Definition close_basis : CurrentCloseBasis :=
  {| cb_close_basis_revision := 1; cb_scope_revision := 1; cb_task_id := "t1";
     cb_change_unit_id := "cu1"; cb_baseline_ref := Some "base"; cb_result_summary := "done";
     cb_result_refs := [state_ref KRun "run1" "p" (Some "t1") (Some 3%N)]; cb_evidence_refs := [];
     cb_evidence_summary_ref := Some (state_ref KEvidenceSummary "ev1" "p" (Some "t1") (Some 3%N));
     cb_residual_risks := [{| risk_id := "risk1"; risk_summary := "slow start";
                              risk_consequence := "the first call takes a second";
                              acceptance_required := false; risk_source_refs := [] |}];
     cb_sensitive_categories := []; cb_sensitive_action_requirements := [];
     cb_recovery_constraints := [];
     cb_source_run_ref := Some (state_ref KRun "run1" "p" (Some "t1") (Some 3%N));
     cb_shaping_checkpoint_ref := None; cb_shaping_decision_application_refs := [];
     cb_updated_at := 206%Z |}.

Definition close_criterion : AcceptanceCriterionView :=
  {| av_acceptance_criterion_id := "ac1"; av_statement := "it works";
     av_evidence_requirement := EvRequired |}.

(** The project whose user observed the criterion with relevance [status]. *)
Definition close_store (status : EvidenceRelevanceStatus) : CloseStore :=
  {| cst_snapshot :=
       {| snap_tickets := {| tt_project_id := "p"; tt_write_authority_fingerprint := sample_fingerprint;
                             tt_owners := sample_owners; tt_rows := ∅ |};
          snap_tasks := {["t1" := sample_task]}; snap_mark := λ _, None; snap_policy := sample_policy;
          snap_approvals := [] |};
     cst_change_unit := Some sample_change_unit;
     cst_revision := Some {| tv_project_id := "p"; tv_task_id := "t1"; tv_scope_revision := 1;
                             tv_close_basis_revision := 1;
                             tv_current_close_basis := Some close_basis |};
     cst_actions := match close_actions status with
                    | Ok actions => actions
                    | Err _ => {| ut_project_id := "p"; ut_requests := ∅; ut_resolutions := ∅ |}
                    end;
     cst_capture :=
       {| ct_project_id := "p"; ct_clock := {| updated_at := 90; last_clock_sample := None |};
          ct_tasks := ∅; ct_change_units := ∅; ct_intents := ∅; ct_receipts := ∅; ct_claims := ∅;
          ct_staging := ∅; ct_files := ∅ |};
     cst_runs := {["run1" := {| rn_project_id := "p"; rn_run_id := "run1"; rn_task_id := "t1";
                                rn_change_unit_id := Some "cu1"; rn_scope_revision := 1;
                                rn_baseline_ref := Some "base"; rn_status := RunRecorded |}]};
     cst_observations := [close_observation status];
     cst_artifacts := {["art1" := close_stored_artifact]};
     cst_summaries := {["ev1" := {| esr_change_unit_id := Some "cu1"; esr_coverage := [close_item];
                                    esr_updated_by_run_id := "run1" |}]};
     cst_criteria := [close_criterion]; cst_run_changes := [] |}.

Definition close_project : ProjectStateHeader :=
  {| ps_project_id := "p"; ps_state_version := 5; ps_active_task_id := Some "t1" |}.

Definition close_request (intent : CloseIntent) : CloseReadinessRequest :=
  {| cq_project_id := "p"; cq_task_id := "t1"; cq_intent := intent;
     cq_superseding_task_id := None |}.

Definition close_result (status : EvidenceRelevanceStatus) (intent : CloseIntent)
    : result CloseReadinessAssessment CloseReadinessError :=
  assess_close_readiness (close_store status) close_project (close_request intent) 230.
