(* ===== verification/CloseReadinessSound.v ===== *)
(** * CloseReadinessSound: what it takes to close a Task

    A declarative specification of completion, cancellation and supersession, and
    the theorems that the evaluation of [CloseReadiness] reports no blocker exactly
    when it holds.  The composition with the evidence and user-action components
    shows that a Task closes only on evidence the local user vouched for. *)

From stdpp Require Import gmap strings.
From S2P Require Import Prelude Text ProductPath Values Canonical Schema UserAction Workflow.
From S2P Require Import Clock TicketStore Ticket Commit UserActionShape UserActionStore Artifact.
From S2P Require Import UserActionService Evidence Capture Admission Planning EvidenceFacts.
From S2P Require Import EvidenceFactsSound ClosePolicy CloseReadiness CloseSample.

#[local] Existing Instance Relevance.UserActionOperation_eq_dec.

(** Two results of one read are the same. *)
Ltac same H H' := rewrite H in H'; simplify_eq.

(** ** Lists of blockers *)

Lemma if_blocker_nil {A} (b : bool) (x : A) : (if b then [x] else []) = [] ↔ b = false.
Proof. by destruct b. Qed.

Lemma if_no_blocker_nil {A} (b : bool) (x : A) : (if b then [] else [x]) = [] ↔ b = true.
Proof. by destruct b. Qed.

Lemma option_list_nil {A} (o : option A) : option_list o = [] ↔ o = None.
Proof. by destruct o. Qed.

Lemma app_nil_iff {A} (l l' : list A) : l ++ l' = [] ↔ l = [] ∧ l' = [].
Proof. split; [apply app_eq_nil|by intros [-> ->]]. Qed.

Lemma fmap_nil_iff {A B} (f : A → B) (l : list A) : f <$> l = [] ↔ l = [].
Proof. by destruct l. Qed.

Lemma filter_nil {A} (p : A → bool) l : List.filter p l = [] ↔ ∀ x, x ∈ l → p x = false.
Proof.
  induction l as [|x l IH]; simpl; [split; [intros _ y Hy%elem_of_nil|]; done|].
  destruct (p x) eqn:Hp.
  - split; [done|]. intros Hall. rewrite (Hall x) in Hp; [done|constructor].
  - rewrite IH. split.
    + intros Hall y [->|Hy]%elem_of_cons; [done|by apply Hall].
    + intros Hall y Hy. apply Hall. by constructor.
Qed.

Lemma omap_nil {A B} (f : A → option B) l : omap f l = [] ↔ ∀ x, x ∈ l → f x = None.
Proof.
  induction l as [|x l IH]; simpl; [split; [intros _ y Hy%elem_of_nil|]; done|].
  destruct (f x) eqn:Hf.
  - split; [done|]. intros Hall. rewrite (Hall x) in Hf; [done|constructor].
  - rewrite IH. split.
    + intros Hall y [->|Hy]%elem_of_cons; [done|by apply Hall].
    + intros Hall y Hy. apply Hall. by constructor.
Qed.

Lemma omap_not_nil {A B} (f : A → option B) l : omap f l ≠ [] ↔ ∃ x, x ∈ l ∧ is_Some (f x).
Proof.
  split.
  - intros Hne. destruct (omap f l) as [|y ys] eqn:Ho; [done|].
    assert (y ∈ omap f l) as (x & Hx & Hf)%list_elem_of_omap by (rewrite Ho; constructor).
    by exists x.
  - intros (x & Hx & y & Hf) Hnil. apply (proj1 (omap_nil f l)) with (x := x) in Hnil; congruence.
Qed.

Lemma try_filter_nil {A E} (p : A → result bool E) l kept :
  try_filter p l = Ok kept → kept = [] ↔ ∀ x, x ∈ l → p x = Ok false.
Proof.
  revert kept. induction l as [|x l IH]; simpl; intros kept.
  - intros [= <-]. split; [intros _ y Hy%elem_of_nil|]; done.
  - intros H. peel H as keep Hk. peel H as rest Hr. injection H as <-. specialize (IH _ Hr).
    destruct keep.
    + split; [done|]. intros Hall. rewrite (Hall x) in Hk; [done|constructor].
    + rewrite IH. split.
      * intros Hall y [->|Hy]%elem_of_cons; [done|by apply Hall].
      * intros Hall y Hy. apply Hall. by constructor.
Qed.

Lemma cr_store_Ok {A} (r : result A StoreError) a : cr_store r = Ok a ↔ r = Ok a.
Proof. unfold cr_store. destruct r; simpl; split; congruence. Qed.

Lemma map_err_Ok_iff {A E F} (f : E → F) (r : result A E) a : map_err f r = Ok a ↔ r = Ok a.
Proof. destruct r; simpl; split; congruence. Qed.

Lemma control_lt_irrefl level : control_lt level level = false.
Proof. by destruct level. Qed.

Section close_sound.
Context `{HC : Chrono} `{HZ : CanonicalSize} `{HD : CaptureDigest}.
Context {S : Type} `{HS : !CloseReader S}.
Implicit Types (store : S) (request : CloseReadinessRequest) (facts : CloseReadinessFacts).
Implicit Types (project_state : ProjectStateHeader) (now : UtcTimestamp).

(** ** Conditions of every terminal transition *)

(** The Task is open and no other Task is active. *)
Definition task_is_closeable project_state request facts : Prop :=
  Lifecycle.is_terminal_lifecycle (tk_lifecycle_phase (cf_task facts)) = false ∧
  ∀ active, ps_active_task_id project_state = Some active → active = cq_task_id request.

(** No blocker is active and the Change Unit needs no recovery. *)
Definition no_recovery_pending facts : Prop :=
  cf_blocker_refs facts = [] ∧
  ∀ change_unit, cf_current_change_unit facts = Some change_unit →
    cu_recovery_required change_unit = false.

(** No Write Ticket of the Task can still be used. *)
Definition no_reusable_ticket store request now : Prop :=
  ∃ tickets, load_evaluated_stored_write_tickets store (cq_task_id request) now = Ok tickets ∧
    ∀ stored, EvalReusable stored ∉ tickets.

Definition superseded_by_open_task store request : Prop :=
  ∃ replacement_id replacement, cq_superseding_task_id request = Some replacement_id ∧
    task_record store replacement_id = Ok (Some replacement) ∧
    Lifecycle.is_terminal_lifecycle (tk_lifecycle_phase replacement) = false.

Lemma task_is_closeable_iff project_state request facts :
  task_not_closeable project_state request facts = false ↔
  task_is_closeable project_state request facts.
Proof.
  unfold task_not_closeable, task_is_closeable. rewrite orb_false_iff, is_some_and_false.
  setoid_rewrite negb_false_iff. by setoid_rewrite eqb_true.
Qed.

Lemma no_recovery_pending_iff facts :
  recovery_required facts = false ↔ no_recovery_pending facts.
Proof.
  unfold recovery_required, no_recovery_pending. destruct (cf_blocker_refs facts); simpl.
  - destruct (cf_current_change_unit facts) as [cu|]; simpl; [|by split].
    split; [intros Hr; split; [done|by intros ? [= <-]]|]. intros [_ Hall]. by apply Hall.
  - split; [done|]. by intros [? _].
Qed.

Lemma ticket_blockers_nil store project_state request now blockers :
  unresolved_write_ticket_blockers store project_state request now = Ok blockers →
  blockers = [] ↔ no_reusable_ticket store request now.
Proof.
  unfold unresolved_write_ticket_blockers, no_reusable_ticket. intros H.
  peel H as tickets Ht%map_err_Ok. injection H as <-.
  unfold open_write_ticket_blockers_from_evaluated. rewrite omap_nil. split.
  - intros Hall. exists tickets. split; [done|]. intros stored Hin. by specialize (Hall _ Hin).
  - intros (tickets' & Ht' & Hno) ticket Hin. same Ht Ht'. destruct ticket; try done.
    by destruct (Hno _ Hin).
Qed.

Lemma superseding_blockers_nil store project_state request blockers :
  superseding_task_blockers store project_state request = Ok blockers →
  blockers = [] ↔ superseded_by_open_task store request.
Proof.
  unfold superseding_task_blockers, superseded_by_open_task. intros H. peel H as replacement Hr.
  case_match eqn:Hterm; injection H as <-; split; [done| | |done].
  - intros (id & task & Hid & Htask & Hopen). rewrite Hid in Hr. apply cr_store_Ok in Hr.
    same Hr Htask. simpl in Hterm. congruence.
  - intros _. destruct replacement as [task|]; [|done].
    destruct (cq_superseding_task_id request) as [id|]; [|done].
    apply cr_store_Ok in Hr. by exists id, task.
Qed.

Lemma change_control_terminal_nil store project_state request facts now blockers :
  change_control_terminal_blockers store project_state request facts now = Ok blockers →
  blockers = [] ↔
    task_is_closeable project_state request facts ∧ no_recovery_pending facts ∧
    (cq_intent request = IntentSupersede → superseded_by_open_task store request) ∧
    (is_completion (cq_intent request) = true → no_reusable_ticket store request now).
Proof.
  unfold change_control_terminal_blockers. intros H. peel H as superseding Hs.
  peel H as tickets Ht. injection H as <-.
  rewrite !app_nil_iff, !if_blocker_nil, task_is_closeable_iff, no_recovery_pending_iff.
  assert (superseding = [] ↔
    (cq_intent request = IntentSupersede → superseded_by_open_task store request)) as ->.
  { destruct (cq_intent request =? IntentSupersede) eqn:Hi.
    - apply eqb_eq in Hi. rewrite (superseding_blockers_nil _ _ _ _ Hs), Hi. tauto.
    - apply eqb_neq in Hi. injection Hs as <-. split; [done|done]. }
  assert (tickets = [] ↔
    (is_completion (cq_intent request) = true → no_reusable_ticket store request now)) as ->.
  { destruct (is_completion (cq_intent request)).
    - rewrite (ticket_blockers_nil _ _ _ _ _ Ht). tauto.
    - injection Ht as <-. split; [done|done]. }
  tauto.
Qed.

(** ** Scope and basis of a completion *)

Definition change_unit_is_active facts : Prop :=
  ∃ change_unit, cf_current_change_unit facts = Some change_unit ∧
    cu_status change_unit = CUActive ∧ cu_is_current change_unit = true.

(** The close basis was recorded for the current scope of the Task, and every Run
    it names is a recorded Run of that scope. *)
Record basis_is_current store request facts (basis : CurrentCloseBasis) : Prop := {
  bic_basis : cf_current_close_basis facts = Some basis;
  bic_task : cb_task_id basis = cq_task_id request;
  bic_change_unit : (cu_change_unit_id <$> cf_current_change_unit facts)
    = Some (cb_change_unit_id basis);
  bic_scope : cb_scope_revision basis = tk_scope_revision (cf_task facts);
  bic_revision : cb_close_basis_revision basis = tk_close_basis_revision (cf_task facts);
  bic_baseline : cb_baseline_ref basis = st_baseline_ref (scope_from_task (cf_task facts));
  bic_runs : tk_mode (cf_task facts) ≠ Advisor →
    ∀ run_ref, run_ref ∈ unique_state_record_refs (close_basis_run_refs basis) →
      run_ref_is_incompatible store request facts (cb_change_unit_id basis)
        (st_baseline_ref (scope_from_task (cf_task facts))) run_ref = Ok false;
}.

Lemma close_basis_is_current_iff basis task_id cu scope revision baseline :
  close_basis_is_current basis task_id cu scope revision baseline = true ↔
  cb_task_id basis = task_id ∧ cu = Some (cb_change_unit_id basis) ∧
  cb_scope_revision basis = scope ∧ cb_close_basis_revision basis = revision ∧
  cb_baseline_ref basis = baseline.
Proof. unfold close_basis_is_current. rewrite !andb_true_iff, !eqb_true. tauto. Qed.

Lemma has_active_change_unit_iff facts :
  has_active_change_unit facts = true ↔ change_unit_is_active facts.
Proof.
  unfold has_active_change_unit, change_unit_is_active. rewrite is_some_and_true.
  setoid_rewrite andb_true_iff. by setoid_rewrite eqb_true.
Qed.

Lemma current_close_basis_blocker_none store request project_state facts blocker :
  current_close_basis_blocker store request project_state facts = Ok blocker →
  blocker = None ↔ ∃ basis, basis_is_current store request facts basis.
Proof.
  unfold current_close_basis_blocker.
  destruct (cf_current_close_basis facts) as [basis|] eqn:Hb.
  2:{ intros [= <-]. split; [done|]. intros [basis []]. congruence. }
  destruct (close_basis_is_current _ _ _ _ _ _) eqn:Hcur; simpl.
  2:{ intros [= <-]. split; [done|]. intros [basis' []]. simplify_eq.
      apply not_true_iff_false in Hcur. destruct Hcur. by apply close_basis_is_current_iff. }
  apply close_basis_is_current_iff in Hcur as (Htask & Hcu & Hscope & Hrev & Hbase).
  destruct (tk_mode (cf_task facts) =? Advisor) eqn:Hmode.
  { apply eqb_eq in Hmode. intros [= <-]. split; [|done]. intros _. exists basis. by constructor. }
  apply eqb_neq in Hmode. unfold incompatible_close_basis_run_refs_blocker.
  destruct (cf_current_change_unit facts) as [change_unit|] eqn:Hchange; [|done].
  injection Hcu as Hcu. rewrite Hcu. intros H. peel H as refs Hrefs.
  pose proof (try_filter_nil _ _ _ Hrefs) as Hnil.
  assert (blocker = None ↔ refs = []) as ->.
  { destruct refs; simpl in H; injection H as <-; done. }
  rewrite Hnil. split.
  - intros Hall. exists basis. constructor; rewrite ?Hchange; simpl; by rewrite ?Hcu.
  - intros [basis' [Hb' _ _ _ _ _ Hruns]]. same Hb Hb'. by apply Hruns.
Qed.

Lemma completion_scope_nil store project_state request facts blockers :
  completion_scope_blockers store project_state request facts = Ok blockers →
  blockers = [] ↔ change_unit_is_active facts ∧ ∃ basis, basis_is_current store request facts basis.
Proof.
  unfold completion_scope_blockers. intros H. peel H as blocker Hb. injection H as <-.
  rewrite app_nil_iff, if_blocker_nil, negb_false_iff, has_active_change_unit_iff, option_list_nil.
  by rewrite (current_close_basis_blocker_none _ _ _ _ _ Hb).
Qed.

(** Given a current basis, only its recovery constraints remain to be checked. *)
Lemma completion_basis_nil store project_state request facts basis :
  basis_is_current store request facts basis →
  completion_basis_blockers project_state request facts = [] ↔ cb_recovery_constraints basis = [].
Proof.
  intros []. unfold completion_basis_blockers, baseline_stale_for_close.
  rewrite app_nil_iff, !if_blocker_nil, bic_basis0. simpl.
  rewrite negb_false_iff, negb_false_iff, eqb_true, list_is_empty_true. tauto.
Qed.

Lemma unrecorded_change_nil project_state request facts :
  unrecorded_change_blockers project_state request facts = [] ↔
  cf_unresolved_unrecorded_changes facts = [].
Proof. unfold unrecorded_change_blockers. by rewrite if_no_blocker_nil, list_is_empty_true. Qed.

(** ** User authority for a completion *)

Definition no_pending_action store project_state request facts
    (operation : Relevance.UserActionOperation) now : Prop :=
  ∃ authorities, pending_user_action_authorities_for_context store request facts = Ok authorities ∧
    ∀ authority, authority ∈ authorities →
      pending_authority_blocks request project_state facts operation now authority = false.

(** Sensitive work: the Task is sensitive or its basis names sensitive actions. *)
Definition is_sensitive_work facts : Prop :=
  tk_effective_control_level (cf_task facts) = Sensitive ∨
  ∃ basis, cf_current_close_basis facts = Some basis ∧ cb_sensitive_action_requirements basis ≠ [].

(** Every sensitive action of the basis belongs to its Change Unit and has a
    current approval of the user; sensitive work names at least one. *)
Definition sensitive_work_approved store request facts now : Prop :=
  ∃ basis authorities, cf_current_close_basis facts = Some basis ∧
    resolved_judgment_authorities_for_context store request facts JSensitiveApproval
      = Ok authorities ∧
    cb_sensitive_action_requirements basis ≠ [] ∧
    ∀ requirement, requirement ∈ cb_sensitive_action_requirements basis →
      sreq_change_unit_id requirement = cb_change_unit_id basis ∧
      ∃ authority, authority ∈ authorities ∧
        Relevance.current_sensitive_approval authority
          (close_sensitive_requirement request facts now requirement) = true.

Lemma pending_refs_nil store project_state request facts operation now refs :
  pending_user_action_refs_for_close_operation store project_state request facts operation now
    = Ok refs →
  refs = [] ↔ no_pending_action store project_state request facts operation now.
Proof.
  unfold pending_user_action_refs_for_close_operation. intros H. peel H as authorities Ha.
  injection H as <-. rewrite fmap_nil_iff, filter_nil. split.
  - intros Hall. by exists authorities.
  - intros (authorities' & Ha' & Hall). by same Ha Ha'.
Qed.

Lemma is_sensitive_work_iff facts :
  sensitive_approval_required facts = true ↔ is_sensitive_work facts.
Proof.
  unfold sensitive_approval_required, is_sensitive_work. rewrite orb_true_iff, eqb_true.
  destruct (cf_current_close_basis facts) as [basis|]; simpl.
  - rewrite negb_true_iff, list_is_empty_false. split; (intros [?|Hr]; [by left|right]).
    + by exists basis.
    + destruct Hr as (? & [= <-] & ?). done.
  - split; (intros [?|Hr]; [by left|]); [done|]. by destruct Hr as (? & ? & _).
Qed.

Lemma has_current_sensitive_approval_iff store request facts now approved :
  has_current_sensitive_approval_for_close store request facts now = Ok approved →
  approved = true ↔ sensitive_work_approved store request facts now.
Proof.
  unfold has_current_sensitive_approval_for_close, sensitive_work_approved.
  destruct (cf_current_close_basis facts) as [basis|].
  2:{ intros [= <-]. split; [done|]. by intros (? & ? & ? & _). }
  destruct (list_is_empty (cb_sensitive_action_requirements basis)) eqn:He.
  { apply list_is_empty_true in He. intros [= <-]. split; [done|].
    by intros (? & ? & [= <-] & _ & ? & _). }
  apply list_is_empty_false in He. intros H. peel H as authorities Ha. injection H as <-.
  rewrite forallb_elem. setoid_rewrite andb_true_iff. setoid_rewrite existsb_elem.
  setoid_rewrite eqb_true. split.
  - intros Hall. by exists basis, authorities.
  - intros (? & authorities' & [= <-] & Ha' & _ & Hall). by same Ha Ha'.
Qed.

Lemma sensitive_blockers_nil store project_state request facts now blockers :
  sensitive_blockers store project_state request facts now = Ok blockers →
  blockers = [] ↔ (is_sensitive_work facts → sensitive_work_approved store request facts now).
Proof.
  unfold sensitive_blockers. destruct (sensitive_action_basis_missing facts) eqn:Hmissing.
  { intros [= <-]. split; [done|]. intros Happroved. exfalso. revert Hmissing.
    unfold sensitive_action_basis_missing. intros [Hs%eqb_eq He]%andb_true_iff.
    destruct Happroved as (basis & ? & Hb & _ & Hne & _); [by left|].
    rewrite Hb in He. by apply list_is_empty_true in He. }
  rewrite <-is_sensitive_work_iff. destruct (sensitive_approval_required facts); simpl.
  2:{ intros [= <-]. split; [done|done]. }
  intros H. peel H as approved Happroved.
  rewrite <-(has_current_sensitive_approval_iff _ _ _ _ _ Happroved).
  destruct approved; [injection H as <-; tauto|].
  peel H as stale _. injection H as <-. split; [done|]. intros Hf. by specialize (Hf eq_refl).
Qed.

Lemma completion_authority_nil store project_state request facts now blockers :
  completion_authority_blockers store project_state request facts now = Ok blockers →
  blockers = [] ↔
    no_pending_action store project_state request facts Relevance.OpCloseComplete now ∧
    (is_sensitive_work facts → sensitive_work_approved store request facts now).
Proof.
  unfold completion_authority_blockers. intros H. peel H as refs Hrefs. peel H as sensitive Hs.
  injection H as <-. rewrite app_nil_iff, if_blocker_nil, negb_false_iff, list_is_empty_true.
  by rewrite (pending_refs_nil _ _ _ _ _ _ _ Hrefs), (sensitive_blockers_nil _ _ _ _ _ _ Hs).
Qed.

(** ** Evidence for a completion *)

(** The item is about a criterion whose evidence is required. *)
Definition is_required_item facts (item : EvidenceCoverageItem) : Prop :=
  ∃ id required, ci_target item = AcceptanceCriterion id ∧
    cf_projected_required_criterion_ids facts = Some required ∧ id ∈ required.

(** The item is supported by an observation of strong provenance. *)
Definition item_is_proven store request facts (item : EvidenceCoverageItem) : Prop :=
  ∃ basis observation_ref, cf_current_close_basis facts = Some basis ∧
    ci_coverage_state item = CovSupported ∧ observation_ref ∈ ci_observation_refs item ∧
    observation_disposition store request facts basis item observation_ref = Ok StrongSupported.

Definition summary_items facts : list EvidenceCoverageItem :=
  from_option es_coverage_items [] (cf_evidence_summary facts).

(** Every artifact close relies on is present, verified and linked to the Task. *)
Definition artifacts_available store project_state request facts : Prop :=
  ∃ required, cf_projected_required_criterion_ids facts = Some required ∧
    ∀ artifact, artifact ∈ unique_by (λ artifact, state_record_ref_identity_key artifact.1) []
                  (close_artifacts request (ps_state_version project_state) facts required) →
      close_artifact_unavailable store request facts artifact = Ok false.

Lemma required_criteria_Ok facts required :
  required_criteria_for_close_context facts = Ok required ↔
  cf_projected_required_criterion_ids facts = Some required.
Proof.
  unfold required_criteria_for_close_context. destruct (cf_projected_required_criterion_ids facts);
    simpl; split; congruence.
Qed.

Lemma item_issue_none item kind : item_issue item kind = None ↔ kind = None.
Proof. by destruct kind. Qed.

(** A required item raises no issue only on the strength of one observation. *)
Lemma interpret_none item required has_basis dispositions :
  evidence_target_required_by (ci_target item) required = true →
  interpret_close_evidence_item item required has_basis dispositions = None ↔
  ci_coverage_state item = CovSupported ∧ has_basis = true ∧ StrongSupported ∈ dispositions.
Proof.
  intros Hreq. unfold interpret_close_evidence_item. rewrite Hreq. simpl.
  destruct (ci_coverage_state item =? CovSupported) eqn:Hs; simpl.
  2:{ apply eqb_neq in Hs. split; [done|]. by intros [? _]. }
  apply eqb_eq in Hs. destruct has_basis; simpl; [|split; [done|by intros (_ & ? & _)]].
  destruct (contains StrongSupported dispositions) eqn:Hc.
  - apply contains_elem in Hc. by destruct dispositions; [apply elem_of_nil in Hc|].
  - apply not_true_iff_false in Hc. rewrite contains_elem in Hc.
    split; [|by intros (_ & _ & ?)]. by repeat case_match.
Qed.

Lemma close_evidence_issue_none store request facts item issue :
  close_evidence_issue_for_item store request facts item = Ok issue →
  issue = None ↔ (is_required_item facts item → item_is_proven store request facts item).
Proof.
  unfold close_evidence_issue_for_item. destruct (ci_target item) as [id|] eqn:Htarget.
  2:{ intros [= <-]. split; [|done]. intros _ (? & ? & ? & _). congruence. }
  intros H. peel H as required Hreq%required_criteria_Ok.
  destruct (bts_mem id required) eqn:Hmem; simpl in H.
  2:{ injection H as <-. split; [|done]. intros _ (id' & required' & Ht & Hr & Hin).
      apply not_true_iff_false in Hmem. destruct Hmem. apply bts_mem_elem. congruence. }
  assert (is_required_item facts item) as Hitem.
  { exists id, required. split_and!; [done..|]. by apply bts_mem_elem. }
  assert (evidence_target_required_by (ci_target item) required = true) as Hby by by rewrite Htarget.
  assert ((is_required_item facts item → item_is_proven store request facts item) ↔
          item_is_proven store request facts item) as -> by tauto.
  unfold item_is_proven. destruct (cf_current_close_basis facts) as [basis|] eqn:Hb.
  2:{ injection H as <-. rewrite item_issue_none, interpret_none by done.
      split; [by intros (_ & ? & _)|]. by intros (? & ? & ? & _). }
  destruct (_ || _) eqn:Hskip.
  - injection H as <-. rewrite item_issue_none, interpret_none by done.
    split; [by intros (_ & _ & ?%elem_of_nil)|]. intros (? & ref & _ & Hs & Hin & _).
    rewrite Hs, eqb_refl in Hskip. simpl in Hskip. apply list_is_empty_true in Hskip.
    rewrite Hskip in Hin. by apply elem_of_nil in Hin.
  - peel H as dispositions Hd. injection H as <-. rewrite item_issue_none, interpret_none by done.
    rewrite (elem_of_try_map _ _ _ _ Hd). split.
    + intros (Hs & _ & ref & Hin & Hdisp). by exists basis, ref.
    + intros (? & ref & [= <-] & Hs & Hin & Hdisp). split_and!; [done..|]. by exists ref.
Qed.

Lemma issue_kinds_complete kind : kind ∈ issue_kinds.
Proof. destruct kind; set_solver. Qed.

Lemma issue_blockers_nil facts required_refs issues :
  omap (blocker_of_issues facts required_refs issues) issue_kinds = [] ↔ issues = [].
Proof.
  rewrite omap_nil. split.
  - intros Hall. destruct issues as [|issue issues]; [done|].
    specialize (Hall (cei_kind issue) (issue_kinds_complete _)). revert Hall.
    unfold blocker_of_issues. simpl. rewrite eqb_refl. simpl. by destruct (issue_text _).
  - intros ->. done.
Qed.

Lemma close_evidence_nil store request facts change_unit_ref blockers :
  close_evidence_blockers store request facts change_unit_ref = Ok blockers →
  blockers = [] ↔ ∀ item, item ∈ summary_items facts → is_required_item facts item →
    item_is_proven store request facts item.
Proof.
  unfold close_evidence_blockers, summary_items.
  destruct (cf_evidence_summary facts) as [summary|]; cbn [from_option].
  2:{ intros [= <-]. split; [by intros _ item ?%elem_of_nil|done]. }
  intros H. peel H as issues Hi. apply Ok_inj in H as <-. rewrite issue_blockers_nil, omap_nil. split.
  - intros Hall item Hin. apply try_map_Ok in Hi.
    apply list_elem_of_lookup in Hin as [i Hlook].
    destruct (Forall2_lookup_l _ _ _ _ _ Hi Hlook) as (issue & Hissue & Hf).
    apply (close_evidence_issue_none _ _ _ _ _ Hf), (Hall issue).
    by eapply list_elem_of_lookup_2.
  - intros Hall issue (item & Hin & Hf)%(elem_of_try_map _ _ _ _ Hi).
    apply (close_evidence_issue_none _ _ _ _ _ Hf). by apply Hall.
Qed.

Lemma evidence_completion_nil store project_state request facts blockers :
  evidence_completion_blockers store project_state request facts = Ok blockers →
  blockers = [] ↔
    (∀ item, item ∈ summary_items facts → is_required_item facts item →
       item_is_proven store request facts item) ∧
    artifacts_available store project_state request facts.
Proof.
  unfold evidence_completion_blockers, unavailable_close_artifact_refs, artifacts_available.
  intros H. peel H as evidence He. peel H as unavailable Hu. injection H as <-.
  peel Hu as required Hr%required_criteria_Ok. peel Hu as kept Hk. injection Hu as <-.
  rewrite app_nil_iff, if_blocker_nil, negb_false_iff, list_is_empty_true, fmap_nil_iff.
  rewrite (close_evidence_nil _ _ _ _ _ He), (try_filter_nil _ _ _ Hk).
  assert (∀ P Q R : Prop, (Q ↔ R) → (P ∧ Q ↔ P ∧ R)) as Hand by tauto. apply Hand. split.
  - intros Hall. by exists required.
  - intros (required' & Hr' & Hall). by same Hr Hr'.
Qed.

(** ** Acceptance of a completion *)

Definition finally_accepted store request facts : Prop :=
  ∃ basis authorities authority, cf_current_close_basis facts = Some basis ∧
    resolved_judgment_authorities_for_context store request facts JFinalAcceptance = Ok authorities ∧
    authority ∈ authorities ∧
    current_final_acceptance authority (final_acceptance_requirement basis) = true.

(** The user accepted every residual risk of the basis that asks for it. *)
Definition risks_accepted store request facts : Prop :=
  ∀ basis, cf_current_close_basis facts = Some basis →
    ∃ authorities,
      resolved_judgment_authorities_for_context store request facts JResidualRiskAcceptance
        = Ok authorities ∧
      ∀ risk, risk ∈ cb_residual_risks basis → acceptance_required risk = true →
        ∃ authority, authority ∈ authorities ∧ is_Some (ua_user_action_resolution_id authority) ∧
          current_residual_risk_acceptance_covers authority basis (risk_id risk) = true.

Lemma final_acceptance_none store project_state request facts evidence_blocked blocker :
  final_acceptance_blocker store project_state request facts evidence_blocked = Ok blocker →
  blocker = None ↔
    final_acceptance_required store request facts evidence_blocked = Ok false ∨
    finally_accepted store request facts.
Proof.
  unfold final_acceptance_blocker, finally_accepted. intros H. peel H as required Hr.
  rewrite Hr. destruct required; simpl in H.
  2:{ injection H as <-. split; [by left|done]. }
  destruct (cf_current_close_basis facts) as [basis|].
  2:{ injection H as <-. split; [done|]. by intros [?|(? & ? & ? & ? & _)]. }
  peel H as authorities Ha. destruct (existsb _ authorities) eqn:He.
  - injection H as <-. split; [|done]. intros _. right.
    apply existsb_elem in He as (authority & Hin & Hc). by exists basis, authorities, authority.
  - peel H as stale _. apply not_true_iff_false in He.
    assert (blocker ≠ None) as Hsome by (destruct stale; simpl in H; by injection H as <-).
    split; [done|]. intros [?|(? & ? & authority & [= <-] & Ha' & Hin & Hc)]; [done|].
    same Ha Ha'. destruct He. apply existsb_elem. by exists authority.
Qed.

Lemma coverage_accepted project_id task_id version basis authorities :
  (∀ item, item ∈ current_residual_risk_acceptance_coverage project_id task_id version basis
             authorities → cov_accepted item = true) ↔
  ∀ risk, risk ∈ cb_residual_risks basis → acceptance_required risk = true →
    ∃ authority, authority ∈ authorities ∧ is_Some (ua_user_action_resolution_id authority) ∧
      current_residual_risk_acceptance_covers authority basis (risk_id risk) = true.
Proof.
  unfold current_residual_risk_acceptance_coverage. rewrite <-!Forall_forall, Forall_fmap.
  rewrite !Forall_forall. apply forall_proper. intros risk. simpl.
  destruct (acceptance_required risk); simpl; [|split; done].
  rewrite negb_true_iff, list_is_empty_false. set (covers := λ user_action, _ user_action basis _).
  assert (∀ (P Q R : Prop), (Q ↔ R) → (P → Q) ↔ (P → true = true → R)) as Himp by tauto.
  apply Himp. rewrite omap_not_nil. setoid_rewrite elem_of_filter_bool.
  setoid_rewrite fmap_is_Some. split.
  - intros (authority & [Hin Hc] & Hid). by exists authority.
  - intros (authority & Hin & Hid & Hc). by exists authority.
Qed.

Lemma risk_acceptance_coverage_accepted store project_state request facts coverage :
  risk_acceptance_coverage store project_state request facts = Ok coverage →
  (∀ item, item ∈ coverage → cov_accepted item = true) ↔ risks_accepted store request facts.
Proof.
  unfold risk_acceptance_coverage, risks_accepted.
  destruct (cf_current_close_basis facts) as [basis|].
  2:{ intros [= <-]. split; [done|]. by intros _ item ?%elem_of_nil. }
  intros H. peel H as authorities Ha. peel H as stale _.
  set (plain := current_residual_risk_acceptance_coverage _ _ _ _ _) in H.
  assert ((∀ item, item ∈ coverage → cov_accepted item = true) ↔
          (∀ item, item ∈ plain → cov_accepted item = true)) as ->.
  { destruct (list_is_empty stale); apply Ok_inj in H as <-; [done|].
    rewrite <-!Forall_forall, Forall_fmap. rewrite !Forall_forall. apply forall_proper.
    intros item. unfold compose. by destruct (cov_accepted item) eqn:E; simpl; rewrite ?E. }
  unfold plain. rewrite coverage_accepted. split.
  - intros Hall ? [= <-]. by exists authorities.
  - intros Hall. destruct (Hall basis eq_refl) as (authorities' & Ha' & Hcov). by same Ha Ha'.
Qed.

Lemma residual_risk_nil store project_state request facts coverage blockers :
  risk_acceptance_coverage store project_state request facts = Ok coverage →
  residual_risk_blockers store project_state request facts coverage = Ok blockers →
  blockers = [] ↔ risks_accepted store request facts.
Proof.
  intros Hc Hb. rewrite <-(risk_acceptance_coverage_accepted _ _ _ _ _ Hc).
  revert Hb. unfold residual_risk_blockers, residual_risk_state. simpl.
  set (known := from_option _ false _).
  assert (known = false → coverage = []) as Hunknown.
  { revert Hc. unfold known, risk_acceptance_coverage.
    destruct (cf_current_close_basis facts) as [basis|]; simpl; [|by intros [= <-]].
    intros H Hr%negb_false_iff%list_is_empty_true. peel H as authorities _. peel H as stale _.
    unfold current_residual_risk_acceptance_coverage in H. rewrite Hr in H.
    destruct (list_is_empty stale); by injection H as <-. }
  rewrite andb_negb_r. destruct known; simpl.
  - destruct (existsb _ coverage) eqn:He.
    + intros H. peel H as stale _. split.
      * destruct (list_is_empty stale); injection H as <-; done.
      * intros Hall. apply existsb_elem in He as (item & Hin & Hn).
        by rewrite (Hall item Hin) in Hn.
    + intros [= <-]. split; [|done]. intros _ item Hin.
      by apply negb_false_iff, (proj1 (existsb_false _ _) He).
  - intros [= <-]. rewrite Hunknown by done. split; [by intros _ item ?%elem_of_nil|done].
Qed.

Lemma completion_acceptance_nil store project_state request facts coverage evidence_blocked blockers :
  risk_acceptance_coverage store project_state request facts = Ok coverage →
  completion_acceptance_blockers store project_state request facts coverage evidence_blocked
    = Ok blockers →
  blockers = [] ↔
    (final_acceptance_required store request facts evidence_blocked = Ok false ∨
     finally_accepted store request facts) ∧
    risks_accepted store request facts.
Proof.
  unfold completion_acceptance_blockers. intros Hc H. peel H as final Hf. peel H as residual Hr.
  injection H as <-. rewrite app_nil_iff, option_list_nil.
  by rewrite (final_acceptance_none _ _ _ _ _ _ Hf), (residual_risk_nil _ _ _ _ _ _ Hc Hr).
Qed.

(** ** The whole evaluation *)

(** What an open Task must satisfy to be completed. *)
Record completion_conditions store project_state request facts now : Prop := {
  cc_task : task_is_closeable project_state request facts;
  cc_recovery : no_recovery_pending facts;
  cc_tickets : no_reusable_ticket store request now;
  cc_change_unit : change_unit_is_active facts;
  cc_basis : ∃ basis, basis_is_current store request facts basis ∧ cb_recovery_constraints basis = [];
  cc_pending : no_pending_action store project_state request facts Relevance.OpCloseComplete now;
  cc_sensitive : is_sensitive_work facts → sensitive_work_approved store request facts now;
  cc_evidence : ∀ item, item ∈ summary_items facts → is_required_item facts item →
    item_is_proven store request facts item;
  cc_artifacts : artifacts_available store project_state request facts;
  cc_acceptance : final_acceptance_required store request facts false = Ok false ∨
    finally_accepted store request facts;
  cc_risks : risks_accepted store request facts;
  cc_unrecorded : cf_unresolved_unrecorded_changes facts = [];
}.

Definition cancellation_authorized store request facts : Prop :=
  ∃ authorities authority,
    resolved_judgment_authorities_for_context store request facts JCancellation = Ok authorities ∧
    authority ∈ authorities ∧
    Relevance.user_action_required_for authority ForCloseCancel = true ∧
    Relevance.current_cancellation_authority authority (cancellation_requirement request facts) = true.

(** What the three intents require; a check is a completion that commits nothing. *)
Definition close_conditions store project_state request facts now : Prop :=
  match cq_intent request with
  | IntentCheck | IntentComplete => completion_conditions store project_state request facts now
  | IntentCancel =>
      task_is_closeable project_state request facts ∧ no_recovery_pending facts ∧
      cancellation_authorized store request facts ∧ cf_unresolved_unrecorded_changes facts = []
  | IntentSupersede =>
      task_is_closeable project_state request facts ∧ no_recovery_pending facts ∧
      superseded_by_open_task store request ∧
      no_pending_action store project_state request facts Relevance.OpCloseSupersede now ∧
      cf_unresolved_unrecorded_changes facts = []
  end.

Lemma cancellation_authority_none store project_state request facts blocker :
  cancellation_authority_blocker store project_state request facts = Ok blocker →
  blocker = None ↔ cancellation_authorized store request facts.
Proof.
  unfold cancellation_authority_blocker, cancellation_authorized. intros H.
  peel H as authorities Ha. destruct (existsb _ authorities) eqn:He.
  - injection H as <-. split; [|done]. intros _.
    apply existsb_elem in He as (authority & Hin & [Hf Hc]%andb_true_iff).
    by exists authorities, authority.
  - peel H as stale _. split.
    + intros ->. repeat case_match; simplify_eq.
    + intros (authorities' & authority & Ha' & Hin & Hf & Hc). same Ha Ha'.
      pose proof (proj1 (existsb_false _ _) He authority Hin) as Hno. simpl in Hno.
      by rewrite Hf, Hc in Hno.
Qed.

Lemma normalize_nil blockers version : normalize_close_blockers blockers version = [] ↔ blockers = [].
Proof. apply fmap_nil_iff. Qed.

Lemma combine_blockers intent version facts update evaluations a :
  combine intent version facts update evaluations = Ok a →
  cas_context a = facts ∧ cas_control_update a = update ∧
  (cas_blockers a = [] ↔ combined_blockers intent evaluations = []) ∧
  cas_close_state a = close_state_for_policy intent (list_is_empty (cas_blockers a)) ∧
  cas_committed_terminal a = ((intent <>? IntentCheck) && list_is_empty (cas_blockers a)) ∧
  cas_response_state_version a = (if cas_committed_terminal a then version + 1 else version)%N.
Proof.
  unfold combine. intros H. peel H as criteria Hc. injection H as <-. simpl.
  split_and!; try done. apply normalize_nil.
Qed.

Lemma completion_nil store project_state request facts now coverage terminal scope authority evidence
    final :
  is_completion (cq_intent request) = true →
  risk_acceptance_coverage store project_state request facts = Ok coverage →
  change_control_terminal_blockers store project_state request facts now = Ok terminal →
  completion_scope_blockers store project_state request facts = Ok scope →
  completion_authority_blockers store project_state request facts now = Ok authority →
  evidence_completion_blockers store project_state request facts = Ok evidence →
  completion_acceptance_blockers store project_state request facts coverage
    (negb (list_is_empty evidence)) = Ok final →
  terminal ++ (scope ++ authority ++ completion_basis_blockers project_state request facts
    ++ evidence ++ final) ++ unrecorded_change_blockers project_state request facts = [] ↔
  completion_conditions store project_state request facts now.
Proof.
  intros Hi Hcov Hterm%change_control_terminal_nil Hscope%completion_scope_nil
    Hauth%completion_authority_nil Hev%evidence_completion_nil Hfinal.
  pose proof (completion_acceptance_nil _ _ _ _ _ _ _ Hcov Hfinal) as Hfin.
  rewrite !app_nil_iff, unrecorded_change_nil, Hterm, Hscope, Hauth. split.
  - intros ((Ht & Hr & _ & Htk) & ((Hcu & basis & Hb) & (Hp & Hs) & Hbb & He & Hf) & Hu).
    rewrite He in Hfin. simpl in Hfin. apply Hfin in Hf as [Hf Hrisk].
    apply Hev in He as [He Ha]. constructor; try done; [by apply Htk|].
    exists basis. split; [done|]. by apply (completion_basis_nil store project_state request facts).
  - intros [Ht Hr Htk Hcu (basis & Hb & Hrc) Hp Hs He Ha Hf Hrisk Hu].
    assert (evidence = []) as Hnil by (by apply Hev). rewrite Hnil in Hfin. simpl in Hfin.
    split_and!; try done; [|by exists basis| |].
    + intros Hsup. by rewrite Hsup in Hi.
    + by apply (completion_basis_nil store project_state request facts basis).
    + by apply Hfin.
Qed.

Lemma close_blockers_nil store project_state request now facts a :
  evaluate_close_readiness_with_facts store project_state request now facts = Ok a →
  cas_blockers a = [] ↔ close_conditions store project_state request (cas_context a) now.
Proof.
  unfold evaluate_close_readiness_with_facts. intros H. peel H as [facts' update] _.
  peel H as coverage Hcov. peel H as terminal Hterm. peel H as acceptance Hacc.
  peel H as scope Hscope. peel H as authority Hauth. peel H as evidence Hev.
  peel H as final Hfinal. apply combine_blockers in H as (-> & _ & -> & _).
  unfold combined_blockers, close_conditions. cbn [cev_terminal_change_control
    cev_terminal_acceptance cev_completion_scope cev_completion_authority cev_completion_basis
    cev_completion_evidence cev_completion_acceptance cev_unrecorded_changes].
  unfold acceptance_terminal_blockers in Hacc.
  destruct (cq_intent request) eqn:Hi; cbn [is_completion] in *.
  1,2: injection Hacc as <-; eapply completion_nil; try done; by rewrite Hi.
  - apply change_control_terminal_nil in Hterm. rewrite Hi in Hterm.
    peel Hacc as blocker Hc. injection Hacc as <-.
    rewrite app_nil_l, !app_nil_iff, option_list_nil, (cancellation_authority_none _ _ _ _ _ Hc).
    rewrite Hterm, unrecorded_change_nil. split; [by intros ((? & ? & _) & ? & ?)|].
    intros (? & ? & ? & ?). by split_and!.
  - apply change_control_terminal_nil in Hterm. rewrite Hi in Hterm. peel Hacc as refs Hrefs.
    assert (acceptance = [] ↔ refs = []) as Hr by (destruct refs; by injection Hacc as <-).
    rewrite app_nil_l, !app_nil_iff, Hr, (pending_refs_nil _ _ _ _ _ _ _ Hrefs), Hterm,
      unrecorded_change_nil. split; [intros ((? & ? & Hsup & _) & ? & ?); split_and!; auto|].
    intros (? & ? & ? & ? & ?). by split_and!.
Qed.

(** ** Acquired facts *)

Lemma resolve_control_facts store facts facts' update :
  resolve_control store facts = Ok (facts', update) → ∃ task, facts' = facts_with_task facts task.
Proof.
  unfold resolve_control. intros H. peel H as policy _. peel H as mark _.
  case_match; injection H as <- <-.
  - exists (cf_task facts). by destruct facts.
  - eexists. reflexivity.
Qed.

Lemma evaluate_context store project_state request now facts a :
  evaluate_close_readiness_with_facts store project_state request now facts = Ok a →
  ∃ task, cas_context a = facts_with_task facts task.
Proof.
  unfold evaluate_close_readiness_with_facts. intros H.
  peel H as [facts' update] Hc%resolve_control_facts.
  do 7 peel H as ? _. apply combine_blockers in H as (-> & _). done.
Qed.

(** What the facts read from the store say about the criteria. *)
Lemma acquired_criteria store project_state project_id task_id now facts :
  acquire_close_readiness_facts store project_state project_id task_id now = Ok facts →
  ∃ criteria evidence, active_acceptance_criteria store task_id = Ok criteria ∧
    cf_acceptance_criteria facts = Some criteria ∧
    cf_projected_required_criterion_ids facts = Some (required_acceptance_criterion_ids criteria) ∧
    cf_evidence_summary facts
      = project_close_evidence_summary evidence (required_acceptance_criterion_ids criteria) ∧
    cf_projected_evidence_observations facts = [] ∧ cf_now facts = now.
Proof.
  unfold acquire_close_readiness_facts. intros H.
  peel H as task _. peel H as task' _. peel H as cu _. peel H as revision _. peel H as revision' _.
  peel H as pending _. peel H as blockers _. peel H as record _. peel H as criteria Hc%cr_store_Ok.
  peel H as evidence _. peel H as unresolved _. peel H as policy _. apply Ok_inj in H as <-.
  exists criteria, evidence. done.
Qed.

Lemma targets_criterion_true id item :
  targets_criterion id item = true → ci_target item = AcceptanceCriterion id.
Proof.
  unfold targets_criterion. destruct (ci_target item); [|done]. by intros ->%eqb_eq.
Qed.

Lemma with_required_items_covers required items id :
  id ∈ required ∨ existsb (targets_criterion id) items = true →
  existsb (targets_criterion id) (with_required_items required items) = true.
Proof.
  unfold with_required_items. revert items. induction required as [|first required IH]; simpl.
  - intros items [?%elem_of_nil|]; done.
  - intros items Hin. apply IH.
    assert (∀ extra, existsb (targets_criterion id) items = true →
      existsb (targets_criterion id) (items ++ extra) = true) as Hkeep
      by (intros extra Hx; rewrite existsb_app, Hx; done).
    destruct Hin as [[->|Hin]%elem_of_cons|Hin]; [right|by left|right].
    + case_match eqn:He; [done|]. rewrite existsb_app. simpl. unfold targets_criterion at 2. simpl.
      rewrite eqb_refl. by rewrite orb_true_r.
    + case_match; [done|]. by apply Hkeep.
Qed.

(** Close always sees an item for a required criterion. *)
Lemma required_criterion_item evidence required id :
  id ∈ required →
  existsb (targets_criterion id) (from_option es_coverage_items []
    (project_close_evidence_summary evidence required)) = true.
Proof.
  intros Hin. unfold project_close_evidence_summary, evidence_summary_with_required_ids.
  assert (list_is_empty required = false) as Hne by (by destruct required; [apply elem_of_nil in Hin|]).
  rewrite Hne, andb_false_r. simpl. apply with_required_items_covers. by left.
Qed.

Lemma required_ids_elem criteria criterion :
  criterion ∈ criteria → av_evidence_requirement criterion = EvRequired →
  av_acceptance_criterion_id criterion ∈ required_acceptance_criterion_ids criteria.
Proof.
  intros Hin Hr. unfold required_acceptance_criterion_ids, criterion_ids_with.
  apply elem_of_bts_of_list, list_elem_of_fmap. exists criterion. split; [done|].
  apply elem_of_filter_bool. split; [done|]. by apply eqb_true.
Qed.

(** The observation behind a proven item, when nothing is projected. *)
Lemma proven_item_observation store request facts item :
  cf_projected_evidence_observations facts = [] → item_is_proven store request facts item →
  ∃ basis observation_ref record provenance,
    cf_current_close_basis facts = Some basis ∧ observation_ref ∈ ci_observation_refs item ∧
    evidence_observation_record store (sr_record_id observation_ref) = Ok (Some record) ∧
    stored_evidence_observation_provenance_facts store record
      (evidence_observation_basis request facts basis (ci_target item)) = Ok provenance ∧
    classify_evidence_provenance provenance = Strong ∧
    is_some_and (stored_evidence_observation_capture_relevance record)
      (λ status, status <>? Supported) = false.
Proof.
  intros Hnone (basis & ref & Hb & Hs & Hin & Hd). revert Hd. unfold observation_disposition.
  case_match; [done|]. case_match; [done|]. rewrite Hnone. simpl. intros Hd.
  peel Hd as record Hr%cr_store_Ok. destruct record as [record|]; [|done].
  revert Hd. case_match; [done|]. case_match eqn:Hrel; [done|]. intros Hd.
  peel Hd as provenance Hp%map_err_Ok. injection Hd as Hclass.
  exists basis, ref, record, provenance. split_and!; try done.
  by destruct (classify_evidence_provenance provenance).
Qed.

(** ** Completion without final acceptance *)

(** An observed Run stays within the light policy and, if it wrote product files,
    within the ticket it consumed. *)
Definition run_is_covered store request facts (policy : ProjectWorkflowPolicy)
    (basis : CurrentCloseBasis) (tickets : list StoredWriteTicketEvaluation)
    (observed : RunObservedChangesRecord) : Prop :=
  let changes := rox_observed_changes observed in
  rox_status observed = RunRecorded ∧ oc_sensitive_categories changes = [] ∧
  (oc_product_file_write_observed changes = true →
   light_paths_are_allowed policy (oc_changed_paths changes) = true ∧
   ∃ stored, EvalConsumed stored (rox_run_id observed) ∈ tickets ∧
     vb_task_id (sf_validity_basis (st_ticket stored)) = cq_task_id request ∧
     vb_scope_revision (sf_validity_basis (st_ticket stored)) = tk_scope_revision (cf_task facts) ∧
     paths_are_authorized (oc_changed_paths changes)
       (path_str <$> allowed (sf_path_scope (st_ticket stored))) = true ∧
     ∀ path d, path ∈ oc_changed_paths changes → d ∈ denied (sf_path_scope (st_ticket stored)) →
       path_is_within path (path_str d) = false).

Lemma consumed_ticket_of_run_Some run_id tickets semantic :
  consumed_ticket_of_run run_id tickets = Some semantic →
  ∃ stored, EvalConsumed stored run_id ∈ tickets ∧ st_ticket stored = semantic.
Proof.
  unfold consumed_ticket_of_run. intros Hc%head_Some_elem_of.
  apply list_elem_of_omap in Hc as (ticket & Hin & Hc).
  destruct ticket as [| |stored id|]; try done. revert Hc. case_match eqn:He; [|done].
  apply eqb_eq in He as ->. intros [= <-]. by exists stored.
Qed.

Lemma light_run_is_covered_inv store request facts policy basis tickets observed :
  light_run_is_covered store request facts policy basis tickets observed = Ok true →
  run_is_covered store request facts policy basis tickets observed.
Proof.
  unfold light_run_is_covered, run_is_covered. destruct (_ =? RunRecorded) eqn:Hs; [|done].
  apply eqb_eq in Hs. simpl. destruct (oc_sensitive_categories _) eqn:Hc; [|done]. simpl.
  destruct (oc_product_file_write_observed _); simpl; [|done].
  destruct (light_paths_are_allowed _ _) eqn:Hl; [|done]. simpl. intros H.
  peel H as run _. destruct run as [run|]; [|done]. revert H. case_match; [done|].
  destruct (consumed_ticket_of_run _ _) as [semantic|] eqn:Hticket; [|done].
  apply consumed_ticket_of_run_Some in Hticket as (stored & Hin & <-).
  case_match eqn:Hmatch; [done|]. rewrite !orb_false_iff, !negb_false_iff, !eqb_true in Hmatch.
  destruct Hmatch as [[[Htask _] Hscope] _].
  intros [= [Hauth Hdenied%negb_true_iff]%andb_true_iff].
  split_and!; [done..|]. intros _. split; [done|]. exists stored. split_and!; [done..|].
  intros path d Hp Hd. pose proof (proj1 (existsb_false _ _) Hdenied path Hp) as Hno. simpl in Hno.
  exact (proj1 (existsb_false _ _) Hno d Hd).
Qed.

Lemma all_current_inv {A E} (p : A → result bool E) l :
  all_current p l = Ok true → ∀ x, x ∈ l → p x = Ok true.
Proof.
  induction l as [|y l IH]; simpl; [by intros _ x ?%elem_of_nil|].
  intros H. peel H as b Hb. destruct b; [|done].
  intros x [->|Hx]%elem_of_cons; [done|by apply IH].
Qed.

(** What must hold for a Task to be completed without the user's acceptance. *)
Definition acceptance_waived store request facts : Prop :=
  (tk_effective_control_level (cf_task facts) = Observe ∧ tk_mode (cf_task facts) ≠ Advisor) ∨
  (tk_effective_control_level (cf_task facts) = Light ∧ tk_acceptance_policy (cf_task facts) ≠ Required ∧
   ∃ policy basis tickets observed_runs,
     cf_workflow_policy facts = Some policy ∧ cf_current_close_basis facts = Some basis ∧
     enabled (light policy) = true ∧ final_acceptance (light policy) ≠ Required ∧
     cf_pending_user_action_refs facts = [] ∧
     (∀ risk, risk ∈ cb_residual_risks basis → acceptance_required risk = false) ∧
     cb_sensitive_categories basis = [] ∧ cb_sensitive_action_requirements basis = [] ∧
     load_evaluated_stored_write_tickets store (cq_task_id request) (cf_now facts) = Ok tickets ∧
     run_observed_changes_for_task store (cq_task_id request) = Ok observed_runs ∧
     ∀ observed, observed ∈ observed_runs →
       run_is_covered store request facts policy basis tickets observed).

Lemma light_completion_inv store request facts evidence_blocked :
  light_completion_without_acceptance_allowed store request facts evidence_blocked = Ok true →
  tk_acceptance_policy (cf_task facts) ≠ Required → acceptance_waived store request facts.
Proof.
  unfold light_completion_without_acceptance_allowed. destruct (_ =? Light) eqn:Hl; [|done].
  apply eqb_eq in Hl. simpl. intros H Hpolicy. peel H as policy Hp%ok_or_Ok.
  destruct (cf_current_close_basis facts) as [basis|] eqn:Hb; [|done].
  destruct (light_acceptance_can_be_omitted _) eqn:Homit; [|done]. simpl in H.
  peel H as tickets Ht%map_err_Ok. peel H as runs Hr%cr_store_Ok.
  unfold light_acceptance_can_be_omitted in Homit. simpl in Homit.
  rewrite !andb_true_iff, !negb_true_iff in Homit.
  destruct Homit as [[[[[[[[He Hf%eqb_neq] Hpend] _] Hrisk] Hsens] _] _] _].
  apply negb_false_iff, list_is_empty_true in Hpend.
  apply orb_false_iff in Hsens as [Hs1%negb_false_iff%list_is_empty_true
    Hs2%negb_false_iff%list_is_empty_true].
  right. split_and!; [done..|]. exists policy, basis, tickets, runs. split_and!; try done.
  - by apply existsb_false.
  - intros observed Hin. by apply light_run_is_covered_inv, (all_current_inv _ _ H).
Qed.

Lemma final_acceptance_waived store request facts evidence_blocked :
  final_acceptance_required store request facts evidence_blocked = Ok false →
  acceptance_waived store request facts.
Proof.
  unfold final_acceptance_required. destruct (tk_effective_control_level _) eqn:Hc; try done.
  - intros [= Hm%eqb_neq]. by left.
  - destruct (tk_acceptance_policy _) eqn:Hp; try done.
    all: intros H; peel H as allowed Ha; injection H as Hn%negb_false_iff; subst allowed.
    all: apply (light_completion_inv _ _ _ _ Ha); congruence.
Qed.

(** ** The properties of close readiness *)

Lemma evaluate_outcome store project_state request now facts a :
  evaluate_close_readiness_with_facts store project_state request now facts = Ok a →
  cas_close_state a
    = close_state_for_policy (cq_intent request) (list_is_empty (cas_blockers a)) ∧
  cas_committed_terminal a
    = ((cq_intent request <>? IntentCheck) && list_is_empty (cas_blockers a)) ∧
  cas_response_state_version a
    = (if cas_committed_terminal a then ps_state_version project_state + 1
       else ps_state_version project_state)%N.
Proof.
  unfold evaluate_close_readiness_with_facts. intros H. peel H as [facts' update] _.
  do 7 peel H as ? _. apply combine_blockers in H as (_ & _ & _ & ? & ? & ?). done.
Qed.

(** C1: Refinement of the close specification: an evaluation reports no blocker, and
    hence the ready, closed, cancelled or superseded state, exactly when every
    condition its intent requires holds (for a completion: an open current Task
    without recovery, no usable Write Ticket, an active Change Unit, a current close
    basis with compatible Runs, no blocking user action, approved sensitive work,
    strong evidence for required criteria, available artifacts, final acceptance or
    its waiver, accepted risks, no unrecorded change).  A terminal transition is
    committed exactly then and never by a check, and only it advances the version. *)
Theorem close_state_correct store project_state request now facts a :
  evaluate_close_readiness_with_facts store project_state request now facts = Ok a →
  (close_conditions store project_state request (cas_context a) now →
     cas_blockers a = [] ∧ cas_close_state a = close_state_for_policy (cq_intent request) true) ∧
  (~ close_conditions store project_state request (cas_context a) now →
     cas_blockers a ≠ [] ∧ cas_close_state a = StateBlocked) ∧
  (cas_committed_terminal a = true ↔ cq_intent request ≠ IntentCheck ∧
     close_conditions store project_state request (cas_context a) now) ∧
  (cas_committed_terminal a = false →
     cas_response_state_version a = ps_state_version project_state).
Proof.
  intros Ha. pose proof (close_blockers_nil _ _ _ _ _ _ Ha) as Hnil.
  destruct (evaluate_outcome _ _ _ _ _ _ Ha) as (Hs & Hc & Hv).
  rewrite <-Hnil, <-list_is_empty_true. split_and!.
  - intros He. split; [done|]. by rewrite Hs, He.
  - intros He%not_true_is_false. split; [by rewrite He|]. by rewrite Hs, He.
  - by rewrite Hc, andb_true_iff, negb_true_iff, eqb_false.
  - intros Hf. by rewrite Hv, Hf.
Qed.

(** What an assessment of the stored project without blockers proves of each
    required criterion. *)
Lemma assessed_item_is_proven store project_state request now a id items :
  assess_close_readiness store project_state request now = Ok a →
  is_completion (cq_intent request) = true → cas_blockers a = [] →
  summary_items (cas_context a) = items →
  (∃ required, cf_projected_required_criterion_ids (cas_context a) = Some required ∧ id ∈ required) →
  (∀ item, item ∈ items → targets_criterion id item = true →
     item_is_proven store request (cas_context a) item) ∧
  existsb (targets_criterion id) items = true.
Proof.
  unfold assess_close_readiness. intros H Hi Hnil <- (required & Hreq & Hid).
  peel H as facts Hf. pose proof (evaluate_context _ _ _ _ _ _ H) as [task Hctx].
  apply (close_blockers_nil _ _ _ _ _ _ H) in Hnil. unfold close_conditions in Hnil.
  assert (completion_conditions store project_state request (cas_context a) now) as Hcc
    by (by destruct (cq_intent request)).
  split.
  - intros item Hin Htarget. apply (cc_evidence _ _ _ _ _ Hcc); [done|]. exists id, required.
    split_and!; [by apply targets_criterion_true|done..].
  - apply acquired_criteria in Hf as (criteria & evidence & _ & _ & Hids & Hsum & _).
    unfold summary_items. rewrite Hctx in *. simpl in *. rewrite Hsum.
    apply required_criterion_item. congruence.
Qed.

Lemma assessed_required_ids store project_state request now a criteria criterion :
  assess_close_readiness store project_state request now = Ok a →
  active_acceptance_criteria store (cq_task_id request) = Ok criteria → criterion ∈ criteria →
  av_evidence_requirement criterion = EvRequired →
  ∃ required, cf_projected_required_criterion_ids (cas_context a) = Some required ∧
    av_acceptance_criterion_id criterion ∈ required.
Proof.
  unfold assess_close_readiness. intros H Hcriteria Hin Hreq. peel H as facts Hf.
  destruct (evaluate_context _ _ _ _ _ _ H) as [task ->]. simpl.
  apply acquired_criteria in Hf as (criteria' & evidence & Hcriteria' & _ & -> & _).
  same Hcriteria Hcriteria'. eexists. split; [done|]. by apply required_ids_elem.
Qed.

(** C3: Evidence of a closed Task is vouched for by the user: when an assessment of
    the stored project reports no blocker to completion, then for every active
    criterion whose evidence is required there is a stored observation, of strong
    provenance for the current close basis, that is rooted through a finite chain of
    reuse in an evidence observation the local user resolved for that very
    criterion, Task, Change Unit and scope.  Agent reports and captures alone never
    suffice. *)
Theorem closed_task_evidence_user_rooted store project_state request now a criteria criterion :
  assess_close_readiness store project_state request now = Ok a →
  is_completion (cq_intent request) = true → cas_blockers a = [] →
  active_acceptance_criteria store (cq_task_id request) = Ok criteria → criterion ∈ criteria →
  av_evidence_requirement criterion = EvRequired →
  ∃ basis record root producer_ref resolution action observation,
    cf_current_close_basis (cas_context a) = Some basis ∧
    let observation_basis := evidence_observation_basis request (cas_context a) basis
      (AcceptanceCriterion (av_acceptance_criterion_id criterion)) in
    evidence_observation_record store (eor_evidence_observation_id record) = Ok (Some record) ∧
    anchored_by store observation_basis record root ∧
    eor_assurance_level record = UserObserved ∧
    pn_producer_ref (pa_producer_anchor (eor_metadata root)) = Some producer_ref ∧
    user_action_resolution_record (user_action_table store) (sr_record_id producer_ref)
      = Ok (Some resolution) ∧
    user_resolution store observation_basis (eor_output_artifact_refs root) resolution action
      observation.
Proof.
  intros Ha Hi Hnil Hcriteria Hin Hreq.
  pose proof (assessed_required_ids _ _ _ _ _ _ _ Ha Hcriteria Hin Hreq) as Hid.
  destruct (assessed_item_is_proven _ _ _ _ _ _ _ Ha Hi Hnil eq_refl Hid) as [Hall Hex].
  apply existsb_elem in Hex as (item & Hitem & Htarget).
  pose proof (Hall item Hitem Htarget) as Hproven. apply proven_item_observation in Hproven.
  2:{ unfold assess_close_readiness in Ha. peel Ha as facts Hf.
      destruct (evaluate_context _ _ _ _ _ _ Ha) as [task ->]. simpl.
      by apply acquired_criteria in Hf as (? & ? & _ & _ & _ & _ & ? & _). }
  destruct Hproven as (basis & ref & record & provenance & Hb & Href & Hr & Hp & Hclass & Hrel).
  destruct (strong_evidence_user_rooted _ _ _ _ Hp Hclass Hrel)
    as (root & producer_ref & resolution & action & observation & Hroot & Hl & Hk & Hpr & Hres & Hu).
  assert (ci_target item = AcceptanceCriterion (av_acceptance_criterion_id criterion)) as Ht
    by by apply targets_criterion_true.
  rewrite Ht in *. exists basis, record, root, producer_ref, resolution, action, observation.
  apply evidence_observation_record_Some in Hr as Hrow. destruct Hrow as [_ Hkey].
  rewrite Hkey. done.
Qed.

(** The gate over a summary whose required items are all supported. *)
Lemma evidence_gate_sufficient criteria summary :
  (∃ id, id ∈ required_acceptance_criterion_ids criteria) →
  (∀ id, id ∈ required_acceptance_criterion_ids criteria →
     existsb (targets_criterion id) (from_option es_coverage_items [] summary) = true) →
  (∀ id item, id ∈ required_acceptance_criterion_ids criteria →
     item ∈ from_option es_coverage_items [] summary → targets_criterion id item = true →
     ci_coverage_state item = CovSupported) →
  evaluate_evidence_gate criteria summary [] = GateSufficient.
Proof.
  intros [id0 Hid0] Hex Hall. unfold evaluate_evidence_gate.
  change (criterion_ids_with EvRequired criteria) with (required_acceptance_criterion_ids criteria).
  set (required := required_acceptance_criterion_ids criteria) in *.
  set (items := from_option es_coverage_items [] summary) in *.
  assert (list_is_empty required = false) as -> by (by destruct required; [apply elem_of_nil in Hid0|]).
  assert (∀ state, state ≠ CovSupported → existsb (λ item, ci_coverage_state item =? state)
    (List.filter (λ item, evidence_target_required_by (ci_target item) required) items) = false)
    as Hnone.
  { intros state Hne. apply existsb_false. intros item [Hin Hr]%elem_of_filter_bool.
    revert Hr. unfold evidence_target_required_by. destruct (ci_target item) as [id|] eqn:Ht; [|done].
    intros Hr%bts_mem_elem. apply eqb_false. rewrite (Hall id item Hr Hin); [done|].
    unfold targets_criterion. rewrite Ht. by apply eqb_true. }
  cbn [existsb andb orb negb]. rewrite !Hnone by done. cbn [andb orb negb].
  assert (forallb (λ id, is_some_and (List.find (targets_criterion id) items)
    (λ item, ci_coverage_state item =? CovSupported)) required = true) as ->; [|done].
  apply forallb_elem. intros id Hid. apply is_some_and_true.
  destruct (List.find (targets_criterion id) items) as [item|] eqn:Hf.
  - apply find_some in Hf as [Hin%list_elem_of_In Ht]. exists item. split; [done|].
    apply eqb_true. by apply (Hall id).
  - pose proof (Hex id Hid) as (item & Hin & Ht)%existsb_elem.
    apply list_elem_of_In in Hin. by rewrite (find_none _ _ Hf _ Hin) in Ht.
Qed.

Lemma evaluate_gate store project_state request now facts a :
  evaluate_close_readiness_with_facts store project_state request now facts = Ok a →
  ∃ criteria, cf_acceptance_criteria (cas_context a) = Some criteria ∧
    cas_evidence_gate a = evaluate_evidence_gate criteria
      ((λ summary, evidence_summary_for_display summary (cf_current_close_basis (cas_context a)))
       <$> cf_evidence_summary (cas_context a)) (cas_blockers a).
Proof.
  unfold evaluate_close_readiness_with_facts. intros H. peel H as [facts' update] _.
  do 7 peel H as ? _. unfold combine in H. peel H as criteria Hc%ok_or_Ok. injection H as <-.
  by exists criteria.
Qed.

(** The evidence gate agrees with the decision: when a stored project with a
    required criterion is assessed without blockers to completion, the reported
    evidence gate is sufficient. *)
Theorem closed_task_gate_sufficient store project_state request now a criteria criterion :
  assess_close_readiness store project_state request now = Ok a →
  is_completion (cq_intent request) = true → cas_blockers a = [] →
  active_acceptance_criteria store (cq_task_id request) = Ok criteria → criterion ∈ criteria →
  av_evidence_requirement criterion = EvRequired →
  cas_evidence_gate a = GateSufficient.
Proof.
  intros Ha Hi Hnil Hcriteria Hin Hreq. pose proof Ha as H. unfold assess_close_readiness in H.
  peel H as facts Hf. destruct (evaluate_gate _ _ _ _ _ _ H) as (criteria' & Hc' & Hgate).
  pose proof (evaluate_context _ _ _ _ _ _ H) as [task Hctx].
  apply acquired_criteria in Hf as (criteria'' & evidence & Hcr & Hacc & Hids & _).
  same Hcriteria Hcr. rewrite Hctx in Hc'. simpl in Hc'. rewrite Hacc in Hc'. injection Hc' as <-.
  assert (cf_projected_required_criterion_ids (cas_context a)
    = Some (required_acceptance_criterion_ids criteria'')) as Hids' by by rewrite Hctx.
  rewrite Hgate, Hnil.
  assert (from_option es_coverage_items [] ((λ summary, evidence_summary_for_display summary
    (cf_current_close_basis (cas_context a))) <$> cf_evidence_summary (cas_context a))
    = summary_items (cas_context a)) as Hitems
    by (unfold summary_items; by destruct (cf_evidence_summary (cas_context a))).
  apply evidence_gate_sufficient; rewrite ?Hitems.
  - eexists. by apply required_ids_elem.
  - intros id Hid. eapply assessed_item_is_proven; eauto.
  - intros id item Hid Hitem Ht.
    assert (item_is_proven store request (cas_context a) item) as (? & ? & _ & ? & _); [|done].
    eapply assessed_item_is_proven; eauto.
Qed.

(** Final acceptance is never skipped silently: a Task that an evaluation closes
    either carries the user's current final acceptance of its close basis, or it is a
    non-advisory observe Task, or it is a light Task whose policy waives acceptance,
    with no sensitive result, no risk to accept, no pending action, and whose every
    product write stayed within the light paths and within the Write Ticket its Run
    consumed. *)
Theorem closed_without_acceptance store project_state request now facts a :
  evaluate_close_readiness_with_facts store project_state request now facts = Ok a →
  cas_close_state a = StateClosed →
  finally_accepted store request (cas_context a) ∨ acceptance_waived store request (cas_context a).
Proof.
  intros Ha Hclosed. destruct (evaluate_outcome _ _ _ _ _ _ Ha) as (Hs & _).
  pose proof (close_blockers_nil _ _ _ _ _ _ Ha) as Hnil. rewrite Hclosed in Hs.
  unfold close_state_for_policy in Hs. destruct (list_is_empty (cas_blockers a)) eqn:He; [|done].
  apply list_is_empty_true, Hnil in He. unfold close_conditions in He. simpl in Hs.
  destruct (cq_intent request); try done.
  destruct (cc_acceptance _ _ _ _ _ He) as [Hw|?]; [right|by left].
  by eapply final_acceptance_waived.
Qed.

(** Closing never weakens control: the control level and the acceptance policy an
    evaluation works with are at least those of the stored Task; a Change Unit whose
    effect contract is sensitive is always evaluated as sensitive; and the update to
    commit is absent exactly when the Task was already at that control, and otherwise
    carries the raised level. *)
Theorem close_control_never_lowered store facts facts' update :
  resolve_control store facts = Ok (facts', update) →
  let task := cf_task facts in
  let task' := cf_task facts' in
  control_index (tk_effective_control_level task) ≤ control_index (tk_effective_control_level task') ∧
  close_acceptance_policy_rank (tk_acceptance_policy task)
    ≤ close_acceptance_policy_rank (tk_acceptance_policy task') ∧
  (∀ change_unit contract, cf_current_change_unit facts = Some change_unit →
     cu_effect_contract change_unit = Some contract → sensitive_effect contract = true →
     tk_effective_control_level task' = Sensitive) ∧
  match update with
  | None => facts' = facts
  | Some update => tcu_effective_control_level update = tk_effective_control_level task' ∧
      task' ≠ task
  end.
Proof.
  unfold resolve_control. intros H. peel H as policy _. peel H as mark _.
  set (resolved := resolve_task_control_authority _ _ _) in H.
  set (sensitive := is_some_and _ sensitive_effect) in H.
  set (next := if sensitive then Sensitive else _) in H.
  set (next_acceptance := if Nat.leb _ _ then _ else _) in H.
  assert (control_index (tk_effective_control_level (cf_task facts)) ≤ control_index next) as Hle.
  { unfold next. destruct sensitive; [destruct (tk_effective_control_level _); simpl; lia|].
    apply (resolve_no_downgrade (cf_task facts) mark policy). }
  assert (∀ change_unit contract, cf_current_change_unit facts = Some change_unit →
    cu_effect_contract change_unit = Some contract → sensitive_effect contract = true →
    next = Sensitive) as Hsens.
  { intros cu contract Hcu Hcontract Hs. unfold next, sensitive. rewrite Hcu. simpl.
    by rewrite Hcontract; simpl; rewrite Hs. }
  destruct (control_lt _ next) eqn:Hraised, (Nat.ltb _ (close_acceptance_policy_rank next_acceptance))
    eqn:Hacc; cbn [orb negb] in H; injection H as <- <-; cbn [cf_task facts_with_task with_control
      tk_effective_control_level tk_acceptance_policy tcu_effective_control_level].
  1-3: rewrite ?Nat.ltb_lt in Hacc; split_and!; [done|lia|done|done|].
  1-3: intros Heq; apply (f_equal tk_effective_control_level) in Heq as Hc;
    apply (f_equal tk_acceptance_policy) in Heq as Hp; simpl in Hc, Hp.
  - rewrite Hp in Hacc. lia.
  - by rewrite <-Hc, control_lt_irrefl in Hraised.
  - rewrite Hp in Hacc. lia.
  - split_and!; [lia|lia| |done]. intros cu contract Hcu Hcontract Hs.
    rewrite (Hsens _ _ Hcu Hcontract Hs) in Hraised. apply control_lt_false in Hraised.
    destruct (tk_effective_control_level _); simpl in Hraised; done || lia.
Qed.
End close_sound.

(** ** User observations *)

Section user_observations.
Context `{HC : Chrono} `{HZ : CanonicalSize} `{HD : CaptureDigest}.
Context {S : Type} `{HR : !CloseReader S}.
Implicit Types (store : S).






End user_observations.


(** ** Witnesses *)

#[local] Existing Instance decimal_chrono.

Definition close_facts : CloseReadinessFacts :=
  match acquire_close_readiness_facts (close_store Supported) close_project "p" "t1" 230 with
  | Ok facts => facts
  | Err _ => facts_from_projection sample_task None None [] [] None 0
  end.

Definition close_assessment : CloseReadinessAssessment :=
  match close_result Supported IntentComplete with
  | Ok a => a
  | Err _ => {| cas_context := close_facts; cas_control_update := None;
                cas_risk_acceptance_coverage := []; cas_blockers := []; cas_committed_terminal := false;
                cas_response_state_version := 0; cas_close_state := StateBlocked;
                cas_evidence_gate := GateBlocked |}
  end.

Lemma close_evaluates :
  evaluate_close_readiness_with_facts (close_store Supported) close_project
    (close_request IntentComplete) 230 close_facts = Ok close_assessment.
Proof. vm_compute. reflexivity. Qed.

Lemma close_assesses :
  assess_close_readiness (close_store Supported) close_project (close_request IntentComplete) 230
    = Ok close_assessment.
Proof. vm_compute. reflexivity. Qed.

Lemma close_state_correct_witness :
  cas_committed_terminal close_assessment = true ∧
  close_conditions (close_store Supported) close_project (close_request IntentComplete)
    (cas_context close_assessment) 230.
Proof.
  assert (cas_committed_terminal close_assessment = true) as Hc by (vm_compute; reflexivity).
  split; [exact Hc|].
  destruct (close_state_correct (close_store Supported) close_project (close_request IntentComplete)
    230 close_facts close_assessment close_evaluates) as (_ & _ & Hiff & _).
  exact (proj2 (proj1 Hiff Hc)).
Defined.

Lemma closed_task_evidence_user_rooted_witness :
  ∃ basis record, cf_current_close_basis (cas_context close_assessment) = Some basis ∧
    evidence_observation_record (close_store Supported) (eor_evidence_observation_id record)
      = Ok (Some record) ∧ eor_assurance_level record = UserObserved.
Proof.
  destruct (closed_task_evidence_user_rooted (close_store Supported) close_project
    (close_request IntentComplete) 230 close_assessment [close_criterion] close_criterion
    close_assesses eq_refl)
    as (basis & record & root & producer_ref & resolution & action & observation & Hb & Hr & _ & Hl & _);
    [vm_compute; reflexivity|reflexivity|constructor|reflexivity|].
  exists basis, record. exact (conj Hb (conj Hr Hl)).
Defined.

Lemma closed_task_gate_sufficient_witness : cas_evidence_gate close_assessment = GateSufficient.
Proof.
  apply (closed_task_gate_sufficient (close_store Supported) close_project
    (close_request IntentComplete) 230 close_assessment [close_criterion] close_criterion
    close_assesses eq_refl); [vm_compute; reflexivity|reflexivity|constructor|reflexivity].
Defined.

Lemma closed_without_acceptance_witness :
  finally_accepted (close_store Supported) (close_request IntentComplete)
    (cas_context close_assessment) ∨
  acceptance_waived (close_store Supported) (close_request IntentComplete)
    (cas_context close_assessment).
Proof.
  apply (closed_without_acceptance (close_store Supported) close_project
    (close_request IntentComplete) 230 close_facts close_assessment close_evaluates).
  vm_compute. reflexivity.
Defined.

Lemma close_control_never_lowered_witness :
  control_index Tracked ≤ control_index (tk_effective_control_level (cf_task close_facts)).
Proof.
  refine (proj1 (close_control_never_lowered (close_store Supported) close_facts close_facts None _)).
  vm_compute. reflexivity.
Defined.



