(* ===== verification/WorkflowAction.v ===== *)
(** * WorkflowAction: the transitions a workflow may offer

    Models the workflow vocabulary of [crates/volicord-types/src/values.rs] and the
    transition records of [crates/volicord-types/src/schema.rs]: the fixed authority
    coordinates of an action, the submission contract an agent fills in, the
    descriptor of one transition and the canonical catalog of all of them, with the
    check [WorkflowTransitionCatalog::new] runs over a candidate catalog.  A
    witness record holds the sample values the contract carries; a panic of
    [product_task_mode] is [None].  [TrueValue] and [FalseValue] are [unit]. *)

From S2P Require Import Prelude Text Values Canonical Schema Clock TicketStore Commit.
From S2P Require Import UserActionShape Evidence Capture.
Import Shaping.

(** ** Closed values *)

Inductive WorkflowStateKind :=
| SkNoActiveTask | SkShapingRequired | SkAwaitingUserAction | SkDecisionRecoveryRequired
| SkReadyToApplyDecisions | SkReadyForChangeUnit | SkReadyToFinalizeAdvice
| SkReadyForImplementation | SkImplementation | SkCloseReview | SkTerminal.
#[export] Instance WorkflowStateKind_eq_dec : EqDecision WorkflowStateKind.
Proof. solve_decision. Defined.

Inductive WorkflowBlockingReason :=
| BrNoCurrentCheckpoint | BrShapingGapsCurrent | BrUserActionPending
| BrAcceptedDecisionsNotApplied | BrDecisionRecoveryRequired | BrApplicationAuthorityStale
| BrChangeUnitRequired | BrAdvisorFinalizationRequired | BrExplicitAdvanceRequired
| BrRecoveryConstraint | BrInconsistentAuthorityState.
#[export] Instance WorkflowBlockingReason_eq_dec : EqDecision WorkflowBlockingReason.
Proof. solve_decision. Defined.

Inductive AuthorityNextActor := NextAgent | NextUser | NextNone.
#[export] Instance AuthorityNextActor_eq_dec : EqDecision AuthorityNextActor.
Proof. solve_decision. Defined.

Inductive WorkflowTransitionActor := ActorAgent | ActorUser | ActorSystem.
#[export] Instance WorkflowTransitionActor_eq_dec : EqDecision WorkflowTransitionActor.
Proof. solve_decision. Defined.

Inductive WorkflowAuthorityInvalidationPolicy := Permitted | Forbidden.
#[export] Instance WorkflowAuthorityInvalidationPolicy_eq_dec :
  EqDecision WorkflowAuthorityInvalidationPolicy.
Proof. solve_decision. Defined.

Inductive TransitionRejectionReason :=
| ActionNotCurrent | VariantNotCurrent | RunKindIncompatible | AuthorityBasisMismatch
| ImplementationAuthorityWouldBeInvalidated | UserAuthorityMissing | CheckpointStale
| ChangeUnitStale | WorkspaceBasisStale | ClosePreconditionMissing.
#[export] Instance TransitionRejectionReason_eq_dec : EqDecision TransitionRejectionReason.
Proof. solve_decision. Defined.

Inductive ChangeUnitOperation := KeepCurrent | CreateCurrent | ReplaceCurrent.
#[export] Instance ChangeUnitOperation_eq_dec : EqDecision ChangeUnitOperation.
Proof. solve_decision. Defined.

Inductive RunKind := RunImplementation | RunDirect.
#[export] Instance RunKind_eq_dec : EqDecision RunKind.
Proof. solve_decision. Defined.

Inductive CloseReason :=
| ReasonNone | CompletedSelfChecked | CompletedWithRiskAccepted | ReasonCancelled | ReasonSuperseded.
#[export] Instance CloseReason_eq_dec : EqDecision CloseReason.
Proof. solve_decision. Defined.

Inductive CloseMutationIntent := MutComplete | MutCancel | MutSupersede.
#[export] Instance CloseMutationIntent_eq_dec : EqDecision CloseMutationIntent.
Proof. solve_decision. Defined.

Inductive ShapingCheckpointReadiness := CheckpointBlocked | CheckpointReady | CheckpointSuperseded.
#[export] Instance ShapingCheckpointReadiness_eq_dec : EqDecision ShapingCheckpointReadiness.
Proof. solve_decision. Defined.

Inductive WorkflowActionRole := RoleRequired | RoleAllowed.
#[export] Instance WorkflowActionRole_eq_dec : EqDecision WorkflowActionRole.
Proof. solve_decision. Defined.

#[export] Instance WorkflowActionSemanticVariant_eq_dec :
  EqDecision WorkflowActionSemanticVariant.
Proof. solve_decision. Defined.
#[export] Instance WorkflowActionKey_eq_dec : EqDecision WorkflowActionKey.
Proof. solve_decision. Defined.
#[export] Instance WorkflowTransitionEffectClass_eq_dec :
  EqDecision WorkflowTransitionEffectClass.
Proof. solve_decision. Defined.
#[export] Instance WorkflowExpectedResultState_eq_dec : EqDecision WorkflowExpectedResultState.
Proof. solve_decision. Defined.

(** [WorkflowActionSemanticVariant::as_str]. *)
Definition variant_as_str (v : WorkflowActionSemanticVariant) : string :=
  match v with
  | VCreateInitial => "create_initial"
  | VReplaceCurrent => "replace_current"
  | VKeepCurrentChangeUnit => "keep_current_change_unit"
  | VCreateCurrentChangeUnit => "create_current_change_unit"
  | VReplaceCurrentChangeUnit => "replace_current_change_unit"
  | VFinalizeAdvice => "finalize_advice"
  | VAdvanceTask => "advance_task"
  | VPrepareEvidenceCapture => "prepare_evidence_capture"
  | VPrepareWrite => "prepare_write"
  | VStageArtifact => "stage_artifact"
  | VRecordRun => "record_run"
  | VRequestUserAction => "request_user_action"
  | VResolveUserAction => "resolve_user_action"
  | VReconcileChanges => "reconcile_changes"
  | VCheckClose => "check_close"
  | VCloseTask => "close_task"
  end.

Definition for_change_unit_operation (operation : ChangeUnitOperation)
    : WorkflowActionSemanticVariant :=
  match operation with
  | KeepCurrent => VKeepCurrentChangeUnit
  | CreateCurrent => VCreateCurrentChangeUnit
  | ReplaceCurrent => VReplaceCurrentChangeUnit
  end.

Definition change_unit_operation (v : WorkflowActionSemanticVariant) : option ChangeUnitOperation :=
  match v with
  | VKeepCurrentChangeUnit => Some KeepCurrent
  | VCreateCurrentChangeUnit => Some CreateCurrent
  | VReplaceCurrentChangeUnit => Some ReplaceCurrent
  | _ => None
  end.

Definition for_single_variant_method (method : MethodName)
    : option WorkflowActionSemanticVariant :=
  match method with
  | MFinalizeAdvice => Some VFinalizeAdvice
  | MAdvanceTask => Some VAdvanceTask
  | MPrepareEvidenceCapture => Some VPrepareEvidenceCapture
  | MPrepareWrite => Some VPrepareWrite
  | MStageArtifact => Some VStageArtifact
  | MRecordRun => Some VRecordRun
  | MRequestUserAction => Some VRequestUserAction
  | MResolveUserAction => Some VResolveUserAction
  | MReconcileChanges => Some VReconcileChanges
  | MCheckClose => Some VCheckClose
  | MCloseTask => Some VCloseTask
  | _ => None
  end.

(** The method of an application owner, [ShapingDecisionApplicationOwner::method]. *)
Definition owner_method (owner : ShapingDecisionApplicationOwner) : MethodName :=
  match owner with
  | OwnUpdateScope => MUpdateScope
  | OwnAdvanceTask => MAdvanceTask
  | OwnFinalizeAdvice => MFinalizeAdvice
  end.

(** ** The order of state references *)

Definition StateRecordKind_index (k : StateRecordKind) : N :=
  match k with
  | KProjectState => 0 | KTask => 1 | KChangeUnit => 2 | KShapingCheckpoint => 3
  | KShapingGap => 4 | KShapingDecisionApplication => 5
  | KShapingAuthorityReauthorization => 6 | KWriteTicket => 7 | KUserActionRequest => 8
  | KUserActionResolution => 9 | KRun => 10 | KEvidenceSummary => 11
  | KEvidenceObservation => 12 | KEvidenceCaptureIntent => 13 | KEvidenceProducer => 14
  | KArtifact => 15 | KBlocker => 16 | KTaskEvent => 17 | KAgentConnection => 18
  | KUnrecordedChange => 19 | KProjectContinuityRecord => 20
  end.

Definition state_record_ref_key (r : StateRecordRef)
    : N * (string * (string * (option string * option N))) :=
  (StateRecordKind_index (sr_record_kind r),
    (sr_record_id r, (sr_project_id r, (sr_task_id r, sr_produced_at_state_version r)))).

(** The derived [Ord]: lexicographic in field order, kinds in declaration order. *)
#[export] Instance state_record_ref_ord : RustOrd StateRecordRef.
Proof.
  refine (rust_ord_inj state_record_ref_key _).
  intros [k1 ? ? ? ?] [k2 ? ? ? ?]. unfold state_record_ref_key. simpl.
  intros [= Hk -> -> -> ->]. f_equal. destruct k1, k2; first [reflexivity | discriminate].
Defined.

(** ** Checkpoint summaries *)

Record ShapingCheckpointGap := {
  scg_shaping_gap_id : string;
  scg_gap_kind : ShapingGapKind;
  scg_application_owner : option ShapingDecisionApplicationOwner;
  scg_summary : string;
  scg_affected_refs : list StateRecordRef;
  scg_status : ShapingGapStatus;
  scg_decision_authority_state : option ShapingDecisionAuthorityState;
  scg_user_action_request_ref : option StateRecordRef;
  scg_user_action_resolution_ref : option StateRecordRef;
  scg_reauthorizes_application_ref : option StateRecordRef;
}.

Record ShapingDecisionRecoveryRequirement := {
  drr_shaping_gap_id : string;
  drr_user_action_request_ref : StateRecordRef;
  drr_user_action_resolution_ref : option StateRecordRef;
  drr_disposition : ShapingDecisionAuthorityState;
  drr_reason : ShapingDecisionRecoveryReason;
}.

Record ShapingCheckpointSummary := {
  scs_checkpoint_ref : StateRecordRef;
  scs_predecessor_checkpoint_ref : option StateRecordRef;
  scs_readiness : ShapingCheckpointReadiness;
  scs_scope_revision : N;
  scs_baseline_ref : option BaselineRef;
  scs_implementation_boundary : option string;
  scs_gaps : list ShapingCheckpointGap;
  scs_current_application_refs : list StateRecordRef;
  scs_pending_decision_refs : list StateRecordRef;
  scs_unresolved_application_owners : list ShapingDecisionApplicationOwner;
  scs_decision_recovery_requirements : list ShapingDecisionRecoveryRequirement;
}.

(** ** Authority coordinates *)

Inductive WorkflowCheckpointActionCoordinates :=
| CoordCreateInitial
| CoordReplaceCurrent (current_checkpoint_ref : StateRecordRef)
    (predecessor_checkpoint_ref : option StateRecordRef)
    (retired_non_authorizing_request_refs carry_forward_application_refs
     stale_application_refs : list StateRecordRef).

Definition checkpoint_coordinates_variant (c : WorkflowCheckpointActionCoordinates)
    : WorkflowActionSemanticVariant :=
  match c with
  | CoordCreateInitial => VCreateInitial
  | CoordReplaceCurrent _ _ _ _ _ => VReplaceCurrent
  end.

Inductive WorkflowActionAuthorityCoordinates :=
| CRecordShapingCheckpoint (task_id : TaskId)
    (checkpoint_operation : WorkflowCheckpointActionCoordinates) (scope_revision : N)
    (baseline_ref : option BaselineRef)
| CUpdateScope (task_id : TaskId) (task_mode : TaskMode) (scope_revision : N)
    (baseline_ref : option BaselineRef) (current_change_unit_id : option ChangeUnitId)
    (related_scope_decision_refs : list StateRecordRef)
    (selected_change_unit_operation : ChangeUnitOperation)
| CFinalizeAdvice (task_id : TaskId) (shaping_checkpoint_id : string)
    (change_unit_id : ChangeUnitId) (scope_revision : N) (baseline_ref : option BaselineRef)
    (user_action_resolution_ids : list UserActionResolutionId)
| CAdvanceTask (task_id : TaskId) (shaping_checkpoint_id : string)
    (change_unit_id : ChangeUnitId) (scope_revision : N) (baseline_ref : option BaselineRef)
    (user_action_resolution_ids : list UserActionResolutionId)
| CPrepareEvidenceCapture (task_id : TaskId) (change_unit_id : ChangeUnitId)
    (baseline_ref : BaselineRef)
| CPrepareWrite (task_id : TaskId) (change_unit_id : ChangeUnitId) (baseline_ref : BaselineRef)
| CStageArtifact (task_id : TaskId)
| CRecordRun (task_id : TaskId) (change_unit_id : ChangeUnitId) (baseline_ref : BaselineRef)
    (run_kind : RunKind)
| CRequestUserAction (task_id : TaskId) (change_unit_id : option ChangeUnitId)
| CResolveUserAction (task_id : TaskId) (user_action_request_refs : list StateRecordRef)
| CReconcileChanges (task_id : TaskId)
| CCheckClose (task_id : TaskId)
| CCloseTask (task_id : TaskId).

Definition coordinates_task_id (c : WorkflowActionAuthorityCoordinates) : TaskId :=
  match c with
  | CRecordShapingCheckpoint task_id _ _ _ | CUpdateScope task_id _ _ _ _ _ _
  | CFinalizeAdvice task_id _ _ _ _ _ | CAdvanceTask task_id _ _ _ _ _
  | CPrepareEvidenceCapture task_id _ _ | CPrepareWrite task_id _ _ | CStageArtifact task_id
  | CRecordRun task_id _ _ _ | CRequestUserAction task_id _ | CResolveUserAction task_id _
  | CReconcileChanges task_id | CCheckClose task_id | CCloseTask task_id => task_id
  end.

Definition coordinates_method (c : WorkflowActionAuthorityCoordinates) : MethodName :=
  match c with
  | CRecordShapingCheckpoint _ _ _ _ => MRecordShapingCheckpoint
  | CUpdateScope _ _ _ _ _ _ _ => MUpdateScope
  | CFinalizeAdvice _ _ _ _ _ _ => MFinalizeAdvice
  | CAdvanceTask _ _ _ _ _ _ => MAdvanceTask
  | CPrepareEvidenceCapture _ _ _ => MPrepareEvidenceCapture
  | CPrepareWrite _ _ _ => MPrepareWrite
  | CStageArtifact _ => MStageArtifact
  | CRecordRun _ _ _ _ => MRecordRun
  | CRequestUserAction _ _ => MRequestUserAction
  | CResolveUserAction _ _ => MResolveUserAction
  | CReconcileChanges _ => MReconcileChanges
  | CCheckClose _ => MCheckClose
  | CCloseTask _ => MCloseTask
  end.

Definition coordinates_variant (c : WorkflowActionAuthorityCoordinates)
    : WorkflowActionSemanticVariant :=
  match c with
  | CRecordShapingCheckpoint _ checkpoint_operation _ _ =>
      checkpoint_coordinates_variant checkpoint_operation
  | CUpdateScope _ _ _ _ _ _ operation => for_change_unit_operation operation
  | CFinalizeAdvice _ _ _ _ _ _ => VFinalizeAdvice
  | CAdvanceTask _ _ _ _ _ _ => VAdvanceTask
  | CPrepareEvidenceCapture _ _ _ => VPrepareEvidenceCapture
  | CPrepareWrite _ _ _ => VPrepareWrite
  | CStageArtifact _ => VStageArtifact
  | CRecordRun _ _ _ _ => VRecordRun
  | CRequestUserAction _ _ => VRequestUserAction
  | CResolveUserAction _ _ => VResolveUserAction
  | CReconcileChanges _ => VReconcileChanges
  | CCheckClose _ => VCheckClose
  | CCloseTask _ => VCloseTask
  end.

(** ** Request inputs the contracts mention *)

Inductive SourceRef :=
| RepositoryFile (repository_path baseline_commit_sha content_sha256 : string)
    (line_range : option (N * N))
| GitCommit (commit_sha : string)
| GitDiff (base_commit_sha head_commit_sha : string) (diff_artifact_ref : option ArtifactRef)
| CommandRef (invocation_id command_summary : string) (exit_code : Z)
    (output_artifact_ref : option ArtifactRef)
| ExternalUri (uri : string) (retrieved_at : UtcTimestamp) (content_sha256 : string)
| UserContextRef (context_id : string).

Record ShapingUserActionDraft := {
  sua_action : UserActionDraft;
  sua_expires_at : option UtcTimestamp;
}.

Record ShapingGapInput := {
  sgi_gap_kind : ShapingGapKind;
  sgi_summary : string;
  sgi_affected_refs : list StateRecordRef;
  sgi_user_action : option ShapingUserActionDraft;
}.

Record AcceptanceCriterionReplacement := {
  acr_acceptance_criterion_id : option string;
  acr_statement : string;
  acr_evidence_requirement : EvidenceRequirement;
}.

Record ResidualRiskInput := {
  rri_summary : string;
  rri_consequence : string;
  rri_acceptance_required : bool;
  rri_source_refs : list StateRecordRef;
}.

Record CloseAssessmentInput := {
  cai_result_summary : string;
  cai_result_refs : list StateRecordRef;
  cai_residual_risks : list ResidualRiskInput;
  cai_sensitive_categories : list string;
  cai_recovery_constraints : list string;
}.

Record StagedArtifactHandle := {
  sah_handle_id : string;
  sah_project_id : ProjectId;
  sah_task_id : TaskId;
  sah_created_by_actor_source : ActorSource;
  sah_content_type : string;
  sah_sha256 : string;
  sah_size_bytes : N;
  sah_redaction_state : RedactionState;
  sah_expires_at : UtcTimestamp;
  sah_consumed : bool;
}.

Inductive ArtifactInputSourceKind := SourceStagedArtifact | SourceExistingArtifact.

Record ArtifactInput := {
  ain_artifact_input_id : string;
  ain_source_kind : ArtifactInputSourceKind;
  ain_staged_artifact_handle : option StagedArtifactHandle;
  ain_existing_artifact_ref : option ArtifactRef;
  ain_relation_hint : option string;
  ain_evidence_target : option EvidenceTarget;
  ain_expected_sha256 : option string;
  ain_expected_size_bytes : option N;
  ain_redaction_state : option RedactionState;
}.

Inductive EvidenceCoverageUpdateState :=
| UpdUnsupported | UpdPartial | UpdSupported | UpdContradicted | UpdNotApplicable.

Record EvidenceUpdateProvenance := {
  eup_source_kind : EvidenceSourceKind;
  eup_assurance_level : EvidenceAssuranceLevel;
  eup_observed_at : option UtcTimestamp;
  eup_tool_name : option string;
  eup_tool_invocation_id : option string;
  eup_tool_metadata : JsonObject;
  eup_source_refs : list SourceRef;
  eup_limitations : list string;
}.

Record EvidenceCoverageUpdate := {
  ecu_target : EvidenceTarget;
  ecu_coverage_state : EvidenceCoverageUpdateState;
  ecu_provenance : option EvidenceUpdateProvenance;
  ecu_supporting_run_refs : list StateRecordRef;
  ecu_observation_refs : list StateRecordRef;
  ecu_supporting_artifact_refs : list ArtifactRef;
  ecu_gap_refs : list StateRecordRef;
}.

Record EvidenceObservationInput := {
  eoi_target : EvidenceTarget;
  eoi_source_kind : EvidenceSourceKind;
  eoi_assurance_level : EvidenceAssuranceLevel;
  eoi_observed_by_actor_source : option ActorSource;
  eoi_tool_name : option string;
  eoi_tool_invocation_id : option string;
  eoi_tool_metadata : JsonObject;
  eoi_input_refs : list StateRecordRef;
  eoi_source_refs : list SourceRef;
  eoi_output_artifact_refs : list ArtifactRef;
  eoi_limitations : list string;
  eoi_observed_at : UtcTimestamp;
}.

Inductive UnrecordedChangeResolutionBasis :=
| Reverted | CoveredByWriteTicket | RecordedAsExpectedWrite | AcceptedByUser.

Record UnrecordedChangeResolutionRequest := {
  ucr_unrecorded_change_id : string;
  ucr_basis : UnrecordedChangeResolutionBasis;
  ucr_user_action_resolution_id : option UserActionResolutionId;
}.

(** ** Submission contracts *)

(** [WorkflowNoSubmissionValues]. *)
Definition NoValues : Type := unit.

Inductive WorkflowStaleAuthorityActionWitness := WitnessRetire.

Record WorkflowShapingCheckpointRequiredWitness := {
  scw_summary : string;
  scw_implementation_boundary : option string;
  scw_gaps : list ShapingGapInput;
  scw_stale_authority_actions : list WorkflowStaleAuthorityActionWitness;
}.

Record WorkflowShapingCheckpointOptionalWitness := {
  sco_source_refs : list SourceRef;
  sco_evidence_refs : list StateRecordRef;
  sco_stale_successor_gap : option ShapingGapInput;
}.

Inductive WorkflowRecordShapingCheckpointSubmissionContract :=
| SubCreateInitial (required : WorkflowShapingCheckpointRequiredWitness)
    (optional : WorkflowShapingCheckpointOptionalWitness)
| SubReplaceCurrent (required : WorkflowShapingCheckpointRequiredWitness)
    (optional : WorkflowShapingCheckpointOptionalWitness).

Record WorkflowScopeUpdateWitness := { suw_include : list string; suw_exclude : list string }.

Record WorkflowUpdateScopeRequiredWitness := {
  usw_goal_summary : option string;
  usw_scope_update : option WorkflowScopeUpdateWitness;
  usw_scope_boundary : option string;
  usw_non_goals : option (list string);
  usw_acceptance_criteria : option (list AcceptanceCriterionReplacement);
  usw_autonomy_boundary : option string;
  usw_baseline_ref : option BaselineRef;
}.

Record WorkflowChangeUnitRequiredWitness := {
  cuw_scope_summary : string;
  cuw_affected_paths : list string;
}.

Record WorkflowAdvisorChangeUnitRequiredWitness := { acw_scope_summary : string }.

Record WorkflowGeneralChangeUnitOptionalWitness := {
  gco_affected_areas : list string;
  gco_constraints : list string;
  gco_effect_contract : option ChangeUnitEffectContract;
}.

Record WorkflowAdvisorChangeUnitOptionalWitness := {
  aco_affected_areas : list string;
  aco_constraints : list string;
}.

Record WorkflowAdvisorChangeUnitFixedValues := {
  acf_affected_paths : list string;
  acf_effect_contract : ChangeUnitEffectContract;
}.

(** Three [FalseValue] fields: a record with one value. *)
Record WorkflowAdvisorChangeUnitConstraints := {
  acc_product_repository_authority : unit;
  acc_affected_paths_agent_authored : unit;
  acc_effect_contract_agent_authored : unit;
}.
#[export] Instance WorkflowAdvisorChangeUnitConstraints_eq_dec :
  EqDecision WorkflowAdvisorChangeUnitConstraints.
Proof. solve_decision. Defined.

Inductive WorkflowProductTaskMode := ProductDirect | ProductWork.

Inductive WorkflowUpdateScopeSubmissionContract :=
| SubKeepCurrentChangeUnit (required : WorkflowUpdateScopeRequiredWitness) (optional : NoValues)
| SubGeneralCreateCurrentChangeUnit (task_mode : WorkflowProductTaskMode)
    (required : WorkflowUpdateScopeRequiredWitness)
    (change_unit : WorkflowChangeUnitRequiredWitness)
    (optional : WorkflowGeneralChangeUnitOptionalWitness)
| SubGeneralReplaceCurrentChangeUnit (task_mode : WorkflowProductTaskMode)
    (required : WorkflowUpdateScopeRequiredWitness)
    (change_unit : WorkflowChangeUnitRequiredWitness)
    (optional : WorkflowGeneralChangeUnitOptionalWitness)
| SubAdvisorCreateCurrentChangeUnit (required : WorkflowUpdateScopeRequiredWitness)
    (change_unit : WorkflowAdvisorChangeUnitRequiredWitness)
    (optional : WorkflowAdvisorChangeUnitOptionalWitness)
    (fixed_values : WorkflowAdvisorChangeUnitFixedValues)
    (constraints : WorkflowAdvisorChangeUnitConstraints)
| SubAdvisorReplaceCurrentChangeUnit (required : WorkflowUpdateScopeRequiredWitness)
    (change_unit : WorkflowAdvisorChangeUnitRequiredWitness)
    (optional : WorkflowAdvisorChangeUnitOptionalWitness)
    (fixed_values : WorkflowAdvisorChangeUnitFixedValues)
    (constraints : WorkflowAdvisorChangeUnitConstraints).

Record WorkflowFinalizeAdviceRequiredWitness := { faw_result_summary : string }.

Record WorkflowFinalizeAdviceOptionalWitness := {
  fao_result_refs : list StateRecordRef;
  fao_evidence_refs : list StateRecordRef;
  fao_residual_risks : list ResidualRiskInput;
  fao_recovery_constraints : list string;
}.

Record WorkflowPrepareEvidenceCaptureRequiredWitness := {
  pew_target : EvidenceTarget;
  pew_capture : EvidenceCaptureSpec;
}.

Record WorkflowPrepareWriteRequiredWitness := {
  pww_intended_operation : string;
  pww_intended_paths : list string;
  pww_product_file_write_intended : bool;
}.

Record WorkflowPrepareWriteOptionalWitness := { pwo_sensitive_categories : list string }.

Record WorkflowStageArtifactRequiredWitness := {
  saw_display_name : string;
  saw_content_type : string;
  saw_redaction_state : RedactionState;
  saw_safe_bytes_or_notice : string;
  saw_expected_sha256 : option string;
  saw_expected_size_bytes : option N;
  saw_relation_hint : option string;
}.

Record WorkflowRecordRunRequiredWitness := {
  rrw_kind : RunKind;
  rrw_run_id : option string;
  rrw_write_ticket_id : option string;
  rrw_performed_operation : option string;
  rrw_summary : string;
  rrw_observed_changes : ObservedChanges;
  rrw_close_assessment : option CloseAssessmentInput;
}.

Record WorkflowRecordRunOptionalWitness := {
  rro_artifact_inputs : list ArtifactInput;
  rro_evidence_updates : list EvidenceCoverageUpdate;
  rro_evidence_observations : list EvidenceObservationInput;
}.

Record WorkflowUserActionChoiceWitness := {
  uaw_judgment_kind : JudgmentKind;
  uaw_presentation : JudgmentPresentation;
  uaw_prompt : string;
  uaw_options : option (list UserActionOptionInput);
  uaw_context : UserActionContext;
  uaw_affected_refs : list StateRecordRef;
}.

Record WorkflowRequestUserActionRequiredWitness := {
  ruw_choice : WorkflowUserActionChoiceWitness;
  ruw_required_for : list UserActionRequiredFor;
  ruw_expires_at : option UtcTimestamp;
}.

Record WorkflowReconcileChangesOptionalWitness := {
  rco_resolution_requests : list UnrecordedChangeResolutionRequest;
}.

Record WorkflowCloseTaskRequiredWitness := {
  ctw_intent : CloseMutationIntent;
  ctw_close_reason : option CloseReason;
  ctw_superseding_task_id : option TaskId;
  ctw_user_note : option string;
}.

Inductive WorkflowTransitionSubmissionContract :=
| SubRecordShapingCheckpoint (contract : WorkflowRecordShapingCheckpointSubmissionContract)
| SubUpdateScope (contract : WorkflowUpdateScopeSubmissionContract)
| SubFinalizeAdvice (required : WorkflowFinalizeAdviceRequiredWitness)
    (optional : WorkflowFinalizeAdviceOptionalWitness)
| SubAdvanceTask (required optional : NoValues)
| SubPrepareEvidenceCapture (required : WorkflowPrepareEvidenceCaptureRequiredWitness)
    (optional : NoValues)
| SubPrepareWrite (required : WorkflowPrepareWriteRequiredWitness)
    (optional : WorkflowPrepareWriteOptionalWitness)
| SubStageArtifact (required : WorkflowStageArtifactRequiredWitness) (optional : NoValues)
| SubRecordRun (required : WorkflowRecordRunRequiredWitness)
    (optional : WorkflowRecordRunOptionalWitness)
| SubRequestUserAction (required : WorkflowRequestUserActionRequiredWitness) (optional : NoValues)
| SubResolveUserAction (user_channel_submission_required : unit)
| SubReconcileChanges (required : NoValues) (optional : WorkflowReconcileChangesOptionalWitness)
| SubCheckClose (required optional : NoValues)
| SubCloseTask (required : WorkflowCloseTaskRequiredWitness) (optional : NoValues).

(** The gap witness of a checkpoint that has no baseline to stand on. *)
Definition baseline_gap_witness : ShapingGapInput :=
  {| sgi_gap_kind := UserTechnicalDecisionRequired;
     sgi_summary := "Choose the bounded direction needed to establish the current baseline.";
     sgi_affected_refs := [];
     sgi_user_action := Some
       {| sua_action := DraftChoice
            {| cd_judgment_kind := JTechnicalDecision; cd_presentation := Short;
               cd_question :=
                 "Which bounded direction should establish the current baseline?";
               cd_options := Some
                 [{| oi_option_id := "option_establish_current_baseline";
                     oi_label := "Use current direction";
                     oi_description := "Accept the current bounded direction.";
                     oi_consequence := "Shaping may continue on the accepted direction.";
                     oi_is_default := true |}];
               cd_context :=
                 {| uctx_summary :=
                      "A current baseline cannot be established without this bounded decision.";
                    uctx_related_refs := []; uctx_artifact_refs := [];
                    uctx_visible_risks := [];
                    uctx_constraints := ["The decision applies only to the current task."] |};
               cd_affected_refs := [];
               cd_sensitive_action_scope := None |};
          sua_expires_at := None |} |}.

(** The [RecordShapingCheckpoint] arm of [for_current_transition]. *)
Definition shaping_checkpoint_contract
    (checkpoint_operation : WorkflowCheckpointActionCoordinates)
    (baseline_ref : option BaselineRef) : WorkflowRecordShapingCheckpointSubmissionContract :=
  let stale_count :=
    match checkpoint_operation with
    | CoordCreateInitial => 0
    | CoordReplaceCurrent _ _ _ _ stale_application_refs => length stale_application_refs
    end in
  let ready_witness := is_some baseline_ref in
  let required :=
    {| scw_summary := "Current shaping checkpoint.";
       scw_implementation_boundary :=
         if ready_witness then Some "Keep execution inside the current bounded task." else None;
       scw_gaps := if ready_witness then [] else [baseline_gap_witness];
       scw_stale_authority_actions := replicate stale_count WitnessRetire |} in
  let optional :=
    {| sco_source_refs := []; sco_evidence_refs := []; sco_stale_successor_gap := None |} in
  match checkpoint_operation with
  | CoordCreateInitial => SubCreateInitial required optional
  | CoordReplaceCurrent _ _ _ _ _ => SubReplaceCurrent required optional
  end.

(** [product_task_mode]; [None] is its [unreachable!]. *)
Definition product_task_mode (mode : TaskMode) : option WorkflowProductTaskMode :=
  match mode with Direct => Some ProductDirect | Work => Some ProductWork | Advisor => None end.

Definition general_change_unit_witness : WorkflowChangeUnitRequiredWitness :=
  {| cuw_scope_summary := "Bounded current work."; cuw_affected_paths := [] |}.

Definition general_change_unit_optional_witness : WorkflowGeneralChangeUnitOptionalWitness :=
  {| gco_affected_areas := []; gco_constraints := []; gco_effect_contract := None |}.

Definition advisor_constraints : WorkflowAdvisorChangeUnitConstraints :=
  {| acc_product_repository_authority := tt; acc_affected_paths_agent_authored := tt;
     acc_effect_contract_agent_authored := tt |}.

Definition advisor_update_scope_contract (required : WorkflowUpdateScopeRequiredWitness)
    (replace : bool) : WorkflowUpdateScopeSubmissionContract :=
  let change_unit := {| acw_scope_summary := "Bounded observe-only advice." |} in
  let optional := {| aco_affected_areas := []; aco_constraints := [] |} in
  let fixed_values :=
    {| acf_affected_paths := []; acf_effect_contract := advisor_observe_only_effect_contract |} in
  if replace
  then SubAdvisorReplaceCurrentChangeUnit required change_unit optional fixed_values
         advisor_constraints
  else SubAdvisorCreateCurrentChangeUnit required change_unit optional fixed_values
         advisor_constraints.

(** The [UpdateScope] arm. *)
Definition update_scope_contract (task_mode : TaskMode) (baseline_ref : option BaselineRef)
    (operation : ChangeUnitOperation) : option WorkflowUpdateScopeSubmissionContract :=
  let required :=
    {| usw_goal_summary := None; usw_scope_update := None; usw_scope_boundary := None;
       usw_non_goals := None; usw_acceptance_criteria := None; usw_autonomy_boundary := None;
       usw_baseline_ref := baseline_ref |} in
  match task_mode, operation with
  | _, KeepCurrent => Some (SubKeepCurrentChangeUnit required tt)
  | Advisor, CreateCurrent => Some (advisor_update_scope_contract required false)
  | Advisor, ReplaceCurrent => Some (advisor_update_scope_contract required true)
  | mode, CreateCurrent =>
      product_mode ← product_task_mode mode;
      Some (SubGeneralCreateCurrentChangeUnit product_mode required
              general_change_unit_witness general_change_unit_optional_witness)
  | mode, ReplaceCurrent =>
      product_mode ← product_task_mode mode;
      Some (SubGeneralReplaceCurrentChangeUnit product_mode required
              general_change_unit_witness general_change_unit_optional_witness)
  end.

(** The [RequestUserAction] arm. *)
Definition request_user_action_witness : WorkflowRequestUserActionRequiredWitness :=
  {| ruw_choice :=
       {| uaw_judgment_kind := JTechnicalDecision; uaw_presentation := Short;
          uaw_prompt := "Choose the submission-contract validation outcome.";
          uaw_options := Some
            [{| oi_option_id := "option_submission_contract_validation"; oi_label := "Continue";
                oi_description := "Continue the current bounded task.";
                oi_consequence := "The current task may continue."; oi_is_default := true |}];
          uaw_context :=
            {| uctx_summary := "A bounded validation decision is required.";
               uctx_related_refs := []; uctx_artifact_refs := []; uctx_visible_risks := [];
               uctx_constraints := ["The decision applies only to the current task."] |};
          uaw_affected_refs := [] |};
     ruw_required_for := [ForInformational]; ruw_expires_at := None |}.

(** [WorkflowTransitionSubmissionContract::for_current_transition]. *)
Definition for_current_transition (task_mode : TaskMode)
    (coordinates : WorkflowActionAuthorityCoordinates)
    : option WorkflowTransitionSubmissionContract :=
  match coordinates with
  | CRecordShapingCheckpoint _ checkpoint_operation _ baseline_ref =>
      Some (SubRecordShapingCheckpoint
              (shaping_checkpoint_contract checkpoint_operation baseline_ref))
  | CUpdateScope _ _ _ baseline_ref _ _ operation =>
      SubUpdateScope <$> update_scope_contract task_mode baseline_ref operation
  | CFinalizeAdvice _ _ _ _ _ _ => Some
      (SubFinalizeAdvice {| faw_result_summary := "Current advice result." |}
         {| fao_result_refs := []; fao_evidence_refs := []; fao_residual_risks := [];
            fao_recovery_constraints := [] |})
  | CAdvanceTask _ _ _ _ _ _ => Some (SubAdvanceTask tt tt)
  | CPrepareEvidenceCapture _ _ _ => Some
      (SubPrepareEvidenceCapture
         {| pew_target := SupplementalClaim "workflow_form_witness"
              "Submission-contract validation witness.";
            pew_capture := VerifiedCommandExecutionSpec
              "0000000000000000000000000000000000000000000000000000000000000000"
              "submission-contract witness" None |} tt)
  | CPrepareWrite _ _ _ => Some
      (SubPrepareWrite
         {| pww_intended_operation := "Submission-contract validation witness.";
            pww_intended_paths := []; pww_product_file_write_intended := false |}
         {| pwo_sensitive_categories := [] |})
  | CStageArtifact _ => Some
      (SubStageArtifact
         {| saw_display_name := "Submission-contract witness"; saw_content_type := "text/plain";
            saw_redaction_state := Redacted;
            saw_safe_bytes_or_notice := "Validation witness; no artifact content.";
            saw_expected_sha256 := None; saw_expected_size_bytes := None;
            saw_relation_hint := None |} tt)
  | CRecordRun _ _ baseline_ref run_kind => Some
      (SubRecordRun
         {| rrw_kind := run_kind; rrw_run_id := None; rrw_write_ticket_id := None;
            rrw_performed_operation := None;
            rrw_summary := "Submission-contract validation witness.";
            rrw_observed_changes :=
              {| oc_changed_paths := []; oc_product_file_write_observed := false;
                 oc_sensitive_categories := []; oc_baseline_ref := Some baseline_ref |};
            rrw_close_assessment := None |}
         {| rro_artifact_inputs := []; rro_evidence_updates := [];
            rro_evidence_observations := [] |})
  | CRequestUserAction _ _ => Some (SubRequestUserAction request_user_action_witness tt)
  | CResolveUserAction _ _ => Some (SubResolveUserAction tt)
  | CReconcileChanges _ => Some (SubReconcileChanges tt {| rco_resolution_requests := [] |})
  | CCheckClose _ => Some (SubCheckClose tt tt)
  | CCloseTask _ => Some
      (SubCloseTask
         {| ctw_intent := MutCancel; ctw_close_reason := Some ReasonCancelled;
            ctw_superseding_task_id := None; ctw_user_note := None |} tt)
  end.

Definition contract_method (c : WorkflowTransitionSubmissionContract) : MethodName :=
  match c with
  | SubRecordShapingCheckpoint _ => MRecordShapingCheckpoint
  | SubUpdateScope _ => MUpdateScope
  | SubFinalizeAdvice _ _ => MFinalizeAdvice
  | SubAdvanceTask _ _ => MAdvanceTask
  | SubPrepareEvidenceCapture _ _ => MPrepareEvidenceCapture
  | SubPrepareWrite _ _ => MPrepareWrite
  | SubStageArtifact _ _ => MStageArtifact
  | SubRecordRun _ _ => MRecordRun
  | SubRequestUserAction _ _ => MRequestUserAction
  | SubResolveUserAction _ => MResolveUserAction
  | SubReconcileChanges _ _ => MReconcileChanges
  | SubCheckClose _ _ => MCheckClose
  | SubCloseTask _ _ => MCloseTask
  end.

Definition contract_variant (c : WorkflowTransitionSubmissionContract)
    : WorkflowActionSemanticVariant :=
  match c with
  | SubRecordShapingCheckpoint (SubCreateInitial _ _) => VCreateInitial
  | SubRecordShapingCheckpoint (SubReplaceCurrent _ _) => VReplaceCurrent
  | SubUpdateScope (SubKeepCurrentChangeUnit _ _) => VKeepCurrentChangeUnit
  | SubUpdateScope (SubGeneralCreateCurrentChangeUnit _ _ _ _)
  | SubUpdateScope (SubAdvisorCreateCurrentChangeUnit _ _ _ _ _) => VCreateCurrentChangeUnit
  | SubUpdateScope (SubGeneralReplaceCurrentChangeUnit _ _ _ _)
  | SubUpdateScope (SubAdvisorReplaceCurrentChangeUnit _ _ _ _ _) => VReplaceCurrentChangeUnit
  | SubFinalizeAdvice _ _ => VFinalizeAdvice
  | SubAdvanceTask _ _ => VAdvanceTask
  | SubPrepareEvidenceCapture _ _ => VPrepareEvidenceCapture
  | SubPrepareWrite _ _ => VPrepareWrite
  | SubStageArtifact _ _ => VStageArtifact
  | SubRecordRun _ _ => VRecordRun
  | SubRequestUserAction _ _ => VRequestUserAction
  | SubResolveUserAction _ => VResolveUserAction
  | SubReconcileChanges _ _ => VReconcileChanges
  | SubCheckClose _ _ => VCheckClose
  | SubCloseTask _ _ => VCloseTask
  end.

Definition update_scope_required (c : WorkflowUpdateScopeSubmissionContract)
    : WorkflowUpdateScopeRequiredWitness :=
  match c with
  | SubKeepCurrentChangeUnit required _
  | SubGeneralCreateCurrentChangeUnit _ required _ _
  | SubGeneralReplaceCurrentChangeUnit _ required _ _
  | SubAdvisorCreateCurrentChangeUnit required _ _ _ _
  | SubAdvisorReplaceCurrentChangeUnit required _ _ _ _ => required
  end.

Definition checkpoint_required (c : WorkflowRecordShapingCheckpointSubmissionContract)
    : WorkflowShapingCheckpointRequiredWitness :=
  match c with SubCreateInitial required _ | SubReplaceCurrent required _ => required end.

(** [WorkflowTransitionSubmissionContract::is_well_formed_for]. *)
Definition is_well_formed_for (c : WorkflowTransitionSubmissionContract)
    (coordinates : WorkflowActionAuthorityCoordinates) : bool :=
  if (contract_method c <>? coordinates_method coordinates)
     || (contract_variant c <>? coordinates_variant coordinates)
  then false
  else if match c, coordinates with
          | SubUpdateScope contract, CUpdateScope _ _ _ baseline_ref _ _ _ =>
              usw_baseline_ref (update_scope_required contract) <>? baseline_ref
          | _, _ => false
          end
  then false
  else
    match c, coordinates with
    | SubRecordShapingCheckpoint contract,
        CRecordShapingCheckpoint _ checkpoint_operation _ baseline_ref =>
        let required := checkpoint_required contract in
        let stale_count_matches :=
          match checkpoint_operation with
          | CoordCreateInitial => list_is_empty (scw_stale_authority_actions required)
          | CoordReplaceCurrent _ _ _ _ stale_application_refs =>
              Nat.eqb (length (scw_stale_authority_actions required))
                (length stale_application_refs)
          end in
        let readiness_witness_is_committable :=
          if list_is_empty (scw_gaps required)
          then is_some baseline_ref
               && is_some_and (scw_implementation_boundary required) (λ value, negb (blank value))
          else true in
        stale_count_matches && readiness_witness_is_committable
    | SubUpdateScope (SubGeneralCreateCurrentChangeUnit task_mode _ _ _),
        CUpdateScope _ coordinate_mode _ _ _ _ _
    | SubUpdateScope (SubGeneralReplaceCurrentChangeUnit task_mode _ _ _),
        CUpdateScope _ coordinate_mode _ _ _ _ _ =>
        match task_mode, coordinate_mode with
        | ProductDirect, Direct | ProductWork, Work => true
        | _, _ => false
        end
    | SubUpdateScope (SubAdvisorCreateCurrentChangeUnit _ _ _ fixed_values constraints),
        CUpdateScope _ Advisor _ _ _ _ _
    | SubUpdateScope (SubAdvisorReplaceCurrentChangeUnit _ _ _ fixed_values constraints),
        CUpdateScope _ Advisor _ _ _ _ _ =>
        list_is_empty (acf_affected_paths fixed_values)
        && (acf_effect_contract fixed_values =? advisor_observe_only_effect_contract)
        && (constraints =? advisor_constraints)
    | SubUpdateScope contract, CUpdateScope _ _ _ _ _ _ _ =>
        match contract with SubKeepCurrentChangeUnit _ _ => true | _ => false end
    | SubRecordRun required _, CRecordRun _ _ baseline_ref run_kind =>
        (rrw_kind required =? run_kind)
        && (oc_baseline_ref (rrw_observed_changes required) =? Some baseline_ref)
    | _, _ => true
    end.

(** ** Descriptors and catalogs *)

Record TransitionDescriptor := {
  td_action_key : WorkflowActionKey;
  td_actor : WorkflowTransitionActor;
  td_role : WorkflowActionRole;
  td_expected_state_version : N;
  td_fixed_authority_coordinates : WorkflowActionAuthorityCoordinates;
  td_submission_contract : WorkflowTransitionSubmissionContract;
  td_effect_class : WorkflowTransitionEffectClass;
  td_expected_result_state : WorkflowExpectedResultState;
  td_authority_invalidation : WorkflowAuthorityInvalidationPolicy;
  td_required_refs : list StateRecordRef;
}.

Record WorkflowTransitionCatalog := { wc_transitions : list TransitionDescriptor }.


Definition string_gt (a b : string) : bool := match rcompare a b with Gt => true | _ => false end.
Definition string_ge (a b : string) : bool := match rcompare a b with Lt => false | _ => true end.

Definition expected_transition_actor (method : MethodName) : WorkflowTransitionActor :=
  if method =? MResolveUserAction then ActorUser else ActorAgent.

(** [result_state_matches] of the catalog check. *)
Definition result_state_matches (method : MethodName) (state : WorkflowExpectedResultState)
    : bool :=
  match method with
  | MAdvanceTask => state =? ResultImplementation
  | MFinalizeAdvice => state =? CloseReview
  | MCheckClose => contains state [CloseReview; ReevaluateCurrentAuthority]
  | MRequestUserAction => state =? AwaitingUserAction
  | MCloseTask => state =? Terminal
  | MPrepareEvidenceCapture | MPrepareWrite | MRecordRun | MReconcileChanges =>
      state =? ResultImplementation
  | MStageArtifact => contains state [ResultImplementation; ReevaluateCurrentAuthority]
  | _ => state =? ReevaluateCurrentAuthority
  end.

Definition operation_matches_current (coordinates : WorkflowActionAuthorityCoordinates) : bool :=
  match coordinates with
  | CUpdateScope _ _ _ _ current_change_unit_id _ operation =>
      match operation with
      | CreateCurrent => is_none current_change_unit_id
      | KeepCurrent => true
      | ReplaceCurrent => is_some current_change_unit_id
      end
  | _ => true
  end.

Definition check_user_action_refs (transition : TransitionDescriptor) : result unit string :=
  match td_fixed_authority_coordinates transition with
  | CResolveUserAction _ refs =>
      if list_is_empty refs
      then Err "workflow user transition requires exact current UserAction refs"
      else if not_ascending refs
      then Err "workflow UserAction refs are duplicated or not in canonical order"
      else if existsb (λ reference, negb (contains reference (td_required_refs transition))) refs
      then Err "workflow UserAction transition refs are absent from required refs"
      else Ok ()
  | _ => Ok ()
  end.

(** What the catalog checks of one transition on its own. *)
Definition check_transition (transition : TransitionDescriptor) : result unit string :=
  let key := td_action_key transition in
  let method := ak_method key in
  let coordinates := td_fixed_authority_coordinates transition in
  if variant_method (ak_semantic_variant key) <>? method
  then Err "workflow transition semantic variant does not belong to its method"
  else if td_actor transition <>? expected_transition_actor method
  then Err "workflow transition actor does not match its method authority"
  else if coordinates_method coordinates <>? method
  then Err "workflow transition method does not match its authority coordinates"
  else if ak_semantic_variant key <>? coordinates_variant coordinates
  then Err "workflow transition variant does not match its authority coordinates"
  else if negb (is_well_formed_for (td_submission_contract transition) coordinates)
  then Err "workflow transition submission contract does not match current authority"
  else if not_ascending (td_required_refs transition)
  then Err "workflow transition required refs are duplicated or not in canonical order"
  else if td_effect_class transition <>? transition_effect_class method
  then Err "workflow transition effect class does not match its method"
  else if negb (result_state_matches method (td_expected_result_state transition))
  then Err "workflow transition expected result state does not match its method"
  else if (td_authority_invalidation transition =? Forbidden)
          && ((method <>? MUpdateScope)
              || (ak_semantic_variant key <>? VKeepCurrentChangeUnit))
  then Err "workflow authority invalidation may be forbidden only for keep-current scope updates"
  else Ok ().

(** The loop of [WorkflowTransitionCatalog::new]: the previous key, state version and
    Task, and the number of required transitions seen. *)
Fixpoint check_transitions (previous : option WorkflowActionKey) (version : option N)
    (task_id : option TaskId) (required_count : nat) (transitions : list TransitionDescriptor)
    : result nat string :=
  match transitions with
  | [] => Ok required_count
  | transition :: rest =>
      let key := td_action_key transition in
      let coordinates := td_fixed_authority_coordinates transition in
      if is_some_and previous (λ previous,
           string_gt (MethodName_as_str (ak_method previous)) (MethodName_as_str (ak_method key))
           || ((ak_method previous =? ak_method key)
               && string_ge (variant_as_str (ak_semantic_variant previous))
                    (variant_as_str (ak_semantic_variant key))))
      then Err "workflow transition catalog keys are duplicated or not in canonical order"
      else
        let? _ := check_transition transition in
        if is_some_and version (λ version, version <>? td_expected_state_version transition)
        then Err "workflow transition catalog mixes expected state versions"
        else if is_some_and task_id (λ task_id, task_id <>? coordinates_task_id coordinates)
        then Err "workflow transition catalog mixes Task identities"
        else if negb (operation_matches_current coordinates)
        then Err "workflow update-scope operation does not match current Change Unit authority"
        else
          let? _ := check_user_action_refs transition in
          check_transitions (Some key) (Some (td_expected_state_version transition))
            (Some (coordinates_task_id coordinates))
            (if td_role transition =? RoleRequired then S required_count else required_count)
            rest
  end.

(** [WorkflowTransitionCatalog::new]. *)
Definition catalog_new (transitions : list TransitionDescriptor)
    : result WorkflowTransitionCatalog string :=
  let? required_count := check_transitions None None None 0 transitions in
  if Nat.ltb 1 required_count
  then Err "workflow transition catalog contains more than one required transition"
  else Ok {| wc_transitions := transitions |}.

Definition required_transition (catalog : WorkflowTransitionCatalog)
    : option TransitionDescriptor :=
  List.find (λ transition, td_role transition =? RoleRequired) (wc_transitions catalog).

Definition transition (catalog : WorkflowTransitionCatalog) (key : WorkflowActionKey)
    : option TransitionDescriptor :=
  List.find (λ transition, td_action_key transition =? key) (wc_transitions catalog).

Definition admits_method (catalog : WorkflowTransitionCatalog) (method : MethodName) : bool :=
  existsb (λ transition, ak_method (td_action_key transition) =? method) (wc_transitions catalog).

Definition admitted_methods (catalog : WorkflowTransitionCatalog) : list MethodName :=
  foldl (λ methods transition,
           let method := ak_method (td_action_key transition) in
           if contains method methods then methods else methods ++ [method])
    [] (wc_transitions catalog).

(** ** Projections *)

Record WorkflowCloseReadiness := {
  wcr_assessment_required : bool;
  wcr_current_close_basis_present : bool;
}.

(** [WorkflowProjection]: every variant of the enum carries the same fields, so the
    tag is a field here. *)
Record WorkflowProjection := {
  wp_kind : WorkflowStateKind;
  wp_next_actor : AuthorityNextActor;
  wp_required_refs : list StateRecordRef;
  wp_expected_state_version : N;
  wp_blocking_reason : option WorkflowBlockingReason;
  wp_checkpoint : option ShapingCheckpointSummary;
  wp_transition_catalog : WorkflowTransitionCatalog;
  wp_close_readiness : WorkflowCloseReadiness;
}.

(** ** Lemmas *)

(** A contract built for a transition matches it, and building one never panics. *)
Lemma contract_well_formed (task_mode : TaskMode) (c : WorkflowActionAuthorityCoordinates) :
  (∀ t m r b u d o, c = CUpdateScope t m r b u d o → m = task_mode) →
  ∃ contract, for_current_transition task_mode c = Some contract
    ∧ is_well_formed_for contract c = true.
Proof.
  intros Hmode. destruct c as [t op r b|t m r b u d o| | | | | |t u b k| | | | | ]; simpl;
    try (eexists; split; [reflexivity|]; reflexivity).
  - eexists. split; [reflexivity|]. unfold is_well_formed_for.
    destruct op as [|p q retired carried stale], b as [b|]; cbn; try reflexivity.
    all: rewrite length_replicate, Nat.eqb_refl; reflexivity.
  - pose proof (Hmode _ _ _ _ _ _ _ eq_refl) as ->.
    destruct task_mode, o; eexists; (split; [reflexivity|]); unfold is_well_formed_for; cbn;
      rewrite ?eqb_refl; reflexivity.
  - eexists. split; [reflexivity|]. unfold is_well_formed_for. cbn. by rewrite !eqb_refl.
Qed.
