(* ===== verification/TaskRecords.v ===== *)
(** * TaskRecords: the stored rows of Tasks, Change Units, criteria and shaping

    The row types of [crates/volicord-store/src/core_pipeline/]: [tasks.rs]
    ([TaskRecord], [TaskInsert] and the updates, acceptance criteria),
    [change_units.rs] and [shaping.rs] (checkpoints, gaps, applications and the
    authority graph), with the values of [crates/volicord-types/src/values.rs] they
    hold.  [Schema.TaskRecord] and [Schema.ChangeUnitRecord] carry the fields the
    policies read; [TaskRow] and [ChangeUnitRow] add the remaining columns, so that
    the pair of the two is the whole record. *)

From S2P Require Import Prelude Text Values Canonical Schema Clock TicketStore Commit.
From S2P Require Import UserActionShape UserActionStore UserActionService Evidence ClosePolicy WorkflowAction.
Import Shaping.

(** ** Task values *)

Inductive TaskResult :=
| ResultNone | ResultAdviceOnly | ResultCompleted | ResultCancelled | ResultSuperseded.
#[export] Instance TaskResult_eq_dec : EqDecision TaskResult.
Proof. solve_decision. Defined.

Inductive TaskLineageRelation :=
| Continues | DerivedFrom | SplitFrom | Replaces | ImplementsAdviceFrom.

Inductive CarryForwardKind :=
| CfScope | CfNonGoals | CfUserDecisions | CfSourceRefs | CfContextRefs | CfKnownLimitations
| CfUnresolvedObligations | CfResidualRisks.

Inductive CarryForwardDispositionStatus := CfApplied | CfReferenceOnly.

Record CarryForwardDisposition := {
  cfd_kind : CarryForwardKind;
  cfd_status : CarryForwardDispositionStatus;
  cfd_source_refs : list StateRecordRef;
}.

Record PersistedCloseSummary := {
  pcs_close_reason : CloseReason;
  pcs_closed_at : option UtcTimestamp;
  pcs_intent : option CloseIntent;
  pcs_user_note : option string;
  pcs_superseding_task_id : option TaskId;
  pcs_required_sensitive_categories : list string;
  pcs_sensitive_categories : list string;
  pcs_baseline_stale : bool;
  pcs_baseline_status : option string;
  pcs_recovery_required : bool;
  pcs_visible_risks : list Value;
  pcs_residual_risk_visible : bool;
  pcs_residual_risks : list Value;
  pcs_residual_risk_present : bool;
}.

(** [PersistedCloseSummary::default] with a close reason; the decoded form of the
    object whose only member is [close_reason]. *)
Definition close_summary_of_reason (reason : CloseReason) : PersistedCloseSummary :=
  {| pcs_close_reason := reason; pcs_closed_at := None; pcs_intent := None;
     pcs_user_note := None; pcs_superseding_task_id := None;
     pcs_required_sensitive_categories := []; pcs_sensitive_categories := [];
     pcs_baseline_stale := false; pcs_baseline_status := None; pcs_recovery_required := false;
     pcs_visible_risks := []; pcs_residual_risk_visible := false; pcs_residual_risks := [];
     pcs_residual_risk_present := false |}.

Definition close_summary_default : PersistedCloseSummary := close_summary_of_reason ReasonNone.

(** ** Tasks *)

(** [TaskRecord] of [tasks.rs]: the policy fields and the other columns.  The two
    reference lists belong to [TaskShapingFacts]. *)
Record TaskRow := {
  tr_task : TaskRecord;
  tr_initial_context_refs : list StateRecordRef;
  tr_initial_source_refs : list SourceRef;
  tr_predecessor_task_id : option string;
  tr_lineage_relation : option TaskLineageRelation;
  tr_lineage_reason : option string;
  tr_carry_forward : list CarryForwardDisposition;
  tr_result : option TaskResult;
  tr_title : option string;
  tr_bounded_context : JsonObject;
  tr_close_basis : option CurrentCloseBasis;
  tr_close_summary : PersistedCloseSummary;
  tr_closed_at : option UtcTimestamp;
  tr_metadata : option TaskPolicyControlReevaluation;
}.

(** The whole of [TaskShapingFacts]. *)
Record StoredShapingFacts := {
  sf_facts : TaskShapingFacts;
  sf_initial_context_refs : list StateRecordRef;
  sf_initial_source_refs : list SourceRef;
}.

(** [AcceptanceCriterionRecord] and the [retired_at] column. *)
Record AcceptanceCriterionRow := {
  cri_project_id : string;
  cri_acceptance_criterion_id : string;
  cri_task_id : string;
  cri_statement : string;
  cri_evidence_requirement : EvidenceRequirement;
  cri_position : N;
  cri_status : AcceptanceCriterionStatus;
  cri_retired_at : option UtcTimestamp;
}.

(** ** Change Units *)

Record StoredChangeUnitScopeSummary := {
  css_scope_summary : option string;
  css_affected_areas : list string;
  css_constraints : list string;
}.

Record ChangeUnitRow := {
  cur_unit : ChangeUnitRecord;
  cur_scope_summary : StoredChangeUnitScopeSummary;
  cur_closed_at : option UtcTimestamp;
}.

(** ** Shaping *)

Record ShapingCheckpointUserActionRecord := {
  scu_user_action_request_id : string;
  scu_action_kind : UserActionKind;
  scu_user_action_resolution_id : option string;
  scu_linked_at : UtcTimestamp;
  scu_resolved_at : option UtcTimestamp;
}.

Record ShapingCheckpointGapRecord := {
  sg_shaping_gap_id : string;
  sg_gap_kind : ShapingGapKind;
  sg_summary : string;
  sg_affected_refs : list StateRecordRef;
  sg_status : ShapingGapStatus;
  sg_reauthorizes_application_id : option string;
  sg_user_action : option ShapingCheckpointUserActionRecord;
}.

Record ShapingDecisionApplicationRecord := {
  sda_project_id : string;
  sda_shaping_decision_application_id : string;
  sda_task_id : string;
  sda_source_checkpoint_id : string;
  sda_source_gap_id : string;
  sda_user_action_request_id : string;
  sda_user_action_resolution_id : string;
  sda_judgment_kind : JudgmentKind;
  sda_application_owner : ShapingDecisionApplicationOwner;
  sda_applied_scope_revision : N;
  sda_applied_baseline_ref : BaselineRef;
  sda_applied_change_unit_id : option ChangeUnitId;
  sda_applied_at : UtcTimestamp;
  sda_authority_status : ApplicationAuthorityStatus;
  sda_stale_at : option UtcTimestamp;
  sda_superseded_at : option UtcTimestamp;
  sda_linked_checkpoint_id : option string;
  sda_carried_from_checkpoint_id : option string;
}.

Record ShapingCheckpointRecord := {
  sc_project_id : string;
  sc_shaping_checkpoint_id : string;
  sc_predecessor_shaping_checkpoint_id : option string;
  sc_task_id : string;
  sc_scope_revision : N;
  sc_baseline_ref : option BaselineRef;
  sc_summary : string;
  sc_implementation_boundary : option string;
  sc_readiness : ShapingCheckpointReadiness;
  sc_source_refs : list SourceRef;
  sc_evidence_refs : list StateRecordRef;
  sc_created_at : UtcTimestamp;
  sc_superseded_at : option UtcTimestamp;
  sc_gaps : list ShapingCheckpointGapRecord;
  sc_applications : list ShapingDecisionApplicationRecord;
}.

Inductive ShapingAuthorityReauthorizationOutcome := OutRetired | OutReissued.

#[export] Instance ShapingAuthorityReauthorizationOutcome_eq_dec :
  EqDecision ShapingAuthorityReauthorizationOutcome.
Proof. solve_decision. Defined.

Record ShapingAuthorityReauthorizationRecord := {
  sar_project_id : string;
  sar_shaping_authority_reauthorization_id : string;
  sar_task_id : string;
  sar_stale_application_id : string;
  sar_stale_user_action_request_id : string;
  sar_successor_checkpoint_id : string;
  sar_successor_gap_id : option string;
  sar_successor_user_action_request_id : option string;
  sar_outcome : ShapingAuthorityReauthorizationOutcome;
  sar_created_at : UtcTimestamp;
}.

(** A row of [shaping_checkpoint_applications]; no read returns [linked_at]. *)
Record CheckpointApplicationLink := {
  cal_task_id : string;
  cal_shaping_checkpoint_id : string;
  cal_shaping_decision_application_id : string;
  cal_carried_from_checkpoint_id : option string;
}.

Record CurrentShapingGapDecision := {
  gd_checkpoint_id : string;
  gd_gap : ShapingCheckpointGapRecord;
  gd_user_action : StoredUserActionRecordSet;
}.

Record CurrentShapingApplicationAuthority := {
  aa_application : ShapingDecisionApplicationRecord;
  aa_source_gap : ShapingCheckpointGapRecord;
  aa_user_action : StoredUserActionRecordSet;
}.

Record CurrentShapingAuthorityGraph := {
  ag_task_id : string;
  ag_current_checkpoint : option ShapingCheckpointRecord;
  ag_current_gap_decisions : list CurrentShapingGapDecision;
  ag_current_applications : list CurrentShapingApplicationAuthority;
  ag_stale_recovery_obligations : list CurrentShapingApplicationAuthority;
  ag_current_resolution_ids : list string;
}.
