(* ===== verification/TaskStore.v ===== *)
(** * TaskStore: the Task and Change Unit tables and their mutations

    Models [crates/volicord-store/src/core_pipeline/tasks.rs] (the whole of
    [TaskMutation::apply] and the reads of Task rows and acceptance criteria),
    [change_units.rs] ([ChangeUnitMutation::apply] and the reads), the invalidation of
    shaping decision applications of [shaping.rs] that ending a Task triggers, and the
    constraints, partial index and trigger of [schema/project.sql] on those tables.

    The rows of one project are maps from their key; the project id column is that of the
    tables.  Columns are kept decoded, so the decoders of the reads are the identity, and
    [created_at] and [updated_at], which no modelled read returns, are left out.  The
    foreign keys of a statement are checked by the statement, the two deferred ones
    ([active_task_id], [current_change_unit_id]) by [deferred_ok], which the commit
    calls. *)

From Stdlib Require Import Ascii.
From S2P Require Import Prelude Text Values Canonical Schema Clock TicketStore Commit.
From S2P Require Import UserActionShape UserActionStore UserActionService Workflow Planning Evidence.
From S2P Require Import WorkflowAction TaskRecords.
Import Shaping.

(** ** Inputs *)

Record TaskInsert := {
  tn_task_id : string;
  tn_created_by_actor_source : ActorSource;
  tn_mode : TaskMode;
  tn_requested_control_level : RequestedControlLevel;
  tn_effective_control_level : TaskControlLevel;
  tn_control_level_reason : string;
  tn_work_phase : WorkPhase;
  tn_acceptance_policy : AcceptancePolicy;
  tn_acceptance_policy_reason : string;
  tn_predecessor_task_id : option string;
  tn_lineage_relation : option TaskLineageRelation;
  tn_lineage_reason : option string;
  tn_carry_forward : list CarryForwardDisposition;
  tn_lifecycle_phase : TaskLifecyclePhase;
  tn_result : option TaskResult;
  tn_title : option string;
  tn_summary : option string;
  tn_shaping : StoredShapingFacts;
  tn_bounded_context : JsonObject;
  tn_autonomy_boundary : option string;
  tn_close_summary : PersistedCloseSummary;
  tn_current_change_unit_id : option string;
}.

Record TaskScopeUpdate := {
  tsu_task_id : string;
  tsu_work_phase : option WorkPhase;
  tsu_lifecycle_phase : option TaskLifecyclePhase;
  tsu_result : option TaskResult;
  tsu_title : option string;
  tsu_summary : option string;
  tsu_shaping : option StoredShapingFacts;
  tsu_bounded_context : option JsonObject;
  tsu_autonomy_boundary : option (option string);
  tsu_close_summary : option PersistedCloseSummary;
}.

Record AcceptanceCriterionUpsert := {
  acu_acceptance_criterion_id : string;
  acu_statement : string;
  acu_evidence_requirement : EvidenceRequirement;
  acu_position : N;
}.

Record AcceptanceCriteriaReplace := {
  acx_task_id : string;
  acx_criteria : list AcceptanceCriterionUpsert;
}.

Record TaskScopeRevisionUpdate := { tru_task_id : string; tru_scope_revision : N }.

Record TaskCloseBasisUpdate := {
  tbu_task_id : string;
  tbu_close_basis_revision : N;
  tbu_close_basis : option CurrentCloseBasis;
}.

Record TaskCloseUpdate := {
  tcl_task_id : string;
  tcl_lifecycle_phase : TaskLifecyclePhase;
  tcl_result : TaskResult;
  tcl_close_summary : PersistedCloseSummary;
  tcl_closed_at : UtcTimestamp;
}.

Inductive TaskMutation :=
| TmInsert (input : TaskInsert)
| TmSetActive (task_id : string)
| TmSupersede (task_id : string)
| TmClose (input : TaskCloseUpdate)
| TmUpdateControlLevel (input : TaskControlLevelUpdate)
| TmUpdateScope (input : TaskScopeUpdate)
| TmUpdateScopeRevision (input : TaskScopeRevisionUpdate)
| TmUpdateCloseBasis (input : TaskCloseBasisUpdate)
| TmReplaceAcceptanceCriteria (input : AcceptanceCriteriaReplace).

Record ChangeUnitInsert := {
  cui_change_unit_id : string;
  cui_task_id : string;
  cui_scope_summary : StoredChangeUnitScopeSummary;
  cui_bounded_paths : list string;
  cui_write_basis_baseline_ref : option BaselineRef;
  cui_write_basis_git_workspace_context : option GitWorkspaceContext;
  cui_effect_contract : option ChangeUnitEffectContract;
  cui_recovery_required : bool;
}.

Inductive ChangeUnitMutation :=
| CmInsertCurrent (input : ChangeUnitInsert)
| CmReplaceCurrent (input : ChangeUnitInsert).

(** ** Tables *)

(** A checkpoint row holds its gaps, and a gap its link to a request: the rows of
    [shaping_checkpoint_gaps] and [shaping_checkpoint_user_actions] are inserted with the
    Task id of their checkpoint, and a link in the same statement sequence as its gap.
    What a read derives from [pt_checkpoint_applications] ([sc_applications] and the link
    fields of an application) is not part of a stored row. *)
Record TaskTables := {
  pt_project_id : string;
  pt_active_task_id : option string;
  pt_tasks : gmap string TaskRow;
  pt_criteria : gmap string AcceptanceCriterionRow;
  pt_change_units : gmap string ChangeUnitRow;
  pt_checkpoints : gmap string ShapingCheckpointRecord;
  pt_checkpoint_applications : list CheckpointApplicationLink;
  pt_applications : gmap string ShapingDecisionApplicationRecord;
  pt_reauthorizations : gmap string ShapingAuthorityReauthorizationRecord;
  pt_user_actions : UserActionTable;
}.

Definition set_active (s : TaskTables) (active : option string) : TaskTables :=
  {| pt_project_id := pt_project_id s; pt_active_task_id := active; pt_tasks := pt_tasks s;
     pt_criteria := pt_criteria s; pt_change_units := pt_change_units s;
     pt_checkpoints := pt_checkpoints s;
     pt_checkpoint_applications := pt_checkpoint_applications s;
     pt_applications := pt_applications s; pt_reauthorizations := pt_reauthorizations s;
     pt_user_actions := pt_user_actions s |}.

Definition set_tasks (s : TaskTables) (tasks : gmap string TaskRow) : TaskTables :=
  {| pt_project_id := pt_project_id s; pt_active_task_id := pt_active_task_id s;
     pt_tasks := tasks; pt_criteria := pt_criteria s; pt_change_units := pt_change_units s;
     pt_checkpoints := pt_checkpoints s;
     pt_checkpoint_applications := pt_checkpoint_applications s;
     pt_applications := pt_applications s; pt_reauthorizations := pt_reauthorizations s;
     pt_user_actions := pt_user_actions s |}.

Definition set_criteria (s : TaskTables) (criteria : gmap string AcceptanceCriterionRow)
    : TaskTables :=
  {| pt_project_id := pt_project_id s; pt_active_task_id := pt_active_task_id s;
     pt_tasks := pt_tasks s; pt_criteria := criteria; pt_change_units := pt_change_units s;
     pt_checkpoints := pt_checkpoints s;
     pt_checkpoint_applications := pt_checkpoint_applications s;
     pt_applications := pt_applications s; pt_reauthorizations := pt_reauthorizations s;
     pt_user_actions := pt_user_actions s |}.

Definition set_change_units (s : TaskTables) (units : gmap string ChangeUnitRow) : TaskTables :=
  {| pt_project_id := pt_project_id s; pt_active_task_id := pt_active_task_id s;
     pt_tasks := pt_tasks s; pt_criteria := pt_criteria s; pt_change_units := units;
     pt_checkpoints := pt_checkpoints s;
     pt_checkpoint_applications := pt_checkpoint_applications s;
     pt_applications := pt_applications s; pt_reauthorizations := pt_reauthorizations s;
     pt_user_actions := pt_user_actions s |}.

Definition set_authority (s : TaskTables)
    (applications : gmap string ShapingDecisionApplicationRecord) (actions : UserActionTable)
    : TaskTables :=
  {| pt_project_id := pt_project_id s; pt_active_task_id := pt_active_task_id s;
     pt_tasks := pt_tasks s; pt_criteria := pt_criteria s; pt_change_units := pt_change_units s;
     pt_checkpoints := pt_checkpoints s;
     pt_checkpoint_applications := pt_checkpoint_applications s;
     pt_applications := applications; pt_reauthorizations := pt_reauthorizations s;
     pt_user_actions := actions |}.

Definition set_checkpoints (s : TaskTables) (checkpoints : gmap string ShapingCheckpointRecord)
    : TaskTables :=
  {| pt_project_id := pt_project_id s; pt_active_task_id := pt_active_task_id s;
     pt_tasks := pt_tasks s; pt_criteria := pt_criteria s; pt_change_units := pt_change_units s;
     pt_checkpoints := checkpoints;
     pt_checkpoint_applications := pt_checkpoint_applications s;
     pt_applications := pt_applications s; pt_reauthorizations := pt_reauthorizations s;
     pt_user_actions := pt_user_actions s |}.

Definition set_lineage (s : TaskTables) (links : list CheckpointApplicationLink)
    (reauthorizations : gmap string ShapingAuthorityReauthorizationRecord) : TaskTables :=
  {| pt_project_id := pt_project_id s; pt_active_task_id := pt_active_task_id s;
     pt_tasks := pt_tasks s; pt_criteria := pt_criteria s; pt_change_units := pt_change_units s;
     pt_checkpoints := pt_checkpoints s; pt_checkpoint_applications := links;
     pt_applications := pt_applications s; pt_reauthorizations := reauthorizations;
     pt_user_actions := pt_user_actions s |}.

(** Columns of a Task row that statements set. *)

Definition with_task (f : TaskRecord → TaskRecord) (row : TaskRow) : TaskRow :=
  {| tr_task := f (tr_task row); tr_initial_context_refs := tr_initial_context_refs row;
     tr_initial_source_refs := tr_initial_source_refs row;
     tr_predecessor_task_id := tr_predecessor_task_id row;
     tr_lineage_relation := tr_lineage_relation row; tr_lineage_reason := tr_lineage_reason row;
     tr_carry_forward := tr_carry_forward row; tr_result := tr_result row;
     tr_title := tr_title row; tr_bounded_context := tr_bounded_context row;
     tr_close_basis := tr_close_basis row; tr_close_summary := tr_close_summary row;
     tr_closed_at := tr_closed_at row; tr_metadata := tr_metadata row |}.

Definition with_lifecycle (phase : TaskLifecyclePhase) (t : TaskRecord) : TaskRecord :=
  {| tk_project_id := tk_project_id t; tk_task_id := tk_task_id t; tk_mode := tk_mode t;
     tk_requested_control_level := tk_requested_control_level t;
     tk_effective_control_level := tk_effective_control_level t;
     tk_control_level_reason := tk_control_level_reason t; tk_work_phase := tk_work_phase t;
     tk_acceptance_policy := tk_acceptance_policy t;
     tk_acceptance_policy_reason := tk_acceptance_policy_reason t;
     tk_lifecycle_phase := phase; tk_summary := tk_summary t; tk_shaping := tk_shaping t;
     tk_autonomy_boundary := tk_autonomy_boundary t; tk_scope_revision := tk_scope_revision t;
     tk_close_basis_revision := tk_close_basis_revision t;
     tk_current_change_unit_id := tk_current_change_unit_id t |}.

(** [UPDATE tasks SET work_phase, lifecycle_phase, summary, autonomy_boundary_json]. *)
Definition with_scope_columns (work_phase : option WorkPhase) (phase : option TaskLifecyclePhase)
    (summary : option string) (autonomy_boundary : option (option string)) (t : TaskRecord)
    : TaskRecord :=
  {| tk_project_id := tk_project_id t; tk_task_id := tk_task_id t; tk_mode := tk_mode t;
     tk_requested_control_level := tk_requested_control_level t;
     tk_effective_control_level := tk_effective_control_level t;
     tk_control_level_reason := tk_control_level_reason t;
     tk_work_phase := default (tk_work_phase t) work_phase;
     tk_acceptance_policy := tk_acceptance_policy t;
     tk_acceptance_policy_reason := tk_acceptance_policy_reason t;
     tk_lifecycle_phase := default (tk_lifecycle_phase t) phase;
     tk_summary := match summary with Some _ => summary | None => tk_summary t end;
     tk_shaping := tk_shaping t;
     tk_autonomy_boundary := default (tk_autonomy_boundary t) autonomy_boundary;
     tk_scope_revision := tk_scope_revision t;
     tk_close_basis_revision := tk_close_basis_revision t;
     tk_current_change_unit_id := tk_current_change_unit_id t |}.

Definition with_control (level : TaskControlLevel) (reason : string)
    (acceptance : option (AcceptancePolicy * string)) (t : TaskRecord) : TaskRecord :=
  {| tk_project_id := tk_project_id t; tk_task_id := tk_task_id t; tk_mode := tk_mode t;
     tk_requested_control_level := tk_requested_control_level t;
     tk_effective_control_level := level; tk_control_level_reason := reason;
     tk_work_phase := tk_work_phase t;
     tk_acceptance_policy := from_option fst (tk_acceptance_policy t) acceptance;
     tk_acceptance_policy_reason := from_option snd (tk_acceptance_policy_reason t) acceptance;
     tk_lifecycle_phase := tk_lifecycle_phase t; tk_summary := tk_summary t;
     tk_shaping := tk_shaping t; tk_autonomy_boundary := tk_autonomy_boundary t;
     tk_scope_revision := tk_scope_revision t;
     tk_close_basis_revision := tk_close_basis_revision t;
     tk_current_change_unit_id := tk_current_change_unit_id t |}.

(** The coordinate columns. *)
Definition with_coordinates (shaping : TaskShapingFacts) (scope_revision close_basis_revision : N)
    (change_unit_id : option string) (t : TaskRecord) : TaskRecord :=
  {| tk_project_id := tk_project_id t; tk_task_id := tk_task_id t; tk_mode := tk_mode t;
     tk_requested_control_level := tk_requested_control_level t;
     tk_effective_control_level := tk_effective_control_level t;
     tk_control_level_reason := tk_control_level_reason t; tk_work_phase := tk_work_phase t;
     tk_acceptance_policy := tk_acceptance_policy t;
     tk_acceptance_policy_reason := tk_acceptance_policy_reason t;
     tk_lifecycle_phase := tk_lifecycle_phase t; tk_summary := tk_summary t;
     tk_shaping := shaping; tk_autonomy_boundary := tk_autonomy_boundary t;
     tk_scope_revision := scope_revision; tk_close_basis_revision := close_basis_revision;
     tk_current_change_unit_id := change_unit_id |}.

(** [shaping_summary_json]. *)
Definition with_shaping (facts : StoredShapingFacts) (row : TaskRow) : TaskRow :=
  let t := tr_task row in
  {| tr_task := with_coordinates (sf_facts facts) (tk_scope_revision t) (tk_close_basis_revision t)
                  (tk_current_change_unit_id t) t;
     tr_initial_context_refs := sf_initial_context_refs facts;
     tr_initial_source_refs := sf_initial_source_refs facts;
     tr_predecessor_task_id := tr_predecessor_task_id row;
     tr_lineage_relation := tr_lineage_relation row; tr_lineage_reason := tr_lineage_reason row;
     tr_carry_forward := tr_carry_forward row; tr_result := tr_result row;
     tr_title := tr_title row; tr_bounded_context := tr_bounded_context row;
     tr_close_basis := tr_close_basis row; tr_close_summary := tr_close_summary row;
     tr_closed_at := tr_closed_at row; tr_metadata := tr_metadata row |}.

(** [result], [title], [bounded_context_json], [close_summary_json] and [closed_at]; an
    absent value keeps the column. *)
Definition with_columns (result : option TaskResult) (title : option string)
    (bounded_context : option JsonObject) (close_summary : option PersistedCloseSummary)
    (closed_at : option UtcTimestamp) (row : TaskRow) : TaskRow :=
  {| tr_task := tr_task row; tr_initial_context_refs := tr_initial_context_refs row;
     tr_initial_source_refs := tr_initial_source_refs row;
     tr_predecessor_task_id := tr_predecessor_task_id row;
     tr_lineage_relation := tr_lineage_relation row; tr_lineage_reason := tr_lineage_reason row;
     tr_carry_forward := tr_carry_forward row;
     tr_result := match result with Some _ => result | None => tr_result row end;
     tr_title := match title with Some _ => title | None => tr_title row end;
     tr_bounded_context := default (tr_bounded_context row) bounded_context;
     tr_close_basis := tr_close_basis row;
     tr_close_summary := default (tr_close_summary row) close_summary;
     tr_closed_at := match closed_at with Some _ => closed_at | None => tr_closed_at row end;
     tr_metadata := tr_metadata row |}.

(** [close_basis_json] and [metadata_json]. *)
Definition with_basis_and_mark (basis : option CurrentCloseBasis)
    (mark : option TaskPolicyControlReevaluation) (row : TaskRow) : TaskRow :=
  {| tr_task := tr_task row; tr_initial_context_refs := tr_initial_context_refs row;
     tr_initial_source_refs := tr_initial_source_refs row;
     tr_predecessor_task_id := tr_predecessor_task_id row;
     tr_lineage_relation := tr_lineage_relation row; tr_lineage_reason := tr_lineage_reason row;
     tr_carry_forward := tr_carry_forward row; tr_result := tr_result row;
     tr_title := tr_title row; tr_bounded_context := tr_bounded_context row;
     tr_close_basis := basis; tr_close_summary := tr_close_summary row;
     tr_closed_at := tr_closed_at row; tr_metadata := mark |}.

(** ** SQL *)

(** [length(trim(text)) > 0]: [trim] removes spaces only and [length] stops at the first
    NUL, so the text must go on with something else after its leading spaces. *)
Fixpoint sql_has_text (text : string) : bool :=
  match text with
  | EmptyString => false
  | String c rest =>
      if Ascii.eqb c " "%char then sql_has_text rest else negb (Ascii.eqb c Ascii.zero)
  end.

Definition application_rows (s : TaskTables) : list ShapingDecisionApplicationRecord :=
  (map_to_list (pt_applications s)).*2.

Definition change_unit_rows (s : TaskTables) : list ChangeUnitRow :=
  (map_to_list (pt_change_units s)).*2.

(** [trg_implementation_task_shaping_authority_guard]: the update raises when it would
    leave a current application of an implementation Task at other coordinates. *)
Definition implementation_authority_guard (s : TaskTables) (old new : TaskRow) : bool :=
  (tk_work_phase (tr_task old) =? Implementation)
  && existsb (λ application,
       (sda_task_id application =? tk_task_id (tr_task old))
       && (sda_authority_status application =? AppCurrent)
       && ((sda_applied_scope_revision application <>? tk_scope_revision (tr_task new))
           || (Some (sda_applied_baseline_ref application)
                 <>? shaping_baseline_ref (tk_shaping (tr_task new)))
           || (sda_applied_change_unit_id application
                 <>? tk_current_change_unit_id (tr_task new))))
       (application_rows s).

(** [UPDATE tasks ... WHERE project_id AND task_id] of a statement that fails when it
    changed no row. *)
Definition update_task (s : TaskTables) (task_id detail : string) (f : TaskRow → TaskRow)
    : result TaskTables StoreError :=
  let? row := ok_or (pt_tasks s !! task_id) (SchemaInvariant detail) in
  Ok (set_tasks s (<[task_id := f row]> (pt_tasks s))).

(** The same of a coordinate column, on which the trigger fires. *)
Definition update_task_coordinate (s : TaskTables) (task_id detail : string)
    (f : TaskRow → TaskRow) : result TaskTables StoreError :=
  let? row := ok_or (pt_tasks s !! task_id) (SchemaInvariant detail) in
  let? _ := ensure (implementation_authority_guard s row (f row))
              (ConstraintViolation "trg_implementation_task_shaping_authority_guard") in
  Ok (set_tasks s (<[task_id := f row]> (pt_tasks s))).

(** ** Shaping decision applications that a Task's end supersedes *)

Definition invalidated_application (status : ApplicationAuthorityStatus)
    (at_ : UtcTimestamp) (a : ShapingDecisionApplicationRecord)
    : ShapingDecisionApplicationRecord :=
  {| sda_project_id := sda_project_id a;
     sda_shaping_decision_application_id := sda_shaping_decision_application_id a;
     sda_task_id := sda_task_id a; sda_source_checkpoint_id := sda_source_checkpoint_id a;
     sda_source_gap_id := sda_source_gap_id a;
     sda_user_action_request_id := sda_user_action_request_id a;
     sda_user_action_resolution_id := sda_user_action_resolution_id a;
     sda_judgment_kind := sda_judgment_kind a; sda_application_owner := sda_application_owner a;
     sda_applied_scope_revision := sda_applied_scope_revision a;
     sda_applied_baseline_ref := sda_applied_baseline_ref a;
     sda_applied_change_unit_id := sda_applied_change_unit_id a;
     sda_applied_at := sda_applied_at a; sda_authority_status := status;
     sda_stale_at := if status =? AppStale then Some at_ else None;
     sda_superseded_at := if status =? AppSuperseded then Some at_ else None;
     sda_linked_checkpoint_id := sda_linked_checkpoint_id a;
     sda_carried_from_checkpoint_id := sda_carried_from_checkpoint_id a |}.

(** The basis status an invalidated application gives its request. *)
Definition invalidated_basis_status (status : ApplicationAuthorityStatus) : UserActionBasisStatus :=
  if status =? AppSuperseded then BasisSuperseded else BasisStale.

(** The statuses from which the [UPDATE user_action_requests] moves a row. *)
Definition invalidation_moves (status : ApplicationAuthorityStatus)
    (basis_status : UserActionBasisStatus) : bool :=
  (basis_status =? BasisCurrent)
  || ((status =? AppSuperseded) && (basis_status =? BasisStale)).

(** [SELECT EXISTS] of the request already carrying the status in both places. *)
Definition already_invalidated (status : ApplicationAuthorityStatus)
    (row : StoredUserActionRequest) : bool :=
  (ur_basis_status row =? invalidated_basis_status status)
  && (co_compatibility_status (coordinates (ur_basis row)) =? invalidated_basis_status status).

Definition invalidate_request_basis (actions : UserActionTable) (request_id : string)
    (status : ApplicationAuthorityStatus) : result UserActionTable StoreError :=
  let? row := ok_or (ut_requests actions !! request_id)
                (Conflict "user_action_request" request_id) in
  if invalidation_moves status (ur_basis_status row)
  then Ok (set_requests actions
             (<[request_id := marked_row (invalidated_basis_status status) row]>
                (ut_requests actions)))
  else let? _ := ensure (negb (already_invalidated status row))
                   (Conflict "user_action_request" request_id) in
       Ok actions.

Fixpoint invalidate_application_loop (s : TaskTables) (rows : list (string * string))
    (status : ApplicationAuthorityStatus) (committed_at : UtcTimestamp)
    : result TaskTables StoreError :=
  match rows with
  | [] => Ok s
  | (application_id, request_id) :: rest =>
      let? application :=
        ok_or (option_filter (λ a, sda_authority_status a =? AppCurrent)
                 (pt_applications s !! application_id))
          (Conflict "shaping_decision_application" application_id) in
      let? actions := invalidate_request_basis (pt_user_actions s) request_id status in
      invalidate_application_loop
        (set_authority s
           (<[application_id := invalidated_application status committed_at application]>
              (pt_applications s)) actions)
        rest status committed_at
  end.

Definition invalidate_application_rows (s : TaskTables) (rows : list (string * string))
    (status : ApplicationAuthorityStatus) (committed_at : UtcTimestamp)
    : result TaskTables StoreError :=
  if status =? AppCurrent
  then Err (InvalidInput "application invalidation requires a non-current status")
  else invalidate_application_loop s rows status committed_at.

(** The rows [invalidate_all_current_applications] selects. *)
Definition current_application_rows (s : TaskTables) (task_id : string) : list (string * string) :=
  (λ a, (sda_shaping_decision_application_id a, sda_user_action_request_id a))
    <$> filter (λ a, sda_task_id a = task_id ∧ sda_authority_status a = AppCurrent)
          (application_rows s).

Definition invalidate_all_current_applications (s : TaskTables) (task_id : string)
    (status : ApplicationAuthorityStatus) (committed_at : UtcTimestamp)
    : result TaskTables StoreError :=
  invalidate_application_rows s (current_application_rows s task_id) status committed_at.

Definition supersede_task_shaping_applications (s : TaskTables) (task_id : string)
    (committed_at : UtcTimestamp) : result TaskTables StoreError :=
  invalidate_all_current_applications s task_id AppSuperseded committed_at.

(** ** Task mutations *)

(** The [CHECK] over the three lineage columns. *)
Definition lineage_check (input : TaskInsert) : bool :=
  match tn_predecessor_task_id input, tn_lineage_relation input, tn_lineage_reason input with
  | None, None, None => true
  | Some predecessor, Some _, Some reason =>
      sql_has_text reason && (predecessor <>? tn_task_id input)
  | _, _, _ => false
  end.

Definition inserted_task (project_id : string) (input : TaskInsert) : TaskRow :=
  {| tr_task :=
       {| tk_project_id := project_id; tk_task_id := tn_task_id input; tk_mode := tn_mode input;
          tk_requested_control_level := tn_requested_control_level input;
          tk_effective_control_level := tn_effective_control_level input;
          tk_control_level_reason := tn_control_level_reason input;
          tk_work_phase := tn_work_phase input;
          tk_acceptance_policy := tn_acceptance_policy input;
          tk_acceptance_policy_reason := tn_acceptance_policy_reason input;
          tk_lifecycle_phase := tn_lifecycle_phase input; tk_summary := tn_summary input;
          tk_shaping := sf_facts (tn_shaping input);
          tk_autonomy_boundary := tn_autonomy_boundary input; tk_scope_revision := 0;
          tk_close_basis_revision := 0;
          tk_current_change_unit_id := tn_current_change_unit_id input |};
     tr_initial_context_refs := sf_initial_context_refs (tn_shaping input);
     tr_initial_source_refs := sf_initial_source_refs (tn_shaping input);
     tr_predecessor_task_id := tn_predecessor_task_id input;
     tr_lineage_relation := tn_lineage_relation input;
     tr_lineage_reason := tn_lineage_reason input;
     tr_carry_forward := tn_carry_forward input; tr_result := tn_result input;
     tr_title := tn_title input; tr_bounded_context := tn_bounded_context input;
     tr_close_basis := None; tr_close_summary := tn_close_summary input; tr_closed_at := None;
     tr_metadata := None |}.

Definition insert_task (s : TaskTables) (input : TaskInsert) : result TaskTables StoreError :=
  let? _ := validate_identifier "task_id" (tn_task_id input) in
  let? _ := ensure (str_is_empty (trim (tn_control_level_reason input)))
              (InvalidInput "control_level_reason must not be empty") in
  let? _ := ensure (str_is_empty (trim (tn_acceptance_policy_reason input)))
              (SchemaInvariant "Task acceptance policy reason must not be empty") in
  let? _ := ensure (negb (sql_has_text (tn_control_level_reason input)))
              (ConstraintViolation "tasks.control_level_reason") in
  let? _ := ensure (negb (sql_has_text (tn_acceptance_policy_reason input)))
              (ConstraintViolation "tasks.acceptance_policy_reason") in
  let? _ := ensure (negb (lineage_check input)) (ConstraintViolation "tasks.lineage") in
  let? _ := ensure (is_some (pt_tasks s !! tn_task_id input))
              (ConstraintViolation "tasks.task_id") in
  let? _ := ensure (is_some_and (tn_predecessor_task_id input)
                      (λ predecessor, negb (is_some (pt_tasks s !! predecessor))))
              (ConstraintViolation "tasks.predecessor_task_id") in
  Ok (set_tasks s (<[tn_task_id input := inserted_task (pt_project_id s) input]> (pt_tasks s))).

(** The acceptance half of a control update; [None] is the rejected pairing. *)
Definition acceptance_update (input : TaskControlLevelUpdate)
    : option (option (AcceptancePolicy * string)) :=
  match tcu_acceptance_policy input, tcu_acceptance_policy_reason input with
  | None, None => Some None
  | Some policy, Some reason =>
      if negb (str_is_empty (trim reason)) then Some (Some (policy, reason)) else None
  | _, _ => None
  end.

Definition update_task_control_level (s : TaskTables) (input : TaskControlLevelUpdate)
    : result TaskTables StoreError :=
  let id := tcu_task_id input in
  let? _ := validate_identifier "task_id" id in
  let? _ := ensure (str_is_empty (trim (tcu_control_level_reason input)))
              (InvalidInput "control_level_reason must not be empty") in
  let? acceptance := ok_or (acceptance_update input) (InvalidInput
    "acceptance_policy and acceptance_policy_reason must be supplied together with a non-empty reason") in
  let? row := ok_or (pt_tasks s !! id) (NotFound "task" id) in
  let task := tr_task row in
  let? _ := ensure (control_lt (tcu_effective_control_level input) (tk_effective_control_level task))
              (Conflict "task" id) in
  let? _ := ensure (is_some_and acceptance (λ '(policy, _),
                      Nat.ltb (acceptance_policy_rank policy)
                        (acceptance_policy_rank (tk_acceptance_policy task))))
              (Conflict "task" id) in
  let mark := clear_satisfied_task_policy_reevaluation (tr_metadata row)
                (tcu_effective_control_level input)
                (from_option fst (tk_acceptance_policy task) acceptance) in
  let? _ := ensure (negb (sql_has_text (tcu_control_level_reason input)))
              (ConstraintViolation "tasks.control_level_reason") in
  let? _ := ensure (is_some_and acceptance (λ '(_, reason), negb (sql_has_text reason)))
              (ConstraintViolation "tasks.acceptance_policy_reason") in
  Ok (set_tasks s
        (<[id := with_task (with_control (tcu_effective_control_level input)
                              (tcu_control_level_reason input) acceptance)
                   (with_basis_and_mark (tr_close_basis row) mark row)]> (pt_tasks s))).

(** The [project_state] row of the open project always exists. *)
Definition set_active_task (s : TaskTables) (task_id : string) : result TaskTables StoreError :=
  let? _ := validate_identifier "task_id" task_id in
  Ok (set_active s (Some task_id)).

(** The columns a Task's end sets. *)
Definition ended_task (phase : TaskLifecyclePhase) (result : TaskResult)
    (summary : PersistedCloseSummary) (closed_at : UtcTimestamp) (row : TaskRow) : TaskRow :=
  with_task (with_lifecycle phase)
    (with_columns (Some result) None None (Some summary) (Some closed_at) row).

(** A Task that does not exist is not an error here. *)
Definition supersede_task (s : TaskTables) (task_id : string) (committed_at : UtcTimestamp)
    : result TaskTables StoreError :=
  let? _ := validate_identifier "task_id" task_id in
  let? s := supersede_task_shaping_applications s task_id committed_at in
  Ok (set_tasks s
        (alter (ended_task PSuperseded ResultSuperseded (close_summary_of_reason ReasonSuperseded)
                  committed_at) task_id (pt_tasks s))).

Definition close_task (s : TaskTables) (input : TaskCloseUpdate) (committed_at : UtcTimestamp)
    : result TaskTables StoreError :=
  let? _ := validate_identifier "task_id" (tcl_task_id input) in
  let? s := supersede_task_shaping_applications s (tcl_task_id input) committed_at in
  update_task s (tcl_task_id input) "Task close transition changed no rows"
    (ended_task (tcl_lifecycle_phase input) (tcl_result input) (tcl_close_summary input)
       (tcl_closed_at input)).

(** [update_task_text_column] and [update_task_nullable_text_column]: an absent value
    issues no statement. *)
Definition update_task_column {A} (s : TaskTables) (task_id column : string) (value : option A)
    (f : A → TaskRow → TaskRow) : result TaskTables StoreError :=
  match value with
  | None => Ok s
  | Some value =>
      update_task s task_id ("Task column " +:+ column +:+ " update changed no rows") (f value)
  end.

Definition update_task_scope (s : TaskTables) (input : TaskScopeUpdate)
    : result TaskTables StoreError :=
  let id := tsu_task_id input in
  let? _ := validate_identifier "task_id" id in
  let? s := match tsu_shaping input with
            | None => Ok s
            | Some facts => update_task_coordinate s id
                "Task column shaping_summary_json update changed no rows" (with_shaping facts)
            end in
  let? s := update_task_column s id "bounded_context_json" (tsu_bounded_context input)
              (λ v, with_columns None None (Some v) None None) in
  let? s := update_task_column s id "autonomy_boundary_json" (tsu_autonomy_boundary input)
              (λ v, with_task (with_scope_columns None None None (Some v))) in
  let? s := update_task_column s id "close_summary_json" (tsu_close_summary input)
              (λ v, with_columns None None None (Some v) None) in
  let? s := update_task_column s id "lifecycle_phase" (tsu_lifecycle_phase input)
              (λ v, with_task (with_scope_columns None (Some v) None None)) in
  let? s := update_task_column s id "work_phase" (tsu_work_phase input)
              (λ v, with_task (with_scope_columns (Some v) None None None)) in
  let? s := update_task_column s id "result" (tsu_result input)
              (λ v, with_columns (Some v) None None None None) in
  let? s := update_task_column s id "title" (tsu_title input)
              (λ v, with_columns None (Some v) None None None) in
  update_task_column s id "summary" (tsu_summary input)
    (λ v, with_task (with_scope_columns None None (Some v) None)).

Definition update_task_scope_revision (s : TaskTables) (input : TaskScopeRevisionUpdate)
    : result TaskTables StoreError :=
  let? _ := validate_identifier "task_id" (tru_task_id input) in
  let? _ := ensure (negb (fits_i64 (tru_scope_revision input)))
              (InvalidInput "tasks.scope_revision does not fit in SQLite integer") in
  update_task_coordinate s (tru_task_id input) "Task scope revision update changed no rows"
    (with_task (λ t, with_coordinates (tk_shaping t) (tru_scope_revision input)
                       (tk_close_basis_revision t) (tk_current_change_unit_id t) t)).

Definition update_task_close_basis (s : TaskTables) (input : TaskCloseBasisUpdate)
    : result TaskTables StoreError :=
  let? _ := validate_identifier "task_id" (tbu_task_id input) in
  let? _ := ensure (negb (fits_i64 (tbu_close_basis_revision input)))
              (InvalidInput "tasks.close_basis_revision does not fit in SQLite integer") in
  update_task s (tbu_task_id input) "Task close-basis update changed no rows"
    (λ row, with_task (λ t, with_coordinates (tk_shaping t) (tk_scope_revision t)
                              (tbu_close_basis_revision input) (tk_current_change_unit_id t) t)
              (with_basis_and_mark (tbu_close_basis input) (tr_metadata row) row)).

(** *** Acceptance criteria *)

Definition inserted_criterion (project_id task_id : string) (c : AcceptanceCriterionUpsert)
    : AcceptanceCriterionRow :=
  {| cri_project_id := project_id; cri_acceptance_criterion_id := acu_acceptance_criterion_id c;
     cri_task_id := task_id; cri_statement := acu_statement c;
     cri_evidence_requirement := acu_evidence_requirement c; cri_position := acu_position c;
     cri_status := CriterionActive; cri_retired_at := None |}.

Definition updated_criterion (row : AcceptanceCriterionRow) (c : AcceptanceCriterionUpsert)
    : AcceptanceCriterionRow :=
  {| cri_project_id := cri_project_id row;
     cri_acceptance_criterion_id := cri_acceptance_criterion_id row; cri_task_id := cri_task_id row;
     cri_statement := acu_statement c; cri_evidence_requirement := acu_evidence_requirement c;
     cri_position := acu_position c; cri_status := cri_status row;
     cri_retired_at := cri_retired_at row |}.

Definition retired_criterion (at_ : UtcTimestamp) (row : AcceptanceCriterionRow)
    : AcceptanceCriterionRow :=
  {| cri_project_id := cri_project_id row;
     cri_acceptance_criterion_id := cri_acceptance_criterion_id row; cri_task_id := cri_task_id row;
     cri_statement := cri_statement row; cri_evidence_requirement := cri_evidence_requirement row;
     cri_position := cri_position row; cri_status := CriterionRetired; cri_retired_at := Some at_ |}.

(** [WHERE acceptance_criteria.task_id = excluded.task_id AND status = 'active'], also the
    rows the retirement looks at. *)
Definition active_of_task (task_id : string) (row : AcceptanceCriterionRow) : bool :=
  (cri_task_id row =? task_id) && (cri_status row =? CriterionActive).

(** The [INSERT ... ON CONFLICT DO UPDATE ... WHERE] of one criterion: a row of another
    Task or a retired row is left as it is. *)
Definition upsert_criterion (s : TaskTables) (task_id : string) (c : AcceptanceCriterionUpsert)
    : result TaskTables StoreError :=
  let id := acu_acceptance_criterion_id c in
  let? _ := validate_identifier "acceptance_criterion_id" id in
  let? _ := ensure (str_is_empty (trim (acu_statement c)))
              (SchemaInvariant "acceptance criterion statement must not be empty") in
  let? _ := ensure (negb (fits_i64 (acu_position c)))
              (SchemaInvariant "acceptance criterion position exceeds SQLite INTEGER range") in
  let? _ := ensure (negb (sql_has_text (acu_statement c)))
              (ConstraintViolation "acceptance_criteria.statement") in
  match pt_criteria s !! id with
  | Some row =>
      if active_of_task task_id row
      then Ok (set_criteria s (<[id := updated_criterion row c]> (pt_criteria s)))
      else Ok s
  | None =>
      let? _ := ensure (negb (is_some (pt_tasks s !! task_id)))
                  (ConstraintViolation "acceptance_criteria.task_id") in
      Ok (set_criteria s (<[id := inserted_criterion (pt_project_id s) task_id c]> (pt_criteria s)))
  end.

Fixpoint upsert_criteria (s : TaskTables) (task_id : string)
    (criteria : list AcceptanceCriterionUpsert) : result TaskTables StoreError :=
  match criteria with
  | [] => Ok s
  | c :: rest => let? s := upsert_criterion s task_id c in upsert_criteria s task_id rest
  end.

(** The retirement of the active rows of the Task not among [ids]; with no ids the
    [NOT IN] clause is absent, which is the same set. *)
Definition retire_others (s : TaskTables) (task_id : string) (ids : list string)
    (at_ : UtcTimestamp) : TaskTables :=
  set_criteria s
    ((λ row, if active_of_task task_id row
                && negb (contains (cri_acceptance_criterion_id row) ids)
             then retired_criterion at_ row else row) <$> pt_criteria s).

Definition replace_acceptance_criteria (s : TaskTables) (input : AcceptanceCriteriaReplace)
    (committed_at : UtcTimestamp) : result TaskTables StoreError :=
  let? _ := validate_identifier "task_id" (acx_task_id input) in
  let? s := upsert_criteria s (acx_task_id input) (acx_criteria input) in
  Ok (retire_others s (acx_task_id input)
        (acu_acceptance_criterion_id <$> acx_criteria input) committed_at).

(** [TaskMutation::apply]. *)
Definition apply_task_mutation (s : TaskTables) (committed_at : UtcTimestamp) (m : TaskMutation)
    : result TaskTables StoreError :=
  match m with
  | TmInsert input => insert_task s input
  | TmSetActive task_id => set_active_task s task_id
  | TmSupersede task_id => supersede_task s task_id committed_at
  | TmClose input => close_task s input committed_at
  | TmUpdateControlLevel input => update_task_control_level s input
  | TmUpdateScope input => update_task_scope s input
  | TmUpdateScopeRevision input => update_task_scope_revision s input
  | TmUpdateCloseBasis input => update_task_close_basis s input
  | TmReplaceAcceptanceCriteria input => replace_acceptance_criteria s input committed_at
  end.

(** ** Change Unit reads and mutations *)

(** [WHERE task_id = ? AND status = 'active' AND is_current = 1]. *)
Definition is_current_active (task_id : string) (row : ChangeUnitRow) : bool :=
  (cu_task_id (cur_unit row) =? task_id) && (cu_status (cur_unit row) =? CUActive)
  && cu_is_current (cur_unit row).

Definition validate_advisor_current_change_unit (s : TaskTables) (task_id : string)
    (record : option ChangeUnitRow) : result (option ChangeUnitRow) StoreError :=
  match record with
  | None => Ok None
  | Some record =>
      let? task := ok_or (pt_tasks s !! task_id) SqliteNoRows in
      let? _ := ensure ((tk_mode (tr_task task) =? Advisor)
                        && negb (advisor_compatible_change_unit (cu_bounded_paths (cur_unit record))
                                   (cu_effect_contract (cur_unit record))))
                  (SchemaInvariant "advisor current Change Unit is write-capable") in
      Ok (Some record)
  end.

(** [query_row] takes the first row of the result. *)
Definition current_change_unit_row (s : TaskTables) (task_id : string)
    : result (option ChangeUnitRow) StoreError :=
  validate_advisor_current_change_unit s task_id
    (List.find (is_current_active task_id) (change_unit_rows s)).

Definition change_unit_row (s : TaskTables) (task_id change_unit_id : string)
    : option ChangeUnitRow :=
  option_filter (λ row, cu_task_id (cur_unit row) =? task_id) (pt_change_units s !! change_unit_id).

Definition change_unit_id_exists (s : TaskTables) (change_unit_id : string) : bool :=
  is_some (pt_change_units s !! change_unit_id).

Definition inserted_change_unit (project_id : string) (input : ChangeUnitInsert)
    (committed_state_version : N) : ChangeUnitRow :=
  {| cur_unit :=
       {| cu_project_id := project_id; cu_change_unit_id := cui_change_unit_id input;
          cu_task_id := cui_task_id input; cu_status := CUActive; cu_is_current := true;
          cu_basis_state_version := committed_state_version;
          cu_bounded_paths := cui_bounded_paths input;
          cu_write_basis_baseline_ref := cui_write_basis_baseline_ref input;
          cu_write_basis_git_workspace_context := cui_write_basis_git_workspace_context input;
          cu_effect_contract := cui_effect_contract input;
          cu_recovery_required := cui_recovery_required input |};
     cur_scope_summary := cui_scope_summary input; cur_closed_at := None |}.

Definition replaced_change_unit (at_ : UtcTimestamp) (row : ChangeUnitRow) : ChangeUnitRow :=
  let u := cur_unit row in
  {| cur_unit :=
       {| cu_project_id := cu_project_id u; cu_change_unit_id := cu_change_unit_id u;
          cu_task_id := cu_task_id u; cu_status := CUReplaced; cu_is_current := false;
          cu_basis_state_version := cu_basis_state_version u;
          cu_bounded_paths := cu_bounded_paths u;
          cu_write_basis_baseline_ref := cu_write_basis_baseline_ref u;
          cu_write_basis_git_workspace_context := cu_write_basis_git_workspace_context u;
          cu_effect_contract := cu_effect_contract u;
          cu_recovery_required := cu_recovery_required u |};
     cur_scope_summary := cur_scope_summary row; cur_closed_at := Some at_ |}.

(** The primary key and [idx_change_units_one_current_active] guard the insertion. *)
Definition insert_change_unit (s : TaskTables) (input : ChangeUnitInsert)
    (committed_state_version : N) : result TaskTables StoreError :=
  let? _ := validate_identifier "change_unit_id" (cui_change_unit_id input) in
  let? _ := validate_identifier "task_id" (cui_task_id input) in
  let? task := ok_or (pt_tasks s !! cui_task_id input) SqliteNoRows in
  let? _ := ensure ((tk_mode (tr_task task) =? Advisor)
                    && negb (advisor_compatible_change_unit (cui_bounded_paths input)
                               (cui_effect_contract input)))
              (InvalidInput
                 "an advisor Task cannot retain a write-capable current Change Unit") in
  let? _ := ensure (negb (fits_i64 committed_state_version))
              (InvalidInput "basis_state_version does not fit in SQLite integer") in
  let? _ := ensure (is_some (pt_change_units s !! cui_change_unit_id input))
              (ConstraintViolation "change_units.change_unit_id") in
  let? _ := ensure (existsb (is_current_active (cui_task_id input)) (change_unit_rows s))
              (ConstraintViolation "idx_change_units_one_current_active") in
  Ok (set_change_units s
        (<[cui_change_unit_id input :=
             inserted_change_unit (pt_project_id s) input committed_state_version]>
           (pt_change_units s))).

Definition set_task_current_change_unit (s : TaskTables) (task_id : string)
    (change_unit_id : option string) : result TaskTables StoreError :=
  let? _ := validate_identifier "task_id" task_id in
  update_task_coordinate s task_id "Task current Change Unit update changed no rows"
    (with_task (λ t,
       with_lifecycle (if is_some change_unit_id then PReady else tk_lifecycle_phase t)
         (with_coordinates (tk_shaping t) (tk_scope_revision t) (tk_close_basis_revision t)
            change_unit_id t))).

Definition insert_current_change_unit (s : TaskTables) (input : ChangeUnitInsert)
    (committed_state_version : N) : result TaskTables StoreError :=
  let? s := insert_change_unit s input committed_state_version in
  set_task_current_change_unit s (cui_task_id input) (Some (cui_change_unit_id input)).

Definition replace_current_change_unit (s : TaskTables) (input : ChangeUnitInsert)
    (committed_state_version : N) (committed_at : UtcTimestamp) : result TaskTables StoreError :=
  let? _ := validate_identifier "task_id" (cui_task_id input) in
  insert_current_change_unit
    (set_change_units s
       ((λ row, if is_current_active (cui_task_id input) row
                then replaced_change_unit committed_at row else row) <$> pt_change_units s))
    input committed_state_version.

(** [ChangeUnitMutation::apply]. *)
Definition apply_change_unit_mutation (s : TaskTables) (committed_at : UtcTimestamp)
    (committed_state_version : N) (m : ChangeUnitMutation) : result TaskTables StoreError :=
  match m with
  | CmInsertCurrent input => insert_current_change_unit s input committed_state_version
  | CmReplaceCurrent input =>
      replace_current_change_unit s input committed_state_version committed_at
  end.

(** ** Task and criterion reads *)

Definition invariant_error (detail : string) : StoreError := SchemaInvariant detail.

(** The lineage of an advisor's close basis, before the tables are consulted. *)
Definition advisor_lineage_valid (task : TaskRecord) (basis : CurrentCloseBasis) : bool :=
  negb (is_some (cb_source_run_ref basis))
  && negb (is_none_or (cb_shaping_checkpoint_ref basis) (λ reference,
       (sr_record_kind reference <>? KShapingCheckpoint)
       || (sr_project_id reference <>? tk_project_id task)
       || (sr_task_id reference <>? Some (tk_task_id task)))).

Definition checkpoint_matches (s : TaskTables) (task : TaskRecord) (checkpoint_id : string) : bool :=
  is_some_and (pt_checkpoints s !! checkpoint_id) (λ checkpoint,
    (sc_task_id checkpoint =? tk_task_id task)
    && (sc_readiness checkpoint <>? CheckpointSuperseded)
    && (sc_scope_revision checkpoint =? tk_scope_revision task)
    && is_some (shaping_baseline_ref (tk_shaping task))
    && (sc_baseline_ref checkpoint =? shaping_baseline_ref (tk_shaping task))).

(** The current applications linked to a checkpoint, in id order. *)
Definition linked_current_applications (s : TaskTables) (checkpoint_id : string) : list string :=
  rsort (omap (λ link,
                 if cal_shaping_checkpoint_id link =? checkpoint_id
                 then option_map (λ _, cal_shaping_decision_application_id link)
                        (option_filter (λ a, sda_authority_status a =? AppCurrent)
                           (pt_applications s !! cal_shaping_decision_application_id link))
                 else None)
           (pt_checkpoint_applications s)).

Definition validate_task_aggregate (s : TaskTables) (row : TaskRow) : result TaskRow StoreError :=
  let task := tr_task row in
  match tr_close_basis row with
  | None => Ok row
  | Some basis =>
      let? _ := ensure (negb ((cb_task_id basis =? tk_task_id task)
                              && (cb_scope_revision basis =? tk_scope_revision task)
                              && (cb_close_basis_revision basis =? tk_close_basis_revision task)
                              && (cb_baseline_ref basis =? shaping_baseline_ref (tk_shaping task))
                              && (tk_current_change_unit_id task =? Some (cb_change_unit_id basis))))
                  (invariant_error
                     "current close basis does not match its Task aggregate coordinates") in
      if tk_mode task =? Advisor then
        let? _ := ensure (negb (advisor_lineage_valid task basis))
                    (invariant_error "advisor close basis has invalid checkpoint-backed lineage") in
        let checkpoint_id := from_option sr_record_id "" (cb_shaping_checkpoint_ref basis) in
        let? _ := ensure (negb (fits_i64 (tk_scope_revision task)))
                    (invariant_error "Task scope revision is too large") in
        let? change_unit := current_change_unit_row s (tk_task_id task) in
        let change_unit_matches := is_some_and change_unit (λ unit,
              (cu_change_unit_id (cur_unit unit) =? cb_change_unit_id basis)
              && advisor_compatible_change_unit (cu_bounded_paths (cur_unit unit))
                   (cu_effect_contract (cur_unit unit))) in
        let? _ := ensure (negb (checkpoint_matches s task checkpoint_id)
                          || negb change_unit_matches
                          || (linked_current_applications s checkpoint_id
                              <>? rsort (sr_record_id <$> cb_shaping_decision_application_refs basis)))
                    (invariant_error
                       "advisor close basis does not match its current Change Unit, checkpoint, or shaping decision applications") in
        Ok row
      else
        let? _ := ensure (negb (is_some (cb_source_run_ref basis))
                          || is_some (cb_shaping_checkpoint_ref basis)
                          || negb (list_is_empty (cb_shaping_decision_application_refs basis)))
                    (invariant_error "direct/work close basis must remain Run-backed") in
        Ok row
  end.

Definition task_record (s : TaskTables) (task_id : string) : result (option TaskRow) StoreError :=
  match pt_tasks s !! task_id with
  | None => Ok None
  | Some row => let? row := validate_task_aggregate s row in Ok (Some row)
  end.

Definition task_exists (s : TaskTables) (task_id : string) : bool := is_some (pt_tasks s !! task_id).

Definition task_revision_of (row : TaskRow) : TaskRevisionRecord :=
  {| tv_project_id := tk_project_id (tr_task row); tv_task_id := tk_task_id (tr_task row);
     tv_scope_revision := tk_scope_revision (tr_task row);
     tv_close_basis_revision := tk_close_basis_revision (tr_task row);
     tv_current_close_basis := tr_close_basis row |}.

Definition stored_task_revision_record (s : TaskTables) (task_id : string)
    : result (option TaskRevisionRecord) StoreError :=
  let? row := task_record s task_id in Ok (task_revision_of <$> row).

Definition active_task_record (s : TaskTables) : result (option TaskRow) StoreError :=
  match pt_active_task_id s with
  | Some task_id => task_record s task_id
  | None => Ok None
  end.

(** [ORDER BY position, acceptance_criterion_id]. *)
Definition active_acceptance_criteria (s : TaskTables) (task_id : string)
    : list AcceptanceCriterionRow :=
  sort_by_key (λ row, (cri_position row, cri_acceptance_criterion_id row))
    (List.filter (active_of_task task_id) (map_to_list (pt_criteria s)).*2).

Definition stored_acceptance_criterion_record (s : TaskTables) (id : string)
    : option AcceptanceCriterionRow := pt_criteria s !! id.

(** ** Checks that span tables *)

(** The request row a user-action statement writes with its foreign-key columns. *)
Definition written_request (m : UserActionMutation) : option string :=
  match m with
  | InsertRequest input => Some (rq_user_action_request_id input)
  | UpdateBasis input => Some (bu_user_action_request_id input)
  | _ => None
  end.

Definition request_foreign_keys (s : TaskTables) (row : StoredUserActionRequest) : bool :=
  task_exists s (ur_task_id row)
  && is_none_or (ur_change_unit_id row) (λ unit, is_some (change_unit_row s (ur_task_id row) unit)).

Definition deferred_ok (s : TaskTables) : bool :=
  is_none_or (pt_active_task_id s) (task_exists s)
  && forallb (λ row : TaskRow,
       is_none_or (tk_current_change_unit_id (tr_task row)) (λ unit,
         is_some (change_unit_row s (tk_task_id (tr_task row)) unit)))
       (map_to_list (pt_tasks s)).*2.

(** [pending_user_action_exists] of [commit.rs]. *)
Definition pending_request_exists (s : TaskTables) (task_id : string) : bool :=
  existsb (λ row : StoredUserActionRequest,
    (ur_task_id row =? task_id) && (ur_basis_status row =? BasisCurrent)
    && negb (existsb (λ resolution, us_user_action_request_id resolution
                                      =? ur_user_action_request_id row)
               (resolution_rows (pt_user_actions s))))
    (request_rows (pt_user_actions s)).
