(* ===== verification/TaskStoreSound.v ===== *)
(** * TaskStoreSound: what the Task and Change Unit tables guarantee

    Over [TaskStore]: the relation every mutation keeps between the tables before and
    after it ([tables_step]); the invariant of the tables inside and at the end of a
    commit ([tables_ok], [committed_ok]); the exact effect of replacing acceptance
    criteria; and what ending a Task does to the shaping authority applied under it.
    [ProjectStoreSound] lifts them to sequences of commits. *)

From S2P Require Import Prelude Text Values Canonical EventHash Schema Clock TicketStore Commit CommitSound.
From S2P Require Import UserActionShape UserActionStore UserActionService Workflow Planning Evidence.
From S2P Require Import WorkflowAction TaskRecords TaskStore.
From S2P Require Import UserActionStoreSound.
Import Shaping.

(** ** What a mutation keeps *)

(** Identity, mode and lineage of a Task are immutable; control and acceptance only rise. *)
Record task_kept (r r' : TaskRow) : Prop := {
  kept_id : tk_task_id (tr_task r') = tk_task_id (tr_task r);
  kept_project : tk_project_id (tr_task r') = tk_project_id (tr_task r);
  kept_mode : tk_mode (tr_task r') = tk_mode (tr_task r);
  kept_requested : tk_requested_control_level (tr_task r') = tk_requested_control_level (tr_task r);
  kept_lineage : tr_predecessor_task_id r' = tr_predecessor_task_id r
    ∧ tr_lineage_relation r' = tr_lineage_relation r ∧ tr_lineage_reason r' = tr_lineage_reason r
    ∧ tr_carry_forward r' = tr_carry_forward r;
  kept_control : control_index (tk_effective_control_level (tr_task r))
                 ≤ control_index (tk_effective_control_level (tr_task r'));
  kept_acceptance : acceptance_policy_rank (tk_acceptance_policy (tr_task r))
                    ≤ acceptance_policy_rank (tk_acceptance_policy (tr_task r'));
}.

(** A criterion stays with its Task, and a retired one never changes again. *)
Record criterion_kept (c c' : AcceptanceCriterionRow) : Prop := {
  kept_criterion : cri_acceptance_criterion_id c' = cri_acceptance_criterion_id c
    ∧ cri_task_id c' = cri_task_id c;
  kept_retired : cri_status c = CriterionRetired → c' = c;
}.

(** A Change Unit's contents are immutable; once replaced it is never current again. *)
Inductive unit_kept (u : ChangeUnitRow) : ChangeUnitRow → Prop :=
| unit_same : unit_kept u u
| unit_replaced at_ :
    cu_status (cur_unit u) = CUActive → cu_is_current (cur_unit u) = true →
    unit_kept u (replaced_change_unit at_ u).

(** The authority of an application only falls: current, stale, superseded. *)
Definition authority_rank (status : ApplicationAuthorityStatus) : nat :=
  match status with AppCurrent => 0 | AppStale => 1 | AppSuperseded => 2 end.

(** An application with another end. *)
Definition with_end (status : ApplicationAuthorityStatus) (stale_at superseded_at : option UtcTimestamp)
    (a : ShapingDecisionApplicationRecord) : ShapingDecisionApplicationRecord :=
  {| sda_project_id := sda_project_id a;
     sda_shaping_decision_application_id := sda_shaping_decision_application_id a;
     sda_task_id := sda_task_id a; sda_source_checkpoint_id := sda_source_checkpoint_id a;
     sda_source_gap_id := sda_source_gap_id a;
     sda_user_action_request_id := sda_user_action_request_id a;
     sda_user_action_resolution_id := sda_user_action_resolution_id a;
     sda_judgment_kind := sda_judgment_kind a; sda_application_owner := sda_application_owner a;
     sda_applied_scope_revision := sda_applied_scope_revision a;
     sda_applied_baseline_ref := sda_applied_baseline_ref a;
     sda_applied_change_unit_id := sda_applied_change_unit_id a;
     sda_applied_at := sda_applied_at a; sda_authority_status := status;
     sda_stale_at := stale_at; sda_superseded_at := superseded_at;
     sda_linked_checkpoint_id := sda_linked_checkpoint_id a;
     sda_carried_from_checkpoint_id := sda_carried_from_checkpoint_id a |}.

(** The contents of an application are immutable; it changes only by losing authority, and
    keeps the time it went stale. *)
Record application_kept (a a' : ShapingDecisionApplicationRecord) : Prop := {
  kept_contents : a' = with_end (sda_authority_status a') (sda_stale_at a') (sda_superseded_at a') a;
  kept_authority : authority_rank (sda_authority_status a) ≤ authority_rank (sda_authority_status a');
  kept_status : sda_authority_status a' = sda_authority_status a → a' = a;
  kept_stale : sda_authority_status a ≠ AppCurrent → sda_stale_at a' = sda_stale_at a;
}.

Definition rows_kept {A} (R : relation A) (m m' : gmap string A) : Prop :=
  ∀ id x, m !! id = Some x → ∃ x', m' !! id = Some x' ∧ R x x'.

Record tables_step (s s' : TaskTables) : Prop := {
  step_tasks : rows_kept task_kept (pt_tasks s) (pt_tasks s');
  step_criteria : rows_kept criterion_kept (pt_criteria s) (pt_criteria s');
  step_units : rows_kept unit_kept (pt_change_units s) (pt_change_units s');
  step_applications : rows_kept application_kept (pt_applications s) (pt_applications s');
}.

#[export] Instance task_kept_preorder : PreOrder task_kept.
Proof.
  split.
  - intros r. by constructor.
  - intros a b c [? ? ? ? (?&?&?&?) ? ?] [? ? ? ? (?&?&?&?) ? ?].
    constructor; [congruence..| | lia | lia]. split_and!; congruence.
Qed.

#[export] Instance criterion_kept_preorder : PreOrder criterion_kept.
Proof.
  split; [by constructor|]. intros a b c [[? ?] Hab] [[? ?] Hbc].
  constructor; [split; congruence|]. intros Hr. pose proof (Hab Hr) as ->. auto.
Qed.

#[export] Instance unit_kept_preorder : PreOrder unit_kept.
Proof. split; [by constructor|]. intros a b c [|at_ ? ?]; [done|]. intros []; [by constructor|done]. Qed.

#[export] Instance application_kept_preorder : PreOrder application_kept.
Proof.
  split; [intros a; constructor; [by destruct a|done..]|].
  intros a b c [Hab Rab Sab Tab] [Hbc Rbc Sbc Tbc]. constructor; [|lia| |].
  - rewrite Hbc at 1. by rewrite Hab.
  - intros Hs. rewrite Hs in Rbc. assert (sda_authority_status b = sda_authority_status a) as Hb.
    { destruct (sda_authority_status a), (sda_authority_status b); cbn in *; try done; lia. }
    rewrite <-(Sab Hb). apply Sbc. congruence.
  - intros Ha. rewrite Tbc; [by apply Tab|]. intros Hb. rewrite Hb in Rab.
    destruct (sda_authority_status a); cbn in *; [done|lia|lia].
Qed.

Lemma application_kept_identity a a' :
  application_kept a a' →
  sda_shaping_decision_application_id a' = sda_shaping_decision_application_id a
  ∧ sda_task_id a' = sda_task_id a ∧ sda_user_action_request_id a' = sda_user_action_request_id a.
Proof. by intros [-> _ _ _]. Qed.

Lemma invalidated_kept status at_ a :
  sda_authority_status a = AppCurrent → status ≠ AppCurrent →
  application_kept a (invalidated_application status at_ a).
Proof.
  intros Ha Hs. constructor; [done| | |done]; cbn; rewrite Ha; [|done].
  destruct status; cbn; [done|lia|lia].
Qed.

Section rows_kept.
Context {A} (R : relation A) `{HP : !PreOrder R}.

Lemma rows_kept_refl m : rows_kept R m m.
Proof using HP. intros id x Hx. exists x. by split. Qed.

Lemma rows_kept_trans m1 m2 m3 : rows_kept R m1 m2 → rows_kept R m2 m3 → rows_kept R m1 m3.
Proof using HP.
  intros H1 H2 id x Hx. destruct (H1 _ _ Hx) as (y & Hy & Hxy).
  destruct (H2 _ _ Hy) as (z & Hz & Hyz). exists z. split; [done|]. by etrans.
Qed.

Lemma rows_kept_insert m id y :
  (∀ x, m !! id = Some x → R x y) → rows_kept R m (<[id := y]> m).
Proof using HP.
  intros HR id' x Hx. destruct (decide (id = id')) as [<-|Hne].
  - exists y. rewrite lookup_insert_eq. auto.
  - exists x. rewrite lookup_insert_ne by done. by split.
Qed.

Lemma rows_kept_fmap m f : (∀ x, R x (f x)) → rows_kept R m (f <$> m).
Proof using HP. intros HR id x Hx. exists (f x). rewrite lookup_fmap, Hx. by split. Qed.
End rows_kept.

#[export] Instance tables_step_preorder : PreOrder tables_step.
Proof.
  split.
  - intros s. constructor; apply rows_kept_refl, _.
  - intros a b c [] []. constructor; eapply rows_kept_trans; eauto with typeclass_instances.
Qed.

Create HintDb tables.
#[local] Hint Resolve rows_kept_refl : tables.
#[local] Hint Extern 1 (PreOrder _) => typeclasses eauto : tables.

(** ** The effect of each statement *)

Lemma update_task_Ok s id detail f s' :
  update_task s id detail f = Ok s' ↔
  ∃ row, pt_tasks s !! id = Some row ∧ s' = set_tasks s (<[id := f row]> (pt_tasks s)).
Proof.
  unfold update_task. destruct (pt_tasks s !! id) as [row|]; cbn.
  - split; [intros [= <-]; eauto|]. by intros (row' & [= <-] & ->).
  - split; [done|]. by intros (row' & ? & _).
Qed.

Lemma update_task_coordinate_Ok s id detail f s' :
  update_task_coordinate s id detail f = Ok s' ↔
  ∃ row, pt_tasks s !! id = Some row ∧ implementation_authority_guard s row (f row) = false
    ∧ s' = set_tasks s (<[id := f row]> (pt_tasks s)).
Proof.
  unfold update_task_coordinate. destruct (pt_tasks s !! id) as [row|]; cbn.
  - rewrite ensure_bind. split; [intros [? [= <-]]; eauto|]. by intros (row' & [= <-] & ? & ->).
  - split; [done|]. by intros (row' & ? & _).
Qed.

(** A text the [trim] checks and the [CHECK] constraints accept. *)
Definition text_ok (text : string) : bool := negb (str_is_empty (trim text)) && sql_has_text text.

Lemma text_ok_intro text :
  str_is_empty (trim text) = false → sql_has_text text = true → text_ok text = true.
Proof. unfold text_ok. by intros -> ->. Qed.

Definition reasons_ok (row : TaskRow) : Prop :=
  text_ok (tk_control_level_reason (tr_task row)) = true
  ∧ text_ok (tk_acceptance_policy_reason (tr_task row)) = true.

(** What the statement of one Task row keeps, with the pointer and mode columns that the
    Change Unit invariant reads. *)
Record row_framed (r r' : TaskRow) : Prop := {
  framed_kept : task_kept r r';
  framed_pointer : tk_current_change_unit_id (tr_task r') = tk_current_change_unit_id (tr_task r);
  framed_reasons : reasons_ok r → reasons_ok r';
}.

#[export] Instance row_framed_preorder : PreOrder row_framed.
Proof. split; [by constructor|]. intros a b c [] []. constructor; [by etrans|congruence|auto]. Qed.

Definition criteria_keyed (s : TaskTables) : Prop :=
  ∀ id c, pt_criteria s !! id = Some c → cri_acceptance_criterion_id c = id.

(** Tables that differ in framed Task rows, new Tasks, criteria and authority only. *)
Record tables_framed (s s' : TaskTables) : Prop := {
  framed_step : tables_step s s';
  framed_units : pt_change_units s' = pt_change_units s;
  framed_rows : ∀ id r', pt_tasks s' !! id = Some r' →
    (∃ r, pt_tasks s !! id = Some r ∧ row_framed r r')
    ∨ pt_tasks s !! id = None ∧ (tk_task_id (tr_task r') = id ∧ trim id ≠ EmptyString)
      ∧ reasons_ok r';
  framed_app_keys : ∀ id a', pt_applications s' !! id = Some a' →
    (∃ a, pt_applications s !! id = Some a ∧ application_kept a a')
    ∨ pt_applications s !! id = None ∧ sda_shaping_decision_application_id a' = id
      ∧ is_Some (pt_tasks s' !! sda_task_id a');
  framed_criterion_keys : criteria_keyed s → criteria_keyed s';
}.

#[export] Instance tables_framed_preorder : PreOrder tables_framed.
Proof.
  split.
  - intros s. constructor; [done|done| | |]; eauto.
    + intros id r Hr. left. exists r. by split.
    + intros id a Ha. left. exists a. by split.
  - intros a b c [Hab ? Hrab Hkab ?] [Hbc ? Hrbc Hkbc ?]. constructor; [by etrans|congruence| | |auto].
    + intros id r' Hr'. destruct (Hrbc _ _ Hr') as [(r & Hr & Hf)|(Hn & Hid & Hre)].
      * destruct (Hrab _ _ Hr) as [(r0 & Hr0 & Hf0)|(Hn0 & Hid0 & Hre0)].
        -- left. exists r0. split; [done|]. by etrans.
        -- right. split_and!; [done| |apply Hid0|by apply (framed_reasons _ _ Hf)].
           rewrite (kept_id _ _ (framed_kept _ _ Hf)). apply Hid0.
      * right. split; [|by split]. destruct (pt_tasks a !! id) as [r0|] eqn:Hr0; [|done].
        destruct (step_tasks _ _ Hab _ _ Hr0) as (r1 & Hr1 & _). by rewrite Hn in Hr1.
    + intros id a' Ha'. destruct (Hkbc _ _ Ha') as [(a1 & Ha1 & H1)|(Hn & Hid & Ht)].
      * destruct (Hkab _ _ Ha1) as [(a0 & Ha0 & H0)|(Hn & Hid & row & Hrow)].
        -- left. exists a0. split; [done|]. by etrans.
        -- right. destruct (application_kept_identity _ _ H1) as (-> & -> & _).
           split_and!; [done..|]. destruct (step_tasks _ _ Hbc _ _ Hrow) as (r & -> & _). eauto.
      * right. split; [|by split]. destruct (pt_applications a !! id) as [a0|] eqn:Ha0; [|done].
        destruct (step_applications _ _ Hab _ _ Ha0) as (a1 & Ha1 & _). by rewrite Hn in Ha1.
Qed.

Lemma framed_insert_row s id row row' :
  pt_tasks s !! id = Some row → row_framed row row' →
  tables_framed s (set_tasks s (<[id := row']> (pt_tasks s))).
Proof.
  intros Hrow Hf. constructor; cbn; [constructor; cbn; auto with tables|done| | |done].
  - apply rows_kept_insert; [apply _|]. intros x Hx. simplify_map_eq. by destruct Hf.
  - intros id' r' Hr'. left. destruct (decide (id = id')) as [<-|Hne].
    + rewrite lookup_insert_eq in Hr'. injection Hr' as <-. eauto.
    + rewrite lookup_insert_ne in Hr' by done. exists r'. by split.
  - intros id' a Ha. left. exists a. by split.
Qed.

Lemma update_task_framed s id detail f s' :
  (∀ row, row_framed row (f row)) → update_task s id detail f = Ok s' → tables_framed s s'.
Proof.
  intros Hf (row & Hrow & ->)%update_task_Ok. by eapply framed_insert_row.
Qed.

Lemma update_task_coordinate_framed s id detail f s' :
  (∀ row, row_framed row (f row)) → update_task_coordinate s id detail f = Ok s' →
  tables_framed s s'.
Proof.
  intros Hf (row & Hrow & _ & ->)%update_task_coordinate_Ok. by eapply framed_insert_row.
Qed.

Lemma update_task_column_framed {A} s id column (value : option A) f s' :
  (∀ v row, row_framed row (f v row)) → update_task_column s id column value f = Ok s' →
  tables_framed s s'.
Proof.
  destruct value as [v|]; cbn; intros Hf; [|by intros [= <-]]. by apply update_task_framed.
Qed.

(** The row functions of the statements are framed by computation. *)
Ltac framed := intros; constructor; [constructor; cbn; auto|reflexivity|by intros []].

Lemma invalidate_request_basis_project actions id status actions' :
  invalidate_request_basis actions id status = Ok actions' →
  ut_project_id actions' = ut_project_id actions ∧ ut_resolutions actions' = ut_resolutions actions.
Proof.
  unfold invalidate_request_basis. destruct (ut_requests actions !! id); cbn; [|done].
  case_match; [by intros [= <-]|]. rewrite ensure_bind. by intros [_ [= <-]].
Qed.

Lemma framed_authority s applications actions :
  rows_kept application_kept (pt_applications s) applications →
  (∀ id a', applications !! id = Some a' →
     (∃ a, pt_applications s !! id = Some a ∧ application_kept a a')
     ∨ pt_applications s !! id = None ∧ sda_shaping_decision_application_id a' = id
       ∧ is_Some (pt_tasks s !! sda_task_id a')) →
  tables_framed s (set_authority s applications actions).
Proof.
  intros Hk Hb. constructor; cbn; [constructor; cbn; auto with tables|done| |done|done].
  intros id r Hr. left. exists r. by split.
Qed.

(** One application row loses authority. *)
Lemma framed_application s id a a' actions :
  pt_applications s !! id = Some a → application_kept a a' →
  tables_framed s (set_authority s (<[id := a']> (pt_applications s)) actions).
Proof.
  intros Ha Hk. apply framed_authority.
  - apply rows_kept_insert; [apply _|]. intros x Hx. by simplify_map_eq.
  - intros id' b Hb. left. destruct (decide (id = id')) as [<-|Hne].
    + rewrite lookup_insert_eq in Hb. injection Hb as <-. eauto.
    + rewrite lookup_insert_ne in Hb by done. exists b. by split.
Qed.

Lemma invalidate_loop_framed rows status at_ s s' :
  status ≠ AppCurrent → invalidate_application_loop s rows status at_ = Ok s' →
  tables_framed s s' ∧ pt_tasks s' = pt_tasks s ∧ pt_criteria s' = pt_criteria s
  ∧ pt_active_task_id s' = pt_active_task_id s.
Proof.
  intros Hst. revert s. induction rows as [|[app req] rows IH]; intros s; cbn.
  { intros [= <-]. by split_and!. }
  destruct (option_filter _ _) as [a|] eqn:Ha; cbn; [|done].
  apply option_filter_Some in Ha as [Ha Hcur]. apply (proj1 (eqb_true _ _)) in Hcur.
  rewrite bind_Ok. intros (actions & Hi & (Hf & Ht & Hc & Hact)%IH). cbn in *.
  split_and!; [|done..]. etrans; [|exact Hf].
  eapply framed_application; [done|]. by apply invalidated_kept.
Qed.

Lemma supersede_applications_framed s task_id at_ s' :
  supersede_task_shaping_applications s task_id at_ = Ok s' →
  tables_framed s s' ∧ pt_tasks s' = pt_tasks s ∧ pt_criteria s' = pt_criteria s
  ∧ pt_active_task_id s' = pt_active_task_id s.
Proof. by apply invalidate_loop_framed. Qed.

Lemma alter_present {A} (f : A → A) id (m : gmap string A) x :
  m !! id = Some x → alter f id m = <[id := f x]> m.
Proof.
  intros Hx. apply map_eq. intros i. destruct (decide (id = i)) as [<-|].
  - by rewrite lookup_alter_eq, lookup_insert_eq, Hx.
  - by rewrite lookup_alter_ne, lookup_insert_ne.
Qed.

Lemma supersede_task_framed s task_id at_ s' :
  supersede_task s task_id at_ = Ok s' → tables_framed s s'.
Proof.
  unfold supersede_task. rewrite bind_Ok. intros ([] & _ & H). rewrite bind_Ok in H.
  destruct H as (s1 & (Hf & _)%supersede_applications_framed & [= <-]). etrans; [exact Hf|].
  destruct (pt_tasks s1 !! task_id) as [row|] eqn:Hrow.
  - rewrite (alter_present _ _ _ _ Hrow). eapply framed_insert_row; [done|framed].
  - rewrite alter_id; [by destruct s1|]. intros x Hx. congruence.
Qed.

Lemma close_task_framed s input at_ s' : close_task s input at_ = Ok s' → tables_framed s s'.
Proof.
  unfold close_task. rewrite bind_Ok. intros ([] & _ & H). rewrite bind_Ok in H.
  destruct H as (s1 & (Hf & _)%supersede_applications_framed & Hu). etrans; [exact Hf|].
  eapply update_task_framed; [|exact Hu]. framed.
Qed.

Lemma update_task_scope_framed s input s' : update_task_scope s input = Ok s' → tables_framed s s'.
Proof.
  unfold update_task_scope. intros H.
  peel H as x Hx. peel H as s1 H1. peel H as s2 H2. peel H as s3 H3. peel H as s4 H4.
  peel H as s5 H5. peel H as s6 H6. peel H as s7 H7. peel H as s8 H8.
  apply update_task_column_framed in H2, H3, H4, H5, H6, H7, H8, H; [|framed..].
  assert (tables_framed s s1) as Hs1.
  { destruct (tsu_shaping input); [|by injection H1 as <-].
    eapply update_task_coordinate_framed; [|exact H1]. framed. }
  by repeat (etrans; [eassumption|]).
Qed.

Lemma update_task_scope_revision_framed s input s' :
  update_task_scope_revision s input = Ok s' → tables_framed s s'.
Proof.
  unfold update_task_scope_revision. intros H. peel H as x Hx. peel H as y Hy.
  eapply update_task_coordinate_framed; [|exact H]. framed.
Qed.

Lemma update_task_close_basis_framed s input s' :
  update_task_close_basis s input = Ok s' → tables_framed s s'.
Proof.
  unfold update_task_close_basis. intros H. peel H as x Hx. peel H as y Hy.
  eapply update_task_framed; [|exact H]. framed.
Qed.

Lemma insert_task_framed s input s' : insert_task s input = Ok s' → tables_framed s s'.
Proof.
  unfold insert_task. intros H. peel H as [] Hid. rewrite !ensure_bind in H.
  destruct H as (Hc1 & Ha1 & Hc2 & Ha2 & _ & Hnew & _ & [= <-]). destruct (pt_tasks s !! tn_task_id input) eqn:Hn; [done|].
  constructor; cbn; [constructor; cbn; auto with tables|done| | |done].
  - apply rows_kept_insert; [apply _|]. intros x Hx. congruence.
  - intros id r Hr. destruct (decide (tn_task_id input = id)) as [<-|Hne].
    + rewrite lookup_insert_eq in Hr. injection Hr as <-. right. split_and!; [done|done|by apply validate_identifier_Ok in Hid|].
      apply negb_false_iff in Hc2, Ha2. by split; apply text_ok_intro.
    + rewrite lookup_insert_ne in Hr by done. left. exists r. by split.
  - intros id a Ha. left. exists a. by split.
Qed.

Lemma acceptance_update_Some input acceptance :
  acceptance_update input = Some acceptance →
  match acceptance with Some (_, reason) => str_is_empty (trim reason) = false | None => True end.
Proof.
  unfold acceptance_update. destruct (tcu_acceptance_policy input), (tcu_acceptance_policy_reason input);
    try done; [|by intros [= <-]]. by destruct (str_is_empty _) eqn:E; [|intros [= <-]].
Qed.

Lemma update_task_control_level_framed s input s' :
  update_task_control_level s input = Ok s' → tables_framed s s'.
Proof.
  unfold update_task_control_level. intros H. peel H as [] Hid. rewrite ensure_bind in H.
  destruct H as [Hreason H]. peel H as acceptance Hacc. peel H as row Hrow. apply ok_or_Ok in Hrow.
  rewrite ensure_bind in H. destruct H as [Hc H]. rewrite ensure_bind in H. destruct H as [Ha H].
  rewrite !ensure_bind in H. destruct H as (Hsql & Hasql & [= <-]).
  apply ok_or_Ok, acceptance_update_Some in Hacc.
  eapply framed_insert_row; [done|]. constructor; [|done|].
  - constructor; cbn; [done..| |].
    + apply control_lt_false in Hc. lia.
    + destruct acceptance as [[policy reason]|]; cbn in *; [|done]. apply Nat.ltb_ge in Ha. lia.
  - apply negb_false_iff in Hsql. intros [_ Hold]. split; [by apply text_ok_intro|].
    destruct acceptance as [[policy reason]|]; [|done].
    apply negb_false_iff in Hasql. by apply text_ok_intro.
Qed.

Lemma set_active_task_framed s task_id s' : set_active_task s task_id = Ok s' → tables_framed s s'.
Proof.
  unfold set_active_task. intros H. peel H as [] ?. injection H as <-.
  constructor; cbn; [constructor; cbn; auto with tables|done| | |done].
  - intros id r Hr. left. exists r. by split.
  - intros id a Ha. left. exists a. by split.
Qed.

Lemma framed_criteria s criteria :
  rows_kept criterion_kept (pt_criteria s) criteria →
  (criteria_keyed s → ∀ id c, criteria !! id = Some c → cri_acceptance_criterion_id c = id) →
  tables_framed s (set_criteria s criteria).
Proof.
  intros Hk Hkeys. constructor; cbn; [constructor; cbn; auto with tables|done| | |done].
  - intros id r Hr. left. exists r. by split.
  - intros id a Ha. left. exists a. by split.
Qed.

(** What an accepted upsert requires and does. *)
Lemma upsert_criterion_Ok s task_id c s' :
  upsert_criterion s task_id c = Ok s' →
  s' = match pt_criteria s !! acu_acceptance_criterion_id c with
       | Some row =>
           if active_of_task task_id row
           then set_criteria s (<[acu_acceptance_criterion_id c := updated_criterion row c]>
                                  (pt_criteria s))
           else s
       | None => set_criteria s (<[acu_acceptance_criterion_id c :=
                   inserted_criterion (pt_project_id s) task_id c]> (pt_criteria s))
       end.
Proof.
  unfold upsert_criterion. intros H. do 4 (peel H as [] ?).
  destruct (pt_criteria s !! _) as [row|]; [by destruct (active_of_task task_id row); injection H as <-|].
  peel H as [] ?. by injection H as <-.
Qed.

Lemma active_of_task_true task_id row :
  active_of_task task_id row = true ↔ cri_task_id row = task_id ∧ cri_status row = CriterionActive.
Proof. unfold active_of_task. by rewrite andb_true_iff, !eqb_true. Qed.

Lemma upsert_criterion_framed s task_id c s' :
  upsert_criterion s task_id c = Ok s' → tables_framed s s'.
Proof.
  intros ->%upsert_criterion_Ok. destruct (pt_criteria s !! _) as [row|] eqn:Hrow.
  - destruct (active_of_task task_id row) eqn:Hact; [|done]. apply framed_criteria.
    + apply rows_kept_insert; [apply _|]. intros x Hx. simplify_map_eq.
      apply active_of_task_true in Hact as [_ Hact]. constructor; [done|]. intros Hr. congruence.
    + intros Hkeys id c' Hc'. destruct (decide (acu_acceptance_criterion_id c = id)) as [<-|];
        simplify_map_eq; [|auto]. exact (Hkeys _ _ Hrow).
  - apply framed_criteria.
    + apply rows_kept_insert; [apply _|]. intros x Hx. congruence.
    + intros Hkeys id c' Hc'. destruct (decide (acu_acceptance_criterion_id c = id)) as [<-|];
        simplify_map_eq; auto.
Qed.

Lemma upsert_criteria_framed criteria task_id s s' :
  upsert_criteria s task_id criteria = Ok s' → tables_framed s s'.
Proof.
  revert s. induction criteria as [|c rest IH]; intros s; cbn; [by intros [= <-]|].
  rewrite bind_Ok. intros (s1 & H1%upsert_criterion_framed & H2%IH). by etrans.
Qed.

Lemma replace_acceptance_criteria_framed s input at_ s' :
  replace_acceptance_criteria s input at_ = Ok s' → tables_framed s s'.
Proof.
  unfold replace_acceptance_criteria. intros H. peel H as [] ?. peel H as s1 H1.
  injection H as <-. etrans; [by eapply upsert_criteria_framed|].
  apply framed_criteria.
  - apply rows_kept_fmap; [apply _|]. intros row.
    destruct (active_of_task _ row && _) eqn:Hact; [|done].
    apply andb_true_iff in Hact as [[_ Hact]%active_of_task_true _].
    constructor; [done|]. intros Hr. congruence.
  - intros Hkeys id c. rewrite lookup_fmap, fmap_Some. intros (c0 & Hc0 & ->).
    pose proof (Hkeys _ _ Hc0) as Hid. by case_match.
Qed.

#[local] Hint Resolve insert_task_framed set_active_task_framed supersede_task_framed
  close_task_framed update_task_control_level_framed update_task_scope_framed
  update_task_scope_revision_framed update_task_close_basis_framed
  replace_acceptance_criteria_framed : tables.

Lemma apply_task_mutation_framed s at_ m s' :
  apply_task_mutation s at_ m = Ok s' → tables_framed s s'.
Proof. destruct m; cbn; eauto with tables. Qed.

(** ** The invariant of the tables *)

(** The pointer of a Task with Change Units names the one that is current; a Task without
    any may still carry the pointer it was inserted with. *)
Definition pointer_ok (s : TaskTables) (id : string) (row : TaskRow) : Prop :=
  (∀ uid u, pt_change_units s !! uid = Some u → cu_task_id (cur_unit u) ≠ id)
  ∨ ∃ uid u, tk_current_change_unit_id (tr_task row) = Some uid
      ∧ pt_change_units s !! uid = Some u ∧ is_current_active id u = true
      ∧ ∀ uid' u', pt_change_units s !! uid' = Some u' → is_current_active id u' = true → uid' = uid.

Record tables_base (s : TaskTables) : Prop := {
  tb_task_key : ∀ id row, pt_tasks s !! id = Some row →
    tk_task_id (tr_task row) = id ∧ trim id ≠ EmptyString;
  tb_unit_key : ∀ uid u, pt_change_units s !! uid = Some u →
    cu_change_unit_id (cur_unit u) = uid ∧ trim uid ≠ EmptyString;
  tb_unit_task : ∀ uid u, pt_change_units s !! uid = Some u →
    ∃ row, pt_tasks s !! cu_task_id (cur_unit u) = Some row
      ∧ (tk_mode (tr_task row) = Advisor →
         advisor_compatible_change_unit (cu_bounded_paths (cur_unit u))
           (cu_effect_contract (cur_unit u)) = true);
  tb_application_key : ∀ id a, pt_applications s !! id = Some a →
    sda_shaping_decision_application_id a = id ∧ is_Some (pt_tasks s !! sda_task_id a);
  tb_criterion_key : criteria_keyed s;
  tb_reasons : ∀ id row, pt_tasks s !! id = Some row → reasons_ok row;
}.

Record tables_ok (s : TaskTables) : Prop := {
  tok_base : tables_base s;
  tok_pointer : ∀ id row, pt_tasks s !! id = Some row → pointer_ok s id row;
}.

Definition committed_ok (s : TaskTables) : Prop := tables_ok s ∧ deferred_ok s = true.

Lemma framed_base s s' : tables_framed s s' → tables_base s → tables_base s'.
Proof.
  intros Hf [Hk Huk Hut Hak Hck Hre]. constructor; [| | | |by apply (framed_criterion_keys _ _ Hf)|].
  - intros id row' Hr'. destruct (framed_rows _ _ Hf _ _ Hr') as [(row & Hr & Hrf)|(_ & Hid & _)]; [|done].
    rewrite (kept_id _ _ (framed_kept _ _ Hrf)). eauto.
  - rewrite (framed_units _ _ Hf). done.
  - rewrite (framed_units _ _ Hf). intros uid u Hu. destruct (Hut _ _ Hu) as (row & Hrow & Hadv).
    destruct (step_tasks _ _ (framed_step _ _ Hf) _ _ Hrow) as (row' & Hrow' & Hkept).
    exists row'. split; [done|]. by rewrite (kept_mode _ _ Hkept).
  - intros id a' Ha'. destruct (framed_app_keys _ _ Hf _ _ Ha') as [(a & Ha & Hka)|(_ & ? & ?)]; [|done].
    destruct (application_kept_identity _ _ Hka) as (-> & -> & _). destruct (Hak _ _ Ha) as [? [row Hrow]].
    split; [done|]. destruct (step_tasks _ _ (framed_step _ _ Hf) _ _ Hrow) as (row' & -> & _). eauto.
  - intros id row' Hr'. destruct (framed_rows _ _ Hf _ _ Hr') as [(row & Hr & Hrf)|(_ & _ & ?)]; [|done].
    apply (framed_reasons _ _ Hrf). eauto.
Qed.

Lemma framed_ok s s' : tables_framed s s' → tables_ok s → tables_ok s'.
Proof.
  intros Hf [Hb Hp]. constructor; [by eapply framed_base|].
  intros id row' Hr'. unfold pointer_ok. rewrite (framed_units _ _ Hf).
  destruct (framed_rows _ _ Hf _ _ Hr') as [(row & Hr & Hrf)|(Hn & _)].
  - rewrite (framed_pointer _ _ Hrf). by apply Hp.
  - left. intros uid u Hu Hid. destruct (tb_unit_task _ Hb _ _ Hu) as (row & Hrow & _). congruence.
Qed.

(** ** Change Unit mutations *)

Lemma existsb_rows_false {A} (p : A → bool) (m : gmap string A) :
  existsb p (map_to_list m).*2 = false ↔ ∀ id x, m !! id = Some x → p x = false.
Proof.
  rewrite <-not_true_iff_false, existsb_exists. split.
  - intros Hn id x Hx. apply not_true_iff_false. intros Hp. apply Hn. exists x.
    split; [|done]. apply list_elem_of_In, list_elem_of_fmap. exists (id, x).
    split; [done|]. by apply elem_of_map_to_list.
  - intros Hf (x & Hin & Hp). apply list_elem_of_In, list_elem_of_fmap in Hin as ([id y] & -> & Hy).
    apply elem_of_map_to_list in Hy. cbn in Hp. by rewrite (Hf _ _ Hy) in Hp.
Qed.

Lemma insert_change_unit_Ok s input version s' :
  insert_change_unit s input version = Ok s' →
  let id := cui_change_unit_id input in
  trim id ≠ EmptyString ∧ pt_change_units s !! id = None
  ∧ (∃ row, pt_tasks s !! cui_task_id input = Some row
       ∧ (tk_mode (tr_task row) = Advisor →
          advisor_compatible_change_unit (cui_bounded_paths input) (cui_effect_contract input) = true))
  ∧ (∀ uid u, pt_change_units s !! uid = Some u → is_current_active (cui_task_id input) u = false)
  ∧ s' = set_change_units s (<[id := inserted_change_unit (pt_project_id s) input version]>
                               (pt_change_units s)).
Proof.
  intros H id. unfold insert_change_unit in H. peel H as [] Hid. peel H as [] Htid.
  peel H as row Hrow. apply ok_or_Ok in Hrow. rewrite !ensure_bind in H.
  destruct H as (Hadv & _ & Hn & Hcur & [= <-]). split_and!; [by apply validate_identifier_Ok in Hid| | | |done].
  - subst id. by destruct (pt_change_units s !! _).
  - exists row. split; [done|]. intros Hm. rewrite Hm in Hadv. rewrite eqb_refl in Hadv.
    by apply negb_false_iff in Hadv.
  - by apply existsb_rows_false.
Qed.

Lemma is_current_active_true task_id u :
  is_current_active task_id u = true ↔
  cu_task_id (cur_unit u) = task_id ∧ cu_status (cur_unit u) = CUActive
  ∧ cu_is_current (cur_unit u) = true.
Proof. unfold is_current_active. rewrite !andb_true_iff, !eqb_true. naive_solver. Qed.

Lemma is_current_active_task task_id u :
  is_current_active task_id u = true → cu_task_id (cur_unit u) = task_id.
Proof. by intros [? _]%is_current_active_true. Qed.

Lemma inserted_current project_id input version :
  is_current_active (cui_task_id input) (inserted_change_unit project_id input version) = true.
Proof. by apply is_current_active_true. Qed.

(** A new current Change Unit repairs the pointer of its own Task. *)
Lemma insert_current_ok s input version s' :
  tables_base s →
  (∀ id row, id ≠ cui_task_id input → pt_tasks s !! id = Some row → pointer_ok s id row) →
  insert_current_change_unit s input version = Ok s' → tables_ok s' ∧ tables_step s s'.
Proof.
  intros Hb Hp H. unfold insert_current_change_unit in H. peel H as s1 H1.
  apply insert_change_unit_Ok in H1 as (Hid & Hn & (row & Hrow & Hadv) & Hcur & ->).
  unfold set_task_current_change_unit in H. peel H as [] ?.
  apply update_task_coordinate_Ok in H as (row1 & Hrow1 & _ & ->). cbn in *. simplify_map_eq.
  set (unit := inserted_change_unit _ _ _). set (uid := cui_change_unit_id input) in *.
  set (tid := cui_task_id input) in *. set (row' := with_task _ row).
  assert (task_kept row row') as Hkept by (constructor; cbn; auto).
  assert (rows_kept task_kept (pt_tasks s) (<[tid := row']> (pt_tasks s))) as Hrows.
  { apply rows_kept_insert; [apply _|]. intros x Hx. by simplify_map_eq. }
  destruct Hb as [Hk Huk Hut Hak Hck Hre].
  split; [constructor; [constructor; [| | | |exact Hck|]|]|]; cbn.
  - intros id x Hx. destruct (decide (tid = id)) as [<-|]; simplify_map_eq; [|eauto].
    exact (Hk _ _ Hrow).
  - intros id u Hu. destruct (decide (uid = id)) as [<-|]; simplify_map_eq; eauto.
  - intros id u Hu. destruct (decide (uid = id)) as [<-|]; simplify_map_eq.
    + exists row'. by split.
    + destruct (Hut _ _ Hu) as (r & Hr & Ha). destruct (Hrows _ _ Hr) as (r' & Hr' & Hkr).
      exists r'. split; [done|]. by rewrite (kept_mode _ _ Hkr).
  - intros id a Ha. destruct (Hak _ _ Ha) as [? [r Hr]]. split; [done|].
    destruct (Hrows _ _ Hr) as (r' & -> & _). eauto.
  - intros id x Hx. destruct (decide (tid = id)) as [<-|]; simplify_map_eq; [|eauto].
    exact (Hre _ _ Hrow).
  - intros id x Hx. unfold pointer_ok; cbn. destruct (decide (tid = id)) as [<-|Hne].
    + simplify_map_eq. right. exists uid, unit. rewrite lookup_insert_eq.
      split_and!; [done|done|apply inserted_current|].
      intros uid' u' Hu' Hc'. destruct (decide (uid = uid')) as [<-|]; [done|]. simplify_map_eq.
      by rewrite (Hcur _ _ Hu') in Hc'.
    + rewrite lookup_insert_ne in Hx by done. destruct (Hp _ _ (not_eq_sym Hne) Hx) as [Hno|Hyes].
      * left. intros uid' u' Hu'. destruct (decide (uid = uid')) as [<-|]; simplify_map_eq; eauto.
      * right. destruct Hyes as (v & u & Hpt & Hv & Hc & Huniq). exists v, u.
        assert (uid ≠ v) by congruence. rewrite lookup_insert_ne by done. split_and!; [done..|].
        intros uid' u' Hu' Hc'. destruct (decide (uid = uid')) as [<-|]; simplify_map_eq; [|eauto].
        by apply is_current_active_task in Hc'.
  - constructor; cbn; auto with tables. apply rows_kept_insert; [apply _|]. intros x Hx. congruence.
Qed.

Lemma replaced_not_current task_id at_ u : is_current_active task_id (replaced_change_unit at_ u) = false.
Proof. apply not_true_iff_false. by intros (_ & ? & _)%is_current_active_true. Qed.

Lemma replace_current_ok s input version at_ s' :
  tables_ok s → replace_current_change_unit s input version at_ = Ok s' →
  tables_ok s' ∧ tables_step s s'.
Proof.
  intros [[Hk Huk Hut Hak Hck Hre] Hp] H. unfold replace_current_change_unit in H. peel H as [] ?.
  set (f := λ row, if is_current_active (cui_task_id input) row
                   then replaced_change_unit at_ row else row) in H.
  assert (∀ u, cu_task_id (cur_unit (f u)) = cu_task_id (cur_unit u)
            ∧ cu_change_unit_id (cur_unit (f u)) = cu_change_unit_id (cur_unit u)
            ∧ cu_bounded_paths (cur_unit (f u)) = cu_bounded_paths (cur_unit u)
            ∧ cu_effect_contract (cur_unit (f u)) = cu_effect_contract (cur_unit u)) as Hf.
  { intros u. unfold f. by destruct (is_current_active _ u). }
  assert (∀ id u, id ≠ cui_task_id input → is_current_active id (f u) = is_current_active id u) as Hother.
  { intros id u Hne. unfold f. destruct (is_current_active (cui_task_id input) u) eqn:Hc; [|done].
    rewrite replaced_not_current. symmetry. apply not_true_iff_false.
    intros Ht%is_current_active_task. apply is_current_active_task in Hc. congruence. }
  apply insert_current_ok in H as [Hok Hstep].
  - split; [done|]. etrans; [|exact Hstep]. constructor; cbn; auto with tables.
    apply rows_kept_fmap; [apply _|]. intros u. unfold f.
    destruct (is_current_active _ u) eqn:Hc; [|constructor].
    apply is_current_active_true in Hc as (_ & ? & ?). by constructor.
  - constructor; cbn; [done| | |done|done|done]; intros uid u; rewrite lookup_fmap, fmap_Some;
      intros (u0 & Hu0 & ->); destruct (Hf u0) as (E1 & E2 & E3 & E4); rewrite ?E1, ?E2, ?E3, ?E4; eauto.
  - cbn. intros id row Hne Hrow. unfold pointer_ok; cbn. destruct (Hp _ _ Hrow) as [Hno|Hyes].
    + left. intros uid u. rewrite lookup_fmap, fmap_Some. intros (u0 & Hu0 & ->).
      destruct (Hf u0) as (-> & _). eauto.
    + right. destruct Hyes as (v & u & Hpt & Hv & Hc & Huniq). exists v, (f u).
      rewrite lookup_fmap, Hv, Hother by done. split_and!; [done..|].
      intros uid' u'. rewrite lookup_fmap, fmap_Some. intros (u0 & Hu0 & ->).
      rewrite Hother by done. eauto.
Qed.

(** ** Ending a Task *)

Definition request_superseded (actions : UserActionTable) (request_id : string) : Prop :=
  ∃ row, ut_requests actions !! request_id = Some row ∧ ur_basis_status row = BasisSuperseded
    ∧ co_compatibility_status (coordinates (ur_basis row)) = BasisSuperseded.

Lemma marked_coordinates status row :
  co_compatibility_status (coordinates (ur_basis (marked_row status row))) = status.
Proof. unfold marked_row; cbn. by destruct (ur_basis row). Qed.

Lemma invalidate_request_superseded actions id actions' :
  invalidate_request_basis actions id AppSuperseded = Ok actions' →
  request_superseded actions' id
  ∧ (∀ other, request_superseded actions other → request_superseded actions' other)
  ∧ ∀ other, other ≠ id → ut_requests actions' !! other = ut_requests actions !! other.
Proof.
  unfold invalidate_request_basis, request_superseded.
  destruct (ut_requests actions !! id) as [row|] eqn:Hrow; cbn; [|done].
  destruct (invalidation_moves AppSuperseded (ur_basis_status row)) eqn:Hm.
  - intros [= <-]. cbn. assert (∃ row', <[id:=marked_row BasisSuperseded row]> (ut_requests actions) !! id
        = Some row' ∧ ur_basis_status row' = BasisSuperseded
        ∧ co_compatibility_status (coordinates (ur_basis row')) = BasisSuperseded) as Hme.
    { exists (marked_row BasisSuperseded row). rewrite lookup_insert_eq.
      split_and!; [done|done|apply marked_coordinates]. }
    split_and!; [done| |].
    + intros other Ho. destruct (decide (id = other)) as [<-|Hne]; [done|].
      by rewrite lookup_insert_ne.
    + intros other Hne. by rewrite lookup_insert_ne.
  - rewrite ensure_bind, negb_false_iff. unfold already_invalidated; cbn.
    rewrite andb_true_iff, !eqb_true. intros [[H1 H2] [= <-]]. split_and!; eauto.
Qed.

(** The rows of the loop are superseded, everything else is untouched. *)
Lemma invalidate_loop_spec rows at_ s s' :
  invalidate_application_loop s rows AppSuperseded at_ = Ok s' →
  (∀ app req, (app, req) ∈ rows → ∃ a, pt_applications s !! app = Some a
     ∧ sda_authority_status a = AppCurrent
     ∧ pt_applications s' !! app = Some (invalidated_application AppSuperseded at_ a)
     ∧ request_superseded (pt_user_actions s') req)
  ∧ (∀ app, app ∉ rows.*1 → pt_applications s' !! app = pt_applications s !! app)
  ∧ (∀ req, request_superseded (pt_user_actions s) req → request_superseded (pt_user_actions s') req)
  ∧ ∀ req, req ∉ rows.*2 →
      ut_requests (pt_user_actions s') !! req = ut_requests (pt_user_actions s) !! req.
Proof.
  revert s. induction rows as [|[app req] rows IH]; intros s; cbn.
  { intros [= <-]. split_and!; [intros ? ? []%elem_of_nil|done..]. }
  destruct (option_filter _ _) as [a|] eqn:Ha; cbn; [|done].
  apply option_filter_Some in Ha as [Ha Hcur]. apply (proj1 (eqb_true _ _)) in Hcur.
  rewrite bind_Ok. intros (actions & (Hs1 & Hs2 & Hs3)%invalidate_request_superseded & H).
  apply IH in H as (Hin & Hout & Hsup & Hreq). cbn in *.
  assert (app ∉ rows.*1) as Hfresh.
  { intros ([app' req'] & Heq & Hx)%list_elem_of_fmap. cbn in Heq. subst app'.
    destruct (Hin _ _ Hx) as (b & Hb & Hbc & _). rewrite lookup_insert_eq in Hb. by injection Hb as <-. }
  split_and!.
  - intros app' req' [[= -> ->]|Hx]%elem_of_cons.
    + exists a. rewrite (Hout _ Hfresh), lookup_insert_eq. auto.
    + destruct (Hin _ _ Hx) as (b & Hb & ?). exists b. rewrite lookup_insert_ne in Hb; [done|].
      intros ->. apply Hfresh, list_elem_of_fmap. by exists (app', req').
  - intros app' [Hne Hn]%not_elem_of_cons. rewrite Hout by done. by rewrite lookup_insert_ne.
  - auto.
  - intros req' [Hne Hn]%not_elem_of_cons. rewrite Hreq by done. auto.
Qed.

Lemma current_application_rows_in s task_id app req :
  tables_base s →
  (app, req) ∈ current_application_rows s task_id ↔
  ∃ a, pt_applications s !! app = Some a ∧ sda_task_id a = task_id
    ∧ sda_authority_status a = AppCurrent ∧ sda_user_action_request_id a = req.
Proof.
  intros Hb. unfold current_application_rows, application_rows. rewrite list_elem_of_fmap. split.
  - intros (a & [= -> ->] & [[Ht Hc] Hin]%list_elem_of_filter).
    apply list_elem_of_fmap in Hin as ([k a'] & -> & Hk%elem_of_map_to_list).
    destruct (tb_application_key _ Hb _ _ Hk) as [Hid _]. cbn in *. exists a'. by rewrite Hid.
  - intros (a & Ha & Ht & Hc & <-). exists a.
    destruct (tb_application_key _ Hb _ _ Ha) as [Hid _]. rewrite Hid. split; [done|].
    apply list_elem_of_filter. split; [done|]. apply list_elem_of_fmap. exists (app, a).
    split; [done|]. by apply elem_of_map_to_list.
Qed.

(** The applied authority of an ended Task. *)
Record authority_ended (s s' : TaskTables) (task_id : string) (at_ : UtcTimestamp) : Prop := {
  ended_none_current : ∀ id a', pt_applications s' !! id = Some a' → sda_task_id a' = task_id →
    sda_authority_status a' ≠ AppCurrent;
  ended_superseded : ∀ id a, pt_applications s !! id = Some a → sda_task_id a = task_id →
    sda_authority_status a = AppCurrent →
    pt_applications s' !! id = Some (invalidated_application AppSuperseded at_ a)
    ∧ request_superseded (pt_user_actions s') (sda_user_action_request_id a);
  ended_others : ∀ id a, pt_applications s !! id = Some a →
    sda_task_id a ≠ task_id ∨ sda_authority_status a ≠ AppCurrent →
    pt_applications s' !! id = Some a;
  ended_requests : ∀ request_id,
    (∀ id a, pt_applications s !! id = Some a → sda_task_id a = task_id →
       sda_authority_status a = AppCurrent → sda_user_action_request_id a ≠ request_id) →
    ut_requests (pt_user_actions s') !! request_id = ut_requests (pt_user_actions s) !! request_id;
}.

Lemma supersede_applications_ended s task_id at_ s' :
  tables_base s → supersede_task_shaping_applications s task_id at_ = Ok s' →
  authority_ended s s' task_id at_.
Proof.
  intros Hb H. unfold supersede_task_shaping_applications, invalidate_all_current_applications,
    invalidate_application_rows in H. cbn in H. apply invalidate_loop_spec in H as (Hin & Hout & _ & Hreq).
  assert (∀ id a, pt_applications s !! id = Some a →
            sda_task_id a ≠ task_id ∨ sda_authority_status a ≠ AppCurrent →
            pt_applications s' !! id = Some a) as Hother.
  { intros id a Ha Hne. rewrite Hout; [done|]. intros ([app req] & Heq & Hx)%list_elem_of_fmap.
    cbn in Heq. subst app. apply (current_application_rows_in _ _ _ _ Hb) in Hx as (b & Hb' & ? & ? & _).
    simplify_eq. by destruct Hne. }
  assert (∀ id a, pt_applications s !! id = Some a → sda_task_id a = task_id →
            sda_authority_status a = AppCurrent →
            pt_applications s' !! id = Some (invalidated_application AppSuperseded at_ a)
            ∧ request_superseded (pt_user_actions s') (sda_user_action_request_id a)) as Hsup.
  { intros id a Ha Ht Hc. destruct (Hin id (sda_user_action_request_id a)) as (b & Hb' & _ & ? & ?).
    - apply current_application_rows_in; eauto.
    - by simplify_eq. }
  constructor; [|done|done|].
  - intros id a' Ha' Ht Hc. destruct (decide (id ∈ (current_application_rows s task_id).*1)) as [Hr|Hr].
    + apply list_elem_of_fmap in Hr as ([app req] & -> & Hx).
      destruct (Hin _ _ Hx) as (a & _ & _ & Ha & _). cbn in Ha'. by simplify_eq.
    + rewrite (Hout _ Hr) in Ha'. destruct Hr. apply list_elem_of_fmap.
      exists (id, sda_user_action_request_id a'). split; [done|]. apply current_application_rows_in; eauto.
  - intros request_id Hnone. apply Hreq. intros ([app req] & Heq & Hx)%list_elem_of_fmap.
    cbn in Heq. subst req. apply (current_application_rows_in _ _ _ _ Hb) in Hx as (a & Ha & ? & ? & He).
    by apply (Hnone _ _ Ha).
Qed.

(** ** Replacing acceptance criteria *)

(** The row the upsert of one criterion leaves under its id. *)
Definition upserted (project_id task_id : string) (old : option AcceptanceCriterionRow)
    (c : AcceptanceCriterionUpsert) : AcceptanceCriterionRow :=
  match old with
  | None => inserted_criterion project_id task_id c
  | Some row => if active_of_task task_id row then updated_criterion row c else row
  end.

Definition find_criterion (id : string) (criteria : list AcceptanceCriterionUpsert)
    : option AcceptanceCriterionUpsert :=
  List.find (λ c, acu_acceptance_criterion_id c =? id) criteria.

Lemma find_criterion_None id criteria :
  find_criterion id criteria = None ↔ id ∉ acu_acceptance_criterion_id <$> criteria.
Proof.
  unfold find_criterion. induction criteria as [|c rest IH]; cbn; [set_solver|].
  destruct (acu_acceptance_criterion_id c =? id) eqn:E.
  - apply eqb_eq in E. set_solver.
  - apply (proj1 (eqb_false _ _)) in E. rewrite IH. set_solver.
Qed.

Lemma find_criterion_Some id criteria c :
  find_criterion id criteria = Some c → c ∈ criteria ∧ acu_acceptance_criterion_id c = id.
Proof.
  intros [Hin He]%List.find_some. split; [by apply list_elem_of_In|by apply eqb_eq].
Qed.

Lemma upsert_criterion_lookup s task_id c s' id :
  upsert_criterion s task_id c = Ok s' →
  pt_project_id s' = pt_project_id s ∧
  pt_criteria s' !! id =
    if acu_acceptance_criterion_id c =? id
    then Some (upserted (pt_project_id s) task_id (pt_criteria s !! id) c) else pt_criteria s !! id.
Proof.
  intros ->%upsert_criterion_Ok. destruct (acu_acceptance_criterion_id c =? id) eqn:E.
  - apply eqb_eq in E. subst id. unfold upserted.
    destruct (pt_criteria s !! acu_acceptance_criterion_id c) as [row|] eqn:Hrow.
    + destruct (active_of_task task_id row); cbn; rewrite ?lookup_insert_eq; auto.
    + cbn. by rewrite lookup_insert_eq.
  - apply (proj1 (eqb_false _ _)) in E.
    destruct (pt_criteria s !! acu_acceptance_criterion_id c) as [row|].
    + destruct (active_of_task task_id row); cbn; rewrite ?lookup_insert_ne; auto.
    + cbn. by rewrite lookup_insert_ne.
Qed.

Lemma upsert_criteria_lookup criteria task_id s s' id :
  NoDup (acu_acceptance_criterion_id <$> criteria) →
  upsert_criteria s task_id criteria = Ok s' →
  pt_criteria s' !! id =
    match find_criterion id criteria with
    | Some c => Some (upserted (pt_project_id s) task_id (pt_criteria s !! id) c)
    | None => pt_criteria s !! id
    end.
Proof.
  intros Hnd. revert s. induction criteria as [|c rest IH]; intros s; cbn; [by intros [= <-]|].
  cbn in Hnd. apply NoDup_cons in Hnd as [Hc Hnd]. rewrite bind_Ok. intros (s1 & H1 & H2).
  apply (upsert_criterion_lookup _ _ _ _ id) in H1 as [Hp H1]. rewrite (IH Hnd _ H2), Hp.
  fold (find_criterion id rest). destruct (acu_acceptance_criterion_id c =? id) eqn:E.
  - apply eqb_eq in E. subst id. apply find_criterion_None in Hc. by rewrite Hc, H1.
  - by rewrite H1.
Qed.

Lemma elem_of_active_criteria s task_id row :
  row ∈ active_acceptance_criteria s task_id ↔
  active_of_task task_id row = true ∧ ∃ id, pt_criteria s !! id = Some row.
Proof.
  unfold active_acceptance_criteria. rewrite sort_by_key_perm.
  rewrite list_elem_of_In, List.filter_In, <-list_elem_of_In, list_elem_of_fmap.
  split.
  - intros [([id r] & -> & Hr%elem_of_map_to_list) Ha]. eauto.
  - intros [Ha (id & Hid)]. split; [|done]. exists (id, row). split; [done|].
    by apply elem_of_map_to_list.
Qed.

Lemma replaced_criterion_lookup s input at_ s' id :
  criteria_keyed s → NoDup (acu_acceptance_criterion_id <$> acx_criteria input) →
  replace_acceptance_criteria s input at_ = Ok s' →
  pt_criteria s' !! id =
    match find_criterion id (acx_criteria input) with
    | Some c => Some (upserted (pt_project_id s) (acx_task_id input) (pt_criteria s !! id) c)
    | None => (λ row, if active_of_task (acx_task_id input) row
                      then retired_criterion at_ row else row) <$> pt_criteria s !! id
    end.
Proof.
  intros Hk Hnd H. unfold replace_acceptance_criteria in H. peel H as [] Hid. peel H as s1 H1.
  pose proof (upsert_criteria_framed _ _ _ _ H1) as Hf. injection H as <-. cbn. rewrite lookup_fmap.
  assert (criteria_keyed s1) as Hk1 by by apply (framed_criterion_keys _ _ Hf).
  pose proof (upsert_criteria_lookup _ _ _ _ id Hnd H1) as Hl. rewrite Hl.
  destruct (find_criterion id _) as [c|] eqn:Hc; cbn.
  - assert (contains id (acu_acceptance_criterion_id <$> acx_criteria input) = true) as Hin.
    { apply contains_elem. apply find_criterion_Some in Hc as [? <-]. by apply list_elem_of_fmap_2. }
    apply Hk1 in Hl. by rewrite Hl, Hin, andb_false_r.
  - apply find_criterion_None in Hc. destruct (pt_criteria s !! id) as [row|] eqn:Hrow; [|done]. cbn.
    rewrite (Hk _ _ Hrow). apply contains_not_elem in Hc. by rewrite Hc, andb_true_r.
Qed.

(** ** Reading the current Change Unit *)

Lemma find_unique {A} (p : A → bool) (m : gmap string A) id x :
  m !! id = Some x → p x = true →
  (∀ id' x', m !! id' = Some x' → p x' = true → id' = id) →
  List.find p (map_to_list m).*2 = Some x.
Proof.
  intros Hx Hp Hu. destruct (List.find p (map_to_list m).*2) as [y|] eqn:Hf.
  - apply List.find_some in Hf as [Hy Hpy]. apply list_elem_of_In, list_elem_of_fmap in Hy as ([k z] & -> & Hz).
    apply elem_of_map_to_list in Hz. cbn in *. pose proof (Hu _ _ Hz Hpy). by simplify_eq.
  - exfalso. assert (p x = false); [|congruence]. apply (List.find_none _ _ Hf), list_elem_of_In,
      list_elem_of_fmap. exists (id, x). split; [done|]. by apply elem_of_map_to_list.
Qed.

Lemma find_absent {A} (p : A → bool) (m : gmap string A) :
  (∀ id x, m !! id = Some x → p x = false) → List.find p (map_to_list m).*2 = None.
Proof.
  intros Hn. destruct (List.find p _) as [y|] eqn:Hf; [|done].
  apply List.find_some in Hf as [Hy Hpy]. apply list_elem_of_In, list_elem_of_fmap in Hy as ([k z] & -> & Hz).
  apply elem_of_map_to_list in Hz. cbn in *. by rewrite (Hn _ _ Hz) in Hpy.
Qed.

(** In committed tables the pointer and the read agree. *)
Definition current_unit_agrees (s : TaskTables) (id : string) (row : TaskRow) : Prop :=
  match tk_current_change_unit_id (tr_task row) with
  | None => (∀ uid u, pt_change_units s !! uid = Some u → cu_task_id (cur_unit u) ≠ id)
            ∧ current_change_unit_row s id = Ok None
  | Some uid => ∃ u, pt_change_units s !! uid = Some u
      ∧ current_change_unit_row s id = Ok (Some u)
      ∧ ∀ uid' u', pt_change_units s !! uid' = Some u' → is_current_active id u' = true → uid' = uid
  end.

Lemma deferred_ok_iff s :
  deferred_ok s = true ↔
  (∀ id, pt_active_task_id s = Some id → is_Some (pt_tasks s !! id))
  ∧ ∀ id row uid, pt_tasks s !! id = Some row → tk_current_change_unit_id (tr_task row) = Some uid →
      ∃ u, pt_change_units s !! uid = Some u ∧ cu_task_id (cur_unit u) = tk_task_id (tr_task row).
Proof.
  unfold deferred_ok. rewrite andb_true_iff, forallb_elem. split; intros [Ha Hp]; split.
  - intros id Hid. rewrite Hid in Ha. cbn in Ha. unfold task_exists in Ha.
    destruct (pt_tasks s !! id); [eauto|done].
  - intros id row uid Hrow Hpt. specialize (Hp row). rewrite Hpt in Hp. cbn in Hp.
    unfold change_unit_row in Hp. destruct (option_filter _ _) as [u|] eqn:Hu.
    + apply option_filter_Some in Hu as [Hu Ht]. exists u. split; [done|]. by apply eqb_eq.
    + exfalso. enough (is_some (@None ChangeUnitRow) = true) by done. apply Hp.
      apply list_elem_of_fmap. exists (id, row). split; [done|]. by apply elem_of_map_to_list.
  - destruct (pt_active_task_id s) as [id|]; [|done]. cbn. unfold task_exists.
    by destruct (Ha id eq_refl) as [row ->].
  - intros row ([id r] & -> & Hr%elem_of_map_to_list)%list_elem_of_fmap. cbn in *.
    destruct (tk_current_change_unit_id (tr_task r)) as [uid|] eqn:Hpt; [|done]. cbn.
    destruct (Hp _ _ _ Hr Hpt) as (u & Hu & Ht). unfold change_unit_row. rewrite Hu. cbn.
    by rewrite Ht, eqb_refl.
Qed.

Lemma committed_unit_agrees s id row :
  committed_ok s → pt_tasks s !! id = Some row → current_unit_agrees s id row.
Proof.
  intros [[Hb Hp] Hd] Hrow. destruct (tb_task_key _ Hb _ _ Hrow) as [Hid _].
  unfold current_unit_agrees, current_change_unit_row.
  destruct (Hp _ _ Hrow) as [Hno|(uid & u & Hpt & Hu & Hc & Huniq)].
  - destruct (tk_current_change_unit_id (tr_task row)) as [uid|] eqn:Hpt.
    + apply deferred_ok_iff in Hd as [_ Hd]. destruct (Hd _ _ _ Hrow Hpt) as (u & Hu & Ht).
      destruct (Hno _ _ Hu). congruence.
    + split; [done|]. unfold change_unit_rows. rewrite find_absent; [done|].
      intros uid u Hu. apply not_true_iff_false. intros Ht%is_current_active_task. by apply (Hno _ _ Hu).
  - rewrite Hpt. exists u. split_and!; [done| |done].
    unfold change_unit_rows. rewrite (find_unique _ _ _ _ Hu Hc Huniq). cbn. rewrite Hrow. cbn.
    destruct (tb_unit_task _ Hb _ _ Hu) as (row' & Hrow' & Hadv).
    rewrite (is_current_active_task _ _ Hc) in Hrow'. simplify_eq.
    destruct (tk_mode (tr_task row) =? Advisor) eqn:Hm; [|done].
    apply eqb_eq in Hm. by rewrite (Hadv Hm).
Qed.

Lemma blank_change_unit_absent s : tables_base s → pt_change_units s !! EmptyString = None.
Proof.
  intros Hb. destruct (pt_change_units s !! _) as [u|] eqn:Hu; [|done].
  by destruct (tb_unit_key _ Hb _ _ Hu).
Qed.
