(* ===== verification/ShapingStore.v ===== *)
(** * ShapingStore: checkpoints, their gaps and the application of decisions

    Models the mutations of [crates/volicord-store/src/core_pipeline/shaping.rs]
    ([ShapingCheckpointMutation::apply] and everything it calls) with the identities
    [crates/volicord-types/src/ids.rs] derives, on the tables of [TaskStore].  A
    statement is followed by the constraints and triggers of [schema/project.sql] that
    can refuse it; those that a check of the same mutation already implies (the
    immutability triggers, the baseline syntax of a [BaselineRef], the two directions of
    the key between a gap and its link) are left out.  The deferred foreign keys of a gap
    and of a predecessor point at rows the statement has just required. *)

From S2P Require Import Prelude Text Values Canonical Schema Clock TicketStore Commit.
From S2P Require Import UserActionShape UserActionStore UserActionService Workflow Planning Evidence.
From S2P Require Import Capture WorkflowAction TaskRecords TaskStore.
Import Shaping.

(** ** Inputs *)

Record ShapingGapApplication := {
  sga_shaping_decision_application_id : string;
  sga_shaping_gap_id : string;
  sga_user_action_resolution_id : string;
}.

Record ShapingAdvanceApplication := {
  saa_task_id : string;
  saa_shaping_checkpoint_id : string;
  saa_change_unit_id : string;
  saa_scope_revision : N;
  saa_baseline_ref : BaselineRef;
  saa_applications : list ShapingGapApplication;
}.

Record ShapingApplicationBasis := {
  sab_scope_revision : N;
  sab_baseline_ref : option BaselineRef;
  sab_change_unit_id : option string;
}.

Inductive StaleShapingAuthorityAction :=
| StaleRetire (stale_application_ref : StateRecordRef)
| StaleReauthorize (stale_application_ref : StateRecordRef) (successor_gap : ShapingGapInput).

Inductive ShapingCheckpointOperation :=
| OpCreateInitial
| OpReplaceCurrent (expected_current_checkpoint_id : string)
    (retired_non_authorizing_request_refs carry_forward_application_refs : list StateRecordRef)
    (stale_authority_actions : list StaleShapingAuthorityAction).

Record ShapingStaleAuthorityDisposition := {
  sad_stale_application_id : string;
  sad_stale_user_action_request_id : string;
  sad_outcome : ShapingAuthorityReauthorizationOutcome;
  sad_successor_gap_id : option string;
  sad_successor_user_action_request_id : option string;
}.

Record ShapingCheckpointUserActionInsert := {
  sui_user_action_request_id : string;
  sui_action_kind : UserActionKind;
}.

Record ShapingCheckpointGapInsert := {
  sgi_shaping_gap_id : string;
  sgi_gap_kind : ShapingGapKind;
  sgi_summary : string;
  sgi_affected_refs : list StateRecordRef;
  sgi_reauthorizes_application_id : option string;
  sgi_user_action : option ShapingCheckpointUserActionInsert;
}.

Record ShapingCheckpointInsert := {
  sci_shaping_checkpoint_id : string;
  sci_checkpoint_operation : ShapingCheckpointOperation;
  sci_task_id : string;
  sci_scope_revision : N;
  sci_baseline_ref : option BaselineRef;
  sci_summary : string;
  sci_implementation_boundary : option string;
  sci_readiness : ShapingCheckpointReadiness;
  sci_source_refs : list SourceRef;
  sci_evidence_refs : list StateRecordRef;
  sci_created_at : UtcTimestamp;
  sci_retired_non_authorizing_request_ids : list string;
  sci_carry_forward_application_ids : list string;
  sci_stale_authority_dispositions : list ShapingStaleAuthorityDisposition;
  sci_gaps : list ShapingCheckpointGapInsert;
}.

Inductive ShapingCheckpointMutation :=
| SmRecord (input : ShapingCheckpointInsert)
| SmResolveLinkedGap (user_action_request_id user_action_resolution_id : string)
    (disposition : ShapingGapStatus)
| SmApplyScopeAndRebaseCurrent (task_id shaping_checkpoint_id : string) (scope_revision : N)
    (baseline_ref : option BaselineRef) (change_unit_id : option string)
    (applications : list ShapingGapApplication)
| SmApplyAdvanceAndTransition (input : ShapingAdvanceApplication)
| SmApplyAdvisorFinalization (input : ShapingAdvanceApplication)
| SmSupersedeCurrent (task_id : string).

(** ** Rows *)

Definition with_gaps (gaps : list ShapingCheckpointGapRecord) (c : ShapingCheckpointRecord)
    : ShapingCheckpointRecord :=
  {| sc_project_id := sc_project_id c; sc_shaping_checkpoint_id := sc_shaping_checkpoint_id c;
     sc_predecessor_shaping_checkpoint_id := sc_predecessor_shaping_checkpoint_id c;
     sc_task_id := sc_task_id c; sc_scope_revision := sc_scope_revision c;
     sc_baseline_ref := sc_baseline_ref c; sc_summary := sc_summary c;
     sc_implementation_boundary := sc_implementation_boundary c;
     sc_readiness := sc_readiness c; sc_source_refs := sc_source_refs c;
     sc_evidence_refs := sc_evidence_refs c; sc_created_at := sc_created_at c;
     sc_superseded_at := sc_superseded_at c; sc_gaps := gaps;
     sc_applications := sc_applications c |}.

(** The coordinates, readiness and end of a checkpoint. *)
Definition with_readiness (scope_revision : N) (baseline_ref : option BaselineRef)
    (readiness : ShapingCheckpointReadiness) (superseded_at : option UtcTimestamp)
    (c : ShapingCheckpointRecord) : ShapingCheckpointRecord :=
  {| sc_project_id := sc_project_id c; sc_shaping_checkpoint_id := sc_shaping_checkpoint_id c;
     sc_predecessor_shaping_checkpoint_id := sc_predecessor_shaping_checkpoint_id c;
     sc_task_id := sc_task_id c; sc_scope_revision := scope_revision;
     sc_baseline_ref := baseline_ref; sc_summary := sc_summary c;
     sc_implementation_boundary := sc_implementation_boundary c;
     sc_readiness := readiness; sc_source_refs := sc_source_refs c;
     sc_evidence_refs := sc_evidence_refs c; sc_created_at := sc_created_at c;
     sc_superseded_at := superseded_at; sc_gaps := sc_gaps c;
     sc_applications := sc_applications c |}.

Definition superseded_checkpoint (at_ : UtcTimestamp) (c : ShapingCheckpointRecord)
    : ShapingCheckpointRecord :=
  with_readiness (sc_scope_revision c) (sc_baseline_ref c) CheckpointSuperseded (Some at_) c.

Definition with_gap_status (status : ShapingGapStatus)
    (link : option ShapingCheckpointUserActionRecord) (g : ShapingCheckpointGapRecord)
    : ShapingCheckpointGapRecord :=
  {| sg_shaping_gap_id := sg_shaping_gap_id g; sg_gap_kind := sg_gap_kind g;
     sg_summary := sg_summary g; sg_affected_refs := sg_affected_refs g; sg_status := status;
     sg_reauthorizes_application_id := sg_reauthorizes_application_id g;
     sg_user_action := link |}.

Definition gap_request_id (g : ShapingCheckpointGapRecord) : option string :=
  scu_user_action_request_id <$> sg_user_action g.

Definition gap_resolution_id (g : ShapingCheckpointGapRecord) : option string :=
  sg_user_action g ≫= scu_user_action_resolution_id.

Definition gap_of (c : ShapingCheckpointRecord) (gap_id : string)
    : option ShapingCheckpointGapRecord :=
  List.find (λ g, sg_shaping_gap_id g =? gap_id) (sc_gaps c).

(** [UPDATE shaping_checkpoint_gaps ... WHERE shaping_gap_id = ?]. *)
Definition update_gap (gap_id : string)
    (f : ShapingCheckpointGapRecord → ShapingCheckpointGapRecord) (c : ShapingCheckpointRecord)
    : ShapingCheckpointRecord :=
  with_gaps ((λ g, if sg_shaping_gap_id g =? gap_id then f g else g) <$> sc_gaps c) c.

Definition checkpoint_rows (s : TaskTables) : list ShapingCheckpointRecord :=
  (map_to_list (pt_checkpoints s)).*2.

Definition is_current_checkpoint (task_id : string) (c : ShapingCheckpointRecord) : bool :=
  (sc_task_id c =? task_id) && (sc_readiness c <>? CheckpointSuperseded).

Definition has_open_gap (c : ShapingCheckpointRecord) : bool :=
  existsb (λ g, sg_status g =? GapCurrent) (sc_gaps c).

(** [ShapingGapKind::user_action_kind]; the kind does not depend on the mode. *)
Definition gap_action_kind (k : ShapingGapKind) : option UserActionKind :=
  user_action_kind <$> decision_policy_for_mode k Work.

(** The owner column the triggers compute from kind and mode. *)
Definition policy_owner (kind : JudgmentKind) (mode : TaskMode)
    : option ShapingDecisionApplicationOwner :=
  match kind with
  | JScopeDecision => Some OwnUpdateScope
  | JProductDecision | JTechnicalDecision | JSensitiveApproval =>
      Some (advisor_or_work_application_owner mode)
  | JFinalAcceptance | JResidualRiskAcceptance | JCancellation => None
  end.

(** The outcome a decision must have to settle a gap with a status. *)
Definition body_settles (status : ShapingGapStatus) (body : UserActionResolutionBody) : bool :=
  match status, body with
  | GapAccepted, ResolutionChoice _ Accept Accepted _ _
  | GapApplied, ResolutionChoice _ Accept Accepted _ _
  | GapRejected, ResolutionChoice _ Reject Rejected _ _
  | GapDeferred, ResolutionChoice _ Defer Deferred _ _ => true
  | _, _ => false
  end.

(** ** Identities *)

Definition owner_wire_name (owner : ShapingDecisionApplicationOwner) : string :=
  MethodName_as_str (owner_method owner).

Section shaping.
Context `{HC : Chrono} `{HZ : CanonicalSize} `{HD : CaptureDigest}.

(** [shaping_decision_application_id]. *)
Definition shaping_decision_application_id (resolution_id : UserActionResolutionId)
    (owner : ShapingDecisionApplicationOwner) : string :=
  "shaping_application_" +:+ sha256_hex (json_text (sort_json_value (Object
    [("user_action_resolution_id", Str resolution_id);
     ("application_owner", Str (owner_wire_name owner))]))).

Definition shaping_authority_reauthorization_id (stale_application_id : string) : string :=
  "shaping_reauthorization_" +:+ sha256_hex (json_text (sort_json_value (Object
    [("stale_application_id", Str stale_application_id)]))).

(** ** Reads inside a mutation *)

Definition shaping_task_mode (s : TaskTables) (task_id : string) : result TaskMode StoreError :=
  let? row := ok_or (pt_tasks s !! task_id) SqliteNoRows in Ok (tk_mode (tr_task row)).

Definition require_task_scope_revision (s : TaskTables) (task_id : string) (scope_revision : N)
    : result unit StoreError :=
  ensure (negb (is_some_and (pt_tasks s !! task_id)
                  (λ row, tk_scope_revision (tr_task row) =? scope_revision)))
    (InvalidInput "shaping checkpoint scope_revision does not match the current Task").

Definition require_exact_current_checkpoint (s : TaskTables) (task_id checkpoint_id : string)
    : result unit StoreError :=
  ensure (negb (is_some_and (pt_checkpoints s !! checkpoint_id) (is_current_checkpoint task_id)))
    (InvalidInput "selected shaping checkpoint is not the exact current checkpoint").

(** The current applications of a request that a checkpoint links. *)
Definition linked_application_of (s : TaskTables) (checkpoint_id request_id : string) : bool :=
  existsb (λ link,
    (cal_shaping_checkpoint_id link =? checkpoint_id)
    && is_some_and (pt_applications s !! cal_shaping_decision_application_id link) (λ a,
         (sda_user_action_request_id a =? request_id) && (sda_authority_status a =? AppCurrent)))
    (pt_checkpoint_applications s).

Definition checkpoint_links_request (c : ShapingCheckpointRecord) (request_id : string) : bool :=
  existsb (λ g, gap_request_id g =? Some request_id) (sc_gaps c).

(** The [COUNT] of [reject_detached_live_shaping_authority] is not zero. *)
Definition detached_authority (s : TaskTables) (task_id : string)
    (current_checkpoint_id : option string) : bool :=
  existsb (λ r : StoredUserActionRequest,
    (ur_task_id r =? task_id) && (ur_source_method r =? MRecordShapingCheckpoint)
    && (ur_basis_status r =? BasisCurrent)
    && negb (is_some_and current_checkpoint_id (λ id,
         linked_application_of s id (ur_user_action_request_id r)))
    && negb (is_some_and (current_checkpoint_id ≫= λ id, pt_checkpoints s !! id) (λ c,
         checkpoint_links_request c (ur_user_action_request_id r))))
    (request_rows (pt_user_actions s)).

Definition reject_detached_live_shaping_authority (s : TaskTables) (task_id : string)
    (current_checkpoint_id : option string) : result unit StoreError :=
  ensure (detached_authority s task_id current_checkpoint_id)
    (SchemaInvariant
       "live shaping UserAction authority is detached from the current checkpoint").

(** ** Superseding a checkpoint *)

(** [trg_shaping_checkpoint_live_user_action_not_detached]. *)
Definition detaches_live_request (s : TaskTables) (c : ShapingCheckpointRecord) : bool :=
  existsb (λ g, is_some_and (gap_request_id g) (λ request_id,
    is_some_and (ut_requests (pt_user_actions s) !! request_id)
      (λ r, ur_basis_status r =? BasisCurrent)
    && negb (linked_application_of s (sc_shaping_checkpoint_id c) request_id))) (sc_gaps c).

(** The [UPDATE] of one current checkpoint to superseded. *)
Definition supersede_checkpoint_row (s : TaskTables) (c : ShapingCheckpointRecord)
    (at_ : UtcTimestamp) : result TaskTables StoreError :=
  let? _ := ensure (detaches_live_request s c)
              (ConstraintViolation "trg_shaping_checkpoint_live_user_action_not_detached") in
  Ok (set_checkpoints s (<[sc_shaping_checkpoint_id c := superseded_checkpoint at_ c]>
                           (pt_checkpoints s))).

Definition supersede_current_shaping_checkpoint (s : TaskTables) (task_id : string)
    (committed_at : UtcTimestamp) : result TaskTables StoreError :=
  let? s := invalidate_all_current_applications s task_id AppSuperseded committed_at in
  try_foldl (λ s c, supersede_checkpoint_row s c committed_at) s
    (List.filter (is_current_checkpoint task_id) (checkpoint_rows s)).

(** ** Recording a checkpoint *)

Definition validate_shaping_text (field value : string) : result unit StoreError :=
  ensure (str_is_empty (trim value)) (InvalidInput (field +:+ " must not be empty")).

Definition validate_checkpoint_insert (input : ShapingCheckpointInsert) : result unit StoreError :=
  let? _ := validate_identifier "shaping_checkpoint_id" (sci_shaping_checkpoint_id input) in
  let? _ := validate_identifier "task_id" (sci_task_id input) in
  let? _ := validate_shaping_text "shaping checkpoint summary" (sci_summary input) in
  let? _ := ensure (sci_readiness input =? CheckpointSuperseded)
              (InvalidInput "a newly recorded shaping checkpoint cannot be superseded") in
  let? _ := ensure (match sci_checkpoint_operation input with
                    | OpCreateInitial =>
                        negb (list_is_empty (sci_retired_non_authorizing_request_ids input))
                        || negb (list_is_empty (sci_carry_forward_application_ids input))
                        || negb (list_is_empty (sci_stale_authority_dispositions input))
                    | _ => false
                    end)
              (InvalidInput "create_initial cannot retire requests or carry applications") in
  let? _ := ensure ((sci_readiness input =? CheckpointReady)
                    && (negb (list_is_empty (sci_gaps input))
                        || is_none (sci_baseline_ref input)
                        || is_none_or (sci_implementation_boundary input)
                             (λ value, str_is_empty (trim value))))
              (InvalidInput "a ready shaping checkpoint requires a baseline, boundary, and no gaps") in
  ensure ((sci_readiness input =? CheckpointBlocked) && list_is_empty (sci_gaps input))
    (InvalidInput "a blocked shaping checkpoint requires at least one typed gap").

(** The ids of typed references, when all of them are of this kind and Task. *)
Definition exact_ref_ids (s : TaskTables) (kind : StateRecordKind) (task_id detail : string)
    (refs : list StateRecordRef) : result (list string) StoreError :=
  try_map (λ reference,
    if (sr_record_kind reference <>? kind) || (sr_project_id reference <>? pt_project_id s)
       || (sr_task_id reference <>? Some task_id)
    then Err (InvalidInput detail) else Ok (sr_record_id reference)) refs.

(** [typed refs and aggregate ids must match exactly]: both are duplicate-free and equal as
    sets. *)
Definition ids_match_exactly (ref_ids ids : list string) : bool :=
  (length (bts_of_list ref_ids) =? length ref_ids)
  && (length (bts_of_list ids) =? length ids)
  && (bts_of_list ref_ids =? bts_of_list ids).

(** *** Carried applications *)

(** One row of the loop of [validate_carry_forward_applications]: its id is required. *)
Definition carry_forward_row (s : TaskTables) (input : ShapingCheckpointInsert)
    (predecessor_id : string) (current_change_unit_id : option string) (mode : TaskMode)
    (a : ShapingDecisionApplicationRecord) : result string StoreError :=
  let? owner := ok_or (policy_owner (sda_judgment_kind a) mode)
                  (SchemaInvariant "a shaping application has a non-shaping judgment kind") in
  let linked := existsb (λ link,
        (cal_task_id link =? sda_task_id a) && (cal_shaping_checkpoint_id link =? predecessor_id)
        && (cal_shaping_decision_application_id link =? sda_shaping_decision_application_id a))
        (pt_checkpoint_applications s) in
  let? _ := ensure (negb linked
                    || (sda_applied_scope_revision a <>? sci_scope_revision input)
                    || (Some (sda_applied_baseline_ref a) <>? sci_baseline_ref input)
                    || (sda_applied_change_unit_id a <>? current_change_unit_id)
                    || (sda_application_owner a <>? owner))
              (SchemaInvariant
                 "a current shaping application is detached or incompatible with successor coordinates") in
  let? _ := ensure (existsb (λ g, gap_judgment_kind (sgi_gap_kind g) =? Some (sda_judgment_kind a))
                      (sci_gaps input))
              (InvalidInput "a successor gap conflicts with carried shaping application authority") in
  Ok (sda_shaping_decision_application_id a).

(** The current applications of a Task in id order. *)
Definition current_applications_of (s : TaskTables) (task_id : string)
    : list ShapingDecisionApplicationRecord :=
  sort_by_key sda_shaping_decision_application_id
    (List.filter (λ a, (sda_task_id a =? task_id) && (sda_authority_status a =? AppCurrent))
       (application_rows s)).

Definition validate_carry_forward_applications (s : TaskTables) (input : ShapingCheckpointInsert)
    (predecessor_id : string) (carry_forward_application_refs : list StateRecordRef)
    : result unit StoreError :=
  let? ref_ids := exact_ref_ids s KShapingDecisionApplication (sci_task_id input)
        "carried application refs must belong to the exact predecessor Task"
        carry_forward_application_refs in
  let? _ := ensure (negb (ids_match_exactly ref_ids (sci_carry_forward_application_ids input)))
              (InvalidInput
                 "typed carry-forward refs and aggregate application ids must match exactly") in
  let? row := ok_or (pt_tasks s !! sci_task_id input) SqliteNoRows in
  let? required := try_map
        (carry_forward_row s input predecessor_id (tk_current_change_unit_id (tr_task row))
           (tk_mode (tr_task row)))
        (current_applications_of s (sci_task_id input)) in
  ensure (bts_of_list (sci_carry_forward_application_ids input) <>? bts_of_list required)
    (InvalidInput "carry-forward application refs must exactly match current compatible authority").

(** *** Retired questions *)

(** The first stored answer to a request. *)
Definition answer_of (s : TaskTables) (request_id : string) : option StoredUserActionResolution :=
  List.find (λ resolution, us_user_action_request_id resolution =? request_id)
    (resolution_rows (pt_user_actions s)).

(** The rows the retirement selects: unapplied gaps with a current request. *)
Definition retirement_rows (s : TaskTables) (c : ShapingCheckpointRecord)
    : list (string * (ShapingCheckpointGapRecord * StoredUserActionRequest)) :=
  sort_by_key fst (omap (λ g,
    request_id ← gap_request_id g;
    r ← ut_requests (pt_user_actions s) !! request_id;
    if (sg_status g <>? GapApplied) && (ur_basis_status r =? BasisCurrent)
    then Some (request_id, (g, r)) else None) (sc_gaps c)).

Definition retirement_permitted (s : TaskTables) (created_at : UtcTimestamp) (request_id : string)
    (g : ShapingCheckpointGapRecord) (r : StoredUserActionRequest) : bool :=
  match sg_status g with
  | GapRejected | GapDeferred =>
      is_some_and (answer_of s request_id) (λ q, body_settles (sg_status g) (us_resolution q))
  | GapCurrent =>
      is_none (answer_of s request_id)
      && is_some_and (ur_expires_at r) (λ expires_at, ts_ge created_at expires_at)
  | GapAccepted | GapApplied => false
  end.

(** [UPDATE user_action_requests ... WHERE basis_status = ?] that must change one row. *)
Definition swap_request_basis (s : TaskTables) (request_id : string)
    (from to : UserActionBasisStatus) : result TaskTables StoreError :=
  let? row := ok_or (option_filter (λ r, ur_basis_status r =? from)
                       (ut_requests (pt_user_actions s) !! request_id))
                (Conflict "user_action_request" request_id) in
  Ok (set_authority s (pt_applications s)
        (set_requests (pt_user_actions s)
           (<[request_id := marked_row to row]> (ut_requests (pt_user_actions s))))).

Definition retire_checkpoint_user_actions (s : TaskTables) (input : ShapingCheckpointInsert)
    (c : ShapingCheckpointRecord) (retired_refs : list StateRecordRef)
    : result TaskTables StoreError :=
  let? ref_ids := exact_ref_ids s KUserActionRequest (sci_task_id input)
        "retired request refs must belong to the exact predecessor Task" retired_refs in
  let ids := sci_retired_non_authorizing_request_ids input in
  let? _ := ensure (negb (ids_match_exactly ref_ids ids))
              (InvalidInput
                 "typed retirement refs and aggregate retirement ids must match exactly") in
  let? required := try_map (λ '(request_id, (g, r)),
        if retirement_permitted s (sci_created_at input) request_id g r then Ok request_id
        else Err (InvalidInput
               "only rejected, deferred, or expired shaping requests may be retired"))
        (retirement_rows s c) in
  let? _ := ensure (bts_of_list ids <>? bts_of_list required)
              (InvalidInput
                 "retired UserAction requests must exactly match the predecessor's recoverable decisions") in
  try_foldl (λ s request_id, swap_request_basis s request_id BasisCurrent BasisSuperseded) s
    (bts_of_list ids).

(** *** Stale applications *)

Definition stale_action_ref (action : StaleShapingAuthorityAction) : StateRecordRef :=
  match action with StaleRetire r | StaleReauthorize r _ => r end.

Definition stale_action_outcome (action : StaleShapingAuthorityAction)
    : ShapingAuthorityReauthorizationOutcome :=
  match action with StaleRetire _ => OutRetired | StaleReauthorize _ _ => OutReissued end.

(** [action_outcomes]. *)
Definition stale_action_outcomes (s : TaskTables) (task_id : string)
    (actions : list StaleShapingAuthorityAction)
    : result (list (string * ShapingAuthorityReauthorizationOutcome)) StoreError :=
  let detail := "stale authority actions must use unique exact Task application refs" in
  let? ids := exact_ref_ids s KShapingDecisionApplication task_id detail
                (stale_action_ref <$> actions) in
  let? _ := ensure (length (bts_of_list ids) <>? length ids) (InvalidInput detail) in
  Ok (zip ids (stale_action_outcome <$> actions)).

(** The stale applications of a Task whose request is stale in both columns. *)
Definition stale_rows (s : TaskTables) (task_id : string)
    : list ShapingDecisionApplicationRecord :=
  List.filter (λ a,
    (sda_task_id a =? task_id) && (sda_authority_status a =? AppStale)
    && is_some (sda_stale_at a) && is_none (sda_superseded_at a)
    && is_some_and (ut_requests (pt_user_actions s) !! sda_user_action_request_id a) (λ r,
         (ur_basis_status r =? BasisStale)
         && (co_compatibility_status (coordinates (ur_basis r)) =? BasisStale)))
    (application_rows s).

Definition disposition_of (input : ShapingCheckpointInsert) (application_id : string)
    : option ShapingStaleAuthorityDisposition :=
  List.find (λ d, sad_stale_application_id d =? application_id)
    (sci_stale_authority_dispositions input).

(** The successor of a reissued application is a fresh question of the same kind. *)
Definition successor_matches (input : ShapingCheckpointInsert) (mode : TaskMode)
    (a : ShapingDecisionApplicationRecord) (d : ShapingStaleAuthorityDisposition)
    : result unit StoreError :=
  match sad_outcome d with
  | OutRetired =>
      ensure (is_some (sad_successor_gap_id d) || is_some (sad_successor_user_action_request_id d))
        (InvalidInput "retired stale authority cannot identify a successor request")
  | OutReissued =>
      match sad_successor_gap_id d, sad_successor_user_action_request_id d with
      | Some gap_id, Some request_id =>
          let? gap := ok_or (List.find (λ g, sgi_shaping_gap_id g =? gap_id) (sci_gaps input))
                (InvalidInput "reauthorization successor gap is absent from the checkpoint") in
          let? policy := ok_or (decision_policy_for_mode (sgi_gap_kind gap) mode)
                (InvalidInput "reauthorization successor must be a user-owned gap") in
          ensure ((sgi_reauthorizes_application_id gap
                     <>? Some (sda_shaping_decision_application_id a))
                  || (gap_judgment_kind (sgi_gap_kind gap) <>? Some (sda_judgment_kind a))
                  || (application_owner policy <>? sda_application_owner a)
                  || ((sui_user_action_request_id <$> sgi_user_action gap) <>? Some request_id)
                  || (request_id =? sda_user_action_request_id a))
            (InvalidInput "reauthorization successor conflicts with stale authority policy")
      | _, _ => Err (InvalidInput "reissued stale authority requires a successor gap and request")
      end
  end.

(** A stale application that its disposition has ended keeps the time it went stale. *)
Definition consumed_application (at_ : UtcTimestamp) (a : ShapingDecisionApplicationRecord)
    : ShapingDecisionApplicationRecord :=
  {| sda_project_id := sda_project_id a;
     sda_shaping_decision_application_id := sda_shaping_decision_application_id a;
     sda_task_id := sda_task_id a; sda_source_checkpoint_id := sda_source_checkpoint_id a;
     sda_source_gap_id := sda_source_gap_id a;
     sda_user_action_request_id := sda_user_action_request_id a;
     sda_user_action_resolution_id := sda_user_action_resolution_id a;
     sda_judgment_kind := sda_judgment_kind a; sda_application_owner := sda_application_owner a;
     sda_applied_scope_revision := sda_applied_scope_revision a;
     sda_applied_baseline_ref := sda_applied_baseline_ref a;
     sda_applied_change_unit_id := sda_applied_change_unit_id a;
     sda_applied_at := sda_applied_at a; sda_authority_status := AppSuperseded;
     sda_stale_at := sda_stale_at a; sda_superseded_at := Some at_;
     sda_linked_checkpoint_id := sda_linked_checkpoint_id a;
     sda_carried_from_checkpoint_id := sda_carried_from_checkpoint_id a |}.

(** One iteration of the loop of [consume_stale_authority]. *)
Definition consume_stale_row (input : ShapingCheckpointInsert) (mode : TaskMode)
    (outcomes : list (string * ShapingAuthorityReauthorizationOutcome)) (committed_at : UtcTimestamp)
    (s : TaskTables) (a : ShapingDecisionApplicationRecord) : result TaskTables StoreError :=
  let id := sda_shaping_decision_application_id a in
  let? d := ok_or (disposition_of input id) (StorePanic "dispositions") in
  let? _ := ensure ((sad_stale_user_action_request_id d <>? sda_user_action_request_id a)
                    || ((snd <$> List.find (λ o, o.1 =? id) outcomes) <>? Some (sad_outcome d)))
              (InvalidInput "stale authority disposition does not match its exact application") in
  let? _ := successor_matches input mode a d in
  let? a := ok_or (option_filter (λ a, (sda_authority_status a =? AppStale)
                     && is_some (sda_stale_at a) && is_none (sda_superseded_at a))
                     (pt_applications s !! id))
              (Conflict "shaping_decision_application" id) in
  swap_request_basis
    (set_authority s (<[id := consumed_application committed_at a]> (pt_applications s))
       (pt_user_actions s))
    (sda_user_action_request_id a) BasisStale BasisSuperseded.

Definition consume_stale_authority (s : TaskTables) (input : ShapingCheckpointInsert)
    (actions : list StaleShapingAuthorityAction) (committed_at : UtcTimestamp)
    : result TaskTables StoreError :=
  let? outcomes := stale_action_outcomes s (sci_task_id input) actions in
  let? _ := ensure (negb (ids_match_exactly outcomes.*1
                            (sad_stale_application_id <$> sci_stale_authority_dispositions input)))
              (InvalidInput
                 "typed stale actions and materialized dispositions must match exactly") in
  let rows := stale_rows s (sci_task_id input) in
  let? _ := ensure (bts_of_list (sda_shaping_decision_application_id <$> rows)
                      <>? bts_of_list outcomes.*1)
              (InvalidInput
                 "stale authority actions must exactly consume every Task stale application") in
  let? mode := shaping_task_mode s (sci_task_id input) in
  try_foldl (consume_stale_row input mode outcomes committed_at) s rows.

(** *** The new row, its gaps and its links *)

(** [apply_checkpoint_succession]: the predecessor of the new checkpoint. *)
Definition apply_checkpoint_succession (s : TaskTables) (input : ShapingCheckpointInsert)
    (committed_at : UtcTimestamp) : result (TaskTables * option string) StoreError :=
  let current := List.filter (is_current_checkpoint (sci_task_id input)) (checkpoint_rows s) in
  let? _ := ensure (1 <? length current)
              (SchemaInvariant "a Task has more than one current shaping checkpoint") in
  match sci_checkpoint_operation input with
  | OpCreateInitial =>
      let? _ := ensure (negb (list_is_empty current)
                        || negb (list_is_empty (sci_carry_forward_application_ids input)))
                  (InvalidInput "create_initial requires no current shaping checkpoint") in
      Ok (s, None)
  | OpReplaceCurrent expected retired_refs carry_refs stale_actions =>
      match current with
      | [c] =>
          let? _ := ensure (sc_shaping_checkpoint_id c <>? expected)
                (InvalidInput "replace_current requires the exact current shaping checkpoint") in
          let? _ := validate_carry_forward_applications s input expected carry_refs in
          let? s := retire_checkpoint_user_actions s input c retired_refs in
          let? s := consume_stale_authority s input stale_actions committed_at in
          let? s := supersede_checkpoint_row s c (sci_created_at input) in
          Ok (s, Some expected)
      | _ => Err (InvalidInput "replace_current requires the exact current shaping checkpoint")
      end
  end.

Definition checkpoint_row (project_id : string) (input : ShapingCheckpointInsert)
    (predecessor : option string) : ShapingCheckpointRecord :=
  {| sc_project_id := project_id; sc_shaping_checkpoint_id := sci_shaping_checkpoint_id input;
     sc_predecessor_shaping_checkpoint_id := predecessor; sc_task_id := sci_task_id input;
     sc_scope_revision := sci_scope_revision input; sc_baseline_ref := sci_baseline_ref input;
     sc_summary := sci_summary input;
     sc_implementation_boundary := sci_implementation_boundary input;
     sc_readiness := sci_readiness input; sc_source_refs := sci_source_refs input;
     sc_evidence_refs := sci_evidence_refs input; sc_created_at := sci_created_at input;
     sc_superseded_at := None; sc_gaps := []; sc_applications := [] |}.

(** [trg_shaping_checkpoint_successor_requires_exact_predecessor]. *)
Definition exact_predecessor (s : TaskTables) (input : ShapingCheckpointInsert) (id : string)
    : bool :=
  is_some_and (pt_checkpoints s !! id) (λ c,
    (sc_task_id c =? sci_task_id input) && (sc_readiness c =? CheckpointSuperseded)
    && (sc_superseded_at c =? Some (sci_created_at input))).

(** [INSERT INTO shaping_checkpoints]. *)
Definition insert_checkpoint_row (s : TaskTables) (input : ShapingCheckpointInsert)
    (predecessor : option string) : result TaskTables StoreError :=
  let? _ := ensure (is_some (pt_checkpoints s !! sci_shaping_checkpoint_id input))
              (ConstraintViolation "shaping_checkpoints.shaping_checkpoint_id") in
  let? _ := ensure (is_some predecessor
                    && existsb (λ c, sc_predecessor_shaping_checkpoint_id c =? predecessor)
                         (checkpoint_rows s))
              (ConstraintViolation "shaping_checkpoints.predecessor_shaping_checkpoint_id") in
  let? _ := ensure (negb (sql_has_text (sci_summary input)))
              (ConstraintViolation "shaping_checkpoints.summary") in
  let? _ := ensure (is_some_and (sci_implementation_boundary input)
                      (λ text, negb (sql_has_text text)))
              (ConstraintViolation "shaping_checkpoints.implementation_boundary") in
  let? _ := ensure (existsb (is_current_checkpoint (sci_task_id input)) (checkpoint_rows s))
              (ConstraintViolation "idx_shaping_checkpoints_one_current") in
  let? _ := ensure (negb (is_none_or predecessor (exact_predecessor s input)))
              (ConstraintViolation
                 "trg_shaping_checkpoint_successor_requires_exact_predecessor") in
  Ok (set_checkpoints s (<[sci_shaping_checkpoint_id input :=
                             checkpoint_row (pt_project_id s) input predecessor]>
                           (pt_checkpoints s))).

Definition gap_row (gap : ShapingCheckpointGapInsert) (committed_at : UtcTimestamp)
    : ShapingCheckpointGapRecord :=
  {| sg_shaping_gap_id := sgi_shaping_gap_id gap; sg_gap_kind := sgi_gap_kind gap;
     sg_summary := sgi_summary gap; sg_affected_refs := sgi_affected_refs gap;
     sg_status := GapCurrent;
     sg_reauthorizes_application_id := sgi_reauthorizes_application_id gap;
     sg_user_action := (λ link,
       {| scu_user_action_request_id := sui_user_action_request_id link;
          scu_action_kind := sui_action_kind link; scu_user_action_resolution_id := None;
          scu_linked_at := committed_at; scu_resolved_at := None |}) <$> sgi_user_action gap |}.

(** [trg_shaping_gap_reauthorization_origin]. *)
Definition reauthorization_origin_valid (s : TaskTables) (task_id : string)
    (gap : ShapingCheckpointGapInsert) (application_id : string) : bool :=
  is_some_and (pt_applications s !! application_id) (λ a,
    (sda_task_id a =? task_id) && (sda_authority_status a =? AppSuperseded)
    && is_some (sda_stale_at a) && is_some (sda_superseded_at a)
    && (gap_judgment_kind (sgi_gap_kind gap) =? Some (sda_judgment_kind a))
    && is_some_and (pt_tasks s !! task_id) (λ row,
         policy_owner (sda_judgment_kind a) (tk_mode (tr_task row))
           =? Some (sda_application_owner a))).

(** Every gap of the project, with its checkpoint. *)
Definition gap_rows (s : TaskTables) : list (ShapingCheckpointRecord * ShapingCheckpointGapRecord) :=
  checkpoint_rows s ≫= λ c, pair c <$> sc_gaps c.

Definition insert_shaping_gap (committed_at : UtcTimestamp) (checkpoint_id task_id : string)
    (s : TaskTables) (gap : ShapingCheckpointGapInsert) : result TaskTables StoreError :=
  let? _ := validate_identifier "shaping_gap_id" (sgi_shaping_gap_id gap) in
  let? _ := validate_shaping_text "shaping gap summary" (sgi_summary gap) in
  let? _ := ensure (negb (eqb (is_user_owned (sgi_gap_kind gap)) (is_some (sgi_user_action gap))))
              (InvalidInput "user-owned shaping gaps require one exact UserAction link") in
  let? _ := ensure (is_some (sgi_reauthorizes_application_id gap)
                    && negb (is_user_owned (sgi_gap_kind gap)))
              (InvalidInput "only a user-owned shaping gap may reauthorize stale authority") in
  let? _ := ensure (is_some_and (sgi_user_action gap) (λ link,
                      gap_action_kind (sgi_gap_kind gap) <>? Some (sui_action_kind link)))
              (InvalidInput "shaping gap kind is incompatible with its UserAction kind") in
  let? c := ok_or (pt_checkpoints s !! checkpoint_id)
              (ConstraintViolation "shaping_checkpoint_gaps.shaping_checkpoint_id") in
  let? _ := ensure (sc_readiness c =? CheckpointReady)
              (ConstraintViolation "trg_shaping_gap_not_added_to_ready_checkpoint") in
  let? _ := ensure (is_some (gap_of c (sgi_shaping_gap_id gap)))
              (ConstraintViolation "shaping_checkpoint_gaps.shaping_gap_id") in
  let? _ := ensure (negb (sql_has_text (sgi_summary gap)))
              (ConstraintViolation "shaping_checkpoint_gaps.summary") in
  let? _ := ensure (is_some (sgi_reauthorizes_application_id gap)
                    && existsb (λ cg, sg_reauthorizes_application_id cg.2
                                        =? sgi_reauthorizes_application_id gap) (gap_rows s))
              (ConstraintViolation "shaping_checkpoint_gaps.reauthorizes_application_id") in
  let? _ := ensure (negb (is_none_or (sgi_reauthorizes_application_id gap)
                            (reauthorization_origin_valid s task_id gap)))
              (ConstraintViolation "trg_shaping_gap_reauthorization_origin") in
  let? _ := ensure (is_some_and (sgi_user_action gap) (λ link,
                      existsb (λ cg, gap_request_id cg.2 =? Some (sui_user_action_request_id link))
                        (gap_rows s)))
              (ConstraintViolation "shaping_checkpoint_user_actions.user_action_request_id") in
  let? _ := ensure (is_some_and (sgi_user_action gap) (λ link,
                      negb (is_some_and
                        (ut_requests (pt_user_actions s) !! sui_user_action_request_id link) (λ r,
                          (ur_task_id r =? task_id) && (ur_action_kind r =? sui_action_kind link)))))
              (ConstraintViolation "user_action_requests.action_kind") in
  Ok (set_checkpoints s (<[checkpoint_id := with_gaps (sc_gaps c ++ [gap_row gap committed_at]) c]>
                           (pt_checkpoints s))).

(** [trg_shaping_authority_reauthorization_exact_lineage], first part. *)
Definition exact_superseded_application (s : TaskTables) (task_id : string)
    (d : ShapingStaleAuthorityDisposition) (at_ : UtcTimestamp) : bool :=
  is_some_and (pt_applications s !! sad_stale_application_id d) (λ a,
    (sda_task_id a =? task_id)
    && (sda_user_action_request_id a =? sad_stale_user_action_request_id d)
    && (sda_authority_status a =? AppSuperseded) && is_some (sda_stale_at a)
    && (sda_superseded_at a =? Some at_)
    && is_some_and (ut_requests (pt_user_actions s) !! sda_user_action_request_id a) (λ r,
         (ur_task_id r =? task_id) && (ur_basis_status r =? BasisSuperseded))).

Definition metadata_reauthorizes (m : PersistedUserActionRequestMetadata) : option string :=
  match m with MetaShaping _ _ _ application_id => application_id | _ => None end.

(** Its second part: a reissued application has a fresh successor gap and request. *)
Definition fresh_successor (s : TaskTables) (task_id checkpoint_id : string)
    (d : ShapingStaleAuthorityDisposition) : bool :=
  is_some_and
    (c ← pt_checkpoints s !! checkpoint_id; gap_id ← sad_successor_gap_id d; gap_of c gap_id)
    (λ g,
      (sg_reauthorizes_application_id g =? Some (sad_stale_application_id d))
      && is_some (sad_successor_user_action_request_id d)
      && (gap_request_id g =? sad_successor_user_action_request_id d)
      && (sg_status g =? GapCurrent)
      && is_none (gap_resolution_id g)
      && is_some_and (pt_applications s !! sad_stale_application_id d) (λ a,
           gap_judgment_kind (sg_gap_kind g) =? Some (sda_judgment_kind a))
      && is_some_and (gap_request_id g) (λ request_id,
           is_some_and (ut_requests (pt_user_actions s) !! request_id) (λ r,
             (ur_task_id r =? task_id) && (ur_basis_status r =? BasisCurrent)
             && (metadata_reauthorizes (ur_metadata r) =? Some (sad_stale_application_id d)))
           && is_none (answer_of s request_id)
           && (request_id <>? sad_stale_user_action_request_id d))).

Definition reauthorization_row (s : TaskTables) (task_id checkpoint_id : string)
    (d : ShapingStaleAuthorityDisposition) (at_ : UtcTimestamp)
    : ShapingAuthorityReauthorizationRecord :=
  {| sar_project_id := pt_project_id s;
     sar_shaping_authority_reauthorization_id :=
       shaping_authority_reauthorization_id (sad_stale_application_id d);
     sar_task_id := task_id; sar_stale_application_id := sad_stale_application_id d;
     sar_stale_user_action_request_id := sad_stale_user_action_request_id d;
     sar_successor_checkpoint_id := checkpoint_id;
     sar_successor_gap_id := sad_successor_gap_id d;
     sar_successor_user_action_request_id := sad_successor_user_action_request_id d;
     sar_outcome := sad_outcome d; sar_created_at := at_ |}.

(** One [INSERT INTO shaping_authority_reauthorizations]. *)
Definition insert_reauthorization (committed_at : UtcTimestamp) (checkpoint_id task_id : string)
    (s : TaskTables) (d : ShapingStaleAuthorityDisposition) : result TaskTables StoreError :=
  let row := reauthorization_row s task_id checkpoint_id d committed_at in
  let id := sar_shaping_authority_reauthorization_id row in
  let? _ := ensure (is_some (pt_reauthorizations s !! id)
                    || existsb (λ other : ShapingAuthorityReauthorizationRecord,
                         sar_stale_application_id other =? sad_stale_application_id d)
                         (map_to_list (pt_reauthorizations s)).*2)
              (ConstraintViolation "shaping_authority_reauthorizations.stale_application_id") in
  let? _ := ensure (match sad_outcome d with
                    | OutRetired => is_some (sad_successor_gap_id d)
                                    || is_some (sad_successor_user_action_request_id d)
                    | OutReissued => is_none (sad_successor_gap_id d)
                                     || is_none (sad_successor_user_action_request_id d)
                    end)
              (ConstraintViolation "shaping_authority_reauthorizations.outcome") in
  let? _ := ensure (negb (exact_superseded_application s task_id d committed_at)
                    || ((sad_outcome d =? OutReissued)
                        && negb (fresh_successor s task_id checkpoint_id d)))
              (ConstraintViolation "trg_shaping_authority_reauthorization_exact_lineage") in
  Ok (set_lineage s (pt_checkpoint_applications s) (<[id := row]> (pt_reauthorizations s))).

(** [trg_shaping_checkpoint_application_lineage]. *)
Definition link_lineage_valid (s : TaskTables) (link : CheckpointApplicationLink) : bool :=
  let id := cal_shaping_decision_application_id link in
  is_some_and (pt_applications s !! id) (λ a,
    (sda_task_id a =? cal_task_id link) && (sda_authority_status a =? AppCurrent)
    && match cal_carried_from_checkpoint_id link with
       | None => sda_source_checkpoint_id a =? cal_shaping_checkpoint_id link
       | Some from =>
           is_some_and (pt_checkpoints s !! cal_shaping_checkpoint_id link) (λ successor,
             (sc_task_id successor =? cal_task_id link)
             && (sc_predecessor_shaping_checkpoint_id successor =? Some from)
             && existsb (λ other,
                  (cal_task_id other =? cal_task_id link)
                  && (cal_shaping_checkpoint_id other =? from)
                  && (cal_shaping_decision_application_id other =? id))
                  (pt_checkpoint_applications s))
       end).

(** [INSERT INTO shaping_checkpoint_applications]. *)
Definition insert_application_link (s : TaskTables) (link : CheckpointApplicationLink)
    : result TaskTables StoreError :=
  let? _ := ensure (existsb (λ other,
                      (cal_shaping_checkpoint_id other =? cal_shaping_checkpoint_id link)
                      && (cal_shaping_decision_application_id other
                            =? cal_shaping_decision_application_id link))
                      (pt_checkpoint_applications s))
              (ConstraintViolation "shaping_checkpoint_applications") in
  let? _ := ensure (cal_carried_from_checkpoint_id link =? Some (cal_shaping_checkpoint_id link))
              (ConstraintViolation "shaping_checkpoint_applications.carried_from_checkpoint_id") in
  let? _ := ensure (negb (link_lineage_valid s link))
              (ConstraintViolation "trg_shaping_checkpoint_application_lineage") in
  Ok (set_lineage s (pt_checkpoint_applications s ++ [link]) (pt_reauthorizations s)).

Definition record_shaping_checkpoint (s : TaskTables) (input : ShapingCheckpointInsert)
    (committed_at : UtcTimestamp) : result TaskTables StoreError :=
  let id := sci_shaping_checkpoint_id input in
  let task_id := sci_task_id input in
  let? _ := validate_checkpoint_insert input in
  let? _ := ensure (negb (fits_i64 (sci_scope_revision input)))
              (InvalidInput "shaping checkpoint scope_revision is too large") in
  let? _ := require_task_scope_revision s task_id (sci_scope_revision input) in
  let? '(s, predecessor) := apply_checkpoint_succession s input committed_at in
  let? s := insert_checkpoint_row s input predecessor in
  let? s := try_foldl (insert_shaping_gap committed_at id task_id) s (sci_gaps input) in
  let? s := try_foldl (insert_reauthorization committed_at id task_id) s
              (sci_stale_authority_dispositions input) in
  let? s := match predecessor with
            | None => Ok s
            | Some from => try_foldl (λ s application_id,
                insert_application_link s
                  {| cal_task_id := task_id; cal_shaping_checkpoint_id := id;
                     cal_shaping_decision_application_id := application_id;
                     cal_carried_from_checkpoint_id := Some from |})
                s (sci_carry_forward_application_ids input)
            end in
  let? _ := reject_detached_live_shaping_authority s task_id (Some id) in
  Ok s.

(** ** Resolving a gap *)

(** The gap status an answer gives. *)
Definition disposition_of_body (body : UserActionResolutionBody) : option ShapingGapStatus :=
  List.find (λ status, body_settles status body) [GapAccepted; GapRejected; GapDeferred].

(** The unresolved link of a request. *)
Definition unresolved_link (s : TaskTables) (request_id : string)
    : option (ShapingCheckpointRecord * ShapingCheckpointGapRecord) :=
  List.find (λ cg, (gap_request_id cg.2 =? Some request_id) && is_none (gap_resolution_id cg.2))
    (gap_rows s).

Definition resolved_link (resolution_id : string) (at_ : UtcTimestamp)
    (link : ShapingCheckpointUserActionRecord) : ShapingCheckpointUserActionRecord :=
  {| scu_user_action_request_id := scu_user_action_request_id link;
     scu_action_kind := scu_action_kind link;
     scu_user_action_resolution_id := Some resolution_id;
     scu_linked_at := scu_linked_at link; scu_resolved_at := Some at_ |}.

(** The last [UPDATE]: a blocked checkpoint without an open gap becomes ready. *)
Definition settle_readiness (c : ShapingCheckpointRecord) : ShapingCheckpointRecord :=
  if (sc_readiness c =? CheckpointBlocked) && is_some (sc_baseline_ref c)
     && is_some (sc_implementation_boundary c) && negb (has_open_gap c)
  then with_readiness (sc_scope_revision c) (sc_baseline_ref c) CheckpointReady
         (sc_superseded_at c) c
  else c.

Definition resolve_shaping_gap (s : TaskTables) (request_id resolution_id : string)
    (disposition : ShapingGapStatus) (committed_at : UtcTimestamp) : result TaskTables StoreError :=
  let? _ := validate_identifier "user_action_request_id" request_id in
  let? _ := validate_identifier "user_action_resolution_id" resolution_id in
  let? _ := ensure (match disposition with GapCurrent | GapApplied => true | _ => false end)
              (InvalidInput
                 "a shaping resolution requires an exact terminal decision disposition") in
  let? q := ok_or (option_filter (λ q, us_user_action_request_id q =? request_id)
                     (ut_resolutions (pt_user_actions s) !! resolution_id)) SqliteNoRows in
  let? expected := ok_or (disposition_of_body (us_resolution q))
        (InvalidInput "shaping resolution action and outcome are not compatible") in
  let? _ := ensure (disposition <>? expected)
              (InvalidInput
                 "shaping disposition does not match the immutable resolution outcome") in
  match unresolved_link s request_id with
  | None => Ok s
  | Some (c, g) =>
      let? _ := ensure ((scu_action_kind <$> sg_user_action g) <>? Some (us_action_kind q))
                  (ConstraintViolation "user_action_resolutions.action_kind") in
      let? _ := ensure (sg_status g <>? GapCurrent)
                  (ConstraintViolation "trg_shaping_gap_disposition_transition") in
      let settled := with_gap_status disposition
                       (resolved_link resolution_id committed_at <$> sg_user_action g) in
      Ok (set_checkpoints s (<[sc_shaping_checkpoint_id c :=
            settle_readiness (update_gap (sg_shaping_gap_id g) settled c)]> (pt_checkpoints s)))
  end.

(** ** Applying decisions *)

(** The first [SELECT CASE] of
    [trg_shaping_decision_application_requires_accepted_resolution]. *)
Definition accepted_current_request (s : TaskTables) (request_id : string)
    (basis : ShapingApplicationBasis) (baseline_ref : BaselineRef) : bool :=
  is_some_and (ut_requests (pt_user_actions s) !! request_id) (λ r,
    let co := coordinates (ur_basis r) in
    (ur_basis_status r =? BasisCurrent)
    && (co_scope_revision co =? sab_scope_revision basis)
    && (co_baseline_ref co =? Some baseline_ref)
    && (co_change_unit_id co =? sab_change_unit_id basis)
    && (co_compatibility_status co =? BasisCurrent)).

(** Its second: the coordinates are those of the Task. *)
Definition task_at_basis (s : TaskTables) (task_id : string) (basis : ShapingApplicationBasis)
    (baseline_ref : BaselineRef) : bool :=
  is_some_and (pt_tasks s !! task_id) (λ row,
    (tk_scope_revision (tr_task row) =? sab_scope_revision basis)
    && (shaping_baseline_ref (tk_shaping (tr_task row)) =? Some baseline_ref)
    && (tk_current_change_unit_id (tr_task row) =? sab_change_unit_id basis)).

Definition application_row (s : TaskTables) (task_id checkpoint_id request_id : string)
    (kind : JudgmentKind) (owner : ShapingDecisionApplicationOwner)
    (basis : ShapingApplicationBasis) (baseline_ref : BaselineRef) (at_ : UtcTimestamp)
    (application : ShapingGapApplication) : ShapingDecisionApplicationRecord :=
  {| sda_project_id := pt_project_id s;
     sda_shaping_decision_application_id := sga_shaping_decision_application_id application;
     sda_task_id := task_id; sda_source_checkpoint_id := checkpoint_id;
     sda_source_gap_id := sga_shaping_gap_id application;
     sda_user_action_request_id := request_id;
     sda_user_action_resolution_id := sga_user_action_resolution_id application;
     sda_judgment_kind := kind; sda_application_owner := owner;
     sda_applied_scope_revision := sab_scope_revision basis;
     sda_applied_baseline_ref := baseline_ref;
     sda_applied_change_unit_id := sab_change_unit_id basis; sda_applied_at := at_;
     sda_authority_status := AppCurrent; sda_stale_at := None; sda_superseded_at := None;
     sda_linked_checkpoint_id := None; sda_carried_from_checkpoint_id := None |}.

(** [INSERT INTO shaping_decision_applications]: keys, foreign keys and the trigger. *)
Definition insert_application (s : TaskTables) (mode : TaskMode) (basis : ShapingApplicationBasis)
    (gap : ShapingCheckpointGapRecord) (a : ShapingDecisionApplicationRecord)
    : result TaskTables StoreError :=
  let id := sda_shaping_decision_application_id a in
  let? _ := ensure (is_some (pt_applications s !! id)
                    || existsb (λ other,
                         (sda_user_action_resolution_id other =? sda_user_action_resolution_id a)
                         && (sda_application_owner other =? sda_application_owner a))
                         (application_rows s))
              (ConstraintViolation "shaping_decision_applications") in
  let? _ := ensure (negb (is_none_or (sda_applied_change_unit_id a) (λ unit,
                      is_some (change_unit_row s (sda_task_id a) unit))))
              (ConstraintViolation "shaping_decision_applications.applied_change_unit_id") in
  let? _ := ensure (negb (is_some_and
                      (ut_resolutions (pt_user_actions s) !! sda_user_action_resolution_id a) (λ q,
                        (us_user_action_request_id q =? sda_user_action_request_id a)
                        && (judgment_kind (us_action_kind q) =? Some (sda_judgment_kind a))
                        && body_settles GapAccepted (us_resolution q)))
                    || (sg_status gap <>? GapAccepted)
                    || ((sg_user_action gap ≫= λ link, judgment_kind (scu_action_kind link))
                          <>? Some (sda_judgment_kind a))
                    || negb (accepted_current_request s (sda_user_action_request_id a) basis
                               (sda_applied_baseline_ref a))
                    || negb (task_at_basis s (sda_task_id a) basis (sda_applied_baseline_ref a))
                    || (policy_owner (sda_judgment_kind a) mode <>? Some (sda_application_owner a)))
              (ConstraintViolation
                 "trg_shaping_decision_application_requires_accepted_resolution") in
  Ok (set_authority s (<[id := a]> (pt_applications s)) (pt_user_actions s)).

(** One iteration of the loop of [apply_selected_gaps]. *)
Definition apply_selected_gap (task_id checkpoint_id : string) (mode : TaskMode)
    (owner : ShapingDecisionApplicationOwner) (basis : ShapingApplicationBasis)
    (committed_at : UtcTimestamp) (s : TaskTables) (application : ShapingGapApplication)
    : result TaskTables StoreError :=
  let gap_id := sga_shaping_gap_id application in
  let resolution_id := sga_user_action_resolution_id application in
  let? '(c, g, request_id, r) := ok_or
        (c ← option_filter (λ c, sc_task_id c =? task_id) (pt_checkpoints s !! checkpoint_id);
         g ← gap_of c gap_id;
         request_id ← gap_request_id g;
         r ← ut_requests (pt_user_actions s) !! request_id;
         Some (c, g, request_id, r))
        (InvalidInput "selected shaping application does not identify one exact linked gap") in
  let? policy := ok_or (decision_policy_for_mode (sg_gap_kind g) mode)
        (InvalidInput "a non-user shaping gap cannot be applied by a decision owner") in
  let? _ := ensure ((application_owner policy <>? owner) || (sg_status g <>? GapAccepted)
                    || (gap_resolution_id g <>? Some resolution_id)
                    || (ur_basis_status r <>? BasisCurrent)
                    || (ur_required_for r <>? policy_required_for policy))
              (InvalidInput
                 "selected shaping application does not match its exact semantic owner and resolution") in
  let? kind := ok_or (gap_judgment_kind (sg_gap_kind g))
        (InvalidInput "a shaping application requires a judgment kind") in
  let? baseline_ref := ok_or (sab_baseline_ref basis)
        (InvalidInput "a shaping application requires a current baseline") in
  let? _ := ensure (sga_shaping_decision_application_id application
                      <>? shaping_decision_application_id resolution_id owner)
              (InvalidInput "shaping application identity does not match its resolution and owner") in
  let? _ := ensure (negb (fits_i64 (sab_scope_revision basis)))
              (InvalidInput "shaping application scope revision is too large") in
  let? s := insert_application s mode basis g
              (application_row s task_id checkpoint_id request_id kind owner basis baseline_ref
                 committed_at application) in
  let? s := insert_application_link s
              {| cal_task_id := task_id; cal_shaping_checkpoint_id := checkpoint_id;
                 cal_shaping_decision_application_id :=
                   sga_shaping_decision_application_id application;
                 cal_carried_from_checkpoint_id := None |} in
  Ok (set_checkpoints s
        (<[checkpoint_id := update_gap gap_id (λ g, with_gap_status GapApplied (sg_user_action g) g) c]>
           (pt_checkpoints s))).

(** The loop of [apply_selected_gaps] with the two sets of ids it has seen. *)
Fixpoint apply_selected_loop (task_id checkpoint_id : string) (mode : TaskMode)
    (owner : ShapingDecisionApplicationOwner) (basis : ShapingApplicationBasis)
    (committed_at : UtcTimestamp) (gap_ids resolution_ids : list string) (s : TaskTables)
    (applications : list ShapingGapApplication) : result TaskTables StoreError :=
  match applications with
  | [] => Ok s
  | application :: rest =>
      let gap_id := sga_shaping_gap_id application in
      let resolution_id := sga_user_action_resolution_id application in
      let? _ := validate_identifier "shaping_gap_id" gap_id in
      let? _ := validate_identifier "user_action_resolution_id" resolution_id in
      let? _ := ensure (bts_mem gap_id gap_ids || bts_mem resolution_id resolution_ids)
                  (InvalidInput
                     "shaping applications must contain unique gap and resolution ids") in
      let? s := apply_selected_gap task_id checkpoint_id mode owner basis committed_at s
                  application in
      apply_selected_loop task_id checkpoint_id mode owner basis committed_at
        (bts_insert gap_id gap_ids) (bts_insert resolution_id resolution_ids) s rest
  end.

Definition apply_selected_gaps (s : TaskTables) (task_id checkpoint_id : string)
    (owner : ShapingDecisionApplicationOwner) (basis : ShapingApplicationBasis)
    (applications : list ShapingGapApplication) (committed_at : UtcTimestamp)
    : result TaskTables StoreError :=
  let? mode := shaping_task_mode s task_id in
  apply_selected_loop task_id checkpoint_id mode owner basis committed_at [] [] s applications.

Definition owner_gap_unapplied (mode : TaskMode) (owner : ShapingDecisionApplicationOwner)
    (g : ShapingCheckpointGapRecord) : bool :=
  is_some_and (decision_policy_for_mode (sg_gap_kind g) mode)
    (λ policy, application_owner policy =? owner)
  && (sg_status g <>? GapApplied).

Definition gaps_of_checkpoint (s : TaskTables) (checkpoint_id : string)
    : list ShapingCheckpointGapRecord :=
  match pt_checkpoints s !! checkpoint_id with Some c => sc_gaps c | None => [] end.

Definition require_owner_gaps_applied (s : TaskTables) (task_id checkpoint_id : string)
    (owner : ShapingDecisionApplicationOwner) : result unit StoreError :=
  let? mode := shaping_task_mode s task_id in
  ensure (existsb (owner_gap_unapplied mode owner) (gaps_of_checkpoint s checkpoint_id))
    (InvalidInput
       "every gap owned by the selected shaping application method must be applied exactly").

(** The rows of [invalidate_incompatible_current_applications]. *)
Definition incompatible_application_rows (s : TaskTables) (task_id : string)
    (scope_revision : N) (baseline_ref : option BaselineRef) (change_unit_id : option string)
    : list (string * string) :=
  (λ a, (sda_shaping_decision_application_id a, sda_user_action_request_id a))
    <$> List.filter (λ a,
          (sda_task_id a =? task_id) && (sda_authority_status a =? AppCurrent)
          && ((sda_applied_scope_revision a <>? scope_revision)
              || (Some (sda_applied_baseline_ref a) <>? baseline_ref)
              || (sda_applied_change_unit_id a <>? change_unit_id)))
          (application_rows s).

(** The [CASE] of the rebasing [UPDATE]. *)
Definition rebased_readiness (baseline_ref : option BaselineRef) (c : ShapingCheckpointRecord)
    : ShapingCheckpointReadiness :=
  if is_some baseline_ref && is_some (sc_implementation_boundary c) && negb (has_open_gap c)
  then CheckpointReady else sc_readiness c.

Definition apply_scope_and_rebase_current_shaping_checkpoint (s : TaskTables)
    (task_id checkpoint_id : string) (scope_revision : N) (baseline_ref : option BaselineRef)
    (change_unit_id : option string) (applications : list ShapingGapApplication)
    (committed_at : UtcTimestamp) : result TaskTables StoreError :=
  let? _ := validate_identifier "task_id" task_id in
  let? _ := validate_identifier "shaping_checkpoint_id" checkpoint_id in
  let? _ := ensure (negb (fits_i64 scope_revision))
              (InvalidInput "shaping checkpoint scope_revision is too large") in
  let? _ := require_exact_current_checkpoint s task_id checkpoint_id in
  let? _ := require_task_scope_revision s task_id scope_revision in
  let? s := invalidate_application_rows s
              (incompatible_application_rows s task_id scope_revision baseline_ref change_unit_id)
              AppStale committed_at in
  let? s := apply_selected_gaps s task_id checkpoint_id OwnUpdateScope
              {| sab_scope_revision := scope_revision; sab_baseline_ref := baseline_ref;
                 sab_change_unit_id := change_unit_id |} applications committed_at in
  let? _ := require_owner_gaps_applied s task_id checkpoint_id OwnUpdateScope in
  let? c := ok_or (option_filter (is_current_checkpoint task_id) (pt_checkpoints s !! checkpoint_id))
              (Conflict "shaping_checkpoint" checkpoint_id) in
  let readiness := rebased_readiness baseline_ref c in
  let? _ := ensure ((readiness =? CheckpointReady) && (has_open_gap c || is_none baseline_ref))
              (ConstraintViolation "shaping_checkpoints.readiness") in
  Ok (set_checkpoints s (<[checkpoint_id :=
        with_readiness scope_revision baseline_ref readiness (sc_superseded_at c) c]>
        (pt_checkpoints s))).

(** ** Leaving shaping *)

(** The checkpoint is ready at the coordinates of the request. *)
Definition checkpoint_at_basis (s : TaskTables) (input : ShapingAdvanceApplication) : bool :=
  is_some_and (pt_checkpoints s !! saa_shaping_checkpoint_id input) (λ c,
    (sc_task_id c =? saa_task_id input) && (sc_readiness c =? CheckpointReady)
    && (sc_scope_revision c =? saa_scope_revision input)
    && (sc_baseline_ref c =? Some (saa_baseline_ref input))).

(** The Change Unit is the current one, cut on the baseline and not in recovery. *)
Definition change_unit_at_basis (s : TaskTables) (input : ShapingAdvanceApplication) : bool :=
  is_some_and (pt_change_units s !! saa_change_unit_id input) (λ u,
    is_current_active (saa_task_id input) u
    && (cu_write_basis_baseline_ref (cur_unit u) =? Some (saa_baseline_ref input))
    && negb (cu_recovery_required (cur_unit u))).

Definition advance_basis (input : ShapingAdvanceApplication) : ShapingApplicationBasis :=
  {| sab_scope_revision := saa_scope_revision input;
     sab_baseline_ref := Some (saa_baseline_ref input);
     sab_change_unit_id := Some (saa_change_unit_id input) |}.

(** The [WHERE] of the phase transition. *)
Definition transition_eligible (input : ShapingAdvanceApplication) (row : TaskRow) : bool :=
  let t := tr_task row in
  (tk_mode t =? Work) && (tk_work_phase t =? ShapingPhase)
  && (tk_scope_revision t =? saa_scope_revision input)
  && (tk_current_change_unit_id t =? Some (saa_change_unit_id input))
  && (shaping_baseline_ref (tk_shaping t) =? Some (saa_baseline_ref input))
  && match tk_lifecycle_phase t with PCompleted | PCancelled | PSuperseded => false | _ => true end.

Definition validate_advance_ids (input : ShapingAdvanceApplication) : result unit StoreError :=
  let? _ := validate_identifier "task_id" (saa_task_id input) in
  let? _ := validate_identifier "shaping_checkpoint_id" (saa_shaping_checkpoint_id input) in
  validate_identifier "change_unit_id" (saa_change_unit_id input).

Definition apply_advance_shaping_and_transition (s : TaskTables)
    (input : ShapingAdvanceApplication) (committed_at : UtcTimestamp)
    : result TaskTables StoreError :=
  let task_id := saa_task_id input in
  let checkpoint_id := saa_shaping_checkpoint_id input in
  let? _ := validate_advance_ids input in
  let? _ := require_exact_current_checkpoint s task_id checkpoint_id in
  let? _ := ensure (negb (fits_i64 (saa_scope_revision input)))
              (InvalidInput "advance scope_revision is too large") in
  let? _ := ensure (negb (checkpoint_at_basis s input))
              (InvalidInput "advance shaping checkpoint basis is not exact and ready") in
  let? _ := ensure (negb (change_unit_at_basis s input))
              (InvalidInput "advance requires the exact current Change Unit") in
  let? s := apply_selected_gaps s task_id checkpoint_id OwnAdvanceTask (advance_basis input)
              (saa_applications input) committed_at in
  let? _ := ensure (existsb (λ g, sg_status g <>? GapApplied) (gaps_of_checkpoint s checkpoint_id))
              (InvalidInput "advance cannot change phase while a shaping gap is unapplied") in
  let? row := ok_or (option_filter (transition_eligible input) (pt_tasks s !! task_id))
              (Conflict "task" task_id) in
  Ok (set_tasks s (<[task_id := with_task (with_scope_columns (Some Implementation)
                                            (Some PExecuting) None None) row]> (pt_tasks s))).

(** The join of [apply_advisor_shaping_finalization]. *)
Definition advice_at_basis (s : TaskTables) (input : ShapingAdvanceApplication) : bool :=
  is_some_and (pt_tasks s !! saa_task_id input) (λ row,
    let t := tr_task row in
    (tk_mode t =? Advisor) && (tk_work_phase t =? ShapingPhase)
    && (tk_scope_revision t =? saa_scope_revision input)
    && (tk_current_change_unit_id t =? Some (saa_change_unit_id input))
    && (shaping_baseline_ref (tk_shaping t) =? Some (saa_baseline_ref input)))
  && checkpoint_at_basis s input && change_unit_at_basis s input.

Definition apply_advisor_shaping_finalization (s : TaskTables)
    (input : ShapingAdvanceApplication) (committed_at : UtcTimestamp)
    : result TaskTables StoreError :=
  let task_id := saa_task_id input in
  let checkpoint_id := saa_shaping_checkpoint_id input in
  let? _ := validate_advance_ids input in
  let? _ := require_exact_current_checkpoint s task_id checkpoint_id in
  let? _ := ensure (negb (fits_i64 (saa_scope_revision input)))
              (InvalidInput "advisor finalization scope_revision is too large") in
  let? _ := ensure (negb (advice_at_basis s input))
              (InvalidInput "advisor finalization basis is not exact, current, and ready") in
  let? s := apply_selected_gaps s task_id checkpoint_id OwnFinalizeAdvice (advance_basis input)
              (saa_applications input) committed_at in
  let? _ := require_owner_gaps_applied s task_id checkpoint_id OwnFinalizeAdvice in
  let? _ := ensure (existsb (λ g, sg_status g =? GapCurrent) (gaps_of_checkpoint s checkpoint_id))
              (InvalidInput "advisor finalization cannot retain an unresolved shaping gap") in
  Ok s.

(** [ShapingCheckpointMutation::apply]. *)
Definition apply_shaping_mutation (s : TaskTables) (committed_at : UtcTimestamp)
    (m : ShapingCheckpointMutation) : result TaskTables StoreError :=
  match m with
  | SmRecord input => record_shaping_checkpoint s input committed_at
  | SmResolveLinkedGap request_id resolution_id disposition =>
      resolve_shaping_gap s request_id resolution_id disposition committed_at
  | SmApplyScopeAndRebaseCurrent task_id checkpoint_id scope_revision baseline_ref change_unit_id
      applications =>
      apply_scope_and_rebase_current_shaping_checkpoint s task_id checkpoint_id scope_revision
        baseline_ref change_unit_id applications committed_at
  | SmApplyAdvanceAndTransition input => apply_advance_shaping_and_transition s input committed_at
  | SmApplyAdvisorFinalization input => apply_advisor_shaping_finalization s input committed_at
  | SmSupersedeCurrent task_id => supersede_current_shaping_checkpoint s task_id committed_at
  end.
End shaping.
