(* ===== verification/ShapingStoreSound.v ===== *)
(** * ShapingStoreSound: what the shaping tables guarantee

    Over [ShapingStore]: what every mutation keeps of a recorded checkpoint and its gaps
    ([shaping_step]); the invariant of the tables inside a commit ([shaping_base]) and
    between mutations ([attached]), with its preservation by every mutation; the exact
    effect of replacing a checkpoint and of leaving shaping. *)

From S2P Require Import Prelude Text Values Canonical EventHash Schema Clock TicketStore Commit CommitSound.
From S2P Require Import UserActionShape UserActionStore UserActionService Workflow Planning Evidence.
From S2P Require Import Capture WorkflowAction TaskRecords TaskStore ShapingStore.
From S2P Require Import UserActionStoreSound TaskStoreSound.
Import Shaping.

(** ** What a mutation keeps *)

(** An open gap is settled once; an accepted one may then be applied. *)
Definition gap_status_le (a b : ShapingGapStatus) : Prop :=
  a = b ∨ a = GapCurrent ∨ a = GapAccepted ∧ b = GapApplied.

#[export] Instance gap_status_le_preorder : PreOrder gap_status_le.
Proof. split; [by left|]. intros a b c. unfold gap_status_le. naive_solver congruence. Qed.

(** A gap keeps its question and its request, and a resolution once it has one. *)
Record gap_kept (g g' : ShapingCheckpointGapRecord) : Prop := {
  gap_question : sg_shaping_gap_id g' = sg_shaping_gap_id g ∧ sg_gap_kind g' = sg_gap_kind g
    ∧ sg_summary g' = sg_summary g ∧ sg_affected_refs g' = sg_affected_refs g
    ∧ sg_reauthorizes_application_id g' = sg_reauthorizes_application_id g;
  gap_request : gap_request_id g' = gap_request_id g;
  gap_resolution : ∀ id, gap_resolution_id g = Some id → gap_resolution_id g' = Some id;
  gap_progress : gap_status_le (sg_status g) (sg_status g');
}.

#[export] Instance gap_kept_preorder : PreOrder gap_kept.
Proof.
  split; [intros g; by constructor|].
  intros a b c [(?&?&?&?&?) ? ? ?] [(?&?&?&?&?) ? ? ?].
  constructor; [split_and!; congruence|congruence|auto|by etrans].
Qed.

(** A checkpoint keeps its contents and its gaps; once superseded it stays so. *)
Record checkpoint_kept (c c' : ShapingCheckpointRecord) : Prop := {
  ckept_identity : sc_shaping_checkpoint_id c' = sc_shaping_checkpoint_id c
    ∧ sc_task_id c' = sc_task_id c
    ∧ sc_predecessor_shaping_checkpoint_id c' = sc_predecessor_shaping_checkpoint_id c;
  ckept_contents : sc_summary c' = sc_summary c
    ∧ sc_implementation_boundary c' = sc_implementation_boundary c
    ∧ sc_source_refs c' = sc_source_refs c ∧ sc_evidence_refs c' = sc_evidence_refs c
    ∧ sc_created_at c' = sc_created_at c;
  ckept_superseded : sc_readiness c = CheckpointSuperseded → sc_readiness c' = CheckpointSuperseded;
  ckept_gaps : ∃ gs extra, sc_gaps c' = gs ++ extra ∧ Forall2 gap_kept (sc_gaps c) gs;
}.

#[export] Instance checkpoint_kept_preorder : PreOrder checkpoint_kept.
Proof.
  split.
  - intros c. constructor; [done..|]. exists (sc_gaps c), []. split; [by rewrite app_nil_r|]. reflexivity.
  - intros a b c [(?&?&?) (?&?&?&?&?) ? (g1 & e1 & E1 & F1)] [(?&?&?) (?&?&?&?&?) ? (g2 & e2 & E2 & F2)].
    constructor; [split_and!; congruence|split_and!; congruence|auto|].
    rewrite E1 in F2. apply Forall2_app_inv_l in F2 as (h1 & h2 & F2 & _ & ->).
    exists h1, (h2 ++ e2). split; [by rewrite E2, (assoc_L app)|]. by etrans.
Qed.

(** No row of the shaping tables or answer of a user disappears. *)
Record shaping_step (s s' : TaskTables) : Prop := {
  step_checkpoints : rows_kept checkpoint_kept (pt_checkpoints s) (pt_checkpoints s');
  step_links : ∃ extra, pt_checkpoint_applications s' = pt_checkpoint_applications s ++ extra;
  step_reauthorizations : rows_kept eq (pt_reauthorizations s) (pt_reauthorizations s');
  step_resolutions :
    rows_kept eq (ut_resolutions (pt_user_actions s)) (ut_resolutions (pt_user_actions s'));
}.

#[export] Instance shaping_step_preorder : PreOrder shaping_step.
Proof.
  split.
  - intros s. constructor; [apply rows_kept_refl, _| |apply rows_kept_refl, _..].
    exists []. by rewrite app_nil_r.
  - intros a b c [? [e1 E1] ? ?] [? [e2 E2] ? ?].
    constructor; [|exists (e1 ++ e2); by rewrite E2, E1, (assoc_L app)|..];
      eapply rows_kept_trans; eauto with typeclass_instances.
Qed.

(** ** Gaps *)

Lemma gap_of_Some c id g :
  gap_of c id = Some g → g ∈ sc_gaps c ∧ sg_shaping_gap_id g = id.
Proof. intros [Hin He]%List.find_some. split; [by apply list_elem_of_In|by apply eqb_eq]. Qed.

Lemma gap_of_elem c g :
  NoDup (sg_shaping_gap_id <$> sc_gaps c) → g ∈ sc_gaps c →
  gap_of c (sg_shaping_gap_id g) = Some g.
Proof.
  intros Hnd Hin. destruct (gap_of c _) as [g'|] eqn:Hg.
  - apply gap_of_Some in Hg as [Hin' He]. f_equal. by eapply NoDup_fmap_inj_elem.
  - apply (proj1 (list_find_None _ _)) with (x := g) in Hg; [|done]. by rewrite eqb_refl in Hg.
Qed.

Lemma gap_of_kept c c' id g :
  checkpoint_kept c c' → gap_of c id = Some g → ∃ g', gap_of c' id = Some g' ∧ gap_kept g g'.
Proof.
  intros Hk. destruct (ckept_gaps _ _ Hk) as (gs & extra & E & HF).
  unfold gap_of. rewrite E. clear E Hk. induction HF as [|x y l k Hxy _ IH]; cbn; [done|].
  destruct (gap_question _ _ Hxy) as (-> & _). destruct (sg_shaping_gap_id x =? id); [|exact IH].
  intros [= <-]. eauto.
Qed.

(** Updating one gap by a step of that gap. *)
Lemma update_gap_kept id f c :
  (∀ g, g ∈ sc_gaps c → sg_shaping_gap_id g = id → gap_kept g (f g)) →
  checkpoint_kept c (update_gap id f c) ∧ Forall2 gap_kept (sc_gaps c) (sc_gaps (update_gap id f c)).
Proof.
  intros Hf.
  assert (Forall2 gap_kept (sc_gaps c) (sc_gaps (update_gap id f c))) as HF.
  { cbn. apply Forall2_fmap_r, Forall_Forall2_diag, Forall_forall.
    intros g Hg. unfold compose. destruct (sg_shaping_gap_id g =? id) eqn:E; [|reflexivity].
    apply Hf; [done|by apply eqb_eq]. }
  split; [|done]. constructor; [done..|]. exists (sc_gaps (update_gap id f c)), []. by rewrite app_nil_r.
Qed.

Lemma kept_gap_ids gs gs' :
  Forall2 gap_kept gs gs' → sg_shaping_gap_id <$> gs' = sg_shaping_gap_id <$> gs.
Proof.
  induction 1 as [|g g' l l' Hg _ IH]; [done|]. cbn. rewrite IH.
  by destruct (gap_question _ _ Hg) as (-> & _).
Qed.

(** ** The invariant *)

(** A checkpoint is ready only with a baseline, a boundary and no open gap. *)
Definition ready_ok (c : ShapingCheckpointRecord) : Prop :=
  sc_readiness c = CheckpointReady →
  is_Some (sc_baseline_ref c) ∧ is_Some (sc_implementation_boundary c) ∧ has_open_gap c = false.

Section invariant.
Context `{HC : Chrono} `{HZ : CanonicalSize} `{HD : CaptureDigest}.

(** An application rests on an applied gap whose question the local user answered by
    accepting it, and has the owner and the identity that follow from that answer. *)
Record application_rests (s : TaskTables) (a : ShapingDecisionApplicationRecord) : Prop := {
  rests_gap : ∃ c g, pt_checkpoints s !! sda_source_checkpoint_id a = Some c
    ∧ sc_task_id c = sda_task_id a ∧ gap_of c (sda_source_gap_id a) = Some g
    ∧ sg_status g = GapApplied ∧ gap_judgment_kind (sg_gap_kind g) = Some (sda_judgment_kind a)
    ∧ gap_request_id g = Some (sda_user_action_request_id a)
    ∧ gap_resolution_id g = Some (sda_user_action_resolution_id a);
  rests_answer : ∃ q, ut_resolutions (pt_user_actions s) !! sda_user_action_resolution_id a = Some q
    ∧ us_user_action_request_id q = sda_user_action_request_id a
    ∧ judgment_kind (us_action_kind q) = Some (sda_judgment_kind a)
    ∧ body_settles GapAccepted (us_resolution q) = true
    ∧ us_resolved_by_actor_source q = LocalUser
    ∧ us_resolved_verification_basis q = verification_basis (us_channel_kind q);
  rests_owner : ∃ row, pt_tasks s !! sda_task_id a = Some row
    ∧ policy_owner (sda_judgment_kind a) (tk_mode (tr_task row)) = Some (sda_application_owner a);
  rests_identity : sda_shaping_decision_application_id a
    = shaping_decision_application_id (sda_user_action_resolution_id a) (sda_application_owner a);
}.

(** An open gap names no answer; a settled one names a stored answer of the request it asks,
    whose outcome gives exactly its status (an applied gap was accepted). *)
Definition gap_settled (s : TaskTables) (g : ShapingCheckpointGapRecord) : Prop :=
  match sg_status g with
  | GapCurrent => gap_resolution_id g = None
  | status => ∃ request_id resolution_id q, gap_request_id g = Some request_id
      ∧ gap_resolution_id g = Some resolution_id
      ∧ ut_resolutions (pt_user_actions s) !! resolution_id = Some q
      ∧ us_user_action_request_id q = request_id ∧ body_settles status (us_resolution q) = true
  end.

Record shaping_base (s : TaskTables) : Prop := {
  sb_key : ∀ id c, pt_checkpoints s !! id = Some c →
    sc_shaping_checkpoint_id c = id ∧ NoDup (sg_shaping_gap_id <$> sc_gaps c);
  sb_one : ∀ id1 id2 c1 c2 task_id,
    pt_checkpoints s !! id1 = Some c1 → pt_checkpoints s !! id2 = Some c2 →
    is_current_checkpoint task_id c1 = true → is_current_checkpoint task_id c2 = true → id1 = id2;
  sb_ready : ∀ id c, pt_checkpoints s !! id = Some c → ready_ok c;
  sb_request : ∀ id1 id2 c1 c2 g1 g2 request_id,
    pt_checkpoints s !! id1 = Some c1 → pt_checkpoints s !! id2 = Some c2 →
    g1 ∈ sc_gaps c1 → g2 ∈ sc_gaps c2 →
    gap_request_id g1 = Some request_id → gap_request_id g2 = Some request_id →
    id1 = id2 ∧ sg_shaping_gap_id g1 = sg_shaping_gap_id g2;
  sb_settled : ∀ id c g, pt_checkpoints s !! id = Some c → g ∈ sc_gaps c → gap_settled s g;
  sb_resolution : ∀ id q, ut_resolutions (pt_user_actions s) !! id = Some q → resolution_valid q;
  sb_application : ∀ id a, pt_applications s !! id = Some a →
    sda_shaping_decision_application_id a = id ∧ application_rests s a;
}.

(** The link of a checkpoint to an application. *)
Definition linked (s : TaskTables) (checkpoint_id application_id : string) : Prop :=
  ∃ l, l ∈ pt_checkpoint_applications s ∧ cal_shaping_checkpoint_id l = checkpoint_id
    ∧ cal_shaping_decision_application_id l = application_id.

(** Every current application is linked by the current checkpoint of its Task. *)
Definition attached (s : TaskTables) : Prop :=
  ∀ id a, pt_applications s !! id = Some a → sda_authority_status a = AppCurrent →
    ∃ cid c, pt_checkpoints s !! cid = Some c ∧ is_current_checkpoint (sda_task_id a) c = true
      ∧ linked s cid id.

Record shaping_ok (s : TaskTables) : Prop := {
  sok_base : shaping_base s;
  sok_attached : attached s;
}.

(** Statements that leave the checkpoints alone: applications only lose authority, new
    answers are valid. *)
Record aside (s s' : TaskTables) : Prop := {
  aside_checkpoints : pt_checkpoints s' = pt_checkpoints s;
  aside_applications : ∀ id a', pt_applications s' !! id = Some a' →
    ∃ a, pt_applications s !! id = Some a ∧ application_kept a a';
  aside_tasks : rows_kept task_kept (pt_tasks s) (pt_tasks s');
  aside_answers : (∀ id q, ut_resolutions (pt_user_actions s) !! id = Some q → resolution_valid q) →
    ∀ id q, ut_resolutions (pt_user_actions s') !! id = Some q → resolution_valid q;
  aside_step : shaping_step s s';
}.

#[export] Instance aside_preorder : PreOrder aside.
Proof.
  split.
  - intros s. constructor; [done| |apply rows_kept_refl, _|done|done].
    intros id a Ha. exists a. by split.
  - intros a b c [] []. constructor; [congruence| |eapply rows_kept_trans; eauto with typeclass_instances|eauto|by etrans].
    intros id x Hx. destruct (aside_applications1 _ _ Hx) as (y & Hy & ?).
    destruct (aside_applications0 _ _ Hy) as (z & Hz & ?). exists z. split; [done|]. by etrans.
Qed.

Lemma rests_kept s s' a a' :
  rows_kept checkpoint_kept (pt_checkpoints s) (pt_checkpoints s') →
  rows_kept eq (ut_resolutions (pt_user_actions s)) (ut_resolutions (pt_user_actions s')) →
  rows_kept task_kept (pt_tasks s) (pt_tasks s') → application_kept a a' →
  application_rests s a → application_rests s' a'.
Proof.
  intros Hc Hq Ht [-> _ _ _] [(c & g & Hcl & Hct & Hg & Hst & Hjk & Hrq & Hrs) (q & Hql & Hqr) (row & Hrow & Ho) Hid].
  constructor; cbn; [| | |done].
  - destruct (Hc _ _ Hcl) as (c' & Hcl' & Hck). destruct (gap_of_kept _ _ _ _ Hck Hg) as (g' & Hg' & [Hgq Hgr Hgs Hgp]).
    exists c', g'. destruct (ckept_identity _ _ Hck) as (_ & -> & _).
    destruct Hgq as (_ & -> & _). rewrite Hgr. split_and!; [done..| |done|done|by apply Hgs].
    rewrite Hst in Hgp. by destruct Hgp as [->|[?|[? _]]].
  - destruct (Hq _ _ Hql) as (q' & Hq' & <-). eauto.
  - destruct (Ht _ _ Hrow) as (row' & Hrow' & Hk). exists row'. by rewrite (kept_mode _ _ Hk).
Qed.

Lemma gap_settled_kept s s' g :
  rows_kept eq (ut_resolutions (pt_user_actions s)) (ut_resolutions (pt_user_actions s')) →
  gap_settled s g → gap_settled s' g.
Proof.
  intros Hq. unfold gap_settled. destruct (sg_status g); [done|..];
    intros (r & id & q & ? & ? & (q' & ? & <-)%Hq & ?); eauto 8.
Qed.

Lemma aside_base s s' : aside s s' → shaping_base s → shaping_base s'.
Proof.
  intros [Hc Ha Ht Hq Hs] []. constructor; rewrite ?Hc; [done..| |eauto|].
  { intros id c g Hcl Hg. eapply gap_settled_kept; [apply Hs|eauto]. }
  intros id a' Ha'. destruct (Ha _ _ Ha') as (a & Hal & Hk). destruct (sb_application0 _ _ Hal) as [Hid Hr].
  split; [by destruct (application_kept_identity _ _ Hk) as (-> & _)|].
  eapply rests_kept; [apply Hs|apply Hs|done|done|done].
Qed.

Lemma kept_current a a' :
  application_kept a a' → sda_authority_status a' = AppCurrent → a' = a.
Proof.
  intros [_ Hr Hs _] Hc. apply Hs. rewrite Hc in *. by destruct (sda_authority_status a); cbn in Hr; [|lia..].
Qed.

Lemma linked_step s s' cid id : shaping_step s s' → linked s cid id → linked s' cid id.
Proof.
  intros [_ [extra E] _ _] (l & Hl & ?). exists l. rewrite E. split; [set_solver|done].
Qed.

Lemma aside_attached s s' : aside s s' → attached s → attached s'.
Proof.
  intros Has Hat id a' Ha' Hc. destruct (aside_applications _ _ Has _ _ Ha') as (a & Ha & Hk).
  pose proof (kept_current _ _ Hk Hc) as ->. destruct (Hat _ _ Ha Hc) as (cid & c & ? & ? & ?).
  exists cid, c. rewrite (aside_checkpoints _ _ Has). split_and!; [done..|].
  eapply linked_step; [apply Has|done].
Qed.

Lemma aside_ok s s' : aside s s' → shaping_ok s → shaping_ok s'.
Proof.
  intros Has [Hb Hat]. constructor; [by eapply aside_base|by eapply aside_attached].
Qed.

(** ** Statements on one checkpoint *)

(** No gap of the project asks the request. *)
Definition unasked (s : TaskTables) (request_id : string) : Prop :=
  ∀ id c g, pt_checkpoints s !! id = Some c → g ∈ sc_gaps c → gap_request_id g ≠ Some request_id.

(** Every request of the new gaps was asked by the same gap before, or is new. *)
Definition requests_extend (s : TaskTables) (c c' : ShapingCheckpointRecord) : Prop :=
  ∀ g' r, g' ∈ sc_gaps c' → gap_request_id g' = Some r →
    (∃ g, g ∈ sc_gaps c ∧ sg_shaping_gap_id g = sg_shaping_gap_id g' ∧ gap_request_id g = Some r)
    ∨ unasked s r ∧ ∀ g2, g2 ∈ sc_gaps c' → gap_request_id g2 = Some r →
        sg_shaping_gap_id g2 = sg_shaping_gap_id g'.

Record checkpoint_update (s : TaskTables) (id : string) (c c' : ShapingCheckpointRecord) : Prop := {
  cup_old : pt_checkpoints s !! id = Some c;
  cup_kept : checkpoint_kept c c';
  cup_gaps : NoDup (sg_shaping_gap_id <$> sc_gaps c');
  cup_ready : ready_ok c';
  cup_requests : requests_extend s c c';
  cup_settled : ∀ g, g ∈ sc_gaps c' → gap_settled s g;
}.

Definition put_checkpoint (s : TaskTables) (id : string) (c : ShapingCheckpointRecord) : TaskTables :=
  set_checkpoints s (<[id := c]> (pt_checkpoints s)).

Lemma update_shaping_step s id c c' :
  checkpoint_update s id c c' → shaping_step s (put_checkpoint s id c').
Proof.
  intros [Hold Hk _ _ _ _]. constructor; cbn; [|exists []; by rewrite app_nil_r|apply rows_kept_refl, _..].
  apply rows_kept_insert; [apply _|]. intros x Hx. by simplify_eq.
Qed.

Lemma current_of_kept c c' task_id :
  checkpoint_kept c c' → is_current_checkpoint task_id c' = true →
  is_current_checkpoint task_id c = true.
Proof.
  intros Hk. unfold is_current_checkpoint. destruct (ckept_identity _ _ Hk) as (_ & -> & _).
  rewrite !andb_true_iff, !negb_true_iff, !eqb_false. intros [? Hn]. split; [done|].
  intros Hs. by apply Hn, (ckept_superseded _ _ Hk).
Qed.

Lemma update_requests s id c c' :
  checkpoint_update s id c c' → shaping_base s →
  ∀ id2 c2 g1 g2 r, pt_checkpoints s !! id2 = Some c2 → g1 ∈ sc_gaps c' → g2 ∈ sc_gaps c2 →
    gap_request_id g1 = Some r → gap_request_id g2 = Some r →
    id = id2 ∧ sg_shaping_gap_id g1 = sg_shaping_gap_id g2.
Proof.
  intros [Hold _ _ _ Hreq _] Hb id2 c2 g1 g2 r H2 Hg1 Hg2 Hr1 Hr2.
  destruct (Hreq _ _ Hg1 Hr1) as [(g & Hg & Hid & Hr)|[Hn _]].
  - destruct (sb_request _ Hb _ _ _ _ _ _ _ Hold H2 Hg Hg2 Hr Hr2). split; congruence.
  - by destruct (Hn _ _ _ H2 Hg2).
Qed.

Lemma update_inner s id c c' :
  checkpoint_update s id c c' → shaping_base s →
  ∀ g1 g2 r, g1 ∈ sc_gaps c' → g2 ∈ sc_gaps c' → gap_request_id g1 = Some r →
    gap_request_id g2 = Some r → sg_shaping_gap_id g1 = sg_shaping_gap_id g2.
Proof.
  intros [Hold _ _ _ Hreq _] Hb g1 g2 r Hg1 Hg2 Hr1 Hr2.
  destruct (Hreq _ _ Hg1 Hr1) as [(h1 & Hh1 & Hi1 & Hq1)|[_ Hu]]; [|symmetry; eauto].
  destruct (Hreq _ _ Hg2 Hr2) as [(h2 & Hh2 & Hi2 & Hq2)|[_ Hu]]; [|eauto].
  destruct (sb_request _ Hb _ _ _ _ _ _ _ Hold Hold Hh1 Hh2 Hq1 Hq2). congruence.
Qed.

Lemma update_base s id c c' :
  checkpoint_update s id c c' → shaping_base s → shaping_base (put_checkpoint s id c').
Proof.
  intros Hu Hb. pose proof (update_shaping_step _ _ _ _ Hu) as Hst.
  pose proof (update_requests _ _ _ _ Hu Hb) as Hrq. pose proof (update_inner _ _ _ _ Hu Hb) as Hin.
  destruct Hu as [Hold Hk Hnd Hrd _ Hset]. pose proof Hb as []. constructor; cbn.
  - intros id' x [[<- <-]|[_ Hx]]%lookup_insert_Some; [|eauto].
    split; [|done]. destruct (ckept_identity _ _ Hk) as (-> & _). by apply (sb_key0 _ _ Hold).
  - intros id1 id2 c1 c2 t [[<- <-]|[_ H1]]%lookup_insert_Some [[<- <-]|[_ H2]]%lookup_insert_Some Hc1 Hc2;
      [done| | |eauto].
    + apply (current_of_kept _ _ _ Hk) in Hc1. eauto.
    + apply (current_of_kept _ _ _ Hk) in Hc2. eauto.
  - intros id' x [[<- <-]|[_ Hx]]%lookup_insert_Some; eauto.
  - intros id1 id2 c1 c2 g1 g2 r [[<- <-]|[_ H1]]%lookup_insert_Some [[<- <-]|[_ H2]]%lookup_insert_Some
      Hg1 Hg2 Hr1 Hr2; [split; eauto|eauto| |eauto].
    destruct (Hrq _ _ _ _ _ H1 Hg2 Hg1 Hr2 Hr1). by split.
  - intros id' x g [[<- <-]|[_ Hx]]%lookup_insert_Some Hg; [by apply Hset|by eapply sb_settled0].
  - done.
  - intros id' a Ha. destruct (sb_application0 _ _ Ha) as [Hid Hr]. split; [done|].
    eapply rests_kept; [apply Hst|apply Hst|apply rows_kept_refl, _|reflexivity|done].
Qed.

(** The statements that move gaps without adding one. *)
Lemma moved_update s id c c' :
  shaping_base s → pt_checkpoints s !! id = Some c → checkpoint_kept c c' →
  Forall2 gap_kept (sc_gaps c) (sc_gaps c') → ready_ok c' →
  (∀ g, g ∈ sc_gaps c' → gap_settled s g) → checkpoint_update s id c c'.
Proof.
  intros Hb Hold Hk HF Hr Hset. constructor; [done|done| |done| |done].
  - rewrite (kept_gap_ids _ _ HF). by apply (sb_key _ Hb _ _ Hold).
  - intros g' r Hg' Hrq. left. apply list_elem_of_lookup in Hg' as [i Hi].
    destruct (Forall2_lookup_r _ _ _ _ _ HF Hi) as (g & Hg & Hgk). exists g.
    split_and!; [by eapply list_elem_of_lookup_2|by destruct (gap_question _ _ Hgk)|].
    by rewrite <-(gap_request _ _ Hgk).
Qed.

(** A checkpoint that stays current keeps the authority attached to it. *)
Lemma update_attached s id c c' :
  checkpoint_update s id c c' →
  (sc_readiness c ≠ CheckpointSuperseded → sc_readiness c' ≠ CheckpointSuperseded) →
  attached s → attached (put_checkpoint s id c').
Proof.
  intros [Hold Hk _ _ _ _] Hs Hat x a Ha Hc. destruct (Hat _ _ Ha Hc) as (cid & d & Hd & Hcur & Hl).
  cbn. destruct (decide (id = cid)) as [<-|Hne].
  - exists id, c'. simplify_eq. rewrite lookup_insert_eq. split_and!; [done| |done].
    unfold is_current_checkpoint in *. destruct (ckept_identity _ _ Hk) as (_ & -> & _).
    apply andb_true_iff in Hcur as [-> Hn]. cbn. apply negb_true_iff, eqb_false, Hs.
    by apply eqb_false, negb_true_iff.
  - exists cid, d. rewrite lookup_insert_ne by done. by split_and!.
Qed.

(** ** Statements aside from the checkpoints *)

(** A change of the authority columns. *)
Lemma authority_aside s applications actions :
  (∀ id a', applications !! id = Some a' →
     ∃ a, pt_applications s !! id = Some a ∧ application_kept a a') →
  ut_resolutions actions = ut_resolutions (pt_user_actions s) →
  aside s (set_authority s applications actions).
Proof.
  intros Hb Hq. constructor; cbn; [done|done|apply rows_kept_refl, _|by rewrite Hq|].
  constructor; cbn; [apply rows_kept_refl, _|exists []; by rewrite app_nil_r|apply rows_kept_refl, _|].
  rewrite Hq. apply rows_kept_refl, _.
Qed.

Lemma application_aside s id a a' actions :
  pt_applications s !! id = Some a → application_kept a a' →
  ut_resolutions actions = ut_resolutions (pt_user_actions s) →
  aside s (set_authority s (<[id := a']> (pt_applications s)) actions).
Proof.
  intros Ha Hk. apply authority_aside.
  intros x b [[<- <-]|[_ Hb]]%lookup_insert_Some; [eauto|]. exists b. by split.
Qed.

Lemma actions_aside s actions :
  ut_resolutions actions = ut_resolutions (pt_user_actions s) →
  aside s (set_authority s (pt_applications s) actions).
Proof.
  apply authority_aside. intros x b Hb. exists b. by split.
Qed.

Lemma tasks_aside s tasks : rows_kept task_kept (pt_tasks s) tasks → aside s (set_tasks s tasks).
Proof.
  intros Ht. constructor; cbn; [done| |done|done|].
  - intros x b Hb. exists b. by split.
  - constructor; cbn; [apply rows_kept_refl, _|exists []; by rewrite app_nil_r|apply rows_kept_refl, _..].
Qed.

Lemma invalidate_loop_aside rows status at_ s s' :
  status ≠ AppCurrent → invalidate_application_loop s rows status at_ = Ok s' → aside s s'.
Proof.
  intros Hst. revert s. induction rows as [|[app req] rows IH]; intros s; cbn; [by intros [= <-]|].
  destruct (option_filter _ _) as [a|] eqn:Ha; cbn; [|done].
  apply option_filter_Some in Ha as [Ha Hcur%eqb_eq].
  rewrite bind_Ok. intros (actions & [_ Hq]%invalidate_request_basis_project & H%IH).
  etrans; [|exact H]. eapply application_aside; [done| |done]. by apply invalidated_kept.
Qed.

Lemma invalidate_rows_aside s rows status at_ s' :
  invalidate_application_rows s rows status at_ = Ok s' → aside s s'.
Proof.
  unfold invalidate_application_rows. destruct (status =? AppCurrent) eqn:E; [done|].
  apply invalidate_loop_aside. by apply eqb_neq in E.
Qed.

Lemma swap_request_aside s request_id from to s' :
  swap_request_basis s request_id from to = Ok s' → aside s s' ∧ pt_applications s' = pt_applications s.
Proof.
  unfold swap_request_basis. intros H. peel H as row Hr. injection H as <-.
  split; [|done]. by apply actions_aside.
Qed.

Lemma try_foldl_ind {S A} (f : S → A → result S StoreError) (R : relation S) `{!PreOrder R} l :
  (∀ s x s', x ∈ l → f s x = Ok s' → R s s') → ∀ s s', try_foldl f s l = Ok s' → R s s'.
Proof.
  induction l as [|x l IH]; intros Hf s s'; cbn; [by intros [= <-]|].
  rewrite bind_Ok. intros (s1 & H1 & H2). etrans; [eapply Hf; [|exact H1]; left|].
  eapply IH; [|exact H2]. intros; eapply Hf; [by right|done].
Qed.

(** *** Task and user-action mutations *)

(** The tables that only shaping and user-action statements write. *)
Definition shaping_part (s : TaskTables) :=
  (pt_checkpoints s, pt_checkpoint_applications s, pt_reauthorizations s, pt_applications s,
   pt_user_actions s).

Lemma part_aside s s' :
  shaping_part s' = shaping_part s → rows_kept task_kept (pt_tasks s) (pt_tasks s') → aside s s'.
Proof.
  intros [= Hc Hl Hr Ha Hu] Ht.
  constructor; [done| |done|by rewrite Hu|constructor; rewrite ?Hc, ?Hl, ?Hr, ?Hu].
  - rewrite Ha. intros id a Hid. exists a. by split.
  - apply rows_kept_refl, _.
  - exists []. by rewrite app_nil_r.
  - apply rows_kept_refl, _.
  - apply rows_kept_refl, _.
Qed.

Lemma update_task_part s id detail f s' :
  update_task s id detail f = Ok s' → shaping_part s' = shaping_part s.
Proof. by intros (row & _ & ->)%update_task_Ok. Qed.

Lemma update_task_coordinate_part s id detail f s' :
  update_task_coordinate s id detail f = Ok s' → shaping_part s' = shaping_part s.
Proof. by intros (row & _ & _ & ->)%update_task_coordinate_Ok. Qed.

Lemma update_task_column_part {A} s id column (value : option A) f s' :
  update_task_column s id column value f = Ok s' → shaping_part s' = shaping_part s.
Proof. destruct value; cbn; [apply update_task_part|by intros [= <-]]. Qed.

Lemma update_task_scope_part s input s' :
  update_task_scope s input = Ok s' → shaping_part s' = shaping_part s.
Proof.
  unfold update_task_scope. intros H.
  peel H as x Hx. peel H as s1 H1. peel H as s2 H2. peel H as s3 H3. peel H as s4 H4.
  peel H as s5 H5. peel H as s6 H6. peel H as s7 H7. peel H as s8 H8.
  apply update_task_column_part in H2, H3, H4, H5, H6, H7, H8, H.
  assert (shaping_part s1 = shaping_part s) as E1.
  { destruct (tsu_shaping input); [by eapply update_task_coordinate_part|by injection H1 as <-]. }
  congruence.
Qed.

Lemma upsert_criteria_part criteria task_id s s' :
  upsert_criteria s task_id criteria = Ok s' → shaping_part s' = shaping_part s.
Proof.
  revert s. induction criteria as [|c rest IH]; intros s; cbn; [by intros [= <-]|].
  rewrite bind_Ok. intros (s1 & H1%upsert_criterion_Ok & ->%IH). rewrite H1.
  destruct (pt_criteria s !! _) as [row|]; [by destruct (active_of_task task_id row)|done].
Qed.

(** Ending a Task supersedes applications first. *)
Lemma supersede_task_aside s task_id at_ s' :
  supersede_task s task_id at_ = Ok s' →
  ∃ s1, aside s s1 ∧ shaping_part s' = shaping_part s1 ∧ pt_tasks s1 = pt_tasks s.
Proof.
  unfold supersede_task. intros H. peel H as [] ?. peel H as s1 H1. injection H as <-. exists s1.
  split_and!; [by eapply invalidate_rows_aside|done|by apply supersede_applications_framed in H1 as (_ & ? & _)].
Qed.

Lemma close_task_aside s input at_ s' :
  close_task s input at_ = Ok s' →
  ∃ s1, aside s s1 ∧ shaping_part s' = shaping_part s1 ∧ pt_tasks s1 = pt_tasks s.
Proof.
  unfold close_task. intros H. peel H as [] ?. peel H as s1 H1. exists s1.
  split_and!; [by eapply invalidate_rows_aside|by eapply update_task_part|
    by apply supersede_applications_framed in H1 as (_ & ? & _)].
Qed.

Lemma apply_task_aside s at_ m s' : apply_task_mutation s at_ m = Ok s' → aside s s'.
Proof.
  intros H. pose proof (step_tasks _ _ (framed_step _ _ (apply_task_mutation_framed _ _ _ _ H))) as Ht.
  assert (∀ s1, aside s s1 ∧ shaping_part s' = shaping_part s1 ∧ pt_tasks s1 = pt_tasks s → aside s s') as Hend.
  { intros s1 (H1 & Hp & E). etrans; [exact H1|]. apply part_aside; [done|]. by rewrite E. }
  destruct m as [input|id|id|input|input|input|input|input|input]; cbn in H;
    [| |apply supersede_task_aside in H as [? ?]; eauto|apply close_task_aside in H as [? ?]; eauto|..];
    (apply part_aside; [|done]).
  - unfold insert_task in H. peel H as [] ?. rewrite !ensure_bind in H. by destruct H as (_&_&_&_&_&_&_&[= <-]).
  - unfold set_active_task in H. peel H as [] ?. by injection H as <-.
  - unfold update_task_control_level in H. peel H as [] ?. peel H as [] ?. peel H as acc ?. peel H as row ?.
    rewrite !ensure_bind in H. by destruct H as (_&_&_&_&[= <-]).
  - by eapply update_task_scope_part.
  - unfold update_task_scope_revision in H. do 2 (peel H as [] ?). by eapply update_task_coordinate_part.
  - unfold update_task_close_basis in H. do 2 (peel H as [] ?). by eapply update_task_part.
  - unfold replace_acceptance_criteria in H. peel H as [] ?. peel H as s1 H1. injection H as <-.
    exact (upsert_criteria_part _ _ _ _ H1).
Qed.

(** The requests move, the answers stay. *)
Lemma insert_request_answers s input s' :
  insert_user_action_request s input = Ok s' → ut_resolutions s' = ut_resolutions s.
Proof.
  unfold insert_user_action_request. intros H. do 12 (peel H as [] ?).
  rewrite !ensure_bind in H. by destruct H as (_ & _ & [= <-]).
Qed.

Lemma mark_superseded_answers s input s' :
  mark_user_actions_superseded_or_stale s input = Ok s' → ut_resolutions s' = ut_resolutions s.
Proof.
  unfold mark_user_actions_superseded_or_stale. intros H. peel H as [] ?. peel H as x ?.
  assert (∀ s kind s', mark_user_actions_superseded_or_stale_for_kind s (ui_task_id input)
    (ui_preserved_request_ids input) kind = Ok s' → ut_resolutions s' = ut_resolutions s) as Hm.
  { clear. intros s kind s'. unfold mark_user_actions_superseded_or_stale_for_kind. cbv zeta.
    rewrite ensure_bind. by intros [_ [= <-]]. }
  destruct (list_is_empty _); [by apply Hm in H|]. revert s H.
  induction (Some <$> ui_action_kinds input) as [|k l IH]; intros s; cbn; [by intros [= <-]|].
  rewrite bind_Ok. intros (s1 & E1%Hm & ->%IH). done.
Qed.

(** A user-action mutation keeps every answer and only adds valid ones. *)
Lemma user_action_answers actions m actions' :
  apply_user_action_mutation actions m = Ok actions' →
  rows_kept eq (ut_resolutions actions) (ut_resolutions actions')
  ∧ ∀ id q, ut_resolutions actions' !! id = Some q →
      ut_resolutions actions !! id = Some q ∨ resolution_valid q.
Proof.
  assert (ut_resolutions actions' = ut_resolutions actions →
    rows_kept eq (ut_resolutions actions) (ut_resolutions actions')
    ∧ ∀ id q, ut_resolutions actions' !! id = Some q →
        ut_resolutions actions !! id = Some q ∨ resolution_valid q) as Hsame.
  { intros ->. split; [apply rows_kept_refl, _|auto]. }
  destruct m as [input|input|input|input|input]; cbn; intros H.
  - by apply Hsame, (insert_request_answers _ input).
  - clear Hsame. apply insert_resolution_Ok in H as [[Hv _ Hn _ _] ->]. cbn. split.
    + apply rows_kept_insert; [apply _|]. congruence.
    + intros id q [[<- <-]|[_ Hq]]%lookup_insert_Some; auto.
  - unfold update_user_action_basis in H. peel H as [] ?.
    destruct (ut_requests actions !! _); [|done]. injection H as <-. by apply Hsame.
  - unfold mark_user_action_bases_status in H.
    destruct (bm_basis_status input); [done|..]; peel H as rows ?; injection H as <-; by apply Hsame.
  - by apply Hsame, (mark_superseded_answers _ input).
Qed.

Lemma user_action_aside s m actions :
  apply_user_action_mutation (pt_user_actions s) m = Ok actions →
  aside s (set_authority s (pt_applications s) actions).
Proof.
  intros [Hk Hn]%user_action_answers. constructor; cbn; [done| |apply rows_kept_refl, _| |].
  - intros x b Hb. exists b. by split.
  - intros Hv id q [?|?]%Hn; eauto.
  - constructor; cbn; [apply rows_kept_refl, _|exists []; by rewrite app_nil_r|apply rows_kept_refl, _|done].
Qed.

Lemma insert_current_part s input version s' :
  insert_current_change_unit s input version = Ok s' → shaping_part s' = shaping_part s.
Proof.
  unfold insert_current_change_unit, set_task_current_change_unit. intros H. peel H as s1 H1.
  apply insert_change_unit_Ok in H1 as (_ & _ & _ & _ & ->). peel H as [] ?.
  by apply update_task_coordinate_part in H.
Qed.

Lemma change_unit_aside s at_ version m s' :
  tables_ok s → apply_change_unit_mutation s at_ version m = Ok s' → aside s s'.
Proof.
  intros Hok H. destruct m as [input|input]; cbn in H.
  - pose proof (insert_current_part _ _ _ _ H) as Hp. apply part_aside; [done|].
    eapply insert_current_ok in H as [_ Hs]; [apply Hs|apply Hok|]. intros id row _. by apply Hok.
  - pose proof (replace_current_ok _ _ _ _ _ Hok H) as [_ Hs]. apply part_aside; [|apply Hs].
    unfold replace_current_change_unit in H. peel H as [] ?. by apply insert_current_part in H.
Qed.

(** ** Statements of a shaping mutation *)

(** What a shaping mutation keeps of all tables. *)
Definition frame (s s' : TaskTables) : Prop := tables_framed s s' ∧ shaping_step s s'.

#[local] Instance frame_preorder : PreOrder frame.
Proof. split; [by intros s|]. intros a b c [] []. split; by etrans. Qed.

(** Tables that agree on everything the Task tables read. *)
Lemma same_tables_framed s s' :
  pt_tasks s' = pt_tasks s → pt_criteria s' = pt_criteria s →
  pt_change_units s' = pt_change_units s → pt_applications s' = pt_applications s →
  tables_framed s s'.
Proof.
  intros Ht Hc Hu Ha. constructor; rewrite ?Ht, ?Hu, ?Ha; [|done|..].
  - constructor; rewrite ?Ht, ?Hc, ?Hu, ?Ha; apply rows_kept_refl, _.
  - intros id r Hr. left. exists r. by split.
  - intros id a Hid. left. exists a. by split.
  - unfold criteria_keyed. by rewrite Hc.
Qed.

Lemma put_checkpoint_framed s id c : tables_framed s (put_checkpoint s id c).
Proof. by apply same_tables_framed. Qed.

Lemma update_frame s id c c' : checkpoint_update s id c c' → frame s (put_checkpoint s id c').
Proof. intros Hu. split; [apply put_checkpoint_framed|by eapply update_shaping_step]. Qed.

Lemma invalidate_rows_frame s rows status at_ s' :
  invalidate_application_rows s rows status at_ = Ok s' → frame s s'.
Proof using HC HZ.
  intros H. split; [|by apply invalidate_rows_aside in H as [_ _ _ _ ?]].
  unfold invalidate_application_rows in H. destruct (status =? AppCurrent) eqn:E; [done|].
  apply eqb_neq in E. by apply invalidate_loop_framed in H as [? _].
Qed.

Lemma swap_request_frame s request_id from to s' :
  swap_request_basis s request_id from to = Ok s' → frame s s'.
Proof using HC HZ.
  intros H. pose proof (swap_request_aside _ _ _ _ _ H) as [Ha Happ]. split; [|apply Ha].
  unfold swap_request_basis in H. peel H as row Hr. injection H as <-. by apply same_tables_framed.
Qed.

(** *** Superseding *)

Lemma superseded_update s c at_ :
  shaping_base s → pt_checkpoints s !! sc_shaping_checkpoint_id c = Some c →
  checkpoint_update s (sc_shaping_checkpoint_id c) c (superseded_checkpoint at_ c).
Proof.
  intros Hb Hc. apply moved_update; [done|done| |reflexivity|done|intros g; by apply (sb_settled _ Hb _ _ _ Hc)].
  constructor; [done..|]. exists (sc_gaps c), []. split; [by rewrite app_nil_r|reflexivity].
Qed.

Lemma supersede_row_Ok s c at_ s' :
  supersede_checkpoint_row s c at_ = Ok s' →
  s' = put_checkpoint s (sc_shaping_checkpoint_id c) (superseded_checkpoint at_ c).
Proof. unfold supersede_checkpoint_row. rewrite ensure_bind. by intros [_ [= <-]]. Qed.

Lemma checkpoint_rows_elem s c :
  c ∈ checkpoint_rows s ↔ ∃ id, pt_checkpoints s !! id = Some c.
Proof.
  unfold checkpoint_rows. rewrite list_elem_of_fmap. split.
  - intros ([id c'] & -> & Hin%elem_of_map_to_list). eauto.
  - intros [id Hid]. exists (id, c). split; [done|]. by apply elem_of_map_to_list.
Qed.

(** The current checkpoints of a Task, of which the index leaves one. *)
Lemma current_rows_elem s task_id c :
  shaping_base s →
  c ∈ List.filter (is_current_checkpoint task_id) (checkpoint_rows s) ↔
  pt_checkpoints s !! sc_shaping_checkpoint_id c = Some c ∧ is_current_checkpoint task_id c = true.
Proof.
  intros Hb. rewrite elem_of_filter_bool, checkpoint_rows_elem. split.
  - intros [[id Hid] Hc]. by destruct (sb_key _ Hb _ _ Hid) as [-> _].
  - intros [Hid Hc]. eauto.
Qed.

Lemma NoDup_checkpoint_rows s :
  shaping_base s → NoDup (sc_shaping_checkpoint_id <$> checkpoint_rows s).
Proof.
  intros Hb. unfold checkpoint_rows. rewrite <-list_fmap_compose.
  erewrite list_fmap_ext; [apply NoDup_fst_map_to_list|].
  intros i [id c] Hi. cbn. apply list_elem_of_lookup_2, elem_of_map_to_list in Hi.
  by destruct (sb_key _ Hb _ _ Hi).
Qed.

Lemma current_rows_one s task_id :
  shaping_base s →
  List.filter (is_current_checkpoint task_id) (checkpoint_rows s) = []
  ∨ ∃ c, List.filter (is_current_checkpoint task_id) (checkpoint_rows s) = [c].
Proof.
  intros Hb. pose proof (current_rows_elem s task_id) as Hel.
  assert (NoDup (List.filter (is_current_checkpoint task_id) (checkpoint_rows s))) as Hnd.
  { eapply NoDup_fmap_1, (NoDup_fmap_filter sc_shaping_checkpoint_id). by apply NoDup_checkpoint_rows. }
  destruct (List.filter _ _) as [|c [|d l]] eqn:E; [by left|right; eauto|]. exfalso.
  destruct (proj1 (Hel c Hb)) as [Hc Hcc]; [left|].
  destruct (proj1 (Hel d Hb)) as [Hd Hdc]; [right; left|].
  pose proof (sb_one _ Hb _ _ _ _ _ Hc Hd Hcc Hdc) as He. rewrite He in Hc. simplify_eq.
  apply NoDup_cons in Hnd as [Hn _]. apply Hn. left.
Qed.

(** *** A new checkpoint *)

Lemma existsb_checkpoints_false s p :
  existsb p (checkpoint_rows s) = false ↔ ∀ id c, pt_checkpoints s !! id = Some c → p c = false.
Proof. apply existsb_rows_false. Qed.

Lemma insert_checkpoint_Ok s input pred s' :
  insert_checkpoint_row s input pred = Ok s' →
  pt_checkpoints s !! sci_shaping_checkpoint_id input = None
  ∧ (∀ id c, pt_checkpoints s !! id = Some c → is_current_checkpoint (sci_task_id input) c = false)
  ∧ s' = put_checkpoint s (sci_shaping_checkpoint_id input) (checkpoint_row (pt_project_id s) input pred).
Proof.
  unfold insert_checkpoint_row. rewrite !ensure_bind. intros (Hn & _ & _ & _ & Hc & _ & [= <-]).
  split_and!; [by destruct (pt_checkpoints s !! _)|by apply existsb_checkpoints_false|done].
Qed.

Lemma validated_ready input project_id pred :
  validate_checkpoint_insert input = Ok tt →
  sc_readiness (checkpoint_row project_id input pred) ≠ CheckpointSuperseded
  ∧ ready_ok (checkpoint_row project_id input pred).
Proof.
  unfold validate_checkpoint_insert. intros H. do 3 (peel H as [] ?).
  rewrite !ensure_bind in H. destruct H as (Hs%eqb_neq & _ & Hr & _). split; [done|].
  unfold ready_ok. cbn. intros Hrd. rewrite Hrd in Hr. rewrite eqb_refl in Hr. cbn in Hr.
  apply orb_false_iff in Hr as [[_ Hb]%orb_false_iff Hi].
  destruct (sci_baseline_ref input); [|done]. destruct (sci_implementation_boundary input); [|done]. eauto.
Qed.

Lemma new_checkpoint_base s id c :
  shaping_base s → pt_checkpoints s !! id = None → sc_shaping_checkpoint_id c = id → sc_gaps c = [] →
  ready_ok c →
  (∀ id' c', pt_checkpoints s !! id' = Some c' → is_current_checkpoint (sc_task_id c) c' = false) →
  shaping_base (put_checkpoint s id c).
Proof.
  intros [] Hn Hid Hg Hr Hone. constructor; cbn.
  - intros id' c' [[<- <-]|[_ ?]]%lookup_insert_Some; [|eauto]. split; [done|]. rewrite Hg. constructor.
  - assert (∀ t id' c', pt_checkpoints s !! id' = Some c' → is_current_checkpoint t c = true →
              is_current_checkpoint t c' = true → False) as Hno.
    { intros t id' c' Hc' [Ht _]%andb_true_iff Hcur. apply eqb_eq in Ht. subst t.
      by rewrite (Hone _ _ Hc') in Hcur. }
    intros id1 id2 c1 c2 t [[<- <-]|[_ H1]]%lookup_insert_Some [[<- <-]|[_ H2]]%lookup_insert_Some Hc1 Hc2;
      [done|destruct (Hno _ _ _ H2 Hc1 Hc2)|destruct (Hno _ _ _ H1 Hc2 Hc1)|eauto].
  - intros id' c' [[<- <-]|[_ ?]]%lookup_insert_Some; eauto.
  - intros id1 id2 c1 c2 g1 g2 r [[<- <-]|[_ H1]]%lookup_insert_Some [[<- <-]|[_ H2]]%lookup_insert_Some Hg1 Hg2;
      rewrite ?Hg in *; [by apply elem_of_nil in Hg1|by apply elem_of_nil in Hg1|by apply elem_of_nil in Hg2|eauto].
  - intros id' c' g [[<- <-]|[_ Hx]]%lookup_insert_Some Hin; [|by eapply sb_settled0].
    rewrite Hg in Hin. by apply elem_of_nil in Hin.
  - done.
  - intros id' a Ha. destruct (sb_application0 _ _ Ha) as [? Hrest]. split; [done|].
    eapply (rests_kept s); [|apply rows_kept_refl, _|apply rows_kept_refl, _|reflexivity|done].
    apply rows_kept_insert; [apply _|]. congruence.
Qed.

Lemma new_checkpoint_frame s id c :
  pt_checkpoints s !! id = None → frame s (put_checkpoint s id c).
Proof.
  intros Hn. split; [apply put_checkpoint_framed|].
  constructor; cbn; [|exists []; by rewrite app_nil_r|apply rows_kept_refl, _..].
  apply rows_kept_insert; [apply _|]. congruence.
Qed.

(** *** A new gap *)

Lemma gap_rows_elem s c g :
  (c, g) ∈ gap_rows s ↔ (∃ id, pt_checkpoints s !! id = Some c) ∧ g ∈ sc_gaps c.
Proof.
  unfold gap_rows. rewrite list_elem_of_bind, <-checkpoint_rows_elem. split.
  - intros (d & (h & [= -> ->] & Hh)%list_elem_of_fmap & Hd). done.
  - intros [Hc Hg]. exists c. split; [|done]. by apply list_elem_of_fmap_2.
Qed.

Lemma gap_rows_unasked s r :
  existsb (λ cg, gap_request_id cg.2 =? Some r) (gap_rows s) = false → unasked s r.
Proof.
  rewrite existsb_false. intros H id c g Hc Hg Hr.
  assert ((c, g) ∈ gap_rows s) as Hin by (apply gap_rows_elem; eauto).
  specialize (H _ Hin). cbn in H. by rewrite Hr, eqb_refl in H.
Qed.

Lemma insert_gap_Ok at_ cid tid s gap s' :
  insert_shaping_gap at_ cid tid s gap = Ok s' →
  ∃ c, pt_checkpoints s !! cid = Some c ∧ sc_readiness c ≠ CheckpointReady
    ∧ gap_of c (sgi_shaping_gap_id gap) = None
    ∧ (∀ r, gap_request_id (gap_row gap at_) = Some r → unasked s r)
    ∧ s' = put_checkpoint s cid (with_gaps (sc_gaps c ++ [gap_row gap at_]) c).
Proof.
  unfold insert_shaping_gap. intros H. do 2 (peel H as [] ?). rewrite !ensure_bind in H.
  destruct H as (_ & _ & _ & H). peel H as c Hc%ok_or_Ok. rewrite !ensure_bind in H.
  destruct H as (Hr%eqb_neq & Hg & _ & _ & _ & Hu & _ & [= <-]). exists c.
  split_and!; [done|done|by destruct (gap_of c _)| |done].
  intros r. cbn. unfold gap_request_id; cbn. destruct (sgi_user_action gap) as [link|]; [|done].
  cbn in *. intros [= <-]. by apply gap_rows_unasked.
Qed.

Lemma gap_of_None c id : gap_of c id = None ↔ id ∉ sg_shaping_gap_id <$> sc_gaps c.
Proof.
  unfold gap_of. rewrite list_find_None. split.
  - intros H (g & -> & Hg)%list_elem_of_fmap. specialize (H _ Hg). by rewrite eqb_refl in H.
  - intros Hn g Hg. apply eqb_false. intros <-. by apply Hn, list_elem_of_fmap_2.
Qed.

Lemma insert_gap_update at_ cid tid s gap s' :
  shaping_base s → insert_shaping_gap at_ cid tid s gap = Ok s' →
  ∃ c c', checkpoint_update s cid c c' ∧ s' = put_checkpoint s cid c'
    ∧ c' = with_gaps (sc_gaps c ++ [gap_row gap at_]) c.
Proof.
  intros Hb (c & Hc & Hr & Hg & Hu & ->)%insert_gap_Ok. exists c. eexists. split; [|done].
  destruct (sb_key _ Hb _ _ Hc) as [_ Hnd]. constructor; [done| | |by intros Hx; destruct Hr| |].
  - constructor; [done..|]. exists (sc_gaps c), [gap_row gap at_]. split; [done|]. reflexivity.
  - cbn. rewrite fmap_app. apply NoDup_app. split_and!; [done| |apply NoDup_singleton].
    intros x Hx ->%list_elem_of_singleton. by apply gap_of_None in Hg.
  - intros g' r Hg' Hrq. cbn in Hg'. apply elem_of_app in Hg' as [Hg'| ->%list_elem_of_singleton]; [left; eauto|].
    right. split; [by apply Hu|]. cbn. intros g2 Hg2 Hr2.
    apply elem_of_app in Hg2 as [Hg2| ->%list_elem_of_singleton]; [|done].
    by destruct (Hu _ Hrq _ _ _ Hc Hg2).
  - intros g' Hg'. cbn in Hg'. apply elem_of_app in Hg' as [Hg'| ->%list_elem_of_singleton];
      [by apply (sb_settled _ Hb _ _ _ Hc)|]. unfold gap_settled, gap_resolution_id; cbn.
    by destruct (sgi_user_action gap).
Qed.

Lemma put_checkpoint_same s id c : pt_checkpoints s !! id = Some c → put_checkpoint s id c = s.
Proof. intros Hc. unfold put_checkpoint. rewrite insert_id by done. by destruct s. Qed.

Lemma put_checkpoint_twice s id c c' : put_checkpoint (put_checkpoint s id c) id c' = put_checkpoint s id c'.
Proof. unfold put_checkpoint, set_checkpoints; cbn. by rewrite insert_insert_eq. Qed.

(** All gaps of an insert. *)
Lemma insert_gaps_spec at_ cid tid gaps s s' c :
  shaping_base s → pt_checkpoints s !! cid = Some c →
  try_foldl (insert_shaping_gap at_ cid tid) s gaps = Ok s' →
  shaping_base s' ∧ frame s s'
  ∧ s' = put_checkpoint s cid (with_gaps (sc_gaps c ++ ((λ g, gap_row g at_) <$> gaps)) c).
Proof.
  intros Hb Hc. revert s c Hb Hc. induction gaps as [|g gaps IH]; intros s c Hb Hc; cbn.
  { intros [= <-]. split_and!; [done|done|]. rewrite app_nil_r.
    rewrite put_checkpoint_same; [done|]. rewrite Hc. by destruct c. }
  rewrite bind_Ok. intros (s1 & H1 & H2).
  apply insert_gap_update in H1 as (c0 & c1 & Hu & -> & Hc1); [|done].
  pose proof (cup_old _ _ _ _ Hu) as Hc0. rewrite Hc in Hc0. injection Hc0 as <-.
  apply (IH _ c1) in H2 as (Hb' & Hf & ->); [|by eapply update_base|by cbn; rewrite lookup_insert_eq].
  split_and!; [done|etrans; [by eapply update_frame|done]|].
  rewrite put_checkpoint_twice, Hc1. cbn. by rewrite <-(assoc_L app).
Qed.

(** *** Lineage and links *)

Lemma lineage_aside s extra rows :
  rows_kept eq (pt_reauthorizations s) rows →
  aside s (set_lineage s (pt_checkpoint_applications s ++ extra) rows).
Proof.
  intros Hr. constructor; cbn; [done| |apply rows_kept_refl, _|done|].
  - intros x b Hb. exists b. by split.
  - constructor; cbn; [apply rows_kept_refl, _|by exists extra|done|apply rows_kept_refl, _].
Qed.

Lemma insert_reauthorization_Ok at_ cid tid s d s' :
  insert_reauthorization at_ cid tid s d = Ok s' →
  pt_reauthorizations s !! shaping_authority_reauthorization_id (sad_stale_application_id d) = None
  ∧ s' = set_lineage s (pt_checkpoint_applications s)
           (<[shaping_authority_reauthorization_id (sad_stale_application_id d)
                := reauthorization_row s tid cid d at_]> (pt_reauthorizations s)).
Proof.
  unfold insert_reauthorization. cbv zeta. rewrite !ensure_bind.
  intros ([Hn _]%orb_false_iff & _ & _ & [= <-]). cbn in *. split; [|done].
  by destruct (pt_reauthorizations s !! _).
Qed.

Lemma insert_reauthorization_aside at_ cid tid s d s' :
  insert_reauthorization at_ cid tid s d = Ok s' →
  aside s s' ∧ frame s s' ∧ pt_applications s' = pt_applications s
  ∧ pt_checkpoint_applications s' = pt_checkpoint_applications s
  ∧ pt_user_actions s' = pt_user_actions s.
Proof.
  intros [Hn ->]%insert_reauthorization_Ok.
  assert (aside s (set_lineage s (pt_checkpoint_applications s)
    (<[shaping_authority_reauthorization_id (sad_stale_application_id d)
         := reauthorization_row s tid cid d at_]> (pt_reauthorizations s)))) as Ha.
  { pose proof (lineage_aside s [] (<[shaping_authority_reauthorization_id (sad_stale_application_id d)
         := reauthorization_row s tid cid d at_]> (pt_reauthorizations s))) as Ha.
    rewrite app_nil_r in Ha. apply Ha, rows_kept_insert; [apply _|]. congruence. }
  split_and!; [done| |done..]. split; [by apply same_tables_framed|apply Ha].
Qed.

Lemma insert_link_Ok s link s' :
  insert_application_link s link = Ok s' →
  link_lineage_valid s link = true
  ∧ s' = set_lineage s (pt_checkpoint_applications s ++ [link]) (pt_reauthorizations s).
Proof.
  unfold insert_application_link. rewrite !ensure_bind, negb_false_iff. by intros (_ & _ & ? & [= <-]).
Qed.

Lemma insert_link_aside s link s' :
  insert_application_link s link = Ok s' → aside s s' ∧ frame s s'.
Proof.
  intros [_ ->]%insert_link_Ok.
  assert (aside s (set_lineage s (pt_checkpoint_applications s ++ [link]) (pt_reauthorizations s))) as Ha
    by apply lineage_aside, rows_kept_refl, _.
  split; [done|]. split; [by apply same_tables_framed|apply Ha].
Qed.

Lemma insert_links_spec (mk : string → CheckpointApplicationLink) ids s s' :
  try_foldl (λ s id, insert_application_link s (mk id)) s ids = Ok s' →
  aside s s' ∧ frame s s' ∧ pt_applications s' = pt_applications s
  ∧ pt_checkpoint_applications s' = pt_checkpoint_applications s ++ (mk <$> ids)
  ∧ pt_user_actions s' = pt_user_actions s.
Proof.
  revert s. induction ids as [|id ids IH]; intros s; cbn.
  { intros [= <-]. by rewrite app_nil_r. }
  rewrite bind_Ok. intros (s1 & H1 & (Ha & Hf & Happ & Hl & Hu)%IH).
  pose proof (insert_link_aside _ _ _ H1) as [Ha1 Hf1]. apply insert_link_Ok in H1 as [_ ->]. cbn in *.
  split_and!; [by etrans|by etrans|done| |done]. by rewrite Hl, <-(assoc_L app).
Qed.

Lemma insert_reauthorizations_spec at_ cid tid ds s s' :
  try_foldl (insert_reauthorization at_ cid tid) s ds = Ok s' →
  aside s s' ∧ frame s s' ∧ pt_applications s' = pt_applications s
  ∧ pt_checkpoint_applications s' = pt_checkpoint_applications s
  ∧ pt_user_actions s' = pt_user_actions s
  ∧ ∀ d, d ∈ ds →
      pt_reauthorizations s' !! shaping_authority_reauthorization_id (sad_stale_application_id d)
        = Some (reauthorization_row s tid cid d at_).
Proof.
  revert s. induction ds as [|d ds IH]; intros s; cbn.
  { intros [= <-]. split_and!; [done..|]. by intros d Hd%elem_of_nil. }
  rewrite bind_Ok. intros (s1 & H1 & (Ha & Hf & Happ & Hl & Hu & Hr)%IH).
  pose proof (insert_reauthorization_aside _ _ _ _ _ _ H1) as (Ha1 & Hf1 & Happ1 & Hl1 & Hu1).
  apply insert_reauthorization_Ok in H1 as [_ Hs1].
  split_and!; [by etrans|by etrans|congruence..|].
  intros d' [->|Hd]%elem_of_cons.
  - destruct (step_reauthorizations _ _ (aside_step _ _ Ha)
      (shaping_authority_reauthorization_id (sad_stale_application_id d)) (reauthorization_row s tid cid d at_))
      as (row & Hrow & <-); [|done]. rewrite Hs1. cbn. by rewrite lookup_insert_eq.
  - pose proof (Hr _ Hd) as Hx. rewrite Hs1 in Hx. exact Hx.
Qed.

(** *** Succession *)

(** Request bases and stale applications move, nothing else. *)
Record authority_only (s s' : TaskTables) : Prop := {
  ao_aside : aside s s';
  ao_frame : frame s s';
  ao_links : pt_checkpoint_applications s' = pt_checkpoint_applications s;
  ao_tasks : pt_tasks s' = pt_tasks s;
  ao_project : pt_project_id s' = pt_project_id s;
  ao_current : ∀ id a, pt_applications s !! id = Some a → sda_authority_status a = AppCurrent →
    pt_applications s' !! id = Some a;
}.

#[local] Instance authority_only_preorder : PreOrder authority_only.
Proof.
  split; [by intros s|]. intros a b c [] []. constructor; [by etrans|by etrans|congruence..|auto].
Qed.

Lemma swap_request_only s request_id from to s' :
  swap_request_basis s request_id from to = Ok s' →
  authority_only s s' ∧ pt_applications s' = pt_applications s.
Proof.
  intros H. pose proof (swap_request_aside _ _ _ _ _ H) as [Ha Happ].
  pose proof (swap_request_frame _ _ _ _ _ H) as Hf. split; [|done].
  unfold swap_request_basis in H. peel H as row Hr. injection H as <-. by constructor.
Qed.

Lemma swap_requests_only ids from to s s' :
  try_foldl (λ s id, swap_request_basis s id from to) s ids = Ok s' →
  authority_only s s' ∧ pt_applications s' = pt_applications s.
Proof.
  revert s. induction ids as [|id ids IH]; intros s; cbn; [by intros [= <-]|].
  rewrite bind_Ok. intros (s1 & [Ho Ha]%swap_request_only & [Ho' Ha']%IH).
  split; [by etrans|congruence].
Qed.

Lemma retire_only s input c refs s' :
  retire_checkpoint_user_actions s input c refs = Ok s' →
  authority_only s s' ∧ pt_applications s' = pt_applications s.
Proof.
  unfold retire_checkpoint_user_actions. intros H. peel H as ids Hi. peel H as [] He.
  peel H as required Hr. peel H as [] Hm. by eapply swap_requests_only.
Qed.

Lemma consumed_kept at_ a :
  sda_authority_status a = AppStale → application_kept a (consumed_application at_ a).
Proof. intros Ha. constructor; [done| | |done]; cbn; rewrite Ha; [cbn; lia|done]. Qed.

Definition request_at (s : TaskTables) (request_id : string) (status : UserActionBasisStatus) : Prop :=
  ∃ r, ut_requests (pt_user_actions s) !! request_id = Some r ∧ ur_basis_status r = status.

Lemma swap_request_effect s request_id from to s' :
  swap_request_basis s request_id from to = Ok s' →
  request_at s request_id from ∧ request_at s' request_id to
  ∧ ∀ other, other ≠ request_id →
      ut_requests (pt_user_actions s') !! other = ut_requests (pt_user_actions s) !! other.
Proof.
  unfold swap_request_basis. intros H. peel H as row Hr%ok_or_Ok.
  apply option_filter_Some in Hr as [Hr Hs%eqb_eq]. injection H as <-. split_and!.
  - by exists row.
  - exists (marked_row to row). cbn. by rewrite lookup_insert_eq.
  - intros other Hne. cbn. by rewrite lookup_insert_ne.
Qed.

Lemma consume_row_spec input mode outcomes at_ s a s' :
  consume_stale_row input mode outcomes at_ s a = Ok s' →
  let id := sda_shaping_decision_application_id a in
  ∃ b, pt_applications s !! id = Some b ∧ sda_authority_status b = AppStale
    ∧ pt_applications s' = <[id := consumed_application at_ b]> (pt_applications s)
    ∧ is_Some (disposition_of input id)
    ∧ authority_only s s'
    ∧ request_at s (sda_user_action_request_id b) BasisStale
    ∧ request_at s' (sda_user_action_request_id b) BasisSuperseded
    ∧ ∀ other, other ≠ sda_user_action_request_id b →
        ut_requests (pt_user_actions s') !! other = ut_requests (pt_user_actions s) !! other.
Proof.
  unfold consume_stale_row. cbv zeta. intros H. peel H as d Hd%ok_or_Ok. peel H as [] He. peel H as [] Hm.
  peel H as b Hb%ok_or_Ok. apply option_filter_Some in Hb as [Hb [[Hs%eqb_eq _]%andb_true_iff _]%andb_true_iff].
  exists b. pose proof (swap_request_effect _ _ _ _ _ H) as (Hq1 & Hq2 & Hq3).
  apply swap_request_only in H as [Ho Ha]. cbn in *. split_and!; [done|done|done|by rewrite Hd| |done..].
  etrans; [|exact Ho]. pose proof (consumed_kept at_ _ Hs) as Hk. constructor; [|split| | | |]; cbn; try done.
  - by eapply application_aside.
  - by eapply framed_application.
  - by eapply (application_aside _ _ _ _ (pt_user_actions s)).
  - intros id x Hx Hc. rewrite lookup_insert_ne; [done|]. intros <-. congruence.
Qed.

Lemma consume_rows_spec input mode outcomes at_ rows s s' :
  NoDup (sda_shaping_decision_application_id <$> rows) →
  (∀ a, a ∈ rows → pt_applications s !! sda_shaping_decision_application_id a = Some a) →
  try_foldl (consume_stale_row input mode outcomes at_) s rows = Ok s' →
  authority_only s s'
  ∧ (∀ a, a ∈ rows →
      pt_applications s' !! sda_shaping_decision_application_id a = Some (consumed_application at_ a)
      ∧ is_Some (disposition_of input (sda_shaping_decision_application_id a))
      ∧ request_at s' (sda_user_action_request_id a) BasisSuperseded)
  ∧ (∀ id, id ∉ sda_shaping_decision_application_id <$> rows →
      pt_applications s' !! id = pt_applications s !! id)
  ∧ ∀ request_id, request_at s request_id BasisSuperseded → request_at s' request_id BasisSuperseded.
Proof.
  revert s. induction rows as [|a rows IH]; intros s Hnd Hrows; cbn.
  { intros [= <-]. split_and!; [done| |done|done]. by intros a Ha%elem_of_nil. }
  cbn in Hnd. apply NoDup_cons in Hnd as [Hn Hnd]. rewrite bind_Ok. intros (s1 & H1 & H2).
  apply consume_row_spec in H1 as (b & Hb & Hst & Happ & Hd & Ho & Hq0 & Hq1 & Hq2). cbn in *.
  rewrite (Hrows a) in Hb by left. injection Hb as <-.
  apply IH in H2 as (Ho2 & Hin & Hout & Hq3); [|done|].
  - split_and!; [by etrans| | |].
    + intros x [->|Hx]%elem_of_cons; [|by apply Hin].
      rewrite (Hout _ Hn), Happ, lookup_insert_eq. split_and!; [done|done|by apply Hq3].
    + intros id [Hne Hni]%not_elem_of_cons. by rewrite (Hout _ Hni), Happ, lookup_insert_ne.
    + intros r Hr. apply Hq3. destruct (decide (r = sda_user_action_request_id a)) as [->|Hne]; [done|].
      destruct Hr as (x & Hx & ?). exists x. by rewrite Hq2.
  - intros x Hx. rewrite Happ, lookup_insert_ne; [apply Hrows; by right|].
    intros He. apply Hn. rewrite He. by apply list_elem_of_fmap_2.
Qed.

Lemma application_rows_elem s a :
  shaping_base s →
  a ∈ application_rows s ↔ pt_applications s !! sda_shaping_decision_application_id a = Some a.
Proof.
  intros Hb. unfold application_rows. rewrite list_elem_of_fmap. split.
  - intros ([id b] & -> & Hin%elem_of_map_to_list). cbn in *. by destruct (sb_application _ Hb _ _ Hin) as [-> _].
  - intros Ha. eexists (_, a). split; [done|]. by apply elem_of_map_to_list.
Qed.

Lemma NoDup_application_rows s :
  shaping_base s → NoDup (sda_shaping_decision_application_id <$> application_rows s).
Proof.
  intros Hb. unfold application_rows. rewrite <-list_fmap_compose.
  erewrite list_fmap_ext; [apply NoDup_fst_map_to_list|].
  intros i [id c] Hi. cbn. apply list_elem_of_lookup_2, elem_of_map_to_list in Hi.
  by destruct (sb_application _ Hb _ _ Hi).
Qed.

(** A stale application that has not been consumed, with its request stale as well. *)
Definition stale_unconsumed (s : TaskTables) (task_id : string) (a : ShapingDecisionApplicationRecord)
    : bool :=
  (sda_task_id a =? task_id) && (sda_authority_status a =? AppStale)
  && is_some (sda_stale_at a) && is_none (sda_superseded_at a)
  && is_some_and (ut_requests (pt_user_actions s) !! sda_user_action_request_id a) (λ r,
       (ur_basis_status r =? BasisStale)
       && (co_compatibility_status (coordinates (ur_basis r)) =? BasisStale)).

Lemma stale_rows_elem s task_id a :
  shaping_base s →
  a ∈ stale_rows s task_id ↔
  stale_unconsumed s task_id a = true
  ∧ pt_applications s !! sda_shaping_decision_application_id a = Some a.
Proof.
  intros Hb. unfold stale_rows. rewrite elem_of_filter_bool, application_rows_elem by done. tauto.
Qed.

(** Every stale application of the Task is consumed, and only those. *)
Lemma consume_stale_spec s input actions at_ s' :
  shaping_base s → consume_stale_authority s input actions at_ = Ok s' →
  authority_only s s'
  ∧ (∀ id a, pt_applications s !! id = Some a → stale_unconsumed s (sci_task_id input) a = true →
      pt_applications s' !! id = Some (consumed_application at_ a)
      ∧ is_Some (disposition_of input id)
      ∧ request_at s' (sda_user_action_request_id a) BasisSuperseded)
  ∧ (∀ id a, pt_applications s !! id = Some a → stale_unconsumed s (sci_task_id input) a = false →
      pt_applications s' !! id = Some a).
Proof.
  intros Hb H. unfold consume_stale_authority in H. peel H as outcomes Ho. peel H as [] He. peel H as [] Hr.
  peel H as mode Hm. apply consume_rows_spec in H as (Hao & Hin & Hout & _).
  - split_and!; [done| |].
    + intros id a Ha Hst. destruct (sb_application _ Hb _ _ Ha) as [<- _]. apply Hin, stale_rows_elem; done.
    + intros id a Ha Hst. rewrite Hout; [done|]. intros (b & Hid & [Hs Hbl]%stale_rows_elem)%list_elem_of_fmap; [|done].
      rewrite <-Hid in Hbl. simplify_eq. congruence.
  - unfold stale_rows. apply (NoDup_fmap_filter sda_shaping_decision_application_id).
    by apply NoDup_application_rows.
  - by intros a [_ ?]%stale_rows_elem.
Qed.

(** The authority a replacement must carry: all of it, at the successor's coordinates. *)
Lemma carry_forward_spec s input pred refs :
  shaping_base s → validate_carry_forward_applications s input pred refs = Ok tt →
  ∀ id, id ∈ sci_carry_forward_application_ids input ↔
    ∃ a, pt_applications s !! id = Some a ∧ sda_task_id a = sci_task_id input
      ∧ sda_authority_status a = AppCurrent.
Proof.
  intros Hb H id. unfold validate_carry_forward_applications in H. peel H as ids Hi. peel H as [] He.
  peel H as row Hrow. peel H as required Hq%try_map_Ok.
  rewrite ensure_Ok, neqb_false in H.
  assert (required = sda_shaping_decision_application_id <$> current_applications_of s (sci_task_id input)) as ->.
  { clear -Hq. induction Hq as [|a x l k Hx _ IH]; [done|]. cbn. f_equal; [|exact IH].
    unfold carry_forward_row in Hx. peel Hx as owner Ho. rewrite !ensure_bind in Hx.
    by destruct Hx as (_ & _ & [= <-]). }
  rewrite <-elem_of_bts_of_list, H, elem_of_bts_of_list, list_elem_of_fmap.
  unfold current_applications_of. setoid_rewrite sort_by_key_perm.
  setoid_rewrite elem_of_filter_bool. split.
  - intros (a & -> & Ha%application_rows_elem & [Ht Hc]%andb_true_iff); [|done].
    exists a. by split_and!; [|apply eqb_eq..].
  - intros (a & Ha & Ht & Hc). destruct (sb_application _ Hb _ _ Ha) as [<- _]. exists a.
    rewrite application_rows_elem, Ht, Hc, !eqb_refl by done. done.
Qed.

(** What a succession does: nothing for the first checkpoint; for a replacement the
    predecessor is superseded after its stale authority was consumed. *)
Inductive succeeded (s : TaskTables) (input : ShapingCheckpointInsert) (at_ : UtcTimestamp)
    : TaskTables → option string → Prop :=
| succeeded_initial :
    sci_checkpoint_operation input = OpCreateInitial →
    (∀ id c, pt_checkpoints s !! id = Some c → is_current_checkpoint (sci_task_id input) c = false) →
    succeeded s input at_ s None
| succeeded_replaced expected retired carried stale c s1 s2 :
    sci_checkpoint_operation input = OpReplaceCurrent expected retired carried stale →
    pt_checkpoints s !! expected = Some c → is_current_checkpoint (sci_task_id input) c = true →
    (∀ id, id ∈ sci_carry_forward_application_ids input ↔
      ∃ a, pt_applications s !! id = Some a ∧ sda_task_id a = sci_task_id input
        ∧ sda_authority_status a = AppCurrent) →
    authority_only s s1 → pt_applications s1 = pt_applications s →
    retire_checkpoint_user_actions s input c retired = Ok s1 →
    consume_stale_authority s1 input stale at_ = Ok s2 → shaping_base s2 → authority_only s1 s2 →
    succeeded s input at_
      (put_checkpoint s2 expected (superseded_checkpoint (sci_created_at input) c)) (Some expected).

Lemma succession_spec s input at_ s' pred :
  shaping_base s → apply_checkpoint_succession s input at_ = Ok (s', pred) →
  succeeded s input at_ s' pred.
Proof.
  intros Hb H. unfold apply_checkpoint_succession in H. cbv zeta in H. rewrite ensure_bind in H.
  destruct H as [_ H]. pose proof (λ c, current_rows_elem s (sci_task_id input) c Hb) as Hel.
  destruct (sci_checkpoint_operation input) as [|expected retired carried stale] eqn:Hop.
  - rewrite ensure_bind in H. destruct H as [[Hcur%negb_false_iff _]%orb_false_iff [= <- <-]].
    constructor; [done|]. apply list_is_empty_true in Hcur. intros id c Hc. apply not_true_iff_false. intros Hx.
    destruct (sb_key _ Hb _ _ Hc) as [Hid _]. eapply not_elem_of_nil. rewrite <-Hcur.
    apply Hel. by rewrite Hid.
  - destruct (List.filter _ _) as [|c [|]] eqn:E; [done| |done]. rewrite ensure_bind in H.
    destruct H as [Hid H]. rewrite neqb_false in Hid. destruct (proj1 (Hel c)) as [Hc Hcur]; [left|]. rewrite Hid in Hc.
    peel H as [] Hcarry. pose proof (carry_forward_spec _ _ _ _ Hb Hcarry) as Hcf.
    peel H as s1 H1. pose proof (retire_only _ _ _ _ _ H1) as [Ho1 Ha1]. peel H as s2 H2. peel H as s3 ->%supersede_row_Ok. injection H as <- <-.
    assert (shaping_base s1) as Hb1 by (eapply aside_base; [apply Ho1|done]).
    pose proof (consume_stale_spec _ _ _ _ _ Hb1 H2) as (Ho2 & _). rewrite Hid.
    econstructor; eauto. eapply aside_base; [apply Ho2|done].
Qed.

Lemma succeeded_ok s input at_ s' pred :
  shaping_base s → succeeded s input at_ s' pred → shaping_base s' ∧ frame s s'.
Proof.
  intros Hb [Hop Hnone|expected retired carried stale c s1 s2 Hop Hc Hcur Hcf Ho1 Ha1 H1 H2 Hb2 Ho2]; [done|].
  assert (pt_checkpoints s2 !! expected = Some c) as Hc2.
  { by rewrite (aside_checkpoints _ _ (ao_aside _ _ Ho2)), (aside_checkpoints _ _ (ao_aside _ _ Ho1)). }
  destruct (sb_key _ Hb2 _ _ Hc2) as [Hid _]. pose proof Hc2 as Hc3. rewrite <-Hid in Hc3.
  pose proof (superseded_update _ _ (sci_created_at input) Hb2 Hc3) as Hu. rewrite Hid in Hu.
  split; [by eapply update_base|]. etrans; [apply Ho1|]. etrans; [apply Ho2|]. by eapply update_frame.
Qed.

(** The row a recorded checkpoint leaves. *)
Definition recorded_row (s : TaskTables) (input : ShapingCheckpointInsert) (pred : option string)
    (at_ : UtcTimestamp) : ShapingCheckpointRecord :=
  with_gaps ((λ g, gap_row g at_) <$> sci_gaps input) (checkpoint_row (pt_project_id s) input pred).

Definition carried_link (input : ShapingCheckpointInsert) (from application_id : string)
    : CheckpointApplicationLink :=
  {| cal_task_id := sci_task_id input; cal_shaping_checkpoint_id := sci_shaping_checkpoint_id input;
     cal_shaping_decision_application_id := application_id;
     cal_carried_from_checkpoint_id := Some from |}.

Definition carried_links (input : ShapingCheckpointInsert) (pred : option string)
    : list CheckpointApplicationLink :=
  match pred with
  | None => []
  | Some from => carried_link input from <$> sci_carry_forward_application_ids input
  end.

(** A recorded checkpoint: the succession [s1], then the row with its gaps and links. *)
Record recorded (s : TaskTables) (input : ShapingCheckpointInsert) (at_ : UtcTimestamp)
    (s1 : TaskTables) (pred : option string) (s' : TaskTables) : Prop := {
  rec_succeeded : succeeded s input at_ s1 pred;
  rec_validated : validate_checkpoint_insert input = Ok tt;
  rec_fresh : pt_checkpoints s1 !! sci_shaping_checkpoint_id input = None;
  rec_checkpoints : pt_checkpoints s' =
    <[sci_shaping_checkpoint_id input := recorded_row s1 input pred at_]> (pt_checkpoints s1);
  rec_applications : pt_applications s' = pt_applications s1;
  rec_links : pt_checkpoint_applications s' = pt_checkpoint_applications s1 ++ carried_links input pred;
  rec_actions : pt_user_actions s' = pt_user_actions s1;
  rec_lineage : ∀ d, d ∈ sci_stale_authority_dispositions input →
    pt_reauthorizations s' !! shaping_authority_reauthorization_id (sad_stale_application_id d)
      = Some (reauthorization_row s1 (sci_task_id input) (sci_shaping_checkpoint_id input) d at_);
  rec_attached : detached_authority s' (sci_task_id input) (Some (sci_shaping_checkpoint_id input)) = false;
}.

Lemma record_spec s input at_ s' :
  shaping_base s → record_shaping_checkpoint s input at_ = Ok s' →
  shaping_base s' ∧ frame s s' ∧ ∃ s1 pred, recorded s input at_ s1 pred s'.
Proof.
  intros Hb H. unfold record_shaping_checkpoint in H. cbv zeta in H. peel H as [] Hv. peel H as [] Hfit.
  peel H as [] Hrev. peel H as [s1 pred] Hs. apply succession_spec in Hs; [|done].
  pose proof (succeeded_ok _ _ _ _ _ Hb Hs) as [Hb1 Hf1]. peel H as s2 H2.
  apply insert_checkpoint_Ok in H2 as (Hfresh & Hone & ->). peel H as s3 H3.
  set (row := checkpoint_row (pt_project_id s1) input pred) in *. set (id := sci_shaping_checkpoint_id input) in *.
  assert (shaping_base (put_checkpoint s1 id row)) as Hb2.
  { apply new_checkpoint_base; try done. by eapply (validated_ready input). }
  apply (insert_gaps_spec _ _ _ _ _ _ row) in H3 as (Hb3 & Hf3 & E3); [|done|by cbn; rewrite lookup_insert_eq].
  peel H as s4 H4. apply insert_reauthorizations_spec in H4 as (Has4 & Hf4 & Ha4 & Hl4 & Hu4 & Hr4).
  peel H as s5 H5. unfold reject_detached_live_shaping_authority in H. rewrite ensure_bind in H.
  destruct H as [Hdet [= <-]]. rewrite put_checkpoint_twice in E3.
  assert (aside s4 s5 ∧ frame s4 s5 ∧ pt_applications s5 = pt_applications s4
    ∧ pt_checkpoint_applications s5 = pt_checkpoint_applications s4 ++ carried_links input pred
    ∧ pt_user_actions s5 = pt_user_actions s4) as (Has5 & Hf5 & Ha5 & Hl5 & Hu5).
  { destruct pred as [from|]; [by apply (insert_links_spec (carried_link input from)) in H5|].
    injection H5 as <-. by rewrite app_nil_r. }
  split_and!.
  - eapply aside_base; [exact Has5|]. by eapply aside_base.
  - etrans; [exact Hf1|]. etrans; [by apply (new_checkpoint_frame s1 id row)|]. by repeat (etrans; [eassumption|]).
  - exists s1, pred. constructor; [done..| | | | | |done].
    + rewrite (aside_checkpoints _ _ Has5), (aside_checkpoints _ _ Has4), E3. done.
    + by rewrite Ha5, Ha4, E3.
    + by rewrite Hl5, Hl4, E3.
    + by rewrite Hu5, Hu4, E3.
    + intros d Hd. pose proof (Hr4 _ Hd) as Hrow. rewrite E3 in Hrow.
      destruct (step_reauthorizations _ _ (aside_step _ _ Has5) _ _ Hrow) as (r & Hr & <-). exact Hr.
Qed.

Lemma recorded_current s1 input pred at_ :
  validate_checkpoint_insert input = Ok tt →
  is_current_checkpoint (sci_task_id input) (recorded_row s1 input pred at_) = true.
Proof.
  intros Hv. destruct (validated_ready _ (pt_project_id s1) pred Hv) as [Hs _].
  unfold is_current_checkpoint. cbn. rewrite eqb_refl. cbn. by apply negb_true_iff, eqb_false.
Qed.

Lemma is_current_task task_id c : is_current_checkpoint task_id c = true → sc_task_id c = task_id.
Proof. by intros [?%eqb_eq _]%andb_true_iff. Qed.

(** The authority attached to another Task survives a succession. *)
Lemma succeeded_others s input at_ s1 pred cid c :
  succeeded s input at_ s1 pred → pt_checkpoints s !! cid = Some c →
  sc_task_id c ≠ sci_task_id input → pt_checkpoints s1 !! cid = Some c.
Proof.
  intros [Hop Hnone|expected retired carried stale d s2 s3 Hop Hd Hcur Hcf Ho1 Ha1 H1 H2 Hb2 Ho2] Hc Ht; [done|].
  cbn. rewrite lookup_insert_ne.
  - by rewrite (aside_checkpoints _ _ (ao_aside _ _ Ho2)), (aside_checkpoints _ _ (ao_aside _ _ Ho1)).
  - intros <-. simplify_eq. by apply is_current_task in Hcur.
Qed.

(** Current applications survive it unchanged, and no other becomes current. *)
Lemma succeeded_current s input at_ s1 pred id a :
  succeeded s input at_ s1 pred → sda_authority_status a = AppCurrent →
  pt_applications s1 !! id = Some a ↔ pt_applications s !! id = Some a.
Proof.
  intros Hs Hc. destruct Hs as [Hop Hnone|expected retired carried stale d s2 s3 Hop Hd Hcur Hcf Ho1 Ha1 H1 H2 Hb2 Ho2]; [done|].
  cbn. split.
  - intros Ha. destruct (aside_applications _ _ (ao_aside _ _ Ho2) _ _ Ha) as (b & Hb & Hk).
    pose proof (kept_current _ _ Hk Hc) as ->. by rewrite Ha1 in Hb.
  - intros Ha. apply (ao_current _ _ Ho2); [|done]. by rewrite Ha1.
Qed.

Lemma recorded_attached s input at_ s1 pred s' :
  shaping_base s → attached s → recorded s input at_ s1 pred s' → attached s'.
Proof.
  intros Hb Hat [Hs Hv Hfresh Hck Happ Hlk Hua _ _] id a Ha Hc. rewrite Happ in Ha.
  apply (succeeded_current _ _ _ _ _ _ _ Hs Hc) in Ha.
  destruct (Hat _ _ Ha Hc) as (cid & c & Hcl & Hcur & Hl).
  assert (∀ cid' id', linked s1 cid' id' → linked s' cid' id') as Hgrow.
  { intros cid' id' (l & Hin & ?). exists l. rewrite Hlk. split; [set_solver|done]. }
  assert (linked s1 cid id) as Hl1.
  { destruct (succeeded_ok _ _ _ _ _ Hb Hs) as [_ [_ Hst]]. by eapply linked_step. }
  destruct (decide (sda_task_id a = sci_task_id input)) as [Ht|Ht].
  - exists (sci_shaping_checkpoint_id input), (recorded_row s1 input pred at_).
    rewrite Hck, lookup_insert_eq, Ht. split_and!; [done|by apply recorded_current|].
    destruct Hs as [Hop Hnone|expected retired carried stale d s2 s3 Hop Hd Hdc Hcf Ho1 Ha1 H1 H2 Hb2 Ho2].
    { by rewrite Ht, (Hnone _ _ Hcl) in Hcur. }
    exists (carried_link input expected id). split; [|done]. rewrite Hlk. apply elem_of_app. right.
    cbn. apply list_elem_of_fmap_2, Hcf. eauto.
  - exists cid, c. split_and!; [|done|by apply Hgrow]. rewrite Hck, lookup_insert_ne.
    + eapply succeeded_others; [done..|]. apply is_current_task in Hcur. congruence.
    + intros He. assert (pt_checkpoints s1 !! cid = Some c) as Hx.
      { eapply succeeded_others; [done..|]. apply is_current_task in Hcur. congruence. }
      by rewrite <-He, Hfresh in Hx.
Qed.

Lemma record_ok s input at_ s' :
  shaping_ok s → record_shaping_checkpoint s input at_ = Ok s' → shaping_ok s' ∧ frame s s'.
Proof.
  intros [Hb Hat] H. apply record_spec in H as (Hb' & Hf & s1 & pred & Hr); [|done].
  split; [|done]. constructor; [done|]. exact (recorded_attached _ _ _ _ _ _ Hb Hat Hr).
Qed.

(** *** Superseding without a successor *)

Lemma supersede_current_ok s task_id at_ s' :
  shaping_ok s → tables_base s → supersede_current_shaping_checkpoint s task_id at_ = Ok s' →
  shaping_ok s' ∧ frame s s'.
Proof.
  intros [Hb Hat] Ht H. unfold supersede_current_shaping_checkpoint in H. peel H as s1 H1.
  pose proof (invalidate_rows_aside _ _ _ _ _ H1) as Ha. pose proof (invalidate_rows_frame _ _ _ _ _ H1) as Hf.
  apply (supersede_applications_ended _ _ _ _ Ht) in H1 as [Hnone _ _ _].
  pose proof (aside_base _ _ Ha Hb) as Hb1. pose proof (aside_attached _ _ Ha Hat) as Hat1.
  destruct (current_rows_one s1 task_id Hb1) as [E|[c E]]; rewrite E in H; cbn in H; [by injection H as <-|].
  peel H as s2 ->%supersede_row_Ok. injection H as <-.
  destruct (proj1 (current_rows_elem s1 task_id c Hb1)) as [Hc Hcur]; [rewrite E; left|].
  pose proof (superseded_update _ _ at_ Hb1 Hc) as Hu.
  split; [|etrans; [exact Hf|by eapply update_frame]]. constructor; [by eapply update_base|].
  intros id a Hal Hst. cbn in Hal. destruct (Hat1 _ _ Hal Hst) as (cid & d & Hd & Hdc & Hl).
  exists cid, d. cbn. rewrite lookup_insert_ne; [done|]. intros <-. simplify_eq.
  apply is_current_task in Hcur, Hdc. apply (Hnone _ _ Hal); congruence.
Qed.

(** *** Resolving a gap *)

Lemma unresolved_link_Some s request_id c g :
  shaping_base s → unresolved_link s request_id = Some (c, g) →
  pt_checkpoints s !! sc_shaping_checkpoint_id c = Some c ∧ g ∈ sc_gaps c
  ∧ gap_request_id g = Some request_id ∧ gap_resolution_id g = None.
Proof.
  intros Hb [Hin [Hr Hn]%andb_true_iff]%List.find_some.
  apply list_elem_of_In, gap_rows_elem in Hin as [[id Hid] Hg]. cbn in *.
  destruct (sb_key _ Hb _ _ Hid) as [-> _]. apply eqb_eq in Hr.
  split_and!; [done..|]. by destruct (gap_resolution_id g).
Qed.

Lemma open_gap_elem c g : g ∈ sc_gaps c → sg_status g = GapCurrent → has_open_gap c = true.
Proof. intros Hg Hs. apply existsb_elem. exists g. split; [done|]. by rewrite Hs, eqb_refl. Qed.

Lemma settle_kept c : checkpoint_kept c (settle_readiness c) ∧ sc_gaps (settle_readiness c) = sc_gaps c
  ∧ (sc_readiness c ≠ CheckpointSuperseded → sc_readiness (settle_readiness c) ≠ CheckpointSuperseded)
  ∧ (sc_readiness c ≠ CheckpointReady → ready_ok (settle_readiness c)).
Proof.
  unfold settle_readiness. destruct (_ && _) eqn:E; [|by split_and!].
  apply andb_true_iff in E as [[[Hb%eqb_eq Hbl]%andb_true_iff Hi]%andb_true_iff Hg%negb_true_iff].
  split_and!; [|done|done|].
  - constructor; [done..| |]; cbn; [by rewrite Hb|]. exists (sc_gaps c), []. split; [by rewrite app_nil_r|reflexivity].
  - intros _ _. cbn. destruct (sc_baseline_ref c), (sc_implementation_boundary c); naive_solver.
Qed.

Lemma resolve_update s c g disposition link :
  shaping_base s → pt_checkpoints s !! sc_shaping_checkpoint_id c = Some c → g ∈ sc_gaps c →
  sg_status g = GapCurrent → gap_resolution_id g = None →
  scu_user_action_request_id <$> link = gap_request_id g →
  gap_settled s (with_gap_status disposition link g) →
  checkpoint_update s (sc_shaping_checkpoint_id c) c
    (settle_readiness (update_gap (sg_shaping_gap_id g) (with_gap_status disposition link) c)).
Proof.
  intros Hb Hc Hg Hst Hres Hreq Hset. destruct (sb_key _ Hb _ _ Hc) as [_ Hnd].
  set (u := update_gap _ _ c). destruct (settle_kept u) as (Hk & Hgaps & _ & Hr).
  assert (checkpoint_kept c u ∧ Forall2 gap_kept (sc_gaps c) (sc_gaps u)) as [Hu HF].
  { apply update_gap_kept. intros h Hh Hid. assert (h = g) as -> by by eapply (NoDup_fmap_inj_elem sg_shaping_gap_id).
    constructor; [done|done|by rewrite Hres|]. rewrite Hst. right. by left. }
  apply moved_update; [done|done|by etrans|by rewrite Hgaps| |].
  - apply Hr. cbn. intros Hx. destruct (sb_ready _ Hb _ _ Hc Hx) as (_ & _ & Hop).
    by rewrite (open_gap_elem _ _ Hg Hst) in Hop.
  - rewrite Hgaps. cbn. intros h' (h & -> & Hh)%list_elem_of_fmap.
    destruct (sg_shaping_gap_id h =? _) eqn:E; [|by apply (sb_settled _ Hb _ _ _ Hc)].
    apply eqb_eq in E. by assert (h = g) as -> by by eapply (NoDup_fmap_inj_elem sg_shaping_gap_id).
Qed.

Lemma resolve_gap_ok s request_id resolution_id disposition at_ s' :
  shaping_ok s → resolve_shaping_gap s request_id resolution_id disposition at_ = Ok s' →
  shaping_ok s' ∧ frame s s'.
Proof.
  intros [Hb Hat] H. unfold resolve_shaping_gap in H. do 3 (peel H as [] ?).
  peel H as q Hq. peel H as expected He. peel H as [] Hdisp.
  destruct (unresolved_link s request_id) as [[c g]|] eqn:Hl; [|by injection H as <-].
  apply unresolved_link_Some in Hl as (Hc & Hg & Hr & Hn); [|done]. rewrite !ensure_bind in H.
  destruct H as (_ & Hst & [= <-]). rewrite neqb_false in Hst.
  eapply (resolve_update _ _ _ disposition (resolved_link resolution_id at_ <$> sg_user_action g)) in Hst; [|done..| |].
  - split; [constructor; [by eapply update_base|]|by eapply update_frame].
    eapply update_attached; [done| |done]. intros Hs. by apply settle_kept.
  - unfold gap_request_id in *. by destruct (sg_user_action g).
  - apply ok_or_Ok, option_filter_Some in Hq as [Hq Hqr%eqb_eq].
    apply ok_or_Ok, List.find_some in He as [_ He]. rewrite ensure_Ok, neqb_false in Hdisp. subst expected.
    unfold gap_request_id in Hr. destruct (sg_user_action g) as [link|] eqn:Hlink; [|done]. injection Hr as Hr.
    unfold gap_settled, gap_request_id, gap_resolution_id. cbn.
    destruct disposition; [done|..]; exists request_id, resolution_id, q; cbn; by rewrite Hr.
Qed.

(** *** Applying a decision *)

Lemma add_application_base s id a :
  shaping_base s → pt_applications s !! id = None → sda_shaping_decision_application_id a = id →
  application_rests s a →
  shaping_base (set_authority s (<[id := a]> (pt_applications s)) (pt_user_actions s)).
Proof.
  intros [] Hn Hid Hr. constructor; cbn; [done..|].
  assert (∀ b, application_rests s b →
    application_rests (set_authority s (<[id := a]> (pt_applications s)) (pt_user_actions s)) b) as Hsame
    by (by intros b []; constructor).
  intros id' b [[<- <-]|[_ Hb]]%lookup_insert_Some; [auto|].
  destruct (sb_application0 _ _ Hb). auto.
Qed.

Lemma add_application_attached s id a cid c :
  attached s → pt_checkpoints s !! cid = Some c → is_current_checkpoint (sda_task_id a) c = true →
  linked s cid id →
  attached (set_authority s (<[id := a]> (pt_applications s)) (pt_user_actions s)).
Proof.
  intros Hat Hc Hcur Hl id' b Hb Hs. cbn in Hb. apply lookup_insert_Some in Hb as [[<- <-]|[_ Hb]].
  - exists cid, c. by split_and!.
  - by apply Hat.
Qed.

Lemma add_application_framed s id a :
  pt_applications s !! id = None → sda_shaping_decision_application_id a = id →
  is_Some (pt_tasks s !! sda_task_id a) →
  frame s (set_authority s (<[id := a]> (pt_applications s)) (pt_user_actions s)).
Proof.
  intros Hn Hid Ht. split.
  - apply framed_authority.
    + apply rows_kept_insert; [apply _|]. congruence.
    + intros id' b [[<- <-]|[_ Hb]]%lookup_insert_Some; [by right|]. left. exists b. by split.
  - constructor; cbn; [apply rows_kept_refl, _|exists []; by rewrite app_nil_r|apply rows_kept_refl, _..].
Qed.

(** What one accepted selection requires, and the rows it writes. *)
Record selected (s : TaskTables) (tid cid : string) (mode : TaskMode)
    (owner : ShapingDecisionApplicationOwner) (basis : ShapingApplicationBasis) (at_ : UtcTimestamp)
    (application : ShapingGapApplication) (c : ShapingCheckpointRecord)
    (g : ShapingCheckpointGapRecord) (a : ShapingDecisionApplicationRecord) : Prop := {
  sel_checkpoint : pt_checkpoints s !! cid = Some c ∧ sc_task_id c = tid;
  sel_gap : gap_of c (sga_shaping_gap_id application) = Some g ∧ sg_status g = GapAccepted
    ∧ gap_resolution_id g = Some (sga_user_action_resolution_id application)
    ∧ gap_judgment_kind (sg_gap_kind g) = Some (sda_judgment_kind a)
    ∧ gap_request_id g = Some (sda_user_action_request_id a);
  sel_row : ∃ request_id kind baseline_ref, sab_baseline_ref basis = Some baseline_ref
    ∧ a = application_row s tid cid request_id kind owner basis baseline_ref at_ application;
  sel_identity : sda_shaping_decision_application_id a
    = shaping_decision_application_id (sga_user_action_resolution_id application) owner;
  sel_fresh : pt_applications s !! sda_shaping_decision_application_id a = None;
  sel_answer : ∃ q, ut_resolutions (pt_user_actions s) !! sda_user_action_resolution_id a = Some q
    ∧ us_user_action_request_id q = sda_user_action_request_id a
    ∧ judgment_kind (us_action_kind q) = Some (sda_judgment_kind a)
    ∧ body_settles GapAccepted (us_resolution q) = true;
  sel_owner : policy_owner (sda_judgment_kind a) mode = Some owner;
  sel_task : is_Some (pt_tasks s !! tid);
}.

(** The state after it. *)
Definition selected_state (s : TaskTables) (tid cid : string) (c : ShapingCheckpointRecord)
    (g : ShapingCheckpointGapRecord) (a : ShapingDecisionApplicationRecord) : TaskTables :=
  let id := sda_shaping_decision_application_id a in
  let s := put_checkpoint s cid
             (update_gap (sg_shaping_gap_id g) (λ g, with_gap_status GapApplied (sg_user_action g) g) c) in
  let s := set_lineage s (pt_checkpoint_applications s
             ++ [{| cal_task_id := tid; cal_shaping_checkpoint_id := cid;
                    cal_shaping_decision_application_id := id;
                    cal_carried_from_checkpoint_id := None |}]) (pt_reauthorizations s) in
  set_authority s (<[id := a]> (pt_applications s)) (pt_user_actions s).

Lemma insert_application_Ok s mode basis g a s' :
  insert_application s mode basis g a = Ok s' →
  pt_applications s !! sda_shaping_decision_application_id a = None
  ∧ (∃ q, ut_resolutions (pt_user_actions s) !! sda_user_action_resolution_id a = Some q
      ∧ us_user_action_request_id q = sda_user_action_request_id a
      ∧ judgment_kind (us_action_kind q) = Some (sda_judgment_kind a)
      ∧ body_settles GapAccepted (us_resolution q) = true)
  ∧ policy_owner (sda_judgment_kind a) mode = Some (sda_application_owner a)
  ∧ is_Some (pt_tasks s !! sda_task_id a)
  ∧ s' = set_authority s (<[sda_shaping_decision_application_id a := a]> (pt_applications s))
           (pt_user_actions s).
Proof.
  unfold insert_application. cbv zeta. rewrite !ensure_bind. intros ([Hn _]%orb_false_iff & _ & Ht & [= <-]).
  rewrite !orb_false_iff in Ht. destruct Ht as (((((Hq & _) & _) & _) & Hb) & Ho).
  rewrite neqb_false in Ho. apply negb_false_iff, is_some_and_true in Hq as (q & Hq & Hqs).
  apply andb_true_iff in Hqs as [[Hq1%eqb_eq Hq2%eqb_eq]%andb_true_iff Hq3].
  apply negb_false_iff, is_some_and_true in Hb as (row & Hrow & _).
  split_and!; [by destruct (pt_applications s !! _)|eauto 6|done|rewrite Hrow; eauto|done].
Qed.

Lemma apply_selected_Ok tid cid mode owner basis at_ s application s' :
  apply_selected_gap tid cid mode owner basis at_ s application = Ok s' →
  ∃ c g a, selected s tid cid mode owner basis at_ application c g a
    ∧ s' = selected_state s tid cid c g a.
Proof.
  unfold apply_selected_gap. cbv zeta. intros H. peel H as [[[c g] rid] r] Hx%ok_or_Ok.
  apply bind_Some in Hx as (c0 & [Hc Ht%eqb_eq]%option_filter_Some & Hx).
  apply bind_Some in Hx as (g0 & Hg & Hx). apply bind_Some in Hx as (rid0 & Hrid & Hx).
  apply bind_Some in Hx as (r0 & Hr & [= -> -> -> ->]).
  peel H as policy Hp. rewrite ensure_bind, !orb_false_iff, !neqb_false in H.
  destruct H as (((((Hown & Hst) & Hres) & _) & _) & H). peel H as kind Hk%ok_or_Ok.
  peel H as bl Hbl%ok_or_Ok. rewrite !ensure_bind, neqb_false in H. destruct H as (Hid & _ & H).
  peel H as s1 H1. apply insert_application_Ok in H1 as (Hn & Hq & Ho & Htask & ->).
  peel H as s2 [_ ->]%insert_link_Ok. injection H as <-.
  exists c, g, (application_row s tid cid rid kind owner basis bl at_ application).
  apply gap_of_Some in Hg as Hgs. destruct Hgs as [_ Hgid]. split.
  - constructor; cbn; [done|by split_and!|by exists rid, kind, bl|done|done|done|done|done].
  - unfold selected_state. cbn. by rewrite Hgid.
Qed.

(** The checkpoint row with the selected gap applied. *)
Definition applied_checkpoint (g : ShapingCheckpointGapRecord) (c : ShapingCheckpointRecord)
    : ShapingCheckpointRecord :=
  update_gap (sg_shaping_gap_id g) (λ g, with_gap_status GapApplied (sg_user_action g) g) c.

Lemma has_open_gap_update id f c :
  (∀ g, sg_status (f g) ≠ GapCurrent) → has_open_gap c = false → has_open_gap (update_gap id f c) = false.
Proof.
  intros Hf. unfold has_open_gap. rewrite !existsb_false. cbn.
  intros H g' (g & -> & Hg)%list_elem_of_fmap. destruct (sg_shaping_gap_id g =? id); [|by apply H].
  by apply eqb_false.
Qed.

Lemma selected_update s tid cid mode owner basis at_ application c g a :
  shaping_base s → selected s tid cid mode owner basis at_ application c g a →
  checkpoint_update s cid c (applied_checkpoint g c)
  ∧ gap_of (applied_checkpoint g c) (sga_shaping_gap_id application)
      = Some (with_gap_status GapApplied (sg_user_action g) g).
Proof.
  intros Hb [[Hc Ht] (Hg & Hst & Hres & Hk & Hrq) _ _ _ _ _ _].
  destruct (sb_key _ Hb _ _ Hc) as [_ Hnd]. apply gap_of_Some in Hg as [Hin Hid].
  assert (checkpoint_kept c (applied_checkpoint g c)
    ∧ Forall2 gap_kept (sc_gaps c) (sc_gaps (applied_checkpoint g c))) as [Hkept HF].
  { apply update_gap_kept. intros h Hh He. assert (h = g) as -> by by eapply (NoDup_fmap_inj_elem sg_shaping_gap_id).
    constructor; [done|done|done|]. rewrite Hst. right. by right. }
  split.
  - apply moved_update; [done..| |].
    + intros Hr. destruct (sb_ready _ Hb _ _ Hc Hr) as (? & ? & ?).
      split_and!; [done|done|]. by apply has_open_gap_update.
    + cbn. intros h' (h & -> & Hh)%list_elem_of_fmap. pose proof (sb_settled _ Hb _ _ _ Hc Hh) as Hset.
      destruct (sg_shaping_gap_id h =? _) eqn:E; [|done]. apply eqb_eq in E.
      assert (h = g) as -> by by eapply (NoDup_fmap_inj_elem sg_shaping_gap_id).
      unfold gap_settled in *. rewrite Hst in Hset. exact Hset.
  - rewrite <-Hid. change (sg_shaping_gap_id g) with
      (sg_shaping_gap_id (with_gap_status GapApplied (sg_user_action g) g)).
    apply gap_of_elem; [by rewrite (kept_gap_ids _ _ HF)|]. cbn. apply list_elem_of_fmap. exists g.
    by rewrite eqb_refl.
Qed.

Lemma selected_rests s tid cid mode owner basis at_ application c g a row :
  shaping_base s → selected s tid cid mode owner basis at_ application c g a →
  pt_tasks s !! tid = Some row → mode = tk_mode (tr_task row) →
  application_rests (put_checkpoint s cid (applied_checkpoint g c)) a.
Proof.
  intros Hb Hs Hrow Hm. pose proof (selected_update _ _ _ _ _ _ _ _ _ _ _ Hb Hs) as [Hu Hgap].
  destruct Hs as [[Hc Ht] (Hg & Hst & Hres & Hk & Hrq) (rid & kind & bl & Hbl & ->) Hid Hn (q & Hq & Hqr & Hqk & Hqs) Ho _].
  destruct (sb_resolution _ Hb _ _ Hq). cbn in *. constructor; cbn; [| | |done].
  - exists (applied_checkpoint g c). eexists. rewrite lookup_insert_eq. by split_and!.
  - by exists q.
  - exists row. by rewrite <-Hm.
Qed.

Lemma selected_ok s tid cid mode owner basis at_ application c g a row :
  shaping_ok s → selected s tid cid mode owner basis at_ application c g a →
  is_current_checkpoint tid c = true → pt_tasks s !! tid = Some row → mode = tk_mode (tr_task row) →
  shaping_ok (selected_state s tid cid c g a) ∧ frame s (selected_state s tid cid c g a).
Proof.
  intros [Hb Hat] Hs Hcur Hrow Hm. pose proof (selected_update _ _ _ _ _ _ _ _ _ _ _ Hb Hs) as [Hu _].
  pose proof (selected_rests _ _ _ _ _ _ _ _ _ _ _ _ Hb Hs Hrow Hm) as Hr.
  set (s1 := put_checkpoint s cid (applied_checkpoint g c)) in *.
  set (link := {| cal_task_id := tid; cal_shaping_checkpoint_id := cid;
                  cal_shaping_decision_application_id := sda_shaping_decision_application_id a;
                  cal_carried_from_checkpoint_id := None |}).
  pose proof (lineage_aside s1 [link] _ (rows_kept_refl _ _)) as Has.
  set (s2 := set_lineage s1 _ _) in Has.
  change (selected_state s tid cid c g a) with
    (set_authority s2 (<[sda_shaping_decision_application_id a := a]> (pt_applications s2)) (pt_user_actions s2)).
  assert (shaping_base s1) as Hb1 by by eapply update_base.
  assert (attached s1) as Hat1 by by eapply update_attached.
  assert (sda_task_id a = tid) as Hta by by destruct (sel_row _ _ _ _ _ _ _ _ _ _ _ Hs) as (? & ? & ? & _ & ->).
  assert (is_current_checkpoint tid (applied_checkpoint g c) = true) as Hcur1 by exact Hcur.
  assert (frame s1 s2) as Hf2 by (split; [by apply same_tables_framed|apply Has]).
  split; [constructor|].
  - apply add_application_base; [by eapply aside_base|apply Hs|done|].
    eapply rests_kept; [apply Has|apply Has|apply Has|reflexivity|exact Hr].
  - eapply add_application_attached; [by eapply aside_attached| | |].
    + cbn. by rewrite lookup_insert_eq.
    + by rewrite Hta.
    + exists link. split; [cbn; set_solver|done].
  - etrans; [by eapply update_frame|]. etrans; [exact Hf2|].
    apply add_application_framed; [apply Hs|done|]. rewrite Hta. apply Hs.
Qed.

(** An application recorded at a basis. *)
Definition applied_under (s : TaskTables) (tid cid : string) (owner : ShapingDecisionApplicationOwner)
    (basis : ShapingApplicationBasis) (at_ : UtcTimestamp) (application : ShapingGapApplication) : Prop :=
  ∃ a, pt_applications s !! sga_shaping_decision_application_id application = Some a
    ∧ sda_task_id a = tid ∧ sda_source_checkpoint_id a = cid
    ∧ sda_source_gap_id a = sga_shaping_gap_id application
    ∧ sda_user_action_resolution_id a = sga_user_action_resolution_id application
    ∧ sda_application_owner a = owner ∧ sda_applied_scope_revision a = sab_scope_revision basis
    ∧ Some (sda_applied_baseline_ref a) = sab_baseline_ref basis
    ∧ sda_applied_change_unit_id a = sab_change_unit_id basis ∧ sda_applied_at a = at_
    ∧ sda_authority_status a = AppCurrent.

Record selections (s : TaskTables) (tid cid : string) (owner : ShapingDecisionApplicationOwner)
    (basis : ShapingApplicationBasis) (at_ : UtcTimestamp) (applications : list ShapingGapApplication)
    (c : ShapingCheckpointRecord) (s' : TaskTables) : Prop := {
  sels_ok : shaping_ok s';
  sels_frame : frame s s';
  sels_tasks : pt_tasks s' = pt_tasks s;
  sels_checkpoint : ∃ gs, pt_checkpoints s' !! cid = Some (with_gaps gs c);
  sels_old : ∀ id a, pt_applications s !! id = Some a → pt_applications s' !! id = Some a;
  sels_applied : ∀ x, x ∈ applications → applied_under s' tid cid owner basis at_ x;
}.

Lemma selected_loop_ok tid cid mode owner basis at_ applications gs rs s s' c row :
  shaping_ok s → pt_checkpoints s !! cid = Some c → is_current_checkpoint tid c = true →
  pt_tasks s !! tid = Some row → mode = tk_mode (tr_task row) →
  apply_selected_loop tid cid mode owner basis at_ gs rs s applications = Ok s' →
  selections s tid cid owner basis at_ applications c s'.
Proof.
  revert gs rs s c. induction applications as [|x rest IH]; intros gs rs s c Hok Hc Hcur Hrow Hm; cbn.
  { intros [= <-]. constructor; [done..| |done|by intros x Hx%elem_of_nil].
    exists (sc_gaps c). rewrite Hc. by destruct c. }
  intros H. do 3 (peel H as [] ?). peel H as s1 (c0 & g & a & Hs & ->)%apply_selected_Ok.
  destruct (sel_checkpoint _ _ _ _ _ _ _ _ _ _ _ Hs) as [Hc0 _]. rewrite Hc in Hc0. injection Hc0 as <-.
  pose proof (selected_ok _ _ _ _ _ _ _ _ _ _ _ _ Hok Hs Hcur Hrow Hm) as [Hok1 Hf1].
  pose proof (sel_fresh _ _ _ _ _ _ _ _ _ _ _ Hs) as Hfresh.
  apply (IH _ _ _ (applied_checkpoint g c)) in H as [? ? Ht2 [gs2 Hc2] Hold2 Happ2]; [|done| |done|done|done].
  - constructor; [done|by etrans|done|by exists gs2| |].
    + intros id b Hb. apply Hold2. cbn. rewrite lookup_insert_ne; [done|]. intros <-. congruence.
    + intros y [->|Hy]%elem_of_cons; [|by apply Happ2]. exists a.
      destruct (sel_row _ _ _ _ _ _ _ _ _ _ _ Hs) as (rid & kind & bl & -> & ->). split_and!; try done.
      apply Hold2. cbn. by rewrite lookup_insert_eq.
  - cbn. by rewrite lookup_insert_eq.
Qed.

Lemma apply_selected_gaps_ok s tid cid owner basis applications at_ s' c :
  shaping_ok s → pt_checkpoints s !! cid = Some c → is_current_checkpoint tid c = true →
  apply_selected_gaps s tid cid owner basis applications at_ = Ok s' →
  selections s tid cid owner basis at_ applications c s'.
Proof.
  intros Hok Hc Hcur H. unfold apply_selected_gaps, shaping_task_mode in H. peel H as mode Hm.
  peel Hm as row Hrow%ok_or_Ok. injection Hm as Hm. by eapply selected_loop_ok.
Qed.

Lemma require_exact_Ok s tid cid :
  require_exact_current_checkpoint s tid cid = Ok tt ↔
  ∃ c, pt_checkpoints s !! cid = Some c ∧ is_current_checkpoint tid c = true.
Proof.
  unfold require_exact_current_checkpoint. by rewrite ensure_Ok, negb_false_iff, is_some_and_true.
Qed.

(** *** Rebasing and leaving shaping *)

Lemma rebase_ok s tid cid rev bl cu applications at_ s' :
  shaping_ok s →
  apply_scope_and_rebase_current_shaping_checkpoint s tid cid rev bl cu applications at_ = Ok s' →
  shaping_ok s' ∧ frame s s'.
Proof.
  intros Hok H. unfold apply_scope_and_rebase_current_shaping_checkpoint in H. do 3 (peel H as [] _).
  peel H as [] Hex. apply require_exact_Ok in Hex as (c & Hc & Hcur). peel H as [] _. peel H as s1 H1.
  pose proof (invalidate_rows_aside _ _ _ _ _ H1) as Has. pose proof (invalidate_rows_frame _ _ _ _ _ H1) as Hf1.
  peel H as s2 H2. eapply apply_selected_gaps_ok in H2 as [Hok2 Hf2 _ _ _ _];
    [|by eapply aside_ok|by rewrite (aside_checkpoints _ _ Has)|done].
  peel H as [] ?. peel H as c2 [Hc2 Hcur2]%ok_or_Ok%option_filter_Some. cbv zeta in H. rewrite ensure_bind in H.
  destruct H as [Hrd [= <-]]. set (readiness := rebased_readiness bl c2) in *.
  assert (sc_readiness c2 ≠ CheckpointSuperseded) as Hns.
  { apply andb_true_iff in Hcur2 as [_ Hn]. by apply eqb_false, negb_true_iff. }
  assert (readiness ≠ CheckpointSuperseded) as Hns'.
  { unfold readiness, rebased_readiness. by case_match. }
  assert (checkpoint_update s2 cid c2
    (with_readiness rev bl readiness (sc_superseded_at c2) c2)) as Hu.
  { apply moved_update; [apply Hok2|done| |reflexivity| |intros g; by apply (sb_settled _ (sok_base _ Hok2) _ _ _ Hc2)].
    - constructor; [done..|]. exists (sc_gaps c2), []. split; [by rewrite app_nil_r|reflexivity].
    - intros Hr. cbn in Hr. rewrite Hr, eqb_refl in Hrd. apply orb_false_iff in Hrd as [Hop Hbl].
      split_and!; cbn; [by destruct bl| |done]. unfold readiness, rebased_readiness in Hr.
      destruct (_ && _) eqn:E; [|by apply (sb_ready _ (sok_base _ Hok2) _ _ Hc2)].
      apply andb_true_iff in E as [[_ Hi]%andb_true_iff _]. by destruct (sc_implementation_boundary c2). }
  split; [|etrans; [exact Hf1|]; etrans; [exact Hf2|]; by eapply update_frame].
  constructor; [eapply update_base; [done|apply Hok2]|eapply update_attached; [done|done|apply Hok2]].
Qed.

Lemma advance_row_framed s tid row :
  pt_tasks s !! tid = Some row →
  let s' := set_tasks s (<[tid := with_task (with_scope_columns (Some Implementation)
                                    (Some PExecuting) None None) row]> (pt_tasks s)) in
  aside s s' ∧ frame s s'.
Proof.
  intros Hrow s'. assert (aside s s') as Ha.
  { apply tasks_aside, rows_kept_insert; [apply _|]. intros x Hx. simplify_eq. by constructor. }
  split; [done|]. split; [|apply Ha]. eapply framed_insert_row; [done|framed].
Qed.

Lemma advance_ok s input at_ s' :
  shaping_ok s → apply_advance_shaping_and_transition s input at_ = Ok s' → shaping_ok s' ∧ frame s s'.
Proof.
  intros Hok H. unfold apply_advance_shaping_and_transition in H. cbv zeta in H. peel H as [] ?.
  peel H as [] Hex. apply require_exact_Ok in Hex as (c & Hc & Hcur). do 3 (peel H as [] _).
  peel H as s2 H2. eapply apply_selected_gaps_ok in H2 as [Hok2 Hf2 _ _ _ _]; [|done..].
  peel H as [] ?. peel H as row [Hrow _]%ok_or_Ok%option_filter_Some. injection H as <-.
  destruct (advance_row_framed _ _ _ Hrow) as [Ha Hf]. split; [by eapply aside_ok|by etrans].
Qed.

Lemma advisor_finalization_ok s input at_ s' :
  shaping_ok s → apply_advisor_shaping_finalization s input at_ = Ok s' → shaping_ok s' ∧ frame s s'.
Proof.
  intros Hok H. unfold apply_advisor_shaping_finalization in H. cbv zeta in H. peel H as [] ?.
  peel H as [] Hex. apply require_exact_Ok in Hex as (c & Hc & Hcur). do 2 (peel H as [] _).
  peel H as s2 H2. eapply apply_selected_gaps_ok in H2 as [Hok2 Hf2 _ _ _ _]; [|done..].
  do 2 (peel H as [] ?). by injection H as <-.
Qed.

Lemma apply_shaping_ok s at_ m s' :
  shaping_ok s → tables_base s → apply_shaping_mutation s at_ m = Ok s' → shaping_ok s' ∧ frame s s'.
Proof.
  intros Hok Hb. destruct m; cbn;
    eauto using record_ok, resolve_gap_ok, rebase_ok, advance_ok, advisor_finalization_ok,
      supersede_current_ok.
Qed.

(** ** Each decision is applied once *)

Lemma applied_once s id1 id2 a1 a2 :
  shaping_base s → pt_applications s !! id1 = Some a1 → pt_applications s !! id2 = Some a2 →
  sda_user_action_resolution_id a1 = sda_user_action_resolution_id a2 → id1 = id2.
Proof.
  intros Hb H1 H2 Hres. destruct (sb_application _ Hb _ _ H1) as [<- R1], (sb_application _ Hb _ _ H2) as [<- R2].
  destruct R1 as [(c1 & g1 & Hc1 & Ht1 & Hg1 & _ & _ & Hr1 & _) (q1 & Hq1 & Hqr1 & Hk1 & _) (row1 & Hrow1 & Ho1) Hid1].
  destruct R2 as [(c2 & g2 & Hc2 & Ht2 & Hg2 & _ & _ & Hr2 & _) (q2 & Hq2 & Hqr2 & Hk2 & _) (row2 & Hrow2 & Ho2) Hid2].
  rewrite Hres in Hq1. simplify_eq. assert (sda_judgment_kind a1 = sda_judgment_kind a2) as Hk by congruence.
  assert (sda_user_action_request_id a1 = sda_user_action_request_id a2) as Hrq by congruence.
  apply gap_of_Some in Hg1 as [Hg1 _], Hg2 as [Hg2 _]. rewrite Hrq in Hr1.
  destruct (sb_request _ Hb _ _ _ _ _ _ _ Hc1 Hc2 Hg1 Hg2 Hr1 Hr2) as [Hcid _].
  rewrite Hcid, Hc2 in Hc1. injection Hc1 as <-. rewrite <-Ht1, Ht2 in Hrow1. simplify_eq.
  rewrite Hid1, Hid2, Hres. f_equal. rewrite Hk in Ho1. congruence.
Qed.

(** ** What a replacement does to the requests *)

(** Retiring questions leaves the stale requests alone. *)
Lemma swap_requests_stale ids s s' rid r :
  try_foldl (λ s id, swap_request_basis s id BasisCurrent BasisSuperseded) s ids = Ok s' →
  ur_basis_status r = BasisStale →
  ut_requests (pt_user_actions s') !! rid = Some r ↔ ut_requests (pt_user_actions s) !! rid = Some r.
Proof.
  intros H Hs. revert s H. induction ids as [|id ids IH]; intros s; cbn; [by intros [= <-]|].
  rewrite bind_Ok. intros (s1 & H1 & ->%IH).
  apply swap_request_effect in H1 as ((x & Hx & Hxs) & (y & Hy & Hys) & Hother).
  destruct (decide (rid = id)) as [->|Hne]; [|by rewrite Hother].
  rewrite Hx, Hy. split; intros [= <-]; congruence.
Qed.

Lemma retire_stale s input c refs s' task_id a :
  retire_checkpoint_user_actions s input c refs = Ok s' →
  stale_unconsumed s' task_id a = stale_unconsumed s task_id a.
Proof.
  unfold retire_checkpoint_user_actions. intros H. peel H as ids Hi. peel H as [] He.
  peel H as required Hr. peel H as [] Hm. unfold stale_unconsumed. f_equal.
  apply eq_true_iff_eq. rewrite !is_some_and_true.
  split; intros (r & Hr' & Hb); exists r; (split; [|done]); pose proof Hb as [Hs%eqb_eq _]%andb_true_iff;
    by apply (swap_requests_stale _ _ _ _ _ H Hs).
Qed.

(** The rows outside the authority tables stay, and so do the lineage rows not in [ids]. *)
Record outside_kept (ids : list string) (s s' : TaskTables) : Prop := {
  ok_project : pt_project_id s' = pt_project_id s;
  ok_active : pt_active_task_id s' = pt_active_task_id s;
  ok_tasks : pt_tasks s' = pt_tasks s;
  ok_criteria : pt_criteria s' = pt_criteria s;
  ok_change_units : pt_change_units s' = pt_change_units s;
  ok_actions_project : ut_project_id (pt_user_actions s') = ut_project_id (pt_user_actions s);
  ok_resolutions : ut_resolutions (pt_user_actions s') = ut_resolutions (pt_user_actions s);
  ok_lineage : ∀ id, id ∉ ids → pt_reauthorizations s' !! id = pt_reauthorizations s !! id;
}.

#[local] Instance outside_kept_preorder ids : PreOrder (outside_kept ids).
Proof.
  split; [by intros s|]. intros a b c [? ? ? ? ? ? ? Hl] [? ? ? ? ? ? ? Hl'].
  constructor; [congruence..|]. intros id Hid. by rewrite Hl', Hl.
Qed.

Lemma swap_request_outside ids s request_id from to s' :
  swap_request_basis s request_id from to = Ok s' → outside_kept ids s s'.
Proof. unfold swap_request_basis. intros H. peel H as row Hr. by injection H as <-. Qed.

Lemma consume_row_outside ids input mode outcomes at_ s a s' :
  consume_stale_row input mode outcomes at_ s a = Ok s' → outside_kept ids s s'.
Proof.
  unfold consume_stale_row. cbv zeta. intros H. peel H as d Hd. peel H as [] He. peel H as [] Hm.
  peel H as b Hb. etrans; [|by eapply swap_request_outside]. by constructor.
Qed.

Lemma succession_outside ids s input at_ s' pred :
  apply_checkpoint_succession s input at_ = Ok (s', pred) → outside_kept ids s s'.
Proof.
  unfold apply_checkpoint_succession. cbv zeta. rewrite ensure_bind. intros [_ H].
  destruct (sci_checkpoint_operation input).
  { rewrite ensure_bind in H. by destruct H as [_ [= <- _]]. }
  destruct (List.filter _ _) as [|c [|]]; [done| |done]. rewrite ensure_bind in H. destruct H as [_ H].
  peel H as [] Hc. peel H as s1 H1. peel H as s2 H2. peel H as s3 ->%supersede_row_Ok. injection H as <- _.
  unfold retire_checkpoint_user_actions in H1. peel H1 as ri Hri. peel H1 as [] He.
  peel H1 as required Hr. peel H1 as [] Hm.
  unfold consume_stale_authority in H2. peel H2 as outcomes Ho. peel H2 as [] He2. peel H2 as [] Hr2.
  peel H2 as mode Hm2. transitivity s1; [|transitivity s2; [|by constructor]].
  - eapply try_foldl_ind; [apply _| |exact H1]. intros ??? _. apply swap_request_outside.
  - eapply try_foldl_ind; [apply _| |exact H2]. intros ??? _. apply consume_row_outside.
Qed.

Definition lineage_ids (input : ShapingCheckpointInsert) : list string :=
  (λ d, shaping_authority_reauthorization_id (sad_stale_application_id d))
    <$> sci_stale_authority_dispositions input.

Lemma record_outside s input at_ s' :
  shaping_base s → record_shaping_checkpoint s input at_ = Ok s' → outside_kept (lineage_ids input) s s'.
Proof.
  intros Hb H. unfold record_shaping_checkpoint in H. cbv zeta in H. peel H as [] Hv. peel H as [] Hfit.
  peel H as [] Hrev. peel H as [s1 pred] Hs. pose proof (succession_spec _ _ _ _ _ Hb Hs) as Hsu.
  pose proof (succeeded_ok _ _ _ _ _ Hb Hsu) as [Hb1 _].
  apply (succession_outside (lineage_ids input)) in Hs. peel H as s2 H2.
  apply insert_checkpoint_Ok in H2 as (Hfresh & Hone & ->). peel H as s3 H3.
  set (row := checkpoint_row (pt_project_id s1) input pred) in *. set (id := sci_shaping_checkpoint_id input) in *.
  assert (shaping_base (put_checkpoint s1 id row)) as Hb2.
  { apply new_checkpoint_base; try done. by eapply (validated_ready input). }
  apply (insert_gaps_spec _ _ _ _ _ _ row) in H3 as (_ & _ & ->); [|done|by cbn; rewrite lookup_insert_eq].
  peel H as s4 H4. peel H as s5 H5. unfold reject_detached_live_shaping_authority in H.
  rewrite ensure_bind in H. destruct H as [_ [= <-]].
  etrans; [exact Hs|]. transitivity s4; [etrans; [|eapply try_foldl_ind; [apply _| |exact H4]]|].
  - by constructor.
  - intros x d y Hd [_ ->]%insert_reauthorization_Ok. constructor; [done..|]. intros k Hk.
    apply lookup_insert_ne. intros <-. apply Hk. unfold lineage_ids. apply list_elem_of_fmap. by exists d.
  - destruct pred as [from|]; [|by injection H5 as <-].
    eapply try_foldl_ind; [apply _| |exact H5]. by intros x y z _ [_ ->]%insert_link_Ok.
Qed.

(** Swapping moves each listed request once and no other. *)
Lemma swap_requests_exact ids from to s s' rid :
  from ≠ to → try_foldl (λ s id, swap_request_basis s id from to) s ids = Ok s' →
  (rid ∈ ids → ∃ r, ut_requests (pt_user_actions s) !! rid = Some r ∧ ur_basis_status r = from
    ∧ ut_requests (pt_user_actions s') !! rid = Some (marked_row to r))
  ∧ (rid ∉ ids → ut_requests (pt_user_actions s') !! rid = ut_requests (pt_user_actions s) !! rid).
Proof.
  intros Hne. revert s. induction ids as [|id ids IH]; intros s; cbn.
  { intros [= <-]. split; [by intros ?%elem_of_nil|done]. }
  rewrite bind_Ok. intros (s1 & H1 & [Hin Hout]%IH). clear IH. unfold swap_request_basis in H1.
  peel H1 as row Hr%ok_or_Ok. apply option_filter_Some in Hr as [Hr Hs%eqb_eq]. injection H1 as <-. cbn in *.
  destruct (decide (rid = id)) as [->|Hrid].
  - rewrite lookup_insert_eq in Hin, Hout. split; [|by intros []%not_elem_of_cons]. intros _. exists row. split_and!; [done..|].
    apply Hout. intros (r & [= <-] & Hx & _)%Hin. by apply Hne.
  - rewrite lookup_insert_ne in Hin, Hout by done.
    split; [intros [?|?]%elem_of_cons; [done|auto]|intros [??]%not_elem_of_cons; auto].
Qed.

Lemma consume_rows_requests input mode outcomes at_ rows s s' rid :
  NoDup (sda_shaping_decision_application_id <$> rows) →
  (∀ a, a ∈ rows → pt_applications s !! sda_shaping_decision_application_id a = Some a) →
  try_foldl (consume_stale_row input mode outcomes at_) s rows = Ok s' →
  (rid ∈ sda_user_action_request_id <$> rows →
    ∃ r, ut_requests (pt_user_actions s) !! rid = Some r ∧ ur_basis_status r = BasisStale
      ∧ ut_requests (pt_user_actions s') !! rid = Some (marked_row BasisSuperseded r))
  ∧ (rid ∉ sda_user_action_request_id <$> rows →
      ut_requests (pt_user_actions s') !! rid = ut_requests (pt_user_actions s) !! rid).
Proof using HC HZ.
  revert s. induction rows as [|a rows IH]; intros s Hnd Hrows; cbn.
  { intros [= <-]. split; [by intros ?%elem_of_nil|done]. }
  cbn in Hnd. apply NoDup_cons in Hnd as [Hn Hnd]. rewrite bind_Ok. intros (s1 & H1 & H2).
  pose proof (consume_row_spec _ _ _ _ _ _ _ H1) as (b & Hb & _ & Happ & _). cbn in Hb, Happ.
  rewrite (Hrows a) in Hb by left. injection Hb as <-.
  apply IH in H2 as [Hin Hout]; [|done|].
  - unfold consume_stale_row in H1. cbv zeta in H1. peel H1 as d Hd. peel H1 as [] He. peel H1 as [] Hm.
    peel H1 as b Hb%ok_or_Ok. apply option_filter_Some in Hb as [Hb _].
    rewrite (Hrows a) in Hb by left. injection Hb as <-.
    unfold swap_request_basis in H1. peel H1 as row Hr%ok_or_Ok.
    apply option_filter_Some in Hr as [Hr Hs%eqb_eq]. injection H1 as <-. cbn in *.
    destruct (decide (rid = sda_user_action_request_id a)) as [->|Hrid].
    + rewrite lookup_insert_eq in Hin, Hout. split; [|by intros []%not_elem_of_cons]. intros _. exists row.
      split_and!; [done..|]. apply Hout. by intros (r & [= <-] & Hx & _)%Hin.
    + rewrite lookup_insert_ne in Hin, Hout by done.
      split; [intros [?|?]%elem_of_cons; [done|auto]|intros [??]%not_elem_of_cons; auto].
  - intros x Hx. rewrite Happ, lookup_insert_ne; [apply Hrows; by right|].
    intros He. apply Hn. rewrite He. by apply list_elem_of_fmap_2.
Qed.

(** A question of the replaced checkpoint that gives no authority any more: it was rejected
    or deferred, or it expired unanswered. *)
Definition retired_question (s : TaskTables) (created_at : UtcTimestamp) (old : ShapingCheckpointRecord)
    (request_id : string) : Prop :=
  ∃ g r, g ∈ sc_gaps old ∧ gap_request_id g = Some request_id
    ∧ ut_requests (pt_user_actions s) !! request_id = Some r ∧ ur_basis_status r = BasisCurrent
    ∧ match sg_status g with
      | GapRejected | GapDeferred =>
          ∃ q, answer_of s request_id = Some q ∧ body_settles (sg_status g) (us_resolution q) = true
      | GapCurrent =>
          answer_of s request_id = None
          ∧ ∃ expires_at, ur_expires_at r = Some expires_at ∧ ts_ge created_at expires_at = true
      | GapAccepted | GapApplied => False
      end.

Lemma retirement_rows_elem s c rid g r :
  (rid, (g, r)) ∈ retirement_rows s c ↔
  g ∈ sc_gaps c ∧ gap_request_id g = Some rid ∧ ut_requests (pt_user_actions s) !! rid = Some r
  ∧ sg_status g ≠ GapApplied ∧ ur_basis_status r = BasisCurrent.
Proof.
  unfold retirement_rows. rewrite sort_by_key_perm, list_elem_of_omap. split.
  - intros (x & Hx & (id & Hid & (q & Hq & Hc)%bind_Some)%bind_Some). case_match eqn:E; simplify_eq.
    apply andb_true_iff in E as [E1%negb_true_iff%eqb_false E2%eqb_eq]. done.
  - intros (Hg & Hid & Hr & Hs & Hb). exists g. split; [done|]. rewrite Hid. cbn. rewrite Hr. cbn.
    by rewrite (proj2 (eqb_false _ _) Hs), Hb, eqb_refl.
Qed.

Lemma retirement_permitted_spec s created_at request_id g r :
  retirement_permitted s created_at request_id g r = true ↔
  match sg_status g with
  | GapRejected | GapDeferred =>
      ∃ q, answer_of s request_id = Some q ∧ body_settles (sg_status g) (us_resolution q) = true
  | GapCurrent =>
      answer_of s request_id = None
      ∧ ∃ expires_at, ur_expires_at r = Some expires_at ∧ ts_ge created_at expires_at = true
  | GapAccepted | GapApplied => False
  end.
Proof.
  unfold retirement_permitted. destruct (sg_status g); try (by split); try (rewrite is_some_and_true; reflexivity).
  rewrite andb_true_iff, is_some_and_true. destruct (answer_of s request_id); naive_solver.
Qed.

Lemma retire_exact s input c refs s' rid :
  retire_checkpoint_user_actions s input c refs = Ok s' →
  (retired_question s (sci_created_at input) c rid →
    ∃ r, ut_requests (pt_user_actions s) !! rid = Some r
      ∧ ut_requests (pt_user_actions s') !! rid = Some (marked_row BasisSuperseded r))
  ∧ (¬ retired_question s (sci_created_at input) c rid →
      ut_requests (pt_user_actions s') !! rid = ut_requests (pt_user_actions s) !! rid).
Proof.
  unfold retire_checkpoint_user_actions. intros H. peel H as ri Hi. peel H as [] He.
  peel H as required Hr. peel H as [] Hm%ensure_Ok%(proj1 (neqb_false _ _)).
  assert (∀ x, x ∈ required ↔ retired_question s (sci_created_at input) c x) as Hreq.
  { intros x. rewrite (elem_of_try_map _ _ _ x Hr). split.
    - intros ([rid' [g r]] & (Hg & Hid & Hrow & Hs & Hb)%retirement_rows_elem & Hx).
      destruct (retirement_permitted _ _ _ _ _) eqn:Hp; [|done]. injection Hx as <-.
      exists g, r. split_and!; [done..|]. by apply retirement_permitted_spec.
    - intros (g & r & Hg & Hid & Hrow & Hb & Hp). exists (x, (g, r)).
      rewrite retirement_rows_elem, (proj2 (retirement_permitted_spec _ _ _ _ _) Hp). split; [|done].
      split_and!; [done..| |done]. intros Hs. by rewrite Hs in Hp. }
  apply (swap_requests_exact _ _ _ _ _ rid) in H as [Hin Hout]; [|done].
  rewrite Hm, elem_of_bts_of_list, Hreq in Hin, Hout. split; [|done].
  intros (r & ? & _ & ?)%Hin. eauto.
Qed.

(** A live stale decision of the Task was made through this request. *)
Definition stale_question (s : TaskTables) (task_id request_id : string) : Prop :=
  ∃ id a, pt_applications s !! id = Some a ∧ stale_unconsumed s task_id a = true
    ∧ sda_user_action_request_id a = request_id.

(** The effect of replacing a checkpoint, on every table. *)
Record replaced_exactly (s : TaskTables) (input : ShapingCheckpointInsert) (expected : string)
    (old : ShapingCheckpointRecord) (at_ : UtcTimestamp) (s' : TaskTables) : Prop := {
  re_predecessor : pt_checkpoints s !! expected = Some old
    ∧ is_current_checkpoint (sci_task_id input) old = true
    ∧ pt_checkpoints s' !! expected = Some (superseded_checkpoint (sci_created_at input) old);
  re_successor : ∃ new, pt_checkpoints s' !! sci_shaping_checkpoint_id input = Some new
    ∧ is_current_checkpoint (sci_task_id input) new = true
    ∧ sc_predecessor_shaping_checkpoint_id new = Some expected
    ∧ sc_gaps new = (λ g, gap_row g at_) <$> sci_gaps input;
  re_only_current : ∀ id c, pt_checkpoints s' !! id = Some c →
    is_current_checkpoint (sci_task_id input) c = true → id = sci_shaping_checkpoint_id input;
  re_other_checkpoints : ∀ id, id ≠ expected → id ≠ sci_shaping_checkpoint_id input →
    pt_checkpoints s' !! id = pt_checkpoints s !! id;
  re_links : ∃ ids, pt_checkpoint_applications s' =
      pt_checkpoint_applications s ++ (carried_link input expected <$> ids)
    ∧ ∀ id, id ∈ ids ↔ ∃ a, pt_applications s !! id = Some a ∧ sda_task_id a = sci_task_id input
        ∧ sda_authority_status a = AppCurrent;
  re_consumed : ∀ id a, pt_applications s !! id = Some a →
    stale_unconsumed s (sci_task_id input) a = true →
    pt_applications s' !! id = Some (consumed_application at_ a)
    ∧ request_at s' (sda_user_action_request_id a) BasisSuperseded
    ∧ ∃ d, d ∈ sci_stale_authority_dispositions input ∧ sad_stale_application_id d = id
        ∧ pt_reauthorizations s' !! shaping_authority_reauthorization_id id
            = Some (reauthorization_row s (sci_task_id input) (sci_shaping_checkpoint_id input) d at_);
  re_others : ∀ id a, pt_applications s !! id = Some a →
    stale_unconsumed s (sci_task_id input) a = false → pt_applications s' !! id = Some a;
  re_no_application : ∀ id, pt_applications s !! id = None → pt_applications s' !! id = None;
  re_lineage : ∀ k, (∀ id a, pt_applications s !! id = Some a →
      stale_unconsumed s (sci_task_id input) a = true → k ≠ shaping_authority_reauthorization_id id) →
    pt_reauthorizations s' !! k = pt_reauthorizations s !! k;
  re_ended_requests : ∀ rid,
    retired_question s (sci_created_at input) old rid ∨ stale_question s (sci_task_id input) rid →
    ∃ r, ut_requests (pt_user_actions s) !! rid = Some r
      ∧ ut_requests (pt_user_actions s') !! rid = Some (marked_row BasisSuperseded r);
  re_other_requests : ∀ rid,
    ¬ retired_question s (sci_created_at input) old rid → ¬ stale_question s (sci_task_id input) rid →
    ut_requests (pt_user_actions s') !! rid = ut_requests (pt_user_actions s) !! rid;
  re_outside : pt_user_actions s' =
      set_requests (pt_user_actions s) (ut_requests (pt_user_actions s'))
    ∧ pt_tasks s' = pt_tasks s ∧ pt_active_task_id s' = pt_active_task_id s
    ∧ pt_criteria s' = pt_criteria s ∧ pt_change_units s' = pt_change_units s
    ∧ pt_project_id s' = pt_project_id s;
}.

Lemma disposition_of_elem input id d :
  disposition_of input id = Some d →
  d ∈ sci_stale_authority_dispositions input ∧ sad_stale_application_id d = id.
Proof. intros [Hin He]%List.find_some. split; [by apply list_elem_of_In|by apply eqb_eq]. Qed.

(** Every disposition names a live stale application, and each of their requests ends. *)
Lemma consume_stale_exact s input actions at_ s' rid :
  shaping_base s → consume_stale_authority s input actions at_ = Ok s' →
  (∀ d, d ∈ sci_stale_authority_dispositions input →
    ∃ a, pt_applications s !! sad_stale_application_id d = Some a
      ∧ stale_unconsumed s (sci_task_id input) a = true)
  ∧ (stale_question s (sci_task_id input) rid →
      ∃ r, ut_requests (pt_user_actions s) !! rid = Some r ∧ ur_basis_status r = BasisStale
        ∧ ut_requests (pt_user_actions s') !! rid = Some (marked_row BasisSuperseded r))
  ∧ (¬ stale_question s (sci_task_id input) rid →
      ut_requests (pt_user_actions s') !! rid = ut_requests (pt_user_actions s) !! rid).
Proof.
  intros Hb H. unfold consume_stale_authority in H. peel H as outcomes Ho.
  peel H as [] He%ensure_Ok%negb_false_iff. apply andb_true_iff in He as [_ He%eqb_eq].
  peel H as [] Hr%ensure_Ok%(proj1 (neqb_false _ _)). peel H as mode Hm.
  assert (stale_question s (sci_task_id input) rid
    ↔ rid ∈ sda_user_action_request_id <$> stale_rows s (sci_task_id input)) as Hq.
  { rewrite list_elem_of_fmap. setoid_rewrite stale_rows_elem; [|done]. split.
    - intros (id & a & Ha & Hs & <-). exists a. destruct (sb_application _ Hb _ _ Ha) as [<- _]. done.
    - intros (a & -> & Hs & Ha). by exists (sda_shaping_decision_application_id a), a. }
  split.
  - intros d Hd. assert (sad_stale_application_id d
      ∈ sda_shaping_decision_application_id <$> stale_rows s (sci_task_id input)) as Hin.
    { apply elem_of_bts_of_list. rewrite Hr, He. apply elem_of_bts_of_list, list_elem_of_fmap. by exists d. }
    apply list_elem_of_fmap in Hin as (a & -> & [Hs Ha]%stale_rows_elem); [|done]. eauto.
  - rewrite Hq. eapply consume_rows_requests; [| |exact H].
    + unfold stale_rows. apply (NoDup_fmap_filter sda_shaping_decision_application_id).
      by apply NoDup_application_rows.
    + by intros a [_ ?]%stale_rows_elem.
Qed.

(** A request is not both: retiring takes current requests, consuming stale ones. *)
Lemma ended_once s created_at old task_id rid :
  retired_question s created_at old rid → stale_question s task_id rid → False.
Proof.
  intros (g & r & _ & _ & Hr & Hs & _) (id & a & _ & Hu & <-). unfold stale_unconsumed in Hu.
  apply andb_true_iff in Hu as [_ (r' & Hr' & [Hs'%eqb_eq _]%andb_true_iff)%is_some_and_true].
  simplify_eq. congruence.
Qed.

Lemma retire_stale_question s input c refs s' rid :
  pt_applications s' = pt_applications s → retire_checkpoint_user_actions s input c refs = Ok s' →
  stale_question s' (sci_task_id input) rid ↔ stale_question s (sci_task_id input) rid.
Proof.
  intros Happ H. unfold stale_question. rewrite Happ. by setoid_rewrite (retire_stale _ _ _ _ _ _ _ H).
Qed.

(** The requests after retiring and then consuming. *)
Lemma succession_requests s input c refs s1 actions at_ s2 rid :
  shaping_base s1 → pt_applications s1 = pt_applications s →
  retire_checkpoint_user_actions s input c refs = Ok s1 →
  consume_stale_authority s1 input actions at_ = Ok s2 →
  (retired_question s (sci_created_at input) c rid ∨ stale_question s (sci_task_id input) rid →
    ∃ r, ut_requests (pt_user_actions s) !! rid = Some r
      ∧ ut_requests (pt_user_actions s2) !! rid = Some (marked_row BasisSuperseded r))
  ∧ (¬ retired_question s (sci_created_at input) c rid → ¬ stale_question s (sci_task_id input) rid →
      ut_requests (pt_user_actions s2) !! rid = ut_requests (pt_user_actions s) !! rid).
Proof.
  intros Hb Happ H1 H2. pose proof (consume_stale_exact _ _ _ _ _ rid Hb H2) as (_ & Hst & Hnst).
  pose proof (retire_exact _ _ _ _ _ rid H1) as [Hre Hnre].
  rewrite (retire_stale_question _ _ _ _ _ rid Happ H1) in Hst, Hnst. split.
  - intros [Hq|Hq].
    + rewrite Hnst by (by intros ?; eapply ended_once). by apply Hre.
    + rewrite Hnre in Hst by (by intros ?; eapply ended_once). destruct (Hst Hq) as (r & ? & _ & ?). eauto.
  - intros Hn1 Hn2. by rewrite Hnst, Hnre.
Qed.

Lemma recorded_replaced s input expected retired carried stale at_ s1 pred s' :
  shaping_base s → shaping_base s' → outside_kept (lineage_ids input) s s' →
  sci_checkpoint_operation input = OpReplaceCurrent expected retired carried stale →
  recorded s input at_ s1 pred s' → ∃ old, replaced_exactly s input expected old at_ s'.
Proof.
  intros Hb Hb' Hout0 Hop [Hs Hv Hfresh Hck Happ Hlk Hua Hlin _].
  pose proof (recorded_current s1 input pred at_ Hv) as Hnewc.
  destruct Hs as [Hop' _|exp0 ret0 car0 st0 c s2 s3 Hop' Hc Hcur Hcf Ho1 Ha1 H1 H2 Hb2 Ho2]; [congruence|].
  rewrite Hop in Hop'. injection Hop' as <- <- <- <-.
  assert (shaping_base s2) as Hb1 by (eapply aside_base; [apply Ho1|done]).
  pose proof (consume_stale_spec _ _ _ _ _ Hb1 H2) as (_ & Hin & Hout).
  pose proof (λ rid, succession_requests _ _ _ _ _ _ _ _ rid Hb1 Ha1 H1 H2) as Hreq.
  pose proof (consume_stale_exact _ _ _ _ _ "" Hb1 H2) as (Hdisp & _).
  assert (expected ≠ sci_shaping_checkpoint_id input) as Hne.
  { intros He. cbn in Hfresh. by rewrite <-He, lookup_insert_eq in Hfresh. }
  assert (pt_project_id (put_checkpoint s3 expected (superseded_checkpoint (sci_created_at input) c))
    = pt_project_id s) as Hproj by (cbn; by rewrite (ao_project _ _ Ho2), (ao_project _ _ Ho1)).
  destruct Hout0 as [E1 E2 E3 E4 E5 E6 E7 E8].
  cbn in Hck, Happ, Hua. exists c. constructor.
  - split_and!; [done|done|]. by rewrite Hck, lookup_insert_ne, lookup_insert_eq.
  - eexists. rewrite Hck, lookup_insert_eq. by split_and!.
  - intros id x Hx Hxc. eapply (sb_one _ Hb' _ _ _ _ _ Hx); [by rewrite Hck, lookup_insert_eq|exact Hxc|exact Hnewc].
  - intros id Hn1 Hn2. rewrite Hck, !lookup_insert_ne by done.
    by rewrite (aside_checkpoints _ _ (ao_aside _ _ Ho2)), (aside_checkpoints _ _ (ao_aside _ _ Ho1)).
  - exists (sci_carry_forward_application_ids input). split; [|done]. rewrite Hlk. cbn.
    by rewrite (ao_links _ _ Ho2), (ao_links _ _ Ho1).
  - intros id a Ha Hst. rewrite <-(retire_stale _ _ _ _ _ _ _ H1) in Hst. rewrite <-Ha1 in Ha.
    destruct (Hin _ _ Ha Hst) as (Hcons & [d Hd] & Hq). rewrite Happ. split_and!; [done| |].
    + unfold request_at. rewrite Hua. exact Hq.
    + apply disposition_of_elem in Hd as [Hd <-]. exists d. split_and!; [done..|].
      rewrite (Hlin _ Hd). unfold reauthorization_row. by rewrite Hproj.
  - intros id a Ha Hst. rewrite <-(retire_stale _ _ _ _ _ _ _ H1) in Hst. rewrite <-Ha1 in Ha.
    rewrite Happ. by apply Hout.
  - intros id Hn. rewrite Happ. apply eq_None_not_Some. intros [a Ha].
    destruct (aside_applications _ _ (ao_aside _ _ Ho2) _ _ Ha) as (b & Hb0 & _). congruence.
  - intros k Hk. apply E8. unfold lineage_ids. intros (d & -> & Hd)%list_elem_of_fmap.
    destruct (Hdisp _ Hd) as (a & Ha & Hst). rewrite (retire_stale _ _ _ _ _ _ _ H1) in Hst.
    rewrite Ha1 in Ha. by apply (Hk _ _ Ha Hst).
  - intros rid. rewrite Hua. apply Hreq.
  - intros rid. rewrite Hua. apply Hreq.
  - split_and!; [|done..]. destruct (pt_user_actions s'), (pt_user_actions s). cbn in *. by subst.
Qed.

(** A question the local user answered by accepting it. *)
Definition accepted_by_user (s : TaskTables) (g : ShapingCheckpointGapRecord) : Prop :=
  ∃ resolution_id q, gap_resolution_id g = Some resolution_id
    ∧ ut_resolutions (pt_user_actions s) !! resolution_id = Some q
    ∧ gap_request_id g = Some (us_user_action_request_id q)
    ∧ body_settles GapAccepted (us_resolution q) = true ∧ us_resolved_by_actor_source q = LocalUser.

Lemma applied_accepted s id c g :
  shaping_base s → pt_checkpoints s !! id = Some c → g ∈ sc_gaps c → sg_status g = GapApplied →
  accepted_by_user s g.
Proof.
  intros Hb Hc Hg Hs. pose proof (sb_settled _ Hb _ _ _ Hc Hg) as Hset. unfold gap_settled in Hset.
  rewrite Hs in Hset. destruct Hset as (r & rid & q & Hr & Hrid & Hq & <- & Hbody).
  exists rid, q. split_and!; [done..|]. by apply (sb_resolution _ Hb) in Hq as [].
Qed.

(** ** Theorems *)

(** C11: Replacing the current checkpoint of a Task has exactly this effect on the whole
    shaping store: the named predecessor was current and is superseded, and the new
    checkpoint, with its submitted gaps open, is the only current one of the Task; the links
    added are one to the new checkpoint for each current application of the Task; every live
    stale application is superseded and gets the lineage row of its disposition, which names
    the successor; the requests that end, marked superseded, are those of these stale
    applications and those of the predecessor's questions that were rejected, deferred or
    expired unanswered. Every other checkpoint, application, lineage row and request, all
    resolutions, and the Task, criteria, Change Unit and active-Task rows stay as they
    were. *)
Theorem checkpoint_replaced_exactly s input expected retired carried stale at_ s' :
  shaping_ok s → sci_checkpoint_operation input = OpReplaceCurrent expected retired carried stale →
  record_shaping_checkpoint s input at_ = Ok s' → ∃ old, replaced_exactly s input expected old at_ s'.
Proof.
  intros [Hb _] Hop H. pose proof (record_outside _ _ _ _ Hb H) as Hk.
  apply record_spec in H as (Hb' & _ & s1 & pred & Hr); [|done]. by eapply recorded_replaced.
Qed.

(** A Task leaves shaping for implementation only from an exact basis: it was a working
    Task in shaping at the submitted scope revision, baseline and Change Unit; its current
    checkpoint is ready at those coordinates and every gap of it was accepted by the local
    user and applied; the submitted decisions are recorded as current applications at that
    basis; earlier applications and everything else of the Task stay. *)
Theorem advance_leaves_shaping s input at_ s' :
  shaping_ok s → apply_advance_shaping_and_transition s input at_ = Ok s' →
  let tid := saa_task_id input in let cid := saa_shaping_checkpoint_id input in
  (∃ row, pt_tasks s !! tid = Some row ∧ transition_eligible input row = true
     ∧ pt_tasks s' = <[tid := with_task (with_scope_columns (Some Implementation)
                                (Some PExecuting) None None) row]> (pt_tasks s))
  ∧ (∃ c, pt_checkpoints s' !! cid = Some c ∧ sc_task_id c = tid ∧ sc_readiness c = CheckpointReady
      ∧ sc_scope_revision c = saa_scope_revision input
      ∧ sc_baseline_ref c = Some (saa_baseline_ref input)
      ∧ ∀ g, g ∈ sc_gaps c → sg_status g = GapApplied ∧ accepted_by_user s' g)
  ∧ (∀ x, x ∈ saa_applications input →
      applied_under s' tid cid OwnAdvanceTask (advance_basis input) at_ x)
  ∧ ∀ id a, pt_applications s !! id = Some a → pt_applications s' !! id = Some a.
Proof.
  intros Hok H tid cid. unfold apply_advance_shaping_and_transition in H. cbv zeta in H. peel H as [] _.
  peel H as [] Hex. apply require_exact_Ok in Hex as (c & Hc & Hcur). rewrite ensure_bind in H.
  destruct H as [_ H]. rewrite ensure_bind, negb_false_iff in H. destruct H as [Hbasis H]. peel H as [] _.
  peel H as s2 H2. eapply apply_selected_gaps_ok in H2 as [Hok2 _ Ht [gs Hc2] Hold Happ]; [|done..].
  rewrite ensure_bind in H. destruct H as [Hall H].
  peel H as row [Hrow Helig]%ok_or_Ok%option_filter_Some. injection H as <-. cbn.
  rewrite Ht in *. split_and!; [by exists row| |done|done].
  unfold checkpoint_at_basis in Hbasis. apply is_some_and_true in Hbasis as (c0 & Hc0 & Hat).
  rewrite Hc in Hc0. injection Hc0 as <-.
  rewrite !andb_true_iff, !eqb_true in Hat. destruct Hat as [[[Htask Hready] Hrev] Hbl].
  exists (with_gaps gs c). split_and!; [done..|]. intros g Hg.
  unfold gaps_of_checkpoint in Hall. rewrite Hc2, existsb_false in Hall.
  specialize (Hall _ Hg). cbv beta in Hall. rewrite neqb_false in Hall. split; [done|].
  eapply (applied_accepted s2); [apply Hok2|done..].
Qed.
End invariant.
