(* ===== verification/ProjectStore.v ===== *)
(** * ProjectStore: the aggregate of a commit

    Models [crates/volicord-store/src/core_pipeline/commit.rs]'s view of the tables:
    [CoreStorageMutation::apply] for the Task, Change Unit, user-action and shaping arms,
    and the reads the commit makes of their rows, as an instance of [Commit]'s
    [AggregateStore] over the tables of [TaskStore] and [ShapingStore].  Also models which
    of these mutations [plan_resolve_user_action] of
    [crates/volicord-core/src/methods/user_action.rs] plans for an answer. *)

From S2P Require Import Prelude Text Values Canonical Schema Clock TicketStore Commit.
From S2P Require Import UserActionShape UserActionStore UserActionService Workflow Planning Evidence.
From S2P Require Import Capture Admission WorkflowAction TaskRecords TaskStore ShapingStore.
Import Shaping.

(** The arms of [CoreStorageMutation] whose tables are modelled here. *)
Inductive ProjectMutation :=
| PmTask (m : TaskMutation)
| PmChangeUnit (m : ChangeUnitMutation)
| PmUserAction (m : UserActionMutation)
| PmShaping (m : ShapingCheckpointMutation).

Section aggregates.
Context `{HC : Chrono} `{HZ : CanonicalSize} `{HD : CaptureDigest}.

(** [CoreStorageMutation::apply]. *)
Definition apply_project_mutation (m : ProjectMutation) (committed_at : UtcTimestamp)
    (facts : CommittedMutationFacts) (s : TaskTables) : result TaskTables StoreError :=
  match m with
  | PmTask m => apply_task_mutation s committed_at m
  | PmChangeUnit m =>
      apply_change_unit_mutation s committed_at (cf_committed_state_version facts) m
  | PmUserAction m =>
      let? actions := apply_user_action_mutation (pt_user_actions s) m in
      let? _ := ensure (is_some_and (written_request m ≫= λ id, ut_requests actions !! id)
                          (λ row, negb (request_foreign_keys s row)))
                  (ConstraintViolation "user_action_requests.change_unit_id") in
      Ok (set_authority s (pt_applications s) actions)
  | PmShaping m => apply_shaping_mutation s committed_at m
  end.

Definition project_mutation_kind (m : ProjectMutation) : MutationKind :=
  match m with
  | PmTask _ => MutTask
  | PmChangeUnit _ => MutChangeUnit
  | PmUserAction _ => MutUserAction
  | PmShaping _ => MutShaping
  end.

Definition WorkPhase_as_str (phase : WorkPhase) : string :=
  match phase with ShapingPhase => "shaping" | Implementation => "implementation" end.

Definition TaskLifecyclePhase_as_str (phase : TaskLifecyclePhase) : string :=
  match phase with
  | PShaping => "shaping"
  | PReady => "ready"
  | PExecuting => "executing"
  | PWaitingUser => "waiting_user"
  | PBlocked => "blocked"
  | PCompleted => "completed"
  | PCancelled => "cancelled"
  | PSuperseded => "superseded"
  end.

(** The [tasks] columns [validate_transition_result_state] reads. *)
Definition project_transition_row (s : TaskTables) (task_id : string)
    : option (string * string * bool) :=
  (λ row, (WorkPhase_as_str (tk_work_phase (tr_task row)),
           TaskLifecyclePhase_as_str (tk_lifecycle_phase (tr_task row)),
           is_some (tr_close_basis row))) <$> pt_tasks s !! task_id.

(** No stored Change Unit has a blank id ([blank_change_unit_absent]), so the test for one
    changes no answer. *)
#[export] Instance project_aggregates : AggregateStore TaskTables ProjectMutation := {
  mutation_kind := project_mutation_kind;
  apply_mutation := apply_project_mutation;
  task_row_exists := task_exists;
  change_unit_row_exists s task_id unit :=
    negb (str_is_empty unit) && is_some (change_unit_row s task_id unit);
  task_transition_row := project_transition_row;
  pending_user_action_exists := pending_request_exists;
  deferred_constraints_hold := deferred_ok;
  change_unit_ids_nonempty _ _ := eq_refl;
}.
End aggregates.

(** ** The mutations of an answer *)

(** [shaping_disposition]. *)
Definition shaping_disposition (resolution : UserActionResolutionBody) : option ShapingGapStatus :=
  match resolution with
  | ResolutionChoice _ Accept Accepted _ _ => Some GapAccepted
  | ResolutionChoice _ Reject Rejected _ _ => Some GapRejected
  | ResolutionChoice _ Defer Deferred _ _ => Some GapDeferred
  | _ => None
  end.

(** [shaping_linked]: the current checkpoint of the Task asks the request. *)
Definition shaping_linked (s : TaskTables) (task_id request_id : string) : bool :=
  existsb (λ c, is_current_checkpoint task_id c
                && existsb (λ g, gap_request_id g =? Some request_id) (sc_gaps c))
    (checkpoint_rows s).

(** The user-action and shaping mutations of [plan_resolve_user_action], in their order; the
    continuity records and the lifecycle transition it appends touch neither. *)
Definition answer_mutations (s : TaskTables) (task_id : string) (input : UserActionResolutionInsert)
    : result (list ProjectMutation) CorePipelineError :=
  if shaping_linked s task_id (rs_user_action_request_id input) then
    let? disposition := ok_or (shaping_disposition (rs_resolution input)) (CoreInvariant
      "a shaping-linked UserAction requires a choice decision disposition") in
    Ok [PmUserAction (InsertResolution input);
        PmShaping (SmResolveLinkedGap (rs_user_action_request_id input)
          (rs_user_action_resolution_id input) disposition)]
  else Ok [PmUserAction (InsertResolution input)].
