(* ===== verification/ProjectStoreSound.v ===== *)
(** * ProjectStoreSound: what sequences of commits guarantee

    Over [ProjectStore]: the invariant of the Task, Change Unit, user-action and shaping
    tables for every sequence of commits of [Commit] on them ([project_ok]), what those
    commits keep of every row ([project_kept]), and the theorems on the tables they
    reach. *)

From S2P Require Import Prelude Text Values Canonical EventHash Schema Clock TicketStore Commit CommitSound.
From S2P Require Import UserActionShape UserActionStore Artifact UserActionService Workflow Planning Evidence.
From S2P Require Import Capture WorkflowAction TaskRecords TaskStore ShapingStore ProjectStore.
From S2P Require Import UserActionStoreSound TaskStoreSound ShapingStoreSound.
Import Shaping.

(** ** Commits *)

Section commits.
Context `{HC : Chrono} `{HZ : CanonicalSize} `{HD : CaptureDigest} `{HJ : SerdeJson}.
Context (sha256 : string → list Ascii.ascii).

(** The tables of a project between commits, and between the mutations of one. *)
Record tables_consistent (s : TaskTables) : Prop := {
  con_tables : tables_ok s;
  con_shaping : shaping_ok s;
}.

(** What commits keep of all rows. *)
Record project_kept (s s' : TaskTables) : Prop := {
  pk_tables : tables_step s s';
  pk_shaping : shaping_step s s';
}.

#[export] Instance project_kept_preorder : PreOrder project_kept.
Proof. split; [by intros s|]. intros a b c [] []. constructor; by etrans. Qed.

Lemma framed_consistent s s' :
  tables_framed s s' → shaping_step s s' → tables_ok s → shaping_ok s' →
  tables_consistent s' ∧ project_kept s s'.
Proof.
  intros Hf Hs Hok Hsok. split; constructor; [by eapply framed_ok|done|by apply framed_step|done].
Qed.

Lemma apply_project_mutation_ok m at_ facts s s' :
  tables_consistent s → apply_project_mutation m at_ facts s = Ok s' →
  tables_consistent s' ∧ project_kept s s'.
Proof.
  intros [Hok Hsh] H. destruct m as [m|m|m|m]; cbn in H.
  - pose proof (apply_task_aside _ _ _ _ H) as Ha. apply apply_task_mutation_framed in H.
    apply framed_consistent; [done|apply Ha|done|by eapply aside_ok].
  - pose proof (change_unit_aside _ _ _ _ _ Hok H) as Ha.
    assert (tables_ok s' ∧ tables_step s s') as [Hok' Hst].
    { destruct m as [input|input]; cbn in H; [|by eapply replace_current_ok].
      eapply insert_current_ok; [apply Hok| |exact H]. intros id row _. by apply Hok. }
    split; constructor; [done|by eapply aside_ok|done|apply Ha].
  - peel H as actions Hm%user_action_aside. rewrite ensure_bind in H. destruct H as [_ [= <-]].
    apply framed_consistent; [by apply same_tables_framed|apply Hm|done|by eapply aside_ok].
  - apply apply_shaping_ok in H as [Hsh' [Hf Hs]]; [|done|apply Hok]. by apply framed_consistent.
Qed.

Lemma apply_mutations_ok (ms : list ProjectMutation) at_ facts s s' :
  tables_consistent s → apply_mutations ms at_ facts s = Ok s' →
  tables_consistent s' ∧ project_kept s s'.
Proof.
  revert s. induction ms as [|m ms IH]; intros s Hok; cbn; [by intros [= <-]|].
  rewrite bind_Ok. intros (s1 & (Hok1 & Hst1)%apply_project_mutation_ok & H); [|done].
  apply IH in H as [Hok2 Hst2]; [|done]. split; [done|]. by etrans.
Qed.

(** Committed tables also satisfy the deferred foreign keys. *)
Definition project_ok (s : TaskTables) : Prop := tables_consistent s ∧ deferred_ok s = true.

Lemma project_ok_committed s : project_ok s → committed_ok s.
Proof. intros [[? _] ?]. by split. Qed.

Definition tables_of (s : CoreProjectStore TaskTables) : TaskTables := db_data (cs_db s).

Inductive project_step (s s' : CoreProjectStore TaskTables) : Prop :=
| project_commit now input (mutations : list ProjectMutation) build outcome :
    commit_mutation sha256 s now input mutations build = Ok (outcome, s') → project_step s s'.

(** The stores commits reach from a project whose tables are consistent. *)
Definition project_reachable (s : CoreProjectStore TaskTables) : Prop :=
  ∃ project_id runtime_home created_at tables, project_ok tables
    ∧ rtc project_step (fresh_store project_id runtime_home created_at tables) s.

Lemma project_step_ok s s' :
  project_step s s' → project_ok (tables_of s) →
  project_ok (tables_of s') ∧ project_kept (tables_of s) (tables_of s').
Proof.
  intros [now input ms build o H] Hok. unfold commit_mutation in H. peel H as [] ?.
  apply commit_with_Ok in H as (rc & floor & _ & _ & _ & [(?&?&?&?&->)|[(?&?&?&->)|(_ & at_ & _ & He)]]);
    [done..|].
  pose proof (commit_effects_deferred _ _ _ _ _ _ _ _ _ He) as Hd.
  apply commit_effects_Ok in He as (response & data & facts & _ & Ha & _ & _ & Hc & _).
  unfold tables_of in *. rewrite (ce_data _ _ _ _ _ _ _ _ Hc) in *.
  apply apply_mutations_ok in Ha as [? ?]; [|apply Hok]. by split.
Qed.

Lemma project_run_ok s s' :
  rtc project_step s s' → project_ok (tables_of s) →
  project_ok (tables_of s') ∧ project_kept (tables_of s) (tables_of s').
Proof.
  induction 1 as [s|s s1 s' Hst _ IH]; intros Hok; [done|].
  apply project_step_ok in Hst as [Hok1 Hst1]; [|done]. destruct (IH Hok1) as [? ?].
  split; [done|]. by etrans.
Qed.

Lemma project_reachable_ok s : project_reachable s → project_ok (tables_of s).
Proof. intros (p & home & t & d & Hok & Hr). by eapply project_run_ok. Qed.
End commits.

(** ** Theorems *)

Section theorems.
Context `{HC : Chrono} `{HZ : CanonicalSize} `{HD : CaptureDigest} `{HJ : SerdeJson}.
Context (sha256 : string → list Ascii.ascii).

(** C13: After any sequence of commits of Task, Change Unit and user-action mutations the
    Task pointers and the Change Unit rows agree: a Task without a current Change Unit has
    no Change Unit at all, a Task with one has exactly one active current row, which its
    pointer names and which the read returns without an error, and the active Task exists. *)
Theorem reachable_change_units s :
  project_reachable sha256 s →
  (∀ id row, pt_tasks (tables_of s) !! id = Some row → current_unit_agrees (tables_of s) id row)
  ∧ (∀ id, pt_active_task_id (tables_of s) = Some id → task_exists (tables_of s) id = true).
Proof.
  intros Hok%project_reachable_ok%project_ok_committed. split; [intros; by apply committed_unit_agrees|].
  intros id Hid. destruct Hok as [_ [Ha _]%andb_true_iff]. by rewrite Hid in Ha.
Qed.

(** From one committed state to any later one no Task, criterion, Change Unit,
    checkpoint, gap, application, link, lineage row or answer disappears; a Task's identity,
    mode and lineage never change and its control level and acceptance policy never fall; a
    retired criterion is never rewritten or revived, a replaced Change Unit and a superseded
    checkpoint are never current again, a gap keeps its question and its settlement, and an
    application changes only by losing its authority. *)
Theorem task_tables_monotonic s s' :
  project_reachable sha256 s → rtc (project_step sha256) s s' →
  project_kept (tables_of s) (tables_of s').
Proof. intros Hok%project_reachable_ok Hrun. by apply (project_run_ok sha256 s s' Hrun Hok). Qed.

(** C10: After any sequence of commits every stored application of a shaping decision rests
    on a question that the local user answered by accepting it: its source gap is stored as
    applied for that request and that answer, its owner is the one the policy gives for the
    kind of decision and the mode of the Task, its id is derived from the answer and the
    owner, and no answer has been applied more than once. *)
Theorem applied_decisions_accepted s id a :
  project_reachable sha256 s → pt_applications (tables_of s) !! id = Some a →
  application_rests (tables_of s) a
  ∧ ∀ id' a', pt_applications (tables_of s) !! id' = Some a' →
      sda_user_action_resolution_id a' = sda_user_action_resolution_id a → id' = id.
Proof.
  intros [[_ [Hb _]] _]%project_reachable_ok Ha. split; [by apply (sb_application _ Hb _ _ Ha)|].
  intros id' a' Ha' Hr. by eapply applied_once.
Qed.

(** The gap an unanswered request belongs to is the unresolved link of that request. *)
Lemma unresolved_link_of s cid c g request_id :
  shaping_base s → pt_checkpoints s !! cid = Some c → g ∈ sc_gaps c →
  gap_request_id g = Some request_id → gap_resolution_id g = None →
  unresolved_link s request_id = Some (c, g).
Proof.
  intros Hb Hc Hg Hr Hn. destruct (unresolved_link s request_id) as [[c' g']|] eqn:Hl.
  - apply unresolved_link_Some in Hl as (Hc' & Hg' & Hr' & _); [|done].
    destruct (sb_request _ Hb _ _ _ _ _ _ _ Hc Hc' Hg Hg' Hr Hr') as [-> Hid].
    rewrite Hc in Hc'. injection Hc' as <-. do 2 f_equal.
    eapply (NoDup_fmap_inj_elem sg_shaping_gap_id); [apply (sb_key _ Hb _ _ Hc)|done..].
  - apply List.find_none with (x := (c, g)) in Hl.
    + cbn in Hl. rewrite Hr, eqb_refl, Hn in Hl. done.
    + apply list_elem_of_In, gap_rows_elem. split; [by exists cid|done].
Qed.

Lemma answer_settles t task_id input ms at_ facts t' cid c g :
  tables_consistent t → answer_mutations t task_id input = Ok ms →
  apply_mutations ms at_ facts t = Ok t' →
  pt_checkpoints t !! cid = Some c → is_current_checkpoint task_id c = true → g ∈ sc_gaps c →
  gap_request_id g = Some (rs_user_action_request_id input) →
  ∃ c' g', pt_checkpoints t' !! cid = Some c' ∧ g' ∈ sc_gaps c'
    ∧ sg_shaping_gap_id g' = sg_shaping_gap_id g
    ∧ gap_resolution_id g' = Some (rs_user_action_resolution_id input)
    ∧ shaping_disposition (rs_resolution input) = Some (sg_status g').
Proof.
  intros Hok Hms Hap Hc Hcur Hg Hreq. set (rid := rs_user_action_request_id input) in *.
  assert (shaping_linked t task_id rid = true) as Hl.
  { apply existsb_elem. exists c. split; [apply checkpoint_rows_elem; by exists cid|].
    rewrite Hcur. cbn. apply existsb_elem. exists g. split; [done|]. by rewrite Hreq, eqb_refl. }
  unfold answer_mutations in Hms. fold rid in Hms. rewrite Hl in Hms.
  destruct (shaping_disposition (rs_resolution input)) as [status|] eqn:Hd; [|done].
  injection Hms as <-. cbn [apply_mutations] in Hap. peel Hap as t1 H1. peel Hap as t2 H2.
  injection Hap as <-. destruct (apply_project_mutation_ok _ _ _ _ _ Hok H1) as [[_ [Hb1 _]] _].
  destruct Hok as [_ [Hb _]]. cbn in H1, H2. peel H1 as actions Hact. injection H1 as <-.
  apply insert_resolution_Ok in Hact as [[_ _ _ Huniq _] ->].
  assert (gap_resolution_id g = None) as Hn.
  { pose proof (sb_settled _ Hb _ _ _ Hc Hg) as Hset. unfold gap_settled in Hset.
    destruct (sg_status g); [done|..]; destruct Hset as (r & id & q & Hr & _ & Hq & Hqr & _);
      rewrite Hreq in Hr; injection Hr as <-; exfalso; by eapply Huniq. }
  pose proof (unresolved_link_of _ cid c g rid Hb1 Hc Hg Hreq Hn) as Hlink.
  unfold resolve_shaping_gap in H2. do 3 (peel H2 as [] ?). peel H2 as q Hq. peel H2 as expected He.
  peel H2 as [] Hdisp. rewrite Hlink in H2. rewrite !ensure_bind in H2. destruct H2 as (_ & _ & [= <-]).
  set (f := with_gap_status _ _). exists (settle_readiness (update_gap (sg_shaping_gap_id g) f c)), (f g).
  destruct (sb_key _ Hb _ _ Hc) as [Hid _]. destruct (settle_kept (update_gap (sg_shaping_gap_id g) f c)) as (_ & Hgaps & _).
  split_and!; [by cbn; rewrite Hid, lookup_insert_eq| |done| |done].
  - rewrite Hgaps. cbn. apply list_elem_of_fmap. exists g. by rewrite eqb_refl.
  - unfold f, gap_resolution_id, gap_request_id in *. cbn. by destruct (sg_user_action g).
Qed.

(** C12: After any sequence of commits a Task has at most one current checkpoint; a ready
    checkpoint has a baseline, an implementation boundary and no open gap; an open gap names
    no answer, and a settled one a stored answer of its own request whose outcome gives
    exactly its status; and every current application is linked by the current checkpoint
    of its Task.  The mutations planned for an answer settle the gap that asks it: once they
    are applied the gap of the current checkpoint names that answer and has its status. *)
Theorem reachable_shaping s :
  project_reachable sha256 s →
  let t := tables_of s in
  (∀ cid c, pt_checkpoints t !! cid = Some c →
     ready_ok c ∧ (∀ g, g ∈ sc_gaps c → gap_settled t g)
     ∧ ∀ cid' c' task_id, pt_checkpoints t !! cid' = Some c' →
         is_current_checkpoint task_id c = true → is_current_checkpoint task_id c' = true → cid' = cid)
  ∧ (∀ id a, pt_applications t !! id = Some a → sda_authority_status a = AppCurrent →
      ∃ cid c, pt_checkpoints t !! cid = Some c ∧ is_current_checkpoint (sda_task_id a) c = true
        ∧ linked t cid id)
  ∧ ∀ task_id input ms at_ facts t' cid c g,
      answer_mutations t task_id input = Ok ms → apply_mutations ms at_ facts t = Ok t' →
      pt_checkpoints t !! cid = Some c → is_current_checkpoint task_id c = true → g ∈ sc_gaps c →
      gap_request_id g = Some (rs_user_action_request_id input) →
      ∃ c' g', pt_checkpoints t' !! cid = Some c' ∧ g' ∈ sc_gaps c'
        ∧ sg_shaping_gap_id g' = sg_shaping_gap_id g
        ∧ gap_resolution_id g' = Some (rs_user_action_resolution_id input)
        ∧ shaping_disposition (rs_resolution input) = Some (sg_status g').
Proof.
  intros [Hok _]%project_reachable_ok t. pose proof Hok as [_ [Hb Hat]].
  split_and!; [|exact Hat|intros; by eapply answer_settles]. intros cid c Hc. split_and!.
  - by apply (sb_ready _ Hb _ _ Hc).
  - intros g. by apply (sb_settled _ Hb _ _ _ Hc).
  - intros cid' c' task_id Hc' H1 H2. by eapply (sb_one _ Hb).
Qed.

(** Replacing a Task's criteria has exactly this effect: each submitted criterion is
    inserted, or updated when its row is active and of this Task, and silently ignored when
    the row is retired or another Task's; every other active row of the Task is retired and
    nothing else changes.  The criteria the Task then reads are the submitted ones that were
    not ignored. *)
Theorem criteria_replaced_exactly s input at_ s' :
  committed_ok s → NoDup (acu_acceptance_criterion_id <$> acx_criteria input) →
  replace_acceptance_criteria s input at_ = Ok s' →
  (∀ id, pt_criteria s' !! id =
     match find_criterion id (acx_criteria input) with
     | Some c => Some (upserted (pt_project_id s) (acx_task_id input) (pt_criteria s !! id) c)
     | None => (λ row, if active_of_task (acx_task_id input) row
                       then retired_criterion at_ row else row) <$> pt_criteria s !! id
     end)
  ∧ (∀ row, row ∈ active_acceptance_criteria s' (acx_task_id input) ↔
      ∃ c, c ∈ acx_criteria input
        ∧ row = upserted (pt_project_id s) (acx_task_id input)
                  (pt_criteria s !! acu_acceptance_criterion_id c) c
        ∧ is_none_or (pt_criteria s !! acu_acceptance_criterion_id c)
            (active_of_task (acx_task_id input)) = true).
Proof.
  intros Hok Hnd H. assert (criteria_keyed s) as Hk by apply Hok.
  pose proof (λ id, replaced_criterion_lookup s input at_ s' id Hk Hnd H) as Hl.
  split; [exact Hl|]. intros row. rewrite elem_of_active_criteria. split.
  - intros (Hact & id & Hid). rewrite Hl in Hid. destruct (find_criterion id _) as [c|] eqn:Hc.
    + apply find_criterion_Some in Hc as [Hin <-]. exists c. injection Hid as <-.
      split_and!; [done|done|]. unfold upserted in Hact.
      destruct (pt_criteria s !! _) as [old|]; cbn; [|done].
      by destruct (active_of_task _ old) eqn:Ho; [|rewrite Ho in Hact].
    + apply fmap_Some in Hid as (old & _ & ->).
      destruct (active_of_task _ old) eqn:Ho; [|by rewrite Ho in Hact].
      by apply active_of_task_true in Hact as [_ ?].
  - intros (c & Hin & -> & Hfree). split.
    + unfold upserted. destruct (pt_criteria s !! _) as [old|]; cbn in Hfree.
      * rewrite Hfree. apply active_of_task_true in Hfree as [? ?]. by apply active_of_task_true.
      * by apply active_of_task_true.
    + exists (acu_acceptance_criterion_id c). rewrite Hl.
      destruct (find_criterion _ _) as [c'|] eqn:Hc.
      * apply find_criterion_Some in Hc as [Hin' He].
        assert (c' = c) as ->; [|done]. by eapply (NoDup_fmap_inj_elem acu_acceptance_criterion_id).
      * apply find_criterion_None in Hc. destruct Hc. by apply list_elem_of_fmap_2.
Qed.

(** C20: Closing a Task ends the shaping authority applied under it: the Task gets the
    submitted terminal columns, every application of it that was current is superseded at
    the commit time together with the basis of the user action behind it, none of its
    applications is current afterwards, and no other application or request changes. *)
Theorem closed_task_authority_ends s input at_ s' :
  committed_ok s → close_task s input at_ = Ok s' →
  authority_ended s s' (tcl_task_id input) at_
  ∧ ∃ row, pt_tasks s !! tcl_task_id input = Some row
      ∧ pt_tasks s' = <[tcl_task_id input :=
          ended_task (tcl_lifecycle_phase input) (tcl_result input) (tcl_close_summary input)
            (tcl_closed_at input) row]> (pt_tasks s).
Proof.
  intros [[Hb _] _] H. unfold close_task in H. peel H as [] ?. peel H as s1 H1.
  pose proof (supersede_applications_framed _ _ _ _ H1) as (_ & Ht & _).
  apply supersede_applications_ended in H1; [|done].
  apply update_task_Ok in H as (row & Hrow & ->). rewrite Ht in *. split; [|eauto].
  destruct H1. by constructor.
Qed.
End theorems.

(** ** Witnesses *)

#[local] Existing Instance decimal_chrono.
#[local] Existing Instance small_size.
#[local] Existing Instance sample_json.

#[local] Instance constant_digest : CaptureDigest := {
  json_text _ := "{}";
  sha256_hex _ := "cccccccccccccccccccccccccccccccccccccccccccccccccccccccccccccccc";
  sha256_hex_canonical _ := eq_refl;
}.

Definition empty_tables (project_id : string) : TaskTables :=
  {| pt_project_id := project_id; pt_active_task_id := None; pt_tasks := ∅; pt_criteria := ∅;
     pt_change_units := ∅; pt_checkpoints := ∅; pt_checkpoint_applications := [];
     pt_applications := ∅; pt_reauthorizations := ∅; pt_user_actions := empty_user_actions project_id |}.

Lemma empty_tables_ok project_id : project_ok (empty_tables project_id).
Proof.
  split; [|done]. constructor; constructor; [constructor| |constructor|];
    repeat intros ?; cbn in *; simplify_map_eq.
Qed.

Definition sample_task_insert : TaskInsert :=
  {| tn_task_id := "t1"; tn_created_by_actor_source := LocalUser; tn_mode := Work;
     tn_requested_control_level := RAuto; tn_effective_control_level := Light;
     tn_control_level_reason := "policy"; tn_work_phase := Implementation;
     tn_acceptance_policy := PolicyDependent; tn_acceptance_policy_reason := "policy";
     tn_predecessor_task_id := None; tn_lineage_relation := None; tn_lineage_reason := None;
     tn_carry_forward := []; tn_lifecycle_phase := PReady; tn_result := None;
     tn_title := Some "Fix"; tn_summary := None;
     tn_shaping :=
       {| sf_facts := {| goal_summary := None; scope_summary := None; non_goals := [];
                         shaping_baseline_ref := Some "base"; shaping_autonomy_boundary := None |};
          sf_initial_context_refs := []; sf_initial_source_refs := [] |};
     tn_bounded_context := []; tn_autonomy_boundary := None;
     tn_close_summary := close_summary_default; tn_current_change_unit_id := None |}.

Definition sample_unit_insert (id : string) : ChangeUnitInsert :=
  {| cui_change_unit_id := id; cui_task_id := "t1";
     cui_scope_summary := {| css_scope_summary := None; css_affected_areas := [];
                             css_constraints := [] |};
     cui_bounded_paths := ["src"]; cui_write_basis_baseline_ref := Some "base";
     cui_write_basis_git_workspace_context := None; cui_effect_contract := None;
     cui_recovery_required := false |}.

Definition sample_criterion (id statement : string) : AcceptanceCriterionUpsert :=
  {| acu_acceptance_criterion_id := id; acu_statement := statement;
     acu_evidence_requirement := EvRequired; acu_position := 0 |}.

Definition sample_criteria (criteria : list AcceptanceCriterionUpsert) : AcceptanceCriteriaReplace :=
  {| acx_task_id := "t1"; acx_criteria := criteria |}.

(** A commit that creates the Task with its Change Unit and criteria. *)
Definition create_mutations : list ProjectMutation :=
  [PmTask (TmInsert sample_task_insert); PmTask (TmSetActive "t1");
   PmChangeUnit (CmInsertCurrent (sample_unit_insert "cu1"));
   PmTask (TmReplaceAcceptanceCriteria
             (sample_criteria [sample_criterion "c1" "builds"; sample_criterion "c2" "tests"]))].

(** A commit that replaces the Change Unit and raises the control level. *)
Definition raise_mutations : list ProjectMutation :=
  [PmChangeUnit (CmReplaceCurrent (sample_unit_insert "cu2"));
   PmTask (TmUpdateControlLevel
     {| tcu_task_id := "t1"; tcu_effective_control_level := Tracked;
        tcu_control_level_reason := "risk"; tcu_acceptance_policy := Some Required;
        tcu_acceptance_policy_reason := Some "risk" |})].

Definition project_input (key event_id : string) (version : N) : CommitMutationInput :=
  commit_input "p" MUpdateScope (Some key) "hash" (Some sample_replay_context) (Some version)
    [{| pe_event_id := event_id; pe_task_id := Some "t1"; pe_change_unit_id := None;
        pe_event_kind := "scope_updated"; pe_event_payload_json := "{}" |}].

Definition run_commit (s : CoreProjectStore TaskTables) (key event_id : string) (version : N)
    (mutations : list ProjectMutation) :=
  commit_mutation identity_digest s 150 (project_input key event_id version) mutations sample_build.

Definition after (s : CoreProjectStore TaskTables) (key event_id : string) (version : N)
    (mutations : list ProjectMutation) : CoreProjectStore TaskTables :=
  match run_commit s key event_id version mutations with Ok (_, s) => s | Err _ => s end.

Definition sample_new : CoreProjectStore TaskTables := fresh_store "p" "/home" 100 (empty_tables "p").
Definition sample_created : CoreProjectStore TaskTables := after sample_new "k1" "e1" 0 create_mutations.
Definition sample_raised : CoreProjectStore TaskTables := after sample_created "k2" "e2" 1 raise_mutations.

(** The outcome of a sample commit. *)
Definition sample_outcome (event_id : string) (version : N) : MutationCommitOutcome :=
  Committed "{}" version (version + 1)
    [{| cer_event_id := event_id; cer_event_kind := "scope_updated" |}].

(** The next commit of a reached project. *)
Lemma reach_next s key event_id version mutations s' :
  project_reachable identity_digest s →
  run_commit s key event_id version mutations = Ok (sample_outcome event_id version, s') →
  project_reachable identity_digest s'.
Proof.
  intros (p & home & t & d & Hok & Hr) H. exists p, home, t, d. split; [done|].
  eapply rtc_r; [exact Hr|]. by eapply project_commit.
Qed.

Lemma sample_new_reachable : project_reachable identity_digest sample_new.
Proof.
  exists "p", "/home", 100%Z, (empty_tables "p"). split; [apply empty_tables_ok|apply rtc_refl].
Qed.

Lemma sample_created_reachable : project_reachable identity_digest sample_created.
Proof.
  eapply (reach_next sample_new "k1" "e1" 0 create_mutations);
    [exact sample_new_reachable|vm_compute; reflexivity].
Qed.

Lemma sample_raised_step : project_step identity_digest sample_created sample_raised.
Proof.
  eapply (project_commit _ _ _ 150 (project_input "k2" "e2" 1) raise_mutations sample_build
    (sample_outcome "e2" 1)). vm_compute. reflexivity.
Qed.

Lemma sample_raised_reachable : project_reachable identity_digest sample_raised.
Proof.
  eapply (reach_next sample_created "k2" "e2" 1 raise_mutations);
    [exact sample_created_reachable|vm_compute; reflexivity].
Qed.

Lemma reachable_change_units_witness :
  (∃ u, current_change_unit_row (tables_of sample_raised) "t1" = Ok (Some u)
     ∧ cu_change_unit_id (cur_unit u) = "cu2")
  ∧ task_exists (tables_of sample_raised) "t1" = true.
Proof.
  destruct (reachable_change_units identity_digest sample_raised sample_raised_reachable) as [Hu Ha].
  split; [|by apply Ha; vm_compute].
  destruct (pt_tasks (tables_of sample_raised) !! "t1") as [row|] eqn:Hrow; [|by vm_compute in Hrow].
  specialize (Hu _ _ Hrow). unfold current_unit_agrees in Hu.
  assert (tk_current_change_unit_id (tr_task row) = Some "cu2") as Hp.
  { vm_compute in Hrow. by injection Hrow as <-. }
  rewrite Hp in Hu. destruct Hu as (u & Hl & Hread & _). exists u. split; [exact Hread|].
  vm_compute in Hl. by injection Hl as <-.
Defined.

Lemma task_tables_monotonic_witness :
  ∃ r r', pt_tasks (tables_of sample_created) !! "t1" = Some r
    ∧ pt_tasks (tables_of sample_raised) !! "t1" = Some r' ∧ task_kept r r'.
Proof.
  destruct (pt_tasks (tables_of sample_created) !! "t1") as [r|] eqn:Hr; [|by vm_compute in Hr].
  destruct (step_tasks _ _ (pk_tables _ _ (task_tables_monotonic identity_digest sample_created sample_raised
    sample_created_reachable (rtc_once _ _ sample_raised_step))) _ _ Hr) as (r' & Hr' & Hk).
  exists r, r'. split; [reflexivity|]. split; [exact Hr'|exact Hk].
Defined.

(** The criteria are replaced by the first one, reworded, and a new one. *)
Definition reworded : AcceptanceCriteriaReplace :=
  sample_criteria [sample_criterion "c1" "builds cleanly"; sample_criterion "c3" "documented"].

Definition sample_replaced : TaskTables :=
  match replace_acceptance_criteria (tables_of sample_raised) reworded 160 with
  | Ok s => s
  | Err _ => tables_of sample_raised
  end.

Lemma criteria_replaced_exactly_witness :
  (cri_status <$> pt_criteria sample_replaced !! "c2") = Some CriterionRetired
  ∧ (cri_statement <$> pt_criteria sample_replaced !! "c1") = Some "builds cleanly".
Proof.
  destruct (criteria_replaced_exactly (tables_of sample_raised) reworded 160 sample_replaced)
    as [Hl _].
  - apply project_ok_committed, (project_reachable_ok identity_digest), sample_raised_reachable.
  - apply (bool_decide_unpack _). vm_compute. exact I.
  - vm_compute. reflexivity.
  - rewrite (Hl "c2"), (Hl "c1"). split; vm_compute; reflexivity.
Defined.

(** The Task with an application of the answer to the request [req1]. *)
Definition sample_application : ShapingDecisionApplicationRecord :=
  {| sda_project_id := "p"; sda_shaping_decision_application_id := "app1"; sda_task_id := "t1";
     sda_source_checkpoint_id := "cp1"; sda_source_gap_id := "gap1";
     sda_user_action_request_id := "req1"; sda_user_action_resolution_id := "res1";
     sda_judgment_kind := JTechnicalDecision; sda_application_owner := OwnAdvanceTask;
     sda_applied_scope_revision := 0; sda_applied_baseline_ref := "base";
     sda_applied_change_unit_id := Some "cu2"; sda_applied_at := 140%Z;
     sda_authority_status := AppCurrent; sda_stale_at := None; sda_superseded_at := None;
     sda_linked_checkpoint_id := None; sda_carried_from_checkpoint_id := None |}.

Definition applied_tables : TaskTables :=
  set_authority (tables_of sample_raised) {[ "app1" := sample_application ]} sample_answered.

Lemma set_authority_ok s applications actions :
  committed_ok s →
  (∀ id a, applications !! id = Some a →
     sda_shaping_decision_application_id a = id ∧ is_Some (pt_tasks s !! sda_task_id a)) →
  committed_ok (set_authority s applications actions).
Proof. intros [[[] ?] ?] Ha. split; [|done]. constructor; [by constructor|done]. Qed.

Lemma applied_tables_ok : committed_ok applied_tables.
Proof.
  apply set_authority_ok.
  - apply project_ok_committed, (project_reachable_ok identity_digest), sample_raised_reachable.
  - intros id a [<- <-]%lookup_singleton_Some. split; [reflexivity|].
    eexists. vm_compute. reflexivity.
Qed.

Definition sample_close : TaskCloseUpdate :=
  {| tcl_task_id := "t1"; tcl_lifecycle_phase := PCompleted; tcl_result := ResultCompleted;
     tcl_close_summary := close_summary_of_reason CompletedSelfChecked; tcl_closed_at := 300%Z |}.

Definition sample_ended : TaskTables :=
  match close_task applied_tables sample_close 300 with Ok s => s | Err _ => applied_tables end.

Lemma closed_task_authority_ends_witness :
  (sda_authority_status <$> pt_applications sample_ended !! "app1") = Some AppSuperseded
  ∧ request_superseded (pt_user_actions sample_ended) "req1".
Proof.
  destruct (closed_task_authority_ends applied_tables sample_close 300 sample_ended)
    as [Hend _]; [exact applied_tables_ok|vm_compute; reflexivity|].
  destruct (ended_superseded _ _ _ _ Hend "app1" sample_application) as [Ha Hr];
    [vm_compute; reflexivity|reflexivity|reflexivity|]. rewrite Ha. split; [reflexivity|exact Hr].
Defined.

(** *** A decision from its question to its application *)

(** The Task in shaping, with its Change Unit. *)
Definition shaping_mutations : list ProjectMutation :=
  [PmTask (TmInsert
     {| tn_task_id := "t1"; tn_created_by_actor_source := LocalUser; tn_mode := Work;
        tn_requested_control_level := RAuto; tn_effective_control_level := Light;
        tn_control_level_reason := "policy"; tn_work_phase := ShapingPhase;
        tn_acceptance_policy := PolicyDependent; tn_acceptance_policy_reason := "policy";
        tn_predecessor_task_id := None; tn_lineage_relation := None; tn_lineage_reason := None;
        tn_carry_forward := []; tn_lifecycle_phase := PShaping; tn_result := None;
        tn_title := Some "Fix"; tn_summary := None; tn_shaping := tn_shaping sample_task_insert;
        tn_bounded_context := []; tn_autonomy_boundary := None;
        tn_close_summary := close_summary_default; tn_current_change_unit_id := None |});
   PmTask (TmSetActive "t1"); PmChangeUnit (CmInsertCurrent (sample_unit_insert "cu1"))].

Definition question_basis : UserActionBasis :=
  BasisChoice
    {| ch_coordinates :=
         {| co_task_id := "t1"; co_change_unit_id := Some "cu1"; co_scope_revision := 0;
            co_baseline_ref := Some "base"; co_created_at_state_version := 1;
            co_compatibility_status := BasisCurrent |};
       ch_close_basis_revision := None; ch_result_refs := []; ch_residual_risk_ids := [];
       ch_sensitive_action_scope := None |}.

Definition question_insert : UserActionRequestInsert :=
  {| rq_user_action_request_id := "req1"; rq_task_id := "t1"; rq_change_unit_id := Some "cu1";
     rq_action_kind := TechnicalDecision;
     rq_request := {| pr_body := BodyChoice sample_choice_body; pr_required_for := [ForAdvanceTask];
                      pr_expires_at := Some 500%Z |};
     rq_basis := question_basis; rq_basis_status := BasisCurrent;
     rq_required_for := [ForAdvanceTask]; rq_requested_by_actor_source := LocalUser;
     rq_source_method := MRecordShapingCheckpoint; rq_source_idempotency_key := "k2";
     rq_requested_at := 100%Z; rq_expires_at := Some 500%Z;
     rq_metadata := MetaShaping MRecordShapingCheckpoint "cp1" "gap1" None |}.

Definition checkpoint_insert (id : string) (operation : ShapingCheckpointOperation)
    (readiness : ShapingCheckpointReadiness) (carried : list string)
    (gaps : list ShapingCheckpointGapInsert) : ShapingCheckpointInsert :=
  {| sci_shaping_checkpoint_id := id; sci_checkpoint_operation := operation; sci_task_id := "t1";
     sci_scope_revision := 0; sci_baseline_ref := Some "base"; sci_summary := "shape";
     sci_implementation_boundary := Some "src"; sci_readiness := readiness; sci_source_refs := [];
     sci_evidence_refs := []; sci_created_at := 150%Z; sci_retired_non_authorizing_request_ids := [];
     sci_carry_forward_application_ids := carried; sci_stale_authority_dispositions := [];
     sci_gaps := gaps |}.

Definition question_gap : ShapingCheckpointGapInsert :=
  {| sgi_shaping_gap_id := "gap1"; sgi_gap_kind := UserTechnicalDecisionRequired;
     sgi_summary := "which design"; sgi_affected_refs := []; sgi_reauthorizes_application_id := None;
     sgi_user_action := Some {| sui_user_action_request_id := "req1";
                                sui_action_kind := TechnicalDecision |} |}.

Definition ask_mutations : list ProjectMutation :=
  [PmUserAction (InsertRequest question_insert);
   PmShaping (SmRecord (checkpoint_insert "cp1" OpCreateInitial CheckpointBlocked [] [question_gap]))].

Definition sample_answer_mutations : list ProjectMutation :=
  [PmUserAction (InsertResolution (sample_resolution_insert "res1" "req1" "sub1"));
   PmShaping (SmResolveLinkedGap "req1" "res1" GapAccepted)].

Definition decision_id : string := shaping_decision_application_id "res1" OwnAdvanceTask.

Definition sample_advance : ShapingAdvanceApplication :=
  {| saa_task_id := "t1"; saa_shaping_checkpoint_id := "cp1"; saa_change_unit_id := "cu1";
     saa_scope_revision := 0; saa_baseline_ref := "base";
     saa_applications := [{| sga_shaping_decision_application_id := decision_id;
                             sga_shaping_gap_id := "gap1";
                             sga_user_action_resolution_id := "res1" |}] |}.

Definition advance_mutations : list ProjectMutation :=
  [PmShaping (SmApplyAdvanceAndTransition sample_advance)].

Definition sample_shaping : CoreProjectStore TaskTables := after sample_new "k1" "e1" 0 shaping_mutations.
Definition sample_asking : CoreProjectStore TaskTables := after sample_shaping "k2" "e2" 1 ask_mutations.
Definition sample_decided : CoreProjectStore TaskTables := after sample_asking "k3" "e3" 2 sample_answer_mutations.
Definition sample_advanced : CoreProjectStore TaskTables :=
  after sample_decided "k4" "e4" 3 advance_mutations.

(** A changed scope makes the applied decision stale, and the next checkpoint retires it. *)
Definition rescope_mutations : list ProjectMutation :=
  [PmTask (TmUpdateScope
     {| tsu_task_id := "t1"; tsu_shaping := None; tsu_bounded_context := None;
        tsu_autonomy_boundary := None; tsu_close_summary := None;
        tsu_lifecycle_phase := Some PShaping; tsu_work_phase := Some ShapingPhase;
        tsu_result := None; tsu_title := None; tsu_summary := None |});
   PmTask (TmUpdateScopeRevision {| tru_task_id := "t1"; tru_scope_revision := 1 |});
   PmShaping (SmApplyScopeAndRebaseCurrent "t1" "cp1" 1 (Some "base") (Some "cu1") [])].

Definition sample_stale : CoreProjectStore TaskTables :=
  after sample_advanced "k5" "e5" 4 rescope_mutations.

Definition replace_insert : ShapingCheckpointInsert :=
  {| sci_shaping_checkpoint_id := "cp2";
     sci_checkpoint_operation := OpReplaceCurrent "cp1" [] []
       [StaleRetire (state_ref KShapingDecisionApplication decision_id "p" (Some "t1") None)];
     sci_task_id := "t1"; sci_scope_revision := 1; sci_baseline_ref := Some "base";
     sci_summary := "reshape"; sci_implementation_boundary := Some "src";
     sci_readiness := CheckpointReady; sci_source_refs := []; sci_evidence_refs := [];
     sci_created_at := 150%Z; sci_retired_non_authorizing_request_ids := [];
     sci_carry_forward_application_ids := [];
     sci_stale_authority_dispositions :=
       [{| sad_stale_application_id := decision_id; sad_stale_user_action_request_id := "req1";
           sad_outcome := OutRetired; sad_successor_gap_id := None;
           sad_successor_user_action_request_id := None |}];
     sci_gaps := [] |}.

Definition sample_reshaped : TaskTables :=
  match record_shaping_checkpoint (tables_of sample_stale) replace_insert 160 with
  | Ok s => s
  | Err _ => tables_of sample_stale
  end.

Lemma sample_decided_reachable : project_reachable identity_digest sample_decided.
Proof.
  eapply (reach_next sample_asking "k3" "e3" 2 sample_answer_mutations); [|vm_compute; reflexivity].
  eapply (reach_next sample_shaping "k2" "e2" 1 ask_mutations); [|vm_compute; reflexivity].
  eapply (reach_next sample_new "k1" "e1" 0 shaping_mutations); [|vm_compute; reflexivity].
  exact sample_new_reachable.
Qed.

Lemma sample_advanced_reachable : project_reachable identity_digest sample_advanced.
Proof.
  eapply (reach_next sample_decided "k4" "e4" 3 advance_mutations); [exact sample_decided_reachable|vm_compute; reflexivity].
Qed.

Lemma sample_stale_reachable : project_reachable identity_digest sample_stale.
Proof.
  eapply (reach_next sample_advanced "k5" "e5" 4 rescope_mutations);
    [exact sample_advanced_reachable|vm_compute; reflexivity].
Qed.

Lemma applied_decisions_accepted_witness :
  ∃ a, pt_applications (tables_of sample_advanced) !! decision_id = Some a
    ∧ application_rests (tables_of sample_advanced) a.
Proof.
  destruct (pt_applications (tables_of sample_advanced) !! decision_id) as [a|] eqn:Ha;
    [|by vm_compute in Ha].
  exists a. split; [reflexivity|].
  exact (proj1 (applied_decisions_accepted identity_digest sample_advanced decision_id a
    sample_advanced_reachable Ha)).
Defined.

Lemma reachable_shaping_witness :
  ∃ cid, linked (tables_of sample_advanced) cid decision_id.
Proof.
  destruct (reachable_shaping identity_digest sample_advanced sample_advanced_reachable) as (_ & Hat & _).
  destruct (pt_applications (tables_of sample_advanced) !! decision_id) as [a|] eqn:Ha;
    [|by vm_compute in Ha].
  destruct (Hat _ _ Ha) as (cid & _ & _ & _ & Hl); [vm_compute in Ha; by injection Ha as <-|].
  exists cid. exact Hl.
Defined.

Lemma advance_leaves_shaping_witness :
  Forall (applied_under (tables_of sample_advanced) "t1" "cp1" OwnAdvanceTask
            (advance_basis sample_advance) 150) (saa_applications sample_advance).
Proof.
  destruct (advance_leaves_shaping (tables_of sample_decided) sample_advance 150
    (tables_of sample_advanced)) as (_ & _ & Happ & _).
  - apply (project_reachable_ok identity_digest), sample_decided_reachable.
  - vm_compute. reflexivity.
  - apply Forall_forall. exact Happ.
Defined.

Lemma checkpoint_replaced_exactly_witness :
  (sda_authority_status <$> pt_applications sample_reshaped !! decision_id) = Some AppSuperseded
  ∧ request_at sample_reshaped "req1" BasisSuperseded.
Proof.
  destruct (pt_applications (tables_of sample_stale) !! decision_id) as [a|] eqn:Ha;
    [|by vm_compute in Ha].
  assert (sda_user_action_request_id a = "req1"
    ∧ stale_unconsumed (tables_of sample_stale) "t1" a = true) as [Hr Hs].
  { vm_compute in Ha. injection Ha as <-. split; vm_compute; reflexivity. }
  destruct (checkpoint_replaced_exactly (tables_of sample_stale) replace_insert
    "cp1" _ _ _ 160 sample_reshaped (con_shaping _ (proj1 (project_reachable_ok identity_digest _ sample_stale_reachable))) eq_refl
    ltac:(vm_compute; reflexivity)) as [old Hre].
  destruct (re_consumed _ _ _ _ _ _ Hre _ _ Ha Hs) as (Hc & Hq & _).
  rewrite Hc, <-Hr. split; [reflexivity|exact Hq].
Defined.
