(* ===== verification/HostTools.v ===== *)
(** * HostTools: tool identities, callable names and hook routing

    Models volicord-types/src/tool_names.rs, the catalog of Agent Connection tools, and
    the naming half of volicord-host-contract/src/lib.rs: the validated host names, the
    projection of an MCP tool to the flattened name a host shows, the collision-checked
    catalog of those names, and the matcher that routes a tool call through the hooks.
    SHA-1 is library code and enters as the parameter [sha1]; a newtype of the source
    whose constructor is [parse] is the parsed string. *)

From Stdlib Require Import Ascii.
From S2P Require Import Prelude Text Values Canonical Commit UserActionShape Capture.

(** ** tool_names.rs *)

Inductive ProductRepositoryEffect := NoProductWrite | MayWriteProduct | UnknownProductEffect.
#[export] Instance ProductRepositoryEffect_eq_dec : EqDecision ProductRepositoryEffect.
Proof. solve_decision. Defined.

Definition ProductRepositoryEffect_as_str (e : ProductRepositoryEffect) : string :=
  match e with
  | NoProductWrite => "no_product_write"
  | MayWriteProduct => "may_write_product"
  | UnknownProductEffect => "unknown_product_effect"
  end.

Inductive IntegrationVerificationToolRole := ProbeTarget | WorkflowControl | UnrelatedKnownTool.
#[export] Instance IntegrationVerificationToolRole_eq_dec : EqDecision IntegrationVerificationToolRole.
Proof. solve_decision. Defined.

Inductive AgentToolCategory := ToolReadOnly | NonDestructiveMutation | DestructiveMutation.
#[export] Instance AgentToolCategory_eq_dec : EqDecision AgentToolCategory.
Proof. solve_decision. Defined.

Definition operation_category (c : AgentToolCategory) : OperationCategory :=
  match c with
  | ToolReadOnly => Read
  | NonDestructiveMutation | DestructiveMutation => AgentWorkflow
  end.

Inductive AgentToolOwner := CoreMethod (method : MethodName) | AdapterUtility | ConnectionIntegration.
#[export] Instance AgentToolOwner_eq_dec : EqDecision AgentToolOwner.
Proof. solve_decision. Defined.

(** [AgentToolId] with its private [AgentToolKind]; the values that exist are [ALL]. *)
Inductive AgentToolId :=
| ToolMethod (method : MethodName)
| ListProjects
| BeginIntegrationVerification
| GuardProbe
| GetIntegrationVerification.
#[export] Instance AgentToolId_eq_dec : EqDecision AgentToolId.
Proof. solve_decision. Defined.

(** [AgentToolId::ALL], in discovery order. *)
Definition ALL_TOOLS : list AgentToolId :=
  [ToolMethod MIntake; ToolMethod MUpdateScope; ToolMethod MRecordShapingCheckpoint;
   ToolMethod MFinalizeAdvice; ToolMethod MAdvanceTask; ToolMethod MStatus;
   ToolMethod MGetOperationResult; ToolMethod MPrepareEvidenceCapture; ToolMethod MPrepareWrite;
   ToolMethod MStageArtifact; ToolMethod MRecordRun; ToolMethod MRequestUserAction;
   ToolMethod MReconcileChanges; ToolMethod MCheckClose; ToolMethod MCloseTask; ListProjects;
   BeginIntegrationVerification; GuardProbe; GetIntegrationVerification].

Definition from_method (m : MethodName) : option AgentToolId :=
  match m with
  | MResolveUserAction => None
  | MIntake | MUpdateScope | MRecordShapingCheckpoint | MFinalizeAdvice | MAdvanceTask | MStatus
  | MGetOperationResult | MCheckClose | MPrepareEvidenceCapture | MPrepareWrite | MStageArtifact
  | MRecordRun | MRequestUserAction | MReconcileChanges | MCloseTask => Some (ToolMethod m)
  end.

Definition wire_name (t : AgentToolId) : string :=
  match t with
  | ToolMethod method => MethodName_as_str method
  | ListProjects => "volicord.list_projects"
  | BeginIntegrationVerification => "volicord.begin_integration_verification"
  | GuardProbe => "volicord.guard_probe"
  | GetIntegrationVerification => "volicord.get_integration_verification"
  end.

Definition from_wire_name (name : string) : option AgentToolId :=
  List.find (λ tool, wire_name tool =? name) ALL_TOOLS.

Definition category (t : AgentToolId) : AgentToolCategory :=
  match t with
  | ToolMethod (MStatus | MGetOperationResult | MCheckClose) | ListProjects => ToolReadOnly
  | BeginIntegrationVerification | GuardProbe | GetIntegrationVerification => NonDestructiveMutation
  | ToolMethod (MPrepareEvidenceCapture | MPrepareWrite | MStageArtifact) => NonDestructiveMutation
  | ToolMethod _ => DestructiveMutation
  end.

Definition product_repository_effect (t : AgentToolId) : ProductRepositoryEffect :=
  match t with
  | ToolMethod _ | ListProjects | BeginIntegrationVerification | GuardProbe
  | GetIntegrationVerification => NoProductWrite
  end.

Definition owner (t : AgentToolId) : AgentToolOwner :=
  match t with
  | ToolMethod method => CoreMethod method
  | ListProjects => AdapterUtility
  | BeginIntegrationVerification | GuardProbe | GetIntegrationVerification => ConnectionIntegration
  end.

Definition available_in (t : AgentToolId) (mode : AgentConnectionMode) : bool :=
  match mode with
  | WorkflowMode => true
  | ReadOnly => (owner t =? ConnectionIntegration) || (category t =? ToolReadOnly)
  end.

Definition integration_verification_role (t : AgentToolId) : IntegrationVerificationToolRole :=
  match t with
  | GuardProbe => ProbeTarget
  | BeginIntegrationVerification | GetIntegrationVerification => WorkflowControl
  | ToolMethod _ | ListProjects => UnrelatedKnownTool
  end.

(** ** Errors of the host contract *)

Inductive HostContractErrorCode :=
| MissingRequiredFieldCode | InvalidFieldCode | UnexpectedValueCode | InconsistentCorrelationCode
| PayloadTooLargeCode | DuplicateMcpToolIdentityCode | CallableNameCollisionCode
| UnknownCallableNameCode | UnknownMcpToolIdentityCode.
#[export] Instance HostContractErrorCode_eq_dec : EqDecision HostContractErrorCode.
Proof. solve_decision. Defined.

Record HostContractError := MkHostContractError {
  hce_code : HostContractErrorCode;
  hce_field : string;
}.
#[export] Instance HostContractError_eq_dec : EqDecision HostContractError.
Proof. solve_decision. Defined.

(** ** Validated names *)

Definition MAX_TOOL_NAME_BYTES : nat := 256.
Definition MAX_HOST_CALLABLE_NAME_BYTES : nat := 64.
Definition CALLABLE_NAME_HASH_LEN : nat := 12.
Definition MAX_MANAGED_HOST_NATIVE_SESSION_ID_BYTES : nat := 256.
Definition MCP_TOOL_NAME_DELIMITER : string := "__".
Definition CODEX_MCP_TOOL_PREFIX : string := "mcp__".

Definition valid_or (valid : bool) (value : string) (e : HostContractError)
    : result string HostContractError :=
  if valid then Ok value else Err e.

(** [validate_managed_host_native_session_id]. *)
Definition is_native_id (value : string) : bool :=
  negb (str_is_empty value)
  && (String.length value <=? MAX_MANAGED_HOST_NATIVE_SESSION_ID_BYTES)%nat
  && str_forall (λ c, is_ascii_alphabetic c || is_ascii_digit c
       || (c =? ".") || (c =? "_") || (c =? ":") || (c =? "-"))%char value.

(** [native_id!]: [HostSessionId], [HostThreadId], [HostTurnId] and [HostToolUseId]. *)
Definition native_id_parse (label value : string) : result string HostContractError :=
  valid_or (is_native_id value) value (MkHostContractError InvalidFieldCode label).

Definition is_bounded_name (value : string) : bool :=
  negb (str_is_empty value) && (String.length value <=? MAX_TOOL_NAME_BYTES)%nat
  && (trim value =? value) && negb (has_control value).

Definition CanonicalToolName_parse (value : string) : result string HostContractError :=
  valid_or (is_bounded_name value) value (MkHostContractError InvalidFieldCode "tool_name").

Definition McpServerKey_parse (value : string) : result string HostContractError :=
  valid_or (is_bounded_name value) value (MkHostContractError InvalidFieldCode "mcp_server_key").

Definition is_callable_char (c : ascii) : bool :=
  is_ascii_alphabetic c || is_ascii_digit c || (c =? "_")%char.

Definition is_callable_name (value : string) : bool :=
  negb (str_is_empty value) && (String.length value <=? MAX_HOST_CALLABLE_NAME_BYTES)%nat
  && str_forall is_callable_char value.

Definition HostCallableName_parse (value : string) : result string HostContractError :=
  valid_or (is_callable_name value) value (MkHostContractError InvalidFieldCode "host_callable_name").

Definition HostToolIdentity_parse (value : string) : result string HostContractError :=
  valid_or (is_callable_name value) value (MkHostContractError InvalidFieldCode "host_tool_identity").

Record McpToolIdentity := MkMcpToolIdentity {
  mti_server : string;
  mti_tool : AgentToolId;
  mti_raw_tool_name : string;
}.
#[export] Instance McpToolIdentity_eq_dec : EqDecision McpToolIdentity.
Proof. solve_decision. Defined.

(** [McpToolIdentity::new]. *)
Definition mcp_tool_identity (server : string) (tool : AgentToolId) : McpToolIdentity :=
  MkMcpToolIdentity server tool (wire_name tool).

(** The one profile of a callable identity is [CodexMcpCallableNames]. *)
Record HostCallableIdentity := MkCallable {
  hci_source : McpToolIdentity;
  hci_callable_name : string;
}.
#[export] Instance HostCallableIdentity_eq_dec : EqDecision HostCallableIdentity.
Proof. solve_decision. Defined.

(** ** [CodexMcpCallableNames] *)

(** One output character for each character of the text. *)
Fixpoint sanitize_chars (s : string) : string :=
  match s with
  | EmptyString => EmptyString
  | String c s =>
      if byte_between 128 191 c then sanitize_chars s
      else String (if is_callable_char c then c else "_"%char) (sanitize_chars s)
  end.

Definition sanitize_callable_part (value : string) : string :=
  let sanitized := sanitize_chars value in
  if str_is_empty sanitized then "_" else sanitized.

Definition codex_mcp_server_namespace (server : string) : string :=
  CODEX_MCP_TOOL_PREFIX +:+ sanitize_callable_part server.

Definition codex_mcp_server_namespace_prefix (server : string) : string :=
  codex_mcp_server_namespace server +:+ MCP_TOOL_NAME_DELIMITER.

Definition codex_mcp_server_namespace_matcher (server : string) : string :=
  codex_mcp_server_namespace_prefix server +:+ ".*".

Definition codex_raw_tool_identity (server raw_tool_name : string) : string :=
  let z := String Ascii.zero EmptyString in
  server +:+ z +:+ server +:+ z +:+ z +:+ raw_tool_name +:+ z +:+ raw_tool_name.

(** [chars().take(n)]: bytes that continue a character stay with it. *)
Fixpoint truncate_ascii (value : string) (max_len : nat) : string :=
  match value with
  | EmptyString => EmptyString
  | String c value =>
      if byte_between 128 191 c then String c (truncate_ascii value max_len)
      else match max_len with
           | O => EmptyString
           | S n => String c (truncate_ascii value n)
           end
  end.

Section sha1.
Variable sha1 : string → list ascii.

Definition callable_name_hash_suffix (raw_identity : string) : string :=
  "_" +:+ String.substring 0 CALLABLE_NAME_HASH_LEN (lowercase_hex (sha1 raw_identity)).

Definition fit_callable_parts (namespace callable raw_identity : string) (reserved_len : nat)
    : string * string :=
  if (String.length namespace + String.length callable + reserved_len
        <=? MAX_HOST_CALLABLE_NAME_BYTES)%nat
  then (namespace, callable)
  else
    let suffix := callable_name_hash_suffix raw_identity in
    let max_callable_len :=
      MAX_HOST_CALLABLE_NAME_BYTES - (String.length namespace + reserved_len) in
    if (String.length suffix <=? max_callable_len)%nat
    then (namespace,
          truncate_ascii callable (max_callable_len - String.length suffix) +:+ suffix)
    else
      let max_namespace_len :=
        MAX_HOST_CALLABLE_NAME_BYTES - (String.length suffix + reserved_len) in
      (truncate_ascii namespace max_namespace_len, suffix).

Definition project_mcp_tool (server : string) (tool : AgentToolId)
    : result HostCallableIdentity HostContractError :=
  let source := mcp_tool_identity server tool in
  let namespace := CODEX_MCP_TOOL_PREFIX +:+ sanitize_callable_part server in
  let raw_tool_name := mti_raw_tool_name source in
  let callable := sanitize_callable_part raw_tool_name in
  let raw_identity := codex_raw_tool_identity server raw_tool_name in
  let '(namespace, callable) := fit_callable_parts namespace callable raw_identity
                                  (String.length MCP_TOOL_NAME_DELIMITER) in
  let? callable_name :=
    HostCallableName_parse (namespace +:+ MCP_TOOL_NAME_DELIMITER +:+ callable) in
  Ok (MkCallable source callable_name).

(** ** [McpToolCatalog] *)

Record McpToolCatalog := MkCatalog {
  mtc_identities : list HostCallableIdentity;
  mtc_by_callable_name : gmap string McpToolIdentity;
}.

(** One iteration of [new_with_roles]; the [HashSet] of sources holds the sources of
    the identities pushed so far. *)
Definition register_tool (catalog : McpToolCatalog)
    (registration : string * AgentToolId * IntegrationVerificationToolRole)
    : result McpToolCatalog HostContractError :=
  let '(server, tool, declared_role) := registration in
  if declared_role <>? integration_verification_role tool
  then Err (MkHostContractError UnexpectedValueCode "integration_verification_tool_role")
  else
    let? identity := project_mcp_tool server tool in
    if contains (hci_source identity) (hci_source <$> mtc_identities catalog)
    then Err (MkHostContractError DuplicateMcpToolIdentityCode "mcp_tool_identity")
    else if is_some (mtc_by_callable_name catalog !! hci_callable_name identity)
    then Err (MkHostContractError CallableNameCollisionCode "host_callable_name")
    else Ok (MkCatalog (mtc_identities catalog ++ [identity])
               (<[hci_callable_name identity := hci_source identity]>
                  (mtc_by_callable_name catalog))).

Definition catalog_new_with_roles
    (registrations : list (string * AgentToolId * IntegrationVerificationToolRole))
    : result McpToolCatalog HostContractError :=
  try_foldl register_tool (MkCatalog [] ∅) registrations.

Definition catalog_for_server (server : string) (tools : list AgentToolId)
    : result McpToolCatalog HostContractError :=
  catalog_new_with_roles
    ((λ tool, (server, tool, integration_verification_role tool)) <$> tools).

Definition catalog_find (catalog : McpToolCatalog) (server : string) (tool : AgentToolId)
    : option HostCallableIdentity :=
  List.find (λ identity, (mti_server (hci_source identity) =? server)
                         && (mti_tool (hci_source identity) =? tool)) (mtc_identities catalog).

Definition parse_callable_name (value : string) (catalog : McpToolCatalog)
    : result McpToolIdentity HostContractError :=
  ok_or (mtc_by_callable_name catalog !! value)
    (MkHostContractError UnknownCallableNameCode "host_callable_name").

(** ** Native guard tools *)

Inductive CodexNativeGuardTool := Bash | ApplyPatch | Edit | Write.
#[export] Instance CodexNativeGuardTool_eq_dec : EqDecision CodexNativeGuardTool.
Proof. solve_decision. Defined.

Definition ALL_NATIVE_TOOLS : list CodexNativeGuardTool := [Bash; ApplyPatch; Edit; Write].

Definition native_as_str (t : CodexNativeGuardTool) : string :=
  match t with
  | Bash => "Bash"
  | ApplyPatch => "apply_patch"
  | Edit => "Edit"
  | Write => "Write"
  end.

Definition native_parse (value : string) : option CodexNativeGuardTool :=
  List.find (λ tool, native_as_str tool =? value) ALL_NATIVE_TOOLS.

Definition identity_effect (t : CodexNativeGuardTool) : ProductRepositoryEffect :=
  match t with
  | Bash => UnknownProductEffect
  | ApplyPatch | Edit | Write => MayWriteProduct
  end.

(** ** [HostHookMatcherStrategy] *)

Inductive HostHookMatcherStrategy :=
| HostTools (identities : list string)
| McpServerNamespace (server : string)
| ExactCallables (callables : list HostCallableIdentity)
| Union (strategies : list HostHookMatcherStrategy).

Definition codex_guard (server : string) : result HostHookMatcherStrategy HostContractError :=
  let? identities := try_map (λ tool, HostToolIdentity_parse (native_as_str tool))
                       ALL_NATIVE_TOOLS in
  let? catalog := catalog_for_server server ALL_TOOLS in
  let namespace_prefix := codex_mcp_server_namespace_prefix server in
  let mcp_routing :=
    if forallb (λ identity, starts_with namespace_prefix (hci_callable_name identity))
         (mtc_identities catalog)
    then McpServerNamespace server
    else ExactCallables (mtc_identities catalog) in
  Ok (Union [HostTools identities; mcp_routing]).

Fixpoint append_codex_tokens (strategy : HostHookMatcherStrategy) (tokens : list string)
    : result (list string) HostContractError :=
  match strategy with
  | HostTools identities => Ok (tokens ++ identities)
  | McpServerNamespace server => Ok (tokens ++ [codex_mcp_server_namespace_matcher server])
  | ExactCallables callables => Ok (tokens ++ (hci_callable_name <$> callables))
  | Union strategies =>
      match strategies with
      | [] => Err (MkHostContractError InvalidFieldCode "host_hook_matcher_strategy")
      | _ :: _ =>
          (fix go (strategies : list HostHookMatcherStrategy) (tokens : list string) :=
             match strategies with
             | [] => Ok tokens
             | strategy :: rest =>
                 let? tokens := append_codex_tokens strategy tokens in go rest tokens
             end) strategies tokens
      end
  end.

Definition codex_matcher (strategy : HostHookMatcherStrategy) : result string HostContractError :=
  let? tokens := append_codex_tokens strategy [] in
  if list_is_empty tokens
  then Err (MkHostContractError InvalidFieldCode "host_hook_matcher_strategy")
  else if negb (bool_decide (NoDup tokens))
  then Err (MkHostContractError DuplicateMcpToolIdentityCode "host_hook_matcher_strategy")
  else Ok (join_with "|" tokens).

Definition matches_codex_token (strategy : HostHookMatcherStrategy) (token : string) : bool :=
  match strategy with
  | McpServerNamespace server => token =? codex_mcp_server_namespace_matcher server
  | ExactCallables callables => existsb (λ identity, hci_callable_name identity =? token) callables
  | HostTools _ | Union _ => false
  end.

(** The loop over the tokens of [parse_codex_guard]: host tools, MCP tokens, seen tokens. *)
Fixpoint sort_codex_tokens (expected_mcp : HostHookMatcherStrategy) (unique : list string)
    (tokens : list string) : result (list string * list string) HostContractError :=
  match tokens with
  | [] => Ok ([], [])
  | token :: rest =>
      if str_is_empty token || contains token unique
      then Err (MkHostContractError InvalidFieldCode "host_hook_matcher")
      else if matches_codex_token expected_mcp token
      then
        let? '(host_tools, mcp_tokens) := sort_codex_tokens expected_mcp (token :: unique) rest in
        Ok (host_tools, token :: mcp_tokens)
      else
        let? identity := HostToolIdentity_parse token in
        let? '(host_tools, mcp_tokens) := sort_codex_tokens expected_mcp (token :: unique) rest in
        Ok (identity :: host_tools, mcp_tokens)
  end.

Definition parse_codex_guard (value server : string)
    : result HostHookMatcherStrategy HostContractError :=
  let invalid := MkHostContractError InvalidFieldCode "host_hook_matcher" in
  let? expected := codex_guard server in
  let? expected_mcp := ok_or (match expected with
                              | Union strategies => strategies !! 1%nat
                              | _ => None
                              end) invalid in
  let? '(host_tools, mcp_tokens) := sort_codex_tokens expected_mcp [] (split_on "|" value) in
  let? reconstructed_mcp :=
    match expected_mcp with
    | McpServerNamespace server =>
        if length mcp_tokens =? 1%nat then Ok (McpServerNamespace server) else Err invalid
    | ExactCallables callables =>
        if length mcp_tokens =? length callables then Ok (ExactCallables callables) else Err invalid
    | HostTools _ | Union _ => Err invalid
    end in
  let reconstructed := Union [HostTools host_tools; reconstructed_mcp] in
  let? matcher := codex_matcher reconstructed in
  if matcher =? value then Ok reconstructed else Err invalid.

Fixpoint routes (strategy : HostHookMatcherStrategy) (observed : string) : bool :=
  match strategy with
  | HostTools identities => existsb (λ identity, identity =? observed) identities
  | McpServerNamespace server => starts_with (codex_mcp_server_namespace_prefix server) observed
  | ExactCallables callables => existsb (λ identity, hci_callable_name identity =? observed) callables
  | Union strategies => existsb (λ strategy, routes strategy observed) strategies
  end.

Fixpoint routes_mcp_callable (strategy : HostHookMatcherStrategy) (observed : string) : bool :=
  match strategy with
  | HostTools _ => false
  | McpServerNamespace server => starts_with (codex_mcp_server_namespace_prefix server) observed
  | ExactCallables callables => existsb (λ identity, hci_callable_name identity =? observed) callables
  | Union strategies => existsb (λ strategy, routes_mcp_callable strategy observed) strategies
  end.
End sha1.
