(* ===== verification/HostContract.v ===== *)
(** * HostContract: the effect of a tool call and the hook events of the host

    Models the other half of volicord-host-contract/src/lib.rs: the assessment of what a
    routed tool call may do to the repository (native tools, simple shell commands, MCP
    tools), the decoders of its target paths, and the parsers of the host's hook payloads
    and tool-call metadata.  The length of a serialized JSON value comes from serde_json
    and is the parameter [json_len]. *)

From Stdlib Require Import Ascii.
From S2P Require Import Prelude Text Values Canonical TicketStore Commit UserActionShape Capture HostTools.

(** ** Data *)

Inductive GuardToolIdentity :=
| CodexNative (tool : CodexNativeGuardTool)
| VolicordMcp (identity : McpToolIdentity)
| Foreign.
#[export] Instance GuardToolIdentity_eq_dec : EqDecision GuardToolIdentity.
Proof. solve_decision. Defined.

Inductive ToolTargetPathUnavailableReason :=
| MissingRequiredField | MalformedRequiredField | MalformedPatch | AmbiguousCommandTargets
| UnsupportedCommandSyntax.
#[export] Instance ToolTargetPathUnavailableReason_eq_dec : EqDecision ToolTargetPathUnavailableReason.
Proof. solve_decision. Defined.

Inductive ToolTargetPaths :=
| NotApplicable
| Exact (paths : list string)
| Unavailable (reason : ToolTargetPathUnavailableReason).
#[export] Instance ToolTargetPaths_eq_dec : EqDecision ToolTargetPaths.
Proof. solve_decision. Defined.

(** [ToolTargetPaths::exact]. *)
Definition exact_paths (t : ToolTargetPaths) : option (list string) :=
  match t with Exact paths => Some paths | NotApplicable | Unavailable _ => None end.

Record ProductRepositoryToolEffectAssessment := MkAssessment {
  tea_identity : GuardToolIdentity;
  tea_effect : ProductRepositoryEffect;
  tea_target_paths : ToolTargetPaths;
  tea_command : option string;
}.

(** ** [serde_json] and [str] operations *)

Definition as_object (v : Value) : option JsonObject :=
  match v with Object m => Some m | _ => None end.
Definition as_str (v : Value) : option string :=
  match v with Str s => Some s | _ => None end.

(** [u8::is_ascii_whitespace]. *)
Definition is_ascii_whitespace (c : ascii) : bool :=
  (byte c =? 9)%N || (byte c =? 10)%N || (byte c =? 12)%N || (byte c =? 13)%N || (byte c =? 32)%N.

(** [str::split_ascii_whitespace]: the maximal runs of other bytes. *)
Fixpoint split_words (word s : string) : list string :=
  match s with
  | EmptyString => if str_is_empty word then [] else [word]
  | String c s =>
      if is_ascii_whitespace c
      then (if str_is_empty word then [] else [word]) ++ split_words EmptyString s
      else split_words (word +:+ String c EmptyString) s
  end.
Definition split_ascii_whitespace (s : string) : list string := split_words EmptyString s.

(** [str::lines]: a line ends at a line feed, with a carriage return before it removed;
    a last line without a line feed is kept as it is unless it is empty. *)
Fixpoint strip_cr (s : string) : string :=
  match s with
  | EmptyString => EmptyString
  | String c EmptyString => if (byte c =? 13)%N then EmptyString else s
  | String c s => String c (strip_cr s)
  end.
Fixpoint line_pieces (pieces : list string) : list string :=
  match pieces with
  | [] => []
  | [last_piece] => if str_is_empty last_piece then [] else [last_piece]
  | piece :: rest => strip_cr piece :: line_pieces rest
  end.
Definition str_lines (s : string) : list string := line_pieces (split_on "010" s).

(** [value.as_str().filter(|s| !s.trim().is_empty() && s.trim() == s)]. *)
Definition trimmed_str (v : Value) : option string :=
  option_filter (λ s, negb (str_is_empty (trim s)) && (trim s =? s)) (as_str v).

(** ** Shell commands *)

Definition is_simple_byte (c : ascii) : bool :=
  is_ascii_alphabetic c || is_ascii_digit c
  || contains c ([" "; "009"; "_"; "-"; "."; "/"; ":"; "@"; "%"; "+"; "="; ","]%char).

Definition bash_has_simple_syntax (command : string) : bool :=
  negb (str_is_empty command) && str_forall is_simple_byte command.

Definition READ_COMMANDS : list string :=
  ["pwd"; "ls"; "cat"; "grep"; "wc"; "head"; "tail"; "stat"].
Definition GIT_READ_SUBCOMMANDS : list string :=
  ["status"; "diff"; "log"; "show"; "rev-parse"; "ls-files"; "ls-tree"; "cat-file"; "check-ignore"].

Definition rg_runs_program (argument : string) : bool :=
  contains argument ["--pre"; "--hostname-bin"]
  || starts_with "--pre=" argument || starts_with "--hostname-bin=" argument.

Definition git_writes_or_runs (argument : string) : bool :=
  contains argument ["--output"; "--ext-diff"; "--textconv"; "--filters"]
  || starts_with "--output=" argument.

Definition bash_is_read_only (words : list string) : bool :=
  match words with
  | [] => false
  | command :: arguments =>
      if contains command READ_COMMANDS then true
      else if command =? "rg" then negb (existsb rg_runs_program arguments)
      else if command =? "git" then
        match arguments with
        | [] => false
        | subcommand :: arguments =>
            contains subcommand GIT_READ_SUBCOMMANDS && negb (existsb git_writes_or_runs arguments)
        end
      else false
  end.

Definition WRITE_COMMANDS : list string :=
  ["rm"; "mv"; "cp"; "touch"; "mkdir"; "rmdir"; "ln"; "chmod"; "chown"; "truncate"; "install"; "tee"].
Definition GIT_WRITE_SUBCOMMANDS : list string :=
  ["add"; "commit"; "reset"; "clean"; "checkout"; "switch"; "rm"; "mv"; "apply"; "merge"; "rebase";
   "cherry-pick"; "restore"].

Definition bash_is_write_capable (words : list string) : bool :=
  match words with
  | [] => false
  | command :: rest =>
      if contains command WRITE_COMMANDS then true
      else match rest with
           | [] => false
           | option :: _ =>
               if command =? "sed" then starts_with "-i" option
               else if command =? "perl" then starts_with "-pi" option
               else if command =? "cargo" then option =? "fmt"
               else if command =? "git" then contains option GIT_WRITE_SUBCOMMANDS
               else false
           end
  end.

(** The [operands] of [bash_target_paths]. *)
Definition bash_operands (arguments : list string) : list string :=
  List.filter (λ word, word <>? "--")
    (List.filter (λ word, (word =? "--") || negb (starts_with "-" word)) arguments).

Definition exact_or_missing (paths : list string) : ToolTargetPaths :=
  if list_is_empty paths then Unavailable MissingRequiredField else Exact paths.

Definition bash_target_paths (words : list string) : ToolTargetPaths :=
  match words with
  | [] => Unavailable MalformedRequiredField
  | command :: arguments =>
      let operands := bash_operands arguments in
      if contains command ["touch"; "mkdir"; "rmdir"; "rm"; "tee"] then exact_or_missing operands
      else if contains command ["cp"; "ln"; "install"] && (length operands =? 2%nat)
      then exact_or_missing (drop 1 operands)
      else if (command =? "mv") && (length operands =? 2%nat) then exact_or_missing operands
      else if contains command ["cp"; "mv"; "ln"; "install"] then Unavailable AmbiguousCommandTargets
      else if contains command ["sed"; "perl"] && negb (list_is_empty operands)
      then exact_or_missing operands
      else Unavailable AmbiguousCommandTargets
  end.

Definition bash_assessment (effect : ProductRepositoryEffect) (target_paths : ToolTargetPaths)
    (command : option string) : ProductRepositoryToolEffectAssessment :=
  MkAssessment (CodexNative Bash) effect target_paths command.

Definition assess_bash_input (tool_input : Value) : ProductRepositoryToolEffectAssessment :=
  match as_object tool_input with
  | None => bash_assessment UnknownProductEffect (Unavailable MalformedRequiredField) None
  | Some object =>
      match json_get "command" object with
      | None => bash_assessment UnknownProductEffect (Unavailable MissingRequiredField) None
      | Some command_value =>
          match trimmed_str command_value with
          | None => bash_assessment UnknownProductEffect (Unavailable MalformedRequiredField) None
          | Some command =>
              if negb (bash_has_simple_syntax command)
              then bash_assessment UnknownProductEffect (Unavailable UnsupportedCommandSyntax)
                     (Some command)
              else
                let words := split_ascii_whitespace command in
                if bash_is_read_only words
                then bash_assessment NoProductWrite NotApplicable (Some command)
                else if bash_is_write_capable words
                then bash_assessment MayWriteProduct (bash_target_paths words) (Some command)
                else bash_assessment UnknownProductEffect (Unavailable UnsupportedCommandSyntax)
                       (Some command)
          end
      end
  end.

(** ** Decoders of target paths *)

Definition decode_exact_string_field (tool_input : Value) (field : string) : ToolTargetPaths :=
  match as_object tool_input with
  | None => Unavailable MalformedRequiredField
  | Some object =>
      match json_get field object with
      | None => Unavailable MissingRequiredField
      | Some value =>
          match trimmed_str value with
          | Some path => Exact [path]
          | None => Unavailable MalformedRequiredField
          end
      end
  end.

Definition PATCH_PREFIXES : list string :=
  ["*** Update File: "; "*** Add File: "; "*** Delete File: "; "*** Move to: "].

(** The inner loop: [None] is the early return for a malformed path. *)
Fixpoint patch_line_paths (line : string) (prefixes : list string) (paths : list string)
    : option (list string) :=
  match prefixes with
  | [] => Some paths
  | prefix :: rest =>
      match strip_prefix prefix line with
      | Some path =>
          if str_is_empty path || (trim path <>? path) then None
          else patch_line_paths line rest (bts_insert path paths)
      | None => patch_line_paths line rest paths
      end
  end.

Fixpoint patch_paths (lines : list string) (paths : list string) : option (list string) :=
  match lines with
  | [] => Some paths
  | line :: rest =>
      match patch_line_paths line PATCH_PREFIXES paths with
      | Some paths => patch_paths rest paths
      | None => None
      end
  end.

Definition decode_apply_patch_targets (tool_input : Value) : ToolTargetPaths :=
  match as_object tool_input with
  | None => Unavailable MalformedRequiredField
  | Some object =>
      match json_get "patch" object with
      | None => Unavailable MissingRequiredField
      | Some patch =>
          match as_str patch with
          | None => Unavailable MalformedRequiredField
          | Some patch =>
              let lines := str_lines patch in
              if (head lines <>? Some "*** Begin Patch") || (last lines <>? Some "*** End Patch")
              then Unavailable MalformedPatch
              else match patch_paths (take (length lines - 2) (drop 1 lines)) [] with
                   | None | Some [] => Unavailable MalformedPatch
                   | Some paths => Exact paths
                   end
          end
      end
  end.

Definition assess_codex_native_tool (tool : CodexNativeGuardTool) (tool_input : Value)
    : ProductRepositoryToolEffectAssessment :=
  match tool with
  | Bash => assess_bash_input tool_input
  | ApplyPatch => MkAssessment (CodexNative tool) (identity_effect tool)
                    (decode_apply_patch_targets tool_input) None
  | Edit | Write => MkAssessment (CodexNative tool) (identity_effect tool)
                      (decode_exact_string_field tool_input "file_path") None
  end.

(** [CodexGuardToolEffectContract::assess], for the catalog of the contract. *)
Definition assess (catalog : McpToolCatalog) (tool_name : string) (tool_input : Value)
    : ProductRepositoryToolEffectAssessment :=
  match native_parse tool_name with
  | Some tool => assess_codex_native_tool tool tool_input
  | None =>
      let identity :=
        match HostCallableName_parse tool_name with
        | Ok callable => match parse_callable_name callable catalog with
                         | Ok identity => Some identity
                         | Err _ => None
                         end
        | Err _ => None
        end in
      match identity with
      | Some identity =>
          MkAssessment (VolicordMcp identity) (product_repository_effect (mti_tool identity))
            NotApplicable None
      | None => MkAssessment Foreign UnknownProductEffect NotApplicable None
      end
  end.

(** ** Bounded payloads *)

Definition MAX_PRESENTATION_TEXT_BYTES : nat := 4096.
Definition MAX_SAFE_PAYLOAD_BYTES : N := 65536.
Definition MAX_SAFE_PAYLOAD_DEPTH : nat := 32.
Definition CODEX_TURN_METADATA_KEY : string := "x-codex-turn-metadata".

(** [iter().max().unwrap_or(depth)]. *)
Definition max_or (depth : nat) (depths : list nat) : nat :=
  match depths with [] => depth | x :: rest => foldr Nat.max x rest end.

Fixpoint value_depth (value : Value) (depth : nat) : nat :=
  match value with
  | Array values => max_or depth (map (λ value, value_depth value (S depth)) values)
  | Object values => max_or depth (map (λ kv, value_depth kv.2 (S depth)) values)
  | Null | Bool _ | Number _ | Str _ => depth
  end.

Section json_len.
(** [serde_json::to_vec(value).map(|bytes| bytes.len())]. *)
Variable json_len : Value → option N.

Definition BoundedHostValue_parse (field : string) (value : Value) : result Value HostContractError :=
  let? bytes := ok_or (json_len value) (MkHostContractError InvalidFieldCode field) in
  if (MAX_SAFE_PAYLOAD_BYTES <? bytes)%N || (MAX_SAFE_PAYLOAD_DEPTH <? value_depth value 0)%nat
  then Err (MkHostContractError PayloadTooLargeCode field)
  else Ok value.

(** ** Correlations and events *)

Record CodexMcpCorrelation := MkMcpCorrelation {
  cmc_session_id : string;
  cmc_thread_id : string;
  cmc_turn_id : string;
}.

Record CodexHookPromptCorrelation := MkPromptCorrelation {
  cpc_session_id : string;
  cpc_turn_id : string;
}.

Record CodexHookToolCorrelation := MkToolCorrelation {
  ctc_session_id : string;
  ctc_turn_id : string;
  ctc_tool_use_id : string;
  ctc_tool_name : string;
}.

Record CodexHookContext := MkHookContext {
  chc_cwd : option string;
  chc_transcript_path : option string;
}.

Inductive CodexHookEvent :=
| UserPromptSubmit (correlation : CodexHookPromptCorrelation) (prompt : string)
    (context : CodexHookContext)
| PreToolUse (correlation : CodexHookToolCorrelation) (tool_input : Value)
    (context : CodexHookContext)
| PostToolUse (correlation : CodexHookToolCorrelation) (tool_input tool_response : Value)
    (context : CodexHookContext).

Definition event_name (e : CodexHookEvent) : string :=
  match e with
  | UserPromptSubmit _ _ _ => "UserPromptSubmit"
  | PreToolUse _ _ _ => "PreToolUse"
  | PostToolUse _ _ _ _ => "PostToolUse"
  end.

Inductive HostNativeCorrelation :=
| CodexMcp (value : CodexMcpCorrelation)
| CodexHookPrompt (value : CodexHookPromptCorrelation)
| CodexHookTool (value : CodexHookToolCorrelation).

Definition event_correlation (e : CodexHookEvent) : HostNativeCorrelation :=
  match e with
  | UserPromptSubmit correlation _ _ => CodexHookPrompt correlation
  | PreToolUse correlation _ _ | PostToolUse correlation _ _ _ => CodexHookTool correlation
  end.

(** ** Field access *)

Definition required_object (value : Value) (field : string) : result JsonObject HostContractError :=
  ok_or (as_object value) (MkHostContractError InvalidFieldCode field).

Definition required_object_field (object : JsonObject) (field : string)
    : result JsonObject HostContractError :=
  let? value := ok_or (json_get field object) (MkHostContractError MissingRequiredFieldCode field) in
  ok_or (as_object value) (MkHostContractError InvalidFieldCode field).

Definition required_string (object : JsonObject) (field : string) : result string HostContractError :=
  let? value := ok_or (json_get field object) (MkHostContractError MissingRequiredFieldCode field) in
  ok_or (option_filter (λ s, negb (str_is_empty s)) (as_str value))
    (MkHostContractError InvalidFieldCode field).

Definition bounded_string (object : JsonObject) (field : string) : result string HostContractError :=
  let? value := required_string object field in
  if (MAX_SAFE_PAYLOAD_BYTES <? N.of_nat (String.length value))%N
  then Err (MkHostContractError PayloadTooLargeCode field) else Ok value.

Definition optional_bounded_string (object : JsonObject) (field : string)
    : result (option string) HostContractError :=
  match json_get field object with
  | None => Ok None
  | Some value =>
      let? value := ok_or (option_filter (λ s, negb (str_is_empty s)) (as_str value))
                      (MkHostContractError InvalidFieldCode field) in
      if (MAX_PRESENTATION_TEXT_BYTES <? String.length value)%nat
      then Err (MkHostContractError PayloadTooLargeCode field) else Ok (Some value)
  end.

Definition required_id (object : JsonObject) (field : string) : result string HostContractError :=
  let? raw := required_string object field in native_id_parse field raw.

(** ** Parsers *)

(** [CodexMcpTurnMetadata::parse_tools_call_params]. *)
Definition parse_tools_call_params (params : JsonObject)
    : result CodexMcpCorrelation HostContractError :=
  let? metadata := required_object_field params "_meta" in
  let? flat_raw := required_string metadata "threadId" in
  let? flat_thread := native_id_parse "thread_id" flat_raw in
  let? turn_metadata := required_object_field metadata CODEX_TURN_METADATA_KEY in
  let? session_id := required_id turn_metadata "session_id" in
  let? thread_id := required_id turn_metadata "thread_id" in
  let? turn_id := required_id turn_metadata "turn_id" in
  if flat_thread <>? thread_id
  then Err (MkHostContractError InconsistentCorrelationCode "thread_id")
  else Ok (MkMcpCorrelation session_id thread_id turn_id).

(** [CodexMcpTurnMetadata::parse_tools_call]. *)
Definition parse_tools_call (message : Value) : result CodexMcpCorrelation HostContractError :=
  let? object := required_object message "message" in
  let? method := required_string object "method" in
  if method <>? "tools/call" then Err (MkHostContractError UnexpectedValueCode "method")
  else
    let? params := required_object_field object "params" in
    parse_tools_call_params params.

(** [CodexCommandHooks::parse]. *)
Definition parse_hook (payload : Value) : result CodexHookEvent HostContractError :=
  let? object := required_object payload "payload" in
  let? name := required_string object "hook_event_name" in
  let? session_id := required_id object "session_id" in
  let? turn_id := required_id object "turn_id" in
  let? cwd := optional_bounded_string object "cwd" in
  let? transcript_path := optional_bounded_string object "transcript_path" in
  let context := MkHookContext cwd transcript_path in
  if name =? "UserPromptSubmit" then
    let? prompt := bounded_string object "prompt" in
    Ok (UserPromptSubmit (MkPromptCorrelation session_id turn_id) prompt context)
  else if (name =? "PreToolUse") || (name =? "PostToolUse") then
    let? tool_use_id := required_id object "tool_use_id" in
    let? raw_tool_name := required_string object "tool_name" in
    let? tool_name := CanonicalToolName_parse raw_tool_name in
    let correlation := MkToolCorrelation session_id turn_id tool_use_id tool_name in
    let? raw_input := ok_or (json_get "tool_input" object)
                        (MkHostContractError MissingRequiredFieldCode "tool_input") in
    let? tool_input := BoundedHostValue_parse "tool_input" raw_input in
    if name =? "PreToolUse" then Ok (PreToolUse correlation tool_input context)
    else
      let? raw_response := ok_or (json_get "tool_response" object)
                             (MkHostContractError MissingRequiredFieldCode "tool_response") in
      let? tool_response := BoundedHostValue_parse "tool_response" raw_response in
      Ok (PostToolUse correlation tool_input tool_response context)
  else Err (MkHostContractError UnexpectedValueCode "hook_event_name").
End json_len.
