(* ===== verification/HostContractSound.v ===== *)
(** * HostContractSound: callable names, routing and assessed effects

    Over [HostTools] and [HostContract]: every tool has a valid callable name, the
    catalog of a server resolves exactly the names it projects, the matcher of the hooks
    can be read back, every tool the effect contract knows is routed through the hooks,
    and a call is assessed as harmless exactly for Volicord's own tools and for simple
    read-only commands. *)

From Stdlib Require Import Ascii.
From S2P Require Import Prelude Text Values Canonical TicketStore Commit UserActionShape Capture.
From S2P Require Import HostTools HostContract.

(** ** Characters of callable names *)

Lemma sanitize_chars_callable s : str_forall is_callable_char (sanitize_chars s) = true.
Proof.
  induction s as [|c s IH]; [done|]. cbn. destruct (byte_between 128 191 c); [done|].
  cbn. rewrite IH. destruct (is_callable_char c) eqn:E; [by rewrite E|done].
Qed.

Lemma sanitize_part_callable s :
  str_forall is_callable_char (sanitize_callable_part s) = true
  ∧ str_is_empty (sanitize_callable_part s) = false.
Proof.
  unfold sanitize_callable_part. destruct (str_is_empty (sanitize_chars s)) eqn:E; [done|].
  split; [apply sanitize_chars_callable|done].
Qed.

Lemma callable_not_continuation c : is_callable_char c = true → byte_between 128 191 c = false.
Proof. revert c. byte_enum. Qed.

(** On such text a character is a byte. *)
Lemma truncate_callable s n :
  str_forall is_callable_char s = true →
  str_forall is_callable_char (truncate_ascii s n) = true
  ∧ String.length (truncate_ascii s n) = Nat.min n (String.length s)
  ∧ ∃ r, s = truncate_ascii s n +:+ r.
Proof.
  revert n. induction s as [|c s IH]; intros n; cbn.
  { intros _. split_and!; [done|lia|by exists EmptyString]. }
  intros [Hc Hs]%andb_true_iff. rewrite (callable_not_continuation c Hc).
  destruct n as [|n]; [split_and!; [done|done|by eexists]|].
  destruct (IH n Hs) as (Hf & Hl & r & Hr). cbn. rewrite Hc, Hf, Hl.
  split_and!; [done|lia|]. exists r. by rewrite <-Hr.
Qed.

Lemma lower_hex_callable c : is_ascii_lower_hex c = true → is_callable_char c = true.
Proof. revert c. byte_enum. Qed.

Lemma substring_prefix n s : n ≤ String.length s →
  String.length (String.substring 0 n s) = n ∧ ∀ p, str_forall p s = true →
    str_forall p (String.substring 0 n s) = true.
Proof.
  revert s. induction n as [|n IH]; intros s Hn; [by destruct s|].
  destruct s as [|c s]; cbn in *; [exfalso; lia|]. destruct (IH s) as [Hl Hp]; [lia|].
  rewrite Hl. split; [done|]. intros p [Hc Hs]%andb_true_iff. by rewrite Hc, Hp.
Qed.

Section names.
Variable sha1 : string → list ascii.
Hypothesis sha1_length : ∀ s, length (sha1 s) = 20.

Lemma suffix_callable raw :
  String.length (callable_name_hash_suffix sha1 raw) = 13
  ∧ str_forall is_callable_char (callable_name_hash_suffix sha1 raw) = true.
Proof using sha1_length.
  destruct (lowercase_hex_ok (sha1 raw)) as [Hl Hf]. rewrite sha1_length in Hl.
  destruct (substring_prefix CALLABLE_NAME_HASH_LEN (lowercase_hex (sha1 raw))) as [Hn Hp].
  { rewrite Hl. unfold CALLABLE_NAME_HASH_LEN. lia. }
  unfold callable_name_hash_suffix. cbn [String.append String.length str_forall]. rewrite Hn.
  split; [done|]. apply Hp. eapply str_forall_impl; [apply lower_hex_callable|exact Hf].
Qed.

(** The parts fit: the namespace keeps its prefix, and nothing exceeds the bound. *)
Lemma fit_parts_ok namespace callable raw ns cal :
  str_forall is_callable_char namespace = true → str_forall is_callable_char callable = true →
  5 ≤ String.length namespace →
  fit_callable_parts sha1 namespace callable raw 2 = (ns, cal) →
  str_forall is_callable_char ns = true ∧ str_forall is_callable_char cal = true
  ∧ String.length ns + String.length cal + 2 ≤ 64
  ∧ 5 ≤ String.length ns ∧ ∃ r, namespace = ns +:+ r.
Proof using sha1_length.
  intros Hn Hc Hlen. unfold fit_callable_parts, MAX_HOST_CALLABLE_NAME_BYTES.
  destruct (suffix_callable raw) as [Hsl Hsf].
  destruct (Nat.leb_spec (String.length namespace + String.length callable + 2) 64) as [Hle|Hgt].
  { intros [= <- <-]. split_and!; [done..|]. exists EmptyString. by rewrite append_nil_r. }
  rewrite Hsl. destruct (Nat.leb_spec 13 (64 - (String.length namespace + 2))) as [Hle'|Hgt'];
    intros [= <- <-].
  - destruct (truncate_callable callable (64 - (String.length namespace + 2) - 13) Hc)
      as (Hf & Hl & _).
    rewrite str_forall_append, Hf, Hsf, append_length, Hl, Hsl.
    split_and!; [done..|lia|done|]. exists EmptyString. by rewrite append_nil_r.
  - destruct (truncate_callable namespace 49 Hn) as (Hf & Hl & Hr).
    rewrite Hf, Hsf, Hl, Hsl. split_and!; [done..|lia|lia|exact Hr].
Qed.

Definition callable_part (server : string) (tool : AgentToolId) : string * string :=
  fit_callable_parts sha1 (codex_mcp_server_namespace server)
    (sanitize_callable_part (wire_name tool)) (codex_raw_tool_identity server (wire_name tool)) 2.

Definition callable_name (server : string) (tool : AgentToolId) : string :=
  (callable_part server tool).1 +:+ "__" +:+ (callable_part server tool).2.

Lemma namespace_callable server :
  str_forall is_callable_char (codex_mcp_server_namespace server) = true
  ∧ 5 ≤ String.length (codex_mcp_server_namespace server).
Proof.
  unfold codex_mcp_server_namespace, CODEX_MCP_TOOL_PREFIX.
  rewrite str_forall_append, append_length. cbn.
  split; [apply sanitize_part_callable|lia].
Qed.

Lemma callable_name_valid server tool :
  is_callable_name (callable_name server tool) = true
  ∧ starts_with "mcp__" (callable_name server tool) = true.
Proof using sha1_length.
  destruct (namespace_callable server) as [Hn Hl].
  destruct (sanitize_part_callable (wire_name tool)) as [Hc _].
  unfold callable_name, callable_part.
  destruct (fit_callable_parts sha1 _ _ _ 2) as [ns cal] eqn:E. cbn [fst snd].
  apply fit_parts_ok in E as (Hns & Hcal & Hlen & H5 & r & Hr); [|done..].
  unfold codex_mcp_server_namespace, CODEX_MCP_TOOL_PREFIX in Hr.
  do 5 (destruct ns as [|? ns]; [cbn in H5; exfalso; lia|cbn in Hr; injection Hr as <- Hr]).
  split; [|reflexivity].
  apply andb_true_iff. split.
  - apply andb_true_iff. split; [done|]. apply Nat.leb_le. unfold MAX_HOST_CALLABLE_NAME_BYTES.
    cbn in *. rewrite append_length. cbn. lia.
  - assert (str_forall is_callable_char ns = true) as Hns' by exact Hns.
    cbn. rewrite str_forall_append. cbn. by rewrite Hns', Hcal.
Qed.

Lemma project_eq server tool :
  project_mcp_tool sha1 server tool
    = Ok (MkCallable (mcp_tool_identity server tool) (callable_name server tool)).
Proof using sha1_length.
  pose proof (callable_name_valid server tool) as [Hv _].
  unfold project_mcp_tool. cbn [mcp_tool_identity mti_raw_tool_name].
  change (CODEX_MCP_TOOL_PREFIX +:+ sanitize_callable_part server)
    with (codex_mcp_server_namespace server).
  change (String.length MCP_TOOL_NAME_DELIMITER) with 2. unfold callable_name, callable_part in *.
  destruct (fit_callable_parts sha1 _ _ _ 2) as [ns cal]. cbn [fst snd] in *.
  unfold HostCallableName_parse, valid_or, MCP_TOOL_NAME_DELIMITER. by rewrite Hv.
Qed.

(** ** Catalogs *)

Definition callable_of (server : string) (tool : AgentToolId) : HostCallableIdentity :=
  MkCallable (mcp_tool_identity server tool) (callable_name server tool).

Definition catalog_of (server : string) (tools : list AgentToolId) : McpToolCatalog :=
  MkCatalog (callable_of server <$> tools)
    (list_to_map ((λ tool, (callable_name server tool, mcp_tool_identity server tool)) <$> tools)).

Lemma catalog_of_lookup server tools name identity :
  NoDup (callable_name server <$> tools) →
  mtc_by_callable_name (catalog_of server tools) !! name = Some identity
  ↔ ∃ tool, tool ∈ tools ∧ name = callable_name server tool ∧ identity = mcp_tool_identity server tool.
Proof.
  intros Hnd. cbn. rewrite <-elem_of_list_to_map.
  - rewrite list_elem_of_fmap. naive_solver.
  - by rewrite <-list_fmap_compose.
Qed.

Lemma register_tool_Ok server tools tool c :
  NoDup (callable_name server <$> tools) →
  register_tool sha1 (catalog_of server tools) (server, tool, integration_verification_role tool) = Ok c
  ↔ callable_name server tool ∉ callable_name server <$> tools ∧ c = catalog_of server (tools ++ [tool]).
Proof using sha1_length.
  intros Hnd. unfold register_tool. rewrite eqb_refl, project_eq. cbn [negb hci_source hci_callable_name].
  assert (is_some (mtc_by_callable_name (catalog_of server tools) !! callable_name server tool)
          = bool_decide (callable_name server tool ∈ callable_name server <$> tools)) as ->.
  { destruct (mtc_by_callable_name _ !! _) as [identity|] eqn:E; symmetry; cbn [is_some].
    - apply catalog_of_lookup in E as (t & Ht & -> & _); [|done].
      by apply bool_decide_eq_true, list_elem_of_fmap_2.
    - apply bool_decide_eq_false. intros (t & Hn & Ht)%list_elem_of_fmap.
      assert (mtc_by_callable_name (catalog_of server tools) !! callable_name server tool
        = Some (mcp_tool_identity server t)) as Hs by (apply catalog_of_lookup; eauto).
      congruence. }
  assert (callable_name server tool ∉ callable_name server <$> tools →
    contains (mcp_tool_identity server tool) (hci_source <$> mtc_identities (catalog_of server tools)) = false) as Hc.
  { intros Hni. apply contains_not_elem. cbn. rewrite <-list_fmap_compose.
    intros (t & Ht & Hin)%list_elem_of_fmap. cbn in Ht. injection Ht as <-.
    by apply Hni, list_elem_of_fmap_2. }
  destruct (bool_decide_reflect (callable_name server tool ∈ callable_name server <$> tools)) as [Hin|Hni].
  { destruct (contains _ _); split; [done|by intros []|done|by intros []]. }
  rewrite Hc by done.
  assert (MkCatalog (mtc_identities (catalog_of server tools) ++ [callable_of server tool])
    (<[callable_name server tool := mcp_tool_identity server tool]>
       (mtc_by_callable_name (catalog_of server tools))) = catalog_of server (tools ++ [tool])) as <-.
  { unfold catalog_of. rewrite !fmap_app. cbn. f_equal. symmetry. apply list_to_map_snoc.
    by rewrite <-list_fmap_compose. }
  naive_solver.
Qed.

(** Registration succeeds exactly when no two tools get the same name. *)
Lemma catalog_for_server_Ok server tools c :
  catalog_for_server sha1 server tools = Ok c
  ↔ NoDup (callable_name server <$> tools) ∧ c = catalog_of server tools.
Proof using sha1_length.
  unfold catalog_for_server, catalog_new_with_roles.
  change (MkCatalog [] ∅) with (catalog_of server []).
  assert (∀ seen, NoDup (callable_name server <$> seen) →
    try_foldl (register_tool sha1) (catalog_of server seen)
      ((λ tool, (server, tool, integration_verification_role tool)) <$> tools) = Ok c
    ↔ NoDup (callable_name server <$> (seen ++ tools)) ∧ c = catalog_of server (seen ++ tools)) as H.
  { induction tools as [|t tools IH]; intros seen Hd; cbn [try_foldl fmap list_fmap].
    { rewrite app_nil_r. naive_solver. }
    rewrite bind_Ok. setoid_rewrite register_tool_Ok; [|done].
    rewrite (cons_middle t seen tools), app_assoc, (fmap_app _ (seen ++ [t])).
    assert (NoDup (callable_name server <$> seen ++ [t])
      ↔ callable_name server t ∉ callable_name server <$> seen) as Hs.
    { rewrite fmap_app, NoDup_app. cbn. split; [set_solver|].
      intros Hni. split_and!; [done|set_solver|apply NoDup_singleton]. }
    split.
    - intros (c' & [Hni ->] & Hr). rewrite <-fmap_app. by apply IH; [apply Hs|].
    - intros [Hnd ->]. rewrite NoDup_app in Hnd.
      exists (catalog_of server (seen ++ [t])). split; [by split; [apply Hs; apply Hnd|]|].
      apply IH; [apply Hnd|]. by rewrite fmap_app, NoDup_app. }
  apply (H []). constructor.
Qed.

(** ** The guard strategy *)

Definition guard_mcp (server : string) : HostHookMatcherStrategy :=
  if forallb (λ identity, starts_with (codex_mcp_server_namespace_prefix server)
                            (hci_callable_name identity)) (callable_of server <$> ALL_TOOLS)
  then McpServerNamespace server else ExactCallables (callable_of server <$> ALL_TOOLS).

Lemma codex_guard_Ok server strategy :
  codex_guard sha1 server = Ok strategy
  ↔ NoDup (callable_name server <$> ALL_TOOLS)
    ∧ strategy = Union [HostTools (native_as_str <$> ALL_NATIVE_TOOLS); guard_mcp server].
Proof using sha1_length.
  unfold codex_guard.
  change (try_map _ ALL_NATIVE_TOOLS) with (@Ok (list string) HostContractError (native_as_str <$> ALL_NATIVE_TOOLS)).
  cbv beta iota. rewrite bind_Ok. setoid_rewrite catalog_for_server_Ok. split.
  - intros (c & [Hnd ->] & [= <-]). by split.
  - intros [Hnd ->]. eexists. by split.
Qed.

Definition mcp_tokens (server : string) : list string :=
  match guard_mcp server with
  | McpServerNamespace server => [codex_mcp_server_namespace_matcher server]
  | _ => callable_name server <$> ALL_TOOLS
  end.

Lemma guard_mcp_cases server :
  (guard_mcp server = McpServerNamespace server
   ∧ ∀ tool, tool ∈ ALL_TOOLS →
       starts_with (codex_mcp_server_namespace_prefix server) (callable_name server tool) = true)
  ∨ guard_mcp server = ExactCallables (callable_of server <$> ALL_TOOLS).
Proof.
  unfold guard_mcp. destruct (forallb _ _) eqn:E; [left|by right]. split; [done|].
  intros tool Ht. rewrite forallb_elem in E. apply (E (callable_of server tool)).
  by apply list_elem_of_fmap_2.
Qed.

(** Every token of the MCP part carries the prefix of MCP names and no separator. *)
Lemma mcp_tokens_ok server token :
  token ∈ mcp_tokens server →
  starts_with "mcp__" token = true ∧ str_forall (λ c, c <>? "|"%char) token = true
  ∧ matches_codex_token (guard_mcp server) token = true.
Proof using sha1_length.
  assert (∀ c, is_callable_char c = true → (c <>? "|"%char) = true) as Hclean by byte_enum.
  unfold mcp_tokens. destruct (guard_mcp_cases server) as [[-> _]| ->].
  - intros ->%list_elem_of_singleton. cbn [matches_codex_token]. rewrite eqb_refl.
    unfold codex_mcp_server_namespace_matcher, codex_mcp_server_namespace_prefix.
    rewrite !str_forall_append.
    rewrite (str_forall_impl _ _ (codex_mcp_server_namespace server) Hclean)
      by apply namespace_callable. done.
  - intros (tool & -> & Ht)%list_elem_of_fmap. destruct (callable_name_valid server tool) as [Hv Hp].
    unfold is_callable_name in Hv. apply andb_true_iff in Hv as [_ Hv].
    rewrite Hp, (str_forall_impl _ _ _ Hclean Hv). split_and!; [done..|].
    cbn [matches_codex_token]. apply existsb_elem. exists (callable_of server tool).
    split; [by apply list_elem_of_fmap_2|apply eqb_refl].
Qed.

Lemma append_tokens_guard server :
  append_codex_tokens (Union [HostTools (native_as_str <$> ALL_NATIVE_TOOLS); guard_mcp server]) []
  = Ok ((native_as_str <$> ALL_NATIVE_TOOLS) ++ mcp_tokens server).
Proof.
  unfold mcp_tokens. destruct (guard_mcp_cases server) as [[-> _]| ->]; reflexivity.
Qed.

End names.

(** Sorting the tokens of a matcher: the MCP tokens go apart, in order. *)
Lemma sort_tokens_Ok expected tokens unique :
  NoDup tokens → (∀ t, t ∈ tokens → t ∉ unique ∧ str_is_empty t = false
    ∧ (matches_codex_token expected t = false → is_callable_name t = true)) →
  sort_codex_tokens expected unique tokens
  = Ok (List.filter (λ t, negb (matches_codex_token expected t)) tokens,
        List.filter (matches_codex_token expected) tokens).
Proof.
  revert unique. induction tokens as [|t tokens IH]; intros unique Hnd Ht; [done|].
  apply NoDup_cons in Hnd as [Hni Hnd].
  destruct (Ht t) as (Hu & He & Hv); [left|]. cbn.
  apply contains_not_elem in Hu. rewrite He, Hu. cbn.
  assert (∀ t', t' ∈ tokens → t' ∉ t :: unique ∧ str_is_empty t' = false
    ∧ (matches_codex_token expected t' = false → is_callable_name t' = true)) as Hrest.
  { intros t' Ht'. destruct (Ht t') as (? & ? & ?); [by right|]. set_solver. }
  destruct (matches_codex_token expected t) eqn:E; cbn.
  - by rewrite IH.
  - unfold HostToolIdentity_parse, valid_or. rewrite Hv by done. cbn. by rewrite IH.
Qed.

Lemma filter_keeps {A} (p : A → bool) l : (∀ x, x ∈ l → p x = true) → List.filter p l = l.
Proof.
  induction l as [|x l IH]; intros H; [done|]. cbn. rewrite (H x) by left.
  rewrite IH; [done|]. intros y Hy. apply H. by right.
Qed.
Lemma filter_drops {A} (p : A → bool) l : (∀ x, x ∈ l → p x = false) → List.filter p l = [].
Proof.
  induction l as [|x l IH]; intros H; [done|]. cbn. rewrite (H x) by left.
  apply IH. intros y Hy. apply H. by right.
Qed.

Lemma split_join sep l :
  Forall (λ t, str_forall (λ a, a <>? sep) t = true) l → l ≠ [] → split_on sep (join_with sep l) = l.
Proof.
  intros Hl Hne. destruct l as [|x l]; [done|]. revert x Hl Hne.
  induction l as [|y l IH]; intros x Hl _; inv Hl; [by apply split_on_no_sep|].
  change (join_with sep (x :: y :: l)) with (x +:+ String sep (join_with sep (y :: l))).
  rewrite split_on_append_sep, split_on_no_sep, IH by done. done.
Qed.

(** The tokens of the native tools are apart from those of MCP tools. *)
Definition host_tokens : list string := native_as_str <$> ALL_NATIVE_TOOLS.

Lemma host_tokens_ok t :
  t ∈ host_tokens → starts_with "mcp__" t = false ∧ is_callable_name t = true
  ∧ str_forall (λ c, c <>? "|"%char) t = true.
Proof.
  unfold host_tokens. cbn. rewrite !elem_of_cons, elem_of_nil. intros Ht. by destruct_or! Ht; subst.
Qed.

Section guard_tokens.
Variable sha1 : string → list ascii.
Hypothesis sha1_length : ∀ s, length (sha1 s) = 20.

Lemma host_tokens_apart server t :
  t ∈ host_tokens → matches_codex_token (guard_mcp sha1 server) t = false.
Proof using sha1_length.
  intros Ht. destruct (host_tokens_ok t Ht) as (Hp & _ & _).
  destruct (matches_codex_token _ t) eqn:E; [|done]. rewrite <-Hp.
  symmetry. eapply mcp_tokens_ok; [exact sha1_length|]. unfold mcp_tokens.
  destruct (guard_mcp_cases sha1 server) as [[Hm _]|Hm]; rewrite Hm in *.
  - apply eqb_eq in E. rewrite E. left.
  - apply existsb_elem in E as (i & (tool & -> & Hi)%list_elem_of_fmap & <-%eqb_eq).
    cbn [callable_of hci_callable_name]. by apply list_elem_of_fmap_2.
Qed.

Lemma guard_tokens_NoDup server :
  NoDup (callable_name sha1 server <$> ALL_TOOLS) → NoDup (host_tokens ++ mcp_tokens sha1 server).
Proof using sha1_length.
  intros Hnd. apply NoDup_app. split_and!.
  - by apply (bool_decide_eq_true_1 _).
  - intros t Ht Hm. destruct (host_tokens_ok t Ht), (mcp_tokens_ok sha1 sha1_length server t Hm). congruence.
  - unfold mcp_tokens. by destruct (guard_mcp_cases sha1 server) as [[-> _]| ->]; [apply NoDup_singleton|].
Qed.

Lemma guard_matcher_text server :
  NoDup (callable_name sha1 server <$> ALL_TOOLS) →
  codex_matcher (Union [HostTools host_tokens; guard_mcp sha1 server])
  = Ok (join_with "|" (host_tokens ++ mcp_tokens sha1 server)).
Proof using sha1_length.
  intros Hnd%guard_tokens_NoDup. unfold codex_matcher, host_tokens. rewrite append_tokens_guard.
  cbn [list_is_empty]. by rewrite bool_decide_true.
Qed.

Lemma reconstructed_mcp server :
  match guard_mcp sha1 server with
  | McpServerNamespace server' =>
      if length (mcp_tokens sha1 server) =? 1%nat then Ok (McpServerNamespace server')
      else Err (MkHostContractError InvalidFieldCode "host_hook_matcher")
  | ExactCallables callables =>
      if length (mcp_tokens sha1 server) =? length callables then Ok (ExactCallables callables)
      else Err (MkHostContractError InvalidFieldCode "host_hook_matcher")
  | HostTools _ | Union _ => Err (MkHostContractError InvalidFieldCode "host_hook_matcher")
  end = Ok (guard_mcp sha1 server).
Proof.
  unfold mcp_tokens. by destruct (guard_mcp_cases sha1 server) as [[Hm _]|Hm]; rewrite !Hm.
Qed.
End guard_tokens.

(** Short names are not truncated. *)
Lemma sanitize_chars_length s : String.length (sanitize_chars s) ≤ String.length s.
Proof. induction s as [|c s IH]; cbn; [done|]. destruct (byte_between 128 191 c); cbn; lia. Qed.

Lemma sanitize_part_length s : 1 ≤ String.length s →
  String.length (sanitize_callable_part s) ≤ String.length s.
Proof.
  intros H. pose proof (sanitize_chars_length s). unfold sanitize_callable_part.
  destruct (str_is_empty _); cbn; lia.
Qed.

Lemma wire_name_length tool : tool ∈ ALL_TOOLS →
  String.length (sanitize_callable_part (wire_name tool)) ≤ 39.
Proof.
  intros Ht. assert (forallb (λ t, (String.length (sanitize_callable_part (wire_name t)) <=? 39)%nat) ALL_TOOLS = true)
    as H by done.
  rewrite forallb_elem in H. by apply Nat.leb_le, H.
Qed.

Lemma short_names sha1 server tool :
  String.length server ≤ 18 → tool ∈ ALL_TOOLS →
  callable_name sha1 server tool
  = codex_mcp_server_namespace_prefix server +:+ sanitize_callable_part (wire_name tool).
Proof.
  intros Hs Ht. pose proof (wire_name_length tool Ht).
  assert (String.length (sanitize_callable_part server) ≤ 18).
  { destruct (String.length server) eqn:E.
    - destruct server; [by apply Nat.leb_le|done].
    - pose proof (sanitize_part_length server). lia. }
  unfold callable_name, callable_part, fit_callable_parts, codex_mcp_server_namespace_prefix,
    MCP_TOOL_NAME_DELIMITER.
  assert ((String.length (codex_mcp_server_namespace server)
     + String.length (sanitize_callable_part (wire_name tool)) + 2 <=? MAX_HOST_CALLABLE_NAME_BYTES)%nat = true) as ->.
  { apply Nat.leb_le. unfold codex_mcp_server_namespace, CODEX_MCP_TOOL_PREFIX, MAX_HOST_CALLABLE_NAME_BYTES.
    rewrite append_length. cbn. lia. }
  cbn [fst snd]. by rewrite append_assoc.
Qed.

(** Of the native tools only a read-only shell command is harmless. *)
Lemma native_harmless t input :
  tea_effect (assess_codex_native_tool t input) = NoProductWrite ↔
  native_as_str t = "Bash" ∧ ∃ object command, input = Object object
    ∧ json_get "command" object = Some (Str command) ∧ trim command = command
    ∧ bash_has_simple_syntax command = true
    ∧ bash_is_read_only (split_ascii_whitespace command) = true.
Proof.
  destruct t; cbn [assess_codex_native_tool tea_effect identity_effect];
    [|split; [done|by intros [? _]]..].
  unfold assess_bash_input. split.
  - destruct (as_object input) as [object|] eqn:Eo; [|done].
    destruct input; try done. injection Eo as ->.
    destruct (json_get "command" object) as [v|] eqn:Eg; [|done].
    destruct (trimmed_str v) as [command|] eqn:Et; [|done].
    unfold trimmed_str in Et. rewrite option_filter_Some in Et.
    destruct Et as [Es [_ Ht%eqb_eq]%andb_true_iff]. destruct v; try done. injection Es as ->.
    destruct (bash_has_simple_syntax command) eqn:Ex; [|done]. cbn [negb].
    destruct (bash_is_read_only _) eqn:Er; [|by destruct (bash_is_write_capable _)].
    intros _. split; [done|]. by exists object, command.
  - intros (_ & object & command & -> & Hg & Ht & Hx & Hr). cbn [as_object]. rewrite Hg.
    unfold trimmed_str, option_filter. cbn [as_str]. rewrite Ht, eqb_refl.
    assert (str_is_empty command = false) as ->.
    { unfold bash_has_simple_syntax in Hx. by destruct (str_is_empty command). }
    cbn [negb andb bool_then]. rewrite Hx, Hr. done.
Qed.

(** ** Theorems *)

Section theorems.
Variable sha1 : string → list ascii.
Hypothesis sha1_length : ∀ s, length (sha1 s) = 20.

(** Every tool of every server has a valid callable name: the projection never fails,
    and its name is at most 64 bytes of letters, digits and underscores under the prefix of
    MCP names, however long the server key is. *)
Theorem projected_name_valid server tool :
  ∃ name, project_mcp_tool sha1 server tool = Ok (MkCallable (mcp_tool_identity server tool) name)
    ∧ name ≠ "" ∧ String.length name ≤ 64 ∧ str_forall is_callable_char name = true
    ∧ starts_with "mcp__" name = true.
Proof using sha1_length.
  exists (callable_name sha1 server tool). rewrite project_eq by done.
  destruct (callable_name_valid sha1 sha1_length server tool) as [Hv Hp].
  unfold is_callable_name in Hv. rewrite !andb_true_iff, negb_true_iff in Hv.
  destruct Hv as [[He Hl%Nat.leb_le] Hf]. split_and!; [done| |done..]. intros Hn. by rewrite Hn in He.
Qed.

(** The catalog of a server resolves callable names exactly: each registered tool is
    found under its projected name, and a name that resolves at all is the projection of
    the registered tool it resolves to. *)
Theorem catalog_resolves_exactly server tools catalog :
  catalog_for_server sha1 server tools = Ok catalog →
  (∀ tool, tool ∈ tools → ∃ identity,
     project_mcp_tool sha1 server tool = Ok identity
     ∧ identity ∈ mtc_identities catalog
     ∧ parse_callable_name (hci_callable_name identity) catalog = Ok (mcp_tool_identity server tool))
  ∧ (∀ name identity, parse_callable_name name catalog = Ok identity →
     ∃ tool, tool ∈ tools ∧ identity = mcp_tool_identity server tool
       ∧ project_mcp_tool sha1 server tool = Ok (MkCallable identity name)).
Proof using sha1_length.
  intros [Hnd ->]%catalog_for_server_Ok; [|done]. split.
  - intros tool Ht. exists (callable_of sha1 server tool). rewrite project_eq by done.
    split_and!; [done|by apply list_elem_of_fmap_2|].
    unfold parse_callable_name. rewrite ok_or_Ok. apply catalog_of_lookup; eauto.
  - unfold parse_callable_name. intros name identity H. rewrite ok_or_Ok in H.
    apply catalog_of_lookup in H as (tool & Ht & -> & ->); [|done].
    exists tool. by rewrite project_eq.
Qed.

(** The matcher installed for the hooks can be read back: rendering the strategy of a
    server succeeds, and parsing the text for the same server gives that strategy. *)
Theorem matcher_roundtrip server strategy :
  codex_guard sha1 server = Ok strategy →
  ∃ text, codex_matcher strategy = Ok text ∧ parse_codex_guard sha1 text server = Ok strategy.
Proof using sha1_length.
  intros Hg. pose proof Hg as [Hnd ->]%codex_guard_Ok; [|done].
  pose proof (mcp_tokens_ok sha1 sha1_length server) as Hmcp.
  pose proof (host_tokens_apart sha1 sha1_length server) as Hapart.
  pose proof (guard_matcher_text sha1 sha1_length server Hnd) as Htext.
  exists (join_with "|" (host_tokens ++ mcp_tokens sha1 server)). split; [done|].
  unfold parse_codex_guard. rewrite Hg. cbn [lookup list_lookup ok_or].
  rewrite split_join;
    [|apply Forall_forall; intros t [Ht|Ht]%elem_of_app; [by apply host_tokens_ok|by apply Hmcp]|done].
  rewrite sort_tokens_Ok; [|by apply guard_tokens_NoDup|].
  2: { intros t Ht. split; [apply not_elem_of_nil|].
       apply elem_of_app in Ht as [Ht|Ht].
       - destruct (host_tokens_ok t Ht) as (_ & Hv & _). split; [|done]. by destruct t.
       - destruct (Hmcp t Ht) as (Hp & _ & Hm). split; [by destruct t|congruence]. }
  set (m := matches_codex_token (guard_mcp sha1 server)) in *.
  rewrite !List.filter_app, (filter_drops m host_tokens), (filter_keeps m (mcp_tokens _ _)),
    (filter_keeps (λ t, negb (m t)) host_tokens), (filter_drops (λ t, negb (m t)) (mcp_tokens _ _));
    [|intros t Ht; rewrite ?negb_true_iff, ?negb_false_iff; first [by apply Hmcp | by apply Hapart]..].
  rewrite app_nil_r, app_nil_l, (reconstructed_mcp sha1 server). by rewrite Htext, eqb_refl.
Qed.

(** For every server key of at most 18 bytes the catalog and the matcher of the hooks
    exist, and MCP calls are routed by the namespace of the server. *)
Theorem short_server_guarded server :
  String.length server ≤ 18 →
  (∃ catalog, catalog_for_server sha1 server ALL_TOOLS = Ok catalog)
  ∧ codex_guard sha1 server
    = Ok (Union [HostTools ["Bash"; "apply_patch"; "Edit"; "Write"]; McpServerNamespace server]).
Proof using sha1_length.
  intros Hlen. assert (∀ t, t ∈ ALL_TOOLS → callable_name sha1 server t
    = codex_mcp_server_namespace_prefix server +:+ sanitize_callable_part (wire_name t)) as Hname
    by (intros; by apply short_names).
  assert (NoDup (callable_name sha1 server <$> ALL_TOOLS)) as Hnd.
  { erewrite list_fmap_ext; [|intros i t Ht%list_elem_of_lookup_2; by apply Hname].
    apply (NoDup_fmap_1 (strip_prefix (codex_mcp_server_namespace_prefix server))).
    rewrite <-list_fmap_compose. erewrite list_fmap_ext; [|intros i t _; apply strip_prefix_append].
    by apply (bool_decide_eq_true_1 _). }
  split; [eexists; by apply catalog_for_server_Ok|].
  apply codex_guard_Ok; [done|]. split; [done|]. unfold guard_mcp.
  rewrite (proj2 (forallb_elem _ _)); [done|].
  intros i (tool & -> & Ht)%list_elem_of_fmap. cbn [callable_of hci_callable_name].
  rewrite Hname by done. apply starts_with_true. eauto.
Qed.

(** C21: Whatever the effect contract knows passes through the hooks: a tool name the
    installed matcher does not route is neither a reviewed native tool nor a tool of the
    registered server, and is assessed as foreign with an unknown effect. *)
Theorem unrouted_is_foreign server strategy catalog name input :
  codex_guard sha1 server = Ok strategy → catalog_for_server sha1 server ALL_TOOLS = Ok catalog →
  routes strategy name = false →
  assess catalog name input = MkAssessment Foreign UnknownProductEffect NotApplicable None.
Proof using sha1_length.
  intros [Hnd ->]%codex_guard_Ok [_ ->]%catalog_for_server_Ok Hr; [|done..].
  change (existsb (λ identity, identity =? name) host_tokens
          || (routes (guard_mcp sha1 server) name || false) = false) in Hr.
  rewrite orb_false_r in Hr. apply orb_false_iff in Hr as [Hnative Hmcp].
  unfold assess. destruct (native_parse name) as [t|] eqn:Et.
  { apply List.find_some in Et as [Ht%list_elem_of_In Hn%eqb_eq]. rewrite existsb_false in Hnative.
    specialize (Hnative name). rewrite eqb_refl in Hnative. discriminate Hnative.
    rewrite <-Hn. by apply list_elem_of_fmap_2. }
  destruct (HostCallableName_parse name) as [callable|] eqn:Ec; [|done].
  assert (callable = name) as -> by (unfold HostCallableName_parse, valid_or in Ec; by case_match; simplify_eq).
  unfold parse_callable_name.
  destruct (mtc_by_callable_name _ !! name) as [identity|] eqn:El; [|done]. exfalso.
  apply catalog_of_lookup in El as (tool & Ht & -> & _); [|done].
  destruct (guard_mcp_cases sha1 server) as [[Hm Hall]|Hm]; rewrite Hm in Hmcp; cbn [routes] in Hmcp.
  - by rewrite Hall in Hmcp.
  - rewrite existsb_false in Hmcp. specialize (Hmcp (callable_of sha1 server tool)).
    cbn [callable_of hci_callable_name] in Hmcp. rewrite eqb_refl in Hmcp.
    discriminate Hmcp. by apply list_elem_of_fmap_2.
Qed.

(** C22: A tool call is assessed as writing no product file exactly when it is a tool of
    the registered server, or a shell call whose command is trimmed text of the simple
    syntax with read-only words; no other input of a native tool is. *)
Theorem harmless_exactly server catalog name input :
  catalog_for_server sha1 server ALL_TOOLS = Ok catalog →
  tea_effect (assess catalog name input) = NoProductWrite ↔
  (∃ tool, tool ∈ ALL_TOOLS
     ∧ project_mcp_tool sha1 server tool = Ok (MkCallable (mcp_tool_identity server tool) name))
  ∨ (name = "Bash" ∧ ∃ object command, input = Object object
       ∧ json_get "command" object = Some (Str command) ∧ trim command = command
       ∧ bash_has_simple_syntax command = true
       ∧ bash_is_read_only (split_ascii_whitespace command) = true).
Proof using sha1_length.
  intros [Hnd ->]%catalog_for_server_Ok; [|done].
  assert (∀ tool, project_mcp_tool sha1 server tool
            = Ok (MkCallable (mcp_tool_identity server tool) name) ↔ callable_name sha1 server tool = name) as Hp.
  { intros tool. rewrite project_eq by done. naive_solver. }
  setoid_rewrite Hp. clear Hp. unfold assess.
  destruct (native_parse name) as [t|] eqn:Et.
  - apply List.find_some in Et as [_ <-%eqb_eq].
    assert (¬ ∃ tool, tool ∈ ALL_TOOLS ∧ callable_name sha1 server tool = native_as_str t) as Hno.
    { intros (tool & _ & Hn). destruct (callable_name_valid sha1 sha1_length server tool) as [_ Hs].
      rewrite Hn in Hs. by destruct t. }
    rewrite native_harmless. naive_solver.
  - assert (name ≠ "Bash") as Hb by (intros ->; done).
    unfold HostCallableName_parse, valid_or, parse_callable_name.
    destruct (is_callable_name name) eqn:Ev; cbn [ok_or].
    + destruct (mtc_by_callable_name _ !! name) as [identity|] eqn:El; cbn.
      * apply catalog_of_lookup in El as (tool & Ht & -> & ->); [|done]. split; [|by destruct tool].
        intros _. left. by exists tool.
      * split; [done|]. intros [(tool & Ht & <-)|[? _]]; [|done].
        assert (mtc_by_callable_name (catalog_of sha1 server ALL_TOOLS) !! callable_name sha1 server tool
          = Some (mcp_tool_identity server tool)) as Hs by (apply catalog_of_lookup; eauto). congruence.
    + cbn. split; [done|]. intros [(tool & Ht & <-)|[? _]]; [|done].
      by rewrite (proj1 (callable_name_valid sha1 sha1_length server tool)) in Ev.
Qed.

End theorems.

(** ** Targets the decoder misses *)

Lemma operands_no_dash arguments word :
  word ∈ bash_operands arguments → starts_with "-" word = false.
Proof.
  unfold bash_operands. rewrite !elem_of_filter_bool.
  intros [[_ Hd] Hn]. apply negb_true_iff in Hn. rewrite Hn in Hd. by apply negb_true_iff.
Qed.

Lemma operands_cons word arguments :
  bash_operands (word :: arguments)
  = if starts_with "-" word then bash_operands arguments else word :: bash_operands arguments.
Proof.
  unfold bash_operands. cbn [List.filter]. destruct (word =? "--") eqn:Ed.
  - apply eqb_eq in Ed as ->. done.
  - cbn [orb]. destruct (starts_with "-" word); cbn [negb]; [done|].
    cbn [List.filter]. by rewrite Ed.
Qed.

Lemma exact_targets_operands command arguments paths :
  bash_target_paths (command :: arguments) = Exact paths → paths ⊆ bash_operands arguments.
Proof.
  assert (∀ l k : list string, l ⊆ k → exact_or_missing l = Exact paths → paths ⊆ k) as He.
  { unfold exact_or_missing. intros l k Hl. case_match; naive_solver. }
  unfold bash_target_paths.
  repeat match goal with |- context [if ?b then _ else _] => destruct b end; try done;
    apply He; [done|by apply subseteq_drop|done..].
Qed.

(** C39: A target set reported as exact can miss a file the command writes: for
    `cp -t DIR SOURCE` it is the source alone, whatever the directory, and an operand that
    begins with a dash is never in it, even after the `--` that makes it an operand. *)
Theorem exact_targets_incomplete :
  (∀ dir source object command,
     json_get "command" object = Some (Str command) → trim command = command →
     bash_has_simple_syntax command = true →
     split_ascii_whitespace command = ["cp"; "-t"; dir; source] →
     starts_with "-" dir = false → starts_with "-" source = false →
     assess_bash_input (Object object)
     = bash_assessment MayWriteProduct (Exact [source]) (Some command))
  ∧ ∀ command before operand after paths,
      starts_with "-" operand = true →
      bash_target_paths (command :: before ++ "--" :: operand :: after) = Exact paths →
      operand ∉ paths.
Proof.
  split.
  - intros dir source object command Hc Ht Hs Hw Hd Hsrc.
    unfold assess_bash_input. cbn [as_object]. rewrite Hc.
    assert (trimmed_str (Str command) = Some command) as ->.
    { unfold trimmed_str. apply option_filter_Some. cbn. split; [done|]. rewrite Ht, eqb_refl.
      unfold bash_has_simple_syntax in Hs. by apply andb_true_iff in Hs as [-> _]. }
    rewrite Hs, Hw. cbn [negb]. cbn -[bash_operands].
    by rewrite !operands_cons, Hd, Hsrc.
  - intros command before operand after paths Hd Hp Hin.
    apply (exact_targets_operands _ _ _ Hp), operands_no_dash in Hin. congruence.
Qed.

(** ** Witnesses *)

(** A stand-in digest of the right length. *)
Definition sample_sha1 (_ : string) : list ascii := repeat "a"%char 20.
Lemma sample_sha1_length s : length (sample_sha1 s) = 20.
Proof. done. Qed.

Definition sample_server : string := "volicord".
Definition sample_catalog : result McpToolCatalog HostContractError :=
  catalog_for_server sample_sha1 sample_server ALL_TOOLS.

Lemma sample_catalog_Ok : ∃ catalog, sample_catalog = Ok catalog.
Proof.
  assert (is_ok sample_catalog = true) as H by (vm_compute; reflexivity).
  destruct sample_catalog; [eauto|done].
Qed.

Lemma projected_name_valid_witness : ∃ name,
  project_mcp_tool sample_sha1 sample_server (ToolMethod MStatus)
    = Ok (MkCallable (mcp_tool_identity sample_server (ToolMethod MStatus)) name)
  ∧ String.length name ≤ 64.
Proof.
  destruct (projected_name_valid sample_sha1 sample_sha1_length sample_server (ToolMethod MStatus))
    as (name & ? & _ & ? & _). eauto.
Defined.

Lemma catalog_resolves_exactly_witness : ∃ catalog identity,
  sample_catalog = Ok catalog ∧ identity ∈ mtc_identities catalog
  ∧ parse_callable_name (hci_callable_name identity) catalog
    = Ok (mcp_tool_identity sample_server ListProjects).
Proof.
  destruct sample_catalog_Ok as [catalog Hc].
  destruct (catalog_resolves_exactly sample_sha1 sample_sha1_length sample_server ALL_TOOLS catalog Hc)
    as [Hfind _].
  destruct (Hfind ListProjects) as (identity & _ & ? & ?); [by apply (bool_decide_eq_true_1 _)|].
  exists catalog, identity. split_and!; [exact Hc|assumption..].
Defined.

Lemma short_server_guarded_witness :
  codex_guard sample_sha1 sample_server
  = Ok (Union [HostTools ["Bash"; "apply_patch"; "Edit"; "Write"]; McpServerNamespace sample_server]).
Proof.
  apply (short_server_guarded sample_sha1 sample_sha1_length sample_server). cbn. lia.
Defined.

Lemma sample_guard_Ok : ∃ strategy, codex_guard sample_sha1 sample_server = Ok strategy
  ∧ routes strategy "WebFetch" = false.
Proof. eexists. split; [vm_compute; reflexivity|by vm_compute]. Qed.

Lemma matcher_roundtrip_witness : ∃ strategy text,
  codex_guard sample_sha1 sample_server = Ok strategy ∧ codex_matcher strategy = Ok text
  ∧ parse_codex_guard sample_sha1 text sample_server = Ok strategy.
Proof.
  destruct sample_guard_Ok as (strategy & Hg & _).
  destruct (matcher_roundtrip sample_sha1 sample_sha1_length sample_server strategy Hg)
    as (text & ? & ?). exists strategy, text. split_and!; [exact Hg|assumption..].
Defined.

Lemma unrouted_is_foreign_witness : ∃ catalog, sample_catalog = Ok catalog
  ∧ tea_identity (assess catalog "WebFetch" Null) = Foreign.
Proof.
  destruct sample_guard_Ok as (strategy & Hg & Hr), sample_catalog_Ok as [catalog Hc].
  exists catalog. split; [exact Hc|].
  by rewrite (unrouted_is_foreign sample_sha1 sample_sha1_length sample_server strategy catalog
    "WebFetch" Null Hg Hc Hr).
Defined.

Lemma harmless_exactly_witness : ∃ catalog, sample_catalog = Ok catalog
  ∧ tea_effect (assess catalog "Bash" (Object [("command", Str "git status")])) = NoProductWrite.
Proof.
  destruct sample_catalog_Ok as [catalog Hc]. exists catalog. split; [exact Hc|].
  apply (harmless_exactly sample_sha1 sample_sha1_length sample_server catalog _ _ Hc).
  right. split; [done|]. exists [("command", Str "git status")], "git status".
  by split_and!; vm_compute.
Defined.

Lemma exact_targets_incomplete_witness :
  tea_target_paths (assess_bash_input (Object [("command", Str "cp -t out src/lib.rs")]))
  = Exact ["src/lib.rs"]
  ∧ bash_target_paths ["touch"; "a"; "--"; "-b"] = Exact ["a"] ∧ "-b" ∉ ["a"].
Proof.
  destruct exact_targets_incomplete as [Hcp Hdash]. split_and!; [|by vm_compute|].
  - by rewrite (Hcp "out" "src/lib.rs" [("command", Str "cp -t out src/lib.rs")] "cp -t out src/lib.rs")
      by (by vm_compute).
  - by apply (Hdash "touch" ["a"] "-b" []).
Defined.
