(* ===== verification/Guard.v ===== *)
(** * Guard: the decision of the pre-tool hook

    Models volicord-cli/src/guard_command/: the observation of a tool call
    (tool_observation.rs), the assessment of its paths (mutation.rs), what the guard
    knows of the current write authority (the ticket part of context.rs), the coverage of
    the observed paths by tickets (write_ticket.rs), and the decision with the expected
    write it records (phase/pre_tool.rs).  Paths follow [std::path] on Unix.  The probe of
    the Git workspace and the snapshot of the repository are reads of the file system and
    enter as arguments.  Fields of the summary that are only displayed are left out with
    the reads that fill them, so the model goes on where one of those reads fails. *)

From Stdlib Require Import Ascii.
From S2P Require Import Prelude Text ProductPath Values Canonical EventHash Schema Clock TicketStore Commit.
From S2P Require Import UserActionShape Workflow UserAction Ticket Capture Admission Planning.
From S2P Require Import HostTools HostContract.

(** ** mutation.rs *)

(** [std::path::Component] on Unix. *)
Inductive Component := RootDir | CurDir | ParentDir | Normal (value : string).
#[export] Instance Component_eq_dec : EqDecision Component.
Proof. solve_decision. Defined.

(** The components of the pieces between separators: empty pieces and inner dots vanish. *)
Fixpoint body_components (pieces : list string) : list Component :=
  match pieces with
  | [] => []
  | piece :: rest =>
      if str_is_empty piece || (piece =? ".") then body_components rest
      else (if piece =? ".." then ParentDir else Normal piece) :: body_components rest
  end.

(** [Path::components]. *)
Definition path_components (path : string) : list Component :=
  let pieces := split_on "/" path in
  if starts_with "/" path then RootDir :: body_components pieces
  else match pieces with
       | first :: rest => if first =? "." then CurDir :: body_components rest
                          else body_components pieces
       | [] => []
       end.

(** [Path::strip_prefix], on the components. *)
Fixpoint strip_components (base path : list Component) : option (list Component) :=
  match base, path with
  | [], _ => Some path
  | b :: base, c :: path => if b =? c then strip_components base path else None
  | _ :: _, [] => None
  end.

Record PathAssessment := MkPathAssessment {
  pa_raw : string;
  pa_normalized : option string;
  pa_inside_repo : bool;
}.

(** The loop of [normalized_relative_path]. *)
Fixpoint normal_parts (components : list Component) : option (list string) :=
  match components with
  | [] => Some []
  | Normal value :: rest => parts ← normal_parts rest; Some (value :: parts)
  | CurDir :: rest => normal_parts rest
  | (ParentDir | RootDir) :: _ => None
  end.

Definition normalized_relative_path (components : list Component) : option string :=
  match normal_parts components with
  | None | Some [] => None
  | Some parts => Some (join_with "/" parts)
  end.

Definition assess_path (repo_root raw : string) : PathAssessment :=
  let relative :=
    if starts_with "/" raw then strip_components (path_components repo_root) (path_components raw)
    else Some (path_components raw) in
  let normalized := relative ≫= normalized_relative_path in
  MkPathAssessment raw normalized (is_some normalized).

Definition assess_decoded_paths (repo_root : string) (raw_paths : option (list string))
    : list PathAssessment :=
  assess_path repo_root <$> default [] raw_paths.

(** ** tool_observation.rs *)

Record ToolObservation := MkToolObservation {
  to_tool_name : option string;
  to_identity : GuardToolIdentity;
  to_command : option string;
  to_prospective_effect : ProductRepositoryEffect;
  to_target_path_unavailable_reason : option ToolTargetPathUnavailableReason;
  to_paths : list PathAssessment;
  to_structured_paths : list PathAssessment;
  to_changed_paths : list PathAssessment;
  to_changed_paths_reported : bool;
  to_exit_code : option Z;
  to_success : option bool;
  to_status : option string;
}.

Inductive GuardCommandError :=
| GuardHostContract (error : HostContractError)
| GuardRuntime (message : string)
| GuardStore (error : StoreError)
| GuardCore (error : CorePipelineError).

Section tool_observation.
Variable sha1 : string → list ascii.
Variable json_len : Value → option N.

(** The correlation, input and response of a tool event. *)
Definition tool_event (event : CodexHookEvent)
    : result (CodexHookToolCorrelation * Value * option Value) GuardCommandError :=
  match event with
  | PreToolUse correlation tool_input _ => Ok (correlation, tool_input, None)
  | PostToolUse correlation tool_input tool_response _ =>
      Ok (correlation, tool_input, Some tool_response)
  | UserPromptSubmit _ _ _ =>
      Err (GuardRuntime "tool observation requires a Codex tool hook event")
  end.

Definition tool_observation (event : Value) (repo_root server : string)
    : result ToolObservation GuardCommandError :=
  let? event := map_err GuardHostContract (parse_hook json_len event) in
  let? '(correlation, tool_input, tool_response) := tool_event event in
  let? catalog := map_err GuardHostContract (catalog_for_server sha1 server ALL_TOOLS) in
  let assessment := assess catalog (ctc_tool_name correlation) tool_input in
  let paths := assess_decoded_paths repo_root (exact_paths (tea_target_paths assessment)) in
  let response := tool_response ≫= as_object in
  Ok (MkToolObservation (Some (ctc_tool_name correlation)) (tea_identity assessment)
        (tea_command assessment) (tea_effect assessment)
        (match tea_target_paths assessment with
         | Unavailable reason => Some reason
         | NotApplicable | Exact _ => None
         end)
        paths paths [] false
        (response ≫= λ r, json_get "exit_code" r ≫= as_i64)
        (response ≫= λ r, json_get "success" r ≫= as_bool)
        (response ≫= λ r, json_get "status" r ≫= as_str)).
End tool_observation.

(** ** context.rs: the current write authority *)

Record ActiveWriteTicketSummary := MkActiveSummary {
  aws_write_ticket_id : string;
  aws_change_unit_id : string;
  aws_intended_paths : list string;
  aws_denied_paths : list string;
  aws_idle_expires_at : option UtcTimestamp;
  aws_workspace_validity_uncertain : bool;
}.

Record PolicyStaleWriteTicketSummary := MkPolicyStale {
  psw_write_ticket_id : string;
  psw_intended_paths : list string;
  psw_denied_paths : list string;
}.

Record GuardPolicyControlReevaluationSummary := MkReevaluationSummary {
  grs_required_effective_control_level : TaskControlLevel;
  grs_required_acceptance_policy : option AcceptancePolicy;
}.

(** The fields of [GuardStateSummary] on which the decision rests. *)
Record GuardStateSummary := MkGuardState {
  gs_state_version : N;
  gs_active_task_id : option string;
  gs_active_task_effective_control_level : option TaskControlLevel;
  gs_policy_control_reevaluation : option GuardPolicyControlReevaluationSummary;
  gs_active_change_unit_id : option string;
  gs_current_write_ticket_ids : list string;
  gs_stale_write_ticket_ids : list string;
  gs_uncertain_write_ticket_ids : list string;
  gs_active_write_tickets : list ActiveWriteTicketSummary;
  gs_policy_stale_write_tickets : list PolicyStaleWriteTicketSummary;
}.

Definition guard_acceptance_policy_rank (policy : AcceptancePolicy) : nat :=
  match policy with NotRequired => 0 | PolicyDependent => 1 | Required => 2 end.

Definition pending_policy_control_reevaluation (task : TaskRecord)
    (mark : option TaskPolicyControlReevaluation) : option GuardPolicyControlReevaluationSummary :=
  match mark with
  | None => None
  | Some mark =>
      let acceptance_escalation :=
        is_some_and (pcr_required_acceptance_policy mark) (λ required,
          (guard_acceptance_policy_rank (tk_acceptance_policy task)
             <? guard_acceptance_policy_rank required)%nat) in
      if negb (control_lt (tk_effective_control_level task)
                 (pcr_required_effective_control_level mark)) && negb acceptance_escalation
      then None
      else Some (MkReevaluationSummary (pcr_required_effective_control_level mark)
                   (pcr_required_acceptance_policy mark))
  end.

Inductive WriteTicketOwnerBasisStatus := OwnerCurrent | WorkspaceUncertain | OwnerStale.
#[export] Instance WriteTicketOwnerBasisStatus_eq_dec : EqDecision WriteTicketOwnerBasisStatus.
Proof. solve_decision. Defined.

Inductive CurrentWorkspaceProbe := ProbeAvailable (sha256 : option string) | ProbeUnavailable.

Record CurrentWriteTicketBasis := MkCurrentBasis {
  cwb_task_id : string;
  cwb_change_unit_id : option string;
  cwb_scope_revision : N;
  cwb_task_baseline_ref : option BaselineRef;
  cwb_change_unit_baseline_ref : option BaselineRef;
  cwb_change_unit_workspace_sha256 : option string;
  cwb_workspace_probe : CurrentWorkspaceProbe;
}.

Definition write_ticket_owner_basis_status (record_task_id : string)
    (record_change_unit_id : option string) (validity_basis : WriteTicketValidityBasis)
    (attempt_scope : WriteTicketAttemptScope) (current : CurrentWriteTicketBasis)
    : WriteTicketOwnerBasisStatus :=
  if (record_task_id <>? cwb_task_id current)
     || (vb_task_id validity_basis <>? cwb_task_id current)
     || (as_task_id attempt_scope <>? cwb_task_id current)
     || (record_change_unit_id <>? cwb_change_unit_id current)
     || (Some (vb_change_unit_id validity_basis) <>? cwb_change_unit_id current)
     || (Some (as_change_unit_id attempt_scope) <>? cwb_change_unit_id current)
     || (vb_scope_revision validity_basis <>? cwb_scope_revision current)
     || (vb_baseline_ref validity_basis <>? cwb_task_baseline_ref current)
     || (vb_baseline_ref validity_basis <>? cwb_change_unit_baseline_ref current)
     || (as_baseline_ref attempt_scope <>? vb_baseline_ref validity_basis)
     || (vb_workspace_context_sha256 validity_basis <>? cwb_change_unit_workspace_sha256 current)
  then OwnerStale
  else match cwb_workspace_probe current with
       | ProbeAvailable workspace_sha256 =>
           if workspace_sha256 <>? vb_workspace_context_sha256 validity_basis then OwnerStale
           else OwnerCurrent
       | ProbeUnavailable =>
           if is_some (vb_workspace_context_sha256 validity_basis) then WorkspaceUncertain
           else OwnerCurrent
       end.

(** What the guard reads of the project besides the ticket reads of core. *)
Class GuardReader `{Chrono} (S : Type) := {
  guard_prepare_reader :: PrepareReader S;
  active_task_id_of : S → result (option TaskId) StoreError;
  state_version_of : S → result N StoreError;
  (** [project_write_authority_fingerprint] of the stored policy. *)
  current_authority_fingerprint : S → result string StoreError;
}.

Section context.
Context `{HC : Chrono} {S : Type} `{HS : !GuardReader S}.
(** [canonical_json_bare_sha256] of a workspace context. *)
Context (workspace_sha256 : GitWorkspaceContext → string).

(** [probe] is the outcome of [capture_git_workspace_snapshot]. *)
Definition current_write_ticket_basis (task : TaskRecord) (change_unit : option ChangeUnitRecord)
    (probe : result (option GitWorkspaceContext) unit) : CurrentWriteTicketBasis :=
  MkCurrentBasis (tk_task_id task) (cu_change_unit_id <$> change_unit) (tk_scope_revision task)
    (shaping_baseline_ref (tk_shaping task))
    (change_unit ≫= cu_write_basis_baseline_ref)
    (workspace_sha256 <$> (change_unit ≫= cu_write_basis_git_workspace_context))
    (match probe with
     | Ok context => ProbeAvailable (workspace_sha256 <$> context)
     | Err _ => ProbeUnavailable
     end).

(** The vectors filled by the loop over the tickets of the active Task. *)
Record GuardTickets := MkGuardTickets {
  gt_current : list string;
  gt_stale : list string;
  gt_uncertain : list string;
  gt_active : list ActiveWriteTicketSummary;
  gt_policy_stale : list PolicyStaleWriteTicketSummary;
}.

Definition push_if {A} (keep : bool) (l : list A) (x : A) : list A := if keep then l ++ [x] else l.

(** The lookup in the [BTreeMap] of evaluations: the last one of an id. *)
Definition evaluation_of (evaluated : list StoredWriteTicketEvaluation) (id : string)
    : option StoredWriteTicketEvaluation :=
  List.find (λ e, eval_write_ticket_id e =? id) (reverse evaluated).

Definition approval_basis_current (evaluated : list StoredWriteTicketEvaluation) (id : string)
    : bool :=
  is_some_and (evaluation_of evaluated id) (λ e, eval_invalidation e <>? Some IApprovalBasisChanged).

(** Whether the guard takes an active ticket of the current policy as usable. *)
Definition guard_ticket_usable (reevaluation : option GuardPolicyControlReevaluationSummary)
    (evaluated : list StoredWriteTicketEvaluation) (now : UtcTimestamp)
    (owner : WriteTicketOwnerBasisStatus) (record : StoredWriteTicket) : bool :=
  is_none reevaluation
  && is_none_or (wt_idle_expires_at record) (λ expires_at, ts_lt now expires_at)
  && approval_basis_current evaluated (wt_write_ticket_id record)
  && (owner <>? OwnerStale).

Definition owner_status (basis : option CurrentWriteTicketBasis) (record : StoredWriteTicket)
    : WriteTicketOwnerBasisStatus :=
  match basis with
  | None => OwnerStale
  | Some current =>
      write_ticket_owner_basis_status (wt_task_id record) (Some (wt_change_unit_id record))
        (wt_validity_basis record) (wt_attempt_scope record) current
  end.

Definition classify_ticket (fingerprint : string)
    (reevaluation : option GuardPolicyControlReevaluationSummary)
    (evaluated : list StoredWriteTicketEvaluation) (basis : option CurrentWriteTicketBasis)
    (now : UtcTimestamp) (acc : GuardTickets) (record : StoredWriteTicket) : GuardTickets :=
  let id := wt_write_ticket_id record in
  let intended_paths := path_str <$> allowed (wt_path_scope record) in
  let denied_paths := path_str <$> denied (wt_path_scope record) in
  let stale := MkGuardTickets (gt_current acc) (gt_stale acc ++ [id]) (gt_uncertain acc)
                 (gt_active acc) in
  if vb_write_authority_fingerprint (wt_validity_basis record) <>? fingerprint then
    stale (push_if ((wt_status record <>? TConsumed) && negb (list_is_empty intended_paths))
             (gt_policy_stale acc) (MkPolicyStale id intended_paths denied_paths))
  else if wt_status record <>? TActive then stale (gt_policy_stale acc)
  else
    let owner := owner_status basis record in
    if guard_ticket_usable reevaluation evaluated now owner record then
      let uncertain := owner =? WorkspaceUncertain in
      MkGuardTickets (gt_current acc ++ [id]) (gt_stale acc)
        (push_if uncertain (gt_uncertain acc) id)
        (push_if (negb (list_is_empty intended_paths)) (gt_active acc)
           (MkActiveSummary id (wt_change_unit_id record) intended_paths denied_paths
              (wt_idle_expires_at record) uncertain))
        (gt_policy_stale acc)
    else stale (gt_policy_stale acc).

Definition no_tickets : GuardTickets := MkGuardTickets [] [] [] [] [].

Definition guard_state_summary (store : S) (now : UtcTimestamp)
    (probe : result (option GitWorkspaceContext) unit) : result GuardStateSummary GuardCommandError :=
  let? active_task_id := map_err GuardStore (active_task_id_of store) in
  let? state_version := map_err GuardStore (state_version_of store) in
  let? fingerprint := map_err GuardStore (current_authority_fingerprint store) in
  match active_task_id with
  | None => Ok (MkGuardState state_version None None None None [] [] [] [] [])
  | Some task_id =>
      let? current_task := map_err GuardStore (task_record store task_id) in
      let? reevaluation :=
        match current_task with
        | None => Ok None
        | Some task =>
            let? mark := map_err GuardStore (task_policy_control_reevaluation store task) in
            Ok (pending_policy_control_reevaluation task mark)
        end in
      let? change_unit := map_err GuardStore (current_change_unit store task_id) in
      let basis := (λ task, current_write_ticket_basis task change_unit probe) <$> current_task in
      let? evaluated := map_err GuardCore (load_evaluated_stored_write_tickets store task_id now) in
      let? records := map_err GuardStore (write_tickets_of store task_id) in
      let tickets := foldl (classify_ticket fingerprint reevaluation evaluated basis now)
                       no_tickets records in
      Ok (MkGuardState state_version (Some task_id)
            (tk_effective_control_level <$> current_task) reevaluation
            (current_task ≫= tk_current_change_unit_id)
            (gt_current tickets) (gt_stale tickets) (gt_uncertain tickets) (gt_active tickets)
            (gt_policy_stale tickets))
  end.
End context.

(** ** write_ticket.rs *)

Inductive WriteTicketCoverage :=
| NotWriteLike
| TicketBacked (ticket : ActiveWriteTicketSummary) (observed_paths : list string)
| NoObservedPaths
| NoActiveTickets (observed_paths : list string)
| PolicyAuthorityStale (observed_paths stale_ticket_ids : list string)
| OutOfScope (observed_paths active_ticket_ids : list string)
| Ambiguous (observed_paths matching_ticket_ids : list string).

Definition normalized_observed_paths (paths : list PathAssessment) : list string :=
  bts_of_list (omap pa_normalized (List.filter pa_inside_repo paths)).

(** [paths_are_authorized] of write_ticket.rs. *)
Definition guard_paths_authorized (observed_paths authorized_paths denied_paths : list string) : bool :=
  negb (list_is_empty observed_paths) && negb (list_is_empty authorized_paths)
  && forallb (λ path, existsb (λ authorized, path_is_within path authorized) authorized_paths
                      && negb (existsb (λ denied, path_is_within path denied) denied_paths))
       observed_paths.

Definition write_ticket_coverage (summary : GuardStateSummary) (observation : ToolObservation)
    : WriteTicketCoverage :=
  let observed_paths :=
    if list_is_empty (to_changed_paths observation)
    then normalized_observed_paths (to_structured_paths observation)
    else normalized_observed_paths (to_changed_paths observation) in
  if list_is_empty observed_paths then NoObservedPaths
  else
    let matching := List.filter (λ ticket,
      guard_paths_authorized observed_paths (aws_intended_paths ticket) (aws_denied_paths ticket))
      (gs_active_write_tickets summary) in
    match matching with
    | [ticket] => TicketBacked ticket observed_paths
    | _ :: _ :: _ => Ambiguous observed_paths (aws_write_ticket_id <$> matching)
    | [] =>
        let policy_stale_ticket_ids := psw_write_ticket_id <$> List.filter (λ ticket,
          guard_paths_authorized observed_paths (psw_intended_paths ticket) (psw_denied_paths ticket))
          (gs_policy_stale_write_tickets summary) in
        if negb (list_is_empty policy_stale_ticket_ids)
        then PolicyAuthorityStale observed_paths policy_stale_ticket_ids
        else if list_is_empty (gs_active_write_tickets summary) then NoActiveTickets observed_paths
        else OutOfScope observed_paths (aws_write_ticket_id <$> gs_active_write_tickets summary)
    end.

(** ** phase/pre_tool.rs *)

Inductive GuardPolicyDecision := Continue | ContinueWithContext | ContinueWithWarning | Deny.
#[export] Instance GuardPolicyDecision_eq_dec : EqDecision GuardPolicyDecision.
Proof. solve_decision. Defined.

(** [GuardReason]; the message is fixed by the code and the branch, and only displayed. *)
Record GuardReason := MkReason {
  gr_code : string;
  gr_severity : string;
}.

Definition coverage_reasons (summary : GuardStateSummary) (observation : ToolObservation)
    : list GuardReason :=
  match write_ticket_coverage summary observation with
  | PolicyAuthorityStale _ _ => [MkReason "write_ticket_policy_changed" "deny"]
  | coverage =>
      if is_some (gs_policy_control_reevaluation summary)
      then [MkReason "policy_control_reevaluation_required" "deny"]
      else match coverage with
           | NotWriteLike | PolicyAuthorityStale _ _ => []
           | TicketBacked ticket _ =>
               if aws_workspace_validity_uncertain ticket
               then [MkReason "write_ticket_workspace_unverified" "warn"] else []
           | NoObservedPaths => [MkReason "write_ticket_scope_indeterminate" "deny"]
           | NoActiveTickets _ => [MkReason "write_ticket_missing" "deny"]
           | OutOfScope _ _ => [MkReason "write_ticket_path_scope_violation" "deny"]
           | Ambiguous _ _ => [MkReason "write_ticket_ambiguous" "warn"]
           end
  end.

Definition pre_tool_reasons (summary : GuardStateSummary) (observation : ToolObservation)
    (repository_observation_unavailable : bool) : list GuardReason :=
  let effect := to_prospective_effect observation in
  let may_write := effect =? MayWriteProduct in
  (if may_write && existsb (λ path, negb (pa_inside_repo path)) (to_structured_paths observation)
   then [MkReason "target_outside_project_allowlist" "deny"] else [])
  ++ (if may_write then
        match gs_active_task_id summary with
        | None => [MkReason "no_active_task" "deny"]
        | Some _ => coverage_reasons summary observation
        end
      else [])
  ++ (if effect =? UnknownProductEffect then [MkReason "unknown_effect_warning" "warn"] else [])
  ++ (if repository_observation_unavailable then
        [MkReason "repository_observation_unavailable"
           (if effect <>? NoProductWrite then "deny" else "warn")]
      else []).

Definition pre_tool_decision (summary : GuardStateSummary) (observation : ToolObservation)
    (repository_observation_unavailable : bool) : GuardPolicyDecision * list GuardReason :=
  let reasons := pre_tool_reasons summary observation repository_observation_unavailable in
  (if existsb (λ reason, gr_severity reason =? "deny") reasons then Deny
   else if existsb (λ reason, gr_severity reason =? "warn") reasons then ContinueWithWarning
   else Continue, reasons).

(** The paths [prepare_repository_observation] asks the observer to cover. *)
Definition invocation_paths (observation : ToolObservation)
    : result (list ProductRelativePath) ProductPathError :=
  let? paths := try_map parse_path
    (omap pa_normalized (List.filter pa_inside_repo (to_structured_paths observation))) in
  Ok (bts_of_list paths).

(** [stable_id] of guard_command.rs. *)
Definition stable_id (sha256 : string → list ascii) (prefix : string) (parts : list string) : string :=
  prefix +:+ "_" +:+ String.substring 0 16
    (lowercase_hex_bytes (sha256 (foldr (λ part rest, part +:+ String Ascii.zero rest) "" parts))).

Record RepositoryExpectedWriteInsert := MkExpectedWrite {
  ew_expected_write_id : string;
  ew_command_kind : string;
  ew_expected_paths : list ProductRelativePath;
  ew_task_id : string;
  ew_change_unit_id : string;
  ew_write_ticket_ids : list string;
  ew_basis_state_version : N;
  ew_created_at : UtcTimestamp;
}.

Definition expected_write_candidate (sha256 : string → list ascii)
    (repository_observation_id : string) (summary : GuardStateSummary)
    (observation : ToolObservation) (occurred_at : UtcTimestamp) (decision : GuardPolicyDecision)
    : result (option RepositoryExpectedWriteInsert) GuardCommandError :=
  if (decision =? Deny) || (to_prospective_effect observation <>? MayWriteProduct)
     || existsb (λ path, negb (pa_inside_repo path)) (to_structured_paths observation)
  then Ok None
  else
    let expected_paths := normalized_observed_paths (to_structured_paths observation) in
    if list_is_empty expected_paths then Ok None
    else
      let? typed_expected_paths :=
        map_err (λ error, GuardRuntime (ProductPathError_reason error))
          (try_map parse_path expected_paths) in
      match write_ticket_coverage summary observation with
      | TicketBacked write_ticket _ =>
          let? task_id := ok_or (gs_active_task_id summary)
                            (GuardRuntime "expected write has no active task") in
          Ok (Some (MkExpectedWrite
                (stable_id sha256 "expected_write"
                   [repository_observation_id; join_with "|" expected_paths;
                    aws_write_ticket_id write_ticket])
                (ProductRepositoryEffect_as_str (to_prospective_effect observation))
                typed_expected_paths task_id (aws_change_unit_id write_ticket)
                [aws_write_ticket_id write_ticket] (gs_state_version summary) occurred_at))
      | _ => Ok None
      end.
