(* ===== verification/GuardSound.v ===== *)
(** * GuardSound: which writes the pre-tool hook lets pass

    Over [Guard]: the exact condition of a denial; the stored ticket behind every write
    that passes; agreement of the guard's view of a ticket with core's evaluation of it;
    and the expected write that is recorded for a call. *)

From Stdlib Require Import Ascii.
From S2P Require Import Prelude Text ProductPath Values Canonical EventHash Schema Clock TicketStore Commit.
From S2P Require Import UserActionShape Workflow UserAction Ticket Capture Admission Planning.
From S2P Require Import PlanningCommit HostTools HostContract HostContractSound Guard.

(** ** Coverage *)

(** The normalized paths of the observed targets that lie inside the repository. *)
Definition target_paths (o : ToolObservation) : list string :=
  normalized_observed_paths (to_structured_paths o).

Lemma elem_of_observed paths n :
  n ∈ normalized_observed_paths paths
  ↔ ∃ p, p ∈ paths ∧ pa_inside_repo p = true ∧ pa_normalized p = Some n.
Proof.
  unfold normalized_observed_paths. rewrite elem_of_bts_of_list, list_elem_of_omap.
  setoid_rewrite elem_of_filter_bool. naive_solver.
Qed.

(** The ticket summary covers every observed path. *)
Definition covers (paths : list string) (intended denied : list string) : Prop :=
  ∀ n, n ∈ paths → (∃ a, a ∈ intended ∧ path_is_within n a = true)
    ∧ ∀ d, d ∈ denied → path_is_within n d = false.

Lemma guard_paths_authorized_true paths intended denied :
  guard_paths_authorized paths intended denied = true
  ↔ paths ≠ [] ∧ intended ≠ [] ∧ covers paths intended denied.
Proof.
  unfold guard_paths_authorized, covers.
  rewrite !andb_true_iff, !negb_true_iff, !list_is_empty_false, forallb_elem.
  setoid_rewrite andb_true_iff. setoid_rewrite negb_true_iff.
  setoid_rewrite existsb_elem. setoid_rewrite existsb_false. naive_solver.
Qed.

Lemma not_eq_nil_elem {A} (l : list A) : (∃ x, x ∈ l) ↔ l ≠ [].
Proof.
  destruct l as [|x l]; [|split; [done|intros _; exists x; left]].
  split; [by intros (x & ?%elem_of_nil)|done].
Qed.

(** Some active ticket of the summary covers the targets of the call. *)
Definition ticket_covered (summary : GuardStateSummary) (o : ToolObservation) : Prop :=
  ∃ ticket, ticket ∈ gs_active_write_tickets summary
    ∧ guard_paths_authorized (target_paths o) (aws_intended_paths ticket) (aws_denied_paths ticket) = true.

(** The active tickets that cover the targets of a call. *)
Definition covering (summary : GuardStateSummary) (o : ToolObservation) : list ActiveWriteTicketSummary :=
  List.filter (λ ticket, guard_paths_authorized (target_paths o) (aws_intended_paths ticket)
                           (aws_denied_paths ticket)) (gs_active_write_tickets summary).

Lemma covering_nonempty summary o : ticket_covered summary o ↔ covering summary o ≠ [].
Proof.
  unfold ticket_covered, covering.
  rewrite <-(not_eq_nil_elem (List.filter _ _)). by setoid_rewrite elem_of_filter_bool.
Qed.

Definition denies (reasons : list GuardReason) : bool :=
  existsb (λ reason, gr_severity reason =? "deny") reasons.

Lemma coverage_denies summary o :
  to_changed_paths o = [] →
  denies (coverage_reasons summary o) = false
  ↔ gs_policy_control_reevaluation summary = None ∧ ticket_covered summary o.
Proof.
  intros Hc. unfold coverage_reasons, write_ticket_coverage. rewrite Hc.
  cbn [list_is_empty]. fold (target_paths o).
  destruct (list_is_empty (target_paths o)) eqn:Ep.
  { apply list_is_empty_true in Ep. split.
    - destruct (gs_policy_control_reevaluation summary); done.
    - intros (-> & t & _ & Hg%guard_paths_authorized_true). naive_solver. }
  fold (covering summary o). rewrite covering_nonempty.
  destruct (covering summary o) as [|t [|t' l]].
  - split; [|naive_solver]. destruct (gs_policy_control_reevaluation summary);
      destruct (list_is_empty (psw_write_ticket_id <$> _)); cbn; try done;
      by destruct (list_is_empty (gs_active_write_tickets summary)).
  - destruct (gs_policy_control_reevaluation summary); cbn; [naive_solver|].
    destruct (aws_workspace_validity_uncertain t); naive_solver.
  - destruct (gs_policy_control_reevaluation summary); cbn; naive_solver.
Qed.

Lemma denies_app l k : denies (l ++ k) = denies l || denies k.
Proof. apply existsb_app. Qed.

(** What the guard requires of a call that may write. *)
Record write_permitted (summary : GuardStateSummary) (o : ToolObservation) : Prop := {
  wp_inside : ∀ p, p ∈ to_structured_paths o → pa_inside_repo p = true;
  wp_task : ∃ task_id, gs_active_task_id summary = Some task_id;
  wp_policy : gs_policy_control_reevaluation summary = None;
  wp_covered : ticket_covered summary o;
}.

Lemma decision_deny summary o unavailable :
  (pre_tool_decision summary o unavailable).1 = Deny
  ↔ denies (pre_tool_reasons summary o unavailable) = true.
Proof.
  unfold pre_tool_decision, denies. cbn. destruct (existsb _ _); [done|].
  by destruct (existsb _ _).
Qed.

Lemma write_not_denied summary o unavailable :
  to_changed_paths o = [] → to_prospective_effect o = MayWriteProduct →
  denies (pre_tool_reasons summary o unavailable) = false
  ↔ unavailable = false ∧ write_permitted summary o.
Proof.
  intros Hc He. unfold pre_tool_reasons. rewrite He, !denies_app.
  cbn [eqb andb]. destruct unavailable; cbn; [rewrite !orb_true_r; naive_solver|].
  rewrite !orb_false_r, orb_false_iff. split.
  - intros [Hin Hcov]. split; [done|]. destruct (existsb _ _) eqn:Ee; [done|].
    destruct (gs_active_task_id summary) as [tid|] eqn:Et; [|done].
    apply coverage_denies in Hcov as [Hr Hcov]; [|done]. split; [|by eexists|done|done].
    rewrite existsb_false in Ee. intros p Hp. by apply negb_false_iff, Ee.
  - intros [_ [Hin [tid Ht] Hr Hcov]]. rewrite Ht. split; [|by apply coverage_denies].
    rewrite (proj2 (existsb_false _ _)); [done|]. intros p Hp. by apply negb_false_iff, Hin.
Qed.

(** The hook denies a call exactly in these cases: a call that may write is denied
    unless a stable snapshot exists, every decoded target lies inside the repository, a
    Task is active, no policy reevaluation is pending and one active ticket covers every
    target; a call with an unknown effect is denied exactly when no stable snapshot
    exists; a call that writes nothing is never denied. *)
Theorem guard_denies_exactly summary o unavailable :
  to_changed_paths o = [] →
  (pre_tool_decision summary o unavailable).1 = Deny
  ↔ match to_prospective_effect o with
    | NoProductWrite => False
    | UnknownProductEffect => unavailable = true
    | MayWriteProduct => ¬ (unavailable = false ∧ write_permitted summary o)
    end.
Proof.
  intros Hc. rewrite decision_deny. destruct (to_prospective_effect o) eqn:He.
  - unfold pre_tool_reasons. rewrite He. by destruct unavailable.
  - rewrite <-(write_not_denied summary o unavailable Hc He). by rewrite not_false_iff_true.
  - unfold pre_tool_reasons. rewrite He. by destruct unavailable.
Qed.

(** ** The tickets of the summary *)

Section tickets.
Context `{HC : Chrono} {S : Type} `{HS : !GuardReader S}.
Context (workspace_sha256 : GitWorkspaceContext → string).

(** A stored ticket the guard counts as current. *)
Definition guard_current (fingerprint : string)
    (reevaluation : option GuardPolicyControlReevaluationSummary)
    (evaluated : list StoredWriteTicketEvaluation) (basis : option CurrentWriteTicketBasis)
    (now : UtcTimestamp) (r : StoredWriteTicket) : Prop :=
  vb_write_authority_fingerprint (wt_validity_basis r) = fingerprint ∧ wt_status r = TActive
  ∧ guard_ticket_usable reevaluation evaluated now (owner_status basis r) r = true.

Definition summary_of (basis : option CurrentWriteTicketBasis) (r : StoredWriteTicket)
    : ActiveWriteTicketSummary :=
  MkActiveSummary (wt_write_ticket_id r) (wt_change_unit_id r) (path_str <$> allowed (wt_path_scope r))
    (path_str <$> denied (wt_path_scope r)) (wt_idle_expires_at r)
    (owner_status basis r =? WorkspaceUncertain).

Lemma elem_of_push_if {A} (keep : bool) (l : list A) x y :
  y ∈ push_if keep l x ↔ y ∈ l ∨ (keep = true ∧ y = x).
Proof.
  unfold push_if. destruct keep; [|naive_solver].
  rewrite elem_of_app, list_elem_of_singleton. naive_solver.
Qed.

Lemma classify_step fingerprint reevaluation evaluated basis now acc r :
  let acc' := classify_ticket fingerprint reevaluation evaluated basis now acc r in
  (∀ t, t ∈ gt_active acc' ↔ t ∈ gt_active acc
     ∨ (guard_current fingerprint reevaluation evaluated basis now r
        ∧ allowed (wt_path_scope r) ≠ [] ∧ t = summary_of basis r))
  ∧ (∀ id, id ∈ gt_current acc' ↔ id ∈ gt_current acc
     ∨ (guard_current fingerprint reevaluation evaluated basis now r ∧ id = wt_write_ticket_id r)).
Proof.
  unfold classify_ticket, guard_current.
  destruct (vb_write_authority_fingerprint (wt_validity_basis r) =? fingerprint) eqn:Ef; cbn [negb];
    [apply eqb_eq in Ef|apply eqb_neq in Ef; split; intros ?; cbn; naive_solver].
  destruct (wt_status r =? TActive) eqn:Es; cbn [negb];
    [apply eqb_eq in Es|apply eqb_neq in Es; split; intros ?; cbn; naive_solver].
  destruct (guard_ticket_usable _ _ _ _ _) eqn:Eu; [|split; intros ?; cbn; naive_solver].
  cbn [gt_active gt_current]. split; intros ?; rewrite ?elem_of_push_if, ?elem_of_app, ?list_elem_of_singleton.
  - rewrite negb_true_iff, list_is_empty_false. unfold summary_of.
    assert (path_str <$> allowed (wt_path_scope r) ≠ [] ↔ allowed (wt_path_scope r) ≠ []) as ->
      by (by destruct (allowed (wt_path_scope r))). naive_solver.
  - naive_solver.
Qed.

Lemma classify_tickets fingerprint reevaluation evaluated basis now records :
  let tickets := foldl (classify_ticket fingerprint reevaluation evaluated basis now) no_tickets records in
  (∀ t, t ∈ gt_active tickets ↔ ∃ r, r ∈ records
     ∧ guard_current fingerprint reevaluation evaluated basis now r
     ∧ allowed (wt_path_scope r) ≠ [] ∧ t = summary_of basis r)
  ∧ (∀ id, id ∈ gt_current tickets ↔ ∃ r, r ∈ records
     ∧ guard_current fingerprint reevaluation evaluated basis now r ∧ id = wt_write_ticket_id r).
Proof.
  cbn zeta.
  assert (∀ acc,
    let tickets := foldl (classify_ticket fingerprint reevaluation evaluated basis now) acc records in
    (∀ t, t ∈ gt_active tickets ↔ t ∈ gt_active acc ∨ ∃ r, r ∈ records
       ∧ guard_current fingerprint reevaluation evaluated basis now r
       ∧ allowed (wt_path_scope r) ≠ [] ∧ t = summary_of basis r)
    ∧ (∀ id, id ∈ gt_current tickets ↔ id ∈ gt_current acc ∨ ∃ r, r ∈ records
       ∧ guard_current fingerprint reevaluation evaluated basis now r ∧ id = wt_write_ticket_id r)) as H.
  { induction records as [|r records IH]; intros acc; cbn [foldl].
    { split; intros ?; set_solver. }
    destruct (IH (classify_ticket fingerprint reevaluation evaluated basis now acc r)) as [Ha Hc].
    destruct (classify_step fingerprint reevaluation evaluated basis now acc r) as [Ha' Hc'].
    split; intros x; [rewrite Ha, Ha'|rewrite Hc, Hc']; setoid_rewrite elem_of_cons; naive_solver. }
  destruct (H no_tickets) as [Ha Hc].
  split; intros x; [rewrite Ha|rewrite Hc]; cbn; rewrite elem_of_nil; naive_solver.
Qed.

(** The reads behind a summary with an active Task. *)
Record summary_reads (store : S) (now : UtcTimestamp)
    (probe : result (option GitWorkspaceContext) unit) (task_id : string) : Type := {
  sr_task : option TaskRecord;
  sr_mark : option TaskPolicyControlReevaluation;
  sr_fingerprint : string;
  sr_change_unit : option ChangeUnitRecord;
  sr_evaluated : list StoredWriteTicketEvaluation;
  sr_records : list StoredWriteTicket;
  sr_active : active_task_id_of store = Ok (Some task_id);
  sr_task_read : task_record store task_id = Ok sr_task;
  sr_mark_read : ∀ task, sr_task = Some task →
    task_policy_control_reevaluation store task = Ok sr_mark;
  sr_fingerprint_read : current_authority_fingerprint store = Ok sr_fingerprint;
  sr_unit_read : current_change_unit store task_id = Ok sr_change_unit;
  sr_evaluated_read : load_evaluated_stored_write_tickets store task_id now = Ok sr_evaluated;
  sr_records_read : write_tickets_of store task_id = Ok sr_records;
}.
Arguments sr_task {_ _ _ _}.
Arguments sr_mark {_ _ _ _}.
Arguments sr_fingerprint {_ _ _ _}.
Arguments sr_change_unit {_ _ _ _}.
Arguments sr_evaluated {_ _ _ _}.
Arguments sr_records {_ _ _ _}.

Definition sr_reevaluation {store now probe task_id} (r : summary_reads store now probe task_id) :=
  sr_task r ≫= λ task, pending_policy_control_reevaluation task (sr_mark r).
Definition sr_basis {store now probe task_id} (r : summary_reads store now probe task_id) :=
  (λ task, current_write_ticket_basis workspace_sha256 task (sr_change_unit r) probe) <$> sr_task r.

Lemma guard_summary_Some (store : S) now probe summary task_id :
  guard_state_summary workspace_sha256 store now probe = Ok summary →
  gs_active_task_id summary = Some task_id →
  ∃ reads : summary_reads store now probe task_id,
    let tickets := foldl (classify_ticket (sr_fingerprint reads) (sr_reevaluation reads)
                     (sr_evaluated reads) (sr_basis reads) now) no_tickets (sr_records reads) in
    gs_policy_control_reevaluation summary = sr_reevaluation reads
    ∧ gs_active_write_tickets summary = gt_active tickets
    ∧ gs_current_write_ticket_ids summary = gt_current tickets.
Proof.
  unfold guard_state_summary. intros H. peel H as active Hactive%map_err_Ok.
  peel H as version Hv. peel H as fp Hfp%map_err_Ok. destruct active as [tid|].
  2: { injection H as <-. done. }
  peel H as task Htask%map_err_Ok. peel H as reeval Hre. peel H as unit Hu%map_err_Ok.
  peel H as evaluated He%map_err_Ok. peel H as records Hr%map_err_Ok.
  injection H as <-. cbn [gs_active_task_id]. intros [= ->].
  destruct task as [task|].
  - peel Hre as mark Hm%map_err_Ok. injection Hre as <-.
    assert (∀ t, Some task = Some t → task_policy_control_reevaluation store t = Ok mark) as Hmark
      by naive_solver.
    by exists (Build_summary_reads store now probe task_id (Some task) mark fp unit evaluated records
              Hactive Htask Hmark Hfp Hu He Hr).
  - injection Hre as <-.
    assert (∀ t, None = Some t → task_policy_control_reevaluation store t = Ok None) as Hmark by done.
    by exists (Build_summary_reads store now probe task_id None None fp unit evaluated records
              Hactive Htask Hmark Hfp Hu He Hr).
Qed.

(** ** Core's evaluation of the same tickets *)

(** An active ticket whose idle window is still open. *)
Definition live (now : UtcTimestamp) (r : StoredWriteTicket) : Prop :=
  wt_status r = TActive ∧ write_ticket_is_idle_expired (wt_idle_expires_at r) now = false.

Lemma split_candidates_spec now rs parts :
  split_candidates now (from_record <$> rs) = Ok parts →
  (∀ e, e ∈ parts.1 → (∀ s, e ≠ EvalReusable s) ∧ ∃ r, r ∈ rs ∧ eval_stored e = record_state r ∧ ¬ live now r)
  ∧ (∀ c, c ∈ parts.2 ↔ ∃ r, r ∈ rs ∧ c = record_state r ∧ live now r).
Proof.
  revert parts. induction rs as [|r rs IH]; intros parts; cbn.
  { intros [= <-]. split; set_solver. }
  intros H. peel H as pre Hp%map_err_Ok. peel H as rest Hrest. injection H as <-.
  destruct (IH rest Hrest) as [Ht Hc].
  assert (∀ e, e ∈ rest.1 → (∀ s, e ≠ EvalReusable s)
    ∧ ∃ r', r' ∈ r :: rs ∧ eval_stored e = record_state r' ∧ ¬ live now r') as Ht'.
  { intros e He. destruct (Ht e He) as (Hn & r' & Hr' & ?). split; [done|]. exists r'. by split; [right|]. }
  assert ((∃ t, pre = PreComplete t ∧ eval_stored (eval_of_terminal t) = record_state r
            ∧ (∀ s, eval_of_terminal t ≠ EvalReusable s) ∧ ¬ live now r)
    ∨ (pre = NeedsCurrentFacts (record_state r) ∧ live now r)) as Hpre.
  { clear -Hp. unfold pre_evaluate_stored_write_ticket, from_record in Hp. unfold live.
    cbn in Hp. destruct (wt_status r); unravel Hp; [|right; by split|..].
    all: left; eexists; split_and!; [done|done|done|]; naive_solver congruence. }
  destruct Hpre as [(t & -> & Hst & Hn & Hl)|[-> Hl]]; cbn [fst snd].
  - split.
    + intros e [->|He]%elem_of_cons; [|by apply Ht']. split; [done|]. exists r. by split; [left|].
    + intros c. rewrite Hc. setoid_rewrite elem_of_cons. naive_solver.
  - split; [done|]. intros c. rewrite elem_of_cons, Hc. setoid_rewrite elem_of_cons. naive_solver.
Qed.

(** The evaluation core gives to a live ticket. *)
Definition core_evaluation (task : WriteTicketTaskFacts) (fingerprint : string)
    (approvals : list UserActionAuthority) (now : UtcTimestamp) (r : StoredWriteTicket)
    : StoredWriteTicketEvaluation :=
  eval_of_active (evaluate_active_candidate (record_state r)
    {| cf_pending_policy_reevaluation := tf_pending_policy_reevaluation task;
       cf_write_authority_fingerprint := fingerprint |}
    (assess_write_ticket_approval
       (ticket_requirement (st_ticket (record_state r)) (tf_scope_revision task)
          (tf_effective_control_level task) now)
       approvals (vb_approval_basis_refs (wt_validity_basis r)))).

Lemma evaluated_spec (store : S) task_id now rs es facts fingerprint :
  write_tickets_of store task_id = Ok rs →
  load_evaluated_stored_write_tickets store task_id now = Ok es →
  load_write_ticket_control_facts store task_id = Ok (facts, fingerprint) →
  ∃ approvals,
    (∀ e, e ∈ es → ∃ r, r ∈ rs ∧ eval_stored e = record_state r
       ∧ ((¬ live now r ∧ ∀ s, e ≠ EvalReusable s)
          ∨ (live now r ∧ e = core_evaluation facts fingerprint approvals now r)))
    ∧ ∀ r, r ∈ rs → live now r → core_evaluation facts fingerprint approvals now r ∈ es.
Proof.
  unfold load_evaluated_stored_write_tickets, load_write_ticket_candidates.
  intros Hrs H Hf. rewrite Hrs in H. cbn [map_err] in H. peel H as parts Hp.
  apply split_candidates_spec in Hp as [Ht Hc].
  assert (∀ e, e ∈ parts.1 → ∃ r, r ∈ rs ∧ eval_stored e = record_state r
    ∧ ((¬ live now r ∧ ∀ s, e ≠ EvalReusable s) ∨ False)) as Ht'.
  { intros e He. destruct (Ht e He) as (Hn & r & ? & ? & ?). exists r. tauto. }
  destruct (list_is_empty parts.2) eqn:Ee.
  - apply list_is_empty_true in Ee. injection H as <-. exists []. split; [naive_solver|].
    intros r Hr Hl. exfalso. apply (not_elem_of_nil (record_state r)). rewrite <-Ee. apply Hc. eauto.
  - rewrite Hf in H. peel H as approvals Ha. injection H as <-. exists approvals. split.
    + intros e [He|(c & -> & (r & Hr & -> & Hl)%Hc)%list_elem_of_fmap]%elem_of_app; [naive_solver|].
      exists r. split_and!; [done| |by right]. unfold core_evaluation.
      pose proof (evaluate_active_stored (record_state r)) as Hst. apply Hst.
    + intros r Hr Hl. apply elem_of_app. right. apply list_elem_of_fmap. exists (record_state r).
      split; [done|]. apply Hc. eauto.
Qed.
End tickets.
Arguments sr_task {_ _ _ _ _ _ _}.
Arguments sr_mark {_ _ _ _ _ _ _}.
Arguments sr_fingerprint {_ _ _ _ _ _ _}.
Arguments sr_change_unit {_ _ _ _ _ _ _}.
Arguments sr_evaluated {_ _ _ _ _ _ _}.
Arguments sr_records {_ _ _ _ _ _ _}.

(** ** Agreement of the two evaluations *)

(** The guard and core read the reevaluation mark of a Task alike. *)
Lemma pending_agrees task mark policy :
  is_none (pending_policy_control_reevaluation task mark)
  = negb (rt_pending_policy_reevaluation (resolve_task_control_authority task mark policy)).
Proof.
  destruct (resolved_flags task mark policy) as (_ & _ & ->). destruct mark as [m|]; [|done].
  unfold pending_policy_control_reevaluation. cbn [is_some_and].
  change guard_acceptance_policy_rank with acceptance_policy_rank.
  destruct (control_lt _ _); [done|]. cbn [negb andb orb]. by destruct (is_some_and _ _).
Qed.

Lemma evaluation_of_unique evaluated e :
  e ∈ evaluated → (∀ e', e' ∈ evaluated → eval_write_ticket_id e' = eval_write_ticket_id e → e' = e) →
  evaluation_of evaluated (eval_write_ticket_id e) = Some e.
Proof.
  intros He Hu. unfold evaluation_of.
  destruct (List.find _ (reverse evaluated)) as [e'|] eqn:Ef.
  - apply List.find_some in Ef as [Hin%list_elem_of_In Hid%eqb_eq]. f_equal. apply Hu; [|done].
    by rewrite elem_of_reverse in Hin.
  - eapply List.find_none in Ef; [|apply list_elem_of_In, elem_of_reverse, He].
    by rewrite eqb_refl in Ef.
Qed.

Lemma live_guard now r :
  live now r ↔ wt_status r = TActive
    ∧ is_none_or (wt_idle_expires_at r) (λ expires_at, ts_lt now expires_at) = true.
Proof.
  unfold live, write_ticket_is_idle_expired. destruct (wt_idle_expires_at r) as [x|]; cbn; [|tauto].
  unfold ts_ge, ts_lt. destruct (Z.ltb_spec now x), (Z.leb_spec x now); try lia; naive_solver.
Qed.

Section agreement.
Context `{HC : Chrono} {S : Type} `{HS : !GuardReader S}.
Context (workspace_sha256 : GitWorkspaceContext → string).

(** For one stored ticket: the guard's test is core's evaluation and the owner basis. *)
Lemma guard_current_core task mark policy facts evaluated records approvals basis now r :
  tf_pending_policy_reevaluation facts
    = rt_pending_policy_reevaluation (resolve_task_control_authority task mark policy) →
  NoDup (wt_write_ticket_id <$> records) → r ∈ records →
  (∀ e, e ∈ evaluated → ∃ r, r ∈ records ∧ eval_stored e = record_state r
     ∧ ((¬ live now r ∧ ∀ s, e ≠ EvalReusable s)
        ∨ (live now r
           ∧ e = core_evaluation facts (write_authority_fingerprint policy) approvals now r))) →
  (∀ r, r ∈ records → live now r →
     core_evaluation facts (write_authority_fingerprint policy) approvals now r ∈ evaluated) →
  guard_current (write_authority_fingerprint policy) (pending_policy_control_reevaluation task mark)
    evaluated basis now r
  ↔ EvalReusable (record_state r) ∈ evaluated ∧ owner_status basis r ≠ OwnerStale.
Proof.
  intros Hpend Hnd Hr Hes Hlive. set (fp := write_authority_fingerprint policy) in *.
  set (e := core_evaluation facts fp approvals now r).
  assert (eval_write_ticket_id e = wt_write_ticket_id r) as Hid.
  { unfold e, core_evaluation, eval_write_ticket_id. by rewrite evaluate_active_stored. }
  assert (∀ e', e' ∈ evaluated → eval_write_ticket_id e' = wt_write_ticket_id r → live now r → e' = e) as Hu.
  { intros e' He' Hid' Hl. destruct (Hes e' He') as (r' & Hr' & Hst & Hcase).
    assert (r' = r) as -> by (eapply NoDup_fmap_inj_elem; [exact Hnd|done..|];
      unfold eval_write_ticket_id in Hid'; by rewrite Hst in Hid'). naive_solver. }
  assert (∀ Hl : live now r, evaluation_of evaluated (wt_write_ticket_id r) = Some e) as Hev.
  { intros Hl. rewrite <-Hid. apply evaluation_of_unique; [by apply Hlive|].
    intros e' He' Hid'. apply Hu; [done|congruence|done]. }
  assert (e = EvalReusable (record_state r) ↔ vb_write_authority_fingerprint (wt_validity_basis r) = fp
    ∧ is_none (pending_policy_control_reevaluation task mark) = true
    ∧ eval_invalidation e ≠ Some IApprovalBasisChanged) as Hre.
  { unfold e, core_evaluation. rewrite (pending_agrees task mark policy), negb_true_iff, <-Hpend.
    unfold evaluate_active_candidate. cbn.
    destruct (vb_write_authority_fingerprint (wt_validity_basis r) =? fp) eqn:Ef; cbn;
      [apply eqb_eq in Ef|apply eqb_neq in Ef; naive_solver].
    destruct (tf_pending_policy_reevaluation facts); cbn; [naive_solver|].
    destruct (assess_write_ticket_approval _ _ _); naive_solver. }
  unfold guard_current, guard_ticket_usable, approval_basis_current.
  rewrite !andb_true_iff, negb_true_iff, eqb_false. split.
  - intros (Hfp & Hst & ((Hn & Hx) & Ha) & Ho).
    assert (live now r) as Hl by (by apply live_guard). rewrite (Hev Hl) in Ha. cbn in Ha.
    rewrite negb_true_iff, eqb_false in Ha. split; [|done].
    rewrite <-(proj2 Hre); [by apply Hlive|done].
  - intros [Hin Ho]. destruct (Hes _ Hin) as (r' & Hr' & Hst & Hcase).
    assert (r' = r) as ->.
    { eapply NoDup_fmap_inj_elem; [exact Hnd|done..|]. cbn in Hst. by injection Hst. }
    destruct Hcase as [[_ Hn]|[Hl Heq]]; [by edestruct Hn|].
    fold e in Heq. symmetry in Heq. destruct (proj1 Hre Heq) as (Hfp & Hn & Hi).
    pose proof (proj1 (live_guard now r) Hl) as [Hact Hx]. rewrite (Hev Hl). cbn.
    by rewrite negb_true_iff, eqb_false.
Qed.

(** C7: The guard and core agree on which tickets may be used: a stored ticket of the
    active Task is current for the hook exactly when core's own evaluation finds it
    reusable and it belongs to the Task, Change Unit, scope revision, baseline and Git
    workspace the hook sees now. *)
Theorem guard_agrees_with_core (store : S) now probe summary task_id task policy unit records evaluated r :
  guard_state_summary workspace_sha256 store now probe = Ok summary →
  gs_active_task_id summary = Some task_id →
  task_record store task_id = Ok (Some task) →
  current_change_unit store task_id = Ok unit →
  project_workflow_policy store = Ok policy →
  current_authority_fingerprint store = Ok (write_authority_fingerprint policy) →
  write_tickets_of store task_id = Ok records → NoDup (wt_write_ticket_id <$> records) →
  load_evaluated_stored_write_tickets store task_id now = Ok evaluated → r ∈ records →
  wt_write_ticket_id r ∈ gs_current_write_ticket_ids summary
  ↔ EvalReusable (record_state r) ∈ evaluated
    ∧ owner_status (Some (current_write_ticket_basis workspace_sha256 task unit probe)) r ≠ OwnerStale.
Proof.
  intros Hs Hid Ht Hu Hp Hfp Hr Hnd He Hin.
  destruct (guard_summary_Some _ _ _ _ _ _ Hs Hid) as (reads & _ & _ & ->).
  destruct (classify_tickets (sr_fingerprint reads) (sr_reevaluation reads) (sr_evaluated reads)
    (sr_basis workspace_sha256 reads) now (sr_records reads)) as [_ ->].
  destruct reads as [task' mark fp unit' es rs Ha Ht' Hm Hfp' Hu' He' Hr']; cbn.
  unfold sr_reevaluation, sr_basis. cbn. simplify_eq.
  replace task' with (Some task) in * by congruence. replace unit' with unit by congruence.
  replace fp with (write_authority_fingerprint policy) by congruence.
  replace es with evaluated by congruence. replace rs with records by congruence. cbn.
  set (facts := {| tf_scope_revision := tk_scope_revision task;
    tf_effective_control_level :=
      rt_effective_control_level (resolve_task_control_authority task mark policy);
    tf_pending_policy_reevaluation :=
      rt_pending_policy_reevaluation (resolve_task_control_authority task mark policy) |}).
  assert (load_write_ticket_control_facts store task_id
    = Ok (facts, write_authority_fingerprint policy)) as Hf.
  { unfold load_write_ticket_control_facts. rewrite Ht. cbn. rewrite Hp. cbn.
    by rewrite (Hm task eq_refl). }
  destruct (evaluated_spec _ _ _ _ _ _ _ Hr He Hf) as (approvals & Hes & Hlive).
  etrans; [|exact (guard_current_core task mark policy facts evaluated records approvals
    (Some (current_write_ticket_basis workspace_sha256 task unit probe)) now r eq_refl Hnd Hin Hes Hlive)].
  split; [|by exists r]. intros (r' & Hr'' & Hg & Hid').
  by replace r with r' by (eapply NoDup_fmap_inj_elem; [exact Hnd|done..]).
Qed.
End agreement.

(** ** End to end *)

Section hook.
Context `{HC : Chrono} {S : Type} `{HS : !GuardReader S}.
Context (workspace_sha256 : GitWorkspaceContext → string).
Context (sha1 sha256 : string → list ascii) (json_len : Value → option N).

(** Before a call runs nothing is reported as changed, and a target lies inside the
    repository exactly when it has a normalized path. *)
Lemma observation_paths event repo_root server o :
  tool_observation sha1 json_len event repo_root server = Ok o →
  to_changed_paths o = []
  ∧ ∀ p, p ∈ to_structured_paths o →
      p = assess_path repo_root (pa_raw p) ∧ pa_inside_repo p = is_some (pa_normalized p).
Proof.
  unfold tool_observation. intros H. peel H as ev Hev. peel H as [[c i] r] Ht. peel H as cat Hc.
  injection H as <-. cbn. split; [done|]. unfold assess_decoded_paths.
  by intros p (raw & -> & _)%list_elem_of_fmap.
Qed.

(** C6: No write passes the hook without a ticket: when a call that may write a product
    file is not denied, the active Task has a stored ticket that is active, inside its
    idle window, issued under the current policy and owned by the current Task, Change
    Unit and workspace; the call names at least one target, and every target lies inside
    the repository, within an allowed path of that ticket and within none of its denied
    paths. *)
Theorem guarded_write_has_ticket (store : S) now probe summary event repo_root server o unavailable :
  guard_state_summary workspace_sha256 store now probe = Ok summary →
  tool_observation sha1 json_len event repo_root server = Ok o →
  to_prospective_effect o = MayWriteProduct →
  (pre_tool_decision summary o unavailable).1 ≠ Deny →
  ∃ task_id task unit records r,
    active_task_id_of store = Ok (Some task_id) ∧ task_record store task_id = Ok (Some task)
    ∧ current_change_unit store task_id = Ok unit
    ∧ write_tickets_of store task_id = Ok records ∧ r ∈ records ∧ live now r
    ∧ current_authority_fingerprint store
      = Ok (vb_write_authority_fingerprint (wt_validity_basis r))
    ∧ owner_status (Some (current_write_ticket_basis workspace_sha256 task unit probe)) r ≠ OwnerStale
    ∧ to_structured_paths o ≠ []
    ∧ ∀ p, p ∈ to_structured_paths o → ∃ n, pa_normalized (assess_path repo_root (pa_raw p)) = Some n
        ∧ (∃ a, a ∈ allowed (wt_path_scope r) ∧ path_is_within n (path_str a) = true)
        ∧ ∀ d, d ∈ denied (wt_path_scope r) → path_is_within n (path_str d) = false.
Proof.
  intros Hs Ho He Hd. destruct (observation_paths _ _ _ _ Ho) as [Hc Hp].
  rewrite decision_deny, not_true_iff_false, write_not_denied in Hd by done.
  destruct Hd as [_ [Hin [tid Hid] _ (t & Hta & Hcov)]].
  destruct (guard_summary_Some _ _ _ _ _ _ Hs Hid) as (reads & _ & Hact & _).
  rewrite Hact in Hta. apply classify_tickets in Hta as (r & Hr & (Hfp & Hst & Hu) & _ & ->).
  apply guard_paths_authorized_true in Hcov as (Hne & _ & Hcov).
  unfold guard_ticket_usable in Hu. rewrite !andb_true_iff, negb_true_iff, eqb_false in Hu.
  destruct Hu as [[[_ Hx] _] Hown].
  destruct reads as [task mark fp unit es rs Ha Ht Hm Hf Hcu Hes Hrs].
  cbn [sr_records sr_fingerprint] in Hr, Hfp.
  unfold sr_basis in Hown. cbn in Hown. destruct task as [task|]; [|done].
  exists tid, task, unit, rs, r. split_and!; try done.
  - by apply live_guard.
  - by rewrite Hfp.
  - intros Hn. apply Hne. unfold target_paths. by rewrite Hn.
  - intros p Hpin. destruct (Hp p Hpin) as [Heq Hins]. rewrite <-Heq. specialize (Hin p Hpin).
    rewrite Hins in Hin. destruct (pa_normalized p) as [n|] eqn:En; [|done]. exists n.
    destruct (Hcov n) as [(a & Haa & Hw) Hden].
    { apply elem_of_observed. exists p. by rewrite Hins, En. }
    cbn in Haa. apply list_elem_of_fmap in Haa as (a' & -> & Ha'). split_and!; [done|eauto|].
    intros d Hdd. apply Hden. cbn. by apply list_elem_of_fmap_2.
Qed.
(** The expected write and the request to the observer name the same paths. *)
Lemma expected_paths_parse o ps :
  invocation_paths o = Ok ps →
  ∃ typed, try_map parse_path (target_paths o) = Ok typed ∧ ∀ p, p ∈ typed ↔ p ∈ ps.
Proof.
  unfold invocation_paths. intros H. peel H as paths Hp. injection H as <-.
  pose proof (proj1 (try_map_Ok _ _ _) Hp) as H2.
  destruct (try_map_total parse_path (target_paths o)) as [typed Htyped].
  { intros n Hn. unfold target_paths, normalized_observed_paths in Hn.
    rewrite elem_of_bts_of_list in Hn. apply list_elem_of_lookup in Hn as [i Hi].
    destruct (Forall2_lookup_l _ _ _ _ _ H2 Hi) as (y & _ & ?). eauto. }
  exists typed. split; [done|]. intros p. rewrite elem_of_bts_of_list.
  rewrite (elem_of_try_map _ _ _ _ Htyped), (elem_of_try_map _ _ _ _ Hp).
  unfold target_paths, normalized_observed_paths. by setoid_rewrite elem_of_bts_of_list.
Qed.

(** The expected write recorded for a call is exact: whenever the observer could be
    asked to cover the targets of the call, an expected write is computed without error;
    there is one exactly when the call may write, was not denied and a single active
    ticket covers it, and then it names that ticket, its Change Unit, the active Task, the
    state version the decision rests on and the paths the observer covers. *)
Theorem expected_write_exact id summary event repo_root server o at_ unavailable ps :
  tool_observation sha1 json_len event repo_root server = Ok o →
  invocation_paths o = Ok ps →
  let decision := (pre_tool_decision summary o unavailable).1 in
  ∃ expected, expected_write_candidate sha256 id summary o at_ decision = Ok expected
    ∧ match expected with
      | None => decision = Deny ∨ to_prospective_effect o ≠ MayWriteProduct
                ∨ 2 ≤ length (covering summary o)
      | Some w => decision ≠ Deny ∧ to_prospective_effect o = MayWriteProduct
          ∧ ∃ ticket, covering summary o = [ticket]
              ∧ gs_active_task_id summary = Some (ew_task_id w)
              ∧ ew_write_ticket_ids w = [aws_write_ticket_id ticket]
              ∧ ew_change_unit_id w = aws_change_unit_id ticket
              ∧ ew_basis_state_version w = gs_state_version summary
              ∧ ∀ p, p ∈ ew_expected_paths w ↔ p ∈ ps
      end.
Proof.
  intros Ho Hps decision. destruct (observation_paths _ _ _ _ Ho) as [Hc _].
  unfold expected_write_candidate. destruct (decide (decision = Deny)) as [Hd|Hd].
  { exists None. rewrite (proj2 (eqb_true decision Deny)) by done. by split; [|left]. }
  destruct (decide (to_prospective_effect o = MayWriteProduct)) as [He|He].
  2: { exists None. rewrite (proj2 (eqb_false (to_prospective_effect o) MayWriteProduct)) by done.
       rewrite orb_true_r. by split; [|right; left]. }
  assert (write_permitted summary o) as [Hin [tid Hid] _ Hcov].
  { unfold decision in Hd. rewrite decision_deny, not_true_iff_false, write_not_denied in Hd by done.
    apply Hd. }
  rewrite (proj2 (eqb_false decision Deny)), He, (proj2 (existsb_false _ _)) by
    (try done; intros p Hp; by apply negb_false_iff, Hin).
  cbn [eqb orb negb]. fold (target_paths o).
  assert (list_is_empty (target_paths o) = false) as Hne.
  { destruct Hcov as (t & _ & [? _]%guard_paths_authorized_true). by apply list_is_empty_false. }
  destruct (expected_paths_parse o ps Hps) as (typed & Htyped & Hmem).
  unfold write_ticket_coverage. rewrite Hc. cbn [list_is_empty]. fold (target_paths o).
  rewrite Hne, Htyped. cbn [map_err]. fold (covering summary o).
  apply covering_nonempty in Hcov.
  destruct (covering summary o) as [|t [|t' l]] eqn:Ec; [done| |].
  - rewrite Hid. cbn. eexists. split; [done|]. cbn. naive_solver.
  - cbn. eexists. split; [done|]. cbn. right. right. lia.
Qed.
End hook.

(** ** Witnesses *)

#[local] Existing Instance decimal_chrono.

(** A snapshot whose active Task is the sample Task. *)
#[local] Instance sample_guard_reader : GuardReader PrepareSnapshot := {|
  guard_prepare_reader := prepare_snapshot_reader;
  active_task_id_of _ := Ok (Some "t1");
  state_version_of _ := Ok 3%N;
  current_authority_fingerprint s :=
    Ok (write_authority_fingerprint (snap_policy (psn_snapshot s)));
|}.

Definition sample_event (tool : string) (input : Value) : Value :=
  Object [("hook_event_name", Str "PreToolUse"); ("session_id", Str "s1"); ("turn_id", Str "turn1");
          ("tool_use_id", Str "use1"); ("tool_name", Str tool); ("tool_input", input)].
Definition sample_edit : Value := sample_event "Edit" (Object [("file_path", Str "/repo/src/lib.rs")]).

Definition sample_len (_ : Value) : option N := Some 64%N.
Definition sample_probe : result (option GitWorkspaceContext) unit := Ok None.
Definition sample_summary : result GuardStateSummary GuardCommandError :=
  guard_state_summary no_digest (sample_store sample_table) 150 sample_probe.
Definition sample_observation (event : Value) : result ToolObservation GuardCommandError :=
  tool_observation sample_sha1 sample_len event "/repo" sample_server.

Definition sample_decision (event : Value) : option GuardPolicyDecision :=
  match sample_summary, sample_observation event with
  | Ok summary, Ok o => Some (pre_tool_decision summary o false).1
  | _, _ => None
  end.

Example edit_passes : sample_decision sample_edit = Some Continue.
Proof. vm_compute. reflexivity. Qed.
Example outside_scope_denied :
  sample_decision (sample_event "Edit" (Object [("file_path", Str "docs/a.md")])) = Some Deny.
Proof. vm_compute. reflexivity. Qed.
Example copy_into_directory_passes :
  sample_decision (sample_event "Bash" (Object [("command", Str "cp -t docs src/lib.rs")]))
  = Some Continue.
Proof. vm_compute. reflexivity. Qed.

Definition sample_checks : bool :=
  match sample_summary, sample_observation sample_edit with
  | Ok summary, Ok o =>
      list_is_empty (to_changed_paths o) && (to_prospective_effect o =? MayWriteProduct)
      && ((pre_tool_decision summary o false).1 =? Continue)
      && (gs_active_task_id summary =? Some "t1") && (gs_current_write_ticket_ids summary =? ["wt1"])
      && ((aws_write_ticket_id <$> covering summary o) =? ["wt1"])
      && match invocation_paths o with Ok paths => paths =? [sample_path] | Err _ => false end
  | _, _ => false
  end.

Lemma sample_hook : ∃ summary o, sample_summary = Ok summary
  ∧ sample_observation sample_edit = Ok o ∧ to_changed_paths o = []
  ∧ to_prospective_effect o = MayWriteProduct
  ∧ (pre_tool_decision summary o false).1 = Continue
  ∧ gs_active_task_id summary = Some "t1" ∧ gs_current_write_ticket_ids summary = ["wt1"]
  ∧ aws_write_ticket_id <$> covering summary o = ["wt1"]
  ∧ invocation_paths o = Ok [sample_path].
Proof.
  assert (sample_checks = true) as H by (vm_compute; reflexivity). unfold sample_checks in H.
  destruct sample_summary as [summary|]; [|discriminate H].
  destruct (sample_observation sample_edit) as [o|]; [|discriminate H]. exists summary, o.
  rewrite !andb_true_iff, list_is_empty_true, !eqb_true in H.
  destruct H as [[[[[[? ?] ?] ?] ?] ?] Hp]. destruct (invocation_paths o) as [ps|]; [|discriminate Hp].
  apply eqb_eq in Hp as ->. by split_and!.
Qed.

Lemma guard_denies_exactly_witness : ∃ summary o, sample_summary = Ok summary
  ∧ sample_observation sample_edit = Ok o ∧ (pre_tool_decision summary o true).1 = Deny.
Proof.
  destruct sample_hook as (summary & o & Hs & Ho & Hc & He & _). exists summary, o.
  split_and!; [exact Hs|exact Ho|].
  apply (guard_denies_exactly summary o true Hc). rewrite He. intros [Hn _]. discriminate Hn.
Defined.

Lemma guard_agrees_with_core_witness : ∃ evaluated,
  load_evaluated_stored_write_tickets (sample_store sample_table) "t1" 150 = Ok evaluated
  ∧ EvalReusable (record_state sample_record) ∈ evaluated.
Proof.
  destruct sample_hook as (summary & o & Hs & _ & _ & _ & _ & Hid & Hcur & _).
  destruct (load_evaluated_stored_write_tickets (sample_store sample_table) "t1" 150) as [evaluated|] eqn:He.
  2: { exfalso. assert (is_ok (load_evaluated_stored_write_tickets (sample_store sample_table) "t1" 150)
         = true) as H by (vm_compute; reflexivity). rewrite He in H. discriminate H. }
  exists evaluated. split; [reflexivity|].
  apply (guard_agrees_with_core no_digest (sample_store sample_table) 150 sample_probe summary "t1"
    sample_task sample_policy (Some sample_change_unit) [sample_record] evaluated sample_record Hs Hid);
    [vm_compute; reflexivity..|apply NoDup_singleton|exact He|left|rewrite Hcur; left].
Defined.

Lemma guarded_write_has_ticket_witness : ∃ o records r,
  sample_observation sample_edit = Ok o ∧ to_structured_paths o ≠ []
  ∧ write_tickets_of (sample_store sample_table) "t1" = Ok records ∧ r ∈ records ∧ live 150 r.
Proof.
  destruct sample_hook as (summary & o & Hs & Ho & _ & He & Hd & _).
  destruct (guarded_write_has_ticket no_digest sample_sha1 sample_len (sample_store sample_table) 150
    sample_probe summary sample_edit "/repo" sample_server o false Hs Ho He)
    as (tid & task & unit & records & r & Ha & _ & _ & Hrs & Hr & Hl & _ & _ & Hne & _).
  - rewrite Hd. discriminate.
  - injection Ha as <-. exists o, records, r. split_and!; [exact Ho|exact Hne|exact Hrs|exact Hr|exact Hl..].
Defined.

Lemma expected_write_exact_witness : ∃ summary o w,
  sample_summary = Ok summary ∧ sample_observation sample_edit = Ok o
  ∧ expected_write_candidate sample_sha1 "obs1" summary o 150 Continue = Ok (Some w)
  ∧ ew_write_ticket_ids w = ["wt1"] ∧ sample_path ∈ ew_expected_paths w.
Proof.
  destruct sample_hook as (summary & o & Hs & Ho & _ & He & Hd & _ & _ & Hw & Hps).
  destruct (expected_write_exact sample_sha1 sample_sha1 sample_len "obs1" summary sample_edit "/repo"
    sample_server o 150%Z false _ Ho Hps) as (expected & Hx & Hspec).
  rewrite Hd, He in Hspec. rewrite Hd in Hx. destruct expected as [w|].
  - destruct Hspec as (_ & _ & t & Hcov & _ & Hids & _ & _ & Hmem). exists summary, o, w.
    split_and!; [exact Hs|exact Ho|exact Hx| |apply Hmem; left].
    rewrite Hids. rewrite Hcov in Hw. exact Hw.
  - exfalso. destruct Hspec as [Hn|[Hn|Hn]]; [discriminate Hn|by apply Hn|].
    apply (f_equal length) in Hw. rewrite length_fmap in Hw. cbn in Hw. lia.
Defined.
