(* ===== verification/RepoSnapshot.v ===== *)
(** * RepoSnapshot: what the observer of the product repository records

    Models volicord-platform-fs/src/repository_observation/: the states of paths, the
    checkpoints and deltas with their canonical bytes (model.rs), the limits (bounded.rs),
    the coordinates and status records of Git (coordinates.rs), the states read from the
    worktree and from a tree (path_state.rs), the snapshot taken until it is stable
    (snapshot.rs) and the delta of two snapshots (delta.rs).

    Bytes are strings.  What Git and the file system answer enters as a [RepoWorld], one
    per reading: within a reading every file and every Git command is asked at most once
    or asks for an immutable object,
    so one function per reading covers every interleaving with other programs.  SHA-256 is
    the parameter [sha256].  Diagnostics carry their reason only. *)

From Stdlib Require Import Ascii.
From S2P Require Import Prelude Text ProductPath Canonical.

(** ** [std::str::from_utf8] *)

Definition is_continuation : ascii → bool := byte_between 128 191.

Fixpoint is_utf8 (s : string) : bool :=
  match s with
  | EmptyString => true
  | String a s1 =>
      if byte_between 0 127 a then is_utf8 s1
      else match s1 with
      | EmptyString => false
      | String b s2 =>
          if byte_between 194 223 a then is_continuation b && is_utf8 s2
          else match s2 with
          | EmptyString => false
          | String c s3 =>
              if (byte a =? 224)%N then byte_between 160 191 b && is_continuation c && is_utf8 s3
              else if (byte a =? 237)%N
              then byte_between 128 159 b && is_continuation c && is_utf8 s3
              else if byte_between 225 239 a
              then is_continuation b && is_continuation c && is_utf8 s3
              else match s3 with
              | EmptyString => false
              | String d s4 =>
                  (if (byte a =? 240)%N then byte_between 144 191 b
                   else if byte_between 241 243 a then is_continuation b
                   else (byte a =? 244)%N && byte_between 128 143 b)
                  && is_continuation c && is_continuation d && is_utf8 s4
              end
          end
      end
  end.

(** ** [BTreeMap] as an association list in key order *)

Section btree_map.
Context {K V : Type} `{RustOrd K}.

Fixpoint bmap_insert (k : K) (v : V) (m : list (K * V)) : list (K * V) :=
  match m with
  | [] => [(k, v)]
  | (k', v') :: m' =>
      match rcompare k k' with
      | Lt => (k, v) :: (k', v') :: m'
      | Eq => (k', v) :: m'
      | Gt => (k', v') :: bmap_insert k v m'
      end
  end.

Fixpoint bmap_get (k : K) (m : list (K * V)) : option V :=
  match m with
  | [] => None
  | (k', v) :: m' => match rcompare k k' with Eq => Some v | _ => bmap_get k m' end
  end.
End btree_map.

(** ** Limits *)

(** The limits the modelled code compares with; a duration is in nanoseconds. *)
Record ObserverLimits := MkLimits {
  max_git_output_bytes : N;
  max_process_input_bytes : N;
  max_candidate_paths : N;
  max_total_hashed_bytes : N;
  max_file_bytes : N;
  max_process_duration : N;
  max_serialized_bytes : N;
  max_serialization_depth : N;
  max_stability_attempts : nat;
}.
#[export] Instance ObserverLimits_eq_dec : EqDecision ObserverLimits.
Proof. solve_decision. Defined.

Definition default_limits : ObserverLimits :=
  MkLimits (1024 * 1024) (1024 * 1024) 8192 (2 * 1024 * 1024 * 1024) (512 * 1024 * 1024)
    (10 * 1000000000) (8 * 1024 * 1024) 8 2.

Inductive ObservationUnavailableReason :=
| InvalidObserverLimits | InvalidRepositoryRoot | NotGitRepository | GitLayoutUnavailable
| GitCommandUnavailable | GitCommandFailed | ProcessTimeout | GitOutputLimitExceeded
| ProcessInputLimitExceeded | CandidatePathLimitExceeded | TotalHashBytesLimitExceeded
| FileSizeLimitExceeded | SerializationDepthLimitExceeded | SerializationSizeLimitExceeded
| InvalidRelativePath | NonUtf8Path | PathOutsideRepository | InaccessiblePath
| UnsupportedPathState | UnstableRepository | RepositoryIdentityChanged
| ObserverContractMismatch | GitObjectUnavailable.
#[export] Instance ObservationUnavailableReason_eq_dec : EqDecision ObservationUnavailableReason.
Proof. solve_decision. Defined.

Definition ObservationUnavailableReason_as_str (reason : ObservationUnavailableReason) : string :=
  match reason with
  | InvalidObserverLimits => "invalid_observer_limits"
  | InvalidRepositoryRoot => "invalid_repository_root"
  | NotGitRepository => "not_git_repository"
  | GitLayoutUnavailable => "git_layout_unavailable"
  | GitCommandUnavailable => "git_command_unavailable"
  | GitCommandFailed => "git_command_failed"
  | ProcessTimeout => "process_timeout"
  | GitOutputLimitExceeded => "git_output_limit_exceeded"
  | ProcessInputLimitExceeded => "process_input_limit_exceeded"
  | CandidatePathLimitExceeded => "candidate_path_limit_exceeded"
  | TotalHashBytesLimitExceeded => "total_hash_bytes_limit_exceeded"
  | FileSizeLimitExceeded => "file_size_limit_exceeded"
  | SerializationDepthLimitExceeded => "serialization_depth_limit_exceeded"
  | SerializationSizeLimitExceeded => "serialization_size_limit_exceeded"
  | InvalidRelativePath => "invalid_relative_path"
  | NonUtf8Path => "non_utf8_path"
  | PathOutsideRepository => "path_outside_repository"
  | InaccessiblePath => "inaccessible_path"
  | UnsupportedPathState => "unsupported_path_state"
  | UnstableRepository => "unstable_repository"
  | RepositoryIdentityChanged => "repository_identity_changed"
  | ObserverContractMismatch => "observer_contract_mismatch"
  | GitObjectUnavailable => "git_object_unavailable"
  end.

Definition limits_validate (limits : ObserverLimits) : result unit ObservationUnavailableReason :=
  if (max_git_output_bytes limits =? 0)%N || (max_process_input_bytes limits =? 0)%N
     || (max_candidate_paths limits =? 0)%N || (max_total_hashed_bytes limits =? 0)%N
     || (max_file_bytes limits =? 0)%N || (max_process_duration limits =? 0)%N
     || (max_serialized_bytes limits =? 0)%N || (max_serialization_depth limits =? 0)%N
     || (max_stability_attempts limits =? 0)%nat
  then Err InvalidObserverLimits else Ok tt.

Definition ensure_candidate_limit (count : nat) (limits : ObserverLimits)
    : result unit ObservationUnavailableReason :=
  if (max_candidate_paths limits <? N.of_nat count)%N then Err CandidatePathLimitExceeded else Ok tt.

(** ** [CanonicalEncoder] *)

Fixpoint be_bytes (width : nat) (n : N) : string :=
  match width with
  | O => EmptyString
  | S width => be_bytes width (n / 256) +:+ String (ascii_of_N (n mod 256)) EmptyString
  end.

Definition enc_u8 (n : N) : string := be_bytes 1 n.
Definition enc_u64 (n : N) : string := be_bytes 8 n.
Definition enc_u128 (n : N) : string := be_bytes 16 n.
Definition enc_usize (n : nat) : string := enc_u64 (N.of_nat n).
Definition enc_string (s : string) : string := enc_usize (String.length s) +:+ s.
Definition enc_optional_string (s : option string) : string :=
  match s with Some s => enc_u8 1 +:+ enc_string s | None => enc_u8 0 end.
Definition enc_list {A} (enc : A → string) (l : list A) : string :=
  enc_usize (length l) +:+ foldr (λ x rest, enc x +:+ rest) "" l.

(** ** States of paths *)

Inductive RegularFileContentEvidence :=
| Worktree (exact_worktree_bytes canonical_git_blob : string)
| GitTree (canonical_git_blob : string).
#[export] Instance RegularFileContentEvidence_eq_dec : EqDecision RegularFileContentEvidence.
Proof. solve_decision. Defined.

Definition canonical_git_blob (e : RegularFileContentEvidence) : string :=
  match e with Worktree _ blob | GitTree blob => blob end.

Definition evidence_semantically_eq (x y : RegularFileContentEvidence) : bool :=
  match x, y with
  | Worktree bytes _, Worktree bytes' _ => bytes =? bytes'
  | _, _ => canonical_git_blob x =? canonical_git_blob y
  end.

Inductive ProductPathState :=
| Absent
| RegularFile (content_evidence : RegularFileContentEvidence) (executable : bool)
| SymbolicLink (target : string)
| Gitlink (commit_oid : string).
#[export] Instance ProductPathState_eq_dec : EqDecision ProductPathState.
Proof. solve_decision. Defined.

Definition semantically_eq (x y : ProductPathState) : bool :=
  match x, y with
  | Absent, Absent => true
  | RegularFile evidence executable, RegularFile evidence' executable' =>
      (executable =? executable') && evidence_semantically_eq evidence evidence'
  | SymbolicLink target, SymbolicLink target' => target =? target'
  | Gitlink oid, Gitlink oid' => oid =? oid'
  | _, _ => false
  end.

Definition encode_path_state (state : ProductPathState) : string :=
  match state with
  | Absent => enc_u8 0
  | RegularFile evidence executable =>
      enc_u8 1
      +:+ match evidence with
          | Worktree bytes blob => enc_u8 0 +:+ enc_string bytes +:+ enc_string blob
          | GitTree blob => enc_u8 1 +:+ enc_string blob
          end
      +:+ enc_u8 (if executable then 1 else 0)
  | SymbolicLink target => enc_u8 2 +:+ enc_string target
  | Gitlink commit_oid => enc_u8 3 +:+ enc_string commit_oid
  end.

(** ** Coordinates, checkpoints, snapshots *)

Record RepositoryObservationCoordinate := MkCoordinate {
  co_repository_identity : string;
  co_git_layout_identity : string;
  co_worktree_identity : string;
  co_head_oid : option string;
  co_tree_oid : option string;
  co_status_identity : string;
}.
#[export] Instance RepositoryObservationCoordinate_eq_dec : EqDecision RepositoryObservationCoordinate.
Proof. solve_decision. Defined.

Definition PathStates : Type := list (ProductRelativePath * ProductPathState).

Record RepositoryObservationCheckpoint := MkCheckpoint {
  ck_coordinate : RepositoryObservationCoordinate;
  ck_observed_states : PathStates;
  ck_status_paths : list ProductRelativePath;
  ck_invocation_paths : list ProductRelativePath;
  ck_contract_digest : string;
}.
#[export] Instance RepositoryObservationCheckpoint_eq_dec : EqDecision RepositoryObservationCheckpoint.
Proof. solve_decision. Defined.

Record RepositoryObservationSnapshot := MkSnapshot {
  sn_repository_root : string;
  sn_coordinate : RepositoryObservationCoordinate;
  sn_observed_states : PathStates;
  sn_status_paths : list ProductRelativePath;
  sn_invocation_paths : list ProductRelativePath;
  sn_contract_digest : string;
  sn_limits : ObserverLimits;
}.
#[export] Instance RepositoryObservationSnapshot_eq_dec : EqDecision RepositoryObservationSnapshot.
Proof. solve_decision. Defined.

Definition snapshot_checkpoint (s : RepositoryObservationSnapshot) : RepositoryObservationCheckpoint :=
  MkCheckpoint (sn_coordinate s) (sn_observed_states s) (sn_status_paths s) (sn_invocation_paths s)
    (sn_contract_digest s).

Definition encode_coordinate (c : RepositoryObservationCoordinate) : string :=
  enc_string (co_repository_identity c) +:+ enc_string (co_git_layout_identity c)
  +:+ enc_string (co_worktree_identity c) +:+ enc_optional_string (co_head_oid c)
  +:+ enc_optional_string (co_tree_oid c) +:+ enc_string (co_status_identity c).

(** [encode_snapshot], of the portable part of a snapshot. *)
Definition encode_snapshot (c : RepositoryObservationCheckpoint) : string :=
  enc_string "repository_snapshot" +:+ enc_string (ck_contract_digest c)
  +:+ encode_coordinate (ck_coordinate c)
  +:+ enc_list (λ kv, enc_string (path_str kv.1) +:+ encode_path_state kv.2) (ck_observed_states c)
  +:+ enc_list (λ p, enc_string (path_str p)) (ck_status_paths c)
  +:+ enc_list (λ p, enc_string (path_str p)) (ck_invocation_paths c).

Definition is_tree_evidence (state : ProductPathState) : bool :=
  match state with RegularFile (GitTree _) _ => true | _ => false end.

Definition validate_checkpoint (c : RepositoryObservationCheckpoint)
    : result unit ObservationUnavailableReason :=
  let coordinate := ck_coordinate c in
  if negb (is_canonical_sha256_digest (co_repository_identity coordinate))
     || negb (is_canonical_sha256_digest (co_git_layout_identity coordinate))
     || negb (is_canonical_sha256_digest (co_worktree_identity coordinate))
     || negb (is_canonical_sha256_digest (co_status_identity coordinate))
     || existsb (λ kv, is_tree_evidence kv.2) (ck_observed_states c)
     || negb (forallb (λ path, is_some (bmap_get path (ck_observed_states c)))
                (ck_status_paths c ++ ck_invocation_paths c))
  then Err ObserverContractMismatch else Ok tt.

(** [RepositoryObservationSnapshot::canonical_bytes]. *)
Definition snapshot_canonical_bytes (s : RepositoryObservationSnapshot)
    : result string ObservationUnavailableReason :=
  if (max_serialization_depth (sn_limits s) <? 5)%N then Err SerializationDepthLimitExceeded
  else
    let bytes := encode_snapshot (snapshot_checkpoint s) in
    if (max_serialized_bytes (sn_limits s) <? N.of_nat (String.length bytes))%N
    then Err SerializationSizeLimitExceeded else Ok bytes.

(** ** Deltas *)

Record RepositoryPathTransition := MkTransition {
  tr_path : ProductRelativePath;
  tr_before : ProductPathState;
  tr_after : ProductPathState;
}.
#[export] Instance RepositoryPathTransition_eq_dec : EqDecision RepositoryPathTransition.
Proof. solve_decision. Defined.

(** [RepositoryDelta] is its transitions. *)
Definition RepositoryDelta : Type := list RepositoryPathTransition.

Definition delta_paths (delta : RepositoryDelta) : list ProductRelativePath :=
  bts_of_list (tr_path <$> delta).

Definition restricted_to (delta : RepositoryDelta) (paths : list ProductRelativePath) : RepositoryDelta :=
  List.filter (λ transition, bts_mem (tr_path transition) paths) delta.

Definition delta_canonical_bytes (delta : RepositoryDelta) : string :=
  enc_string "repository_delta"
  +:+ enc_list (λ t, enc_string (path_str (tr_path t)) +:+ encode_path_state (tr_before t)
                     +:+ encode_path_state (tr_after t)) delta.

(** The checks of the two [deserialize] functions after the fields are read: a transition
    changes its path, and the paths of a delta ascend. *)
Definition transition_accepted (t : RepositoryPathTransition) : bool :=
  negb (semantically_eq (tr_before t) (tr_after t)).

Fixpoint transitions_accepted (previous : option ProductRelativePath) (delta : RepositoryDelta) : bool :=
  match delta with
  | [] => true
  | transition :: rest =>
      transition_accepted transition
      && negb (is_some_and previous (λ path,
           match rcompare path (tr_path transition) with Lt => false | _ => true end))
      && transitions_accepted (Some (tr_path transition)) rest
  end.
Definition delta_accepted (delta : RepositoryDelta) : bool := transitions_accepted None delta.

(** ** Digests *)

Section digests.
Variable sha256 : string → list ascii.

(** [ContentIdentity::for_bytes]. *)
Definition content_identity (bytes : string) : string := "sha256:" +:+ lowercase_hex (sha256 bytes).

Definition hash_fields (fields : list string) : string :=
  content_identity (foldr (λ field rest, enc_string field +:+ rest) "" fields).

(** [digest_fields] of lib.rs. *)
Definition digest_fields (fields : list string) : string :=
  "sha256:" +:+ lowercase_hex (sha256 (foldr (λ field rest,
    enc_u64 (N.of_nat (String.length field)) +:+ field +:+ rest) "" fields)).

Definition delta_digest (delta : RepositoryDelta) : string := content_identity (delta_canonical_bytes delta).

Definition checkpoint_semantic_digest (c : RepositoryObservationCheckpoint)
    : result string ObservationUnavailableReason :=
  let? _ := validate_checkpoint c in Ok (content_identity (encode_snapshot c)).

Definition for_limits (limits : ObserverLimits) : string :=
  content_identity
    (enc_string "volicord.product-repository-observer"
     +:+ enc_string "exact-worktree-bytes-and-path-aware-canonical-git-content"
     +:+ enc_u64 (max_git_output_bytes limits) +:+ enc_u64 (max_process_input_bytes limits)
     +:+ enc_u64 (max_candidate_paths limits) +:+ enc_u64 (max_total_hashed_bytes limits)
     +:+ enc_u64 (max_file_bytes limits) +:+ enc_u128 (max_process_duration limits)
     +:+ enc_u64 (max_serialized_bytes limits) +:+ enc_u64 (max_serialization_depth limits)
     +:+ enc_usize (max_stability_attempts limits)).
End digests.

(** ** Text of Git *)

(** [split(' ')] and the tail after [count] separators, as [splitn] leaves it. *)
Fixpoint after_byte (sep : ascii) (s : string) : option string :=
  match s with
  | EmptyString => None
  | String c s => if c =? sep then Some s else after_byte sep s
  end.
Fixpoint before_byte (sep : ascii) (s : string) : string :=
  match s with
  | EmptyString => EmptyString
  | String c s => if c =? sep then EmptyString else String c (before_byte sep s)
  end.
Fixpoint after_fields (count : nat) (s : string) : option string :=
  match count with
  | O => Some s
  | S count => after_byte " " s ≫= after_fields count
  end.

Definition split_tab (record : string) : option (string * string) :=
  (λ path, (before_byte "009" record, path)) <$> after_byte "009" record.

(** [text.strip_suffix('\n').unwrap_or(text)]. *)
Fixpoint strip_newline (s : string) : string :=
  match s with
  | EmptyString => EmptyString
  | String c EmptyString => if c =? "010"%char then EmptyString else s
  | String c s => String c (strip_newline s)
  end.

Definition has_line_end (s : string) : bool :=
  str_contains_byte "010" s || str_contains_byte "013" s.

Definition git_object_identity (value : string) : result string ObservationUnavailableReason :=
  map_err (λ _, GitObjectUnavailable) (canonical_git_object_id value).

(** [parse_git_path], [insert_path]. *)
Definition parse_git_path (raw_path : string)
    : result ProductRelativePath ObservationUnavailableReason :=
  if negb (is_utf8 raw_path) then Err NonUtf8Path
  else map_err (λ _, InvalidRelativePath) (parse_path raw_path).

Definition insert_path (raw_path : string) (paths : list ProductRelativePath)
    : result (list ProductRelativePath) ObservationUnavailableReason :=
  let? path := parse_git_path raw_path in Ok (bts_insert path paths).

Definition insert_record_path (record : string) (field_count : nat)
    (paths : list ProductRelativePath) : result (list ProductRelativePath) ObservationUnavailableReason :=
  let? path := ok_or (after_fields (field_count - 1) record) GitCommandFailed in
  insert_path path paths.

Fixpoint parse_status_records (records : list string) (paths : list ProductRelativePath)
    : result (list ProductRelativePath) ObservationUnavailableReason :=
  match records with
  | [] => Ok paths
  | record :: rest =>
      match record with
      | EmptyString => if list_is_empty rest then Ok paths else Err GitCommandFailed
      | String kind tail =>
          if kind =? "1"%char then
            let? paths := insert_record_path record 9 paths in parse_status_records rest paths
          else if kind =? "2"%char then
            let? paths := insert_record_path record 10 paths in
            match rest with
            | [] => Err GitCommandFailed
            | original :: rest =>
                let? paths := insert_path original paths in parse_status_records rest paths
            end
          else if kind =? "u"%char then
            let? paths := insert_record_path record 11 paths in parse_status_records rest paths
          else if (kind =? "?"%char) || (kind =? "!"%char) then
            let? path := ok_or (strip_prefix " " tail) GitCommandFailed in
            let? paths := insert_path path paths in parse_status_records rest paths
          else if kind =? "#"%char then parse_status_records rest paths
          else Err GitCommandFailed
      end
  end.

Definition parse_status_paths (output : string)
    : result (list ProductRelativePath) ObservationUnavailableReason :=
  parse_status_records (split_on "000" output) [].

Fixpoint parse_nul_records (records : list string) (paths : list ProductRelativePath)
    : result (list ProductRelativePath) ObservationUnavailableReason :=
  match records with
  | [] => Ok paths
  | record :: rest =>
      if str_is_empty record then parse_nul_records rest paths
      else let? paths := insert_path record paths in parse_nul_records rest paths
  end.

Definition parse_nul_paths (output : string)
    : result (list ProductRelativePath) ObservationUnavailableReason :=
  parse_nul_records (split_on "000" output) [].

(** ** The world outside *)

Record GitOutput := MkGitOutput {
  go_success : bool;
  go_stdout : string;
}.

Definition require_git_success (output : GitOutput) : result string ObservationUnavailableReason :=
  if go_success output then Ok (go_stdout output) else Err GitCommandFailed.

Record GitWorktreeLayout := MkLayout {
  ly_repository_root : string;
  ly_git_dir : string;
  ly_common_dir : string;
  ly_is_linked_worktree : bool;
}.

(** What [symlink_metadata] and [read_link] say of a path. *)
Inductive PathEntry :=
| EntryMissing
| EntryFile (size : N) (executable : bool)
| EntrySymlink (target : string)
| EntryDirectory
| EntryOther.

Record RepoWorld := {
  (** The layout and the object HEAD names, as [capture_git_workspace_snapshot] reads them. *)
  rw_workspace : result (option (GitWorktreeLayout * option string)) unit;
  (** [run_git] in the repository, and in the worktree of a Gitlink. *)
  rw_git : list string → result GitOutput ObservationUnavailableReason;
  rw_gitlink_git : ProductRelativePath → list string → result GitOutput ObservationUnavailableReason;
  (** [ObservedProductRepository::observe] and [observe_path], with the reason of a failure. *)
  rw_observe : result unit ObservationUnavailableReason;
  rw_observe_path : ProductRelativePath → result unit ObservationUnavailableReason;
  rw_entry : ProductRelativePath → result PathEntry ObservationUnavailableReason;
  (** [run_git_with_file_stdin] on the content of a file with the bytes left in the budget:
      the answer of Git, the identity of the bytes and their number. *)
  rw_hash_file : ProductRelativePath → N →
    result (GitOutput * string * N) ObservationUnavailableReason;
}.

Definition git (w : RepoWorld) (arguments : list string) : result string ObservationUnavailableReason :=
  let? output := rw_git w arguments in require_git_success output.

Section observer.
Variable sha256 : string → list ascii.

(** ** coordinates.rs *)

Record CapturedCoordinates := MkCaptured {
  cc_repository_root : string;
  cc_coordinate : RepositoryObservationCoordinate;
  cc_status_paths : list ProductRelativePath;
}.

Definition STATUS_ARGUMENTS : list string :=
  ["-c"; "core.filemode=true"; "-c"; "core.fsmonitor=false"; "status"; "--porcelain=v2"; "-z";
   "--untracked-files=all"; "--ignore-submodules=none"; "--no-renames"].

Definition path_text (path : string) : result string ObservationUnavailableReason :=
  if is_utf8 path then Ok path else Err NonUtf8Path.

Definition capture_tree_oid (w : RepoWorld) (head_oid : string)
    : result string ObservationUnavailableReason :=
  let? output := git w ["rev-parse"; "--verify"; head_oid +:+ "^{tree}"] in
  if negb (is_utf8 output) then Err NonUtf8Path
  else
    let oid := strip_newline output in
    if str_is_empty oid || has_line_end oid then Err GitObjectUnavailable
    else git_object_identity oid.

Definition capture_coordinates (w : RepoWorld) : result CapturedCoordinates ObservationUnavailableReason :=
  let? workspace := map_err (λ _, GitLayoutUnavailable) (rw_workspace w) in
  let? '(layout, head_sha) := ok_or workspace NotGitRepository in
  let? repository_root_text := path_text (ly_repository_root layout) in
  let? git_dir_text := path_text (ly_git_dir layout) in
  let? common_dir_text := path_text (ly_common_dir layout) in
  let worktree_id := digest_fields sha256 [ly_git_dir layout] in
  let repository_identity := hash_fields sha256
    ["repository_identity"; repository_root_text; common_dir_text; worktree_id] in
  let git_layout_identity := hash_fields sha256
    ["git_layout_identity"; repository_root_text; git_dir_text; common_dir_text;
     if ly_is_linked_worktree layout then "linked" else "primary"] in
  let? status_output := git w STATUS_ARGUMENTS in
  let? status_paths := parse_status_paths status_output in
  let status_identity := content_identity sha256 status_output in
  let? head_oid := match head_sha with
                   | None => Ok None
                   | Some head => let? oid := git_object_identity head in Ok (Some oid)
                   end in
  let? tree_oid := match head_oid with
                   | None => Ok None
                   | Some head => let? oid := capture_tree_oid w head in Ok (Some oid)
                   end in
  Ok (MkCaptured (ly_repository_root layout)
        (MkCoordinate repository_identity git_layout_identity worktree_id head_oid tree_oid
           status_identity)
        status_paths).

(** ** path_state.rs *)

Definition u64_max : N := 18446744073709551615.

(** [HashBudget]: the bytes hashed so far. *)
Definition budget_remaining (limits : ObserverLimits) (total : N) : N :=
  max_total_hashed_bytes limits - total.

Definition budget_charge (limits : ObserverLimits) (total bytes : N)
    : result N ObservationUnavailableReason :=
  if (u64_max <? total + bytes)%N || (max_total_hashed_bytes limits <? total + bytes)%N
  then Err TotalHashBytesLimitExceeded else Ok (total + bytes)%N.

Definition ensure_file_size (limits : ObserverLimits) (total bytes : N)
    : result unit ObservationUnavailableReason :=
  if (max_file_bytes limits <? bytes)%N then Err FileSizeLimitExceeded
  else if (budget_remaining limits total <? bytes)%N then Err TotalHashBytesLimitExceeded
  else Ok tt.

Definition parse_canonical_git_identity (output : string) : result string ObservationUnavailableReason :=
  if negb (is_utf8 output) then Err GitObjectUnavailable
  else
    let oid := strip_newline output in
    if str_is_empty oid || has_line_end oid then Err GitObjectUnavailable
    else
      let? identity := git_object_identity oid in
      if identity <>? oid then Err GitObjectUnavailable else Ok identity.

Definition hash_regular_file (w : RepoWorld) (limits : ObserverLimits) (total : N)
    (path : ProductRelativePath) (expected_size : N)
    : result (RegularFileContentEvidence * N) ObservationUnavailableReason :=
  let? _ := ensure_file_size limits total expected_size in
  let? '(output, exact_worktree_bytes, source_bytes) :=
    rw_hash_file w path (budget_remaining limits total) in
  let? total := budget_charge limits total source_bytes in
  let? output := require_git_success output in
  let? blob := parse_canonical_git_identity output in
  Ok (Worktree exact_worktree_bytes blob, total).

Definition observe_gitlink (w : RepoWorld) (path : ProductRelativePath)
    : result ProductPathState ObservationUnavailableReason :=
  let? output := git w ["ls-files"; "--stage"; "-z"; "--"; path_str path] in
  match List.filter (λ record, negb (str_is_empty record)) (split_on "000" output) with
  | [record] =>
      let? '(metadata, raw_path) := ok_or (split_tab record) GitObjectUnavailable in
      if negb (is_utf8 metadata) then Err GitObjectUnavailable
      else
        match split_on " " metadata with
        | [mode; _; stage] =>
            if (mode <>? "160000") || (stage <>? "0") then Err UnsupportedPathState
            else
              let? entry := parse_git_path raw_path in
              if entry <>? path then Err UnsupportedPathState
              else
                let? status := rw_gitlink_git w path STATUS_ARGUMENTS in
                let? status := require_git_success status in
                if negb (str_is_empty status) then Err UnsupportedPathState
                else
                  let? head := rw_gitlink_git w path ["rev-parse"; "--verify"; "HEAD"] in
                  let? head := require_git_success head in
                  if negb (is_utf8 head) then Err GitObjectUnavailable
                  else
                    let? commit_oid := git_object_identity (strip_newline head) in
                    Ok (Gitlink commit_oid)
        | _ => Err UnsupportedPathState
        end
  | _ => Err UnsupportedPathState
  end.

Definition observe_worktree_path (w : RepoWorld) (limits : ObserverLimits) (total : N)
    (path : ProductRelativePath) : result (ProductPathState * N) ObservationUnavailableReason :=
  let? entry := rw_entry w path in
  match entry with
  | EntryMissing => Ok (Absent, total)
  | EntryFile size executable =>
      let? '(evidence, total) := hash_regular_file w limits total path size in
      Ok (RegularFile evidence executable, total)
  | EntrySymlink target =>
      if negb (is_utf8 target) then Err NonUtf8Path
      else
        let bytes := N.of_nat (String.length target) in
        let? _ := ensure_file_size limits total bytes in
        let? total := budget_charge limits total bytes in
        Ok (SymbolicLink (content_identity sha256 target), total)
  | EntryDirectory => let? state := observe_gitlink w path in Ok (state, total)
  | EntryOther => Err UnsupportedPathState
  end.

Fixpoint observe_paths (w : RepoWorld) (limits : ObserverLimits) (candidates : list ProductRelativePath)
    (states : PathStates) (total : N) : result (PathStates * N) ObservationUnavailableReason :=
  match candidates with
  | [] => Ok (states, total)
  | path :: rest =>
      let? _ := rw_observe_path w path in
      let? '(state, total) := observe_worktree_path w limits total path in
      observe_paths w limits rest (bmap_insert path state states) total
  end.

Definition observe_worktree_states (w : RepoWorld) (limits : ObserverLimits)
    (candidates : list ProductRelativePath) (total : N)
    : result (PathStates * N) ObservationUnavailableReason :=
  let? _ := rw_observe w in observe_paths w limits candidates [] total.

Definition hash_tree_link_target (w : RepoWorld) (limits : ObserverLimits) (total : N)
    (object_oid : string) : result (string * N) ObservationUnavailableReason :=
  let? _ := git_object_identity object_oid in
  let? output := git w ["cat-file"; "blob"; object_oid] in
  if negb (is_utf8 output) then Err NonUtf8Path
  else
    let bytes := N.of_nat (String.length output) in
    let? _ := ensure_file_size limits total bytes in
    let? total := budget_charge limits total bytes in
    Ok (content_identity sha256 output, total).

Definition tree_entry_state (w : RepoWorld) (limits : ObserverLimits) (total : N)
    (mode object_kind object_oid : string) : result (ProductPathState * N) ObservationUnavailableReason :=
  if (mode =? "100644") && (object_kind =? "blob") then
    let? blob := git_object_identity object_oid in Ok (RegularFile (GitTree blob) false, total)
  else if (mode =? "100755") && (object_kind =? "blob") then
    let? blob := git_object_identity object_oid in Ok (RegularFile (GitTree blob) true, total)
  else if (mode =? "120000") && (object_kind =? "blob") then
    let? '(target, total) := hash_tree_link_target w limits total object_oid in
    Ok (SymbolicLink target, total)
  else if (mode =? "160000") && (object_kind =? "commit") then
    let? oid := git_object_identity object_oid in Ok (Gitlink oid, total)
  else Err UnsupportedPathState.

Fixpoint tree_records (w : RepoWorld) (limits : ObserverLimits) (candidates : list ProductRelativePath)
    (records : list string) (states : PathStates) (total : N)
    : result (PathStates * N) ObservationUnavailableReason :=
  match records with
  | [] => Ok (states, total)
  | record :: rest =>
      if str_is_empty record then tree_records w limits candidates rest states total
      else
        let? '(metadata, raw_path) := ok_or (split_tab record) GitObjectUnavailable in
        if negb (is_utf8 metadata) then Err GitObjectUnavailable
        else
          let fields := split_on " " metadata in
          if is_some (fields !! 3%nat) then Err GitObjectUnavailable
          else
            let? path := parse_git_path raw_path in
            if negb (bts_mem path candidates) then Err GitObjectUnavailable
            else
              let? '(state, total) :=
                tree_entry_state w limits total (default "" (fields !! 0%nat))
                  (default "" (fields !! 1%nat)) (default "" (fields !! 2%nat)) in
              tree_records w limits candidates rest (bmap_insert path state states) total
  end.

Definition observe_tree_states (w : RepoWorld) (limits : ObserverLimits) (tree_oid : option string)
    (candidates : list ProductRelativePath) (total : N)
    : result (PathStates * N) ObservationUnavailableReason :=
  let states := foldl (λ states path, bmap_insert path Absent states) [] candidates in
  match tree_oid with
  | None => Ok (states, total)
  | Some tree_oid =>
      if list_is_empty candidates then Ok (states, total)
      else
        let? output := git w (["ls-tree"; "-z"; "--full-name"; tree_oid; "--"]
                              ++ (path_str <$> candidates)) in
        tree_records w limits candidates (split_on "000" output) states total
  end.

(** ** snapshot.rs *)

Record RepositoryObserver := MkObserver {
  ob_repository_root : string;
  ob_limits : ObserverLimits;
  ob_contract_digest : string;
}.

(** [RepositoryObserver::new], on the canonical form of the root, [None] when the root is
    not a directory that can be read. *)
Definition observer_new (root : option string) (limits : ObserverLimits)
    : result RepositoryObserver ObservationUnavailableReason :=
  let? _ := limits_validate limits in
  if (max_serialization_depth limits <? 5)%N then Err SerializationDepthLimitExceeded
  else
    let? root := ok_or root InvalidRepositoryRoot in
    Ok (MkObserver root limits (for_limits sha256 limits)).

Definition ensure_same_root (observer : RepositoryObserver) (coordinates : CapturedCoordinates)
    : result unit ObservationUnavailableReason :=
  if cc_repository_root coordinates <>? ob_repository_root observer
  then Err RepositoryIdentityChanged else Ok tt.

Definition candidate_paths (coordinates : CapturedCoordinates)
    (invocation_paths : list ProductRelativePath) (limits : ObserverLimits)
    : result (list ProductRelativePath) ObservationUnavailableReason :=
  let candidates := bts_of_list (cc_status_paths coordinates ++ invocation_paths) in
  let? _ := ensure_candidate_limit (length candidates) limits in Ok candidates.

(** [usize] is 64 bits wide. *)
Definition ensure_input_serialization_size (paths : list ProductRelativePath) (limits : ObserverLimits)
    : result unit ObservationUnavailableReason :=
  let size := foldl (λ total path, (total + 8 + N.of_nat (String.length (path_str path)))%N) 8%N paths in
  if (u64_max <? size)%N || (max_serialized_bytes limits <? size)%N
  then Err SerializationSizeLimitExceeded else Ok tt.

(** One round of the loop: [None] is a [continue].  It reads the coordinates three times
    and the states twice, in the worlds from [now] on. *)
Definition snapshot_attempt (observer : RepositoryObserver) (invocation_paths : list ProductRelativePath)
    (worlds : nat → RepoWorld) (now : nat) (total : N)
    : result (option RepositoryObservationSnapshot * N) ObservationUnavailableReason :=
  let limits := ob_limits observer in
  let? before := capture_coordinates (worlds now) in
  let? _ := ensure_same_root observer before in
  let? candidates := candidate_paths before invocation_paths limits in
  let? '(first_states, total) := observe_worktree_states (worlds (now + 1)%nat) limits candidates total in
  let? middle := capture_coordinates (worlds (now + 2)%nat) in
  let? _ := ensure_same_root observer middle in
  if (cc_coordinate before <>? cc_coordinate middle) || (cc_status_paths before <>? cc_status_paths middle)
  then Ok (None, total)
  else
    let? '(second_states, total) :=
      observe_worktree_states (worlds (now + 3)%nat) limits candidates total in
    let? after := capture_coordinates (worlds (now + 4)%nat) in
    let? _ := ensure_same_root observer after in
    if (cc_coordinate middle <>? cc_coordinate after) || (cc_status_paths middle <>? cc_status_paths after)
       || (first_states <>? second_states)
    then Ok (None, total)
    else
      let snapshot := MkSnapshot (ob_repository_root observer) (cc_coordinate after) second_states
                        (cc_status_paths after) invocation_paths (ob_contract_digest observer) limits in
      let? _ := snapshot_canonical_bytes snapshot in
      Ok (Some snapshot, total).

Fixpoint snapshot_attempts (observer : RepositoryObserver) (invocation_paths : list ProductRelativePath)
    (worlds : nat → RepoWorld) (attempts now : nat) (total : N)
    : result RepositoryObservationSnapshot ObservationUnavailableReason :=
  match attempts with
  | O => Err UnstableRepository
  | S attempts =>
      let? '(snapshot, total) := snapshot_attempt observer invocation_paths worlds now total in
      match snapshot with
      | Some snapshot => Ok snapshot
      | None => snapshot_attempts observer invocation_paths worlds attempts (now + 5)%nat total
      end
  end.

(** [RepositoryObserver::snapshot]; [target_paths] and [hints] are the invocation paths. *)
Definition take_snapshot (observer : RepositoryObserver) (target_paths hints : list ProductRelativePath)
    (worlds : nat → RepoWorld) : result RepositoryObservationSnapshot ObservationUnavailableReason :=
  let invocation_paths := bts_of_list (target_paths ++ hints) in
  let? _ := ensure_candidate_limit (length invocation_paths) (ob_limits observer) in
  let? _ := ensure_input_serialization_size invocation_paths (ob_limits observer) in
  snapshot_attempts observer invocation_paths worlds (max_stability_attempts (ob_limits observer)) 0 0%N.

Definition restore_checkpoint (observer : RepositoryObserver) (c : RepositoryObservationCheckpoint)
    : result RepositoryObservationSnapshot ObservationUnavailableReason :=
  if ck_contract_digest c <>? ob_contract_digest observer then Err ObserverContractMismatch
  else
    let? _ := validate_checkpoint c in
    let? _ := ensure_candidate_limit (length (ck_observed_states c)) (ob_limits observer) in
    let snapshot := MkSnapshot (ob_repository_root observer) (ck_coordinate c) (ck_observed_states c)
                      (ck_status_paths c) (ck_invocation_paths c) (ck_contract_digest c)
                      (ob_limits observer) in
    let? _ := snapshot_canonical_bytes snapshot in
    Ok snapshot.

(** ** delta.rs *)

Definition ensure_compatible (observer : RepositoryObserver) (before after : RepositoryObservationSnapshot)
    : result unit ObservationUnavailableReason :=
  if (sn_contract_digest before <>? sn_contract_digest after)
     || (sn_contract_digest before <>? ob_contract_digest observer)
  then Err ObserverContractMismatch
  else if (sn_repository_root before <>? sn_repository_root after)
     || (sn_repository_root before <>? ob_repository_root observer)
     || (co_repository_identity (sn_coordinate before) <>? co_repository_identity (sn_coordinate after))
     || (co_git_layout_identity (sn_coordinate before) <>? co_git_layout_identity (sn_coordinate after))
     || (co_worktree_identity (sn_coordinate before) <>? co_worktree_identity (sn_coordinate after))
  then Err RepositoryIdentityChanged
  else Ok tt.

Definition tree_changed_paths (w : RepoWorld) (before after : RepositoryObservationSnapshot)
    : result (list ProductRelativePath) ObservationUnavailableReason :=
  let before_tree := co_tree_oid (sn_coordinate before) in
  let after_tree := co_tree_oid (sn_coordinate after) in
  if before_tree =? after_tree then Ok []
  else
    let diff arguments := let? output := git w arguments in parse_nul_paths output in
    match before_tree, after_tree with
    | Some before_tree, Some after_tree =>
        diff ["diff-tree"; "--no-commit-id"; "--name-only"; "-z"; "-r"; "--no-renames";
              "--no-ext-diff"; before_tree; after_tree]
    | Some tree, None | None, Some tree => diff ["ls-tree"; "-r"; "-z"; "--name-only"; tree]
    | None, None => Ok []
    end.

Definition snapshot_path_state (s : RepositoryObservationSnapshot) (tree_states : PathStates)
    (path : ProductRelativePath) : result ProductPathState ObservationUnavailableReason :=
  match bmap_get path (sn_observed_states s) with
  | Some state => Ok state
  | None => ok_or (bmap_get path tree_states) GitObjectUnavailable
  end.

Fixpoint transitions_of (before after : RepositoryObservationSnapshot) (before_tree after_tree : PathStates)
    (candidates : list ProductRelativePath) : result RepositoryDelta ObservationUnavailableReason :=
  match candidates with
  | [] => Ok []
  | path :: rest =>
      let? before_state := snapshot_path_state before before_tree path in
      let? after_state := snapshot_path_state after after_tree path in
      let? transitions := transitions_of before after before_tree after_tree rest in
      Ok (if semantically_eq before_state after_state then transitions
          else MkTransition path before_state after_state :: transitions)
  end.

(** The paths a delta looks at, before the changes between the trees are added. *)
Definition snapshot_candidates (before after : RepositoryObservationSnapshot) : list ProductRelativePath :=
  (sn_observed_states before).*1 ++ (sn_observed_states after).*1 ++ sn_status_paths before
  ++ sn_status_paths after ++ sn_invocation_paths before ++ sn_invocation_paths after.

Definition missing_paths (s : RepositoryObservationSnapshot) (candidates : list ProductRelativePath)
    : list ProductRelativePath :=
  List.filter (λ path, is_none (bmap_get path (sn_observed_states s))) candidates.

Definition calculate_delta (w : RepoWorld) (observer : RepositoryObserver)
    (before after : RepositoryObservationSnapshot) : result RepositoryDelta ObservationUnavailableReason :=
  if before =? after then Ok []
  else
    let limits := ob_limits observer in
    let? _ := ensure_compatible observer before after in
    let? current := capture_coordinates w in
    if (co_repository_identity (cc_coordinate current) <>? co_repository_identity (sn_coordinate before))
       || (co_git_layout_identity (cc_coordinate current) <>? co_git_layout_identity (sn_coordinate before))
    then Err RepositoryIdentityChanged
    else
      let? changed := tree_changed_paths w before after in
      let candidates := bts_of_list (snapshot_candidates before after ++ changed) in
      let? _ := ensure_candidate_limit (length candidates) limits in
      let? '(before_tree, total) :=
        observe_tree_states w limits (co_tree_oid (sn_coordinate before))
          (missing_paths before candidates) 0 in
      let? '(after_tree, _) :=
        observe_tree_states w limits (co_tree_oid (sn_coordinate after))
          (missing_paths after candidates) total in
      let? delta := transitions_of before after before_tree after_tree candidates in
      if (max_serialized_bytes limits <? N.of_nat (String.length (delta_canonical_bytes delta)))%N
      then Err SerializationSizeLimitExceeded else Ok delta.
End observer.
