(* ===== verification/RepoSnapshotSound.v ===== *)
(** * RepoSnapshotSound: what a snapshot and a delta say of the repository

    Over [RepoSnapshot]: the canonical bytes of snapshots and deltas determine them, so
    that equal digests mean equal content; a snapshot was read twice without change and
    covers every path it has to, and its checkpoint can be restored; a delta lists
    exactly the paths whose state changed. *)

From Stdlib Require Import Ascii.
From S2P Require Import Prelude Text ProductPath Canonical EventHash RepoSnapshot.

(** ** Prefix codes *)

Definition width_limit : N := 2 ^ 64.
Definition short (s : string) : Prop := (N.of_nat (String.length s) < width_limit)%N.

(** An encoding whose results are told apart from whatever follows them. *)
Definition prefix_code {A} (enc : A → string) : Prop :=
  ∀ x y r r', short (enc x) → short (enc y) → enc x +:+ r = enc y +:+ r' → x = y ∧ r = r'.

Lemma short_app s t : short (s +:+ t) → short s ∧ short t.
Proof. unfold short. rewrite append_length. lia. Qed.

Lemma be_bytes_length width n : String.length (be_bytes width n) = width.
Proof. revert n. induction width as [|width IH]; intros n; cbn; [done|]. rewrite append_length, IH. cbn. lia. Qed.

Lemma be_bytes_inj width n m :
  (n < 256 ^ N.of_nat width)%N → (m < 256 ^ N.of_nat width)%N → be_bytes width n = be_bytes width m → n = m.
Proof.
  revert n m. induction width as [|width IH]; intros n m Hn Hm; [cbn in *; lia|].
  rewrite Nat2N.inj_succ, N.pow_succ_r' in Hn, Hm. cbn [be_bytes]. intros H.
  apply append_split in H as [Hhi Hlo]; [|by rewrite !be_bytes_length].
  apply IH in Hhi; [|apply N.Div0.div_lt_upper_bound; lia..].
  injection Hlo as Hlo. apply (f_equal N_of_ascii) in Hlo.
  assert (n mod 256 < 256 ∧ m mod 256 < 256)%N as [Hn' Hm'] by (split; apply N.mod_lt; lia).
  rewrite !N_ascii_embedding in Hlo by done.
  rewrite (N.div_mod' n 256), (N.div_mod' m 256). congruence.
Qed.

Lemma usize_inj (n m : nat) r r' :
  (N.of_nat n < width_limit)%N → (N.of_nat m < width_limit)%N →
  enc_usize n +:+ r = enc_usize m +:+ r' → n = m ∧ r = r'.
Proof.
  intros Hn Hm H. apply append_split in H as [H ->]; [|unfold enc_usize, enc_u64; by rewrite !be_bytes_length].
  apply be_bytes_inj in H; [|done..]. split; [lia|done].
Qed.

Lemma string_code : prefix_code enc_string.
Proof.
  intros s t r r' [_ Hs]%short_app [_ Ht]%short_app. unfold enc_string. rewrite !append_assoc.
  intros [Hl H]%usize_inj; [|done..]. by apply append_split in H.
Qed.

Lemma u8_code n m r r' :
  (n < 256)%N → (m < 256)%N → enc_u8 n +:+ r = enc_u8 m +:+ r' → n = m ∧ r = r'.
Proof.
  intros Hn Hm H. apply append_split in H as [H ->]; [|unfold enc_u8; by rewrite !be_bytes_length].
  by apply be_bytes_inj in H.
Qed.

Lemma bool_code : prefix_code (λ b : bool, enc_u8 (if b then 1 else 0)).
Proof.
  intros x y r r' _ _ [H ->]%u8_code; [|by destruct x, y..]. by destruct x, y.
Qed.

(** What an encoding with several fields determines, read off in order. *)
Definition reads {A B} (f : A → B) (enc : A → string) : Prop :=
  ∀ x y r r', short (enc x) → short (enc y) → enc x +:+ r = enc y +:+ r' → f x = f y ∧ r = r'.

Lemma reads_field {A B} (f : A → B) (enc : B → string) : prefix_code enc → reads f (λ x, enc (f x)).
Proof. intros H x y r r' Hs Ht He. by apply H in He. Qed.

Lemma reads_seq {A B C} (f : A → B) (g : A → C) (enc enc' : A → string) :
  reads f enc → reads g enc' → reads (λ x, (f x, g x)) (λ x, enc x +:+ enc' x).
Proof.
  intros H H' x y r r' [Hs1 Hs2]%short_app [Ht1 Ht2]%short_app. rewrite !append_assoc.
  intros [Hf Hr]%H; [|done..]. apply H' in Hr as [Hg ->]; [|done..]. by rewrite Hf, Hg.
Qed.

Lemma reads_all {A B} (f : A → B) (enc : A → string) :
  reads f enc → (∀ x y, f x = f y → x = y) → prefix_code enc.
Proof. intros H Hf x y r r' Hs Ht [Hx ->]%H; [|done..]. auto. Qed.

Lemma list_code {A} (enc : A → string) :
  (∀ x, 0 < String.length (enc x)) → prefix_code enc → prefix_code (enc_list enc).
Proof.
  intros Hpos Hc l k r r' [_ Hs]%short_app [_ Ht]%short_app.
  assert (∀ l, length l ≤ String.length (foldr (λ x rest, enc x +:+ rest) "" l)) as Hlen.
  { induction l0 as [|x l0 IH]; cbn; [lia|]. rewrite append_length. specialize (Hpos x). lia. }
  unfold enc_list. rewrite !append_assoc.
  intros [Hl H]%usize_inj; [|unfold short in *; pose proof (Hlen l); pose proof (Hlen k); lia..].
  clear Hlen. revert k Hl Hs Ht H. induction l as [|x l IH]; intros [|y k]; cbn; try done.
  intros [= Hl] [Hs1 Hs2]%short_app [Ht1 Ht2]%short_app. rewrite !append_assoc.
  intros [-> H]%Hc; [|done..]. apply IH in H as [-> ->]; done.
Qed.

Lemma option_code : prefix_code enc_optional_string.
Proof.
  intros [s|] [t|] r r'; cbn [enc_optional_string].
  - intros [_ Hs]%short_app [_ Ht]%short_app. rewrite !append_assoc. intros [_ H]%u8_code; [|done..].
    by apply string_code in H as [-> ->].
  - intros _ _. rewrite !append_assoc. by intros [? _]%u8_code.
  - intros _ _. rewrite !append_assoc. by intros [? _]%u8_code.
  - intros _ _ H. apply u8_code in H; naive_solver lia.
Qed.

Lemma enc_string_pos s : 0 < String.length (enc_string s).
Proof. unfold enc_string, enc_usize, enc_u64. rewrite append_length, be_bytes_length. lia. Qed.

#[local] Opaque short enc_u8 enc_string.

Definition encode_evidence (e : RegularFileContentEvidence) : string :=
  match e with
  | Worktree bytes blob => enc_u8 0 +:+ enc_string bytes +:+ enc_string blob
  | GitTree blob => enc_u8 1 +:+ enc_string blob
  end.

Lemma evidence_code : prefix_code encode_evidence.
Proof.
  intros [b g|g] [b' g'|g'] r r'; cbn [encode_evidence].
  - intros [_ [Hs1 Hs2]%short_app]%short_app [_ [Ht1 Ht2]%short_app]%short_app. rewrite !append_assoc.
    intros [_ H]%u8_code; [|done..]. apply string_code in H as [-> H]; [|done..].
    by apply string_code in H as [-> ->].
  - intros _ _. rewrite !append_assoc. by intros [? _]%u8_code.
  - intros _ _. rewrite !append_assoc. by intros [? _]%u8_code.
  - intros [_ Hs]%short_app [_ Ht]%short_app. rewrite !append_assoc.
    intros [_ H]%u8_code; [|done..]. by apply string_code in H as [-> ->].
Qed.

(** The tag and the body of an encoded state. *)
Definition state_tag (state : ProductPathState) : N :=
  match state with Absent => 0 | RegularFile _ _ => 1 | SymbolicLink _ => 2 | Gitlink _ => 3 end.
Definition state_body (state : ProductPathState) : string :=
  match state with
  | Absent => ""
  | RegularFile e x => encode_evidence e +:+ enc_u8 (if x then 1 else 0)
  | SymbolicLink target => enc_string target
  | Gitlink oid => enc_string oid
  end.

Lemma encode_state_eq state : encode_path_state state = enc_u8 (state_tag state) +:+ state_body state.
Proof. destruct state; cbn [encode_path_state state_tag state_body]; rewrite ?append_nil_r; reflexivity. Qed.

Lemma state_code : prefix_code encode_path_state.
Proof.
  intros x y r r'. rewrite !encode_state_eq. intros [_ Hs]%short_app [_ Ht]%short_app.
  rewrite !append_assoc. intros [Htag H]%u8_code; [|by destruct x, y..].
  destruct x as [|e x|t|o], y as [|e' y|t'|o']; try discriminate Htag; cbn [state_body] in *.
  - split; [reflexivity|exact H].
  - apply short_app in Hs as [Hs1 Hs2], Ht as [Ht1 Ht2]. rewrite !append_assoc in H.
    apply evidence_code in H as [-> H]; [|assumption..]. by apply bool_code in H as [-> ->].
  - by apply string_code in H as [-> ->].
  - by apply string_code in H as [-> ->].
Qed.

Lemma path_code : prefix_code (λ p, enc_string (path_str p)).
Proof. eapply reads_all; [apply (reads_field path_str _ string_code)|apply path_str_inj]. Qed.

Lemma transition_code : prefix_code (λ t, enc_string (path_str (tr_path t))
  +:+ encode_path_state (tr_before t) +:+ encode_path_state (tr_after t)).
Proof.
  eapply reads_all.
  - eapply reads_seq; [apply (reads_field tr_path _ path_code)|].
    eapply reads_seq; [apply (reads_field tr_before _ state_code)|apply (reads_field tr_after _ state_code)].
  - intros [] []; cbn; congruence.
Qed.

Lemma transitions_code : prefix_code (enc_list (λ t, enc_string (path_str (tr_path t))
  +:+ encode_path_state (tr_before t) +:+ encode_path_state (tr_after t))).
Proof.
  apply list_code; [|apply transition_code]. intros t. rewrite append_length.
  pose proof (enc_string_pos (path_str (tr_path t))). lia.
Qed.

Lemma delta_bytes_inj d d' :
  short (delta_canonical_bytes d) → delta_canonical_bytes d = delta_canonical_bytes d' → d = d'.
Proof.
  intros Hs H. pose proof Hs as Ht. rewrite H in Ht.
  apply short_app in Hs as [_ Hs], Ht as [_ Ht]. apply append_inj_l in H.
  apply (transitions_code d d' "" ""); [exact Hs|exact Ht|by rewrite H].
Qed.

Lemma coordinate_code : prefix_code encode_coordinate.
Proof.
  eapply reads_all.
  - eapply reads_seq; [apply (reads_field co_repository_identity _ string_code)|].
    eapply reads_seq; [apply (reads_field co_git_layout_identity _ string_code)|].
    eapply reads_seq; [apply (reads_field co_worktree_identity _ string_code)|].
    eapply reads_seq; [apply (reads_field co_head_oid _ option_code)|].
    eapply reads_seq; [apply (reads_field co_tree_oid _ option_code)|].
    apply (reads_field co_status_identity _ string_code).
  - intros [] []; cbn; congruence.
Qed.

Lemma observed_code : prefix_code (λ kv : ProductRelativePath * ProductPathState,
  enc_string (path_str kv.1) +:+ encode_path_state kv.2).
Proof.
  eapply reads_all.
  - eapply reads_seq; [apply (reads_field fst _ path_code)|apply (reads_field snd _ state_code)].
  - intros [] []; cbn; congruence.
Qed.

Lemma snapshot_bytes_inj c c' :
  short (encode_snapshot c) → encode_snapshot c = encode_snapshot c' → c = c'.
Proof.
  intros Hs H. pose proof Hs as Ht. rewrite H in Ht.
  apply short_app in Hs as [_ Hs], Ht as [_ Ht]. apply append_inj_l in H.
  revert Hs Ht H. cut (prefix_code (λ c, enc_string (ck_contract_digest c)
    +:+ encode_coordinate (ck_coordinate c)
    +:+ enc_list (λ kv, enc_string (path_str kv.1) +:+ encode_path_state kv.2) (ck_observed_states c)
    +:+ enc_list (λ p, enc_string (path_str p)) (ck_status_paths c)
    +:+ enc_list (λ p, enc_string (path_str p)) (ck_invocation_paths c))).
  { intros Hc Hs Ht H. apply (Hc c c' "" ""); [exact Hs|exact Ht|by rewrite H]. }
  assert (prefix_code (enc_list (λ p, enc_string (path_str p)))) as Hpaths
    by (apply list_code; [intros p; apply enc_string_pos|apply path_code]).
  assert (prefix_code (enc_list (λ kv : ProductRelativePath * ProductPathState,
    enc_string (path_str kv.1) +:+ encode_path_state kv.2))) as Hstates.
  { apply list_code; [|apply observed_code]. intros kv. rewrite append_length.
    pose proof (enc_string_pos (path_str kv.1)). lia. }
  eapply reads_all.
  - eapply reads_seq; [apply (reads_field ck_contract_digest _ string_code)|].
    eapply reads_seq; [apply (reads_field ck_coordinate _ coordinate_code)|].
    eapply reads_seq; [apply (reads_field ck_observed_states _ Hstates)|].
    eapply reads_seq; [apply (reads_field ck_status_paths _ Hpaths)|apply (reads_field ck_invocation_paths _ Hpaths)].
  - intros [] []; cbn; congruence.
Qed.

(** ** Maps *)

Section maps.
Context {K V : Type} `{RustOrd K} `{!EqDecision K}.
Implicit Types (m : list (K * V)).

Lemma bmap_insert_keys k v m : (bmap_insert k v m).*1 = bts_insert k m.*1.
Proof.
  induction m as [|[k' v'] m IH]; cbn; [done|]. destruct (rcompare k k') eqn:E; cbn; [|done|by rewrite IH].
  by apply rcompare_eq in E as ->.
Qed.

Lemma bmap_get_insert k k' v m :
  bmap_get k (bmap_insert k' v m) = if decide (k = k') then Some v else bmap_get k m.
Proof.
  induction m as [|[k2 v2] m IH]; cbn.
  { case_decide as Hd; [by rewrite (proj2 (rcompare_eq k k') Hd)|].
    destruct (rcompare k k') eqn:E; [by apply rcompare_eq in E|done..]. }
  destruct (rcompare k' k2) eqn:E2; cbn.
  - apply rcompare_eq in E2 as ->. destruct (rcompare k k2) eqn:E.
    + apply rcompare_eq in E as ->. by rewrite decide_True.
    + rewrite decide_False; [done|]. intros ->. by rewrite (proj2 (rcompare_eq _ _) eq_refl) in E.
    + rewrite decide_False; [done|]. intros ->. by rewrite (proj2 (rcompare_eq _ _) eq_refl) in E.
  - case_decide as Hd; [by rewrite (proj2 (rcompare_eq k k') Hd)|].
    destruct (rcompare k k') eqn:E; [by apply rcompare_eq in E|done..].
  - rewrite IH. destruct (rcompare k k2) eqn:E; [|done..]. apply rcompare_eq in E as ->.
    case_decide as Hd; [|done]. subst. by rewrite (proj2 (rcompare_eq _ _) eq_refl) in E2.
Qed.

Lemma bmap_get_is_Some k m : is_some (bmap_get k m) = true ↔ k ∈ m.*1.
Proof.
  induction m as [|[k' v] m IH]; cbn; [by rewrite elem_of_nil|]. rewrite elem_of_cons, <-IH.
  destruct (rcompare k k') eqn:E.
  - apply rcompare_eq in E as ->. naive_solver.
  - split; [naive_solver|]. intros [->|?]; [|done]. by rewrite (proj2 (rcompare_eq _ _) eq_refl) in E.
  - split; [naive_solver|]. intros [->|?]; [|done]. by rewrite (proj2 (rcompare_eq _ _) eq_refl) in E.
Qed.

Lemma bmap_get_elem k v m : bmap_get k m = Some v → (k, v) ∈ m.
Proof.
  induction m as [|[k' v'] m IH]; cbn; [done|]. destruct (rcompare k k') eqn:E.
  - apply rcompare_eq in E as ->. intros [= ->]. left.
  - intros ?. right. auto.
  - intros ?. right. auto.
Qed.

Lemma elem_of_bmap_insert k v m x : x ∈ bmap_insert k v m → x = (k, v) ∨ x ∈ m.
Proof.
  induction m as [|[k' v'] m IH]; cbn; [set_solver|].
  destruct (rcompare k k') eqn:E; rewrite ?elem_of_cons; [|naive_solver..].
  apply rcompare_eq in E as ->. naive_solver.
Qed.
End maps.

Lemma foldl_insert_sorted `{RustOrd A} (s l : list A) :
  StronglySorted rlt s → StronglySorted rlt (foldl (λ s p, bts_insert p s) s l)
  ∧ ∀ x, x ∈ foldl (λ s p, bts_insert p s) s l ↔ x ∈ s ∨ x ∈ l.
Proof.
  revert s. induction l as [|y l IH]; intros s Hs; cbn; [split; [done|set_solver]|].
  destruct (IH (bts_insert y s)) as [Hs' He]; [by apply bts_insert_sorted|]. split; [done|].
  intros x. rewrite He, elem_of_bts_insert, elem_of_cons. naive_solver.
Qed.

(** ** Snapshots *)

Section snapshots.
Variable sha256 : string → list ascii.
Hypothesis sha256_length : ∀ s, length (sha256 s) = 32.

Lemma identity_canonical bytes :
  is_canonical_sha256_digest ("sha256:" +:+ lowercase_hex (sha256 bytes)) = true.
Proof using sha256_length.
  unfold is_canonical_sha256_digest. rewrite strip_prefix_append. cbn [is_some_and].
  unfold is_canonical_sha256_hex. destruct (lowercase_hex_ok (sha256 bytes)) as [-> ->].
  by rewrite sha256_length.
Qed.

Lemma captured_canonical w c :
  capture_coordinates sha256 w = Ok c →
  is_canonical_sha256_digest (co_repository_identity (cc_coordinate c)) = true
  ∧ is_canonical_sha256_digest (co_git_layout_identity (cc_coordinate c)) = true
  ∧ is_canonical_sha256_digest (co_worktree_identity (cc_coordinate c)) = true
  ∧ is_canonical_sha256_digest (co_status_identity (cc_coordinate c)) = true.
Proof using sha256_length.
  unfold capture_coordinates. intros H. peel H as ws Hws. peel H as [ly hd] Hl. peel H as root Hroot.
  peel H as gd Hgd. peel H as cd Hcd. peel H as so Hso. peel H as sp Hsp. peel H as ho Hho.
  peel H as tr Htr. injection H as <-. cbn [cc_coordinate co_repository_identity co_git_layout_identity
    co_worktree_identity co_status_identity].
  split_and!; apply identity_canonical.
Qed.

Lemma worktree_state_evidence w limits total path state total' :
  observe_worktree_path sha256 w limits total path = Ok (state, total') → is_tree_evidence state = false.
Proof.
  unfold observe_worktree_path. intros H. peel H as entry He. destruct entry as [|size x|target| |].
  - by injection H as <- _.
  - peel H as [ev t] Hh. injection H as <- _. unfold hash_regular_file in Hh. unravel Hh. done.
  - destruct (is_utf8 target); [|done]. cbn [negb] in H. unravel H. done.
  - peel H as st Hst. injection H as <- _. unfold observe_gitlink in Hst. unravel Hst. done.
  - done.
Qed.

Lemma observe_paths_spec w limits cands states total states' total' :
  observe_paths sha256 w limits cands states total = Ok (states', total') →
  states'.*1 = foldl (λ s p, bts_insert p s) states.*1 cands
  ∧ (∀ kv, kv ∈ states' → kv ∈ states ∨ is_tree_evidence kv.2 = false).
Proof.
  revert states total. induction cands as [|p cands IH]; intros states total; cbn.
  { intros [= <- _]. split; [done|auto]. }
  intros H. peel H as u Hu. peel H as [state t] Hst. apply IH in H as [Hk He].
  rewrite Hk, bmap_insert_keys. split; [done|]. intros kv Hkv. apply He in Hkv as [Hkv|]; [|auto].
  apply elem_of_bmap_insert in Hkv as [->|]; [|auto]. right. by eapply worktree_state_evidence.
Qed.

Lemma observed_states_keys w limits cands total states total' :
  StronglySorted rlt cands →
  observe_worktree_states sha256 w limits cands total = Ok (states, total') →
  states.*1 = cands ∧ ∀ kv, kv ∈ states → is_tree_evidence kv.2 = false.
Proof.
  intros Hs H. unfold observe_worktree_states in H. peel H as u Hu.
  apply observe_paths_spec in H as [Hk He]. split.
  - rewrite Hk. destruct (foldl_insert_sorted [] cands) as [Hs' Hel]; [constructor|].
    apply sorted_rlt_ext; [done|done|]. intros x. rewrite Hel, elem_of_nil. naive_solver.
  - intros kv Hkv. apply He in Hkv as [?%elem_of_nil|]; done.
Qed.
(** The reading behind a snapshot: three equal coordinates around two equal readings of
    every path that has to be observed. *)
Record stable_reading (observer : RepositoryObserver) (worlds : nat → RepoWorld) (now : nat)
    (s : RepositoryObservationSnapshot) : Prop := {
  sr_coordinates : ∀ i, i ∈ [now; now + 2; now + 4]%nat → ∃ c,
    capture_coordinates sha256 (worlds i) = Ok c ∧ cc_repository_root c = sn_repository_root s
    ∧ cc_coordinate c = sn_coordinate s ∧ cc_status_paths c = sn_status_paths s;
  sr_states : ∀ i, i ∈ [now + 1; now + 3]%nat → ∃ total total',
    observe_worktree_states sha256 (worlds i) (ob_limits observer)
      (bts_of_list (sn_status_paths s ++ sn_invocation_paths s)) total
    = Ok (sn_observed_states s, total');
}.

(** What a snapshot takes from its observer. *)
Definition taken_by (observer : RepositoryObserver) (invocation : list ProductRelativePath)
    (s : RepositoryObservationSnapshot) : Prop :=
  sn_repository_root s = ob_repository_root observer ∧ sn_contract_digest s = ob_contract_digest observer
  ∧ sn_limits s = ob_limits observer ∧ sn_invocation_paths s = invocation
  ∧ (∃ bytes, snapshot_canonical_bytes s = Ok bytes)
  ∧ ensure_candidate_limit (length (bts_of_list (sn_status_paths s ++ invocation))) (ob_limits observer)
    = Ok tt.

Lemma attempt_stable observer invocation worlds now total s total' :
  snapshot_attempt sha256 observer invocation worlds now total = Ok (Some s, total') →
  stable_reading observer worlds now s ∧ taken_by observer invocation s.
Proof.
  unfold snapshot_attempt. intros H. peel H as before Hb. peel H as u Hr0. peel H as cands Hc.
  peel H as [first t1] Hf. peel H as middle Hm. peel H as u1 Hr1.
  destruct (_ || _) eqn:E1; [by unravel H|]. peel H as [second t2] Hs. peel H as after Ha.
  peel H as u2 Hr2. destruct (_ || _ || _) eqn:E2; [by unravel H|]. peel H as bytes Hbytes.
  injection H as <- <-. apply orb_false_iff in E1 as [E1%neqb_false E1'%neqb_false].
  apply orb_false_iff in E2 as [[E2%neqb_false E2'%neqb_false]%orb_false_iff ->%neqb_false].
  unfold ensure_same_root in Hr0, Hr1, Hr2. unravel Hr0. unravel Hr1. unravel Hr2. breflect.
  unfold candidate_paths in Hc. peel Hc as v Hl. injection Hc as <-. destruct v.
  split; [split|].
  - intros i. rewrite !elem_of_cons, elem_of_nil. intros [->|[->|[->|[]]]];
      eexists; (split; [eassumption|]); cbn; split_and!; congruence.
  - cbn. intros i. rewrite !elem_of_cons, elem_of_nil. rewrite <-E2', <-E1'.
    intros [->|[->|[]]]; eauto.
  - unfold taken_by. cbn. split_and!; eauto. by rewrite <-E2', <-E1'.
Qed.

Lemma attempts_stable observer invocation worlds attempts now total s :
  snapshot_attempts sha256 observer invocation worlds attempts now total = Ok s →
  ∃ k, k < attempts ∧ stable_reading observer worlds (now + 5 * k) s ∧ taken_by observer invocation s.
Proof.
  revert now total. induction attempts as [|attempts IH]; intros now total; [done|].
  cbn [snapshot_attempts]. intros H. peel H as [o t] Ha. destruct o as [s'|].
  - injection H as ->. apply attempt_stable in Ha as [Hs Ht]. exists 0%nat.
    split_and!; [lia|by replace (now + 5 * 0)%nat with now by lia|done].
  - apply IH in H as (k & Hk & Hs & Ht). exists (S k). split_and!; [lia| |done].
    by replace (now + 5 * S k)%nat with (now + 5 + 5 * k)%nat by lia.
Qed.

(** C24: A snapshot is stable and complete: it is taken within the allowed number of
    attempts; its coordinates were read three times and the state of every path twice, with
    the same result each time; and it observes exactly the paths Git reports and the paths
    of the invocation. *)
Theorem snapshot_stable observer targets hints worlds s :
  take_snapshot sha256 observer targets hints worlds = Ok s →
  (∃ k, k < max_stability_attempts (ob_limits observer) ∧ stable_reading observer worlds (5 * k) s)
  ∧ ∀ p, is_some (bmap_get p (sn_observed_states s)) = true
         ↔ p ∈ sn_status_paths s ∨ p ∈ targets ∨ p ∈ hints.
Proof.
  unfold take_snapshot. intros H. peel H as u Hu. peel H as v Hv.
  apply attempts_stable in H as (k & Hk & Hs & Ht). split; [by exists k|].
  destruct Ht as (_ & _ & _ & Hinv & _).
  destruct (sr_states _ _ _ _ Hs (0 + 5 * k + 1)%nat) as (t & t' & Ho); [left|].
  apply observed_states_keys in Ho as [Hkeys _]; [|apply bts_of_list_sorted].
  intros p. rewrite bmap_get_is_Some, Hkeys, elem_of_bts_of_list, elem_of_app, Hinv,
    elem_of_bts_of_list, elem_of_app. done.
Qed.

Lemma checkpoint_restored observer targets hints worlds s :
  take_snapshot sha256 observer targets hints worlds = Ok s →
  validate_checkpoint (snapshot_checkpoint s) = Ok tt
  ∧ restore_checkpoint observer (snapshot_checkpoint s) = Ok s.
Proof using sha256_length.
  unfold take_snapshot. intros H. peel H as u Hu. peel H as v Hv.
  apply attempts_stable in H as (k & Hk & Hs & Hr & Hd & Hl & Hinv & [bytes Hb] & Hc).
  destruct (sr_states _ _ _ _ Hs (0 + 5 * k + 1)%nat) as (t & t' & Ho); [left|].
  apply observed_states_keys in Ho as [Hkeys Hev]; [|apply bts_of_list_sorted].
  destruct (sr_coordinates _ _ _ _ Hs (0 + 5 * k)%nat) as (c & Hcap & _ & Hco & _); [left|].
  apply captured_canonical in Hcap as (C1 & C2 & C3 & C4). rewrite Hco in *.
  assert (validate_checkpoint (snapshot_checkpoint s) = Ok tt) as Hval.
  { unfold validate_checkpoint, snapshot_checkpoint.
    cbn [ck_coordinate ck_observed_states ck_status_paths ck_invocation_paths].
    rewrite C1, C2, C3, C4. cbn [negb orb].
    rewrite (proj2 (existsb_false _ _) Hev), (proj2 (forallb_elem _ _)); [done|].
    intros p Hp. by rewrite bmap_get_is_Some, Hkeys, elem_of_bts_of_list. }
  split; [done|]. unfold restore_checkpoint. rewrite Hval. unfold snapshot_checkpoint.
  cbn [ck_contract_digest ck_observed_states ck_coordinate ck_status_paths ck_invocation_paths].
  rewrite Hd, (proj2 (neqb_false _ _) eq_refl). rewrite Hinv in Hkeys.
  rewrite <-(length_fmap fst (sn_observed_states s)), Hkeys, Hc.
  rewrite <-Hr, <-Hd, <-Hl. destruct s; cbn in *. by rewrite Hb.
Qed.

(** C25: Every snapshot survives storage: its checkpoint is valid, and restoring it under
    the same observer gives back the snapshot. *)
Theorem checkpoint_restores observer targets hints worlds s :
  take_snapshot sha256 observer targets hints worlds = Ok s →
  validate_checkpoint (snapshot_checkpoint s) = Ok tt
  ∧ restore_checkpoint observer (snapshot_checkpoint s) = Ok s.
Proof using sha256_length. apply checkpoint_restored. Qed.
End snapshots.

(** ** Deltas *)

Lemma semantically_eq_refl state : semantically_eq state state = true.
Proof. destruct state as [|[b g|g] x|t|o]; cbn; by rewrite ?eqb_refl. Qed.

Lemma sorted_sublist {A} (R : A → A → Prop) l k :
  l `sublist_of` k → StronglySorted R k → StronglySorted R l.
Proof.
  induction 1 as [|x l k Hsub IH|x l k Hsub IH]; [done| |]; intros [Hs Hf]%StronglySorted_inv; [|auto].
  constructor; [auto|]. rewrite Forall_forall in *. intros y Hy. apply Hf. by eapply elem_of_sublist.
Qed.

Lemma transitions_accepted_sorted previous delta :
  transitions_accepted previous delta = true
  ↔ StronglySorted rlt (tr_path <$> delta)
    ∧ (∀ t, t ∈ delta → semantically_eq (tr_before t) (tr_after t) = false)
    ∧ ∀ p t, previous = Some p → t ∈ delta → rlt p (tr_path t).
Proof.
  revert previous. induction delta as [|t delta IH]; intros previous; 
    cbn [transitions_accepted]; unfold transition_accepted.
  { split; [|done]. intros _. split_and!; [constructor|set_solver|set_solver]. }
  rewrite !andb_true_iff, !negb_true_iff, IH, fmap_cons. clear IH. split.
  - intros [[He Hp] (Hs & Hd & Hlt)]. split_and!.
    + constructor; [done|]. apply Forall_fmap, Forall_forall. intros t' Ht'. by eapply Hlt.
    + intros t' [->|Ht']%elem_of_cons; [done|by apply Hd].
    + intros p t' -> Ht'. cbn [is_some_and] in Hp. assert (rlt p (tr_path t)) as Hpt by (unfold rlt; by destruct (rcompare p _)).
      apply elem_of_cons in Ht' as [->|Ht']; [done|]. eapply rcompare_trans; [exact Hpt|by eapply Hlt].
  - intros (Hs & Hd & Hlt). apply StronglySorted_inv in Hs as [Hs Hf]. split_and!.
    + apply Hd. left.
    + destruct previous as [p|]; [|done]. cbn [is_some_and]. by rewrite (Hlt p t eq_refl (list_elem_of_here _ _)).
    + done.
    + intros t' Ht'. apply Hd. by right.
    + intros p t' [= <-] Ht'. rewrite Forall_fmap, Forall_forall in Hf. by apply Hf.
Qed.

(** ** What counts as a change *)

(** Two files have the same content: the same bytes where both were read from the worktree,
    and the same blob of Git otherwise. *)
Inductive same_content : RegularFileContentEvidence → RegularFileContentEvidence → Prop :=
| same_bytes bytes blob blob' : same_content (Worktree bytes blob) (Worktree bytes blob')
| same_blob_tree e blob : canonical_git_blob e = blob → same_content e (GitTree blob)
| same_tree_blob blob e : canonical_git_blob e = blob → same_content (GitTree blob) e.

Inductive same_state : ProductPathState → ProductPathState → Prop :=
| same_absent : same_state Absent Absent
| same_file e e' executable :
    same_content e e' → same_state (RegularFile e executable) (RegularFile e' executable)
| same_link target : same_state (SymbolicLink target) (SymbolicLink target)
| same_gitlink oid : same_state (Gitlink oid) (Gitlink oid).

Lemma evidence_semantically_eq_spec e e' : evidence_semantically_eq e e' = true ↔ same_content e e'.
Proof.
  split.
  - destruct e as [b g|g], e' as [b' g'|g']; cbn; intros ->%eqb_eq; by constructor.
  - intros [bytes blob blob'|[b g|g] ? <-|? [b g|g] <-]; cbn [evidence_semantically_eq canonical_git_blob];
      apply eqb_refl.
Qed.

Lemma semantically_eq_spec x y : semantically_eq x y = true ↔ same_state x y.
Proof.
  split.
  - destruct x, y; cbn; try done; [by constructor|intros [He Hc%evidence_semantically_eq_spec]%andb_true_iff
      |intros He|intros He]; apply eqb_eq in He as ->; by constructor.
  - intros [|e e' executable He%evidence_semantically_eq_spec|target|oid]; cbn; rewrite ?eqb_refl; done.
Qed.

Lemma semantically_eq_false x y : semantically_eq x y = false ↔ ¬ same_state x y.
Proof. rewrite <-semantically_eq_spec. by destruct (semantically_eq x y). Qed.

Section deltas.
Variable sha256 : string → list ascii.
Context (before after : RepositoryObservationSnapshot) (before_tree after_tree : PathStates).

(** A change of one path between the two snapshots. *)
Definition changes (t : RepositoryPathTransition) : Prop :=
  snapshot_path_state before before_tree (tr_path t) = Ok (tr_before t)
  ∧ snapshot_path_state after after_tree (tr_path t) = Ok (tr_after t)
  ∧ ¬ same_state (tr_before t) (tr_after t).

Lemma transitions_of_spec cands delta :
  transitions_of before after before_tree after_tree cands = Ok delta →
  (∀ t, t ∈ delta ↔ tr_path t ∈ cands ∧ changes t) ∧ (tr_path <$> delta) `sublist_of` cands.
Proof.
  revert delta. induction cands as [|p cands IH]; intros delta; cbn [transitions_of].
  { intros [= <-]. split; [|constructor]. intros t. rewrite !elem_of_nil. naive_solver. }
  intros H. peel H as b Hb. peel H as a Ha. peel H as rest Hrest. destruct (IH _ Hrest) as [Hel Hsub].
  injection H as <-. destruct (semantically_eq b a) eqn:E.
  - split; [|by constructor]. intros t. rewrite Hel, elem_of_cons. split; [tauto|].
    intros [[Hp|Hp] Hc]; [|done]. exfalso. destruct Hc as (Hb' & Ha' & Hd). rewrite Hp in *.
    apply semantically_eq_false in Hd. congruence.
  - split; [|cbn; by constructor]. intros t. rewrite !elem_of_cons, Hel. split.
    + intros [->|[Hp Hc]]; [|tauto]. split; [by left|]. split_and!; [done..|by apply semantically_eq_false].
    + intros [[Hp|Hp] Hc]; [|tauto]. left. destruct Hc as (Hb' & Ha' & _). rewrite Hp in *.
      destruct t as [p' b' a']. cbn in *. congruence.
Qed.

Lemma transitions_of_total cands :
  (∀ p, p ∈ cands → (is_some (bmap_get p (sn_observed_states before)) = true ∨ is_some (bmap_get p before_tree) = true)
     ∧ (is_some (bmap_get p (sn_observed_states after)) = true ∨ is_some (bmap_get p after_tree) = true)) →
  ∃ delta, transitions_of before after before_tree after_tree cands = Ok delta.
Proof.
  induction cands as [|p cands IH]; intros Hall; cbn [transitions_of]; [by eexists|].
  destruct IH as [delta ->]; [intros q Hq; apply Hall; by right|].
  destruct (Hall p (list_elem_of_here _ _)) as [Hb Ha]. unfold snapshot_path_state.
  destruct (bmap_get p (sn_observed_states before)), (bmap_get p before_tree),
    (bmap_get p (sn_observed_states after)), (bmap_get p after_tree); cbn in *; naive_solver.
Qed.
End deltas.

Section tree_states.
Variable sha256 : string → list ascii.

Lemma tree_records_keep w limits cands records states total states' total' p :
  tree_records sha256 w limits cands records states total = Ok (states', total') →
  is_some (bmap_get p states) = true → is_some (bmap_get p states') = true.
Proof.
  revert states total. induction records as [|record records IH]; intros states total; cbn [tree_records].
  { by intros [= <- _]. }
  destruct (str_is_empty record); [apply IH|]. intros H Hp. peel H as [md raw] Hm.
  destruct (is_utf8 md); [|done]. cbn [negb] in H. destruct (is_some (_ !! 3%nat)); [done|].
  peel H as path Hpath. destruct (bts_mem path cands); [|done]. cbn [negb] in H. peel H as [st t] Hst.
  apply IH in H; [done|]. rewrite bmap_get_insert. by case_decide.
Qed.

(** Every path asked for has a state in the answer. *)
Lemma tree_states_cover w limits tree cands total states total' p :
  observe_tree_states sha256 w limits tree cands total = Ok (states, total') →
  p ∈ cands → is_some (bmap_get p states) = true.
Proof.
  intros H Hp. assert (is_some (bmap_get p
    (foldl (λ states path, bmap_insert path Absent states) [] cands)) = true) as Hinit.
  { clear H. cut (∀ m : PathStates, p ∈ cands ∨ is_some (bmap_get p m) = true →
      is_some (bmap_get p (foldl (λ states path, bmap_insert path Absent states) m cands)) = true);
      [auto|]. clear Hp.
    induction cands as [|q cands IH]; intros m; cbn; [intros [?%elem_of_nil|?]; done|].
    rewrite elem_of_cons. intros Hq. apply IH. rewrite bmap_get_insert. case_decide; naive_solver. }
  unfold observe_tree_states in H. destruct tree as [tree|]; [|by injection H as <- _].
  destruct (list_is_empty cands); [by injection H as <- _|]. peel H as output Ho.
  by eapply tree_records_keep.
Qed.

(** The trees read for a delta cover every candidate that a snapshot does not observe. *)
Lemma missing_covered w limits s tree cands total states total' p :
  observe_tree_states sha256 w limits tree (missing_paths s cands) total = Ok (states, total') →
  p ∈ cands → is_some (bmap_get p (sn_observed_states s)) = true ∨ is_some (bmap_get p states) = true.
Proof.
  intros H Hp. destruct (bmap_get p (sn_observed_states s)) eqn:E; [by left|]. right.
  eapply tree_states_cover; [exact H|]. apply elem_of_filter_bool. by rewrite E.
Qed.

(** C23: A delta lists exactly what changed: its paths are in strict order and none is
    repeated, so its stored form is accepted; equal snapshots have the empty delta; and
    otherwise it holds a transition for a path exactly when the path is observed, reported
    or named in one of the snapshots or differs between their trees, and its states before
    and after are not the same content. *)
Theorem delta_exact w observer before after delta :
  calculate_delta sha256 w observer before after = Ok delta →
  delta_accepted delta = true
  ∧ (before = after ∧ delta = []
     ∨ ∃ changed before_tree after_tree total total',
         tree_changed_paths w before after = Ok changed
         ∧ let cands := bts_of_list (snapshot_candidates before after ++ changed) in
           observe_tree_states sha256 w (ob_limits observer) (co_tree_oid (sn_coordinate before))
             (missing_paths before cands) 0 = Ok (before_tree, total)
           ∧ observe_tree_states sha256 w (ob_limits observer) (co_tree_oid (sn_coordinate after))
               (missing_paths after cands) total = Ok (after_tree, total')
           ∧ ∀ t, t ∈ delta ↔ (tr_path t ∈ snapshot_candidates before after ∨ tr_path t ∈ changed)
                              ∧ changes before after before_tree after_tree t).
Proof.
  unfold calculate_delta. destruct (before =? after) eqn:E.
  { apply eqb_eq in E as ->. intros [= <-]. split; [done|]. by left. }
  intros H. peel H as u Hu. peel H as cur Hcur. destruct (_ || _); [done|].
  peel H as changed Hch. peel H as v Hv. peel H as [bt total] Hbt. peel H as [at_ total'] Hat.
  peel H as d Hd. destruct (_ <? _)%N; [done|]. injection H as ->.
  destruct (transitions_of_spec _ _ _ _ _ _ Hd) as [Hel Hsub]. split.
  - apply transitions_accepted_sorted. split_and!; [|intros t [_ (_ & _ & ?)]%Hel; by apply semantically_eq_false|done].
    eapply sorted_sublist; [exact Hsub|apply bts_of_list_sorted].
  - right. exists changed, bt, at_, total, total'. split_and!; [done..|]. intros t.
    by rewrite Hel, elem_of_bts_of_list, elem_of_app.
Qed.
End tree_states.

(** ** Digests and totality *)

Section digest_theorems.
Variable sha256 : string → list ascii.

Lemma content_identity_inj b b' :
  content_identity sha256 b = content_identity sha256 b' → sha256 b = sha256 b'.
Proof.
  unfold content_identity. intros H%append_inj_l. rewrite <-!lowercase_hex_bytes_eq in H.
  by apply lowercase_hex_bytes_inj.
Qed.

(** Two encodings on which SHA-256 collides. *)
Definition collide (bytes bytes' : string) : Prop := bytes ≠ bytes' ∧ sha256 bytes = sha256 bytes'.

(** A digest identifies what it was taken of: two deltas, or two valid checkpoints,
    with the same digest are equal unless SHA-256 collides on their own canonical bytes, as
    long as the encoding of one has a length a 64-bit number can hold. *)
Theorem digests_identify :
  (∀ d d', short (delta_canonical_bytes d) → delta_digest sha256 d = delta_digest sha256 d' →
     d = d' ∨ collide (delta_canonical_bytes d) (delta_canonical_bytes d'))
  ∧ ∀ c c' digest, short (encode_snapshot c) →
      checkpoint_semantic_digest sha256 c = Ok digest → checkpoint_semantic_digest sha256 c' = Ok digest →
      c = c' ∨ collide (encode_snapshot c) (encode_snapshot c').
Proof.
  split.
  - intros d d' Hs H%content_identity_inj.
    destruct (decide (delta_canonical_bytes d = delta_canonical_bytes d')) as [He|He]; [|by right].
    left. by apply delta_bytes_inj.
  - intros c c' digest Hs H H'. unfold checkpoint_semantic_digest in *.
    peel H as u Hu. peel H' as u' Hu'. rewrite <-H in H'.
    apply Ok_inj, content_identity_inj in H'. symmetry in H'.
    destruct (decide (encode_snapshot c = encode_snapshot c')) as [He|He]; [|by right].
    left. by apply snapshot_bytes_inj.
Qed.

(** A delta never fails for want of a state: once the reads of Git succeed within the
    limits, the delta of two compatible snapshots exists, or its own encoding is too
    large. *)
Theorem delta_available w observer before after current changed before_tree after_tree total total' :
  let cands := bts_of_list (snapshot_candidates before after ++ changed) in
  ensure_compatible observer before after = Ok tt →
  capture_coordinates sha256 w = Ok current →
  co_repository_identity (cc_coordinate current) = co_repository_identity (sn_coordinate before) →
  co_git_layout_identity (cc_coordinate current) = co_git_layout_identity (sn_coordinate before) →
  tree_changed_paths w before after = Ok changed →
  ensure_candidate_limit (length cands) (ob_limits observer) = Ok tt →
  observe_tree_states sha256 w (ob_limits observer) (co_tree_oid (sn_coordinate before))
    (missing_paths before cands) 0 = Ok (before_tree, total) →
  observe_tree_states sha256 w (ob_limits observer) (co_tree_oid (sn_coordinate after))
    (missing_paths after cands) total = Ok (after_tree, total') →
  (∃ delta, calculate_delta sha256 w observer before after = Ok delta)
  ∨ calculate_delta sha256 w observer before after = Err SerializationSizeLimitExceeded.
Proof.
  intros cands Hc Hcap H1 H2 Hch Hlim Hb Ha. unfold calculate_delta.
  destruct (before =? after); [by left; eexists|]. rewrite Hc, Hcap. cbn -[cands].
  rewrite H1, H2, !(proj2 (neqb_false _ _) eq_refl). cbn [orb]. rewrite Hch. fold cands.
  rewrite Hlim, Hb, Ha.
  destruct (transitions_of_total before after before_tree after_tree cands) as [delta ->].
  { intros p Hp. split; [exact (missing_covered _ _ _ _ _ _ _ _ _ p Hb Hp)
                        |exact (missing_covered _ _ _ _ _ _ _ _ _ p Ha Hp)]. }
  destruct (_ <? _)%N; [by right|left; by eexists].
Qed.
End digest_theorems.

(** ** Witnesses *)

(** A stand-in digest of the right length. *)
Definition sample_sha256 (_ : string) : list ascii := repeat "a"%char 32.
Lemma sample_sha256_length s : length (sample_sha256 s) = 32.
Proof. reflexivity. Qed.

Definition new_file : ProductRelativePath := MkPath "new.txt" I.
Definition sample_blob : string := "0123456789abcdef0123456789abcdef01234567".

(** A repository without commits, with and without one untracked file. *)
Definition sample_world (created : bool) : RepoWorld := {|
  rw_workspace := Ok (Some (MkLayout "/r" "/r/.git" "/r/.git" false, None));
  rw_git arguments :=
    Ok (MkGitOutput (arguments =? STATUS_ARGUMENTS)
          (if created then "? new.txt" +:+ String Ascii.zero "" else ""));
  rw_gitlink_git _ _ := Err GitCommandFailed;
  rw_observe := Ok tt;
  rw_observe_path _ := Ok tt;
  rw_entry _ := Ok (if created then EntryFile 3 false else EntryMissing);
  rw_hash_file _ _ := Ok (MkGitOutput true sample_blob, "sha256:content", 3%N);
|}.

Definition sample_observer : RepositoryObserver :=
  MkObserver "/r" default_limits (for_limits sample_sha256 default_limits).
Definition sample_snapshot (created : bool) : result RepositoryObservationSnapshot ObservationUnavailableReason :=
  take_snapshot sample_sha256 sample_observer [new_file] [] (λ _, sample_world created).
Definition sample_delta : result RepositoryDelta ObservationUnavailableReason :=
  match sample_snapshot false, sample_snapshot true with
  | Ok before, Ok after =>
      calculate_delta sample_sha256 (sample_world true) sample_observer before after
  | _, _ => Err UnstableRepository
  end.

Example sample_delta_value :
  sample_delta
  = Ok [MkTransition new_file Absent (RegularFile (Worktree "sha256:content" sample_blob) false)].
Proof. vm_compute. reflexivity. Qed.

Lemma sample_snapshot_Ok created : ∃ s, sample_snapshot created = Ok s.
Proof.
  assert (is_ok (sample_snapshot created) = true) as H by (destruct created; vm_compute; reflexivity).
  destruct (sample_snapshot created) as [s|]; [by exists s|discriminate H].
Qed.

Lemma snapshot_stable_witness : ∃ s, sample_snapshot true = Ok s
  ∧ is_some (bmap_get new_file (sn_observed_states s)) = true.
Proof.
  destruct (sample_snapshot_Ok true) as [s Hs]. exists s. split; [exact Hs|].
  apply (snapshot_stable sample_sha256 sample_observer [new_file] [] (λ _, sample_world true) s Hs).
  right. left. left.
Defined.

Lemma checkpoint_restores_witness : ∃ s, sample_snapshot true = Ok s
  ∧ restore_checkpoint sample_observer (snapshot_checkpoint s) = Ok s.
Proof.
  destruct (sample_snapshot_Ok true) as [s Hs]. exists s. split; [exact Hs|].
  apply (checkpoint_restores sample_sha256 sample_sha256_length sample_observer [new_file] []
    (λ _, sample_world true) s Hs).
Defined.

Lemma delta_exact_witness : ∃ before after delta,
  sample_snapshot false = Ok before ∧ sample_snapshot true = Ok after
  ∧ calculate_delta sample_sha256 (sample_world true) sample_observer before after = Ok delta
  ∧ delta_accepted delta = true.
Proof.
  destruct (sample_snapshot_Ok false) as [before Hb], (sample_snapshot_Ok true) as [after Ha].
  pose proof sample_delta_value as Hd. unfold sample_delta in Hd. rewrite Hb, Ha in Hd.
  do 3 eexists. split_and!; [exact Hb|exact Ha|exact Hd|].
  exact (proj1 (delta_exact sample_sha256 _ _ _ _ _ Hd)).
Defined.

Lemma digests_identify_witness : ∃ delta, sample_delta = Ok delta
  ∧ delta_digest sample_sha256 delta = delta_digest sample_sha256 []
  ∧ collide sample_sha256 (delta_canonical_bytes delta) (delta_canonical_bytes []).
Proof.
  eexists. split_and!; [exact sample_delta_value|reflexivity|].
  destruct (proj1 (digests_identify sample_sha256)
    [MkTransition new_file Absent (RegularFile (Worktree "sha256:content" sample_blob) false)] [])
    as [H|H]; [vm_compute; reflexivity|reflexivity|discriminate H|exact H].
Defined.
