(* ===== verification/GuardStore.v ===== *)
(** * GuardStore: host coordinates and hook events

    Models the part of volicord-store/src/guards.rs on which the repository observations
    rest: the rows of host sessions, turns and tool invocations with the observation that
    establishes them, the hook events with their validation and decoding, and the ownership
    check of an event, with the constraints of schema/project.sql on those tables.  The
    identity of a session is that of volicord-types/src/managed_mcp_client_info.rs.

    The tables hold the rows of one project.  Timestamps are kept as the text of their
    column, because the constraints compare the text.  [serde_json] is the class
    [GuardJson]; the registry of the runtime home, which lies in another database, is read
    through the class [GuardRegistry].  SQLite refuses a statement with
    [ConstraintViolation], and a failed conversion of a row is [CorruptStoredValue]. *)

From Stdlib Require Import Ascii.
From stdpp Require Import gmap strings.
From S2P Require Import Prelude Text Values Canonical EventHash Clock TicketStore Capture TaskStore.
From S2P Require Import HostTools HostContract.

(** ** Correlations *)

#[export] Instance CodexMcpCorrelation_eq_dec : EqDecision CodexMcpCorrelation.
Proof. solve_decision. Defined.
#[export] Instance CodexHookPromptCorrelation_eq_dec : EqDecision CodexHookPromptCorrelation.
Proof. solve_decision. Defined.
#[export] Instance CodexHookToolCorrelation_eq_dec : EqDecision CodexHookToolCorrelation.
Proof. solve_decision. Defined.
#[export] Instance HostNativeCorrelation_eq_dec : EqDecision HostNativeCorrelation.
Proof. solve_decision. Defined.

Definition correlation_session_id (c : HostNativeCorrelation) : string :=
  match c with
  | CodexMcp value => cmc_session_id value
  | CodexHookPrompt value => cpc_session_id value
  | CodexHookTool value => ctc_session_id value
  end.

Definition correlation_turn_id (c : HostNativeCorrelation) : string :=
  match c with
  | CodexMcp value => cmc_turn_id value
  | CodexHookPrompt value => cpc_turn_id value
  | CodexHookTool value => ctc_turn_id value
  end.

(** ** Rows *)

Record HostSessionRow := MkHostSession {
  hs_connection_internal_id : string;
  hs_project_integration_revision : string;
  hs_host_session_id : string;
  hs_first_observed_at : string;
  hs_last_observed_at : string;
}.
#[export] Instance HostSessionRow_eq_dec : EqDecision HostSessionRow.
Proof. solve_decision. Defined.

Record HostTurnRow := MkHostTurn {
  ht_connection_internal_id : string;
  ht_first_observed_at : string;
  ht_last_observed_at : string;
}.
#[export] Instance HostTurnRow_eq_dec : EqDecision HostTurnRow.
Proof. solve_decision. Defined.

Record HostToolRow := MkHostTool {
  hi_connection_internal_id : string;
  hi_host_turn_id : string;
  hi_host_tool_name : string;
  hi_first_observed_at : string;
  hi_last_observed_at : string;
}.
#[export] Instance HostToolRow_eq_dec : EqDecision HostToolRow.
Proof. solve_decision. Defined.

Record GuardEventInsert := MkGuardEventInsert {
  gi_guard_event_id : string;
  gi_correlation : option HostNativeCorrelation;
  gi_connection_internal_id : string;
  gi_guard_installation_id : string;
  gi_policy_hash : string;
  gi_integration_revision : string;
  gi_event_kind : string;
  gi_contract_status : string;
  gi_decision : string;
  gi_subject_json : string;
  gi_result_json : string;
  gi_occurred_at : string;
  gi_metadata_json : string;
}.

(** A row of [guard_events]. *)
Record GuardEventRow := MkGuardEventRow {
  gw_session_id : option string;
  gw_connection_internal_id : string;
  gw_correlation_kind : option string;
  gw_host_turn_id : option string;
  gw_host_tool_use_id : option string;
  gw_host_tool_name : option string;
  gw_guard_installation_id : string;
  gw_policy_hash : string;
  gw_integration_revision : string;
  gw_event_kind : string;
  gw_contract_status : string;
  gw_decision : string;
  gw_subject_json : string;
  gw_result_json : string;
  gw_occurred_at : string;
  gw_metadata_json : string;
}.
#[export] Instance GuardEventRow_eq_dec : EqDecision GuardEventRow.
Proof. solve_decision. Defined.

Record GuardEventRecord := MkGuardEventRecord {
  gv_project_id : string;
  gv_guard_event_id : string;
  gv_session_id : option string;
  gv_correlation : option HostNativeCorrelation;
  gv_connection_internal_id : string;
  gv_guard_installation_id : string;
  gv_policy_hash : string;
  gv_integration_revision : string;
  gv_event_kind : string;
  gv_contract_status : string;
  gv_decision : string;
  gv_subject_json : string;
  gv_result_json : string;
  gv_occurred_at : string;
  gv_metadata_json : string;
}.
#[export] Instance GuardEventRecord_eq_dec : EqDecision GuardEventRecord.
Proof. solve_decision. Defined.

(** The tables of one project. *)
Record HostTables := MkHostTables {
  hb_sessions : gmap string HostSessionRow;
  hb_turns : gmap (string * string) HostTurnRow;
  hb_tools : gmap (string * string) HostToolRow;
  hb_events : gmap string GuardEventRow;
}.

Definition set_sessions (t : HostTables) sessions : HostTables :=
  MkHostTables sessions (hb_turns t) (hb_tools t) (hb_events t).
Definition set_turns (t : HostTables) turns : HostTables :=
  MkHostTables (hb_sessions t) turns (hb_tools t) (hb_events t).
Definition set_tools (t : HostTables) tools : HostTables :=
  MkHostTables (hb_sessions t) (hb_turns t) tools (hb_events t).
Definition set_events (t : HostTables) events : HostTables :=
  MkHostTables (hb_sessions t) (hb_turns t) (hb_tools t) events.

(** ** Libraries and the registry *)

(** [serde_json::from_str::<Value>] and [serde_json::to_string] of a value. *)
Class GuardJson := {
  gj_from_str : string → option Value;
  gj_text : Value → string;
}.

Record GuardManifest := MkGuardManifest {
  gm_policy_hash : string;
  gm_integration_revision : string;
}.

(** An installation with the manifest its JSON column decodes to. *)
Record GuardInstallation := MkGuardInstallation {
  gn_connection_internal_id : string;
  gn_project_id : string;
  gn_manifest : result GuardManifest StoreError;
}.

Class GuardRegistry := {
  gr_guard_installation : string → result (option GuardInstallation) StoreError;
  (** [current_project_agent_session_coordinates]: the session id and the revision. *)
  gr_session_coordinates :
    string → string → option string → HostNativeCorrelation → result (string * string) StoreError;
  gr_connection_project_allowed : string → string → result bool StoreError;
  gr_project_exists : string → result bool StoreError;
}.

(** ** Validation *)

Definition guard_identifier (field value : string) : result unit StoreError :=
  if str_contains_byte Ascii.zero value
  then Err (InvalidInput (field +:+ " must not contain NUL bytes"))
  else if blank value then Err (InvalidInput (field +:+ " must not be empty"))
  else Ok tt.

Definition validate_string_items (field : string) (values : list string) : result unit StoreError :=
  if forallb (λ value, negb (blank value)) values then Ok tt
  else Err (InvalidInput (field +:+ " must contain only non-empty strings")).

(** [last_observed_at >= first_observed_at] of the schema, on the text of the columns. *)
Definition text_ordered (first last : string) : bool :=
  match rcompare last first with Lt => false | _ => true end.

(** [HostNativeCorrelation::CodexHookTool] with the three ids parsed again. *)
Definition decode_hook_tool (session turn tool_use tool_name : string)
    : result HostNativeCorrelation HostContractError :=
  let? session := native_id_parse "session_id" session in
  let? turn := native_id_parse "turn_id" turn in
  let? tool_use := native_id_parse "tool_use_id" tool_use in
  let? tool_name := CanonicalToolName_parse tool_name in
  Ok (CodexHookTool (MkToolCorrelation session turn tool_use tool_name)).

Definition decode_hook_correlation (kind host_session_id host_turn_id host_tool_use_id host_tool_name
    : option string) : result (option HostNativeCorrelation) StoreError :=
  let invalid := CorruptStoredValue "invalid persisted host correlation" in
  match kind, host_session_id, host_turn_id, host_tool_use_id, host_tool_name with
  | None, None, None, None, None => Ok None
  | Some kind, Some session, Some turn, None, None =>
      if kind =? "codex_hook_prompt" then
        let? session := map_err (λ _, invalid) (native_id_parse "session_id" session) in
        let? turn := map_err (λ _, invalid) (native_id_parse "turn_id" turn) in
        Ok (Some (CodexHookPrompt (MkPromptCorrelation session turn)))
      else Err invalid
  | Some kind, Some session, Some turn, Some tool_use, Some tool_name =>
      if kind =? "codex_hook_tool" then
        let? correlation := map_err (λ _, invalid) (decode_hook_tool session turn tool_use tool_name) in
        Ok (Some correlation)
      else Err invalid
  | _, _, _, _, _ => Err invalid
  end.

Section guard_store.
Context `{HC : Chrono} `{HJ : GuardJson} `{HR : GuardRegistry}.
Variable sha256 : string → list ascii.
Variable project_id : string.

Definition guard_json_string (v : Value) : string := gj_text (sort_json_value v).

Definition canonical_json_object (text : string) : option JsonObject :=
  match gj_from_str text with
  | Some (Object object) => bool_then (guard_json_string (Object object) =? text) object
  | _ => None
  end.

Definition validate_json_object (field text : string) : result unit StoreError :=
  match gj_from_str text with
  | None => Err (InvalidInput (field +:+ " must be JSON object text"))
  | Some (Object _) => Ok tt
  | Some _ => Err (InvalidInput (field +:+ " must be a JSON object"))
  end.

Definition validate_timestamp_text (field value : string) : result unit StoreError :=
  let? _ := guard_identifier field value in
  if is_some_and (parse_from_rfc3339 value) representable then Ok tt
  else Err (InvalidInput (field +:+ " must be a canonical four-digit RFC 3339 timestamp")).

Definition strict_stored_timestamp (table record_ref field value : string)
    : result UtcTimestamp StoreError :=
  let? timestamp := ok_or (parse_from_rfc3339 value) (CorruptOwnerStateValue table record_ref field) in
  if representable timestamp then Ok timestamp else Err (CorruptOwnerStateValue table record_ref field).

(** ** Sessions, turns and tool invocations *)

Definition project_agent_session_id (connection_internal_id project_integration_revision
    native_session_id : string) : option string :=
  if str_is_empty connection_internal_id || str_contains_byte Ascii.zero connection_internal_id
     || negb (is_canonical_sha256_digest project_integration_revision)
     || negb (is_native_id native_session_id)
  then None
  else Some ("agent_session_" +:+ lowercase_hex_bytes (sha256
         ("volicord.project-agent-session" +:+ String Ascii.zero
            (connection_internal_id +:+ String Ascii.zero
               (project_integration_revision +:+ String Ascii.zero native_session_id))))).

Definition validate_decoded_host_session (session_id : string) (session : HostSessionRow)
    : result HostSessionRow StoreError :=
  let corrupt := CorruptOwnerStateValue "host_sessions" session_id in
  let? _ := map_err (λ _, corrupt "project_id") (guard_identifier "project_id" project_id) in
  let? _ := map_err (λ _, corrupt "session_id") (guard_identifier "session_id" session_id) in
  let? _ := map_err (λ _, corrupt "connection_internal_id")
              (guard_identifier "connection_internal_id" (hs_connection_internal_id session)) in
  let? _ := ensure (negb (is_canonical_sha256_digest (hs_project_integration_revision session)))
              (corrupt "project_integration_revision") in
  let? _ := ensure (negb (is_native_id (hs_host_session_id session))) (corrupt "host_session_id") in
  let? expected := ok_or (project_agent_session_id (hs_connection_internal_id session)
                            (hs_project_integration_revision session) (hs_host_session_id session))
                     (corrupt "session_id") in
  let? _ := ensure (expected <>? session_id) (corrupt "session_id") in
  let? first := strict_stored_timestamp "host_sessions" session_id "first_observed_at"
                  (hs_first_observed_at session) in
  let? last := strict_stored_timestamp "host_sessions" session_id "last_observed_at"
                 (hs_last_observed_at session) in
  if ts_lt last first then Err (corrupt "last_observed_at") else Ok session.

Definition host_session_from_conn (t : HostTables) (session_id : string)
    : result (option HostSessionRow) StoreError :=
  match hb_sessions t !! session_id with
  | None => Ok None
  | Some session =>
      let? session := validate_decoded_host_session session_id session in Ok (Some session)
  end.

Definition earlier_timestamp (entity id existing candidate : string) : result string StoreError :=
  let? existing_value := strict_stored_timestamp entity id "first_observed_at" existing in
  let? candidate_value := ok_or (parse_from_rfc3339 candidate) (StorePanic "validated observation") in
  Ok (if ts_lt candidate_value existing_value then candidate else existing).

Definition later_timestamp (entity id existing candidate : string) : result string StoreError :=
  let? existing_value := strict_stored_timestamp entity id "last_observed_at" existing in
  let? candidate_value := ok_or (parse_from_rfc3339 candidate) (StorePanic "validated observation") in
  Ok (if ts_ge candidate_value existing_value then candidate else existing).

Definition write_session (t : HostTables) (session_id : string) (row : HostSessionRow)
    : result HostTables StoreError :=
  let? _ := ensure (negb (is_canonical_sha256_digest (hs_project_integration_revision row))
                    || negb (sql_has_text (hs_host_session_id row))
                    || negb (text_ordered (hs_first_observed_at row) (hs_last_observed_at row)))
              (ConstraintViolation "host_sessions") in
  Ok (set_sessions t (<[session_id := row]> (hb_sessions t))).

Definition establish_session (t : HostTables) (session_id project_integration_revision
    connection_internal_id host_session_id observed_at : string) : result HostTables StoreError :=
  let? existing := host_session_from_conn t session_id in
  match existing with
  | Some existing =>
      if (hs_connection_internal_id existing <>? connection_internal_id)
         || (hs_project_integration_revision existing <>? project_integration_revision)
         || (hs_host_session_id existing <>? host_session_id)
      then Err (Conflict "host_session" session_id)
      else
        let? first := earlier_timestamp "host_sessions" session_id (hs_first_observed_at existing)
                        observed_at in
        let? last := later_timestamp "host_sessions" session_id (hs_last_observed_at existing)
                       observed_at in
        write_session t session_id
          (MkHostSession (hs_connection_internal_id existing) (hs_project_integration_revision existing)
             (hs_host_session_id existing) first last)
  | None =>
      write_session t session_id
        (MkHostSession connection_internal_id project_integration_revision host_session_id
           observed_at observed_at)
  end.

Definition session_owned_by (t : HostTables) (session_id connection_internal_id : string) : bool :=
  is_some_and (hb_sessions t !! session_id) (λ s, hs_connection_internal_id s =? connection_internal_id).

Definition turn_owned_by (t : HostTables) (session_id connection_internal_id host_turn_id : string) : bool :=
  is_some_and (hb_turns t !! (session_id, host_turn_id))
    (λ u, ht_connection_internal_id u =? connection_internal_id).

(** The row a foreign key to [host_tool_invocations] names. *)
Definition tool_owned_by (t : HostTables) (session_id connection_internal_id host_turn_id
    host_tool_use_id host_tool_name : string) : bool :=
  is_some_and (hb_tools t !! (session_id, host_tool_use_id))
    (λ i, (hi_connection_internal_id i =? connection_internal_id)
          && (hi_host_turn_id i =? host_turn_id) && (hi_host_tool_name i =? host_tool_name)).

Definition write_turn (t : HostTables) (session_id host_turn_id : string) (row : HostTurnRow)
    : result HostTables StoreError :=
  let? _ := ensure (negb (sql_has_text host_turn_id)
                    || negb (text_ordered (ht_first_observed_at row) (ht_last_observed_at row))
                    || negb (session_owned_by t session_id (ht_connection_internal_id row)))
              (ConstraintViolation "host_turns") in
  Ok (set_turns t (<[(session_id, host_turn_id) := row]> (hb_turns t))).

Definition establish_turn (t : HostTables) (session_id connection_internal_id host_turn_id
    observed_at : string) : result HostTables StoreError :=
  match hb_turns t !! (session_id, host_turn_id) with
  | Some existing =>
      if ht_connection_internal_id existing <>? connection_internal_id
      then Err (Conflict "host_turn" host_turn_id)
      else
        let? first := earlier_timestamp "host_turns" host_turn_id (ht_first_observed_at existing)
                        observed_at in
        let? last := later_timestamp "host_turns" host_turn_id (ht_last_observed_at existing)
                       observed_at in
        write_turn t session_id host_turn_id
          (MkHostTurn (ht_connection_internal_id existing) first last)
  | None =>
      write_turn t session_id host_turn_id (MkHostTurn connection_internal_id observed_at observed_at)
  end.

Definition write_tool (t : HostTables) (session_id host_tool_use_id : string) (row : HostToolRow)
    : result HostTables StoreError :=
  let? _ := ensure (negb (sql_has_text host_tool_use_id) || negb (sql_has_text (hi_host_tool_name row))
                    || negb (text_ordered (hi_first_observed_at row) (hi_last_observed_at row))
                    || negb (turn_owned_by t session_id (hi_connection_internal_id row)
                               (hi_host_turn_id row)))
              (ConstraintViolation "host_tool_invocations") in
  Ok (set_tools t (<[(session_id, host_tool_use_id) := row]> (hb_tools t))).

Definition establish_tool (t : HostTables) (session_id connection_internal_id : string)
    (tool : CodexHookToolCorrelation) (observed_at : string) : result HostTables StoreError :=
  match hb_tools t !! (session_id, ctc_tool_use_id tool) with
  | Some existing =>
      if (hi_host_turn_id existing <>? ctc_turn_id tool)
         || (hi_host_tool_name existing <>? ctc_tool_name tool)
      then Err (Conflict "host_tool_invocation" (ctc_tool_use_id tool))
      else
        let? last := later_timestamp "host_tool_invocations" (ctc_tool_use_id tool)
                       (hi_last_observed_at existing) observed_at in
        write_tool t session_id (ctc_tool_use_id tool)
          (MkHostTool (hi_connection_internal_id existing) (hi_host_turn_id existing)
             (hi_host_tool_name existing) (hi_first_observed_at existing) last)
  | None =>
      write_tool t session_id (ctc_tool_use_id tool)
        (MkHostTool connection_internal_id (ctc_turn_id tool) (ctc_tool_name tool) observed_at observed_at)
  end.

Definition establish_host_correlation (t : HostTables) (session_id project_integration_revision
    connection_internal_id : string) (correlation : HostNativeCorrelation) (observed_at : string)
    : result HostTables StoreError :=
  let? t := establish_session t session_id project_integration_revision connection_internal_id
              (correlation_session_id correlation) observed_at in
  let? t := establish_turn t session_id connection_internal_id (correlation_turn_id correlation)
              observed_at in
  match correlation with
  | CodexHookTool tool => establish_tool t session_id connection_internal_id tool observed_at
  | _ => Ok t
  end.

(** ** Hook events *)

Definition validate_guard_event_insert (input : GuardEventInsert) : result unit StoreError :=
  let? _ := guard_identifier "guard_event_id" (gi_guard_event_id input) in
  let? _ := guard_identifier "connection_internal_id" (gi_connection_internal_id input) in
  let? _ := guard_identifier "guard_installation_id" (gi_guard_installation_id input) in
  let? _ := ensure (negb (is_canonical_sha256_digest (gi_policy_hash input)))
              (InvalidInput "guard_events.policy_hash must be canonical") in
  let? _ := ensure (negb (is_canonical_sha256_digest (gi_integration_revision input)))
              (InvalidInput "guard_events.integration_revision must be canonical") in
  let? _ := guard_identifier "event_kind" (gi_event_kind input) in
  let? _ := ensure (negb (contains (gi_event_kind input) ["pre_tool"; "post_tool"; "prompt_capture"]))
              (InvalidInput "event_kind must be pre_tool, post_tool, or prompt_capture") in
  let? _ := ensure (negb (contains (gi_contract_status input) ["compatible"; "malformed"; "incompatible"]))
              (InvalidInput "contract_status must be compatible, malformed, or incompatible") in
  let correlation_matches_phase :=
    match gi_correlation input with
    | Some (CodexHookPrompt _) => gi_event_kind input =? "prompt_capture"
    | Some (CodexHookTool _) => contains (gi_event_kind input) ["pre_tool"; "post_tool"]
    | _ => false
    end in
  let? _ := ensure (is_some (gi_correlation input) && negb correlation_matches_phase)
              (InvalidInput "Guard event phase and host correlation kind do not match") in
  let? _ := ensure ((gi_contract_status input =? "compatible") && negb correlation_matches_phase)
              (InvalidInput "compatible Guard event requires phase-specific hook correlation") in
  let? _ := ensure (negb (contains (gi_decision input) ["allow"; "deny"; "warn"; "inject_context"]))
              (InvalidInput "decision must be allow, deny, warn, or inject_context") in
  let? _ := validate_json_object "guard_events.subject_json" (gi_subject_json input) in
  let? _ := validate_json_object "guard_events.result_json" (gi_result_json input) in
  let? _ := validate_timestamp_text "occurred_at" (gi_occurred_at input) in
  validate_json_object "guard_events.metadata_json" (gi_metadata_json input).

Record GuardCorrelationFields := MkCorrelationFields {
  gf_session_id : string;
  gf_project_integration_revision : string;
  gf_host_turn_id : string;
  gf_host_tool_use_id : option string;
  gf_host_tool_name : option string;
}.

Definition guard_correlation_fields (connection_internal_id : string)
    (guard_installation_id : option string) (correlation : HostNativeCorrelation)
    : result GuardCorrelationFields StoreError :=
  let? '(turn, tool_use, tool_name) :=
    match correlation with
    | CodexHookPrompt value => Ok (cpc_turn_id value, None, None)
    | CodexHookTool value =>
        Ok (ctc_turn_id value, Some (ctc_tool_use_id value), Some (ctc_tool_name value))
    | CodexMcp _ => Err (InvalidInput "Guard records require Codex hook correlation")
    end in
  let? '(session_id, revision) :=
    gr_session_coordinates project_id connection_internal_id guard_installation_id correlation in
  Ok (MkCorrelationFields session_id revision turn tool_use tool_name).

(** [validate_guard_ownership], with the tool correlation it requires. *)
Definition validate_guard_ownership (input : GuardEventInsert)
    : result (GuardCorrelationFields * CodexHookToolCorrelation) StoreError :=
  let? _ := validate_guard_event_insert input in
  let? installation := gr_guard_installation (gi_guard_installation_id input) in
  let? installation := ok_or installation (NotFound "guard_installation" (gi_guard_installation_id input)) in
  let? manifest := gn_manifest installation in
  if (gn_connection_internal_id installation <>? gi_connection_internal_id input)
     || (gn_project_id installation <>? project_id)
     || (gm_policy_hash manifest <>? gi_policy_hash input)
     || (gm_integration_revision manifest <>? gi_integration_revision input)
  then Err (Conflict "guard_event" (gi_guard_event_id input))
  else
    match gi_correlation input with
    | None => Err (InvalidInput "repository observation Guard events require exact correlation")
    | Some (CodexHookTool tool) =>
        let? fields := guard_correlation_fields (gi_connection_internal_id input)
                         (Some (gi_guard_installation_id input)) (CodexHookTool tool) in
        Ok (fields, tool)
    | Some _ => Err (InvalidInput "repository observations require Codex hook tool correlation")
    end.

Definition open_guard_project (connection_internal_id : string) : result unit StoreError :=
  let? _ := guard_identifier "project_id" project_id in
  let? _ := guard_identifier "connection_internal_id" connection_internal_id in
  let? allowed := gr_connection_project_allowed connection_internal_id project_id in
  if negb allowed
  then Err (NotFound "connection_project" (connection_internal_id +:+ "/" +:+ project_id))
  else
    let? exists_ := gr_project_exists project_id in
    if exists_ then Ok tt else Err (NotFound "project" project_id).

(** The row the statement of [insert_guard_event_in_transaction] writes. *)
Definition guard_event_row (fields : GuardCorrelationFields) (input : GuardEventInsert) : GuardEventRow :=
  MkGuardEventRow (Some (gf_session_id fields)) (gi_connection_internal_id input)
    (Some "codex_hook_tool") (Some (gf_host_turn_id fields)) (gf_host_tool_use_id fields)
    (gf_host_tool_name fields) (gi_guard_installation_id input) (gi_policy_hash input)
    (gi_integration_revision input) (gi_event_kind input) (gi_contract_status input)
    (gi_decision input) (gi_subject_json input) (gi_result_json input) (gi_occurred_at input)
    (gi_metadata_json input).

Definition insert_guard_event_in_transaction (t : HostTables) (fields : GuardCorrelationFields)
    (input : GuardEventInsert) : result HostTables StoreError :=
  let? _ := ensure (is_some (hb_events t !! gi_guard_event_id input))
              (ConstraintViolation "guard_events.guard_event_id") in
  let? _ := ensure (negb (is_canonical_sha256_digest (gi_policy_hash input))
                    || negb (is_canonical_sha256_digest (gi_integration_revision input))
                    || negb (contains (gi_contract_status input) ["compatible"; "malformed"; "incompatible"])
                    || negb (contains (gi_decision input) ["allow"; "deny"; "warn"; "inject_context"])
                    || negb (contains (gi_event_kind input) ["pre_tool"; "post_tool"])
                    || is_none (gf_host_tool_use_id fields) || is_none (gf_host_tool_name fields))
              (ConstraintViolation "guard_events") in
  let? _ := ensure (negb (turn_owned_by t (gf_session_id fields) (gi_connection_internal_id input)
                            (gf_host_turn_id fields))
                    || negb (tool_owned_by t (gf_session_id fields) (gi_connection_internal_id input)
                               (gf_host_turn_id fields) (default "" (gf_host_tool_use_id fields))
                               (default "" (gf_host_tool_name fields))))
              (ConstraintViolation "guard_events.foreign_key") in
  Ok (set_events t (<[gi_guard_event_id input := guard_event_row fields input]> (hb_events t))).

(** The session a [LEFT JOIN] on the session and its connection finds. *)
Definition joined_host_session_id (t : HostTables) (session_id : option string)
    (connection_internal_id : string) : option string :=
  session ← session_id ≫= λ id, hb_sessions t !! id;
  bool_then (hs_connection_internal_id session =? connection_internal_id) (hs_host_session_id session).

Definition guard_event_from_row (t : HostTables) (guard_event_id : string) (row : GuardEventRow)
    : result GuardEventRecord StoreError :=
  let? correlation :=
    decode_hook_correlation (gw_correlation_kind row)
      (joined_host_session_id t (gw_session_id row) (gw_connection_internal_id row))
      (gw_host_turn_id row) (gw_host_tool_use_id row) (gw_host_tool_name row) in
  Ok (MkGuardEventRecord project_id guard_event_id (gw_session_id row) correlation
        (gw_connection_internal_id row) (gw_guard_installation_id row) (gw_policy_hash row)
        (gw_integration_revision row) (gw_event_kind row) (gw_contract_status row) (gw_decision row)
        (gw_subject_json row) (gw_result_json row) (gw_occurred_at row) (gw_metadata_json row)).

Definition guard_event_from_conn (t : HostTables) (guard_event_id : string)
    : result (option GuardEventRecord) StoreError :=
  match hb_events t !! guard_event_id with
  | None => Ok None
  | Some row => let? event := guard_event_from_row t guard_event_id row in Ok (Some event)
  end.

Definition guard_event_by_conn (t : HostTables) (guard_event_id : string)
    : result GuardEventRecord StoreError :=
  let? event := guard_event_from_conn t guard_event_id in
  ok_or event (NotFound "guard_event" guard_event_id).

Definition guard_event_matches_insert (stored : GuardEventRecord) (fields : GuardCorrelationFields)
    (input : GuardEventInsert) (expected_result_json : string) : bool :=
  (gv_project_id stored =? project_id)
  && (gv_guard_event_id stored =? gi_guard_event_id input)
  && (gv_session_id stored =? Some (gf_session_id fields))
  && (gv_correlation stored =? gi_correlation input)
  && (gv_connection_internal_id stored =? gi_connection_internal_id input)
  && (gv_guard_installation_id stored =? gi_guard_installation_id input)
  && (gv_policy_hash stored =? gi_policy_hash input)
  && (gv_integration_revision stored =? gi_integration_revision input)
  && (gv_event_kind stored =? gi_event_kind input)
  && (gv_contract_status stored =? gi_contract_status input)
  && (gv_decision stored =? gi_decision input)
  && (gv_subject_json stored =? gi_subject_json input)
  && (gv_result_json stored =? expected_result_json)
  && (gv_occurred_at stored =? gi_occurred_at input)
  && (gv_metadata_json stored =? gi_metadata_json input).
End guard_store.
