(* ===== verification/RepoObservation.v ===== *)
(** * RepoObservation: the observations of tool invocations

    Models volicord-store/src/guards/repository_observation.rs: the record a hook opens
    before a tool runs, with the expected write, and closes after it with the delta of the
    repository; the attribution of the delta to the expected write and to an unrecorded
    change; replay of both hooks; the closing of observations left open; the strict reads
    with the checks between the rows; and the resolution of an unrecorded change
    (guards.rs, core_pipeline/continuity.rs), with the constraints of schema/project.sql.
    The outcome after the tool is that of guard_command/phase/post_tool.rs.

    Columns that hold the JSON of a typed value hold the value, so the checks that the text
    is canonical hold by construction; the three JSON columns of a hook event, which come
    from the caller, are kept as text.  A write that commits and whose later read fails
    returns the new tables with the error. *)

From Stdlib Require Import Ascii.
From stdpp Require Import gmap strings.
From S2P Require Import Prelude Text ProductPath Values Canonical EventHash Schema Clock TicketStore Capture.
From S2P Require Import TaskStore HostTools HostContract Guard RepoSnapshot GuardStore.

(** ** Closed values *)

Inductive RepositoryObservationState := ObsOpen | ObsComplete | ObsUnavailable.
#[export] Instance RepositoryObservationState_eq_dec : EqDecision RepositoryObservationState.
Proof. solve_decision. Defined.

Definition RepositoryObservationState_as_str (state : RepositoryObservationState) : string :=
  match state with
  | ObsOpen => "open"
  | ObsComplete => "complete"
  | ObsUnavailable => "unavailable"
  end.

Inductive RepositoryObservationUnavailableReason :=
| Observer (reason : ObservationUnavailableReason)
| InvocationDenied
| MissingOpenObservation
| PostToolNotObserved
| ManagedSessionTerminated.
#[export] Instance RepositoryObservationUnavailableReason_eq_dec :
  EqDecision RepositoryObservationUnavailableReason.
Proof. solve_decision. Defined.

Definition RepositoryObservationUnavailableReason_as_str
    (reason : RepositoryObservationUnavailableReason) : string :=
  match reason with
  | Observer reason => ObservationUnavailableReason_as_str reason
  | InvocationDenied => "invocation_denied"
  | MissingOpenObservation => "missing_open_observation"
  | PostToolNotObserved => "post_tool_not_observed"
  | ManagedSessionTerminated => "managed_session_terminated"
  end.

Definition REPOSITORY_OBSERVATION_TERMINALIZATION_LIMIT : nat := 256.

Inductive OpenRepositoryObservationTerminalizationScope :=
| EarlierTurns (current_turn_id : string)
| ManagedSession.

Definition NET_TRANSITION : string := "net_product_repository_transition_during_invocation".

(** ** Results *)

Record RepositoryDeltaSummary := MkDeltaSummary {
  ds_digest : string;
  ds_paths : list ProductRelativePath;
  ds_transition_count : nat;
}.
#[export] Instance RepositoryDeltaSummary_eq_dec : EqDecision RepositoryDeltaSummary.
Proof. solve_decision. Defined.

Record RepositoryExpectedWriteMatchResult := MkMatchResult {
  mr_expected_write_id : string;
  mr_matched_paths : list ProductRelativePath;
}.
#[export] Instance RepositoryExpectedWriteMatchResult_eq_dec :
  EqDecision RepositoryExpectedWriteMatchResult.
Proof. solve_decision. Defined.

Record RepositoryUnrecordedChangeResult := MkUnrecordedResult {
  uc_unrecorded_change_id : string;
  uc_unmatched_delta_digest : string;
  uc_observed_paths : list ProductRelativePath;
}.
#[export] Instance RepositoryUnrecordedChangeResult_eq_dec : EqDecision RepositoryUnrecordedChangeResult.
Proof. solve_decision. Defined.

Record RepositoryObservationResult := MkObservationResult {
  rr_observation_state : RepositoryObservationState;
  rr_repository_observation_id : string;
  rr_delta : option RepositoryDeltaSummary;
  rr_unavailable_reason : option string;
  rr_expected_write_matches : list RepositoryExpectedWriteMatchResult;
  rr_unrecorded_changes : list RepositoryUnrecordedChangeResult;
  rr_transition_semantics : string;
}.
#[export] Instance RepositoryObservationResult_eq_dec : EqDecision RepositoryObservationResult.
Proof. solve_decision. Defined.

(** The result of an observation that ends without a delta. *)
Definition unavailable_result (observation_id : string)
    (reason : RepositoryObservationUnavailableReason) : RepositoryObservationResult :=
  MkObservationResult ObsUnavailable observation_id None
    (Some (RepositoryObservationUnavailableReason_as_str reason)) [] [] NET_TRANSITION.

(** [serde_json::to_value] of the result. *)
Definition paths_value (paths : list ProductRelativePath) : Value :=
  Array ((λ p, Str (path_str p)) <$> paths).
Definition summary_value (s : RepositoryDeltaSummary) : Value :=
  Object [("digest", Str (ds_digest s)); ("paths", paths_value (ds_paths s));
          ("transition_count", Number (decimal_of_nat (ds_transition_count s)))].
Definition match_value (m : RepositoryExpectedWriteMatchResult) : Value :=
  Object [("expected_write_id", Str (mr_expected_write_id m));
          ("matched_paths", paths_value (mr_matched_paths m))].
Definition unrecorded_value (u : RepositoryUnrecordedChangeResult) : Value :=
  Object [("unrecorded_change_id", Str (uc_unrecorded_change_id u));
          ("unmatched_delta_digest", Str (uc_unmatched_delta_digest u));
          ("observed_paths", paths_value (uc_observed_paths u))].
Definition result_value (r : RepositoryObservationResult) : Value :=
  Object [("observation_state", Str (RepositoryObservationState_as_str (rr_observation_state r)));
          ("repository_observation_id", Str (rr_repository_observation_id r));
          ("delta", match rr_delta r with Some s => summary_value s | None => Null end);
          ("unavailable_reason", match rr_unavailable_reason r with Some s => Str s | None => Null end);
          ("expected_write_matches", Array (match_value <$> rr_expected_write_matches r));
          ("unrecorded_changes", Array (unrecorded_value <$> rr_unrecorded_changes r));
          ("transition_semantics", Str (rr_transition_semantics r))].

(** ** Rows *)

Inductive ExpectedWriteStatus := ExpectedPending | ExpectedMatched.
#[export] Instance ExpectedWriteStatus_eq_dec : EqDecision ExpectedWriteStatus.
Proof. solve_decision. Defined.

Record ExpectedWriteRow := MkExpectedRow {
  xw_expected_write_id : string;
  xw_command_kind : string;
  xw_expected_paths : list ProductRelativePath;
  xw_task_id : string;
  xw_change_unit_id : string;
  xw_write_ticket_ids : list string;
  xw_basis_state_version : N;
  xw_status : ExpectedWriteStatus;
  xw_matched_paths : option (list ProductRelativePath);
  xw_created_at : string;
  xw_matched_at : option string;
  xw_metadata : Value;
}.

(** The resolution is the JSON, the time and the actor of the three nullable columns. *)
Record UnrecordedChangeRow := MkUnrecordedRow {
  ur_repository_observation_id : string;
  ur_task_id : option string;
  ur_summary : string;
  ur_observed_paths : list ProductRelativePath;
  ur_unmatched_delta_digest : string;
  ur_detection : Value;
  ur_detected_at : string;
  ur_resolution : option (Value * string * string);
}.

(** The [status] column, which the schema ties to the resolution columns. *)
Definition unresolved (row : UnrecordedChangeRow) : bool := is_none (ur_resolution row).

Record ObservationRow := MkObservationRow {
  or_session_id : string;
  or_connection_internal_id : string;
  or_host_turn_id : string;
  or_host_tool_use_id : string;
  or_host_tool_name : string;
  or_guard_installation_id : string;
  or_observer_contract_digest : string;
  or_pre_tool_guard_event_id : option string;
  or_post_tool_guard_event_id : option string;
  or_state : RepositoryObservationState;
  or_pre_snapshot : option RepositoryObservationCheckpoint;
  or_pre_snapshot_digest : option string;
  or_post_snapshot : option RepositoryObservationCheckpoint;
  or_post_snapshot_digest : option string;
  or_delta : option RepositoryDelta;
  or_delta_digest : option string;
  or_unavailable_reason : option RepositoryObservationUnavailableReason;
  or_started_at : string;
  or_completed_at : option string;
  or_terminal_result : option RepositoryObservationResult;
  or_metadata : Value;
}.

(** The tables of one project; expected writes are keyed by their observation, which the
    schema makes unique, and the tasks are the ids the foreign keys name. *)
Record ObservationTables := MkObservationTables {
  ob_host : HostTables;
  ob_observations : gmap string ObservationRow;
  ob_expected_writes : gmap string ExpectedWriteRow;
  ob_unrecorded_changes : gmap string UnrecordedChangeRow;
  ob_tasks : list string;
}.

Definition set_host (t : ObservationTables) host : ObservationTables :=
  MkObservationTables host (ob_observations t) (ob_expected_writes t) (ob_unrecorded_changes t) (ob_tasks t).
Definition set_observations (t : ObservationTables) rows : ObservationTables :=
  MkObservationTables (ob_host t) rows (ob_expected_writes t) (ob_unrecorded_changes t) (ob_tasks t).
Definition set_expected_writes (t : ObservationTables) rows : ObservationTables :=
  MkObservationTables (ob_host t) (ob_observations t) rows (ob_unrecorded_changes t) (ob_tasks t).
Definition set_unrecorded_changes (t : ObservationTables) rows : ObservationTables :=
  MkObservationTables (ob_host t) (ob_observations t) (ob_expected_writes t) rows (ob_tasks t).

(** ** Inputs and records *)

Record PreToolRepositoryObservationInsert := MkPreInsert {
  pi_guard_event : GuardEventInsert;
  pi_repository_observation_id : string;
  pi_observer_contract_digest : string;
  pi_checkpoint : option RepositoryObservationCheckpoint;
  pi_unavailable_reason : option RepositoryObservationUnavailableReason;
  (** The expected write with its metadata. *)
  pi_expected_write : option (RepositoryExpectedWriteInsert * Value);
  pi_metadata : Value;
}.

Inductive PostToolRepositoryObservationOutcome :=
| PostComplete (post_snapshot : RepositoryObservationCheckpoint) (delta : RepositoryDelta)
| PostUnavailable (reason : RepositoryObservationUnavailableReason).

Record PostToolRepositoryObservationInsert := MkPostInsert {
  po_guard_event : GuardEventInsert;
  po_repository_observation_id : string;
  po_observer_contract_digest : string;
  po_outcome : PostToolRepositoryObservationOutcome;
  po_task_id : option string;
  po_metadata : Value;
}.

Record TerminalizeOpenRepositoryObservations := MkTerminalize {
  to_connection_internal_id : string;
  to_session_id : string;
  to_scope : OpenRepositoryObservationTerminalizationScope;
  to_reason : RepositoryObservationUnavailableReason;
  to_completed_at : UtcTimestamp;
}.

Record RepositoryObservationRecord := MkObservationRecord {
  rc_repository_observation_id : string;
  rc_session_id : string;
  rc_correlation : HostNativeCorrelation;
  rc_connection_internal_id : string;
  rc_guard_installation_id : string;
  rc_observer_contract_digest : string;
  rc_pre_tool_guard_event_id : option string;
  rc_post_tool_guard_event_id : option string;
  rc_state : RepositoryObservationState;
  rc_pre_snapshot : option RepositoryObservationCheckpoint;
  rc_post_snapshot : option RepositoryObservationCheckpoint;
  rc_delta : option RepositoryDelta;
  rc_unavailable_reason : option RepositoryObservationUnavailableReason;
  rc_started_at : UtcTimestamp;
  rc_completed_at : option UtcTimestamp;
  rc_terminal_result : option RepositoryObservationResult;
  rc_metadata : Value;
}.

Record ExactExpectedWrite := MkExactExpected {
  xe_expected_write_id : string;
  xe_expected_paths : list ProductRelativePath;
  xe_task_id : string;
  xe_status : ExpectedWriteStatus;
  xe_matched_paths : option (list ProductRelativePath);
}.

Record PreToolRepositoryObservationRecord := MkPreRecord {
  pr_guard_event : GuardEventRecord;
  pr_observation : RepositoryObservationRecord;
  pr_replayed : bool;
}.

Record PostToolRepositoryObservationRecord := MkPostRecord {
  pp_guard_event : GuardEventRecord;
  pp_observation : RepositoryObservationRecord;
  pp_result : RepositoryObservationResult;
  pp_replayed : bool;
}.

Definition transpose {A E} (o : option (result A E)) : result (option A) E :=
  match o with
  | None => Ok None
  | Some r => let? x := r in Ok (Some x)
  end.

(** [Map::insert]. *)
Definition obj_insert (key : string) (value : Value) (object : JsonObject) : JsonObject :=
  List.filter (λ kv, kv.1 <>? key) object ++ [(key, value)].

(** ** Constraints of the schema *)

Definition digest_column_ok (digest : option string) : bool :=
  match digest with None => true | Some digest => is_canonical_sha256_digest digest end.

Definition observation_shape_sql (row : ObservationRow) : bool :=
  match or_state row with
  | ObsOpen =>
      is_some (or_pre_tool_guard_event_id row) && is_some (or_pre_snapshot row)
      && is_some (or_pre_snapshot_digest row) && is_none (or_post_tool_guard_event_id row)
      && is_none (or_post_snapshot row) && is_none (or_post_snapshot_digest row)
      && is_none (or_delta row) && is_none (or_delta_digest row)
      && is_none (or_unavailable_reason row) && is_none (or_completed_at row)
      && is_none (or_terminal_result row)
  | ObsComplete =>
      is_some (or_pre_tool_guard_event_id row) && is_some (or_pre_snapshot row)
      && is_some (or_pre_snapshot_digest row) && is_some (or_post_tool_guard_event_id row)
      && is_some (or_post_snapshot row) && is_some (or_post_snapshot_digest row)
      && is_some (or_delta row) && is_some (or_delta_digest row)
      && is_none (or_unavailable_reason row) && is_some (or_completed_at row)
      && is_some (or_terminal_result row)
  | ObsUnavailable =>
      (is_some (or_pre_snapshot row) =? is_some (or_pre_snapshot_digest row))
      && (is_none (or_pre_snapshot row) || is_some (or_pre_tool_guard_event_id row))
      && is_none (or_post_snapshot row) && is_none (or_post_snapshot_digest row)
      && is_none (or_delta row) && is_none (or_delta_digest row)
      && is_some (or_unavailable_reason row) && is_some (or_completed_at row)
      && is_some (or_terminal_result row)
  end.

(** The hook event a foreign key of an observation names. *)
Definition event_owned (host : HostTables) (row : ObservationRow) (event_id : option string) : bool :=
  is_none_or event_id (λ id,
    is_some_and (hb_events host !! id) (λ event,
      (gw_session_id event =? Some (or_session_id row))
      && (gw_connection_internal_id event =? or_connection_internal_id row)
      && (gw_host_turn_id event =? Some (or_host_turn_id row))
      && (gw_host_tool_use_id event =? Some (or_host_tool_use_id row))
      && (gw_host_tool_name event =? Some (or_host_tool_name row)))).

Definition same_invocation (row row' : ObservationRow) : bool :=
  (or_session_id row =? or_session_id row')
  && (or_connection_internal_id row =? or_connection_internal_id row')
  && (or_host_turn_id row =? or_host_turn_id row')
  && (or_host_tool_use_id row =? or_host_tool_use_id row')
  && (or_host_tool_name row =? or_host_tool_name row').

(** A row written to [repository_observations], with the checks of the table. *)
Definition write_observation (t : ObservationTables) (id : string) (row : ObservationRow)
    : result ObservationTables StoreError :=
  let host := ob_host t in
  let? _ := ensure (negb (is_canonical_sha256_digest (or_observer_contract_digest row))
                    || negb (digest_column_ok (or_pre_snapshot_digest row))
                    || negb (digest_column_ok (or_post_snapshot_digest row))
                    || negb (digest_column_ok (or_delta_digest row))
                    || negb (observation_shape_sql row))
              (ConstraintViolation "repository_observations") in
  let? _ := ensure (existsb (λ kv, (kv.1 <>? id) && same_invocation row kv.2)
                      (map_to_list (ob_observations t)))
              (ConstraintViolation "repository_observations.invocation") in
  let? _ := ensure (negb (tool_owned_by host (or_session_id row) (or_connection_internal_id row)
                            (or_host_turn_id row) (or_host_tool_use_id row) (or_host_tool_name row))
                    || negb (event_owned host row (or_pre_tool_guard_event_id row))
                    || negb (event_owned host row (or_post_tool_guard_event_id row)))
              (ConstraintViolation "repository_observations.foreign_key") in
  Ok (set_observations t (<[id := row]> (ob_observations t))).

Definition insert_observation (t : ObservationTables) (id : string) (row : ObservationRow)
    : result ObservationTables StoreError :=
  let? _ := ensure (is_some (ob_observations t !! id))
              (ConstraintViolation "repository_observations.repository_observation_id") in
  write_observation t id row.

Definition insert_expected_row (t : ObservationTables) (observation_id : string) (row : ExpectedWriteRow)
    : result ObservationTables StoreError :=
  let? _ := ensure (existsb (λ kv, xw_expected_write_id kv.2 =? xw_expected_write_id row)
                      (map_to_list (ob_expected_writes t))
                    || is_some (ob_expected_writes t !! observation_id))
              (ConstraintViolation "expected_writes.unique") in
  let? _ := ensure (negb (sql_has_text (xw_command_kind row)) || list_is_empty (xw_expected_paths row)
                    || list_is_empty (xw_write_ticket_ids row)
                    || negb (fits_i64 (xw_basis_state_version row)))
              (ConstraintViolation "expected_writes") in
  let? _ := ensure (is_none (ob_observations t !! observation_id)
                    || negb (contains (xw_task_id row) (ob_tasks t)))
              (ConstraintViolation "expected_writes.foreign_key") in
  Ok (set_expected_writes t (<[observation_id := row]> (ob_expected_writes t))).

Definition insert_unrecorded_row (t : ObservationTables) (id : string) (row : UnrecordedChangeRow)
    : result ObservationTables StoreError :=
  let? _ := ensure (is_some (ob_unrecorded_changes t !! id)
                    || existsb (λ kv,
                         (ur_repository_observation_id kv.2 =? ur_repository_observation_id row)
                         && (ur_unmatched_delta_digest kv.2 =? ur_unmatched_delta_digest row))
                         (map_to_list (ob_unrecorded_changes t)))
              (ConstraintViolation "unrecorded_changes.unique") in
  let? _ := ensure (negb (sql_has_text (ur_summary row))
                    || negb (is_canonical_sha256_digest (ur_unmatched_delta_digest row))
                    || list_is_empty (ur_observed_paths row))
              (ConstraintViolation "unrecorded_changes") in
  let? _ := ensure (is_none (ob_observations t !! ur_repository_observation_id row)
                    || is_some_and (ur_task_id row) (λ task, negb (contains task (ob_tasks t))))
              (ConstraintViolation "unrecorded_changes.foreign_key") in
  Ok (set_unrecorded_changes t (<[id := row]> (ob_unrecorded_changes t))).

Section observations.
Context `{HC : Chrono} `{HJ : GuardJson} `{HR : GuardRegistry}.
Variable sha256 : string → list ascii.
Variable project_id : string.

Implicit Types (t : ObservationTables) (id : string).

Definition corrupt_value (id field : string) : StoreError :=
  CorruptOwnerStateValue "repository_observations" id field.
Definition corrupt_json (id field : string) : StoreError :=
  CorruptOwnerStateJson "repository_observations" id field.

(** ** Identities *)

Definition framed (fields : list string) : string :=
  foldr (λ field rest, enc_string field +:+ rest) "" fields.

Definition repository_observation_id (connection_internal_id session_id : string)
    (correlation : HostNativeCorrelation) : result string StoreError :=
  let? _ := guard_identifier "project_id" project_id in
  let? _ := guard_identifier "connection_internal_id" connection_internal_id in
  let? _ := guard_identifier "session_id" session_id in
  match correlation with
  | CodexHookTool tool =>
      Ok ("repository_observation_" +:+ lowercase_hex (sha256
            (framed ["volicord.repository-observation"; project_id; connection_internal_id; session_id;
                     ctc_session_id tool; ctc_turn_id tool; ctc_tool_use_id tool; ctc_tool_name tool])))
  | _ => Err (InvalidInput "repository observations require exact Codex hook tool correlation")
  end.

Definition stable_unrecorded_change_id (observation_id unmatched_delta_digest : string) : string :=
  "unrecorded_change_" +:+ lowercase_hex (sha256
    (framed ["volicord.unrecorded-change"; project_id; observation_id; unmatched_delta_digest])).

Definition is_current_observer_contract (value : string) : bool :=
  is_canonical_sha256_digest value && (value =? for_limits sha256 default_limits).

(** ** Validation of inputs *)

Definition validate_expected_write (input : RepositoryExpectedWriteInsert) : result unit StoreError :=
  let? _ := guard_identifier "expected_write_id" (ew_expected_write_id input) in
  let? _ := guard_identifier "task_id" (ew_task_id input) in
  let? _ := guard_identifier "change_unit_id" (ew_change_unit_id input) in
  let? _ := ensure (blank (ew_command_kind input) || list_is_empty (ew_expected_paths input))
              (InvalidInput "expected writes require a command kind and non-empty exact paths") in
  let? _ := ensure (not_ascending (ew_expected_paths input))
              (InvalidInput "expected-write paths must be strictly sorted and unique") in
  let? _ := validate_string_items "expected_writes.write_ticket_ids" (ew_write_ticket_ids input) in
  ensure (list_is_empty (ew_write_ticket_ids input) || not_ascending (ew_write_ticket_ids input))
    (InvalidInput "expected-write ticket IDs must be strictly sorted and unique").

Definition validate_pre_input (input : PreToolRepositoryObservationInsert) : result unit StoreError :=
  let? _ := guard_identifier "project_id" project_id in
  let? _ := guard_identifier "repository_observation_id" (pi_repository_observation_id input) in
  let? _ := ensure ((gi_event_kind (pi_guard_event input) <>? "pre_tool")
                    || (gi_contract_status (pi_guard_event input) <>? "compatible"))
              (InvalidInput "pre-tool repository observation requires a compatible PreToolUse event") in
  let? _ := ensure (negb (is_current_observer_contract (pi_observer_contract_digest input)))
              (InvalidInput "observer contract digest must select the current semantic observer contract") in
  let? _ := match pi_checkpoint input, pi_unavailable_reason input with
            | Some checkpoint, _ =>
                ensure (ck_contract_digest checkpoint <>? pi_observer_contract_digest input)
                  (InvalidInput "pre snapshot observer contract does not match the aggregate")
            | None, Some _ => Ok tt
            | None, None => Err (InvalidInput "open pre-tool observation requires a stable baseline")
            end in
  let? _ := ensure (is_some (pi_unavailable_reason input) && is_some (pi_expected_write input))
              (InvalidInput "terminal unavailable observations cannot carry expected writes") in
  match pi_expected_write input with
  | Some (expected, _) => validate_expected_write expected
  | None => Ok tt
  end.

Definition validate_post_input (input : PostToolRepositoryObservationInsert) : result unit StoreError :=
  let? _ := guard_identifier "project_id" project_id in
  let? _ := guard_identifier "repository_observation_id" (po_repository_observation_id input) in
  let? _ := ensure ((gi_event_kind (po_guard_event input) <>? "post_tool")
                    || (gi_contract_status (po_guard_event input) <>? "compatible"))
              (InvalidInput "post-tool repository observation requires a compatible PostToolUse event") in
  let? _ := ensure (negb (is_current_observer_contract (po_observer_contract_digest input)))
              (InvalidInput "observer contract digest must select the current semantic observer contract") in
  match po_outcome input with
  | PostComplete post_snapshot _ =>
      let? _ := ensure (ck_contract_digest post_snapshot <>? po_observer_contract_digest input)
                  (InvalidInput "post snapshot observer contract does not match the aggregate") in
      let? _ := map_err (λ _, InvalidInput "post snapshot is invalid")
                  (checkpoint_semantic_digest sha256 post_snapshot) in
      Ok tt
  | PostUnavailable _ => Ok tt
  end.

Definition validate_terminalization_input (input : TerminalizeOpenRepositoryObservations)
    : result unit StoreError :=
  let? _ := guard_identifier "project_id" project_id in
  let? _ := guard_identifier "connection_internal_id" (to_connection_internal_id input) in
  let? _ := guard_identifier "session_id" (to_session_id input) in
  let? _ := ensure (negb (representable (to_completed_at input)))
              (InvalidInput "repository-observation completion time must be canonical RFC 3339") in
  match to_scope input, to_reason input with
  | EarlierTurns _, PostToolNotObserved | ManagedSession, ManagedSessionTerminated => Ok tt
  | _, _ => Err (InvalidInput
      "repository-observation terminal reason does not match its authority boundary")
  end.

(** ** Reads *)

Definition decode_expected_write (row : ExpectedWriteRow) : result ExactExpectedWrite StoreError :=
  let bad_json := CorruptOwnerStateJson "expected_writes" (xw_expected_write_id row) in
  let bad_value := CorruptOwnerStateValue "expected_writes" (xw_expected_write_id row) in
  let? _ := ensure (blank (xw_expected_write_id row) || blank (xw_command_kind row)
                    || blank (xw_task_id row) || blank (xw_change_unit_id row))
              (bad_value "path_policy") in
  let? _ := ensure (list_is_empty (xw_expected_paths row) || not_ascending (xw_expected_paths row))
              (bad_json "expected_paths_json") in
  let? _ := ensure (list_is_empty (xw_write_ticket_ids row) || existsb blank (xw_write_ticket_ids row)
                    || not_ascending (xw_write_ticket_ids row))
              (bad_json "write_ticket_ids_json") in
  let? _ := ensure (is_some_and (xw_matched_paths row) (λ paths,
                      list_is_empty paths || not_ascending paths
                      || existsb (λ path, negb (contains path (xw_expected_paths row))) paths))
              (bad_json "matched_paths_json") in
  let? created_at := strict_stored_timestamp "expected_writes" (xw_expected_write_id row) "created_at"
                       (xw_created_at row) in
  let? matched_at := transpose
    (strict_stored_timestamp "expected_writes" (xw_expected_write_id row) "matched_at"
     <$> xw_matched_at row) in
  let? _ := ensure (negb match xw_status row with
                         | ExpectedPending => is_none (xw_matched_paths row) && is_none matched_at
                         | ExpectedMatched => is_some (xw_matched_paths row)
                                              && is_some_and matched_at (λ at_, ts_ge at_ created_at)
                         end)
              (bad_value "status") in
  Ok (MkExactExpected (xw_expected_write_id row) (xw_expected_paths row) (xw_task_id row)
        (xw_status row) (xw_matched_paths row)).

Definition expected_write_for_observation t (observation_id : string)
    : result (option ExactExpectedWrite) StoreError :=
  transpose (decode_expected_write <$> ob_expected_writes t !! observation_id).

Definition decode_checkpoint (snapshot : option RepositoryObservationCheckpoint) (digest : option string)
    (observer_contract_digest : string) (error : StoreError)
    : result (option RepositoryObservationCheckpoint) StoreError :=
  match snapshot, digest with
  | None, None => Ok None
  | Some checkpoint, Some digest =>
      if ck_contract_digest checkpoint <>? observer_contract_digest then Err error
      else
        let? semantic_digest := map_err (λ _, error) (checkpoint_semantic_digest sha256 checkpoint) in
        if semantic_digest <>? digest then Err error else Ok (Some checkpoint)
  | _, _ => Err error
  end.

Definition decode_delta (row : ObservationRow) (id : string) : result (option RepositoryDelta) StoreError :=
  match or_delta row, or_delta_digest row with
  | None, None => Ok None
  | Some delta, Some digest =>
      if negb (delta_accepted delta) then Err (corrupt_json id "delta_json")
      else if delta_digest sha256 delta <>? digest then Err (corrupt_value id "delta_digest")
      else Ok (Some delta)
  | _, _ => Err (corrupt_value id "delta_digest")
  end.

(** The [valid_shape] of a decoded row. *)
Definition decoded_shape (row : ObservationRow) : bool :=
  match or_state row with
  | ObsOpen =>
      is_some (or_pre_tool_guard_event_id row) && is_some (or_pre_snapshot row)
      && is_none (or_post_tool_guard_event_id row) && is_none (or_post_snapshot row)
      && is_none (or_delta row) && is_none (or_unavailable_reason row)
      && is_none (or_completed_at row) && is_none (or_terminal_result row)
  | ObsComplete =>
      is_some (or_pre_tool_guard_event_id row) && is_some (or_pre_snapshot row)
      && is_some (or_post_tool_guard_event_id row) && is_some (or_post_snapshot row)
      && is_some (or_delta row) && is_none (or_unavailable_reason row)
      && is_some (or_completed_at row) && is_some (or_terminal_result row)
  | ObsUnavailable =>
      is_none (or_post_snapshot row) && is_none (or_delta row)
      && (is_none (or_pre_snapshot row) || is_some (or_pre_tool_guard_event_id row))
      && is_some (or_unavailable_reason row) && is_some (or_completed_at row)
      && is_some (or_terminal_result row)
  end.

Definition result_delta_valid (summary : option RepositoryDeltaSummary) (delta : option RepositoryDelta)
    : bool :=
  match summary, delta with
  | None, None => true
  | Some summary, Some delta =>
      is_canonical_sha256_digest (ds_digest summary)
      && (ds_digest summary =? delta_digest sha256 delta)
      && (ds_transition_count summary =? length delta)%nat
      && (bts_of_list (ds_paths summary) =? delta_paths delta)
      && (length (ds_paths summary) =? length (delta_paths delta))%nat
      && negb (not_ascending (ds_paths summary))
  | _, _ => false
  end.

Definition result_reason_valid (reason : option string)
    (stored : option RepositoryObservationUnavailableReason) : bool :=
  match reason, stored with
  | None, None => true
  | Some reason, Some stored => reason =? RepositoryObservationUnavailableReason_as_str stored
  | _, _ => false
  end.

Definition paths_among (paths among : list ProductRelativePath) : bool :=
  negb (list_is_empty paths) && forallb (λ path, bts_mem path among) paths
  && (length (bts_of_list paths) =? length paths)%nat && negb (not_ascending paths).

Definition result_paths_valid (result_ : RepositoryObservationResult) (paths : list ProductRelativePath)
    : bool :=
  forallb (λ m, negb (blank (mr_expected_write_id m)) && paths_among (mr_matched_paths m) paths)
    (rr_expected_write_matches result_)
  && forallb (λ u, negb (blank (uc_unrecorded_change_id u))
                   && is_canonical_sha256_digest (uc_unmatched_delta_digest u)
                   && paths_among (uc_observed_paths u) paths)
       (rr_unrecorded_changes result_).

Definition terminal_result_valid (row : ObservationRow) (id : string)
    (result_ : RepositoryObservationResult) : bool :=
  let paths := default [] (delta_paths <$> or_delta row) in
  (rr_observation_state result_ =? or_state row)
  && (rr_repository_observation_id result_ =? id)
  && (rr_transition_semantics result_ =? NET_TRANSITION)
  && result_delta_valid (rr_delta result_) (or_delta row)
  && result_reason_valid (rr_unavailable_reason result_) (or_unavailable_reason row)
  && result_paths_valid result_ paths
  && negb ((or_state row =? ObsUnavailable)
           && (negb (list_is_empty (rr_expected_write_matches result_))
               || negb (list_is_empty (rr_unrecorded_changes result_)))).

Definition decode_repository_observation (host : HostTables) id (row : ObservationRow)
    : result RepositoryObservationRecord StoreError :=
  let contract := or_observer_contract_digest row in
  let? _ := ensure (negb (is_current_observer_contract contract))
              (corrupt_value id "observer_contract_digest") in
  let? pre_snapshot := decode_checkpoint (or_pre_snapshot row) (or_pre_snapshot_digest row) contract
                         (corrupt_value id "pre_snapshot_digest") in
  let? post_snapshot := decode_checkpoint (or_post_snapshot row) (or_post_snapshot_digest row) contract
                          (corrupt_value id "post_snapshot_digest") in
  let? delta := decode_delta row id in
  let? started_at := strict_stored_timestamp "repository_observations" id "started_at"
                       (or_started_at row) in
  let? completed_at := transpose
    (strict_stored_timestamp "repository_observations" id "completed_at" <$> or_completed_at row) in
  let? _ := ensure (is_some_and completed_at (λ at_, ts_lt at_ started_at))
              (corrupt_value id "completed_at") in
  let? _ := ensure (negb (decoded_shape row)) (corrupt_value id "state") in
  let? _ := ensure (is_some_and (or_terminal_result row) (λ result_, negb (terminal_result_valid row id result_)))
              (corrupt_json id "terminal_result_json") in
  let? host_session_id :=
    ok_or (joined_host_session_id host (Some (or_session_id row)) (or_connection_internal_id row))
      (corrupt_value id "host_session_id") in
  let? _ := ensure (negb (is_native_id host_session_id)) (corrupt_value id "host_session_id") in
  let? _ := ensure (negb (is_native_id (or_host_turn_id row))) (corrupt_value id "host_turn_id") in
  let? _ := ensure (negb (is_native_id (or_host_tool_use_id row))) (corrupt_value id "host_tool_use_id") in
  let? _ := ensure (negb (is_bounded_name (or_host_tool_name row))) (corrupt_value id "host_tool_name") in
  let correlation := CodexHookTool (MkToolCorrelation host_session_id (or_host_turn_id row)
                                      (or_host_tool_use_id row) (or_host_tool_name row)) in
  let? derived_id := map_err (λ _, corrupt_value id "repository_observation_id")
                       (repository_observation_id (or_connection_internal_id row) (or_session_id row)
                          correlation) in
  if derived_id <>? id then Err (corrupt_value id "repository_observation_id")
  else Ok (MkObservationRecord id (or_session_id row) correlation (or_connection_internal_id row)
             (or_guard_installation_id row) contract (or_pre_tool_guard_event_id row)
             (or_post_tool_guard_event_id row) (or_state row) pre_snapshot post_snapshot delta
             (or_unavailable_reason row) started_at completed_at (or_terminal_result row)
             (or_metadata row)).

Definition linked_guard_event (host : HostTables) (record : RepositoryObservationRecord)
    (event_id expected_kind field : string) : result GuardEventRecord StoreError :=
  let corrupt := corrupt_value (rc_repository_observation_id record) field in
  let? event := map_err (λ _, corrupt) (guard_event_from_conn project_id host event_id) in
  let? event := ok_or event corrupt in
  if (gv_project_id event <>? project_id)
     || (gv_session_id event <>? Some (rc_session_id record))
     || (gv_connection_internal_id event <>? rc_connection_internal_id record)
     || (gv_guard_installation_id event <>? rc_guard_installation_id record)
     || (gv_correlation event <>? Some (rc_correlation record))
     || (gv_event_kind event <>? expected_kind)
     || (gv_contract_status event <>? "compatible")
     || is_none (canonical_json_object (gv_subject_json event))
     || is_none (canonical_json_object (gv_result_json event))
     || is_none (canonical_json_object (gv_metadata_json event))
     || negb (is_ok (strict_stored_timestamp "guard_events" event_id "occurred_at" (gv_occurred_at event)))
  then Err corrupt else Ok event.

(** The rows of one observation in the order of their id. *)
Definition unrecorded_rows t (observation_id : string) : list (string * UnrecordedChangeRow) :=
  sort_by_key fst (List.filter (λ kv, ur_repository_observation_id kv.2 =? observation_id)
                     (map_to_list (ob_unrecorded_changes t))).

Definition linked_unrecorded_row (id : string) (delta : RepositoryDelta)
    (kv : string * UnrecordedChangeRow) : result RepositoryUnrecordedChangeResult StoreError :=
  let paths := ur_observed_paths kv.2 in
  let digest := ur_unmatched_delta_digest kv.2 in
  let selected := bts_of_list paths in
  if list_is_empty paths || negb (length selected =? length paths)%nat || (selected <>? paths)
     || negb (bts_subset selected (delta_paths delta)) || negb (is_canonical_sha256_digest digest)
     || (delta_digest sha256 (restricted_to delta selected) <>? digest)
     || (stable_unrecorded_change_id id digest <>? kv.1)
  then Err (corrupt_value id "terminal_result_json")
  else Ok (MkUnrecordedResult kv.1 digest paths).

Definition linked_unrecorded_changes t (record : RepositoryObservationRecord)
    : result (list RepositoryUnrecordedChangeResult) StoreError :=
  let id := rc_repository_observation_id record in
  match rc_delta record with
  | None => if list_is_empty (unrecorded_rows t id) then Ok [] else Err (corrupt_value id "state")
  | Some delta => try_map (linked_unrecorded_row id delta) (unrecorded_rows t id)
  end.

(** The matches a complete observation must report for its expected write. *)
Definition expected_matches (expected : option ExactExpectedWrite)
    : list RepositoryExpectedWriteMatchResult :=
  match expected with
  | Some expected =>
      if xe_status expected =? ExpectedMatched
      then [MkMatchResult (xe_expected_write_id expected) (default [] (xe_matched_paths expected))]
      else []
  | None => []
  end.

Definition events_consistent (pre post : GuardEventRecord) : bool :=
  (gv_policy_hash pre =? gv_policy_hash post)
  && (gv_integration_revision pre =? gv_integration_revision post)
  && text_ordered (gv_occurred_at pre) (gv_occurred_at post).

Definition post_result_matches (post : GuardEventRecord) (result_ : RepositoryObservationResult) : bool :=
  match gj_from_str (gv_result_json post) with
  | None => false
  | Some value =>
      (guard_json_string value =? gv_result_json post)
      && match value with
         | Object object =>
             is_some_and (json_get "repository_observation" object)
               (λ stored, sort_json_value stored =? sort_json_value (result_value result_))
         | _ => false
         end
  end.

Definition validate_repository_observation_relationships t (record : RepositoryObservationRecord)
    : result unit StoreError :=
  let id := rc_repository_observation_id record in
  let? pre_event := transpose
    ((λ event, linked_guard_event (ob_host t) record event "pre_tool" "pre_tool_guard_event_id")
     <$> rc_pre_tool_guard_event_id record) in
  let? post_event := transpose
    ((λ event, linked_guard_event (ob_host t) record event "post_tool" "post_tool_guard_event_id")
     <$> rc_post_tool_guard_event_id record) in
  let? _ := match pre_event, post_event with
            | Some pre, Some post =>
                ensure (negb (events_consistent pre post)) (corrupt_value id "post_tool_guard_event_id")
            | _, _ => Ok tt
            end in
  let? _ := match rc_unavailable_reason record with
            | Some MissingOpenObservation =>
                ensure (is_some pre_event || is_none post_event) (corrupt_value id "pre_tool_guard_event_id")
            | Some _ => ensure (is_none pre_event) (corrupt_value id "pre_tool_guard_event_id")
            | None => Ok tt
            end in
  let? expected := expected_write_for_observation t id in
  let? linked := linked_unrecorded_changes t record in
  let? _ := match rc_state record with
            | ObsOpen =>
                ensure (is_some_and expected (λ e, xe_status e <>? ExpectedPending)
                        || negb (list_is_empty linked))
                  (corrupt_value id "state")
            | ObsUnavailable =>
                ensure (is_some_and expected (λ e,
                          (rc_unavailable_reason record =? Some MissingOpenObservation)
                          || (xe_status e <>? ExpectedPending))
                        || negb (list_is_empty linked))
                  (corrupt_value id "state")
            | ObsComplete =>
                let? result_ := ok_or (rc_terminal_result record) (corrupt_value id "terminal_result_json") in
                ensure ((rr_expected_write_matches result_ <>? expected_matches expected)
                        || (rr_unrecorded_changes result_ <>? linked))
                  (corrupt_json id "terminal_result_json")
            end in
  match post_event, rc_terminal_result record with
  | Some post, Some result_ =>
      ensure (negb (post_result_matches post result_)) (corrupt_value id "post_tool_guard_event_id")
  | _, _ => Ok tt
  end.

Definition repository_observation_from_conn t id
    : result (option RepositoryObservationRecord) StoreError :=
  match ob_observations t !! id with
  | None => Ok None
  | Some row =>
      let? record := decode_repository_observation (ob_host t) id row in
      let? _ := validate_repository_observation_relationships t record in
      Ok (Some record)
  end.

(** ** Before the tool runs *)

Definition inserted_expected_row (input : RepositoryExpectedWriteInsert) (metadata : Value) : ExpectedWriteRow :=
  MkExpectedRow (ew_expected_write_id input) (ew_command_kind input) (ew_expected_paths input)
    (ew_task_id input) (ew_change_unit_id input) (ew_write_ticket_ids input)
    (ew_basis_state_version input) ExpectedPending None (to_rfc3339 (ew_created_at input)) None metadata.

Definition insert_expected_write_in_transaction t (observation_id : string)
    (expected : option (RepositoryExpectedWriteInsert * Value)) : result ObservationTables StoreError :=
  match expected with
  | None => Ok t
  | Some (input, metadata) => insert_expected_row t observation_id (inserted_expected_row input metadata)
  end.

(** The columns compared are those the row was inserted with. *)
Definition expected_write_matches_input t (observation_id : string)
    (input : option (RepositoryExpectedWriteInsert * Value)) : bool :=
  match ob_expected_writes t !! observation_id, input with
  | None, None => true
  | Some row, Some (input, metadata) =>
      (xw_expected_write_id row =? ew_expected_write_id input)
      && (xw_command_kind row =? ew_command_kind input)
      && (xw_expected_paths row =? ew_expected_paths input)
      && (xw_task_id row =? ew_task_id input)
      && (xw_change_unit_id row =? ew_change_unit_id input)
      && (xw_write_ticket_ids row =? ew_write_ticket_ids input)
      && (xw_basis_state_version row =? ew_basis_state_version input)%N
      && (xw_created_at row =? to_rfc3339 (ew_created_at input))
      && (xw_metadata row =? metadata)
  | _, _ => false
  end.

Definition pre_tool_replay_matches t (fields : GuardCorrelationFields) (tool : CodexHookToolCorrelation)
    (input : PreToolRepositoryObservationInsert) (stored : RepositoryObservationRecord)
    (stored_event : GuardEventRecord) : bool :=
  let event := pi_guard_event input in
  (rc_repository_observation_id stored =? pi_repository_observation_id input)
  && (rc_session_id stored =? gf_session_id fields)
  && (rc_connection_internal_id stored =? gi_connection_internal_id event)
  && (rc_guard_installation_id stored =? gi_guard_installation_id event)
  && (rc_observer_contract_digest stored =? pi_observer_contract_digest input)
  && (rc_pre_tool_guard_event_id stored =? Some (gi_guard_event_id event))
  && (rc_correlation stored =? CodexHookTool tool)
  && (rc_pre_snapshot stored =? pi_checkpoint input)
  && is_none_or (pi_unavailable_reason input) (λ reason, rc_unavailable_reason stored =? Some reason)
  && guard_event_matches_insert project_id stored_event fields event (gi_result_json event)
  && expected_write_matches_input t (pi_repository_observation_id input) (pi_expected_write input).

(** The row the hook writes. *)
Definition pre_observation_row (fields : GuardCorrelationFields) (tool : CodexHookToolCorrelation)
    (input : PreToolRepositoryObservationInsert) (digest : option string) : ObservationRow :=
  let event := pi_guard_event input in
  let reason := pi_unavailable_reason input in
  MkObservationRow (gf_session_id fields) (gi_connection_internal_id event) (ctc_turn_id tool)
    (ctc_tool_use_id tool) (ctc_tool_name tool) (gi_guard_installation_id event)
    (pi_observer_contract_digest input) (Some (gi_guard_event_id event)) None
    (if is_some reason then ObsUnavailable else ObsOpen) (pi_checkpoint input) digest None None None None
    reason (gi_occurred_at event) ((λ _, gi_occurred_at event) <$> reason)
    (unavailable_result (pi_repository_observation_id input) <$> reason) (pi_metadata input).

(** The transaction: the new tables, or the record of a replay. *)
Definition pre_tool_transaction t (fields : GuardCorrelationFields) (tool : CodexHookToolCorrelation)
    (input : PreToolRepositoryObservationInsert) (digest : option string)
    : result (ObservationTables + PreToolRepositoryObservationRecord) StoreError :=
  let id := pi_repository_observation_id input in
  let event := pi_guard_event input in
  let? existing := repository_observation_from_conn t id in
  match existing with
  | Some existing =>
      let? pre_event_id := ok_or (rc_pre_tool_guard_event_id existing)
                             (Conflict "repository_observation" id) in
      let? stored_event := guard_event_by_conn project_id (ob_host t) pre_event_id in
      if pre_tool_replay_matches t fields tool input existing stored_event
      then Ok (inr (MkPreRecord stored_event existing true))
      else Err (Conflict "repository_observation" id)
  | None =>
      let? host := establish_host_correlation sha256 project_id (ob_host t) (gf_session_id fields)
                     (gf_project_integration_revision fields) (gi_connection_internal_id event)
                     (CodexHookTool tool) (gi_occurred_at event) in
      let? host := insert_guard_event_in_transaction host fields event in
      let? t := insert_observation (set_host t host) id (pre_observation_row fields tool input digest) in
      let? t := insert_expected_write_in_transaction t id (pi_expected_write input) in
      Ok (inl t)
  end.

Definition record_pre_tool_repository_observation t (input : PreToolRepositoryObservationInsert)
    : ObservationTables * result PreToolRepositoryObservationRecord StoreError :=
  let id := pi_repository_observation_id input in
  let outcome :=
    let? _ := validate_pre_input input in
    let? '(fields, tool) := validate_guard_ownership project_id (pi_guard_event input) in
    let? expected_id := repository_observation_id (gi_connection_internal_id (pi_guard_event input))
                          (gf_session_id fields) (CodexHookTool tool) in
    let? _ := ensure (expected_id <>? id)
                (InvalidInput "repository observation identity does not match exact host coordinates") in
    let? digest := transpose ((λ checkpoint, map_err (λ _, InvalidInput "pre-tool snapshot is invalid")
                                 (checkpoint_semantic_digest sha256 checkpoint)) <$> pi_checkpoint input) in
    let? _ := open_guard_project project_id (gi_connection_internal_id (pi_guard_event input)) in
    pre_tool_transaction t fields tool input digest in
  match outcome with
  | Err error => (t, Err error)
  | Ok (inr record) => (t, Ok record)
  | Ok (inl t') =>
      (t', let? event := guard_event_by_conn project_id (ob_host t') (gi_guard_event_id (pi_guard_event input)) in
           let? observation := repository_observation_from_conn t' id in
           let? observation := ok_or observation (NotFound "repository_observation" id) in
           Ok (MkPreRecord event observation false))
  end.

(** ** After the tool ran *)

Record TerminalColumns := MkTerminalColumns {
  tc_result : RepositoryObservationResult;
  tc_post_snapshot : option RepositoryObservationCheckpoint;
  tc_post_snapshot_digest : option string;
  tc_delta : option RepositoryDelta;
  tc_delta_digest : option string;
  tc_reason : option RepositoryObservationUnavailableReason;
}.

(** The expected paths that changed. *)
Definition covered_paths (expected : option ExactExpectedWrite) (delta : RepositoryDelta)
    : list ProductRelativePath :=
  match expected with
  | Some expected =>
      bts_of_list (List.filter (λ path, bts_mem path (delta_paths delta)) (xe_expected_paths expected))
  | None => []
  end.

(** The changed paths that were not expected. *)
Definition unmatched_paths (expected : option ExactExpectedWrite) (delta : RepositoryDelta)
    : list ProductRelativePath :=
  List.filter (λ path, negb (bts_mem path (covered_paths expected delta))) (delta_paths delta).

Definition matched_row (row : ExpectedWriteRow) (matched : list ProductRelativePath) (matched_at : string)
    : ExpectedWriteRow :=
  MkExpectedRow (xw_expected_write_id row) (xw_command_kind row) (xw_expected_paths row) (xw_task_id row)
    (xw_change_unit_id row) (xw_write_ticket_ids row) (xw_basis_state_version row) ExpectedMatched
    (Some matched) (xw_created_at row) (Some matched_at) (xw_metadata row).

Definition reconcile_expected_write t (observation_id : string) (expected : option ExactExpectedWrite)
    (delta : RepositoryDelta) (occurred_at : string)
    : result (ObservationTables * list RepositoryExpectedWriteMatchResult) StoreError :=
  let covered := covered_paths expected delta in
  match expected with
  | Some expected =>
      if list_is_empty covered then Ok (t, [])
      else
        match ob_expected_writes t !! observation_id with
        | Some row =>
            if xw_status row <>? ExpectedPending
            then Err (CorruptOwnerStateValue "expected_writes" (xe_expected_write_id expected) "status")
            else Ok (set_expected_writes t
                       (<[observation_id := matched_row row covered occurred_at]> (ob_expected_writes t)),
                     [MkMatchResult (xe_expected_write_id expected) covered])
        | None =>
            Err (CorruptOwnerStateValue "expected_writes" (xe_expected_write_id expected) "status")
        end
  | None => Ok (t, [])
  end.

Definition unrecorded_change_row (observation_id : string) (task_id : option string)
    (paths : list ProductRelativePath) (digest occurred_at : string) : UnrecordedChangeRow :=
  MkUnrecordedRow observation_id task_id
    ("Observed " +:+ decimal_of_nat (length paths) +:+ " unmatched Product Repository path transition(s)")
    paths digest
    (Object [("repository_observation_id", Str observation_id); ("unmatched_delta_digest", Str digest);
             ("transition_semantics", Str NET_TRANSITION)])
    occurred_at None.

Definition record_unmatched t (observation_id : string) (task_id : option string)
    (paths : list ProductRelativePath) (delta : RepositoryDelta) (occurred_at : string)
    : result (ObservationTables * list RepositoryUnrecordedChangeResult) StoreError :=
  if list_is_empty paths then Ok (t, [])
  else
    let digest := delta_digest sha256 (restricted_to delta paths) in
    let change_id := stable_unrecorded_change_id observation_id digest in
    let? t := insert_unrecorded_row t change_id
                (unrecorded_change_row observation_id task_id paths digest occurred_at) in
    Ok (t, [MkUnrecordedResult change_id digest paths]).

Definition terminal_result_in_transaction t (observation_id : string)
    (outcome : PostToolRepositoryObservationOutcome) (task_id : option string) (occurred_at : string)
    : result (ObservationTables * TerminalColumns) StoreError :=
  match outcome with
  | PostUnavailable reason =>
      Ok (t, MkTerminalColumns (unavailable_result observation_id reason) None None None None (Some reason))
  | PostComplete post_snapshot delta =>
      let? digest := map_err (λ _, InvalidInput "post snapshot is invalid")
                       (checkpoint_semantic_digest sha256 post_snapshot) in
      let? expected := expected_write_for_observation t observation_id in
      let linked_task := match expected with Some e => Some (xe_task_id e) | None => task_id end in
      let? '(t, matches_) := reconcile_expected_write t observation_id expected delta occurred_at in
      let? '(t, changes_) := record_unmatched t observation_id linked_task
                               (unmatched_paths expected delta) delta occurred_at in
      let summary := MkDeltaSummary (delta_digest sha256 delta) (delta_paths delta) (length delta) in
      Ok (t, MkTerminalColumns
               (MkObservationResult ObsComplete observation_id (Some summary) None matches_ changes_
                  NET_TRANSITION)
               (Some post_snapshot) (Some digest) (Some delta) (Some (delta_digest sha256 delta)) None)
  end.

(** The result text of the hook event, with the result of the observation added. *)
Definition result_with_observation (result_json : string) (result_ : RepositoryObservationResult)
    : result string StoreError :=
  match gj_from_str result_json with
  | Some (Object object) =>
      Ok (guard_json_string (Object (obj_insert "repository_observation" (result_value result_) object)))
  | _ => Err (InvalidInput "PostToolUse Guard result must be a JSON object")
  end.

Definition post_tool_replay_matches (fields : GuardCorrelationFields) (tool : CodexHookToolCorrelation)
    (input : PostToolRepositoryObservationInsert) (stored : RepositoryObservationRecord)
    (stored_event : GuardEventRecord) : result bool StoreError :=
  let event := po_guard_event input in
  let outcome_matches :=
    match po_outcome input, rc_state stored with
    | PostComplete post_snapshot delta, ObsComplete =>
        (rc_post_snapshot stored =? Some post_snapshot) && (rc_delta stored =? Some delta)
        && is_none (rc_unavailable_reason stored)
    | PostUnavailable reason, ObsUnavailable => rc_unavailable_reason stored =? Some reason
    | _, _ => false
    end in
  if negb ((rc_session_id stored =? gf_session_id fields)
           && (rc_connection_internal_id stored =? gi_connection_internal_id event)
           && (rc_guard_installation_id stored =? gi_guard_installation_id event)
           && (rc_observer_contract_digest stored =? po_observer_contract_digest input)
           && (rc_post_tool_guard_event_id stored =? Some (gi_guard_event_id event))
           && (rc_correlation stored =? CodexHookTool tool)
           && (rc_metadata stored =? po_metadata input)
           && outcome_matches)
  then Ok false
  else
    let? result_ := ok_or (rc_terminal_result stored)
                      (corrupt_value (rc_repository_observation_id stored) "terminal_result_json") in
    let? expected_result_json := result_with_observation (gi_result_json event) result_ in
    Ok (guard_event_matches_insert project_id stored_event fields event expected_result_json).

(** How the row of an observation is to be closed. *)
Inductive PostCase :=
| CloseOpen (row : ObservationRow)
| CloseUnavailable (row : ObservationRow)
| CloseMissing.

Definition with_result (event : GuardEventInsert) (result_json : string) : GuardEventInsert :=
  MkGuardEventInsert (gi_guard_event_id event) (gi_correlation event) (gi_connection_internal_id event)
    (gi_guard_installation_id event) (gi_policy_hash event) (gi_integration_revision event)
    (gi_event_kind event) (gi_contract_status event) (gi_decision event) (gi_subject_json event)
    result_json (gi_occurred_at event) (gi_metadata_json event).

(** The three statements that close an observation. *)
Definition closed_row (case : PostCase) (fields : GuardCorrelationFields) (tool : CodexHookToolCorrelation)
    (input : PostToolRepositoryObservationInsert) (columns : TerminalColumns) : ObservationRow :=
  let event := po_guard_event input in
  match case with
  | CloseMissing =>
      MkObservationRow (gf_session_id fields) (gi_connection_internal_id event) (ctc_turn_id tool)
        (ctc_tool_use_id tool) (ctc_tool_name tool) (gi_guard_installation_id event)
        (po_observer_contract_digest input) None (Some (gi_guard_event_id event)) ObsUnavailable None None
        None None None None (tc_reason columns) (gi_occurred_at event) (Some (gi_occurred_at event))
        (Some (tc_result columns)) (po_metadata input)
  | CloseUnavailable row =>
      MkObservationRow (or_session_id row) (or_connection_internal_id row) (or_host_turn_id row)
        (or_host_tool_use_id row) (or_host_tool_name row) (or_guard_installation_id row)
        (or_observer_contract_digest row) (or_pre_tool_guard_event_id row)
        (Some (gi_guard_event_id event)) (or_state row) (or_pre_snapshot row) (or_pre_snapshot_digest row)
        (or_post_snapshot row) (or_post_snapshot_digest row) (or_delta row) (or_delta_digest row)
        (or_unavailable_reason row) (or_started_at row) (Some (gi_occurred_at event))
        (Some (tc_result columns)) (po_metadata input)
  | CloseOpen row =>
      MkObservationRow (or_session_id row) (or_connection_internal_id row) (or_host_turn_id row)
        (or_host_tool_use_id row) (or_host_tool_name row) (or_guard_installation_id row)
        (or_observer_contract_digest row) (or_pre_tool_guard_event_id row)
        (Some (gi_guard_event_id event))
        (if is_some (tc_reason columns) then ObsUnavailable else ObsComplete)
        (or_pre_snapshot row) (or_pre_snapshot_digest row) (tc_post_snapshot columns)
        (tc_post_snapshot_digest columns) (tc_delta columns) (tc_delta_digest columns) (tc_reason columns)
        (or_started_at row) (Some (gi_occurred_at event)) (Some (tc_result columns)) (po_metadata input)
  end.

(** What the stored observation allows; [inr] is a replay.  The coordinates of a missing
    observation are those of the input. *)
Definition post_case t (fields : GuardCorrelationFields) (tool : CodexHookToolCorrelation)
    (input : PostToolRepositoryObservationInsert)
    : result (PostCase + PostToolRepositoryObservationRecord) StoreError :=
  let id := po_repository_observation_id input in
  let event := po_guard_event input in
  let? existing := repository_observation_from_conn t id in
  match existing, ob_observations t !! id with
  | Some existing, Some row =>
      match rc_post_tool_guard_event_id existing with
      | Some post_event_id =>
          let? stored_event := guard_event_by_conn project_id (ob_host t) post_event_id in
          let? matches_ := post_tool_replay_matches fields tool input existing stored_event in
          if matches_
          then
            let? result_ := ok_or (rc_terminal_result existing) (corrupt_value id "terminal_result_json") in
            Ok (inr (MkPostRecord stored_event existing result_ true))
          else Err (Conflict "repository_observation" id)
      | None =>
          let? case :=
            match rc_state existing with
            | ObsOpen => Ok (CloseOpen row)
            | ObsUnavailable =>
                match po_outcome input with
                | PostUnavailable reason =>
                    if rc_unavailable_reason existing =? Some reason then Ok (CloseUnavailable row)
                    else Err (Conflict "repository_observation" id)
                | PostComplete _ _ => Err (Conflict "repository_observation" id)
                end
            | ObsComplete => Err (Conflict "repository_observation" id)
            end in
          if (rc_connection_internal_id existing <>? gi_connection_internal_id event)
             || (rc_session_id existing <>? gf_session_id fields)
             || (rc_guard_installation_id existing <>? gi_guard_installation_id event)
             || (rc_observer_contract_digest existing <>? po_observer_contract_digest input)
             || (rc_correlation existing <>? CodexHookTool tool)
          then Err (Conflict "repository_observation" id)
          else Ok (inl case)
      end
  | _, _ =>
      match po_outcome input with
      | PostUnavailable MissingOpenObservation => Ok (inl CloseMissing)
      | _ => Err (NotFound "repository_observation" id)
      end
  end.

Definition post_tool_transaction t (case : PostCase) (fields : GuardCorrelationFields)
    (tool : CodexHookToolCorrelation) (input : PostToolRepositoryObservationInsert)
    : result (ObservationTables * RepositoryObservationResult) StoreError :=
  let id := po_repository_observation_id input in
  let event := po_guard_event input in
  let? t := match case with
            | CloseMissing =>
                let? host := establish_host_correlation sha256 project_id (ob_host t) (gf_session_id fields)
                               (gf_project_integration_revision fields) (gi_connection_internal_id event)
                               (CodexHookTool tool) (gi_occurred_at event) in
                Ok (set_host t host)
            | _ => Ok t
            end in
  let? '(t, columns) := terminal_result_in_transaction t id (po_outcome input) (po_task_id input)
                          (gi_occurred_at event) in
  let? result_json := result_with_observation (gi_result_json event) (tc_result columns) in
  let? host := insert_guard_event_in_transaction (ob_host t) fields (with_result event result_json) in
  let row := closed_row case fields tool input columns in
  let? t := match case with
            | CloseMissing => insert_observation (set_host t host) id row
            | _ => write_observation (set_host t host) id row
            end in
  Ok (t, tc_result columns).

Definition record_post_tool_repository_observation t (input : PostToolRepositoryObservationInsert)
    : ObservationTables * result PostToolRepositoryObservationRecord StoreError :=
  let id := po_repository_observation_id input in
  let outcome :=
    let? _ := validate_post_input input in
    let? '(fields, tool) := validate_guard_ownership project_id (po_guard_event input) in
    let? expected_id := repository_observation_id (gi_connection_internal_id (po_guard_event input))
                          (gf_session_id fields) (CodexHookTool tool) in
    let? _ := ensure (expected_id <>? id)
                (InvalidInput "repository observation identity does not match exact host coordinates") in
    let? _ := open_guard_project project_id (gi_connection_internal_id (po_guard_event input)) in
    let? case := post_case t fields tool input in
    match case with
    | inr record => Ok (inr record)
    | inl case => let? committed := post_tool_transaction t case fields tool input in Ok (inl committed)
    end in
  match outcome with
  | Err error => (t, Err error)
  | Ok (inr record) => (t, Ok record)
  | Ok (inl (t', result_)) =>
      (t', let? observation := repository_observation_from_conn t' id in
           let? observation := ok_or observation (StorePanic "committed repository observation") in
           let? event := guard_event_by_conn project_id (ob_host t') (gi_guard_event_id (po_guard_event input)) in
           Ok (MkPostRecord event observation result_ false))
  end.

(** ** Observations left open *)

Definition terminalized_row (row : ObservationRow) (id : string)
    (input : TerminalizeOpenRepositoryObservations) : ObservationRow :=
  MkObservationRow (or_session_id row) (or_connection_internal_id row) (or_host_turn_id row)
    (or_host_tool_use_id row) (or_host_tool_name row) (or_guard_installation_id row)
    (or_observer_contract_digest row) (or_pre_tool_guard_event_id row) (or_post_tool_guard_event_id row)
    ObsUnavailable (or_pre_snapshot row) (or_pre_snapshot_digest row) (or_post_snapshot row)
    (or_post_snapshot_digest row) (or_delta row) (or_delta_digest row) (Some (to_reason input))
    (or_started_at row) (Some (to_rfc3339 (to_completed_at input)))
    (Some (unavailable_result id (to_reason input))) (or_metadata row).

(** The [WHERE] clause of the two selections. *)
Definition terminalization_selects (input : TerminalizeOpenRepositoryObservations) (row : ObservationRow) : bool :=
  (or_connection_internal_id row =? to_connection_internal_id input)
  && (or_session_id row =? to_session_id input) && (or_state row =? ObsOpen)
  && match to_scope input with
     | EarlierTurns turn => or_host_turn_id row <>? turn
     | ManagedSession => true
     end.

Definition selected_observations t (input : TerminalizeOpenRepositoryObservations) : list string :=
  firstn (S REPOSITORY_OBSERVATION_TERMINALIZATION_LIMIT)
    (sort_by_key id (List.filter (λ kv, terminalization_selects input kv.2)
                       (map_to_list (ob_observations t))).*1).

Definition terminalization_checks (input : TerminalizeOpenRepositoryObservations)
    (observation : RepositoryObservationRecord) : bool :=
  (rc_state observation =? ObsOpen)
  && (rc_connection_internal_id observation =? to_connection_internal_id input)
  && (rc_session_id observation =? to_session_id input)
  && match to_scope input with
     | EarlierTurns turn => correlation_turn_id (rc_correlation observation) <>? turn
     | ManagedSession => true
     end
  && negb (ts_lt (to_completed_at input) (rc_started_at observation)).

Definition read_observation t id : result RepositoryObservationRecord StoreError :=
  let? observation := repository_observation_from_conn t id in
  ok_or observation (NotFound "repository_observation" id).

Definition select_observation t (input : TerminalizeOpenRepositoryObservations) id
    : result RepositoryObservationRecord StoreError :=
  let? observation := read_observation t id in
  if terminalization_checks input observation then Ok observation
  else Err (corrupt_value id "state").

(** The [UPDATE … WHERE state = 'open'] of one observation. *)
Definition terminalize_one (input : TerminalizeOpenRepositoryObservations) t id
    : result ObservationTables StoreError :=
  match ob_observations t !! id with
  | Some row =>
      if or_state row <>? ObsOpen then Err (Conflict "repository_observation" id)
      else write_observation t id (terminalized_row row id input)
  | None => Err (Conflict "repository_observation" id)
  end.

Definition terminalize_open_repository_observations_in_transaction t
    (input : TerminalizeOpenRepositoryObservations)
    : result (ObservationTables * list RepositoryObservationRecord) StoreError :=
  let? _ := validate_terminalization_input input in
  let? _ := ensure (negb (session_owned_by (ob_host t) (to_session_id input) (to_connection_internal_id input)))
              (Conflict "host_session" (to_session_id input)) in
  let? _ := match to_scope input with
            | EarlierTurns turn =>
                ensure (negb (turn_owned_by (ob_host t) (to_session_id input)
                                (to_connection_internal_id input) turn))
                  (Conflict "host_turn" turn)
            | ManagedSession => Ok tt
            end in
  let ids := selected_observations t input in
  let? _ := ensure (REPOSITORY_OBSERVATION_TERMINALIZATION_LIMIT <? length ids)%nat
              (InvalidInput "repository-observation terminalization exceeds the bounded row limit") in
  let? _ := try_map (select_observation t input) ids in
  let? t := try_foldl (terminalize_one input) t ids in
  let? terminalized := try_map (read_observation t) ids in
  Ok (t, terminalized).

Definition terminalize_open_repository_observations t (input : TerminalizeOpenRepositoryObservations)
    : result (ObservationTables * list RepositoryObservationRecord) StoreError :=
  let? _ := validate_terminalization_input input in
  let? _ := open_guard_project project_id (to_connection_internal_id input) in
  terminalize_open_repository_observations_in_transaction t input.

(** ** Resolution of an unrecorded change *)

Definition resolved_row (row : UnrecordedChangeRow) (resolution : Value * string * string)
    : UnrecordedChangeRow :=
  MkUnrecordedRow (ur_repository_observation_id row) (ur_task_id row) (ur_summary row)
    (ur_observed_paths row) (ur_unmatched_delta_digest row) (ur_detection row) (ur_detected_at row)
    (Some resolution).

(** [MutationContext::resolve_unrecorded_change] of continuity.rs. *)
Definition resolve_unrecorded_change t (change_id : string) (resolution : Value)
    (resolved_at : UtcTimestamp) (actor : string) : result ObservationTables StoreError :=
  let? _ := validate_identifier "unrecorded_change_id" change_id in
  let? _ := ensure (negb (representable resolved_at)) (InvalidInput "resolved_at must be canonical") in
  match ob_unrecorded_changes t !! change_id with
  | Some row =>
      if unresolved row
      then Ok (set_unrecorded_changes t
                 (<[change_id := resolved_row row (resolution, to_rfc3339 resolved_at, actor)]>
                    (ob_unrecorded_changes t)))
      else Err (SchemaInvariant "unresolved unrecorded-change resolution changed no rows")
  | None => Err (SchemaInvariant "unresolved unrecorded-change resolution changed no rows")
  end.

(** ** The hooks *)

(** [capture_post_outcome], in the worlds in which the snapshot and the delta are read. *)
Definition capture_post_outcome (root : option string) (worlds : nat → RepoWorld) (delta_world : RepoWorld)
    (record : RepositoryObservationRecord) (observer_contract_digest : string)
    : PostToolRepositoryObservationOutcome :=
  match rc_pre_snapshot record with
  | None => PostUnavailable MissingOpenObservation
  | Some checkpoint =>
      match observer_new sha256 root default_limits with
      | Err reason => PostUnavailable (Observer reason)
      | Ok observer =>
          if ob_contract_digest observer <>? observer_contract_digest
          then PostUnavailable (Observer ObserverContractMismatch)
          else
            match restore_checkpoint observer checkpoint with
            | Err reason => PostUnavailable (Observer reason)
            | Ok before =>
                match take_snapshot sha256 observer (ck_invocation_paths checkpoint) [] worlds with
                | Err reason => PostUnavailable (Observer reason)
                | Ok after =>
                    match calculate_delta sha256 delta_world observer before after with
                    | Err reason => PostUnavailable (Observer reason)
                    | Ok delta => PostComplete (snapshot_checkpoint after) delta
                    end
                end
            end
      end
  end.

(** The outcome [handle_post_tool] hands to the store. *)
Definition post_tool_outcome (root : option string) (worlds : nat → RepoWorld) (delta_world : RepoWorld)
    (stored : option RepositoryObservationRecord) (observer_contract_digest : string)
    : result PostToolRepositoryObservationOutcome GuardCommandError :=
  match stored with
  | Some record =>
      match rc_state record with
      | ObsOpen => Ok (capture_post_outcome root worlds delta_world record observer_contract_digest)
      | ObsUnavailable =>
          let? reason := ok_or (rc_unavailable_reason record)
            (GuardRuntime "unavailable repository observation has no closed reason") in
          Ok (PostUnavailable reason)
      | ObsComplete => Err (GuardRuntime "repository observation is already complete")
      end
  | None => Ok (PostUnavailable MissingOpenObservation)
  end.

(** [prepare_repository_observation]: the checkpoint, or the reason there is none. *)
Definition prepare_repository_observation (root : option string) (worlds : nat → RepoWorld)
    (observation : ToolObservation)
    : result RepositoryObservationCheckpoint RepositoryObservationUnavailableReason :=
  let? paths := map_err (λ _, Observer InvalidRelativePath) (invocation_paths observation) in
  let? observer := map_err Observer (observer_new sha256 root default_limits) in
  let? snapshot := map_err Observer (take_snapshot sha256 observer paths [] worlds) in
  Ok (snapshot_checkpoint snapshot).
End observations.
