(* ===== verification/RepoObservationSound.v ===== *)
(** * RepoObservationSound: every observed change is accounted for

    Theorems on RepoObservation.v: the paths a tool changed are split exactly between its
    expected write and an unrecorded change, and no later step loses one; both hooks can be
    repeated; observations left open are closed exactly; a closed observation is final; and
    a hook whose time is later but compares as smaller text leaves an observation that
    cannot be read. *)

From Stdlib Require Import Ascii.
From stdpp Require Import gmap strings.
From S2P Require Import Prelude Text ProductPath Values Canonical EventHash Schema Clock TicketStore Capture.
From S2P Require Import TaskStore HostTools HostContract Guard RepoSnapshot RepoSnapshotSound GuardStore RepoObservation.

(** Splits on how the transaction of an operation ended. *)
Ltac case_outcome H :=
  lazymatch goal with
  | |- match ?outcome with _ => _ end = _ → _ =>
      let x := fresh "x" in let e := fresh "e" in destruct outcome as [[x|x]|e] eqn:H
  end.

Lemma filter_bool_sublist {A} (p : A → bool) l : List.filter p l `sublist_of` l.
Proof. induction l as [|x l IH]; cbn; [done|]. destruct (p x); by constructor. Qed.

(** ** Effects of the statements *)

Lemma write_observation_eq t id row t' :
  write_observation t id row = Ok t' → t' = set_observations t (<[id := row]> (ob_observations t)).
Proof. unfold write_observation. intros H. peel H as u Hu. peel H as v Hv. peel H as w Hw. by injection H as <-. Qed.

Lemma insert_observation_eq t id row t' :
  insert_observation t id row = Ok t' →
  ob_observations t !! id = None ∧ t' = set_observations t (<[id := row]> (ob_observations t)).
Proof.
  unfold insert_observation. intros [Hn H]%ensure_bind. split; [by destruct (ob_observations t !! id)|].
  by apply write_observation_eq.
Qed.

Lemma insert_expected_row_eq t id row t' :
  insert_expected_row t id row = Ok t' →
  ob_expected_writes t !! id = None ∧ t' = set_expected_writes t (<[id := row]> (ob_expected_writes t)).
Proof.
  unfold insert_expected_row. intros [[_ Hn]%orb_false_iff H]%ensure_bind. split.
  - by destruct (ob_expected_writes t !! id).
  - peel H as u Hu. peel H as v Hv. by injection H as <-.
Qed.

Lemma insert_unrecorded_row_eq t id row t' :
  insert_unrecorded_row t id row = Ok t' →
  ob_unrecorded_changes t !! id = None
  ∧ t' = set_unrecorded_changes t (<[id := row]> (ob_unrecorded_changes t)).
Proof.
  unfold insert_unrecorded_row. intros [[Hn _]%orb_false_iff H]%ensure_bind. split.
  - by destruct (ob_unrecorded_changes t !! id).
  - peel H as u Hu. peel H as v Hv. by injection H as <-.
Qed.

(** ** The attribution of a delta *)

Lemma elem_of_covered expected delta p :
  p ∈ covered_paths expected delta
  ↔ p ∈ delta_paths delta ∧ ∃ e, expected = Some e ∧ p ∈ xe_expected_paths e.
Proof.
  unfold covered_paths. destruct expected as [e|].
  - rewrite elem_of_bts_of_list, elem_of_filter_bool, bts_mem_elem. naive_solver.
  - split; [by intros ?%elem_of_nil|]. by intros [_ (? & ? & _)].
Qed.

Lemma elem_of_unmatched expected delta p :
  p ∈ unmatched_paths expected delta ↔ p ∈ delta_paths delta ∧ p ∉ covered_paths expected delta.
Proof.
  unfold unmatched_paths. rewrite elem_of_filter_bool, negb_true_iff, <-not_true_iff_false, bts_mem_elem.
  naive_solver.
Qed.

#[local] Opaque delta_digest stable_unrecorded_change_id repository_observation_id checkpoint_semantic_digest.

Section effects.
Context `{HC : Chrono} `{HJ : GuardJson} `{HR : GuardRegistry}.
Variable sha256 : string → list ascii.
Variable project_id : string.

Implicit Types (t : ObservationTables) (id : string).

(** What closing an observation with a delta does to the expected write. *)
Inductive reconciled t id (expected : option ExactExpectedWrite) (delta : RepositoryDelta) (at_ : string)
    : ObservationTables → list RepositoryExpectedWriteMatchResult → Prop :=
| nothing_matched : covered_paths expected delta = [] → reconciled t id expected delta at_ t []
| expected_matched e row :
    expected = Some e → ob_expected_writes t !! id = Some row → xw_status row = ExpectedPending →
    covered_paths expected delta ≠ [] →
    reconciled t id expected delta at_
      (set_expected_writes t
         (<[id := matched_row row (covered_paths expected delta) at_]> (ob_expected_writes t)))
      [MkMatchResult (xe_expected_write_id e) (covered_paths expected delta)].

Lemma reconcile_spec t id expected delta at_ t' matches_ :
  reconcile_expected_write t id expected delta at_ = Ok (t', matches_) →
  reconciled t id expected delta at_ t' matches_.
Proof.
  unfold reconcile_expected_write. destruct expected as [e|]; [|intros [= <- <-]; by constructor].
  remember (covered_paths (Some e) delta) as covered eqn:Ec. destruct (list_is_empty covered) eqn:En.
  - intros [= <- <-]. constructor. by destruct covered.
  - destruct (ob_expected_writes t !! id) as [row|] eqn:Er; [|done].
    destruct (xw_status row <>? ExpectedPending) eqn:Es; [done|]. intros [= <- <-]. rewrite Ec in *.
    apply (expected_matched _ _ _ _ _ e row); [reflexivity|exact Er|by apply neqb_false|].
    intros E. by rewrite E in En.
Qed.

(** And to the unrecorded changes. *)
Inductive unmatched_recorded t id (task : option string) (paths : list ProductRelativePath)
    (delta : RepositoryDelta) (at_ : string)
    : ObservationTables → list RepositoryUnrecordedChangeResult → Prop :=
| nothing_unmatched : paths = [] → unmatched_recorded t id task paths delta at_ t []
| change_recorded :
    let digest := delta_digest sha256 (restricted_to delta paths) in
    let change := stable_unrecorded_change_id sha256 project_id id digest in
    paths ≠ [] → ob_unrecorded_changes t !! change = None →
    unmatched_recorded t id task paths delta at_
      (set_unrecorded_changes t
         (<[change := unrecorded_change_row id task paths digest at_]> (ob_unrecorded_changes t)))
      [MkUnrecordedResult change digest paths].

Lemma record_unmatched_spec t id task paths delta at_ t' changes_ :
  record_unmatched sha256 project_id t id task paths delta at_ = Ok (t', changes_) →
  unmatched_recorded t id task paths delta at_ t' changes_.
Proof.
  unfold record_unmatched. destruct (list_is_empty paths) eqn:En.
  - intros [= <- <-]. constructor. by destruct paths.
  - intros H. peel H as t1 H1. injection H as <- <-. apply insert_unrecorded_row_eq in H1 as [Hn ->].
    constructor; [|done]. intros ->. discriminate En.
Qed.

(** The whole of [terminal_result_in_transaction]. *)
Inductive terminal_spec t id (task : option string) (at_ : string)
    : PostToolRepositoryObservationOutcome → ObservationTables → TerminalColumns → Prop :=
| terminal_unavailable reason :
    terminal_spec t id task at_ (PostUnavailable reason) t
      (MkTerminalColumns (unavailable_result id reason) None None None None (Some reason))
| terminal_complete snapshot delta digest expected t1 t2 matches_ changes_ :
    checkpoint_semantic_digest sha256 snapshot = Ok digest →
    expected_write_for_observation t id = Ok expected →
    reconciled t id expected delta at_ t1 matches_ →
    unmatched_recorded t1 id (match expected with Some e => Some (xe_task_id e) | None => task end)
      (unmatched_paths expected delta) delta at_ t2 changes_ →
    terminal_spec t id task at_ (PostComplete snapshot delta) t2
      (MkTerminalColumns
         (MkObservationResult ObsComplete id
            (Some (MkDeltaSummary (delta_digest sha256 delta) (delta_paths delta) (length delta))) None
            matches_ changes_ NET_TRANSITION)
         (Some snapshot) (Some digest) (Some delta) (Some (delta_digest sha256 delta)) None).

Lemma terminal_result_spec t id outcome task at_ t' columns :
  terminal_result_in_transaction sha256 project_id t id outcome task at_ = Ok (t', columns) →
  terminal_spec t id task at_ outcome t' columns.
Proof.
  unfold terminal_result_in_transaction. destruct outcome as [snapshot delta|reason].
  - intros H. peel H as digest Hd. apply map_err_Ok in Hd. peel H as expected He.
    peel H as [t1 ms] H1. peel H as [t2 cs] H2. injection H as <- <-.
    apply reconcile_spec in H1. apply record_unmatched_spec in H2. by econstructor.
  - intros [= <- <-]. constructor.
Qed.

Lemma reconciled_frame t id expected delta at_ t' ms :
  reconciled t id expected delta at_ t' ms →
  ob_host t' = ob_host t ∧ ob_observations t' = ob_observations t
  ∧ ob_unrecorded_changes t' = ob_unrecorded_changes t ∧ ob_tasks t' = ob_tasks t
  ∧ ∀ id', id' ≠ id → ob_expected_writes t' !! id' = ob_expected_writes t !! id'.
Proof. destruct 1; split_and!; try done. intros id' Hne. cbn. by rewrite lookup_insert_ne. Qed.

Lemma unmatched_frame t id task paths delta at_ t' cs :
  unmatched_recorded t id task paths delta at_ t' cs →
  ob_host t' = ob_host t ∧ ob_observations t' = ob_observations t
  ∧ ob_expected_writes t' = ob_expected_writes t ∧ ob_tasks t' = ob_tasks t
  ∧ ∀ cid c, ob_unrecorded_changes t !! cid = Some c → ob_unrecorded_changes t' !! cid = Some c.
Proof.
  destruct 1 as [|digest change Hne Hn]; split_and!; try done. intros cid c Hc.
  cbn [ob_unrecorded_changes set_unrecorded_changes].
  rewrite lookup_insert_ne; [done|]. intros E. rewrite E in Hn. congruence.
Qed.

Lemma terminal_frame t id task at_ outcome t' columns :
  terminal_spec t id task at_ outcome t' columns →
  ob_host t' = ob_host t ∧ ob_observations t' = ob_observations t ∧ ob_tasks t' = ob_tasks t
  ∧ (∀ id', id' ≠ id → ob_expected_writes t' !! id' = ob_expected_writes t !! id')
  ∧ ∀ cid c, ob_unrecorded_changes t !! cid = Some c → ob_unrecorded_changes t' !! cid = Some c.
Proof.
  destruct 1 as [|snapshot delta digest expected t1 t2 ms cs Hd He Hr Hu]; [done|].
  apply reconciled_frame in Hr as (H1 & H2 & H3 & H4 & H5).
  apply unmatched_frame in Hu as (G1 & G2 & G3 & G4 & G5).
  split_and!; [congruence..| |].
  - intros id' Hne. rewrite G3. by apply H5.
  - intros cid c Hc. apply G5. by rewrite H3.
Qed.

(** ** The effects of the operations *)

(** The expected writes after the hook before the tool. *)
Definition announced t id (input : PreToolRepositoryObservationInsert) : gmap string ExpectedWriteRow :=
  match pi_expected_write input with
  | Some (e, metadata) => <[id := inserted_expected_row e metadata]> (ob_expected_writes t)
  | None => ob_expected_writes t
  end.

Lemma announced_keeps t id input :
  (is_some (pi_expected_write input) = true → ob_expected_writes t !! id = None) →
  ∀ id' x, ob_expected_writes t !! id' = Some x → announced t id input !! id' = Some x.
Proof.
  intros Hn id' x Hx. unfold announced. destruct (pi_expected_write input) as [[e m]|]; [|done].
  rewrite lookup_insert_ne; [done|]. intros <-. specialize (Hn eq_refl). congruence.
Qed.

Lemma record_pre_effect t input t' r :
  let id := pi_repository_observation_id input in
  record_pre_tool_repository_observation sha256 project_id t input = (t', r) →
  t' = t
  ∨ ∃ fields tool digest,
      ob_observations t !! id = None
      ∧ ob_observations t' = <[id := pre_observation_row fields tool input digest]> (ob_observations t)
      ∧ ob_unrecorded_changes t' = ob_unrecorded_changes t
      ∧ ob_expected_writes t' = announced t id input
      ∧ (is_some (pi_expected_write input) = true → ob_expected_writes t !! id = None).
Proof.
  intros id. unfold record_pre_tool_repository_observation. cbv zeta.
  case_outcome H; [|intros [= <- _]; by left..]. intros [= <- _]. right.
  peel H as u Hu. peel H as [fields tool] Ho. peel H as eid Hid. apply ensure_bind in H as [_ H].
  peel H as digest Hd. peel H as v Hv. unfold pre_tool_transaction in H.
  peel H as existing He. destruct existing as [existing|].
  { peel H as pid Hp. peel H as ev Hev. by destruct (pre_tool_replay_matches _ _ _ _ _ _ _). }
  peel H as host Hh. peel H as host' Hh'. peel H as t2 H2. peel H as t3 H3. injection H as <-.
  apply insert_observation_eq in H2 as [Hn ->]. exists fields, tool, digest.
  unfold insert_expected_write_in_transaction, announced in *. destruct (pi_expected_write input) as [[e m]|].
  - apply insert_expected_row_eq in H3 as [Hx ->]. split_and!; done.
  - injection H3 as <-. split_and!; done.
Qed.

(** What a committed transaction of the hook after the tool did. *)
Record post_commit t (input : PostToolRepositoryObservationInsert) (fields : GuardCorrelationFields)
    (tool : CodexHookToolCorrelation) (case : PostCase) t0 t1 (columns : TerminalColumns)
    (result_json : string) (host : HostTables) t' : Prop := {
  pc_case : post_case sha256 project_id t fields tool input = Ok (inl case);
  pc_host : match case with
            | CloseMissing =>
                ∃ host0, t0 = set_host t host0
                  ∧ establish_host_correlation sha256 project_id (ob_host t) (gf_session_id fields)
                      (gf_project_integration_revision fields)
                      (gi_connection_internal_id (po_guard_event input)) (CodexHookTool tool)
                      (gi_occurred_at (po_guard_event input)) = Ok host0
            | _ => t0 = t
            end;
  pc_terminal : terminal_spec t0 (po_repository_observation_id input) (po_task_id input)
                  (gi_occurred_at (po_guard_event input)) (po_outcome input) t1 columns;
  pc_result : result_with_observation (gi_result_json (po_guard_event input)) (tc_result columns)
              = Ok result_json;
  pc_event : insert_guard_event_in_transaction (ob_host t1) fields
               (with_result (po_guard_event input) result_json) = Ok host;
  pc_tables : t' = set_observations (set_host t1 host)
                     (<[po_repository_observation_id input := closed_row case fields tool input columns]>
                        (ob_observations t1));
}.

Lemma post_transaction_spec t case fields tool input t' result_ :
  post_case sha256 project_id t fields tool input = Ok (inl case) →
  post_tool_transaction sha256 project_id t case fields tool input = Ok (t', result_) →
  ∃ t0 t1 columns result_json host,
    post_commit t input fields tool case t0 t1 columns result_json host t' ∧ result_ = tc_result columns.
Proof.
  intros Hcase. unfold post_tool_transaction. intros H. peel H as t0 H0. peel H as [t1 columns] H1.
  peel H as result_json Hj. peel H as host Hh. peel H as t2 H2. injection H as <- <-.
  apply terminal_result_spec in H1. exists t0, t1, columns, result_json, host. split; [|done].
  split; try done.
  - destruct case; [by injection H0 as <-..|]. peel H0 as host0 Hh0. injection H0 as <-. by exists host0.
  - destruct case; [by apply write_observation_eq in H2..|]. by apply insert_observation_eq in H2 as [_ ->].
Qed.

Lemma record_post_effect t input t' r :
  record_post_tool_repository_observation sha256 project_id t input = (t', r) →
  t' = t
  ∨ ∃ fields tool case t0 t1 columns result_json host,
      post_commit t input fields tool case t0 t1 columns result_json host t'.
Proof.
  unfold record_post_tool_repository_observation. cbv zeta.
  case_outcome H; [|intros [= <- _]; by left..]. destruct x as [t1 result_].
  intros [= <- _]. right. peel H as u Hu. peel H as [fields tool] Ho. peel H as eid Hid.
  apply ensure_bind in H as [_ H]. peel H as v Hv. peel H as case Hc. destruct case as [case|]; [|done].
  peel H as committed Hp. injection H as ->.
  apply (post_transaction_spec _ _ _ _ _ _ _ Hc) in Hp as (t0 & t1' & columns & json & host & Hp & _).
  by exists fields, tool, case, t0, t1', columns, json, host.
Qed.

(** ** What a read returns *)

Lemma decode_checkpoint_eq snapshot digest contract e c :
  decode_checkpoint sha256 snapshot digest contract e = Ok c → c = snapshot.
Proof.
  unfold decode_checkpoint. destruct snapshot as [s|], digest as [d|]; try done; [|by intros [= <-]].
  destruct (_ <>? contract); [done|]. intros H. peel H as sd Hs. destruct (sd <>? d); [done|]. by injection H as <-.
Qed.

Lemma decode_delta_eq row id delta : decode_delta sha256 row id = Ok delta → delta = or_delta row.
Proof.
  unfold decode_delta. destruct (or_delta row) as [d|], (or_delta_digest row) as [g|]; try done; [|by intros [= <-]].
  destruct (delta_accepted d); [|done]. cbn [negb]. destruct (_ <>? g); [done|]. by intros [= <-].
Qed.

(** A decoded record repeats the columns of its row. *)
Record decoded (host : HostTables) id (row : ObservationRow) (rec : RepositoryObservationRecord) : Prop := {
  dc_id : rc_repository_observation_id rec = id;
  dc_session : rc_session_id rec = or_session_id row;
  dc_connection : rc_connection_internal_id rec = or_connection_internal_id row;
  dc_installation : rc_guard_installation_id rec = or_guard_installation_id row;
  dc_contract : rc_observer_contract_digest rec = or_observer_contract_digest row;
  dc_pre_event : rc_pre_tool_guard_event_id rec = or_pre_tool_guard_event_id row;
  dc_post_event : rc_post_tool_guard_event_id rec = or_post_tool_guard_event_id row;
  dc_state : rc_state rec = or_state row;
  dc_pre_snapshot : rc_pre_snapshot rec = or_pre_snapshot row;
  dc_post_snapshot : rc_post_snapshot rec = or_post_snapshot row;
  dc_delta : rc_delta rec = or_delta row;
  dc_reason : rc_unavailable_reason rec = or_unavailable_reason row;
  dc_terminal : rc_terminal_result rec = or_terminal_result row;
  dc_metadata : rc_metadata rec = or_metadata row;
  dc_shape : decoded_shape row = true;
  dc_correlation : ∃ host_session,
    joined_host_session_id host (Some (or_session_id row)) (or_connection_internal_id row) = Some host_session
    ∧ rc_correlation rec = CodexHookTool (MkToolCorrelation host_session (or_host_turn_id row)
                                            (or_host_tool_use_id row) (or_host_tool_name row));
}.

Lemma decode_spec host id row rec :
  decode_repository_observation sha256 project_id host id row = Ok rec → decoded host id row rec.
Proof.
  unfold decode_repository_observation. cbv zeta. intros [_ H]%ensure_bind.
  peel H as pre Hpre. apply decode_checkpoint_eq in Hpre as ->.
  peel H as post Hpost. apply decode_checkpoint_eq in Hpost as ->.
  peel H as delta Hd. apply decode_delta_eq in Hd as ->. peel H as st Hst. peel H as ct Hct.
  apply ensure_bind in H as [_ H]. apply ensure_bind in H as [Hs%negb_false_iff H].
  apply ensure_bind in H as [_ H]. peel H as hs Hhs.
  do 4 apply ensure_bind in H as [_ H]. peel H as did Hdid. destruct (did <>? id); [done|].
  injection H as <-. split; try done. exists hs. split; [|done].
  by destruct (joined_host_session_id _ _ _); [injection Hhs as ->|].
Qed.

Lemma read_spec t id rec :
  repository_observation_from_conn sha256 project_id t id = Ok (Some rec) →
  ∃ row, ob_observations t !! id = Some row ∧ decoded (ob_host t) id row rec
    ∧ validate_repository_observation_relationships sha256 project_id t rec = Ok tt.
Proof.
  unfold repository_observation_from_conn. destruct (ob_observations t !! id) as [row|]; [|done].
  intros H. peel H as r Hr. peel H as [] Hv. injection H as ->. exists row.
  split_and!; [done|by apply decode_spec|done].
Qed.

Lemma read_none t id :
  repository_observation_from_conn sha256 project_id t id = Ok None → ob_observations t !! id = None.
Proof.
  unfold repository_observation_from_conn. destruct (ob_observations t !! id) as [row|]; [|done].
  intros H. peel H as r Hr. by peel H as [] Hv.
Qed.

(** The row a transaction closes. *)
Lemma post_case_row t fields tool input case :
  post_case sha256 project_id t fields tool input = Ok (inl case) →
  match case with
  | CloseOpen row =>
      ob_observations t !! po_repository_observation_id input = Some row ∧ or_state row = ObsOpen
      ∧ or_post_tool_guard_event_id row = None
  | CloseUnavailable row =>
      ob_observations t !! po_repository_observation_id input = Some row ∧ or_state row = ObsUnavailable
      ∧ or_post_tool_guard_event_id row = None
      ∧ ∃ reason, po_outcome input = PostUnavailable reason ∧ or_unavailable_reason row = Some reason
  | CloseMissing =>
      ob_observations t !! po_repository_observation_id input = None
      ∧ po_outcome input = PostUnavailable MissingOpenObservation
  end.
Proof.
  unfold post_case. cbv zeta. intros H. peel H as existing He. destruct existing as [rec|].
  - apply read_spec in He as (row & Hrow & Hdec & _). rewrite Hrow in H.
    rewrite (dc_post_event _ _ _ _ Hdec), (dc_state _ _ _ _ Hdec), (dc_reason _ _ _ _ Hdec) in H.
    destruct (or_post_tool_guard_event_id row) as [pe|] eqn:Epost.
    { peel H as ev Hev. peel H as m Hm. destruct m; [|done]. by peel H as r Hr. }
    peel H as c Hc. destruct (_ || _); [done|]. injection H as ->.
    destruct (or_state row) eqn:Es; [|done|].
    + by injection Hc as <-.
    + destruct (po_outcome input) as [|reason]; [done|].
      destruct (or_unavailable_reason row =? Some reason) eqn:E; [|done]. apply eqb_eq in E.
      injection Hc as <-. split_and!; [done..|]. by exists reason.
  - apply read_none in He.
    destruct (po_outcome input) as [|[]]; try done. by injection H as <-.
Qed.

Lemma resolve_effect t change resolution at_ actor t' :
  resolve_unrecorded_change t change resolution at_ actor = Ok t' →
  ∃ row, ob_unrecorded_changes t !! change = Some row
    ∧ t' = set_unrecorded_changes t
             (<[change := resolved_row row (resolution, to_rfc3339 at_, actor)]> (ob_unrecorded_changes t)).
Proof.
  unfold resolve_unrecorded_change. intros H. peel H as u Hu. apply ensure_bind in H as [_ H].
  destruct (ob_unrecorded_changes t !! change) as [row|]; [|done]. exists row.
  destruct (unresolved row); [|done]. by injection H as <-.
Qed.

(** ** Closing what was left open *)

(** Tables that differ only in their observations. *)
Definition observations_only t t' : Prop := t' = set_observations t (ob_observations t').

Lemma terminalize_one_spec input t id t' :
  terminalize_one input t id = Ok t' →
  ∃ row, ob_observations t !! id = Some row ∧ or_state row = ObsOpen
    ∧ t' = set_observations t (<[id := terminalized_row row id input]> (ob_observations t)).
Proof.
  unfold terminalize_one. destruct (ob_observations t !! id) as [row|]; [|done].
  destruct (or_state row <>? ObsOpen) eqn:E; [done|]. intros H%write_observation_eq. exists row.
  split_and!; [done| |done]. by apply neqb_false.
Qed.

Lemma terminalize_fold input ids t t' :
  NoDup ids → try_foldl (terminalize_one input) t ids = Ok t' →
  observations_only t t'
  ∧ ∀ id, (id ∈ ids → ∃ row, ob_observations t !! id = Some row ∧ or_state row = ObsOpen
                        ∧ ob_observations t' !! id = Some (terminalized_row row id input))
          ∧ (id ∉ ids → ob_observations t' !! id = ob_observations t !! id).
Proof.
  intros Hnd. revert t. induction Hnd as [|id ids Hni Hnd IH]; intros t; cbn [try_foldl].
  { intros [= <-]. split; [by destruct t|]. intros id. split; [by intros ?%elem_of_nil|done]. }
  intros H. peel H as t1 H1. apply terminalize_one_spec in H1 as (row & Hrow & Hs & ->).
  apply IH in H as [Ho Hids]. unfold observations_only in *. split.
  { rewrite Ho at 1. by destruct t. }
  intros id'. destruct (Hids id') as [Hin Hout]. cbn [ob_observations set_observations] in *. split.
  - intros [->|Hi]%elem_of_cons.
    + destruct (Hids id) as [_ Hout']. exists row. split_and!; [done..|]. cbn in Hout'.
      by rewrite Hout', lookup_insert_eq.
    + destruct (Hin Hi) as (row' & Hr & Hs' & Ht). exists row'. split_and!; [|done..].
      rewrite lookup_insert_ne in Hr; [done|]. by intros <-.
  - intros [Hne Hi]%not_elem_of_cons. rewrite Hout by done. by rewrite lookup_insert_ne.
Qed.

Lemma selected_complete t input :
  (length (selected_observations t input) ≤ REPOSITORY_OBSERVATION_TERMINALIZATION_LIMIT)%nat →
  NoDup (selected_observations t input)
  ∧ ∀ id, id ∈ selected_observations t input
          ↔ ∃ row, ob_observations t !! id = Some row ∧ terminalization_selects input row = true.
Proof.
  unfold selected_observations. set (l := sort_by_key _ _). intros Hlen.
  assert (firstn (S REPOSITORY_OBSERVATION_TERMINALIZATION_LIMIT) l = l) as ->.
  { apply take_ge. rewrite length_take in Hlen. lia. }
  assert (l ≡ₚ (List.filter (λ kv, terminalization_selects input kv.2)
                  (map_to_list (ob_observations t))).*1) as Hp by apply sort_by_key_perm.
  split.
  - rewrite Hp. eapply sublist_NoDup; [apply (NoDup_fst_map_to_list (ob_observations t))|].
    apply fmap_sublist, filter_bool_sublist.
  - intros id. rewrite Hp, list_elem_of_fmap. split.
    + intros ([k row] & -> & [Hk Hs]%elem_of_filter_bool). exists row.
      split; [by apply elem_of_map_to_list|done].
    + intros (row & Hr & Hs). exists (id, row). split; [done|]. apply elem_of_filter_bool.
      split; [by apply elem_of_map_to_list|done].
Qed.

Lemma terminalize_rows t input t' records :
  terminalize_open_repository_observations sha256 project_id t input = Ok (t', records) →
  observations_only t t'
  ∧ ∀ id, ob_observations t' !! id
          = (λ row, if terminalization_selects input row then terminalized_row row id input else row)
            <$> ob_observations t !! id.
Proof.
  unfold terminalize_open_repository_observations, terminalize_open_repository_observations_in_transaction.
  cbv zeta. intros H. peel H as u Hu. peel H as v Hv. peel H as u' Hu'. peel H as w Hw. peel H as x Hx.
  apply ensure_bind in H as [Hlen%Nat.ltb_ge H]. peel H as selected Hsel. peel H as t1 H1.
  peel H as rs Hrs. injection H as -> ->. destruct (selected_complete t input Hlen) as [Hnd Hin].
  destruct (terminalize_fold _ _ _ _ Hnd H1) as [Ho Hids]. split; [done|].
  intros id. destruct (Hids id) as [Hi Hni].
  destruct (decide (id ∈ selected_observations t input)) as [Hd|Hd].
  - destruct (Hi Hd) as (row & Hr & _ & ->). rewrite Hr. apply Hin in Hd as (row' & Hr' & Hs).
    rewrite Hr in Hr'. injection Hr' as <-. cbn. by rewrite Hs.
  - rewrite (Hni Hd). destruct (ob_observations t !! id) as [row|] eqn:Hr; [|done]. cbn.
    destruct (terminalization_selects input row) eqn:Hs; [|done]. exfalso. apply Hd, Hin. by exists row.
Qed.

(** C30: Closing the observations a session left open is exact and bounded: every open
    observation of the session, except those of the current turn when only earlier turns
    are closed, becomes unavailable with the given reason; every other row of every table
    stays as it was; and the records returned are those of the closed rows.  It happens for
    all of them or for none, and for at most 256. *)
Theorem terminalization_exact t input t' records :
  terminalize_open_repository_observations sha256 project_id t input = Ok (t', records) →
  observations_only t t'
  ∧ (∀ id, ob_observations t' !! id
           = (λ row, if terminalization_selects input row then terminalized_row row id input else row)
             <$> ob_observations t !! id)
  ∧ (length records ≤ REPOSITORY_OBSERVATION_TERMINALIZATION_LIMIT)%nat
  ∧ ∀ id, id ∈ (rc_repository_observation_id <$> records)
          ↔ ∃ row, ob_observations t !! id = Some row ∧ terminalization_selects input row = true.
Proof.
  intros H. destruct (terminalize_rows _ _ _ _ H) as [Ho Hrows]. split_and!; [done..| |].
  all: unfold terminalize_open_repository_observations,
    terminalize_open_repository_observations_in_transaction in H; cbv zeta in H.
  all: peel H as u Hu; peel H as v Hv; peel H as u' Hu'; peel H as w Hw; peel H as x Hx.
  all: apply ensure_bind in H as [Hlen%Nat.ltb_ge H]; peel H as selected Hsel; peel H as t1 H1.
  all: peel H as rs Hrs; injection H as -> ->; apply try_map_Ok in Hrs.
  - by rewrite <-(Forall2_length _ _ _ Hrs).
  - intros id. destruct (selected_complete t input Hlen) as [_ Hin]. rewrite <-Hin. clear -Hrs.
    induction Hrs as [|i r ids rs Hr _ IH]; [done|]. rewrite fmap_cons, !elem_of_cons, IH.
    unfold read_observation in Hr. peel Hr as o Ho. destruct o as [rec|]; [|done]. injection Hr as ->.
    apply read_spec in Ho as (row & _ & Hd & _). by rewrite (dc_id _ _ _ _ Hd).
Qed.
End effects.

(** ** Histories *)

Section histories.
Context `{HC : Chrono} `{HJ : GuardJson}.
Variable sha256 : string → list ascii.
Variable project_id : string.

Implicit Types (t : ObservationTables) (id : string).

(** The operations on the observations of a project, under whatever the registry says at
    the time; other hooks write the host tables and other methods the tasks. *)
Inductive observation_step t : ObservationTables → Prop :=
| before_tool `{GuardRegistry} input t' r :
    record_pre_tool_repository_observation sha256 project_id t input = (t', r) → observation_step t t'
| after_tool `{GuardRegistry} input t' r :
    record_post_tool_repository_observation sha256 project_id t input = (t', r) → observation_step t t'
| left_open `{GuardRegistry} input t' records :
    terminalize_open_repository_observations sha256 project_id t input = Ok (t', records) →
    observation_step t t'
| change_resolved change resolution resolved_at actor t' :
    resolve_unrecorded_change t change resolution resolved_at actor = Ok t' → observation_step t t'
| hosts_changed host : observation_step t (set_host t host)
| tasks_changed tasks :
    observation_step t (MkObservationTables (ob_host t) (ob_observations t) (ob_expected_writes t)
                          (ob_unrecorded_changes t) tasks).

(** What stays of a row: its invocation and its baseline always, its outcome once it is
    closed, and all of it once the hook after the tool has reported. *)
Record row_kept (row row' : ObservationRow) : Prop := {
  rk_invocation : same_invocation row row' = true;
  rk_contract : or_observer_contract_digest row' = or_observer_contract_digest row;
  rk_pre_event : or_pre_tool_guard_event_id row' = or_pre_tool_guard_event_id row;
  rk_pre_snapshot : or_pre_snapshot row' = or_pre_snapshot row;
  rk_started : or_started_at row' = or_started_at row;
  rk_closed : or_state row ≠ ObsOpen →
    or_state row' = or_state row ∧ or_post_snapshot row' = or_post_snapshot row
    ∧ or_delta row' = or_delta row ∧ or_unavailable_reason row' = or_unavailable_reason row;
  rk_reported : or_state row ≠ ObsOpen → is_some (or_post_tool_guard_event_id row) = true → row' = row;
}.

Lemma same_invocation_refl row : same_invocation row row = true.
Proof. unfold same_invocation. by rewrite !eqb_refl. Qed.

Lemma same_invocation_trans r1 r2 r3 :
  same_invocation r1 r2 = true → same_invocation r2 r3 = true → same_invocation r1 r3 = true.
Proof. unfold same_invocation. intros H1 H2. breflect.
  repeat match goal with H : _ = _ |- _ => rewrite H; clear H end. by rewrite !eqb_refl. Qed.

#[local] Instance row_kept_preorder : PreOrder row_kept.
Proof.
  split.
  - intros row. split; try done. apply same_invocation_refl.
  - intros r1 r2 r3 [] []. split; [by eapply same_invocation_trans|congruence..| |].
    + intros Hne. destruct (rk_closed0 Hne) as (Hs & ? & ? & ?).
      destruct rk_closed1 as (? & ? & ? & ?); [congruence|]. split_and!; congruence.
    + intros Hne Hp. pose proof (rk_reported0 Hne Hp) as ->. by apply rk_reported1.
Qed.

Definition rows_final t t' : Prop :=
  ∀ id row, ob_observations t !! id = Some row → ∃ row', ob_observations t' !! id = Some row' ∧ row_kept row row'.

Lemma rows_final_same t t' : ob_observations t' = ob_observations t → rows_final t t'.
Proof. intros E id row Hr. exists row. rewrite E. split; [done|reflexivity]. Qed.

Lemma rows_final_insert t t' id row' :
  ob_observations t' = <[id := row']> (ob_observations t) →
  (∀ row, ob_observations t !! id = Some row → row_kept row row') → rows_final t t'.
Proof.
  intros E Hk id' row Hr. rewrite E. destruct (decide (id' = id)) as [->|Hne].
  - exists row'. rewrite lookup_insert_eq. split; [done|by apply Hk].
  - exists row. rewrite lookup_insert_ne by done. split; [done|reflexivity].
Qed.

Lemma terminalized_kept row id input : or_state row = ObsOpen → row_kept row (terminalized_row row id input).
Proof. intros Hs. split; try done; [exact (same_invocation_refl row)|intros Hn; by destruct Hn..]. Qed.

Lemma post_commit_observations t input fields tool case t0 t1 columns json host t' :
  post_commit sha256 project_id t input fields tool case t0 t1 columns json host t' →
  ob_observations t'
  = <[po_repository_observation_id input := closed_row case fields tool input columns]> (ob_observations t).
Proof.
  intros [Hc Hh Ht _ _ ->]. apply terminal_frame in Ht as (_ & Ho & _). cbn. rewrite Ho.
  destruct case; [by subst t0..|]. by destruct Hh as (? & -> & _).
Qed.

Lemma closed_row_kept t input fields tool case t0 t1 columns json host t' row :
  post_commit sha256 project_id t input fields tool case t0 t1 columns json host t' →
  ob_observations t !! po_repository_observation_id input = Some row →
  row_kept row (closed_row case fields tool input columns).
Proof.
  intros [Hc _ _ _ _ _] Hr. apply post_case_row in Hc. destruct case as [row'|row'|].
  - destruct Hc as (Hr' & Hs & _). rewrite Hr in Hr'. injection Hr' as <-.
    split; try done; [exact (same_invocation_refl row)|intros Hn; by destruct Hn..].
  - destruct Hc as (Hr' & Hs & Hp & _). rewrite Hr in Hr'. injection Hr' as <-.
    split; try done; [exact (same_invocation_refl row)|]. intros _. by rewrite Hp.
  - destruct Hc as [Hn _]. congruence.
Qed.

Lemma step_rows_final t t' : observation_step t t' → rows_final t t'.
Proof.
  intros [? input t1 r Hs|? input t1 r Hs|? input t1 records Hs|change resolution at_ actor t1 Hs|host|tasks].
  - apply record_pre_effect in Hs as [->|(fields & tool & digest & Hn & Ho & _)]; [by apply rows_final_same|].
    eapply rows_final_insert; [exact Ho|]. intros row Hr. congruence.
  - apply record_post_effect in Hs as [->|(fields & tool & case & t0 & t2 & columns & json & host & Hp)];
      [by apply rows_final_same|].
    eapply rows_final_insert; [by eapply post_commit_observations|]. intros row Hr. by eapply closed_row_kept.
  - apply terminalize_rows in Hs as [_ Hrows]. intros id row Hr. rewrite Hrows, Hr. cbn.
    eexists. split; [done|]. destruct (terminalization_selects input row) eqn:E; [|reflexivity].
    apply terminalized_kept. unfold terminalization_selects in E. by breflect.
  - apply rows_final_same. by apply resolve_effect in Hs as (row & _ & ->).
  - by apply rows_final_same.
  - by apply rows_final_same.
Qed.

(** ** No change is lost *)

(** A changed path is accounted for by the expected write of its observation, or by an
    unrecorded change. *)
Definition accounted t id (p : ProductRelativePath) : Prop :=
  (∃ e matched, ob_expected_writes t !! id = Some e ∧ xw_matched_paths e = Some matched
                ∧ p ∈ matched ∧ p ∈ xw_expected_paths e)
  ∨ ∃ change c, ob_unrecorded_changes t !! change = Some c ∧ ur_repository_observation_id c = id
                ∧ p ∈ ur_observed_paths c.

Definition all_accounted t : Prop :=
  ∀ id row delta p, ob_observations t !! id = Some row → or_delta row = Some delta →
    p ∈ delta_paths delta → accounted t id p.

Lemma expected_read t id expected :
  expected_write_for_observation t id = Ok expected →
  match ob_expected_writes t !! id with
  | Some row => ∃ e, expected = Some e ∧ xe_expected_paths e = xw_expected_paths row
                     ∧ xe_task_id e = xw_task_id row ∧ xe_expected_write_id e = xw_expected_write_id row
                     ∧ xe_status e = xw_status row
  | None => expected = None
  end.
Proof.
  unfold expected_write_for_observation. destruct (ob_expected_writes t !! id) as [row|]; cbn.
  - intros H. peel H as e He. injection H as <-. exists e. split; [done|].
    unfold decode_expected_write in He. cbv zeta in He. do 4 apply ensure_bind in He as [_ He].
    peel He as c Hc. peel He as m Hm. apply ensure_bind in He as [_ He]. by injection He as <-.
  - by intros [= <-].
Qed.

Lemma terminal_accounts t id task at_ snapshot delta t' columns p :
  terminal_spec sha256 project_id t id task at_ (PostComplete snapshot delta) t' columns →
  p ∈ delta_paths delta → accounted t' id p.
Proof.
  intros Ht Hp. inversion Ht as [|? ? digest expected t1 t2 ms cs Hd He Hr Hu]; subst.
  destruct (decide (p ∈ covered_paths expected delta)) as [Hc|Hc].
  - left. apply unmatched_frame in Hu as (_ & _ & Hx & _). rewrite Hx.
    inversion Hr as [Hn|e row -> Hrow Hs Hne]; subst; [rewrite Hn in Hc; by apply elem_of_nil in Hc|].
    eexists _, _. cbn. rewrite lookup_insert_eq. split_and!; [done..|].
    apply elem_of_covered in Hc as [_ (e' & [= <-] & Hin)]. apply expected_read in He. rewrite Hrow in He.
    destruct He as (e' & [= <-] & Hxe & _). cbn. by rewrite <-Hxe.
  - right. assert (p ∈ unmatched_paths expected delta) as Hin by by apply elem_of_unmatched.
    inversion Hu as [Hn|digest' change Hne Hnone]; subst.
    { rewrite Hn in Hin. by apply elem_of_nil in Hin. }
    eexists _, _. cbn [ob_unrecorded_changes set_unrecorded_changes]. rewrite lookup_insert_eq.
    split_and!; [done|done|exact Hin].
Qed.

Lemma post_accounted t input fields tool case t0 t1 columns json host t' :
  post_commit sha256 project_id t input fields tool case t0 t1 columns json host t' →
  all_accounted t → all_accounted t'.
Proof.
  intros Hpc Hall id row delta p Hrow Hd Hp. pose proof (post_commit_observations _ _ _ _ _ _ _ _ _ _ _ Hpc) as Ho.
  destruct Hpc as [Hc Hh Ht _ _ ->]. rewrite Ho in Hrow. unfold accounted. cbn.
  assert (ob_expected_writes t0 = ob_expected_writes t ∧ ob_unrecorded_changes t0 = ob_unrecorded_changes t) as [Hx Hu].
  { destruct case; [by subst t0..|]. by destruct Hh as (? & -> & _). }
  destruct (decide (id = po_repository_observation_id input)) as [->|Hne].
  - rewrite lookup_insert_eq in Hrow. injection Hrow as <-. apply post_case_row in Hc.
    destruct (po_outcome input) as [snapshot d|reason] eqn:Eo.
    + assert (Some d = Some delta) as [= ->].
      { destruct case as [r|r|]; [|by destruct Hc as (_ & _ & _ & ? & ? & _)|by destruct Hc].
        rewrite <-Hd. by inversion Ht. }
      by eapply terminal_accounts.
    + assert (t1 = t0) as -> by by inversion Ht. rewrite Hx, Hu.
      destruct case as [r|r|]; [inversion Ht; subst; done| |done].
      destruct Hc as (Hr & _). by eapply Hall.
  - rewrite lookup_insert_ne in Hrow by done. apply terminal_frame in Ht as (_ & _ & _ & Hx' & Hu').
    rewrite Hx' by done. rewrite Hx. destruct (Hall _ _ _ _ Hrow Hd Hp) as [He|(c & r & Hr & Hi)]; [by left|].
    right. exists c, r. split; [|done]. apply Hu'. by rewrite Hu.
Qed.

Lemma step_accounted t t' : observation_step t t' → all_accounted t → all_accounted t'.
Proof.
  intros [? input t1 r Hs|? input t1 r Hs|? input t1 records Hs|change resolution at_ actor t1 Hs|host|tasks] Hall.
  - apply record_pre_effect in Hs as [->|(fields & tool & digest & Hn & Ho & Hu & Hx & Hxn)]; [done|].
    intros id row delta p Hrow Hd Hp. rewrite Ho in Hrow.
    destruct (decide (id = pi_repository_observation_id input)) as [->|Hne].
    { rewrite lookup_insert_eq in Hrow. injection Hrow as <-. done. }
    rewrite lookup_insert_ne in Hrow by done. destruct (Hall _ _ _ _ Hrow Hd Hp) as [(e & m & He & Hm)|Hc].
    + left. exists e, m. split; [|done]. rewrite Hx. by apply announced_keeps.
    + right. by rewrite Hu.
  - apply record_post_effect in Hs as [->|(fields & tool & case & t0 & t2 & columns & json & host & Hpc)]; [done|].
    by eapply post_accounted.
  - apply terminalize_rows in Hs as [Ho Hrows]. intros id row delta p Hrow Hd Hp. rewrite Hrows in Hrow.
    apply fmap_Some in Hrow as (row0 & Hrow0 & ->). unfold accounted. rewrite Ho. cbn.
    apply (Hall id row0 delta p Hrow0); [|done]. by destruct (terminalization_selects input row0).
  - apply resolve_effect in Hs as (row0 & Hr0 & ->). intros id row delta p Hrow Hd Hp.
    destruct (Hall id row delta p Hrow Hd Hp) as [He|(c & row' & Hc & Hi & Hin)]; [by left|]. right.
    exists c. cbn. destruct (decide (c = change)) as [->|Hne].
    + eexists. rewrite lookup_insert_eq. split; [done|]. rewrite Hr0 in Hc. by injection Hc as ->.
    + exists row'. by rewrite lookup_insert_ne.
  - exact Hall.
  - exact Hall.
Qed.

(** C26: No observed change is lost: in every history of a project that starts without
    observations, each path of each recorded delta is accounted for by the expected write
    of that invocation or by an unrecorded change of that invocation. *)
Theorem observed_changes_accounted t t' :
  ob_observations t = ∅ → rtc observation_step t t' → all_accounted t'.
Proof.
  intros He Hr. assert (all_accounted t) as H0.
  { intros id row delta p Hrow. by rewrite He, lookup_empty in Hrow. }
  clear He. induction Hr as [|t1 t2 t3 Hs _ IH]; [done|]. apply IH. by eapply step_accounted.
Qed.

(** A closed observation is final: whatever hooks, clean-ups and resolutions follow, its
    row keeps its invocation, its baseline, its outcome and its delta, and once the hook
    after the tool has reported, the row does not change at all; no row is ever removed. *)
Theorem closed_observation_final t t' :
  rtc observation_step t t' → rows_final t t'.
Proof.
  induction 1 as [t|t1 t2 t3 Hs _ IH]; [by apply rows_final_same|].
  intros id row Hr. destruct (step_rows_final _ _ Hs _ _ Hr) as (row2 & Hr2 & Hk).
  destruct (IH _ _ Hr2) as (row3 & Hr3 & Hk3). exists row3. split; [done|]. by transitivity row2.
Qed.
End histories.

(** ** The hook after the tool *)

Section post_hook.
Context `{HC : Chrono} `{HJ : GuardJson} `{HR : GuardRegistry}.
Variable sha256 : string → list ascii.
Variable project_id : string.

Implicit Types (t : ObservationTables) (id : string).

(** The checks that do not depend on the tables. *)
Record post_admitted (input : PostToolRepositoryObservationInsert) (fields : GuardCorrelationFields)
    (tool : CodexHookToolCorrelation) : Prop := {
  pa_input : validate_post_input sha256 project_id input = Ok tt;
  pa_owner : validate_guard_ownership project_id (po_guard_event input) = Ok (fields, tool);
  pa_id : repository_observation_id sha256 project_id (gi_connection_internal_id (po_guard_event input))
            (gf_session_id fields) (CodexHookTool tool) = Ok (po_repository_observation_id input);
  pa_open : open_guard_project project_id (gi_connection_internal_id (po_guard_event input)) = Ok tt;
}.

(** The record an operation returns from the tables it committed. *)
Record post_reads t' (input : PostToolRepositoryObservationInsert) (rec : PostToolRepositoryObservationRecord)
    : Prop := {
  ps_observation : repository_observation_from_conn sha256 project_id t' (po_repository_observation_id input)
                   = Ok (Some (pp_observation rec));
  ps_event : guard_event_by_conn project_id (ob_host t') (gi_guard_event_id (po_guard_event input))
             = Ok (pp_guard_event rec);
}.

Lemma post_case_replayed t fields tool input rec :
  post_case sha256 project_id t fields tool input = Ok (inr rec) → pp_replayed rec = true.
Proof.
  unfold post_case. cbv zeta. intros H. peel H as existing He. destruct existing as [r|].
  - destruct (ob_observations t !! _) as [row|]; [|by destruct (po_outcome input) as [|[]]].
    destruct (rc_post_tool_guard_event_id r).
    + peel H as ev Hev. peel H as m Hm. destruct m; [|done]. peel H as x Hx. by injection H as <-.
    + peel H as c Hc. by destruct (_ || _).
  - by destruct (po_outcome input) as [|[]].
Qed.

Lemma record_post_ok t input t' rec :
  record_post_tool_repository_observation sha256 project_id t input = (t', Ok rec) →
  ∃ fields tool, post_admitted input fields tool
    ∧ (t' = t ∧ pp_replayed rec = true ∧ post_case sha256 project_id t fields tool input = Ok (inr rec)
       ∨ ∃ case t0 t1 columns json host,
           post_commit sha256 project_id t input fields tool case t0 t1 columns json host t'
           ∧ pp_replayed rec = false ∧ pp_result rec = tc_result columns ∧ post_reads t' input rec).
Proof.
  unfold record_post_tool_repository_observation. cbv zeta.
  case_outcome H; [destruct x as [t1 result_]|..]; intros Heq; [| |by discriminate Heq].
  all: peel H as [] Hu; peel H as [fields tool] Ho; peel H as eid Hid.
  all: apply ensure_bind in H as [Heid H]; apply (proj1 (neqb_false _ _)) in Heid; subst eid; peel H as [] Hv; peel H as case Hc.
  all: exists fields, tool; split; [by split|].
  - right. destruct case as [case|]; [|done]. peel H as committed Hp. injection H as ->.
    apply (post_transaction_spec _ _ _ _ _ _ _ _ _ Hc) in Hp as (t0 & t2 & columns & json & host & Hp & ->).
    injection Heq as <- Heq. exists case, t0, t2, columns, json, host. split; [done|].
    peel Heq as obs Hobs. peel Heq as o Hoo. peel Heq as ev Hev. injection Heq as <-.
    destruct obs as [obs|]; [|done]. injection Hoo as ->. split_and!; [done..|by split].
  - left. destruct case as [case|rec']; [by peel H as committed Hp|]. injection H as ->.
    injection Heq as <- <-. split_and!; [done| |done]. by eapply post_case_replayed.
Qed.

(** C27: The hook after the tool splits the delta exactly: the matched paths it reports are
    the changed paths the expected write announced, the unrecorded ones are all the others;
    the observation becomes complete with that delta; the unrecorded paths are stored as one
    new unresolved change of the Task the write was announced for; and no other observation
    changes. *)
Theorem post_hook_splits_delta t input t' rec snapshot delta :
  record_post_tool_repository_observation sha256 project_id t input = (t', Ok rec) →
  pp_replayed rec = false → po_outcome input = PostComplete snapshot delta →
  let id := po_repository_observation_id input in
  let expected := ob_expected_writes t !! id in
  let matched := concat (mr_matched_paths <$> rr_expected_write_matches (pp_result rec)) in
  let observed := concat (uc_observed_paths <$> rr_unrecorded_changes (pp_result rec)) in
  (∀ p, p ∈ matched ↔ p ∈ delta_paths delta ∧ ∃ row, expected = Some row ∧ p ∈ xw_expected_paths row)
  ∧ (∀ p, p ∈ observed ↔ p ∈ delta_paths delta ∧ p ∉ matched)
  ∧ (∃ row, ob_observations t' !! id = Some row ∧ or_state row = ObsComplete
            ∧ or_delta row = Some delta ∧ or_post_snapshot row = Some snapshot)
  ∧ (∀ id', id' ≠ id → ob_observations t' !! id' = ob_observations t !! id')
  ∧ (observed = [] → ob_unrecorded_changes t' = ob_unrecorded_changes t)
  ∧ (observed ≠ [] → ∃ change c,
       ob_unrecorded_changes t !! change = None
       ∧ ob_unrecorded_changes t' = <[change := c]> (ob_unrecorded_changes t)
       ∧ unresolved c = true ∧ ur_repository_observation_id c = id ∧ ur_observed_paths c = observed
       ∧ ur_task_id c = match expected with Some row => Some (xw_task_id row) | None => po_task_id input end).
Proof.
  intros H Hfresh Hout id expected matched observed.
  apply record_post_ok in H as (fields & tool & Ha & [(_ & Hr & _)|(case & t0 & t1 & columns & json & host & Hpc & _ & Hres & _)]);
    [congruence|].
  pose proof (post_commit_observations _ _ _ _ _ _ _ _ _ _ _ _ _ Hpc) as Hobs.
  destruct Hpc as [Hc Hh Ht _ _ ->]. rewrite Hout in Ht. apply post_case_row in Hc. rewrite Hout in Hc.
  destruct case as [row|row|]; [|by destruct Hc as (_ & _ & _ & ? & ? & _)|by destruct Hc].
  subst t0. inversion Ht as [|? ? digest xe t2 t3 ms cs Hd He Hrc Hum]; subst t3 columns.
  apply expected_read in He. unfold matched, observed. rewrite Hres. clear matched observed. cbn in Hobs |- *.
  assert (∀ p, p ∈ covered_paths xe delta
            ↔ p ∈ delta_paths delta ∧ ∃ row, expected = Some row ∧ p ∈ xw_expected_paths row) as Hcov.
  { intros p. rewrite elem_of_covered. unfold expected, id. destruct (ob_expected_writes t !! _) as [r|].
    - destruct He as (e & -> & Hxe & _).
      split; intros [Hp (x & [= <-] & Hin)]; (split; [done|]); eexists; split; [done|congruence|done|congruence].
    - subst xe. split; by intros [_ (? & ? & _)]. }
  assert (∀ p, p ∈ concat (mr_matched_paths <$> ms) ↔ p ∈ covered_paths xe delta) as Hms.
  { intros p. destruct Hrc as [->|e r -> ? ? ?]; cbn; [done|]. by rewrite app_nil_r. }
  assert (concat (uc_observed_paths <$> cs) = unmatched_paths xe delta) as Hcs.
  { destruct Hum as [->|]; cbn; [done|]. by rewrite app_nil_r. }
  rewrite Hcs. split_and!.
  - intros p. by rewrite Hms, Hcov.
  - intros p. by rewrite elem_of_unmatched, Hms.
  - eexists. rewrite Hobs, lookup_insert_eq. done.
  - intros id' Hne. by rewrite Hobs, lookup_insert_ne.
  - intros Hnil. apply reconciled_frame in Hrc as (_ & _ & <- & _). destruct Hum; [done|congruence].
  - intros Hne. apply reconciled_frame in Hrc as (_ & _ & Hu & _).
    destruct Hum as [|dg ch _ Hn]; [congruence|]. exists ch. eexists. rewrite <-Hu. split_and!; [done..|].
    cbn. unfold expected, id. destruct (ob_expected_writes t !! _) as [r|].
    + destruct He as (e & -> & _ & -> & _). done.
    + by subst xe.
Qed.

(** ** Replay *)

Lemma insert_guard_event_eq host fields event host' :
  insert_guard_event_in_transaction host fields event = Ok host' →
  host' = set_events host (<[gi_guard_event_id event := guard_event_row fields event]> (hb_events host)).
Proof.
  unfold insert_guard_event_in_transaction. intros H. do 3 apply ensure_bind in H as [_ H]. by injection H as <-.
Qed.

(** The event read back is the one inserted, up to the correlation it is joined with. *)
Lemma inserted_event_matches host fields event host' ev :
  insert_guard_event_in_transaction host fields event = Ok host' →
  guard_event_by_conn project_id host' (gi_guard_event_id event) = Ok ev →
  gv_correlation ev = gi_correlation event →
  guard_event_matches_insert project_id ev fields event (gi_result_json event) = true.
Proof.
  intros ->%insert_guard_event_eq. unfold guard_event_by_conn, guard_event_from_conn. cbn [hb_events set_events].
  rewrite lookup_insert_eq. intros H Hc. peel H as o Ho. peel Ho as e He. injection Ho as <-. injection H as ->.
  unfold guard_event_from_row in He. peel He as c Hco. injection He as <-. cbn in Hc. subst c.
  unfold guard_event_matches_insert, guard_event_row. cbn. by rewrite !eqb_refl.
Qed.

Lemma owner_correlation event fields tool :
  validate_guard_ownership project_id event = Ok (fields, tool) →
  gi_correlation event = Some (CodexHookTool tool) ∧ gf_host_turn_id fields = ctc_turn_id tool
  ∧ gf_host_tool_use_id fields = Some (ctc_tool_use_id tool)
  ∧ gf_host_tool_name fields = Some (ctc_tool_name tool).
Proof.
  unfold validate_guard_ownership. intros H. peel H as u Hu. peel H as i Hi. peel H as j Hj. peel H as m Hm.
  destruct (_ || _); [done|]. destruct (gi_correlation event) as [[| |tool']|]; try done.
  peel H as f Hf. injection H as -> ->. unfold guard_correlation_fields in Hf.
  peel Hf as [sid rev] Hs. by injection Hf as <-.
Qed.

(** The links a readable observation has to its events. *)
Lemma readable_post_event t rec eid :
  validate_repository_observation_relationships sha256 project_id t rec = Ok tt →
  rc_post_tool_guard_event_id rec = Some eid →
  ∃ ev, guard_event_from_conn project_id (ob_host t) eid = Ok (Some ev)
        ∧ gv_correlation ev = Some (rc_correlation rec)
        ∧ ∀ pid, rc_pre_tool_guard_event_id rec = Some pid →
            ∃ pre, guard_event_from_conn project_id (ob_host t) pid = Ok (Some pre)
                   ∧ gv_correlation pre = Some (rc_correlation rec) ∧ events_consistent pre ev = true.
Proof.
  assert (∀ e kind field ev, linked_guard_event project_id (ob_host t) rec e kind field = Ok ev →
    guard_event_from_conn project_id (ob_host t) e = Ok (Some ev)
    ∧ gv_correlation ev = Some (rc_correlation rec)) as Hlink.
  { intros e kind field ev H. unfold linked_guard_event in H. peel H as o Ho. apply map_err_Ok in Ho.
    peel H as x Hx. destruct o as [o|]; [|done]. injection Hx as ->.
    destruct (_ || _) eqn:E; [done|]. injection H as ->. split; [done|].
    repeat (apply orb_false_iff in E as [E ?]).
    by match goal with H : (gv_correlation _ <>? _) = false |- _ => apply (proj1 (neqb_false _ _)) in H end. }
  unfold validate_repository_observation_relationships. cbv zeta. intros H Hp. rewrite Hp in H.
  peel H as pre Hpre. peel H as post Hpost. cbn in Hpost. peel Hpost as ev Hev. injection Hpost as <-.
  destruct (Hlink _ _ _ _ Hev) as [Hc Hco]. exists ev. split_and!; [done..|]. intros pid Hpid.
  rewrite Hpid in Hpre. cbn in Hpre. peel Hpre as pe Hpe. injection Hpre as <-.
  destruct (Hlink _ _ _ _ Hpe) as [Hc' Hco']. exists pe. split_and!; [done..|].
  by apply ensure_bind in H as [Hn%negb_false_iff _].
Qed.

Lemma post_case_record t fields tool input case :
  post_case sha256 project_id t fields tool input = Ok (inl case) → case ≠ CloseMissing →
  ∃ rec, repository_observation_from_conn sha256 project_id t (po_repository_observation_id input) = Ok (Some rec)
    ∧ rc_connection_internal_id rec = gi_connection_internal_id (po_guard_event input)
    ∧ rc_session_id rec = gf_session_id fields
    ∧ rc_guard_installation_id rec = gi_guard_installation_id (po_guard_event input)
    ∧ rc_observer_contract_digest rec = po_observer_contract_digest input
    ∧ rc_correlation rec = CodexHookTool tool.
Proof.
  intros H Hne. unfold post_case in H. cbv zeta in H. peel H as existing He.
  assert (match po_outcome input with
          | PostUnavailable MissingOpenObservation => Ok (inl CloseMissing)
          | _ => Err (NotFound "repository_observation" (po_repository_observation_id input))
          end ≠ (Ok (inl case) : result (PostCase + PostToolRepositoryObservationRecord) StoreError)) as Hno.
  { intros E. destruct (po_outcome input) as [|[]]; try done. by injection E as <-. }
  destruct existing as [rec|]; [|by destruct Hno].
  destruct (ob_observations t !! _) as [row|]; [|by destruct Hno]. exists rec. split; [done|].
  destruct (rc_post_tool_guard_event_id rec) as [pe|].
  { peel H as ev Hev. peel H as m Hm. destruct m; [|done]. by peel H as r Hr. }
  peel H as c Hc. destruct (_ || _) eqn:E; [done|].
  repeat (apply orb_false_iff in E as [E ?]).
  split_and!; by apply neqb_false.
Qed.

Lemma establish_session_joined host session revision connection hsid at_ host' :
  establish_session sha256 project_id host session revision connection hsid at_ = Ok host' →
  joined_host_session_id host' (Some session) connection = Some hsid.
Proof.
  unfold establish_session. intros H. peel H as existing He. destruct existing as [row|].
  - destruct (_ || _) eqn:E; [done|]. peel H as f Hf. peel H as l Hl. unfold write_session in H.
    apply ensure_bind in H as [_ H]. injection H as <-.
    apply orb_false_iff in E as [[E1 _]%orb_false_iff E3].
    apply (proj1 (neqb_false _ _)) in E1, E3. subst.
    unfold joined_host_session_id. cbn. rewrite lookup_insert_eq. cbn. by rewrite eqb_refl.
  - unfold write_session in H. apply ensure_bind in H as [_ H]. injection H as <-.
    unfold joined_host_session_id. cbn. rewrite lookup_insert_eq. cbn. by rewrite eqb_refl.
Qed.

Lemma establish_joined host session revision connection tool at_ host' :
  establish_host_correlation sha256 project_id host session revision connection (CodexHookTool tool) at_ = Ok host' →
  joined_host_session_id host' (Some session) connection = Some (ctc_session_id tool).
Proof.
  unfold establish_host_correlation. intros H. peel H as h1 H1. peel H as h2 H2.
  apply establish_session_joined in H1. cbn in H1. rewrite <-H1.
  assert (hb_sessions h2 = hb_sessions h1) as E2.
  { unfold establish_turn, write_turn in H2. destruct (hb_turns h1 !! _) as [row|].
    - destruct (_ <>? _); [done|]. peel H2 as f Hf. peel H2 as l Hl. apply ensure_bind in H2 as [_ H2]. by injection H2 as <-.
    - apply ensure_bind in H2 as [_ H2]. by injection H2 as <-. }
  assert (hb_sessions host' = hb_sessions h2) as E3.
  { unfold establish_tool, write_tool in H. destruct (hb_tools h2 !! _) as [row|].
    - destruct (_ || _); [done|]. peel H as l Hl. apply ensure_bind in H as [_ H]. by injection H as <-.
    - apply ensure_bind in H as [_ H]. by injection H as <-. }
  unfold joined_host_session_id. by rewrite E3, E2.
Qed.

(** The closed row carries the coordinates of the hook. *)
Record row_of_hook (row : ObservationRow) (fields : GuardCorrelationFields) (tool : CodexHookToolCorrelation)
    (input : PostToolRepositoryObservationInsert) : Prop := {
  rh_session : or_session_id row = gf_session_id fields;
  rh_connection : or_connection_internal_id row = gi_connection_internal_id (po_guard_event input);
  rh_installation : or_guard_installation_id row = gi_guard_installation_id (po_guard_event input);
  rh_contract : or_observer_contract_digest row = po_observer_contract_digest input;
  rh_turn : or_host_turn_id row = ctc_turn_id tool;
  rh_tool_use : or_host_tool_use_id row = ctc_tool_use_id tool;
  rh_tool_name : or_host_tool_name row = ctc_tool_name tool;
}.

Lemma closed_row_of_hook t input fields tool case t0 t1 columns json host t' :
  post_commit sha256 project_id t input fields tool case t0 t1 columns json host t' →
  row_of_hook (closed_row case fields tool input columns) fields tool input
  ∧ joined_host_session_id (ob_host t') (Some (gf_session_id fields))
      (gi_connection_internal_id (po_guard_event input)) = Some (ctc_session_id tool).
Proof.
  intros [Hc Hh Ht _ He ->]. apply terminal_frame in Ht as (Hhost & _). apply insert_guard_event_eq in He.
  assert (hb_sessions host = hb_sessions (ob_host t0)) as Hs by (subst host; cbn; by rewrite Hhost).
  unfold joined_host_session_id. cbn [ob_host set_observations set_host]. rewrite Hs.
  destruct case as [row|row|]; cycle 2.
  { split; [by split|]. destruct Hh as (host0 & -> & Hest). by apply establish_joined in Hest. }
  all: subst t0; destruct (post_case_record _ _ _ _ _ Hc) as (rec & Hr & Hcn & Hse & Hin & Hco & Hcor); [done|].
  all: apply read_spec in Hr as (row' & Hr' & Hd & _); apply post_case_row in Hc as (Hrow & _).
  all: rewrite Hrow in Hr'; injection Hr' as <-.
  all: destruct Hd as [_ D1 D2 D3 D4 _ _ _ _ _ _ _ _ _ _ (hs & Hj & Hrc)]; rewrite Hrc in Hcor.
  all: unfold joined_host_session_id in Hj; rewrite <-D1, <-D2, Hse, Hcn in Hj; rewrite Hj.
  all: injection Hcor as <-; split; [split; cbn; congruence|done].
Qed.

Lemma committed_record t input fields tool case t0 t1 columns json host t' rec :
  post_commit sha256 project_id t input fields tool case t0 t1 columns json host t' →
  repository_observation_from_conn sha256 project_id t' (po_repository_observation_id input) = Ok (Some rec) →
  decoded (ob_host t') (po_repository_observation_id input) (closed_row case fields tool input columns) rec
  ∧ validate_repository_observation_relationships sha256 project_id t' rec = Ok tt
  ∧ rc_correlation rec = CodexHookTool tool.
Proof.
  intros Hp Hr. destruct (closed_row_of_hook _ _ _ _ _ _ _ _ _ _ _ Hp) as [[R1 R2 _ _ R5 R6 R7] Hj].
  apply read_spec in Hr as (row & Hrow & Hd & Hv).
  rewrite (post_commit_observations _ _ _ _ _ _ _ _ _ _ _ _ _ Hp), lookup_insert_eq in Hrow.
  injection Hrow as <-. split_and!; [done..|]. destruct (dc_correlation _ _ _ _ Hd) as (hs & Hj' & ->).
  rewrite R1, R2, Hj in Hj'. injection Hj' as <-. rewrite R5, R6, R7. by destruct tool.
Qed.

(** The outcome the closed row records. *)
Lemma closed_outcome t input fields tool case t0 t1 columns json host t' :
  post_commit sha256 project_id t input fields tool case t0 t1 columns json host t' →
  let row := closed_row case fields tool input columns in
  match po_outcome input with
  | PostComplete snapshot delta =>
      or_state row = ObsComplete ∧ or_post_snapshot row = Some snapshot ∧ or_delta row = Some delta
      ∧ or_unavailable_reason row = None
  | PostUnavailable reason => or_state row = ObsUnavailable ∧ or_unavailable_reason row = Some reason
  end.
Proof.
  intros [Hc _ Ht _ _ _]. apply post_case_row in Hc.
  destruct (po_outcome input) as [snapshot delta|reason]; inversion Ht; subst.
  - destruct case as [row|row|]; [done|by destruct Hc as (_ & _ & _ & ? & ? & _)|by destruct Hc].
  - destruct case as [row|row|]; [done| |done].
    destruct Hc as (_ & Hs & _ & r & [= <-] & Hr). cbn. done.
Qed.

Lemma replay_admitted t input fields tool rec :
  post_admitted input fields tool → post_case sha256 project_id t fields tool input = Ok (inr rec) →
  record_post_tool_repository_observation sha256 project_id t input = (t, Ok rec).
Proof.
  intros [H1 H2 H3 H4] Hc. unfold record_post_tool_repository_observation. cbv zeta.
  rewrite H1, H2, H3, (proj2 (neqb_false _ _) eq_refl), H4, Hc. done.
Qed.

Lemma committed_replays t input fields tool case t0 t1 columns json host t' rec :
  post_admitted input fields tool →
  post_commit sha256 project_id t input fields tool case t0 t1 columns json host t' →
  pp_result rec = tc_result columns → post_reads t' input rec →
  post_case sha256 project_id t' fields tool input
  = Ok (inr (MkPostRecord (pp_guard_event rec) (pp_observation rec) (pp_result rec) true)).
Proof.
  intros Ha Hp Hres [Ho He]. destruct (committed_record _ _ _ _ _ _ _ _ _ _ _ _ Hp Ho) as (Hd & Hv & Hcor).
  pose proof (closed_outcome _ _ _ _ _ _ _ _ _ _ _ Hp) as Hout. cbv zeta in Hout.
  destruct (closed_row_of_hook _ _ _ _ _ _ _ _ _ _ _ Hp) as [[R1 R2 R3 R4 _ _ _] _].
  assert (or_post_tool_guard_event_id (closed_row case fields tool input columns)
          = Some (gi_guard_event_id (po_guard_event input))
          ∧ or_terminal_result (closed_row case fields tool input columns) = Some (tc_result columns)
          ∧ or_metadata (closed_row case fields tool input columns) = po_metadata input) as (Cp & Ct & Cm)
    by by destruct case.
  pose proof (post_commit_observations _ _ _ _ _ _ _ _ _ _ _ _ _ Hp) as Hobs.
  remember (closed_row case fields tool input columns) as row eqn:Erow.
  destruct Hd as [D0 D1 D2 D3 D4 _ D5 D6 _ D7 D8 D9 D10 D11 _ _].
  unfold post_case. rewrite Ho, Hobs, lookup_insert_eq. cbv zeta. rewrite D5, Cp, He.
  unfold post_tool_replay_matches. cbv zeta.
  rewrite D1, D2, D3, D4, D5, D6, D7, D8, D9, D10, D11, R1, R2, R3, R4, Cp, Ct, Cm, Hcor, !eqb_refl.
  assert (match po_outcome input, or_state row with
          | PostComplete post_snapshot delta, ObsComplete =>
              (or_post_snapshot row =? Some post_snapshot) && (or_delta row =? Some delta)
              && is_none (or_unavailable_reason row)
          | PostUnavailable reason, ObsUnavailable => or_unavailable_reason row =? Some reason
          | _, _ => false
          end = true) as ->.
  { destruct (po_outcome input) as [snapshot delta|reason].
    - destruct Hout as (-> & -> & -> & ->). by rewrite !eqb_refl.
    - destruct Hout as (-> & ->). by rewrite eqb_refl. }
  cbn [andb negb ok_or]. rewrite (pc_result _ _ _ _ _ _ _ _ _ _ _ _ _ Hp).
  rewrite <-D5 in Cp. destruct (readable_post_event _ _ _ Hv Cp) as (ev & Hev & Hevc & _).
  pose proof He as He'. unfold guard_event_by_conn in He'. rewrite Hev in He'. injection He' as ->.
  destruct (owner_correlation _ _ _ (pa_owner _ _ _ Ha)) as [Hgc _].
  pose proof (pc_event _ _ _ _ _ _ _ _ _ _ _ _ _ Hp) as Hins. pose proof (pc_tables _ _ _ _ _ _ _ _ _ _ _ _ _ Hp) as Ht.
  assert (ob_host t' = host) as Hh by by rewrite Ht. rewrite Hh in He.
  pose proof (inserted_event_matches _ _ _ _ _ Hins He) as Hm.
  unfold guard_event_matches_insert in Hm |- *. cbn in Hm |- *. rewrite Hm; [by rewrite Hres|].
  by rewrite Hevc, Hcor, Hgc.
Qed.

(** C29: The hook after the tool can be repeated: when it reported a result, the same call
    on the tables it left returns the same event, observation and result again, marked as a
    replay, and changes nothing. *)
Theorem post_hook_replays t input t' rec :
  record_post_tool_repository_observation sha256 project_id t input = (t', Ok rec) →
  record_post_tool_repository_observation sha256 project_id t' input
  = (t', Ok (MkPostRecord (pp_guard_event rec) (pp_observation rec) (pp_result rec) true)).
Proof.
  intros H. pose proof H as H'.
  apply record_post_ok in H as (fields & tool & Ha & [(-> & Hr & _)|(case & t0 & t1 & columns & json & host & Hpc & _ & Hres & Hrd)]).
  - rewrite H'. do 2 f_equal. destruct rec. cbn in *. by subst.
  - eapply replay_admitted; [exact Ha|]. by eapply committed_replays.
Qed.

(** ** Times compared as text *)

Lemma event_read_row host eid row ev :
  hb_events host !! eid = Some row → guard_event_from_conn project_id host eid = Ok (Some ev) →
  gv_occurred_at ev = gw_occurred_at row ∧ gv_policy_hash ev = gw_policy_hash row
  ∧ gv_integration_revision ev = gw_integration_revision row.
Proof.
  unfold guard_event_from_conn. intros -> H. peel H as e He. injection H as ->.
  unfold guard_event_from_row in He. peel He as c Hc. by injection He as <-.
Qed.

(** A readable observation has events that agree. *)
Lemma readable_events_agree t id row rec pre_id post_id pre_row post_row :
  ob_observations t !! id = Some row → or_pre_tool_guard_event_id row = Some pre_id →
  or_post_tool_guard_event_id row = Some post_id →
  hb_events (ob_host t) !! pre_id = Some pre_row → hb_events (ob_host t) !! post_id = Some post_row →
  repository_observation_from_conn sha256 project_id t id = Ok (Some rec) →
  text_ordered (gw_occurred_at pre_row) (gw_occurred_at post_row) = true.
Proof.
  intros Hrow Hpre Hpost Hpr Hpo (row' & Hrow' & Hd & Hv)%read_spec. rewrite Hrow in Hrow'.
  injection Hrow' as <-. rewrite <-(dc_post_event _ _ _ _ Hd) in Hpost.
  destruct (readable_post_event _ _ _ Hv Hpost) as (post & Hpost' & _ & Hall).
  destruct (Hall pre_id) as (pre & Hprev & _ & Hcons); [by rewrite (dc_pre_event _ _ _ _ Hd)|].
  apply (event_read_row _ _ _ _ Hpr) in Hprev as (P1 & _). apply (event_read_row _ _ _ _ Hpo) in Hpost' as (Q1 & _).
  unfold events_consistent in Hcons. rewrite P1, Q1 in Hcons. by apply andb_true_iff in Hcons as [_ ?].
Qed.

(** The same report with another time. *)
Definition event_at_time (event : GuardEventInsert) (text : string) : GuardEventInsert :=
  MkGuardEventInsert (gi_guard_event_id event) (gi_correlation event) (gi_connection_internal_id event)
    (gi_guard_installation_id event) (gi_policy_hash event) (gi_integration_revision event)
    (gi_event_kind event) (gi_contract_status event) (gi_decision event) (gi_subject_json event)
    (gi_result_json event) text (gi_metadata_json event).

Definition at_time (input : PostToolRepositoryObservationInsert) (text : string)
    : PostToolRepositoryObservationInsert :=
  MkPostInsert (event_at_time (po_guard_event input) text) (po_repository_observation_id input)
    (po_observer_contract_digest input) (po_outcome input) (po_task_id input) (po_metadata input).

Lemma ownership_at_time event text fields tool :
  validate_timestamp_text "occurred_at" text = Ok tt →
  validate_guard_ownership project_id event = Ok (fields, tool) →
  validate_guard_ownership project_id (event_at_time event text) = Ok (fields, tool).
Proof.
  intros Ht H. unfold validate_guard_ownership in *. peel H as [] Hv. rewrite <-H.
  assert (validate_guard_event_insert (event_at_time event text) = Ok tt) as ->; [|done].
  unfold validate_guard_event_insert in *. cbn -[contains].
  repeat first [apply ensure_bind in Hv as [Hx Hv]; rewrite Hx; clear Hx; cbn -[contains]
               |let u := fresh in let Hx := fresh in peel Hv as u Hx;
                first [rewrite Hx|rewrite Ht]; clear u Hx; cbn -[contains]].
  done.
Qed.

Lemma case_at_time t fields tool input text case :
  post_case sha256 project_id t fields tool input = Ok (inl case) →
  post_case sha256 project_id t fields tool (at_time input text) = Ok (inl case).
Proof.
  unfold post_case. cbn. intros H. peel H as existing He. rewrite He. cbn.
  destruct existing as [rec|]; [|done]. destruct (ob_observations t !! _) as [row|]; [|done].
  destruct (rc_post_tool_guard_event_id rec) as [pe|]; [|done].
  peel H as ev Hev. peel H as m Hm. destruct m; [|done]. by peel H as r Hr.
Qed.

Lemma terminal_at_time t id outcome task at1 at2 t1 columns :
  terminal_result_in_transaction sha256 project_id t id outcome task at1 = Ok (t1, columns) →
  ∃ t2, terminal_result_in_transaction sha256 project_id t id outcome task at2 = Ok (t2, columns)
    ∧ ob_host t2 = ob_host t1 ∧ ob_observations t2 = ob_observations t1.
Proof.
  unfold terminal_result_in_transaction. destruct outcome as [snapshot delta|reason].
  2: { intros [= <- <-]. by exists t. }
  intros H. peel H as digest Hd. rewrite Hd. cbn. peel H as expected He. rewrite He. cbn.
  peel H as [t3 matches_] Hr. peel H as [t4 changes_] Hu. injection H as <- <-.
  assert (∃ t5, reconcile_expected_write t id expected delta at2 = Ok (t5, matches_)
    ∧ ob_host t5 = ob_host t3 ∧ ob_observations t5 = ob_observations t3 ∧ ob_tasks t5 = ob_tasks t3
    ∧ ob_unrecorded_changes t5 = ob_unrecorded_changes t3) as (t5 & -> & Hh & Ho & Ht & Hc).
  { unfold reconcile_expected_write in *. destruct expected as [e|]; [|injection Hr as <- <-; by exists t].
    destruct (list_is_empty _); [injection Hr as <- <-; by exists t|].
    destruct (ob_expected_writes t !! id) as [row|]; [|done]. destruct (_ <>? _); [done|].
    injection Hr as <- <-. eexists. by split_and!. }
  cbn. unfold record_unmatched in *. destruct (list_is_empty _).
  { injection Hu as <- <-. cbn. eexists. by split_and!. }
  peel Hu as t6 Hi. injection Hu as <- <-. unfold insert_unrecorded_row in *. cbn [ur_task_id
    ur_repository_observation_id ur_unmatched_delta_digest ur_summary ur_observed_paths
    unrecorded_change_row] in *. rewrite Ho, Ht, Hc.
  apply ensure_bind in Hi as [E1 Hi]. apply ensure_bind in Hi as [E2 Hi].
  apply ensure_bind in Hi as [E3 Hi]. injection Hi as <-. rewrite E1, E2, E3. cbn.
  eexists. by split_and!.
Qed.

Lemma event_owned_at_time host fields event text row event_id :
  event_owned (set_events host (<[gi_guard_event_id event := guard_event_row fields (event_at_time event text)]>
    (hb_events host))) row event_id
  = event_owned (set_events host (<[gi_guard_event_id event := guard_event_row fields event]>
      (hb_events host))) row event_id.
Proof.
  destruct event_id as [id|]; [|done]. cbn. destruct (decide (id = gi_guard_event_id event)) as [->|Hne].
  - by rewrite !lookup_insert_eq.
  - by rewrite !lookup_insert_ne.
Qed.

Lemma transaction_at_time t case fields tool input text t' result_ :
  case ≠ CloseMissing →
  post_tool_transaction sha256 project_id t case fields tool input = Ok (t', result_) →
  ∃ t2, post_tool_transaction sha256 project_id t case fields tool (at_time input text) = Ok (t2, result_).
Proof.
  intros Hne H. unfold post_tool_transaction in *.
  assert (∀ x y : result ObservationTables StoreError, match case with CloseMissing => x | _ => y end = y)
    as Hcase by by destruct case.
  rewrite Hcase in H |- *. cbn in H |- *. peel H as [t1 columns] H1.
  apply (terminal_at_time _ _ _ _ _ text) in H1 as (t2 & H2 & Hh & Ho). cbn in H2 |- *. rewrite H2. cbn.
  peel H as json Hj. rewrite Hj. cbn. peel H as host Hins. peel H as t3 Hw. injection H as <- <-.
  pose proof (insert_guard_event_eq _ _ _ _ Hins) as Hhost. rewrite Hh.
  unfold insert_guard_event_in_transaction in *. cbn in Hins |- *.
  do 3 (apply ensure_bind in Hins as [?E Hins]). rewrite E, E0, E1. cbn.
  rewrite Hcase in Hw. rewrite Hcase. unfold write_observation in *.
  do 3 (apply ensure_bind in Hw as [?E Hw]). cbn [ob_host ob_observations set_host] in *. rewrite Ho.
  match goal with |- context [ensure ?b _] => assert (b = false) as -> by by destruct case end. cbn [ensure].
  match goal with |- context [ensure ?b _] => assert (b = false) as -> by by destruct case end. cbn [ensure].
  match goal with |- context [ensure ?b _] => assert (b = false) as -> end; [|by eexists].
  rewrite <-E4, Hhost. change (with_result (event_at_time (po_guard_event input) text) json)
    with (event_at_time (with_result (po_guard_event input) json) text).
  pose proof (event_owned_at_time (ob_host t1) fields (with_result (po_guard_event input) json) text) as Hev.
  cbn [gi_guard_event_id with_result] in Hev |- *. rewrite !Hev. by destruct case.
Qed.

(** A report that committed, with another time, commits as well. *)
Lemma committed_at_time t input t1 rec row text :
  record_post_tool_repository_observation sha256 project_id t input = (t1, Ok rec) →
  pp_replayed rec = false → ob_observations t !! po_repository_observation_id input = Some row →
  validate_timestamp_text "occurred_at" text = Ok tt →
  ∃ fields tool case t0 t2 columns json host t',
    (record_post_tool_repository_observation sha256 project_id t (at_time input text)).1 = t'
    ∧ case ≠ CloseMissing
    ∧ post_commit sha256 project_id t (at_time input text) fields tool case t0 t2 columns json host t'.
Proof.
  unfold record_post_tool_repository_observation at 1. cbv zeta. intros H0 Hrep Hrow Htext. revert H0.
  case_outcome H; [destruct x as [t3 result_]|..]; intros Heq; [| |by discriminate Heq].
  2: { peel H as [] Hu. peel H as [fields tool] Ho. peel H as eid Hid. apply ensure_bind in H as [_ H].
       peel H as [] Hv. peel H as case Hc. destruct case as [case|rec']; [by peel H as committed Hp|].
       injection H as ->. injection Heq as _ <-. apply post_case_replayed in Hc. congruence. }
  clear Heq. peel H as [] Hu. peel H as [fields tool] Ho. peel H as eid Hid. apply ensure_bind in H as [Heid H].
  peel H as [] Hv. peel H as case Hc. destruct case as [case|]; [|done]. peel H as committed Hp.
  injection H as ->.
  assert (case ≠ CloseMissing) as Hne.
  { intros ->. apply post_case_row in Hc as [Hn _]. congruence. }
  destruct (transaction_at_time _ _ _ _ _ text _ _ Hne Hp) as (t' & Hp').
  pose proof (case_at_time _ _ _ _ text _ Hc) as Hc'.
  destruct (post_transaction_spec _ _ _ _ _ _ _ _ _ Hc' Hp') as (t0 & t2 & columns & json & host & Hpc & _).
  exists fields, tool, case, t0, t2, columns, json, host, t'. split_and!; [|done|done].
  unfold record_post_tool_repository_observation. cbv zeta.
  change (validate_post_input sha256 project_id (at_time input text))
    with (validate_post_input sha256 project_id input). rewrite Hu. cbn [po_guard_event at_time].
  rewrite (ownership_at_time _ _ _ _ Htext Ho). cbn [gi_connection_internal_id event_at_time
    po_repository_observation_id at_time]. rewrite Hid, Heid. cbn [ensure]. rewrite Hv. cbn. by rewrite Hc', Hp'.
Qed.

#[local] Existing Instance row_kept_preorder.

(** No hook rewrites or removes a stored event. *)
Definition later_step (t t' : ObservationTables) : Prop :=
  observation_step sha256 project_id t t' ∧ hb_events (ob_host t) ⊆ hb_events (ob_host t').

Lemma later_events t t' : rtc later_step t t' → hb_events (ob_host t) ⊆ hb_events (ob_host t') ∧ rows_final t t'.
Proof.
  induction 1 as [t|t1 t2 t3 [Hs He] _ [IHe IHr]]; [split; [done|by apply rows_final_same]|].
  split; [by etrans|]. apply step_rows_final in Hs. intros id row (row' & Hr' & Hk)%Hs.
  apply IHr in Hr' as (row'' & Hr'' & Hk'). exists row''. split; [done|]. by transitivity row'.
Qed.

(** C38: An observation is closed without comparing its two events, and read only when they
    agree.  Take a report after the tool that closes a stored observation, and give it
    another valid time whose text is smaller than that of the event before the tool: the
    hook still commits the closed observation with its event, but fails, and no later read
    of the observation succeeds, whatever the hooks and the terminalization do next as long
    as stored events are kept.  The comparison is of texts, so a later instant with more
    fractional digits is enough. *)
Theorem earlier_text_unreadable t input t1 rec row pre_id pre_row text t' r :
  let id := po_repository_observation_id input in
  record_post_tool_repository_observation sha256 project_id t input = (t1, Ok rec) →
  pp_replayed rec = false →
  ob_observations t !! id = Some row → or_pre_tool_guard_event_id row = Some pre_id →
  hb_events (ob_host t) !! pre_id = Some pre_row →
  validate_timestamp_text "occurred_at" text = Ok tt →
  text_ordered (gw_occurred_at pre_row) text = false →
  record_post_tool_repository_observation sha256 project_id t (at_time input text) = (t', r) →
  (∃ e, r = Err e)
  ∧ (∃ closed, ob_observations t' !! id = Some closed ∧ or_state closed ≠ ObsOpen
       ∧ or_post_tool_guard_event_id closed = Some (gi_guard_event_id (po_guard_event input))
       ∧ or_completed_at closed = Some text)
  ∧ ∀ t'', rtc later_step t' t'' → ∃ e, repository_observation_from_conn sha256 project_id t'' id = Err e.
Proof.
  intros id H Hrep Hrow Hpre Hpr Htext Hord Hat.
  destruct (committed_at_time _ _ _ _ _ _ H Hrep Hrow Htext)
    as (fields & tool & case & t0 & t2 & columns & json & host & t3 & Ht3 & Hne & Hp).
  rewrite Hat in Ht3. cbn in Ht3. subst t3.
  pose proof (post_commit_observations _ _ _ _ _ _ _ _ _ _ _ _ _ Hp) as Hobs.
  set (closed := closed_row case fields tool (at_time input text) columns) in *.
  assert (ob_observations t' !! id = Some closed) as Hclosed.
  { rewrite Hobs. unfold id. cbn. by rewrite lookup_insert_eq. }
  assert (or_state closed ≠ ObsOpen) as Hstate.
  { pose proof (closed_outcome _ _ _ _ _ _ _ _ _ _ _ Hp) as Ho. fold closed in Ho.
    destruct (po_outcome (at_time input text)); destruct Ho as [-> _]; done. }
  assert (or_post_tool_guard_event_id closed = Some (gi_guard_event_id (po_guard_event input))) as Hpost
    by by destruct case.
  assert (∃ post_row, hb_events (ob_host t') !! gi_guard_event_id (po_guard_event input) = Some post_row
    ∧ gw_occurred_at post_row = text ∧ hb_events (ob_host t') !! pre_id = Some pre_row)
    as (post_row & Hpo & Htime & Hpr').
  { destruct Hp as [Hc Hh Ht _ Hins ->]. apply terminal_frame in Ht as (Hhost & _).
    assert (t0 = t) as -> by by destruct case. cbn [ob_host set_observations set_host].
    assert (hb_events (ob_host t2) !! gi_guard_event_id (po_guard_event input) = None) as Hfresh.
    { unfold insert_guard_event_in_transaction in Hins. apply ensure_bind in Hins as [Hn _]. cbn in Hn.
      apply eq_None_not_Some. intros [x Hx]. by rewrite Hx in Hn. }
    apply insert_guard_event_eq in Hins. rewrite Hins. cbn. eexists. rewrite lookup_insert_eq.
    split_and!; [done|done|]. rewrite lookup_insert_ne; [by rewrite Hhost|]. intros E.
    rewrite Hhost, E in Hfresh. congruence. }
  assert (∀ t'', rtc later_step t' t'' →
    ∃ e, repository_observation_from_conn sha256 project_id t'' id = Err e) as Hlater.
  { intros t'' [Hev Hfinal]%later_events. destruct (Hfinal id closed Hclosed) as (row' & Hrow' & Hk).
    rewrite (rk_reported _ _ Hk Hstate) in Hrow' by by rewrite Hpost.
    destruct (repository_observation_from_conn sha256 project_id t'' id) as [[rec'|]|e] eqn:Hread;
      [|apply read_none in Hread; congruence|by exists e].
    assert (text_ordered (gw_occurred_at pre_row) (gw_occurred_at post_row) = true) as Hagree; [|congruence].
    eapply (readable_events_agree t'' id closed rec' pre_id); [done| |done|by eapply lookup_weaken..|done].
    unfold closed. by rewrite (rk_pre_event _ _ (closed_row_kept _ _ _ _ _ _ _ _ _ _ _ _ _ _ Hp Hrow)). }
  split_and!; [|exists closed; by destruct case|done].
  destruct (Hlater t' (rtc_refl _ _)) as [e He]. destruct r as [rec'|e']; [|by exists e'].
  exfalso. apply record_post_ok in Hat as (f & tl & _ & [(-> & Hr & _)|(c & u0 & u1 & cl & js & ho & _ & _ & _ & [Ho _])]).
  - rewrite Hrow in Hclosed. injection Hclosed as Hsame.
    pose proof (post_case_row _ _ _ _ _ _ _ (pc_case _ _ _ _ _ _ _ _ _ _ _ _ _ Hp)) as Hcase.
    cbn in Hcase. fold id in Hcase. rewrite Hrow in Hcase. rewrite <-Hsame in Hstate, Hpost.
    destruct case as [row'|row'|]; [|destruct Hcase as ([= <-] & _ & Hnone & _); congruence|done].
    destruct Hcase as ([= <-] & Hopen & _). by apply Hstate.
  - unfold id in He. cbn in Ho. congruence.
Qed.
End post_hook.

(** ** The hook before the tool *)

Section pre_hook.
Context `{HC : Chrono} `{HJ : GuardJson}.
Variable sha256 : string → list ascii.
Variable project_id : string.

Implicit Types (t : ObservationTables) (id : string).

(** Every expected write belongs to an observation. *)
Definition expected_linked t : Prop :=
  ∀ id, ob_observations t !! id = None → ob_expected_writes t !! id = None.

Lemma step_expected_linked t t' :
  observation_step sha256 project_id t t' → expected_linked t → expected_linked t'.
Proof.
  intros [? input t1 r Hs|? input t1 r Hs|? input t1 records Hs|change resolution at_ actor t1 Hs|host|tasks] Hl;
    [| | | |exact Hl|exact Hl].
  - apply record_pre_effect in Hs as [->|(fields & tool & digest & Hn & Ho & _ & Hx & _)]; [done|].
    intros id Hid. rewrite Ho, lookup_insert_None in Hid. destruct Hid as [Hid Hne]. rewrite Hx. unfold announced.
    destruct (pi_expected_write input) as [[e m]|]; [rewrite lookup_insert_ne by done|]; by apply Hl.
  - apply record_post_effect in Hs as [->|(fields & tool & case & t0 & t2 & columns & json & host & Hp)]; [done|].
    intros id Hid. rewrite (post_commit_observations _ _ _ _ _ _ _ _ _ _ _ _ _ Hp), lookup_insert_None in Hid.
    destruct Hid as [Hid Hne]. destruct Hp as [_ Hh Ht _ _ ->]. apply terminal_frame in Ht as (_ & _ & _ & Hx & _).
    cbn. rewrite Hx by done. destruct case; [subst t0; by apply Hl..|].
    destruct Hh as (? & -> & _). by apply Hl.
  - apply terminalize_rows in Hs as [Ho Hrows]. intros id Hid. rewrite Ho. cbn. apply Hl.
    rewrite Hrows in Hid. by destruct (ob_observations t !! id).
  - by apply resolve_effect in Hs as (row & _ & ->).
Qed.

Lemma readable_pre_event t rec pid :
  validate_repository_observation_relationships sha256 project_id t rec = Ok tt →
  rc_pre_tool_guard_event_id rec = Some pid →
  ∃ ev, guard_event_from_conn project_id (ob_host t) pid = Ok (Some ev)
        ∧ gv_correlation ev = Some (rc_correlation rec).
Proof.
  unfold validate_repository_observation_relationships. cbv zeta. intros H Hp. rewrite Hp in H.
  peel H as pre Hpre. cbn in Hpre. peel Hpre as ev Hev. exists ev.
  unfold linked_guard_event in Hev. peel Hev as o Ho. apply map_err_Ok in Ho. peel Hev as x Hx.
  destruct o as [o|]; [|done]. injection Hx as ->. destruct (_ || _) eqn:E; [done|]. injection Hev as ->.
  split; [done|]. repeat (apply orb_false_iff in E as [E ?]).
  by match goal with H : (gv_correlation _ <>? _) = false |- _ => apply (proj1 (neqb_false _ _)) in H end.
Qed.

(** What the transaction of a new observation wrote. *)
Lemma pre_transaction_tables t fields tool input digest t' :
  let id := pi_repository_observation_id input in
  pre_tool_transaction sha256 project_id t fields tool input digest = Ok (inl t') →
  ∃ host host',
    ob_observations t !! id = None
    ∧ establish_host_correlation sha256 project_id (ob_host t) (gf_session_id fields)
        (gf_project_integration_revision fields) (gi_connection_internal_id (pi_guard_event input))
        (CodexHookTool tool) (gi_occurred_at (pi_guard_event input)) = Ok host
    ∧ insert_guard_event_in_transaction host fields (pi_guard_event input) = Ok host'
    ∧ ob_host t' = host'
    ∧ ob_observations t' = <[id := pre_observation_row fields tool input digest]> (ob_observations t)
    ∧ ob_expected_writes t' = announced t id input.
Proof.
  intros id. unfold pre_tool_transaction. cbv zeta. intros H. peel H as existing He. destruct existing as [existing|].
  { peel H as pid Hp. peel H as ev Hev. by destruct (pre_tool_replay_matches _ _ _ _ _ _ _). }
  peel H as host Hh. peel H as host' Hh'. peel H as t2 H2. peel H as t3 H3. injection H as <-.
  apply insert_observation_eq in H2 as [Hn ->]. exists host, host'.
  unfold insert_expected_write_in_transaction, announced in *. destruct (pi_expected_write input) as [[e m]|].
  - apply insert_expected_row_eq in H3 as [Hx ->]. by split_and!.
  - injection H3 as <-. by split_and!.
Qed.

Lemma announced_matches t t' id input :
  ob_expected_writes t' = announced t id input → ob_expected_writes t !! id = None →
  expected_write_matches_input t' id (pi_expected_write input) = true.
Proof.
  intros Hx Hn. unfold expected_write_matches_input. rewrite Hx. unfold announced.
  destruct (pi_expected_write input) as [[e m]|].
  - rewrite lookup_insert_eq. cbn. rewrite N.eqb_refl. by rewrite !eqb_refl.
  - by rewrite Hn.
Qed.

Lemma pre_transaction_replays t fields tool input digest t' ev rec :
  gi_correlation (pi_guard_event input) = Some (CodexHookTool tool) → expected_linked t →
  pre_tool_transaction sha256 project_id t fields tool input digest = Ok (inl t') →
  guard_event_by_conn project_id (ob_host t') (gi_guard_event_id (pi_guard_event input)) = Ok ev →
  repository_observation_from_conn sha256 project_id t' (pi_repository_observation_id input) = Ok (Some rec) →
  pre_tool_transaction sha256 project_id t' fields tool input digest = Ok (inr (MkPreRecord ev rec true)).
Proof.
  intros Hgc Hl Ht Hev Hrec. apply pre_transaction_tables in Ht as (host & host' & Hn & Hest & Hins & Hh & Ho & Hx).
  unfold pre_tool_transaction. cbv zeta. rewrite Hrec. apply read_spec in Hrec as (row & Hrow & Hd & Hv).
  rewrite Ho, lookup_insert_eq in Hrow. injection Hrow as <-.
  assert (rc_correlation rec = CodexHookTool tool) as Hcor.
  { destruct (dc_correlation _ _ _ _ Hd) as (hs & Hj & ->). cbn in Hj |- *.
    apply establish_joined in Hest. apply insert_guard_event_eq in Hins. subst host'. rewrite Hh in Hj.
    unfold joined_host_session_id in Hj, Hest. cbn in Hj, Hest. rewrite Hest in Hj. injection Hj as <-. by destruct tool. }
  destruct Hd as [D0 D1 D2 D3 D4 D5 _ _ D6 _ _ D7 _ _ _ _]. cbn in D1, D2, D3, D4, D5, D6, D7.
  rewrite D5. cbn [ok_or]. rewrite Hev.
  destruct (readable_pre_event _ _ _ Hv D5) as (ev' & Hev' & Hevc).
  pose proof Hev as He2. unfold guard_event_by_conn in He2. rewrite Hev' in He2. injection He2 as ->.
  rewrite Hh in Hev. pose proof (inserted_event_matches _ _ _ _ _ _ Hins Hev) as Hm.
  unfold pre_tool_replay_matches. cbv zeta.
  rewrite D0, D1, D2, D3, D4, D5, D6, D7, Hcor, !eqb_refl, (announced_matches _ _ _ _ Hx (Hl _ Hn)), Hm
    by by rewrite Hevc, Hcor, Hgc.
  destruct (pi_unavailable_reason input); cbn; [by rewrite eqb_refl|done].
Qed.

(** The hook before the tool can be repeated: in every history, when it recorded an
    observation and returned it, the same call on the tables it left returns the same event
    and observation, marked as a replay, and changes nothing. *)
Theorem pre_hook_replays `{HR : GuardRegistry} t0 t input t' rec :
  ob_observations t0 = ∅ → ob_expected_writes t0 = ∅ → rtc (observation_step sha256 project_id) t0 t →
  record_pre_tool_repository_observation sha256 project_id t input = (t', Ok rec) →
  record_pre_tool_repository_observation sha256 project_id t' input
  = (t', Ok (MkPreRecord (pr_guard_event rec) (pr_observation rec) true)).
Proof.
  intros _ Hx0 Hr. assert (expected_linked t) as Hl.
  { assert (expected_linked t0) as H0 by (intros id _; by rewrite Hx0).
    clear Hx0. induction Hr; [done|]. eauto using step_expected_linked. }
  clear Hr Hx0. unfold record_pre_tool_repository_observation at 1. cbv zeta.
  case_outcome H; intros Heq; [| |by discriminate Heq].
  all: peel H as [] Hu; peel H as [fields tool] Ho; peel H as eid Hid.
  all: apply ensure_bind in H as [Heid H]; apply (proj1 (neqb_false _ _)) in Heid; subst eid.
  all: peel H as digest Hd; peel H as [] Hv.
  all: unfold record_pre_tool_repository_observation; cbv zeta.
  all: rewrite Hu, Ho, Hid, (proj2 (neqb_false _ _) eq_refl), Hd, Hv; cbn [ensure].
  - injection Heq as <- Heq. peel Heq as ev Hev. peel Heq as o Hoo. peel Heq as r Hr. injection Heq as <-.
    destruct o as [o|]; [|done]. injection Hr as ->.
    destruct (owner_correlation _ _ _ _ Ho) as [Hgc _].
    by rewrite (pre_transaction_replays _ _ _ _ _ _ _ _ Hgc Hl H Hev Hoo).
  - injection Heq as <- <-. rewrite H. do 2 f_equal. unfold pre_tool_transaction in H. cbv zeta in H.
    peel H as existing He. destruct existing as [existing|].
    + peel H as pid Hp. peel H as ev Hev. destruct (pre_tool_replay_matches _ _ _ _ _ _ _); [|done].
      by injection H as <-.
    + peel H as host Hh. peel H as host' Hh'. peel H as t2 H2. by peel H as t3 H3.
Qed.
End pre_hook.

(** ** The two hooks together *)

Section hooks.
Context (sha256 : string → list ascii) (sha256_length : ∀ s, length (sha256 s) = 32%nat).

Lemma snapshot_invocation_paths observer targets hints worlds s :
  take_snapshot sha256 observer targets hints worlds = Ok s →
  sn_invocation_paths s = bts_of_list (targets ++ hints).
Proof.
  unfold take_snapshot. intros H. peel H as u Hu. peel H as v Hv.
  by apply attempts_stable in H as (k & _ & _ & _ & _ & _ & Hinv & _).
Qed.

(** C28: The delta the second hook reports is that of the two snapshots: when the first hook
    took a checkpoint under the same repository root, the second hook compares the very
    snapshot of the first hook, restored from the stored checkpoint, with a stable snapshot
    of the same paths; and it reports the delta of the two, or the reason why the second
    snapshot or the delta could not be had. *)
Theorem hooks_compare_snapshots root pre_worlds observation checkpoint record post_worlds delta_world :
  prepare_repository_observation sha256 root pre_worlds observation = Ok checkpoint →
  rc_pre_snapshot record = Some checkpoint →
  ∃ observer paths before,
    observer_new sha256 root default_limits = Ok observer
    ∧ invocation_paths observation = Ok paths
    ∧ take_snapshot sha256 observer paths [] pre_worlds = Ok before
    ∧ checkpoint = snapshot_checkpoint before
    ∧ capture_post_outcome sha256 root post_worlds delta_world record (for_limits sha256 default_limits)
      = match (let? after := take_snapshot sha256 observer paths [] post_worlds in
               let? delta := calculate_delta sha256 delta_world observer before after in
               Ok (after, delta)) with
        | Ok (after, delta) => PostComplete (snapshot_checkpoint after) delta
        | Err reason => PostUnavailable (Observer reason)
        end.
Proof using sha256_length.
  intros H Hrec. unfold prepare_repository_observation in H.
  peel H as paths Hp. apply map_err_Ok in Hp. peel H as observer Ho. apply map_err_Ok in Ho.
  peel H as before Hb. apply map_err_Ok in Hb. injection H as <-.
  exists observer, paths, before. split_and!; [done..|].
  unfold capture_post_outcome. rewrite Hrec, Ho.
  assert (ob_contract_digest observer = for_limits sha256 default_limits) as ->.
  { unfold observer_new in Ho. peel Ho as u Hu. destruct (_ <? _)%N; [done|]. peel Ho as r Hr. by injection Ho as <-. }
  rewrite (proj2 (neqb_false _ _) eq_refl).
  destruct (checkpoint_restored sha256 sha256_length _ _ _ _ _ Hb) as [_ ->].
  assert (ck_invocation_paths (snapshot_checkpoint before) = paths) as ->.
  { unfold snapshot_checkpoint. cbn. rewrite (snapshot_invocation_paths _ _ _ _ _ Hb), app_nil_r.
    unfold invocation_paths in Hp. peel Hp as raw Hraw. injection Hp as <-.
    apply bts_of_list_id, bts_of_list_sorted. }
  destruct (take_snapshot sha256 observer paths [] post_worlds) as [after|]; [|done].
  by destruct (calculate_delta sha256 delta_world observer before after).
Qed.
End hooks.

(** ** Witnesses *)

(** Three instants of one second and their canonical texts. *)
Definition sample_start : string := "2026-01-01T00:00:00Z".
Definition sample_half : string := "2026-01-01T00:00:00.500Z".
Definition sample_end : string := "2026-01-01T00:00:01Z".

#[local] Instance sample_chrono : Chrono := {
  year _ := 2026%Z;
  to_rfc3339 t := if (t =? 0)%Z then sample_start else if (t =? 500000000)%Z then sample_half else sample_end;
  parse_from_rfc3339 text :=
    if text =? sample_start then Some 0%Z else if text =? sample_half then Some 500000000%Z
    else if text =? sample_end then Some 1000000000%Z else None;
  checked_add_signed t d := Some (t + d)%Z;
  checked_add_signed_sum := λ t d t' H, eq_sym (f_equal (default 0%Z) H);
  duration_minutes := bounded_minutes;
  duration_minutes_value := bounded_minutes_value;
  duration_minutes_panics := bounded_minutes_panics;
}.

Definition sample_revision : string := content_identity sample_sha256 "".
Definition sample_tool : CodexHookToolCorrelation := MkToolCorrelation "host-session" "turn-1" "use-1" "shell".
Definition sample_session : string :=
  default "" (project_agent_session_id sample_sha256 "connection" sample_revision "host-session").

#[local] Instance sample_registry : GuardRegistry := {
  gr_guard_installation _ :=
    Ok (Some (MkGuardInstallation "connection" "project" (Ok (MkGuardManifest sample_revision sample_revision))));
  gr_session_coordinates _ _ _ _ := Ok (sample_session, sample_revision);
  gr_connection_project_allowed _ _ := Ok true;
  gr_project_exists _ := Ok true;
}.

Definition other_file : ProductRelativePath := MkPath "other.txt" I.
Definition sample_changes : RepositoryDelta :=
  [MkTransition new_file Absent (RegularFile (Worktree "sha256:content" sample_blob) false);
   MkTransition other_file Absent (SymbolicLink sample_revision)].
Definition sample_contract : string := for_limits sample_sha256 default_limits.
Definition sample_baseline : RepositoryObservationCheckpoint :=
  MkCheckpoint (MkCoordinate sample_revision sample_revision sample_revision None None sample_revision)
    [] [] [] sample_contract.
Definition sample_id : string :=
  match repository_observation_id sample_sha256 "project" "connection" sample_session (CodexHookTool sample_tool) with
  | Ok id => id
  | Err _ => ""
  end.
Definition sample_unmatched_digest : string := delta_digest sample_sha256 [].

Definition sample_report : RepositoryObservationResult :=
  MkObservationResult ObsComplete sample_id
    (Some (MkDeltaSummary (delta_digest sample_sha256 sample_changes) [new_file; other_file] 2)) None
    [MkMatchResult "expected-1" [new_file]]
    [MkUnrecordedResult (stable_unrecorded_change_id sample_sha256 "project" sample_id sample_unmatched_digest)
       sample_unmatched_digest [other_file]]
    NET_TRANSITION.
Definition sample_report_object : Value :=
  sort_json_value (Object [("repository_observation", result_value sample_report)]).

#[local] Instance sample_guard_json : GuardJson := {
  gj_from_str text :=
    if text =? "{}" then Some (Object []) else if text =? "report" then Some sample_report_object else None;
  gj_text v := match v with Object [] => "{}" | _ => "report" end;
}.

Definition sample_guard_event (id kind occurred_at : string) : GuardEventInsert :=
  MkGuardEventInsert id (Some (CodexHookTool sample_tool)) "connection" "installation" sample_revision
    sample_revision kind "compatible" "allow" "{}" "{}" occurred_at "{}".
Definition sample_before : PreToolRepositoryObservationInsert :=
  MkPreInsert (sample_guard_event "event-1" "pre_tool" sample_start) sample_id sample_contract
    (Some sample_baseline) None
    (Some (MkExpectedWrite "expected-1" "edit" [new_file] "task" "unit" ["ticket"] 3 0%Z, Object []))
    (Object []).
Definition sample_after (occurred_at : string) : PostToolRepositoryObservationInsert :=
  MkPostInsert (sample_guard_event "event-2" "post_tool" occurred_at) sample_id sample_contract
    (PostComplete sample_baseline sample_changes) None (Object []).

Definition no_observations : ObservationTables :=
  MkObservationTables (MkHostTables ∅ ∅ ∅ ∅) ∅ ∅ ∅ ["task"].
Definition pre_call := record_pre_tool_repository_observation sample_sha256 "project".
Definition post_call := record_post_tool_repository_observation sample_sha256 "project".
Definition opened_tables : ObservationTables := (pre_call no_observations sample_before).1.
Definition closed_tables : ObservationTables := (post_call opened_tables (sample_after sample_end)).1.

Example sample_opens : is_ok (pre_call no_observations sample_before).2 = true.
Proof. vm_compute. reflexivity. Qed.
Example sample_closes :
  (match (post_call opened_tables (sample_after sample_end)).2 with
   | Ok rec => (pp_result rec =? sample_report) && negb (pp_replayed rec)
   | Err _ => false
   end) = true.
Proof. vm_compute. reflexivity. Qed.

Lemma sample_history : rtc (observation_step sample_sha256 "project") no_observations closed_tables.
Proof.
  eapply rtc_l; [|eapply rtc_l; [|apply rtc_refl]].
  - eapply before_tool. apply surjective_pairing.
  - eapply after_tool. apply surjective_pairing.
Qed.

Definition sample_termination : TerminalizeOpenRepositoryObservations :=
  MkTerminalize "connection" sample_session ManagedSession ManagedSessionTerminated 1000000000%Z.

Example sample_row_closed :
  is_some_and (ob_observations closed_tables !! sample_id) (λ row,
    (or_delta row =? Some sample_changes) && (or_state row =? ObsComplete)) = true.
Proof. vm_compute. reflexivity. Qed.

Example sample_row_open :
  is_some_and (ob_observations opened_tables !! sample_id) (λ row,
    (or_state row =? ObsOpen) && (or_pre_tool_guard_event_id row =? Some "event-1")
    && terminalization_selects sample_termination row) = true.
Proof. vm_compute. reflexivity. Qed.

Lemma sample_closed_row : ∃ row, ob_observations closed_tables !! sample_id = Some row
  ∧ or_delta row = Some sample_changes ∧ or_state row = ObsComplete.
Proof.
  pose proof sample_row_closed as H. destruct (ob_observations closed_tables !! sample_id) as [row|]; [|discriminate H].
  cbn [is_some_and] in H. apply andb_true_iff in H as [H1%eqb_eq H2%eqb_eq]. by exists row.
Qed.

Lemma sample_open_row : ∃ row, ob_observations opened_tables !! sample_id = Some row
  ∧ or_state row = ObsOpen ∧ or_pre_tool_guard_event_id row = Some "event-1"
  ∧ terminalization_selects sample_termination row = true.
Proof.
  pose proof sample_row_open as H. destruct (ob_observations opened_tables !! sample_id) as [row|]; [|discriminate H].
  cbn [is_some_and] in H. apply andb_true_iff in H as [[H1%eqb_eq H2%eqb_eq]%andb_true_iff H3]. by exists row.
Qed.

Lemma other_file_changed : other_file ∈ delta_paths sample_changes.
Proof. apply elem_of_bts_of_list, list_elem_of_further, list_elem_of_here. Qed.

Lemma observed_changes_accounted_witness :
  (∃ row, ob_observations closed_tables !! sample_id = Some row ∧ or_delta row = Some sample_changes)
  ∧ accounted closed_tables sample_id other_file.
Proof.
  destruct sample_closed_row as (row & Hr & Hd & _). split; [exists row; split; [exact Hr|exact Hd]|].
  exact (observed_changes_accounted sample_sha256 "project" no_observations closed_tables eq_refl sample_history
           sample_id row sample_changes other_file Hr Hd other_file_changed).
Defined.

Lemma closed_observation_final_witness : ∃ row row',
  ob_observations opened_tables !! sample_id = Some row ∧ or_state row = ObsOpen
  ∧ ob_observations closed_tables !! sample_id = Some row' ∧ row_kept row row'.
Proof.
  destruct sample_open_row as (row & Hr & Hs & _).
  destruct (closed_observation_final sample_sha256 "project" opened_tables closed_tables
    (rtc_once _ _ (after_tool _ _ _ _ _ _ (surjective_pairing (post_call opened_tables (sample_after sample_end)))))
    sample_id row Hr) as (row' & Hr' & Hk).
  exists row, row'. split; [exact Hr|]. split; [exact Hs|]. split; [exact Hr'|exact Hk].
Defined.

Lemma sample_post_ok : ∃ rec, post_call opened_tables (sample_after sample_end) = (closed_tables, Ok rec)
  ∧ pp_result rec = sample_report ∧ pp_replayed rec = false.
Proof.
  pose proof sample_closes as H. unfold closed_tables.
  destruct (post_call opened_tables (sample_after sample_end)) as [t [rec|e]]; [|discriminate H].
  apply andb_true_iff in H as [H1%eqb_eq H2%negb_true_iff]. exists rec. split_and!; [reflexivity|exact H1|exact H2].
Qed.

Lemma post_hook_splits_delta_witness : ∃ rec,
  post_call opened_tables (sample_after sample_end) = (closed_tables, Ok rec)
  ∧ other_file ∈ concat (uc_observed_paths <$> rr_unrecorded_changes (pp_result rec))
  ∧ ∃ row, ob_observations closed_tables !! sample_id = Some row ∧ or_state row = ObsComplete.
Proof.
  destruct sample_post_ok as (rec & H & Hr & Hf). exists rec. split; [exact H|].
  destruct (post_hook_splits_delta sample_sha256 "project" opened_tables (sample_after sample_end) closed_tables rec
    sample_baseline sample_changes H Hf eq_refl) as (_ & _ & (row & Hrow & Hs & _) & _).
  split; [rewrite Hr; left|]. exists row. split; [exact Hrow|exact Hs].
Defined.

Lemma post_hook_replays_witness : ∃ rec,
  post_call opened_tables (sample_after sample_end) = (closed_tables, Ok rec)
  ∧ ∃ rec', post_call closed_tables (sample_after sample_end) = (closed_tables, Ok rec')
            ∧ pp_result rec' = sample_report ∧ pp_replayed rec' = true.
Proof.
  destruct sample_post_ok as (rec & H & Hr & _). exists rec. split; [exact H|]. eexists. split.
  - exact (post_hook_replays sample_sha256 "project" opened_tables (sample_after sample_end) closed_tables rec H).
  - split; [exact Hr|reflexivity].
Defined.

Lemma sample_pre_ok : ∃ rec, pre_call no_observations sample_before = (opened_tables, Ok rec).
Proof.
  pose proof sample_opens as H. unfold opened_tables.
  destruct (pre_call no_observations sample_before) as [t [rec|e]]; [exists rec; reflexivity|discriminate H].
Qed.

Lemma pre_hook_replays_witness : ∃ rec,
  pre_call no_observations sample_before = (opened_tables, Ok rec)
  ∧ ∃ rec', pre_call opened_tables sample_before = (opened_tables, Ok rec') ∧ pr_replayed rec' = true.
Proof.
  destruct sample_pre_ok as [rec H]. exists rec. split; [exact H|]. eexists. split.
  - exact (pre_hook_replays sample_sha256 "project" no_observations no_observations sample_before opened_tables rec
             eq_refl eq_refl (rtc_refl _ _) H).
  - reflexivity.
Defined.

Lemma terminalization_exact_witness : ∃ t' records,
  terminalize_open_repository_observations sample_sha256 "project" opened_tables sample_termination = Ok (t', records)
  ∧ (length records ≤ 256)%nat ∧ sample_id ∈ (rc_repository_observation_id <$> records).
Proof.
  assert (is_ok (terminalize_open_repository_observations sample_sha256 "project" opened_tables sample_termination) = true)
    as Hok by (vm_compute; reflexivity).
  destruct (terminalize_open_repository_observations sample_sha256 "project" opened_tables sample_termination)
    as [[t' records]|] eqn:H; [|discriminate Hok].
  exists t', records. split; [reflexivity|].
  destruct (terminalization_exact sample_sha256 "project" opened_tables sample_termination t' records H)
    as (_ & _ & Hlen & Hids). split; [exact Hlen|]. apply Hids.
  destruct sample_open_row as (row & Hr & _ & _ & Hs). exists row. split; [exact Hr|exact Hs].
Defined.

Definition sample_pre_row : GuardEventRow :=
  guard_event_row (MkCorrelationFields sample_session sample_revision "turn-1" (Some "use-1") (Some "shell"))
    (sample_guard_event "event-1" "pre_tool" sample_start).

Lemma sample_pre_row_stored : hb_events (ob_host opened_tables) !! "event-1" = Some sample_pre_row.
Proof. vm_compute. reflexivity. Qed.

(** The event after the tool is half a second later, and its text is smaller. *)
Lemma earlier_text_unreadable_witness :
  parse_from_rfc3339 sample_start = Some 0%Z ∧ parse_from_rfc3339 sample_half = Some 500000000%Z
  ∧ ∃ closed e,
      ob_observations (post_call opened_tables (sample_after sample_half)).1 !! sample_id = Some closed
      ∧ or_state closed ≠ ObsOpen
      ∧ repository_observation_from_conn sample_sha256 "project"
          (post_call opened_tables (sample_after sample_half)).1 sample_id = Err e.
Proof.
  split; [reflexivity|]. split; [reflexivity|].
  destruct sample_post_ok as (rec & Hrec & _ & Hrep). destruct sample_open_row as (row & Hr & _ & Hp & _).
  destruct (earlier_text_unreadable sample_sha256 "project" opened_tables (sample_after sample_end) closed_tables rec
    row "event-1" sample_pre_row sample_half (post_call opened_tables (sample_after sample_half)).1
    (post_call opened_tables (sample_after sample_half)).2 Hrec Hrep Hr Hp sample_pre_row_stored)
    as (_ & (closed & Hclosed & Hstate & _) & Hlater);
    [vm_compute; reflexivity|vm_compute; reflexivity|apply surjective_pairing|].
  destruct (Hlater _ (rtc_refl _ _)) as [e He]. exists closed, e. split; [exact Hclosed|].
  split; [exact Hstate|exact He].
Defined.

(** A call whose one target is the new file. *)
Definition sample_call : ToolObservation :=
  MkToolObservation (Some "edit") Foreign None MayWriteProduct None []
    [MkPathAssessment "new.txt" (Some "new.txt") true] [] false None None None.
Definition sample_prepared : result RepositoryObservationCheckpoint RepositoryObservationUnavailableReason :=
  prepare_repository_observation sample_sha256 (Some "/r") (λ _, sample_world false) sample_call.
Definition sample_record (checkpoint : RepositoryObservationCheckpoint) : RepositoryObservationRecord :=
  MkObservationRecord sample_id sample_session (CodexHookTool sample_tool) "connection" "installation"
    sample_contract (Some "event-1") None ObsOpen (Some checkpoint) None None None 0%Z None None (Object []).

Lemma hooks_compare_snapshots_witness : ∃ checkpoint observer before,
  sample_prepared = Ok checkpoint
  ∧ take_snapshot sample_sha256 observer [new_file] [] (λ _, sample_world false) = Ok before
  ∧ checkpoint = snapshot_checkpoint before.
Proof.
  assert (is_ok sample_prepared = true) as Hok by (vm_compute; reflexivity).
  destruct sample_prepared as [checkpoint|] eqn:H; [|discriminate Hok].
  destruct (hooks_compare_snapshots sample_sha256 sample_sha256_length (Some "/r") (λ _, sample_world false)
    sample_call checkpoint (sample_record checkpoint) (λ _, sample_world true) (sample_world true) H eq_refl)
    as (observer & paths & before & _ & Hp & Hb & Hc & _).
  exists checkpoint, observer, before. split; [reflexivity|]. split; [|exact Hc].
  assert (invocation_paths sample_call = Ok [new_file]) as Hn by (vm_compute; reflexivity).
  rewrite Hn in Hp. injection Hp as <-. exact Hb.
Defined.
