(* ===== verification/WorkflowMachine.v ===== *)
(** * WorkflowMachine: the current workflow state of a Task and what it admits

    Models [crates/volicord-core/src/workflow_projection.rs]: the facts about the user
    actions of a Task ([TaskWideShapingAuthority]), the normalized snapshot and its
    consistency checks, the construction of one transition and of the catalog,
    [WorkflowMachine::evaluate] with its fifteen outcomes, and the admission of an
    attempted action.  The borrowed fields of a snapshot are copies here; the
    pointer comparison of [validate_separated_authority] compares the values.  The
    [unreachable!] of a submission contract is an error value. *)

From S2P Require Import Prelude Text Values Canonical Schema UserAction Clock TicketStore Commit.
From S2P Require Import UserActionStore Evidence Admission WorkflowAction TaskRecords.
Import Shaping.

(** ** Facts about user actions *)

Record WorkflowUserActionFact := {
  uf_request_ref : StateRecordRef;
  uf_resolution_ref : option StateRecordRef;
  uf_status : UserActionStatus;
  uf_authority_state : ShapingDecisionAuthorityState;
  uf_required_owner_method : MethodName;
}.

Record TaskWideShapingAuthority := {
  ta_awaiting_user : list WorkflowUserActionFact;
  ta_accepted_unapplied : list WorkflowUserActionFact;
  ta_recovery_required : list WorkflowUserActionFact;
  ta_applied : list WorkflowUserActionFact;
  ta_stale : list WorkflowUserActionFact;
  ta_inconsistent : list WorkflowUserActionFact;
  ta_current_resolution_ids : list string;
  ta_stale_application_refs : list StateRecordRef;
  ta_pending_request_refs : list StateRecordRef;
  ta_pending_scope_update : bool;
  ta_pending_record_run : bool;
}.

Definition all_facts (a : TaskWideShapingAuthority) : list WorkflowUserActionFact :=
  ta_awaiting_user a ++ ta_accepted_unapplied a ++ ta_recovery_required a ++ ta_applied a
  ++ ta_stale a ++ ta_inconsistent a.

Definition blocking_facts (a : TaskWideShapingAuthority) : list WorkflowUserActionFact :=
  ta_awaiting_user a ++ ta_accepted_unapplied a ++ ta_recovery_required a ++ ta_stale a
  ++ ta_inconsistent a.

Definition fact_request_id (fact : WorkflowUserActionFact) : string :=
  sr_record_id (uf_request_ref fact).

Definition blocking_request_refs (a : TaskWideShapingAuthority) : list StateRecordRef :=
  rsort (uf_request_ref <$> dedup_by fact_request_id (blocking_facts a)).

Definition blocks_advance_application (a : TaskWideShapingAuthority) : bool :=
  negb (list_is_empty (ta_awaiting_user a)) || negb (list_is_empty (ta_recovery_required a))
  || negb (list_is_empty (ta_stale a)) || negb (list_is_empty (ta_inconsistent a)).

Definition progression_user_action_refs (a : TaskWideShapingAuthority) : list StateRecordRef :=
  rsort (uf_request_ref <$>
    dedup_by fact_request_id
      (List.filter (λ fact, uf_status fact =? UAPending) (all_facts a))).

Definition resolvable_user_action_refs (a : TaskWideShapingAuthority) : list StateRecordRef :=
  sort_dedup (ta_pending_request_refs a ++ progression_user_action_refs a).

(** ** Snapshots *)

Inductive WorkflowAuthorityPresence := Absent | Present.
#[export] Instance WorkflowAuthorityPresence_eq_dec : EqDecision WorkflowAuthorityPresence.
Proof. solve_decision. Defined.

Inductive WorkflowDelegatedAuthorityState := SeparateAssessmentOwner.
#[export] Instance WorkflowDelegatedAuthorityState_eq_dec :
  EqDecision WorkflowDelegatedAuthorityState.
Proof. solve_decision. Defined.

Record WorkflowUserActionState := {
  us_awaiting_user : nat;
  us_accepted_unapplied : nat;
  us_recovery_required : nat;
  us_inconsistent : nat;
}.

#[export] Instance TaskShapingFacts_eq_dec : EqDecision TaskShapingFacts.
Proof. solve_decision. Defined.

Record WorkflowSnapshot := {
  ws_project_id : ProjectId;
  ws_state_version : N;
  ws_task : TaskRow;
  ws_current_scope : TaskShapingFacts;
  ws_baseline : option BaselineRef;
  ws_current_change_unit : option ChangeUnitRecord;
  ws_checkpoint : option ShapingCheckpointRecord;
  ws_checkpoint_summary : option ShapingCheckpointSummary;
  ws_shaping_authority_graph : TaskWideShapingAuthority;
  ws_user_action_state : WorkflowUserActionState;
  ws_write_ticket_state : WorkflowDelegatedAuthorityState;
  ws_close_basis : option CurrentCloseBasis;
  ws_evidence_state : WorkflowAuthorityPresence;
  ws_final_acceptance_state : WorkflowDelegatedAuthorityState;
  ws_recovery_constraints : list string;
  ws_current_workspace_context : option GitWorkspaceContext;
  ws_required_refs : list StateRecordRef;
}.

Definition baseline_of (task : TaskRow) : option BaselineRef :=
  shaping_baseline_ref (tk_shaping (tr_task task)).

Definition terminal_phase (phase : TaskLifecyclePhase) : bool :=
  match phase with PCompleted | PCancelled | PSuperseded => true | _ => false end.

Definition basis_recovery_constraints (basis : option CurrentCloseBasis) : list string :=
  default [] (cb_recovery_constraints <$> basis).

Definition basis_has_evidence_summary (basis : option CurrentCloseBasis) : bool :=
  is_some (basis ≫= cb_evidence_summary_ref).

Definition workspace_context_of (change_unit : option ChangeUnitRecord)
    : option GitWorkspaceContext :=
  change_unit ≫= cu_write_basis_git_workspace_context.

(** The arms of the match of [new] on the recorded and the read Change Unit. *)
Definition change_unit_identity_matches (task : TaskRow) (change_unit : option ChangeUnitRecord)
    : bool :=
  match tk_current_change_unit_id (tr_task task), change_unit with
  | None, None => true
  | Some expected, Some change_unit =>
      (cu_project_id change_unit =? tk_project_id (tr_task task))
      && (cu_task_id change_unit =? tk_task_id (tr_task task))
      && cu_is_current change_unit
      && (cu_change_unit_id change_unit =? expected)
  | _, _ => false
  end.

Definition checkpoint_identity_contradicts (task : TaskRow)
    (checkpoint : ShapingCheckpointRecord) : bool :=
  (sc_project_id checkpoint <>? tk_project_id (tr_task task))
  || (sc_task_id checkpoint <>? tk_task_id (tr_task task))
  || is_some (sc_superseded_at checkpoint).

Definition snapshot_contradiction {A} (detail : string) : result A CorePipelineError :=
  Err (CoreInvariant ("workflow snapshot contradicts current authority: " +:+ detail)).

(** [WorkflowSnapshot::new]. *)
Definition snapshot_new (project_id : ProjectId) (state_version : N) (task : TaskRow)
    (current_change_unit : option ChangeUnitRecord)
    (checkpoint : option ShapingCheckpointRecord) (graph : TaskWideShapingAuthority)
    (checkpoint_summary : option ShapingCheckpointSummary) (required_refs : list StateRecordRef)
    : result WorkflowSnapshot CorePipelineError :=
  let policy := tr_task task in
  if tk_project_id policy <>? project_id
  then snapshot_contradiction "Task project identity"
  else if negb (Nat.eqb (length (bts_of_list (fact_request_id <$> all_facts graph)))
                  (length (all_facts graph)))
  then snapshot_contradiction "duplicate current UserAction authority"
  else if negb (change_unit_identity_matches task current_change_unit)
  then snapshot_contradiction "current Change Unit identity"
  else if is_some_and checkpoint (checkpoint_identity_contradicts task)
  then snapshot_contradiction "current checkpoint identity or status"
  else if is_some checkpoint <>? is_some checkpoint_summary
  then snapshot_contradiction "checkpoint summary presence"
  else if terminal_phase (tk_lifecycle_phase policy) <>? is_some (tr_closed_at task)
  then snapshot_contradiction "terminal lifecycle and closed_at"
  else
    let close_basis := tr_close_basis task in
    if is_some_and close_basis (λ basis, cb_task_id basis <>? tk_task_id policy)
    then snapshot_contradiction "current close basis"
    else
      Ok {| ws_project_id := project_id; ws_state_version := state_version; ws_task := task;
            ws_current_scope := tk_shaping policy; ws_baseline := baseline_of task;
            ws_current_change_unit := current_change_unit; ws_checkpoint := checkpoint;
            ws_checkpoint_summary := checkpoint_summary;
            ws_shaping_authority_graph := graph;
            ws_user_action_state :=
              {| us_awaiting_user := length (progression_user_action_refs graph);
                 us_accepted_unapplied := length (ta_accepted_unapplied graph);
                 us_recovery_required := length (ta_recovery_required graph);
                 us_inconsistent := length (ta_inconsistent graph) |};
            ws_write_ticket_state := SeparateAssessmentOwner;
            ws_close_basis := close_basis;
            ws_evidence_state :=
              if basis_has_evidence_summary close_basis then Present else Absent;
            ws_final_acceptance_state := SeparateAssessmentOwner;
            ws_recovery_constraints := basis_recovery_constraints close_basis;
            ws_current_workspace_context := workspace_context_of current_change_unit;
            ws_required_refs := sort_dedup required_refs |}.

(** [WorkflowSnapshot::validate_separated_authority]. *)
Definition validate_separated_authority (s : WorkflowSnapshot) : result unit CorePipelineError :=
  let task := tr_task (ws_task s) in
  if (ws_project_id s <>? tk_project_id task)
     || (ws_current_scope s <>? tk_shaping task)
     || ((ws_write_ticket_state s =? SeparateAssessmentOwner)
           <>? (ws_final_acceptance_state s =? SeparateAssessmentOwner))
     || (basis_has_evidence_summary (ws_close_basis s) <>? (ws_evidence_state s =? Present))
     || (basis_recovery_constraints (ws_close_basis s) <>? ws_recovery_constraints s)
     || (workspace_context_of (ws_current_change_unit s) <>? ws_current_workspace_context s)
  then Err (CoreInvariant "workflow snapshot separated authority facts are inconsistent")
  else Ok ().

(** ** One transition *)

Definition implementation_authority_allows_change_unit_replacement (s : WorkflowSnapshot)
    : bool :=
  (tk_work_phase (tr_task (ws_task s)) <>? Implementation)
  || list_is_empty (ta_applied (ws_shaping_authority_graph s)).

Definition facts_owned_by (s : WorkflowSnapshot) (owner : MethodName)
    : list WorkflowUserActionFact :=
  List.filter (λ fact, uf_required_owner_method fact =? owner)
    (ta_accepted_unapplied (ws_shaping_authority_graph s)).

Definition resolution_refs_for (s : WorkflowSnapshot) (owner : MethodName)
    : list StateRecordRef :=
  sort_dedup (omap uf_resolution_ref (facts_owned_by s owner)).

Definition resolution_ids_for (s : WorkflowSnapshot) (owner : MethodName) : list string :=
  sort_dedup (sr_record_id <$> omap uf_resolution_ref (facts_owned_by s owner)).

Definition finalize_resolution_ids (s : WorkflowSnapshot) : list string :=
  let graph := ws_shaping_authority_graph s in
  sort_dedup
    ((sr_record_id <$> omap uf_resolution_ref (ta_accepted_unapplied graph))
     ++ ta_current_resolution_ids graph).

Definition require {A} (o : option A) (detail : string) : result A CorePipelineError :=
  ok_or o (CoreInvariant detail).

(** The [match method] of [transition_descriptor]. *)
Definition fixed_authority_coordinates (method : MethodName)
    (semantic_variant : WorkflowActionSemanticVariant) (s : WorkflowSnapshot)
    : result WorkflowActionAuthorityCoordinates CorePipelineError :=
  let task := tr_task (ws_task s) in
  let checkpoint := ws_checkpoint_summary s in
  let graph := ws_shaping_authority_graph s in
  let task_id := tk_task_id task in
  let baseline_ref := shaping_baseline_ref (tk_shaping task) in
  let change_unit_id := cu_change_unit_id <$> ws_current_change_unit s in
  match method with
  | MRecordShapingCheckpoint =>
      let checkpoint_operation :=
        match checkpoint with
        | None => CoordCreateInitial
        | Some checkpoint =>
            CoordReplaceCurrent (scs_checkpoint_ref checkpoint)
              (scs_predecessor_checkpoint_ref checkpoint)
              (uf_request_ref <$> ta_recovery_required graph)
              (scs_current_application_refs checkpoint)
              (ta_stale_application_refs graph)
        end in
      Ok (CRecordShapingCheckpoint task_id checkpoint_operation (tk_scope_revision task)
            baseline_ref)
  | MUpdateScope =>
      let? operation := require (change_unit_operation semantic_variant)
        "update-scope transition has no Change Unit operation" in
      Ok (CUpdateScope task_id (tk_mode task) (tk_scope_revision task) baseline_ref
            change_unit_id (resolution_refs_for s MUpdateScope) operation)
  | MFinalizeAdvice =>
      let? checkpoint := require checkpoint
        "advisor-finalization transition requires a current checkpoint" in
      let? change_unit_id := require change_unit_id
        "advisor-finalization transition requires a current Change Unit" in
      Ok (CFinalizeAdvice task_id (sr_record_id (scs_checkpoint_ref checkpoint))
            change_unit_id (tk_scope_revision task) baseline_ref (finalize_resolution_ids s))
  | MAdvanceTask =>
      let? checkpoint := require checkpoint
        "advance transition requires a current checkpoint" in
      let? change_unit_id := require change_unit_id
        "advance transition requires a current Change Unit" in
      Ok (CAdvanceTask task_id (sr_record_id (scs_checkpoint_ref checkpoint))
            change_unit_id (tk_scope_revision task) baseline_ref
            (resolution_ids_for s MAdvanceTask))
  | MPrepareEvidenceCapture =>
      let? change_unit_id := require change_unit_id
        "evidence-capture transition requires a current Change Unit" in
      let? baseline := require baseline_ref
        "evidence-capture transition requires a current baseline" in
      Ok (CPrepareEvidenceCapture task_id change_unit_id baseline)
  | MPrepareWrite =>
      let? change_unit_id := require change_unit_id
        "write-preparation transition requires a current Change Unit" in
      let? baseline := require baseline_ref
        "write-preparation transition requires a current baseline" in
      Ok (CPrepareWrite task_id change_unit_id baseline)
  | MStageArtifact => Ok (CStageArtifact task_id)
  | MRecordRun =>
      let? change_unit_id := require change_unit_id
        "run-recording transition requires a current Change Unit" in
      let? run_kind :=
        match tk_mode task with
        | Direct => Ok RunDirect
        | Work => Ok RunImplementation
        | Advisor =>
            Err (CoreInvariant "advisor Task cannot expose a run-recording transition")
        end in
      let? baseline := require baseline_ref
        "run-recording transition requires a current baseline" in
      Ok (CRecordRun task_id change_unit_id baseline run_kind)
  | MRequestUserAction => Ok (CRequestUserAction task_id change_unit_id)
  | MResolveUserAction => Ok (CResolveUserAction task_id (resolvable_user_action_refs graph))
  | MReconcileChanges => Ok (CReconcileChanges task_id)
  | MCheckClose => Ok (CCheckClose task_id)
  | MCloseTask => Ok (CCloseTask task_id)
  | MIntake | MStatus | MGetOperationResult =>
      Err (CoreInvariant (MethodName_as_str method +:+ " is not a workflow transition method"))
  end.

Definition transition_result_state (method : MethodName) (s : WorkflowSnapshot)
    : WorkflowExpectedResultState :=
  match method with
  | MAdvanceTask => ResultImplementation
  | MFinalizeAdvice => CloseReview
  | MCheckClose =>
      if is_some (ws_close_basis s) then CloseReview else ReevaluateCurrentAuthority
  | MRequestUserAction => AwaitingUserAction
  | MCloseTask => Terminal
  | MPrepareEvidenceCapture | MPrepareWrite | MRecordRun | MReconcileChanges =>
      ResultImplementation
  | MStageArtifact =>
      if tk_work_phase (tr_task (ws_task s)) =? Implementation
      then ResultImplementation else ReevaluateCurrentAuthority
  | _ => ReevaluateCurrentAuthority
  end.

(** [transition_descriptor]. *)
Definition transition_descriptor (method : MethodName)
    (semantic_variant : WorkflowActionSemanticVariant) (role : WorkflowActionRole)
    (s : WorkflowSnapshot) : result TransitionDescriptor CorePipelineError :=
  let? action_key := map_err CoreInvariant (action_key_new method semantic_variant) in
  let? coordinates := fixed_authority_coordinates method semantic_variant s in
  let? submission_contract :=
    require (for_current_transition (tk_mode (tr_task (ws_task s))) coordinates)
      "Advisor uses its dedicated submission contract" in
  Ok {| td_action_key := action_key;
        td_actor := if method =? MResolveUserAction then ActorUser else ActorAgent;
        td_role := role;
        td_expected_state_version := ws_state_version s;
        td_fixed_authority_coordinates := coordinates;
        td_submission_contract := submission_contract;
        td_effect_class := transition_effect_class method;
        td_expected_result_state := transition_result_state method s;
        td_authority_invalidation :=
          if (method =? MUpdateScope) && (semantic_variant =? VKeepCurrentChangeUnit)
             && negb (implementation_authority_allows_change_unit_replacement s)
          then Forbidden else Permitted;
        td_required_refs :=
          if method =? MResolveUserAction
          then sort_dedup (ws_required_refs s
                 ++ resolvable_user_action_refs (ws_shaping_authority_graph s))
          else ws_required_refs s |}.

(** ** The catalog *)

Definition semantic_variants (method : MethodName) (s : WorkflowSnapshot)
    : list WorkflowActionSemanticVariant :=
  match method with
  | MRecordShapingCheckpoint =>
      [if is_some (ws_checkpoint_summary s) then VReplaceCurrent else VCreateInitial]
  | MUpdateScope =>
      if is_none (ws_current_change_unit s)
      then [for_change_unit_operation CreateCurrent]
      else for_change_unit_operation KeepCurrent ::
           (if implementation_authority_allows_change_unit_replacement s
            then [for_change_unit_operation ReplaceCurrent] else [])
  | _ => match for_single_variant_method method with Some variant => [variant] | None => [] end
  end.

(** One iteration of the inner loop of [workflow_transition_catalog]. *)
Definition catalog_entry (required_key : option WorkflowActionKey) (s : WorkflowSnapshot)
    (entry : MethodName * WorkflowActionSemanticVariant)
    : result TransitionDescriptor CorePipelineError :=
  let? key := map_err CoreInvariant (action_key_new entry.1 entry.2) in
  let role := if required_key =? Some key then RoleRequired else RoleAllowed in
  transition_descriptor entry.1 entry.2 role s.

Definition catalog_entries (methods : list MethodName) (s : WorkflowSnapshot)
    : list (MethodName * WorkflowActionSemanticVariant) :=
  methods ≫= λ method, pair method <$> semantic_variants method s.

Definition action_key_order (key : WorkflowActionKey) : string * string :=
  (MethodName_as_str (ak_method key), variant_as_str (ak_semantic_variant key)).

(** [workflow_transition_catalog]. *)
Definition workflow_transition_catalog (required_key : option WorkflowActionKey)
    (allowed_methods : list MethodName) (s : WorkflowSnapshot)
    : result WorkflowTransitionCatalog CorePipelineError :=
  let methods := vec_dedup (sort_by_key MethodName_as_str allowed_methods) in
  let? transitions := try_map (catalog_entry required_key s) (catalog_entries methods s) in
  let transitions := sort_by_key (λ t, action_key_order (td_action_key t)) transitions in
  let? catalog := map_err CoreInvariant (catalog_new transitions) in
  if is_some required_key && is_none (required_transition catalog)
  then Err (CoreInvariant "required workflow transition is absent from its catalog")
  else Ok catalog.

(** ** Evaluation *)

Record WorkflowEvaluation := {
  we_workflow_kind : WorkflowStateKind;
  we_next_actor : AuthorityNextActor;
  we_transition_catalog : WorkflowTransitionCatalog;
  we_typed_blocking_reason : option WorkflowBlockingReason;
  we_required_refs : list StateRecordRef;
  we_close_readiness : WorkflowCloseReadiness;
  we_checkpoint : option ShapingCheckpointSummary;
}.

(** [retain(|method| *method != removed)] unless the required action is of that method. *)
Definition withhold (removed : MethodName) (withheld : bool)
    (required_key : option WorkflowActionKey) (methods : list MethodName) : list MethodName :=
  if withheld && is_none_or required_key (λ key, ak_method key <>? removed)
  then List.filter (λ method, method <>? removed) methods
  else methods.

(** The methods [evaluation] hands to the catalog. *)
Definition admitted_methods_of (s : WorkflowSnapshot) (workflow_kind : WorkflowStateKind)
    (required_key : option WorkflowActionKey) (allowed_methods : list MethodName)
    : list MethodName :=
  let graph := ws_shaping_authority_graph s in
  let methods := allowed_methods in
  let methods := withhold MRecordShapingCheckpoint
    (Nat.ltb 0 (us_accepted_unapplied (ws_user_action_state s))) required_key methods in
  let methods := withhold MUpdateScope (ta_pending_scope_update graph) required_key methods in
  let methods := withhold MRecordRun (ta_pending_record_run graph) required_key methods in
  let methods :=
    if workflow_kind <>? SkTerminal
    then methods ++ [MCheckClose; MCloseTask; MRequestUserAction; MStageArtifact]
    else methods in
  if (workflow_kind <>? SkTerminal) && negb (list_is_empty (ta_pending_request_refs graph))
  then methods ++ [MResolveUserAction]
  else methods.

(** [WorkflowMachine::evaluation]. *)
Definition evaluation (s : WorkflowSnapshot) (workflow_kind : WorkflowStateKind)
    (next_actor : AuthorityNextActor) (required_key : option WorkflowActionKey)
    (allowed_methods : list MethodName)
    (typed_blocking_reason : option WorkflowBlockingReason)
    : result WorkflowEvaluation CorePipelineError :=
  let? transition_catalog := workflow_transition_catalog required_key
    (admitted_methods_of s workflow_kind required_key allowed_methods) s in
  let required := required_transition transition_catalog in
  let terminal := workflow_kind =? SkTerminal in
  if is_some required_key <>? is_some required
  then Err (CoreInvariant "workflow required-transition membership is inconsistent")
  else if is_some_and required (λ required,
            negb (match next_actor, td_actor required with
                  | NextAgent, ActorAgent | NextUser, ActorUser => true
                  | _, _ => false
                  end))
  then Err (CoreInvariant "workflow next actor contradicts the required transition")
  else if terminal && negb (list_is_empty (wc_transitions transition_catalog))
  then Err (CoreInvariant "terminal workflow exposes a transition")
  else if negb terminal && (workflow_kind <>? SkNoActiveTask)
          && list_is_empty (wc_transitions transition_catalog)
  then Err (CoreInvariant "nonterminal workflow has no executable transition")
  else if (next_actor =? NextUser)
          && is_none_or required (λ transition, td_actor transition <>? ActorUser)
  then Err (CoreInvariant
              "User-owned workflow does not identify its exact required transition")
  else
    Ok {| we_workflow_kind := workflow_kind; we_next_actor := next_actor;
          we_transition_catalog := transition_catalog;
          we_typed_blocking_reason := typed_blocking_reason;
          we_required_refs := ws_required_refs s;
          we_close_readiness :=
            {| wcr_assessment_required := workflow_kind =? SkCloseReview;
               wcr_current_close_basis_present := is_some (ws_close_basis s) |};
          we_checkpoint := ws_checkpoint_summary s |}.

Definition has_scope_decisions_to_apply (mode : TaskMode) (checkpoint : ShapingCheckpointRecord)
    : bool :=
  existsb (λ gap,
    (sg_status gap =? GapAccepted)
    && is_some_and (decision_policy_for_mode (sg_gap_kind gap) mode)
         (λ policy, application_owner policy =? OwnUpdateScope)) (sc_gaps checkpoint).

Definition has_current_gaps (checkpoint : ShapingCheckpointRecord) : bool :=
  existsb (λ gap, sg_status gap =? GapCurrent) (sc_gaps checkpoint).

(** [current_basis]: the close basis speaks of the current advice. *)
Definition advice_basis_current (s : WorkflowSnapshot) (checkpoint : ShapingCheckpointRecord)
    : bool :=
  let task := tr_task (ws_task s) in
  is_some_and (ws_close_basis s) (λ basis,
    (cb_scope_revision basis =? tk_scope_revision task)
    && (cb_close_basis_revision basis =? tk_close_basis_revision task)
    && (cb_baseline_ref basis =? ws_baseline s)
    && is_some_and (cb_shaping_checkpoint_ref basis) (λ reference,
         (sr_record_kind reference =? KShapingCheckpoint)
         && (sr_record_id reference =? sc_shaping_checkpoint_id checkpoint))
    && is_some_and (ws_current_change_unit s) (λ change_unit,
         cu_change_unit_id change_unit =? cb_change_unit_id basis)).

Definition execution_coordinates_available (s : WorkflowSnapshot) : bool :=
  is_some_and (ws_current_change_unit s) (λ change_unit,
    cu_write_basis_baseline_ref change_unit =? ws_baseline s)
  && is_some (ws_baseline s).

Definition implementation_methods (s : WorkflowSnapshot) : list MethodName :=
  [MUpdateScope; MStageArtifact]
  ++ (if execution_coordinates_available s then [MPrepareEvidenceCapture; MPrepareWrite] else [])
  ++ (if execution_coordinates_available s && (tk_mode (tr_task (ws_task s)) <>? Advisor)
      then [MRecordRun] else [])
  ++ (if Nat.ltb 0 (us_awaiting_user (ws_user_action_state s)) then [MResolveUserAction] else [])
  ++ [MRequestUserAction; MReconcileChanges; MCheckClose; MCloseTask].

Definition required_action (method : MethodName) (variant : WorkflowActionSemanticVariant)
    : result WorkflowActionKey CorePipelineError :=
  map_err CoreInvariant (action_key_new method variant).

(** The branches of [evaluate] after a current checkpoint is found consistent. *)
Definition evaluate_checkpoint (s : WorkflowSnapshot) (checkpoint : ShapingCheckpointRecord)
    (record_shaping_variant update_scope_variant : WorkflowActionSemanticVariant)
    : result WorkflowEvaluation CorePipelineError :=
  let mode := tk_mode (tr_task (ws_task s)) in
  if has_scope_decisions_to_apply mode checkpoint then
    let? key := required_action MUpdateScope update_scope_variant in
    evaluation s SkReadyToApplyDecisions NextAgent (Some key) [MUpdateScope]
      (Some BrAcceptedDecisionsNotApplied)
  else if has_current_gaps checkpoint then
    let? key := required_action MRecordShapingCheckpoint record_shaping_variant in
    evaluation s SkShapingRequired NextAgent (Some key) [MRecordShapingCheckpoint]
      (Some BrShapingGapsCurrent)
  else if (mode =? Advisor) && (sc_readiness checkpoint =? CheckpointReady) then
    if advice_basis_current s checkpoint then
      let? key := required_action MCheckClose VCheckClose in
      evaluation s SkCloseReview NextAgent (Some key)
        [MCheckClose; MCloseTask; MFinalizeAdvice; MRecordShapingCheckpoint; MUpdateScope] None
    else if is_none (ws_current_change_unit s) then
      let? key := required_action MUpdateScope update_scope_variant in
      evaluation s SkReadyForChangeUnit NextAgent (Some key)
        [MRecordShapingCheckpoint; MUpdateScope] (Some BrChangeUnitRequired)
    else
      let? key := required_action MFinalizeAdvice VFinalizeAdvice in
      evaluation s SkReadyToFinalizeAdvice NextAgent (Some key)
        [MFinalizeAdvice; MRecordShapingCheckpoint; MUpdateScope]
        (Some BrAdvisorFinalizationRequired)
  else if is_none (ws_current_change_unit s) then
    let? key := required_action MUpdateScope update_scope_variant in
    evaluation s SkReadyForChangeUnit NextAgent (Some key)
      [MRecordShapingCheckpoint; MUpdateScope] (Some BrChangeUnitRequired)
  else
    let? key := required_action MAdvanceTask VAdvanceTask in
    evaluation s SkReadyForImplementation NextAgent (Some key)
      [MAdvanceTask; MRecordShapingCheckpoint; MUpdateScope] (Some BrExplicitAdvanceRequired).

(** [WorkflowMachine::evaluate]. *)
Definition evaluate (s : WorkflowSnapshot) : result WorkflowEvaluation CorePipelineError :=
  let? _ := validate_separated_authority s in
  let task := tr_task (ws_task s) in
  let graph := ws_shaping_authority_graph s in
  let record_shaping_variant :=
    if is_some (ws_checkpoint s) then VReplaceCurrent else VCreateInitial in
  let update_scope_variant :=
    if is_some (ws_current_change_unit s) then VKeepCurrentChangeUnit
    else VCreateCurrentChangeUnit in
  if terminal_phase (tk_lifecycle_phase task) then
    evaluation s SkTerminal NextNone None [] None
  else if Nat.ltb 0 (us_recovery_required (ws_user_action_state s)) then
    let? key := required_action MRecordShapingCheckpoint record_shaping_variant in
    evaluation s SkDecisionRecoveryRequired NextAgent (Some key) [MRecordShapingCheckpoint]
      (Some BrDecisionRecoveryRequired)
  else if negb (list_is_empty (ta_stale graph)) then
    let '(method, variant) :=
      if tk_work_phase task =? ShapingPhase
      then (MRecordShapingCheckpoint, record_shaping_variant) else (MCloseTask, VCloseTask) in
    let? key := required_action method variant in
    evaluation s SkShapingRequired NextAgent (Some key) [method]
      (Some BrApplicationAuthorityStale)
  else if tk_work_phase task =? Implementation then
    evaluation s SkImplementation NextAgent None (implementation_methods s) None
  else if Nat.ltb 0 (us_awaiting_user (ws_user_action_state s)) then
    let methods := MResolveUserAction ::
      (if negb (list_is_empty (ta_accepted_unapplied graph)) then [MUpdateScope] else []) in
    let? key := required_action MResolveUserAction VResolveUserAction in
    evaluation s SkAwaitingUserAction NextUser (Some key) methods
      (Some (if Nat.ltb 0 (us_inconsistent (ws_user_action_state s))
             then BrInconsistentAuthorityState else BrUserActionPending))
  else
    match ws_checkpoint s with
    | None =>
        let? key := required_action MRecordShapingCheckpoint record_shaping_variant in
        evaluation s SkShapingRequired NextAgent (Some key)
          [MRecordShapingCheckpoint; MUpdateScope] (Some BrNoCurrentCheckpoint)
    | Some checkpoint =>
        if Nat.ltb 0 (us_inconsistent (ws_user_action_state s)) then
          let? key := required_action MRecordShapingCheckpoint record_shaping_variant in
          evaluation s SkShapingRequired NextAgent (Some key) [MRecordShapingCheckpoint]
            (Some BrInconsistentAuthorityState)
        else evaluate_checkpoint s checkpoint record_shaping_variant update_scope_variant
    end.

(** [WorkflowEvaluation::into_projection]. *)
Definition into_projection (e : WorkflowEvaluation) (expected_state_version : N)
    : WorkflowProjection :=
  {| wp_kind := we_workflow_kind e; wp_next_actor := we_next_actor e;
     wp_required_refs := we_required_refs e;
     wp_expected_state_version := expected_state_version;
     wp_blocking_reason := we_typed_blocking_reason e; wp_checkpoint := we_checkpoint e;
     wp_transition_catalog := we_transition_catalog e;
     wp_close_readiness := we_close_readiness e |}.

(** ** Admission of an attempted action *)

(** The two public codes an admission can carry. *)
Inductive AdmissionErrorCode := TaskPhaseTransitionRequired | WorkflowActionNotAllowed.

Record CurrentTransitionAdmission := {
  ca_workflow : WorkflowProjection;
  ca_descriptor : option TransitionDescriptor;
  ca_rejection_reason : option TransitionRejectionReason;
  ca_recovery_action_key : option WorkflowActionKey;
  ca_rejection_code : option AdmissionErrorCode;
  ca_retryable : bool;
}.

(** [WorkflowMachine::transition_admission]. *)
Definition transition_admission (s : WorkflowSnapshot) (e : WorkflowEvaluation)
    (attempted : WorkflowActionKey) : CurrentTransitionAdmission :=
  let catalog := we_transition_catalog e in
  let descriptor := transition catalog attempted in
  let replacement_would_invalidate_implementation_authority :=
    (ak_method attempted =? MUpdateScope)
    && (ak_semantic_variant attempted =? VReplaceCurrentChangeUnit)
    && negb (implementation_authority_allows_change_unit_replacement s) in
  let '(rejection_reason, rejection_code, retryable, recovery_action_key) :=
    if is_some descriptor then (None, None, false, None)
    else if replacement_would_invalidate_implementation_authority then
      (Some ImplementationAuthorityWouldBeInvalidated, Some TaskPhaseTransitionRequired, false,
       td_action_key <$> List.find (λ t, ak_method (td_action_key t) =? MCloseTask)
                           (wc_transitions catalog))
    else
      (Some (if admits_method catalog (ak_method attempted)
             then VariantNotCurrent else ActionNotCurrent),
       Some WorkflowActionNotAllowed, true, td_action_key <$> required_transition catalog) in
  {| ca_workflow := into_projection e (ws_state_version s);
     ca_descriptor := descriptor;
     ca_rejection_reason := rejection_reason;
     ca_recovery_action_key := recovery_action_key;
     ca_rejection_code := rejection_code;
     ca_retryable := retryable |}.
