(* ===== verification/WorkflowMachineSound.v ===== *)
(** * WorkflowMachineSound: the workflow machine never gets stuck

    Theorems about [WorkflowMachine]: every snapshot the constructor accepts is
    evaluated without error and with a canonical catalog; exactly when the steps
    that matter are admitted (leaving shaping, writing, recording a run, finalizing
    advice); what a rejected action is told to do instead; and that an admitted
    scope update cannot pull the rug from under an implementation. *)

From S2P Require Import Prelude Text Values Canonical Schema UserAction Clock TicketStore Commit.
From S2P Require Import UserActionStore Evidence Admission WorkflowAction TaskRecords.
From S2P Require Import WorkflowMachine.
Import Shaping.

(** ** Accepted snapshots *)

(** A snapshot the constructor returned. *)
Definition accepted (s : WorkflowSnapshot) : Prop :=
  ∃ project_id version task change_unit checkpoint graph summary refs,
    snapshot_new project_id version task change_unit checkpoint graph summary refs = Ok s.

(** What the constructor establishes. *)
Record snapshot_ok (s : WorkflowSnapshot) : Prop := {
  so_validates : validate_separated_authority s = Ok ();
  so_summary : is_some (ws_checkpoint_summary s) = is_some (ws_checkpoint s);
  so_refs : StronglySorted rlt (ws_required_refs s);
  so_baseline : ws_baseline s = baseline_of (ws_task s);
  so_awaiting : us_awaiting_user (ws_user_action_state s)
                = length (progression_user_action_refs (ws_shaping_authority_graph s));
  so_accepted : us_accepted_unapplied (ws_user_action_state s)
                = length (ta_accepted_unapplied (ws_shaping_authority_graph s));
  so_recovery : us_recovery_required (ws_user_action_state s)
                = length (ta_recovery_required (ws_shaping_authority_graph s));
  so_inconsistent : us_inconsistent (ws_user_action_state s)
                    = length (ta_inconsistent (ws_shaping_authority_graph s));
  so_facts : NoDup (fact_request_id <$> all_facts (ws_shaping_authority_graph s));
}.

Lemma accepted_ok s : accepted s → snapshot_ok s.
Proof.
  intros (project_id & version & task & change_unit & checkpoint & graph & summary & refs & H).
  unfold snapshot_new, snapshot_contradiction in H.
  destruct (tk_project_id (tr_task task) <>? project_id) eqn:E1; [done|].
  destruct (negb (Nat.eqb _ _)) eqn:E2 in H; [done|].
  destruct (negb (change_unit_identity_matches _ _)); [done|].
  destruct (is_some_and checkpoint _); [done|].
  destruct (is_some checkpoint <>? is_some summary) eqn:E3; [done|].
  destruct (_ <>? _) in H; [done|]. destruct (is_some_and _ _) in H; [done|].
  apply Ok_inj in H as <-. apply (proj1 (neqb_false _ _)) in E1. apply (proj1 (neqb_false _ _)) in E3.
  apply negb_false_iff, Nat.eqb_eq in E2.
  constructor; cbn; try done.
  - unfold validate_separated_authority. cbn.
    rewrite E1, !eqb_refl. cbn. by destruct (basis_has_evidence_summary _).
  - apply sort_dedup_sorted.
  - apply bts_of_list_length_NoDup. by rewrite E2, length_fmap.
Qed.

(** ** Canonical order of a catalog *)

Lemma MethodName_as_str_inj m1 m2 : MethodName_as_str m1 = MethodName_as_str m2 → m1 = m2.
Proof. destruct m1, m2; first [reflexivity | discriminate]. Qed.

Lemma variant_as_str_inj v1 v2 : variant_as_str v1 = variant_as_str v2 → v1 = v2.
Proof. destruct v1, v2; first [reflexivity | discriminate]. Qed.

Lemma action_key_order_inj k1 k2 : action_key_order k1 = action_key_order k2 → k1 = k2.
Proof.
  destruct k1 as [m1 v1], k2 as [m2 v2]. unfold action_key_order. cbn.
  intros [= ->%MethodName_as_str_inj ->%variant_as_str_inj]. done.
Qed.

(** What the loop of the catalog check asks of two neighbouring keys. *)
Lemma canonical_step k1 k2 :
  rlt (action_key_order k1) (action_key_order k2) →
  string_gt (MethodName_as_str (ak_method k1)) (MethodName_as_str (ak_method k2))
  || ((ak_method k1 =? ak_method k2)
      && string_ge (variant_as_str (ak_semantic_variant k1))
           (variant_as_str (ak_semantic_variant k2))) = false.
Proof.
  unfold rlt, action_key_order, string_gt, string_ge. cbn. unfold cmp_then.
  destruct (string_compare _ _) eqn:E; intros Hlt; [|cbn|done].
  - cbn. rewrite Hlt. by rewrite andb_false_r.
  - destruct (ak_method k1 =? ak_method k2) eqn:Em; [|done].
    apply eqb_eq in Em. rewrite Em in E.
    change (rcompare (MethodName_as_str (ak_method k2)) (MethodName_as_str (ak_method k2)) = Lt)
      in E. by rewrite rcompare_refl in E.
Qed.

(** ** One transition *)

(** The coordinates of the method can be fixed from the snapshot. *)
Definition method_available (s : WorkflowSnapshot) (method : MethodName) : bool :=
  match method with
  | MFinalizeAdvice | MAdvanceTask =>
      is_some (ws_checkpoint_summary s) && is_some (ws_current_change_unit s)
  | MPrepareEvidenceCapture | MPrepareWrite =>
      is_some (ws_current_change_unit s) && is_some (baseline_of (ws_task s))
  | MRecordRun =>
      is_some (ws_current_change_unit s) && is_some (baseline_of (ws_task s))
      && (tk_mode (tr_task (ws_task s)) <>? Advisor)
  | MResolveUserAction =>
      negb (list_is_empty (resolvable_user_action_refs (ws_shaping_authority_graph s)))
  | _ => true
  end.

Local Ltac built :=
  eexists; split_and!; [reflexivity|..]; try reflexivity; intros; congruence.

Lemma coordinates_available s m v :
  method_available s m = true → v ∈ semantic_variants m s →
  variant_method v = m
  ∧ ∃ c, fixed_authority_coordinates m v s = Ok c
         ∧ coordinates_method c = m ∧ coordinates_variant c = v
         ∧ coordinates_task_id c = tk_task_id (tr_task (ws_task s))
         ∧ operation_matches_current c = true
         ∧ (∀ t mode r b u d o, c = CUpdateScope t mode r b u d o →
              mode = tk_mode (tr_task (ws_task s)))
         ∧ (∀ t refs, c = CResolveUserAction t refs →
              refs = resolvable_user_action_refs (ws_shaping_authority_graph s)).
Proof.
  intros Ha Hv. unfold method_available in Ha. unfold baseline_of in Ha.
  destruct m; cbn in Hv; try (by apply elem_of_nil in Hv).
  1: { destruct (ws_current_change_unit s) as [cu|] eqn:Ecu; cbn in Hv.
       - destruct (implementation_authority_allows_change_unit_replacement s);
           repeat (apply elem_of_cons in Hv as [->|Hv];
                   [split; [done|]; cbn; rewrite Ecu; built|]); by apply elem_of_nil in Hv.
       - apply list_elem_of_singleton in Hv as ->. split; [done|]. cbn. rewrite Ecu. built. }
  1: { apply list_elem_of_singleton in Hv as ->.
       destruct (ws_checkpoint_summary s) as [cs|] eqn:Ecs; (split; [done|]); cbn; rewrite Ecs;
         built. }
  all: apply list_elem_of_singleton in Hv as ->; split; [done|]; cbn.
  all: repeat match type of Ha with
       | _ && _ = true => apply andb_true_iff in Ha as [Ha ?Hb] end.
  all: repeat match goal with H : is_some ?o = true |- _ =>
         let E := fresh "E" in destruct o eqn:E; [clear H|done] end.
  all: cbn.
  all: try (destruct (tk_mode (tr_task (ws_task s))) eqn:Em; cbn; try done).
  all: built.
Qed.

Lemma result_state_ok s m : result_state_matches m (transition_result_state m s) = true.
Proof. destruct m; cbn; try done; by case_match. Qed.

(** A transition whose coordinates can be fixed is built, and passes every check the
    catalog makes of a single transition. *)
Lemma descriptor_ok s m v role :
  snapshot_ok s → method_available s m = true → v ∈ semantic_variants m s →
  ∃ d, transition_descriptor m v role s = Ok d
       ∧ td_action_key d = {| ak_method := m; ak_semantic_variant := v |}
       ∧ td_role d = role ∧ td_expected_state_version d = ws_state_version s
       ∧ td_actor d = expected_transition_actor m
       ∧ coordinates_task_id (td_fixed_authority_coordinates d) = tk_task_id (tr_task (ws_task s))
       ∧ operation_matches_current (td_fixed_authority_coordinates d) = true
       ∧ check_transition d = Ok () ∧ check_user_action_refs d = Ok ()
       ∧ (td_authority_invalidation d = Forbidden ↔
            m = MUpdateScope ∧ v = VKeepCurrentChangeUnit
            ∧ implementation_authority_allows_change_unit_replacement s = false).
Proof.
  intros Hs Ha Hv.
  destruct (coordinates_available s m v Ha Hv)
    as (Hm & c & Hc & Hcm & Hcv & Hct & Hop & Hmode & Hres).
  destruct (contract_well_formed (tk_mode (tr_task (ws_task s))) c Hmode) as (k & Hk & Hwf).
  assert (StronglySorted rlt
    (sort_dedup (ws_required_refs s
       ++ resolvable_user_action_refs (ws_shaping_authority_graph s)))) as Hsd
    by apply sort_dedup_sorted.
  eexists. split.
  { unfold transition_descriptor, action_key_new, require.
    rewrite Hm, eqb_refl. cbn. rewrite Hc. cbn. rewrite Hk. cbn. reflexivity. }
  cbn. split_and!; try done.
  - unfold check_transition, expected_transition_actor. cbn.
    rewrite Hm, Hcm, Hcv, !eqb_refl, Hwf, result_state_ok. cbn.
    assert (not_ascending (if m =? MResolveUserAction
      then sort_dedup (ws_required_refs s
             ++ resolvable_user_action_refs (ws_shaping_authority_graph s))
      else ws_required_refs s) = false) as ->.
    { apply not_ascending_sorted. destruct (m =? _); [done|apply Hs]. }
    destruct (m =? MUpdateScope), (v =? VKeepCurrentChangeUnit), (negb _); done.
  - unfold check_user_action_refs. cbn. destruct c; try done.
    pose proof (Hres _ _ eq_refl) as ->. clear Hm. cbn in Hcm. subst m. cbn in Ha.
    rewrite ?eqb_refl.
    destruct (list_is_empty _) eqn:E; [done|].
    rewrite (proj2 (not_ascending_sorted _)) by apply sort_dedup_sorted.
    rewrite (proj2 (existsb_false _ _)); [done|].
    intros x Hx. apply negb_false_iff. apply contains_elem. cbn. apply elem_of_sort_dedup.
    set_solver.
  - destruct (m =? MUpdateScope) eqn:E1; [apply eqb_eq in E1|apply eqb_neq in E1; naive_solver].
    destruct (v =? VKeepCurrentChangeUnit) eqn:E2;
      [apply eqb_eq in E2|apply eqb_neq in E2; naive_solver].
    destruct (implementation_authority_allows_change_unit_replacement s); naive_solver.
Qed.

(** ** The catalog *)

(** What holds of every transition of a catalog of the snapshot. *)
Record describes (s : WorkflowSnapshot) (required : option WorkflowActionKey)
    (t : TransitionDescriptor) : Prop := {
  de_role : td_role t = if required =? Some (td_action_key t) then RoleRequired else RoleAllowed;
  de_actor : td_actor t = expected_transition_actor (ak_method (td_action_key t));
  de_version : td_expected_state_version t = ws_state_version s;
  de_task : coordinates_task_id (td_fixed_authority_coordinates t)
            = tk_task_id (tr_task (ws_task s));
  de_operation : operation_matches_current (td_fixed_authority_coordinates t) = true;
  de_check : check_transition t = Ok ();
  de_refs : check_user_action_refs t = Ok ();
  de_forbidden : td_authority_invalidation t = Forbidden ↔
    td_action_key t = {| ak_method := MUpdateScope;
                         ak_semantic_variant := VKeepCurrentChangeUnit |}
    ∧ implementation_authority_allows_change_unit_replacement s = false;
}.

(** The action is one the methods offer in the snapshot. *)
Definition offered (s : WorkflowSnapshot) (methods : list MethodName) (k : WorkflowActionKey)
    : Prop :=
  ak_method k ∈ methods ∧ ak_semantic_variant k ∈ semantic_variants (ak_method k) s.

Definition entry_key (entry : MethodName * WorkflowActionSemanticVariant) : WorkflowActionKey :=
  {| ak_method := entry.1; ak_semantic_variant := entry.2 |}.

Lemma catalog_entry_ok s required entry :
  snapshot_ok s → method_available s entry.1 = true → entry.2 ∈ semantic_variants entry.1 s →
  ∃ t, catalog_entry required s entry = Ok t ∧ td_action_key t = entry_key entry
       ∧ describes s required t.
Proof.
  destruct entry as [m v]. cbn. intros Hs Ha Hv.
  pose (role := if required =? Some {| ak_method := m; ak_semantic_variant := v |}
                then RoleRequired else RoleAllowed).
  destruct (coordinates_available s m v Ha Hv) as (Hm & _).
  destruct (descriptor_ok s m v role Hs Ha Hv)
    as (d & Hd & Hk & Hr & Hver & Hact & Ht & Hop & Hc & Hu & Hf).
  exists d. split_and!; [|done|].
  - unfold catalog_entry, action_key_new. cbn. rewrite Hm, eqb_refl. cbn. exact Hd.
  - constructor; rewrite ?Hk; cbn; try done. rewrite Hf. naive_solver.
Qed.

Lemma elem_of_catalog_entries s (methods : list MethodName) entry :
  entry ∈ catalog_entries methods s ↔ offered s methods (entry_key entry).
Proof.
  unfold catalog_entries, offered. rewrite list_elem_of_bind. destruct entry as [m v]. cbn. split.
  - intros (m' & Hv & Hm). apply list_elem_of_fmap in Hv as (v' & [= <- <-] & Hv). done.
  - intros [Hm Hv]. exists m. split; [|done]. apply list_elem_of_fmap. eauto.
Qed.

Lemma semantic_variants_NoDup m s : NoDup (semantic_variants m s).
Proof.
  destruct m; cbn; repeat case_match; try (apply NoDup_singleton || apply NoDup_nil_2);
    repeat (apply NoDup_cons; split; [set_solver|]); apply NoDup_nil_2.
Qed.

Lemma catalog_entries_NoDup (methods : list MethodName) s :
  NoDup methods → NoDup (catalog_entries methods s).
Proof.
  intros Hn. apply NoDup_bind; [| |done].
  - intros m1 m2 [m v] _ _ H1 H2. apply list_elem_of_fmap in H1 as (? & [= -> _] & _).
    by apply list_elem_of_fmap in H2 as (? & [= -> _] & _).
  - intros m _. apply NoDup_fmap_2; [by intros ?? [=]|apply semantic_variants_NoDup].
Qed.

Lemma catalog_methods_NoDup (methods : list MethodName) :
  NoDup (vec_dedup (sort_by_key MethodName_as_str methods))
  ∧ ∀ m, m ∈ vec_dedup (sort_by_key MethodName_as_str methods) ↔ m ∈ methods.
Proof.
  split; [|intros m; by rewrite elem_of_vec_dedup, sort_by_key_perm].
  apply (NoDup_fmap_1 MethodName_as_str).
  apply sorted_rlt_NoDup.
  pose proof (sort_by_key_sorted MethodName_as_str methods) as Hs.
  remember (sort_by_key MethodName_as_str methods) as l eqn:El. clear El.
  induction l as [|x [|y l] IH]; [constructor|repeat constructor|].
  cbn [vec_dedup]. rewrite fmap_cons in Hs. apply StronglySorted_inv in Hs as [Hs Hx].
  destruct (x =? y) eqn:E; [by apply IH|]. apply eqb_neq in E. rewrite fmap_cons.
  constructor; [by apply IH|].
  apply Forall_forall. intros z Hz. apply list_elem_of_fmap in Hz as (m & -> & Hm).
  apply (proj1 (elem_of_vec_dedup m (y :: l))) in Hm.
  rewrite Forall_forall in Hx.
  assert (rle (MethodName_as_str x) (MethodName_as_str m)) as Hle.
  { apply Hx, list_elem_of_fmap. eauto. }
  apply rle_lt_eq in Hle as [?|Heq]; [done|]. exfalso. apply MethodName_as_str_inj in Heq as <-.
  apply E, MethodName_as_str_inj, rle_antisym;
    [apply Hx, list_elem_of_fmap; exists y; split; [done|by left]|].
  apply elem_of_cons in Hm as [->|Hm]; [done|]. rewrite fmap_cons in Hs.
  apply StronglySorted_inv in Hs as [_ Hy].
  rewrite Forall_forall in Hy. apply Hy, list_elem_of_fmap. eauto.
Qed.

(** A strictly sorted list of described transitions passes the loop of the catalog. *)
Lemma check_transitions_ok s required (ts : list TransitionDescriptor) previous version task_id n :
  Forall (describes s required) ts →
  StronglySorted rlt (action_key_order ∘ td_action_key <$> ts) →
  (∀ p, previous = Some p → Forall (λ t, rlt (action_key_order p)
                                           (action_key_order (td_action_key t))) ts) →
  is_none_or version (λ v, v =? ws_state_version s) = true →
  is_none_or task_id (λ t, t =? tk_task_id (tr_task (ws_task s))) = true →
  check_transitions previous version task_id n ts
  = Ok (length (List.filter (λ t, td_role t =? RoleRequired) ts) + n).
Proof.
  revert previous version task_id n. induction ts as [|t ts IH];
    intros previous version task_id n Hd Hs Hp Hv Ht; [done|].
  apply Forall_cons in Hd as [Hd Hds]. rewrite fmap_cons in Hs.
  apply StronglySorted_inv in Hs as [Hs Ht1]. cbn [check_transitions].
  assert (is_some_and previous (λ p,
    string_gt (MethodName_as_str (ak_method p)) (MethodName_as_str (ak_method (td_action_key t)))
    || ((ak_method p =? ak_method (td_action_key t))
        && string_ge (variant_as_str (ak_semantic_variant p))
             (variant_as_str (ak_semantic_variant (td_action_key t))))) = false) as ->.
  { destruct previous as [p|]; [|done]. apply canonical_step.
    specialize (Hp p eq_refl). by apply Forall_cons in Hp as [? _]. }
  rewrite (de_check _ _ _ Hd), (de_version _ _ _ Hd), (de_task _ _ _ Hd),
    (de_operation _ _ _ Hd). cbn.
  assert (is_some_and version (λ v, v <>? ws_state_version s) = false) as ->.
  { destruct version as [v|]; [|done]. cbn in Hv |- *. by rewrite Hv. }
  assert (is_some_and task_id (λ v, v <>? tk_task_id (tr_task (ws_task s))) = false) as ->.
  { destruct task_id as [v|]; [|done]. cbn in Ht |- *. by rewrite Ht. }
  rewrite (de_refs _ _ _ Hd). cbn. rewrite IH; cbn; rewrite ?eqb_refl; try done.
  - destruct (td_role t =? RoleRequired); cbn; f_equal; lia.
  - intros p [= <-]. rewrite Forall_fmap in Ht1. exact Ht1.
Qed.

Lemma sorted_keys_NoDup (ts : list TransitionDescriptor) :
  StronglySorted rlt (action_key_order ∘ td_action_key <$> ts) → NoDup (td_action_key <$> ts).
Proof.
  intros Hs. apply (NoDup_fmap_1 action_key_order). rewrite <-list_fmap_compose.
  by apply sorted_rlt_NoDup.
Qed.

Lemma required_at_most_one s required (ts : list TransitionDescriptor) :
  Forall (describes s required) ts → NoDup (td_action_key <$> ts) →
  length (List.filter (λ t, td_role t =? RoleRequired) ts) ≤ 1.
Proof.
  intros Hd Hn. apply (NoDup_fmap_filter _ (λ t, td_role t =? RoleRequired)) in Hn.
  assert (∀ t, t ∈ List.filter (λ t, td_role t =? RoleRequired) ts →
               required = Some (td_action_key t)) as Hk.
  { intros t Ht. apply list_elem_of_In, filter_In in Ht as [Ht Hr].
    apply list_elem_of_In in Ht. rewrite Forall_forall in Hd. apply Hd in Ht.
    apply eqb_eq in Hr. rewrite (de_role _ _ _ Ht) in Hr.
    destruct (required =? Some (td_action_key t)) eqn:E; [by apply eqb_eq in E|done]. }
  destruct (List.filter _ ts) as [|a [|b l]]; cbn; [lia|lia|]. exfalso.
  assert (Some (td_action_key a) = Some (td_action_key b)) as [= Hab].
  { rewrite <-(Hk a), <-(Hk b); [done|set_solver|set_solver]. }
  cbn in Hn. apply NoDup_cons in Hn as [Hn _]. apply Hn. rewrite Hab. by left.
Qed.

(** A catalog that offers exactly the actions of the methods. *)
Record catalog_of (s : WorkflowSnapshot) (required : option WorkflowActionKey)
    (methods : list MethodName) (c : WorkflowTransitionCatalog) : Prop := {
  co_sorted : StronglySorted rlt (action_key_order ∘ td_action_key <$> wc_transitions c);
  co_each : Forall (describes s required) (wc_transitions c);
  co_keys : ∀ k, k ∈ td_action_key <$> wc_transitions c ↔ offered s methods k;
}.

Lemma catalog_find s required methods c k :
  catalog_of s required methods c →
  (∀ t, transition c k = Some t → t ∈ wc_transitions c ∧ td_action_key t = k)
  ∧ (is_some (transition c k) = true ↔ offered s methods k).
Proof.
  intros Hc. unfold transition. split.
  - intros t Ht. apply list_find_Some in Ht as [? Hk]. by apply eqb_eq in Hk.
  - rewrite <-(co_keys _ _ _ _ Hc). destruct (List.find _ _) as [t|] eqn:E; cbn.
    + apply list_find_Some in E as [Ht Hk]. apply eqb_eq in Hk. subst k.
      split; [|done]. intros _. apply list_elem_of_fmap. eauto.
    + split; [done|]. intros (t & -> & Ht)%list_elem_of_fmap.
      rewrite list_find_None in E. apply E in Ht. by rewrite eqb_refl in Ht.
Qed.

Lemma catalog_required s required methods c :
  catalog_of s required methods c →
  (∀ k, required = Some k → offered s methods k) →
  match required with
  | Some k => ∃ t, required_transition c = Some t ∧ t ∈ wc_transitions c ∧ td_action_key t = k
  | None => required_transition c = None
  end.
Proof.
  intros Hc Hr. unfold required_transition. pose proof (co_each _ _ _ _ Hc) as Hd.
  rewrite Forall_forall in Hd. destruct required as [k|].
  - destruct (List.find _ _) as [t|] eqn:E.
    + apply list_find_Some in E as [Ht Hrole]. exists t. split_and!; [done|done|].
      apply eqb_eq in Hrole. apply Hd in Ht. rewrite (de_role _ _ _ Ht) in Hrole.
      destruct (Some k =? Some (td_action_key t)) eqn:Ek; [|done]. apply eqb_eq in Ek.
      by injection Ek.
    + exfalso. specialize (Hr k eq_refl). apply (co_keys _ _ _ _ Hc) in Hr.
      apply list_elem_of_fmap in Hr as (t & -> & Ht). rewrite list_find_None in E.
      specialize (E t Ht). apply Hd in Ht. rewrite (de_role _ _ _ Ht), eqb_refl in E. done.
  - apply list_find_None. intros t Ht. apply Hd in Ht. rewrite (de_role _ _ _ Ht). done.
Qed.

Lemma catalog_ok s required (methods : list MethodName) :
  snapshot_ok s →
  (∀ m, m ∈ methods → method_available s m = true) →
  (∀ k, required = Some k → offered s methods k) →
  ∃ c, workflow_transition_catalog required methods s = Ok c ∧ catalog_of s required methods c.
Proof.
  intros Hs Ha Hr. unfold workflow_transition_catalog.
  destruct (catalog_methods_NoDup methods) as [Hn Hel].
  set (ms := vec_dedup (sort_by_key MethodName_as_str methods)) in *.
  assert (∃ ts, try_map (catalog_entry required s) (catalog_entries ms s) = Ok ts
    ∧ td_action_key <$> ts = entry_key <$> catalog_entries ms s
    ∧ Forall (describes s required) ts) as (ts & Hts & Hkeys & Hd).
  { assert (∀ e, e ∈ catalog_entries ms s → method_available s e.1 = true
                 ∧ e.2 ∈ semantic_variants e.1 s) as He.
    { intros e He%elem_of_catalog_entries. destruct He as [Hm Hv]. split; [|done].
      apply Ha. by apply Hel. }
    induction (catalog_entries ms s) as [|e es IH]; cbn; [by exists []|].
    destruct IH as (ts & -> & Hk & Hd); [intros; apply He; by right|].
    destruct (He e) as [He1 He2]; [by left|].
    destruct (catalog_entry_ok s required e Hs He1 He2) as (t & -> & Ht & Hdt).
    exists (t :: ts). split_and!; [done|by rewrite !fmap_cons, Ht, Hk|by constructor]. }
  rewrite Hts. cbn.
  set (sorted := sort_by_key (λ t, action_key_order (td_action_key t)) ts).
  assert (sorted ≡ₚ ts) as Hperm by apply sort_by_key_perm.
  assert (NoDup (td_action_key <$> ts)) as Hnk.
  { rewrite Hkeys. apply NoDup_fmap_2; [|by apply catalog_entries_NoDup].
    intros [m1 v1] [m2 v2] [=]. by subst. }
  assert (StronglySorted rlt (action_key_order ∘ td_action_key <$> sorted)) as Hss.
  { apply sorted_rle_NoDup_rlt; [apply (sort_by_key_sorted (λ t, _))|].
    rewrite Hperm, list_fmap_compose. apply NoDup_fmap_2; [|done].
    intros ??. apply action_key_order_inj. }
  assert (Forall (describes s required) sorted) as Hds by by rewrite Hperm.
  unfold catalog_new. rewrite (check_transitions_ok s required); [|done..].
  cbn -[Nat.ltb required_transition]. rewrite Nat.add_0_r.
  assert (Nat.ltb 1 (length (List.filter (λ t, td_role t =? RoleRequired) sorted)) = false) as ->.
  { apply Nat.ltb_ge. eapply required_at_most_one; [done|by apply sorted_keys_NoDup]. }
  cbn -[required_transition]. pose proof (catalog_required s required methods {| wc_transitions := sorted |}) as Hreq.
  assert (catalog_of s required methods {| wc_transitions := sorted |}) as Hc.
  { constructor; cbn; [done|done|]. intros k. rewrite Hperm, Hkeys, list_elem_of_fmap. split.
    - intros (e & -> & He%elem_of_catalog_entries). destruct He as [Hm Hv].
      split; [by apply Hel|done].
    - intros [Hm Hv]. destruct k as [m v]. exists (m, v). split; [done|].
      apply elem_of_catalog_entries. split; [by apply Hel|done]. }
  specialize (Hreq Hc Hr). destruct required as [k|].
  - destruct Hreq as (t & Ht & _). rewrite Ht. cbn. eauto.
  - rewrite Hreq. cbn. eauto.
Qed.

(** ** Evaluation *)

(** The arguments [evaluate] passes to [evaluation] in each of its outcomes. *)
Record Outcome := {
  oc_kind : WorkflowStateKind;
  oc_next : AuthorityNextActor;
  oc_required : option WorkflowActionKey;
  oc_methods : list MethodName;
  oc_reason : option WorkflowBlockingReason;
}.

Definition key (v : WorkflowActionSemanticVariant) : WorkflowActionKey :=
  {| ak_method := variant_method v; ak_semantic_variant := v |}.

Definition agent_outcome kind (v : WorkflowActionSemanticVariant) methods reason : Outcome :=
  {| oc_kind := kind; oc_next := NextAgent; oc_required := Some (key v);
     oc_methods := methods; oc_reason := reason |}.

Definition record_variant (s : WorkflowSnapshot) : WorkflowActionSemanticVariant :=
  if is_some (ws_checkpoint s) then VReplaceCurrent else VCreateInitial.
Definition scope_variant (s : WorkflowSnapshot) : WorkflowActionSemanticVariant :=
  if is_some (ws_current_change_unit s) then VKeepCurrentChangeUnit else VCreateCurrentChangeUnit.

Definition checkpoint_outcome (s : WorkflowSnapshot) (checkpoint : ShapingCheckpointRecord)
    : Outcome :=
  let mode := tk_mode (tr_task (ws_task s)) in
  if has_scope_decisions_to_apply mode checkpoint then
    agent_outcome SkReadyToApplyDecisions (scope_variant s) [MUpdateScope]
      (Some BrAcceptedDecisionsNotApplied)
  else if has_current_gaps checkpoint then
    agent_outcome SkShapingRequired (record_variant s) [MRecordShapingCheckpoint]
      (Some BrShapingGapsCurrent)
  else if (mode =? Advisor) && (sc_readiness checkpoint =? CheckpointReady) then
    if advice_basis_current s checkpoint then
      agent_outcome SkCloseReview VCheckClose
        [MCheckClose; MCloseTask; MFinalizeAdvice; MRecordShapingCheckpoint; MUpdateScope] None
    else if is_none (ws_current_change_unit s) then
      agent_outcome SkReadyForChangeUnit (scope_variant s)
        [MRecordShapingCheckpoint; MUpdateScope] (Some BrChangeUnitRequired)
    else
      agent_outcome SkReadyToFinalizeAdvice VFinalizeAdvice
        [MFinalizeAdvice; MRecordShapingCheckpoint; MUpdateScope]
        (Some BrAdvisorFinalizationRequired)
  else if is_none (ws_current_change_unit s) then
    agent_outcome SkReadyForChangeUnit (scope_variant s)
      [MRecordShapingCheckpoint; MUpdateScope] (Some BrChangeUnitRequired)
  else
    agent_outcome SkReadyForImplementation VAdvanceTask
      [MAdvanceTask; MRecordShapingCheckpoint; MUpdateScope] (Some BrExplicitAdvanceRequired).

Definition outcome (s : WorkflowSnapshot) : Outcome :=
  let task := tr_task (ws_task s) in
  let graph := ws_shaping_authority_graph s in
  if terminal_phase (tk_lifecycle_phase task) then
    {| oc_kind := SkTerminal; oc_next := NextNone; oc_required := None; oc_methods := [];
       oc_reason := None |}
  else if Nat.ltb 0 (us_recovery_required (ws_user_action_state s)) then
    agent_outcome SkDecisionRecoveryRequired (record_variant s) [MRecordShapingCheckpoint]
      (Some BrDecisionRecoveryRequired)
  else if negb (list_is_empty (ta_stale graph)) then
    if tk_work_phase task =? ShapingPhase then
      agent_outcome SkShapingRequired (record_variant s) [MRecordShapingCheckpoint]
        (Some BrApplicationAuthorityStale)
    else
      agent_outcome SkShapingRequired VCloseTask [MCloseTask] (Some BrApplicationAuthorityStale)
  else if tk_work_phase task =? Implementation then
    {| oc_kind := SkImplementation; oc_next := NextAgent; oc_required := None;
       oc_methods := implementation_methods s; oc_reason := None |}
  else if Nat.ltb 0 (us_awaiting_user (ws_user_action_state s)) then
    {| oc_kind := SkAwaitingUserAction; oc_next := NextUser;
       oc_required := Some (key VResolveUserAction);
       oc_methods := MResolveUserAction ::
         (if negb (list_is_empty (ta_accepted_unapplied graph)) then [MUpdateScope] else []);
       oc_reason := Some (if Nat.ltb 0 (us_inconsistent (ws_user_action_state s))
                          then BrInconsistentAuthorityState else BrUserActionPending) |}
  else
    match ws_checkpoint s with
    | None =>
        agent_outcome SkShapingRequired (record_variant s)
          [MRecordShapingCheckpoint; MUpdateScope] (Some BrNoCurrentCheckpoint)
    | Some checkpoint =>
        if Nat.ltb 0 (us_inconsistent (ws_user_action_state s)) then
          agent_outcome SkShapingRequired (record_variant s) [MRecordShapingCheckpoint]
            (Some BrInconsistentAuthorityState)
        else checkpoint_outcome s checkpoint
    end.

Definition evaluation_of (s : WorkflowSnapshot) (o : Outcome)
    : result WorkflowEvaluation CorePipelineError :=
  evaluation s (oc_kind o) (oc_next o) (oc_required o) (oc_methods o) (oc_reason o).

Lemma required_action_key m v : variant_method v = m → required_action m v = Ok (key v).
Proof. intros <-. unfold required_action, action_key_new. by rewrite eqb_refl. Qed.

Lemma record_variant_method s : variant_method (record_variant s) = MRecordShapingCheckpoint.
Proof. unfold record_variant. by destruct (is_some _). Qed.
Lemma scope_variant_method s : variant_method (scope_variant s) = MUpdateScope.
Proof. unfold scope_variant. by destruct (is_some _). Qed.

Lemma evaluate_by_outcome s :
  validate_separated_authority s = Ok () → evaluate s = evaluation_of s (outcome s).
Proof.
  intros Hv. unfold evaluate, outcome. rewrite Hv. cbv beta iota zeta.
  fold (record_variant s) (scope_variant s).
  rewrite (required_action_key MRecordShapingCheckpoint _ (record_variant_method s)),
    (required_action_key MResolveUserAction VResolveUserAction eq_refl).
  destruct (terminal_phase _); [done|]. destruct (Nat.ltb _ _); [done|].
  destruct (negb _).
  { destruct (_ =? ShapingPhase); rewrite ?(required_action_key _ _ (record_variant_method s));
      done. }
  destruct (_ =? Implementation); [done|]. destruct (Nat.ltb _ _); [done|].
  destruct (ws_checkpoint s) as [checkpoint|] eqn:Ec; [|done].
  destruct (Nat.ltb _ _); [done|]. unfold evaluate_checkpoint, checkpoint_outcome.
  rewrite (required_action_key MRecordShapingCheckpoint _ (record_variant_method s)),
    (required_action_key MUpdateScope _ (scope_variant_method s)).
  repeat (case_match; try done).
Qed.

(** The methods the catalog of an outcome is built from. *)
Definition outcome_methods (s : WorkflowSnapshot) (o : Outcome) : list MethodName :=
  admitted_methods_of s (oc_kind o) (oc_required o) (oc_methods o).

Definition always_admitted : list MethodName :=
  [MCheckClose; MCloseTask; MRequestUserAction; MStageArtifact].

(** The methods the three [retain] calls leave. *)
Definition retained (s : WorkflowSnapshot) (o : Outcome) (m : MethodName) : Prop :=
  m ∈ oc_methods o
  ∧ ((ak_method <$> oc_required o) = Some m
     ∨ (m = MRecordShapingCheckpoint → us_accepted_unapplied (ws_user_action_state s) = 0)
       ∧ (m = MUpdateScope → ta_pending_scope_update (ws_shaping_authority_graph s) = false)
       ∧ (m = MRecordRun → ta_pending_record_run (ws_shaping_authority_graph s) = false)).

Lemma elem_of_withhold removed withheld required (methods : list MethodName) m :
  m ∈ withhold removed withheld required methods ↔
  m ∈ methods ∧ (m = removed → withheld = false ∨ (ak_method <$> required) = Some m).
Proof.
  unfold withhold. destruct withheld; cbn; [|naive_solver].
  destruct required as [k|]; cbn.
  - destruct (ak_method k =? removed) eqn:E; cbn.
    + apply eqb_eq in E. split; [|naive_solver]. intros Hm. split; [done|]. intros ->. right.
      by rewrite E.
    + apply eqb_neq in E. rewrite list_elem_of_In, filter_In, <-list_elem_of_In.
      rewrite negb_true_iff, eqb_false. naive_solver.
  - rewrite list_elem_of_In, filter_In, <-list_elem_of_In, negb_true_iff, eqb_false. naive_solver.
Qed.

Lemma elem_of_outcome_methods s o m :
  m ∈ outcome_methods s o ↔
  retained s o m
  ∨ oc_kind o ≠ SkTerminal ∧
    (m ∈ always_admitted
     ∨ m = MResolveUserAction ∧ ta_pending_request_refs (ws_shaping_authority_graph s) ≠ []).
Proof.
  unfold outcome_methods, admitted_methods_of.
  set (w := withhold MRecordRun _ _ _).
  assert (m ∈ w ↔ retained s o m) as Hw.
  { unfold w, retained. rewrite !elem_of_withhold, Nat.ltb_ge, Nat.le_0_r. split.
    - intros [[[Hm H1] H2] H3]. split; [done|].
      destruct (decide ((ak_method <$> oc_required o) = Some m)) as [|Hne]; [by left|right].
      split_and!; intros Hm'.
      + by destruct (H1 Hm').
      + by destruct (H2 Hm').
      + by destruct (H3 Hm').
    - intros [Hm [Hr|(H1 & H2 & H3)]]; split_and!; auto. }
  destruct (oc_kind o =? SkTerminal) eqn:Ek; cbn -[withhold].
  - apply eqb_eq in Ek. rewrite Hw. naive_solver.
  - apply eqb_neq in Ek. destruct (list_is_empty _) eqn:Ep; cbn -[withhold].
    + apply list_is_empty_true in Ep. rewrite elem_of_app, Hw. unfold always_admitted. naive_solver.
    + apply list_is_empty_false in Ep. rewrite !elem_of_app, Hw, list_elem_of_singleton.
      unfold always_admitted. naive_solver.
Qed.

Lemma resolvable_nonempty s :
  ta_pending_request_refs (ws_shaping_authority_graph s) ≠ []
  ∨ progression_user_action_refs (ws_shaping_authority_graph s) ≠ [] →
  method_available s MResolveUserAction = true.
Proof.
  intros H. cbn. apply negb_true_iff, list_is_empty_false. intros Hnil.
  assert (∀ r, r ∉ ta_pending_request_refs (ws_shaping_authority_graph s)
                 ++ progression_user_action_refs (ws_shaping_authority_graph s)) as Hn.
  { intros r Hr. apply elem_of_sort_dedup in Hr. unfold resolvable_user_action_refs in Hnil.
    rewrite Hnil in Hr. by apply elem_of_nil in Hr. }
  apply elem_of_nil_inv, app_eq_nil in Hn. naive_solver.
Qed.

Lemma awaiting_nonempty s :
  snapshot_ok s → Nat.ltb 0 (us_awaiting_user (ws_user_action_state s)) = true →
  progression_user_action_refs (ws_shaping_authority_graph s) ≠ [].
Proof.
  intros Hs Ha Hn. rewrite (so_awaiting _ Hs), Hn in Ha. done.
Qed.

Lemma execution_available s :
  snapshot_ok s → execution_coordinates_available s = true →
  is_some (ws_current_change_unit s) = true ∧ is_some (baseline_of (ws_task s)) = true.
Proof.
  intros Hs H. unfold execution_coordinates_available in H. rewrite (so_baseline _ Hs) in H.
  apply andb_true_iff in H as [H ->]. by destruct (ws_current_change_unit s).
Qed.

Lemma implementation_method_available s m :
  snapshot_ok s → m ∈ implementation_methods s → method_available s m = true.
Proof.
  intros Hs Hm. unfold implementation_methods in Hm.
  repeat (apply elem_of_app in Hm as [Hm|Hm]).
  - by repeat (apply elem_of_cons in Hm as [->|Hm]; [done|]); apply elem_of_nil in Hm.
  - destruct (execution_coordinates_available s) eqn:E; [|by apply elem_of_nil in Hm].
    destruct (execution_available s Hs E) as [H1 H2].
    by repeat (apply elem_of_cons in Hm as [->|Hm]; [cbn; by rewrite H1, H2|]);
      apply elem_of_nil in Hm.
  - destruct (execution_coordinates_available s) eqn:E; [|by apply elem_of_nil in Hm].
    destruct (execution_available s Hs E) as [H1 H2]. cbn in Hm.
    destruct (tk_mode _ =? Advisor) eqn:Em; [by apply elem_of_nil in Hm|].
    apply list_elem_of_singleton in Hm as ->. cbn. by rewrite H1, H2, Em.
  - destruct (Nat.ltb _ _) eqn:E; [|by apply elem_of_nil in Hm].
    apply list_elem_of_singleton in Hm as ->. apply resolvable_nonempty. right.
    by apply awaiting_nonempty.
  - by repeat (apply elem_of_cons in Hm as [->|Hm]; [done|]); apply elem_of_nil in Hm.
Qed.

Local Ltac each_method Hm :=
  repeat (apply elem_of_cons in Hm as [->|Hm]); try (by apply elem_of_nil in Hm); try done.

Lemma checkpoint_outcome_available s checkpoint m :
  snapshot_ok s → ws_checkpoint s = Some checkpoint →
  m ∈ oc_methods (checkpoint_outcome s checkpoint) → method_available s m = true.
Proof.
  intros Hs Hc Hm. pose proof (so_summary _ Hs) as Hsum. rewrite Hc in Hsum. cbn in Hsum.
  unfold checkpoint_outcome in Hm.
  destruct (has_scope_decisions_to_apply _ _); [each_method Hm|].
  destruct (has_current_gaps _); [each_method Hm|].
  destruct (_ && _).
  - destruct (advice_basis_current s checkpoint) eqn:Eb.
    + assert (is_some (ws_current_change_unit s) = true) as Hcu.
      { unfold advice_basis_current in Eb. destruct (ws_close_basis s); [|done]. cbn in Eb.
        apply andb_true_iff in Eb as [_ Eb]. by destruct (ws_current_change_unit s). }
      each_method Hm. cbn. by rewrite Hsum, Hcu.
    + destruct (ws_current_change_unit s) eqn:Ecu; cbn in Hm; each_method Hm.
      cbn. by rewrite Hsum, Ecu.
  - destruct (ws_current_change_unit s) eqn:Ecu; cbn in Hm; each_method Hm.
    cbn. by rewrite Hsum, Ecu.
Qed.

Lemma outcome_available s m :
  snapshot_ok s → m ∈ outcome_methods s (outcome s) → method_available s m = true.
Proof.
  intros Hs [[Hm _]|[_ [Hm|[-> Hp]]]]%elem_of_outcome_methods.
  - unfold outcome in Hm.
    destruct (terminal_phase _); [by apply elem_of_nil in Hm|].
    destruct (Nat.ltb _ _); [each_method Hm|].
    destruct (negb _). { destruct (_ =? ShapingPhase); each_method Hm. }
    destruct (_ =? Implementation); [by apply implementation_method_available|].
    destruct (Nat.ltb _ _) eqn:Ea.
    { cbn in Hm. apply elem_of_cons in Hm as [->|Hm].
      - apply resolvable_nonempty. right. by apply awaiting_nonempty.
      - destruct (negb _); each_method Hm. }
    destruct (ws_checkpoint s) as [checkpoint|] eqn:Ec; [|each_method Hm].
    destruct (Nat.ltb 0 (us_inconsistent _)); [each_method Hm|]. exact (checkpoint_outcome_available s checkpoint m Hs Ec Hm).
  - unfold always_admitted in Hm. each_method Hm.
  - apply resolvable_nonempty. by left.
Qed.

(** The required action of an outcome is one of its methods, of a current variant. *)
Definition outcome_coherent (s : WorkflowSnapshot) (o : Outcome) : Prop :=
  oc_kind o ≠ SkNoActiveTask
  ∧ (terminal_phase (tk_lifecycle_phase (tr_task (ws_task s))) = true ↔ oc_kind o = SkTerminal)
  ∧ (oc_kind o = SkTerminal → oc_next o = NextNone ∧ oc_required o = None ∧ oc_methods o = [])
  ∧ (oc_next o = NextUser ↔ oc_required o = Some (key VResolveUserAction))
  ∧ (oc_next o = NextNone → oc_required o = None)
  ∧ (oc_required o = None → oc_reason o = None)
  ∧ (∀ k, oc_required o = Some k →
       ak_method k ∈ oc_methods o ∧ ak_semantic_variant k ∈ semantic_variants (ak_method k) s).

Lemma record_variant_current s :
  snapshot_ok s → record_variant s ∈ semantic_variants MRecordShapingCheckpoint s.
Proof. intros Hs. cbn. unfold record_variant. rewrite (so_summary _ Hs). by left. Qed.

Lemma scope_variant_current s : scope_variant s ∈ semantic_variants MUpdateScope s.
Proof.
  cbn. unfold scope_variant, is_none. destruct (ws_current_change_unit s); cbn; by left.
Qed.

Lemma agent_outcome_coherent s kind v methods reason :
  snapshot_ok s → terminal_phase (tk_lifecycle_phase (tr_task (ws_task s))) = false →
  kind ≠ SkTerminal → kind ≠ SkNoActiveTask → v ≠ VResolveUserAction →
  variant_method v ∈ methods → v ∈ semantic_variants (variant_method v) s →
  outcome_coherent s (agent_outcome kind v methods reason).
Proof.
  intros Hs Ht Hk Hk' Hv Hm Hvar. unfold outcome_coherent, agent_outcome. cbn. rewrite Ht.
  split_and!; try done.
  - split; [done|]. unfold key. by intros [=].
  - intros k [= <-]. done.
Qed.

Lemma checkpoint_outcome_coherent s checkpoint :
  snapshot_ok s → terminal_phase (tk_lifecycle_phase (tr_task (ws_task s))) = false →
  outcome_coherent s (checkpoint_outcome s checkpoint).
Proof.
  intros Hs Ht. pose proof (record_variant_current s Hs) as Hr.
  pose proof (scope_variant_current s) as Hv.
  assert (∀ v, v = record_variant s ∨ v = scope_variant s → v ≠ VResolveUserAction) as Hne.
  { intros v [-> | ->]; [unfold record_variant|unfold scope_variant]; by destruct (is_some _). }
  unfold checkpoint_outcome. repeat case_match; apply agent_outcome_coherent;
    rewrite ?record_variant_method, ?scope_variant_method; auto; try done; try set_solver.
Qed.

Lemma outcome_is_coherent s : snapshot_ok s → outcome_coherent s (outcome s).
Proof.
  intros Hs. pose proof (record_variant_current s Hs) as Hr.
  assert (record_variant s ≠ VResolveUserAction) as Hne.
  { unfold record_variant. by destruct (is_some _). }
  unfold outcome. destruct (terminal_phase _) eqn:Ht.
  { unfold outcome_coherent. cbn. rewrite Ht. naive_solver. }
  assert (∀ kind methods reason, kind ≠ SkTerminal → kind ≠ SkNoActiveTask →
    MRecordShapingCheckpoint ∈ methods →
    outcome_coherent s (agent_outcome kind (record_variant s) methods reason)) as Hrec.
  { intros. apply agent_outcome_coherent; rewrite ?record_variant_method; done. }
  destruct (Nat.ltb 0 (us_recovery_required _)); [apply Hrec; set_solver|].
  destruct (negb _).
  { destruct (_ =? ShapingPhase); [apply Hrec; set_solver|].
    apply agent_outcome_coherent; cbn; try done; set_solver. }
  destruct (_ =? Implementation).
  { unfold outcome_coherent. cbn. rewrite Ht. naive_solver. }
  destruct (Nat.ltb 0 (us_awaiting_user _)).
  { unfold outcome_coherent. cbn. rewrite Ht. split_and!; try done.
    intros k [= <-]. cbn. set_solver. }
  destruct (ws_checkpoint s); [|apply Hrec; set_solver].
  destruct (Nat.ltb _ _); [apply Hrec; set_solver|by apply checkpoint_outcome_coherent].
Qed.

(** The result of evaluating a snapshot: the outcome with its catalog. *)
Record evaluates (s : WorkflowSnapshot) (e : WorkflowEvaluation) : Prop := {
  ev_kind : we_workflow_kind e = oc_kind (outcome s);
  ev_next : we_next_actor e = oc_next (outcome s);
  ev_reason : we_typed_blocking_reason e = oc_reason (outcome s);
  ev_catalog : catalog_of s (oc_required (outcome s)) (outcome_methods s (outcome s))
                 (we_transition_catalog e);
  ev_required : match oc_required (outcome s) with
                | Some k => ∃ t, required_transition (we_transition_catalog e) = Some t
                                 ∧ t ∈ wc_transitions (we_transition_catalog e)
                                 ∧ td_action_key t = k
                | None => required_transition (we_transition_catalog e) = None
                end;
  ev_basis : wcr_current_close_basis_present (we_close_readiness e) = is_some (ws_close_basis s);
}.

Lemma outcome_required_offered s k :
  snapshot_ok s → oc_required (outcome s) = Some k →
  offered s (outcome_methods s (outcome s)) k.
Proof.
  intros Hs Hk. destruct (outcome_is_coherent s Hs) as (_ & _ & _ & _ & _ & _ & Hr).
  destruct (Hr k Hk) as [Hm Hv]. split; [|done]. apply elem_of_outcome_methods. left.
  split; [done|]. left. by rewrite Hk.
Qed.

Lemma catalog_empty s required c :
  catalog_of s required [] c → wc_transitions c = [].
Proof.
  intros Hc. apply elem_of_nil_inv. intros t Ht.
  assert (offered s [] (td_action_key t)) as [Hm _].
  { apply (co_keys _ _ _ _ Hc), list_elem_of_fmap. eauto. }
  by apply elem_of_nil in Hm.
Qed.

(** The required transition of a catalog belongs to the actor the outcome names. *)
Lemma required_actor s c t :
  snapshot_ok s →
  catalog_of s (oc_required (outcome s)) (outcome_methods s (outcome s)) c →
  required_transition c = Some t →
  td_actor t = ActorUser ∧ oc_next (outcome s) = NextUser
  ∨ td_actor t = ActorAgent ∧ oc_next (outcome s) = NextAgent.
Proof.
  intros Hs Hof Ht. pose proof (catalog_required _ _ _ _ Hof
    ltac:(intros; by apply outcome_required_offered)) as Hreq. rewrite Ht in Hreq.
  destruct (outcome_is_coherent s Hs) as (_ & _ & _ & Huser & Hnone & _ & _).
  destruct (oc_required (outcome s)) as [k|] eqn:Er; [|done].
  destruct Hreq as (t' & [= <-] & Hin & Htk).
  pose proof (co_each _ _ _ _ Hof) as Hd. rewrite Forall_forall in Hd. apply Hd in Hin.
  rewrite (de_actor _ _ _ Hin), Htk. unfold expected_transition_actor.
  destruct (decide (k = key VResolveUserAction)) as [->|Hne].
  - left. split; [done|]. by apply Huser.
  - right. destruct (ak_method k =? MResolveUserAction) eqn:Em.
    + exfalso. apply Hne. apply eqb_eq in Em.
      destruct (outcome_required_offered s k Hs Er) as [_ Hv]. rewrite Em in Hv. cbn in Hv.
      apply list_elem_of_singleton in Hv. destruct k as [m v]. cbn in *. by subst.
    + split; [done|]. destruct (oc_next (outcome s)) eqn:En; [done| |].
      * assert (Some k = Some (key VResolveUserAction)) as [= ->] by by apply Huser. done.
      * by specialize (Hnone eq_refl).
Qed.

(** A terminal outcome offers nothing, every other one offers closing. *)
Lemma outcome_catalog_terminal s c :
  snapshot_ok s →
  catalog_of s (oc_required (outcome s)) (outcome_methods s (outcome s)) c →
  oc_kind (outcome s) = SkTerminal → wc_transitions c = [].
Proof.
  intros Hs Hof Et. destruct (outcome_is_coherent s Hs) as (_ & _ & Hkt & _).
  destruct (Hkt Et) as (_ & _ & Hms). apply (catalog_empty s (oc_required (outcome s))).
  replace (@nil MethodName) with (outcome_methods s (outcome s)); [done|].
  apply elem_of_nil_inv. intros m Hm. apply elem_of_outcome_methods in Hm.
  unfold retained in Hm. rewrite Hms in Hm. set_solver.
Qed.

Lemma always_offered s m :
  oc_kind (outcome s) ≠ SkTerminal → m ∈ always_admitted →
  ∃ v, variant_method v = m ∧ offered s (outcome_methods s (outcome s)) (key v).
Proof.
  intros Hk Hm.
  assert (∃ v, variant_method v = m ∧ v ∈ semantic_variants m s) as (v & Hv & Hvar).
  { unfold always_admitted in Hm. each_method Hm; eexists; (split; [|by left]); done. }
  exists v. split; [done|]. split; cbn; rewrite Hv; [|done].
  apply elem_of_outcome_methods. right. split; [done|by left].
Qed.

Lemma outcome_catalog_nonempty s c :
  catalog_of s (oc_required (outcome s)) (outcome_methods s (outcome s)) c →
  oc_kind (outcome s) ≠ SkTerminal → wc_transitions c ≠ [].
Proof.
  intros Hof Hk Hnil. destruct (always_offered s MCloseTask Hk) as (v & _ & Hv);
    [unfold always_admitted; set_solver|].
  apply (co_keys _ _ _ _ Hof) in Hv. rewrite Hnil in Hv. by apply elem_of_nil in Hv.
Qed.

Lemma evaluate_evaluates s :
  snapshot_ok s → ∃ e, evaluate s = Ok e ∧ evaluates s e.
Proof.
  intros Hs. rewrite evaluate_by_outcome by apply Hs.
  destruct (outcome_is_coherent s Hs) as (Hk & Hterm & Hkt & Huser & Hnone & _ & _).
  destruct (catalog_ok s (oc_required (outcome s)) (outcome_methods s (outcome s)) Hs)
    as (c & Hc & Hof); [intros; by apply outcome_available|
                        intros; by apply outcome_required_offered|].
  pose proof (catalog_required _ _ _ _ Hof
    ltac:(intros; by apply outcome_required_offered)) as Hreq.
  pose proof (λ t, required_actor s c t Hs Hof) as Hactor.
  unfold evaluation_of, evaluation. fold (outcome_methods s (outcome s)). rewrite Hc.
  cbv beta iota zeta.
  assert (is_some (oc_required (outcome s)) = is_some (required_transition c)) as Hsome.
  { destruct (oc_required (outcome s)); [by destruct Hreq as (t & -> & _)|by rewrite Hreq]. }
  rewrite Hsome, eqb_refl. cbn [negb].
  assert (is_some_and (required_transition c) (λ required,
    negb (match oc_next (outcome s), td_actor required with
          | NextAgent, ActorAgent | NextUser, ActorUser => true | _, _ => false end)) = false) as ->.
  { destruct (required_transition c) as [t|]; [|done]. cbn.
    destruct (Hactor t eq_refl) as [[-> ->]|[-> ->]]; done. }
  assert ((oc_kind (outcome s) =? SkTerminal) && negb (list_is_empty (wc_transitions c)) = false)
    as ->.
  { destruct (oc_kind (outcome s) =? SkTerminal) eqn:Et; [|done]. apply eqb_eq in Et.
    by rewrite (outcome_catalog_terminal s c). }
  assert (negb (oc_kind (outcome s) =? SkTerminal) && (oc_kind (outcome s) <>? SkNoActiveTask)
          && list_is_empty (wc_transitions c) = false) as ->.
  { destruct (oc_kind (outcome s) =? SkTerminal) eqn:Et; [done|]. apply eqb_neq in Et.
    apply andb_false_iff. right. apply list_is_empty_false.
    by apply (outcome_catalog_nonempty s c). }
  assert ((oc_next (outcome s) =? NextUser)
    && is_none_or (required_transition c) (λ t, td_actor t <>? ActorUser) = false) as ->.
  { destruct (oc_next (outcome s) =? NextUser) eqn:En; [|done]. apply eqb_eq in En.
    destruct (required_transition c) as [t|] eqn:Er.
    - cbn. destruct (Hactor t eq_refl) as [[-> _]|[_ Hag]]; [done|congruence].
    - exfalso. apply Huser in En. by rewrite En in Hsome. }
  eexists. split; [reflexivity|]. constructor; cbn; done.
Qed.

(** ** Theorems *)

Definition is_terminal (s : WorkflowSnapshot) : bool :=
  terminal_phase (tk_lifecycle_phase (tr_task (ws_task s))).

Lemma accepted_evaluates s e : accepted s → evaluate s = Ok e → evaluates s e.
Proof.
  intros Hs%accepted_ok He. destruct (evaluate_evaluates s Hs) as (e' & He' & Hev).
  rewrite He in He'. by apply Ok_inj in He' as ->.
Qed.

(** The method a blocking reason calls for. *)
Definition called_for (s : WorkflowSnapshot) (reason : WorkflowBlockingReason)
    : option MethodName :=
  match reason with
  | BrNoCurrentCheckpoint | BrShapingGapsCurrent | BrDecisionRecoveryRequired =>
      Some MRecordShapingCheckpoint
  | BrUserActionPending => Some MResolveUserAction
  | BrInconsistentAuthorityState =>
      Some (if list_is_empty (progression_user_action_refs (ws_shaping_authority_graph s))
            then MRecordShapingCheckpoint else MResolveUserAction)
  | BrAcceptedDecisionsNotApplied | BrChangeUnitRequired => Some MUpdateScope
  | BrApplicationAuthorityStale =>
      Some (if tk_work_phase (tr_task (ws_task s)) =? ShapingPhase
            then MRecordShapingCheckpoint else MCloseTask)
  | BrAdvisorFinalizationRequired => Some MFinalizeAdvice
  | BrExplicitAdvanceRequired => Some MAdvanceTask
  | BrRecoveryConstraint => None
  end.

Lemma outcome_called_for s reason :
  snapshot_ok s → oc_reason (outcome s) = Some reason →
  is_Some (called_for s reason) ∧ ak_method <$> oc_required (outcome s) = called_for s reason.
Proof.
  intros Hs. pose proof (so_awaiting _ Hs) as Haw. unfold outcome.
  destruct (terminal_phase _); [done|].
  destruct (Nat.ltb 0 (us_recovery_required _)).
  { intros [= <-]. cbn. by rewrite record_variant_method. }
  destruct (negb _).
  { destruct (tk_work_phase _ =? ShapingPhase) eqn:Ep; intros [= <-]; cbn [called_for];
      rewrite Ep; cbn; by rewrite ?record_variant_method. }
  destruct (_ =? Implementation); [done|].
  destruct (Nat.ltb 0 (us_awaiting_user _)) eqn:Ea; rewrite Haw in Ea.
  { apply Nat.ltb_lt in Ea. destruct (Nat.ltb 0 (us_inconsistent _)); intros [= <-]; cbn; [|done].
    by destruct (progression_user_action_refs _); [cbn in Ea; lia|]. }
  apply Nat.ltb_ge in Ea. destruct (ws_checkpoint s) as [checkpoint|].
  2: { intros [= <-]. cbn. by rewrite record_variant_method. }
  destruct (Nat.ltb 0 (us_inconsistent _)).
  { intros [= <-]. cbn. rewrite record_variant_method.
    by destruct (progression_user_action_refs _); [|cbn in Ea; lia]. }
  unfold checkpoint_outcome. repeat case_match; intros [= <-]; cbn;
    by rewrite ?record_variant_method, ?scope_variant_method.
Qed.

(** C4: The workflow machine never gets stuck.  Every snapshot the constructor accepts
    evaluates without error.  A terminal Task is shown as such and offers no
    transition to anyone; any other Task always offers closing, the close check, a
    question to the user and artifact staging; and whenever the machine names a
    reason that blocks the Task, its catalog has a required transition, of the method
    that reason calls for and owned by the actor it says is next.  (Whether that method
    then accepts a request is decided by its own guards.) *)
Theorem workflow_never_stuck (s : WorkflowSnapshot) :
  accepted s →
  ∃ e, evaluate s = Ok e
    ∧ (is_terminal s = true →
         we_workflow_kind e = SkTerminal ∧ we_next_actor e = NextNone
         ∧ wc_transitions (we_transition_catalog e) = [])
    ∧ (is_terminal s = false →
         we_workflow_kind e ≠ SkTerminal
         ∧ Forall (λ m, admits_method (we_transition_catalog e) m = true)
             [MCheckClose; MCloseTask; MRequestUserAction; MStageArtifact])
    ∧ (∀ reason, we_typed_blocking_reason e = Some reason →
         ∃ t, required_transition (we_transition_catalog e) = Some t
              ∧ called_for s reason = Some (ak_method (td_action_key t))
              ∧ (we_next_actor e = NextAgent ∧ td_actor t = ActorAgent
                 ∨ we_next_actor e = NextUser ∧ td_actor t = ActorUser)).
Proof.
  intros Ha. pose proof (accepted_ok s Ha) as Hs.
  destruct (evaluate_evaluates s Hs) as (e & He & Hev). exists e.
  destruct (outcome_is_coherent s Hs) as (_ & Hterm & Hkt & _ & _ & Hreason & _).
  pose proof (ev_catalog _ _ Hev) as Hof. rewrite (ev_kind _ _ Hev), (ev_next _ _ Hev).
  split_and!; [done| | |].
  - intros Ht%Hterm. split_and!; [done|by apply Hkt|].
    by apply (outcome_catalog_terminal s).
  - intros Ht. assert (oc_kind (outcome s) ≠ SkTerminal) as Hk.
    { intros Hk%Hterm. unfold is_terminal in Ht. by rewrite Hk in Ht. }
    split; [done|]. apply Forall_forall. intros m Hm.
    destruct (always_offered s m Hk Hm) as (v & Hv & Hoff).
    apply (co_keys _ _ _ _ Hof), list_elem_of_fmap in Hoff as (t & Ht' & Hin).
    apply existsb_elem. exists t. split; [done|]. rewrite <-Ht'. cbn. rewrite Hv. apply eqb_refl.
  - rewrite (ev_reason _ _ Hev). intros reason Hr. pose proof (ev_required _ _ Hev) as Hreq.
    destruct (outcome_called_for s reason Hs Hr) as [_ Hcalled].
    destruct (oc_required (outcome s)) as [k|] eqn:Er; [|by rewrite Hreason in Hr].
    destruct Hreq as (t & Ht & _ & <-). exists t. split_and!; [done|done|].
    rewrite <-Er in Hof. destruct (required_actor s _ t Hs Hof Ht) as [[-> ->]|[-> ->]]; auto.
Qed.

(** What an evaluated catalog admits, in terms of the outcome. *)
Lemma admitted_offered s e k :
  evaluates s e →
  (is_some (transition (we_transition_catalog e) k) = true
   ↔ offered s (outcome_methods s (outcome s)) k).
Proof. intros Hev. exact (proj2 (catalog_find _ _ _ _ k (ev_catalog _ _ Hev))). Qed.

Lemma retained_only s o m :
  m ∉ always_admitted → m ≠ MResolveUserAction →
  (m ∈ outcome_methods s o ↔ retained s o m).
Proof. intros H1 H2. rewrite elem_of_outcome_methods. naive_solver. Qed.

Lemma dedup_by_go_nil (seen : list string) (l : list WorkflowUserActionFact) :
  (∀ x, x ∈ l → fact_request_id x ∉ seen) → dedup_by_go fact_request_id seen l = [] → l = [].
Proof.
  destruct l as [|x l]; [done|]. intros Hin. cbn.
  destruct (bts_mem _ _) eqn:E; [|done]. apply bts_mem_elem in E. exfalso.
  apply (Hin x); [by left|done].
Qed.

(** Nobody waits for the user exactly when no fact is pending. *)
Lemma progression_nil (a : TaskWideShapingAuthority) :
  progression_user_action_refs a = [] ↔ ∀ f, f ∈ all_facts a → uf_status f ≠ UAPending.
Proof.
  unfold progression_user_action_refs.
  assert (∀ l : list StateRecordRef, rsort l = [] ↔ l = []) as Hr.
  { intros l. split; [|by intros ->]. intros H. pose proof (rsort_perm l) as Hp. rewrite H in Hp.
    by apply Permutation_nil_l in Hp. }
  rewrite Hr. split.
  - intros H f Hf Hst. apply fmap_nil_inv in H. unfold dedup_by in H.
    apply dedup_by_go_nil in H; [|set_solver].
    assert (f ∈ List.filter (λ fact, uf_status fact =? UAPending) (all_facts a)) as Hin.
    { apply list_elem_of_In, filter_In. split; [by apply list_elem_of_In|]. rewrite Hst.
      apply eqb_refl. }
    rewrite H in Hin. by apply elem_of_nil in Hin.
  - intros H. assert (List.filter (λ fact, uf_status fact =? UAPending) (all_facts a) = []) as ->;
      [|done].
    apply elem_of_nil_inv. intros f Hf. apply list_elem_of_In, filter_In in Hf as [Hf Hst].
    apply list_elem_of_In in Hf. apply eqb_eq in Hst. by apply (H f).
Qed.

Lemma counter_zero {A} (n : nat) (l : list A) : n = length l → (Nat.ltb 0 n = false ↔ l = []).
Proof. intros ->. rewrite Nat.ltb_ge, Nat.le_0_r, length_zero_iff_nil. done. Qed.

(** Every question of shaping is settled: none is open, none was answered in a way that
    needs a new plan, none lost its basis, and no accepted scope decision is waiting to
    be applied. *)
Record shaping_settled (s : WorkflowSnapshot) (checkpoint : ShapingCheckpointRecord) : Prop := {
  ss_recovery : ta_recovery_required (ws_shaping_authority_graph s) = [];
  ss_stale : ta_stale (ws_shaping_authority_graph s) = [];
  ss_pending : ∀ f, f ∈ all_facts (ws_shaping_authority_graph s) → uf_status f ≠ UAPending;
  ss_inconsistent : ta_inconsistent (ws_shaping_authority_graph s) = [];
  ss_gaps : ∀ gap, gap ∈ sc_gaps checkpoint → sg_status gap ≠ GapCurrent;
  ss_scope : ∀ gap policy, gap ∈ sc_gaps checkpoint → sg_status gap = GapAccepted →
    decision_policy_for_mode (sg_gap_kind gap) (tk_mode (tr_task (ws_task s))) = Some policy →
    application_owner policy ≠ OwnUpdateScope;
}.

Definition settled (s : WorkflowSnapshot) (checkpoint : ShapingCheckpointRecord) : bool :=
  negb (Nat.ltb 0 (us_recovery_required (ws_user_action_state s)))
  && list_is_empty (ta_stale (ws_shaping_authority_graph s))
  && negb (Nat.ltb 0 (us_awaiting_user (ws_user_action_state s)))
  && negb (Nat.ltb 0 (us_inconsistent (ws_user_action_state s)))
  && negb (has_current_gaps checkpoint)
  && negb (has_scope_decisions_to_apply (tk_mode (tr_task (ws_task s))) checkpoint).

Lemma settled_true s checkpoint :
  snapshot_ok s → settled s checkpoint = true ↔ shaping_settled s checkpoint.
Proof.
  intros Hs. unfold settled. rewrite !andb_true_iff, !negb_true_iff, list_is_empty_true.
  rewrite (counter_zero _ _ (so_recovery _ Hs)), (counter_zero _ _ (so_inconsistent _ Hs)),
    (counter_zero _ _ (so_awaiting _ Hs)), progression_nil.
  assert (has_current_gaps checkpoint = false ↔
          ∀ gap, gap ∈ sc_gaps checkpoint → sg_status gap ≠ GapCurrent) as ->.
  { unfold has_current_gaps. rewrite existsb_false. by setoid_rewrite eqb_false. }
  assert (has_scope_decisions_to_apply (tk_mode (tr_task (ws_task s))) checkpoint = false ↔
    ∀ gap policy, gap ∈ sc_gaps checkpoint → sg_status gap = GapAccepted →
      decision_policy_for_mode (sg_gap_kind gap) (tk_mode (tr_task (ws_task s))) = Some policy →
      application_owner policy ≠ OwnUpdateScope) as ->.
  { unfold has_scope_decisions_to_apply. rewrite existsb_false. split.
    - intros H gap policy Hg Hst Hp Ho. specialize (H gap Hg). rewrite Hst, Hp, eqb_refl in H.
      cbn in H. by rewrite Ho, eqb_refl in H.
    - intros H gap Hg. destruct (sg_status gap =? GapAccepted) eqn:Est; [|done].
      apply eqb_eq in Est. destruct (decision_policy_for_mode _ _) as [policy|] eqn:Ep; [|done].
      cbn. apply eqb_false. by apply (H gap). }
  split; [intros (((((? & ?) & ?) & ?) & ?) & ?); by constructor|].
  intros []. by split_and!.
Qed.

(** The step that leaves a settled shaping phase. *)
Definition leaving_method (s : WorkflowSnapshot) (checkpoint : ShapingCheckpointRecord)
    : MethodName :=
  if (tk_mode (tr_task (ws_task s)) =? Advisor) && (sc_readiness checkpoint =? CheckpointReady)
  then MFinalizeAdvice else MAdvanceTask.

Definition shaping_phase (s : WorkflowSnapshot) : Prop :=
  is_terminal s = false ∧ tk_work_phase (tr_task (ws_task s)) = ShapingPhase.

Lemma leaving_in_checkpoint_outcome s checkpoint m :
  m = MAdvanceTask ∨ m = MFinalizeAdvice →
  (m ∈ oc_methods (checkpoint_outcome s checkpoint) ↔
   has_scope_decisions_to_apply (tk_mode (tr_task (ws_task s))) checkpoint = false
   ∧ has_current_gaps checkpoint = false ∧ is_some (ws_current_change_unit s) = true
   ∧ m = leaving_method s checkpoint).
Proof.
  intros Hm. unfold checkpoint_outcome, leaving_method.
  destruct (has_scope_decisions_to_apply _ _); [set_solver|].
  destruct (has_current_gaps _); [set_solver|].
  destruct (_ && _).
  - destruct (advice_basis_current s checkpoint) eqn:Eb.
    + assert (is_some (ws_current_change_unit s) = true) as ->.
      { unfold advice_basis_current in Eb. destruct (ws_close_basis s); [|done]. cbn in Eb.
        apply andb_true_iff in Eb as [_ Eb]. by destruct (ws_current_change_unit s). }
      cbn. set_solver.
    + unfold is_none. destruct (ws_current_change_unit s); cbn; set_solver.
  - unfold is_none. destruct (ws_current_change_unit s); cbn; set_solver.
Qed.

Lemma leaving_in_outcome s m :
  m = MAdvanceTask ∨ m = MFinalizeAdvice →
  (m ∈ oc_methods (outcome s) ↔
   shaping_phase s ∧ is_some (ws_current_change_unit s) = true
   ∧ ∃ checkpoint, ws_checkpoint s = Some checkpoint ∧ settled s checkpoint = true
                   ∧ m = leaving_method s checkpoint).
Proof.
  intros Hm. unfold outcome, shaping_phase, settled. fold (is_terminal s).
  destruct (is_terminal s); [set_solver|].
  destruct (Nat.ltb 0 (us_recovery_required _)); [set_solver|].
  destruct (list_is_empty (ta_stale _)); cbn [negb]; [|destruct (_ =? ShapingPhase); set_solver].
  destruct (tk_work_phase (tr_task (ws_task s))).
  2: { cbn. split; [|intros ((_ & ?) & _); done]. intros Hin. exfalso.
       unfold implementation_methods in Hin. clear -Hm Hin.
       repeat (apply elem_of_app in Hin as [Hin|Hin]); unravel Hin; set_solver. }
  cbn [eqb]. change (ShapingPhase =? Implementation) with false. cbv iota.
  destruct (Nat.ltb 0 (us_awaiting_user _)).
  { cbn. destruct (list_is_empty _); cbn; set_solver. }
  destruct (ws_checkpoint s) as [checkpoint|]; [|set_solver].
  destruct (Nat.ltb 0 (us_inconsistent _)); [set_solver|]. cbn [negb andb].
  rewrite (leaving_in_checkpoint_outcome s checkpoint m Hm). split.
  - intros (H1 & H2 & H3 & ->). split_and!; [done|done|done|]. exists checkpoint.
    by rewrite H1, H2.
  - intros (_ & -> & c & [= <-] & Hset & ->). apply andb_true_iff in Hset as [H1 H2].
    apply negb_true_iff in H1, H2. done.
Qed.

(** C9: What the machine offers to leave shaping.  Advancing a Task is offered if and only if
    the Task is open and still being shaped, has a current Change Unit and a current
    checkpoint, every question of shaping is settled, and the Task is not an advisor Task
    with a ready checkpoint; finalizing advice is offered under the same conditions for
    just those.  The machine consults neither the mode nor the readiness any further: it
    offers advancing for direct Tasks, for advisor Tasks whose checkpoint is not ready and
    for settled checkpoints that are still blocked, all of which the method itself
    refuses. *)
Theorem leaving_shaping_exactly (s : WorkflowSnapshot) (e : WorkflowEvaluation)
    (v : WorkflowActionSemanticVariant) :
  accepted s → evaluate s = Ok e → v = VAdvanceTask ∨ v = VFinalizeAdvice →
  (is_some (transition (we_transition_catalog e) (key v)) = true ↔
   shaping_phase s ∧ is_some (ws_current_change_unit s) = true
   ∧ ∃ checkpoint, ws_checkpoint s = Some checkpoint ∧ shaping_settled s checkpoint
                   ∧ variant_method v = leaving_method s checkpoint).
Proof.
  intros Ha He Hv. pose proof (accepted_evaluates s e Ha He) as Hev.
  apply accepted_ok in Ha as Hs. rewrite (admitted_offered s e (key v) Hev). unfold offered.
  assert (v ∈ semantic_variants (variant_method v) s) as Hvar.
  { destruct Hv as [->| ->]; by left. }
  assert (variant_method v = MAdvanceTask ∨ variant_method v = MFinalizeAdvice) as Hm.
  { destruct Hv as [->| ->]; auto. }
  rewrite retained_only; [|destruct Hv as [->| ->]; cbn; unfold always_admitted; set_solver..].
  unfold retained. cbn [key ak_method ak_semantic_variant].
  rewrite leaving_in_outcome by done. setoid_rewrite (settled_true s _ Hs).
  split; [tauto|]. intros H. split_and!; try tauto. right.
  destruct Hv as [->| ->]; by split_and!.
Qed.

(** The Task is being implemented and its coordinates agree. *)
Record executing (s : WorkflowSnapshot) : Prop := {
  ex_open : is_terminal s = false;
  ex_phase : tk_work_phase (tr_task (ws_task s)) = Implementation;
  ex_recovery : ta_recovery_required (ws_shaping_authority_graph s) = [];
  ex_stale : ta_stale (ws_shaping_authority_graph s) = [];
  ex_coordinates : ∃ cu b, ws_current_change_unit s = Some cu ∧ baseline_of (ws_task s) = Some b
                           ∧ cu_write_basis_baseline_ref cu = Some b;
}.

Lemma execution_coordinates s :
  snapshot_ok s →
  execution_coordinates_available s = true ↔
  ∃ cu b, ws_current_change_unit s = Some cu ∧ baseline_of (ws_task s) = Some b
          ∧ cu_write_basis_baseline_ref cu = Some b.
Proof.
  intros Hs. unfold execution_coordinates_available. rewrite (so_baseline _ Hs). split.
  - intros [H1 H2]%andb_true_iff. destruct (ws_current_change_unit s) as [cu|]; [|done].
    destruct (baseline_of (ws_task s)) as [b|]; [|done]. cbn in H1. apply eqb_eq in H1. eauto.
  - intros (cu & b & -> & -> & Hb). cbn. by rewrite Hb, eqb_refl.
Qed.

Lemma executing_in_outcome s m :
  snapshot_ok s → m = MPrepareWrite ∨ m = MPrepareEvidenceCapture ∨ m = MRecordRun →
  (m ∈ oc_methods (outcome s) ↔
   executing s ∧ (m = MRecordRun → tk_mode (tr_task (ws_task s)) ≠ Advisor)).
Proof.
  intros Hs Hm.
  assert (∀ kind v methods reason, (∀ x, x ∈ methods → x ∉ [MPrepareWrite; MPrepareEvidenceCapture;
    MRecordRun]) → m ∉ oc_methods (agent_outcome kind v methods reason)) as Hno by set_solver.
  assert (∀ c, m ∉ oc_methods (checkpoint_outcome s c)) as Hcp.
  { intros c. unfold checkpoint_outcome. repeat case_match; apply Hno; set_solver. }
  unfold outcome. fold (is_terminal s).
  destruct (is_terminal s) eqn:Et; [split; [set_solver|intros [[] _]; congruence]|].
  destruct (Nat.ltb 0 (us_recovery_required _)) eqn:Er.
  { split; [set_solver|]. intros [[_ _ Hr _ _] _].
    apply (counter_zero _ _ (so_recovery _ Hs)) in Hr. congruence. }
  apply (counter_zero _ _ (so_recovery _ Hs)) in Er.
  destruct (list_is_empty (ta_stale _)) eqn:Es; cbn [negb].
  2: { split; [destruct (_ =? ShapingPhase); set_solver|]. intros [[_ _ _ Hst _] _].
       apply list_is_empty_false in Es. done. }
  apply list_is_empty_true in Es.
  destruct (tk_work_phase (tr_task (ws_task s))) eqn:Ep.
  { change (ShapingPhase =? Implementation) with false. cbv iota.
    split; [|intros [[_ Hp _ _ _] _]; congruence]. intros Hin. exfalso.
    destruct (Nat.ltb 0 (us_awaiting_user _));
      [cbn in Hin; destruct (list_is_empty _) in Hin; cbn in Hin; set_solver|].
    destruct (ws_checkpoint s); [|set_solver].
    destruct (Nat.ltb _ _); [set_solver|by eapply Hcp]. }
  change (Implementation =? Implementation) with true. cbv iota. cbn [oc_methods].
  unfold implementation_methods. rewrite !elem_of_app.
  pose proof (execution_coordinates s Hs) as Hex.
  destruct (execution_coordinates_available s).
  - assert (executing s) as Hexec. { constructor; [done..|]. by apply Hex. }
    cbn [andb]. destruct (tk_mode (tr_task (ws_task s)) =? Advisor) eqn:Em;
      [apply eqb_eq in Em|apply eqb_neq in Em]; cbn [negb]; destruct (Nat.ltb _ _); set_solver.
  - split; [destruct (Nat.ltb _ _); cbn; set_solver|]. intros [[_ _ _ _ Hc] _].
    by apply Hex in Hc.
Qed.

(** Work is done exactly on agreed ground.  Preparing a write or an evidence capture is
    admitted if and only if the Task is open and in its implementation phase, no
    decision is stale or in need of recovery, and the current Change Unit was cut on the
    Task's own baseline; recording a run needs in addition a Task that may write at all
    and no pending question about the run. *)
Theorem execution_admitted_exactly (s : WorkflowSnapshot) (e : WorkflowEvaluation) :
  accepted s → evaluate s = Ok e →
  (∀ v, v = VPrepareWrite ∨ v = VPrepareEvidenceCapture →
     is_some (transition (we_transition_catalog e) (key v)) = true ↔ executing s)
  ∧ (is_some (transition (we_transition_catalog e) (key VRecordRun)) = true ↔
     executing s ∧ tk_mode (tr_task (ws_task s)) ≠ Advisor
     ∧ ta_pending_record_run (ws_shaping_authority_graph s) = false).
Proof.
  intros Ha He. pose proof (accepted_evaluates s e Ha He) as Hev.
  apply accepted_ok in Ha as Hs. split.
  - intros v Hv. rewrite (admitted_offered s e (key v) Hev). unfold offered. cbn [key ak_method
      ak_semantic_variant].
    rewrite retained_only by (destruct Hv as [->| ->]; cbn; unfold always_admitted; set_solver).
    unfold retained. rewrite executing_in_outcome; [|done|destruct Hv as [->| ->]; auto].
    destruct Hv as [->| ->]; cbn.
    all: split; [tauto|]; intros Hx; split_and!; try done; [by right|set_solver].
  - rewrite (admitted_offered s e _ Hev). unfold offered. cbn [key ak_method ak_semantic_variant].
    rewrite retained_only by (cbn; unfold always_admitted; set_solver).
    unfold retained. rewrite executing_in_outcome by auto. cbn [variant_method].
    assert (executing s → oc_required (outcome s) = None) as Hreq.
    { intros [Ht Hp Hr Hst _]. unfold outcome. fold (is_terminal s). rewrite Ht, Hp, Hst.
      apply (counter_zero _ _ (so_recovery _ Hs)) in Hr. by rewrite Hr. }
    split.
    + intros [[[Hx Hm] Hc] _]. split_and!; [done|by apply Hm|].
      rewrite (Hreq Hx) in Hc. destruct Hc as [|(_ & _ & Hc)]; [done|by apply Hc].
    + intros (Hx & Hm & Hc). split_and!; [done|done| |set_solver]. right. by split_and!.
Qed.

Lemma admission_descriptor s e k :
  ca_descriptor (transition_admission s e k) = transition (we_transition_catalog e) k.
Proof. unfold transition_admission. by repeat case_match. Qed.

Lemma replacement_offered s methods :
  offered s methods (key VReplaceCurrentChangeUnit) →
  implementation_authority_allows_change_unit_replacement s = true.
Proof.
  intros [_ Hv]. cbn in Hv. destruct (is_none _); [set_solver|].
  destruct (implementation_authority_allows_change_unit_replacement s); [done|set_solver].
Qed.

Lemma found_transition s e t :
  evaluates s e → t ∈ wc_transitions (we_transition_catalog e) →
  is_some (transition (we_transition_catalog e) (td_action_key t)) = true.
Proof.
  intros Hev Ht. pose proof (ev_catalog _ _ Hev) as Hof.
  apply (catalog_find _ _ _ _ _ Hof), (co_keys _ _ _ _ Hof), list_elem_of_fmap. eauto.
Qed.

(** The transition of the close method is the one close action, and an open Task has it. *)
Lemma close_transition s e :
  evaluates s e →
  match List.find (λ t, ak_method (td_action_key t) =? MCloseTask)
          (wc_transitions (we_transition_catalog e)) with
  | Some t => t ∈ wc_transitions (we_transition_catalog e) ∧ td_action_key t = key VCloseTask
  | None => oc_kind (outcome s) = SkTerminal
  end.
Proof.
  intros Hev. pose proof (ev_catalog _ _ Hev) as Hof. destruct (List.find _ _) as [t|] eqn:Ef.
  - apply list_find_Some in Ef as [Ht Hk]. split; [done|]. apply eqb_eq in Hk.
    assert (offered s (outcome_methods s (outcome s)) (td_action_key t)) as [_ Hv].
    { apply (co_keys _ _ _ _ Hof), list_elem_of_fmap. eauto. }
    rewrite Hk in Hv. cbn in Hv. apply list_elem_of_singleton in Hv.
    destruct (td_action_key t) as [m v]. cbn in *. by subst.
  - destruct (decide (oc_kind (outcome s) = SkTerminal)) as [|Hk]; [done|]. exfalso.
    destruct (always_offered s MCloseTask Hk) as (v & Hv & Hoff);
      [unfold always_admitted; set_solver|].
    apply (co_keys _ _ _ _ Hof), list_elem_of_fmap in Hoff as (t & Ht' & Hin).
    rewrite list_find_None in Ef. specialize (Ef t Hin). rewrite <-Ht' in Ef. cbn in Ef.
    by rewrite Hv, eqb_refl in Ef.
Qed.

(** C18: An admitted action acts on the evaluated state, and a rejected one is shown a way
    on.  An admission either carries the descriptor of exactly the attempted action, at
    the state version of the snapshot, or a reason and a code, never both; the recovery
    action it names, if any, would itself be admitted.  The Change Unit of a Task whose
    implementation rests on applied decisions cannot be replaced: the attempt is
    rejected as final, an open Task is pointed at closing, and keeping the Change Unit
    is admitted only with the invalidation of that authority forbidden. *)
Theorem transition_admission_sound (s : WorkflowSnapshot) (e : WorkflowEvaluation)
    (k : WorkflowActionKey) :
  accepted s → evaluate s = Ok e →
  let a := transition_admission s e k in
  (is_some (ca_descriptor a) = is_none (ca_rejection_reason a)
   ∧ is_some (ca_rejection_reason a) = is_some (ca_rejection_code a))
  ∧ (∀ d, ca_descriptor a = Some d →
       td_action_key d = k ∧ td_expected_state_version d = ws_state_version s
       ∧ coordinates_task_id (td_fixed_authority_coordinates d) = tk_task_id (tr_task (ws_task s))
       ∧ (td_authority_invalidation d = Forbidden ↔
            k = key VKeepCurrentChangeUnit
            ∧ implementation_authority_allows_change_unit_replacement s = false))
  ∧ (∀ r, ca_recovery_action_key a = Some r →
       is_some (ca_descriptor (transition_admission s e r)) = true)
  ∧ (k = key VReplaceCurrentChangeUnit →
     implementation_authority_allows_change_unit_replacement s = false →
       ca_rejection_reason a = Some ImplementationAuthorityWouldBeInvalidated
       ∧ ca_retryable a = false
       ∧ (is_terminal s = false → ca_recovery_action_key a = Some (key VCloseTask))).
Proof.
  intros Ha He a. pose proof (accepted_evaluates s e Ha He) as Hev.
  pose proof (ev_catalog _ _ Hev) as Hof. apply accepted_ok in Ha as Hs.
  pose proof (co_each _ _ _ _ Hof) as Hd. rewrite Forall_forall in Hd.
  pose proof (close_transition s e Hev) as Hclose. split_and!.
  - unfold a, transition_admission. destruct (transition _ k); [done|]. by destruct (_ && _).
  - unfold a, transition_admission. destruct (transition _ k); [done|]. by destruct (_ && _).
  - intros d. unfold a. rewrite admission_descriptor. intros Hd'.
    apply (catalog_find _ _ _ _ _ Hof) in Hd' as [Hin <-]. apply Hd in Hin. destruct Hin.
    by split_and!.
  - intros r Hr. rewrite admission_descriptor. unfold a, transition_admission in Hr.
    destruct (is_some (transition _ _)); [done|]. destruct (_ && _) in Hr; cbn in Hr.
    + destruct (List.find _ _) as [t|]; [|done]. destruct Hclose as [Hin _].
      injection Hr as <-. by apply (found_transition s).
    + destruct (required_transition _) as [t|] eqn:Ef in Hr; [|done].
      apply list_find_Some in Ef as [Hin _]. injection Hr as <-. by apply (found_transition s).
  - intros -> Hallow. assert (is_some (transition (we_transition_catalog e)
      (key VReplaceCurrentChangeUnit)) = false) as Hnone.
    { apply not_true_iff_false. intros Hin. apply (admitted_offered s e _ Hev) in Hin.
      apply replacement_offered in Hin. congruence. }
    unfold a, transition_admission. rewrite Hnone, Hallow. cbn. split_and!; [done|done|].
    intros Ht. destruct (List.find _ _) as [t|]; cbn; [by destruct Hclose as [_ ->]|].
    exfalso. destruct (outcome_is_coherent s Hs) as (_ & Hterm & _).
    apply Hterm in Hclose. unfold is_terminal in Ht. congruence.
Qed.

(** ** Witnesses *)

Definition unwrap {A E} (r : result A E) : is_ok r = true → A :=
  match r with
  | Ok a => λ _, a
  | Err _ => λ H, match diff_false_true H with end
  end.

Lemma unwrap_Ok {A E} (r : result A E) H : r = Ok (unwrap r H).
Proof. by destruct r. Qed.

Definition sample_row (mode : TaskMode) (phase : WorkPhase) : TaskRow :=
  {| tr_task :=
       {| tk_project_id := "p"; tk_task_id := "t1"; tk_mode := mode;
          tk_requested_control_level := RAuto; tk_effective_control_level := Tracked;
          tk_control_level_reason := "reason"; tk_work_phase := phase;
          tk_acceptance_policy := Required; tk_acceptance_policy_reason := "reason";
          tk_lifecycle_phase := PReady; tk_summary := None;
          tk_shaping := {| goal_summary := None; scope_summary := None; non_goals := [];
                           shaping_baseline_ref := Some "base";
                           shaping_autonomy_boundary := None |};
          tk_autonomy_boundary := None; tk_scope_revision := 1; tk_close_basis_revision := 0;
          tk_current_change_unit_id := Some "cu1" |};
     tr_initial_context_refs := []; tr_initial_source_refs := []; tr_predecessor_task_id := None;
     tr_lineage_relation := None; tr_lineage_reason := None; tr_carry_forward := [];
     tr_result := None; tr_title := None; tr_bounded_context := []; tr_close_basis := None;
     tr_close_summary := close_summary_default; tr_closed_at := None; tr_metadata := None |}.

Definition sample_unit : ChangeUnitRecord :=
  {| cu_project_id := "p"; cu_change_unit_id := "cu1"; cu_task_id := "t1"; cu_status := CUActive;
     cu_is_current := true; cu_basis_state_version := 3; cu_bounded_paths := ["src"];
     cu_write_basis_baseline_ref := Some "base"; cu_write_basis_git_workspace_context := None;
     cu_effect_contract := None; cu_recovery_required := false |}.

Definition sample_gap : ShapingCheckpointGapRecord :=
  {| sg_shaping_gap_id := "gap1"; sg_gap_kind := UserTechnicalDecisionRequired;
     sg_summary := "Which library?"; sg_affected_refs := []; sg_status := GapAccepted;
     sg_reauthorizes_application_id := None;
     sg_user_action := Some
       {| scu_user_action_request_id := "req1"; scu_action_kind := TechnicalDecision;
          scu_user_action_resolution_id := Some "res1"; scu_linked_at := 10%Z;
          scu_resolved_at := Some 20%Z |} |}.

Definition sample_checkpoint : ShapingCheckpointRecord :=
  {| sc_project_id := "p"; sc_shaping_checkpoint_id := "cp1";
     sc_predecessor_shaping_checkpoint_id := None; sc_task_id := "t1"; sc_scope_revision := 1;
     sc_baseline_ref := Some "base"; sc_summary := "Plan"; sc_implementation_boundary := None;
     sc_readiness := CheckpointReady; sc_source_refs := []; sc_evidence_refs := [];
     sc_created_at := 5%Z; sc_superseded_at := None; sc_gaps := [sample_gap];
     sc_applications := [] |}.

Definition sample_ref (kind : StateRecordKind) (id : string) : StateRecordRef :=
  {| sr_record_kind := kind; sr_record_id := id; sr_project_id := "p";
     sr_task_id := Some "t1"; sr_produced_at_state_version := Some 4%N |}.

Definition sample_fact (state : ShapingDecisionAuthorityState) : WorkflowUserActionFact :=
  {| uf_request_ref := sample_ref KUserActionRequest "req1";
     uf_resolution_ref := Some (sample_ref KUserActionResolution "res1");
     uf_status := UAResolved; uf_authority_state := state;
     uf_required_owner_method := MAdvanceTask |}.

Definition sample_authority (accepted applied : list WorkflowUserActionFact)
    : TaskWideShapingAuthority :=
  {| ta_awaiting_user := []; ta_accepted_unapplied := accepted; ta_recovery_required := [];
     ta_applied := applied; ta_stale := []; ta_inconsistent := [];
     ta_current_resolution_ids := []; ta_stale_application_refs := [];
     ta_pending_request_refs := []; ta_pending_scope_update := false;
     ta_pending_record_run := false |}.

Definition sample_summary : ShapingCheckpointSummary :=
  {| scs_checkpoint_ref := sample_ref KShapingCheckpoint "cp1";
     scs_predecessor_checkpoint_ref := None; scs_readiness := CheckpointReady;
     scs_scope_revision := 1; scs_baseline_ref := Some "base";
     scs_implementation_boundary := None; scs_gaps := []; scs_current_application_refs := [];
     scs_pending_decision_refs := []; scs_unresolved_application_owners := [];
     scs_decision_recovery_requirements := [] |}.

(** A Task whose one technical decision is accepted, still being shaped. *)
Definition shaped_snapshot : WorkflowSnapshot :=
  unwrap (snapshot_new "p" 4 (sample_row Work ShapingPhase) (Some sample_unit)
            (Some sample_checkpoint) (sample_authority [sample_fact AcceptedUnapplied] [])
            (Some sample_summary) [sample_ref KTask "t1"; sample_ref KChangeUnit "cu1"]) eq_refl.

(** The same Task once the decision is applied and implementation has begun. *)
Definition implementing_snapshot : WorkflowSnapshot :=
  unwrap (snapshot_new "p" 4 (sample_row Work Implementation) (Some sample_unit)
            (Some sample_checkpoint) (sample_authority [] [sample_fact Applied])
            (Some sample_summary) [sample_ref KTask "t1"]) eq_refl.

Lemma shaped_accepted : accepted shaped_snapshot.
Proof. unfold accepted, shaped_snapshot. do 8 eexists. apply unwrap_Ok. Qed.
Lemma implementing_accepted : accepted implementing_snapshot.
Proof. unfold accepted, implementing_snapshot. do 8 eexists. apply unwrap_Ok. Qed.

Definition shaped_evaluation : WorkflowEvaluation := unwrap (evaluate shaped_snapshot) eq_refl.
Definition implementing_evaluation : WorkflowEvaluation :=
  unwrap (evaluate implementing_snapshot) eq_refl.

Lemma shaped_evaluates : evaluate shaped_snapshot = Ok shaped_evaluation.
Proof. unfold shaped_evaluation. apply unwrap_Ok. Qed.
Lemma implementing_evaluates : evaluate implementing_snapshot = Ok implementing_evaluation.
Proof. unfold implementing_evaluation. apply unwrap_Ok. Qed.

Lemma workflow_never_stuck_witness :
  accepted shaped_snapshot
  ∧ ∃ e t, evaluate shaped_snapshot = Ok e
      ∧ required_transition (we_transition_catalog e) = Some t ∧ td_actor t = ActorAgent.
Proof.
  split; [exact shaped_accepted|].
  destruct (workflow_never_stuck shaped_snapshot shaped_accepted) as (e & He & _ & _ & Hr).
  assert (e = shaped_evaluation) as ->.
  { apply (Ok_inj (E := CorePipelineError)). rewrite <-He. apply shaped_evaluates. }
  destruct (Hr BrExplicitAdvanceRequired) as (t & Ht & _ & Ha); [vm_compute; reflexivity|].
  exists shaped_evaluation, t.
  split; [done|]. split; [done|]. destruct Ha as [[_ Ha]|[Hn _]]; [done|].
  exfalso. vm_compute in Hn. discriminate.
Defined.

Lemma leaving_shaping_exactly_witness :
  is_some (transition (we_transition_catalog shaped_evaluation) (key VAdvanceTask)) = true
  ∧ shaping_phase shaped_snapshot.
Proof.
  assert (is_some (transition (we_transition_catalog shaped_evaluation) (key VAdvanceTask)) = true)
    as H by (vm_compute; reflexivity).
  split; [exact H|].
  apply (leaving_shaping_exactly shaped_snapshot shaped_evaluation VAdvanceTask) in H;
    [by destruct H|exact shaped_accepted|exact shaped_evaluates|by left].
Defined.

Lemma execution_admitted_exactly_witness :
  is_some (transition (we_transition_catalog implementing_evaluation) (key VPrepareWrite)) = true
  ∧ executing implementing_snapshot.
Proof.
  assert (is_some (transition (we_transition_catalog implementing_evaluation)
    (key VPrepareWrite)) = true) as H by (vm_compute; reflexivity).
  split; [exact H|].
  destruct (execution_admitted_exactly implementing_snapshot implementing_evaluation)
    as [Hw _]; [exact implementing_accepted|exact implementing_evaluates|].
  apply (Hw VPrepareWrite); [by left|exact H].
Defined.

Lemma transition_admission_sound_witness :
  implementation_authority_allows_change_unit_replacement implementing_snapshot = false
  ∧ ca_recovery_action_key
      (transition_admission implementing_snapshot implementing_evaluation
         (key VReplaceCurrentChangeUnit)) = Some (key VCloseTask).
Proof.
  split; [vm_compute; reflexivity|].
  destruct (transition_admission_sound implementing_snapshot implementing_evaluation
    (key VReplaceCurrentChangeUnit)) as (_ & _ & _ & H);
    [exact implementing_accepted|exact implementing_evaluates|].
  apply H; [reflexivity|vm_compute; reflexivity|reflexivity].
Defined.
