(* ===== verification/WorkflowAuthority.v ===== *)
(** * WorkflowAuthority: the facts the workflow machine runs on

    Models the reading side of [crates/volicord-core/src/workflow_projection.rs]:
    [task_wide_shaping_authority], which classifies every user action of a Task by the
    authority it currently carries, [checkpoint_summary], and the functions that
    build a snapshot from stored records and evaluate or admit
    ([with_workflow_snapshot], [workflow_projection], [current_workflow_projection],
    [current_transition_admission]).  The strictly decoded authority graph, the
    checkpoint and the rows of the project are read through the class
    [WorkflowReader]; pending questions come from the modelled table of user
    actions.  The digest behind an application identity is that of [CaptureDigest].
    The last section says which facts the classification can produce. *)

From S2P Require Import Prelude Text Values Canonical Schema UserAction Clock TicketStore Commit.
From S2P Require Import UserActionShape UserActionStore Artifact UserActionService Evidence Capture.
From S2P Require Import Admission WorkflowAction TaskRecords ShapingStore WorkflowMachine.
Import Shaping.

(** What the functions below read of the project store. *)
Class WorkflowReader (S : Type) := {
  wr_user_actions : S → UserActionTable;
  wr_state_version : S → result N StoreError;
  wr_authority_graph : S → TaskId → UtcTimestamp → result CurrentShapingAuthorityGraph StoreError;
  wr_task_record : S → TaskId → result (option TaskRow) StoreError;
  wr_current_change_unit : S → TaskId → result (option ChangeUnitRecord) StoreError;
  wr_current_checkpoint : S → TaskId → result (option ShapingCheckpointRecord) StoreError;
}.

(** [From<UserActionServiceError> for CorePipelineError]; only the stored-state arms can
    be reached from the reads used here, so the other texts are abbreviated. *)
Definition core_error_of_service (error : UserActionServiceError) : CorePipelineError :=
  match error with
  | CorruptStoredState error | ServiceStore error => CoreStore error
  | Validation error =>
      CoreInvalidDispatch ("user-action service validation escaped method mapping: "
                           +:+ ve_field error +:+ ": " +:+ ve_message error)
  | ServiceInvariant _ => CoreInvalidDispatch "user-action service invariant failed"
  | Unavailable _ => CoreInvalidDispatch "user-action service availability escaped method mapping"
  end.

Definition stored_ref_to_state_ref (r : StoredRecordRef) : StateRecordRef :=
  {| sr_record_kind := srr_record_kind r; sr_record_id := srr_record_id r;
     sr_project_id := srr_project_id r; sr_task_id := srr_task_id r;
     sr_produced_at_state_version := srr_state_version r |}.

Definition btm_get {V} (k : string) (m : list (string * V)) : option V :=
  snd <$> List.find (λ kv, kv.1 =? k) m.

(** ** Classifying one user action *)

Section authority.
Context `{HC : Chrono} `{HZ : CanonicalSize} `{HD : CaptureDigest}.

Definition pending_user_action_refs_for_operation (table : UserActionTable)
    (project_id : ProjectId) (state_version : N) (now : UtcTimestamp)
    (context : Relevance.UserActionOperationContext)
    : result (list StateRecordRef) UserActionServiceError :=
  let? authorities :=
    pending_user_action_authorities table (Relevance.oc_task_id context) now in
  Ok ((λ authority, state_ref KUserActionRequest (ua_user_action_request_id authority) project_id
         (Some (Relevance.oc_task_id context)) (Some state_version))
      <$> List.filter (λ authority, Relevance.user_action_blocks_operation authority context)
            authorities).

(** The coordinates one user action is judged against. *)
Record AssessmentContext := {
  ac_project_id : ProjectId;
  ac_state_version : N;
  ac_task : TaskRow;
  ac_current_change_unit : option ChangeUnitRecord;
  ac_checkpoint : option ShapingCheckpointRecord;
  ac_projecting_next_state : bool;
  ac_applications : list ShapingDecisionApplicationRecord;
  ac_application_sources : list (string * (string * ShapingCheckpointGapRecord));
}.

Definition ac_policy (c : AssessmentContext) : TaskRecord := tr_task (ac_task c).

Definition record_resolution_id (record : StoredUserActionRecordSet) : option string :=
  us_user_action_resolution_id <$> set_resolution record.

Definition record_application (c : AssessmentContext) (record : StoredUserActionRecordSet)
    : option ShapingDecisionApplicationRecord :=
  List.find (λ application,
    (sda_user_action_request_id application =? ur_user_action_request_id (set_request record))
    && (record_resolution_id record =? Some (sda_user_action_resolution_id application)))
    (ac_applications c).

Definition gap_of_request (checkpoint : ShapingCheckpointRecord) (request_id : string)
    : option ShapingCheckpointGapRecord :=
  List.find (λ gap, is_some_and (sg_user_action gap) (λ link,
    scu_user_action_request_id link =? request_id)) (sc_gaps checkpoint).

Definition represented_gap (c : AssessmentContext) (record : StoredUserActionRecordSet)
    : option ShapingCheckpointGapRecord :=
  ac_checkpoint c ≫= λ checkpoint,
    gap_of_request checkpoint (ur_user_action_request_id (set_request record)).

Definition participates_in_progression (c : AssessmentContext)
    (record : StoredUserActionRecordSet) : bool :=
  let required_for := ur_required_for (set_request record) in
  is_some (represented_gap c record)
  || is_some_and (record_application c record) (λ application,
       contains (sda_authority_status application) [AppCurrent; AppStale])
  || (if tk_mode (ac_policy c) =? Advisor
      then contains ForFinalizeAdvice required_for || contains ForScopeUpdate required_for
      else contains ForAdvanceTask required_for).

(** The checkpoint and gap a user action belongs to. *)
Definition record_source (c : AssessmentContext) (record : StoredUserActionRecordSet)
    : option (string * ShapingCheckpointGapRecord) :=
  match record_application c record with
  | Some application =>
      btm_get (sda_shaping_decision_application_id application) (ac_application_sources c)
  | None =>
      checkpoint ← ac_checkpoint c; gap ← represented_gap c record;
      Some (sc_shaping_checkpoint_id checkpoint, gap)
  end.

Definition origin_matches (c : AssessmentContext) (record : StoredUserActionRecordSet) : bool :=
  match ur_metadata (set_request record), record_source c record with
  | MetaShaping _ shaping_checkpoint_id shaping_gap_id reauthorizes_application_id,
      Some (checkpoint_id, gap) =>
      (shaping_checkpoint_id =? checkpoint_id) && (shaping_gap_id =? sg_shaping_gap_id gap)
      && (reauthorizes_application_id =? sg_reauthorizes_application_id gap)
  | _, _ => false
  end.

Definition record_policy (c : AssessmentContext) (record : StoredUserActionRecordSet)
    : option ShapingDecisionPolicy :=
  '(_, gap) ← record_source c record; decision_policy_for_mode (sg_gap_kind gap)
                                        (tk_mode (ac_policy c)).

Definition record_outcome (record : StoredUserActionRecordSet)
    : option UserActionOptionAction * option JudgmentResolutionOutcome :=
  match us_resolution <$> set_resolution record with
  | Some (ResolutionChoice _ machine_action resolution_outcome _ _) =>
      (Some machine_action, Some resolution_outcome)
  | _ => (None, None)
  end.

Definition resolution_identity_matches_of (c : AssessmentContext)
    (record : StoredUserActionRecordSet) : bool :=
  is_some_and (record_source c record) (λ '(_, gap),
    is_some_and (sg_user_action gap) (λ link,
      scu_user_action_resolution_id link =? record_resolution_id record)).

Definition verified_user_channel_of (record : StoredUserActionRecordSet) : bool :=
  is_some_and (set_resolution record) (λ resolution,
    (us_resolved_by_actor_source resolution =? LocalUser)
    && (us_resolved_verification_basis resolution
          =? verification_basis (us_channel_kind resolution))
    && negb (blank (us_resolved_assurance_level resolution))).

Definition application_identity_matches_of (c : AssessmentContext)
    (record : StoredUserActionRecordSet) : bool :=
  is_some_and (record_application c record) (λ application,
    is_some_and (record_source c record) (λ '(source_checkpoint_id, gap),
      (sda_project_id application =? ac_project_id c)
      && (sda_task_id application =? tk_task_id (ac_policy c))
      && (sda_source_checkpoint_id application =? source_checkpoint_id)
      && (sda_source_gap_id application =? sg_shaping_gap_id gap)
      && (sda_user_action_request_id application
            =? ur_user_action_request_id (set_request record))
      && (record_resolution_id record =? Some (sda_user_action_resolution_id application))
      && (gap_judgment_kind (sg_gap_kind gap) =? Some (sda_judgment_kind application))
      && is_some_and (record_policy c record) (λ policy,
           application_owner policy =? sda_application_owner application)
      && (shaping_decision_application_id (sda_user_action_resolution_id application)
            (sda_application_owner application)
          =? sda_shaping_decision_application_id application))).

Definition record_coordinates (record : StoredUserActionRecordSet) : UserActionBasisCoordinates :=
  coordinates (ur_basis (set_request record)).

Definition scope_revision_matches_of (c : AssessmentContext)
    (record : StoredUserActionRecordSet) : bool :=
  match record_application c record with
  | None => ac_projecting_next_state c
            || (co_scope_revision (record_coordinates record) =? tk_scope_revision (ac_policy c))
  | Some application =>
      sda_applied_scope_revision application =? tk_scope_revision (ac_policy c)
  end.

Definition baseline_matches_of (c : AssessmentContext) (record : StoredUserActionRecordSet)
    : bool :=
  let baseline := baseline_of (ac_task c) in
  match record_application c record with
  | None =>
      if ac_projecting_next_state c
      then is_some_and (ac_checkpoint c) (λ checkpoint, sc_baseline_ref checkpoint =? baseline)
      else co_baseline_ref (record_coordinates record) =? baseline
  | Some application => Some (sda_applied_baseline_ref application) =? baseline
  end.

Definition change_unit_matches_of (c : AssessmentContext) (record : StoredUserActionRecordSet)
    : bool :=
  let current := cu_change_unit_id <$> ac_current_change_unit c in
  match record_application c record with
  | None => ac_projecting_next_state c
            || (co_change_unit_id (record_coordinates record) =? current)
  | Some application => sda_applied_change_unit_id application =? current
  end.

(** The facts handed to [evaluate_shaping_decision_authority]. *)
Definition authority_facts (c : AssessmentContext) (record : StoredUserActionRecordSet)
    : ShapingDecisionAuthorityFacts :=
  let request := set_request record in
  let application := record_application c record in
  let policy := record_policy c record in
  let resolved := is_some (set_resolution record) in
  {| effective_user_action_status := set_status record;
     resolution_present := resolved;
     f_machine_action := (record_outcome record).1;
     f_resolution_outcome := (record_outcome record).2;
     request_basis_status := ur_basis_status request;
     basis_compatibility_status := compatibility_status (ur_basis request);
     checkpoint_identity_matches := origin_matches c record;
     gap_identity_matches := is_some (record_source c record);
     resolution_identity_matches := negb resolved || resolution_identity_matches_of c record;
     policy_matches := is_some_and policy (λ policy,
       (user_action_kind policy =? ur_action_kind request)
       && (policy_required_for policy =? ur_required_for request));
     verified_user_channel := negb resolved || verified_user_channel_of record;
     task_mode_matches := is_some policy;
     scope_revision_matches :=
       (co_task_id (record_coordinates record) =? tk_task_id (ac_policy c))
       && scope_revision_matches_of c record;
     baseline_matches_fact := baseline_matches_of c record;
     change_unit_matches := change_unit_matches_of c record;
     gap_status := match record_source c record with
                   | None => GapCurrent
                   | Some (_, gap) => sg_status gap
                   end;
     application_present := is_some application;
     application_authority_status := sda_authority_status <$> application;
     application_identity_matches := application_identity_matches_of c record;
     application_lineage_current := is_some_and application (λ application,
       is_some_and (ac_checkpoint c) (λ checkpoint,
         sda_linked_checkpoint_id application =? Some (sc_shaping_checkpoint_id checkpoint))) |}.

(** The pending question of a gap the checkpoint does not show. *)
Definition unrepresented_pending (c : AssessmentContext) (record : StoredUserActionRecordSet)
    : bool :=
  is_none (represented_gap c record)
  && (set_status record =? UAPending)
  && (ur_basis_status (set_request record) =? BasisCurrent)
  && (compatibility_status (ur_basis (set_request record)) =? BasisCurrent)
  && (co_task_id (record_coordinates record) =? tk_task_id (ac_policy c))
  && (co_scope_revision (record_coordinates record) =? tk_scope_revision (ac_policy c)).

Definition authority_state_of (c : AssessmentContext) (record : StoredUserActionRecordSet)
    : ShapingDecisionAuthorityState :=
  if unrepresented_pending c record then AwaitingUser
  else evaluate_shaping_decision_authority (authority_facts c record).

Definition required_owner_method_of (c : AssessmentContext) (record : StoredUserActionRecordSet)
    (state : ShapingDecisionAuthorityState) : MethodName :=
  match state with
  | AwaitingUser => MResolveUserAction
  | AcceptedUnapplied =>
      match record_policy c record with
      | None => MStatus
      | Some policy => owner_method (application_owner policy)
      end
  | SRejected | SDeferred | SExpired => MRecordShapingCheckpoint
  | SStale =>
      if tk_work_phase (ac_policy c) =? ShapingPhase then MRecordShapingCheckpoint else MCloseTask
  | Applied | SSuperseded | Inconsistent => MStatus
  end.

Definition request_state_ref (c : AssessmentContext) (request_id : string) : StateRecordRef :=
  state_ref KUserActionRequest request_id (ac_project_id c) (Some (tk_task_id (ac_policy c)))
    (Some (ac_state_version c)).

Definition fact_of (c : AssessmentContext) (record : StoredUserActionRecordSet)
    : WorkflowUserActionFact :=
  let state := authority_state_of c record in
  {| uf_request_ref := request_state_ref c (ur_user_action_request_id (set_request record));
     uf_resolution_ref := (λ id, state_ref KUserActionResolution id (ac_project_id c)
                                   (Some (tk_task_id (ac_policy c))) (Some (ac_state_version c)))
                          <$> record_resolution_id record;
     uf_status := set_status record;
     uf_authority_state := state;
     uf_required_owner_method := required_owner_method_of c record state |}.

Definition with_fact_lists (a : TaskWideShapingAuthority)
    (awaiting_user accepted_unapplied recovery_required applied stale inconsistent
     : list WorkflowUserActionFact) (current_resolution_ids : list string)
    : TaskWideShapingAuthority :=
  {| ta_awaiting_user := awaiting_user; ta_accepted_unapplied := accepted_unapplied;
     ta_recovery_required := recovery_required; ta_applied := applied; ta_stale := stale;
     ta_inconsistent := inconsistent; ta_current_resolution_ids := current_resolution_ids;
     ta_stale_application_refs := ta_stale_application_refs a;
     ta_pending_request_refs := ta_pending_request_refs a;
     ta_pending_scope_update := ta_pending_scope_update a;
     ta_pending_record_run := ta_pending_record_run a |}.

(** One iteration of the classification loop. *)
Definition assess_record (c : AssessmentContext) (a : TaskWideShapingAuthority)
    (record : StoredUserActionRecordSet) : TaskWideShapingAuthority :=
  if negb (participates_in_progression c record) then a
  else
    let fact := fact_of c record in
    let awaiting := ta_awaiting_user a in
    let accepted := ta_accepted_unapplied a in
    let recovery := ta_recovery_required a in
    let applied := ta_applied a in
    let stale := ta_stale a in
    let inconsistent := ta_inconsistent a in
    let ids := ta_current_resolution_ids a in
    match authority_state_of c record with
    | AwaitingUser =>
        with_fact_lists a (awaiting ++ [fact]) accepted recovery applied stale
          (if is_none (represented_gap c record) then inconsistent ++ [fact] else inconsistent) ids
    | AcceptedUnapplied =>
        with_fact_lists a awaiting (accepted ++ [fact]) recovery applied stale inconsistent ids
    | SRejected | SDeferred | SExpired =>
        with_fact_lists a awaiting accepted (recovery ++ [fact]) applied stale inconsistent ids
    | Applied =>
        with_fact_lists a awaiting accepted recovery (applied ++ [fact]) stale inconsistent
          (match record_resolution_id record with
           | Some id => bts_insert id ids
           | None => ids
           end)
    | SStale =>
        with_fact_lists a awaiting accepted recovery applied (stale ++ [fact]) inconsistent ids
    | SSuperseded => a
    | Inconsistent =>
        with_fact_lists a awaiting accepted recovery applied stale (inconsistent ++ [fact]) ids
    end.

(** One iteration of the loop over the current gaps of a projected checkpoint. *)
Definition assess_projected_gap (c : AssessmentContext) (a : TaskWideShapingAuthority)
    (gap : ShapingCheckpointGapRecord) : TaskWideShapingAuthority :=
  match sg_user_action gap with
  | None => a
  | Some link =>
      if existsb (λ fact, fact_request_id fact =? scu_user_action_request_id link) (all_facts a)
      then a
      else
        with_fact_lists a
          (ta_awaiting_user a ++
             [{| uf_request_ref := request_state_ref c (scu_user_action_request_id link);
                 uf_resolution_ref := None; uf_status := UAPending;
                 uf_authority_state := AwaitingUser;
                 uf_required_owner_method := MResolveUserAction |}])
          (ta_accepted_unapplied a) (ta_recovery_required a) (ta_applied a) (ta_stale a)
          (ta_inconsistent a) (ta_current_resolution_ids a)
  end.

(** ** The whole assessment *)

Definition operation_context (operation : Relevance.UserActionOperation) (task : TaskRecord)
    (change_unit_id : option ChangeUnitId) (operation_refs : list StateRecordRef)
    : Relevance.UserActionOperationContext :=
  {| Relevance.oc_operation := operation; Relevance.oc_task_id := tk_task_id task;
     Relevance.oc_change_unit_id := change_unit_id;
     Relevance.oc_scope_revision := tk_scope_revision task; Relevance.oc_close_basis := None;
     Relevance.oc_operation_refs := operation_refs; Relevance.oc_sensitive_approval := None |}.

(** [projected_checkpoint_replaces_stored], without the version comparison. *)
Definition checkpoint_replaced (projected stored : option ShapingCheckpointRecord) : bool :=
  match projected, stored with
  | None, Some _ => true
  | Some projected, Some stored =>
      sc_shaping_checkpoint_id stored <>? sc_shaping_checkpoint_id projected
  | _, None => false
  end.

(** The decisions and applications of the graph that the projected checkpoint keeps. *)
Definition kept_decisions (replaced : bool) (checkpoint : option ShapingCheckpointRecord)
    (graph : CurrentShapingAuthorityGraph) : list CurrentShapingGapDecision :=
  List.filter (λ decision,
    negb replaced
    || is_some_and checkpoint (λ checkpoint,
         is_some (gap_of_request checkpoint
           (ur_user_action_request_id (set_request (gd_user_action decision))))))
    (ag_current_gap_decisions graph).

Definition kept_applications (replaced : bool) (checkpoint : option ShapingCheckpointRecord)
    (graph : CurrentShapingAuthorityGraph) : list CurrentShapingApplicationAuthority :=
  List.filter (λ authority,
    negb replaced
    || contains (sda_shaping_decision_application_id (aa_application authority))
         (match checkpoint with
          | Some checkpoint => sda_shaping_decision_application_id <$> sc_applications checkpoint
          | None => []
          end))
    (ag_current_applications graph)
  ++ ag_stale_recovery_obligations graph.

Definition request_id_of (record : StoredUserActionRecordSet) : string :=
  ur_user_action_request_id (set_request record).

Definition records_by_request_id (decisions : list CurrentShapingGapDecision)
    (authorities : list CurrentShapingApplicationAuthority)
    : list (string * StoredUserActionRecordSet) :=
  fold_left (λ m record, btm_insert (request_id_of record) record m)
    ((gd_user_action <$> decisions) ++ (aa_user_action <$> authorities)) [].

Definition graph_sources (authorities : list CurrentShapingApplicationAuthority)
    : list (string * (string * ShapingCheckpointGapRecord)) :=
  fold_left (λ m authority,
    btm_insert (sda_shaping_decision_application_id (aa_application authority))
      (sda_source_checkpoint_id (aa_application authority), aa_source_gap authority) m)
    authorities [].

(** The loop over the applications of the projected checkpoint. *)
Fixpoint project_applications (checkpoint : ShapingCheckpointRecord)
    (projected : list ShapingDecisionApplicationRecord)
    (applications : list ShapingDecisionApplicationRecord)
    (sources : list (string * (string * ShapingCheckpointGapRecord)))
    : result (list ShapingDecisionApplicationRecord
              * list (string * (string * ShapingCheckpointGapRecord))) CorePipelineError :=
  match projected with
  | [] => Ok (applications, sources)
  | application :: rest =>
      let id := sda_shaping_decision_application_id application in
      let kept := List.filter (λ stored, sda_shaping_decision_application_id stored <>? id)
                    applications in
      let? sources :=
        if is_some (btm_get id sources) then Ok sources
        else
          let? source_gap := require
            (if sda_source_checkpoint_id application =? sc_shaping_checkpoint_id checkpoint
             then List.find (λ gap, sg_shaping_gap_id gap =? sda_source_gap_id application)
                    (sc_gaps checkpoint)
             else None)
            "a projected shaping application has no Store-validated source" in
          Ok (btm_insert id (sda_source_checkpoint_id application, source_gap) sources) in
      project_applications checkpoint rest (kept ++ [application]) sources
  end.

Definition empty_assessment (stale_application_refs pending_request_refs : list StateRecordRef)
    (pending_scope_update pending_record_run : bool) : TaskWideShapingAuthority :=
  {| ta_awaiting_user := []; ta_accepted_unapplied := []; ta_recovery_required := [];
     ta_applied := []; ta_stale := []; ta_inconsistent := []; ta_current_resolution_ids := [];
     ta_stale_application_refs := stale_application_refs;
     ta_pending_request_refs := pending_request_refs;
     ta_pending_scope_update := pending_scope_update;
     ta_pending_record_run := pending_record_run |}.

(** The loops of the assessment, over the records in the order of their request ids. *)
Definition assess (c : AssessmentContext) (records : list StoredUserActionRecordSet)
    (a : TaskWideShapingAuthority) : TaskWideShapingAuthority :=
  let a := foldl (assess_record c) a records in
  if ac_projecting_next_state c
  then
    match ac_checkpoint c with
    | None => a
    | Some checkpoint =>
        foldl (assess_projected_gap c) a
          (List.filter (λ gap, sg_status gap =? GapCurrent) (sc_gaps checkpoint))
    end
  else a.

Context {S : Type} `{HR : !WorkflowReader S}.

(** [task_wide_shaping_authority]. *)
Definition task_wide_shaping_authority (store : S) (project_id : ProjectId) (state_version : N)
    (task_row : TaskRow) (current_change_unit : option ChangeUnitRecord)
    (checkpoint : option ShapingCheckpointRecord) (now : UtcTimestamp)
    : result TaskWideShapingAuthority CorePipelineError :=
  let task := tr_task task_row in
  let task_id := tk_task_id task in
  let table := wr_user_actions store in
  let? pending := map_err CoreStore (pending_user_action_refs table task_id state_version now) in
  let pending_request_refs := sort_dedup (stored_ref_to_state_ref <$> pending) in
  let change_unit_id := cu_change_unit_id <$> current_change_unit in
  let operation_refs :=
    state_ref KTask task_id project_id (Some task_id) (Some state_version)
    :: match current_change_unit with
       | Some change_unit =>
           [state_ref KChangeUnit (cu_change_unit_id change_unit) project_id (Some task_id)
              (Some (cu_basis_state_version change_unit))]
       | None => []
       end in
  let? scope_refs := map_err core_error_of_service
    (pending_user_action_refs_for_operation table project_id state_version now
       (operation_context Relevance.OpScopeUpdate task change_unit_id operation_refs)) in
  let? run_refs := map_err core_error_of_service
    (pending_user_action_refs_for_operation table project_id state_version now
       (operation_context Relevance.OpRecordRun task change_unit_id operation_refs)) in
  let? graph := map_err CoreStore (wr_authority_graph store task_id now) in
  let stale_application_refs :=
    (λ authority, state_ref KShapingDecisionApplication
       (sda_shaping_decision_application_id (aa_application authority)) project_id (Some task_id)
       (Some state_version)) <$> ag_stale_recovery_obligations graph in
  let? stored_version := map_err CoreStore (wr_state_version store) in
  let projecting_next_state := (stored_version <? state_version)%N in
  let replaced := projecting_next_state
                  && checkpoint_replaced checkpoint (ag_current_checkpoint graph) in
  let decisions := kept_decisions replaced checkpoint graph in
  let authorities := kept_applications replaced checkpoint graph in
  let? '(applications, sources) :=
    match checkpoint with
    | None => Ok (aa_application <$> authorities, graph_sources authorities)
    | Some checkpoint =>
        project_applications checkpoint (sc_applications checkpoint)
          (aa_application <$> authorities) (graph_sources authorities)
    end in
  let c := {| ac_project_id := project_id; ac_state_version := state_version;
              ac_task := task_row; ac_current_change_unit := current_change_unit;
              ac_checkpoint := checkpoint; ac_projecting_next_state := projecting_next_state;
              ac_applications := applications; ac_application_sources := sources |} in
  Ok (assess c (snd <$> records_by_request_id decisions authorities)
        (empty_assessment stale_application_refs pending_request_refs
           (negb (list_is_empty scope_refs)) (negb (list_is_empty run_refs)))).

(** ** Checkpoint summaries *)

Definition summary_ref (kind : StateRecordKind) (project_id : ProjectId) (task_id : TaskId)
    (state_version : N) (id : string) : StateRecordRef :=
  state_ref kind id project_id (Some task_id) (Some state_version).

Definition summary_gap (project_id : ProjectId) (task_id : TaskId) (state_version : N)
    (task_mode : TaskMode) (authority : TaskWideShapingAuthority)
    (gap : ShapingCheckpointGapRecord) : ShapingCheckpointGap :=
  let reference kind id := summary_ref kind project_id task_id state_version id in
  let authority_state :=
    link ← sg_user_action gap;
    or_else (or_else
      (uf_authority_state <$>
         List.find (λ fact, fact_request_id fact =? scu_user_action_request_id link)
           (all_facts authority))
      (bool_then (sg_status gap =? GapApplied) Applied))
      (bool_then (sg_status gap =? GapCurrent) AwaitingUser) in
  {| scg_shaping_gap_id := sg_shaping_gap_id gap;
     scg_gap_kind := sg_gap_kind gap;
     scg_application_owner := application_owner <$> decision_policy_for_mode (sg_gap_kind gap)
                                                       task_mode;
     scg_summary := sg_summary gap;
     scg_affected_refs := sg_affected_refs gap;
     scg_status := sg_status gap;
     scg_decision_authority_state := authority_state;
     scg_user_action_request_ref :=
       (λ link, reference KUserActionRequest (scu_user_action_request_id link))
         <$> sg_user_action gap;
     scg_user_action_resolution_ref :=
       reference KUserActionResolution
         <$> (sg_user_action gap ≫= scu_user_action_resolution_id);
     scg_reauthorizes_application_ref :=
       reference KShapingDecisionApplication <$> sg_reauthorizes_application_id gap |}.

(** [checkpoint_summary]. *)
Definition checkpoint_summary (project_id : ProjectId) (task_id : TaskId) (state_version : N)
    (checkpoint : ShapingCheckpointRecord) (task_mode : TaskMode)
    (authority : TaskWideShapingAuthority) : ShapingCheckpointSummary :=
  let reference kind id := summary_ref kind project_id task_id state_version id in
  let gaps := summary_gap project_id task_id state_version task_mode authority
                <$> sc_gaps checkpoint in
  {| scs_checkpoint_ref := reference KShapingCheckpoint (sc_shaping_checkpoint_id checkpoint);
     scs_predecessor_checkpoint_ref :=
       reference KShapingCheckpoint <$> sc_predecessor_shaping_checkpoint_id checkpoint;
     scs_readiness := sc_readiness checkpoint;
     scs_scope_revision := sc_scope_revision checkpoint;
     scs_baseline_ref := sc_baseline_ref checkpoint;
     scs_implementation_boundary := sc_implementation_boundary checkpoint;
     scs_gaps := gaps;
     scs_current_application_refs :=
       (λ application, reference KShapingDecisionApplication
                         (sda_shaping_decision_application_id application))
         <$> List.filter (λ application,
               (sda_authority_status application =? AppCurrent)
               && (sda_linked_checkpoint_id application
                     =? Some (sc_shaping_checkpoint_id checkpoint))) (sc_applications checkpoint);
     scs_pending_decision_refs :=
       omap scg_user_action_request_ref
         (List.filter (λ gap, scg_decision_authority_state gap =? Some AwaitingUser) gaps);
     scs_unresolved_application_owners :=
       (let owners := omap scg_application_owner
          (List.filter (λ gap, scg_status gap =? GapAccepted) gaps) in
        List.filter (λ owner, contains owner owners)
          [OwnUpdateScope; OwnAdvanceTask; OwnFinalizeAdvice]);
     scs_decision_recovery_requirements :=
       omap (λ gap,
         disposition ← scg_decision_authority_state gap;
         reason ← recovery_reason disposition;
         request_ref ← scg_user_action_request_ref gap;
         Some {| drr_shaping_gap_id := scg_shaping_gap_id gap;
                 drr_user_action_request_ref := request_ref;
                 drr_user_action_resolution_ref := scg_user_action_resolution_ref gap;
                 drr_disposition := disposition; drr_reason := reason |}) gaps |}.

(** ** Snapshots of stored records *)

Definition push_missing (refs : list StateRecordRef) (reference : StateRecordRef)
    : list StateRecordRef :=
  if contains reference refs then refs else refs ++ [reference].

(** The references [with_workflow_snapshot] collects. *)
Definition snapshot_required_refs (project_id : ProjectId) (state_version : N) (task_id : TaskId)
    (current_change_unit : option ChangeUnitRecord) (summary : option ShapingCheckpointSummary)
    (authority : TaskWideShapingAuthority) : list StateRecordRef :=
  let refs := [state_ref KTask task_id project_id (Some task_id) (Some state_version)] in
  let refs :=
    match summary with
    | None => refs
    | Some summary =>
        foldl push_missing (refs ++ [scs_checkpoint_ref summary])
          (scs_current_application_refs summary ++ scs_pending_decision_refs summary
           ++ omap scg_user_action_resolution_ref (scs_gaps summary))
    end in
  let refs :=
    match current_change_unit with
    | None => refs
    | Some change_unit =>
        refs ++ [state_ref KChangeUnit (cu_change_unit_id change_unit) project_id (Some task_id)
                   (Some (cu_basis_state_version change_unit))]
    end in
  foldl push_missing refs (blocking_request_refs authority).

(** [with_workflow_snapshot]. *)
Definition with_workflow_snapshot {T} (project_id : ProjectId) (state_version : N)
    (task : TaskRow) (current_change_unit : option ChangeUnitRecord)
    (checkpoint : option ShapingCheckpointRecord) (authority : TaskWideShapingAuthority)
    (evaluate : WorkflowSnapshot → result T CorePipelineError) : result T CorePipelineError :=
  let task_id := tk_task_id (tr_task task) in
  let summary := (λ value, checkpoint_summary project_id task_id state_version value
                             (tk_mode (tr_task task)) authority) <$> checkpoint in
  let? snapshot := snapshot_new project_id state_version task current_change_unit checkpoint
    authority summary
    (snapshot_required_refs project_id state_version task_id current_change_unit summary
       authority) in
  evaluate snapshot.

(** [workflow_projection]. *)
Definition workflow_projection (project_id : ProjectId) (state_version : N) (task : TaskRow)
    (current_change_unit : option ChangeUnitRecord)
    (checkpoint : option ShapingCheckpointRecord) (authority : TaskWideShapingAuthority)
    : result WorkflowProjection CorePipelineError :=
  with_workflow_snapshot project_id state_version task current_change_unit checkpoint authority
    (λ snapshot, let? e := evaluate snapshot in Ok (into_projection e state_version)).

(** [with_current_workflow_records]. *)
Definition with_current_workflow_records {T} (store : S) (project_state : ProjectStateHeader)
    (task_id : TaskId) (now : UtcTimestamp)
    (evaluate : ProjectId → TaskRow → option ChangeUnitRecord → option ShapingCheckpointRecord →
                TaskWideShapingAuthority → result T CorePipelineError)
    : result T CorePipelineError :=
  let project_id := ps_project_id project_state in
  let? task := map_err CoreStore (wr_task_record store task_id) in
  let? task := require task "workflow admission requires an existing Task" in
  let? change_unit := map_err CoreStore (wr_current_change_unit store task_id) in
  let? checkpoint := map_err CoreStore (wr_current_checkpoint store task_id) in
  let? authority := task_wide_shaping_authority store project_id (ps_state_version project_state)
    task change_unit checkpoint now in
  evaluate project_id task change_unit checkpoint authority.

(** [current_workflow_projection]; [updated_at] is that of the project state. *)
Definition current_workflow_projection (store : S) (project_state : ProjectStateHeader)
    (updated_at : UtcTimestamp) (task_id : TaskId) : result WorkflowProjection CorePipelineError :=
  with_current_workflow_records store project_state task_id updated_at
    (λ project_id task change_unit checkpoint authority,
       workflow_projection project_id (ps_state_version project_state) task change_unit
         checkpoint authority).

(** [current_transition_admission]. *)
Definition current_transition_admission (store : S) (project_state : ProjectStateHeader)
    (task_id : TaskId) (attempted : WorkflowActionKey) (now : UtcTimestamp)
    : result CurrentTransitionAdmission CorePipelineError :=
  with_current_workflow_records store project_state task_id now
    (λ project_id task change_unit checkpoint authority,
       with_workflow_snapshot project_id (ps_state_version project_state) task change_unit
         checkpoint authority
         (λ snapshot, let? e := evaluate snapshot in
                      Ok (transition_admission snapshot e attempted))).
End authority.

(** ** What the classification produces *)

Section classification.
Context `{HC : Chrono} `{HZ : CanonicalSize} `{HD : CaptureDigest}.

Local Ltac one_more :=
  cbn; rewrite <-?app_assoc; cbn; repeat apply Permutation_app_head;
  first [done | rewrite Permutation_cons_append; by rewrite <-?app_assoc].

Lemma fact_of_request c record : fact_request_id (fact_of c record) = request_id_of record.
Proof. done. Qed.

(** A request is awaited without a gap of the checkpoint exactly when it is an
    unrepresented pending one. *)
Lemma awaiting_without_gap c record :
  authority_state_of c record = AwaitingUser ∧ represented_gap c record = None
  ↔ unrepresented_pending c record = true.
Proof.
  unfold authority_state_of. split.
  - intros [Hst Hgap]. destruct (unrepresented_pending c record); [done|]. exfalso.
    unfold evaluate_shaping_decision_authority in Hst. cbn in Hst.
    destruct (set_resolution record) as [resolution|] eqn:Er.
    { repeat (case_match; try done). }
    assert (record_source c record = None) as Hsrc.
    { unfold record_source, record_application, record_resolution_id. rewrite Er.
      assert (List.find (λ application, (sda_user_action_request_id application
          =? ur_user_action_request_id (set_request record))
        && ((us_user_action_resolution_id <$> None)
          =? Some (sda_user_action_resolution_id application))) (ac_applications c) = None) as ->.
      { apply list_find_None. intros x _. by rewrite andb_false_r. }
      rewrite Hgap. by destruct (ac_checkpoint c). }
    rewrite Hsrc in Hst. cbn in Hst. rewrite andb_false_r in Hst. cbn in Hst.
    repeat (case_match; try done).
  - intros H. rewrite H. split; [done|]. unfold unrepresented_pending in H.
    unfold is_none in H. by destruct (represented_gap c record).
Qed.

(** A record adds at most one fact, unless it is pending without a gap: then it adds
    the same fact twice. *)
Lemma assess_record_facts c a record :
  ∃ added, all_facts (assess_record c a record) ≡ₚ all_facts a ++ added
    ∧ (unrepresented_pending c record = false → added = [] ∨ added = [fact_of c record])
    ∧ (unrepresented_pending c record = true → participates_in_progression c record = true →
       added = [fact_of c record; fact_of c record]).
Proof.
  unfold assess_record. destruct (participates_in_progression c record); cbn [negb].
  2: { exists []. rewrite app_nil_r. split_and!; [done|auto|done]. }
  pose proof (awaiting_without_gap c record) as Haw.
  destruct (unrepresented_pending c record) eqn:Eu.
  - destruct Haw as [_ Haw]. destruct (Haw eq_refl) as [-> ->].
    exists [fact_of c record; fact_of c record]. split_and!; [|done|done].
    unfold all_facts, with_fact_lists. cbn. rewrite <-!app_assoc. cbn.
    apply Permutation_app_head. rewrite Permutation_cons_append. by rewrite <-!app_assoc.
  - destruct (authority_state_of c record) eqn:Est;
      try (exists [fact_of c record]; split_and!; [unfold all_facts, with_fact_lists; one_more
                                                  |auto|done]).
    + exists [fact_of c record]. split_and!; [|auto|done].
      destruct (represented_gap c record) eqn:Eg.
      * unfold all_facts, with_fact_lists. one_more.
      * destruct Haw as [Haw _]. specialize (Haw (conj eq_refl eq_refl)). done.
    + exists []. rewrite app_nil_r. split_and!; [done|auto|done].
Qed.

(** Without such records the facts have distinct request ids. *)
Lemma assess_records_NoDup c (records : list StoredUserActionRecordSet) a :
  Forall (λ record, unrepresented_pending c record = false) records →
  NoDup ((fact_request_id <$> all_facts a) ++ (request_id_of <$> records)) →
  NoDup (fact_request_id <$> all_facts (foldl (assess_record c) a records)).
Proof.
  revert a. induction records as [|record records IH]; cbn; intros a Hf Hn.
  { by rewrite app_nil_r in Hn. }
  apply Forall_cons in Hf as [Hr Hf]. apply IH; [done|].
  destruct (assess_record_facts c a record) as (added & Hp & Hadd & _).
  rewrite Hp, fmap_app. specialize (Hadd Hr).
  rewrite <-Permutation_middle in Hn.
  destruct Hadd as [->| ->].
  - cbn. rewrite app_nil_r. by apply NoDup_cons in Hn as [_ Hn].
  - cbn. rewrite <-app_assoc. cbn. rewrite <-Permutation_middle. exact Hn.
Qed.

Lemma assess_gap_NoDup c a gap :
  NoDup (fact_request_id <$> all_facts a) →
  NoDup (fact_request_id <$> all_facts (assess_projected_gap c a gap)).
Proof.
  intros Hn. unfold assess_projected_gap. destruct (sg_user_action gap) as [link|]; [|done].
  destruct (existsb _ _) eqn:E; [done|]. rewrite existsb_false in E.
  set (fact := Build_WorkflowUserActionFact _ _ _ _ _).
  assert (∀ b, all_facts (with_fact_lists a (ta_awaiting_user a ++ [fact])
    (ta_accepted_unapplied a) (ta_recovery_required a) (ta_applied a) (ta_stale a)
    (ta_inconsistent a) b) ≡ₚ fact :: all_facts a) as Hp.
  { intros b. unfold all_facts, with_fact_lists. cbn. rewrite <-app_assoc. cbn.
    by rewrite <-Permutation_middle. }
  rewrite Hp. cbn. apply NoDup_cons. split; [|done].
  intros (f & Hf & Hin)%list_elem_of_fmap. specialize (E f Hin). apply eqb_false in E.
  apply E. by rewrite <-Hf.
Qed.

Lemma assess_NoDup c records a :
  Forall (λ record, unrepresented_pending c record = false) records →
  NoDup ((fact_request_id <$> all_facts a) ++ (request_id_of <$> records)) →
  NoDup (fact_request_id <$> all_facts (assess c records a)).
Proof.
  intros Hf Hn. pose proof (assess_records_NoDup c records a Hf Hn) as Hr. unfold assess.
  destruct (ac_projecting_next_state c); [|done]. destruct (ac_checkpoint c) as [cp|]; [|done].
  revert Hr. generalize (foldl (assess_record c) a records).
  induction (List.filter _ _) as [|gap gaps IH]; intros b Hb; cbn; [done|].
  by apply IH, assess_gap_NoDup.
Qed.
End classification.
