(* ===== verification/WorkflowAuthoritySound.v ===== *)
(** * WorkflowAuthoritySound: from stored records to a projection

    Composes [WorkflowAuthority] with [WorkflowMachineSound]: the workflow of stored,
    mutually consistent records is always projected. *)

From S2P Require Import Prelude Text Values Canonical Schema UserAction Clock TicketStore Commit.
From S2P Require Import UserActionShape UserActionStore Artifact UserActionService Evidence Capture.
From S2P Require Import Admission WorkflowAction TaskRecords WorkflowMachine WorkflowMachineSound.
From S2P Require Import UserActionStoreSound CloseSample WorkflowAuthority.
Import Shaping.

Section sound.
Context `{HC : Chrono} `{HZ : CanonicalSize} `{HD : CaptureDigest}.

(** ** Consistent records are projected *)

Lemma btm_records_values (l : list StoredUserActionRecordSet) m :
  keys_sorted m → Forall (λ kv, kv.1 = request_id_of kv.2) m →
  let n := fold_left (λ m record, btm_insert (request_id_of record) record m) l m in
  keys_sorted n ∧ Forall (λ kv, kv.1 = request_id_of kv.2) n
  ∧ ∀ kv, kv ∈ n → kv ∈ m ∨ kv.2 ∈ l.
Proof.
  revert m. induction l as [|r l IH]; cbn; intros m Hs Hk; [auto|].
  destruct (IH (btm_insert (request_id_of r) r m)) as (H1 & H2 & H3).
  - by apply btm_insert_sorted.
  - apply Forall_forall. intros kv Hkv. apply elem_of_btm_insert in Hkv as [->|[Hkv _]]; [done| |done].
    rewrite Forall_forall in Hk. by apply Hk.
  - split_and!; [done|done|]. intros kv Hkv. apply H3 in Hkv as [Hkv|Hkv]; [|right; by right].
    apply elem_of_btm_insert in Hkv as [->|[Hkv _]]; [right; by left|by left|done].
Qed.

Lemma records_distinct decisions authorities :
  NoDup (request_id_of <$> (snd <$> records_by_request_id decisions authorities))
  ∧ ∀ record, record ∈ snd <$> records_by_request_id decisions authorities →
      record ∈ (gd_user_action <$> decisions) ++ (aa_user_action <$> authorities).
Proof.
  unfold records_by_request_id. set (l := _ ++ _).
  destruct (btm_records_values l []) as (Hs & Hk & Hv); [constructor|constructor|].
  set (n := fold_left _ _ _) in *. split.
  - assert (request_id_of <$> (snd <$> n) = fst <$> n) as ->.
    { rewrite <-list_fmap_compose. apply list_fmap_ext. intros i kv Hi. cbn. symmetry.
      rewrite Forall_forall in Hk. apply Hk. by eapply list_elem_of_lookup_2. }
    unfold keys_sorted in Hs. clear -Hs. induction Hs as [|kv n Hs IH Hx]; cbn; [constructor|].
    apply NoDup_cons. split; [|done]. intros (q & Hq & Hin)%list_elem_of_fmap.
    rewrite Forall_forall in Hx. specialize (Hx q Hin). rewrite Hq in Hx. by apply rlt_irrefl in Hx.
  - intros r (kv & -> & Hin)%list_elem_of_fmap. apply Hv in Hin as [Hin|Hin]; [|done].
    by apply elem_of_nil in Hin.
Qed.

(** The graph speaks of the checkpoint: its gap decisions are gaps of it, and the
    questions behind its applications have been answered. *)
Record graph_of_checkpoint (graph : CurrentShapingAuthorityGraph)
    (checkpoint : option ShapingCheckpointRecord) : Prop := {
  gc_decisions : ∀ decision, decision ∈ ag_current_gap_decisions graph →
    is_some_and checkpoint (λ checkpoint,
      is_some (gap_of_request checkpoint (request_id_of (gd_user_action decision)))) = true;
  gc_applications : ∀ authority,
    authority ∈ ag_current_applications graph ++ ag_stale_recovery_obligations graph →
    set_status (aa_user_action authority) ≠ UAPending;
}.

(** The stored records of one Task agree with each other. *)
Record task_records_agree (project_id : ProjectId) (task : TaskRow)
    (change_unit : option ChangeUnitRecord) (checkpoint : option ShapingCheckpointRecord)
    : Prop := {
  ra_project : tk_project_id (tr_task task) = project_id;
  ra_change_unit : change_unit_identity_matches task change_unit = true;
  ra_checkpoint : is_some_and checkpoint (checkpoint_identity_contradicts task) = false;
  ra_closed : terminal_phase (tk_lifecycle_phase (tr_task task)) = is_some (tr_closed_at task);
  ra_basis : is_some_and (tr_close_basis task)
               (λ basis, cb_task_id basis <>? tk_task_id (tr_task task)) = false;
}.

Lemma snapshot_of_agreeing project_id version task change_unit checkpoint graph summary refs :
  task_records_agree project_id task change_unit checkpoint →
  is_some checkpoint = is_some summary → NoDup (fact_request_id <$> all_facts graph) →
  ∃ s, snapshot_new project_id version task change_unit checkpoint graph summary refs = Ok s
       ∧ ws_state_version s = version.
Proof.
  intros [Hp Hc Hcp Hcl Hb] Hs Hn. unfold snapshot_new. cbv zeta.
  rewrite Hp, eqb_refl, Hc, Hcp, Hs, eqb_refl, Hcl, eqb_refl, Hb. cbn [negb].
  apply bts_of_list_length_NoDup in Hn. rewrite length_fmap in Hn.
  rewrite Hn, Nat.eqb_refl. cbn. by eexists.
Qed.

Context {S : Type} `{HR : !WorkflowReader S}.

Lemma kept_records_represented replaced checkpoint graph c record :
  graph_of_checkpoint graph checkpoint → ac_checkpoint c = checkpoint →
  record ∈ (gd_user_action <$> kept_decisions replaced checkpoint graph)
           ++ (aa_user_action <$> kept_applications replaced checkpoint graph) →
  unrepresented_pending c record = false.
Proof.
  intros [Hd Ha] Hc Hin. apply not_true_iff_false. unfold unrepresented_pending, is_none.
  rewrite !andb_true_iff, negb_true_iff. intros (((((Hgap & Hst) & _) & _) & _) & _).
  apply elem_of_app in Hin as [(d & -> & Hin)%list_elem_of_fmap|(au & -> & Hin)%list_elem_of_fmap].
  - apply list_elem_of_In, filter_In in Hin as [Hin _]. apply list_elem_of_In in Hin.
    apply Hd in Hin. unfold represented_gap in Hgap. rewrite Hc in Hgap.
    destruct checkpoint as [cp|]; [|done]. cbn in Hin, Hgap. unfold request_id_of in Hin.
    by rewrite Hin in Hgap.
  - apply eqb_eq in Hst. apply (Ha au); [|done]. unfold kept_applications in Hin.
    apply elem_of_app in Hin as [Hin|Hin]; apply elem_of_app; [left|by right].
    apply list_elem_of_In, filter_In in Hin as [Hin _]. by apply list_elem_of_In.
Qed.

(** The projection of agreeing records, shared with the methods that project a planned
    state. *)
Lemma records_projected (store : S) (project_id : ProjectId) (version : N)
    (task : TaskRow) (change_unit : option ChangeUnitRecord)
    (checkpoint : option ShapingCheckpointRecord) (now : UtcTimestamp)
    (graph : CurrentShapingAuthorityGraph) (authority : TaskWideShapingAuthority) :
  task_records_agree project_id task change_unit checkpoint →
  wr_authority_graph store (tk_task_id (tr_task task)) now = Ok graph →
  graph_of_checkpoint graph checkpoint →
  task_wide_shaping_authority store project_id version task change_unit checkpoint now
  = Ok authority →
  ∃ projection, workflow_projection project_id version task change_unit checkpoint authority
                = Ok projection
    ∧ wp_expected_state_version projection = version.
Proof.
  intros Hag Hgraph Hgc Hau. unfold task_wide_shaping_authority in Hau.
  peel Hau as pending _. peel Hau as scope _. peel Hau as run _. peel Hau as graph' Hg.
  rewrite Hgraph in Hg. cbn in Hg. apply Ok_inj in Hg as <-. peel Hau as stored _.
  peel Hau as [applications sources] _. apply Ok_inj in Hau as <-.
  set (replaced := _ && checkpoint_replaced _ _). set (c := Build_AssessmentContext _ _ _ _ _ _ _ _).
  destruct (records_distinct (kept_decisions replaced checkpoint graph)
    (kept_applications replaced checkpoint graph)) as [Hnd Hel].
  set (records := snd <$> _) in *. set (a := empty_assessment _ _ _ _).
  assert (NoDup (fact_request_id <$> all_facts (assess c records a))) as Hn.
  { apply assess_NoDup; [|done]. apply Forall_forall. intros r Hr.
    eapply kept_records_represented; [exact Hgc|done|by apply Hel]. }
  unfold workflow_projection, with_workflow_snapshot.
  edestruct (snapshot_of_agreeing project_id version task change_unit checkpoint
    (assess c records a)) as (s & Hs & Hv); [done| |done|rewrite Hs]; [by destruct checkpoint|].
  destruct (evaluate_evaluates s) as (e & He & _); [apply accepted_ok; by do 8 eexists|].
  rewrite He. eexists. split; [reflexivity|]. done.
Qed.

(** C19: Consistent records always have a workflow.  Whenever the stored Task, Change Unit and
    checkpoint agree, the authority graph speaks of that checkpoint, and the assessment
    can be read, the projection of the Task is returned, at the asked state version. *)
Theorem consistent_records_projected (store : S) (project_id : ProjectId) (version : N)
    (task : TaskRow) (change_unit : option ChangeUnitRecord)
    (checkpoint : option ShapingCheckpointRecord) (now : UtcTimestamp)
    (graph : CurrentShapingAuthorityGraph) (authority : TaskWideShapingAuthority) :
  task_records_agree project_id task change_unit checkpoint →
  wr_authority_graph store (tk_task_id (tr_task task)) now = Ok graph →
  graph_of_checkpoint graph checkpoint →
  task_wide_shaping_authority store project_id version task change_unit checkpoint now
  = Ok authority →
  ∃ projection, workflow_projection project_id version task change_unit checkpoint authority
                = Ok projection
    ∧ wp_expected_state_version projection = version.
Proof. apply records_projected. Qed.
End sound.

(** ** Witnesses *)

#[local] Existing Instance decimal_chrono.

(** A pending technical decision, by request id. *)
Definition asked_record (id : string) : StoredUserActionRecordSet :=
  let row := request_row "p" (sample_request_insert id "k1") in
  {| set_request :=
       {| ur_project_id := "p"; ur_user_action_request_id := id; ur_task_id := "t1";
          ur_change_unit_id := None; ur_action_kind := TechnicalDecision;
          ur_request := ur_request row; ur_basis := sample_choice_basis;
          ur_basis_status := BasisCurrent; ur_required_for := [ForAdvanceTask];
          ur_requested_by_actor_source := LocalUser;
          ur_source_method := MRecordShapingCheckpoint; ur_source_idempotency_key := "k1";
          ur_requested_at := 100%Z; ur_expires_at := Some 500%Z;
          ur_metadata := MetaShaping MRecordShapingCheckpoint "cp1" "gap1" None |};
     set_resolution := None; set_status := UAPending |}.

Definition sample_graph : CurrentShapingAuthorityGraph :=
  {| ag_task_id := "t1"; ag_current_checkpoint := Some sample_checkpoint;
     ag_current_gap_decisions :=
       [{| gd_checkpoint_id := "cp1"; gd_gap := sample_gap; gd_user_action := asked_record "req1" |}];
     ag_current_applications := []; ag_stale_recovery_obligations := [];
     ag_current_resolution_ids := [] |}.

#[local] Instance sample_workflow_reader : WorkflowReader UserActionTable := {
  wr_user_actions table := table;
  wr_state_version _ := Ok 4%N;
  wr_authority_graph _ _ _ := Ok sample_graph;
  wr_task_record _ _ := Ok (Some (sample_row Work ShapingPhase));
  wr_current_change_unit _ _ := Ok (Some sample_unit);
  wr_current_checkpoint _ _ := Ok (Some sample_checkpoint);
}.

Definition sample_assessment : TaskWideShapingAuthority :=
  unwrap (task_wide_shaping_authority sample_answered "p" 4 (sample_row Work ShapingPhase)
            (Some sample_unit) (Some sample_checkpoint) 210) eq_refl.

Lemma consistent_records_projected_witness :
  task_records_agree "p" (sample_row Work ShapingPhase) (Some sample_unit) (Some sample_checkpoint)
  ∧ ∃ projection, workflow_projection "p" 4 (sample_row Work ShapingPhase) (Some sample_unit)
                    (Some sample_checkpoint) sample_assessment = Ok projection.
Proof.
  assert (task_records_agree "p" (sample_row Work ShapingPhase) (Some sample_unit)
            (Some sample_checkpoint)) as Hag by (constructor; vm_compute; reflexivity).
  split; [exact Hag|].
  destruct (consistent_records_projected sample_answered "p" 4 (sample_row Work ShapingPhase)
    (Some sample_unit) (Some sample_checkpoint) 210 sample_graph sample_assessment)
    as (projection & Hp & _); [exact Hag|reflexivity| | |by exists projection].
  - constructor.
    + intros decision Hd. apply list_elem_of_singleton in Hd as ->. vm_compute. reflexivity.
    + intros authority Ha. by apply elem_of_nil in Ha.
  - unfold sample_assessment. apply unwrap_Ok.
Defined.
