(* ===== verification/Continuity.v ===== *)
(** * Continuity: the records a Task leaves for later Tasks

    Models [plan_project_continuity_record] of [crates/volicord-core/src/continuity/mod.rs]
    with the identity allocation of [crates/volicord-core/src/identity.rs], and the
    insertion of [crates/volicord-store/src/core_pipeline/continuity.rs] into the table
    [project_continuity_records] with its SQL checks and foreign keys.  The generator of
    durable identifiers is a parameter: its result at the n-th call. *)

From Stdlib Require Import Ascii.
From S2P Require Import Prelude Text Values Canonical Schema UserAction Clock TicketStore UserActionShape.
From S2P Require Import UserActionStore Artifact UserActionService Evidence Admission TaskRecords TaskStore TaskStoreSound.

(** ** Data *)

Inductive ProjectContinuityStatus := ContinuityActive | ContinuitySuperseded | ContinuityClosed.

Record ProjectContinuityDraft := {
  cd_kind : ProjectContinuityKind;
  cd_title : string;
  cd_summary : string;
  cd_rationale : option string;
  cd_applies_to_paths : list string;
  cd_applies_to_refs : list StateRecordRef;
  cd_source_refs : list StateRecordRef;
  cd_artifact_refs : list ArtifactRef;
  cd_supersedes_refs : list StateRecordRef;
  cd_review_triggers : list string;
  cd_metadata : PersistedProjectContinuityMetadata;
}.

Record ProjectContinuityRecordInsert := {
  pci_continuity_record_id : string;
  pci_source_task_id : string;
  pci_source_change_unit_id : option string;
  pci_kind : ProjectContinuityKind;
  pci_title : string;
  pci_summary : string;
  pci_rationale : option string;
  pci_applies_to_paths : list string;
  pci_applies_to_refs : list StateRecordRef;
  pci_source_refs : list StateRecordRef;
  pci_artifact_refs : list ArtifactRef;
  pci_status : ProjectContinuityStatus;
  pci_supersedes_refs : list StateRecordRef;
  pci_review_triggers : list string;
  pci_created_at : UtcTimestamp;
  pci_updated_at : UtcTimestamp;
  pci_metadata : PersistedProjectContinuityMetadata;
}.

(** A row of [project_continuity_records]: the project and the inserted columns. *)
Record ProjectContinuityRecordRecord := {
  pcr_project_id : string;
  pcr_columns : ProjectContinuityRecordInsert;
}.

Abbreviation ContinuityTable := (gmap string ProjectContinuityRecordRecord).

Record ProjectContinuitySummary := {
  pcy_continuity_record_ref : StateRecordRef;
  pcy_kind : ProjectContinuityKind;
  pcy_status : ProjectContinuityStatus;
  pcy_title : string;
  pcy_summary : string;
  pcy_source_task_ref : StateRecordRef;
  pcy_source_change_unit_ref : option StateRecordRef;
  pcy_review_triggers : list string;
}.

Record PlannedProjectContinuityRecord := {
  ppc_record_ref : StateRecordRef;
  ppc_summary : ProjectContinuitySummary;
  ppc_mutation : ProjectContinuityRecordInsert;
}.

(** ** Identity *)

Definition DURABLE_ID_RETRY_LIMIT : nat := 8.

(** The generator: its outcome at each call. *)
Definition DurableIdGenerator : Type := nat → result string string.

Section allocation.
Context (generate : DurableIdGenerator).

(** [allocate_durable_id] from the [call]-th call on; the identity and the next call. *)
Fixpoint allocate_attempts (kind : string) (exists_ : string → result bool CorePipelineError)
    (attempts call : nat) : result (string * nat) CorePipelineError :=
  match attempts with
  | 0 => Err (CoreGeneratedIdCollision kind DURABLE_ID_RETRY_LIMIT)
  | S attempts =>
      let? candidate := map_err CoreDurableId (generate call) in
      let? found := exists_ candidate in
      if negb found then Ok (candidate, S call)
      else allocate_attempts kind exists_ attempts (S call)
  end.

Definition allocate_durable_id (kind : string) (exists_ : string → result bool CorePipelineError)
    (call : nat) : result (string * nat) CorePipelineError :=
  allocate_attempts kind exists_ DURABLE_ID_RETRY_LIMIT call.

(** [allocate_project_continuity_record_id]; [record_exists] is the read of the store. *)
Definition allocate_project_continuity_record_id (record_exists : string → result bool StoreError)
    (call : nat) : result (string * nat) CorePipelineError :=
  allocate_durable_id "project_continuity_record"
    (λ candidate, map_err CoreStore (record_exists candidate)) call.

(** ** Planning one record *)

Record ProjectContinuityPlanContext := {
  pcx_record_exists : string → result bool StoreError;
  pcx_project_id : ProjectId;
  pcx_source_task_id : TaskId;
  pcx_source_change_unit_id : option ChangeUnitId;
  pcx_planned_state_version : N;
  pcx_now : UtcTimestamp;
}.

(** [unique_state_refs] keeps the first reference of each identity. *)
Definition unique_state_refs (values : list StateRecordRef) : list StateRecordRef :=
  unique_by state_record_ref_identity_key [] values.

Definition continuity_insert (context : ProjectContinuityPlanContext) (draft : ProjectContinuityDraft)
    (id : string) : ProjectContinuityRecordInsert :=
  {| pci_continuity_record_id := id; pci_source_task_id := pcx_source_task_id context;
     pci_source_change_unit_id := pcx_source_change_unit_id context;
     pci_kind := cd_kind draft; pci_title := cd_title draft; pci_summary := cd_summary draft;
     pci_rationale := cd_rationale draft;
     pci_applies_to_paths := bts_of_list (cd_applies_to_paths draft);
     pci_applies_to_refs := unique_state_refs (cd_applies_to_refs draft);
     pci_source_refs := unique_state_refs (cd_source_refs draft);
     pci_artifact_refs := unique_artifact_refs (cd_artifact_refs draft);
     pci_status := ContinuityActive;
     pci_supersedes_refs := unique_state_refs (cd_supersedes_refs draft);
     pci_review_triggers := bts_of_list (cd_review_triggers draft);
     pci_created_at := pcx_now context; pci_updated_at := pcx_now context;
     pci_metadata := cd_metadata draft |}.

Definition plan_project_continuity_record (context : ProjectContinuityPlanContext)
    (draft : ProjectContinuityDraft) (call : nat)
    : result (PlannedProjectContinuityRecord * nat) CorePipelineError :=
  let? '(id, call) := allocate_project_continuity_record_id (pcx_record_exists context) call in
  let reference kind record_id :=
    state_ref kind record_id (pcx_project_id context) (Some (pcx_source_task_id context))
      (Some (pcx_planned_state_version context)) in
  let record_ref := reference KProjectContinuityRecord id in
  Ok ({| ppc_record_ref := record_ref;
         ppc_summary :=
           {| pcy_continuity_record_ref := record_ref; pcy_kind := cd_kind draft;
              pcy_status := ContinuityActive; pcy_title := cd_title draft;
              pcy_summary := cd_summary draft;
              pcy_source_task_ref := reference KTask (pcx_source_task_id context);
              pcy_source_change_unit_ref :=
                reference KChangeUnit <$> pcx_source_change_unit_id context;
              pcy_review_triggers := bts_of_list (cd_review_triggers draft) |};
         ppc_mutation := continuity_insert context draft id |}, call).

(** The loop of a planner over its drafts. *)
Fixpoint plan_continuity_records (context : ProjectContinuityPlanContext)
    (drafts : list ProjectContinuityDraft) (call : nat)
    : result (list PlannedProjectContinuityRecord) CorePipelineError :=
  match drafts with
  | [] => Ok []
  | draft :: rest =>
      let? '(record, call) := plan_project_continuity_record context draft call in
      let? records := plan_continuity_records context rest call in
      Ok (record :: records)
  end.
End allocation.

(** ** The store *)

Section store.
Context `{HC : Chrono}.

(** [insert_project_continuity_record]: the validations, then the SQL checks, the primary
    key and the foreign keys to the Task and to a Change Unit of that Task. *)
Definition insert_project_continuity_record (s : TaskTables) (table : ContinuityTable)
    (input : ProjectContinuityRecordInsert) : result ContinuityTable StoreError :=
  let? _ := validate_identifier "continuity_record_id" (pci_continuity_record_id input) in
  let? _ := validate_identifier "source_task_id" (pci_source_task_id input) in
  let? _ := match pci_source_change_unit_id input with
            | Some id => validate_identifier "source_change_unit_id" id
            | None => Ok tt
            end in
  let? _ := validate_identifier "project_continuity_records.title" (pci_title input) in
  let? _ := validate_identifier "project_continuity_records.summary" (pci_summary input) in
  let? _ := match pci_rationale input with
            | Some rationale => validate_identifier "project_continuity_records.rationale" rationale
            | None => Ok tt
            end in
  let? _ := validate_timestamp "project_continuity_records.created_at" (pci_created_at input) in
  let? _ := validate_timestamp "project_continuity_records.updated_at" (pci_updated_at input) in
  let? _ := ensure (negb (sql_has_text (pci_title input)))
              (ConstraintViolation "project_continuity_records.title") in
  let? _ := ensure (negb (sql_has_text (pci_summary input)))
              (ConstraintViolation "project_continuity_records.summary") in
  let? _ := ensure (is_some_and (pci_rationale input) (λ text, negb (sql_has_text text)))
              (ConstraintViolation "project_continuity_records.rationale") in
  let? _ := ensure (is_some (table !! pci_continuity_record_id input))
              (ConstraintViolation "project_continuity_records.continuity_record_id") in
  let? _ := ensure (is_none (pt_tasks s !! pci_source_task_id input))
              (ConstraintViolation "project_continuity_records.source_task_id") in
  let? _ := ensure (is_some_and (pci_source_change_unit_id input) (λ id,
                      negb (is_some_and (pt_change_units s !! id) (λ unit,
                        cu_task_id (cur_unit unit) =? pci_source_task_id input))))
              (ConstraintViolation "project_continuity_records.source_change_unit_id") in
  Ok (<[pci_continuity_record_id input :=
          {| pcr_project_id := pt_project_id s; pcr_columns := input |}]> table).

(** ** Lemmas *)

(** What the store accepts of an insertion with fresh identity. *)
Record continuity_insertable (s : TaskTables) (input : ProjectContinuityRecordInsert) : Prop := {
  ci_id : trim (pci_continuity_record_id input) ≠ EmptyString;
  ci_task_id : trim (pci_source_task_id input) ≠ EmptyString;
  ci_task : is_Some (pt_tasks s !! pci_source_task_id input);
  ci_change_unit : ∀ id, pci_source_change_unit_id input = Some id → trim id ≠ EmptyString
    ∧ ∃ unit, pt_change_units s !! id = Some unit
        ∧ cu_task_id (cur_unit unit) = pci_source_task_id input;
  ci_title : text_ok (pci_title input) = true;
  ci_summary : text_ok (pci_summary input) = true;
  ci_rationale : ∀ text, pci_rationale input = Some text → text_ok text = true;
  ci_created : representable (pci_created_at input) = true;
  ci_updated : representable (pci_updated_at input) = true;
}.

Lemma text_ok_parts text :
  text_ok text = true → trim text ≠ EmptyString ∧ sql_has_text text = true.
Proof. unfold text_ok. rewrite andb_true_iff, negb_true_iff, str_nonempty. done. Qed.

(** A text that begins with a letter is not blank. *)
Lemma trim_start_rev_letter t c :
  is_ascii_alphabetic c = true →
  trim_start_rev (String.append t (String c EmptyString)) ≠ EmptyString.
Proof.
  intros Hc. assert (ws1 c = false ∧ (∀ a, ws2 c a = false) ∧ (∀ a b, ws3 c a b = false))
    as (H1 & H2 & H3).
  { revert c Hc. intros [[] [] [] [] [] [] [] []] Hc; vm_compute in Hc; try done; by split_and!. }
  induction t as [t IH] using string_strong_ind.
  destruct t as [|a [|b [|d t]]]; cbn.
  - by rewrite H1.
  - rewrite H2. destruct (ws1 a); [apply (IH EmptyString); cbn; lia|done].
  - rewrite H3. destruct (ws1 a); [apply (IH (String b EmptyString)); cbn; lia|].
    destruct (ws2 b a); [apply (IH EmptyString); cbn; lia|done].
  - destruct (ws1 a); [apply (IH (String b (String d t))); cbn; lia|].
    destruct (ws2 b a); [apply (IH (String d t)); cbn; lia|].
    destruct (ws3 d b a); [apply (IH t); cbn; lia|done].
Qed.

Lemma letter_text_ok c rest : is_ascii_alphabetic c = true → text_ok (String c rest) = true.
Proof.
  intros Hc. unfold text_ok. rewrite andb_true_iff, negb_true_iff, str_nonempty. split.
  - unfold trim. rewrite trim_start_no_lead.
    + unfold trim_end. rewrite str_rev_cons. intros He%(f_equal str_rev).
      rewrite str_rev_involutive in He. by apply trim_start_rev_letter in He.
    + revert Hc. destruct rest as [|a [|b rest]]; cbn;
        revert c; intros [[] [] [] [] [] [] [] []] Hc; vm_compute in Hc; done.
  - revert Hc. revert c. intros [[] [] [] [] [] [] [] []] Hc; vm_compute in Hc; done.
Qed.

Lemma continuity_inserted s table input :
  continuity_insertable s input → table !! pci_continuity_record_id input = None →
  insert_project_continuity_record s table input =
    Ok (<[pci_continuity_record_id input :=
            {| pcr_project_id := pt_project_id s; pcr_columns := input |}]> table).
Proof.
  intros [Hid Htid [row Hrow] Hcu [Ht1 Ht2]%text_ok_parts [Hs1 Hs2]%text_ok_parts Hra Hc Hup] Hfresh.
  unfold insert_project_continuity_record, validate_timestamp.
  rewrite !(proj2 (validate_identifier_Ok _ _)) by done. cbn.
  rewrite Hc, Hup, Ht2, Hs2, Hfresh, Hrow. cbn.
  assert (match pci_source_change_unit_id input with
          | Some id => validate_identifier "source_change_unit_id" id
          | None => Ok tt
          end = Ok tt) as ->.
  { destruct (pci_source_change_unit_id input) as [id|]; [|done].
    destruct (Hcu _ eq_refl). by apply validate_identifier_Ok. }
  destruct (pci_rationale input) as [text|]; cbn.
  - destruct (text_ok_parts _ (Hra _ eq_refl)) as [Hr1 Hr2].
    rewrite (proj2 (validate_identifier_Ok _ _)) by done. cbn. rewrite Hr2. cbn.
    destruct (pci_source_change_unit_id input) as [id|]; [|done]. cbn.
    destruct (Hcu _ eq_refl) as (_ & unit & Hu1 & Hu2). rewrite Hu1. cbn. by rewrite Hu2, eqb_refl.
  - destruct (pci_source_change_unit_id input) as [id|]; [|done]. cbn.
    destruct (Hcu _ eq_refl) as (_ & unit & Hu1 & Hu2). rewrite Hu1. cbn. by rewrite Hu2, eqb_refl.
Qed.
End store.

(** A generator whose calls give distinct identities that [table] does not use. *)
Record fresh_identities (generate : DurableIdGenerator) (table : ContinuityTable) : Prop := {
  fi_fresh : ∀ call, ∃ id, generate call = Ok id ∧ trim id ≠ EmptyString ∧ table !! id = None;
  fi_distinct : ∀ call call' id, generate call = Ok id → generate call' = Ok id → call = call';
}.

Lemma planned_continuity generate table context drafts call :
  fresh_identities generate table →
  (∀ id, pcx_record_exists context id = Ok (is_some (table !! id))) →
  ∃ ids, generate <$> seq call (length drafts) = Ok <$> ids
    ∧ length ids = length drafts
    ∧ ∃ records, plan_continuity_records generate context drafts call = Ok records
    ∧ ppc_mutation <$> records = zip_with (continuity_insert context) drafts ids.
Proof.
  intros Hgen Hread. revert call. induction drafts as [|draft drafts IH]; intros call; cbn.
  { exists []. split_and!; [done..|]. by exists []. }
  destruct (fi_fresh _ _ Hgen call) as (id & Hid & Htrim & Hfresh).
  destruct (IH (S call)) as (ids & Hids & Hlen & records & Hrec & Hmut).
  exists (id :: ids). cbn. rewrite Hid. split_and!; [by rewrite Hids|by rewrite Hlen|].
  unfold plan_project_continuity_record, allocate_project_continuity_record_id, allocate_durable_id.
  cbn. rewrite Hid. cbn. rewrite Hread, Hfresh. cbn. rewrite Hrec. cbn.
  eexists. split; [reflexivity|]. cbn. by rewrite Hmut.
Qed.
