(* ===== verification/CloseTask.v ===== *)
(** * CloseTask: the close methods from their request to the storage mutations

    Models [crates/volicord-core/src/methods/close_task.rs]: the normalization of the two
    close requests, the plan of the terminal mutations from a close-readiness assessment,
    the response projected from it with every read that can fail
    ([project_close_task_response], with [state_summary] of [state_summary.rs] and
    [load_current_write_ticket_summary] of [write_ticket/service.rs]), the known limits a
    completion records for later Tasks, and the method [close_task] that joins them.  The
    storage mutations are applied, in the order of the plan, to the Task tables
    ([TaskStore]), the Write Ticket table ([TicketStore]) and the continuity records
    ([Continuity]).  Display texts (summary cards, guarantee texts, evidence display) are
    left out of the response. *)

From S2P Require Import Prelude Text Values Canonical Schema UserAction Clock TicketStore Ticket Commit.
From S2P Require Import UserActionShape UserActionStore Artifact UserActionService Workflow Planning.
From S2P Require Import Evidence Capture Admission EvidenceFacts ClosePolicy WorkflowAction TaskRecords.
From S2P Require Import TaskStore CloseReadiness ShapingStore WorkflowMachine WorkflowAuthority.
From S2P Require Import Continuity.

(** ** Requests *)

(** The columns of [ToolEnvelope] the close methods read. *)
Record CloseEnvelope := {
  cen_project_id : ProjectId;
  cen_task_id : option TaskId;
  cen_dry_run : bool;
}.

Record CheckCloseRequest := { chk_envelope : CloseEnvelope; chk_task_id : TaskId }.

Record CloseTaskRequest := {
  ctr_envelope : CloseEnvelope;
  ctr_task_id : TaskId;
  ctr_intent : CloseMutationIntent;
  ctr_close_reason : option CloseReason;
  ctr_superseding_task_id : option TaskId;
  ctr_user_note : option string;
}.

Inductive CloseTaskRawRequest :=
| RawCheck (request : CheckCloseRequest)
| RawMutating (request : CloseTaskRequest).

Record CloseTaskPlanRequest := {
  cpr_envelope : CloseEnvelope;
  cpr_task_id : TaskId;
  cpr_intent : CloseIntent;
  cpr_close_reason : option CloseReason;
  cpr_superseding_task_id : option TaskId;
  cpr_user_note : option string;
}.

(** The field and message of a rejected request. *)
Definition Rejection : Type := string * string.

Definition close_intent_of (intent : CloseMutationIntent) : CloseIntent :=
  match intent with
  | MutComplete => IntentComplete
  | MutCancel => IntentCancel
  | MutSupersede => IntentSupersede
  end.

Definition plan_request_of_check (request : CheckCloseRequest) : CloseTaskPlanRequest :=
  {| cpr_envelope := {| cen_project_id := cen_project_id (chk_envelope request);
                        cen_task_id := Some (chk_task_id request);
                        cen_dry_run := cen_dry_run (chk_envelope request) |};
     cpr_task_id := chk_task_id request; cpr_intent := IntentCheck; cpr_close_reason := None;
     cpr_superseding_task_id := None; cpr_user_note := None |}.

Definition plan_request_of_close (request : CloseTaskRequest) : CloseTaskPlanRequest :=
  {| cpr_envelope := ctr_envelope request; cpr_task_id := ctr_task_id request;
     cpr_intent := close_intent_of (ctr_intent request);
     cpr_close_reason := ctr_close_reason request;
     cpr_superseding_task_id := ctr_superseding_task_id request;
     cpr_user_note := ctr_user_note request |}.

Definition close_operation_category (request : CloseTaskPlanRequest) : OperationCategory :=
  match cpr_intent request with
  | IntentCheck => Read
  | IntentComplete | IntentCancel | IntentSupersede => AgentWorkflow
  end.

Definition readiness_request (request : CloseTaskPlanRequest) : CloseReadinessRequest :=
  if cpr_intent request =? IntentCheck
  then check_request (cen_project_id (cpr_envelope request)) (cpr_task_id request)
  else {| cq_project_id := cen_project_id (cpr_envelope request);
          cq_task_id := cpr_task_id request; cq_intent := cpr_intent request;
          cq_superseding_task_id := cpr_superseding_task_id request |}.

Definition validate_close_task_identity (envelope : CloseEnvelope) (task_id : TaskId)
    (mismatch_message missing_message : string) : option Rejection :=
  match cen_task_id envelope with
  | Some envelope_task_id =>
      if envelope_task_id =? task_id then None else Some ("task_id", mismatch_message)
  | None => Some ("envelope.task_id", missing_message)
  end.

Definition validate_close_intent_fields (request : CloseTaskPlanRequest) : option Rejection :=
  let superseding := is_some (cpr_superseding_task_id request) in
  match cpr_intent request with
  | IntentCheck =>
      if is_some (cpr_close_reason request)
      then Some ("close_reason", "volicord.check_close must not include close_reason")
      else if superseding
      then Some ("superseding_task_id", "volicord.check_close must not include superseding_task_id")
      else None
  | IntentComplete =>
      if negb (match cpr_close_reason request with
               | Some CompletedSelfChecked | Some CompletedWithRiskAccepted => true
               | _ => false
               end)
      then Some ("close_reason", "intent=complete requires a completion close_reason")
      else if superseding
      then Some ("superseding_task_id", "intent=complete must not include superseding_task_id")
      else None
  | IntentCancel =>
      if cpr_close_reason request <>? Some ReasonCancelled
      then Some ("close_reason", "intent=cancel requires close_reason=cancelled")
      else if superseding
      then Some ("superseding_task_id", "intent=cancel must not include superseding_task_id")
      else None
  | IntentSupersede =>
      if cpr_close_reason request <>? Some ReasonSuperseded
      then Some ("close_reason", "intent=supersede requires close_reason=superseded")
      else match cpr_superseding_task_id request with
           | None => Some ("superseding_task_id", "intent=supersede requires superseding_task_id")
           | Some superseding_task_id =>
               if superseding_task_id =? cpr_task_id request
               then Some ("superseding_task_id", "superseding_task_id must identify a different Task")
               else None
           end
  end.

(** [CloseTaskRawRequest::normalize]. *)
Definition normalize (raw : CloseTaskRawRequest) : result CloseTaskPlanRequest Rejection :=
  match raw with
  | RawCheck request =>
      match validate_close_task_identity (chk_envelope request) (chk_task_id request)
              "envelope.task_id must match CheckCloseRequest.task_id"
              "check_close requires envelope.task_id to identify the Task" with
      | Some rejection => Err rejection
      | None => Ok (plan_request_of_check request)
      end
  | RawMutating request =>
      match validate_close_task_identity (ctr_envelope request) (ctr_task_id request)
              "envelope.task_id must match CloseTaskRequest.task_id"
              "close_task requires envelope.task_id to identify the Task being closed" with
      | Some rejection => Err rejection
      | None =>
          let request := plan_request_of_close request in
          match validate_close_intent_fields request with
          | Some rejection => Err rejection
          | None => Ok request
          end
      end
  end.

(** The [action] of the dry-run summary. *)
Definition close_task_dry_run_action (intent : CloseIntent) : string :=
  match intent with
  | IntentCheck => "would_check"
  | IntentComplete => "would_complete"
  | IntentCancel => "would_cancel"
  | IntentSupersede => "would_supersede"
  end.

(** ** The terminal plan *)

Record CloseTerminalStorage := {
  cts_lifecycle_phase : TaskLifecyclePhase;
  cts_result : TaskResult;
  cts_event_kind : string;
}.

Definition close_terminal_storage (intent : CloseIntent) (task_mode : TaskMode)
    : CloseTerminalStorage :=
  match intent with
  | IntentComplete =>
      {| cts_lifecycle_phase := PCompleted;
         cts_result := if task_mode =? Advisor then ResultAdviceOnly else ResultCompleted;
         cts_event_kind := "task_completed" |}
  | IntentCancel =>
      {| cts_lifecycle_phase := PCancelled; cts_result := ResultCancelled;
         cts_event_kind := "task_cancelled" |}
  | IntentSupersede =>
      {| cts_lifecycle_phase := PSuperseded; cts_result := ResultSuperseded;
         cts_event_kind := "task_superseded" |}
  | IntentCheck =>
      {| cts_lifecycle_phase := PReady; cts_result := ResultNone;
         cts_event_kind := "task_close_checked" |}
  end.

(** [None] is the panic of [expect] on an absent close reason. *)
Definition terminal_close_summary (summary : PersistedCloseSummary) (request : CloseTaskPlanRequest)
    (closed_at : UtcTimestamp) : option PersistedCloseSummary :=
  (λ reason,
     {| pcs_close_reason := reason; pcs_closed_at := Some closed_at;
        pcs_intent := Some (cpr_intent request); pcs_user_note := cpr_user_note request;
        pcs_superseding_task_id := cpr_superseding_task_id request;
        pcs_required_sensitive_categories := pcs_required_sensitive_categories summary;
        pcs_sensitive_categories := pcs_sensitive_categories summary;
        pcs_baseline_stale := pcs_baseline_stale summary;
        pcs_baseline_status := pcs_baseline_status summary;
        pcs_recovery_required := pcs_recovery_required summary;
        pcs_visible_risks := pcs_visible_risks summary;
        pcs_residual_risk_visible := pcs_residual_risk_visible summary;
        pcs_residual_risks := pcs_residual_risks summary;
        pcs_residual_risk_present := pcs_residual_risk_present summary |})
  <$> cpr_close_reason request.

(** The [CoreStorageMutation]s the method emits. *)
Inductive CloseMutation :=
| XmTask (m : TaskMutation)
| XmWriteTicket (m : WriteTicketMutation)
| XmContinuity (input : ProjectContinuityRecordInsert).

Record CloseTaskPlannedMutations := {
  cpm_request : CloseTaskPlanRequest;
  cpm_context : CloseReadinessFacts;
  cpm_risk_acceptance_coverage : list RiskAcceptanceCoverage;
  cpm_blockers : list CloseReadinessBlocker;
  cpm_response_state_version : N;
  cpm_close_state : CloseState;
  cpm_evidence_gate : EvidenceGateState;
  cpm_synthetic_task : TaskRow;
  cpm_storage_mutations : list CloseMutation;
  cpm_event_kind : string;
}.

(** [plan_close_task_mutations]; [row] holds the columns of the Task of the assessment
    that close readiness does not read.  [None] is a panic. *)
Definition plan_close_task_mutations (now : UtcTimestamp) (request : CloseTaskPlanRequest)
    (row : TaskRow) (decision : CloseReadinessAssessment) : option CloseTaskPlannedMutations :=
  let context := cas_context decision in
  let task := with_task (λ _, cf_task context) row in
  let planned synthetic_task storage_mutations event_kind :=
    {| cpm_request := request; cpm_context := context;
       cpm_risk_acceptance_coverage := cas_risk_acceptance_coverage decision;
       cpm_blockers := cas_blockers decision;
       cpm_response_state_version := cas_response_state_version decision;
       cpm_close_state := cas_close_state decision;
       cpm_evidence_gate := cas_evidence_gate decision; cpm_synthetic_task := synthetic_task;
       cpm_storage_mutations := storage_mutations; cpm_event_kind := event_kind |} in
  if cas_committed_terminal decision then
    let terminal := close_terminal_storage (cpr_intent request) (tk_mode (cf_task context)) in
    close_summary ← terminal_close_summary (tr_close_summary row) request now;
    Some (planned
      (ended_task (cts_lifecycle_phase terminal) (cts_result terminal) close_summary now task)
      (option_list ((λ input, XmTask (TmUpdateControlLevel input)) <$> cas_control_update decision)
       ++ [XmWriteTicket (InvalidateActive
             {| winv_task_id := cpr_task_id request; winv_reason := ITaskClosed |});
           XmTask (TmClose
             {| tcl_task_id := cpr_task_id request;
                tcl_lifecycle_phase := cts_lifecycle_phase terminal;
                tcl_result := cts_result terminal; tcl_close_summary := close_summary;
                tcl_closed_at := now |})]
       ++ (if cpr_intent request =? IntentSupersede
           then option_list ((λ id, XmTask (TmSetActive id)) <$> cpr_superseding_task_id request)
           else []))
      (cts_event_kind terminal))
  else Some (planned task [] "").

(** ** The response *)

(** What the close methods read beside close readiness and the workflow. *)
Class CloseMethodReader `{Chrono} (S : Type) := {
  cm_close :: CloseReader S;
  cm_workflow :: WorkflowReader S;
  evidence_observation_refs_for_run :
    S → TaskId → string → N → result (list StoredRecordRef) StoreError;
  project_continuity_record_exists : S → string → result bool StoreError;
}.

Record TaskLineageSummary := {
  tls_predecessor_task_ref : StateRecordRef;
  tls_relation : TaskLineageRelation;
  tls_creation_reason : string;
  tls_carry_forward : list CarryForwardDisposition;
}.

(** The parts of [StateSummary] that are not texts passed through. *)
Record StateSummary := {
  ssm_state_version : N;
  ssm_task_ref : StateRecordRef;
  ssm_lineage : option TaskLineageSummary;
  ssm_lifecycle_phase : TaskLifecyclePhase;
  ssm_close_reason : CloseReason;
  ssm_result : TaskResult;
  ssm_closed_at : option UtcTimestamp;
  ssm_scope : StoredScope;
  ssm_acceptance_criteria : list AcceptanceCriterionView;
  ssm_workflow : WorkflowProjection;
  ssm_pending_user_action_ids : list string;
  ssm_write_ticket_summary : option WriteTicketStateSummary;
  ssm_close_state : CloseState;
  ssm_close_blockers : list CloseReadinessBlocker;
}.

Record AuthorityReceipt := {
  rcp_state_version : N;
  rcp_task_ref : StateRecordRef;
  rcp_change_unit_ref : option StateRecordRef;
  rcp_scope_revision : N;
  rcp_latest_run_ref : option StateRecordRef;
  rcp_product_file_write_observed : bool;
  rcp_evidence_gate : EvidenceGateState;
  rcp_close_state : CloseState;
  rcp_close_blockers : list CloseReadinessBlocker;
  rcp_completion_claim_allowed : bool;
  rcp_next_actor : AuthorityNextActor;
}.

Record CloseAssessmentResultFields := {
  crf_close_state : CloseState;
  crf_current_close_basis : option CurrentCloseBasis;
  crf_risk_acceptance_coverage : list RiskAcceptanceCoverage;
  crf_continuity_summary : list ProjectContinuitySummary;
  crf_state : StateSummary;
  crf_blockers : list CloseReadinessBlocker;
  crf_pending_user_action_ids : list string;
  crf_authority_receipt : AuthorityReceipt;
}.

Record CloseTaskPlan := {
  ctp_task_id : TaskId;
  ctp_change_unit_id : option ChangeUnitId;
  ctp_storage_mutations : list CloseMutation;
  ctp_event_kind : string;
  ctp_result_fields : CloseAssessmentResultFields;
  ctp_current_close_basis : option CurrentCloseBasis;
  ctp_blockers : list CloseReadinessBlocker;
}.

(** The user-action ids the pending-action blockers name. *)
Definition close_pending_user_action_ids (blockers : list CloseReadinessBlocker) : list string :=
  bts_of_list (sr_record_id <$>
    List.filter (λ r, sr_record_kind r =? KUserActionRequest)
      (concat (bl_related_refs <$>
         List.filter (λ blocker, bl_code blocker =? "pending_user_action") blockers))).

(** The loop that hides the pending requests from the agent. *)
Definition agent_safe_blocker (blocker : CloseReadinessBlocker) : CloseReadinessBlocker :=
  let retained := List.filter (λ r, sr_record_kind r <>? KUserActionRequest) in
  if bl_code blocker <>? "pending_user_action" then blocker
  else {| bl_category := bl_category blocker; bl_code := bl_code blocker;
          bl_message := bl_message blocker;
          bl_related_refs := retained (bl_related_refs blocker);
          bl_next_actions := (λ action,
            {| na_action_kind := na_action_kind action; na_owner_method := na_owner_method action;
               na_allowed_operation_categories := na_allowed_operation_categories action;
               na_label := na_label action; na_blocking_question := None;
               na_expected_state_version := na_expected_state_version action;
               na_required_refs := retained (na_required_refs action) |})
            <$> bl_next_actions blocker |}.

(** The lineage of a Task, whose three columns are set together. *)
Definition task_lineage (project_id : ProjectId) (state_version : N) (task : TaskRow)
    : result (option TaskLineageSummary) CorePipelineError :=
  match tr_predecessor_task_id task, tr_lineage_relation task, tr_lineage_reason task with
  | Some predecessor_task_id, Some relation, Some creation_reason =>
      Ok (Some {| tls_predecessor_task_ref :=
                    state_ref KTask predecessor_task_id project_id (Some predecessor_task_id)
                      (Some state_version);
                  tls_relation := relation; tls_creation_reason := creation_reason;
                  tls_carry_forward := tr_carry_forward task |})
  | None, None, None => Ok None
  | _, _, _ =>
      Err (CoreInvariant "typed Store facts violate the Core `tasks.lineage` invariant")
  end.

(** [state_summary]. *)
Definition state_summary (project_id : ProjectId) (state_version : N) (task : TaskRow)
    (current_change_unit : option ChangeUnitRecord)
    (shaping_checkpoint : option ShapingCheckpointRecord) (authority : TaskWideShapingAuthority)
    (acceptance_criteria : list AcceptanceCriterionView)
    (pending_user_action_refs : list StateRecordRef)
    (write_ticket_summary : option WriteTicketStateSummary) (close_state : CloseState)
    (close_blockers : list CloseReadinessBlocker) : result StateSummary CorePipelineError :=
  let task_id := tk_task_id (tr_task task) in
  let? lineage := task_lineage project_id state_version task in
  let? workflow := workflow_projection project_id state_version task current_change_unit
                     shaping_checkpoint authority in
  let phase := tk_lifecycle_phase (tr_task task) in
  Ok {| ssm_state_version := state_version;
        ssm_task_ref := state_ref KTask task_id project_id (Some task_id) (Some state_version);
        ssm_lineage := lineage;
        ssm_lifecycle_phase :=
          if (phase =? PWaitingUser) && (wp_kind workflow =? SkDecisionRecoveryRequired)
          then PReady else phase;
        ssm_close_reason := pcs_close_reason (tr_close_summary task);
        ssm_result := default ResultNone (tr_result task);
        ssm_closed_at := tr_closed_at task;
        ssm_scope := scope_from_task (tr_task task);
        ssm_acceptance_criteria := acceptance_criteria;
        ssm_workflow := workflow;
        ssm_pending_user_action_ids := sr_record_id <$> pending_user_action_refs;
        ssm_write_ticket_summary := write_ticket_summary;
        ssm_close_state := close_state;
        ssm_close_blockers := close_blockers |}.

Section response.
Context `{HC : Chrono} `{HZ : CanonicalSize} `{HD : CaptureDigest}.
Context {S : Type} `{HM : !CloseMethodReader S}.

(** [load_write_ticket_evidence_facts]. *)
Definition load_write_ticket_evidence_facts (store : S) (task_id : TaskId)
    (consumed_by_run_id : option RunId) (state_version : N)
    : result (list StateRecordRef) CorePipelineError :=
  match consumed_by_run_id with
  | None => Ok []
  | Some run_id =>
      let? refs := map_err CoreStore
        (evidence_observation_refs_for_run store task_id run_id state_version) in
      Ok (state_ref_from_stored <$> refs)
  end.

(** [load_current_write_ticket_summary]. *)
Definition load_current_write_ticket_summary (store : S) (task_id : TaskId) (state_version : N)
    (observed_at : UtcTimestamp) : result (option WriteTicketStateSummary) CorePipelineError :=
  let? evaluated := load_evaluated_stored_write_tickets store task_id observed_at in
  match select_stored_write_ticket evaluated with
  | None => Ok None
  | Some selected =>
      let? observation_refs := load_write_ticket_evidence_facts store
        (vb_task_id (sf_validity_basis (eval_semantic_facts selected)))
        (eval_consumed_by_run_id selected) state_version in
      Ok (Some (project_stored_write_ticket_summary selected state_version observation_refs))
  end.

(** [project_close_task_response]: the reads of the response, in their order, then the
    projection. *)
Definition project_close_task_response (store : S) (now : UtcTimestamp)
    (planned : CloseTaskPlannedMutations) : result CloseTaskPlan CorePipelineError :=
  let request := cpm_request planned in
  let context := cpm_context planned in
  let task_id := cpr_task_id request in
  let project_id := cen_project_id (cpr_envelope request) in
  let version := cpm_response_state_version planned in
  let task := cpm_synthetic_task planned in
  let? acceptance_criteria := map_err CoreStore (active_acceptance_criteria store task_id) in
  let pending_ids := close_pending_user_action_ids (cpm_blockers planned) in
  let blockers := agent_safe_blocker <$> cpm_blockers planned in
  let? _ := map_err CoreStore (project_workflow_policy store) in
  let? checkpoint := map_err CoreStore (wr_current_checkpoint store task_id) in
  let? authority := task_wide_shaping_authority store project_id version task
                      (cf_current_change_unit context) checkpoint now in
  let? write_ticket_summary := load_current_write_ticket_summary store task_id version now in
  let? state := state_summary project_id version task (cf_current_change_unit context) checkpoint
                  authority acceptance_criteria (cf_pending_user_action_refs context)
                  write_ticket_summary (cpm_close_state planned) blockers in
  let reference kind id := state_ref kind id project_id (Some task_id) (Some version) in
  let? runs := map_err CoreStore (run_observed_changes_for_task store task_id) in
  let latest_run := List.find (λ record, rox_status record =? RunRecorded) runs in
  let basis := cf_current_close_basis context in
  let receipt :=
    {| rcp_state_version := version; rcp_task_ref := reference KTask task_id;
       rcp_change_unit_ref :=
         (λ u, reference KChangeUnit (cu_change_unit_id u)) <$> cf_current_change_unit context;
       rcp_scope_revision := tk_scope_revision (tr_task task);
       rcp_latest_run_ref := (λ run, reference KRun (rox_run_id run)) <$> latest_run;
       rcp_product_file_write_observed :=
         is_some_and latest_run (λ run, oc_product_file_write_observed (rox_observed_changes run));
       rcp_evidence_gate := cpm_evidence_gate planned;
       rcp_close_state := cpm_close_state planned; rcp_close_blockers := blockers;
       rcp_completion_claim_allowed :=
         is_some basis && list_is_empty blockers
         && contains (cpm_close_state planned) [StateReady; StateClosed];
       rcp_next_actor := wp_next_actor (ssm_workflow state) |} in
  Ok {| ctp_task_id := task_id;
        ctp_change_unit_id := cu_change_unit_id <$> cf_current_change_unit context;
        ctp_storage_mutations := cpm_storage_mutations planned;
        ctp_event_kind := cpm_event_kind planned;
        ctp_result_fields :=
          {| crf_close_state := cpm_close_state planned; crf_current_close_basis := basis;
             crf_risk_acceptance_coverage := cpm_risk_acceptance_coverage planned;
             crf_continuity_summary := []; crf_state := state; crf_blockers := blockers;
             crf_pending_user_action_ids :=
               sr_record_id <$> List.filter (λ r, contains (sr_record_id r) pending_ids)
                                  (cf_pending_user_action_refs context);
             crf_authority_receipt := receipt |};
        ctp_current_close_basis := basis; ctp_blockers := blockers |}.

Inductive PlanCloseError :=
| PlanReadiness (error : CloseReadinessError)
| PlanCore (error : CorePipelineError)
| PlanPanicked.

(** [plan_close_task]: the assessment, the mutations it justifies and the response. *)
Definition plan_close_task (store : S) (project_state : ProjectStateHeader)
    (request : CloseTaskPlanRequest) (row : TaskRow) (now : UtcTimestamp)
    : result CloseTaskPlan PlanCloseError :=
  let? assessment := map_err PlanReadiness
    (assess_close_readiness store project_state (readiness_request request) now) in
  let? planned := ok_or (plan_close_task_mutations now request row assessment) PlanPanicked in
  map_err PlanCore (project_close_task_response store now planned).

(** ** The known limits of a completion *)

Definition known_limit_draft (close_basis : CurrentCloseBasis) (risk : ResidualRisk)
    : ProjectContinuityDraft :=
  {| cd_kind := CKnownLimit;
     cd_title := "Known limit: " +:+ trim (risk_summary risk);
     cd_summary := risk_summary risk;
     cd_rationale := Some (cb_result_summary close_basis +:+ " Consequence: "
                           +:+ risk_consequence risk);
     cd_applies_to_paths := [];
     cd_applies_to_refs := cb_result_refs close_basis ++ risk_source_refs risk;
     cd_source_refs := option_list (cb_source_run_ref close_basis)
                       ++ option_list (cb_shaping_checkpoint_ref close_basis)
                       ++ risk_source_refs risk;
     cd_artifact_refs := []; cd_supersedes_refs := []; cd_review_triggers := [];
     cd_metadata := CloseTaskKnownLimit (risk_id risk)
                      (cb_close_basis_revision close_basis) |}.

(** The risks a completion records: those nobody had to accept. *)
Definition known_limit_risks (request : CloseTaskPlanRequest)
    (close_basis : option CurrentCloseBasis) : list ResidualRisk :=
  match cpr_intent request, close_basis with
  | IntentComplete, Some close_basis =>
      List.filter (λ risk, negb (acceptance_required risk)) (cb_residual_risks close_basis)
  | _, _ => []
  end.

(** [plan_close_completion_continuity_records]. *)
Definition plan_close_completion_continuity_records (generate : DurableIdGenerator) (store : S)
    (request : CloseTaskPlanRequest) (close_basis : option CurrentCloseBasis)
    (planned_state_version : N) (now : UtcTimestamp)
    : result (list PlannedProjectContinuityRecord) CorePipelineError :=
  match close_basis with
  | None => Ok []
  | Some basis =>
      plan_continuity_records generate
        {| pcx_record_exists := project_continuity_record_exists store;
           pcx_project_id := cen_project_id (cpr_envelope request);
           pcx_source_task_id := cpr_task_id request;
           pcx_source_change_unit_id := Some (cb_change_unit_id basis);
           pcx_planned_state_version := planned_state_version; pcx_now := now |}
        (known_limit_draft basis <$> known_limit_risks request close_basis) 0
  end.

(** ** The method *)

(** What [close_task] does after its request was admitted. *)
Inductive CloseTaskBranch :=
| DryRunPreview (action : string)
| NoEffectResult (result_fields : CloseAssessmentResultFields)
| CommitMutations (plan : CloseTaskPlan) (continuity : list PlannedProjectContinuityRecord).

(** The mutations of a committed branch: those of the plan, then the continuity records. *)
Definition committed_mutations (plan : CloseTaskPlan)
    (continuity : list PlannedProjectContinuityRecord) : list CloseMutation :=
  ctp_storage_mutations plan ++ (XmContinuity ∘ ppc_mutation <$> continuity).

(** [CoreService::close_task] after the request was prepared. *)
Definition close_task_method (generate : DurableIdGenerator) (store : S)
    (project_state : ProjectStateHeader) (request : CloseTaskPlanRequest) (row : TaskRow)
    (now : UtcTimestamp) : result CloseTaskBranch PlanCloseError :=
  if cen_dry_run (cpr_envelope request)
  then Ok (DryRunPreview (close_task_dry_run_action (cpr_intent request)))
  else
    let? plan := plan_close_task store project_state request row now in
    if negb (list_is_empty (ctp_blockers plan)) then Ok (NoEffectResult (ctp_result_fields plan))
    else
      let? continuity := map_err PlanCore
        (plan_close_completion_continuity_records generate store request
           (ctp_current_close_basis plan) (ps_state_version project_state + 1)%N now) in
      Ok (CommitMutations plan continuity).

(** [CoreService::check_close] after the request was prepared: read only. *)
Definition check_close_method (store : S) (project_state : ProjectStateHeader)
    (request : CloseTaskPlanRequest) (row : TaskRow) (now : UtcTimestamp)
    : result CloseAssessmentResultFields PlanCloseError :=
  let? plan := plan_close_task store project_state request row now in
  Ok (ctp_result_fields plan).
End response.

(** ** Applying the plan *)

(** The tables a close transaction touches. *)
Definition CloseTables : Type := TaskTables * TicketTable * ContinuityTable.

Section apply.
Context `{HC : Chrono}.

Definition apply_close_mutation (s : CloseTables) (committed_state_version : N)
    (committed_at : UtcTimestamp) (m : CloseMutation) : result CloseTables StoreError :=
  let '(tasks, tickets, continuity) := s in
  match m with
  | XmTask m =>
      let? tasks := apply_task_mutation tasks committed_at m in Ok (tasks, tickets, continuity)
  | XmWriteTicket m =>
      let? tickets := apply_ticket_mutation tickets committed_state_version committed_at m in
      Ok (tasks, tickets, continuity)
  | XmContinuity input =>
      let? continuity := insert_project_continuity_record tasks continuity input in
      Ok (tasks, tickets, continuity)
  end.

Fixpoint apply_close_mutations (s : CloseTables) (committed_state_version : N)
    (committed_at : UtcTimestamp) (ms : list CloseMutation) : result CloseTables StoreError :=
  match ms with
  | [] => Ok s
  | m :: rest =>
      let? s := apply_close_mutation s committed_state_version committed_at m in
      apply_close_mutations s committed_state_version committed_at rest
  end.
End apply.
