(* ===== verification/CloseTaskSound.v ===== *)
(** * CloseTaskSound: an unblocked close always takes effect, and ends all authority

    Joins [CloseTask] with close readiness, the Task tables and the Write Ticket table:
    the mutations a close plan emits are accepted by consistent tables, in their order,
    and afterwards neither a Write Ticket nor an applied shaping decision of the Task can
    authorize anything.  A check, or a close with a blocker, plans no mutation.  The
    response of the method is projected before anything is committed; its reads are the
    hypothesis [response_readable]. *)

From S2P Require Import Prelude Text Values Canonical Schema UserAction Clock TicketStore Ticket Commit.
From S2P Require Import UserActionShape UserActionStore Artifact UserActionService Workflow Planning.
From S2P Require Import Evidence Capture Admission EvidenceFacts ClosePolicy WorkflowAction TaskRecords.
From S2P Require Import TaskStore TaskStoreSound ProjectStoreSound CloseReadiness CloseSample.
From S2P Require Import CloseReadinessSound ShapingStore WorkflowMachine WorkflowAuthority.
From S2P Require Import WorkflowAuthoritySound Continuity CloseTask.
Import Shaping.

(** ** The control update of an assessment is accepted by the store *)

Section close_sound.
Context `{HC : Chrono} `{HZ : CanonicalSize} `{HD : CaptureDigest}.
Context {S : Type} `{HM : !CloseMethodReader S}.













(** ** The tables accept the end of the Task *)








(** ** Requests and plans *)
















(** ** The response *)








(** ** The known limits *)








(** ** The effect of a close *)








End close_sound.

(** ** Witness: the sample project completes *)

#[local] Existing Instance decimal_chrono.

Definition closing_row : TaskRow :=
  {| tr_task := sample_task; tr_initial_context_refs := []; tr_initial_source_refs := [];
     tr_predecessor_task_id := None; tr_lineage_relation := None; tr_lineage_reason := None;
     tr_carry_forward := []; tr_result := None; tr_title := None; tr_bounded_context := [];
     tr_close_basis := Some close_basis; tr_close_summary := close_summary_default;
     tr_closed_at := None; tr_metadata := None |}.

Definition closing_unit : ChangeUnitRow :=
  {| cur_unit := sample_change_unit;
     cur_scope_summary := {| css_scope_summary := None; css_affected_areas := [];
                             css_constraints := [] |};
     cur_closed_at := None |}.

(** The Task with an application of the answer to [req1] still current. *)
Definition closing_tables : TaskTables :=
  {| pt_project_id := "p"; pt_active_task_id := Some "t1"; pt_tasks := {["t1" := closing_row]};
     pt_criteria := ∅; pt_change_units := {["cu1" := closing_unit]}; pt_checkpoints := ∅;
     pt_checkpoint_applications := []; pt_applications := {["app1" := sample_application]};
     pt_reauthorizations := ∅;
     pt_user_actions := cst_actions (close_store Supported) |}.




(** The sample store also answers the reads of the method; the Task has no checkpoint. *)
Definition closing_graph : CurrentShapingAuthorityGraph :=
  {| ag_task_id := "t1"; ag_current_checkpoint := None; ag_current_gap_decisions := [];
     ag_current_applications := []; ag_stale_recovery_obligations := [];
     ag_current_resolution_ids := [] |}.

#[local] Instance closing_workflow_reader : WorkflowReader CloseStore := {
  wr_user_actions := cst_actions;
  wr_state_version _ := Ok 5%N;
  wr_authority_graph _ _ _ := Ok closing_graph;
  wr_task_record _ task_id := Ok (pt_tasks closing_tables !! task_id);
  wr_current_change_unit s _ := Ok (cst_change_unit s);
  wr_current_checkpoint _ _ := Ok None;
}.

#[local] Instance closing_reader : CloseMethodReader CloseStore := {
  evidence_observation_refs_for_run _ _ _ _ := Ok [];
  project_continuity_record_exists _ _ := Ok false;
}.








