(* ===== verification/AdvanceTask.v ===== *)
(** * AdvanceTask: the request that leaves shaping

    Models the planning of [crates/volicord-core/src/methods/advance_task.rs] up to the
    mutation it hands to the store: the guards of [plan_advance_task] in their order, the
    exact answers it collects for the decisions the transition applies, and the resulting
    [ShapingAdvanceApplication].  A rejection is a value: its public code, message and
    retry flag; the current workflow that [workflow_rejection_plan_error] attaches to it
    is not modelled, nor is the response that follows a successful plan.  The last section
    compares the guards with what the workflow machine offers. *)

From S2P Require Import Prelude Text Values Canonical Schema UserAction Clock TicketStore Commit.
From S2P Require Import UserActionShape UserActionStore Artifact UserActionService Evidence Capture.
From S2P Require Import Admission WorkflowAction TaskRecords ShapingStore WorkflowMachine.
From S2P Require Import UserActionStoreSound WorkflowMachineSound WorkflowAuthority WorkflowAuthoritySound CloseSample.
Import Shaping.

(** ** Requests and rejections *)

Record AdvanceTaskRequest := {
  atr_project_id : ProjectId;
  atr_task_id : TaskId;
  atr_shaping_checkpoint_id : string;
  atr_change_unit_id : ChangeUnitId;
  atr_scope_revision : N;
  atr_baseline_ref : BaselineRef;
  atr_user_action_resolution_ids : list UserActionResolutionId;
}.

(** The public codes of a refused advance. *)
Inductive AdvanceRejectionCode :=
| AdvWorkflowActionNotAllowed | AdvShapingCheckpointStale | AdvUserDecisionUnresolved
| AdvShapingCheckpointRequired | AdvChangeUnitRequired | AdvChangeUnitStale.

Inductive AdvanceError :=
| AdvNoActiveTask
| AdvRejected (code : AdvanceRejectionCode) (message : string) (retryable : bool)
| AdvCore (error : CorePipelineError).

Definition adv_store {A} (r : result A StoreError) : result A AdvanceError :=
  map_err (λ error, AdvCore (CoreStore error)) r.

(** [ShapingGapKind::decision_policy]. *)
Definition decision_policy (kind : ShapingGapKind) : option ShapingDecisionPolicy :=
  decision_policy_for_mode kind Work.

Section advance.
Context `{HC : Chrono} `{HZ : CanonicalSize} `{HD : CaptureDigest}.
Context {S : Type} `{HR : !WorkflowReader S}.

(** The gap keeps the checkpoint from being applied: an unapplied scope decision, or an open
    gap no user action can close. *)
Definition gap_blocks_advance (gap : ShapingCheckpointGapRecord) : bool :=
  is_some_and (decision_policy (sg_gap_kind gap)) (λ policy,
    (application_owner policy =? OwnUpdateScope) && (sg_status gap <>? GapApplied))
  || negb (is_user_owned (sg_gap_kind gap)) && (sg_status gap =? GapCurrent).

(** [exact_basis]. *)
Definition advance_answer_is_exact (request : AdvanceTaskRequest)
    (checkpoint : ShapingCheckpointRecord) (gap : ShapingCheckpointGapRecord)
    (policy : ShapingDecisionPolicy) (resolution_id : string)
    (record : StoredUserActionRecordSet) : bool :=
  let stored := set_request record in
  let coordinates := coordinates (ur_basis stored) in
  (set_status record =? UAResolved)
  && (ur_basis_status stored =? BasisCurrent)
  && (co_compatibility_status coordinates =? BasisCurrent)
  && (co_task_id coordinates =? atr_task_id request)
  && (co_scope_revision coordinates =? atr_scope_revision request)
  && (co_change_unit_id coordinates =? Some (atr_change_unit_id request))
  && (co_baseline_ref coordinates =? Some (atr_baseline_ref request))
  && (ur_required_for stored =? policy_required_for policy)
  && is_some_and (set_resolution record) (λ resolution,
       us_user_action_resolution_id resolution =? resolution_id)
  && match ur_metadata stored with
     | MetaShaping _ shaping_checkpoint_id shaping_gap_id _ =>
         (shaping_checkpoint_id =? sc_shaping_checkpoint_id checkpoint)
         && (shaping_gap_id =? sg_shaping_gap_id gap)
     | _ => false
     end
  && Relevance.accepted_current_user_authority (user_action_authority_from_record record)
       (user_action_kind policy).

(** One iteration of the loop over the decisions the transition applies. *)
Definition advance_gap_application (store : S) (request : AdvanceTaskRequest)
    (operation_now : UtcTimestamp) (checkpoint : ShapingCheckpointRecord)
    (gap : ShapingCheckpointGapRecord) : result ShapingGapApplication AdvanceError :=
  if sg_status gap <>? GapAccepted then
    Err (AdvRejected AdvUserDecisionUnresolved
      "every advance-owned shaping gap must be accepted and supplied exactly once" true)
  else
    let? link := ok_or (sg_user_action gap)
      (AdvCore (CoreInvariant "an advance-owned shaping gap has no UserAction link")) in
    let? resolution_id := ok_or (scu_user_action_resolution_id link)
      (AdvRejected AdvUserDecisionUnresolved
         "an advance-owned shaping gap has no exact resolution" true) in
    let? record := adv_store
      (effective_user_action_record (wr_user_actions store) (scu_user_action_request_id link)
         operation_now) in
    let? record := ok_or record (AdvCore (CoreInvariant
      "an advance-owned shaping gap references a missing UserAction request")) in
    let? policy := ok_or (decision_policy (sg_gap_kind gap))
      (AdvCore (CoreInvariant "advance application policy is missing")) in
    if negb (advance_answer_is_exact request checkpoint gap policy resolution_id record) then
      Err (AdvRejected AdvUserDecisionUnresolved
        "an advance-owned resolution does not match the exact current checkpoint basis" false)
    else
      Ok {| sga_shaping_decision_application_id :=
              shaping_decision_application_id resolution_id OwnAdvanceTask;
            sga_shaping_gap_id := sg_shaping_gap_id gap;
            sga_user_action_resolution_id := resolution_id |}.

Definition advance_owned (gap : ShapingCheckpointGapRecord) : bool :=
  is_some_and (decision_policy (sg_gap_kind gap)) (λ policy,
    application_owner policy =? OwnAdvanceTask).

(** [plan_advance_task] up to its mutation. *)
Definition plan_advance_application (store : S) (state_version : N)
    (request : AdvanceTaskRequest) (operation_now : UtcTimestamp)
    : result ShapingAdvanceApplication AdvanceError :=
  let? task := adv_store (wr_task_record store (atr_task_id request)) in
  let? task := ok_or task AdvNoActiveTask in
  let policy := tr_task task in
  if (tk_mode policy <>? Work) || (tk_work_phase policy <>? ShapingPhase) then
    Err (AdvRejected AdvWorkflowActionNotAllowed
      "advance_task is not allowed for the current Task mode and work phase" false)
  else if tk_scope_revision policy <>? atr_scope_revision request then
    Err (AdvRejected AdvShapingCheckpointStale
      "scope_revision does not match the current shaping checkpoint basis" true)
  else if shaping_baseline_ref (tk_shaping policy) <>? Some (atr_baseline_ref request) then
    Err (AdvRejected AdvShapingCheckpointStale
      "baseline_ref does not match the current shaping checkpoint basis" true)
  else
    let? current_change_unit := adv_store (wr_current_change_unit store (atr_task_id request)) in
    let? current_checkpoint := adv_store (wr_current_checkpoint store (atr_task_id request)) in
    let? task_wide_authority := map_err AdvCore
      (task_wide_shaping_authority store (atr_project_id request) state_version task
         current_change_unit current_checkpoint operation_now) in
    if blocks_advance_application task_wide_authority then
      Err (AdvRejected AdvUserDecisionUnresolved
        "task-wide UserAction authority required for advance_task is not accepted" false)
    else
      let? checkpoint := ok_or current_checkpoint
        (AdvRejected AdvShapingCheckpointRequired
           "a current shaping checkpoint is required before implementation" true) in
      if existsb (λ gap, (sg_status gap =? GapCurrent) && is_user_owned (sg_gap_kind gap))
           (sc_gaps checkpoint) then
        Err (AdvRejected AdvUserDecisionUnresolved
          "the current shaping checkpoint has an unresolved User Channel decision" true)
      else if (sc_shaping_checkpoint_id checkpoint <>? atr_shaping_checkpoint_id request)
              || (sc_readiness checkpoint <>? CheckpointReady)
              || (sc_scope_revision checkpoint <>? atr_scope_revision request)
              || (sc_baseline_ref checkpoint <>? Some (atr_baseline_ref request))
              || existsb gap_blocks_advance (sc_gaps checkpoint) then
        Err (AdvRejected AdvShapingCheckpointStale
          "shaping checkpoint is stale, structurally blocked, or has unapplied scope decisions" true)
      else
        let? change_unit := ok_or current_change_unit
          (AdvRejected AdvChangeUnitRequired
             "a current Change Unit is required before implementation" true) in
        if (cu_change_unit_id change_unit <>? atr_change_unit_id request)
           || (cu_write_basis_baseline_ref change_unit <>? Some (atr_baseline_ref request))
           || cu_recovery_required change_unit then
          Err (AdvRejected AdvChangeUnitStale
            "Change Unit is stale, baseline-incompatible, or recovery-constrained" true)
        else
          let? applications :=
            try_map (advance_gap_application store request operation_now checkpoint)
              (List.filter advance_owned (sc_gaps checkpoint)) in
          let supplied := bts_of_list (atr_user_action_resolution_ids request) in
          if (supplied <>? bts_of_list (sga_user_action_resolution_id <$> applications))
             || negb (Nat.eqb (length supplied) (length (atr_user_action_resolution_ids request)))
          then
            Err (AdvRejected AdvUserDecisionUnresolved
              "the exact current User Channel resolution set is required" true)
          else
            Ok {| saa_task_id := atr_task_id request;
                  saa_shaping_checkpoint_id := atr_shaping_checkpoint_id request;
                  saa_change_unit_id := atr_change_unit_id request;
                  saa_scope_revision := atr_scope_revision request;
                  saa_baseline_ref := atr_baseline_ref request;
                  saa_applications := applications |}.
End advance.

(** ** Offered and refused *)

(** The snapshot shows the records the method reads. *)
Record snapshot_of_store `{Chrono} `{CanonicalSize} `{CaptureDigest} {S : Type} `{!WorkflowReader S}
    (store : S) (task_id : TaskId) (s : WorkflowSnapshot) : Prop := {
  sos_task : wr_task_record store task_id = Ok (Some (ws_task s));
  sos_change_unit : wr_current_change_unit store task_id = Ok (ws_current_change_unit s);
  sos_checkpoint : wr_current_checkpoint store task_id = Ok (ws_checkpoint s);
}.

Section refused.
Context `{HC : Chrono} `{HZ : CanonicalSize} `{HD : CaptureDigest}.
Context {S : Type} `{HR : !WorkflowReader S}.

(** A plan needs a Task in work mode and a ready checkpoint. *)
Lemma planned_advance_ready (store : S) s version request now input :
  snapshot_of_store store (atr_task_id request) s →
  plan_advance_application store version request now = Ok input →
  tk_mode (tr_task (ws_task s)) = Work ∧
  ∃ checkpoint, ws_checkpoint s = Some checkpoint ∧ sc_readiness checkpoint = CheckpointReady.
Proof.
  intros [Ht Hcu Hcp]. unfold plan_advance_application, adv_store. rewrite Ht. cbn.
  destruct (_ || _) eqn:Hmode; [done|]. apply orb_false_iff in Hmode as [Hmode _].
  apply (proj1 (neqb_false _ _)) in Hmode. destruct (_ <>? _); [done|]. destruct (_ <>? _); [done|].
  rewrite Hcu, Hcp. cbn. destruct (task_wide_shaping_authority _ _ _ _ _ _ _) as [graph|]; [|done].
  cbn. destruct (blocks_advance_application _); [done|].
  destruct (ws_checkpoint s) as [checkpoint|]; [|done]. cbn. destruct (existsb _ _); [done|].
  destruct (_ || _) eqn:Hstale; [done|]. intros _. split; [done|]. exists checkpoint. split; [done|].
  rewrite !orb_false_iff in Hstale. destruct Hstale as [[[[_ Hr] _] _] _].
  by apply (proj1 (neqb_false _ _)) in Hr.
Qed.
End refused.

(** Advancing is only ever offered as the required action. *)
Lemma offered_advance_required s e :
  accepted s → evaluate s = Ok e →
  is_some (transition (we_transition_catalog e) (key VAdvanceTask)) = true →
  oc_required (outcome s) = Some (key VAdvanceTask).
Proof.
  intros Ha He Hoff. pose proof (accepted_evaluates s e Ha He) as Hev.
  apply (admitted_offered s e _ Hev) in Hoff as [Hm _]. cbn in Hm.
  apply retained_only in Hm as [Hm _]; [|unfold always_admitted; set_solver|done].
  assert (∀ k v methods r, MAdvanceTask ∈ oc_methods (agent_outcome k v methods r) →
    MAdvanceTask ∈ methods) as Hag by done.
  revert Hm. unfold outcome, checkpoint_outcome, implementation_methods.
  repeat case_match; try done; cbn; set_solver.
Qed.

(** C35: An advance the machine requires can be one its method always refuses.  Whenever the
    workflow of the stored records offers advancing the Task, it offers it as the required
    action, and no record of a checkpoint is offered beside it while an accepted decision
    waits to be applied; yet if the Task is not in work mode, or its checkpoint is not
    ready, every request to advance it is refused. *)
Theorem required_advance_refused `{HC : Chrono} `{HZ : CanonicalSize} `{HD : CaptureDigest}
    {S : Type} `{HR : !WorkflowReader S} (store : S) (s : WorkflowSnapshot)
    (e : WorkflowEvaluation) (checkpoint : ShapingCheckpointRecord) (task_id : TaskId) :
  accepted s → evaluate s = Ok e → snapshot_of_store store task_id s →
  ws_checkpoint s = Some checkpoint →
  is_some (transition (we_transition_catalog e) (key VAdvanceTask)) = true →
  (∃ t, required_transition (we_transition_catalog e) = Some t ∧ td_action_key t = key VAdvanceTask)
  ∧ (ta_accepted_unapplied (ws_shaping_authority_graph s) ≠ [] →
       admits_method (we_transition_catalog e) MRecordShapingCheckpoint = false)
  ∧ (tk_mode (tr_task (ws_task s)) ≠ Work ∨ sc_readiness checkpoint ≠ CheckpointReady →
       ∀ version request now, atr_task_id request = task_id →
         ∃ error, plan_advance_application store version request now = Err error).
Proof.
  intros Ha He Hstore Hcp Hoff. pose proof (accepted_evaluates s e Ha He) as Hev.
  pose proof (offered_advance_required s e Ha He Hoff) as Hreq. split_and!.
  - pose proof (ev_required _ _ Hev) as Ht. rewrite Hreq in Ht.
    destruct Ht as (t & ? & _ & ?). by exists t.
  - intros Hacc. apply not_true_iff_false. unfold admits_method. rewrite existsb_elem.
    intros (t & Hin & Hk). apply eqb_eq in Hk.
    assert (td_action_key t ∈ td_action_key <$> wc_transitions (we_transition_catalog e)) as Hkey.
    { by apply list_elem_of_fmap_2. }
    apply (co_keys _ _ _ _ (ev_catalog _ _ Hev)) in Hkey as [Hm _]. rewrite Hk in Hm.
    apply retained_only in Hm as [_ Hret]; [|unfold always_admitted; set_solver|done].
    rewrite Hreq in Hret. destruct Hret as [[=]|[Hzero _]]. apply Hacc.
    apply accepted_ok in Ha as Hs. specialize (Hzero eq_refl). rewrite (so_accepted _ Hs) in Hzero.
    by apply length_zero_iff_nil.
  - intros Hbad version request now <-.
    destruct (plan_advance_application store version request now) as [input|error] eqn:Hp;
      [|by exists error]. exfalso.
    destruct (planned_advance_ready store s version request now input Hstore Hp)
      as (Hmode & checkpoint' & Hcp' & Hready).
    rewrite Hcp in Hcp'. injection Hcp' as <-. by destruct Hbad.
Qed.

(** ** Witnesses *)

#[local] Existing Instance decimal_chrono.

(** The checkpoint of [sample_checkpoint] was recorded blocked by its question; the user has
    answered since, which settles the gap but leaves the readiness, as the checkpoint names
    no implementation boundary. *)
Definition answered_checkpoint : ShapingCheckpointRecord :=
  {| sc_project_id := "p"; sc_shaping_checkpoint_id := "cp1";
     sc_predecessor_shaping_checkpoint_id := None; sc_task_id := "t1"; sc_scope_revision := 1;
     sc_baseline_ref := Some "base"; sc_summary := "Plan"; sc_implementation_boundary := None;
     sc_readiness := CheckpointBlocked; sc_source_refs := []; sc_evidence_refs := [];
     sc_created_at := 5%Z; sc_superseded_at := None; sc_gaps := [sample_gap];
     sc_applications := [] |}.

Definition answered_snapshot : WorkflowSnapshot :=
  unwrap (snapshot_new "p" 4 (sample_row Work ShapingPhase) (Some sample_unit)
            (Some answered_checkpoint) (sample_authority [sample_fact AcceptedUnapplied] [])
            (Some sample_summary) [sample_ref KTask "t1"; sample_ref KChangeUnit "cu1"]) eq_refl.
Definition answered_evaluation : WorkflowEvaluation :=
  unwrap (evaluate answered_snapshot) eq_refl.

#[local] Instance answered_reader : WorkflowReader UserActionTable := {
  wr_user_actions table := table;
  wr_state_version _ := Ok 4%N;
  wr_authority_graph _ _ _ := Ok sample_graph;
  wr_task_record _ _ := Ok (Some (sample_row Work ShapingPhase));
  wr_current_change_unit _ _ := Ok (Some sample_unit);
  wr_current_checkpoint _ _ := Ok (Some answered_checkpoint);
}.

Lemma required_advance_refused_witness :
  (∃ t, required_transition (we_transition_catalog answered_evaluation) = Some t
        ∧ td_action_key t = key VAdvanceTask)
  ∧ admits_method (we_transition_catalog answered_evaluation) MRecordShapingCheckpoint = false
  ∧ ∀ version request now, atr_task_id request = "t1" →
      ∃ error, plan_advance_application sample_answered version request now = Err error.
Proof.
  destruct (required_advance_refused sample_answered answered_snapshot answered_evaluation
    answered_checkpoint "t1") as (Hreq & Hrec & Hrefused).
  - unfold accepted, answered_snapshot. do 8 eexists. apply unwrap_Ok.
  - unfold answered_evaluation. apply unwrap_Ok.
  - split; vm_compute; reflexivity.
  - vm_compute. reflexivity.
  - vm_compute. reflexivity.
  - split; [exact Hreq|]. split; [apply Hrec; vm_compute; discriminate|].
    apply Hrefused. right. discriminate.
Defined.
